(* ===== verification/_CoqProject ===== *)
-Q . S2P
Prelude.v
State.v
RtskbQueue.v
Rtskb.v
RtskbData.v
RtskbFifo.v
Rtdev.v
Eth.v
Iovec.v
StackMgr.v
Route.v
RouteHost.v
RouteOps.v
Inet.v
IpFragment.v
Socket.v
IpOutput.v
IpInput.v
Arp.v
Udp.v
UdpOps.v
UdpSend.v
UdpInput.v
UdpErrors.v
Packet.v
PacketOps.v
PacketIo.v
PacketSend.v
PacketClose.v
Icmp.v
Timerwheel.v
Tcp.v
TcpSeq.v
TcpPorts.v
TcpSend.v
TcpOut.v
TcpConn.v
TcpRcv.v
TcpFeed.v
TcpStates.v
TcpReceive.v
TcpRetransmit.v
TcpRead.v
TcpWrite.v
RtcfgFrame.v
RtcfgConn.v
RtcfgServer.v
RtcfgClient.v
RtcfgOps.v
RtcfgClientOps.v
RtcfgStage2.v
Rtpc.v
Rtmac.v
Tdma.v
TdmaIoctl.v
TdmaRing.v
TdmaSlots.v
TdmaFrames.v
TdmaWorker.v
TdmaConfig.v
Witnesses.v
NetWitnesses.v
InputWitnesses.v
RtpcWitnesses.v
MacWitnesses.v
PacketWitnesses.v
TcpWitnesses.v
