(* ===== verification/Prelude.v ===== *)
(** * RTnet: a verified model of the real-time network stack

    RTnet is a network stack for the RTAI and Xenomai real-time kernels: drivers and
    sockets exchange packets in preallocated buffers ([rtskb]) so that no path on the
    way allocates memory, addresses are resolved by a static table instead of ARP on
    demand, and a configuration service (RTcfg) brings up the stations of a network.
    This library models the core of the stack in stack/ and proves what each part
    promises to the others.

    ** The parts of the program and where they are modelled

    - [Prelude]: record update, the state monad [M] in which all stateful code is
      written, machine integers, the kernel configuration ([Config]), linked lists
      ([llist], [lseg]) and the kernel's [list_head] lists.
    - [State]: the memory of the core: [struct rtskb], [struct rtskb_queue],
      [struct rtskb_prio_queue] (stack/include/rtskb.h), [struct rtnet_device]
      (stack/include/rtdev.h), and the record [kstate] that holds all objects and the
      globals of rtskb.c and rtdev.c.
    - [RtskbQueue]: the inline queue and priority queue operations of rtskb.h.
    - [Rtskb]: pools and the life cycle of buffers, stack/rtskb.c ([alloc_rtskb],
      [kfree_rtskb], [rtskb_pool_*], [rtskb_acquire]), with the DMA mapping functions
      of stack/rtdev.c they call.
    - [RtskbData]: pointers of a buffer ([rtskb_put], [rtskb_push], [rtskb_pull],
      [rtskb_trim], ...) and [rtskb_clone].
    - [RtskbFifo]: the lock-free FIFO of stack/include/rtskb_fifo.h, sequentially and
      as an interleaving of one producer and one consumer (Module [Concurrent]).
    - [Rtdev]: stack/rtdev.c: the device table, registration, reference counting,
      opening, closing, transmission.
    - [Route]: stack/ipv4/route.c, all routing operations of hosts and networks;
      [RouteHost]: the hash table of host routes refines a finite map; [RouteOps]:
      every operation of the host table in terms of that map.
    - [Inet]: interface events and address parsing of stack/ipv4/af_inet.c, the
      protocol table of stack/ipv4/protocol.c.
    - [IpFragment]: reassembly of IP fragments, stack/ipv4/ip_fragment.c.
    - [Eth], [Iovec]: Ethernet framing (stack/eth.c) and copies to and from the buffers
      of the application (stack/iovec.c).
    - [StackMgr]: packet types and the delivery of received packets, stack/stack_mgr.c.
    - [Socket]: sockets and their pools, stack/socket.c and stack/ipv4/ip_sock.c.
    - [IpOutput]: transmission with fragmentation, stack/ipv4/ip_output.c; [IpInput]:
      reception, stack/ipv4/ip_input.c, and forwarding ([rt_ip_route_forward]).
    - [Arp], [Icmp]: stack/ipv4/arp.c and stack/ipv4/icmp.c.
    - [Udp]: stack/ipv4/udp/udp.c; [UdpOps]: the port registry refines a map and the
      lookup of destinations; [UdpSend]: sending and receiving; [UdpInput]: a datagram
      from IP input to its socket; [UdpErrors]: defective paths.
    - [Packet]: packet sockets, stack/packet/af_packet.c.  Properties: [PacketOps] (binding
      and reception), [PacketIo] (names, reading), [PacketSend], [PacketClose].
    - [Timerwheel]: the timers of TCP, stack/ipv4/tcp/timerwheel.c.
    - [Tcp]: stack/ipv4/tcp/tcp.c: the socket ([tcp_socket], beside the [rtsocket] and the
      timer with the same address), the registry of ports ([tports]), sending,
      retransmission, reception ([rt_tcp_rcv], divided at its labels and by the state of
      the connection) and the operations of the application.  Properties: [TcpSeq]
      (sequence numbers), [TcpPorts] (binding and lookup against a map), [TcpSend] (the
      frame of a segment, headers), [TcpOut] (replies with and without a route),
      [TcpConn] (the resources of a connection, [world]), [TcpRcv], [TcpFeed] (the parts
      of reception), [TcpStates] (the diagram of states [moves]), [TcpReceive] (reception
      as a whole, acknowledgements), [TcpRetransmit] (expiry of the timer), [TcpRead],
      [TcpWrite] (reading and writing).
    - [RtcfgFrame]: the data of RTcfg, the frames and the functions that send them,
      stack/rtcfg/rtcfg_frame.c and rtcfg_file.c; [RtcfgConn]: the server's connection
      state machine, rtcfg_conn_event.c, and the waiting calls; [RtcfgServer]: the
      server's main state machine, rtcfg_event.c, and its timer, rtcfg_timer.c;
      [RtcfgClient]: the client's state machine, rtcfg_client_event.c, and the dispatch
      of frames and events to all of these.  Properties: [RtcfgOps] (server),
      [RtcfgClientOps] and [RtcfgStage2] (client).
    - [Rtpc]: procedure calls from Linux tasks into the real-time domain,
      stack/rtnet_rtpc.c, with all interleavings of its threads.
    - [Rtmac]: the media access layer: frames and their reception (rtmac_proto.h,
      rtmac_proto.c), the virtual NIC that tunnels Linux traffic (rtmac_vnic.c), the
      trivial discipline NoMAC (nomac_proto.c), all under stack/rtmac.
    - [Tdma]: the TDMA discipline, stack/rtmac/tdma: its data, frames and worker
      (tdma_proto.c, tdma_worker.c); [TdmaIoctl]: its configuration (tdma_ioctl.c and the
      detaching of tdma_module.c).  Properties: [TdmaRing] (the ring of jobs as a list
      in the order of offsets), [TdmaSlots] (the queues of the slots as a map,
      transmission), [TdmaFrames] (frames sent and received, clock arithmetic),
      [TdmaWorker] (a cycle of a master and of a slave against a schedule),
      [TdmaConfig] (adding slots).
    - [Witnesses], [NetWitnesses], [InputWitnesses], [RtpcWitnesses], [MacWitnesses],
      [PacketWitnesses], [TcpWitnesses]: concrete states in which the hypotheses of the
      theorems hold, each theorem applied to them, and closed executions of defective
      paths.

    How they interact: a queue links buffers through [next] and [chain_end] of the
    buffers themselves, a pool is a queue, sockets, collectors and devices hold
    addresses of buffers, and a route holds the address of a device.  All objects
    therefore live in one memory ([kstate]); the routing table ([Route.rstate]), the
    collectors ([IpFragment.fstate]), RTcfg ([RtcfgFrame.cfgstate]), the virtual NICs
    ([Rtmac.vstate]) and a TDMA station ([Tdma.tdma]) each extend it by their own
    globals, and run the code of the parts below through [Prelude.zoom].

    ** How the code is represented

    A C function is a computation [M S A := S -> option (A * S)].  [None] is undefined
    behaviour: a NULL or dangling pointer, an index out of bounds, or a loop that does
    not end.  [wp m Q s] says that [m] is defined in [s] and ends in a result and state
    with [Q], so every theorem of that form, and every theorem that a run is [Some],
    is one of memory safety and termination as well.  Addresses of objects are natural
    numbers, NULL is [None], pointers into a packet are byte addresses in [Z]; buffers
    hold bytes.  Integers that can wrap around are in [Z] with the conversion written
    out ([u8], [u16], [u32], [u64], [s32]); addresses in network byte order are the
    numbers a [u32] in memory reads as, with [ntohl] depending on the endianness.
    Compile-time options are fields of [Config], and the theorems hold for all values
    unless they name one.  Where a lock covers the whole body of a function, the body
    is one step; where the code relies on finer interleaving (the FIFO, the procedure
    calls, the wait of [rt_unregister_rtnetdev], the pivot task of the timer wheel), the
    interleaving is explicit; what other tasks do while the TDMA worker sleeps is an
    argument of the worker.  Drivers, protocol handlers and hooks of other modules are arguments, with
    named hypotheses for what the code relies on (for example [Rtdev.hooks_keep],
    [IpFragment.DestSocket], [IpOutput.getfrag_spec], [IpOutput.header_spec],
    [IpOutput.driver_spec], [StackMgr.handler_spec], [Timerwheel.behaved], [Rtdev.stop_spares]); UDP and
    Ethernet framing are shown to satisfy those that concern them.

    Loops are structural recursions over the list or array they walk where there is
    one.  Walks over linked structures and loops that start over have a fuel argument,
    taken from the size of the structure: the number of objects in memory for walks
    along [next] (a chain without a cycle cannot be longer), and one more than the
    number of route nodes for [rt_ip_route_del_all], each of whose rounds frees a node,
    and one more than the number of waiting calls for the loops of RTcfg that dequeue
    them, and the number of jobs for the searches along the ring of TDMA; the loop that
    sends fragments has one round for each 8 bytes of the message
    and one more, and reception one for each buffer of the datagram.
    Out of fuel is [None], and the theorems prove that it does not happen.

    ** What the theorems show

    - Queues: the pointer operations are list operations ([is_queue],
      [is_prio_queue]); dequeuing from a priority queue serves the highest priority
      first and in order of arrival.
    - Pools: [pools_inv] (pools are disjoint, well-formed and hold only their own
      buffers) is kept by allocation, release of chains, exchange of buffers and
      extension; [rtskb_acquire] keeps the size of all pools, which is what makes the
      real-time guarantee of the buffer economy.
    - Data: pointer operations in terms of packet bytes; a clone is independent.
    - FIFO: a bounded queue; linearizable for every interleaving, by an invariant over
      the reachable states.
    - Devices: the table stays well-formed; registration, lookup and removal on every
      path, with the references.
    - Routing: refinement of a map from (address, interface) to (device, hardware
      address) for add, delete, delete-all and output, and a round trip.
    - IPv4: protocol table, address parsing, reassembly (invariant of all collectors,
      every outcome of a fragment).
    - IP and UDP: the packets a message is sent in, on every path and for every number of
      free buffers; fragmentation and reassembly are inverse; binding refines an update
      of a map without conflicts; a received packet reaches exactly the socket that is
      registered for it, or its pool; the data an application receives.
    - ARP, ICMP: requests are answered, senders learnt, all buffers and references
      accounted for.
    - Sockets, stack manager, framing: pool sizes are exact under every request, packets
      are offered to the handlers in order, headers are taken off as they were put on,
      vector copies are copies of the concatenated buffers.
    - Packet sockets: binding moves a socket in the table of packet types; a received
      packet reaches the first socket that accepts it; frames sent and received byte by
      byte on every path; closing returns all buffers and references; hardware addresses
      are parsed exactly as their grammar says.
    - Procedure calls: a safety theorem over all reachable states (no use after release,
      the reference count is the number of owners), delivery of results, termination of
      the two loops.
    - RTmac: a frame of Linux, queued and sent by NoMAC, arrives as it was sent, with the
      padding of the link behind it; the decisions on received packets.
    - TDMA: the rounds of the worker over the ring of jobs implement an abstract schedule
      (times of wake-ups, packets sent, queues left), at the master with the frame that
      starts the cycle, at a slave on the clock of the master; the clock offset and the
      packet delay are computed exactly, with wrap-around; transmission and new slots
      keep the queues disjoint and the ring in order.  The cycles are stated for a worker
      that no other task interferes with while it sleeps, and that has no calibration
      replies to send.
    - Timers: the wheel stays consistent and timers fire in their round, whatever other
      timers the handlers and other tasks start and stop meanwhile.
    - TCP: received segments move the state of a connection along a diagram only, without
      fault, lock twice taken, or buffer lost, for every segment and every state (the
      invariant [world] of socket, pools, queues, timer and static reset socket is kept);
      data reaches the queue of the socket and is acknowledged; segments go out byte by
      byte as specified and are kept for retransmission; the timer repeats them or gives
      the connection up; acknowledgements empty the queue; reading copies the next bytes
      of the stream and leaves the rest for the next call, writing sends the bytes of the
      caller; binding refines an update of a
      map without overlaps; comparisons are those of the circular sequence space; headers
      are read as they were written.
    - RTcfg: waiting calls are completed once; the counters of the server; the station
      table of the client refines a list; encoding and decoding of frames; collection
      of stage 2 data.
    - Limits: the theorems about transmission are for a driver that takes every packet
      ([IpOutput.driver_spec], [Rtmac.takes_all], [TcpSend.linkdev]); the definitions
      also cover one that refuses a packet.
    - Defects: some theorems show what the code does in situations it mishandles
      (a freed buffer left on a global list, a route that survives its interface, a
      client counted twice, a valid frame dropped, a buffer freed twice).

    ** What is not modelled

    - Concurrency below the level of whole critical sections: the FIFO is interleaved
      between single accesses to its shared fields in one order that all see (its memory
      barriers are not modelled); a procedure call, once it runs in the real-time
      domain, runs as one step, and so do dispatch, completion and release of calls.
    - Memory that was freed and is still linked: a kernel list ([list_add], [list_del]) is
      the list of its members, so that a freed neighbour is noticed where the list is
      walked ([Rtskb.shrink_leaves_freed_buffer_listed]) and not where an entry is
      linked in or out beside it.
    - The discipline of RTmac as [start_xmit] of a device: [rtdev_xmit] calls the
      function of the driver, with or without its mutex; transmission through a
      discipline is modelled at the discipline ([Rtmac.nomac_rt_packet_tx],
      [Tdma.tdma_rt_packet_tx]).

    - Drivers (ports of Linux drivers: device registers and DMA rings), the wireless
      extension, RTcap and the proxy (bridges to Linux): they call into the modelled parts
      or are called through the parameters above.
    - The dispatch of ioctl request numbers, copies of requests between user and kernel
      memory, character and RTDM devices, /proc output: interface to user space without
      protocol logic; the operations behind the requests are modelled.
    - Initialization and removal of modules where they only create tasks, events and
      registrations of the real-time kernel.
    - Of TCP: [rt_tcp_ioctl], [rt_tcp_select] (waiting on several descriptors is a service
      of the real-time kernel), the keepalive probes, which are not compiled (YET_UNUSED),
      and the error exits of [rt_tcp_init].  The operations of the application (connect,
      accept, read, write, close) are defined in full, with what other tasks do during a
      wait as an argument; the theorems are about binding, sending, retransmission,
      reception, reading from one segment and writing one segment.  The network routes of [Route], the removal of TDMA slots and the
      calibration replies of a master are likewise defined, without theorems of their own. *)
From Stdlib Require Export ZArith Lia.
From stdpp Require Export base option numbers list gmap.
#[export] Set Default Goal Selector "!".

Declare Scope rtnet_scope.
Delimit Scope rtnet_scope with rtnet.
Open Scope rtnet_scope.
Open Scope Z_scope.

(** ** Record update

    [r <| f := v |>] is the C assignment [r.f = v] on a record value.  The
    setter is found by typeclass search from the eta expansion of the record,
    given once per record as a [Settable] instance. *)

Class Settable (R : Type) := eta_fields : R → R.
Class Setter {R T : Type} (proj : R → T) := upd : (T → T) → R → R.
Arguments upd {R T} proj {_} _ _.

Ltac derive_setter :=
  lazymatch goal with
  | |- @Setter ?R ?T ?proj =>
      let inst := constr:(_ : Settable R) in
      let body := eval hnf in inst in
      let body := lazymatch (eval pattern proj in body) with ?f _ => f end in
      let body := eval cbv beta in (fun (f : T → T) (r : R) => body (fun x => f (proj x)) r) in
      exact body
  end.
#[export] Hint Extern 1 (Setter _) => derive_setter : typeclass_instances.

Notation "r <| f := v |>" := (upd f (λ _, v) r)
  (at level 1, f constr, v at level 200, left associativity,
   format "r <| f  :=  v |>") : rtnet_scope.

(** ** The state monad with undefined behaviour

    A C function that works on shared state [S] and returns an [A] is a
    computation [M S A].  [None] is undefined behaviour: a NULL or dangling
    pointer is dereferenced, an array is indexed out of its bounds, or a loop
    does not end within its bound.  A theorem that a computation yields [Some]
    is a safety and termination theorem. *)

Definition M (S A : Type) : Type := S → option (A * S).

#[export] Instance M_ret S : MRet (M S) := λ A a s, Some (a, s).
#[export] Instance M_bind S : MBind (M S) := λ A B k m s,
  match m s with Some (a, s') => k a s' | None => None end.

Definition ub {S A} : M S A := λ _, None.
Definition get {S} : M S S := λ s, Some (s, s).
Definition gets {S A} (f : S → A) : M S A := λ s, Some (f s, s).
Definition modify {S} (f : S → S) : M S () := λ s, Some ((), f s).
(** [deref o]: the object a pointer expression [o] designates. *)
Definition deref {S A} (o : option A) : M S A :=
  λ s, match o with Some a => Some (a, s) | None => None end.
Definition when {S} (b : bool) (m : M S ()) : M S () := if b then m else mret ().

(** A computation on a part [T] of the state [S]. *)
Definition zoom {S T A} (π : S → T) (put : T → S → S) (m : M T A) : M S A :=
  λ s, match m (π s) with Some (a, t) => Some (a, put t s) | None => None end.

(** [wp m Q s]: [m] started in [s] is defined and ends with [Q]. *)
Definition wp {S A} (m : M S A) (Q : A → S → Prop) (s : S) : Prop :=
  match m s with Some (a, s') => Q a s' | None => False end.

Section wp.
Context {S : Type}.

Lemma wp_ret {A} (a : A) (Q : A → S → Prop) s : Q a s → wp (mret a) Q s.
Proof. done. Qed.
Lemma wp_bind {A B} (m : M S A) (k : A → M S B) Q s :
  wp m (λ a, wp (k a) Q) s → wp (m ≫= k) Q s.
Proof. unfold wp, mbind, M_bind. by destruct (m s) as [[a s']|]. Qed.
Lemma wp_get (Q : S → S → Prop) s : Q s s → wp get Q s.
Proof. done. Qed.
Lemma wp_gets {A} (f : S → A) Q s : Q (f s) s → wp (gets f) Q s.
Proof. done. Qed.
Lemma wp_modify (f : S → S) Q s : Q () (f s) → wp (modify f) Q s.
Proof. done. Qed.
Lemma wp_deref {A} (o : option A) a (Q : A → S → Prop) s :
  o = Some a → Q a s → wp (deref o) Q s.
Proof. by intros ->. Qed.
Lemma wp_mono {A} (m : M S A) (P Q : A → S → Prop) s :
  (∀ a s', P a s' → Q a s') → wp m P s → wp m Q s.
Proof. unfold wp. destruct (m s) as [[a s']|]; auto. Qed.
(** A conditional statement that keeps [I]. *)
Lemma wp_when (I : S → Prop) b (m : M S ()) Q s :
  I s → (I s → wp m (λ _, I) s) → (∀ s', I s' → Q () s') → wp (when b m) Q s.
Proof. intros Hs Hm HQ. destruct b; [|by apply HQ]. eapply wp_mono; [|by apply Hm]. intros []. auto. Qed.
(** Grouping two statements that have one specification. *)
Lemma wp_group {A B C} (m : M S A) (k : A → M S B) (l : B → M S C) Q s :
  wp (m ≫= k) (λ b, wp (l b) Q) s → wp m (λ a, wp (k a ≫= l) Q) s.
Proof.
  unfold wp, mbind, M_bind. destruct (m s) as [[a s']|]; [|done]. by destruct (k a s') as [[b s'']|].
Qed.
Lemma wp_both {A} (m : M S A) (Q R : A → S → Prop) s : wp m Q s → wp m R s → wp m (λ a s', Q a s' ∧ R a s') s.
Proof. unfold wp. by destruct (m s) as [[a s']|]. Qed.
Lemma wp_elim {A} (m : M S A) Q s :
  wp m Q s → ∃ a s', m s = Some (a, s') ∧ Q a s'.
Proof. unfold wp. destruct (m s) as [[a s']|]; [eauto|done]. Qed.
Lemma wp_intro {A} (m : M S A) (Q : A → S → Prop) s a s' :
  m s = Some (a, s') → Q a s' → wp m Q s.
Proof. unfold wp. by intros ->. Qed.
End wp.

Lemma wp_exact {S A} (m : M S A) (v : A) (s s' : S) :
  wp m (λ a t, a = v ∧ t = s') s → m s = Some (v, s').
Proof. intros (a & t & E & -> & ->)%wp_elim. done. Qed.
(** A specification with a known result, as an equation. *)
Lemma wp_value {S A} (m : M S A) (v : A) (Q : S → Prop) s :
  wp m (λ a s', a = v ∧ Q s') s → ∃ s', m s = Some (v, s') ∧ Q s'.
Proof. intros (a & s' & E & -> & HQ)%wp_elim. eauto. Qed.
Lemma wp_zoom {S T A} (π : S → T) put (m : M T A) Q s :
  wp m (λ a t, Q a (put t s)) (π s) → wp (zoom π put m) Q s.
Proof. unfold wp, zoom. by destruct (m (π s)) as [[a t]|]. Qed.

Create HintDb wpdb discriminated.
#[export] Hint Resolve wp_ret wp_bind wp_gets wp_modify wp_deref : wpdb.

(** One symbolic execution step. *)
Ltac wp_step :=
  lazymatch goal with
  | |- wp (_ ≫= _) _ _ => apply wp_bind
  | |- wp (mret _) _ _ => apply wp_ret
  | |- wp (gets _) _ _ => apply wp_gets
  | |- wp (modify _) _ _ => apply wp_modify
  | |- wp (deref _) _ _ => eapply wp_deref; [solve [eauto] | ]
  | |- wp (when true _) _ _ => unfold when
  | |- wp (when false _) _ _ => apply wp_ret
  end; cbn beta iota.
Ltac wp_run := repeat wp_step.

(** ** Machine integers *)

(** [lia] on goals with division and modulo by constants. *)
Ltac divlia := Z.to_euclidean_division_equations; lia.

Definition u8 (z : Z) : Z := z mod 2 ^ 8.
Definition u16 (z : Z) : Z := z mod 2 ^ 16.
Definition u32 (z : Z) : Z := z mod 2 ^ 32.
Definition u64 (z : Z) : Z := z mod 2 ^ 64.
(** Conversion to [int]: two's complement on 32 bits. *)
Definition s32 (z : Z) : Z := (z + 2 ^ 31) mod 2 ^ 32 - 2 ^ 31.

(** Conversion to a signed 64 bit type. *)
Definition s64 (z : Z) : Z := (z + 2 ^ 63) mod 2 ^ 64 - 2 ^ 63.

Definition is_u32 (z : Z) : Prop := 0 ≤ z < 2 ^ 32.

Definition bswap16 (x : Z) : Z := (x mod 256) * 256 + (x / 256) mod 256.
Definition bswap32 (x : Z) : Z :=
  (x mod 256) * 2 ^ 24 + ((x / 2 ^ 8) mod 256) * 2 ^ 16
  + ((x / 2 ^ 16) mod 256) * 2 ^ 8 + (x / 2 ^ 24) mod 256.

Lemma u32_range z : is_u32 (u32 z).
Proof. unfold is_u32, u32. apply Z.mod_pos_bound. lia. Qed.
Lemma u32_id z : is_u32 z → u32 z = z.
Proof. apply Z.mod_small. Qed.
Lemma mod256 x : 0 ≤ x mod 256 < 256.
Proof. by apply Z.mod_pos_bound. Qed.
Lemma bswap32_range x : is_u32 (bswap32 x).
Proof.
  unfold is_u32, bswap32. pose proof (mod256 x). pose proof (mod256 (x / 2 ^ 8)).
  pose proof (mod256 (x / 2 ^ 16)). pose proof (mod256 (x / 2 ^ 24)). lia.
Qed.
(** [bswap32] on the four bytes of a word. *)
Lemma bswap32_bytes a b c d :
  0 ≤ a < 256 → 0 ≤ b < 256 → 0 ≤ c < 256 → 0 ≤ d < 256 →
  bswap32 (a * 2 ^ 24 + b * 2 ^ 16 + c * 2 ^ 8 + d)
  = d * 2 ^ 24 + c * 2 ^ 16 + b * 2 ^ 8 + a.
Proof.
  intros Ha Hb Hc Hd. unfold bswap32.
  change (2 ^ 24) with 16777216. change (2 ^ 16) with 65536. change (2 ^ 8) with 256.
  assert ((a * 16777216 + b * 65536 + c * 256 + d) mod 256 = d) as -> by divlia.
  assert ((a * 16777216 + b * 65536 + c * 256 + d) / 256 = a * 65536 + b * 256 + c) as -> by divlia.
  assert ((a * 65536 + b * 256 + c) mod 256 = c) as -> by divlia.
  assert ((a * 16777216 + b * 65536 + c * 256 + d) / 65536 = a * 256 + b) as -> by divlia.
  assert ((a * 256 + b) mod 256 = b) as -> by divlia.
  assert ((a * 16777216 + b * 65536 + c * 256 + d) / 16777216 = a) as -> by divlia.
  assert (a mod 256 = a) as -> by divlia. lia.
Qed.
Lemma bswap32_involutive x : is_u32 x → bswap32 (bswap32 x) = x.
Proof.
  unfold is_u32. intros Hx. unfold bswap32 at 2. rewrite bswap32_bytes by apply mod256.
  change (2 ^ 24) with 16777216. change (2 ^ 16) with 65536. change (2 ^ 8) with 256.
  change (2 ^ 32) with 4294967296 in Hx. divlia.
Qed.
Lemma bswap32_inj x y : is_u32 x → is_u32 y → bswap32 x = bswap32 y → x = y.
Proof.
  intros Hx Hy E. by rewrite <-(bswap32_involutive x), <-(bswap32_involutive y), E.
Qed.

Lemma land_ones_range x n : 0 ≤ n → 0 ≤ Z.land x (2 ^ n - 1) < 2 ^ n.
Proof.
  intros Hn. replace (2 ^ n - 1) with (Z.ones n) by (rewrite Z.ones_equiv; lia).
  rewrite Z.land_ones by done. apply Z.mod_pos_bound. lia.
Qed.

Lemma land_nonneg_bound x m : 0 ≤ m → 0 ≤ Z.land x m ≤ m.
Proof.
  intros Hm. split; [apply Z.land_nonneg; auto|].
  assert (Hs : Z.land x m = m - Z.ldiff m x).
  { rewrite (Z.land_comm x m). rewrite Z.sub_nocarry_ldiff.
    - apply Z.bits_inj'. intros i Hi. rewrite Z.land_spec, !Z.ldiff_spec.
      destruct (Z.testbit m i), (Z.testbit x i); done.
    - apply Z.bits_inj'. intros i Hi.
      rewrite !Z.ldiff_spec, Z.bits_0.
      destruct (Z.testbit m i), (Z.testbit x i); done. }
  assert (0 ≤ Z.ldiff m x) by (apply Z.ldiff_nonneg; auto). lia.
Qed.

(** ** Error codes (positive values; the code returns their negation). *)
Definition ENOENT := 2.
Definition EAGAIN := 11.
Definition ENOMEM := 12.
Definition EACCES := 13.
Definition EBUSY := 16.
Definition EEXIST := 17.
Definition ENODEV := 19.
Definition EINVAL := 22.
Definition ENOPROTOOPT := 92.
Definition ENOBUFS := 105.
Definition EHOSTUNREACH := 113.

Definition MAX_RT_DEVICES : nat := 8.

(** ** Build configuration

    The preprocessor options the modelled code depends on, as arguments of the
    definitions that use them. *)
Class Config := {
  CONFIG_RTNET_CHECKED : bool;
  CONFIG_RTNET_ADDON_RTCAP : bool;
  CONFIG_RTNET_ADDON_PROXY : bool;
  CONFIG_RTNET_RTIPV4 : bool;
  CONFIG_RTNET_RTIPV4_NETROUTING : bool;
  CONFIG_RTNET_RTIPV4_ROUTER : bool;
  CONFIG_RTNET_ADDON_PROXY_ARP : bool;
  CONFIG_RTNET_ETH_P_ALL : bool;
  CONFIG_RTNET_RX_FIFO_SIZE : Z;
  CONFIG_RTNET_RTIPV4_HOST_ROUTES : nat;
  CONFIG_RTNET_RTIPV4_NET_ROUTES : nat;
  SMP_CACHE_BYTES : Z;
  sizeof_rtskb : Z;
  little_endian : bool;
}.

(** [ntohl] and [htonl] of the target; [ntohs] likewise. *)
Definition ntohl `{Config} (x : Z) : Z := if little_endian then bswap32 x else x.
Definition ntohs `{Config} (x : Z) : Z := if little_endian then bswap16 x else x.

Lemma bswap16_involutive x : 0 ≤ x < 65536 → bswap16 (bswap16 x) = x.
Proof. unfold bswap16. intros Hx. divlia. Qed.
Lemma ntohs_involutive `{Config} x : 0 ≤ x < 65536 → ntohs (ntohs x) = x.
Proof. intros Hx. unfold ntohs. destruct little_endian; [by apply bswap16_involutive|done]. Qed.
Lemma ntohs_range `{Config} x : 0 ≤ x < 65536 → 0 ≤ ntohs x < 65536.
Proof. intros Hx. unfold ntohs, bswap16. destruct little_endian; [divlia|done]. Qed.
Lemma ntohl_range `{Config} x : is_u32 x → is_u32 (ntohl x).
Proof. unfold ntohl. destruct little_endian; auto using bswap32_range. Qed.
Lemma ntohl_inj `{Config} x y : is_u32 x → is_u32 y → ntohl x = ntohl y → x = y.
Proof. unfold ntohl. destruct little_endian; auto using bswap32_inj. Qed.

(** The configuration the examples are evaluated in (the shipped [defconfig]
    on an x86 target). *)
Definition default_config : Config := {|
  CONFIG_RTNET_CHECKED := false;
  CONFIG_RTNET_ADDON_RTCAP := false;
  CONFIG_RTNET_ADDON_PROXY := false;
  CONFIG_RTNET_RTIPV4 := true;
  CONFIG_RTNET_RTIPV4_NETROUTING := false;
  CONFIG_RTNET_RTIPV4_ROUTER := false;
  CONFIG_RTNET_ADDON_PROXY_ARP := false;
  CONFIG_RTNET_ETH_P_ALL := false;
  CONFIG_RTNET_RX_FIFO_SIZE := 32;
  CONFIG_RTNET_RTIPV4_HOST_ROUTES := 32;
  CONFIG_RTNET_RTIPV4_NET_ROUTES := 16;
  SMP_CACHE_BYTES := 64;
  sizeof_rtskb := 168;
  little_endian := true;
|}.

Lemma NoDup_length_size `{Countable K} {A} (h : gmap K A) l :
  NoDup l → (∀ a, a ∈ l → is_Some (h !! a)) → (length l ≤ size h)%nat.
Proof.
  intros Hnd Hl. rewrite <-(size_dom h), <-(size_list_to_set (C:=gset K) l) by done.
  apply subseteq_size. intros a Ha%elem_of_list_to_set. apply elem_of_dom; auto.
Qed.

(** ** Singly linked lists in a heap

    [h] maps the address of a node to its contents and [nxt] reads the [next]
    field.  [lseg h p l q]: starting from pointer [p] the [next] fields visit
    exactly the nodes [l] and arrive at pointer [q]. *)
Section lseg.
Context {A : Type} (nxt : A → option nat).
Implicit Types (h : gmap nat A) (p q r : option nat) (l : list nat).

Fixpoint lseg h p l q : Prop :=
  match l with
  | [] => p = q
  | a :: l' => p = Some a ∧ ∃ x, h !! a = Some x ∧ lseg h (nxt x) l' q
  end.
(** A NULL terminated list. *)
Definition llist h p l : Prop := lseg h p l None.

Lemma lseg_app h p l1 l2 q :
  lseg h p (l1 ++ l2) q ↔ ∃ r, lseg h p l1 r ∧ lseg h r l2 q.
Proof.
  revert p. induction l1 as [|a l1 IH]; intros p; simpl; [naive_solver|].
  setoid_rewrite IH. naive_solver.
Qed.

Lemma lseg_lookup h p l q a : lseg h p l q → a ∈ l → is_Some (h !! a).
Proof.
  revert p. induction l as [|b l IH]; intros p; simpl; [set_solver|].
  intros (-> & x & Hx & Hl) [->|?]%elem_of_cons; eauto.
Qed.

Lemma llist_det h p l1 l2 : llist h p l1 → llist h p l2 → l1 = l2.
Proof.
  unfold llist. revert p l2.
  induction l1 as [|a l1 IH]; intros p [|b l2]; simpl; [done|by intros -> []|by intros [-> _]|].
  intros (-> & x & Hx & H1) (? & y & Hy & H2). simplify_eq. f_equal. eauto.
Qed.

Lemma llist_NoDup h p l : llist h p l → NoDup l.
Proof.
  unfold llist. revert p. induction l as [|a l IH]; intros p; [constructor|].
  intros Hl. pose proof Hl as (-> & x & Hx & Hl'). constructor; [|eauto].
  intros (l1 & l2 & ->)%list_elem_of_split.
  apply lseg_app in Hl' as (r & _ & Hr). pose proof Hr as [-> _].
  assert (E : a :: l1 ++ a :: l2 = a :: l2) by (eapply llist_det; [exact Hl|exact Hr]).
  apply (f_equal length) in E. simpl in E. rewrite length_app in E. simpl in E. lia.
Qed.

(** Frame: the segment only depends on the [next] fields of its nodes. *)
Lemma lseg_frame h h' p l q :
  lseg h p l q →
  (∀ a x, a ∈ l → h !! a = Some x → ∃ y, h' !! a = Some y ∧ nxt y = nxt x) →
  lseg h' p l q.
Proof.
  revert p. induction l as [|a l IH]; intros p; simpl; [done|].
  intros (-> & x & Hx & Hl) Hf. split; [done|].
  destruct (Hf a x) as (y & Hy & E); [set_solver|done|].
  exists y. split; [done|]. rewrite E. apply IH; [done|]. set_solver.
Qed.
Lemma lseg_insert_ne h p l q a x :
  a ∉ l → lseg h p l q → lseg (<[a:=x]> h) p l q.
Proof.
  intros Ha Hl. eapply lseg_frame; [exact Hl|]. intros b y Hb Hy.
  exists y. rewrite lookup_insert_ne; [done|set_solver].
Qed.
Lemma lseg_insert_same h p l q a x y :
  h !! a = Some x → nxt y = nxt x → lseg h p l q → lseg (<[a:=y]> h) p l q.
Proof.
  intros Ha E Hl. eapply lseg_frame; [exact Hl|]. intros b z Hb Hz.
  destruct (decide (a = b)) as [->|]; simplify_map_eq; eauto.
Qed.
Lemma lseg_delete_ne h p l q a : a ∉ l → lseg h p l q → lseg (delete a h) p l q.
Proof.
  intros Ha Hl. eapply lseg_frame; [exact Hl|]. intros b y Hb Hy.
  exists y. rewrite lookup_delete_ne; [done|set_solver].
Qed.
(** Relinking the last node of a segment. *)
Lemma lseg_relink h p l a q r x :
  a ∉ l → lseg h p (l ++ [a]) q → nxt x = r → lseg (<[a:=x]> h) p (l ++ [a]) r.
Proof.
  intros Ha (t & Hl & -> & y & Hy & Hq)%lseg_app Hx. apply lseg_app.
  exists (Some a). split; [by apply lseg_insert_ne|].
  simpl. split; [done|]. exists x. by simplify_map_eq.
Qed.

Lemma llist_length h p l : llist h p l → (length l ≤ size h)%nat.
Proof.
  intros Hl. pose proof (llist_NoDup _ _ _ Hl) as Hnd.
  rewrite <-(size_dom h), <-(size_list_to_set (C:=gset nat) l) by done.
  apply subseteq_size. intros a Ha%elem_of_list_to_set.
  apply elem_of_dom. by eapply lseg_lookup.
Qed.

(** [while (p != NULL) { if (f p) return p; last = &p->next; p = p->next; }]
    The test [f] may itself dereference pointers and be undefined.  The result
    carries the node whose [next] field [last_ptr] points to ([None]: still the
    list head).  [None]: undefined behaviour, or the loop did not end within
    [fuel] rounds. *)
Fixpoint search (f : nat → A → option bool) h (fuel : nat) (prev p : option nat)
    : option (option (option nat * nat)) :=
  match p with
  | None => Some None
  | Some a =>
      match fuel, h !! a with
      | S n, Some x =>
          match f a x with
          | Some true => Some (Some (prev, a))
          | Some false => search f h n (Some a) (nxt x)
          | None => None
          end
      | _, _ => None
      end
  end.

Inductive search_result (f : nat → A → option bool) h l (prev : option nat)
    : option (option nat * nat) → Prop :=
  | search_found l1 a x l2 :
      l = l1 ++ a :: l2 → h !! a = Some x → f a x = Some true →
      (∀ b y, b ∈ l1 → h !! b = Some y → f b y = Some false) →
      search_result f h l prev (Some (match last l1 with Some b => Some b | None => prev end, a))
  | search_none :
      (∀ b y, b ∈ l → h !! b = Some y → f b y = Some false) →
      search_result f h l prev None.

Lemma search_correct f h fuel prev p l :
  llist h p l → (length l ≤ fuel)%nat →
  (∀ a x, a ∈ l → h !! a = Some x → is_Some (f a x)) →
  ∃ res, search f h fuel prev p = Some res ∧ search_result f h l prev res.
Proof.
  unfold llist. revert fuel prev p. induction l as [|a l IH]; intros fuel prev p.
  { simpl. intros -> _ _. exists None. destruct fuel; (split; [done|]); constructor; set_solver. }
  intros (-> & x & Hx & Hl) Hlen Hdef. simpl in Hlen. destruct fuel as [|n]; [lia|].
  destruct (Hdef a x) as [[] Hf]; [set_solver|done|..]; simpl; rewrite Hx, Hf.
  { eexists. split; [done|]. by eapply (search_found f h (a :: l) prev [] a x l); [..|set_solver]. }
  destruct (IH n (Some a) (nxt x)) as (r & -> & Hr); [done|lia|set_solver|].
  exists r. split; [done|]. destruct Hr as [l1 b y l2 -> Hy Hfy Hn|Hn].
  - replace (match last l1 with Some c => Some c | None => Some a end)
      with (match last (a :: l1) with Some c => Some c | None => prev end)
      by (rewrite last_cons; by destruct (last l1)).
    eapply search_found; [done..|].
    intros c z [->|Hc]%elem_of_cons Hz; [by simplify_eq|eauto].
  - constructor. intros c z [->|Hc]%elem_of_cons Hz; [by simplify_eq|eauto].
Qed.
End lseg.

#[export] Hint Resolve lseg_insert_ne llist_NoDup llist_length : core.

(** ** Linux' doubly linked lists

    A [struct list_head] that heads a list is the list of the objects linked on
    it.  [list_add] and [list_add_tail] put an object in front and at the end;
    [list_del] unlinks an object, which must be linked. *)
Section list_head.
Context {A : Type} `{EqDecision A}.

Definition list_add (a : A) (l : list A) : list A := a :: l.
Definition list_add_tail (a : A) (l : list A) : list A := l ++ [a].
Fixpoint list_del (a : A) (l : list A) : option (list A) :=
  match l with
  | [] => None
  | b :: l => if decide (a = b) then Some l else cons b <$> list_del a l
  end.

Lemma list_del_split a l1 l2 : a ∉ l1 → list_del a (l1 ++ a :: l2) = Some (l1 ++ l2).
Proof.
  induction l1 as [|b l1 IH]; simpl; intros Ha.
  - by rewrite decide_True.
  - rewrite decide_False, IH by set_solver. done.
Qed.
Lemma list_del_Some a l l' :
  list_del a l = Some l' → ∃ l1 l2, l = l1 ++ a :: l2 ∧ l' = l1 ++ l2.
Proof.
  revert l'. induction l as [|b l IH]; intros l'; simpl; [done|].
  case_decide as Hd; [intros [= ->]; subst; by eexists [], _|].
  destruct (list_del a l) as [l0|]; [|done]. intros [= <-].
  destruct (IH l0) as (l1 & l2 & -> & ->); [done|]. by eexists (b :: l1), l2.
Qed.
Lemma list_del_elem a l : a ∈ l → is_Some (list_del a l).
Proof.
  induction l as [|b l IH]; [set_solver|]. simpl. intros [->|Ha]%elem_of_cons.
  - rewrite decide_True by done. eauto.
  - case_decide; [eauto|]. destruct (IH Ha) as [l' ->]. eauto.
Qed.
Lemma list_del_perm a l l' : list_del a l = Some l' → l ≡ₚ a :: l'.
Proof. intros (l1 & l2 & -> & ->)%list_del_Some. by rewrite Permutation_middle. Qed.
End list_head.
