(* ===== verification/State.v ===== *)
(** * The state of the stack core: buffers, buffer queues and devices

    [struct rtskb], [struct rtskb_queue], [struct rtskb_prio_queue]
    (stack/include/rtskb.h) and [struct rtnet_device] (stack/include/rtdev.h),
    and the memory they live in.  Addresses are natural numbers, NULL is
    [None]; a pointer into a packet buffer is a byte address in [Z]. *)
From S2P Require Import Prelude.

(** The socket buffer.  [buf] is the memory of the data area, which starts at
    address [buf_start]. *)
Record rtskb := mk_rtskb {
  next : option nat;
  chain_end : option nat;
  pool : option nat;
  priority : Z;
  sk : option nat;
  rtdev : option nat;
  time_stamp : Z;
  xmit_stamp : option Z;
  h_raw : Z;
  nh_raw : Z;
  mac_raw : Z;
  protocol : Z;
  pkt_type : Z;
  ip_summed : Z;
  csum : Z;
  data : Z;
  tail : Z;
  end_ : Z;
  len : Z;
  buf_dma_addr : Z;
  buf_start : Z;
  buf_end : Z;
  chain_len : Z;
  cap_flags : Z;
  cap_comp_skb : option nat;
  cap_next : option nat;
  cap_start : Z;
  cap_len : Z;
  cap_rtmac_stamp : Z;
  buf : list Z;
}.
#[export] Instance rtskb_eta : Settable rtskb := λ r,
  mk_rtskb (next r) (chain_end r) (pool r) (priority r) (sk r) (rtdev r) (time_stamp r)
    (xmit_stamp r) (h_raw r) (nh_raw r) (mac_raw r) (protocol r) (pkt_type r) (ip_summed r)
    (csum r) (data r) (tail r) (end_ r) (len r) (buf_dma_addr r) (buf_start r) (buf_end r)
    (chain_len r) (cap_flags r) (cap_comp_skb r) (cap_next r) (cap_start r) (cap_len r)
    (cap_rtmac_stamp r) (buf r).

(** [memset(skb, 0, sizeof(struct rtskb))]: the header is zeroed, the data area
    behind it keeps its contents. *)
Definition zero_rtskb (b : list Z) : rtskb :=
  mk_rtskb None None None 0 None None 0 None 0 0 0 0 0 0 0 0 0 0 0 0 0 0 0 0 None None 0 0 0 b.

Record rtskb_queue := mk_queue {
  first : option nat;
  qlast : option nat;
  pool_balance : Z;
}.
#[export] Instance queue_eta : Settable rtskb_queue := λ r,
  mk_queue (first r) (qlast r) (pool_balance r).

(** A prioritized queue; its sub-queues [queue[0]] .. [queue[31]] are the queue
    objects at the addresses [sub_base], .., [sub_base + 31]. *)
Record rtskb_prio_queue := mk_prio_queue {
  usage : Z;
  sub_base : nat;
}.
#[export] Instance prio_queue_eta : Settable rtskb_prio_queue := λ r,
  mk_prio_queue (usage r) (sub_base r).

Definition QUEUE_MAX_PRIO := 0.
Definition QUEUE_MIN_PRIO := 31.
Definition RTSKB_PRIO_MASK := 65535.
Definition RTSKB_CAP_SHARED := 1.
Definition RTSKB_UNMAPPED := 0.
Definition RTSKB_SIZE := 1544.
Definition PACKET_HOST := 0.
Definition PACKET_BROADCAST := 1.
Definition PACKET_MULTICAST := 2.
Definition PACKET_OTHERHOST := 3.
Definition PACKET_LOOPBACK := 5.
Definition CHECKSUM_PARTIAL := 3.

(** Linux' [SKB_DATA_ALIGN]. *)
Definition SKB_DATA_ALIGN `{Config} (x : Z) : Z :=
  Z.land (x + (SMP_CACHE_BYTES - 1)) (Z.lnot (SMP_CACHE_BYTES - 1)).
Definition ALIGN_RTSKB_STRUCT_LEN `{Config} : Z := SKB_DATA_ALIGN sizeof_rtskb.

(** Bits of [priv_flags], [flags] and [features] of a device. *)
Definition PRIV_FLAG_UP := 0.
Definition PRIV_FLAG_ADDING_ROUTE := 1.
Definition IFF_LOOPBACK := 8.
Definition IFF_UP := 1.
Definition RTDEV_VERS_2_0 := 512.
Definition IFF_BROADCAST := 2.
Definition IFF_RUNNING := 64.
Definition IFF_NOARP := 128.
Definition IFF_PROMISC := 256.
Definition NETIF_F_LLTX := 4096.
Definition RTNET_LINK_STATE_START := 1.
Definition RTNET_LINK_STATE_PRESENT := 2.
Definition IFNAMSIZ : nat := 16.
Definition MAX_ADDR_LEN : nat := 32.
Definition ETH_ALEN : nat := 6.
Definition ETH_HLEN := 14.
Definition ARPHRD_ETHER := 1.

(** [memcpy(dst, src, n)] into the array [dst]. *)
Definition memcpy (dst src : list Z) (n : nat) : list Z := take n src ++ drop n dst.
(** [strncpy] into an array of [n] characters. *)
Fixpoint strncpy (n : nat) (src : list Z) : list Z :=
  match n, src with
  | O, _ => []
  | S n, [] => 0 :: strncpy n []
  | S n, c :: src => if c =? 0 then 0 :: strncpy n [] else c :: strncpy n src
  end.

(** What the transmission hook of a device points to: nothing yet, the driver's
    transmit function, or the wrapper that takes the device's mutex around it. *)
Inductive xmit_method := XMIT_NULL | HARD_START_XMIT | RTDEV_LOCKED_XMIT.

(** The network device.  The driver's DMA hooks are its own code: [map_rtskb]
    is the function a driver installs (buffer address to DMA address),
    [unmap_rtskb] tells whether it installs an unmap function, whose calls are
    logged. *)
Record rtnet_device := mk_device {
  vers : Z;
  name : list Z;
  ifindex : Z;
  refcount : Z;
  flags : Z;
  priv_flags : Z;
  dtype : Z;
  broadcast : list Z;
  dev_addr : list Z;
  addr_len : nat;
  local_ip : Z;
  broadcast_ip : Z;
  link_state : Z;
  mtu : Z;
  add_rtskbs : Z;
  features : Z;
  hard_header_len : Z;
  start_xmit : xmit_method;
  map_rtskb : option (nat → Z);
  unmap_rtskb : bool;
}.
#[export] Instance device_eta : Settable rtnet_device := λ r,
  mk_device (vers r) (name r) (ifindex r) (refcount r) (flags r) (priv_flags r) (dtype r)
    (broadcast r) (dev_addr r) (addr_len r) (local_ip r) (broadcast_ip r) (link_state r)
    (mtu r) (add_rtskbs r) (features r) (hard_header_len r) (start_xmit r) (map_rtskb r)
    (unmap_rtskb r).

(** The socket (stack/include/rtnet_socket.h) with the part of its RTDM context the
    stack uses.  [skb_pool] and [incoming] are queue objects; [pending_sem] is the
    count of the semaphore, [None] when it is destroyed; of the union, the member of
    the IP sockets. *)
Record rtsocket := mk_socket {
  so_protocol : Z;
  skb_pool : nat;
  so_pool_size : Z;
  incoming : nat;
  so_priority : Z;
  so_timeout : Z;
  pending_sem : option Z;
  callback_func : option nat;
  callback_arg : Z;
  inet_saddr : Z;
  inet_daddr : Z;
  inet_sport : Z;
  inet_dport : Z;
  reg_index : Z;
  inet_tos : Z;
  inet_state : Z;
  close_lock_count : Z;
  pool_closed : bool;
}.
#[export] Instance socket_eta : Settable rtsocket := λ r,
  mk_socket (so_protocol r) (skb_pool r) (so_pool_size r) (incoming r) (so_priority r) (so_timeout r)
    (pending_sem r) (callback_func r) (callback_arg r) (inet_saddr r) (inet_daddr r) (inet_sport r)
    (inet_dport r) (reg_index r) (inet_tos r) (inet_state r) (close_lock_count r) (pool_closed r).

(** The memory of the stack core and its static variables.  [slab] lists the
    objects the slab allocator of the kernel will hand out next, each with the
    contents of its data area; [unmap_log] the calls of the drivers' unmap
    functions so far, as pairs of device and buffer, and [xmit_log] those of their
    transmit functions, as device, buffer and the bytes of the packet. *)
Record kstate := mk_kstate {
  skbs : gmap nat rtskb;
  queues : gmap nat rtskb_queue;
  prioqs : gmap nat rtskb_prio_queue;
  devs : gmap nat rtnet_device;
  slab : list (nat * list Z);
  rtskb_list : list nat;
  rtnet_devices : list (option nat);
  loopback_device : option nat;
  rtskb_pools : Z;
  rtskb_pools_max : Z;
  rtskb_amount : Z;
  rtskb_amount_max : Z;
  unmap_log : list (nat * nat);
  xmit_log : list (nat * nat * list Z);
}.
#[export] Instance kstate_eta : Settable kstate := λ r,
  mk_kstate (skbs r) (queues r) (prioqs r) (devs r) (slab r) (rtskb_list r)
    (rtnet_devices r) (loopback_device r) (rtskb_pools r) (rtskb_pools_max r)
    (rtskb_amount r) (rtskb_amount_max r) (unmap_log r) (xmit_log r).

(** ** Memory access *)

Definition skb_load (p : nat) : M kstate rtskb := h ← gets skbs; deref (h !! p).
Definition skb_store (p : nat) (x : rtskb) : M kstate () :=
  modify (λ s, s <| skbs := <[p := x]> (skbs s) |>).
(** [p->f = ...]: a field update of an existing buffer. *)
Definition skb_upd (p : nat) (f : rtskb → rtskb) : M kstate () :=
  x ← skb_load p; skb_store p (f x).

Definition queue_load (q : nat) : M kstate rtskb_queue := m ← gets queues; deref (m !! q).
Definition queue_upd (q : nat) (f : rtskb_queue → rtskb_queue) : M kstate () :=
  x ← queue_load q; modify (λ s, s <| queues := <[q := f x]> (queues s) |>).

Definition prioq_load (q : nat) : M kstate rtskb_prio_queue :=
  m ← gets prioqs; deref (m !! q).
Definition prioq_upd (q : nat) (f : rtskb_prio_queue → rtskb_prio_queue) : M kstate () :=
  x ← prioq_load q; modify (λ s, s <| prioqs := <[q := f x]> (prioqs s) |>).

Definition dev_load (d : nat) : M kstate rtnet_device := m ← gets devs; deref (m !! d).
Definition dev_upd (d : nat) (f : rtnet_device → rtnet_device) : M kstate () :=
  x ← dev_load d; modify (λ s, s <| devs := <[d := f x]> (devs s) |>).

(** [RTNET_ASSERT(expr, func)]: a test that is compiled in only with
    [CONFIG_RTNET_CHECKED]; [true] means that the failure action runs. *)
Definition assert_fails `{Config} (expr : bool) : bool := CONFIG_RTNET_CHECKED && negb expr.

Lemma kstate_devs_id (k : kstate) ds : ds = devs k → k <| devs := ds |> = k.
Proof. intros ->. by destruct k. Qed.
Lemma kstate_devs_set (k : kstate) ds ds' : k <| devs := ds |> <| devs := ds' |> = k <| devs := ds' |>.
Proof. done. Qed.

Section wp_state.
Implicit Types s : kstate.
Lemma wp_skb_load p x Q s : skbs s !! p = Some x → Q x s → wp (skb_load p) Q s.
Proof. intros Hx HQ. unfold skb_load. wp_run. done. Qed.
Lemma wp_skb_upd p f x Q s :
  skbs s !! p = Some x → Q () (s <| skbs := <[p := f x]> (skbs s) |>) → wp (skb_upd p f) Q s.
Proof.
  intros Hx HQ. unfold skb_upd. apply wp_bind. eapply wp_skb_load; [done|]. by apply wp_modify.
Qed.
Lemma wp_queue_load q x Q s : queues s !! q = Some x → Q x s → wp (queue_load q) Q s.
Proof. intros Hx HQ. unfold queue_load. wp_run. done. Qed.
Lemma wp_queue_upd q f x Q s :
  queues s !! q = Some x → Q () (s <| queues := <[q := f x]> (queues s) |>) →
  wp (queue_upd q f) Q s.
Proof.
  intros Hx HQ. unfold queue_upd. apply wp_bind. eapply wp_queue_load; [done|]. by apply wp_modify.
Qed.
Lemma wp_prioq_load q x Q s : prioqs s !! q = Some x → Q x s → wp (prioq_load q) Q s.
Proof. intros Hx HQ. unfold prioq_load. wp_run. done. Qed.
Lemma wp_prioq_upd q f x Q s :
  prioqs s !! q = Some x → Q () (s <| prioqs := <[q := f x]> (prioqs s) |>) →
  wp (prioq_upd q f) Q s.
Proof.
  intros Hx HQ. unfold prioq_upd. apply wp_bind. eapply wp_prioq_load; [done|]. by apply wp_modify.
Qed.
Lemma wp_dev_load d x Q s : devs s !! d = Some x → Q x s → wp (dev_load d) Q s.
Proof. intros Hx HQ. unfold dev_load. wp_run. done. Qed.
Lemma wp_dev_upd d f x Q s :
  devs s !! d = Some x → Q () (s <| devs := <[d := f x]> (devs s) |>) → wp (dev_upd d f) Q s.
Proof.
  intros Hx HQ. unfold dev_upd. apply wp_bind. eapply wp_dev_load; [done|]. by apply wp_modify.
Qed.
End wp_state.

(** Symbolic execution of the memory accesses; the side condition is looked up
    in the context. *)
Ltac map_hyp := first [eassumption | solve [cbn; simplify_map_eq; eauto]].
Ltac kstep :=
  lazymatch goal with
  | |- wp (skb_load _) _ _ => eapply wp_skb_load; [map_hyp|]
  | |- wp (skb_upd _ _) _ _ => eapply wp_skb_upd; [map_hyp|]
  | |- wp (queue_load _) _ _ => eapply wp_queue_load; [map_hyp|]
  | |- wp (queue_upd _ _) _ _ => eapply wp_queue_upd; [map_hyp|]
  | |- wp (prioq_load _) _ _ => eapply wp_prioq_load; [map_hyp|]
  | |- wp (prioq_upd _ _) _ _ => eapply wp_prioq_upd; [map_hyp|]
  | |- wp (dev_load _) _ _ => eapply wp_dev_load; [map_hyp|]
  | |- wp (dev_upd _ _) _ _ => eapply wp_dev_upd; [map_hyp|]
  | _ => wp_step
  end; cbn beta iota.
Ltac kstep_all := repeat kstep.

(** Equality of two explicit states up to repeated updates of one object. *)
Ltac state_eq := cbn; rewrite ?insert_insert_eq; reflexivity.
