(* ===== verification/RtskbQueue.v ===== *)
(** * rtskb queues and prioritized queues (stack/include/rtskb.h)

    The inline queue operations, pointer by pointer, and their specification:
    a queue object represents a list of buffers, an operation on it is the
    corresponding operation on the list.  The operations whose name starts
    with two underscores are the bodies; the lock-protected variants run them
    with interrupts off and the queue's lock held, as one atomic step. *)
From S2P Require Import Prelude State.

(** ** Operations *)

Definition rtskb_queue_init (q : nat) : M kstate () :=
  queue_upd q (λ Q, Q <| first := None |> <| qlast := None |>).

Definition rtskb_queue_empty (q : nat) : M kstate bool :=
  Q ← queue_load q; mret (bool_decide (first Q = None)).

Definition __rtskb_queue_head (q skb : nat) : M kstate () :=
  x ← skb_load skb;
  chain_end ← deref (chain_end x);
  Q ← queue_load q;
  skb_upd chain_end (λ e, e <| next := first Q |>);;
  when (bool_decide (first Q = None)) (queue_upd q (λ Q, Q <| qlast := Some chain_end |>));;
  queue_upd q (λ Q, Q <| first := Some skb |>).

Definition __rtskb_queue_tail (q skb : nat) : M kstate () :=
  x ← skb_load skb;
  chain_end ← deref (chain_end x);
  skb_upd chain_end (λ e, e <| next := None |>);;
  Q ← queue_load q;
  match first Q with
  | None => queue_upd q (λ Q, Q <| first := Some skb |>)
  | Some _ => l ← deref (qlast Q); skb_upd l (λ e, e <| next := Some skb |>)
  end;;
  queue_upd q (λ Q, Q <| qlast := Some chain_end |>).

Definition __rtskb_dequeue (q : nat) : M kstate (option nat) :=
  Q ← queue_load q;
  match first Q with
  | Some result =>
      x ← skb_load result;
      queue_upd q (λ Q, Q <| first := next x |>);;
      skb_upd result (λ e, e <| next := None |>);;
      mret (Some result)
  | None => mret None
  end.

Definition __rtskb_dequeue_chain (q : nat) : M kstate (option nat) :=
  Q ← queue_load q;
  match first Q with
  | Some result =>
      x ← skb_load result;
      chain_end ← deref (chain_end x);
      e ← skb_load chain_end;
      queue_upd q (λ Q, Q <| first := next e |>);;
      skb_upd chain_end (λ e, e <| next := None |>);;
      mret (Some result)
  | None => mret None
  end.

(** The same operations with the queue's lock held around them. *)
Definition rtskb_queue_head : nat → nat → M kstate () := __rtskb_queue_head.
Definition rtskb_queue_tail : nat → nat → M kstate () := __rtskb_queue_tail.
Definition rtskb_dequeue : nat → M kstate (option nat) := __rtskb_dequeue.
Definition rtskb_dequeue_chain : nat → M kstate (option nat) := __rtskb_dequeue_chain.

(** *** Prioritized queues *)

(** [memset(prioqueue, 0, sizeof(struct rtskb_prio_queue))] *)
Definition rtskb_prio_queue_init (pq : nat) : M kstate () :=
  P ← prioq_load pq;
  prioq_upd pq (λ P, P <| usage := 0 |>);;
  foldr (λ i m, queue_upd (sub_base P + i) (λ _, mk_queue None None 0);; m) (mret ()) (seq 0 32).

(** [&prioqueue->queue[prio]]: out of bounds beyond [QUEUE_MIN_PRIO]. *)
Definition sub_queue (pq : rtskb_prio_queue) (prio : Z) : M kstate nat :=
  if (0 <=? prio) && (prio <=? QUEUE_MIN_PRIO) then mret (sub_base pq + Z.to_nat prio)%nat else ub.

(** [prio = skb->priority & RTSKB_PRIO_MASK; RTNET_ASSERT(prio <= 31, prio = 31;)] *)
Definition queue_prio `{Config} (x : rtskb) : Z :=
  let prio := Z.land (priority x) RTSKB_PRIO_MASK in
  if assert_fails (prio <=? 31) then 31 else prio.

Definition rtskb_prio_queue_empty (pq : nat) : M kstate bool :=
  P ← prioq_load pq; mret (usage P =? 0).

Definition __rtskb_prio_queue_head `{Config} (pq skb : nat) : M kstate () :=
  x ← skb_load skb;
  let prio := queue_prio x in
  P ← prioq_load pq;
  q ← sub_queue P prio;
  __rtskb_queue_head q skb;;
  prioq_upd pq (λ P, P <| usage := Z.setbit (usage P) prio |>).

Definition __rtskb_prio_queue_tail `{Config} (pq skb : nat) : M kstate () :=
  x ← skb_load skb;
  let prio := queue_prio x in
  P ← prioq_load pq;
  q ← sub_queue P prio;
  __rtskb_queue_tail q skb;;
  prioq_upd pq (λ P, P <| usage := Z.setbit (usage P) prio |>).

(** Linux' [ffz]: the number of the first zero bit of a word; undefined when
    all its bits are set.  The words here have at least 32 bits. *)
Fixpoint ffz_from (n : nat) (i w : Z) : Z :=
  match n with
  | O => i
  | S n => if Z.testbit w i then ffz_from n (i + 1) w else i
  end.
Definition ffz (w : Z) : Z := ffz_from 64 0 w.

(** [__change_bit]: toggles one bit. *)
Definition change_bit (i w : Z) : Z := Z.lxor w (2 ^ i).

Definition __rtskb_prio_dequeue (pq : nat) : M kstate (option nat) :=
  P ← prioq_load pq;
  if usage P =? 0 then mret None
  else
    let prio := ffz (Z.lnot (usage P)) in
    q ← sub_queue P prio;
    result ← __rtskb_dequeue q;
    empty ← rtskb_queue_empty q;
    when empty (prioq_upd pq (λ P, P <| usage := change_bit prio (usage P) |>));;
    mret result.

Definition rtskb_prio_dequeue_chain (pq : nat) : M kstate (option nat) :=
  P ← prioq_load pq;
  if usage P =? 0 then mret None
  else
    let prio := ffz (Z.lnot (usage P)) in
    q ← sub_queue P prio;
    result ← __rtskb_dequeue_chain q;
    empty ← rtskb_queue_empty q;
    when empty (prioq_upd pq (λ P, P <| usage := change_bit prio (usage P) |>));;
    mret result.

Definition rtskb_prio_queue_head `{Config} : nat → nat → M kstate () := __rtskb_prio_queue_head.
Definition rtskb_prio_queue_tail `{Config} : nat → nat → M kstate () := __rtskb_prio_queue_tail.
Definition rtskb_prio_dequeue : nat → M kstate (option nat) := __rtskb_prio_dequeue.

(** ** Specification *)

(** [Q] represents the list of buffers [l]: [first] and the [next] fields lead
    through [l] and [last] is its last element.  In an empty queue [last] is
    stale and never read. *)
Definition is_queue (h : gmap nat rtskb) (Q : rtskb_queue) (l : list nat) : Prop :=
  llist next h (first Q) l ∧ (l ≠ [] → qlast Q = last l).

(** [p] is the first buffer of the chain [c]: the [next] fields lead through
    [c], and [chain_end] of [p] is its last buffer. *)
Definition is_chain (h : gmap nat rtskb) (p : nat) (c : list nat) : Prop :=
  ∃ x r, head c = Some p ∧ h !! p = Some x ∧ chain_end x = last c ∧
         lseg next h (Some p) c r ∧ NoDup c.

(** [h'] is [h] with other [next] fields, and only for the nodes in [W]. *)
Definition relinked (W : list nat) (h h' : gmap nat rtskb) : Prop :=
  ∀ a, match h !! a, h' !! a with
       | Some x, Some y => y = x <| next := next y |> ∧ (a ∉ W → y = x)
       | None, None => True
       | _, _ => False
       end.

Lemma relinked_refl W h : relinked W h h.
Proof. intros a. destruct (h !! a) as [[]|]; done. Qed.
Lemma relinked_insert W h h' a x y :
  relinked W h h' → h' !! a = Some x → y = x <| next := next y |> → a ∈ W →
  relinked W h (<[a := y]> h').
Proof.
  intros HR Ha Hy HW b. specialize (HR b). destruct (decide (a = b)) as [->|].
  - simplify_map_eq. destruct (h !! b) as [z|]; [|done]. destruct HR as [Hz _].
    split; [|set_solver]. rewrite Hy, Hz. by destruct z, y.
  - simplify_map_eq. done.
Qed.
Lemma relinked_mono W W' h h' : relinked W h h' → W ⊆ W' → relinked W' h h'.
Proof.
  intros HR HW a. specialize (HR a). destruct (h !! a), (h' !! a); try done.
  destruct HR as [? H2]. split; [done|]. set_solver.
Qed.
Lemma relinked_frame W h h' p l q :
  relinked W h h' → (∀ a, a ∈ l → a ∉ W) → lseg next h p l q → lseg next h' p l q.
Proof.
  intros HR Hd Hl. eapply lseg_frame; [exact Hl|]. intros a x Ha Hx.
  specialize (HR a). rewrite Hx in HR. destruct (h' !! a) as [y|]; [|done].
  destruct HR as [_ E]. rewrite E by auto. eauto.
Qed.
Lemma is_queue_relinked W h h' Q l :
  relinked W h h' → (∀ a, a ∈ l → a ∉ W) → is_queue h Q l → is_queue h' Q l.
Proof. intros HR Hd [Hl Hlast]. split; [|done]. by eapply relinked_frame. Qed.
Lemma is_queue_first h Q l : is_queue h Q l → first Q = head l.
Proof. intros [Hl _]. destruct l; simpl in *; [done|by destruct Hl]. Qed.
Lemma is_queue_NoDup h Q l : is_queue h Q l → NoDup l.
Proof. intros [Hl _]. by eapply llist_NoDup. Qed.

(** A chain ends in a node that is in the heap. *)
Lemma is_chain_end h p c :
  is_chain h p c → ∃ x c' e y, h !! p = Some x ∧ chain_end x = Some e ∧ c = c' ++ [e] ∧
                   e ∉ c' ∧ h !! e = Some y ∧ ∃ r, lseg next h (Some p) (c' ++ [e]) r.
Proof.
  intros (x & r & Hh & Hx & Hce & Hl & Hnd).
  destruct c as [|e c' _] using rev_ind; [done|].
  rewrite last_snoc in Hce. apply NoDup_app in Hnd as (_ & Hd & _).
  destruct (lseg_lookup _ _ _ _ _ e Hl) as [y Hy]; [set_solver|].
  exists x, c', e, y. split_and!; eauto. set_solver.
Qed.

Section specs.
Implicit Types (s : kstate) (l c : list nat) (p q : nat).

Lemma queue_tail_spec s q Q l p c :
  queues s !! q = Some Q → is_queue (skbs s) Q l → is_chain (skbs s) p c →
  (∀ a, a ∈ c → a ∉ l) →
  wp (__rtskb_queue_tail q p)
     (λ _ s', ∃ h' Q', s' = s <| skbs := h' |> <| queues := <[q := Q']> (queues s) |> ∧
        is_queue h' Q' (l ++ c) ∧ pool_balance Q' = pool_balance Q ∧
        relinked (l ++ c) (skbs s) h') s.
Proof.
  intros HQ Hq Hc Hd.
  destruct (is_chain_end _ _ _ Hc) as (x & c' & e & y & Hx & Hce & -> & He & Hy & r & Hl).
  set (h1 := <[e := y <| next := None |>]> (skbs s)).
  assert (HR1 : relinked (l ++ c' ++ [e]) (skbs s) h1).
  { eapply relinked_insert; [apply relinked_refl|done|by destruct y|set_solver]. }
  assert (Hc1 : lseg next h1 (Some p) (c' ++ [e]) None) by (eapply lseg_relink; eauto).
  destruct Hq as [Hql Hqlast].
  assert (Hl1 : lseg next h1 (first Q) l None) by (apply lseg_insert_ne; [set_solver|done]).
  unfold __rtskb_queue_tail. kstep_all.
  destruct l as [|l0 lr] eqn:El using rev_ind.
  - simpl in Hql. rewrite Hql. kstep_all. eexists h1, _.
    split; [state_eq|]. split; [|split; [done|done]].
    split; [done|]. intros _. by rewrite app_nil_l, last_snoc.
  - clear IHlr. specialize (Hqlast ltac:(by destruct lr)). rewrite last_snoc in Hqlast.
    destruct (lseg_lookup _ _ _ _ _ l0 Hl1) as [z Hz]; [set_solver|].
    assert (Hf : ∃ f, first Q = Some f) by (destruct lr; simpl in Hql; destruct Hql; eauto).
    destruct Hf as [f Hf]. pose proof Hf as Hf'. cbn. rewrite Hf. kstep_all.
    assert (Hnd : l0 ∉ lr).
    { apply llist_NoDup, NoDup_app in Hl1 as (_ & Hl1 & _). set_solver. }
    eexists (<[l0 := z <| next := Some p |>]> h1), _.
    split; [reflexivity|]. split; [|split; [done|]].
    + split.
      * apply lseg_app. exists (Some p). cbn. split.
        -- eapply lseg_relink; [done|exact Hl1|done].
        -- apply lseg_insert_ne; [set_solver|done].
      * intros _. cbn. by rewrite app_assoc, last_snoc.
    + eapply relinked_insert; [exact HR1|done|by destruct z|set_solver].
Qed.

Lemma queue_head_spec s q Q l p c :
  queues s !! q = Some Q → is_queue (skbs s) Q l → is_chain (skbs s) p c →
  (∀ a, a ∈ c → a ∉ l) →
  wp (__rtskb_queue_head q p)
     (λ _ s', ∃ h' Q', s' = s <| skbs := h' |> <| queues := <[q := Q']> (queues s) |> ∧
        is_queue h' Q' (c ++ l) ∧ pool_balance Q' = pool_balance Q ∧
        relinked c (skbs s) h') s.
Proof.
  intros HQ [Hql Hqlast] Hc Hd.
  destruct (is_chain_end _ _ _ Hc) as (x & c' & e & y & Hx & Hce & -> & He & Hy & r & Hl).
  set (h1 := <[e := y <| next := first Q |>]> (skbs s)).
  assert (HR1 : relinked (c' ++ [e]) (skbs s) h1).
  { eapply relinked_insert; [apply relinked_refl|done|by destruct y|set_solver]. }
  assert (Hh : llist next h1 (Some p) ((c' ++ [e]) ++ l)).
  { apply lseg_app. exists (first Q). split; [by eapply lseg_relink|].
    apply lseg_insert_ne; [set_solver|done]. }
  unfold __rtskb_queue_head. kstep_all.
  destruct l as [|l0 l]; simpl in Hql.
  - rewrite Hql. cbn. kstep_all. eexists h1, _.
    split; [unfold h1; rewrite Hql; state_eq|]. split; [|split; [done|done]].
    split; [done|]. intros _. by rewrite app_nil_r, last_snoc.
  - destruct Hql as [Hf _]. rewrite (bool_decide_eq_false_2 (first Q = None)) by congruence.
    kstep_all. eexists h1, _. split; [reflexivity|]. split; [|split; [done|done]].
    split; [done|]. intros _. cbn. rewrite Hqlast by done. by rewrite !last_app, last_cons; destruct (last l).
Qed.

Lemma dequeue_spec s q Q l :
  queues s !! q = Some Q → is_queue (skbs s) Q l →
  wp (__rtskb_dequeue q)
     (λ r s', match l with
              | [] => r = None ∧ s' = s
              | a :: l' => r = Some a ∧ ∃ x Q', skbs s !! a = Some x ∧
                  s' = s <| skbs := <[a := x <| next := None |>]> (skbs s) |>
                         <| queues := <[q := Q']> (queues s) |> ∧
                  is_queue (skbs s') Q' l' ∧ pool_balance Q' = pool_balance Q
              end) s.
Proof.
  intros HQ Hq. pose proof (is_queue_NoDup _ _ _ Hq) as Hnd.
  destruct Hq as [Hql Hqlast]. unfold __rtskb_dequeue. kstep_all.
  destruct l as [|a l]; simpl in Hql.
  - rewrite Hql. by kstep_all.
  - destruct Hql as (Hf & x & Hx & Hl). rewrite Hf. kstep_all. split; [done|].
    eexists x, _. split; [done|]. split; [reflexivity|]. split; [|done].
    apply NoDup_cons in Hnd as [Ha _]. split.
    + cbn. by apply lseg_insert_ne.
    + intros Hne. cbn. rewrite Hqlast by done. rewrite last_cons.
      destruct l as [|b l]; [done|]. by destruct (last (b :: l)) eqn:E; [|apply last_None in E].
Qed.

Lemma dequeue_chain_spec s q Q a c l :
  queues s !! q = Some Q → is_queue (skbs s) Q (c ++ l) → is_chain (skbs s) a c →
  wp (__rtskb_dequeue_chain q)
     (λ r s', r = Some a ∧ ∃ h' Q',
        s' = s <| skbs := h' |> <| queues := <[q := Q']> (queues s) |> ∧
        is_queue h' Q' l ∧ lseg next h' (Some a) c None ∧
        pool_balance Q' = pool_balance Q ∧ relinked c (skbs s) h') s.
Proof.
  intros HQ Hq Hc. pose proof (is_queue_NoDup _ _ _ Hq) as Hnd. destruct Hq as [Hql Hqlast].
  assert (Hh : head c = Some a) by (by destruct Hc as (? & ? & ? & _)).
  destruct (is_chain_end _ _ _ Hc) as (x & c' & e & y & Hx & Hce & -> & He & Hy & r & Hl).
  assert (Hf : first Q = Some a).
  { destruct c' as [|b c']; simpl in *; destruct Hql; congruence. }
  apply lseg_app in Hql as (r' & Hc1 & Hl1). rewrite Hf in Hc1.
  assert (Hn : next y = r').
  { apply lseg_app in Hc1 as (t & _ & -> & z & Hz & E). by simplify_eq. }
  unfold __rtskb_dequeue_chain. kstep_all. rewrite Hf. kstep_all. split; [done|].
  eexists _, _. split; [reflexivity|].
  apply NoDup_app in Hnd as (_ & Hnd & _). split; [|split; [|split; [done|]]].
  - split; cbn.
    + rewrite Hn. apply lseg_insert_ne; [set_solver|done].
    + intros Hne. rewrite Hqlast by (by destruct c'). rewrite last_app.
      by destruct (last l) eqn:E; [|apply last_None in E].
  - by eapply lseg_relink.
  - eapply relinked_insert; [apply relinked_refl|done|by destruct y|set_solver].
Qed.
End specs.

(** ** Prioritized queues refine a list of 32 FIFO lists *)

Lemma ffz_from_spec n i w :
  (∃ k, i ≤ k < i + Z.of_nat n ∧ Z.testbit w k = false) →
  i ≤ ffz_from n i w < i + Z.of_nat n ∧ Z.testbit w (ffz_from n i w) = false ∧
  ∀ j, i ≤ j < ffz_from n i w → Z.testbit w j = true.
Proof.
  revert i. induction n as [|n IH]; intros i (k & Hk & Hw); [lia|]. simpl ffz_from.
  destruct (Z.testbit w i) eqn:Hi.
  - assert (k ≠ i) by congruence.
    destruct (IH (i + 1)) as (Hr & Hf & Hall); [exists k; split; [lia|done]|].
    split_and!; [lia|lia|done|]. intros j Hj. destruct (decide (j = i)) as [->|]; [done|].
    apply Hall. lia.
  - split_and!; [lia|lia|done|lia].
Qed.

(** The lowest set bit of a non-zero 32 bit word. *)
Lemma ffz_lowest u :
  0 ≤ u < 2 ^ 32 → u ≠ 0 →
  0 ≤ ffz (Z.lnot u) < 32 ∧ Z.testbit u (ffz (Z.lnot u)) = true ∧
  ∀ j, 0 ≤ j < ffz (Z.lnot u) → Z.testbit u j = false.
Proof.
  intros Hu Hu0. assert (0 < u) by lia.
  assert (Hlog : Z.testbit u (Z.log2 u) = true) by (by apply Z.bit_log2).
  assert (0 ≤ Z.log2 u < 32).
  { split; [apply Z.log2_nonneg|]. apply Z.log2_lt_pow2; lia. }
  destruct (ffz_from_spec 64 0 (Z.lnot u)) as (Hr & Hf & Hall).
  { exists (Z.log2 u). split; [lia|]. by rewrite Z.lnot_spec, Hlog by lia. }
  fold (ffz (Z.lnot u)) in Hr, Hf, Hall.
  assert (Hbit : Z.testbit u (ffz (Z.lnot u)) = true).
  { rewrite Z.lnot_spec in Hf by lia. by apply negb_false_iff. }
  split; [split; [lia|]|split; [done|]].
  - destruct (decide (ffz (Z.lnot u) < 32)) as [|Hge]; [done|].
    rewrite Z.bits_above_log2 in Hbit by lia. done.
  - intros j Hj. specialize (Hall j ltac:(lia)). rewrite Z.lnot_spec in Hall by lia.
    by apply negb_true_iff.
Qed.

Lemma testbit_change_bit i j w :
  0 ≤ i → 0 ≤ j → Z.testbit (change_bit i w) j = xorb (Z.testbit w j) (bool_decide (i = j)).
Proof.
  intros Hi Hj. unfold change_bit. rewrite Z.lxor_spec, Z.pow2_bits_eqb by done.
  f_equal. destruct (Z.eqb_spec i j).
  - by rewrite bool_decide_eq_true_2.
  - by rewrite bool_decide_eq_false_2.
Qed.

Lemma bits_range_32 u :
  0 ≤ u → (∀ j, 32 ≤ j → Z.testbit u j = false) → u < 2 ^ 32.
Proof.
  intros H0 H. destruct (decide (u = 0)) as [->|]; [lia|].
  apply Z.log2_lt_pow2; [lia|]. destruct (decide (Z.log2 u < 32)) as [|Hge]; [done|].
  pose proof (Z.bit_log2 u ltac:(lia)) as Hb. rewrite H in Hb; [done|lia].
Qed.

Definition nonempty (l : list nat) : bool := match l with [] => false | _ => true end.

(** The prioritized queue at [pq] holds the list [C !! i] at priority [i]; bit
    [i] of [usage] says whether that list is non-empty. *)
Record is_prio_queue (s : kstate) (pq : nat) (C : list (list nat)) : Prop := {
  pq_length : length C = 32%nat;
  pq_object : ∃ P, prioqs s !! pq = Some P ∧ 0 ≤ usage P < 2 ^ 32 ∧
    ∀ i l, C !! i = Some l →
      Z.testbit (usage P) (Z.of_nat i) = nonempty l ∧
      ∃ Q, queues s !! (sub_base P + i)%nat = Some Q ∧ is_queue (skbs s) Q l;
  pq_disjoint : ∀ i j l k a, C !! i = Some l → C !! j = Some k → a ∈ l → a ∈ k → i = j;
}.

(** Replacing the list of one priority. *)
Lemma is_prio_queue_update s pq C P i l l' W h' Q' u' :
  is_prio_queue s pq C → prioqs s !! pq = Some P → C !! i = Some l →
  is_queue h' Q' l' → relinked W (skbs s) h' →
  (∀ a, a ∈ W ∨ a ∈ l' → ∀ j k, j ≠ i → C !! j = Some k → a ∉ k) →
  0 ≤ u' → (∀ j, 0 ≤ j → Z.testbit u' j =
    if decide (j = Z.of_nat i) then nonempty l' else Z.testbit (usage P) j) →
  is_prio_queue
    (s <| skbs := h' |> <| queues := <[(sub_base P + i)%nat := Q']> (queues s) |>
       <| prioqs := <[pq := P <| usage := u' |>]> (prioqs s) |>) pq (<[i := l']> C).
Proof.
  intros [Hlen (P0 & HP0 & Hu & Hq) Hdis] HP Hi HQ' HR HW Hu' Hbits.
  rewrite HP in HP0. injection HP0 as <-. pose proof (lookup_lt_Some _ _ _ Hi) as Hlt.
  assert (Hub : u' < 2 ^ 32).
  { apply bits_range_32; [done|]. intros j Hj. rewrite Hbits by lia.
    rewrite decide_False by lia. destruct (decide (usage P = 0)) as [->|]; [by rewrite Z.bits_0|].
    apply Z.bits_above_log2; [lia|]. pose proof (Z.log2_lt_pow2 (usage P) 32). lia. }
  split.
  - by rewrite length_insert.
  - eexists. cbn. rewrite lookup_insert_eq. split; [done|]. split; [done|]. cbn.
    intros j k [(<- & <- & _)|(Hne & Hk)]%list_lookup_insert_Some.
    + rewrite Hbits, decide_True by lia. split; [done|]. exists Q'. by rewrite lookup_insert_eq.
    + rewrite Hbits, decide_False by lia. destruct (Hq _ _ Hk) as (Hb & Q & HQ & Hisq).
      split; [done|]. exists Q. rewrite lookup_insert_ne by lia. split; [done|].
      eapply is_queue_relinked; [exact HR| |done]. intros a Ha HaW. by eapply (HW a); eauto.
  - intros j1 j2 k1 k2 a [(<- & <- & _)|(Hne1 & Hk1)]%list_lookup_insert_Some
      [(<- & <- & _)|(Hne2 & Hk2)]%list_lookup_insert_Some Ha1 Ha2; [done|..].
    + exfalso. by eapply (HW a); eauto.
    + exfalso. by eapply (HW a); eauto.
    + by eapply Hdis.
Qed.

(** The case in which the [usage] word stays as it is. *)
Lemma is_prio_queue_keep s pq C P i l l' W h' Q' :
  is_prio_queue s pq C → prioqs s !! pq = Some P → C !! i = Some l →
  is_queue h' Q' l' → relinked W (skbs s) h' →
  (∀ a, a ∈ W ∨ a ∈ l' → ∀ j k, j ≠ i → C !! j = Some k → a ∉ k) →
  nonempty l = nonempty l' →
  is_prio_queue
    (s <| skbs := h' |> <| queues := <[(sub_base P + i)%nat := Q']> (queues s) |>)
    pq (<[i := l']> C).
Proof.
  intros Hpq HP Hi HQ' HR HW Hne.
  pose proof (is_prio_queue_update s pq C P i l l' W h' Q' (usage P) Hpq HP Hi HQ' HR HW) as HU.
  assert (HPe : P <| usage := usage P |> = P) by (by destruct P).
  rewrite HPe in HU. rewrite insert_id in HU by done.
  destruct s. apply HU; destruct Hpq as [_ (P0 & HP0 & Hu & Hq) _];
    rewrite HP in HP0; injection HP0 as <-; [lia|].
  intros j Hj. case_decide as Hd; [|done]. subst. destruct (Hq _ _ Hi) as [-> _]. done.
Qed.

Lemma wp_sub_queue P i Q s :
  (i < 32)%nat → Q (sub_base P + i)%nat s → wp (sub_queue P (Z.of_nat i)) Q s.
Proof.
  intros Hi HQ. unfold sub_queue, QUEUE_MIN_PRIO.
  replace ((0 <=? Z.of_nat i) && (Z.of_nat i <=? 31)) with true by lia.
  by rewrite Nat2Z.id.
Qed.

Lemma wp_queue_empty q Q0 l Q s :
  queues s !! q = Some Q0 → is_queue (skbs s) Q0 l → Q (bool_decide (l = [])) s →
  wp (rtskb_queue_empty q) Q s.
Proof.
  intros Hq Hl HQ. unfold rtskb_queue_empty. kstep_all.
  rewrite (is_queue_first _ _ _ Hl).
  erewrite (bool_decide_ext (head l = None)); [exact HQ|]. by destruct l.
Qed.

(** [relinked] of a single cut node, as [rtskb_dequeue] does it. *)
Lemma relinked_cut h a x : h !! a = Some x → relinked [a] h (<[a := x <| next := None |>]> h).
Proof.
  intros Ha. eapply relinked_insert; [apply relinked_refl|done|by destruct x|set_solver].
Qed.

(** What an operation on the prioritized queue [pq] may change: the links of the buffers in
    [W], the sub-queues and the queue object itself. *)
Record prio_step (s s' : kstate) (pq : nat) (W : list nat) : Prop := {
  ps_world : s' = s <| skbs := skbs s' |> <| queues := queues s' |> <| prioqs := prioqs s' |>;
  ps_skbs : relinked W (skbs s) (skbs s');
  ps_queues : ∀ P q, prioqs s !! pq = Some P → (∀ i, (i < 32)%nat → q ≠ (sub_base P + i)%nat) → queues s' !! q = queues s !! q;
  ps_others : ∀ pq', pq' ≠ pq → prioqs s' !! pq' = prioqs s !! pq';
  ps_base : ∀ P, prioqs s !! pq = Some P → ∃ P', prioqs s' !! pq = Some P' ∧ sub_base P' = sub_base P;
}.
(** The state after one sub-queue was exchanged, with or without the [usage] word. *)
Lemma prio_step_queue s pq P W h' i Q' :
  prioqs s !! pq = Some P → relinked W (skbs s) h' → (i < 32)%nat →
  prio_step s (s <| skbs := h' |> <| queues := <[(sub_base P + i)%nat := Q']> (queues s) |>) pq W.
Proof.
  intros HP HR Hi. split; cbn; [by destruct s|done| |done|eauto].
  intros P0 q HP0 Hq. simplify_eq. rewrite lookup_insert_ne by (symmetry; by apply Hq). done.
Qed.
Lemma prio_step_usage s pq P W h' i Q' u :
  prioqs s !! pq = Some P → relinked W (skbs s) h' → (i < 32)%nat →
  prio_step s (s <| skbs := h' |> <| queues := <[(sub_base P + i)%nat := Q']> (queues s) |>
                 <| prioqs := <[pq := P <| usage := u |>]> (prioqs s) |>) pq W.
Proof.
  intros HP HR Hi. split; cbn; [by destruct s|done|..].
  - intros P0 q HP0 Hq. simplify_eq. rewrite lookup_insert_ne by (symmetry; by apply Hq). done.
  - intros pq' Hne. by rewrite lookup_insert_ne.
  - intros P0 HP0. simplify_eq. rewrite lookup_insert_eq. eauto.
Qed.

Lemma prio_dequeue_run s pq C :
  is_prio_queue s pq C →
  wp (__rtskb_prio_dequeue pq)
     (λ r s',
        (r = None ∧ s' = s ∧ ∀ i l, C !! i = Some l → l = []) ∨
        (∃ i a l, C !! i = Some (a :: l) ∧ r = Some a ∧
                  (∀ j k, (j < i)%nat → C !! j = Some k → k = []) ∧
                  is_prio_queue s' pq (<[i := l]> C) ∧ prio_step s s' pq [a])) s.
Proof.
  intros Hpq. pose proof Hpq as [Hlen (P & HP & Hu & Hq) Hdis].
  unfold __rtskb_prio_dequeue. kstep_all. destruct (Z.eqb_spec (usage P) 0) as [Hz|Hnz].
  { kstep_all. left. split_and!; [done..|]. intros i l Hi. destruct (Hq _ _ Hi) as [Hb _].
    rewrite Hz, Z.bits_0 in Hb. by destruct l. }
  destruct (ffz_lowest _ Hu Hnz) as (Hr & Hbit & Hlow).
  set (prio := ffz (Z.lnot (usage P))) in *. rewrite <-(Z2Nat.id prio) by lia.
  set (i := Z.to_nat prio). assert (Hi : Z.of_nat i = prio) by lia.
  destruct (lookup_lt_is_Some_2 C i) as [l Hl]; [lia|].
  destruct (Hq _ _ Hl) as (Hb & Q & HQ & Hisq). rewrite Hi, Hbit in Hb.
  destruct l as [|a l]; [done|].
  apply wp_bind, wp_sub_queue; [lia|]. apply wp_bind.
  eapply wp_mono; [|by eapply dequeue_spec]. cbn beta.
  intros r s' (-> & x & Q' & Hx & -> & Hq' & _). apply wp_bind.
  eapply wp_queue_empty; [cbn; by rewrite lookup_insert_eq|exact Hq'|].
  assert (Hothers : ∀ j k, (j < i)%nat → C !! j = Some k → k = []).
  { intros j k Hj Hk. destruct (Hq _ _ Hk) as [Hbk _]. rewrite Hlow in Hbk by lia.
    by destruct k. }
  assert (HW : ∀ b, b ∈ [a] ∨ b ∈ l → ∀ j k, j ≠ i → C !! j = Some k → b ∉ k).
  { intros b Hb1 j k Hj Hk Hbk. apply Hj. eapply Hdis; [exact Hk|exact Hl|done|set_solver]. }
  case_bool_decide as Hempty; [subst l|]; unfold when; kstep_all; right; exists i, a; eexists;
    (split; [exact Hl|]); (split; [done|]); (split; [exact Hothers|]); (split; [|first [eapply (prio_step_usage s) | eapply (prio_step_queue s)]; [done|by apply relinked_cut|lia]]).
  - rewrite Hi. eapply (is_prio_queue_update s); eauto using relinked_cut.
    + unfold change_bit. apply Z.lxor_nonneg. lia.
    + intros j Hj. rewrite testbit_change_bit by lia. case_decide as Hd.
      * by rewrite bool_decide_eq_true_2, Hd, Hi, Hbit by lia.
      * rewrite bool_decide_eq_false_2 by lia. by rewrite xorb_false_r.
  - eapply (is_prio_queue_keep s); eauto using relinked_cut. by destruct l.
Qed.

(** C23: [__rtskb_prio_dequeue] on a prioritized queue returns the first buffer
    of the highest priority (lowest number) whose list is non-empty and removes
    exactly it; on an empty queue it returns NULL and changes nothing.  It never
    faults and keeps the [usage] bits in step with the lists. *)
Theorem prio_dequeue_correct s pq C :
  is_prio_queue s pq C →
  wp (__rtskb_prio_dequeue pq)
     (λ r s',
        (r = None ∧ s' = s ∧ ∀ i l, C !! i = Some l → l = []) ∨
        (∃ i a l, C !! i = Some (a :: l) ∧ r = Some a ∧
                  (∀ j k, (j < i)%nat → C !! j = Some k → k = []) ∧
                  is_prio_queue s' pq (<[i := l]> C))) s.
Proof.
  intros Hpq. eapply wp_mono; [|by apply prio_dequeue_run]. intros r s' [Hr|(i & a & l & Hr)]; [by left|].
  right. exists i, a, l. tauto.
Qed.

Lemma prio_queue_tail_run `{Config} s pq C p x c i l :
  is_prio_queue s pq C → is_chain (skbs s) p c → skbs s !! p = Some x →
  (∀ a j k, a ∈ c → C !! j = Some k → a ∉ k) →
  queue_prio x = Z.of_nat i → C !! i = Some l →
  wp (__rtskb_prio_queue_tail pq p) (λ _ s', is_prio_queue s' pq (<[i := l ++ c]> C) ∧ prio_step s s' pq (l ++ c)) s.
Proof.
  intros Hpq Hc Hx Hfresh Hprio Hl. pose proof Hpq as [Hlen (P & HP & Hu & Hq) Hdis].
  pose proof (lookup_lt_Some _ _ _ Hl) as Hi. destruct (Hq _ _ Hl) as (Hb & Q & HQ & Hisq).
  unfold __rtskb_prio_queue_tail. kstep_all. rewrite Hprio.
  apply wp_sub_queue; [lia|]. apply wp_bind.
  eapply wp_mono; [|eapply queue_tail_spec; eauto].
  cbn beta. intros _ s' (h' & Q' & -> & Hq' & _ & HR). kstep_all.
  assert (Hne : nonempty (l ++ c) = true).
  { destruct Hc as (? & ? & Hh & _). by destruct l, c. }
  split; [|by eapply (prio_step_usage s); [done|done|lia]].
  eapply (is_prio_queue_update s); eauto.
  - intros a Ha j k Hj Hk Hak. assert (a ∈ l ++ c) as [Hal|Hac]%elem_of_app by (by destruct Ha).
    + apply Hj. eapply Hdis; [exact Hk|exact Hl|done..].
    + by eapply Hfresh.
  - rewrite Z.setbit_spec'. apply Z.lor_nonneg. split; [lia|]. apply Z.pow_nonneg. lia.
  - intros j Hj. rewrite Z.setbit_eqb by lia. case_decide as Hd.
    + by rewrite Hd, Z.eqb_refl, Hne.
    + destruct (Z.eqb_spec (Z.of_nat i) j); [lia|]. done.
Qed.

(** [__rtskb_prio_queue_tail] appends the whole chain of buffers to the list
    of the priority in the low 16 bits of [skb->priority], behind every buffer
    already waiting there, and leaves the other priorities alone. *)
Theorem prio_queue_tail_correct `{Config} s pq C p x c i l :
  is_prio_queue s pq C → is_chain (skbs s) p c → skbs s !! p = Some x →
  (∀ a j k, a ∈ c → C !! j = Some k → a ∉ k) →
  queue_prio x = Z.of_nat i → C !! i = Some l →
  wp (__rtskb_prio_queue_tail pq p) (λ _ s', is_prio_queue s' pq (<[i := l ++ c]> C)) s.
Proof.
  intros. eapply wp_mono; [|by eapply prio_queue_tail_run]. by intros [] s' [? _].
Qed.
