(* ===== verification/Rtskb.v ===== *)
(** * rtskb pools (stack/rtskb.c) and DMA mapping of buffers (stack/rtdev.c)

    Allocation, release and exchange of buffers between pools.  A pool is a
    queue of free buffers; every buffer carries the pool it returns to.  The
    slab allocator of the kernel is represented by the list of objects it will
    hand out ([slab]); the DMA hooks of a device are its driver's. *)
From S2P Require Import Prelude State RtskbQueue.

(** ** DMA mapping *)

Definition rtskb_map (d skb : nat) : M kstate Z :=
  D ← dev_load d;
  map_fn ← deref (map_rtskb D);
  let addr := map_fn skb in
  if addr =? RTSKB_UNMAPPED then mret (- ENOMEM)
  else
    x ← skb_load skb;
    if negb (buf_dma_addr x =? RTSKB_UNMAPPED) && negb (addr =? buf_dma_addr x)
    then mret (- EACCES)
    else skb_upd skb (λ x, x <| buf_dma_addr := addr |>);; mret 0.

(** The loop over the device table: the first error ends it. *)
Fixpoint rtdev_map_loop (tbl : list (option nat)) (skb : nat) : M kstate Z :=
  match tbl with
  | [] => mret 0
  | None :: tbl => rtdev_map_loop tbl skb
  | Some d :: tbl =>
      D ← dev_load d;
      match map_rtskb D with
      | None => rtdev_map_loop tbl skb
      | Some _ =>
          err ← rtskb_map d skb;
          if err =? 0 then rtdev_map_loop tbl skb else mret err
      end
  end.

Definition rtdev_map_rtskb (skb : nat) : M kstate Z :=
  skb_upd skb (λ x, x <| buf_dma_addr := RTSKB_UNMAPPED |>);;
  tbl ← gets rtnet_devices;
  err ← rtdev_map_loop tbl skb;
  when (err =? 0) (modify (λ s, s <| rtskb_list := list_add skb (rtskb_list s) |>));;
  mret err.

Fixpoint rtdev_map_all_loop (d : nat) (l : list nat) : M kstate Z :=
  match l with
  | [] => mret 0
  | skb :: l => err ← rtskb_map d skb; if err =? 0 then rtdev_map_all_loop d l else mret err
  end.

Definition rtdev_map_all_rtskbs (d : nat) : M kstate Z :=
  D ← dev_load d;
  match map_rtskb D with
  | None => mret 0
  | Some _ => l ← gets rtskb_list; rtdev_map_all_loop d l
  end.

(** [rtdev->unmap_rtskb(rtdev, skb)] *)
Definition unmap_call (d skb : nat) : M kstate () :=
  skb_load skb;;
  modify (λ s, s <| unmap_log := unmap_log s ++ [(d, skb)] |>).

Fixpoint rtdev_unmap_loop (tbl : list (option nat)) (skb : nat) : M kstate () :=
  match tbl with
  | [] => mret ()
  | None :: tbl => rtdev_unmap_loop tbl skb
  | Some d :: tbl =>
      D ← dev_load d;
      when (unmap_rtskb D) (unmap_call d skb);;
      rtdev_unmap_loop tbl skb
  end.

Definition rtdev_unmap_rtskb (skb : nat) : M kstate () :=
  x ← skb_load skb;
  if buf_dma_addr x =? RTSKB_UNMAPPED then mret ()
  else
    l ← gets rtskb_list;
    l' ← deref (list_del skb l);
    modify (λ s, s <| rtskb_list := l' |>);;
    tbl ← gets rtnet_devices;
    rtdev_unmap_loop tbl skb;;
    skb_upd skb (λ x, x <| buf_dma_addr := RTSKB_UNMAPPED |>).

Fixpoint unmap_all_loop (d : nat) (l : list nat) : M kstate () :=
  match l with
  | [] => mret ()
  | skb :: l => unmap_call d skb;; unmap_all_loop d l
  end.

Definition rtdev_unmap_all_rtskbs (d : nat) : M kstate () :=
  D ← dev_load d;
  if negb (unmap_rtskb D) then mret ()
  else l ← gets rtskb_list; unmap_all_loop d l.

(** ** Allocation from and release to a pool *)

Definition alloc_rtskb `{Config} (size : Z) (pool : nat) : M kstate (option nat) :=
  if assert_fails (size <=? SKB_DATA_ALIGN RTSKB_SIZE) then mret None
  else
    r ← rtskb_dequeue pool;
    match r with
    | None => mret None
    | Some skb =>
        when CONFIG_RTNET_CHECKED
          (queue_upd pool (λ Q, Q <| pool_balance := pool_balance Q - 1 |>);;
           skb_upd skb (λ x, x <| chain_len := 1 |>));;
        skb_upd skb (λ x, x <| data := buf_start x |> <| tail := buf_start x |>
                            <| end_ := buf_start x + size |>);;
        skb_upd skb (λ x, x <| chain_end := Some skb |> <| len := 0 |>
                            <| pkt_type := PACKET_HOST |> <| xmit_stamp := None |>);;
        when CONFIG_RTNET_ADDON_RTCAP (skb_upd skb (λ x, x <| cap_flags := 0 |>));;
        mret (Some skb)
    end.

(** The loop of [kfree_rtskb] with RTcap: every buffer of the chain goes back
    to its own pool; of one that is shared with the capture queue, the
    compensation buffer goes back instead and the two exchange their pools. *)
Fixpoint kfree_chain `{Config} (fuel : nat) (skb chain_end0 : nat) : M kstate () :=
  match fuel with
  | O => ub
  | S fuel =>
      x ← skb_load skb;
      let next_skb := next x in
      (if negb (Z.land (cap_flags x) RTSKB_CAP_SHARED =? 0) then
         skb_upd skb (λ x, x <| cap_flags := Z.land (cap_flags x) (Z.lnot RTSKB_CAP_SHARED) |>);;
         comp_skb ← deref (cap_comp_skb x);
         y ← skb_load comp_skb;
         skb_upd comp_skb (λ y, y <| pool := pool x |>);;
         skb_upd skb (λ x, x <| pool := pool y |>);;
         z ← skb_load comp_skb;
         comp_pool ← deref (pool z);
         rtskb_queue_tail comp_pool comp_skb;;
         when CONFIG_RTNET_CHECKED
           (queue_upd comp_pool (λ Q, Q <| pool_balance := pool_balance Q + 1 |>))
       else
         skb_upd skb (λ x, x <| chain_end := Some skb |>);;
         skb_pool ← deref (pool x);
         rtskb_queue_tail skb_pool skb;;
         when CONFIG_RTNET_CHECKED
           (queue_upd skb_pool (λ Q, Q <| pool_balance := pool_balance Q + 1 |>)));;
      if decide (chain_end0 = skb) then mret ()
      else n ← deref next_skb; kfree_chain fuel n chain_end0
  end.

Definition kfree_rtskb `{Config} (skb : option nat) : M kstate () :=
  match skb with
  | None => if assert_fails false then mret () else ub
  | Some skb =>
      x ← skb_load skb;
      if assert_fails (bool_decide (pool x ≠ None)) then mret ()
      else if CONFIG_RTNET_ADDON_RTCAP then
        chain_end0 ← deref (chain_end x);
        fuel ← gets (λ s, size (skbs s));
        kfree_chain fuel skb chain_end0
      else
        skb_pool ← deref (pool x);
        rtskb_queue_tail skb_pool skb;;
        when CONFIG_RTNET_CHECKED
          (queue_upd skb_pool (λ Q, Q <| pool_balance := pool_balance Q + chain_len x |>))
  end.

(** [rtskb_queue_purge]: frees buffer after buffer until the queue is empty. *)
Fixpoint queue_purge_loop `{Config} (fuel : nat) (q : nat) : M kstate () :=
  match fuel with
  | O => ub
  | S fuel =>
      r ← rtskb_dequeue q;
      match r with
      | None => mret ()
      | Some skb => kfree_rtskb (Some skb);; queue_purge_loop fuel q
      end
  end.
Definition rtskb_queue_purge `{Config} (q : nat) : M kstate () :=
  fuel ← gets (λ s, S (size (skbs s)));
  queue_purge_loop fuel q.

(** ** Pool sizes *)

Definition kmem_cache_alloc : M kstate (option (nat * list Z)) :=
  l ← gets slab;
  match l with
  | [] => mret None
  | o :: l' => modify (λ s, s <| slab := l' |>);; mret (Some o)
  end.
Definition kmem_cache_free (p : nat) : M kstate () :=
  x ← skb_load p;
  modify (λ s, s <| skbs := delete p (skbs s) |> <| slab := slab s ++ [(p, buf x)] |>).

Definition incr_amount (s : kstate) : kstate :=
  let n := u32 (rtskb_amount s + 1) in
  let s := s <| rtskb_amount := n |> in
  if rtskb_amount_max s <? n then s <| rtskb_amount_max := n |> else s.

(** Rounds [i] .. of the loop, [n] to go; the result is the final [i]. *)
Fixpoint pool_extend_loop `{Config} (n : nat) (i : Z) (pool0 : nat) : M kstate Z :=
  match n with
  | O => mret i
  | S n =>
      r ← kmem_cache_alloc;
      match r with
      | None => mret i
      | Some (skb, b) =>
          skb_store skb (zero_rtskb b);;
          skb_upd skb (λ x, x <| chain_end := Some skb |> <| pool := Some pool0 |>
                              <| buf_start := Z.of_nat skb + ALIGN_RTSKB_STRUCT_LEN |>);;
          when CONFIG_RTNET_CHECKED
            (skb_upd skb (λ x, x <| buf_end := buf_start x + SKB_DATA_ALIGN RTSKB_SIZE - 1 |>));;
          err ← rtdev_map_rtskb skb;
          if err <? 0 then mret i
          else
            rtskb_queue_tail pool0 skb;;
            modify incr_amount;;
            pool_extend_loop n (i + 1) pool0
      end
  end.
Definition rtskb_pool_extend `{Config} (pool : nat) (add_rtskbs : Z) : M kstate Z :=
  pool_extend_loop (Z.to_nat add_rtskbs) 0 pool.

Fixpoint pool_shrink_loop (n : nat) (i : Z) (pool : nat) : M kstate Z :=
  match n with
  | O => mret i
  | S n =>
      r ← rtskb_dequeue pool;
      match r with
      | None => mret i
      | Some skb =>
          rtdev_unmap_rtskb skb;;
          kmem_cache_free skb;;
          modify (λ s, s <| rtskb_amount := u32 (rtskb_amount s - 1) |>);;
          pool_shrink_loop n (i + 1) pool
      end
  end.
Definition rtskb_pool_shrink (pool : nat) (rem_rtskbs : Z) : M kstate Z :=
  pool_shrink_loop (Z.to_nat rem_rtskbs) 0 pool.

Definition rtskb_pool_init `{Config} (pool : nat) (initial_size : Z) : M kstate Z :=
  rtskb_queue_init pool;;
  when CONFIG_RTNET_CHECKED (queue_upd pool (λ Q, Q <| pool_balance := 0 |>));;
  i ← rtskb_pool_extend pool initial_size;
  modify (λ s, s <| rtskb_pools := u32 (rtskb_pools s + 1) |>);;
  modify (λ s, if rtskb_pools_max s <? rtskb_pools s
               then s <| rtskb_pools_max := rtskb_pools s |> else s);;
  mret i.

Fixpoint pool_release_loop (fuel : nat) (pool : nat) : M kstate () :=
  match fuel with
  | O => ub
  | S fuel =>
      r ← rtskb_dequeue pool;
      match r with
      | None => mret ()
      | Some skb =>
          rtdev_unmap_rtskb skb;;
          kmem_cache_free skb;;
          modify (λ s, s <| rtskb_amount := u32 (rtskb_amount s - 1) |>);;
          pool_release_loop fuel pool
      end
  end.
Definition __rtskb_pool_release (pool : nat) : M kstate () :=
  fuel ← gets (λ s, S (size (skbs s)));
  pool_release_loop fuel pool;;
  modify (λ s, s <| rtskb_pools := u32 (rtskb_pools s - 1) |>).

(** ** Exchange of a buffer against a free one of another pool *)

Definition rtskb_acquire `{Config} (rtskb comp_pool : nat) : M kstate Z :=
  r ← __rtskb_dequeue comp_pool;
  match r with
  | None => mret (- ENOMEM)
  | Some comp_rtskb =>
      when CONFIG_RTNET_CHECKED
        (queue_upd comp_pool (λ Q, Q <| pool_balance := pool_balance Q - 1 |>));;
      x ← skb_load rtskb;
      skb_upd comp_rtskb (λ y, y <| chain_end := Some comp_rtskb |> <| pool := pool x |>);;
      release_pool ← deref (pool x);
      when CONFIG_RTNET_CHECKED
        (skb_upd comp_rtskb (λ y, y <| chain_len := 1 |>);;
         queue_upd release_pool (λ Q, Q <| pool_balance := pool_balance Q + 1 |>));;
      __rtskb_queue_tail release_pool comp_rtskb;;
      skb_upd rtskb (λ x, x <| pool := Some comp_pool |>);;
      mret 0
  end.

(** ** Pools: representation and conservation *)

(** The pools in [C] hold the free buffers [C !! q]: each is a well-formed queue,
    no buffer is in two of them, and a free buffer belongs to the pool it is in. *)
Record pools_inv (s : kstate) (C : gmap nat (list nat)) : Prop := {
  pi_queue : ∀ q l, C !! q = Some l → ∃ Q, queues s !! q = Some Q ∧ is_queue (skbs s) Q l;
  pi_disj : ∀ q1 q2 l1 l2 a,
    C !! q1 = Some l1 → C !! q2 = Some l2 → a ∈ l1 → a ∈ l2 → q1 = q2;
  pi_pool : ∀ q l a x, C !! q = Some l → a ∈ l → skbs s !! a = Some x → pool x = Some q;
}.

(** Buffer [a] is in use: it is in none of the pools. *)
Definition in_use (C : gmap nat (list nat)) (a : nat) : Prop :=
  ∀ q l, C !! q = Some l → a ∉ l.

(** Which pool every buffer belongs to, and how many belong to pool [q]. *)
Definition pool_map (s : kstate) : gmap nat (option nat) := pool <$> skbs s.
Definition pool_size (s : kstate) (q : nat) : nat :=
  size (filter (λ '(_, o), o = Some q) (pool_map s)).

Lemma pool_map_relinked W h h' : relinked W h h' → pool <$> h' = pool <$> h.
Proof.
  intros HR. apply map_eq. intros a. rewrite !lookup_fmap. specialize (HR a).
  destruct (h !! a) as [x|], (h' !! a) as [y|]; try done. destruct HR as [-> _]. done.
Qed.
Lemma pool_map_insert (h : gmap nat rtskb) a x y :
  h !! a = Some x → pool y = pool x → pool <$> <[a := y]> h = pool <$> h.
Proof.
  intros Ha E. rewrite fmap_insert, E. apply insert_id. by rewrite lookup_fmap, Ha.
Qed.

(** Replacing the contents of pool [q]; only buffers outside the other pools change. *)
Lemma pools_inv_update s s' C q Q' l' :
  pools_inv s C → is_Some (C !! q) →
  queues s' = <[q := Q']> (queues s) → is_queue (skbs s') Q' l' →
  (∀ q' k a, q' ≠ q → C !! q' = Some k → a ∈ k → skbs s' !! a = skbs s !! a ∧ a ∉ l') →
  (∀ a x, a ∈ l' → skbs s' !! a = Some x → pool x = Some q) →
  pools_inv s' (<[q := l']> C).
Proof.
  intros [Hq Hd Hp] [l Hl] HQ Hl' Hother Hpool. split.
  - intros q1 k [(<- & <-)|(Hne & Hk)]%lookup_insert_Some.
    + exists Q'. by rewrite HQ, lookup_insert_eq.
    + destruct (Hq _ _ Hk) as (Q1 & HQ1 & [H1 H2]). exists Q1.
      rewrite HQ, lookup_insert_ne by done. split; [done|]. split; [|done].
      eapply lseg_frame; [exact H1|]. intros a x Ha Hx.
      destruct (Hother q1 k a) as [-> _]; eauto.
  - intros q1 q2 l1 l2 a [(<- & <-)|(Hne1 & Hk1)]%lookup_insert_Some
      [(<- & <-)|(Hne2 & Hk2)]%lookup_insert_Some Ha1 Ha2; [done|..|by eapply Hd].
    + by destruct (Hother q2 l2 a) as [_ ?]; auto.
    + by destruct (Hother q1 l1 a) as [_ ?]; auto.
  - intros q1 k a x [(<- & <-)|(Hne & Hk)]%lookup_insert_Some Ha Hx; [by eapply Hpool|].
    destruct (Hother q1 k a) as [E _]; auto. rewrite E in Hx. by eapply Hp.
Qed.

(** Changes that keep the queues and do not touch free buffers. *)
Lemma pools_inv_frame s s' C :
  pools_inv s C →
  (∀ q l, C !! q = Some l →
     ∃ Q Q', queues s !! q = Some Q ∧ queues s' !! q = Some Q' ∧
             first Q' = first Q ∧ qlast Q' = qlast Q) →
  (∀ q l a, C !! q = Some l → a ∈ l → skbs s' !! a = skbs s !! a) →
  pools_inv s' C.
Proof.
  intros [Hq Hd Hp] HQ Hs. split; [|done|].
  - intros q l Hl. destruct (Hq _ _ Hl) as (Q & HQs & [H1 H2]).
    destruct (HQ _ _ Hl) as (Q0 & Q' & HQ0 & HQ' & E1 & E2).
    rewrite HQs in HQ0. injection HQ0 as <-.
    exists Q'. split; [done|]. split; [|by rewrite E2].
    rewrite E1. eapply lseg_frame; [exact H1|]. intros a x Ha Hx. erewrite Hs by done. eauto.
  - intros q l a x Hl Ha Hx. erewrite Hs in Hx by done. by eapply Hp.
Qed.

(** Side conditions of [pools_inv_touch] on explicit states. *)
Ltac touch_solve :=
  cbn; intros;
  first [by simplify_map_eq
        | match goal with
          | |- ∃ _, <[?q := _]> _ !! ?q1 = Some _ ∧ _ =>
              destruct (decide (q = q1)); simplify_map_eq; eauto
          | _ => eauto
          end].

Section pool_ops.
Context `{Config}.
Implicit Types (s : kstate) (C : gmap nat (list nat)) (l : list nat) (a q : nat).

Lemma dequeue_empty_pool s C q :
  pools_inv s C → C !! q = Some [] → wp (__rtskb_dequeue q) (λ r s', r = None ∧ s' = s) s.
Proof.
  intros [Hq _ _] Hl. destruct (Hq _ _ Hl) as (Q & HQ & Hisq).
  eapply wp_mono; [|by eapply dequeue_spec]. done.
Qed.

(** Taking a buffer from a pool. *)
Lemma dequeue_pool s C q a l :
  pools_inv s C → C !! q = Some (a :: l) →
  wp (__rtskb_dequeue q)
     (λ r s', r = Some a ∧ pools_inv s' (<[q := l]> C) ∧ in_use (<[q := l]> C) a ∧
        ∃ x Q', skbs s !! a = Some x ∧ pool x = Some q ∧
          s' = s <| skbs := <[a := x <| next := None |>]> (skbs s) |>
                 <| queues := <[q := Q']> (queues s) |>) s.
Proof.
  intros Hinv Hl. pose proof Hinv as [Hq Hd Hp]. destruct (Hq _ _ Hl) as (Q & HQ & Hisq).
  pose proof (is_queue_NoDup _ _ _ Hisq) as [Hal Hnd]%NoDup_cons.
  eapply wp_mono; [|by eapply dequeue_spec]. cbn beta iota.
  intros r s' (-> & x & Q' & Hx & -> & Hq' & _).
  split; [done|]. split; [|split].
  - eapply pools_inv_update; [exact Hinv|by eexists|reflexivity|exact Hq'|..].
    + cbn. intros q' k b Hne Hk Hb. split.
      * rewrite lookup_insert_ne; [done|]. intros <-. apply Hne.
        eapply (Hd q' q _ _ a); [exact Hk|exact Hl|done|set_solver].
      * intros Hbl. apply Hne. eapply (Hd q' q _ _ b); [exact Hk|exact Hl|done|set_solver].
    + cbn. intros b y Hb Hy. rewrite lookup_insert_ne in Hy by set_solver.
      eapply (Hp q _ b); [exact Hl|set_solver|done].
  - intros q1 k [(<- & <-)|(Hne & Hk)]%lookup_insert_Some Ha; [done|].
    apply Hne. eapply (Hd q q1 _ _ a); [exact Hl|exact Hk|set_solver|done].
  - exists x, Q'. split; [done|]. split; [|done]. eapply (Hp q _ a); [exact Hl|set_solver|done].
Qed.

(** Putting a chain of used buffers of pool [q] at the end of that pool. *)
Lemma queue_tail_pool s C q l p c :
  pools_inv s C → C !! q = Some l → is_chain (skbs s) p c →
  (∀ a, a ∈ c → in_use C a) →
  (∀ a x, a ∈ c → skbs s !! a = Some x → pool x = Some q) →
  wp (__rtskb_queue_tail q p)
     (λ _ s', pools_inv s' (<[q := l ++ c]> C) ∧
        ∃ h' Q', s' = s <| skbs := h' |> <| queues := <[q := Q']> (queues s) |> ∧
                 relinked (l ++ c) (skbs s) h') s.
Proof.
  intros Hinv Hl Hc Huse Hpool. pose proof Hinv as [Hq Hd Hp].
  destruct (Hq _ _ Hl) as (Q & HQ & Hisq).
  eapply wp_mono; [|eapply queue_tail_spec; eauto; intros b Hb; by eapply (Huse b)].
  cbn beta. intros _ s' (h' & Q' & -> & Hq' & _ & HR). split; [|eauto].
  eapply pools_inv_update; [exact Hinv|by eexists|reflexivity|exact Hq'|..]; cbn.
  - intros q' k b Hne Hk Hb.
    assert (Hbl : b ∉ l ++ c).
    { intros [Hbl|Hbc]%elem_of_app.
      - apply Hne. eapply Hd; [exact Hk|exact Hl|done..].
      - by eapply (Huse b). }
    split; [|done]. specialize (HR b).
    destruct (skbs s !! b), (h' !! b); try done. destruct HR as [_ ->]; done.
  - intros b y [Hb|Hb]%elem_of_app Hy; specialize (HR b); rewrite Hy in HR;
      (destruct (skbs s !! b) as [x|] eqn:Hx; [|done]); destruct HR as [-> _];
      cbn; [by eapply (Hp q l b)|by eapply (Hpool b)].
Qed.

(** Updates of used buffers and of the statistics of a pool. *)
Lemma pools_inv_touch s s' C a :
  pools_inv s C → in_use C a →
  (∀ b, b ≠ a → skbs s' !! b = skbs s !! b) →
  (∀ q Q, queues s !! q = Some Q →
     ∃ Q', queues s' !! q = Some Q' ∧ first Q' = first Q ∧ qlast Q' = qlast Q) →
  pools_inv s' C.
Proof.
  intros Hinv Ha Hh HQ. eapply pools_inv_frame; [exact Hinv|..].
  - intros q l Hl. destruct (pi_queue _ _ Hinv _ _ Hl) as (Q & HQs & _).
    destruct (HQ _ _ HQs) as (Q' & ? & ? & ?). eauto 10.
  - intros q l b Hl Hb. apply Hh. intros ->. by eapply Ha.
Qed.

(** What [alloc_rtskb] sets up in buffer [a]. *)
Definition fresh_rtskb (size : Z) (a q : nat) (x0 x : rtskb) : Prop :=
  buf x = buf x0 ∧ buf_start x = buf_start x0 ∧ next x = None ∧ chain_end x = Some a ∧ pool x = Some q ∧ data x = buf_start x ∧
  tail x = buf_start x ∧ end_ x = buf_start x + size ∧ len x = 0 ∧
  pkt_type x = PACKET_HOST ∧ xmit_stamp x = None.
End pool_ops.

Lemma alloc_rtskb_run `{Config} s C q l size :
  pools_inv s C → C !! q = Some l → size ≤ SKB_DATA_ALIGN RTSKB_SIZE →
  wp (alloc_rtskb size q)
     (λ r s', match l with
              | [] => r = None ∧ s' = s
              | a :: l' =>
                  r = Some a ∧ s' = s <| skbs := skbs s' |> <| queues := queues s' |> ∧ pools_inv s' (<[q := l']> C) ∧ in_use (<[q := l']> C) a ∧
                  pool_map s' = pool_map s ∧ (∀ b, b ≠ a → skbs s' !! b = skbs s !! b) ∧
                  ∃ x0 x, skbs s !! a = Some x0 ∧ skbs s' !! a = Some x ∧ fresh_rtskb size a q x0 x
              end) s.
Proof.
  intros Hinv Hl Hsize. unfold alloc_rtskb, rtskb_dequeue, assert_fails.
  replace (size <=? SKB_DATA_ALIGN RTSKB_SIZE) with true by lia. rewrite andb_false_r.
  apply wp_bind. destruct l as [|a l].
  { eapply wp_mono; [|by eapply dequeue_empty_pool]. cbn beta. by intros r s' [-> ->]. }
  eapply wp_mono; [|by eapply dequeue_pool]. cbn beta.
  intros r s' (-> & Hinv' & Huse & x & Q' & Hx & Hpx & ->).
  destruct CONFIG_RTNET_CHECKED, CONFIG_RTNET_ADDON_RTCAP; kstep_all;
    (split; [done|]); (split; [by destruct s|]); (split; [|split; [done|split; [|split]]]).
  all: try (cbn; intros b Hb; by simplify_map_eq).
  all: try (unfold pool_map; cbn; rewrite ?insert_insert_eq; by eapply pool_map_insert).
  all: try (eexists _, _; split; [done|]; split; [cbn; by rewrite lookup_insert_eq|]; by repeat split).
  all: eapply pools_inv_touch; [exact Hinv'|exact Huse|touch_solve..].
Qed.

(** [alloc_rtskb] takes the first free buffer of the pool and hands it out as
    an empty packet that is a chain of its own; an empty pool yields NULL and
    nothing changes.  All other buffers keep their contents, the pool structure
    stays well-formed and no buffer changes the pool it belongs to. *)
Theorem alloc_rtskb_correct `{Config} s C q l size :
  pools_inv s C → C !! q = Some l → size ≤ SKB_DATA_ALIGN RTSKB_SIZE →
  wp (alloc_rtskb size q)
     (λ r s', match l with
              | [] => r = None ∧ s' = s
              | a :: l' =>
                  r = Some a ∧ pools_inv s' (<[q := l']> C) ∧ in_use (<[q := l']> C) a ∧
                  pool_map s' = pool_map s ∧ (∀ b, b ≠ a → skbs s' !! b = skbs s !! b) ∧
                  ∃ x0 x, skbs s !! a = Some x0 ∧ skbs s' !! a = Some x ∧ fresh_rtskb size a q x0 x
              end) s.
Proof.
  intros. eapply wp_mono; [|by apply alloc_rtskb_run]. intros r s'. destruct l; [done|]. intros (? & _ & ?). done.
Qed.

(** Only buffers and queue heads differ between [s] and [s']. *)
Definition same_world (s s' : kstate) : Prop :=
  s' = s <| skbs := skbs s' |> <| queues := queues s' |>.
Lemma same_world_trans s1 s2 s3 : same_world s1 s2 → same_world s2 s3 → same_world s1 s3.
Proof. unfold same_world. intros -> ->. by destruct s1. Qed.
Lemma same_world_refl s : same_world s s.
Proof. by destruct s. Qed.
#[export] Hint Resolve same_world_refl : core.
#[export] Hint Extern 4 (same_world _ (_ <| queues := _ |>)) => reflexivity : core.

(** At most queue [q] differs. *)
Definition only_queue (q : nat) (s s' : kstate) : Prop := ∀ q', q' ≠ q → queues s' !! q' = queues s !! q'.
Lemma only_queue_trans q s1 s2 s3 : only_queue q s1 s2 → only_queue q s2 s3 → only_queue q s1 s3.
Proof. intros H1 H2 q' Hq. by rewrite H2, H1. Qed.
Lemma alloc_rtskb_only `{Config} s C q l size :
  pools_inv s C → C !! q = Some l → size ≤ SKB_DATA_ALIGN RTSKB_SIZE → wp (alloc_rtskb size q) (λ _ s', only_queue q s s') s.
Proof.
  intros Hinv Hl Hsize. unfold alloc_rtskb, rtskb_dequeue, assert_fails.
  replace (size <=? SKB_DATA_ALIGN RTSKB_SIZE) with true by lia. rewrite andb_false_r.
  apply wp_bind. destruct l as [|a l].
  { eapply wp_mono; [|by eapply dequeue_empty_pool]. cbn beta. by intros r s' [-> ->]. }
  eapply wp_mono; [|by eapply dequeue_pool]. cbn beta. intros r s' (-> & _ & _ & x & Q' & Hx & _ & ->).
  destruct CONFIG_RTNET_CHECKED, CONFIG_RTNET_ADDON_RTCAP; kstep_all; intros q1 Hq1; cbn; by simplify_map_eq.
Qed.
(** A new buffer is not shared with the capture. *)
Lemma alloc_rtskb_unshared `{Config} s C q l size :
  pools_inv s C → C !! q = Some l → size ≤ SKB_DATA_ALIGN RTSKB_SIZE →
  wp (alloc_rtskb size q) (λ r s', ∀ a x, r = Some a → skbs s' !! a = Some x →
    CONFIG_RTNET_ADDON_RTCAP = true → Z.land (cap_flags x) RTSKB_CAP_SHARED = 0) s.
Proof.
  intros Hinv Hl Hsize. unfold alloc_rtskb, rtskb_dequeue, assert_fails.
  replace (size <=? SKB_DATA_ALIGN RTSKB_SIZE) with true by lia. rewrite andb_false_r.
  apply wp_bind. destruct l as [|a l].
  { eapply wp_mono; [|by eapply dequeue_empty_pool]. cbn beta. by intros r s' [-> ->]. }
  eapply wp_mono; [|by eapply dequeue_pool]. cbn beta. intros r s' (-> & _ & _ & x & Q' & Hx & _ & ->).
  destruct CONFIG_RTNET_CHECKED, CONFIG_RTNET_ADDON_RTCAP; kstep_all; intros b y [= <-]; cbn; rewrite lookup_insert_eq;
    by intros [= <-].
Qed.

Ltac worlds :=
  first [done | eassumption | eapply same_world_trans; [eassumption|]; worlds].

(** Rules for the statements of the pool operations, in terms of [pools_inv]. *)
Section pool_rules.
Context `{Config}.
Implicit Types (s : kstate) (C : gmap nat (list nat)) (a q : nat).

Lemma wp_balance s C q g (Q : () → kstate → Prop) :
  pools_inv s C → is_Some (C !! q) →
  (∀ s', pools_inv s' C → skbs s' = skbs s → same_world s s' → Q () s') →
  wp (queue_upd q (λ Q, Q <| pool_balance := g Q |>)) Q s.
Proof.
  intros Hinv [l Hl] HQ. destruct (pi_queue _ _ Hinv _ _ Hl) as (Q0 & HQ0 & _).
  kstep. apply HQ; [|done|by destruct s].
  eapply pools_inv_frame; [exact Hinv| |done]. cbn. intros q1 k Hk.
  destruct (pi_queue _ _ Hinv _ _ Hk) as (Q1 & HQ1 & _). exists Q1.
  destruct (decide (q = q1)); simplify_map_eq; eauto.
Qed.

Lemma wp_use s C a x g (Q : () → kstate → Prop) :
  pools_inv s C → in_use C a → skbs s !! a = Some x →
  (∀ s', pools_inv s' C → skbs s' = <[a := g x]> (skbs s) → same_world s s' → Q () s') →
  wp (skb_upd a g) Q s.
Proof.
  intros Hinv Ha Hx HQ. kstep. apply HQ; [|done|by destruct s].
  eapply pools_inv_touch; [exact Hinv|exact Ha|touch_solve..].
Qed.

Lemma wp_dequeue s C q l (Q : option nat → kstate → Prop) :
  pools_inv s C → C !! q = Some l →
  match l with
  | [] => Q None s
  | a :: l' => ∀ s' x, pools_inv s' (<[q := l']> C) → in_use (<[q := l']> C) a →
               skbs s !! a = Some x → pool x = Some q →
               skbs s' = <[a := x <| next := None |>]> (skbs s) → same_world s s' →
               Q (Some a) s'
  end → wp (__rtskb_dequeue q) Q s.
Proof.
  intros Hinv Hl HQ. destruct l as [|a l].
  - eapply wp_mono; [|by eapply dequeue_empty_pool]. cbn. by intros r s' [-> ->].
  - eapply wp_mono; [|by eapply dequeue_pool]. cbn beta.
    intros r s' (-> & Hinv' & Huse & x & Q' & Hx & Hpx & ->).
    eapply HQ; eauto.
Qed.

Lemma wp_queue_tail s C q l p c (Q : () → kstate → Prop) :
  pools_inv s C → C !! q = Some l → is_chain (skbs s) p c →
  (∀ a, a ∈ c → in_use C a) →
  (∀ a x, a ∈ c → skbs s !! a = Some x → pool x = Some q) →
  (∀ s', pools_inv s' (<[q := l ++ c]> C) → relinked (l ++ c) (skbs s) (skbs s') →
         same_world s s' → Q () s') →
  wp (__rtskb_queue_tail q p) Q s.
Proof.
  intros Hinv Hl Hc Huse Hpool HQ. eapply wp_mono; [|by eapply queue_tail_pool].
  cbn beta. intros [] s' (Hinv' & h' & Q' & -> & HR). apply HQ; [done..|]. by destruct s.
Qed.
(** The same with the queues that are not touched. *)
Lemma wp_use_frame s C a x g (Q : () → kstate → Prop) :
  pools_inv s C → in_use C a → skbs s !! a = Some x →
  (∀ s', pools_inv s' C → skbs s' = <[a := g x]> (skbs s) → same_world s s' → queues s' = queues s → Q () s') →
  wp (skb_upd a g) Q s.
Proof.
  intros Hinv Ha Hx HQ. kstep. apply HQ; [|done|by destruct s|done].
  eapply pools_inv_touch; [exact Hinv|exact Ha|touch_solve..].
Qed.
Lemma wp_balance_frame s C q g (Q : () → kstate → Prop) :
  pools_inv s C → is_Some (C !! q) →
  (∀ s', pools_inv s' C → skbs s' = skbs s → same_world s s' → only_queue q s s' → Q () s') →
  wp (queue_upd q (λ Q, Q <| pool_balance := g Q |>)) Q s.
Proof.
  intros Hinv Hq HQ. assert (wp (queue_upd q (λ Q, Q <| pool_balance := g Q |>))
    (λ _ s', pools_inv s' C ∧ skbs s' = skbs s ∧ same_world s s') s) as Hrun by (eapply wp_balance; eauto).
  destruct Hq as [l Hl]. destruct (pi_queue _ _ Hinv _ _ Hl) as (Q0 & HQ0 & _).
  unfold queue_upd, queue_load in *. wp_run. unfold wp, mbind, M_bind, gets, deref in Hrun. cbn in Hrun. rewrite HQ0 in Hrun.
  destruct Hrun as (? & ? & ?). apply HQ; [done..|]. intros q' Hq'. cbn. by apply lookup_insert_ne.
Qed.
Lemma wp_queue_tail_frame s C q l p c (Q : () → kstate → Prop) :
  pools_inv s C → C !! q = Some l → is_chain (skbs s) p c →
  (∀ a, a ∈ c → in_use C a) →
  (∀ a x, a ∈ c → skbs s !! a = Some x → pool x = Some q) →
  (∀ s', pools_inv s' (<[q := l ++ c]> C) → relinked (l ++ c) (skbs s) (skbs s') →
         same_world s s' → only_queue q s s' → Q () s') →
  wp (__rtskb_queue_tail q p) Q s.
Proof.
  intros Hinv Hl Hc Huse Hpool HQ. eapply wp_mono; [|by eapply queue_tail_pool].
  cbn beta. intros [] s' (Hinv' & h' & Q' & -> & HR). apply HQ; [done..|by destruct s|].
  intros q' Hq'. cbn. by apply lookup_insert_ne.
Qed.
Lemma wp_dequeue_frame s C q l (Q : option nat → kstate → Prop) :
  pools_inv s C → C !! q = Some l →
  match l with
  | [] => Q None s
  | a :: l' => ∀ s' x, pools_inv s' (<[q := l']> C) → in_use (<[q := l']> C) a →
               skbs s !! a = Some x → pool x = Some q →
               skbs s' = <[a := x <| next := None |>]> (skbs s) → same_world s s' → only_queue q s s' →
               Q (Some a) s'
  end → wp (__rtskb_dequeue q) Q s.
Proof.
  intros Hinv Hl HQ. destruct l as [|a l].
  - eapply wp_mono; [|by eapply dequeue_empty_pool]. cbn. by intros r s' [-> ->].
  - eapply wp_mono; [|by eapply dequeue_pool]. cbn beta.
    intros r s' (-> & Hinv' & Huse & x & Q' & Hx & Hpx & ->).
    eapply HQ; eauto. intros q' Hq'. cbn. by apply lookup_insert_ne.
Qed.
(** At most the queues [q1] and [q2] differ. *)
Definition only_two (q1 q2 : nat) s s' : Prop := ∀ q', q' ≠ q1 → q' ≠ q2 → queues s' !! q' = queues s !! q'.
Lemma only_two_trans q1 q2 s1 s2 s3 : only_two q1 q2 s1 s2 → only_two q1 q2 s2 s3 → only_two q1 q2 s1 s3.
Proof. intros H1 H2 q' Hq1 Hq2. by rewrite H2, H1. Qed.
Lemma only_two_l q1 q2 s s' : only_queue q1 s s' → only_two q1 q2 s s'.
Proof. intros H1 q' Hq1 _. by apply H1. Qed.
Lemma only_two_r q1 q2 s s' : only_queue q2 s s' → only_two q1 q2 s s'.
Proof. intros H1 q' _ Hq2. by apply H1. Qed.
Lemma only_two_eq q1 q2 s s' : queues s' = queues s → only_two q1 q2 s s'.
Proof. intros E q' _ _. by rewrite E. Qed.
End pool_rules.
(** Follows the states backwards from the last one. *)
Ltac queues_kept :=
  match goal with
  | |- only_two _ _ ?s ?s => done
  | H : only_two _ _ _ ?s |- only_two _ _ _ ?s => eapply only_two_trans; [|exact H]
  | H : only_queue ?q _ ?s |- only_two ?q _ _ ?s => eapply only_two_trans; [|apply only_two_l, H]
  | H : only_queue ?q _ ?s |- only_two _ ?q _ ?s => eapply only_two_trans; [|apply only_two_r, H]
  | H : queues ?s = queues _ |- only_two _ _ _ ?s => eapply only_two_trans; [|apply only_two_eq, H]
  end; try queues_kept.

(** A buffer whose [chain_end] is itself is a chain of one. *)
Lemma is_chain_single h a x : h !! a = Some x → chain_end x = Some a → is_chain h a [a].
Proof.
  intros Hx Hce. exists x, (next x).
  split_and!; [done..|by simpl; eauto|apply NoDup_singleton].
Qed.
Lemma in_use_insert C q l a : in_use C a → a ∉ l → in_use (<[q := l]> C) a.
Proof. intros Ha Hl q1 k [(<- & <-)|(Hne & Hk)]%lookup_insert_Some; eauto. Qed.
Lemma relinked_same W h h' a x :
  relinked W h h' → h !! a = Some x → a ∉ W → h' !! a = Some x.
Proof.
  intros HR Hx Ha. specialize (HR a). rewrite Hx in HR. destruct (h' !! a); [|done].
  destruct HR as [_ ->]; done.
Qed.

Lemma relinked_out W h h' a : relinked W h h' → a ∉ W → h' !! a = h !! a.
Proof.
  intros HR Ha. specialize (HR a). destruct (h !! a), (h' !! a); try done. destruct HR as [_ ->]; done.
Qed.

Section acquire.
Context `{Config}.

Lemma acquire_run s C p x r comp l :
  pools_inv s C → C !! comp = Some l → is_Some (C !! r) →
  skbs s !! p = Some x → pool x = Some r → in_use C p →
  wp (rtskb_acquire p comp)
     (λ ret s', match l with
      | [] => ret = - ENOMEM ∧ s' = s
      | a :: l' => ret = 0 ∧ same_world s s' ∧
          (∃ lr, <[comp := l']> C !! r = Some lr ∧
                 pools_inv s' (<[r := lr ++ [a]]> (<[comp := l']> C)) ∧
                 in_use (<[r := lr ++ [a]]> (<[comp := l']> C)) p) ∧
          pool_map s' = <[p := Some comp]> (<[a := Some r]> (pool_map s)) ∧
          pool_map s !! a = Some (Some comp) ∧ a ≠ p ∧
          skbs s' !! p = Some (x <| pool := Some comp |>) ∧ only_two r comp s s' ∧
          ∀ b, b ≠ p → in_use C b → skbs s' !! b = skbs s !! b
      end) s.
Proof.
  intros Hinv Hl [lr0 Hlr0] Hx Hpx Huse. unfold rtskb_acquire. apply wp_bind.
  eapply wp_dequeue_frame; [done..|]. destruct l as [|a l]; [done|].
  intros s1 xa Hinv1 Ha1 Hxa Hpa E1 W1 O1.
  assert (Hap : a ≠ p) by (intros ->; eapply (Huse comp); [done|set_solver]).
  set (C1 := <[comp := l]> C) in *.
  assert (HC1 : is_Some (C1 !! r)).
  { unfold C1. destruct (decide (comp = r)) as [->|]; simplify_map_eq; eauto. }
  assert (HC1c : is_Some (C1 !! comp)) by (unfold C1; simplify_map_eq; eauto).
  assert (Hpuse : in_use C1 p).
  { apply in_use_insert; [done|]. intros Hp. eapply (Huse comp); [done|set_solver]. }
  destruct HC1 as [lr Hlr].
  apply wp_bind.
  apply (wp_when (λ s', pools_inv s' C1 ∧ skbs s' = skbs s1 ∧ same_world s s' ∧ only_two r comp s s')); [split_and!; [done..|queues_kept]|..].
  { intros _. eapply wp_balance_frame; [done..|]. intros s' ? ? ? ?. split_and!; [done|congruence|worlds|queues_kept]. }
  clear dependent W1. intros s2 (Hinv2 & E2 & W2 & O2). rewrite E1 in E2. clear dependent s1.
  apply wp_bind. eapply wp_skb_load; [rewrite E2; by simplify_map_eq|].
  apply wp_bind. rewrite Hpx.
  eapply wp_use_frame; [done..|rewrite E2; by simplify_map_eq|].
  intros s3 Hinv3 E3 W3 O3. rewrite E2, insert_insert_eq in E3.
  apply wp_bind. eapply wp_deref; [done|]. apply wp_bind.
  pose (I4 s' := pools_inv s' C1 ∧ same_world s s' ∧ only_two r comp s s' ∧ ∃ ya, pool ya = Some r ∧
    chain_end ya = Some a ∧ skbs s' = <[a := ya]> (skbs s)).
  apply (wp_when I4).
  { unfold I4. split; [done|]. split; [worlds|]. split; [queues_kept|]. eexists. by split_and!; [..|exact E3]. }
  { intros _. apply wp_bind. eapply wp_use_frame; [done..|rewrite E3; by simplify_map_eq|].
    intros s4 Hinv4 E4 W4 O4. eapply wp_balance_frame; [done|by eexists|].
    intros s5 Hinv5 E5 W5 O5. unfold I4. split; [done|]. split; [worlds|]. split; [queues_kept|].
    rewrite E5, E4, E3, insert_insert_eq. eexists. by split_and!; [..|reflexivity]. }
  clear dependent s2 s3. intros s3 (Hinv3 & W3 & O3 & ya & Hpya & Hcea & E3).
  apply wp_bind. eapply wp_queue_tail_frame; [done..| | | |].
  { eapply is_chain_single; [rewrite E3; by simplify_map_eq|done]. }
  { by intros b ->%list_elem_of_singleton. }
  { intros b y ->%list_elem_of_singleton Hy. rewrite E3 in Hy. by simplify_map_eq. }
  intros s4 Hinv4 HR W4 O4.
  assert (Hpl : p ∉ lr) by (by eapply (Hpuse r)).
  assert (Hpuse4 : in_use (<[r := lr ++ [a]]> C1) p).
  { apply in_use_insert; [done|]. set_solver. }
  assert (Hx4 : skbs s4 !! p = Some x).
  { eapply relinked_same; [exact HR|rewrite E3; by simplify_map_eq|set_solver]. }
  apply wp_bind. eapply wp_use_frame; [done..|]. intros s5 Hinv5 E5 W5 O5. apply wp_ret.
  split; [done|]. split; [worlds|]. split; [by exists lr|].
  split_and!; [|unfold pool_map; by rewrite lookup_fmap, Hxa, <-Hpa|done|..].
  - unfold pool_map. rewrite E5, fmap_insert. cbn [pool]. f_equal.
    rewrite (pool_map_relinked _ _ _ HR), E3, fmap_insert. by rewrite Hpya.
  - rewrite E5. by simplify_map_eq.
  - queues_kept.
  - intros b Hbp Hb. assert (Hba : b ≠ a) by (intros ->; eapply (Hb comp); [done|set_solver]).
    assert (Hblr : b ∉ lr).
    { intros Hin. unfold C1 in Hlr. destruct (decide (comp = r)) as [->|]; simplify_map_eq.
      - eapply (Hb r); [done|set_solver].
      - by eapply (Hb r). }
    rewrite E5, lookup_insert_ne by done. rewrite (relinked_out _ _ _ b HR) by set_solver.
    by rewrite E3, lookup_insert_ne.
Qed.
End acquire.

(** ** Conservation of pool sizes *)

Definition count_pool (m : gmap nat (option nat)) (q : nat) : nat :=
  size (filter (λ '(_, o), o = Some q) m).

Lemma count_pool_insert_None m i o q :
  m !! i = None →
  count_pool (<[i := o]> m) q = (count_pool m q + if decide (o = Some q) then 1 else 0)%nat.
Proof.
  intros Hi. unfold count_pool. rewrite map_filter_insert. case_decide as Ho.
  - rewrite decide_True by done. rewrite map_size_insert_None; [lia|].
    apply map_lookup_filter_None. by left.
  - rewrite decide_False by done. rewrite delete_id by done. lia.
Qed.
Lemma count_pool_insert m i o o' q :
  m !! i = Some o →
  (count_pool (<[i := o']> m) q + (if decide (o = Some q) then 1 else 0)
   = count_pool m q + (if decide (o' = Some q) then 1 else 0))%nat.
Proof.
  intros Hi. rewrite <-(insert_delete_id m i o Hi) at 2. rewrite <-insert_delete_eq.
  rewrite !count_pool_insert_None by (by rewrite lookup_delete_eq). lia.
Qed.
(** Two buffers exchange their pools: every pool keeps its size. *)
Lemma count_pool_swap m a p oa op q :
  m !! a = Some oa → m !! p = Some op → a ≠ p →
  count_pool (<[p := oa]> (<[a := op]> m)) q = count_pool m q.
Proof.
  intros Ha Hp Hne.
  pose proof (count_pool_insert m a oa op q Ha) as H1.
  pose proof (count_pool_insert (<[a := op]> m) p op oa q) as H2.
  rewrite lookup_insert_ne in H2 by done. specialize (H2 Hp). lia.
Qed.

(** C16: [rtskb_acquire] moves a used buffer to another pool against a free buffer
    of that pool: on success the buffer belongs to [comp_pool], the first free
    buffer of [comp_pool] is the last free one of the pool the buffer came from,
    and every pool owns as many buffers as before.  If [comp_pool] has no free
    buffer the result is [-ENOMEM] and nothing changes. *)
Theorem rtskb_acquire_correct `{Config} s C p x r comp l :
  pools_inv s C → C !! comp = Some l → is_Some (C !! r) →
  skbs s !! p = Some x → pool x = Some r → in_use C p →
  wp (rtskb_acquire p comp)
     (λ ret s', match l with
      | [] => ret = - ENOMEM ∧ s' = s
      | a :: l' =>
          ret = 0 ∧ skbs s' !! p = Some (x <| pool := Some comp |>) ∧
          (∃ lr, <[comp := l']> C !! r = Some lr ∧
                 pools_inv s' (<[r := lr ++ [a]]> (<[comp := l']> C)) ∧
                 in_use (<[r := lr ++ [a]]> (<[comp := l']> C)) p) ∧
          ∀ q, pool_size s' q = pool_size s q
      end) s.
Proof.
  intros Hinv Hl Hr Hx Hpx Huse. eapply wp_mono; [|by eapply acquire_run].
  cbn beta. intros ret s'. destruct l as [|a l]; [done|].
  intros (-> & _ & HC & Hpm & Ha & Hne & Hx' & _). split_and!; [done..|].
  intros q. unfold pool_size. fold (count_pool (pool_map s') q) (count_pool (pool_map s) q).
  rewrite Hpm. apply count_pool_swap; [done| |done].
  unfold pool_map. by rewrite lookup_fmap, Hx, <-Hpx.
Qed.

(** ** Release of chains *)

(** The buffers [c] are in use, belong to pool [q] and are not shared with RTcap. *)
Definition releasable `{Config} (s : kstate) (C : gmap nat (list nat)) (q : nat) (c : list nat)
    : Prop :=
  ∀ a, a ∈ c → in_use C a ∧ ∀ x, skbs s !! a = Some x →
    pool x = Some q ∧ (CONFIG_RTNET_ADDON_RTCAP = true → Z.land (cap_flags x) RTSKB_CAP_SHARED = 0).

Section kfree.
Context `{Config} (q : nat).

Lemma releasable_step s s' C l a c :
  CONFIG_RTNET_ADDON_RTCAP = true → releasable s C q (a :: c) → NoDup (a :: c) →
  C !! q = Some l →
  (∀ b x, b ∈ c → skbs s !! b = Some x → skbs s' !! b = Some x) →
  (∀ b, b ∈ c → is_Some (skbs s !! b)) →
  releasable s' (<[q := l ++ [a]]> C) q c.
Proof.
  intros Hcap Hrel [Ha Hnd]%NoDup_cons Hl Hs Hdom b Hb.
  destruct (Hrel b) as [Huse Hx]; [set_solver|]. split.
  - apply in_use_insert; [done|]. intros [?|?%list_elem_of_singleton]%elem_of_app; [|set_solver].
    by eapply (Huse q).
  - intros x Hx'. destruct (Hdom b Hb) as [y Hy]. pose proof (Hs b y Hb Hy). simplify_eq. eauto.
Qed.

Lemma kfree_chain_run c : ∀ fuel a e s C l r,
  CONFIG_RTNET_ADDON_RTCAP = true → (length c ≤ fuel)%nat →
  pools_inv s C → C !! q = Some l → lseg next (skbs s) (Some a) c r → NoDup c →
  last c = Some e → releasable s C q c →
  wp (kfree_chain fuel a e)
     (λ _ s', pools_inv s' (<[q := l ++ c]> C) ∧ pool_map s' = pool_map s ∧ same_world s s' ∧
        only_queue q s s' ∧ ∀ b, b ∉ l ++ c → skbs s' !! b = skbs s !! b) s.
Proof.
  induction c as [|a' c IH]; [done|]. intros fuel a e s C l r Hcap Hlen Hinv Hl Hseg Hnd He Hrel.
  destruct fuel as [|fuel]; [simpl in Hlen; lia|]. simpl kfree_chain.
  pose proof Hseg as ([= <-] & x & Hx & Hseg').
  destruct (Hrel a) as [Huse Hpx]; [set_solver|]. destruct (Hpx x Hx) as [Hpool Hflag].
  apply wp_bind. eapply wp_skb_load; [done|]. rewrite Hflag by done. cbn.
  apply wp_bind, wp_bind. eapply wp_use_frame; [done..|]. intros s1 Hinv1 E1 W1 EQ1.
  apply wp_bind. eapply wp_deref; [done|]. apply wp_bind.
  eapply wp_queue_tail_frame; [done..| | | |].
  { eapply is_chain_single; [rewrite E1; by simplify_map_eq|done]. }
  { by intros b ->%list_elem_of_singleton. }
  { intros b y ->%list_elem_of_singleton Hy. rewrite E1 in Hy. by simplify_map_eq. }
  intros s2 Hinv2 HR W2 O2. assert (O1 : only_queue q s s2).
  { intros q' Hq'. by rewrite O2, EQ1 by done. }
  apply (wp_when (λ s', pools_inv s' (<[q := l ++ [a]]> C) ∧ skbs s' = skbs s2 ∧ same_world s s' ∧ only_queue q s s'));
    [split_and!; [done..|worlds|done]| |].
  { intros _. eapply wp_balance_frame; [done|simplify_map_eq; eauto|].
    intros s' ? ? ? ?. split_and!; [done..|worlds|by eapply only_queue_trans]. }
  intros s3 (Hinv3 & E3 & W3 & O3).
  pose proof Hnd as [Hac Hndc]%NoDup_cons.
  assert (Hkeep : ∀ b y, b ∈ c → skbs s !! b = Some y → skbs s3 !! b = Some y).
  { intros b y Hb Hy. rewrite E3. eapply relinked_same; [exact HR|rewrite E1|].
    - rewrite lookup_insert_ne by set_solver. done.
    - destruct (Hrel b) as [Hub _]; [set_solver|]. specialize (Hub _ _ Hl). set_solver. }
  assert (Hpm3 : pool_map s3 = pool_map s).
  { unfold pool_map. rewrite E3, (pool_map_relinked _ _ _ HR), E1. by eapply pool_map_insert. }
  assert (Hout : ∀ b, b ∉ l ++ [a] → skbs s3 !! b = skbs s !! b).
  { intros b Hb. rewrite E3, (relinked_out _ _ _ b HR Hb), E1. apply lookup_insert_ne. set_solver. }
  case_decide as Hea.
  - apply wp_ret. destruct c as [|b c]; [done|]. subst a.
    rewrite last_cons_cons in He. apply last_Some_elem_of in He. done.
  - destruct c as [|b c]; [simpl in He; congruence|]. pose proof Hseg' as [Hnb _]. rewrite Hnb.
    apply wp_bind. eapply wp_deref; [done|].
    eapply wp_mono; [|eapply (IH fuel b e s3 _ (l ++ [a])); [done|simpl in *; lia|done|..]].
    + cbn beta. intros _ s4 (Hinv4 & Hpm4 & W4 & O4 & Hout4).
      rewrite insert_insert_eq, <-app_assoc in Hinv4. rewrite <-app_assoc in Hout4.
      split_and!; [done|congruence|worlds|by eapply only_queue_trans|]. intros d Hd. rewrite Hout4 by done. apply Hout. set_solver.
    + by simplify_map_eq.
    + rewrite Hnb in Hseg'. eapply lseg_frame; [exact Hseg'|]. eauto.
    + done.
    + by rewrite last_cons_cons in He.
    + eapply releasable_step; [done..|]. intros d Hd. by eapply lseg_lookup.
Qed.
End kfree.

Lemma kfree_rtskb_run `{Config} s C p c q l :
  pools_inv s C → C !! q = Some l → is_chain (skbs s) p c → releasable s C q c →
  wp (kfree_rtskb (Some p))
     (λ _ s', pools_inv s' (<[q := l ++ c]> C) ∧ pool_map s' = pool_map s ∧ same_world s s' ∧
        only_queue q s s' ∧ ∀ b, b ∉ l ++ c → skbs s' !! b = skbs s !! b) s.
Proof.
  intros Hinv Hl Hc Hrel. pose proof Hc as (x & r & Hh & Hx & Hce & Hseg & Hnd).
  assert (Hp : p ∈ c) by (destruct c; simplify_eq/=; set_solver).
  destruct (Hrel p Hp) as [_ Hpx]. destruct (Hpx x Hx) as [Hpool _].
  unfold kfree_rtskb. kstep_all. unfold assert_fails.
  rewrite bool_decide_eq_true_2 by congruence. rewrite andb_false_r.
  destruct CONFIG_RTNET_ADDON_RTCAP eqn:Hcap.
  - destruct (last c) as [e|] eqn:He; [|by apply last_None in He; subst].
    kstep_all. eapply wp_mono; [|eapply kfree_chain_run; eauto].
    + cbn beta. tauto.
    + apply NoDup_length_size; [done|]. intros a Ha. by eapply lseg_lookup.
  - rewrite Hpool. kstep_all. eapply wp_queue_tail_frame; [done..| | |].
    + intros a Ha. by apply Hrel.
    + intros a y Ha Hy. destruct (Hrel a Ha) as [_ Hy']. by apply Hy'.
    + intros s1 Hinv1 HR W1 O1. pose proof (pool_map_relinked _ _ _ HR) as Hpm.
      apply (wp_when (λ s', pools_inv s' (<[q := l ++ c]> C) ∧ skbs s' = skbs s1 ∧ same_world s s' ∧ only_queue q s s'));
        [done|..].
      * intros _. eapply wp_balance_frame; [done|simplify_map_eq; eauto|].
        intros s' ? E ? ?. split_and!; [done..|worlds|by eapply only_queue_trans].
      * intros s' (? & E & ? & ?). unfold pool_map. rewrite E. split_and!; [done..|].
        intros b Hb. by apply (relinked_out _ _ _ b HR).
Qed.

(** [kfree_rtskb] gives a chain of used buffers of one pool back to the end of
    that pool, in order, whether or not the stack is built with RTcap (the two
    builds have different bodies).  No buffer changes the pool it belongs to and
    the call never faults. *)
Theorem kfree_rtskb_correct `{Config} s C p c q l :
  pools_inv s C → C !! q = Some l → is_chain (skbs s) p c → releasable s C q c →
  wp (kfree_rtskb (Some p))
     (λ _ s', pools_inv s' (<[q := l ++ c]> C) ∧ pool_map s' = pool_map s) s.
Proof.
  intros Hinv Hl Hc Hrel. eapply wp_mono; [|by eapply kfree_rtskb_run]. cbn beta. tauto.
Qed.

(** ** Growing and shrinking a pool *)

Section extend.
Context `{Config}.

(** Every registered device either has no mapping hook or maps buffer [p] to
    the same valid address [f p] (one IOMMU domain). *)
Definition dma_consistent (f : nat → Z) (s : kstate) : Prop :=
  (∀ p, f p ≠ RTSKB_UNMAPPED) ∧
  ∀ d, Some d ∈ rtnet_devices s → ∃ D, devs s !! d = Some D ∧
    (map_rtskb D = None ∨ ∃ g, map_rtskb D = Some g ∧ ∀ p, g p = f p).

Lemma map_loop_run f p tbl : ∀ s x,
  (∀ p, f p ≠ RTSKB_UNMAPPED) →
  (∀ d, Some d ∈ tbl → ∃ D, devs s !! d = Some D ∧
    (map_rtskb D = None ∨ ∃ g, map_rtskb D = Some g ∧ ∀ p, g p = f p)) →
  skbs s !! p = Some x → buf_dma_addr x = RTSKB_UNMAPPED ∨ buf_dma_addr x = f p →
  wp (rtdev_map_loop tbl p)
     (λ err s', err = 0 ∧ ∃ v, s' = s <| skbs := <[p := x <| buf_dma_addr := v |>]> (skbs s) |>) s.
Proof.
  induction tbl as [|[d|] tbl IH]; intros s x Hf Htbl Hx Hdma; simpl.
  - apply wp_ret. split; [done|]. exists (buf_dma_addr x).
    rewrite insert_id; [by destruct s|]. by destruct x.
  - destruct (Htbl d) as (D & HD & Hmap); [set_solver|]. kstep_all.
    destruct Hmap as [->|(g & Hg & Egf)]; [apply IH; set_solver|]. rewrite Hg.
    apply wp_bind. unfold rtskb_map. kstep_all. rewrite Egf.
    destruct (Z.eqb_spec (f p) RTSKB_UNMAPPED); [by destruct (Hf p)|]. kstep_all.
    replace (negb (buf_dma_addr x =? RTSKB_UNMAPPED) && negb (f p =? buf_dma_addr x)) with false
      by (destruct Hdma as [->| ->]; rewrite ?Z.eqb_refl, ?andb_false_r; done).
    kstep_all. eapply wp_mono; [|eapply (IH _ (x <| buf_dma_addr := f p |>)); cbn;
      [done|set_solver|by simplify_map_eq|by right]].
    cbn beta. intros err s' (-> & v & ->). split; [done|]. exists v. cbn.
    by rewrite insert_insert_eq.
  - apply IH; set_solver.
Qed.

(** A mapped buffer is put on the global buffer list and nothing else changes. *)
Lemma map_rtskb_run f s p x :
  dma_consistent f s → skbs s !! p = Some x →
  wp (rtdev_map_rtskb p)
     (λ err s', err = 0 ∧ ∃ v, s' = s <| skbs := <[p := x <| buf_dma_addr := v |>]> (skbs s) |>
                                     <| rtskb_list := p :: rtskb_list s |>) s.
Proof.
  intros [Hf Hd] Hx. unfold rtdev_map_rtskb. kstep_all.
  eapply wp_mono; [|eapply (map_loop_run f _ _ _ (x <| buf_dma_addr := RTSKB_UNMAPPED |>)); cbn;
    [done|done|by simplify_map_eq|by left]].
  cbn beta. intros err s' (-> & v & ->). unfold when. cbn. kstep_all.
  split; [done|]. exists v. state_eq.
Qed.
End extend.

(** The objects the slab allocator hands out are not in use. *)
Definition slab_fresh (s : kstate) : Prop :=
  NoDup (slab s).*1 ∧ ∀ p, p ∈ (slab s).*1 → skbs s !! p = None.

(** The allocation counter and its maximum are all that [incr_amount] changes. *)
Lemma incr_amount_frame s :
  incr_amount s = s <| rtskb_amount := u32 (rtskb_amount s + 1) |>
                    <| rtskb_amount_max := rtskb_amount_max (incr_amount s) |>.
Proof. unfold incr_amount. cbn. by case_match; destruct s. Qed.

(** What the operations on pools leave alone: the devices, and the number of pools. *)
Definition same_env (s s' : kstate) : Prop :=
  devs s' = devs s ∧ rtnet_devices s' = rtnet_devices s ∧ rtskb_pools s' = rtskb_pools s ∧
  prioqs s' = prioqs s ∧ loopback_device s' = loopback_device s.
(** Every buffer with a DMA address is on the global list. *)
Definition listed_if_mapped (s : kstate) : Prop :=
  ∀ a x, skbs s !! a = Some x → buf_dma_addr x ≠ RTSKB_UNMAPPED → a ∈ rtskb_list s.

Lemma relinked_back W h h' a y :
  relinked W h h' → h' !! a = Some y → ∃ x, h !! a = Some x ∧ y = x <| next := next y |>.
Proof.
  intros HR Hy. specialize (HR a). rewrite Hy in HR. destruct (h !! a) as [x|]; [|done].
  destruct HR as [E _]. eauto.
Qed.

Section extend_loop.
Context `{Config} (f : nat → Z) (q : nat).

Lemma in_use_fresh s C p : pools_inv s C → skbs s !! p = None → in_use C p.
Proof.
  intros Hinv Hp q1 l Hl Hpl. destruct (pi_queue _ _ Hinv _ _ Hl) as (Q & _ & [Hq _]).
  destruct (lseg_lookup _ _ _ _ _ _ Hq Hpl) as [x Hx]. congruence.
Qed.

Lemma pool_extend_run n : ∀ i s C l,
  pools_inv s C → C !! q = Some l → slab_fresh s → dma_consistent f s →
  wp (pool_extend_loop n i q)
     (λ r s', let new := take n (slab s).*1 in
        r = i + Z.of_nat (length new) ∧ pools_inv s' (<[q := l ++ new]> C) ∧
        slab s' = drop n (slab s) ∧ (∀ p, p ∈ new → p ∈ rtskb_list s') ∧
        rtskb_list s ⊆ rtskb_list s' ∧
        (is_u32 (rtskb_amount s) → rtskb_amount s' = u32 (rtskb_amount s + Z.of_nat (length new))) ∧
        same_env s s' ∧ slab_fresh s' ∧ (listed_if_mapped s → listed_if_mapped s') ∧
        ∀ q', pool_size s' q' = (pool_size s q' + if decide (q' = q) then length new else 0)%nat) s.
Proof.
  assert (Hzero : ∀ s q', pool_size s q' = (pool_size s q' + if decide (q' = q) then 0 else 0)%nat).
  { intros s q'. case_decide; lia. }
  induction n as [|n IH]; intros i s C l Hinv Hl Hslab Hdma; simpl.
  { apply wp_ret. cbn. rewrite app_nil_r, insert_id by done.
    split_and!; [lia|done..| | | | | | | ]; try done; [set_solver|].
    intros Hu. by rewrite Z.add_0_r, u32_id. }
  unfold kmem_cache_alloc. kstep_all. destruct (slab s) as [|[p b] sl] eqn:Esl.
  { kstep_all. cbn. rewrite app_nil_r, insert_id by done. rewrite Esl.
    split_and!; [lia|done..| | | | | | | ]; try done; [set_solver|].
    intros Hu. by rewrite Z.add_0_r, u32_id. }
  pose proof Hslab as [Hnd Hfr]. rewrite Esl in Hnd, Hfr. cbn in Hnd, Hfr.
  apply NoDup_cons in Hnd as [Hpsl Hnd].
  assert (Hp : skbs s !! p = None) by (apply Hfr; set_solver).
  pose proof (in_use_fresh _ _ _ Hinv Hp) as Huse.
  unfold skb_store. kstep_all.
  apply (wp_when (λ s2, ∃ x, s2 = s <| slab := sl |> <| skbs := <[p := x]> (skbs s) |> ∧
                        chain_end x = Some p ∧ pool x = Some q)).
  { eexists. split; [state_eq|done]. }
  { intros _. kstep_all. eexists. split; [state_eq|done]. }
  intros s2 (x & -> & Hce & Hpx). apply wp_bind.
  eapply wp_mono; [|eapply (map_rtskb_run f); [exact Hdma|cbn; by simplify_map_eq]].
  cbn beta. intros err s3 (-> & v & ->). cbn [Z.ltb Z.compare]. apply wp_bind.
  eapply (wp_queue_tail _ C q l p [p]); [|done|..].
  { eapply pools_inv_touch; [exact Hinv|exact Huse|touch_solve..]. }
  { eapply is_chain_single; [cbn; by rewrite lookup_insert_eq|done]. }
  { by intros c ->%list_elem_of_singleton. }
  { intros c y ->%list_elem_of_singleton. cbn. intros Hy. by simplify_map_eq. }
  intros s4 Hinv4 HR W4. apply wp_bind, wp_modify.
  rewrite W4 in Hinv4 |- *. rewrite W4 in HR. cbn in HR. clear W4.
  revert Hinv4 HR. generalize (skbs s4), (queues s4). clear s4. intros h4 qs4 Hinv4 HR.
  eapply wp_mono; [|eapply (IH (i + 1) _ (<[q := l ++ [p]]> C) (l ++ [p]))].
  - cbn beta zeta. rewrite incr_amount_frame. cbn.
    intros r s' (-> & Hinv' & Hsl & Hin & Hsub & Ham & Henv & Hfresh & Hlm & Hsz).
    rewrite insert_insert_eq, <-app_assoc in Hinv'. cbn in Hinv'.
    split_and!; [lia|done|done|set_solver|set_solver|..].
    + intros Hu. rewrite Ham by apply u32_range. unfold u32.
      rewrite Zplus_mod_idemp_l. f_equal. lia.
    + exact Henv.
    + done.
    + intros Hlm0. apply Hlm. intros a y Hy Hne. cbn in *.
      destruct (decide (a = p)) as [->|Hap]; [set_solver|]. apply list_elem_of_further.
      destruct (relinked_back _ _ _ _ _ HR Hy) as (y0 & Hy0 & Ey).
      rewrite !lookup_insert_ne in Hy0 by done. rewrite Ey in Hne. by eapply Hlm0.
    + intros q'. rewrite Hsz. unfold pool_size, pool_map. cbn.
      rewrite (pool_map_relinked _ _ _ HR), insert_insert_eq, fmap_insert. fold (count_pool (<[p := pool (x <| buf_dma_addr := v |>)]> (pool <$> skbs s)) q') (count_pool (pool <$> skbs s) q').
      rewrite count_pool_insert_None by (by rewrite lookup_fmap, Hp). cbn. rewrite Hpx.
      destruct (decide (q' = q)) as [->|]; [rewrite decide_True by done|rewrite decide_False by congruence]; lia.
  - eapply pools_inv_frame; [exact Hinv4|..]; rewrite incr_amount_frame; cbn; [|done].
    intros q1 k Hk. destruct (pi_queue _ _ Hinv4 _ _ Hk) as (Q & HQ & _). cbn in HQ. eauto 10.
  - by simplify_map_eq.
  - rewrite incr_amount_frame. split; cbn; [done|]. intros p' Hp'. specialize (HR p').
    rewrite !lookup_insert_ne in HR by set_solver.
    rewrite Hfr in HR by set_solver. by destruct (h4 !! p').
  - rewrite incr_amount_frame. exact Hdma.
Qed.
End extend_loop.

(** [rtskb_pool_extend] adds as many new buffers to the end of the pool as the
    slab allocator has, up to [add_rtskbs], returns that number, registers each on
    the global buffer list and counts it in [rtskb_amount]; the pools stay
    well-formed.  Assumed: the allocator hands out unused objects and the drivers
    agree on the DMA address of a buffer. *)
Theorem rtskb_pool_extend_correct `{Config} f s C q l n :
  pools_inv s C → C !! q = Some l → slab_fresh s → dma_consistent f s → 0 ≤ n →
  wp (rtskb_pool_extend q n)
     (λ r s', let new := take (Z.to_nat n) (slab s).*1 in
        r = Z.min n (Z.of_nat (length (slab s))) ∧ pools_inv s' (<[q := l ++ new]> C) ∧
        slab s' = drop (Z.to_nat n) (slab s) ∧ (∀ p, p ∈ new → p ∈ rtskb_list s') ∧
        (is_u32 (rtskb_amount s) → rtskb_amount s' = u32 (rtskb_amount s + r))) s.
Proof.
  intros Hinv Hl Hs Hd Hn. eapply wp_mono; [|by eapply (pool_extend_run f)].
  cbn beta zeta. intros r s' (-> & ? & ? & ? & _ & ? & _).
  rewrite Z.add_0_l, length_take, length_fmap in *. split_and!; [lia|done..].
Qed.

(** ** Shrinking a pool *)

Section shrink.
Context `{Config} (q : nat).
Implicit Types s : kstate.

Definition table_exists s : Prop := ∀ d, Some d ∈ rtnet_devices s → is_Some (devs s !! d).

Lemma unmap_loop_run p x tbl s :
  (∀ d, Some d ∈ tbl → is_Some (devs s !! d)) → skbs s !! p = Some x →
  wp (rtdev_unmap_loop tbl p) (λ _ s', ∃ log, s' = s <| unmap_log := log |>) s.
Proof.
  revert s. induction tbl as [|[d|] tbl IH]; intros s Htbl Hx; simpl.
  - apply wp_ret. exists (unmap_log s). by destruct s.
  - destruct (Htbl d) as [D HD]; [set_solver|]. kstep_all. destruct (unmap_rtskb D); kstep_all.
    + unfold unmap_call. kstep_all. eapply wp_mono; [|apply IH; [set_solver|done]].
      intros _ s' [log ->]. by exists log.
    + apply IH; [set_solver|done].
  - apply IH; set_solver.
Qed.

(** A buffer is unmapped: it may leave the list and its mapping is forgotten. *)
Lemma unmap_run p x s :
  skbs s !! p = Some x → table_exists s → listed_if_mapped s →
  wp (rtdev_unmap_rtskb p)
     (λ _ s', ∃ log l v, s' = s <| unmap_log := log |> <| rtskb_list := l |>
                              <| skbs := <[p := x <| buf_dma_addr := v |>]> (skbs s) |> ∧
              ∀ a, a ≠ p → a ∈ rtskb_list s → a ∈ l) s.
Proof.
  intros Hx Ht Hlm. unfold rtdev_unmap_rtskb. kstep_all.
  destruct (Z.eqb_spec (buf_dma_addr x) RTSKB_UNMAPPED) as [E|Hne].
  - apply wp_ret. exists (unmap_log s), (rtskb_list s), (buf_dma_addr x).
    replace (x <| buf_dma_addr := buf_dma_addr x |>) with x by (by destruct x).
    rewrite insert_id by done. by destruct s.
  - destruct (list_del_elem p (rtskb_list s)) as [l Hl]; [by eapply Hlm|]. kstep_all.
    eapply wp_mono; [|by eapply unmap_loop_run]. intros [] s' [log ->]. kstep_all.
    exists log, l, RTSKB_UNMAPPED. split; [done|]. intros a Hap Ha.
    apply list_del_perm in Hl. rewrite Hl in Ha. set_solver.
Qed.

Definition freed s s' l : Prop :=
  same_env s s' ∧ rtskb_amount s' = u32 (rtskb_amount s - Z.of_nat (length l)) ∧
  (∀ a, a ∈ l → skbs s' !! a = None) ∧
  (∀ a, a ∉ l → skbs s' !! a = skbs s !! a) ∧
  (slab_fresh s → slab_fresh s') ∧
  ∀ q', (pool_size s' q' + (if decide (q' = q) then length l else 0) = pool_size s q')%nat.

(** The first free buffer of a pool goes back to the slab allocator. *)
Definition free_first (p : nat) : M kstate () :=
  rtdev_unmap_rtskb p;; kmem_cache_free p;;
  modify (λ s, s <| rtskb_amount := u32 (rtskb_amount s - 1) |>).

Lemma free_first_run s1 s C a l x :
  pools_inv s1 (<[q := l]> C) → in_use (<[q := l]> C) a → skbs s !! a = Some x → pool x = Some q →
  skbs s1 = <[a := x <| next := None |>]> (skbs s) → same_world s s1 → table_exists s → listed_if_mapped s →
  wp (free_first a)
     (λ _ s', pools_inv s' (<[q := l]> C) ∧ table_exists s' ∧ listed_if_mapped s' ∧ freed s s' [a]) s1.
Proof.
  intros Hinv Huse Hx Hpx E1 W1 Ht Hlm. unfold free_first. apply wp_bind.
  assert (Hd : devs s1 = devs s ∧ rtnet_devices s1 = rtnet_devices s ∧ rtskb_list s1 = rtskb_list s ∧
    rtskb_amount s1 = rtskb_amount s ∧ rtskb_pools s1 = rtskb_pools s ∧ prioqs s1 = prioqs s ∧
    loopback_device s1 = loopback_device s ∧ slab s1 = slab s) by (rewrite W1; done).
  destruct Hd as (Hd1 & Hd2 & Hd3 & Hd4 & Hd5 & Hd6 & Hd7 & Hd8).
  eapply wp_mono; [|eapply (unmap_run a (x <| next := None |>))].
  2: { rewrite E1. apply lookup_insert_eq. }
  2: { intros d. by rewrite Hd1, Hd2; apply Ht. }
  2: { intros b y. rewrite E1, Hd3. intros [(<- & <-)|(Hne & Hy)]%lookup_insert_Some Hm; by eapply Hlm. }
  intros _ s2 (log & l' & v & -> & Hl'). unfold kmem_cache_free. kstep_all.
  assert (Hsk : delete a (<[a := x <| next := None |> <| buf_dma_addr := v |>]> (skbs s1)) = delete a (skbs s)).
  { by rewrite E1, !delete_insert_eq. }
  split_and!; unfold freed, same_env, table_exists, listed_if_mapped, pool_size, pool_map;
    cbn; rewrite ?Hsk, ?Hd1, ?Hd2, ?Hd3, ?Hd4, ?Hd5, ?Hd6, ?Hd7, ?Hd8.
  - eapply pools_inv_touch; [exact Hinv|exact Huse|..]; cbn; [|eauto].
    intros b Hb. rewrite E1, lookup_delete_ne, lookup_insert_ne by done. done.
  - done.
  - intros b y [Hab Hy]%lookup_delete_Some Hm. apply Hl'; [done|]. rewrite Hd3. by eapply Hlm.
  - split_and!; try done.
    + intros b ->%list_elem_of_singleton. apply lookup_delete_eq.
    + intros b Hb. rewrite lookup_delete_ne; [done|set_solver].
    + intros [Hnd Hfr]. split; cbn; rewrite fmap_app; cbn.
      * apply NoDup_app. split_and!; [done| |apply NoDup_singleton].
        intros b Hb ->%list_elem_of_singleton. rewrite Hfr in Hx; done.
      * intros b [Hb|Hb]%elem_of_app; [|apply list_elem_of_singleton in Hb as ->; apply lookup_delete_eq].
        rewrite lookup_delete_None. right. by apply Hfr.
    + intros q'. fold (count_pool (pool <$> delete a (skbs s)) q') (count_pool (pool <$> skbs s) q').
      rewrite <-(insert_delete_id (skbs s) a x Hx) at 2. rewrite fmap_insert.
      rewrite count_pool_insert_None by (by rewrite lookup_fmap, lookup_delete_eq). rewrite Hpx.
      repeat case_decide; simplify_eq; lia.
Qed.

Lemma freed_trans s1 s2 s3 l1 l2 :
  freed s1 s2 l1 → freed s2 s3 l2 → freed s1 s3 (l1 ++ l2).
Proof.
  intros (E1 & A1 & F1 & K1 & L1 & P1) (E2 & A2 & F2 & K2 & L2 & P2). split_and!.
  - destruct E1 as (? & ? & ? & ? & ?), E2 as (? & ? & ? & ? & ?). split_and!; congruence.
  - rewrite A2, A1, length_app. unfold u32. rewrite Zminus_mod_idemp_l. f_equal. lia.
  - intros a [Ha|Ha]%elem_of_app; [|by apply F2]. destruct (decide (a ∈ l2)); [by apply F2|].
    rewrite K2 by done. by apply F1.
  - intros a Ha. rewrite K2, K1 by set_solver. done.
  - auto.
  - intros q'. specialize (P1 q'). specialize (P2 q'). rewrite length_app. case_decide; lia.
Qed.

Lemma wp_free_first {A} p (k : M kstate A) Q s :
  wp (free_first p) (λ _, wp k Q) s →
  wp (rtdev_unmap_rtskb p;; kmem_cache_free p;;
      modify (λ s, s <| rtskb_amount := u32 (rtskb_amount s - 1) |>);; k) Q s.
Proof.
  unfold free_first, wp, mbind, M_bind. destruct (rtdev_unmap_rtskb p s) as [[u s1]|]; [|done].
  by destruct (kmem_cache_free p s1) as [[u' s2]|].
Qed.

Lemma freed_nil s : is_u32 (rtskb_amount s) → freed s s [].
Proof.
  intros Hu. split_and!; try done; [cbn; by rewrite Z.sub_0_r, u32_id|set_solver|].
  intros q'. case_decide; cbn; lia.
Qed.

Lemma pool_shrink_run n i s C l :
  pools_inv s C → C !! q = Some l → table_exists s → listed_if_mapped s → is_u32 (rtskb_amount s) →
  wp (pool_shrink_loop n i q)
     (λ r s', r = i + Z.of_nat (length (take n l)) ∧ pools_inv s' (<[q := drop n l]> C) ∧
        table_exists s' ∧ listed_if_mapped s' ∧ freed s s' (take n l)) s.
Proof.
  revert i s C l. induction n as [|n IH]; intros i s C l Hinv Hl Ht Hlm Hu; cbn [pool_shrink_loop].
  { apply wp_ret. rewrite drop_0, take_0, insert_id by done. cbn [length]. split_and!; [lia|done..|by apply freed_nil]. }
  unfold rtskb_dequeue. apply wp_bind. eapply wp_dequeue; [done..|]. destruct l as [|a l].
  { apply wp_ret. rewrite drop_nil, take_nil, insert_id by done. cbn [length]. split_and!; [lia|done..|by apply freed_nil]. }
  intros s1 x Hinv1 Huse Hx Hpx E1 W1. apply wp_free_first.
  eapply wp_mono; [|by eapply free_first_run]. intros _ s2 (Hinv2 & Ht2 & Hlm2 & Hf).
  eapply wp_mono; [|eapply IH; [done|apply lookup_insert_eq|done..|]].
  - intros r s3 (-> & Hinv3 & Ht3 & Hlm3 & Hf3). rewrite firstn_cons, skipn_cons. cbn [length].
    rewrite insert_insert_eq in Hinv3. split_and!; try done; [lia|]. by eapply (freed_trans _ _ _ [a]).
  - destruct Hf as (_ & -> & _). apply u32_range.
Qed.

Lemma pool_release_run fuel s C l :
  pools_inv s C → C !! q = Some l → table_exists s → listed_if_mapped s → is_u32 (rtskb_amount s) →
  (length l < fuel)%nat →
  wp (pool_release_loop fuel q)
     (λ _ s', pools_inv s' (<[q := []]> C) ∧ table_exists s' ∧ listed_if_mapped s' ∧ freed s s' l) s.
Proof.
  revert s C l. induction fuel as [|n IH]; intros s C l Hinv Hl Ht Hlm Hu Hlen; [lia|]. cbn [pool_release_loop].
  unfold rtskb_dequeue. apply wp_bind. eapply wp_dequeue; [done..|]. destruct l as [|a l].
  { apply wp_ret. rewrite insert_id by done. split_and!; try done. by apply freed_nil. }
  intros s1 x Hinv1 Huse Hx Hpx E1 W1. apply wp_free_first.
  eapply wp_mono; [|by eapply free_first_run]. intros _ s2 (Hinv2 & Ht2 & Hlm2 & Hf). cbn in Hlen.
  eapply wp_mono; [|eapply IH; [done|apply lookup_insert_eq|done..| |lia]].
  - intros _ s3 (Hinv3 & Ht3 & Hlm3 & Hf3).
    rewrite insert_insert_eq in Hinv3. split_and!; try done. by eapply (freed_trans _ _ _ [a]).
  - destruct Hf as (_ & -> & _). apply u32_range.
Qed.
End shrink.

(** ** The state the pool operations work in *)

Section system.
Context `{Config} (f : nat → Z).
Implicit Types s : kstate.

Record pool_sys s (C : gmap nat (list nat)) : Prop := {
  ps_pools : pools_inv s C;
  ps_slab : slab_fresh s;
  ps_dma : dma_consistent f s;
  ps_listed : listed_if_mapped s;
  ps_amount : is_u32 (rtskb_amount s);
}.
Lemma dma_env s s' : same_env s s' → dma_consistent f s → dma_consistent f s'.
Proof. intros (E1 & E2 & _) [Hf Hd]. split; [done|]. intros d. rewrite E1, E2. apply Hd. Qed.
Lemma dma_table s : dma_consistent f s → table_exists s.
Proof. intros [_ Hd] d Hin. destruct (Hd d Hin) as (D & HD & _). eauto. Qed.

(** A pool holds no more free buffers than belong to it. *)
Lemma free_le_pool_size s C q l : pools_inv s C → C !! q = Some l → (length l ≤ pool_size s q)%nat.
Proof.
  intros Hinv Hl. destruct (pi_queue _ _ Hinv _ _ Hl) as (Q & HQ & Hq).
  apply NoDup_length_size; [by eapply is_queue_NoDup|]. intros a Ha. destruct Hq as [Hseg _].
  destruct (lseg_lookup _ _ _ _ _ _ Hseg Ha) as [x Hx].
  exists (Some q). apply map_lookup_filter_Some. split; [|done]. unfold pool_map. rewrite lookup_fmap, Hx.
  cbn. by rewrite (pi_pool _ _ Hinv _ _ _ _ Hl Ha Hx).
Qed.

Lemma shrink_run n s C q l :
  pool_sys s C → C !! q = Some l → 0 ≤ n →
  wp (rtskb_pool_shrink q n)
     (λ r s', let k := Z.to_nat n in r = Z.min n (Z.of_nat (length l)) ∧
        pool_sys s' (<[q := drop k l]> C) ∧ freed q s s' (take k l)) s.
Proof.
  intros [Hinv Hsl Hdma Hlm Hu] Hl Hn. eapply wp_mono; [|by eapply pool_shrink_run; eauto using dma_table].
  intros r s' (-> & Hinv' & Ht & Hlm' & Hf). cbn zeta. pose proof Hf as (He & Ha & _ & _ & Hs & _).
  split_and!; [rewrite length_take; lia| |done]. split; [done|auto|by eapply dma_env|done|]. rewrite Ha. apply u32_range.
Qed.

Lemma extend_run n s C q l :
  pool_sys s C → C !! q = Some l → 0 ≤ n →
  wp (rtskb_pool_extend q n)
     (λ r s', let k := Z.to_nat n in r = Z.min n (Z.of_nat (length (slab s))) ∧
        pool_sys s' (<[q := l ++ take k (slab s).*1]> C) ∧ same_env s s' ∧
        ∀ q', pool_size s' q' = (pool_size s q' + if decide (q' = q) then Nat.min k (length (slab s)) else 0)%nat) s.
Proof.
  intros [Hinv Hsl Hdma Hlm Hu] Hl Hn. eapply wp_mono; [|by eapply (pool_extend_run f)].
  intros r s' (-> & Hinv' & _ & _ & _ & Ha & He & Hfr & Hlm' & Hsz). cbn zeta.
  rewrite length_take, length_fmap in *. split_and!; [lia| |done|done].
  split; [done|done|by eapply dma_env|auto|]. rewrite Ha by done. apply u32_range.
Qed.

(** The statistics do not matter. *)
Lemma pool_sys_pools s C v : pool_sys s C → pool_sys (s <| rtskb_pools := v |>) C.
Proof. intros [[] ? ? ? ?]. split; [by split|done..]. Qed.

(** An initialized queue is a new, empty pool. *)
Lemma pool_sys_new s C q Q :
  pool_sys s C → C !! q = None → first Q = None →
  pool_sys (s <| queues := <[q := Q]> (queues s) |>) (<[q := []]> C).
Proof.
  intros [[Hq Hd Hp] ? ? ? ?] HC HQ. split; [split|done..]; cbn.
  - intros q1 k [(<- & <-)|(Hne & Hk)]%lookup_insert_Some.
    + exists Q. rewrite lookup_insert_eq. done.
    + rewrite lookup_insert_ne by done. by apply Hq.
  - intros q1 q2 l1 l2 a [(<- & <-)|(Hne1 & Hk1)]%lookup_insert_Some
      [(<- & <-)|(Hne2 & Hk2)]%lookup_insert_Some Ha1 Ha2; [done|set_solver..|by eapply Hd].
  - intros q1 k a x [(<- & <-)|(Hne & Hk)]%lookup_insert_Some; [set_solver|]. by apply Hp.
Qed.
(** A queue that is no pool. *)
Lemma pool_sys_queue s C q Q :
  pool_sys s C → C !! q = None → pool_sys (s <| queues := <[q := Q]> (queues s) |>) C.
Proof.
  intros [Hinv ? ? ? ?] HC. split; [|done..]. eapply pools_inv_frame; [done|..|done]. cbn.
  intros q1 l Hl. destruct (pi_queue _ _ Hinv _ _ Hl) as (Q1 & HQ1 & _). exists Q1, Q1.
  rewrite lookup_insert_ne by congruence. done.
Qed.

Lemma pool_init_run n s C q Q :
  pool_sys s C → C !! q = None → queues s !! q = Some Q → 0 ≤ n →
  wp (rtskb_pool_init q n)
     (λ r s', r = Z.min n (Z.of_nat (length (slab s))) ∧
        pool_sys s' (<[q := take (Z.to_nat n) (slab s).*1]> C) ∧ rtskb_pools s' = u32 (rtskb_pools s + 1) ∧
        ∀ q', pool_size s' q' = (pool_size s q' + if decide (q' = q) then Z.to_nat r else 0)%nat) s.
Proof.
  intros Hsys HC HQ Hn. unfold rtskb_pool_init, rtskb_queue_init. apply wp_bind. kstep. apply wp_bind.
  apply (wp_mono _ (λ _ s1, pool_sys s1 (<[q := []]> C) ∧ slab s1 = slab s ∧ rtskb_pools s1 = rtskb_pools s ∧
    skbs s1 = skbs s)).
  2: { destruct CONFIG_RTNET_CHECKED; cbn [when]; [|apply wp_ret; split; [by apply pool_sys_new|done]].
    kstep. match goal with |- pool_sys ?t _ ∧ _ =>
      replace t with (s <| queues := <[q := mk_queue None None 0]> (queues s) |>) by state_eq end.
    split; [by apply pool_sys_new|done]. }
  intros [] s1 (Hsys1 & E1 & E2 & E3). apply wp_bind.
  eapply wp_mono; [|eapply (extend_run n); [done|apply lookup_insert_eq|done]].
  rewrite E1. intros r s2 (-> & Hsys2 & (_ & _ & Hp & _) & Hsz). rewrite insert_insert_eq, app_nil_l in Hsys2.
  apply wp_bind, wp_modify, wp_bind, wp_modify, wp_ret.
  split; [done|]. split; [|split].
  - case_match; [|by apply pool_sys_pools]. destruct Hsys2 as [[] ? ? ? ?]. by split; [split|..].
  - case_match; cbn; by rewrite Hp, E2.
  - intros q'. unfold pool_size, pool_map in *. rewrite E3 in Hsz. case_match; cbn; rewrite Hsz; (case_decide; [|done]); f_equal; lia.
Qed.

Lemma release_run s C q l :
  pool_sys s C → C !! q = Some l →
  wp (__rtskb_pool_release q)
     (λ _ s', pool_sys s' (<[q := []]> C) ∧ freed q s (s' <| rtskb_pools := rtskb_pools s |>) l ∧
              rtskb_pools s' = u32 (rtskb_pools s - 1)) s.
Proof.
  intros [Hinv Hsl Hdma Hlm Hu] Hl. unfold __rtskb_pool_release. apply wp_bind, wp_gets, wp_bind.
  destruct (pi_queue _ _ Hinv _ _ Hl) as (Q & HQ & Hq).
  eapply wp_mono; [|eapply pool_release_run; eauto using dma_table].
  - intros [] s' (Hinv' & Ht & Hlm' & Hf). pose proof Hf as (He & Ha & _ & _ & Hs & _). apply wp_modify.
    pose proof He as (_ & _ & Hp & _). split_and!; [|by cbn; rewrite <-Hp; destruct s'|by cbn; rewrite Hp].
    apply pool_sys_pools. split; [done|auto|by eapply dma_env|done|]. rewrite Ha. apply u32_range.
  - destruct Hq as [Hseg _]. apply llist_length in Hseg. lia.
Qed.
End system.

(** C40: defect.  A buffer that was never DMA mapped (no driver with a mapping hook
    was registered when its pool grew) stays on the global buffer list when its
    pool shrinks, although its memory is freed: [rtdev_unmap_rtskb] returns before
    [list_del].  Registering a driver with a mapping hook then walks freed memory:
    [rtdev_map_all_rtskbs] is undefined. *)
Theorem shrink_leaves_freed_buffer_listed `{Config} s C q a l x rest d D g :
  pools_inv s C → C !! q = Some (a :: l) → skbs s !! a = Some x →
  buf_dma_addr x = RTSKB_UNMAPPED → rtskb_list s = a :: rest →
  devs s !! d = Some D → map_rtskb D = Some g → g a ≠ RTSKB_UNMAPPED →
  wp (rtskb_pool_shrink q 1)
     (λ n s', n = 1 ∧ skbs s' !! a = None ∧ rtskb_list s' = a :: rest ∧
              rtdev_map_all_rtskbs d s' = None) s.
Proof.
  intros Hinv Hl Hx Hdma Hlist HD Hg Hga. unfold rtskb_pool_shrink, rtskb_dequeue. simpl.
  apply wp_bind. eapply wp_dequeue; [done..|]. intros s1 x1 _ _ Hx1 _ E1 W1. simplify_eq.
  assert (Hx1 : skbs s1 !! a = Some (x <| next := None |>)) by (rewrite E1; by simplify_map_eq).
  rewrite W1 in Hx1 |- *. cbn in Hx1. unfold rtdev_unmap_rtskb, kmem_cache_free. kstep_all.
  cbn. rewrite Hdma. cbn. kstep_all. cbn. rewrite lookup_delete_eq. split_and!; [done..|].
  unfold rtdev_map_all_rtskbs, dev_load, mbind, M_bind, gets, deref. cbn. rewrite HD, Hg. cbn.
  rewrite Hlist. cbn. unfold rtskb_map, dev_load, skb_load, mbind, M_bind, gets, deref. cbn.
  rewrite HD, Hg. destruct (Z.eqb_spec (g a) RTSKB_UNMAPPED); [done|].
  cbn. by rewrite lookup_delete_eq.
Qed.
