(* ===== verification/RtskbData.v ===== *)
(** * The data area of an rtskb (stack/include/rtskb.h) and [rtskb_clone]

    The operations that move the data and tail pointers of a buffer, as functions
    on the buffer header, and their meaning in terms of the packet bytes between
    the two pointers. *)
From S2P Require Import Prelude State RtskbQueue Rtskb.

(** ** Operations *)

Definition rtskb_headlen (x : rtskb) : Z := s32 (len x).

Definition rtskb_reserve (n : Z) (x : rtskb) : rtskb :=
  x <| data := data x + n |> <| tail := tail x + n |>.

(** The operations with a result return it with the new header. *)
Definition __rtskb_put (n : Z) (x : rtskb) : Z * rtskb :=
  let tmp := tail x in
  (tmp, x <| tail := tail x + n |> <| len := u32 (len x + n) |>).

(** The macro [rtskb_put]; its assertion only prints a message. *)
Definition rtskb_put (n : Z) (x : rtskb) : Z * rtskb :=
  let tmp := tail x in
  (tmp, x <| tail := tail x + n |> <| len := u32 (len x + n) |>).

Definition __rtskb_push (n : Z) (x : rtskb) : Z * rtskb :=
  let x := x <| data := data x - n |> <| len := u32 (len x + n) |> in (data x, x).

(** The macro [rtskb_push]; its assertion only prints a message. *)
Definition rtskb_push (n : Z) (x : rtskb) : Z * rtskb :=
  let x := x <| data := data x - n |> <| len := u32 (len x + n) |> in (data x, x).

Definition __rtskb_pull `{Config} (n : Z) (x : rtskb) : option Z * rtskb :=
  if assert_fails (n <=? len x) then (None, x)
  else
    let x := x <| len := u32 (len x - n) |> <| data := data x + n |> in (Some (data x), x).

Definition rtskb_pull (n : Z) (x : rtskb) : option Z * rtskb :=
  if len x <? n then (None, x)
  else
    let x := x <| len := u32 (len x - n) |> <| data := data x + n |> in (Some (data x), x).

Definition rtskb_trim (n : Z) (x : rtskb) : rtskb :=
  if n <? len x then x <| len := n |> <| tail := data x + n |> else x.

(** *** Access to the bytes of the data area *)

(** The [n] bytes at address [addr]; [None] when they are not all inside. *)
Definition buf_read (x : rtskb) (addr n : Z) : option (list Z) :=
  let off := addr - buf_start x in
  if (0 <=? off) && (0 <=? n) && (off + n <=? Z.of_nat (length (buf x)))
  then Some (take (Z.to_nat n) (drop (Z.to_nat off) (buf x))) else None.
Definition buf_write (x : rtskb) (addr : Z) (bytes : list Z) : option rtskb :=
  let off := addr - buf_start x in
  if (0 <=? off) && (off + Z.of_nat (length bytes) <=? Z.of_nat (length (buf x)))
  then Some (x <| buf := take (Z.to_nat off) (buf x) ++ bytes
                         ++ drop (Z.to_nat off + length bytes) (buf x) |>)
  else None.

(** Stores to and loads from the data area of a buffer in memory. *)
Definition skb_write (skb : nat) (addr : Z) (bytes : list Z) : M kstate () :=
  x ← skb_load skb; x' ← deref (buf_write x addr bytes); skb_store skb x'.
Definition skb_read (skb : nat) (addr n : Z) : M kstate (list Z) :=
  x ← skb_load skb; deref (buf_read x addr n).
(** The first [n] bytes an array pointer leads to. *)
Definition mem_read (l : list Z) (n : nat) : option (list Z) :=
  if (n <=? length l)%nat then Some (take n l) else None.

(** [memset(rtskb->data + rtskb->len, 0, len - rtskb->len)]: the byte count is an
    unsigned difference. *)
Definition rtskb_padto `{Config} (n : Z) (x : rtskb) : option (option Z * rtskb) :=
  if assert_fails (n <=? u32 (buf_end x + 1 - data x)) then Some (None, x)
  else
    x' ← buf_write x (data x + len x) (replicate (Z.to_nat (u32 (n - len x))) 0);
    Some (Some (data x'), x').

Definition rtskb_clone `{Config} (rtskb pool : nat) : M kstate (option nat) :=
  x ← skb_load rtskb;
  r ← alloc_rtskb (u32 (end_ x - buf_start x)) pool;
  match r with
  | None => mret None
  | Some clone =>
      x ← skb_load rtskb;
      skb_upd clone (λ c, c <| priority := priority x |> <| rtdev := rtdev x |>
                            <| time_stamp := time_stamp x |>);;
      skb_upd clone (λ c, c <| mac_raw := buf_start c |> <| nh_raw := buf_start c |>
                            <| h_raw := buf_start c |>);;
      skb_upd clone (λ c, c <| data := data c + (data x - buf_start x) |>
                            <| tail := tail c + (tail x - buf_start x) |>
                            <| mac_raw := mac_raw c + (mac_raw x - buf_start x) |>
                            <| nh_raw := nh_raw c + (nh_raw x - buf_start x) |>
                            <| h_raw := h_raw c + (h_raw x - buf_start x) |>);;
      skb_upd clone (λ c, c <| protocol := protocol x |> <| pkt_type := pkt_type x |>
                            <| ip_summed := ip_summed x |> <| csum := csum x |>);;
      let total_len := u32 (len x + data x - mac_raw x) in
      bytes ← deref (buf_read x (mac_raw x) total_len);
      c ← skb_load clone;
      c' ← deref (buf_write c (mac_raw c) bytes);
      skb_store clone c';;
      skb_upd clone (λ c, c <| len := len x |>);;
      mret (Some clone)
  end.

(** *** Fields of headers *)

(** The bytes of a 16 or 32 bit field in memory as the target reads it. *)
Definition rd16 `{Config} (b : list Z) : option Z :=
  match b with [a; b] => Some (if little_endian then a + 256 * b else 256 * a + b) | _ => None end.
Definition rd32 `{Config} (b : list Z) : option Z :=
  match b with
  | [a; b; c; d] => Some (if little_endian then a + 2 ^ 8 * b + 2 ^ 16 * c + 2 ^ 24 * d
                          else 2 ^ 24 * a + 2 ^ 16 * b + 2 ^ 8 * c + d)
  | _ => None
  end.
(** The bytes of a 32 bit object of the target in memory. *)
Definition wr32 `{Config} (x : Z) : list Z :=
  let b := [x mod 256; x / 2 ^ 8 mod 256; x / 2 ^ 16 mod 256; x / 2 ^ 24 mod 256] in
  if little_endian then b else reverse b.
(** Likewise for 64 bits. *)
Definition rd64 `{Config} (b : list Z) : option Z :=
  lo ← rd32 (take 4 b); hi ← rd32 (drop 4 b);
  Some (if little_endian then lo + hi * 2 ^ 32 else lo * 2 ^ 32 + hi).
Definition wr64 `{Config} (x : Z) : list Z :=
  if little_endian then wr32 (x mod 2 ^ 32) ++ wr32 (x / 2 ^ 32) else wr32 (x / 2 ^ 32) ++ wr32 (x mod 2 ^ 32).
(** What [htons] and [htonl] leave in memory on either kind of target, and what
    [ntohs] and [ntohl] read from there. *)
Definition be16 (x : Z) : list Z := [x / 256 mod 256; x mod 256].
Definition be32 (x : Z) : list Z :=
  [x / 2 ^ 24 mod 256; x / 2 ^ 16 mod 256; x / 2 ^ 8 mod 256; x mod 256].
Definition rd_be16 (b : list Z) : option Z :=
  match b with [a; b] => Some (256 * a + b) | _ => None end.
Definition rd_be32 (b : list Z) : option Z :=
  match b with
  | [a; b; c; d] => Some (2 ^ 24 * a + 2 ^ 16 * b + 2 ^ 8 * c + d)
  | _ => None
  end.

(** [cpu_to_be64] and [be64_to_cpu] likewise. *)
Definition be64 (x : Z) : list Z := be32 (x / 2 ^ 32) ++ be32 (x mod 2 ^ 32).
Definition rd_be64 (b : list Z) : option Z :=
  hi ← rd_be32 (take 4 b); lo ← rd_be32 (drop 4 b); Some (hi * 2 ^ 32 + lo).

Lemma length_be16 x : length (be16 x) = 2%nat.
Proof. done. Qed.
Lemma rd_be16_be16 x : 0 ≤ x < 2 ^ 16 → rd_be16 (be16 x) = Some x.
Proof. change (2 ^ 16) with 65536. intros Hx. unfold rd_be16, be16. f_equal. divlia. Qed.
Lemma rd_be32_be32 x : is_u32 x → rd_be32 (be32 x) = Some x.
Proof.
  unfold is_u32, rd_be32, be32. change (2 ^ 32) with 4294967296. change (2 ^ 24) with 16777216.
  change (2 ^ 16) with 65536. change (2 ^ 8) with 256. intros Hx. f_equal. divlia.
Qed.
Lemma rd_be64_be64 x : 0 ≤ x < 2 ^ 64 → rd_be64 (be64 x) = Some x.
Proof.
  intros Hx. unfold rd_be64, be64. rewrite take_app_length', drop_app_length' by done.
  rewrite !rd_be32_be32 by (unfold is_u32; divlia). cbn. f_equal. divlia.
Qed.
Lemma rd16_be16 `{Config} x : 0 ≤ x < 2 ^ 16 → rd16 (be16 x) = Some (ntohs x).
Proof.
  change (2 ^ 16) with 65536. intros Hx. unfold rd16, be16, ntohs, bswap16.
  destruct little_endian; f_equal; divlia.
Qed.
Lemma rd32_wr32 `{Config} x : is_u32 x → rd32 (wr32 x) = Some x.
Proof.
  unfold is_u32, rd32, wr32. change (2 ^ 32) with 4294967296. change (2 ^ 24) with 16777216.
  change (2 ^ 16) with 65536. change (2 ^ 8) with 256. intros Hx.
  destruct little_endian; cbn; f_equal; divlia.
Qed.

(** ** Meaning *)

(** The packet: the bytes from [data] to [tail]. *)
Definition payload (x : rtskb) : list Z :=
  take (Z.to_nat (len x)) (drop (Z.to_nat (data x - buf_start x)) (buf x)).

(** [data], [tail] and [len] describe a range inside the data area. *)
Record wf_rtskb (x : rtskb) : Prop := {
  wf_size : Z.of_nat (length (buf x)) < 2 ^ 32;
  wf_data : buf_start x ≤ data x;
  wf_len : 0 ≤ len x;
  wf_tail : tail x = data x + len x;
  wf_end : tail x ≤ buf_start x + Z.of_nat (length (buf x));
}.
Definition headroom (x : rtskb) : Z := data x - buf_start x.
Definition tailroom (x : rtskb) : Z := buf_start x + Z.of_nat (length (buf x)) - tail x.

Lemma wf_u32 x n : wf_rtskb x → - len x ≤ n ≤ headroom x + tailroom x → u32 (len x + n) = len x + n.
Proof.
  intros [? ? ? ? ?] Hn. unfold headroom, tailroom in *. apply u32_id. unfold is_u32. lia.
Qed.

(** The bytes in a chain of buffers. *)
Fixpoint chain_bytes (h : gmap nat rtskb) (c : list nat) : list Z :=
  match c with
  | [] => []
  | a :: c => match h !! a with Some x => payload x | None => [] end ++ chain_bytes h c
  end.
Lemma chain_bytes_app h c1 c2 : chain_bytes h (c1 ++ c2) = chain_bytes h c1 ++ chain_bytes h c2.
Proof. induction c1 as [|a c1 IH]; [done|]. cbn. by rewrite IH, app_assoc. Qed.
Lemma chain_bytes_frame h h' c :
  (∀ a, a ∈ c → payload <$> h' !! a = payload <$> h !! a) → chain_bytes h' c = chain_bytes h c.
Proof.
  induction c as [|a c IH]; intros Hc; [done|]. cbn. rewrite IH by set_solver. f_equal.
  specialize (Hc a ltac:(set_solver)). destruct (h' !! a), (h !! a); cbn in Hc; congruence.
Qed.

Lemma length_payload x : wf_rtskb x → Z.of_nat (length (payload x)) = len x.
Proof.
  intros [? ? ? ? ?]. unfold payload. rewrite length_take, length_drop. lia.
Qed.

(** A valid length stays one, and the packet changes as the operation says. *)
Lemma pull_ok x n : wf_rtskb x → 0 ≤ n ≤ len x →
  rtskb_pull n x = (Some (data x + n), x <| len := len x - n |> <| data := data x + n |>) ∧
  wf_rtskb (snd (rtskb_pull n x)) ∧ payload (snd (rtskb_pull n x)) = drop (Z.to_nat n) (payload x).
Proof.
  intros Hwf Hn. pose proof Hwf as [Hs Hd Hl Ht He].
  assert (E : u32 (len x - n) = len x - n).
  { apply (wf_u32 x (- n)); [done|]. unfold headroom, tailroom. lia. }
  unfold rtskb_pull. destruct (Z.ltb_spec (len x) n); [lia|]. cbn. rewrite E. split; [done|]. split.
  - split; cbn; lia.
  - unfold payload. cbn. rewrite skipn_firstn_comm, drop_drop. f_equal; [lia|]. f_equal. lia.
Qed.
(** [__rtskb_pull] of [n] bytes. *)
Definition pulled (n : Z) (x : rtskb) : rtskb := x <| len := len x - n |> <| data := data x + n |>.
Lemma pulled_eq `{Config} n x : wf_rtskb x → 0 ≤ n ≤ len x → snd (__rtskb_pull n x) = pulled n x.
Proof.
  intros [? ? ? ? ?] Hn. unfold __rtskb_pull, assert_fails, pulled. replace (n <=? len x) with true by lia.
  rewrite andb_false_r. cbn [snd]. rewrite u32_id by (unfold is_u32; lia). done.
Qed.
Lemma pulled_ok n x : wf_rtskb x → 0 ≤ n ≤ len x → wf_rtskb (pulled n x) ∧ payload (pulled n x) = drop (Z.to_nat n) (payload x).
Proof. intros Hwf Hn. destruct (pull_ok x n Hwf Hn) as [E Ho]. rewrite E in Ho. exact Ho. Qed.
Lemma trim_ok x n : wf_rtskb x → 0 ≤ n →
  wf_rtskb (rtskb_trim n x) ∧ payload (rtskb_trim n x) = take (Z.to_nat n) (payload x) ∧
  len (rtskb_trim n x) = Z.min n (len x).
Proof.
  intros Hwf Hn. pose proof Hwf as [Hs Hd Hl Ht He].
  unfold rtskb_trim. destruct (Z.ltb_spec n (len x)); cbn.
  - split; [split; cbn; lia|]. split; [|lia]. unfold payload. cbn. rewrite take_take. f_equal. lia.
  - split; [done|]. split; [|lia]. rewrite take_ge; [done|]. pose proof (length_payload x Hwf). lia.
Qed.
Lemma push_ok x n : wf_rtskb x → 0 ≤ n ≤ headroom x →
  rtskb_push n x = (data x - n, x <| data := data x - n |> <| len := len x + n |>) ∧
  wf_rtskb (snd (rtskb_push n x)) ∧ drop (Z.to_nat n) (payload (snd (rtskb_push n x))) = payload x.
Proof.
  intros Hwf Hn. pose proof Hwf as [Hs Hd Hl Ht He]. unfold rtskb_push, headroom in *. cbn.
  assert (E : u32 (len x + n) = len x + n).
  { apply (wf_u32 x); [done|]. unfold headroom, tailroom. lia. }
  rewrite E. split; [done|]. split; [split; cbn; lia|].
  unfold payload. cbn. rewrite skipn_firstn_comm, drop_drop. f_equal; [lia|]. f_equal. lia.
Qed.
Lemma put_ok x n : wf_rtskb x → 0 ≤ n ≤ tailroom x →
  rtskb_put n x = (tail x, x <| tail := tail x + n |> <| len := len x + n |>) ∧
  wf_rtskb (snd (rtskb_put n x)) ∧ take (Z.to_nat (len x)) (payload (snd (rtskb_put n x))) = payload x.
Proof.
  intros Hwf Hn. pose proof Hwf as [Hs Hd Hl Ht He]. unfold rtskb_put, tailroom in *. cbn.
  assert (E : u32 (len x + n) = len x + n).
  { apply (wf_u32 x); [done|]. unfold headroom, tailroom. lia. }
  rewrite E. split; [done|]. split; [split; cbn; lia|].
  unfold payload. cbn. rewrite take_take. f_equal. lia.
Qed.

(** moving the pointers of a well-formed buffer within its head and tail room
    keeps it well-formed, and the packet changes as the operation says: [pull]
    drops its first [n] bytes, [trim] keeps the first [n], [push] and [put] make
    it longer by [n] bytes in front and behind. *)
Theorem rtskb_data_ops x n :
  wf_rtskb x → 0 ≤ n →
  (n ≤ len x → let (r, y) := rtskb_pull n x in
     wf_rtskb y ∧ r = Some (data x + n) ∧ payload y = drop (Z.to_nat n) (payload x)) ∧
  (wf_rtskb (rtskb_trim n x) ∧ payload (rtskb_trim n x) = take (Z.to_nat n) (payload x)) ∧
  (n ≤ headroom x → let (r, y) := rtskb_push n x in
     wf_rtskb y ∧ r = data x - n ∧ drop (Z.to_nat n) (payload y) = payload x ∧ len y = len x + n) ∧
  (n ≤ tailroom x → let (r, y) := rtskb_put n x in
     wf_rtskb y ∧ r = tail x ∧ take (Z.to_nat (len x)) (payload y) = payload x ∧ len y = len x + n).
Proof.
  intros Hwf Hn. split_and!.
  - intros Hp. destruct (pull_ok x n Hwf (conj Hn Hp)) as (E & Hw & Hpl). rewrite E in *. auto.
  - by apply trim_ok.
  - by apply trim_ok.
  - intros Hh. destruct (push_ok x n Hwf (conj Hn Hh)) as (E & Hw & Hpl). rewrite E in *. auto.
  - intros Hh. destruct (put_ok x n Hwf (conj Hn Hh)) as (E & Hw & Hpl). rewrite E in *. auto.
Qed.

(** ** Cloning *)

Lemma buf_read_range x addr n :
  buf_start x ≤ addr → 0 ≤ n → addr + n ≤ buf_start x + Z.of_nat (length (buf x)) →
  buf_read x addr n = Some (take (Z.to_nat n) (drop (Z.to_nat (addr - buf_start x)) (buf x))).
Proof.
  intros H1 H2 H3. unfold buf_read.
  by replace (_ && _) with true by (symmetry; rewrite !andb_true_iff; lia).
Qed.
Lemma buf_write_range x addr bytes :
  buf_start x ≤ addr →
  addr + Z.of_nat (length bytes) ≤ buf_start x + Z.of_nat (length (buf x)) →
  buf_write x addr bytes
  = Some (x <| buf := take (Z.to_nat (addr - buf_start x)) (buf x) ++ bytes
              ++ drop (Z.to_nat (addr - buf_start x) + length bytes) (buf x) |>).
Proof.
  intros H1 H2. unfold buf_write.
  by replace (_ && _) with true by (symmetry; rewrite !andb_true_iff; lia).
Qed.

(** Bytes [off2] .. of a range written at [off1] read back as bytes of the source. *)
Lemma splice_read (b b' : list Z) (o n m k : nat) :
  length b = length b' → (o + n ≤ length b)%nat → (m + k ≤ n)%nat →
  take k (drop (o + m) (take o b' ++ take n (drop o b)
     ++ drop (o + length (take n (drop o b))) b')) = take k (drop (o + m) b).
Proof.
  intros Hl Ho Hk.
  rewrite <-drop_drop, drop_app_length' by (rewrite length_take; lia).
  rewrite drop_app_le by (rewrite length_take, length_drop; lia).
  rewrite take_app_le by (rewrite length_drop, length_take, length_drop; lia).
  rewrite skipn_firstn_comm, take_take, drop_drop. f_equal. lia.
Qed.

Lemma length_splice (b b' : list Z) (o n : nat) :
  length b = length b' → (o + n ≤ length b)%nat →
  length (take o b' ++ take n (drop o b) ++ drop (o + length (take n (drop o b))) b') = length b.
Proof. intros. rewrite !length_app, !length_drop, !length_take, length_drop. lia. Qed.

(** What a clone [c] of packet [x] shares with it: the packet, the offsets of all
    headers, and the meta data (all but socket and transmission stamp). *)
Definition clone_of (x c : rtskb) : Prop :=
  payload c = payload x ∧ len c = len x ∧
  data c - buf_start c = data x - buf_start x ∧ tail c - buf_start c = tail x - buf_start x ∧
  end_ c - buf_start c = end_ x - buf_start x ∧
  mac_raw c - buf_start c = mac_raw x - buf_start x ∧
  nh_raw c - buf_start c = nh_raw x - buf_start x ∧
  h_raw c - buf_start c = h_raw x - buf_start x ∧
  buf_read c (mac_raw c) (data c - mac_raw c) = buf_read x (mac_raw x) (data x - mac_raw x) ∧
  priority c = priority x ∧ rtdev c = rtdev x ∧ time_stamp c = time_stamp x ∧
  protocol c = protocol x ∧ pkt_type c = pkt_type x ∧ ip_summed c = ip_summed x ∧ csum c = csum x.

(** The clone of a packet, with the pools. *)
Lemma rtskb_clone_run `{Config} s C q l p x :
  pools_inv s C → C !! q = Some l → skbs s !! p = Some x → in_use C p →
  wf_rtskb x → buf_start x ≤ mac_raw x ≤ data x →
  0 ≤ end_ x - buf_start x ≤ SKB_DATA_ALIGN RTSKB_SIZE → SKB_DATA_ALIGN RTSKB_SIZE < 2 ^ 32 →
  (∀ a y, a ∈ l → skbs s !! a = Some y → length (buf y) = length (buf x)) →
  wp (rtskb_clone p q)
     (λ r s', match l with
      | [] => r = None ∧ s' = s
      | a :: l' => r = Some a ∧ (∀ b, b ≠ a → skbs s' !! b = skbs s !! b) ∧ a ≠ p ∧
                   (same_world s s' ∧ only_queue q s s' ∧ pools_inv s' (<[q := l']> C) ∧ in_use (<[q := l']> C) a) ∧
                   ∃ c, skbs s' !! a = Some c ∧ wf_rtskb c ∧ clone_of x c ∧ next c = None ∧
                     (chain_end c = Some a ∧ pool c = Some q ∧
                      (CONFIG_RTNET_ADDON_RTCAP = true → Z.land (cap_flags c) RTSKB_CAP_SHARED = 0) ∧
                      length (buf c) = length (buf x))
      end) s.
Proof.
  intros Hinv Hl Hx Huse Hwf Hmac Hend Hal Hlens. pose proof Hwf as [? ? ? ? ?].
  unfold rtskb_clone. kstep_all.
  rewrite (u32_id (end_ x - buf_start x)) by (unfold is_u32; lia).
  eapply wp_mono; [|eapply wp_both; [eapply alloc_rtskb_run|eapply wp_both;
    [eapply alloc_rtskb_only|eapply alloc_rtskb_unshared]]; [done|done|lia|done|done|lia|done|done|lia]].
  cbn beta. intros r s1. destruct l as [|a l].
  { by intros [[-> ->] _]. }
  intros [(-> & Hw1 & Hinv1 & Ha & _ & Hs1 & c0 & c & Hc0 & Hc & Hf) [Ho1 Hcap]].
  assert (Hap : a ≠ p) by (intros ->; eapply (Huse q); [done|set_solver]).
  assert (Hlc : length (buf c0) = length (buf x)) by (eapply Hlens; [|exact Hc0]; set_solver).
  destruct Hf as (Eb & Ebs & Hn & Hce & Hpl & Ed & Et & Ee & Elen & Epk & Exm).
  assert (Hxp : skbs s1 !! p = Some x) by (by rewrite Hs1).
  kstep_all.
  rewrite (u32_id (len x + data x - mac_raw x)) by (unfold is_u32; lia).
  rewrite buf_read_range by lia. kstep_all.
  rewrite buf_write_range by (cbn; rewrite ?length_take, ?length_drop, ?Eb; lia).
  kstep_all. unfold skb_store. kstep_all.
  split; [done|]. split; [intros b Hb; cbn; rewrite !lookup_insert_ne by done; auto|]. split; [done|].
  split; [split_and!|].
  { rewrite Hw1. by destruct s. }
  { exact Ho1. }
  { eapply pools_inv_touch; [exact Hinv1|exact Ha|..]; cbn; [|eauto]. intros b Hb. by rewrite !lookup_insert_ne. }
  { done. }
  eexists. split; [cbn; by rewrite lookup_insert_eq|]. cbn -[Z.to_nat Z.add Z.sub].
  rewrite Eb. replace (buf_start c + (mac_raw x - buf_start x) - buf_start c)
    with (mac_raw x - buf_start x) by lia.
  set (o := Z.to_nat (mac_raw x - buf_start x)).
  set (n := Z.to_nat (len x + data x - mac_raw x)).
  pose proof (length_splice (buf x) (buf c0) o n) as HB.
  pose proof (splice_read (buf x) (buf c0) o n) as HR.
  set (B := take o (buf c0) ++ _) in *.
  assert (EB : length B = length (buf x)) by (apply HB; lia).
  split; [split; cbn; lia|]. split; [|split; [done|]; split_and!; [done..|exact (Hcap a c eq_refl Hc)|exact EB]].
  unfold clone_of. split_and!; try (cbn; lia || done).
  - unfold payload. cbn. rewrite Ed.
    replace (Z.to_nat (buf_start c + (data x - buf_start x) - buf_start c))
      with (o + Z.to_nat (data x - mac_raw x))%nat by lia.
    rewrite HR by lia. do 2 f_equal. lia.
  - rewrite !buf_read_range by (cbn; lia). cbn. rewrite Ed.
    replace (Z.to_nat (buf_start c + (mac_raw x - buf_start x) - buf_start c))
      with (o + 0)%nat by lia.
    rewrite HR by lia. f_equal. rewrite Nat.add_0_r. f_equal. lia.
Qed.
(** [rtskb_clone] of a well-formed packet with its link header in front takes
    a free buffer of the pool and makes it an independent copy: same packet
    bytes, same header bytes, same header offsets and meta data.  The original
    and all other buffers are unchanged; with an empty pool the result is NULL. *)
Theorem rtskb_clone_correct `{Config} s C q l p x :
  pools_inv s C → C !! q = Some l → skbs s !! p = Some x → in_use C p →
  wf_rtskb x → buf_start x ≤ mac_raw x ≤ data x →
  0 ≤ end_ x - buf_start x ≤ SKB_DATA_ALIGN RTSKB_SIZE → SKB_DATA_ALIGN RTSKB_SIZE < 2 ^ 32 →
  (∀ a y, skbs s !! a = Some y → length (buf y) = length (buf x)) →
  wp (rtskb_clone p q)
     (λ r s', match l with
      | [] => r = None ∧ s' = s
      | a :: l' => r = Some a ∧ (∀ b, b ≠ a → skbs s' !! b = skbs s !! b) ∧ a ≠ p ∧
                   ∃ c, skbs s' !! a = Some c ∧ wf_rtskb c ∧ clone_of x c ∧ next c = None
      end) s.
Proof.
  intros. eapply wp_mono; [|eapply rtskb_clone_run; eauto]. cbn beta. intros r s'. destruct l as [|a l]; [done|].
  intros (? & ? & ? & _ & c & ? & ? & ? & ? & _). eauto 10.
Qed.

(** ** Reading and building packets *)

(** Bytes of the packet at an offset from its start. *)
Lemma payload_read x off n :
  wf_rtskb x → 0 ≤ off → 0 ≤ n → off + n ≤ len x →
  buf_read x (data x + off) n = Some (take (Z.to_nat n) (drop (Z.to_nat off) (payload x))).
Proof.
  intros [? ? ? ? ?] Ho Hn Hl. rewrite buf_read_range by lia. f_equal. unfold payload.
  rewrite skipn_firstn_comm, take_take, drop_drop. f_equal; [lia|]. f_equal. lia.
Qed.
(** [rtskb_put] followed by a write of the new bytes appends them to the packet. *)
Lemma put_write_payload x bytes :
  wf_rtskb x → Z.of_nat (length bytes) ≤ tailroom x →
  ∃ y, buf_write (snd (rtskb_put (Z.of_nat (length bytes)) x)) (tail x) bytes = Some y ∧
       wf_rtskb y ∧ payload y = payload x ++ bytes.
Proof.
  intros Hwf Ht. pose proof Hwf as [Hs Hd Hl Hta He]. unfold tailroom in Ht.
  assert (E : u32 (len x + Z.of_nat (length bytes)) = len x + Z.of_nat (length bytes)).
  { apply (wf_u32 x); [done|]. unfold headroom, tailroom. lia. }
  eexists. split; [apply buf_write_range; cbn; lia|].
  assert (Hlen : length (take (Z.to_nat (tail x - buf_start x)) (buf x) ++ bytes
    ++ drop (Z.to_nat (tail x - buf_start x) + length bytes) (buf x)) = length (buf x)).
  { rewrite !length_app, length_take, length_drop. lia. }
  split; [split; cbn; rewrite ?Hlen, ?E; lia|].
  unfold payload. cbn. rewrite E. set (o := Z.to_nat (data x - buf_start x)).
  replace (Z.to_nat (tail x - buf_start x)) with (o + Z.to_nat (len x))%nat by lia.
  rewrite drop_app_le by (rewrite length_take; lia).
  rewrite skipn_firstn_comm. replace (o + Z.to_nat (len x) - o)%nat with (Z.to_nat (len x)) by lia.
  rewrite app_assoc, take_app_le; [|rewrite length_app, length_take, length_drop; lia].
  rewrite take_ge; [done|]. rewrite length_app, length_take, length_drop. lia.
Qed.

(** ** Writing into a packet *)

(** [l] with [bytes] in place of those from [o] on. *)
Definition splice (o : nat) (bytes l : list Z) : list Z := take o l ++ bytes ++ drop (o + length bytes) l.
Lemma splice_mid a b b' c : length b = length b' → splice (length a) b' (a ++ b ++ c) = a ++ b' ++ c.
Proof.
  intros E. unfold splice. rewrite take_app_length, <-drop_drop, drop_app_length.
  by rewrite <-E, drop_app_length.
Qed.
Lemma length_splice_in o bytes l : (o + length bytes ≤ length l)%nat → length (splice o bytes l) = length l.
Proof. intros Hl. unfold splice. rewrite !length_app, length_take, length_drop. lia. Qed.

Lemma splice_app_l o bytes a b : (o + length bytes ≤ length a)%nat → splice o bytes (a ++ b) = splice o bytes a ++ b.
Proof. intros Hl. unfold splice. by rewrite take_app_le, drop_app_le, !app_assoc by lia. Qed.

(** Everything but the bytes of the data area. *)
Definition same_frame (x y : rtskb) : Prop := y = x <| buf := buf y |> ∧ length (buf y) = length (buf x).
Lemma same_frame_trans x y z : same_frame x y → same_frame y z → same_frame x z.
Proof. intros [E1 L1] [E2 L2]. split; [|congruence]. rewrite E2, E1. done. Qed.

Lemma write_payload x (o : nat) bytes :
  wf_rtskb x → (o + length bytes ≤ Z.to_nat (len x))%nat →
  ∃ y, buf_write x (data x + Z.of_nat o) bytes = Some y ∧ same_frame x y ∧ wf_rtskb y ∧
       payload y = splice o bytes (payload x).
Proof.
  intros Hwf Ho. pose proof Hwf as [Hs Hd Hl Hta He].
  eexists. split; [apply buf_write_range; lia|].
  replace (Z.to_nat (data x + Z.of_nat o - buf_start x)) with (Z.to_nat (data x - buf_start x) + o)%nat by lia.
  set (d := Z.to_nat (data x - buf_start x)). fold (splice (d + o) bytes (buf x)).
  assert (Hd2 : (d + Z.to_nat (len x) ≤ length (buf x))%nat) by lia.
  pose proof (length_splice_in (d + o) bytes (buf x) ltac:(lia)) as Hlen.
  split; [by split|]. split; [split; cbn; rewrite ?Hlen; lia|].
  unfold payload. cbn. fold d. unfold splice.
  rewrite drop_app_le by (rewrite length_take; lia).
  rewrite skipn_firstn_comm, take_app, length_take, length_drop, take_take.
  replace (d + o - d)%nat with o by lia.
  replace (Z.to_nat (len x) `min` o)%nat with o by lia.
  rewrite take_take. replace (o `min` Z.to_nat (len x))%nat with o by lia. f_equal.
  replace (o `min` (length (buf x) - d))%nat with o by lia.
  rewrite take_app. rewrite take_ge by lia. f_equal.
  rewrite skipn_firstn_comm, drop_drop. f_equal; [lia|]. f_equal. lia.
Qed.

Lemma wp_skb_write skb x addr bytes y (Q : () → kstate → Prop) s :
  skbs s !! skb = Some x → buf_write x addr bytes = Some y →
  Q () (s <| skbs := <[skb := y]> (skbs s) |>) → wp (skb_write skb addr bytes) Q s.
Proof.
  intros Hx Hy HQ. unfold skb_write. apply wp_bind. eapply wp_skb_load; [done|].
  apply wp_bind. eapply wp_deref; [done|]. by apply wp_modify.
Qed.
Lemma wp_skb_read skb x addr n b (Q : list Z → kstate → Prop) s :
  skbs s !! skb = Some x → buf_read x addr n = Some b → Q b s → wp (skb_read skb addr n) Q s.
Proof.
  intros Hx Hb HQ. unfold skb_read. apply wp_bind. eapply wp_skb_load; [done|]. by eapply wp_deref.
Qed.
(** The same on a state that is known up to this buffer. *)
Definition upd_skb (skb : nat) (x : rtskb) (s : kstate) : kstate := s <| skbs := <[skb := x]> (skbs s) |>.
Lemma upd_skb_lookup skb x s : skbs (upd_skb skb x s) !! skb = Some x.
Proof. apply lookup_insert_eq. Qed.
Lemma upd_skb_twice skb x y s : upd_skb skb y (upd_skb skb x s) = upd_skb skb y s.
Proof. unfold upd_skb. cbn. by rewrite insert_insert_eq. Qed.
Lemma upd_skb_id skb x s : skbs s !! skb = Some x → upd_skb skb x s = s.
Proof. intros Hx. unfold upd_skb. rewrite insert_id by done. by destruct s. Qed.
Lemma wp_upd_skb_upd skb x f (Q : () → kstate → Prop) s :
  Q () (upd_skb skb (f x) s) → wp (skb_upd skb f) Q (upd_skb skb x s).
Proof. intros HQ. eapply wp_skb_upd; [apply upd_skb_lookup|]. by rewrite <-(upd_skb_twice skb x) in HQ. Qed.
Lemma wp_upd_skb_store skb x y (Q : () → kstate → Prop) s :
  Q () (upd_skb skb y s) → wp (skb_store skb y) Q (upd_skb skb x s).
Proof. intros HQ. apply wp_modify. by rewrite <-(upd_skb_twice skb x) in HQ. Qed.
Lemma wp_upd_skb_load skb x (Q : rtskb → kstate → Prop) s :
  Q x (upd_skb skb x s) → wp (skb_load skb) Q (upd_skb skb x s).
Proof. intros HQ. eapply wp_skb_load; [apply upd_skb_lookup|done]. Qed.
(** A write inside the packet. *)
Lemma wp_write_payload skb x (o : nat) addr bytes (Q : () → kstate → Prop) s :
  wf_rtskb x → (o + length bytes ≤ Z.to_nat (len x))%nat → addr = data x + Z.of_nat o →
  (∀ y, same_frame x y → wf_rtskb y → payload y = splice o bytes (payload x) → Q () (upd_skb skb y s)) →
  wp (skb_write skb addr bytes) Q (upd_skb skb x s).
Proof.
  intros Hwf Ho -> HQ. destruct (write_payload x o bytes Hwf Ho) as (y & Hy & Hf & Hw & Hp).
  eapply wp_skb_write; [apply upd_skb_lookup|done|]. fold (upd_skb skb y (upd_skb skb x s)).
  rewrite upd_skb_twice. auto.
Qed.
Lemma wp_write_at skb x (o : nat) addr bytes (Q : () → kstate → Prop) s :
  skbs s !! skb = Some x → wf_rtskb x → (o + length bytes ≤ Z.to_nat (len x))%nat → addr = data x + Z.of_nat o →
  (∀ y, same_frame x y → wf_rtskb y → payload y = splice o bytes (payload x) → Q () (upd_skb skb y s)) →
  wp (skb_write skb addr bytes) Q s.
Proof.
  intros Hx Hwf Ho Ha HQ. rewrite <-(upd_skb_id skb x s Hx). by eapply wp_write_payload.
Qed.
Lemma wp_read_payload skb x (o : nat) addr n (Q : list Z → kstate → Prop) s :
  skbs s !! skb = Some x → wf_rtskb x → 0 ≤ n → Z.of_nat o + n ≤ len x → addr = data x + Z.of_nat o →
  Q (take (Z.to_nat n) (drop o (payload x))) s → wp (skb_read skb addr n) Q s.
Proof.
  intros Hx Hwf Hn Ho -> HQ. eapply wp_skb_read; [done|apply payload_read; [done|lia..]|].
  by rewrite Nat2Z.id.
Qed.

(** ** Operations that leave DMA addresses and sizes of the buffers alone *)

Definition shape (x : rtskb) : Z * nat := (buf_dma_addr x, length (buf x)).
Definition shape_map (k : kstate) : gmap nat (Z * nat) := shape <$> skbs k.
Class KeepsShape {A} (m : M kstate A) : Prop := keeps_shape : ∀ k a k', m k = Some (a, k') → shape_map k' = shape_map k.

#[export] Instance keeps_ret {A} (a : A) : KeepsShape (mret a).
Proof. by intros k b k' [= _ <-]. Qed.
#[export] Instance keeps_ub {A} : KeepsShape (ub : M kstate A).
Proof. by intros k b k' [=]. Qed.
#[export] Instance keeps_deref {A} (o : option A) : KeepsShape (deref o).
Proof. destruct o; by intros k b k' [=]; subst. Qed.
#[export] Instance keeps_gets {A} (f : kstate → A) : KeepsShape (gets f).
Proof. by intros k b k' [= _ <-]. Qed.
#[export] Instance keeps_bind {A B} (m : M kstate A) (g : A → M kstate B) :
  KeepsShape m → (∀ a, KeepsShape (g a)) → KeepsShape (m ≫= g).
Proof.
  intros Hm Hg k b k'. unfold mbind, M_bind. destruct (m k) as [[a k1]|] eqn:E; [|done]. intros E'.
  by rewrite (Hg _ _ _ _ E'), (Hm _ _ _ E).
Qed.
#[export] Instance keeps_when b (m : M kstate ()) : KeepsShape m → KeepsShape (when b m).
Proof. intros Hm. destruct b; [done|apply _]. Qed.
#[export] Instance keeps_skb_load p : KeepsShape (skb_load p).
Proof. unfold skb_load. apply _. Qed.
#[export] Instance keeps_queue_load q : KeepsShape (queue_load q).
Proof. unfold queue_load. apply _. Qed.
#[export] Instance keeps_queue_upd q f : KeepsShape (queue_upd q f).
Proof. unfold queue_upd. apply keeps_bind; [apply _|]. intros Q k b k' [= _ <-]. done. Qed.
Lemma keeps_skb_upd p f : (∀ x, shape (f x) = shape x) → KeepsShape (skb_upd p f).
Proof.
  intros Hf k b k'. unfold skb_upd, skb_load, mbind, M_bind, gets. cbn. destruct (skbs k !! p) as [x|] eqn:Hx; [|done].
  intros [= _ <-]. unfold shape_map. cbn. rewrite fmap_insert, Hf. apply insert_id. by rewrite lookup_fmap, Hx.
Qed.
#[export] Hint Extern 1 (KeepsShape (skb_upd _ _)) => apply keeps_skb_upd; reflexivity : typeclass_instances.
#[export] Hint Extern 2 (KeepsShape (match ?x with _ => _ end)) => destruct x : typeclass_instances.

#[export] Instance keeps_queue_tail q p : KeepsShape (rtskb_queue_tail q p).
Proof. unfold rtskb_queue_tail, __rtskb_queue_tail. apply _. Qed.
#[export] Instance keeps_dequeue q : KeepsShape (rtskb_dequeue q).
Proof. unfold rtskb_dequeue, __rtskb_dequeue. apply _. Qed.
#[export] Instance keeps_kfree_chain `{Config} fuel skb e : KeepsShape (kfree_chain fuel skb e).
Proof. revert skb. induction fuel as [|fuel IH]; intros skb; cbn [kfree_chain]; apply _. Qed.
#[export] Instance keeps_kfree `{Config} skb : KeepsShape (kfree_rtskb skb).
Proof. unfold kfree_rtskb. apply _. Qed.

Lemma wp_keeps {A} (m : M kstate A) (Q : A → kstate → Prop) k :
  KeepsShape m → wp m Q k → wp m (λ a k', Q a k' ∧ shape_map k' = shape_map k) k.
Proof. intros Hm. unfold wp. destruct (m k) as [[a k']|] eqn:E; [|done]. intros HQ. split; [done|]. by eapply Hm. Qed.
Definition dma_map (k : kstate) : gmap nat Z := buf_dma_addr <$> skbs k.
Definition lens (k : kstate) : gmap nat nat := (λ x, length (buf x)) <$> skbs k.
Lemma shape_dma k k' : shape_map k' = shape_map k → dma_map k' = dma_map k.
Proof. intros E. apply (f_equal (fmap fst)) in E. unfold shape_map in E. by rewrite <-!map_fmap_compose in E. Qed.
Lemma shape_lens k k' : shape_map k' = shape_map k → lens k' = lens k.
Proof. intros E. apply (f_equal (fmap snd)) in E. unfold shape_map in E. by rewrite <-!map_fmap_compose in E. Qed.
