(* ===== verification/RtskbFifo.v ===== *)
(** * The single-producer single-consumer buffer FIFO (stack/include/rtskb_fifo.h)

    First the operations as the code runs them under their locks, then the same
    two code paths split into their memory accesses and interleaved: the writer
    holds [write_lock] and the reader [read_lock], so one insert and one remove
    run concurrently.  The memory barriers of the code order the accesses of each
    side, which is why the interleaving semantics has them in program order. *)
From S2P Require Import Prelude.

Record rtskb_fifo := mk_fifo {
  read_pos : Z;
  size_mask : Z;
  write_pos : Z;
  buffer : list (option nat);
}.
#[export] Instance fifo_eta : Settable rtskb_fifo := λ r,
  mk_fifo (read_pos r) (size_mask r) (write_pos r) (buffer r).

(** [buffer[pos]]: undefined out of bounds. *)
Definition slot (pos : Z) (f : rtskb_fifo) : option nat :=
  if (0 <=? pos) && (pos <? Z.of_nat (length (buffer f))) then Some (Z.to_nat pos) else None.
Definition buf_set (pos : Z) (p : nat) : M rtskb_fifo () := λ f,
  i ← slot pos f; Some ((), f <| buffer := <[i := Some p]> (buffer f) |>).
Definition buf_get (pos : Z) : M rtskb_fifo (option nat) := λ f,
  i ← slot pos f; v ← buffer f !! i; Some (v, f).

Definition __rtskb_fifo_insert (rtskb : nat) : M rtskb_fifo Z :=
  pos ← gets write_pos;
  mask ← gets size_mask;
  let new_pos := Z.land (pos + 1) mask in
  rp ← gets read_pos;
  if new_pos =? rp then mret (- EAGAIN)
  else
    buf_set pos rtskb;;
    modify (λ f, f <| write_pos := new_pos |>);;
    mret 0.

Definition __rtskb_fifo_remove : M rtskb_fifo (option nat) :=
  pos ← gets read_pos;
  wp ← gets write_pos;
  if pos =? wp then mret None
  else
    result ← buf_get pos;
    mask ← gets size_mask;
    modify (λ f, f <| read_pos := Z.land (pos + 1) mask |>);;
    mret result.

(** The variants that take [write_lock] or [read_lock] around the body, with and
    without saving the interrupt state. *)
Definition rtskb_fifo_insert : nat → M rtskb_fifo Z := __rtskb_fifo_insert.
Definition rtskb_fifo_insert_inirq : nat → M rtskb_fifo Z := __rtskb_fifo_insert.
Definition rtskb_fifo_remove : M rtskb_fifo (option nat) := __rtskb_fifo_remove.
Definition rtskb_fifo_remove_inirq : M rtskb_fifo (option nat) := __rtskb_fifo_remove.

Definition rtskb_fifo_init (size : Z) : M rtskb_fifo () :=
  modify (λ f, f <| read_pos := 0 |> <| write_pos := 0 |> <| size_mask := size - 1 |>).

(** ** Representation *)

(** [f] is a FIFO of [2 ^ k] slots that holds the buffers [l], oldest first. *)
Record fifo_rep (k : Z) (f : rtskb_fifo) (l : list nat) : Prop := {
  fr_k : 0 ≤ k;
  fr_mask : size_mask f = 2 ^ k - 1;
  fr_buf : Z.of_nat (length (buffer f)) = 2 ^ k;
  fr_read : 0 ≤ read_pos f < 2 ^ k;
  fr_write : write_pos f = (read_pos f + Z.of_nat (length l)) mod 2 ^ k;
  fr_len : Z.of_nat (length l) < 2 ^ k;
  fr_slots : ∀ i p, l !! i = Some p →
    buffer f !! Z.to_nat ((read_pos f + Z.of_nat i) mod 2 ^ k) = Some (Some p);
}.

Section rep.
Context (k : Z).
Implicit Types (f : rtskb_fifo) (l : list nat).

Lemma size_pos : 0 ≤ k → 0 < 2 ^ k.
Proof. intros. lia. Qed.
Lemma next_pos pos : 0 ≤ k → Z.land (pos + 1) (2 ^ k - 1) = (pos + 1) mod 2 ^ k.
Proof.
  intros Hk. replace (2 ^ k - 1) with (Z.ones k) by (rewrite Z.ones_equiv; lia).
  by apply Z.land_ones.
Qed.
(** Two positions less than a round apart are equal only if they are the same. *)
Lemma mod_distinct r i j :
  0 ≤ k → 0 ≤ i < 2 ^ k → 0 ≤ j < 2 ^ k → (r + i) mod 2 ^ k = (r + j) mod 2 ^ k → i = j.
Proof.
  intros Hk Hi Hj E. pose proof (size_pos Hk).
  pose proof (Z.div_mod (r + i) (2 ^ k) ltac:(lia)). pose proof (Z.div_mod (r + j) (2 ^ k) ltac:(lia)).
  assert ((r + i) / 2 ^ k = (r + j) / 2 ^ k) by nia. lia.
Qed.

(** The FIFO is full exactly when the next write position is the read position. *)
Lemma fifo_full f l :
  fifo_rep k f l →
  (Z.land (write_pos f + 1) (size_mask f) = read_pos f ↔ Z.of_nat (length l) = 2 ^ k - 1).
Proof.
  intros [Hk Hm Hb Hr Hw Hl _]. pose proof (size_pos Hk).
  rewrite Hm, next_pos, Hw by done. rewrite Zplus_mod_idemp_l, <-Z.add_assoc.
  rewrite <-(Z.mod_small (read_pos f) (2 ^ k)) at 2 by done.
  split; intros E.
  - destruct (decide (Z.of_nat (length l) + 1 < 2 ^ k)); [|lia].
    rewrite <-(Z.add_0_r (read_pos f)) in E at 2.
    apply mod_distinct in E; lia.
  - rewrite E. replace (read_pos f + (2 ^ k - 1 + 1)) with (read_pos f + 1 * 2 ^ k) by lia.
    by rewrite Z_mod_plus_full.
Qed.
Lemma fifo_empty f l : fifo_rep k f l → (read_pos f = write_pos f ↔ l = []).
Proof.
  intros [Hk Hm Hb Hr Hw Hl _]. rewrite Hw. split; [|intros ->; cbn; by rewrite Z.add_0_r, Z.mod_small].
  intros E. rewrite <-(Z.mod_small (read_pos f) (2 ^ k)) in E at 1 by done.
  rewrite <-(Z.add_0_r (read_pos f)) in E at 1. apply mod_distinct in E; [|done|lia..].
  destruct l; [done|]. simpl in E. lia.
Qed.

Lemma fifo_write_pos f l : fifo_rep k f l → 0 ≤ write_pos f < 2 ^ k.
Proof. intros [Hk _ _ _ -> _ _]. apply Z.mod_pos_bound. lia. Qed.

(** The slot at the write position is not one of the [l]. *)
Lemma fifo_store f l p :
  fifo_rep k f l →
  fifo_rep k (f <| buffer := <[Z.to_nat (write_pos f) := Some p]> (buffer f) |>) l.
Proof.
  intros Hf. pose proof Hf as [Hk Hm Hb Hr Hw Hl Hs]. split; cbn; try done.
  - by rewrite length_insert.
  - intros i p' Hi. pose proof (lookup_lt_Some _ _ _ Hi) as Hlt.
    rewrite list_lookup_insert_ne; [by apply Hs|]. rewrite Hw. intros E.
    apply Z2Nat.inj in E; [|apply Z.mod_pos_bound; lia..].
    apply mod_distinct in E; lia.
Qed.
(** Publishing a stored entry. *)
Lemma fifo_publish f l p :
  fifo_rep k f l → Z.of_nat (length l) < 2 ^ k - 1 →
  buffer f !! Z.to_nat (write_pos f) = Some (Some p) →
  fifo_rep k (f <| write_pos := Z.land (write_pos f + 1) (size_mask f) |>) (l ++ [p]).
Proof.
  intros Hf Hlen Hp. pose proof Hf as [Hk Hm Hb Hr Hw Hl Hs]. split; cbn; try done.
  - rewrite Hm, next_pos, Hw, Zplus_mod_idemp_l by done. rewrite length_app. cbn. f_equal. lia.
  - rewrite length_app. cbn. lia.
  - intros i p' [Hi|[Hi Hp']]%lookup_app_Some; [by apply Hs|].
    destruct (i - length l)%nat as [|n] eqn:Ei; [|by destruct n]. simplify_eq/=.
    replace (Z.of_nat i) with (Z.of_nat (length l)) by lia. by rewrite <-Hw.
Qed.
(** Taking the oldest entry. *)
Lemma fifo_take f l p :
  fifo_rep k f (p :: l) →
  fifo_rep k (f <| read_pos := Z.land (read_pos f + 1) (size_mask f) |>) l.
Proof.
  intros [Hk Hm Hb Hr Hw Hl Hs]. simpl length in *. pose proof (size_pos Hk).
  split; cbn; try done; rewrite ?Hm, ?next_pos by done.
  - by apply Z.mod_pos_bound.
  - rewrite Hw, Zplus_mod_idemp_l. f_equal. lia.
  - lia.
  - intros i p' Hi. rewrite Zplus_mod_idemp_l. rewrite <-(Hs (S i) p') by done. do 3 f_equal. lia.
Qed.
Lemma fifo_head f l p :
  fifo_rep k f (p :: l) → buffer f !! Z.to_nat (read_pos f) = Some (Some p).
Proof.
  intros [Hk Hm Hb Hr Hw Hl Hs]. rewrite <-(Hs 0%nat p) by done.
  by rewrite Z.add_0_r, Z.mod_small.
Qed.
Lemma slot_range f l pos : fifo_rep k f l → 0 ≤ pos < 2 ^ k → slot pos f = Some (Z.to_nat pos).
Proof.
  intros [_ _ Hb _ _ _ _] Hp. unfold slot. rewrite Hb.
  by replace ((0 <=? pos) && (pos <? 2 ^ k)) with true by lia.
Qed.
End rep.

(** the FIFO behaves as a bounded queue: insert appends unless [2 ^ k - 1]
    buffers are waiting (then [-EAGAIN] and no change); remove returns and drops
    the oldest buffer, or NULL from an empty FIFO. *)
Theorem rtskb_fifo_correct k f l p :
  fifo_rep k f l →
  wp (__rtskb_fifo_insert p)
     (λ r f', if Z.of_nat (length l) =? 2 ^ k - 1 then r = - EAGAIN ∧ f' = f
              else r = 0 ∧ fifo_rep k f' (l ++ [p])) f ∧
  wp __rtskb_fifo_remove
     (λ r f', match l with
              | [] => r = None ∧ f' = f
              | a :: l' => r = Some a ∧ fifo_rep k f' l'
              end) f.
Proof.
  intros Hf. pose proof (fifo_full k f l Hf) as Hfull. pose proof (fifo_empty k f l Hf) as Hempty.
  split.
  - unfold __rtskb_fifo_insert. wp_run.
    destruct (Z.eqb_spec (Z.of_nat (length l)) (2 ^ k - 1)) as [Hl|Hl],
      (Z.eqb_spec (Z.land (write_pos f + 1) (size_mask f)) (read_pos f)) as [Hp|Hp];
      [by wp_run|tauto|tauto|].
    wp_run. unfold wp, buf_set. pose proof (fifo_write_pos _ _ _ Hf) as Hwp.
    rewrite (slot_range k f l) by done. cbn. split; [done|].
    apply (fifo_publish k _ _ p (fifo_store k f l p Hf)); cbn.
    + pose proof (fr_len _ _ _ Hf). lia.
    + apply list_lookup_insert_eq. pose proof (fr_buf _ _ _ Hf). lia.
  - unfold __rtskb_fifo_remove. wp_run. destruct (Z.eqb_spec (read_pos f) (write_pos f)) as [He|He].
    { wp_run. apply Hempty in He. by subst. }
    destruct l as [|a l]; [tauto|]. wp_run. unfold wp, buf_get.
    rewrite (slot_range k f (a :: l)) by (done || apply (fr_read _ _ _ Hf)). cbn.
    rewrite (fifo_head k f l a Hf). cbn. split; [done|]. by eapply fifo_take.
Qed.

(** ** Concurrent insert and remove *)
Module Concurrent.

(** Where the writer is inside [__rtskb_fifo_insert] and the reader inside
  [__rtskb_fifo_remove], with the values of their local variables. *)
Inductive writer :=
| WIdle
| WPos (rtskb : nat) (pos new_pos : Z)
| WRoom (rtskb : nat) (pos new_pos : Z)
| WStored (rtskb : nat) (new_pos : Z).
Inductive reader :=
| RIdle
| RPos (pos : Z)
| RSome (pos : Z)
| RRead (pos : Z) (result : option nat).

(** [sent] and [received] are the buffers for which an insert has returned 0 and
  the results of the removes that did not return NULL, oldest first. *)
Record conf := mk_conf {
fifo : rtskb_fifo;
wr : writer;
rd : reader;
sent : list nat;
received : list (option nat);
}.

(** One memory access of either side. *)
Inductive step : conf → conf → Prop :=
| w_read_pos f r ss rs p :
    step (mk_conf f WIdle r ss rs)
         (mk_conf f (WPos p (write_pos f) (Z.land (write_pos f + 1) (size_mask f))) r ss rs)
| w_full f r ss rs p pos new_pos :
    new_pos = read_pos f →
    step (mk_conf f (WPos p pos new_pos) r ss rs) (mk_conf f WIdle r ss rs)
| w_room f r ss rs p pos new_pos :
    new_pos ≠ read_pos f →
    step (mk_conf f (WPos p pos new_pos) r ss rs) (mk_conf f (WRoom p pos new_pos) r ss rs)
| w_store f f' r ss rs p pos new_pos :
    buf_set pos p f = Some ((), f') →
    step (mk_conf f (WRoom p pos new_pos) r ss rs) (mk_conf f' (WStored p new_pos) r ss rs)
| w_publish f r ss rs p new_pos :
    step (mk_conf f (WStored p new_pos) r ss rs)
         (mk_conf (f <| write_pos := new_pos |>) WIdle r (ss ++ [p]) rs)
| r_read_pos f w ss rs :
    step (mk_conf f w RIdle ss rs) (mk_conf f w (RPos (read_pos f)) ss rs)
| r_empty f w ss rs pos :
    pos = write_pos f →
    step (mk_conf f w (RPos pos) ss rs) (mk_conf f w RIdle ss rs)
| r_some f w ss rs pos :
    pos ≠ write_pos f →
    step (mk_conf f w (RPos pos) ss rs) (mk_conf f w (RSome pos) ss rs)
| r_load f f' w ss rs pos v :
    buf_get pos f = Some (v, f') →
    step (mk_conf f w (RSome pos) ss rs) (mk_conf f' w (RRead pos v) ss rs)
| r_advance f w ss rs pos v :
    step (mk_conf f w (RRead pos v) ss rs)
         (mk_conf (f <| read_pos := Z.land (pos + 1) (size_mask f) |>) w RIdle ss (rs ++ [v])).

(** The state after [rtskb_fifo_init] with [2 ^ k] slots. *)
Definition initial (k : Z) (c : conf) : Prop :=
∃ buf, c = mk_conf (mk_fifo 0 (2 ^ k - 1) 0 buf) WIdle RIdle [] [] ∧
       Z.of_nat (length buf) = 2 ^ k.

(** What the local variables of the two sides know about the contents [l]. *)
Definition writer_ok (k : Z) (f : rtskb_fifo) (l : list nat) (w : writer) : Prop :=
match w with
| WIdle => True
| WPos _ pos new_pos =>
    pos = write_pos f ∧ new_pos = Z.land (write_pos f + 1) (size_mask f)
| WRoom _ pos new_pos =>
    pos = write_pos f ∧ new_pos = Z.land (write_pos f + 1) (size_mask f) ∧
    Z.of_nat (length l) < 2 ^ k - 1
| WStored p new_pos =>
    new_pos = Z.land (write_pos f + 1) (size_mask f) ∧ Z.of_nat (length l) < 2 ^ k - 1 ∧
    buffer f !! Z.to_nat (write_pos f) = Some (Some p)
end.
Definition reader_ok (f : rtskb_fifo) (l : list nat) (r : reader) : Prop :=
match r with
| RIdle => True
| RPos pos => pos = read_pos f
| RSome pos => pos = read_pos f ∧ l ≠ []
| RRead pos v => pos = read_pos f ∧ ∃ p, head l = Some p ∧ v = Some p
end.

Definition inv (k : Z) (c : conf) : Prop :=
∃ l got, fifo_rep k (fifo c) l ∧ writer_ok k (fifo c) l (wr c) ∧ reader_ok (fifo c) l (rd c) ∧
         received c = Some <$> got ∧ sent c = got ++ l.

Lemma inv_initial k c : 0 ≤ k → initial k c → inv k c.
Proof.
intros Hk (buf & -> & Hb). exists [], []. split_and!; [|done..].
split; cbn; [lia..| | | |].
- split; [lia|]. lia.
- by rewrite Z.mod_0_l by lia.
- lia.
- done.
Qed.

(** The writer's store goes to a slot the reader does not look at. *)
Lemma reader_ok_store f l r i v : reader_ok f l r → reader_ok (f <| buffer := <[i := v]> (buffer f) |>) l r.
Proof. by destruct r. Qed.

Lemma inv_step k c c' : inv k c → step c c' → inv k c'.
Proof.
intros (l & got & Hf & Hw & Hr & Hrec & Hsent) Hstep.
destruct Hstep; cbn in *; subst.
- exists l, got. by split_and!.
- exists l, got. by split_and!.
- destruct Hw as [-> ->]. exists l, got. split_and!; try done.
  pose proof (fr_len _ _ _ Hf). pose proof (fifo_full _ _ _ Hf). cbn in *.
  assert (Z.of_nat (length l) ≠ 2 ^ k - 1) by tauto. lia.
- destruct Hw as (-> & -> & Hlen). unfold buf_set in H.
  pose proof (fifo_write_pos _ _ _ Hf) as Hwp.
  rewrite (slot_range k f l) in H by done. cbn in H. simplify_eq.
  exists l, got. split; [|split; [|split; [|done]]]; cbn.
  + by apply fifo_store.
  + split_and!; [done..|]. apply list_lookup_insert_eq. pose proof (fr_buf _ _ _ Hf). lia.
  + by apply reader_ok_store.
- destruct Hw as (-> & Hlen & Hp). exists (l ++ [p]), got. split; [|split; [|split; [|split]]]; cbn.
  + by apply fifo_publish.
  + done.
  + destruct r; cbn in *; [done..| |].
    * destruct Hr as [-> _]. split; [done|]. by destruct l.
    * destruct Hr as (-> & p' & Hh & ->). split; [done|]. exists p'. by destruct l.
  + done.
  + by rewrite app_assoc.
- exists l, got. by split_and!.
- exists l, got. by split_and!.
- exists l, got. split_and!; try done. cbn. split; [done|].
  pose proof (fifo_empty _ _ _ Hf). tauto.
- destruct Hr as [-> Hne]. destruct l as [|p l]; [done|]. unfold buf_get in H.
  rewrite (slot_range k f (p :: l)) in H by (done || apply (fr_read _ _ _ Hf)). cbn in H.
  rewrite (fifo_head k f l p Hf) in H. cbn in H. simplify_eq.
  exists (p :: l), got. split_and!; try done. cbn. eauto.
- destruct Hr as (-> & p & Hh & ->). destruct l as [|p' l]; simplify_eq/=.
  exists l, (got ++ [p]). split; [|split; [|split; [|split]]]; cbn.
  + by eapply fifo_take.
  + destruct w; cbn in *; [done..| |]; naive_solver lia.
  + done.
  + by rewrite fmap_app.
  + by rewrite <-app_assoc.
Qed.

Lemma inv_reachable k c c' : inv k c → rtc step c c' → inv k c'.
Proof. intros Hinv. induction 1; eauto using inv_step. Qed.

(** The accesses to the ring buffer are in bounds, so no step faults. *)
Definition no_fault (c : conf) : Prop :=
(∀ p pos new_pos, wr c = WRoom p pos new_pos → is_Some (buf_set pos p (fifo c))) ∧
(∀ pos, rd c = RSome pos → is_Some (buf_get pos (fifo c))).
Lemma inv_no_fault k c : inv k c → no_fault c.
Proof.
intros (l & got & Hf & Hw & Hr & _). split.
- intros p pos new_pos E. rewrite E in Hw. destruct Hw as (-> & _).
  unfold buf_set. rewrite (slot_range k _ l) by (done || by eapply fifo_write_pos). by eexists.
- intros pos E. rewrite E in Hr. destruct Hr as [-> Hne]. destruct l as [|p l]; [done|].
  unfold buf_get. rewrite (slot_range k _ (p :: l)) by (done || apply (fr_read _ _ _ Hf)). cbn.
  rewrite (fifo_head k _ l p Hf). by eexists.
Qed.

End Concurrent.

(** C17: whatever the interleaving of inserts with removes, the removes return the
    inserted buffers, each once and in the order of insertion, at most
    [2 ^ k - 1] buffers wait in the FIFO, and no access leaves the ring buffer. *)
Theorem rtskb_fifo_concurrent_fifo k c c' :
  0 ≤ k → Concurrent.initial k c → rtc Concurrent.step c c' →
  Concurrent.no_fault c' ∧
  ∃ got waiting, Concurrent.received c' = Some <$> got ∧
    Concurrent.sent c' = got ++ waiting ∧ Z.of_nat (length waiting) ≤ 2 ^ k - 1.
Proof.
  intros Hk Hi Hr.
  assert (Hinv : Concurrent.inv k c').
  { eapply Concurrent.inv_reachable; [by apply Concurrent.inv_initial|done]. }
  split; [by eapply Concurrent.inv_no_fault|].
  destruct Hinv as (l & got & Hf & _ & _ & Hrec & Hsent). exists got, l. split_and!; [done..|]. pose proof (fr_len _ _ _ Hf). lia.
Qed.
