(* ===== verification/Rtdev.v ===== *)
(** * Network devices (stack/rtdev.c)

    The device table: lookup with reference counting, registration and removal,
    naming, opening and closing, and transmission.  The drivers' own functions and
    the event hooks of other modules are arguments. *)
From S2P Require Import Prelude State RtskbQueue Rtskb RtskbData.

(** ** C strings

    A list of characters stands for the string up to its first NUL; the end of
    the list counts as one. *)
Fixpoint cstr (n : nat) (l : list Z) : list Z :=
  match n, l with
  | S n, c :: l => if c =? 0 then [] else c :: cstr n l
  | _, _ => []
  end.
Definition chr (l : list Z) : Z := match l with [] => 0 | c :: _ => c end.
Definition rest (l : list Z) : list Z := match l with [] => [] | _ :: l => l end.
Fixpoint strncmp (n : nat) (a b : list Z) : Z :=
  match n with
  | O => 0
  | S n => if chr a =? chr b
           then if chr a =? 0 then 0 else strncmp n (rest a) (rest b)
           else chr a - chr b
  end.
Lemma strncmp_cstr n a b : strncmp n a b = 0 ↔ cstr n a = cstr n b.
Proof.
  revert a b. induction n as [|n IH]; intros [|c a] [|d b]; cbn [strncmp cstr chr rest]; try done.
  - destruct (Z.eqb_spec 0 d) as [<-|]; [done|]. destruct (Z.eqb_spec d 0); [done|]. split; [intros; exfalso; lia|done].
  - destruct (Z.eqb_spec c 0) as [->|]; [done|]. split; [intros; exfalso; lia|done].
  - destruct (Z.eqb_spec c d) as [<-|Hne].
    + destruct (Z.eqb_spec c 0) as [->|]; [done|]. rewrite IH. split; [by intros ->|by intros [= ->]].
    + split; [intros; exfalso; lia|]. destruct (Z.eqb_spec c 0), (Z.eqb_spec d 0); congruence.
Qed.
(** [strchr(s, c) != NULL] for a string in an array of [n] characters. *)
Definition strchr (n : nat) (s : list Z) (c : Z) : bool := bool_decide (c ∈ cstr n s).
Definition memcmp_eq (a b : list Z) (n : nat) : bool := bool_decide (take n a = take n b).

(** [snprintf(buf, n, mask, i)] for a mask with one [%d] at most and [i] below
    ten: 37 is ['%'], 100 is ['d'], 48 is ['0']. *)
Fixpoint format_d (mask : list Z) (i : option Z) : option (list Z) :=
  match mask with
  | [] => Some []
  | 37 :: mask =>
      match mask, i with
      | 100 :: mask, Some i => cons (48 + i) <$> format_d mask None
      | 37 :: mask, _ => cons 37 <$> format_d mask i
      | _, _ => None
      end
  | 0 :: _ => Some []
  | c :: mask => cons c <$> format_d mask i
  end.
Definition snprintf (n : nat) (mask : list Z) (i : Z) : option (list Z) :=
  (λ l, take (n - 1) l ++ [0]) <$> format_d mask (Some i).

(** ** Reference counting (stack/include/rtdev.h) *)
Definition rtdev_reference (d : nat) : M kstate () :=
  dev_upd d (λ D, D <| refcount := refcount D + 1 |>).
Definition rtdev_dereference (d : nat) : M kstate () :=
  dev_upd d (λ D, D <| refcount := refcount D - 1 |>).

(** ** Lookup *)

(** The loop over the device table that returns the first device with [f]. *)
Fixpoint find_dev (f : rtnet_device → bool) (tbl : list (option nat)) : M kstate (option nat) :=
  match tbl with
  | [] => mret None
  | None :: tbl => find_dev f tbl
  | Some d :: tbl => D ← dev_load d; if f D then mret (Some d) else find_dev f tbl
  end.
(** [if (rtdev != NULL) atomic_inc(&rtdev->refcount); return rtdev;] *)
Definition take_ref (r : option nat) : M kstate (option nat) :=
  match r with
  | Some d => rtdev_reference d;; mret (Some d)
  | None => mret None
  end.

Definition __rtdev_get_by_name (nm : list Z) : M kstate (option nat) :=
  tbl ← gets rtnet_devices;
  find_dev (λ D, strncmp IFNAMSIZ (name D) nm =? 0) tbl.
Definition rtdev_get_by_name (nm : list Z) : M kstate (option nat) :=
  r ← __rtdev_get_by_name nm; take_ref r.

(** [rtnet_devices[ifindex-1]] as an object: undefined out of bounds. *)
Definition dev_slot (ifindex0 : Z) : M kstate nat :=
  if (1 <=? ifindex0) && (ifindex0 <=? Z.of_nat MAX_RT_DEVICES) then mret (Z.to_nat (ifindex0 - 1)) else ub.
Definition __rtdev_get_by_index (ifindex0 : Z) : M kstate (option nat) :=
  i ← dev_slot ifindex0;
  tbl ← gets rtnet_devices; deref (tbl !! i).
Definition rtdev_get_by_index (ifindex0 : Z) : M kstate (option nat) :=
  if (ifindex0 <=? 0) || (Z.of_nat MAX_RT_DEVICES <? ifindex0) then mret None
  else r ← __rtdev_get_by_index ifindex0; take_ref r.

Definition __rtdev_get_by_hwaddr (ty : Z) (hw_addr : list Z) : M kstate (option nat) :=
  tbl ← gets rtnet_devices;
  find_dev (λ D, (dtype D =? ty) && memcmp_eq (dev_addr D) hw_addr (addr_len D)) tbl.
Definition rtdev_get_by_hwaddr (ty : Z) (hw_addr : list Z) : M kstate (option nat) :=
  r ← __rtdev_get_by_hwaddr ty hw_addr; take_ref r.

Definition rtdev_get_loopback : M kstate (option nat) :=
  r ← gets loopback_device; take_ref r.

(** ** Names and allocation *)

Fixpoint alloc_name_loop (n : nat) (i : Z) (d : nat) (mask : list Z) : M kstate () :=
  match n with
  | O => mret ()
  | S n =>
      buf ← deref (snprintf IFNAMSIZ mask i);
      tmp ← rtdev_get_by_name buf;
      match tmp with
      | None => dev_upd d (λ D, D <| name := strncpy IFNAMSIZ buf |>)
      | Some t => rtdev_dereference t;; alloc_name_loop n (i + 1) d mask
      end
  end.
Definition rtdev_alloc_name (d : nat) (mask : list Z) : M kstate () :=
  alloc_name_loop MAX_RT_DEVICES 0 d mask.

(** [memset(rtdev, 0, alloc_size)] *)
Definition zero_device : rtnet_device :=
  mk_device 0 (replicate IFNAMSIZ 0) 0 0 0 0 0 (replicate MAX_ADDR_LEN 0)
    (replicate MAX_ADDR_LEN 0) 0 0 0 0 0 0 0 0 XMIT_NULL None false.

Section driver.
Context `{Config}.
(** The global pool, the module parameter [device_rtskbs], the driver's
    functions, and [nrt_packet_tx] of the RTmac discipline attached to a device. *)
Context (global_pool : nat) (device_rtskbs : Z).
Context (drv_open drv_stop : nat → option (M kstate Z)) (drv_xmit : nat → nat → M kstate Z).
Context (mac_disc : nat → option (option (nat → M kstate Z))).
Context (register_hooks unregister_hooks : list (nat → M kstate ())).

(** [mem] is what [kmalloc] returns. *)
Definition rtdev_alloc (mem : option nat) : M kstate (option nat) :=
  match mem with
  | None => mret None
  | Some d =>
      modify (λ s, s <| devs := <[d := zero_device]> (devs s) |>);;
      n ← rtskb_pool_extend global_pool device_rtskbs;
      dev_upd d (λ D, D <| add_rtskbs := n |>);;
      mret (Some d)
  end.

Definition rtdev_free (rtdev : option nat) : M kstate () :=
  match rtdev with
  | None => mret ()
  | Some d =>
      D ← dev_load d;
      rtskb_pool_shrink global_pool (add_rtskbs D);;
      modify (λ s, s <| devs := delete d (devs s) |>)
  end.

(** ["rteth%d"] *)
Definition rteth_mask : list Z := [114; 116; 101; 116; 104; 37; 100; 0].
Definition rt_alloc_etherdev (mem : option nat) : M kstate (option nat) :=
  r ← rtdev_alloc mem;
  match r with
  | None => mret None
  | Some d =>
      dev_upd d (λ D, D <| dtype := ARPHRD_ETHER |> <| hard_header_len := ETH_HLEN |>
                        <| mtu := 1500 |> <| addr_len := ETH_ALEN |> <| flags := IFF_BROADCAST |>
                        <| broadcast := memcpy (broadcast D) (replicate ETH_ALEN 255) ETH_ALEN |>
                        <| name := memcpy (name D) rteth_mask 8 |>);;
      mret (Some d)
  end.

(** ** Registration *)

Fixpoint new_index (tbl : list (option nat)) (i : Z) : Z :=
  match tbl with
  | [] => - ENOMEM
  | None :: _ => i + 1
  | Some _ :: tbl => new_index tbl (i + 1)
  end.
Definition __rtdev_new_index : M kstate Z :=
  tbl ← gets rtnet_devices; mret (new_index tbl 0).

Fixpoint run_hooks (hooks : list (nat → M kstate ())) (d : nat) : M kstate () :=
  match hooks with
  | [] => mret ()
  | h :: hooks => h d;; run_hooks hooks d
  end.

(** The critical section that enters the device into the table; [false]: there
    is already a loopback device. *)
Definition enter_device (d : nat) : M kstate bool :=
  D ← dev_load d;
  lo ← gets loopback_device;
  let is_lo := negb (Z.land (flags D) IFF_LOOPBACK =? 0) in
  if is_lo && bool_decide (lo ≠ None) then mret false
  else
    when is_lo (modify (λ s, s <| loopback_device := Some d |>));;
    i ← dev_slot (ifindex D);
    modify (λ s, s <| rtnet_devices := <[i := Some d]> (rtnet_devices s) |>);;
    mret true.

(** The part of the registration that follows the choice of the name. *)
Definition register_named (d : nat) : M kstate Z :=
  D ← dev_load d;
  other ← __rtdev_get_by_name (name D);
  if bool_decide (other ≠ None) then mret (- EEXIST)
  else
    err ← rtdev_map_all_rtskbs d;
    if negb (err =? 0) then mret err
    else
      ok ← enter_device d;
      if negb ok then mret (- EEXIST)
      else
        run_hooks register_hooks d;;
        dev_upd d (λ D, D <| link_state := Z.setbit (link_state D) RTNET_LINK_STATE_PRESENT |>);;
        mret 0.

Definition rt_register_rtnetdev (d : nat) : M kstate Z :=
  D ← dev_load d;
  if vers D <? RTDEV_VERS_2_0 then mret (- EINVAL)
  else
    dev_upd d (λ D, D <| start_xmit := if negb (Z.land (features D) NETIF_F_LLTX =? 0)
                                       then HARD_START_XMIT else RTDEV_LOCKED_XMIT |>);;
    idx ← __rtdev_new_index;
    if idx <? 0 then mret idx
    else
      dev_upd d (λ D, D <| ifindex := idx |>);;
      when (strchr IFNAMSIZ (name D) 37) (rtdev_alloc_name d (name D));;
      register_named d.

(** ** Opening and closing *)

Definition rtdev_open (d : nat) : M kstate Z :=
  D ← dev_load d;
  if negb (Z.land (flags D) IFF_UP =? 0) then mret 0
  else
    ret ← match drv_open d with Some f => f | None => mret 0 end;
    when (ret =? 0)
      (dev_upd d (λ D, D <| flags := Z.lor (flags D) (Z.lor IFF_UP IFF_RUNNING) |>
                         <| link_state := Z.setbit (link_state D) RTNET_LINK_STATE_START |>));;
    mret ret.

Definition rtdev_close (d : nat) : M kstate Z :=
  D ← dev_load d;
  if Z.land (flags D) IFF_UP =? 0 then mret 0
  else
    ret ← match drv_stop d with Some f => f | None => mret 0 end;
    dev_upd d (λ D, D <| flags := Z.land (flags D) (Z.lnot (Z.lor IFF_UP IFF_RUNNING)) |>
                      <| link_state := Z.clearbit (link_state D) RTNET_LINK_STATE_START |>);;
    mret ret.

(** The wait for the last reference: each round releases the locks for a second,
    in which the rest of the system takes a step of [env]. *)
Fixpoint unreg_wait (env : list (kstate → kstate)) (d : nat) : M kstate () :=
  D ← dev_load d;
  if 0 <? refcount D then
    match env with
    | [] => ub
    | e :: env => modify e;; unreg_wait env d
    end
  else mret ().

(** The critical section that takes the device out of the table. *)
Definition leave_device (d : nat) : M kstate () :=
  D ← dev_load d;
  i ← dev_slot (ifindex D);
  modify (λ s, s <| rtnet_devices := <[i := None]> (rtnet_devices s) |>);;
  when (negb (Z.land (flags D) IFF_LOOPBACK =? 0)) (modify (λ s, s <| loopback_device := None |>)).

Definition rt_unregister_rtnetdev (env : list (kstate → kstate)) (d : nat) : M kstate Z :=
  D ← dev_load d;
  if assert_fails (negb (ifindex D =? 0)) then mret (- ENODEV)
  else
    when (negb (Z.land (flags D) IFF_UP =? 0)) (rtdev_close d;; mret ());;
    unreg_wait env d;;
    leave_device d;;
    run_hooks unregister_hooks d;;
    rtdev_unmap_all_rtskbs d;;
    dev_upd d (λ D, D <| link_state := Z.clearbit (link_state D) RTNET_LINK_STATE_PRESENT |>);;
    mret 0.

(** ** Transmission *)

(** [rtdev->start_xmit(rtskb, rtdev)]: with or without the mutex it is the
    driver's function that runs. *)
Definition call_start_xmit (skb d : nat) : M kstate Z :=
  D ← dev_load d;
  x ← skb_load skb;
  modify (λ s, s <| xmit_log := xmit_log s ++ [(d, skb, payload x)] |>);;
  match start_xmit D with
  | XMIT_NULL => ub
  | HARD_START_XMIT | RTDEV_LOCKED_XMIT => drv_xmit skb d
  end.

Definition xmit_or_free (skb d : nat) : M kstate Z :=
  err ← call_start_xmit skb d;
  when (negb (err =? 0)) (kfree_rtskb (Some skb));;
  mret err.

Definition rtdev_xmit (rtskb : option nat) : M kstate Z :=
  match rtskb with
  | None => if assert_fails false then mret (- EINVAL) else ub
  | Some skb =>
      x ← skb_load skb;
      match rtdev x with
      | None => if assert_fails false then mret (- EINVAL) else ub
      | Some d => xmit_or_free skb d
      end
  end.

Definition rtdev_xmit_proxy (rtskb : option nat) : M kstate Z :=
  match rtskb with
  | None => if assert_fails false then mret (- EINVAL) else ub
  | Some skb =>
      x ← skb_load skb;
      match rtdev x with
      | None => if assert_fails false then mret (- EINVAL) else ub
      | Some d =>
          match mac_disc d with
          | Some (Some nrt_packet_tx) => nrt_packet_tx skb
          | Some None => if assert_fails false then mret (- EINVAL) else ub
          | None => xmit_or_free skb d
          end
      end
  end.

Definition rt_hard_mtu (d : nat) (priority0 : Z) : M kstate Z := D ← dev_load d; mret (mtu D).
End driver.

(** ** The device table *)

(** The registered devices exist and have the index of their slot, their names
    differ, and the loopback device is the registered one with the flag. *)
Record devtab (s : kstate) : Prop := {
  dt_len : length (rtnet_devices s) = MAX_RT_DEVICES;
  dt_dev : ∀ i d, rtnet_devices s !! i = Some (Some d) →
    ∃ D, devs s !! d = Some D ∧ ifindex D = Z.of_nat i + 1;
  dt_names : ∀ i j d e D E, rtnet_devices s !! i = Some (Some d) → rtnet_devices s !! j = Some (Some e) →
    devs s !! d = Some D → devs s !! e = Some E →
    cstr IFNAMSIZ (name D) = cstr IFNAMSIZ (name E) → i = j;
  dt_loop : ∀ d, loopback_device s = Some d ↔
    ∃ i D, rtnet_devices s !! i = Some (Some d) ∧ devs s !! d = Some D ∧
           Z.land (flags D) IFF_LOOPBACK ≠ 0;
}.

Definition registered (s : kstate) (d : nat) : Prop := ∃ i, rtnet_devices s !! i = Some (Some d).
Definition ref_taken (s : kstate) (d : nat) (D : rtnet_device) : kstate :=
  s <| devs := <[d := D <| refcount := refcount D + 1 |>]> (devs s) |>.

Section table.
Implicit Types (s : kstate) (d e : nat) (D E : rtnet_device).

(** The table only depends on these attributes of the registered devices. *)
Definition attrs D := (ifindex D, cstr IFNAMSIZ (name D), negb (Z.land (flags D) IFF_LOOPBACK =? 0)).
Lemma attrs_inv D E : attrs D = attrs E →
  ifindex D = ifindex E ∧ cstr IFNAMSIZ (name D) = cstr IFNAMSIZ (name E) ∧
  (Z.land (flags D) IFF_LOOPBACK ≠ 0 → Z.land (flags E) IFF_LOOPBACK ≠ 0).
Proof.
  intros Ha. pose proof (f_equal (λ t, t.1.1) Ha) as H1. pose proof (f_equal (λ t, t.1.2) Ha) as H2.
  pose proof (f_equal snd Ha) as H3. split_and!; [done..|]. intros Hd He. cbn [snd attrs] in H3.
  rewrite He in H3. apply Z.eqb_neq in Hd. by rewrite Hd in H3.
Qed.
Lemma devtab_frame s s' :
  devtab s → rtnet_devices s' = rtnet_devices s → loopback_device s' = loopback_device s →
  (∀ d, registered s d → attrs <$> devs s' !! d = attrs <$> devs s !! d) → devtab s'.
Proof.
  intros [Hlen Hdev Hnm Hlo] Et El Ha.
  assert (Hl : ∀ i d D', rtnet_devices s !! i = Some (Some d) → devs s' !! d = Some D' →
    ∃ D, devs s !! d = Some D ∧ attrs D' = attrs D).
  { intros i d D' Hi HD'. specialize (Ha d (ex_intro _ i Hi)). rewrite HD' in Ha.
    destruct (devs s !! d) as [D|]; [|done]. apply (inj Some) in Ha. eauto. }
  assert (Hr : ∀ i d D, rtnet_devices s !! i = Some (Some d) → devs s !! d = Some D →
    ∃ D', devs s' !! d = Some D' ∧ attrs D' = attrs D).
  { intros i d D Hi HD. specialize (Ha d (ex_intro _ i Hi)). rewrite HD in Ha.
    destruct (devs s' !! d) as [D'|]; [|done]. apply (inj Some) in Ha. eauto. }
  split; rewrite ?Et, ?El.
  - done.
  - intros i d Hi. destruct (Hdev i d Hi) as (D & HD & Hx).
    destruct (Hr i d D Hi HD) as (D' & HD' & E'). apply attrs_inv in E' as (E' & _). exists D'. by rewrite E'.
  - intros i j d e D E Hi Hj HD HE Hn. destruct (Hl i d D Hi HD) as (D0 & HD0 & E0).
    destruct (Hl j e E Hj HE) as (E1 & HE1 & E1').
    apply attrs_inv in E0 as (_ & E0 & _), E1' as (_ & E1' & _). eapply (Hnm i j d e D0 E1); congruence.
  - intros d. rewrite Hlo. split; intros (i & D & Hi & HD & Hf).
    + destruct (Hr i d D Hi HD) as (D' & HD' & (_ & _ & E')%eq_sym%attrs_inv). naive_solver.
    + destruct (Hl i d D Hi HD) as (D' & HD' & (_ & _ & E')%attrs_inv). naive_solver.
Qed.

Lemma wp_reference d D Q s : devs s !! d = Some D → Q () (ref_taken s d D) → wp (rtdev_reference d) Q s.
Proof. intros HD HQ. by eapply wp_dev_upd. Qed.
Lemma devtab_upd s d D D' :
  devtab s → devs s !! d = Some D → attrs D' = attrs D → devtab (s <| devs := <[d := D']> (devs s) |>).
Proof.
  intros Ht HD Ha. eapply devtab_frame; [done..|]. intros e _. cbn.
  destruct (decide (d = e)) as [<-|]; [|by rewrite lookup_insert_ne].
  rewrite lookup_insert_eq, HD. by apply (f_equal Some).
Qed.
(** A device that is not registered may be changed in any way. *)
Lemma devtab_upd_unregistered s d D' :
  devtab s → ¬ registered s d → devtab (s <| devs := <[d := D']> (devs s) |>).
Proof.
  intros Ht Hd. eapply devtab_frame; [done..|]. intros e He. cbn.
  rewrite lookup_insert_ne; [done|]. by intros <-.
Qed.

Lemma find_dev_run f tbl s :
  (∀ d, Some d ∈ tbl → is_Some (devs s !! d)) →
  wp (find_dev f tbl) (λ r s', s' = s ∧
    match r with
    | Some d => Some d ∈ tbl ∧ ∃ D, devs s !! d = Some D ∧ f D = true
    | None => ∀ d D, Some d ∈ tbl → devs s !! d = Some D → f D = false
    end) s.
Proof.
  intros Hex. induction tbl as [|[d|] tbl IH]; cbn [find_dev].
  - apply wp_ret. split; [done|]. set_solver.
  - destruct (Hex d) as [D HD]; [set_solver|]. apply wp_bind. eapply wp_dev_load; [done|].
    destruct (f D) eqn:Hf; [apply wp_ret; split; [done|]; split; [set_solver|eauto]|].
    eapply wp_mono; [|apply IH; set_solver]. intros [e|] s'; [set_solver|].
    intros [-> Hn]. split; [done|]. intros e E [[= ->]|He]%elem_of_cons HE; [congruence|eauto].
  - eapply wp_mono; [|apply IH; set_solver]. intros [e|] s'; [set_solver|].
    intros [-> Hn]. split; [done|]. intros e E [?|He]%elem_of_cons HE; [done|eauto].
Qed.

Lemma registered_elem s d : registered s d ↔ Some d ∈ rtnet_devices s.
Proof. unfold registered. by rewrite list_elem_of_lookup. Qed.
Lemma devtab_exists s d : devtab s → Some d ∈ rtnet_devices s → is_Some (devs s !! d).
Proof. intros Ht [i Hi]%registered_elem. destruct (dt_dev s Ht i d Hi) as (D & HD & _). eauto. Qed.

(** The device a lookup by [f] yields, with the reference taken. *)
Definition looked_up (f : rtnet_device → bool) s (r : option nat) s' : Prop :=
  match r with
  | Some d => ∃ D, registered s d ∧ devs s !! d = Some D ∧ f D = true ∧ s' = ref_taken s d D
  | None => s' = s ∧ ∀ d D, registered s d → devs s !! d = Some D → f D = false
  end.
Lemma lookup_run f s :
  devtab s → wp (tbl ← gets rtnet_devices; r ← find_dev f tbl; take_ref r) (looked_up f s) s.
Proof.
  intros Ht. wp_run. eapply wp_mono; [|apply find_dev_run; by intros; apply devtab_exists].
  intros [d|] s' [-> Hr]; cbn [take_ref].
  - destruct Hr as (Hd & D & HD & Hf). apply wp_bind. eapply wp_reference; [done|]. apply wp_ret.
    exists D. by rewrite registered_elem.
  - apply wp_ret. split; [done|]. setoid_rewrite registered_elem. eauto.
Qed.
Lemma devtab_looked_up f s r s' : devtab s → looked_up f s r s' → devtab s'.
Proof.
  intros Ht. destruct r as [d|]; [|by intros [-> _]]. intros (D & _ & HD & _ & ->).
  by eapply devtab_upd.
Qed.

Definition has_name (nm : list Z) D : bool := strncmp IFNAMSIZ (name D) nm =? 0.
Lemma get_by_name_run nm s : devtab s → wp (rtdev_get_by_name nm) (looked_up (has_name nm) s) s.
Proof. apply lookup_run. Qed.

Lemma wp_dev_slot i Q s :
  1 ≤ i ≤ Z.of_nat MAX_RT_DEVICES → Q (Z.to_nat (i - 1)) s → wp (dev_slot i) Q s.
Proof.
  intros Hi HQ. unfold dev_slot. by replace (_ && _) with true by (symmetry; rewrite andb_true_iff; lia).
Qed.
Lemma get_by_index_run i s : devtab s → wp (rtdev_get_by_index i) (looked_up (λ D, ifindex D =? i) s) s.
Proof.
  intros Ht. pose proof Ht as [Hlen Hdev _ _]. unfold rtdev_get_by_index.
  assert (Hrange : ∀ d D, registered s d → devs s !! d = Some D → ifindex D = i →
    ∃ k, rtnet_devices s !! k = Some (Some d) ∧ i = Z.of_nat k + 1 ∧ (k < MAX_RT_DEVICES)%nat).
  { intros d D [k Hk] HD Hi. destruct (Hdev k d Hk) as (D' & HD' & E). simplify_eq.
    exists k. rewrite <-Hlen. by eauto using lookup_lt_Some. }
  destruct (Z.leb_spec i 0), (Z.ltb_spec (Z.of_nat MAX_RT_DEVICES) i); cbn [orb];
    try (apply wp_ret; split; [done|]; intros d D Hd HD; apply Z.eqb_neq; intros Hi;
         destruct (Hrange d D Hd HD Hi) as (k & _ & ? & ?); lia).
  destruct (lookup_lt_is_Some_2 (rtnet_devices s) (Z.to_nat (i - 1))) as [r Hr]; [lia|].
  unfold __rtdev_get_by_index. apply wp_bind, wp_bind. apply wp_dev_slot; [lia|]. wp_run.
  destruct r as [d|]; cbn [take_ref].
  - destruct (Hdev _ _ Hr) as (D & HD & Hx). apply wp_bind. eapply wp_reference; [done|].
    apply wp_ret. exists D. split_and!; [by eexists|done|apply Z.eqb_eq; lia|done].
  - apply wp_ret. split; [done|]. intros d D Hd HD. apply Z.eqb_neq. intros Hi.
    destruct (Hrange d D Hd HD Hi) as (k & Hk & -> & _).
    replace (Z.to_nat (Z.of_nat k + 1 - 1)) with k in Hr by lia. congruence.
Qed.
Lemma wp_ref_deref t T Q s :
  devs s !! t = Some T → Q () s → wp (rtdev_dereference t) Q (ref_taken s t T).
Proof.
  intros HT HQ. eapply wp_dev_upd; [cbn; by rewrite lookup_insert_eq|].
  match goal with |- Q () ?x => assert (x = s) as ->; [|done] end.
  unfold ref_taken. rewrite kstate_devs_set. apply kstate_devs_id. cbn.
  rewrite insert_insert_eq. apply insert_id. rewrite HT. f_equal. destruct T.
  unfold upd. cbn. f_equal. lia.
Qed.

Lemma alloc_name_run n i d D mask s :
  devtab s → devs s !! d = Some D → (∀ i, is_Some (format_d mask (Some i))) →
  wp (alloc_name_loop n i d mask)
     (λ _ s', ∃ nm, s' = s <| devs := <[d := D <| name := nm |>]> (devs s) |>) s.
Proof.
  intros Ht HD Hm. revert i. induction n as [|n IH]; intros i; cbn [alloc_name_loop].
  - apply wp_ret. exists (name D). symmetry. apply kstate_devs_id, insert_id. rewrite HD. by destruct D.
  - unfold snprintf. destruct (Hm i) as [buf ->]. cbn [fmap option_fmap option_map]. wp_run.
    eapply wp_mono; [|by apply get_by_name_run].
    intros [t|] s'; [intros (T & _ & HT & _ & ->)|intros [-> _]].
    + apply wp_bind. by eapply wp_ref_deref.
    + eapply wp_dev_upd; [done|]. eauto.
Qed.

(** The state in which device [d] has contents [D]. *)
Definition with_dev s d D : kstate := s <| devs := <[d := D]> (devs s) |>.
Lemma wp_upd_with_dev s d D f Q : Q () (with_dev s d (f D)) → wp (dev_upd d f) Q (with_dev s d D).
Proof.
  intros HQ. eapply wp_dev_upd; [cbn; by rewrite lookup_insert_eq|].
  unfold with_dev. rewrite kstate_devs_set. cbn. by rewrite insert_insert_eq.
Qed.
Lemma with_dev_lookup s d D : devs (with_dev s d D) !! d = Some D.
Proof. apply lookup_insert_eq. Qed.
Lemma with_dev_twice s d D D' : with_dev (with_dev s d D) d D' = with_dev s d D'.
Proof. unfold with_dev. rewrite kstate_devs_set. cbn. by rewrite insert_insert_eq. Qed.

(** Every buffer on the global list exists. *)
Definition listed s : Prop := ∀ a, a ∈ rtskb_list s → is_Some (skbs s !! a).

(** What mapping the buffers leaves alone. *)
Definition same_devices s s' : Prop :=
  devs s' = devs s ∧ rtnet_devices s' = rtnet_devices s ∧ loopback_device s' = loopback_device s.
Lemma map_all_loop_run d D l s :
  devs s !! d = Some D → is_Some (map_rtskb D) → (∀ a, a ∈ l → is_Some (skbs s !! a)) →
  wp (rtdev_map_all_loop d l) (λ err s', same_devices s s' ∧ err ≤ 0) s.
Proof.
  intros HD [f Hf]. revert s HD. induction l as [|a l IH]; intros s HD Hl; cbn [rtdev_map_all_loop].
  { by apply wp_ret. }
  destruct (Hl a) as [x Hx]; [set_solver|]. unfold rtskb_map. wp_run.
  eapply wp_dev_load; [done|]. wp_run. destruct (f a =? RTSKB_UNMAPPED); [by wp_run|].
  wp_run. eapply wp_skb_load; [done|]. case_match; [by wp_run|]. apply wp_bind.
  eapply wp_skb_upd; [done|]. wp_run. cbn [Z.eqb].
  eapply wp_mono; [|apply IH; [done|]].
  - by intros err s' [? ?].
  - intros b Hb. cbn. destruct (decide (a = b)) as [<-|]; [rewrite lookup_insert_eq; eauto|].
    rewrite lookup_insert_ne by done. apply Hl. set_solver.
Qed.
Lemma map_all_run d D s :
  devs s !! d = Some D → listed s →
  wp (rtdev_map_all_rtskbs d) (λ err s', same_devices s s' ∧ err ≤ 0) s.
Proof.
  intros HD Hl. unfold rtdev_map_all_rtskbs. apply wp_bind. eapply wp_dev_load; [done|].
  destruct (map_rtskb D) eqn:Hm; wp_run; [|done]. by eapply map_all_loop_run.
Qed.

Lemma new_index_spec tbl i :
  (new_index tbl i = - ENOMEM ∧ ∀ j, tbl !! j ≠ Some None) ∨
  ∃ k, new_index tbl i = i + Z.of_nat k + 1 ∧ tbl !! k = Some None ∧
       ∀ j, (j < k)%nat → tbl !! j ≠ Some None.
Proof.
  revert i. induction tbl as [|[d|] tbl IH]; intros i; cbn [new_index].
  - by left.
  - destruct (IH (i + 1)) as [[-> Hn]|(k & -> & Hk & Hn)].
    + left. split; [done|]. by intros [|j]; cbn.
    + right. exists (S k). split_and!; [lia|done|]. intros [|j] ?; cbn; [done|]. apply Hn. lia.
  - right. exists O. split_and!; [lia|done|lia].
Qed.

(** Entering an unregistered device with a new name into a free slot. *)
Lemma devtab_enter s d D k lo :
  devtab s → ¬ registered s d → devs s !! d = Some D → ifindex D = Z.of_nat k + 1 →
  rtnet_devices s !! k = Some None →
  (∀ e E, registered s e → devs s !! e = Some E → has_name (name D) E = false) →
  (if negb (Z.land (flags D) IFF_LOOPBACK =? 0) then loopback_device s = None ∧ lo = Some d
   else lo = loopback_device s) →
  devtab (s <| loopback_device := lo |> <| rtnet_devices := <[k := Some d]> (rtnet_devices s) |>).
Proof.
  intros [Hlen Hdev Hnm Hlo] Hd HD Hidx Hk Hnew Hloop. pose proof (lookup_lt_Some _ _ _ Hk).
  assert (Hins : ∀ i e, <[k := Some d]> (rtnet_devices s) !! i = Some (Some e) ↔
    (i = k ∧ e = d) ∨ (e ≠ d ∧ rtnet_devices s !! i = Some (Some e))).
  { intros i e. rewrite list_lookup_insert_Some. split.
    - intros [(-> & [= ->] & _)|[? Hi]]; [by left|]. right. split; [|done]. intros ->. apply Hd. by exists i.
    - intros [[-> ->]|[? Hi]]; [by left|]. right. split; [|done]. by intros ->; simplify_eq. }
  assert (Hneq : ∀ i e E, rtnet_devices s !! i = Some (Some e) → devs s !! e = Some E →
    cstr IFNAMSIZ (name D) ≠ cstr IFNAMSIZ (name E)).
  { intros i e E Hi HE Hn. specialize (Hnew e E (ex_intro _ i Hi) HE). unfold has_name in Hnew.
    symmetry in Hn. apply strncmp_cstr in Hn. by rewrite Hn in Hnew. }
  split; cbn.
  - by rewrite length_insert.
  - intros i e [[-> ->]|[_ Hi]]%Hins; eauto.
  - intros i j e f E F [[-> ->]|[_ Hi]]%Hins [[-> ->]|[_ Hj]]%Hins HE HF Hn; simplify_eq; [done|..|eauto].
    + exfalso. by eapply (Hneq j f F).
    + exfalso. by eapply (Hneq i e E).
  - intros e. destruct (Z.eqb_spec (Z.land (flags D) IFF_LOOPBACK) 0) as [Hf|Hf]; cbn in Hloop.
    + subst lo. rewrite Hlo. setoid_rewrite Hins. split.
      * intros (i & E & Hi & HE & ?). exists i, E. split; [|done]. right. split; [|done].
        intros ->. apply Hd. by exists i.
      * intros (i & E & [[-> ->]|[_ Hi]] & HE & ?); [by simplify_eq|eauto].
    + destruct Hloop as [Hnone ->]. setoid_rewrite Hins. split.
      * intros [= <-]. exists k, D. auto.
      * intros (i & E & [[-> ->]|[_ Hi]] & HE & ?); [done|].
        assert (loopback_device s = Some e) by (apply Hlo; eauto). congruence.
Qed.
Lemma enter_device_run s d D k :
  devtab s → ¬ registered s d → devs s !! d = Some D → ifindex D = Z.of_nat k + 1 →
  rtnet_devices s !! k = Some None →
  (∀ e E, registered s e → devs s !! e = Some E → has_name (name D) E = false) →
  wp (enter_device d) (λ (ok : bool) s', if ok
    then devtab s' ∧ devs s' = devs s ∧ rtnet_devices s' = <[k := Some d]> (rtnet_devices s)
    else s' = s) s.
Proof.
  intros Ht Hd HD Hidx Hk Hnew. unfold enter_device. apply wp_bind. eapply wp_dev_load; [done|]. wp_run.
  assert (Hkk : Z.to_nat (ifindex D - 1) = k) by lia.
  pose proof (lookup_lt_Some _ _ _ Hk) as Hlt. rewrite (dt_len s Ht) in Hlt.
  pose proof (λ lo, devtab_enter s d D k lo Ht Hd HD Hidx Hk Hnew) as Henter.
  destruct (negb _) eqn:Hf; cbn [andb when].
  - case_bool_decide as Hlo; [by wp_run|]. wp_run. apply wp_dev_slot; [lia|]. rewrite Hkk. wp_run.
    split; [|done]. apply Henter. split; [|done]. destruct (loopback_device s); [|done]. by destruct Hlo.
  - wp_run. apply wp_dev_slot; [lia|]. rewrite Hkk. wp_run.
    split; [|done]. specialize (Henter _ eq_refl). by destruct s.
Qed.
End table.

Section registration.
Context `{Config} (hooks : list (nat → M kstate ())).
Implicit Types s : kstate.

(** The hooks of the other modules keep the devices, the table and the buffers on
    the global list. *)
Definition hooks_keep (d : nat) : Prop :=
  ∀ h, h ∈ hooks → ∀ s, wp (h d) (λ _ s', same_devices s s' ∧ (listed s → listed s')) s.
Lemma run_hooks_run d s :
  hooks_keep d → wp (run_hooks hooks d) (λ _ s', same_devices s s' ∧ (listed s → listed s')) s.
Proof.
  unfold hooks_keep. revert s. induction hooks as [|h hs IH]; intros s Hk; cbn [run_hooks]; [by apply wp_ret|].
  apply wp_bind. eapply wp_mono; [|apply Hk; set_solver]. cbn beta. intros _ s1 [(E1 & E2 & E3) Hl1].
  eapply wp_mono; [|apply IH; set_solver]. intros _ s2 [(? & ? & ?) Hl2]. unfold same_devices. split_and!; [congruence..|auto].
Qed.
Lemma devtab_same s s' : devtab s → same_devices s s' → devtab s'.
Proof. intros Ht (Ed & Et & El). eapply devtab_frame; [done..|]. by rewrite Ed. Qed.
Lemma registered_same s s' d : same_devices s s' → registered s' d ↔ registered s d.
Proof. intros (_ & Et & _). unfold registered. by rewrite Et. Qed.

Definition registered_at d s k s' : Prop :=
  rtnet_devices s !! k = Some None ∧ (∀ j, (j < k)%nat → rtnet_devices s !! j ≠ Some None) ∧
  rtnet_devices s' = <[k := Some d]> (rtnet_devices s) ∧
  ∃ D', devs s' !! d = Some D' ∧ ifindex D' = Z.of_nat k + 1 ∧
        Z.testbit (link_state D') RTNET_LINK_STATE_PRESENT = true.

Lemma register_named_run d D s k :
  devtab s → ¬ registered s d → devs s !! d = Some D → ifindex D = Z.of_nat k + 1 →
  rtnet_devices s !! k = Some None → (∀ j, (j < k)%nat → rtnet_devices s !! j ≠ Some None) →
  listed s → hooks_keep d →
  wp (register_named hooks d)
    (λ ret s', devtab s' ∧ ((ret = 0 ∧ ∃ k, registered_at d s k s') ∨
       (ret < 0 ∧ rtnet_devices s' = rtnet_devices s ∧ loopback_device s' = loopback_device s))) s.
Proof.
  intros Ht Hd HD Hidx Hk Hfirst Hl Hh. unfold register_named.
  apply wp_bind. eapply wp_dev_load; [done|]. unfold __rtdev_get_by_name. apply wp_bind. wp_run.
  eapply wp_mono; [|apply find_dev_run; by intros; apply devtab_exists]. cbn beta.
  intros [e|] s1 [-> Hnew]; cbn [bool_decide]; case_bool_decide; try done; [wp_run; split; [done|]; by right|].
  apply wp_bind. eapply wp_mono; [|by eapply map_all_run]. cbn beta. intros err s2 [Hsame Herr].
  pose proof (devtab_same _ _ Ht Hsame) as Ht2. pose proof Hsame as (Ed & Et & El).
  destruct (Z.eqb_spec err 0) as [->|]; cbn [negb]; [|wp_run; split; [done|]; right; split_and!; [lia|done..]].
  apply wp_bind. eapply wp_mono; [|eapply (enter_device_run s2 d D k); [done|..]].
  - intros [] s3; cbn [negb]; [|intros ->; wp_run; split; [done|]; by right].
    intros (Ht3 & Ed3 & Et3). apply wp_bind. eapply wp_mono; [|by apply run_hooks_run].
    cbn beta. intros _ s4 [Hs4 _]. pose proof Hs4 as (Ed4 & Et4 & _).
    assert (HD4 : devs s4 !! d = Some D) by congruence.
    apply wp_bind. eapply wp_dev_upd; [done|]. wp_run. split.
    + eapply devtab_upd; [by eapply devtab_same|done|done].
    + left. split; [done|]. exists k. split_and!; [done..|cbn; congruence|].
      eexists. split; [apply lookup_insert_eq|]. split; [done|]. by apply Z.setbit_eq.
  - by rewrite (registered_same s s2).
  - by rewrite Ed.
  - done.
  - by rewrite Et.
  - intros e E He HE. rewrite Ed in HE. apply (Hnew e E); [|done].
    by rewrite <-registered_elem, <-(registered_same s s2).
Qed.

(** C34: [rt_register_rtnetdev] keeps the device table well-formed on every path.
    On success the device sits in the first free slot, its index is the slot's,
    it is marked present, and no other slot changed; on failure (old driver
    interface, no free slot, name or loopback device taken, buffers that cannot
    be mapped) the table and the loopback device are as before. *)
Theorem rt_register_rtnetdev_correct d D s :
  devtab s → ¬ registered s d → devs s !! d = Some D →
  (strchr IFNAMSIZ (name D) 37 = true → ∀ i, is_Some (format_d (name D) (Some i))) →
  listed s → hooks_keep d →
  ∃ ret s', rt_register_rtnetdev hooks d s = Some (ret, s') ∧ devtab s' ∧
    ((ret = 0 ∧ ∃ k, registered_at d s k s') ∨
     (ret < 0 ∧ rtnet_devices s' = rtnet_devices s ∧ loopback_device s' = loopback_device s)).
Proof.
  intros Ht Hd HD Hm Hl Hh. apply wp_elim. unfold rt_register_rtnetdev.
  apply wp_bind. eapply wp_dev_load; [done|].
  destruct (vers D <? RTDEV_VERS_2_0); [wp_run; split; [done|]; by right|].
  apply wp_bind. eapply wp_dev_upd; [done|].
  match goal with |- wp _ _ (s <| devs := <[d := ?D1]> _ |>) => fold (with_dev s d D1); set (D1' := D1) end.
  assert (Hun : ∀ D', devtab (with_dev s d D')) by (intros D'; by apply devtab_upd_unregistered).
  unfold __rtdev_new_index. wp_run. change (rtnet_devices (with_dev s d D1')) with (rtnet_devices s).
  destruct (new_index_spec (rtnet_devices s) 0) as [[-> Hfull]|(k & -> & Hk & Hfirst)].
  { cbn. wp_run. split; [apply Hun|]. by right. }
  destruct (Z.ltb_spec (0 + Z.of_nat k + 1) 0); [lia|].
  apply wp_bind, wp_upd_with_dev. set (D2 := D1' <| ifindex := _ |>).
  apply wp_bind. apply (wp_mono _ (λ _ s', ∃ nm, s' = with_dev s d (D2 <| name := nm |>))); last first.
  { destruct (strchr IFNAMSIZ (name D) 37) eqn:Hc; cbn [when].
    - eapply wp_mono; [|apply (alloc_name_run _ _ _ D2); [done|apply with_dev_lookup|by apply Hm]].
      cbn beta. intros _ s' [nm ->]. exists nm. apply with_dev_twice.
    - apply wp_ret. exists (name D). done. }
  cbn beta. intros _ s3 [nm ->]. set (D3 := D2 <| name := nm |>).
  apply (register_named_run d D3 (with_dev s d D3) k); try done. apply with_dev_lookup.
Qed.

(** [rtdev_get_by_name] and [rtdev_get_by_index] yield a registered device
    with the name (the index) and take one reference on it, and yield NULL and
    change nothing exactly when there is no such device.  The table stays
    well-formed. *)
Theorem rtdev_get_correct s nm (i : Z) :
  devtab s →
  (∃ r s', rtdev_get_by_name nm s = Some (r, s') ∧ devtab s' ∧ looked_up (has_name nm) s r s') ∧
  (∃ r s', rtdev_get_by_index i s = Some (r, s') ∧ devtab s' ∧
           looked_up (λ D, ifindex D =? i) s r s').
Proof.
  intros Ht. split.
  - destruct (wp_elim _ _ _ (get_by_name_run nm s Ht)) as (r & s' & E & Hr).
    exists r, s'. split_and!; [done|by eapply devtab_looked_up|done].
  - pose proof (get_by_index_run i s Ht) as Hw.
    destruct (wp_elim _ _ _ Hw) as (r & s' & E & Hr).
    exists r, s'. split_and!; [done|by eapply devtab_looked_up|done].
Qed.
End registration.

(** ** Removal *)

Section removal.
Context `{Config} (hooks : list (nat → M kstate ())) (drv_stop : nat → option (M kstate Z)).
Implicit Types s : kstate.

(** What the rest of the system does while a device waits for its last reference:
    it keeps the table, the buffers on the global list and the identity of the devices
    (number, name, whether it is the loopback device), not the counts of references. *)
Definition same_table s s' : Prop :=
  rtnet_devices s' = rtnet_devices s ∧ loopback_device s' = loopback_device s ∧
  (∀ d, attrs <$> devs s' !! d = attrs <$> devs s !! d) ∧ (listed s → listed s').
Definition env_step (e : kstate → kstate) : Prop := ∀ s, same_table s (e s).
(** The reference count of [d] after a prefix of the steps. *)
Fixpoint refs_after (env : list (kstate → kstate)) (d : nat) s : list Z :=
  (match devs s !! d with Some D => refcount D | None => 0 end) ::
  match env with [] => [] | e :: env => refs_after env d (e s) end.

Lemma unreg_wait_run env d : ∀ s D,
  devs s !! d = Some D → Forall env_step env → Exists (λ c, c ≤ 0) (refs_after env d s) →
  wp (unreg_wait env d) (λ _ s', same_table s s' ∧ ∃ D', devs s' !! d = Some D' ∧ refcount D' ≤ 0) s.
Proof.
  induction env as [|e env IH]; intros s D HD Henv Href; cbn [unreg_wait]; apply wp_bind;
    (eapply wp_dev_load; [done|]); cbn [refs_after] in Href; rewrite HD in Href;
    destruct (Z.ltb_spec 0 (refcount D)) as [Hp|Hp];
    try (apply wp_ret; split; [done|by eauto]).
  - apply Exists_cons in Href as [?|Href%Exists_nil]; [lia|done].
  - apply Exists_cons in Href as [?|Href]; [lia|].
    apply Forall_cons in Henv as [(Et & El & Ed & Hs)%(λ h, h s) Henv].
    wp_run. pose proof (Ed d) as Edd. rewrite HD in Edd.
    destruct (devs (e s) !! d) as [D1|] eqn:HD1; [|done].
    eapply wp_mono; [|by eapply (IH (e s))]. cbn beta.
    intros _ s' ((Et' & El' & Ed' & Hs') & Hr). split; [|done]. unfold same_table.
    split_and!; [congruence..| |by auto]. intros c. by rewrite Ed', Ed.
Qed.

Lemma devtab_remove s d D k lo :
  devtab s → rtnet_devices s !! k = Some (Some d) → devs s !! d = Some D →
  lo = (if negb (Z.land (flags D) IFF_LOOPBACK =? 0) then None else loopback_device s) →
  devtab (s <| rtnet_devices := <[k := None]> (rtnet_devices s) |> <| loopback_device := lo |>).
Proof.
  intros [Hlen Hdev Hnm Hlo] Hk HD ->. pose proof (lookup_lt_Some _ _ _ Hk).
  assert (Hins : ∀ i e, <[k := None]> (rtnet_devices s) !! i = Some (Some e) ↔
    i ≠ k ∧ rtnet_devices s !! i = Some (Some e)).
  { intros i e. rewrite list_lookup_insert_Some. naive_solver. }
  assert (Huniq : ∀ i, rtnet_devices s !! i = Some (Some d) → i = k) by (intros i Hi; by eapply (Hnm i k d d)).
  split; cbn.
  - by rewrite length_insert.
  - intros i e [_ Hi]%Hins. eauto.
  - intros i j e f E F [_ Hi]%Hins [_ Hj]%Hins. eauto.
  - intros e. setoid_rewrite Hins. destruct (Z.eqb_spec (Z.land (flags D) IFF_LOOPBACK) 0) as [Hf|Hf]; cbn.
    + rewrite Hlo. split; [|naive_solver]. intros (i & E & Hi & HE & ?). exists i, E.
      split_and!; try done. intros ->. by simplify_eq.
    + split; [done|]. intros (i & E & [Hne Hi] & HE & ?).
      assert (loopback_device s = Some d) by (apply Hlo; eauto).
      assert (loopback_device s = Some e) by (apply Hlo; eauto). simplify_eq. by apply Huniq in Hi.
Qed.

Lemma leave_device_run s d D k :
  devtab s → rtnet_devices s !! k = Some (Some d) → devs s !! d = Some D →
  wp (leave_device d) (λ _ s', devtab s' ∧ devs s' = devs s ∧
    rtnet_devices s' = <[k := None]> (rtnet_devices s) ∧ loopback_device s' ≠ Some d ∧
    (listed s → listed s')) s.
Proof.
  intros Ht Hk HD. pose proof (devtab_remove s d D k _ Ht Hk HD eq_refl) as Hrm.
  destruct (dt_dev s Ht k d Hk) as (D' & HD' & Hidx). simplify_eq.
  unfold leave_device. apply wp_bind. eapply wp_dev_load; [done|].
  pose proof (lookup_lt_Some _ _ _ Hk) as Hlt. rewrite (dt_len s Ht) in Hlt.
  apply wp_bind, wp_dev_slot; [lia|]. replace (Z.to_nat (ifindex D - 1)) with k by lia. wp_run.
  destruct (Z.eqb_spec (Z.land (flags D) IFF_LOOPBACK) 0) as [Hf|Hf]; cbn [negb when] in *; wp_run.
  - split; [by destruct s|]. split_and!; [done..| |done]. cbn. intros (i & E & _ & HE & ?)%(dt_loop s Ht).
    by simplify_eq.
  - done.
Qed.

(** The same for a step that also keeps the count of references of [d]. *)
Definition spares (d : nat) s s' : Prop :=
  same_table s s' ∧ refcount <$> devs s' !! d = refcount <$> devs s !! d.
Lemma spares_refl d s : spares d s s.
Proof. by split. Qed.
Lemma spares_trans d s1 s2 s3 : spares d s1 s2 → spares d s2 s3 → spares d s1 s3.
Proof.
  intros [(E1 & E2 & E3 & E4) E5] [(F1 & F2 & F3 & F4) F5]. unfold spares, same_table.
  split_and!; [congruence..|intros e; by rewrite F3, E3|auto|congruence].
Qed.
Lemma spares_lookup d s s' D : spares d s s' → devs s !! d = Some D → ∃ D', devs s' !! d = Some D' ∧ attrs D' = attrs D ∧ refcount D' = refcount D.
Proof.
  intros [(_ & _ & Ea & _) Er] HD. specialize (Ea d). rewrite HD in Ea, Er. destruct (devs s' !! d) as [D'|]; [|done].
  exists D'. apply (inj Some) in Ea, Er. done.
Qed.
Lemma spares_upd d s D D' : devs s !! d = Some D → attrs D' = attrs D → refcount D' = refcount D → spares d s (s <| devs := <[d := D']> (devs s) |>).
Proof.
  intros HD Ea Er. split; [split_and!; [done|done| |done]|].
  - intros e. cbn. destruct (decide (d = e)) as [<-|]; [|by rewrite lookup_insert_ne]. rewrite lookup_insert_eq, HD. by apply (f_equal Some).
  - cbn. rewrite lookup_insert_eq, HD. by apply (f_equal Some).
Qed.

(** What the driver's stop function and the hooks for a device that goes may do: they may
    change the state of the link, as [rtnetif_stop_queue] does, release buffers, and so
    on. *)
Definition stop_spares (d : nat) : Prop :=
  ∀ f, drv_stop d = Some f → ∀ s, is_Some (devs s !! d) → wp f (λ _ s', spares d s s') s.
Definition hooks_spare (d : nat) : Prop :=
  ∀ h, h ∈ hooks → ∀ s, is_Some (devs s !! d) → wp (h d) (λ _ s', spares d s s') s.
Lemma hooks_spare_run d s : hooks_spare d → is_Some (devs s !! d) → wp (run_hooks hooks d) (λ _ s', spares d s s') s.
Proof.
  unfold hooks_spare. revert s. induction hooks as [|h hs IH]; intros s Hk Hd; cbn [run_hooks]; [by apply wp_ret|].
  apply wp_bind. eapply wp_mono; [|apply Hk; [set_solver|done]]. cbn beta. intros _ s1 H1.
  eapply wp_mono; [|apply IH; [set_solver|]].
  - intros [] s2 H2. by eapply spares_trans.
  - destruct Hd as [D HD]. destruct (spares_lookup _ _ _ _ H1 HD) as (D' & HD' & _). eauto.
Qed.
Lemma close_run d D s :
  devs s !! d = Some D → stop_spares d → wp (rtdev_close drv_stop d) (λ _ s', spares d s s') s.
Proof.
  intros HD Hstop. unfold rtdev_close. apply wp_bind. eapply wp_dev_load; [done|].
  destruct (Z.land (flags D) IFF_UP =? 0); [by apply wp_ret|].
  apply wp_bind. apply (wp_mono _ (λ _ s', spares d s s')); last first.
  { destruct (drv_stop d) eqn:Hd; [by eapply Hstop|by apply wp_ret]. }
  cbn beta. intros ret s1 H1. destruct (spares_lookup _ _ _ _ H1 HD) as (D1 & HD1 & _). apply wp_bind. eapply wp_dev_upd; [done|].
  apply wp_ret. eapply spares_trans; [exact H1|]. apply (spares_upd d s1 D1); [done| |done].
  unfold attrs, upd. cbn [ifindex name flags]. by rewrite <-Z.land_assoc.
Qed.

(** The driver unmaps every buffer on the list. *)
Definition unmapped d D s s' : Prop :=
  unmap_log s' = unmap_log s ++ if unmap_rtskb D then (λ a, (d, a)) <$> rtskb_list s else [].
Lemma unmap_all_loop_run d l s :
  (∀ a, a ∈ l → is_Some (skbs s !! a)) →
  unmap_all_loop d l s = Some ((), s <| unmap_log := unmap_log s ++ ((λ a, (d, a)) <$> l) |>).
Proof.
  revert s. induction l as [|a l IH]; intros s Hl; cbn [unmap_all_loop fmap list_fmap].
  { rewrite app_nil_r. by destruct s. }
  destruct (Hl a) as [x Hx]; [set_solver|]. unfold unmap_call, skb_load, mbind, M_bind, gets. cbn.
  rewrite Hx. cbn. rewrite IH by (cbn; set_solver). cbn. by rewrite <-app_assoc.
Qed.
Lemma unmap_all_run d D s :
  devs s !! d = Some D → listed s →
  wp (rtdev_unmap_all_rtskbs d) (λ _ s', same_devices s s' ∧ rtskb_list s' = rtskb_list s ∧ unmapped d D s s') s.
Proof.
  intros HD Hl. unfold rtdev_unmap_all_rtskbs, unmapped. apply wp_bind. eapply wp_dev_load; [done|].
  destruct (unmap_rtskb D); cbn [negb]; wp_run; [|by rewrite app_nil_r].
  by eapply wp_intro; [by apply unmap_all_loop_run|].
Qed.

Lemma same_table_devtab s s' : devtab s → same_table s s' → devtab s'.
Proof.
  intros Ht (Et & El & Ed & _). eapply devtab_frame; [exact Ht|done..|]. intros e _. specialize (Ed e).
  by destruct (devs s' !! e) as [E2|], (devs s !! e) as [E1|].
Qed.

(** C39: [rt_unregister_rtnetdev] closes the device, waits until its last reference
    is gone (it returns as soon as the rest of the system has dropped them), and
    then removes exactly this device: its slot is empty, every other slot and the
    well-formedness of the table are kept, and a loopback device is forgotten.  At
    last its driver is told to unmap every buffer on the global list.  The driver's stop
    function and the hooks may change the devices, but not their numbers, names and
    loopback flags, the table, or the number of references to this device. *)
Theorem rt_unregister_rtnetdev_correct env d D k s :
  devtab s → rtnet_devices s !! k = Some (Some d) → devs s !! d = Some D → listed s →
  Forall env_step env → stop_spares d → hooks_spare d →
  (∀ s1, refcount <$> devs s1 !! d = refcount <$> devs s !! d →
         Exists (λ c, c ≤ 0) (refs_after env d s1)) →
  ∃ s', rt_unregister_rtnetdev drv_stop hooks env d s = Some (0, s') ∧ devtab s' ∧
    rtnet_devices s' = <[k := None]> (rtnet_devices s) ∧ loopback_device s' ≠ Some d ∧
    ∃ D' log, devs s' !! d = Some D' ∧ refcount D' ≤ 0 ∧
      unmap_log s' = log ++ if unmap_rtskb D' then (λ a, (d, a)) <$> rtskb_list s' else [].
Proof.
  intros Ht Hk HD Hl Henv Hstop Hh Hrefs.
  assert (Hidx : ifindex D = Z.of_nat k + 1).
  { destruct (dt_dev s Ht k d Hk) as (D' & HD' & ?). congruence. }
  eapply wp_value. unfold rt_unregister_rtnetdev. apply wp_bind. eapply wp_dev_load; [done|].
  assert (assert_fails (negb (ifindex D =? 0)) = false) as ->.
  { unfold assert_fails. destruct (Z.eqb_spec (ifindex D) 0); [lia|]. by rewrite andb_false_r. }
  apply wp_bind. apply (wp_mono _ (λ _ s1, spares d s s1)); last first.
  { destruct (negb _); cbn [when]; [|apply wp_ret, spares_refl].
    apply wp_bind. eapply wp_mono; [|by eapply close_run]. cbn beta. intros ret s1 H1. by apply wp_ret. }
  cbn beta. intros _ s1 H1. destruct (spares_lookup _ _ _ _ H1 HD) as (D1 & HD1 & _ & Er1).
  destruct H1 as [H1 Hr1]. pose proof (same_table_devtab _ _ Ht H1) as Ht1. destruct H1 as (Et1 & _ & _ & Hl1).
  apply wp_bind. eapply wp_mono; [|eapply unreg_wait_run; [done|done|by apply Hrefs]].
  cbn beta. intros _ s2 (H2 & D2 & HD2 & Hr2). pose proof (same_table_devtab _ _ Ht1 H2) as Ht2.
  destruct H2 as (Et2 & _ & _ & Hl2).
  apply wp_bind. eapply wp_mono; [|eapply (leave_device_run s2 d D2 k); [done|by rewrite Et2, Et1|done]].
  cbn beta. intros _ s3 (Ht3 & Ed3 & Et3 & El3 & Hl3). apply wp_bind.
  eapply wp_mono; [|apply hooks_spare_run; [done|rewrite Ed3; eauto]]. cbn beta. intros _ s4 H4.
  destruct (spares_lookup _ _ _ D2 H4) as (D4 & HD4 & _ & Er4); [by rewrite Ed3|].
  destruct H4 as [H4 _]. pose proof (same_table_devtab _ _ Ht3 H4) as Ht4. destruct H4 as (Et4 & El4 & _ & Hl4).
  apply wp_bind. eapply wp_mono; [|eapply unmap_all_run; [done|by auto]]. cbn beta.
  intros _ s5 (Hs5 & El & Hu). pose proof Hs5 as (Ed5 & Et5 & El5).
  apply wp_bind. eapply wp_dev_upd; [by rewrite Ed5|]. apply wp_ret. split; [done|].
  split_and!; [|cbn; congruence..|].
  - eapply devtab_upd; [by eapply devtab_same, Hs5|by rewrite Ed5|done].
  - eexists _, _. split; [apply lookup_insert_eq|]. split; [cbn; lia|]. cbn. rewrite El. exact Hu.
Qed.
End removal.
