(* ===== verification/Eth.v ===== *)
(** * Ethernet framing (stack/eth.c)

    Creation of the link header of an outgoing packet, and classification of an
    incoming one. *)
From S2P Require Import Prelude State RtskbQueue Rtskb RtskbData.

Definition ETH_P_802_3 := 1.
Definition ETH_P_802_2 := 4.

Section eth.
Context `{Config}.

(** [saddr] and [daddr] may be NULL.  The header is destination, source, type. *)
Definition rt_eth_header (skb d : nat) (type : Z) (daddr saddr : option (list Z)) (len0 : Z) : M kstate Z :=
  x ← skb_load skb;
  let '(eth, x) := rtskb_push ETH_HLEN x in
  skb_store skb (x <| mac_raw := eth |>);;
  D ← dev_load d;
  skb_write skb (eth + 12) (be16 (if negb (type =? ETH_P_802_3) then type else u16 len0));;
  src ← deref (mem_read (default (dev_addr D) saddr) (addr_len D));
  skb_write skb (eth + 6) src;;
  if negb (Z.land (flags D) (Z.lor IFF_LOOPBACK IFF_NOARP) =? 0) then
    skb_write skb eth (replicate (addr_len D) 0);; mret (hard_header_len D)
  else
    match daddr with
    | Some daddr =>
        dst ← deref (mem_read daddr (addr_len D));
        skb_write skb eth dst;; mret (hard_header_len D)
    | None => mret (- hard_header_len D)
    end.

(** [rtcap_mark_incoming]: with RTcap the dimension of the packet is saved. *)
Definition rtcap_mark_incoming (x : rtskb) : rtskb :=
  if CONFIG_RTNET_ADDON_RTCAP then x <| cap_start := data x |> <| cap_len := len x |> else x.

(** The packet type a destination address makes, [old] being that of a new buffer. *)
Definition eth_pkt_type (D : rtnet_device) (h_dest : list Z) (old : Z) : Z :=
  if negb (Z.land (default 0 (head h_dest)) 1 =? 0) then
    if bool_decide (h_dest = take ETH_ALEN (broadcast D)) then PACKET_BROADCAST else PACKET_MULTICAST
  else if bool_decide (h_dest = take ETH_ALEN (dev_addr D)) then old else PACKET_OTHERHOST.

(** The result is the protocol in network byte order. *)
Definition rt_eth_type_trans (skb d : nat) : M kstate Z :=
  skb_upd skb rtcap_mark_incoming;;
  D ← dev_load d;
  skb_upd skb (λ x, snd (rtskb_pull (hard_header_len D) (x <| mac_raw := data x |>)));;
  x ← skb_load skb;
  h_dest ← skb_read skb (mac_raw x) 6;
  skb_upd skb (λ x, x <| pkt_type := eth_pkt_type D h_dest (pkt_type x) |>);;
  b ← skb_read skb (mac_raw x + 12) 2;
  h_proto ← deref (rd16 b);
  if 1536 <=? ntohs h_proto then mret h_proto
  else
    b ← skb_read skb (data x) 2;
    raw ← deref (rd16 b);
    mret (if raw =? 65535 then ntohs ETH_P_802_3 else ntohs ETH_P_802_2).
End eth.

(** ** Properties *)

Section props.
Context `{Config}.
Implicit Types (s t : kstate) (x y z : rtskb).

Lemma land_1_odd b : Z.land b 1 = if Z.odd b then 1 else 0.
Proof. change 1 with (Z.ones 1). rewrite Z.land_ones, Zmod_odd by lia. done. Qed.

(** The frame of a packet [x] with the link header in front. *)
Definition framed (D : rtnet_device) (dst src : list Z) (type : Z) x y : Prop :=
  wf_rtskb y ∧ mac_raw y = data y ∧
  y = x <| mac_raw := mac_raw y |> <| data := data x - ETH_HLEN |> <| len := len x + ETH_HLEN |>
        <| buf := buf y |> ∧
  payload y = take ETH_ALEN dst ++ take ETH_ALEN src ++ be16 type ++ payload x.

Lemma header_bytes a b c dst src ty (l : list Z) :
  length a = length dst → length b = length src → length c = length ty →
  splice 0 dst (splice (length a) src (splice (length a + length b) ty (a ++ b ++ c ++ l)))
  = dst ++ src ++ ty ++ l.
Proof.
  intros Ea Eb Ec. rewrite <-length_app, (app_assoc a b), (splice_mid (a ++ b) c ty l) by done.
  rewrite <-app_assoc, (splice_mid a b src) by done. by apply (splice_mid [] a dst).
Qed.

Lemma rt_eth_header_run s skb d D x type daddr saddr len0 :
  skbs s !! skb = Some x → devs s !! d = Some D → wf_rtskb x → ETH_HLEN ≤ headroom x →
  addr_len D = ETH_ALEN → Z.land (flags D) (Z.lor IFF_LOOPBACK IFF_NOARP) = 0 →
  type ≠ ETH_P_802_3 → (ETH_ALEN ≤ length daddr)%nat →
  (ETH_ALEN ≤ length (default (dev_addr D) saddr))%nat →
  wp (rt_eth_header skb d type (Some daddr) saddr len0)
     (λ r s', r = hard_header_len D ∧ ∃ y, s' = upd_skb skb y s ∧
        framed D daddr (default (dev_addr D) saddr) type x y) s.
Proof.
  intros Hx HD Hwf Hh Ha Hfl Hty Hda Hsa.
  destruct (push_ok x ETH_HLEN Hwf ltac:(split; [done|exact Hh])) as (E0 & Hw0 & Hp0). rewrite E0 in Hw0, Hp0.
  cbn [snd] in Hw0, Hp0. unfold rt_eth_header. apply wp_bind. eapply wp_skb_load; [done|]. rewrite E0.
  set (x1 := x <| data := data x - ETH_HLEN |> <| len := len x + ETH_HLEN |> <| mac_raw := data x - ETH_HLEN |>).
  assert (Hw1 : wf_rtskb x1) by (destruct Hw0; by split).
  assert (Hp1 : drop 14 (payload x1) = payload x) by exact Hp0.
  pose proof (length_payload _ Hw1) as Hl1. pose proof (wf_len _ Hwf) as Hl0.
  assert (Hd1 : data x1 = data x - ETH_HLEN) by done.
  assert (El : len x1 = len x + 14) by done.
  apply wp_bind. apply wp_modify. fold (upd_skb skb x1 s). apply wp_bind. eapply wp_dev_load; [exact HD|].
  rewrite Ha. apply Z.eqb_neq in Hty as ->. cbn [negb].
  assert (Hda' : length (take ETH_ALEN daddr) = 6%nat) by (rewrite length_take; unfold ETH_ALEN in *; lia).
  assert (Hsa' : length (take ETH_ALEN (default (dev_addr D) saddr)) = 6%nat)
    by (rewrite length_take; unfold ETH_ALEN in *; lia).
  apply wp_bind. eapply (wp_write_payload skb x1 12); [done|rewrite length_be16; lia|rewrite Hd1; lia|]. intros x2 F2 Hw2 Hp2.
  pose proof F2 as [E2 _]. assert (El2 : len x2 = len x1) by (by rewrite E2).
  unfold mem_read. rewrite (proj2 (Nat.leb_le ETH_ALEN _) Hsa). apply wp_bind. eapply wp_deref; [done|].
  apply wp_bind. eapply (wp_write_payload skb x2 6); [done|rewrite Hsa'; lia|rewrite E2; cbn; lia|]. intros x3 F3 Hw3 Hp3.
  pose proof (same_frame_trans _ _ _ F2 F3) as [E3 _]. assert (El3 : len x3 = len x1) by (by rewrite E3).
  rewrite Hfl. cbn [Z.eqb negb]. rewrite (proj2 (Nat.leb_le ETH_ALEN _) Hda). apply wp_bind. eapply wp_deref; [done|].
  apply wp_bind. eapply (wp_write_payload skb x3 0); [done|rewrite Hda'; lia|rewrite E3; cbn; lia|]. intros y F4 Hwy Hpy.
  pose proof (same_frame_trans _ _ _ F2 (same_frame_trans _ _ _ F3 F4)) as [Ey _].
  apply wp_ret. split; [done|]. exists y. split; [done|]. split; [done|]. split; [by rewrite Ey|].
  split; [rewrite Ey; done|]. rewrite Hpy, Hp3, Hp2, <-Hp1.
  rewrite <-(take_drop 6 (payload x1)) at 1. rewrite <-(take_drop 6 (drop 6 (payload x1))), <-(take_drop 2 (drop 6 (drop 6 (payload x1)))).
  rewrite !drop_drop. cbn [Nat.add].
  assert (length (take 6 (payload x1)) = 6%nat) as L1 by (rewrite length_take; lia).
  assert (length (take 6 (drop 6 (payload x1))) = 6%nat) as L2 by (rewrite length_take, length_drop; lia).
  assert (length (take 2 (drop 12 (payload x1))) = 2%nat) as L3 by (rewrite length_take, length_drop; lia).
  rewrite <-(header_bytes _ _ _ (take ETH_ALEN daddr) (take ETH_ALEN (default (dev_addr D) saddr)) (be16 type) _
    (eq_trans L1 (eq_sym Hda')) (eq_trans L2 (eq_sym Hsa')) L3). by rewrite L1, L2.
Qed.

Lemma rt_eth_type_trans_run t r e E z dst src type l :
  skbs t !! r = Some z → devs t !! e = Some E → wf_rtskb z → hard_header_len E = ETH_HLEN →
  payload z = dst ++ src ++ be16 type ++ l → length dst = ETH_ALEN → length src = ETH_ALEN →
  1536 ≤ type < 65536 →
  wp (rt_eth_type_trans r e) (λ v t', v = ntohs type ∧ ∃ z', t' = upd_skb r z' t ∧ wf_rtskb z' ∧
    payload z' = l ∧ mac_raw z' = data z ∧ pkt_type z' = eth_pkt_type E dst (pkt_type z)) t.
Proof.
  intros Hz HE Hwf Hhl Hp Hd Hs Hty. unfold rt_eth_type_trans.
  set (z1 := rtcap_mark_incoming z).
  assert (Hz1 : wf_rtskb z1 ∧ payload z1 = payload z ∧ data z1 = data z ∧ len z1 = len z ∧ pkt_type z1 = pkt_type z).
  { unfold z1, rtcap_mark_incoming. destruct CONFIG_RTNET_ADDON_RTCAP; [|done]. destruct Hwf. by repeat split. }
  destruct Hz1 as (Hw1 & Hp1 & Hd1 & Hl1 & Ht1).
  apply wp_bind. eapply wp_skb_upd; [done|]. fold z1. fold (upd_skb r z1 t). clearbody z1.
  apply wp_bind. eapply wp_dev_load; [exact HE|]. rewrite Hhl.
  assert (Hlen : ETH_HLEN ≤ len z).
  { pose proof (length_payload z Hwf) as Hl. rewrite Hp, !length_app, Hd, Hs in Hl. cbn in Hl. unfold ETH_HLEN. lia. }
  set (z2 := z1 <| mac_raw := data z1 |>). assert (Hw2 : wf_rtskb z2) by (destruct Hw1; by split).
  destruct (pull_ok z2 ETH_HLEN Hw2 ltac:(unfold ETH_HLEN in *; cbn; lia)) as (E3 & Hw3 & Hp3).
  apply wp_bind. apply wp_upd_skb_upd. fold z2. rewrite E3 in Hw3, Hp3 |- *. cbn [snd] in Hw3, Hp3 |- *.
  set (z3 := z2 <| len := _ |> <| data := _ |>) in *.
  apply wp_bind. apply wp_upd_skb_load.
  assert (Hread : ∀ o n, (o + n ≤ 14)%nat →
    buf_read z3 (mac_raw z3 + Z.of_nat o) (Z.of_nat n) = Some (take n (drop o (payload z)))).
  { intros o n Hon. rewrite <-Hp1. change (buf_read z1 (data z1 + Z.of_nat o) (Z.of_nat n) = Some (take n (drop o (payload z1)))).
    rewrite payload_read by (done || (unfold ETH_HLEN in *; lia)). by rewrite !Nat2Z.id. }
  apply wp_bind. eapply wp_skb_read; [apply upd_skb_lookup|rewrite <-(Z.add_0_r (mac_raw z3)); by apply (Hread 0%nat 6%nat); lia|].
  rewrite drop_0, Hp, take_app_length' by done.
  apply wp_bind. apply wp_upd_skb_upd. apply wp_bind.
  eapply wp_skb_read; [apply upd_skb_lookup|by apply (Hread 12%nat 2%nat); lia|].
  rewrite Hp, (app_assoc dst), drop_app_length' by (rewrite length_app, Hd, Hs; done).
  rewrite take_app_length' by done. apply wp_bind. eapply wp_deref; [apply rd16_be16; lia|].
  rewrite ntohs_involutive by lia. destruct (Z.leb_spec 1536 type); [|lia]. apply wp_ret. split; [done|].
  eexists. split; [done|]. split; [destruct Hw3; by split|]. split; [|split; [exact Hd1|]]; last first.
  { change (eth_pkt_type E dst (pkt_type z1) = eth_pkt_type E dst (pkt_type z)). by rewrite Ht1. }
  change (payload z3 = l). rewrite Hp3. change (payload z2) with (payload z1). rewrite Hp1, Hp.
  by rewrite !app_assoc, drop_app_length' by (rewrite !length_app, Hd, Hs; done).
Qed.

(** Ethernet framing is a round trip.  [rt_eth_header] on a packet with room for
    the header puts destination, source and type in front of it and nothing else
    changes; the frame, received in any buffer (perhaps padded), is taken apart by
    [rt_eth_type_trans] into the type, in network byte order, and the packet.  The
    packet type the receiver assigns is that of a broadcast or multicast address for
    a group address; another address leaves it alone if it is the device's and marks
    the packet as for another host if not. *)
Theorem eth_roundtrip s skb d D x type daddr saddr len0 t r e E z pad :
  skbs s !! skb = Some x → devs s !! d = Some D → wf_rtskb x → ETH_HLEN ≤ headroom x →
  addr_len D = ETH_ALEN → Z.land (flags D) (Z.lor IFF_LOOPBACK IFF_NOARP) = 0 →
  1536 ≤ type < 65536 → (ETH_ALEN ≤ length daddr)%nat → (ETH_ALEN ≤ length (default (dev_addr D) saddr))%nat →
  skbs t !! r = Some z → devs t !! e = Some E → wf_rtskb z → hard_header_len E = ETH_HLEN →
  ∃ y, rt_eth_header skb d type (Some daddr) saddr len0 s = Some (hard_header_len D, upd_skb skb y s) ∧
    framed D daddr (default (dev_addr D) saddr) type x y ∧
    (payload z = payload y ++ pad →
     ∃ z', rt_eth_type_trans r e t = Some (ntohs type, upd_skb r z' t) ∧ wf_rtskb z' ∧
       payload z' = payload x ++ pad ∧
       (Z.odd (default 0 (head daddr)) = true → pkt_type z' = PACKET_BROADCAST ∨ pkt_type z' = PACKET_MULTICAST) ∧
       (Z.odd (default 0 (head daddr)) = false →
        pkt_type z' = if bool_decide (take ETH_ALEN daddr = take ETH_ALEN (dev_addr E)) then pkt_type z
                      else PACKET_OTHERHOST)).
Proof.
  intros Hx HD Hwf Hh Ha Hfl Hty Hda Hsa Hz HE Hwz Hhl.
  destruct (wp_elim _ _ _ (rt_eth_header_run s skb d D x type daddr saddr len0 Hx HD Hwf Hh Ha Hfl
    ltac:(unfold ETH_P_802_3; lia) Hda Hsa)) as (v & s' & Er & -> & y & -> & Hy).
  exists y. split; [done|]. split; [done|]. intros Hp. destruct Hy as (_ & _ & _ & Hpy).
  rewrite Hpy, <-!app_assoc in Hp.
  destruct (wp_elim _ _ _ (rt_eth_type_trans_run t r e E z _ _ type _ Hz HE Hwz Hhl Hp
    ltac:(rewrite length_take; lia) ltac:(rewrite length_take; lia) Hty)) as (v & t' & Et & -> & z' & -> & Hw' & Hp' & _ & Hk).
  exists z'. split_and!; [done..| |]; rewrite Hk; unfold eth_pkt_type;
    (destruct daddr as [|b daddr]; [cbn in Hda; unfold ETH_ALEN in Hda; lia|]); cbn [head default take ETH_ALEN];
    cbn [from_option id]; rewrite (land_1_odd b); intros ->; cbn [Z.eqb negb].
  - case_bool_decide; auto.
  - done.
Qed.
End props.
