(* ===== verification/Iovec.v ===== *)
(** * Scatter and gather buffers of the socket calls (stack/iovec.c)

    The loops that copy between a packet and the buffers an application describes by
    an array of (address, length) pairs, and their equivalence with copying to and
    from the list of all addresses the array covers. *)
From S2P Require Import Prelude State RtskbQueue Rtskb RtskbData.

Record iovec := mk_iovec { iov_base : Z; iov_len : Z }.
(** Memory of the application, byte by byte. *)
Notation umem := (gmap Z Z).

(** ** Operations *)

(** [memcpy] to and from that memory; an unmapped address is a fault. *)
Fixpoint store_bytes (a : Z) (bytes : list Z) (m : umem) : option umem :=
  match bytes with
  | [] => Some m
  | b :: bytes => _ ← m !! a; store_bytes (a + 1) bytes (<[a := b]> m)
  end.
Fixpoint load_bytes (a : Z) (n : nat) (m : umem) : option (list Z) :=
  match n with
  | O => Some []
  | S n => b ← m !! a; l ← load_bytes (a + 1) n m; Some (b :: l)
  end.

(** The first [iovlen] entries; [size_t] arithmetic. *)
Fixpoint rt_iovec_len (iov : list iovec) : Z :=
  match iov with [] => 0 | v :: iov => u64 (iov_len v + rt_iovec_len iov) end.

(** [min_t(unsigned int, iov->iov_len, len)], as an [int]. *)
Definition copy_len (v : iovec) (len0 : Z) : Z := s32 (Z.min (u32 (iov_len v)) (u32 len0)).
Definition advance (v : iovec) (copy : Z) : iovec := mk_iovec (iov_base v + copy) (iov_len v - copy).

(** Both loops yield the array with its updated entries; going past the end of the
    array is a fault. *)
Fixpoint rt_memcpy_tokerneliovec (iov : list iovec) (kdata : list Z) (len0 : Z) (m : umem)
    : option (list iovec * umem) :=
  if len0 <=? 0 then Some (iov, m)
  else
    match iov with
    | [] => None
    | v :: iov =>
        if negb (iov_len v =? 0) then
          let copy := copy_len v len0 in
          bytes ← mem_read kdata (Z.to_nat copy);
          m ← store_bytes (iov_base v) bytes m;
          r ← rt_memcpy_tokerneliovec iov (drop (Z.to_nat copy) kdata) (len0 - copy) m;
          Some (advance v copy :: r.1, r.2)
        else
          r ← rt_memcpy_tokerneliovec iov kdata len0 m; Some (v :: r.1, r.2)
    end.

(** The result is what is written to [kdata]. *)
Fixpoint rt_memcpy_fromkerneliovec (iov : list iovec) (len0 : Z) (m : umem)
    : option (list Z * list iovec) :=
  if len0 <=? 0 then Some ([], iov)
  else
    match iov with
    | [] => None
    | v :: iov =>
        if negb (iov_len v =? 0) then
          let copy := copy_len v len0 in
          bytes ← load_bytes (iov_base v) (Z.to_nat copy) m;
          r ← rt_memcpy_fromkerneliovec iov (len0 - copy) m;
          Some (bytes ++ r.1, advance v copy :: r.2)
        else
          r ← rt_memcpy_fromkerneliovec iov len0 m; Some (r.1, v :: r.2)
    end.

(** ** Reference: the list of addresses *)

Definition range (a : Z) (n : nat) : list Z := (λ i, a + Z.of_nat i) <$> seq 0 n.
(** The addresses an array covers, in order. *)
Definition iov_addrs (iov : list iovec) : list Z :=
  concat ((λ v, range (iov_base v) (Z.to_nat (iov_len v))) <$> iov).
Definition store_all (ab : list (Z * Z)) (m : umem) : umem := foldl (λ m p, <[p.1 := p.2]> m) m ab.
Definition load_all (addrs : list Z) (m : umem) : option (list Z) := mapM (λ a, m !! a) addrs.

(** Lengths an [int] can hold, in mapped memory. *)
Definition iov_ok (iov : list iovec) (m : umem) : Prop :=
  Forall (λ v, 0 ≤ iov_len v < 2 ^ 31) iov ∧ ∀ a, a ∈ iov_addrs iov → is_Some (m !! a).

Section props.
Implicit Types (m : umem) (iov : list iovec).

Lemma range_S a n : range a (S n) = a :: range (a + 1) n.
Proof.
  unfold range. cbn [seq fmap list_fmap]. f_equal; [lia|]. rewrite <-seq_shift.
  rewrite <-list_fmap_compose. apply list_fmap_ext. intros i x _. cbn. lia.
Qed.
Lemma length_range a n : length (range a n) = n.
Proof. unfold range. by rewrite length_fmap, length_seq. Qed.
Lemma range_app a n k : range a (n + k) = range a n ++ range (a + Z.of_nat n) k.
Proof.
  revert a. induction n as [|n IH]; intros a; cbn [Nat.add].
  - unfold range at 2. cbn. f_equal. lia.
  - rewrite !range_S, IH. cbn [app]. do 3 f_equal. lia.
Qed.

Lemma store_bytes_all bytes m : ∀ a,
  (∀ i, i ∈ range a (length bytes) → is_Some (m !! i)) →
  store_bytes a bytes m = Some (store_all (zip (range a (length bytes)) bytes) m).
Proof.
  revert m. induction bytes as [|b bytes IH]; intros m a Hm; cbn [store_bytes length]; [done|].
  rewrite range_S. destruct (Hm a) as [v ->]; [cbn [length]; rewrite range_S; set_solver|]. cbn [mbind option_bind].
  rewrite IH; [done|]. intros i Hi. destruct (decide (a = i)) as [<-|]; [rewrite lookup_insert_eq; eauto|].
  rewrite lookup_insert_ne by done. apply Hm. cbn [length]. rewrite range_S. set_solver.
Qed.
Lemma load_bytes_all n m : ∀ a, load_bytes a n m = load_all (range a n) m.
Proof.
  induction n as [|n IH]; intros a; [done|]. rewrite range_S. cbn [load_bytes load_all mapM].
  unfold load_all in *. destruct (m !! a); cbn; [|done]. by rewrite IH.
Qed.
Lemma load_all_app l1 l2 m : load_all (l1 ++ l2) m = (l ← load_all l1 m; (app l) <$> load_all l2 m).
Proof.
  unfold load_all. induction l1 as [|a l1 IH]; cbn.
  - by destruct (mapM _ l2).
  - destruct (m !! a); cbn; [|done]. rewrite IH. destruct (mapM _ l1); cbn; [|done].
    by destruct (mapM _ l2).
Qed.
Lemma load_all_Some addrs m : (∀ a, a ∈ addrs → is_Some (m !! a)) →
  ∃ l, load_all addrs m = Some l ∧ length l = length addrs.
Proof.
  induction addrs as [|a addrs IH]; intros Hm; [by exists []|].
  destruct (Hm a) as [v Hv]; [set_solver|]. destruct IH as (l & El & Hl); [set_solver|].
  exists (v :: l). unfold load_all in *. cbn. rewrite Hv. cbn. rewrite El. cbn. by rewrite Hl.
Qed.
Lemma store_all_dom ab m a : is_Some (m !! a) → is_Some (store_all ab m !! a).
Proof.
  revert m. induction ab as [|[k v] ab IH]; intros m Ha; [done|]. cbn. apply IH.
  destruct (decide (k = a)) as [<-|]; [rewrite lookup_insert_eq|rewrite lookup_insert_ne]; eauto.
Qed.
Lemma store_all_ne ab m a : a ∉ ab.*1 → store_all ab m !! a = m !! a.
Proof.
  revert m. induction ab as [|[k v] ab IH]; intros m Ha; [done|]. cbn [fmap list_fmap fst] in Ha.
  change (store_all ((k, v) :: ab) m) with (store_all ab (<[k := v]> m)). rewrite IH by set_solver.
  apply lookup_insert_ne. set_solver.
Qed.
(** What was stored at distinct addresses is what is there. *)
Lemma store_load addrs bytes m :
  NoDup addrs → length addrs = length bytes → load_all addrs (store_all (zip addrs bytes) m) = Some bytes.
Proof.
  revert bytes m. induction addrs as [|a addrs IH]; intros [|b bytes] m Hn Hl; try done.
  apply NoDup_cons in Hn as [Ha Hn]. cbn in Hl. unfold load_all in *. cbn [zip zip_with mapM].
  change (store_all ((a, b) :: zip addrs bytes) m) with (store_all (zip addrs bytes) (<[a := b]> m)).
  rewrite (store_all_ne (zip addrs bytes)); [|rewrite fst_zip; [done|lia]].
  rewrite lookup_insert_eq. cbn. by rewrite IH by (done || lia).
Qed.

Lemma copy_len_min v len0 : 0 ≤ iov_len v < 2 ^ 31 → 0 ≤ len0 < 2 ^ 31 → copy_len v len0 = Z.min (iov_len v) len0.
Proof.
  intros Hv Hl. unfold copy_len. rewrite !u32_id by (unfold is_u32; lia). unfold s32.
  rewrite Z.mod_small; lia.
Qed.
Lemma iov_addrs_cons v iov : iov_addrs (v :: iov) = range (iov_base v) (Z.to_nat (iov_len v)) ++ iov_addrs iov.
Proof. done. Qed.
(** One entry split at [copy]. *)
Lemma range_split v c : 0 ≤ c ≤ iov_len v →
  range (iov_base v) (Z.to_nat (iov_len v))
  = range (iov_base v) (Z.to_nat c) ++ range (iov_base (advance v c)) (Z.to_nat (iov_len (advance v c))).
Proof.
  intros Hc. replace (Z.to_nat (iov_len v)) with (Z.to_nat c + Z.to_nat (iov_len v - c))%nat by lia.
  rewrite range_app. cbn. do 2 f_equal. lia.
Qed.
Lemma iov_ok_cons v iov m : iov_ok (v :: iov) m → 0 ≤ iov_len v < 2 ^ 31 ∧ iov_ok iov m.
Proof.
  intros [Hf Ha]. apply Forall_cons in Hf as [Hv Hf]. split; [done|]. split; [done|].
  intros a Hin. apply Ha. rewrite iov_addrs_cons. set_solver.
Qed.

Lemma tokernel_run iov : ∀ kdata len0 m,
  iov_ok iov m → 0 ≤ len0 < 2 ^ 31 → len0 ≤ Z.of_nat (length kdata) →
  let n := Z.to_nat len0 in
  if (n <=? length (iov_addrs iov))%nat then
    ∃ iov', rt_memcpy_tokerneliovec iov kdata len0 m
            = Some (iov', store_all (zip (take n (iov_addrs iov)) (take n kdata)) m) ∧
            iov_addrs iov' = drop n (iov_addrs iov) ∧ Forall (λ v, 0 ≤ iov_len v < 2 ^ 31) iov'
  else rt_memcpy_tokerneliovec iov kdata len0 m = None.
Proof.
  induction iov as [|v iov IH]; intros kdata len0 m Hok Hl Hk; cbn [rt_memcpy_tokerneliovec].
  { destruct (Z.leb_spec len0 0); [replace len0 with 0 by lia; by exists []|].
    destruct (Nat.leb_spec (Z.to_nat len0) (length (iov_addrs []))) as [Hn|]; [cbn in Hn; lia|done]. }
  destruct (Z.leb_spec len0 0).
  { replace len0 with 0 by lia. cbn. eexists. split; [done|]. split; [done|apply Hok]. }
  pose proof (iov_ok_cons _ _ _ Hok) as [Hv Hok']. rewrite iov_addrs_cons, length_app, length_range.
  destruct (Z.eqb_spec (iov_len v) 0) as [E|E]; cbn [negb].
  { specialize (IH kdata len0 m Hok' Hl Hk). cbn zeta in IH. rewrite E. cbn [Z.to_nat Nat.add range seq fmap list_fmap app].
    destruct (_ <=? _)%nat; [|by rewrite IH]. destruct IH as (iov' & -> & Ea & Hf). cbn. eexists. split; [done|].
    rewrite iov_addrs_cons, E. split; [exact Ea|]. apply Forall_cons. split; [lia|done]. }
  rewrite copy_len_min by done. set (c := Z.min (iov_len v) len0).
  unfold mem_read. destruct (Nat.leb_spec (Z.to_nat c) (length kdata)); [|lia]. cbn [mbind option_bind].
  assert (Hlc : length (take (Z.to_nat c) kdata) = Z.to_nat c) by (rewrite length_take; lia).
  rewrite store_bytes_all, Hlc; last first.
  { rewrite Hlc. intros i Hi. apply (proj2 Hok). rewrite iov_addrs_cons, (range_split v c) by lia. set_solver. }
  cbn [mbind option_bind]. set (m1 := store_all _ m).
  assert (Hok1 : iov_ok iov m1) by (split; [apply Hok'|]; intros a Ha; apply store_all_dom, Hok'; done).
  specialize (IH (drop (Z.to_nat c) kdata) (len0 - c) m1 Hok1 ltac:(lia) ltac:(rewrite length_drop; lia)). cbn zeta in IH.
  destruct (Nat.leb_spec (Z.to_nat len0) (Z.to_nat (iov_len v) + length (iov_addrs iov))) as [Hfit|Hfit].
  - destruct (Nat.leb_spec (Z.to_nat (len0 - c)) (length (iov_addrs iov))); [|lia].
    destruct IH as (iov' & -> & Ea & Hf). cbn. eexists. split_and!.
    + do 2 f_equal. unfold m1, store_all. rewrite <-foldl_app. f_equal.
      rewrite (range_split v c) by lia.
      destruct (decide (c = len0)) as [->|Hne].
      * rewrite Z.sub_diag. cbn. rewrite app_nil_r, <-app_assoc, take_app_length' by (by rewrite length_range). done.
      * assert (Ec : c = iov_len v) by lia.
        cbn [advance iov_base iov_len]. rewrite <-Ec, Z.sub_diag. cbn [Z.to_nat range seq fmap list_fmap]. rewrite app_nil_r.
        replace (Z.to_nat len0) with (Z.to_nat c + Z.to_nat (len0 - c))%nat by lia.
        rewrite take_app_add' by (by rewrite length_range).
        rewrite <-(take_take_drop kdata (Z.to_nat c) (Z.to_nat (len0 - c))).
        rewrite zip_with_app by (rewrite length_range; lia). done.
    + rewrite iov_addrs_cons, Ea, (range_split v c), <-app_assoc by lia.
      replace (Z.to_nat len0) with (Z.to_nat c + Z.to_nat (len0 - c))%nat by lia.
      rewrite <-drop_drop, (drop_app_length' (range _ _)) by (by rewrite length_range).
      destruct (decide (c = len0)) as [->|Hne]; [by rewrite Z.sub_diag|].
      assert (Ec : c = iov_len v) by lia. cbn [advance iov_base iov_len]. rewrite <-Ec, Z.sub_diag. done.
    + apply Forall_cons. split; [cbn; lia|done].
  - destruct (Nat.leb_spec (Z.to_nat (len0 - c)) (length (iov_addrs iov))); [lia|]. by rewrite IH.
Qed.
Lemma fromkernel_run iov : ∀ len0 m,
  iov_ok iov m → 0 ≤ len0 < 2 ^ 31 →
  let n := Z.to_nat len0 in
  if (n <=? length (iov_addrs iov))%nat then
    ∃ bytes iov', rt_memcpy_fromkerneliovec iov len0 m = Some (bytes, iov') ∧
      load_all (take n (iov_addrs iov)) m = Some bytes ∧ iov_addrs iov' = drop n (iov_addrs iov) ∧
      Forall (λ v, 0 ≤ iov_len v < 2 ^ 31) iov'
  else rt_memcpy_fromkerneliovec iov len0 m = None.
Proof.
  induction iov as [|v iov IH]; intros len0 m Hok Hl; cbn [rt_memcpy_fromkerneliovec].
  { destruct (Z.leb_spec len0 0); [replace len0 with 0 by lia; by exists [], []|].
    destruct (Nat.leb_spec (Z.to_nat len0) (length (iov_addrs []))) as [Hn|]; [cbn in Hn; lia|done]. }
  destruct (Z.leb_spec len0 0).
  { replace len0 with 0 by lia. eexists _, _. split; [done|]. split; [done|]. split; [done|apply Hok]. }
  pose proof (iov_ok_cons _ _ _ Hok) as [Hv Hok']. rewrite iov_addrs_cons, length_app, length_range.
  destruct (Z.eqb_spec (iov_len v) 0) as [E|E]; cbn [negb].
  { specialize (IH len0 m Hok' Hl). cbn zeta in IH. rewrite E. cbn [Z.to_nat Nat.add range seq fmap list_fmap app].
    destruct (_ <=? _)%nat; [|by rewrite IH]. destruct IH as (bytes & iov' & -> & El & Ea & Hf). cbn.
    eexists _, _. split; [done|]. split; [done|]. rewrite iov_addrs_cons, E. split; [exact Ea|].
    apply Forall_cons. split; [lia|done]. }
  rewrite copy_len_min by done. set (c := Z.min (iov_len v) len0). rewrite load_bytes_all.
  destruct (load_all_Some (range (iov_base v) (Z.to_nat c)) m) as (b1 & Eb1 & _).
  { intros a Ha. apply (proj2 Hok). rewrite iov_addrs_cons, (range_split v c) by lia. set_solver. }
  rewrite Eb1. cbn [mbind option_bind]. specialize (IH (len0 - c) m Hok' ltac:(lia)). cbn zeta in IH.
  destruct (Nat.leb_spec (Z.to_nat len0) (Z.to_nat (iov_len v) + length (iov_addrs iov))) as [Hfit|Hfit].
  - destruct (Nat.leb_spec (Z.to_nat (len0 - c)) (length (iov_addrs iov))); [|lia].
    destruct IH as (b2 & iov' & -> & El & Ea & Hf). cbn [mbind option_bind fst snd]. eexists _, _. split; [done|].
    rewrite iov_addrs_cons, Ea, (range_split v c), <-!app_assoc by lia.
    replace (Z.to_nat len0) with (Z.to_nat c + Z.to_nat (len0 - c))%nat by lia.
    rewrite take_app_add' by (by rewrite length_range).
    rewrite <-drop_drop, (drop_app_length' (range _ _)) by (by rewrite length_range).
    rewrite load_all_app, Eb1. cbn [mbind option_bind].
    destruct (decide (c = len0)) as [Ec|Hne].
    + rewrite Ec, Z.sub_diag in El |- *. cbn [Z.to_nat] in El |- *. rewrite take_0 in El |- *.
      injection El as <-. split; [done|]. split; [by rewrite drop_0|]. apply Forall_cons. split; [cbn; lia|done].
    + assert (Ec : c = iov_len v) by lia. cbn [advance iov_base iov_len]. rewrite <-Ec, Z.sub_diag.
      change (range (iov_base v + c) (Z.to_nat 0)) with (@nil Z). rewrite !app_nil_l, El. split; [done|]. split; [done|].
      apply Forall_cons. split; [cbn; lia|done].
  - destruct (Nat.leb_spec (Z.to_nat (len0 - c)) (length (iov_addrs iov))); [lia|]. by rewrite IH.
Qed.

(** Both loops advance the array alike. *)
Lemma from_to_iov iov : ∀ kdata len0 m iov1 m1 m2 bytes iov2,
  rt_memcpy_tokerneliovec iov kdata len0 m = Some (iov1, m1) →
  rt_memcpy_fromkerneliovec iov len0 m2 = Some (bytes, iov2) → iov2 = iov1.
Proof.
  induction iov as [|v iov IH]; intros kdata len0 m iov1 m1 m2 bytes iov2;
    cbn [rt_memcpy_tokerneliovec rt_memcpy_fromkerneliovec]; destruct (len0 <=? 0);
    try (by intros [= <- _] [= _ <-]); try done.
  destruct (negb (iov_len v =? 0)).
  - intros (b & _ & (m' & _ & ([i1 mm] & Ht & [= <- <-])%bind_Some)%bind_Some)%bind_Some.
    intros (b2 & _ & ([bb i2] & Hf & [= <- <-])%bind_Some)%bind_Some. cbn. f_equal. by eapply IH.
  - intros ([i1 mm] & Ht & [= <- <-])%bind_Some ([bb i2] & Hf & [= <- <-])%bind_Some. cbn. f_equal. by eapply IH.
Qed.

(** The length of the array in [size_t] is the number of addresses. *)
Lemma rt_iovec_len_addrs iov :
  Forall (λ v, 0 ≤ iov_len v < 2 ^ 31) iov → Z.of_nat (length (iov_addrs iov)) < 2 ^ 64 →
  rt_iovec_len iov = Z.of_nat (length (iov_addrs iov)).
Proof.
  induction iov as [|v iov IH]; intros Hf Hl; [done|]. apply Forall_cons in Hf as [Hv Hf].
  rewrite iov_addrs_cons, length_app, length_range in Hl |- *. cbn [rt_iovec_len].
  rewrite IH by (done || lia). unfold u64. rewrite Z.mod_small; lia.
Qed.

(** C36: the loops over an array of buffers are equivalent to copying to and from the
    list of addresses it covers.  If the length fits ([rt_iovec_len] tells) exactly
    the first [len] addresses are written with the data, or read; the updated array
    covers the remaining addresses, so that the next call continues there; and what
    was written to distinct addresses is what is read back.  If the length does not
    fit both loops run past the end of the array. *)
Theorem iovec_copy_equiv iov kdata len0 m :
  iov_ok iov m → 0 ≤ len0 < 2 ^ 31 → len0 ≤ Z.of_nat (length kdata) →
  Z.of_nat (length (iov_addrs iov)) < 2 ^ 64 →
  let n := Z.to_nat len0 in
  if len0 <=? rt_iovec_len iov then
    ∃ iov' m' bytes, rt_memcpy_tokerneliovec iov kdata len0 m = Some (iov', m') ∧
      m' = store_all (zip (take n (iov_addrs iov)) (take n kdata)) m ∧
      iov_addrs iov' = drop n (iov_addrs iov) ∧
      rt_memcpy_fromkerneliovec iov len0 m' = Some (bytes, iov') ∧
      load_all (take n (iov_addrs iov)) m' = Some bytes ∧
      (NoDup (iov_addrs iov) → bytes = take n kdata)
  else rt_memcpy_tokerneliovec iov kdata len0 m = None ∧ rt_memcpy_fromkerneliovec iov len0 m = None.
Proof.
  intros Hok Hl Hk Hbig n. rewrite rt_iovec_len_addrs by (done || apply Hok).
  pose proof (tokernel_run iov kdata len0 m Hok Hl Hk) as Hto. cbn zeta in Hto. fold n in Hto.
  set (m' := store_all (zip (take n (iov_addrs iov)) (take n kdata)) m) in *.
  assert (Hok' : iov_ok iov m') by (split; [apply Hok|]; intros a Ha; by apply store_all_dom, Hok).
  pose proof (fromkernel_run iov len0 m' Hok' Hl) as Hfrom. cbn zeta in Hfrom. fold n in Hfrom.
  pose proof (fromkernel_run iov len0 m Hok Hl) as Hfrom0. cbn zeta in Hfrom0. fold n in Hfrom0.
  destruct (Z.leb_spec len0 (Z.of_nat (length (iov_addrs iov)))) as [Hle|Hle];
    destruct (Nat.leb_spec n (length (iov_addrs iov))); try lia; [|done].
  destruct Hto as (iov' & Eto & Ea & _). destruct Hfrom as (bytes & iov2 & Efrom & El & Ea2 & _).
  assert (iov2 = iov') as ->.
  { apply (from_to_iov iov kdata len0 m iov' m' m' bytes iov2 Eto Efrom). }
  exists iov', m', bytes. split_and!; try done. intros Hnd.
  assert (Hsl : load_all (take n (iov_addrs iov)) m' = Some (take n kdata)); [|congruence].
  apply store_load; [by eapply sublist_NoDup, sublist_take|]. rewrite !length_take. lia.
Qed.
End props.
