(* ===== verification/StackMgr.v ===== *)
(** * The stack manager (stack/stack_mgr.c)

    Drivers put received packets into a FIFO ([rtnetif_rx], from their interrupt
    handlers); the stack manager task takes them out and delivers them to the handlers
    that are registered for their protocol.  The protocol handlers themselves, and the
    state of the layers above ([W]), are arguments. *)
From S2P Require Import Prelude State RtskbQueue Rtskb RtskbData RtskbFifo Rtdev.

Definition ETH_P_ALL := 3.
Definition RTPACKET_HASH_TBL_SIZE : nat := 64.
Definition RTPACKET_HASH_KEY_MASK := Z.of_nat RTPACKET_HASH_TBL_SIZE - 1.

(** Where the list entry of a packet type is linked: nowhere (not initialized, or
    deleted), to itself, into the list for all packets, into a hash bucket. *)
Inductive list_link := LINK_NONE | LINK_SELF | LINK_ALL | LINK_HASH (k : nat).
Record rtpacket_type := mk_ptype {
  list_entry : list_link;
  pt_type : Z;
  pt_refcount : Z;
}.
#[export] Instance ptype_eta : Settable rtpacket_type := λ r, mk_ptype (list_entry r) (pt_type r) (pt_refcount r).

Record mstate (W : Type) := mk_mstate {
  mkern : kstate;
  packets : gmap nat rtpacket_type;
  rt_packets : list (list nat);
  rt_packets_all : list nat;
  rx : rtskb_fifo;
  upper : W;
}.
Arguments mk_mstate {W}.
Arguments mkern {W}.
Arguments packets {W}.
Arguments rt_packets {W}.
Arguments rt_packets_all {W}.
Arguments rx {W}.
Arguments upper {W}.
#[export] Instance mstate_eta W : Settable (mstate W) := λ r,
  mk_mstate (mkern r) (packets r) (rt_packets r) (rt_packets_all r) (rx r) (upper r).

Section defs.
Context `{Config} {W : Type}.
(** [pt->handler], and the capture handler of RTcap. *)
Context (handler : nat → nat → M (mstate W) Z) (rtcap_handler : option (nat → M (mstate W) ())).

Definition in_mkern {A} : M kstate A → M (mstate W) A := zoom mkern (λ k s, s <| mkern := k |>).
Definition in_rx {A} : M rtskb_fifo A → M (mstate W) A := zoom rx (λ f s, s <| rx := f |>).
Definition pt_load (pt : nat) : M (mstate W) rtpacket_type := m ← gets packets; deref (m !! pt).
Definition pt_upd (pt : nat) (f : rtpacket_type → rtpacket_type) : M (mstate W) () :=
  P ← pt_load pt; modify (λ s, s <| packets := <[pt := f P]> (packets s) |>).

Definition pack_hash (type : Z) : nat := Z.to_nat (Z.land (ntohs type) RTPACKET_HASH_KEY_MASK).

Definition rtdev_add_pack (pt : nat) : M (mstate W) Z :=
  pt_upd pt (λ P, P <| list_entry := LINK_SELF |> <| pt_refcount := 0 |>);;
  P ← pt_load pt;
  if pt_type P =? ntohs ETH_P_ALL then
    if CONFIG_RTNET_ETH_P_ALL then
      pt_upd pt (λ P, P <| list_entry := LINK_ALL |>);;
      modify (λ s, s <| rt_packets_all := list_add_tail pt (rt_packets_all s) |>);;
      mret 0
    else mret (- EINVAL)
  else
    let k := pack_hash (pt_type P) in
    tbl ← gets rt_packets;
    l ← deref (tbl !! k);
    pt_upd pt (λ P, P <| list_entry := LINK_HASH k |>);;
    modify (λ s, s <| rt_packets := <[k := list_add_tail pt l]> (rt_packets s) |>);;
    mret 0.

(** [list_del(&pt->list_entry)] *)
Definition pt_unlink (pt : nat) : M (mstate W) () :=
  P ← pt_load pt;
  match list_entry P with
  | LINK_NONE => ub
  | LINK_SELF => mret ()
  | LINK_ALL =>
      l ← gets rt_packets_all; l' ← deref (list_del pt l);
      modify (λ s, s <| rt_packets_all := l' |>)
  | LINK_HASH k =>
      tbl ← gets rt_packets; l ← deref (tbl !! k); l' ← deref (list_del pt l);
      modify (λ s, s <| rt_packets := <[k := l']> (rt_packets s) |>)
  end;;
  pt_upd pt (λ P, P <| list_entry := LINK_NONE |>).

Definition rtdev_remove_pack (pt : option nat) : M (mstate W) Z :=
  match pt with
  | None => if assert_fails false then mret (- EINVAL) else ub
  | Some pt =>
      P ← pt_load pt;
      if 0 <? pt_refcount P then mret (- EAGAIN)
      else pt_unlink pt;; mret 0
  end.

Definition rtnetif_rx (skb : option nat) : M (mstate W) () :=
  match skb with
  | None => if assert_fails false then mret () else ub
  | Some skb =>
      x ← in_mkern (skb_load skb);
      match rtdev x with
      | None => if assert_fails false then mret () else ub
      | Some d =>
          in_mkern (rtdev_reference d);;
          ret ← in_rx (rtskb_fifo_insert_inirq skb);
          when (ret <? 0)
            (in_mkern (kfree_rtskb (Some skb));; in_mkern (rtdev_dereference d))
      end
  end.

(** The element after [pt] in the list as it is now: the lock is not held while a
    handler runs, but an entry with a reference stays linked. *)
Fixpoint after (pt : nat) (l : list nat) : option (option nat) :=
  match l with
  | [] => None
  | a :: l => if decide (a = pt) then Some (head l) else after pt l
  end.

(** One call of a handler, with a reference on its entry. *)
Definition call_handler (pt skb : nat) : M (mstate W) Z :=
  pt_upd pt (λ P, P <| pt_refcount := pt_refcount P + 1 |>);;
  err ← handler pt skb;
  pt_upd pt (λ P, P <| pt_refcount := pt_refcount P - 1 |>);;
  mret err.

(** The loop over [rt_packets_all]; the result is [eth_p_all_hit]. *)
Fixpoint deliver_all (fuel : nat) (cur : option nat) (skb : nat) (hit : bool) : M (mstate W) bool :=
  match cur with
  | None => mret hit
  | Some pt =>
      match fuel with
      | O => ub
      | S fuel =>
          call_handler pt skb;;
          l ← gets rt_packets_all;
          cur ← deref (after pt l);
          deliver_all fuel cur skb true
      end
  end.

(** The loop over a hash bucket; the result tells whether a handler took the packet. *)
Fixpoint deliver_hash (fuel : nat) (cur : option nat) (k d skb : nat) : M (mstate W) bool :=
  match cur with
  | None => mret false
  | Some pt =>
      match fuel with
      | O => ub
      | S fuel =>
          P ← pt_load pt;
          x ← in_mkern (skb_load skb);
          let next_entry :=
            tbl ← gets rt_packets;
            l ← deref (tbl !! k);
            cur ← deref (after pt l);
            deliver_hash fuel cur k d skb in
          if pt_type P =? protocol x then
            err ← call_handler pt skb;
            in_mkern (rtdev_dereference d);;
            if err =? 0 then mret true else next_entry
          else next_entry
      end
  end.

Definition rtcap_report_incoming (skb : nat) : M (mstate W) () :=
  match (if CONFIG_RTNET_ADDON_RTCAP then rtcap_handler else None) with
  | Some f => f skb
  | None => mret ()
  end.

Definition rt_stack_deliver (skb : nat) : M (mstate W) () :=
  x ← in_mkern (skb_load skb);
  d ← deref (rtdev x);
  rtcap_report_incoming skb;;
  in_mkern (skb_upd skb (λ x, x <| nh_raw := data x |>));;
  fuel ← gets (λ s, S (size (packets s)));
  when CONFIG_RTNET_ETH_P_ALL
    (l ← gets rt_packets_all; deliver_all fuel (head l) skb false;; mret ());;
  x ← in_mkern (skb_load skb);
  let k := pack_hash (protocol x) in
  tbl ← gets rt_packets;
  l ← deref (tbl !! k);
  taken ← deliver_hash fuel (head l) k d skb;
  if (taken : bool) then mret ()
  else in_mkern (kfree_rtskb (Some skb));; in_mkern (rtdev_dereference d).

(** One wake-up of the task: it empties the FIFO.  [fuel] bounds the number of
    packets it finds there. *)
Fixpoint rt_stack_mgr_round (fuel : nat) : M (mstate W) () :=
  match fuel with
  | O => ub
  | S fuel =>
      r ← in_rx __rtskb_fifo_remove;
      match r with
      | None => mret ()
      | Some skb => rt_stack_deliver skb;; rt_stack_mgr_round fuel
      end
  end.

(** [task] is the result of creating the task. *)
Definition rt_stack_mgr_init (task : Z) : M (mstate W) Z :=
  in_rx (rtskb_fifo_init CONFIG_RTNET_RX_FIFO_SIZE);;
  modify (λ s, s <| rt_packets := replicate RTPACKET_HASH_TBL_SIZE [] |>);;
  when CONFIG_RTNET_ETH_P_ALL (modify (λ s, s <| rt_packets_all := [] |>));;
  mret task.
End defs.

(** ** The table of packet types *)

Section table.
Context `{Config} {W : Type}.
Implicit Types s : mstate W.

(** Every entry of a bucket exists, is linked there once and has a type of the
    bucket. *)
Record pack_table s : Prop := {
  pk_len : length (rt_packets s) = RTPACKET_HASH_TBL_SIZE;
  pk_nodup : ∀ k l, rt_packets s !! k = Some l → NoDup l;
  pk_entry : ∀ k l pt, rt_packets s !! k = Some l → pt ∈ l →
    ∃ P, packets s !! pt = Some P ∧ list_entry P = LINK_HASH k ∧ pack_hash (pt_type P) = k;
  pk_all : NoDup (rt_packets_all s) ∧ ∀ pt, pt ∈ rt_packets_all s →
    ∃ P, packets s !! pt = Some P ∧ list_entry P = LINK_ALL;
}.

Lemma pack_hash_lt ty : (pack_hash ty < RTPACKET_HASH_TBL_SIZE)%nat.
Proof.
  unfold pack_hash. assert (0 ≤ Z.land (ntohs ty) RTPACKET_HASH_KEY_MASK ≤ RTPACKET_HASH_KEY_MASK)
    by (by apply land_nonneg_bound). unfold RTPACKET_HASH_KEY_MASK in *. lia.
Qed.

Lemma wp_in_mkern {A} (m : M kstate A) (Q : A → mstate W → Prop) s :
  wp m (λ a k, Q a (s <| mkern := k |>)) (mkern s) → wp (in_mkern m) Q s.
Proof. apply (wp_zoom mkern (λ k s, s <| mkern := k |>)). Qed.
Lemma wp_pt_load pt P (Q : rtpacket_type → mstate W → Prop) s :
  packets s !! pt = Some P → Q P s → wp (pt_load pt) Q s.
Proof. intros HP HQ. unfold pt_load. wp_run. done. Qed.
Lemma wp_pt_upd pt f P (Q : () → mstate W → Prop) s :
  packets s !! pt = Some P → Q () (s <| packets := <[pt := f P]> (packets s) |>) → wp (pt_upd pt f) Q s.
Proof. intros HP HQ. unfold pt_upd. apply wp_bind. eapply wp_pt_load; [done|]. by apply wp_modify. Qed.

Lemma after_app l1 pt l2 : pt ∉ l1 → after pt (l1 ++ pt :: l2) = Some (head l2).
Proof.
  induction l1 as [|a l1 IH]; intros Hpt; cbn; [by rewrite decide_True|].
  rewrite decide_False by set_solver. apply IH. set_solver.
Qed.

(** *** Registration and removal *)

(** All buckets, and the list for all packets, without [pt]. *)
Definition buckets_without (pt : nat) s : list (list nat) := filter (.≠ pt) <$> rt_packets s.
Definition all_without (pt : nat) s : list nat := filter (.≠ pt) (rt_packets_all s).
(** [pt] is in no list. *)
Definition unlinked (pt : nat) s : Prop := buckets_without pt s = rt_packets s ∧ all_without pt s = rt_packets_all s.
(** The list entry of [pt] tells where it is linked. *)
Definition link_ok s (pt : nat) (P : rtpacket_type) : Prop :=
  match list_entry P with
  | LINK_NONE | LINK_SELF => True
  | LINK_ALL => pt ∈ rt_packets_all s
  | LINK_HASH k => ∃ l, rt_packets s !! k = Some l ∧ pt ∈ l
  end.

Lemma filter_out (pt : nat) (l : list nat) : pt ∉ l → filter (.≠ pt) l = l.
Proof.
  induction l as [|a l IH]; intros Hpt; [done|]. rewrite filter_cons, decide_True by set_solver.
  rewrite IH by set_solver. done.
Qed.
Lemma list_del_filter (pt : nat) (l : list nat) : NoDup l → pt ∈ l → list_del pt l = Some (filter (.≠ pt) l).
Proof.
  intros Hnd (l1 & l2 & ->)%list_elem_of_split. apply NoDup_app in Hnd as (_ & Hd & [Hn _]%NoDup_cons).
  rewrite list_del_split by set_solver. rewrite filter_app, filter_cons, decide_False by tauto.
  by rewrite !filter_out by set_solver.
Qed.
Lemma bucket_without s pt k l :
  rt_packets s !! k = Some l → (∀ j l', j ≠ k → rt_packets s !! j = Some l' → pt ∉ l') →
  <[k := filter (.≠ pt) l]> (rt_packets s) = buckets_without pt s.
Proof.
  intros Hk Ho. apply list_eq. intros j. unfold buckets_without. rewrite list_lookup_fmap.
  destruct (decide (j = k)) as [->|Hne].
  - rewrite list_lookup_insert_eq by (by eapply lookup_lt_Some). by rewrite Hk.
  - rewrite list_lookup_insert_ne by done. destruct (rt_packets s !! j) as [l'|] eqn:Hj; [|done].
    cbn. by rewrite (filter_out pt l') by (by eapply Ho).
Qed.
Lemma not_linked_unlinked s pt :
  (∀ k l, rt_packets s !! k = Some l → pt ∉ l) → pt ∉ rt_packets_all s → unlinked pt s.
Proof.
  intros Hb Ha. split; [|by apply filter_out]. apply list_eq. intros j. unfold buckets_without. rewrite list_lookup_fmap.
  destruct (rt_packets s !! j) as [l'|] eqn:Hj; [|done]. cbn. by rewrite (filter_out pt l') by (by eapply Hb).
Qed.
Lemma unlinked_not s pt : unlinked pt s →
  (∀ k l, rt_packets s !! k = Some l → pt ∉ l) ∧ pt ∉ rt_packets_all s.
Proof.
  intros [Hb Ha]. split.
  - intros k l Hk Hin. rewrite <-Hb in Hk. unfold buckets_without in Hk. rewrite list_lookup_fmap in Hk.
    apply fmap_Some in Hk as (l0 & _ & ->). by apply list_elem_of_filter in Hin as [? _].
  - rewrite <-Ha. intros Hin. by apply list_elem_of_filter in Hin as [? _].
Qed.
(** An entry that says it is linked nowhere is in no list. *)
Lemma table_unlinked s pt P :
  pack_table s → packets s !! pt = Some P → list_entry P = LINK_NONE ∨ list_entry P = LINK_SELF → unlinked pt s.
Proof.
  intros [_ _ Hent [_ Hall]] HP Hl. apply not_linked_unlinked.
  - intros k l Hk Hin. destruct (Hent k l pt Hk Hin) as (P' & HP' & E & _). simplify_eq. destruct Hl; congruence.
  - intros Hin. destruct (Hall pt Hin) as (P' & HP' & E). simplify_eq. destruct Hl; congruence.
Qed.

(** The state without [pt] in the lists, its entry being [P']. *)
Definition unlinked_state (pt : nat) (P' : rtpacket_type) s : mstate W :=
  s <| packets := <[pt := P']> (packets s) |> <| rt_packets := buckets_without pt s |>
    <| rt_packets_all := all_without pt s |>.

Lemma unlinked_state_table s pt P' : pack_table s → pack_table (unlinked_state pt P' s) ∧ unlinked pt (unlinked_state pt P' s).
Proof.
  intros [Hlen Hnd Hent [Hna Hall]].
  assert (Hf : ∀ k l, buckets_without pt s !! k = Some l → ∃ l0, rt_packets s !! k = Some l0 ∧ l = filter (.≠ pt) l0).
  { intros k l. unfold buckets_without. rewrite list_lookup_fmap. by intros (l0 & ? & ->)%fmap_Some; exists l0. }
  split; [split; cbn|].
  - unfold buckets_without. by rewrite length_fmap.
  - intros k l (l0 & Hk & ->)%Hf. by eapply NoDup_filter, Hnd.
  - intros k l p (l0 & Hk & ->)%Hf [Hne Hin]%list_elem_of_filter. rewrite lookup_insert_ne by done. by eapply Hent.
  - split; [by apply NoDup_filter|]. intros p [Hne Hin]%list_elem_of_filter. rewrite lookup_insert_ne by done. auto.
  - apply not_linked_unlinked; cbn.
    + intros k l (l0 & Hk & ->)%Hf [Hne _]%list_elem_of_filter. done.
    + intros [Hne _]%list_elem_of_filter. done.
Qed.

Lemma pt_unlink_run s pt P :
  pack_table s → packets s !! pt = Some P → link_ok s pt P → list_entry P ≠ LINK_NONE →
  wp (pt_unlink pt) (λ _ s', s' = unlinked_state pt (P <| list_entry := LINK_NONE |>) s) s.
Proof.
  intros Ht HP Hl Hne. pose proof Ht as [Hlen Hnd Hent [Hna Hall]]. unfold pt_unlink.
  apply wp_bind. eapply wp_pt_load; [done|]. apply wp_bind. unfold unlinked_state.
  destruct (list_entry P) as [| | |k] eqn:El; [done|..]; unfold link_ok in Hl; rewrite El in Hl.
  - apply wp_ret. eapply wp_pt_upd; [done|].
    destruct (table_unlinked s pt P Ht HP ltac:(by right)) as [Eb Ea]. rewrite Eb, Ea. by destruct s.
  - apply wp_bind, wp_gets. apply wp_bind. eapply wp_deref; [by apply list_del_filter|]. apply wp_modify.
    eapply wp_pt_upd; [done|]. unfold upd. cbn. f_equal.
    assert (E : unlinked pt (s <| rt_packets_all := [] |>)).
    { apply not_linked_unlinked; cbn; [|set_solver]. intros k l Hk Hin.
      destruct (Hent k l pt Hk Hin) as (P' & HP' & E & _). simplify_eq. congruence. }
    destruct E as [E _]. symmetry. exact E.
  - destruct Hl as (l & Hk & Hin). apply wp_bind, wp_gets. apply wp_bind. eapply wp_deref; [done|].
    apply wp_bind. eapply wp_deref; [apply list_del_filter; [by eapply Hnd|done]|]. apply wp_modify.
    eapply wp_pt_upd; [done|]. cbn.
    assert (Hna' : pt ∉ rt_packets_all s).
    { intros Hin'. destruct (Hall pt Hin') as (P' & HP' & E). simplify_eq. congruence. }
    rewrite <-(bucket_without s pt k l Hk).
    + unfold all_without. rewrite (filter_out pt (rt_packets_all s)) by done. by destruct s.
    + intros j l' Hj Hl' Hin'. destruct (Hent j l' pt Hl' Hin') as (P' & HP' & E & _). simplify_eq. congruence.
Qed.

(** [rtdev_remove_pack] refuses while the handler of the entry runs, and otherwise takes
    it out of its list. *)
Lemma remove_pack_run s pt P :
  pack_table s → packets s !! pt = Some P → link_ok s pt P → list_entry P ≠ LINK_NONE →
  wp (rtdev_remove_pack (Some pt))
     (λ ret s', if 0 <? pt_refcount P then ret = - EAGAIN ∧ s' = s
                else ret = 0 ∧ s' = unlinked_state pt (P <| list_entry := LINK_NONE |>) s) s.
Proof.
  intros Ht HP Hl Hne. unfold rtdev_remove_pack. apply wp_bind. eapply wp_pt_load; [done|].
  destruct (0 <? pt_refcount P); [by apply wp_ret|]. apply wp_bind.
  eapply wp_mono; [|by eapply pt_unlink_run]. intros [] s' ->. by apply wp_ret.
Qed.

(** The state after the registration of [pt] with type [ty]. *)
Definition linked_state (pt : nat) (ty : Z) s : mstate W :=
  if ty =? ntohs ETH_P_ALL then
    if CONFIG_RTNET_ETH_P_ALL then
      s <| packets := <[pt := mk_ptype LINK_ALL ty 0]> (packets s) |> <| rt_packets_all := rt_packets_all s ++ [pt] |>
    else s <| packets := <[pt := mk_ptype LINK_SELF ty 0]> (packets s) |>
  else
    s <| packets := <[pt := mk_ptype (LINK_HASH (pack_hash ty)) ty 0]> (packets s) |>
      <| rt_packets := alter (.++ [pt]) (pack_hash ty) (rt_packets s) |>.

(** [rtdev_add_pack] puts an entry at the end of the list of its type. *)
Lemma add_pack_run s pt P :
  pack_table s → packets s !! pt = Some P →
  wp (rtdev_add_pack pt)
     (λ ret s', ret = (if (pt_type P =? ntohs ETH_P_ALL) && negb CONFIG_RTNET_ETH_P_ALL then - EINVAL else 0) ∧
        s' = linked_state pt (pt_type P) s) s.
Proof.
  intros [Hlen _ _ _] HP. unfold rtdev_add_pack, linked_state. apply wp_bind. eapply wp_pt_upd; [done|].
  apply wp_bind. eapply wp_pt_load; [apply lookup_insert_eq|]. cbn [pt_type upd].
  destruct (pt_type P =? ntohs ETH_P_ALL); cbn [andb].
  - destruct CONFIG_RTNET_ETH_P_ALL; [|by apply wp_ret]. apply wp_bind. eapply wp_pt_upd; [apply lookup_insert_eq|].
    apply wp_bind, wp_modify, wp_ret. split; [done|]. unfold upd, list_add_tail. cbn. by rewrite insert_insert_eq.
  - destruct (lookup_lt_is_Some_2 (rt_packets s) (pack_hash (pt_type P))) as [l Hl].
    { rewrite Hlen. apply pack_hash_lt. }
    apply wp_bind, wp_gets. apply wp_bind. eapply wp_deref; [exact Hl|]. apply wp_bind.
    eapply wp_pt_upd; [apply lookup_insert_eq|]. apply wp_bind, wp_modify, wp_ret. split; [done|].
    unfold upd, list_add_tail. cbn. rewrite insert_insert_eq. f_equal. apply list_eq. intros j.
    destruct (decide (j = pack_hash (pt_type P))) as [->|Hne].
    + rewrite list_lookup_insert_eq by (by eapply lookup_lt_Some). by rewrite list_lookup_alter_eq, Hl.
    + by rewrite list_lookup_insert_ne, list_lookup_alter_ne by done.
Qed.

Lemma alter_Some_inv {A} (f : A → A) i j (l : list A) x :
  alter f i l !! j = Some x → ∃ y, l !! j = Some y ∧ x = if decide (i = j) then f y else y.
Proof.
  destruct (decide (i = j)) as [->|Hne].
  - rewrite list_lookup_alter_eq. intros (y & Hy & ->)%fmap_Some. eauto.
  - rewrite list_lookup_alter_ne by done. eauto.
Qed.
(** Registration keeps the table. *)
Lemma linked_state_table s pt ty : pack_table s → unlinked pt s → pack_table (linked_state pt ty s) ∧
  ∃ P, packets (linked_state pt ty s) !! pt = Some P ∧ pt_type P = ty ∧ pt_refcount P = 0 ∧ list_entry P ≠ LINK_NONE ∧
    link_ok (linked_state pt ty s) pt P.
Proof.
  intros [Hlen Hnd Hent [Hna Hall]] [Hub Hua]%unlinked_not. unfold linked_state.
  assert (Hne : ∀ k l p, rt_packets s !! k = Some l → p ∈ l → p ≠ pt) by (intros k l p Hk Hin ->; by eapply Hub).
  assert (Hne' : ∀ p, p ∈ rt_packets_all s → p ≠ pt) by (by intros p Hin ->).
  destruct (ty =? ntohs ETH_P_ALL); [destruct CONFIG_RTNET_ETH_P_ALL|].
  - split; [split; cbn; [done|done|..]|].
    + intros k l p Hk Hin. rewrite lookup_insert_ne by (apply not_eq_sym; eauto). eauto.
    + split; [apply NoDup_app; split_and!; [done|set_solver|apply NoDup_singleton]|].
      intros p [Hin| ->%list_elem_of_singleton]%elem_of_app; [|exists (mk_ptype LINK_ALL ty 0); by rewrite lookup_insert_eq].
      rewrite lookup_insert_ne by (apply not_eq_sym; auto). auto.
    + eexists. split; [apply lookup_insert_eq|]. split_and!; [done..|]. unfold link_ok. cbn. set_solver.
  - split; [split; cbn; [done|done|..]|].
    + intros k l p Hk Hin. rewrite lookup_insert_ne by (apply not_eq_sym; eauto). eauto.
    + split; [done|]. intros p Hin. rewrite lookup_insert_ne by (apply not_eq_sym; auto). auto.
    + eexists. split; [apply lookup_insert_eq|]. by split_and!.
  - split; [split; cbn|].
    + by rewrite length_alter.
    + intros k l (l0 & Hk & ->)%alter_Some_inv. case_decide; [|by eapply Hnd].
      apply NoDup_app. split_and!; [by eapply Hnd|set_solver|apply NoDup_singleton].
    + intros k l p (l0 & Hk & ->)%alter_Some_inv Hin. destruct (decide (p = pt)) as [->|Hpn].
      * rewrite lookup_insert_eq. eexists. split; [done|]. cbn. case_decide as Ek; [by subst|]. by destruct (Hub _ _ Hk).
      * rewrite lookup_insert_ne by done. eapply Hent; [exact Hk|]. case_decide; set_solver.
    + split; [done|]. intros p Hin. rewrite lookup_insert_ne by (apply not_eq_sym; auto). auto.
    + eexists. split; [apply lookup_insert_eq|]. split_and!; [done..|].
      destruct (lookup_lt_is_Some_2 (rt_packets s) (pack_hash ty)) as [l Hl].
      { rewrite Hlen. apply pack_hash_lt. }
      exists (l ++ [pt]). split; [cbn; by rewrite list_lookup_alter_eq, Hl|set_solver].
Qed.
End table.

(** ** Delivery *)

Section deliver.
Context `{Config} {W : Type} (handler : nat → nat → M (mstate W) Z) (J : W → Prop).
(** The packet [skb] of pool [q], received on device [d], with its protocol. *)
Context (skb q d : nat) (proto : Z).
Implicit Types s : mstate W.

(** The packet belongs to the stack manager: a single buffer that is in no pool. *)
Definition mine s : Prop :=
  ∃ C l x, pools_inv (mkern s) C ∧ C !! q = Some l ∧ skbs (mkern s) !! skb = Some x ∧
    chain_end x = Some skb ∧ protocol x = proto ∧ rtdev x = Some d ∧ releasable (mkern s) C q [skb] ∧ J (upper s).
(** It has been taken over. *)
Definition given s : Prop := (∃ C, pools_inv (mkern s) C) ∧ J (upper s).
(** It is the last free buffer of its pool. *)
Definition dropped s : Prop :=
  (∃ C l, pools_inv (mkern s) (<[q := l ++ [skb]]> C)) ∧ J (upper s).

Definition tables s := (packets s, rt_packets s, rt_packets_all s).
Definition refs s : option Z := refcount <$> devs (mkern s) !! d.

(** What a handler promises: it keeps the table and the references of the device, and
    either takes the packet and returns 0, or returns an error and leaves it alone.
    [accepts] tells which handlers take it. *)
Definition handler_spec (accepts : nat → bool) (pt : nat) : Prop :=
  ∀ s, mine s → wp (handler pt skb) (λ err s', tables s' = tables s ∧ refs s' = refs s ∧
    (err =? 0) = accepts pt ∧ if accepts pt then given s' else mine s') s.
(** A handler of all packets only looks at it. *)
Definition all_handler_spec (pt : nat) : Prop :=
  ∀ s, mine s → wp (handler pt skb) (λ _ s', tables s' = tables s ∧ refs s' = refs s ∧ mine s') s.

(** A device reference and the fields of packet types matter to neither. *)
Lemma mine_frame s s' :
  queues (mkern s') = queues (mkern s) → skbs (mkern s') = skbs (mkern s) → upper s' = upper s → mine s → mine s'.
Proof.
  intros EQ ES EU (C & l & x & Hinv & HC & Hx & Hce & Hpr & Hd & Hrel & HJ).
  exists C, l, x. rewrite ES, EU. split_and!; [|done..|by unfold releasable; rewrite ES|done].
  eapply pools_inv_frame; [done|..]; rewrite ?EQ, ?ES; [|done].
  intros q' l' Hl'. destruct (pi_queue _ _ Hinv _ _ Hl') as (Q & HQ & _). by exists Q, Q.
Qed.
Lemma given_frame s s' :
  queues (mkern s') = queues (mkern s) → skbs (mkern s') = skbs (mkern s) → upper s' = upper s → given s → given s'.
Proof.
  intros EQ ES EU ((C & Hinv) & HJ). split; [|by rewrite EU]. exists C.
  eapply pools_inv_frame; [done|..]; rewrite ?EQ, ?ES; [|done].
  intros q' l' Hl'. destruct (pi_queue _ _ Hinv _ _ Hl') as (Q & HQ & _). by exists Q, Q.
Qed.

Lemma call_handler_run (R : Z → mstate W → Prop) pt s P :
  packets s !! pt = Some P → mine s →
  (∀ s, mine s → wp (handler pt skb) (λ err s', tables s' = tables s ∧ refs s' = refs s ∧ R err s') s) →
  (∀ err s pk, R err s → R err (s <| packets := pk |>)) →
  wp (call_handler handler pt skb) (λ err s', tables s' = tables s ∧ refs s' = refs s ∧ R err s') s.
Proof.
  intros HP Hm Hh HR. unfold call_handler. apply wp_bind. eapply wp_pt_upd; [done|]. apply wp_bind.
  eapply wp_mono; [|apply Hh; by eapply mine_frame, Hm]. intros err s' (Ht & Hr & HR').
  injection Ht as Hpk Hp1 Hp2. apply wp_bind. eapply wp_pt_upd; [rewrite Hpk; apply lookup_insert_eq|].
  apply wp_ret. split_and!; [|done|by apply HR]. unfold tables. cbn.
  rewrite Hpk, Hp1, Hp2, insert_insert_eq, insert_id; [done|]. rewrite HP. destruct P as [a b c].
  cbn. by replace (c + 1 - 1) with c by lia.
Qed.

Lemma wp_dereference (s : mstate W) n (Q : () → mstate W → Prop) :
  refs s = Some n →
  (∀ s', tables s' = tables s → refs s' = Some (n - 1) → queues (mkern s') = queues (mkern s) →
     skbs (mkern s') = skbs (mkern s) → upper s' = upper s → Q () s') →
  wp (in_mkern (rtdev_dereference d)) Q s.
Proof.
  unfold refs. intros (D & HD & Hr)%fmap_Some HQ. apply wp_in_mkern. unfold rtdev_dereference. kstep.
  apply HQ; try done. cbn. by rewrite lookup_insert_eq, Hr.
Qed.

(** The handlers of all packets. *)
Lemma deliver_all_run fuel l1 l2 hit s :
  rt_packets_all s = l1 ++ l2 → NoDup (l1 ++ l2) → (length l2 ≤ fuel)%nat → mine s →
  (∀ pt, pt ∈ l2 → is_Some (packets s !! pt) ∧ all_handler_spec pt) →
  wp (deliver_all handler fuel (head l2) skb hit)
     (λ _ s', tables s' = tables s ∧ refs s' = refs s ∧ mine s') s.
Proof.
  revert l1 l2 hit s. induction fuel as [|fuel IH]; intros l1 [|pt l2] hit s Hl Hnd Hlen Hm Hpt;
    cbn [deliver_all head]; try done; [cbn in Hlen; lia|].
  destruct (Hpt pt) as [[P HP] Hh]; [set_solver|]. apply wp_bind.
  eapply wp_mono; [|eapply (call_handler_run (λ _, mine)); [done..|intros ???; by apply mine_frame]].
  intros _ s1 (Ht & Hr & Hm1). injection Ht as Hp1 Hp2 Hp3.
  apply wp_bind, wp_gets. apply wp_bind. eapply wp_deref.
  { rewrite Hp3, Hl. apply after_app. apply NoDup_app in Hnd. set_solver. }
  eapply wp_mono; [|apply (IH (l1 ++ [pt]) l2); rewrite <-?app_assoc, ?Hp3, ?Hp1; try done].
  - unfold tables. intros _ s2 (Ht2 & Hr2 & ?). split_and!; [|congruence|done]. congruence.
  - cbn in Hlen. lia.
  - intros pt' Hin. apply Hpt. set_solver.
Qed.

(** The handlers of a bucket that are called: the ones of the protocol, up to the
    first one that takes the packet. *)
Fixpoint called (accepts : nat → bool) (l : list nat) : list nat :=
  match l with
  | [] => []
  | pt :: l => pt :: if accepts pt then [] else called accepts l
  end.
Definition handles s (pt : nat) : bool :=
  match packets s !! pt with Some P => pt_type P =? proto | None => false end.

Lemma deliver_hash_run accepts fuel k l1 l2 s n :
  rt_packets s !! k = Some (l1 ++ l2) → NoDup (l1 ++ l2) → (length l2 ≤ fuel)%nat → mine s → refs s = Some n →
  (∀ pt, pt ∈ l2 → is_Some (packets s !! pt)) → (∀ pt, pt ∈ l2 → handles s pt = true → handler_spec accepts pt) →
  let hs := filter (λ pt, Is_true (handles s pt)) l2 in
  wp (deliver_hash handler fuel (head l2) k d skb)
     (λ taken s', tables s' = tables s ∧ refs s' = Some (n - Z.of_nat (length (called accepts hs))) ∧
        taken = existsb accepts hs ∧ if taken then given s' else mine s') s.
Proof.
  revert l1 l2 s n. induction fuel as [|fuel IH]; intros l1 [|pt l2] s n Hl Hnd Hlen Hm Hr Hpt Hh hs; subst hs;
    cbn [deliver_hash head]; try (cbn in Hlen; lia); try (split_and!; [done| |done..]; cbn; by rewrite Z.sub_0_r).
  destruct (Hpt pt) as [P HP]; [set_solver|]. pose proof Hm as (C & l & x & _ & _ & Hx & _ & Hpr & _).
  assert (Hnext : ∀ s1 m, tables s1 = tables s → refs s1 = Some m → mine s1 →
    wp (tbl ← gets rt_packets; l ← deref (tbl !! k); cur ← deref (after pt l); deliver_hash handler fuel cur k d skb)
      (λ taken s', tables s' = tables s ∧
        refs s' = Some (m - Z.of_nat (length (called accepts (filter (λ pt, Is_true (handles s pt)) l2)))) ∧
        taken = existsb accepts (filter (λ pt, Is_true (handles s pt)) l2) ∧ if taken then given s' else mine s') s1).
  { intros s1 m Ht Hr1 Hm1. injection Ht as Hp1 Hp2 Hp3. apply wp_bind, wp_gets. apply wp_bind.
    rewrite Hp2. eapply wp_deref; [done|]. apply wp_bind.
    eapply wp_deref; [apply after_app; apply NoDup_app in Hnd; set_solver|].
    assert (Ehs : ∀ p, handles s1 p = handles s p) by (intros p; unfold handles; by rewrite Hp1).
    specialize (IH (l1 ++ [pt]) l2 s1 m). rewrite <-app_assoc, Hp1, Hp2 in IH. cbn in Hlen.
    eapply wp_mono; [|apply IH; [done|done|lia|done|done|set_solver|]].
    - unfold tables. intros t s2 (Ht2 & Hr2 & Htk & Hb). rewrite Ht2, Hp1, Hp2, Hp3.
      rewrite (list_filter_iff _ (λ p, Is_true (handles s p)) l2) in Hr2, Htk by (intros p; by rewrite Ehs). done.
    - intros p Hp Hhp. apply Hh; [set_solver|]. by rewrite <-Ehs. }
  apply wp_bind. eapply wp_pt_load; [done|]. apply wp_bind, wp_in_mkern. eapply wp_skb_load; [done|].
  replace (s <| mkern := mkern s |>) with s by (by destruct s).
  assert (Ehp : handles s pt = (pt_type P =? proto)) by (unfold handles; by rewrite HP).
  rewrite Hpr, filter_cons, Ehp. destruct (pt_type P =? proto) eqn:Ety; [|by apply Hnext].
  rewrite decide_True by done. cbn [called existsb length].
  apply wp_bind. eapply wp_mono; [|eapply (call_handler_run (λ err s, (err =? 0) = accepts pt ∧
    if accepts pt then given s else mine s)); [done|done|apply Hh; set_solver|]].
  2: { intros err s1 pk [He Hb]. split; [done|]. destruct (accepts pt); [by eapply given_frame, Hb|by eapply mine_frame, Hb]. }
  intros err s1 (Ht1 & Hr1 & He & Hb). apply wp_bind. eapply wp_dereference; [by rewrite Hr1|].
  intros s2 Ht2 Hr2 EQ ES EU. rewrite He. destruct (accepts pt).
  - apply wp_ret. cbn. split_and!; [congruence|done|done|by eapply given_frame, Hb].
  - eapply wp_mono; [|apply (Hnext s2 (n - 1)); [congruence|done|by eapply mine_frame, Hb]].
    intros taken s3 (Ht3 & Hr3 & Htk & Hb3). split_and!; [done| |done|done]. rewrite Hr3. f_equal. cbn [length]. lia.
Qed.

(** How many handlers refuse the packet before one takes it. *)
Fixpoint refused (accepts : nat → bool) (l : list nat) : nat :=
  match l with
  | [] => 0
  | pt :: l => if accepts pt then 0 else S (refused accepts l)
  end.
Lemma called_refused accepts l :
  length (called accepts l) = (refused accepts l + if existsb accepts l then 1 else 0)%nat.
Proof. induction l as [|pt l IH]; [done|]. cbn. destruct (accepts pt); [done|]. cbn. rewrite IH. lia. Qed.

Lemma drop_packet s n :
  mine s → refs s = Some n →
  wp (in_mkern (kfree_rtskb (Some skb));; in_mkern (rtdev_dereference d))
     (λ _ s', tables s' = tables s ∧ refs s' = Some (n - 1) ∧ dropped s') s.
Proof.
  intros (C & l & x & Hinv & HC & Hx & Hce & _ & _ & Hrel & HJ) Hr. apply wp_bind, wp_in_mkern.
  eapply wp_mono; [|eapply kfree_rtskb_run; [done..|by eapply is_chain_single|done]].
  intros _ k (Hinv' & _ & Hw & _). eapply wp_dereference.
  { unfold refs. cbn. rewrite Hw. exact Hr. }
  intros s' Ht Hr' EQ ES EU. split_and!; [by rewrite Ht|done|]. split; [|by rewrite EU]. exists C, l.
  eapply pools_inv_frame; [exact Hinv'|..]; rewrite ?EQ, ?ES; [|done].
  intros q' l' Hl'. destruct (pi_queue _ _ Hinv' _ _ Hl') as (Q & HQ & _). by exists Q, Q.
Qed.

(** The part of [rt_stack_deliver] for the handlers of all packets. *)
Lemma all_phase s :
  pack_table s → (∀ pt, pt ∈ rt_packets_all s → all_handler_spec pt) → mine s →
  wp (when CONFIG_RTNET_ETH_P_ALL
        (l ← gets rt_packets_all; deliver_all handler (S (size (packets s))) (head l) skb false;; mret ()))
     (λ _ s', tables s' = tables s ∧ refs s' = refs s ∧ mine s') s.
Proof.
  intros [_ _ _ [Hna Hall]] Hha Hm. destruct CONFIG_RTNET_ETH_P_ALL; [|by apply wp_ret].
  cbn [when]. apply wp_bind, wp_gets, wp_bind.
  assert (Hex : ∀ pt, pt ∈ rt_packets_all s → is_Some (packets s !! pt)).
  { intros pt Hpt. destruct (Hall pt Hpt) as (P & HP & _). eauto. }
  eapply wp_mono; [|apply (deliver_all_run _ [] (rt_packets_all s)); auto].
  { intros b s2 Hs2. by apply wp_ret. }
  apply Nat.le_le_succ_r. by apply NoDup_length_size.
Qed.

(** [rt_stack_deliver] hands a received packet to the registered handlers of its
    protocol in the order of their registration, until one takes it; if none does, the
    packet goes back to its pool.  The table and its reference counts are as before, and
    the loops end.  The reference of the packet to its device is dropped, but for every
    handler that refuses the packet the device loses one reference more. *)
Theorem rt_stack_deliver_correct accepts s n bucket :
  pack_table s → mine s → refs s = Some n → rt_packets s !! pack_hash proto = Some bucket →
  (∀ pt, pt ∈ rt_packets_all s → all_handler_spec pt) →
  (∀ pt, pt ∈ bucket → handles s pt = true → handler_spec accepts pt) →
  let hs := filter (λ pt, Is_true (handles s pt)) bucket in
  wp (rt_stack_deliver handler None skb)
     (λ _ s', tables s' = tables s ∧ refs s' = Some (n - 1 - Z.of_nat (refused accepts hs)) ∧
        if existsb accepts hs then given s' else dropped s') s.
Proof.
  intros [Hlen Hnd Hent [Hna Hall]] Hm Hr Hb Hha Hh hs. unfold rt_stack_deliver, rtcap_report_incoming.
  destruct Hm as (C & l & x & Hinv & HC & Hx & Hce & Hpr & Hd & Hrel & HJ).
  apply wp_bind, wp_in_mkern. eapply wp_skb_load; [done|]. apply wp_bind. eapply wp_deref; [done|].
  replace (s <| mkern := mkern s |>) with s by (by destruct s).
  assert (∀ Q : () → mstate W → Prop, Q () s →
    wp (match (if CONFIG_RTNET_ADDON_RTCAP then @None (nat → M (mstate W) ()) else None) with
        | Some f => f skb | None => mret () end) Q s) as Hcap by (by destruct CONFIG_RTNET_ADDON_RTCAP).
  apply wp_bind, Hcap. destruct (Hrel skb) as [Huse Hpx]; [set_solver|].
  apply wp_bind, wp_in_mkern. eapply wp_use; [done..|]. intros k Hinv' Ek Hw.
  set (s1 := s <| mkern := k |>).
  assert (Hm1 : mine s1).
  { exists C, l, (x <| nh_raw := data x |>). cbn. rewrite Ek, lookup_insert_eq. split_and!; try done.
    intros a ->%list_elem_of_singleton. split; [done|]. intros y. rewrite Ek, lookup_insert_eq.
    intros [= <-]. apply (Hpx x Hx). }
  assert (Hr1 : refs s1 = Some n) by (unfold refs; cbn; by rewrite Hw).
  assert (Ht1 : tables s1 = tables s) by done.
  assert (Hpt1 : pack_table s1).
  { by split. }
  clearbody s1. apply wp_bind, wp_gets. injection Ht1 as Hp1 Hp2 Hp3. apply wp_bind.
  eapply wp_mono; [|apply all_phase; [done|by rewrite Hp3|done]].
  unfold tables. rewrite Hp1, Hp2, Hp3, Hr1.
  intros [] s2 (Ht2 & Hr2 & Hm2). injection Ht2 as Hq1 Hq2 Hq3.
  pose proof Hm2 as (C2 & l2 & x2 & _ & _ & Hx2 & _ & Hpr2 & _).
  apply wp_bind, wp_in_mkern. eapply wp_skb_load; [done|].
  replace (s2 <| mkern := mkern s2 |>) with s2 by (by destruct s2). rewrite Hpr2.
  apply wp_bind, wp_gets. apply wp_bind. eapply wp_deref; [by rewrite Hq2|].
  assert (Hbex : ∀ pt, pt ∈ bucket → is_Some (packets s !! pt)).
  { intros pt Hpt. destruct (Hent _ _ pt Hb Hpt) as (P & HP & _). eauto. }
  assert (Ehs : ∀ p, handles s2 p = handles s p) by (intros p; unfold handles; by rewrite Hq1).
  assert (length bucket ≤ S (size (packets s)))%nat.
  { apply Nat.le_le_succ_r. apply NoDup_length_size; eauto. }
  apply wp_bind. eapply wp_mono;
    [|apply (deliver_hash_run accepts _ (pack_hash proto) [] bucket s2 n); rewrite ?Hq2, ?Hq1, ?Hp1; eauto].
  rewrite (list_filter_iff _ (λ p, Is_true (handles s p)) bucket) by (intros p; by rewrite Ehs). fold hs.
  rewrite called_refused. intros taken s3 (Ht3 & Hr3 & Htk & Hb3). rewrite <-Htk in *.
  unfold tables in Ht3. rewrite Hq1, Hq2, Hq3 in Ht3. destruct taken.
  - apply wp_ret. split_and!; [done| |done]. rewrite Hr3. f_equal. lia.
  - eapply wp_mono; [|by apply drop_packet]. intros _ s4 (Ht4 & Hr4 & Hdr). split_and!; [|rewrite Hr4; f_equal; lia|done].
    unfold tables in Ht4. by rewrite Ht4.
Qed.
End deliver.
