(* ===== verification/Route.v ===== *)
(** * IPv4 routing (stack/ipv4/route.c)

    Host routes and network routes: two static arrays of nodes, each node either
    in a free list or in the chain of a hash bucket.  The nodes are kept in a map
    from array index to contents; chains and free lists are linked through the
    [next] fields as in the code. *)
From S2P Require Import Prelude State Rtdev.

Definition INADDR_ANY : Z := 0.

Record dest_route := mk_dest {
  ip : Z;
  dest_addr : list Z;
  dest_rtdev : option nat;
}.
#[export] Instance dest_eta : Settable dest_route := λ r,
  mk_dest (ip r) (dest_addr r) (dest_rtdev r).

Record host_route := mk_host { hnext : option nat; dest_host : dest_route }.
#[export] Instance host_eta : Settable host_route := λ r, mk_host (hnext r) (dest_host r).

Record net_route := mk_net {
  nnext : option nat;
  dest_net_ip : Z;
  dest_net_mask : Z;
  gw_ip : Z;
}.
#[export] Instance net_eta : Settable net_route := λ r,
  mk_net (nnext r) (dest_net_ip r) (dest_net_mask r) (gw_ip r).

(** The static variables of the module, and the rest of the stack. *)
Record rstate := mk_rstate {
  kern : kstate;
  host_routes : gmap nat host_route;
  free_host_route : option nat;
  allocated_host_routes : Z;
  host_hash_tbl : list (option nat);
  net_routes : gmap nat net_route;
  free_net_route : option nat;
  allocated_net_routes : Z;
  net_hash_tbl : list (option nat);
  net_hash_key_shift : Z;
}.
#[export] Instance rstate_eta : Settable rstate := λ r,
  mk_rstate (kern r) (host_routes r) (free_host_route r) (allocated_host_routes r)
    (host_hash_tbl r) (net_routes r) (free_net_route r) (allocated_net_routes r)
    (net_hash_tbl r) (net_hash_key_shift r).

Definition in_kern {A} : M kstate A → M rstate A := zoom kern (λ k s, s <| kern := k |>).

Section defs.
Context `{Config}.

Definition tbl_size (routes : nat) : nat :=
  if (routes <? 256)%nat then 64 else routes / 256 * 64.
Definition HOST_HASH_TBL_SIZE : nat := tbl_size CONFIG_RTNET_RTIPV4_HOST_ROUTES.
Definition HOST_HASH_KEY_MASK : Z := Z.of_nat HOST_HASH_TBL_SIZE - 1.
Definition NET_HASH_TBL_SIZE : nat := tbl_size CONFIG_RTNET_RTIPV4_NET_ROUTES.
Definition NET_HASH_KEY_MASK : Z := Z.of_nat NET_HASH_TBL_SIZE - 1.

Definition hr_load (a : nat) : M rstate host_route := h ← gets host_routes; deref (h !! a).
Definition hr_upd (a : nat) (f : host_route → host_route) : M rstate () :=
  x ← hr_load a; modify (λ s, s <| host_routes := <[a := f x]> (host_routes s) |>).
Definition nr_load (a : nat) : M rstate net_route := h ← gets net_routes; deref (h !! a).
Definition nr_upd (a : nat) (f : net_route → net_route) : M rstate () :=
  x ← nr_load a; modify (λ s, s <| net_routes := <[a := f x]> (net_routes s) |>).

Definition host_key (addr : Z) : nat := Z.to_nat (Z.land (ntohl addr) HOST_HASH_KEY_MASK).

(** *** Host routes *)

Definition rt_alloc_host_route : M rstate (option nat) :=
  rt ← gets free_host_route;
  match rt with
  | None => mret None
  | Some a =>
      x ← hr_load a;
      modify (λ s, s <| free_host_route := hnext x |>
                     <| allocated_host_routes := allocated_host_routes s + 1 |>);;
      mret (Some a)
  end.

Definition rt_free_host_route (a : nat) : M rstate () :=
  f ← gets free_host_route;
  hr_upd a (λ x, x <| hnext := f |>);;
  modify (λ s, s <| free_host_route := Some a |>
                 <| allocated_host_routes := allocated_host_routes s - 1 |>).

(** [rt->dest_host.rtdev->local_ip]. *)
Definition route_local_ip (ds : gmap nat rtnet_device) (x : host_route) : option Z :=
  d ← dest_rtdev (dest_host x); D ← ds !! d; Some (local_ip D).
(** [rt->dest_host.ip == addr && rt->dest_host.rtdev->local_ip == lip] *)
Definition host_match (ds : gmap nat rtnet_device) (addr lip : Z) (a : nat) (x : host_route)
    : option bool :=
  if ip (dest_host x) =? addr then l ← route_local_ip ds x; Some (l =? lip) else Some false.
(** [rt->dest_host.ip == addr && (!rtdev || ... == rtdev->local_ip)] *)
Definition host_match_opt (ds : gmap nat rtnet_device) (addr : Z) (lip : option Z) (a : nat)
    (x : host_route) : option bool :=
  match lip with
  | None => Some (ip (dest_host x) =? addr)
  | Some lip => host_match ds addr lip a x
  end.

(** The search loops over the chain of bucket [key]. *)
Definition host_search (f : nat → host_route → option bool) (key : nat)
    : M rstate (option (option nat * nat)) :=
  tbl ← gets host_hash_tbl;
  p ← deref (tbl !! key);
  h ← gets host_routes;
  deref (search hnext f h (size h) None p).

(** [*last_ptr = v], where [last_ptr] is the bucket or the [next] field of a node. *)
Definition host_set_last (key : nat) (prev v : option nat) : M rstate () :=
  match prev with
  | None => modify (λ s, s <| host_hash_tbl := <[key := v]> (host_hash_tbl s) |>)
  | Some b => hr_upd b (λ x, x <| hnext := v |>)
  end.

(** The part of [rt_ip_route_add_host] that runs while the device is marked as
    adding a route. *)
Definition route_add_marked (addr : Z) (dev_addr0 : list Z) (rtdev : nat) (D : rtnet_device)
    : M rstate Z :=
  new_route ← rt_alloc_host_route;
  match new_route with
  | Some n => hr_upd n (λ x, x <| dest_host := mk_dest addr
                                   (memcpy (dest_addr (dest_host x)) dev_addr0 (addr_len D))
                                   (Some rtdev) |>)
  | None => mret ()
  end;;
  let key := host_key addr in
  ds ← gets (devs ∘ kern);
  rt ← host_search (host_match ds addr (local_ip D)) key;
  match rt with
  | Some (_, a) =>
      hr_upd a (λ x, x <| dest_host := mk_dest (ip (dest_host x))
                           (memcpy (dest_addr (dest_host x)) dev_addr0 (addr_len D))
                           (Some rtdev) |>);;
      match new_route with
      | Some n => rt_free_host_route n
      | None => mret ()
      end;;
      mret 0
  | None =>
      match new_route with
      | Some n =>
          tbl ← gets host_hash_tbl;
          p ← deref (tbl !! key);
          hr_upd n (λ x, x <| hnext := p |>);;
          modify (λ s, s <| host_hash_tbl := <[key := Some n]> (host_hash_tbl s) |>);;
          mret 0
      | None => mret (- ENOBUFS)
      end
  end.

Definition rt_ip_route_add_host (addr : Z) (dev_addr0 : list Z) (rtdev : nat) : M rstate Z :=
  D ← in_kern (dev_load rtdev);
  if negb (Z.testbit (priv_flags D) PRIV_FLAG_UP) then mret (- EBUSY)
  else
    in_kern (dev_upd rtdev (λ D, D <| priv_flags := Z.setbit (priv_flags D) PRIV_FLAG_ADDING_ROUTE |>));;
    if Z.testbit (priv_flags D) PRIV_FLAG_ADDING_ROUTE then mret (- EBUSY)
    else
      ret ← route_add_marked addr dev_addr0 rtdev D;
      in_kern (dev_upd rtdev (λ D, D <| priv_flags := Z.clearbit (priv_flags D) PRIV_FLAG_ADDING_ROUTE |>));;
      mret ret.

(** [rtdev->local_ip] of an optional device argument. *)
Definition opt_local_ip (rtdev : option nat) : M rstate (option Z) :=
  match rtdev with
  | None => mret None
  | Some d => D ← in_kern (dev_load d); mret (Some (local_ip D))
  end.

Definition rt_ip_route_del_host (addr : Z) (rtdev : option nat) : M rstate Z :=
  lip ← opt_local_ip rtdev;
  let key := host_key addr in
  ds ← gets (devs ∘ kern);
  rt ← host_search (host_match_opt ds addr lip) key;
  match rt with
  | Some (last_ptr, a) =>
      x ← hr_load a;
      host_set_last key last_ptr (hnext x);;
      rt_free_host_route a;;
      mret 0
  | None => mret (- ENOENT)
  end.

(** The body of the loop of [rt_ip_route_del_all] for one bucket: every removal
    starts over at the head of the chain. *)
Fixpoint del_all_bucket (fuel : nat) (rtdev : nat) (key : nat) : M rstate () :=
  match fuel with
  | O => ub
  | S fuel =>
      rt ← host_search (λ _ x, Some (bool_decide (dest_rtdev (dest_host x) = Some rtdev))) key;
      match rt with
      | Some (last_ptr, a) =>
          x ← hr_load a;
          host_set_last key last_ptr (hnext x);;
          rt_free_host_route a;;
          del_all_bucket fuel rtdev key
      | None => mret ()
      end
  end.
Fixpoint del_all_from (n : nat) (rtdev key : nat) : M rstate () :=
  match n with
  | O => mret ()
  | S n =>
      fuel ← gets (λ s, S (size (host_routes s)));
      del_all_bucket fuel rtdev key;;
      del_all_from n rtdev (S key)
  end.
Definition rt_ip_route_del_all (rtdev : nat) : M rstate () :=
  del_all_from HOST_HASH_TBL_SIZE rtdev 0;;
  D ← in_kern (dev_load rtdev);
  if local_ip D =? 0 then mret ()
  else rt_ip_route_del_host (local_ip D) (Some rtdev);; mret ().

(** The caller's buffers [if_name] and [dev_addr] are filled on success. *)
Definition rt_ip_route_get_host (addr : Z) (if_name dev_addr0 : list Z) (rtdev : option nat)
    : M rstate (Z * list Z * list Z) :=
  lip ← opt_local_ip rtdev;
  ds ← gets (devs ∘ kern);
  rt ← host_search (host_match_opt ds addr lip) (host_key addr);
  match rt with
  | Some (_, a) =>
      x ← hr_load a;
      d ← deref (dest_rtdev (dest_host x));
      D ← in_kern (dev_load d);
      mret (0, strncpy IFNAMSIZ (name D), memcpy dev_addr0 (dest_addr (dest_host x)) (addr_len D))
  | None => mret (- ENOENT, if_name, dev_addr0)
  end.

(** *** Network routes ([CONFIG_RTNET_RTIPV4_NETROUTING]) *)

Definition rt_alloc_net_route : M rstate (option nat) :=
  rt ← gets free_net_route;
  match rt with
  | None => mret None
  | Some a =>
      x ← nr_load a;
      modify (λ s, s <| free_net_route := nnext x |>
                     <| allocated_net_routes := allocated_net_routes s + 1 |>);;
      mret (Some a)
  end.

(** The counter that is decremented is the one of the host routes. *)
Definition rt_free_net_route (a : nat) : M rstate () :=
  f ← gets free_net_route;
  nr_upd a (λ x, x <| nnext := f |>);;
  modify (λ s, s <| free_net_route := Some a |>
                 <| allocated_host_routes := allocated_host_routes s - 1 |>).

(** The bucket of a network: [NET_HASH_TBL_SIZE] collects the networks whose
    mask does not cover the hashed bits. *)
Definition net_key (shift addr mask : Z) : nat :=
  let shifted_mask := u32 (Z.shiftl NET_HASH_KEY_MASK shift) in
  if Z.land mask shifted_mask =? shifted_mask
  then Z.to_nat (Z.land (Z.shiftr (ntohl addr) shift) NET_HASH_KEY_MASK)
  else NET_HASH_TBL_SIZE.

Definition net_search (f : nat → net_route → option bool) (key : nat)
    : M rstate (option (option nat * nat)) :=
  tbl ← gets net_hash_tbl;
  p ← deref (tbl !! key);
  h ← gets net_routes;
  deref (search nnext f h (size h) None p).
Definition net_set_last (key : nat) (prev v : option nat) : M rstate () :=
  match prev with
  | None => modify (λ s, s <| net_hash_tbl := <[key := v]> (net_hash_tbl s) |>)
  | Some b => nr_upd b (λ x, x <| nnext := v |>)
  end.
(** The last [last_ptr] of a search that found nothing: the end of the chain. *)
Fixpoint chain_last (h : gmap nat net_route) (fuel : nat) (prev p : option nat)
    : option (option nat) :=
  match p with
  | None => Some prev
  | Some a =>
      match fuel, h !! a with
      | S n, Some x => chain_last h n (Some a) (nnext x)
      | _, _ => None
      end
  end.

Definition net_match (addr mask : Z) (a : nat) (x : net_route) : option bool :=
  Some ((dest_net_ip x =? addr) && (dest_net_mask x =? mask)).

Definition rt_ip_route_add_net (addr mask gw_addr : Z) : M rstate Z :=
  let addr := Z.land addr mask in
  new_route ← rt_alloc_net_route;
  match new_route with
  | Some n => nr_upd n (λ x, x <| dest_net_ip := addr |> <| dest_net_mask := mask |>
                               <| gw_ip := gw_addr |>)
  | None => mret ()
  end;;
  shift ← gets net_hash_key_shift;
  let key := net_key shift addr mask in
  rt ← net_search (net_match addr mask) key;
  match rt with
  | Some (_, a) =>
      nr_upd a (λ x, x <| gw_ip := gw_addr |>);;
      match new_route with
      | Some n => rt_free_net_route n
      | None => mret ()
      end;;
      mret 0
  | None =>
      match new_route with
      | Some n =>
          tbl ← gets net_hash_tbl;
          p ← deref (tbl !! key);
          h ← gets net_routes;
          last_ptr ← deref (chain_last h (size h) None p);
          nr_upd n (λ x, x <| nnext := None |>);;
          net_set_last key last_ptr (Some n);;
          mret 0
      | None => mret (- ENOBUFS)
      end
  end.

Definition rt_ip_route_del_net (addr mask : Z) : M rstate Z :=
  let addr := Z.land addr mask in
  shift ← gets net_hash_key_shift;
  let key := net_key shift addr mask in
  rt ← net_search (net_match addr mask) key;
  match rt with
  | Some (last_ptr, a) =>
      x ← nr_load a;
      net_set_last key last_ptr (nnext x);;
      rt_free_net_route a;;
      mret 0
  | None => mret (- ENOENT)
  end.

(** *** Output routing *)

(** The host lookup of [rt_ip_route_output]: any interface for a wildcard
    source address, otherwise the interface that has it. *)
Definition output_match (ds : gmap nat rtnet_device) (daddr saddr : Z) (a : nat)
    (x : host_route) : option bool :=
  if saddr =? INADDR_ANY then Some (ip (dest_host x) =? daddr)
  else host_match ds daddr saddr a x.

(** One lookup of [daddr] in the host table; on success the destination with
    the address [real_daddr] of the packet, and its device referenced. *)
Definition output_host (daddr saddr real_daddr : Z) : M rstate (option dest_route) :=
  ds ← gets (devs ∘ kern);
  rt ← host_search (output_match ds daddr saddr) (host_key daddr);
  match rt with
  | Some (_, a) =>
      x ← hr_load a;
      d ← deref (dest_rtdev (dest_host x));
      in_kern (rtdev_reference d);;
      mret (Some (mk_dest real_daddr (dest_addr (dest_host x)) (Some d)))
  | None => mret None
  end.

Definition gw_match (daddr : Z) (a : nat) (x : net_route) : option bool :=
  Some (dest_net_ip x =? Z.land daddr (dest_net_mask x)).

(** The gateway for [daddr]: first in its bucket, then among the networks
    without a hash key. *)
Definition lookup_gateway (daddr : Z) : M rstate (option Z) :=
  shift ← gets net_hash_key_shift;
  let key := Z.to_nat (Z.land (Z.shiftr (ntohl daddr) shift) NET_HASH_KEY_MASK) in
  rt ← net_search (gw_match daddr) key;
  match rt with
  | Some (_, a) => x ← nr_load a; mret (Some (gw_ip x))
  | None =>
      rt ← net_search (gw_match daddr) NET_HASH_TBL_SIZE;
      match rt with
      | Some (_, a) => x ← nr_load a; mret (Some (gw_ip x))
      | None => mret None
      end
  end.

(** [rt_ip_route_output(rt_buf, daddr, saddr)]: the result code and the contents
    of [rt_buf] when it is 0.  The [goto restart] is taken at most once. *)
Definition rt_ip_route_output (daddr saddr : Z) : M rstate (Z * option dest_route) :=
  r ← output_host daddr saddr daddr;
  match r with
  | Some d => mret (0, Some d)
  | None =>
      if CONFIG_RTNET_RTIPV4_NETROUTING then
        gw ← lookup_gateway daddr;
        match gw with
        | Some gw =>
            r ← output_host gw saddr daddr;
            match r with
            | Some d => mret (0, Some d)
            | None => mret (- EHOSTUNREACH, None)
            end
        | None => mret (- EHOSTUNREACH, None)
        end
      else mret (- EHOSTUNREACH, None)
  end.

(** *** Initialization *)

(** [for (i = 0; i < n - 2; i++) routes[i].next = &routes[i + 1]] on the zeroed
    static array of [n] nodes. *)
Definition zero_host : host_route := mk_host None (mk_dest 0 (replicate MAX_ADDR_LEN 0) None).
Definition zero_net : net_route := mk_net None 0 0 0.
Fixpoint zero_array {A} (z : A) (n : nat) : gmap nat A :=
  match n with O => ∅ | S n => <[n := z]> (zero_array z n) end.
Fixpoint link_host (n : nat) (h : gmap nat host_route) : gmap nat host_route :=
  match n with
  | O => h
  | S n => let h := link_host n h in
           match h !! n with
           | Some x => <[n := x <| hnext := Some (S n) |>]> h
           | None => h
           end
  end.
Fixpoint link_net (n : nat) (h : gmap nat net_route) : gmap nat net_route :=
  match n with
  | O => h
  | S n => let h := link_net n h in
           match h !! n with
           | Some x => <[n := x <| nnext := Some (S n) |>]> h
           | None => h
           end
  end.
(** Without [CONFIG_PROC_FS]; the module variables start zeroed. *)
Definition rt_ip_routing_init : M rstate Z :=
  modify (λ s, s <| host_routes := link_host (CONFIG_RTNET_RTIPV4_HOST_ROUTES - 2) (host_routes s) |>
                 <| free_host_route := Some 0%nat |>);;
  when CONFIG_RTNET_RTIPV4_NETROUTING
    (modify (λ s, s <| net_routes := link_net (CONFIG_RTNET_RTIPV4_NET_ROUTES - 2) (net_routes s) |>
                    <| free_net_route := Some 0%nat |>));;
  mret 0.
(** The module variables before initialization. *)
Definition rstate0 (k : kstate) : rstate :=
  mk_rstate k (zero_array zero_host CONFIG_RTNET_RTIPV4_HOST_ROUTES) None 0
    (replicate HOST_HASH_TBL_SIZE None)
    (zero_array zero_net CONFIG_RTNET_RTIPV4_NET_ROUTES) None 0
    (replicate (S NET_HASH_TBL_SIZE) None) 8.
End defs.
