(* ===== verification/RouteHost.v ===== *)
(** * The host routing table refines a finite map

    The chained hash table of host routes represents a map from (destination
    address, address of the outgoing interface) to (device, hardware address).
    [host_ok] is the invariant of the linked structure, [represents] relates it to
    the map; the operations of route.c are shown to keep the first and to be the
    map operations through the second. *)
From S2P Require Import Prelude State Route.

(** What the table reads of a device: its address and address length. *)
Definition ident (D : rtnet_device) : Z * nat := (local_ip D, addr_len D).
Abbreviation idents := (gmap nat (Z * nat)).
Definition ids_of (r : rstate) : idents := ident <$> devs (kern r).

(** The key and value a node stands for. *)
Definition entry (ids : idents) (x : host_route) : option ((Z * Z) * (nat * list Z)) :=
  d ← dest_rtdev (dest_host x);
  '(lip, n) ← ids !! d;
  Some ((ip (dest_host x), lip), (d, take n (dest_addr (dest_host x)))).
Abbreviation route_map := (gmap (Z * Z) (nat * list Z)).

Section inv.
Context `{Config}.
Implicit Types (hr : gmap nat host_route) (tbl : list (option nat)) (fr : option nat)
  (B : list (list nat)) (F : list nat) (T : route_map) (ids : idents).

(** Node [a] is in bucket [i]. *)
Definition in_bucket B (i a : nat) : Prop := ∃ l, B !! i = Some l ∧ a ∈ l.

(** Bucket [i] of the table chains the nodes [B !! i], the free list is [F], no
    node is in two of these lists; the nodes in a bucket hash to it, their device
    exists, and no two have the same key. *)
Record host_ok ids hr tbl fr B F : Prop := {
  ho_len : length B = HOST_HASH_TBL_SIZE;
  ho_tbl : ∀ i l, B !! i = Some l → ∃ p, tbl !! i = Some p ∧ llist hnext hr p l;
  ho_free : llist hnext hr fr F;
  ho_disj : ∀ i j a, in_bucket B i a → in_bucket B j a → i = j;
  ho_disjF : ∀ i a, in_bucket B i a → a ∉ F;
  ho_entry : ∀ i a x, in_bucket B i a → hr !! a = Some x →
    host_key (ip (dest_host x)) = i ∧ is_Some (entry ids x);
  ho_uniq : ∀ i j a b x y k v w, in_bucket B i a → in_bucket B j b →
    hr !! a = Some x → hr !! b = Some y →
    entry ids x = Some (k, v) → entry ids y = Some (k, w) → a = b;
}.

Definition represents ids hr B T : Prop :=
  ∀ k v, T !! k = Some v ↔
    ∃ i a x, in_bucket B i a ∧ hr !! a = Some x ∧ entry ids x = Some (k, v).

(** A node outside all lists (just taken from the free list or unlinked). *)
Definition loose B F (a : nat) : Prop := (∀ i, ¬ in_bucket B i a) ∧ a ∉ F.

Lemma host_key_range addr : is_u32 addr → (host_key addr < HOST_HASH_TBL_SIZE)%nat.
Proof.
  intros Ha. unfold host_key, HOST_HASH_KEY_MASK.
  assert (0 < Z.of_nat HOST_HASH_TBL_SIZE).
  { unfold HOST_HASH_TBL_SIZE, tbl_size. case_match; [lia|].
    assert (1 ≤ CONFIG_RTNET_RTIPV4_HOST_ROUTES / 256)%nat.
    { apply Nat.div_le_lower_bound; [lia|]. by apply Nat.ltb_ge in H0. }
    lia. }
  pose proof (land_nonneg_bound (ntohl addr) (Z.of_nat HOST_HASH_TBL_SIZE - 1)). lia.
Qed.

Lemma in_bucket_insert B i l l0 j a :
  B !! i = Some l0 → in_bucket (<[i := l]> B) j a ↔ (i = j ∧ a ∈ l) ∨ (i ≠ j ∧ in_bucket B j a).
Proof.
  intros Hi. unfold in_bucket. pose proof (lookup_lt_Some _ _ _ Hi). split.
  - intros (k & [(-> & -> & _)|(? & ?)]%list_lookup_insert_Some & ?); eauto.
  - intros [(-> & ?)|(? & k & ? & ?)].
    + exists l. by rewrite list_lookup_insert_eq.
    + exists k. by rewrite list_lookup_insert_ne.
Qed.

Lemma host_ok_lookup ids hr tbl fr B F i a :
  host_ok ids hr tbl fr B F → in_bucket B i a → is_Some (hr !! a).
Proof.
  intros Ho (l & Hl & Ha). destruct (ho_tbl _ _ _ _ _ _ Ho _ _ Hl) as (p & _ & Hp).
  by eapply lseg_lookup.
Qed.
(** Changing nodes outside the lists. *)
Lemma host_ok_loose ids hr tbl fr B F n y :
  host_ok ids hr tbl fr B F → loose B F n → host_ok ids (<[n := y]> hr) tbl fr B F.
Proof.
  intros [] [Hn HnF].
  assert (Hne : ∀ i a, in_bucket B i a → n ≠ a) by (intros i a Ha ->; by eapply Hn).
  split; [done|..|done|done| |].
  - intros i l Hl. destruct (ho_tbl0 _ _ Hl) as (p & ? & ?). exists p. split; [done|].
    apply lseg_insert_ne; [|done]. intros Hnl. eapply Hn. by exists l.
  - by apply lseg_insert_ne.
  - intros i a x Ha Hx. rewrite lookup_insert_ne in Hx by eauto. eauto.
  - intros i j a b x z k v w Ha Hb Hx Hz. rewrite lookup_insert_ne in Hx, Hz by eauto. eauto.
Qed.
Lemma represents_loose ids hr B F T n y :
  represents ids hr B T → loose B F n → represents ids (<[n := y]> hr) B T.
Proof.
  intros HT [Hn _] k v. rewrite (HT k v). split; intros (i & a & x & Ha & Hx & He);
    exists i, a, x; (split; [done|]); split; try done.
  - rewrite lookup_insert_ne; [done|]. intros ->. by eapply Hn.
  - rewrite lookup_insert_ne in Hx; [done|]. intros ->. by eapply Hn.
Qed.

(** Taking the first free node. *)
Lemma host_ok_alloc ids hr tbl n B F x :
  host_ok ids hr tbl (Some n) B (n :: F) → hr !! n = Some x →
  host_ok ids hr tbl (hnext x) B F ∧ loose B F n.
Proof.
  intros [] Hx. pose proof (llist_NoDup _ _ _ _ ho_free0) as [HnF _]%NoDup_cons.
  destruct ho_free0 as (_ & x' & Hx' & Hl). simplify_eq. split.
  - split; try done. intros i a Ha. specialize (ho_disjF0 _ _ Ha). set_solver.
  - split; [|done]. intros i Hi. specialize (ho_disjF0 _ _ Hi). set_solver.
Qed.
(** Giving a node to the free list. *)
Lemma host_ok_free ids hr tbl fr B F n x :
  host_ok ids hr tbl fr B F → loose B F n → hr !! n = Some x →
  host_ok ids (<[n := x <| hnext := fr |>]> hr) tbl (Some n) B (n :: F).
Proof.
  intros Ho Hn Hx. pose proof (host_ok_loose _ _ _ _ _ _ _ (x <| hnext := fr |>) Ho Hn) as [].
  split; try done.
  - simpl. split; [done|]. eexists. split; [by rewrite lookup_insert_eq|done].
  - intros i a Ha [->|]%elem_of_cons; [|by eapply ho_disjF0]. by eapply (proj1 Hn).
Qed.

(** Putting a loose node at the head of its bucket. *)
Lemma host_ok_link ids hr tbl fr B F n x i l p k v T :
  host_ok ids hr tbl fr B F → represents ids hr B T → loose B F n → hr !! n = Some x →
  entry ids x = Some (k, v) → host_key (ip (dest_host x)) = i → T !! k = None →
  B !! i = Some l → tbl !! i = Some p →
  host_ok ids (<[n := x <| hnext := p |>]> hr) (<[i := Some n]> tbl) fr (<[i := n :: l]> B) F ∧
  represents ids (<[n := x <| hnext := p |>]> hr) (<[i := n :: l]> B) (<[k := v]> T).
Proof.
  intros Ho HT Hn Hx He Hi HTk Hl Hp. pose (x' := x <| hnext := p |>). fold x'.
  assert (He' : entry ids x' = Some (k, v)) by done.
  pose proof (host_ok_loose _ _ _ _ _ _ _ x' Ho Hn) as [].
  pose proof (represents_loose _ _ _ _ _ _ x' HT Hn) as HT'.
  pose proof (λ j a, in_bucket_insert B i (n :: l) l j a Hl) as Hib.
  pose proof (lookup_lt_Some _ _ _ Hl). pose proof (lookup_lt_Some _ _ _ Hp).
  (* every other node was already there *)
  assert (Hold : ∀ j a, in_bucket (<[i := n :: l]> B) j a → (a = n ∧ j = i) ∨ (a ≠ n ∧ in_bucket B j a)).
  { intros j a [(-> & [->|Ha]%elem_of_cons)|(_ & Ha)]%Hib; [by left|right|right].
    - split; [|by exists l]. intros ->. eapply (proj1 Hn). by exists l.
    - split; [|done]. intros ->. by eapply (proj1 Hn). }
  assert (Hnk : ∀ a y w, (∃ j, in_bucket B j a) → <[n := x']> hr !! a = Some y → entry ids y ≠ Some (k, w)).
  { intros a y w [j Ha] Hy Hey. assert (T !! k = Some w) by (apply HT'; by exists j, a, y). congruence. }
  split; [split|].
  - by rewrite length_insert.
  - intros j l' [(<- & <- & _)|(Hne & Hl')]%list_lookup_insert_Some.
    + exists (Some n). rewrite list_lookup_insert_eq by done. split; [done|].
      simpl. split; [done|]. exists x'. split; [by simplify_map_eq|].
      destruct (ho_tbl0 _ _ Hl) as (p' & Hp' & Hll). by simplify_eq.
    + destruct (ho_tbl0 _ _ Hl') as (p' & ? & ?). exists p'.
      by rewrite list_lookup_insert_ne.
  - done.
  - intros j1 j2 a [[-> ->]|[? Ha]]%Hold [[? ->]|[? Hb]]%Hold; try done; eauto.
  - intros j a [[-> ->]|[? Ha]]%Hold; [apply Hn|eauto].
  - intros j a y [[-> ->]|[? Ha]]%Hold Hy; [|eauto]. simplify_map_eq. eauto.
  - intros j1 j2 a b y z k' v' w [[-> ->]|[? Ha]]%Hold [[-> ->]|[? Hb]]%Hold Hy Hz Ey Ez; [done|..|eauto].
    + exfalso. rewrite lookup_insert_eq in Hy. simplify_eq. eapply (Hnk b z w); eauto.
    + exfalso. rewrite lookup_insert_eq in Hz. simplify_eq. eapply (Hnk a y v'); eauto.
  - intros k' v'. rewrite lookup_insert_Some. split.
    + intros [[<- <-]|[Hne Hk']].
      * exists i, n, x'. split; [apply Hib; set_solver|]. by simplify_map_eq.
      * apply HT' in Hk' as (j & a & y & Ha & Hy & Hey). exists j, a, y. split; [|done].
        apply Hib. destruct Ha as (l' & Hl' & Ha).
        destruct (decide (i = j)) as [->|]; [left; simplify_eq; set_solver|right; split; [done|by exists l']].
    + intros (j & a & y & [[-> ->]|[Hne Ha]]%Hold & Hy & Hey).
      * simplify_map_eq. by left.
      * right. split; [|apply HT'; by exists j, a, y]. intros <-. eapply (Hnk a y v'); eauto.
Qed.

(** [*last_ptr = rt->next]: unlinking node [a] of bucket [i]. *)
Definition unlink_hr hr (prev v : option nat) : gmap nat host_route :=
  match prev with
  | None => hr
  | Some b => match hr !! b with Some y => <[b := y <| hnext := v |>]> hr | None => hr end
  end.
Definition unlink_tbl tbl (i : nat) (prev v : option nat) : list (option nat) :=
  match prev with None => <[i := v]> tbl | Some _ => tbl end.

Lemma unlink_lookup hr prev v b y :
  unlink_hr hr prev v !! b = Some y → ∃ z, hr !! b = Some z ∧ dest_host y = dest_host z ∧
    (prev ≠ Some b → y = z).
Proof.
  unfold unlink_hr. destruct prev as [c|]; [|eauto]. destruct (hr !! c) as [w|] eqn:Hc; [|eauto].
  intros [(<- & <-)|(? & ?)]%lookup_insert_Some; [exists w; split_and!; naive_solver|eauto].
Qed.
Lemma unlink_lookup_2 hr prev v b z :
  hr !! b = Some z → ∃ y, unlink_hr hr prev v !! b = Some y ∧ dest_host y = dest_host z ∧
    (prev ≠ Some b → y = z).
Proof.
  intros Hz. unfold unlink_hr. destruct prev as [c|]; [|eauto].
  destruct (hr !! c) as [w|] eqn:Hc; [|eauto].
  destruct (decide (c = b)) as [->|]; simplify_map_eq; [eexists; split_and!; naive_solver|eauto].
Qed.
Lemma entry_dest ids x y : dest_host x = dest_host y → entry ids x = entry ids y.
Proof. unfold entry. by intros ->. Qed.

(** The chain of the bucket after unlinking. *)
Lemma unlink_chain hr tbl i p l1 a l2 x :
  tbl !! i = Some p → llist hnext hr p (l1 ++ a :: l2) → hr !! a = Some x →
  ∃ p', unlink_tbl tbl i (last l1) (hnext x) !! i = Some p' ∧
        llist hnext (unlink_hr hr (last l1) (hnext x)) p' (l1 ++ l2).
Proof.
  intros Hp Hl Hx. pose proof (llist_NoDup _ _ _ _ Hl) as Hnd.
  pose proof (lookup_lt_Some _ _ _ Hp).
  apply lseg_app in Hl as (r & Hl1 & -> & x' & Hx' & Hl2).
  rewrite Hx in Hx'. injection Hx' as <-.
  destruct l1 as [|b l0 _] using rev_ind.
  - cbn. exists (hnext x). by rewrite list_lookup_insert_eq.
  - rewrite last_snoc. cbn. exists p. split; [done|].
    destruct (lseg_lookup _ _ _ _ _ b Hl1) as [y Hy]; [set_solver|]. rewrite Hy.
    rewrite <-app_assoc in Hnd. cbn in Hnd.
    apply NoDup_app in Hnd as (_ & Hd0 & [Hb Hnd]%NoDup_cons).
    apply lseg_app. exists (hnext x). split.
    + eapply lseg_relink; [|exact Hl1|done]. intros Hb0. eapply Hd0; [done|set_solver].
    + apply lseg_insert_ne; [set_solver|done].
Qed.

(** Lists that do not contain the predecessor are not affected. *)
Lemma unlink_other hr prev v q l :
  (∀ b, prev = Some b → b ∉ l) → llist hnext hr q l → llist hnext (unlink_hr hr prev v) q l.
Proof.
  intros Hb Hl. eapply lseg_frame; [exact Hl|]. intros c z Hc Hz.
  destruct (unlink_lookup_2 hr prev v c z Hz) as (y & Hy & _ & E). exists y. split; [done|].
  rewrite E; [done|]. intros ->. by eapply Hb.
Qed.

Lemma host_ok_unlink ids hr tbl fr B F T i l1 a l2 x k v :
  host_ok ids hr tbl fr B F → represents ids hr B T → B !! i = Some (l1 ++ a :: l2) →
  hr !! a = Some x → entry ids x = Some (k, v) →
  let hr' := unlink_hr hr (last l1) (hnext x) in
  let tbl' := unlink_tbl tbl i (last l1) (hnext x) in
  let B' := <[i := l1 ++ l2]> B in
  host_ok ids hr' tbl' fr B' F ∧ represents ids hr' B' (delete k T) ∧
  loose B' F a ∧ hr' !! a = Some x.
Proof.
  intros Ho HT Hl Hx He hr' tbl' B'. pose proof Ho as [].
  destruct (ho_tbl0 _ _ Hl) as (p & Hp & Hll).
  pose proof (llist_NoDup _ _ _ _ Hll) as Hnd.
  assert (Hal : a ∉ l1 ++ l2).
  { rewrite <-Permutation_middle in Hnd. by apply NoDup_cons in Hnd as []. }
  assert (Hia : in_bucket B i a) by (exists (l1 ++ a :: l2); set_solver).
  assert (Hprev : ∀ b, last l1 = Some b → in_bucket B i b ∧ b ≠ a).
  { intros b Hb%last_Some_elem_of. split; [eexists; split; [exact Hl|set_solver]|set_solver]. }
  pose proof (λ j c, in_bucket_insert B i (l1 ++ l2) _ j c Hl) as Hib.
  assert (Hold : ∀ j c, in_bucket B' j c ↔ in_bucket B j c ∧ c ≠ a).
  { intros j c. unfold B'. rewrite Hib. split.
    - intros [[-> Hc]|[Hne Hc]].
      + split; [eexists; split; [exact Hl|set_solver]|set_solver].
      + split; [done|]. intros ->. by apply Hne, (ho_disj0 i j a).
    - intros [(l' & Hl' & Hc) Hca]. destruct (decide (i = j)) as [->|].
      + left. simplify_eq. set_solver.
      + right. split; [done|]. by exists l'. }
  assert (Ha' : hr' !! a = Some x).
  { destruct (unlink_lookup_2 hr (last l1) (hnext x) a x Hx) as (y & Hy & _ & E).
    unfold hr'. rewrite Hy, E; [done|]. intros Hb%Hprev. by destruct Hb. }
  assert (Hent : ∀ c y, hr' !! c = Some y → ∃ z, hr !! c = Some z ∧ dest_host y = dest_host z).
  { intros c y (z & ? & ? & _)%unlink_lookup. eauto. }
  split; [split|split; [|split; [split|]]]; try done.
  - unfold B'. by rewrite length_insert.
  - intros j l' [(<- & <- & _)|(Hne & Hl')]%list_lookup_insert_Some.
    + by eapply unlink_chain.
    + destruct (ho_tbl0 _ _ Hl') as (p' & Hp' & Hll'). exists p'. split.
      * unfold tbl', unlink_tbl. destruct (last l1); [done|]. by rewrite list_lookup_insert_ne.
      * apply unlink_other; [|done]. intros b Hb%Hprev Hbl'. apply Hne.
        eapply ho_disj0; [apply Hb|by exists l'].
  - apply unlink_other; [|done]. intros b Hb%Hprev. by eapply ho_disjF0, Hb.
  - intros j1 j2 c [Hc1 _]%Hold [Hc2 _]%Hold. eauto.
  - intros j c [Hc _]%Hold. eauto.
  - intros j c y [Hc _]%Hold (z & Hz & E)%Hent. rewrite E, (entry_dest _ _ _ E). eauto.
  - intros j1 j2 c1 c2 y1 y2 k' v' w [Hc1 _]%Hold [Hc2 _]%Hold (z1 & Hz1 & E1)%Hent
      (z2 & Hz2 & E2)%Hent. rewrite (entry_dest _ _ _ E1), (entry_dest _ _ _ E2). eauto.
  - intros k' v'. rewrite lookup_delete_Some, (HT k' v'). split.
    + intros [Hne (j & c & y & Hc & Hy & Hey)].
      destruct (unlink_lookup_2 hr (last l1) (hnext x) c y Hy) as (z & Hz & E & _).
      exists j, c, z. rewrite (entry_dest _ _ _ E), Hold. split; [|done].
      split; [done|]. intros ->. by simplify_eq.
    + intros (j & c & y & [Hc Hca]%Hold & (z & Hz & E)%Hent & Hey).
      rewrite (entry_dest _ _ _ E) in Hey. split; [|by exists j, c, z].
      intros <-. apply Hca. by eapply (ho_uniq0 j i c a).
  - intros j [_ Hj]%Hold. done.
  - by eapply ho_disjF0.
Qed.

(** Overwriting the device and hardware address of a node. *)
Lemma host_ok_update ids hr tbl fr B F T i a x y k v w :
  host_ok ids hr tbl fr B F → represents ids hr B T → in_bucket B i a →
  hr !! a = Some x → hnext y = hnext x → ip (dest_host y) = ip (dest_host x) →
  entry ids x = Some (k, v) → entry ids y = Some (k, w) →
  host_ok ids (<[a := y]> hr) tbl fr B F ∧ represents ids (<[a := y]> hr) B (<[k := w]> T).
Proof.
  intros [] HT Hia Hx Hn Hip Hex Hey.
  (* every node keeps its key *)
  assert (Hkey : ∀ c z, <[a := y]> hr !! c = Some z → ∃ z', hr !! c = Some z' ∧
    ip (dest_host z) = ip (dest_host z') ∧ fst <$> entry ids z = fst <$> entry ids z').
  { intros c z [(<- & <-)|(? & ?)]%lookup_insert_Some; [|eauto]. exists x.
    by rewrite Hex, Hey. }
  split; [split|]; try done.
  - intros j l Hl. destruct (ho_tbl0 _ _ Hl) as (p & ? & ?). exists p. split; [done|].
    by eapply lseg_insert_same.
  - by eapply lseg_insert_same.
  - intros j c z Hc (z' & Hz' & -> & E)%Hkey. destruct (ho_entry0 j c z') as [? [e He]]; [done..|].
    split; [done|]. rewrite He in E. by destruct (entry ids z).
  - intros j1 j2 c1 c2 z1 z2 k' v1 v2 Hc1 Hc2 (y1 & Hy1 & _ & E1)%Hkey (y2 & Hy2 & _ & E2)%Hkey He1 He2.
    rewrite He1 in E1. rewrite He2 in E2. simpl in E1, E2.
    destruct (entry ids y1) as [[k1 u1]|] eqn:Ey1; [|done].
    destruct (entry ids y2) as [[k2 u2]|] eqn:Ey2; [|done]. simplify_eq/=. eauto.
  - intros k' v'. rewrite lookup_insert_Some. split.
    + intros [[<- <-]|[Hne (j & c & z & Hc & Hz & Hez)%HT]].
      * exists i, a, y. by simplify_map_eq.
      * exists j, c, z. split; [done|]. rewrite lookup_insert_ne; [done|]. intros <-. by simplify_eq.
    + intros (j & c & z & Hc & [(<- & <-)|(Hne & Hz)]%lookup_insert_Some & Hez).
      * simplify_eq. by left.
      * right. split; [|apply HT; by exists j, c, z]. intros <-. by eapply Hne, (ho_uniq0 i j a c).
Qed.
End inv.

(** ** The operations *)

Record host_state `{Config} (r : rstate) (B : list (list nat)) (F : list nat) (T : route_map) : Prop := {
  hs_ok : host_ok (ids_of r) (host_routes r) (host_hash_tbl r) (free_host_route r) B F;
  hs_rep : represents (ids_of r) (host_routes r) B T;
}.

Section rules.
Context `{Config}.
Implicit Types (r : rstate) (B : list (list nat)) (F : list nat) (T : route_map).

Lemma wp_hr_load a x Q r : host_routes r !! a = Some x → Q x r → wp (hr_load a) Q r.
Proof. intros Hx HQ. unfold hr_load. wp_run. done. Qed.
Lemma wp_hr_upd a g x Q r :
  host_routes r !! a = Some x → Q () (r <| host_routes := <[a := g x]> (host_routes r) |>) →
  wp (hr_upd a g) Q r.
Proof.
  intros Hx HQ. unfold hr_upd. apply wp_bind. eapply wp_hr_load; [done|]. by apply wp_modify.
Qed.
Lemma wp_in_kern_load d D Q r :
  devs (kern r) !! d = Some D → Q D r → wp (in_kern (dev_load d)) Q r.
Proof.
  intros HD HQ. apply wp_zoom. eapply wp_dev_load; [done|]. by destruct r.
Qed.
Lemma wp_in_kern_upd d g D Q r :
  devs (kern r) !! d = Some D →
  Q () (r <| kern := (kern r) <| devs := <[d := g D]> (devs (kern r)) |> |>) →
  wp (in_kern (dev_upd d g)) Q r.
Proof. intros HD HQ. apply wp_zoom. by eapply wp_dev_upd. Qed.

Lemma ids_of_lookup r d D : devs (kern r) !! d = Some D → ids_of r !! d = Some (ident D).
Proof. intros HD. unfold ids_of. by rewrite lookup_fmap, HD. Qed.

(** The test of the search loops in terms of the keys. *)
Lemma host_match_entry ds addr lip a x k v :
  entry (ident <$> ds) x = Some (k, v) →
  host_match ds addr lip a x = Some (bool_decide (k = (addr, lip))).
Proof.
  unfold entry, host_match, route_local_ip.
  destruct (dest_rtdev (dest_host x)) as [d|]; [|done]. cbn. rewrite lookup_fmap.
  destruct (ds !! d) as [D|]; [|done]. cbn. intros [= <- <-].
  destruct (Z.eqb_spec (ip (dest_host x)) addr) as [->|Hne].
  - f_equal. destruct (Z.eqb_spec (local_ip D) lip) as [->|].
    + by rewrite bool_decide_eq_true_2.
    + rewrite bool_decide_eq_false_2; [done|]. congruence.
  - rewrite bool_decide_eq_false_2; [done|]. congruence.
Qed.

Lemma wp_host_search f i l Q r B F T :
  host_state r B F T → B !! i = Some l →
  (∀ a x, a ∈ l → host_routes r !! a = Some x → is_Some (f a x)) →
  (∀ res, search_result f (host_routes r) l None res → Q res r) →
  wp (host_search f i) Q r.
Proof.
  intros [Ho _] Hl Hf HQ. destruct (ho_tbl _ _ _ _ _ _ Ho _ _ Hl) as (p & Hp & Hll).
  unfold host_search. wp_run.
  destruct (search_correct hnext f (host_routes r) (size (host_routes r)) None p l) as (res & -> & Hr);
    [done|by eapply llist_length|done|]. wp_run. by apply HQ.
Qed.

Lemma entry_ip ids x addr lip v : entry ids x = Some ((addr, lip), v) → ip (dest_host x) = addr.
Proof.
  unfold entry. destruct (dest_rtdev (dest_host x)) as [d|]; [|done]. cbn.
  destruct (ids !! d) as [[]|]; [|done]. cbn. congruence.
Qed.

(** Searching a bucket for a node whose key satisfies [P]: found iff the map has
    such a key. *)
Lemma wp_find r B F T addr (P : Z * Z → Prop) `{!∀ k, Decision (P k)} f Q :
  host_state r B F T → is_u32 addr → (∀ k, P k → k.1 = addr) →
  (∀ a x k v, host_routes r !! a = Some x → entry (ids_of r) x = Some (k, v) →
     f a x = Some (bool_decide (P k))) →
  (∀ l1 a l2 x k v, B !! host_key addr = Some (l1 ++ a :: l2) → host_routes r !! a = Some x →
     entry (ids_of r) x = Some (k, v) → P k → T !! k = Some v → Q (Some (last l1, a)) r) →
  (∀ l, B !! host_key addr = Some l → (∀ k, P k → T !! k = None) → Q None r) →
  wp (host_search f (host_key addr)) Q r.
Proof.
  intros Hs Haddr HP Hf Hfound Hnone. pose proof Hs as [Ho HT]. pose proof Ho as [].
  destruct (lookup_lt_is_Some_2 B (host_key addr)) as [l Hl].
  { rewrite ho_len0. by apply host_key_range. }
  assert (Hent : ∀ a x, a ∈ l → host_routes r !! a = Some x → ∃ k v, entry (ids_of r) x = Some (k, v)).
  { intros a x Ha Hx. destruct (ho_entry0 (host_key addr) a x) as [_ [[k v] He]]; [by exists l|done|].
    eauto. }
  eapply wp_host_search; [done..| |].
  { intros a x Ha Hx. destruct (Hent a x Ha Hx) as (k & v & He). erewrite Hf by done. eauto. }
  intros res Hres. inversion Hres as [l1 a x l2 El Hx Hfx Hn Eres|Hn Eres].
  - subst l. destruct (Hent a x) as (k & v & He); [set_solver|done|].
    erewrite Hf in Hfx by done. injection Hfx as Hk. apply bool_decide_eq_true in Hk.
    assert (HTv : T !! k = Some v).
    { apply HT. exists (host_key addr), a, x. split; [|done]. eexists. split; [exact Hl|set_solver]. }
    assert (match last l1 with Some b => Some b | None => None end = last l1) as ->
      by (by destruct (last l1)).
    eapply Hfound; eauto.
  - apply (Hnone l); [done|]. intros k Hk. destruct (T !! k) as [v|] eqn:HTv; [|done]. exfalso.
    apply HT in HTv as (i & a & x & Ha & Hx & He).
    destruct (ho_entry0 i a x Ha Hx) as [Hi _].
    destruct k as [ka kl]. rewrite (entry_ip _ _ _ _ _ He) in Hi.
    specialize (HP _ Hk) as Hka. cbn in Hka. subst ka i.
    destruct Ha as (l' & Hl' & Ha). simplify_eq.
    specialize (Hn a x Ha Hx). erewrite Hf in Hn by done.
    rewrite bool_decide_eq_true_2 in Hn by done. done.
Qed.

(** The keys a lookup accepts: any interface, or the one with a given address. *)
Definition key_matches (addr : Z) (lip : option Z) (k : Z * Z) : Prop :=
  match lip with None => k.1 = addr | Some lip => k = (addr, lip) end.
#[global] Instance key_matches_dec addr lip k : Decision (key_matches addr lip k).
Proof. destruct lip; cbn; apply _. Defined.
Lemma key_matches_addr addr lip k : key_matches addr lip k → k.1 = addr.
Proof. destruct lip; cbn; [by intros ->|done]. Qed.

Lemma host_match_opt_entry ds addr lip a x k v :
  entry (ident <$> ds) x = Some (k, v) →
  host_match_opt ds addr lip a x = Some (bool_decide (key_matches addr lip k)).
Proof.
  intros He. destruct lip as [lip|]; cbn [host_match_opt].
  - by erewrite host_match_entry by done.
  - destruct k as [ka kl]. rewrite (entry_ip _ _ _ _ _ He). f_equal. cbn.
    destruct (Z.eqb_spec ka addr); case_bool_decide; done.
Qed.
End rules.

Section ops.
Context `{Config}.
Implicit Types (r : rstate) (B : list (list nat)) (F : list nat) (T : route_map).

Lemma wp_alloc r B F T (Q : option nat → rstate → Prop) :
  host_state r B F T →
  match F with
  | [] => Q None r
  | n :: F' => ∀ r' x, host_state r' B F' T → loose B F' n → host_routes r' !! n = Some x →
               kern r' = kern r → Q (Some n) r'
  end → wp rt_alloc_host_route Q r.
Proof.
  intros [Ho HT] HQ. unfold rt_alloc_host_route. wp_run.
  pose proof (ho_free _ _ _ _ _ _ Ho) as Hf. destruct F as [|n F]; simpl in Hf.
  - rewrite Hf. by wp_run.
  - destruct Hf as (Hf & x & Hx & _). rewrite Hf in Ho |- *. wp_run.
    eapply wp_hr_load; [done|]. wp_run.
    destruct (host_ok_alloc _ _ _ _ _ _ _ Ho Hx) as [Ho' Hl]. by eapply HQ.
Qed.
Lemma wp_free r B F T n x (Q : () → rstate → Prop) :
  host_state r B F T → loose B F n → host_routes r !! n = Some x →
  (∀ r', host_state r' B (n :: F) T → kern r' = kern r → Q () r') →
  wp (rt_free_host_route n) Q r.
Proof.
  intros [Ho HT] Hn Hx HQ. unfold rt_free_host_route. wp_run. eapply wp_hr_upd; [done|]. wp_run.
  apply HQ; [|done]. split; cbn; [by apply host_ok_free|by eapply represents_loose].
Qed.
Lemma wp_loose_upd r B F T n x g (Q : () → rstate → Prop) :
  host_state r B F T → loose B F n → host_routes r !! n = Some x →
  (∀ r', host_state r' B F T → host_routes r' = <[n := g x]> (host_routes r) →
         kern r' = kern r → Q () r') →
  wp (hr_upd n g) Q r.
Proof.
  intros [Ho HT] Hn Hx HQ. eapply wp_hr_upd; [done|]. apply HQ; [|done..].
  split; cbn; [by apply host_ok_loose|by eapply represents_loose].
Qed.
(** Unlinking the node a search has found and freeing it. *)
Lemma wp_unlink_free {A} r B F T i l1 a l2 x k v (m : M rstate A) (Q : A → rstate → Prop) :
  host_state r B F T → B !! i = Some (l1 ++ a :: l2) → host_routes r !! a = Some x →
  entry (ids_of r) x = Some (k, v) →
  (∀ r', host_state r' (<[i := l1 ++ l2]> B) (a :: F) (delete k T) → kern r' = kern r →
         wp m Q r') →
  wp (host_set_last i (last l1) (hnext x);; rt_free_host_route a;; m) Q r.
Proof.
  intros [Ho HT] Hl Hx He HQ.
  destruct (host_ok_unlink _ _ _ _ _ _ _ _ _ _ _ _ _ _ Ho HT Hl Hx He) as (Ho' & HT' & Hloose & Ha).
  assert (Hset : wp (host_set_last i (last l1) (hnext x))
    (λ _ r', r' = r <| host_routes := unlink_hr (host_routes r) (last l1) (hnext x) |>
                    <| host_hash_tbl := unlink_tbl (host_hash_tbl r) i (last l1) (hnext x) |>) r).
  { destruct (last l1) as [b|] eqn:Eb; simpl; [|by destruct r].
    destruct (ho_tbl _ _ _ _ _ _ Ho _ _ Hl) as (p & _ & Hll).
    apply last_Some_elem_of in Eb.
    destruct (lseg_lookup _ _ _ _ _ b Hll) as [y Hy]; [set_solver|]. rewrite Hy.
    eapply wp_hr_upd; [done|]. by destruct r. }
  apply wp_bind. eapply wp_mono; [|exact Hset]. cbn beta. intros _ r' ->.
  apply wp_bind. eapply wp_free; [by split|done|done|done].
Qed.

Lemma entry_new ids addr old mac d lip n h :
  ids !! d = Some (lip, n) → (n ≤ length mac)%nat →
  entry ids (mk_host h (mk_dest addr (memcpy old mac n) (Some d))) = Some ((addr, lip), (d, take n mac)).
Proof.
  intros Hd Hn. unfold entry. cbn. rewrite Hd. cbn. do 3 f_equal. unfold memcpy.
  rewrite take_app_length'; [done|]. rewrite length_take. lia.
Qed.

(** Overwriting the route a search has found. *)
Lemma host_state_update r B F T i a x addr lip v d mac n :
  host_state r B F T → in_bucket B i a → host_routes r !! a = Some x →
  entry (ids_of r) x = Some ((addr, lip), v) → ids_of r !! d = Some (lip, n) → (n ≤ length mac)%nat →
  host_state (r <| host_routes := <[a := x <| dest_host := mk_dest (ip (dest_host x))
                     (memcpy (dest_addr (dest_host x)) mac n) (Some d) |>]> (host_routes r) |>)
    B F (<[(addr, lip) := (d, take n mac)]> T).
Proof.
  intros [Ho HT] Ha Hx He Hd Hn. destruct x as [hn [xip xa xd]].
  assert (xip = addr) as ->.
  { unfold entry in He. cbn in He. destruct xd as [e|]; [|done]. cbn in He.
    destruct (ids_of r !! e) as [[]|]; [|done]. cbn in He. congruence. }
  destruct (host_ok_update _ _ _ _ _ _ T i a _ (mk_host hn (mk_dest addr (memcpy xa mac n) (Some d)))
    _ _ (d, take n mac) Ho HT Ha Hx eq_refl eq_refl He) as [Ho' HT'];
    [by apply entry_new|]. by split.
Qed.

Lemma add_marked_run r B F T addr mac d D :
  host_state r B F T → is_u32 addr → devs (kern r) !! d = Some D → (addr_len D ≤ length mac)%nat →
  wp (route_add_marked addr mac d D)
     (λ ret r', kern r' = kern r ∧
        ((ret = 0 ∧ ∃ B' F', host_state r' B' F'
           (<[(addr, local_ip D) := (d, take (addr_len D) mac)]> T)) ∨
         (ret = - ENOBUFS ∧ F = [] ∧ T !! (addr, local_ip D) = None ∧ r' = r))) r.
Proof.
  intros Hs Haddr HD Hmac. unfold route_add_marked. apply wp_bind.
  assert (Hid : ids_of r !! d = Some (local_ip D, addr_len D)) by (by apply ids_of_lookup).
  eapply wp_alloc; [done|]. destruct F as [|n F].
  - apply wp_bind, wp_ret. wp_run. eapply (wp_find _ _ _ _ addr (λ k, k = (addr, local_ip D))); [done|done|by intros k ->|..].
    { intros. by eapply host_match_entry. }
    + intros l1 a l2 x k v Hl Hx He -> HTv. wp_run. eapply wp_hr_upd; [done|]. wp_run.
      split; [done|]. left. split; [done|]. exists B, [].
      eapply host_state_update; try done. eexists. split; [exact Hl|set_solver].
    + intros l _ HTn. wp_run. split; [done|]. right. by rewrite HTn.
  - intros r1 x1 Hs1 Hn Hx1 Ek. apply wp_bind. eapply wp_loose_upd; [done..|].
    intros r2 Hs2 E2 Ek2. rewrite Ek in Ek2.
    assert (Hx2 : host_routes r2 !! n = Some (x1 <| dest_host := mk_dest addr
      (memcpy (dest_addr (dest_host x1)) mac (addr_len D)) (Some d) |>)).
    { by rewrite E2, lookup_insert_eq. }
    assert (Hid2 : ids_of r2 !! d = Some (local_ip D, addr_len D)).
    { unfold ids_of. by rewrite Ek2. }
    wp_run. eapply (wp_find r2 _ _ _ addr (λ k, k = (addr, local_ip D))); [done|done|by intros k ->|..].
    { intros. by eapply host_match_entry. }
    + intros l1 a l2 x k v Hl Hx He -> HTv. apply wp_bind. eapply wp_hr_upd; [done|]. apply wp_bind.
      assert (Ha : in_bucket B (host_key addr) a) by (eexists; split; [exact Hl|set_solver]).
      assert (n ≠ a) by (intros ->; by eapply (proj1 Hn)).
      eapply (wp_free _ B F); [by eapply host_state_update|done|cbn; by rewrite lookup_insert_ne|].
      intros r3 Hs3 Ek3. wp_run. cbn in Ek3. split; [congruence|]. left. eauto.
    + intros l Hl HTn. specialize (HTn _ eq_refl). wp_run. destruct Hs2 as [Ho2 HT2].
      destruct (ho_tbl _ _ _ _ _ _ Ho2 _ _ Hl) as (p & Hp & _). rewrite Hp. wp_run.
      eapply wp_hr_upd; [done|]. wp_run. split; [done|]. left. split; [done|]. eexists _, F.
      destruct (host_ok_link _ _ _ _ _ _ n _ (host_key addr) l p (addr, local_ip D)
        (d, take (addr_len D) mac) T Ho2 HT2 Hn Hx2) as [Ho3 HT3]; [by apply entry_new|done..|].
      by split.
Qed.
End ops.
