(* ===== verification/RouteOps.v ===== *)
(** * Host routing: the operations of route.c as map operations

    Every operation of the host table, on every branch, in terms of the map the
    table represents ([RouteHost.host_state]), and the interface up and down
    hooks of af_inet.c built from them. *)
From S2P Require Import Prelude State Rtdev Route RouteHost.

Section ops.
Context `{Config}.
Implicit Types (r : rstate) (B : list (list nat)) (F : list nat) (T : route_map).

(** The table does not depend on other fields of the devices. *)
Lemma host_state_kern r k B F T :
  host_state r B F T → ident <$> devs k = ids_of r → host_state (r <| kern := k |>) B F T.
Proof. intros [Ho HT] E. split; unfold ids_of; cbn; by rewrite E. Qed.
Lemma ids_upd (ds : gmap nat rtnet_device) d D D' :
  ds !! d = Some D → ident D' = ident D → ident <$> <[d := D']> ds = ident <$> ds.
Proof.
  intros HD E. rewrite fmap_insert, E. apply insert_id. by rewrite lookup_fmap, HD.
Qed.
Lemma rstate_kern_id r : r <| kern := kern r |> = r.
Proof. by destruct r. Qed.
Lemma flags_id D f : f = priv_flags D → D <| priv_flags := f |> = D.
Proof. intros ->. by destruct D. Qed.
Lemma setbit_id f n : 0 ≤ n → Z.testbit f n = true → Z.setbit f n = f.
Proof.
  intros Hn Hb. apply Z.bits_inj'. intros i Hi. rewrite Z.setbit_eqb by done.
  destruct (Z.eqb_spec n i) as [<-|]; [by rewrite Hb|done].
Qed.
Lemma clearbit_setbit f n : 0 ≤ n → Z.testbit f n = false → Z.clearbit (Z.setbit f n) n = f.
Proof.
  intros Hn Hb. apply Z.bits_inj'. intros i Hi. rewrite Z.clearbit_eqb, Z.setbit_eqb by done.
  destruct (Z.eqb_spec n i) as [<-|]; [by rewrite Hb|cbn; by rewrite andb_true_r].
Qed.

(** The map a successful addition yields. *)
Definition add_route T (addr : Z) (mac : list Z) (d : nat) (D : rtnet_device) : route_map :=
  <[(addr, local_ip D) := (d, take (addr_len D) mac)]> T.

Lemma add_host_run r B F T addr mac d D :
  host_state r B F T → is_u32 addr → devs (kern r) !! d = Some D → (addr_len D ≤ length mac)%nat →
  wp (rt_ip_route_add_host addr mac d)
    (λ ret r', kern r' = kern r ∧
       if Z.testbit (priv_flags D) PRIV_FLAG_UP && negb (Z.testbit (priv_flags D) PRIV_FLAG_ADDING_ROUTE)
       then (ret = 0 ∧ ∃ B' F', host_state r' B' F' (add_route T addr mac d D)) ∨
            (ret = - ENOBUFS ∧ F = [] ∧ T !! (addr, local_ip D) = None ∧ r' = r)
       else ret = - EBUSY ∧ r' = r) r.
Proof.
  intros Hs Haddr HD Hmac. unfold rt_ip_route_add_host. apply wp_bind.
  eapply wp_in_kern_load; [done|]. destruct (Z.testbit _ PRIV_FLAG_UP) eqn:Hup; cbn [negb andb];
    [|by wp_run].
  apply wp_bind. eapply wp_in_kern_upd; [done|].
  set (D1 := D <| priv_flags := Z.setbit (priv_flags D) PRIV_FLAG_ADDING_ROUTE |>).
  set (r1 := r <| kern := _ |>).
  destruct (Z.testbit _ PRIV_FLAG_ADDING_ROUTE) eqn:Had; cbn [negb].
  - assert (D1 = D) as E1 by (apply flags_id; by apply setbit_id).
    wp_run. assert (r1 = r) as ->; [|done]. unfold r1. rewrite E1.
    rewrite kstate_devs_id by (by rewrite insert_id). by destruct r.
  - apply wp_bind.
    assert (HD1 : devs (kern r1) !! d = Some D1) by (cbn; by rewrite lookup_insert_eq).
    assert (Hs1 : host_state r1 B F T) by (apply host_state_kern; [done|by eapply ids_upd]).
    eapply wp_mono; [|exact (add_marked_run r1 B F T addr mac d D1 Hs1 Haddr HD1 Hmac)].
    cbn beta. intros ret r2 [Ek Hr]. apply wp_bind. eapply wp_in_kern_upd; [by rewrite Ek|].
    set (r3 := r2 <| kern := _ |>). wp_run.
    assert (E3 : kern r3 = kern r).
    { unfold r3. cbn. rewrite Ek. cbn. rewrite insert_insert_eq, insert_id; [by destruct (kern r)|].
      rewrite HD. f_equal. symmetry.
      apply (flags_id D (Z.clearbit (priv_flags D1) PRIV_FLAG_ADDING_ROUTE)). by apply clearbit_setbit. }
    assert (Er : r3 = r2 <| kern := kern r |>) by (rewrite <-E3; done).
    clearbody r3. subst r3. split; [done|]. destruct Hr as [[-> (B' & F' & Hs2)]|(-> & -> & HTn & ->)]; [left|right].
    + split; [done|]. exists B', F'. apply host_state_kern; [exact Hs2|].
      unfold ids_of. rewrite Ek. symmetry. by eapply ids_upd.
    + split_and!; try done. by destruct r.
Qed.

(** The address an optional device argument restricts a lookup to. *)
Definition lip_of r (rtdev : option nat) : option (option Z) :=
  match rtdev with
  | None => Some None
  | Some d => D ← devs (kern r) !! d; Some (Some (local_ip D))
  end.
Lemma wp_opt_local_ip r rtdev lip (Q : option Z → rstate → Prop) :
  lip_of r rtdev = Some lip → Q lip r → wp (opt_local_ip rtdev) Q r.
Proof.
  unfold lip_of, opt_local_ip. destruct rtdev as [d|]; [|by intros [= <-]].
  destruct (devs (kern r) !! d) as [D|] eqn:HD; [|done]. intros [= <-] HQ.
  apply wp_bind. eapply wp_in_kern_load; [done|]. by apply wp_ret.
Qed.

Lemma del_host_run r B F T addr rtdev lip :
  host_state r B F T → is_u32 addr → lip_of r rtdev = Some lip →
  wp (rt_ip_route_del_host addr rtdev)
    (λ ret r', kern r' = kern r ∧
       ((ret = 0 ∧ ∃ k B' F', key_matches addr lip k ∧ is_Some (T !! k) ∧
           host_state r' B' F' (delete k T)) ∨
        (ret = - ENOENT ∧ (∀ k, key_matches addr lip k → T !! k = None) ∧ r' = r))) r.
Proof.
  intros Hs Haddr Hlip. unfold rt_ip_route_del_host. apply wp_bind.
  eapply wp_opt_local_ip; [done|]. wp_run.
  eapply (wp_find _ _ _ _ addr (key_matches addr lip)); [done|done|apply key_matches_addr|..].
  { intros. by eapply host_match_opt_entry. }
  - intros l1 a l2 x k v Hl Hx He Hk HT. apply wp_bind. eapply wp_hr_load; [done|].
    eapply wp_unlink_free; [done..|]. intros r' Hs' Ek. wp_run. split; [done|]. left.
    split; [done|]. exists k. eauto 6.
  - intros l _ HTn. wp_run. split; [done|]. by right.
Qed.

(** The routes that do not leave through device [d]. *)
Definition without_dev T (d : nat) : route_map := filter (λ p, p.2.1 ≠ d) T.

Lemma entry_dev ids x k v : entry ids x = Some (k, v) → dest_rtdev (dest_host x) = Some v.1.
Proof.
  unfold entry. destruct (dest_rtdev (dest_host x)) as [d|]; [|done]. cbn.
  destruct (ids !! d) as [[]|]; [|done]. cbn. by intros [= <- <-].
Qed.
Lemma without_dev_delete T d k v : T !! k = Some v → v.1 = d → without_dev (delete k T) d = without_dev T d.
Proof.
  intros HT Hv. apply map_eq. intros k'. unfold without_dev. apply option_eq. intros v'.
  rewrite !map_lookup_filter_Some, lookup_delete_Some. cbn. naive_solver.
Qed.

(** What the buckets before [n] hold no route of. *)
Definition clean T (d n : nat) : Prop :=
  ∀ k v, T !! k = Some v → (host_key k.1 < n)%nat → v.1 ≠ d.

Lemma host_state_key r B F T k v :
  host_state r B F T → T !! k = Some v → ∃ a x, in_bucket B (host_key k.1) a ∧
    host_routes r !! a = Some x ∧ entry (ids_of r) x = Some (k, v).
Proof.
  intros [Ho HT] (i & a & x & Ha & Hx & He)%HT.
  destruct (ho_entry _ _ _ _ _ _ Ho i a x Ha Hx) as [Hi _].
  destruct k as [ka kl]. rewrite (entry_ip _ _ _ _ _ He) in Hi. subst i. eauto.
Qed.

(** One bucket: every removal shortens the chain, so the restarts end. *)
Lemma del_all_bucket_run d key fuel : ∀ r B F T l,
  host_state r B F T → B !! key = Some l → (length l < fuel)%nat → clean T d key →
  wp (del_all_bucket fuel d key)
    (λ _ r', kern r' = kern r ∧ ∃ B' F' T', host_state r' B' F' T' ∧
       without_dev T' d = without_dev T d ∧ clean T' d (S key)) r.
Proof.
  induction fuel as [|fuel IH]; intros r B F T l Hs Hl Hfuel Hc; [lia|].
  cbn [del_all_bucket]. apply wp_bind. eapply wp_host_search; [done..|by eauto|].
  intros res Hres. inversion Hres as [l1 a x l2 El Hx Hfx Hn Eres|Hn Eres].
  - subst l res. injection Hfx as Hd%bool_decide_eq_true.
    assert (Ha : in_bucket B key a) by (eexists; split; [exact Hl|set_solver]).
    pose proof Hs as [Ho HT].
    destruct (ho_entry _ _ _ _ _ _ Ho key a x Ha Hx) as [Hkey [[k v] He]].
    assert (HTk : T !! k = Some v) by (apply HT; by exists key, a, x).
    assert (Hv : v.1 = d) by (apply entry_dev in He; congruence).
    assert (match last l1 with Some b => Some b | None => None end = last l1) as ->
      by (by destruct (last l1)).
    apply wp_bind. eapply wp_hr_load; [done|]. eapply wp_unlink_free; [done..|].
    intros r' Hs' Ek. eapply wp_mono; [|eapply IH; [exact Hs'| | |]].
    + intros _ r'' [Ek'' (B' & F' & T' & Hs'' & E & Hc'')]. split; [congruence|].
      exists B', F', T'. split_and!; [done| |done]. rewrite E. by eapply without_dev_delete.
    + apply list_lookup_insert_eq. by eapply lookup_lt_Some.
    + rewrite length_app in *. cbn in *. lia.
    + intros k' v' [_ Hk']%lookup_delete_Some. eauto.
  - wp_run. split; [done|]. exists B, F, T. split_and!; [done..|].
    intros k v Hk Hlt Hv. destruct (decide (host_key k.1 = key)) as [E|]; [|by eapply Hc; eauto with lia].
    destruct (host_state_key _ _ _ _ _ _ Hs Hk) as (a & x & (l' & Hl' & Ha) & Hx & He).
    rewrite E in Hl'. simplify_eq. specialize (Hn a x Ha Hx). apply entry_dev in He.
    injection Hn as Hn%bool_decide_eq_false. by apply Hn.
Qed.

Lemma del_all_from_run d n : ∀ key r B F T,
  host_state r B F T → (key + n = HOST_HASH_TBL_SIZE)%nat → clean T d key →
  wp (del_all_from n d key)
    (λ _ r', kern r' = kern r ∧ ∃ B' F', host_state r' B' F' (without_dev T d)) r.
Proof.
  induction n as [|n IH]; intros key r B F T Hs Hn Hc; cbn [del_all_from].
  - wp_run. split; [done|]. exists B, F.
    assert (without_dev T d = T) as ->; [|done]. apply map_filter_id. intros k v Hk. cbn.
    apply (Hc k v Hk). destruct (host_state_key _ _ _ _ _ _ Hs Hk) as (a & _ & (l & Hl & _) & _).
    apply lookup_lt_Some in Hl. destruct Hs as [Ho _]. pose proof (ho_len _ _ _ _ _ _ Ho). lia.
  - pose proof Hs as [Ho _]. pose proof (ho_len _ _ _ _ _ _ Ho).
    destruct (lookup_lt_is_Some_2 B key) as [l Hl]; [lia|].
    destruct (ho_tbl _ _ _ _ _ _ Ho _ _ Hl) as (p & _ & Hll). apply llist_length in Hll. wp_run.
    eapply wp_mono; [|eapply del_all_bucket_run; [done..|lia|done]]. cbn beta.
    intros _ r' [Ek (B' & F' & T' & Hs' & E & Hc')].
    eapply wp_mono; [|eapply IH; [exact Hs'|lia|done]]. cbn beta. rewrite E.
    intros _ r'' [Ek' ?]. split; [congruence|done].
Qed.

Lemma del_all_run r B F T d D :
  host_state r B F T → devs (kern r) !! d = Some D → is_u32 (local_ip D) →
  wp (rt_ip_route_del_all d)
    (λ _ r', kern r' = kern r ∧ ∃ B' F', host_state r' B' F'
       (if local_ip D =? 0 then without_dev T d
        else delete (local_ip D, local_ip D) (without_dev T d))) r.
Proof.
  intros Hs HD Hip. unfold rt_ip_route_del_all. apply wp_bind.
  eapply wp_mono; [|eapply del_all_from_run; [done|lia|]]; [|intros k v _ ?; lia].
  cbn beta. intros _ r' [Ek (B' & F' & Hs')].
  assert (HD' : devs (kern r') !! d = Some D) by (by rewrite Ek).
  apply wp_bind. eapply wp_in_kern_load; [done|].
  destruct (local_ip D =? 0); [wp_run; eauto|]. apply wp_bind.
  eapply wp_mono; [|eapply (del_host_run _ _ _ _ _ _ (Some (local_ip D))); [done..|by cbn; rewrite HD']].
  cbn beta. intros ret r'' [Ek' [[-> (k & B'' & F'' & -> & _ & Hs'')]|(-> & HTn & ->)]]; wp_run.
  - split; [congruence|eauto].
  - split; [done|]. exists B', F'. by rewrite delete_id by (by apply HTn).
Qed.

(** *** Lookups *)

(** The interface a source address restricts a lookup to. *)
Definition saddr_lip (saddr : Z) : option Z := if saddr =? INADDR_ANY then None else Some saddr.
Lemma output_match_opt ds daddr saddr a x :
  output_match ds daddr saddr a x = host_match_opt ds daddr (saddr_lip saddr) a x.
Proof. unfold output_match, saddr_lip. by destruct (saddr =? INADDR_ANY). Qed.

(** The destination [dst] is one the table gives for [daddr] and [saddr]. *)
Definition route_for r T (daddr saddr real : Z) (d : nat) (dst : dest_route) : Prop :=
  ip dst = real ∧ dest_rtdev dst = Some d ∧
  ∃ k D mac, key_matches daddr (saddr_lip saddr) k ∧ T !! k = Some (d, mac) ∧
    devs (kern r) !! d = Some D ∧ k.2 = local_ip D ∧ take (addr_len D) (dest_addr dst) = mac.

Lemma wp_route_reference r d D (Q : () → rstate → Prop) :
  devs (kern r) !! d = Some D →
  Q () (r <| kern := (kern r) <| devs := <[d := D <| refcount := refcount D + 1 |>]> (devs (kern r)) |> |>) →
  wp (in_kern (rtdev_reference d)) Q r.
Proof. intros HD HQ. by eapply wp_in_kern_upd. Qed.

Lemma output_host_run r B F T daddr saddr real :
  host_state r B F T → is_u32 daddr →
  wp (output_host daddr saddr real)
    (λ res r', host_state r' B F T ∧
       match res with
       | Some dst => ∃ d D, route_for r T daddr saddr real d dst ∧ devs (kern r) !! d = Some D ∧
           r' = r <| kern := (kern r) <| devs := <[d := D <| refcount := refcount D + 1 |>]> (devs (kern r)) |> |>
       | None => r' = r ∧ ∀ k, key_matches daddr (saddr_lip saddr) k → T !! k = None
       end) r.
Proof.
  intros Hs Haddr. unfold output_host. wp_run.
  eapply (wp_find _ _ _ _ daddr (key_matches daddr (saddr_lip saddr)));
    [done|done|apply key_matches_addr|..].
  { intros. rewrite output_match_opt. by eapply host_match_opt_entry. }
  - intros l1 a l2 x k [d mac] Hl Hx He Hk HT. apply wp_bind. eapply wp_hr_load; [done|].
    pose proof (entry_dev _ _ _ _ He) as Hd. wp_run.
    unfold entry in He. rewrite Hd in He. cbn in He.
    unfold ids_of in He. rewrite lookup_fmap in He.
    destruct (devs (kern r) !! d) as [D|] eqn:HD; [|done]. cbn in He. injection He as <- <-.
    eapply wp_route_reference; [done|]. wp_run. split.
    + apply host_state_kern; [done|]. by eapply ids_upd.
    + exists d, D. split_and!; [|done|done]. do 2 (split; [done|]). eexists _, D, _. by split_and!.
  - intros l _ HTn. by wp_run.
Qed.

(** *** Initialization *)

Lemma zero_array_lookup {A} (z : A) n a : zero_array z n !! a = if (a <? n)%nat then Some z else None.
Proof.
  induction n as [|n IH]; cbn [zero_array]; [done|]. destruct (decide (a = n)) as [->|].
  - rewrite lookup_insert_eq. destruct (Nat.ltb_spec n (S n)); [done|lia].
  - rewrite lookup_insert_ne, IH by done.
    destruct (Nat.ltb_spec a n), (Nat.ltb_spec a (S n)); first [done|lia].
Qed.
Lemma link_host_lookup n m a :
  (n ≤ m)%nat →
  link_host n (zero_array zero_host m) !! a =
    if (a <? n)%nat then Some (zero_host <| hnext := Some (S a) |>) else zero_array zero_host m !! a.
Proof.
  intros Hm. revert a. induction n as [|n IH]; intros a; cbn [link_host]; [done|].
  assert (Hn : link_host n (zero_array zero_host m) !! n = Some zero_host).
  { rewrite IH by lia. rewrite zero_array_lookup.
    destruct (Nat.ltb_spec n n); [lia|]. destruct (Nat.ltb_spec n m); [done|lia]. }
  rewrite Hn. destruct (decide (a = n)) as [->|].
  - rewrite lookup_insert_eq. destruct (Nat.ltb_spec n (S n)); [done|lia].
  - rewrite lookup_insert_ne by done. rewrite IH by lia. destruct (Nat.ltb_spec a n), (Nat.ltb_spec a (S n)); first [done|lia].
Qed.
Lemma link_host_chain n m k :
  (n < m)%nat → (k ≤ n)%nat →
  llist hnext (link_host n (zero_array zero_host m)) (Some (n - k)%nat) (seq (n - k) (S k)).
Proof.
  intros Hm. induction k as [|k IH]; intros Hk.
  - rewrite Nat.sub_0_r. cbn. split; [done|]. exists zero_host. split; [|done].
    rewrite link_host_lookup, zero_array_lookup by lia.
    destruct (Nat.ltb_spec n n); [lia|]. destruct (Nat.ltb_spec n m); [done|lia].
  - cbn. split; [done|]. exists (zero_host <| hnext := Some (S (n - S k)) |>). split.
    + rewrite link_host_lookup by lia. destruct (Nat.ltb_spec (n - S k) n); [done|lia].
    + cbn. replace (S (n - S k)) with (n - k)%nat by lia. apply IH. lia.
Qed.

(** ** Properties *)

(** C8: [rt_ip_route_add_host] refines insertion into the route map, on every
    branch.  On a device that is down, or that is already being given a route, it
    returns -EBUSY and changes nothing; otherwise it either installs (or replaces)
    the route for the address on the interface, or, when no route object is free
    and the route is new, returns -ENOBUFS and changes nothing.  The device
    records are as before in all cases (the marker bit is cleared again). *)
Theorem rt_ip_route_add_host_correct r B F T addr mac d D :
  host_state r B F T → is_u32 addr → devs (kern r) !! d = Some D → (addr_len D ≤ length mac)%nat →
  ∃ ret r', rt_ip_route_add_host addr mac d r = Some (ret, r') ∧ kern r' = kern r ∧
    if Z.testbit (priv_flags D) PRIV_FLAG_UP && negb (Z.testbit (priv_flags D) PRIV_FLAG_ADDING_ROUTE)
    then (ret = 0 ∧ ∃ B' F', host_state r' B' F' (add_route T addr mac d D)) ∨
         (ret = - ENOBUFS ∧ F = [] ∧ T !! (addr, local_ip D) = None ∧ r' = r)
    else ret = - EBUSY ∧ r' = r.
Proof. intros Hs Ha HD Hm. apply wp_elim. by apply (add_host_run r B F T addr mac d D). Qed.

(** [rt_ip_route_del_host] refines deletion: with a device it removes exactly
    the route to the address on the device's interface, without one a route to the
    address on some interface; if the table has no such route it returns -ENOENT
    and changes nothing. *)
Theorem rt_ip_route_del_host_correct r B F T addr rtdev lip :
  host_state r B F T → is_u32 addr → lip_of r rtdev = Some lip →
  ∃ ret r', rt_ip_route_del_host addr rtdev r = Some (ret, r') ∧ kern r' = kern r ∧
    ((ret = 0 ∧ ∃ k B' F', key_matches addr lip k ∧ is_Some (T !! k) ∧
        host_state r' B' F' (delete k T)) ∨
     (ret = - ENOENT ∧ (∀ k, key_matches addr lip k → T !! k = None) ∧ r' = r)).
Proof. intros Hs Ha Hl. apply wp_elim. by apply (del_host_run r B F T). Qed.

(** C33: [rt_ip_route_del_all] terminates, although it starts over after each
    removal.  Of the routes of the other devices it leaves all but one: if the device
    has an address, the entry for that address as destination and as address of the
    interface.  No route through the device survives.  The route to the address through
    the loopback device has the address of that device in its key, and so survives unless
    that is the same. *)
Theorem rt_ip_route_del_all_correct r B F T d D :
  host_state r B F T → devs (kern r) !! d = Some D → is_u32 (local_ip D) →
  ∃ r' B' F' T', rt_ip_route_del_all d r = Some ((), r') ∧ kern r' = kern r ∧
    host_state r' B' F' T' ∧
    T' = (if local_ip D =? 0 then without_dev T d
          else delete (local_ip D, local_ip D) (without_dev T d)) ∧
    ∀ k v, T' !! k = Some v → v.1 ≠ d.
Proof.
  intros Hs HD Hip.
  destruct (wp_elim _ _ _ (del_all_run r B F T d D Hs HD Hip)) as ([] & r' & E & Ek & B' & F' & Hs').
  exists r', B', F'. eexists. split_and!; [done..|].
  intros k v Hk. assert (Hw : without_dev T d !! k = Some v).
  { destruct (local_ip D =? 0); [done|]. by apply lookup_delete_Some in Hk as []. }
  by apply map_lookup_filter_Some in Hw as [_ ?].
Qed.

Lemma route_output_run r B F T daddr saddr :
  CONFIG_RTNET_RTIPV4_NETROUTING = false → host_state r B F T → is_u32 daddr →
  ∃ ret dst r', rt_ip_route_output daddr saddr r = Some ((ret, dst), r') ∧ host_state r' B F T ∧
    ((ret = 0 ∧ ∃ x d D, dst = Some x ∧ route_for r T daddr saddr daddr d x ∧
        devs (kern r) !! d = Some D ∧
        r' = r <| kern := (kern r) <| devs := <[d := D <| refcount := refcount D + 1 |>]> (devs (kern r)) |> |>)
     ∨ (ret = - EHOSTUNREACH ∧ dst = None ∧ r' = r ∧
        ∀ k, key_matches daddr (saddr_lip saddr) k → T !! k = None)).
Proof.
  intros Hnr Hs Haddr. destruct (wp_elim _ _ _ (output_host_run r B F T daddr saddr daddr Hs Haddr))
    as ([x|] & r' & E & Hs' & Hres); unfold rt_ip_route_output; cbn; unfold mbind, M_bind;
    rewrite E, ?Hnr; cbn.
  - destruct Hres as (d & D & ? & ? & ?). eexists _, _, _. split; [done|]. split; [done|]. left.
    split; [done|]. by exists x, d, D.
  - destruct Hres as [-> ?]. eexists _, _, _. split; [done|]. split; [done|]. by right.
Qed.
(** without network routing [rt_ip_route_output] returns 0 exactly when the
    map has a route to the destination on an acceptable interface (any for the
    wildcard source address, else the one that has the source address).  It then
    hands out that device and hardware address and takes one reference on the
    device; otherwise it returns -EHOSTUNREACH and changes nothing. *)
Theorem rt_ip_route_output_correct r B F T daddr saddr :
  CONFIG_RTNET_RTIPV4_NETROUTING = false → host_state r B F T → is_u32 daddr →
  ∃ ret dst r', rt_ip_route_output daddr saddr r = Some ((ret, dst), r') ∧ host_state r' B F T ∧
    ((ret = 0 ∧ ∃ x d D, dst = Some x ∧ route_for r T daddr saddr daddr d x ∧
        devs (kern r) !! d = Some D ∧
        r' = r <| kern := (kern r) <| devs := <[d := D <| refcount := refcount D + 1 |>]> (devs (kern r)) |> |>)
     ∨ (ret = - EHOSTUNREACH ∧ dst = None ∧ r' = r ∧
        ∀ k, key_matches daddr (saddr_lip saddr) k → T !! k = None)).
Proof. apply route_output_run. Qed.

(** round trip: a route that was added successfully is what a lookup with the
    interface's address as source address yields, with the hardware address that
    was given, whatever the table held before. *)
Theorem route_add_output_roundtrip r B F T addr mac d D r1 :
  CONFIG_RTNET_RTIPV4_NETROUTING = false →
  host_state r B F T → is_u32 addr → devs (kern r) !! d = Some D → (addr_len D ≤ length mac)%nat →
  local_ip D ≠ INADDR_ANY → rt_ip_route_add_host addr mac d r = Some (0, r1) →
  ∃ dst r2, rt_ip_route_output addr (local_ip D) r1 = Some ((0, Some dst), r2) ∧
    ip dst = addr ∧ dest_rtdev dst = Some d ∧ take (addr_len D) (dest_addr dst) = take (addr_len D) mac.
Proof.
  intros Hnr Hs Haddr HD Hmac Hip E.
  pose proof (add_host_run r B F T addr mac d D Hs Haddr HD Hmac) as Hadd.
  unfold wp in Hadd. rewrite E in Hadd. destruct Hadd as [Ek Hadd].
  case_match; [destruct Hadd as [[_ (B' & F' & Hs')]|[? _]]; [|done]|by destruct Hadd].
  assert (Elip : saddr_lip (local_ip D) = Some (local_ip D))
    by (unfold saddr_lip; by destruct (Z.eqb_spec (local_ip D) INADDR_ANY)).
  destruct (wp_elim _ _ _ (output_host_run r1 B' F' _ addr (local_ip D) addr Hs' Haddr))
    as ([x|] & r2 & E2 & _ & Hres).
  - destruct Hres as (e & E' & (Hx & Hd & k & D' & mac' & Hk & HT & HD' & _ & Hm) & _ & _).
    rewrite Elip in Hk. cbn in Hk. subst k. unfold add_route in HT. rewrite lookup_insert_eq in HT.
    injection HT as <- <-. rewrite Ek, HD in HD'. injection HD' as <-.
    exists x, r2. split; [|done]. unfold rt_ip_route_output. cbn. unfold mbind, M_bind. by rewrite E2.
  - destruct Hres as [_ Hn]. rewrite Elip in Hn. specialize (Hn _ eq_refl).
    unfold add_route in Hn. by rewrite lookup_insert_eq in Hn.
Qed.

(** initialization establishes the invariant with an empty table, for every
    configuration with at least two host routes; all route objects but the last
    of the array, which no list ever reaches, are free. *)
Theorem rt_ip_routing_init_correct k :
  (2 ≤ CONFIG_RTNET_RTIPV4_HOST_ROUTES)%nat →
  ∃ r, rt_ip_routing_init (rstate0 k) = Some (0, r) ∧ kern r = k ∧
    host_state r (replicate HOST_HASH_TBL_SIZE []) (seq 0 (CONFIG_RTNET_RTIPV4_HOST_ROUTES - 1)) ∅.
Proof.
  intros HN. set (N := CONFIG_RTNET_RTIPV4_HOST_ROUTES) in *.
  assert (Hb : ∀ i a, ¬ in_bucket (replicate HOST_HASH_TBL_SIZE []) i a).
  { intros i a (l & [-> _]%lookup_replicate & Ha). set_solver. }
  assert (Hs : ∀ r, host_routes r = link_host (N - 2) (zero_array zero_host N) →
    free_host_route r = Some 0%nat → host_hash_tbl r = replicate HOST_HASH_TBL_SIZE None →
    host_state r (replicate HOST_HASH_TBL_SIZE []) (seq 0 (N - 1)) ∅).
  { intros r Eh Ef Et. split; [split|]; rewrite ?Eh, ?Ef, ?Et.
    - by rewrite length_replicate.
    - intros i l [-> Hi]%lookup_replicate. exists None. split; [|done].
      by apply lookup_replicate.
    - pose proof (link_host_chain (N - 2) N (N - 2)) as Hl. rewrite Nat.sub_diag in Hl.
      replace (N - 1)%nat with (S (N - 2)) by lia. apply Hl; lia.
    - by intros i j a ?%Hb.
    - by intros i a ?%Hb.
    - by intros i a x ?%Hb.
    - by intros i j a b x y k' v w ?%Hb.
    - intros key v. rewrite lookup_empty. split; [done|]. by intros (i & a & x & ?%Hb & _). }
  unfold rt_ip_routing_init, when. destruct CONFIG_RTNET_RTIPV4_NETROUTING;
    (eexists; split; [reflexivity|split; [reflexivity|by apply Hs]]).
Qed.
End ops.
