(* ===== verification/Inet.v ===== *)
(** * Interface events, addresses and protocols of the IPv4 layer

    [rt_ip_ifup], [rt_ip_ifdown] and [rt_inet_aton] of stack/ipv4/af_inet.c, and
    the table of transport protocols of stack/ipv4/protocol.c. *)
From S2P Require Import Prelude State Rtdev Route RouteHost RouteOps.

(** ** Interface up and down *)
Section ifupdown.
Context `{Config}.

(** The loop of [rt_ip_ifup] over the indices [i], .. ([n] of them): a route to
    the address of every device through the loopback device [d]. *)
Fixpoint ifup_loopback (n : nat) (i : Z) (d : nat) : M rstate () :=
  match n with
  | O => mret ()
  | S n =>
      tmp ← in_kern (rtdev_get_by_index i);
      match tmp with
      | Some t =>
          T ← in_kern (dev_load t);
          D ← in_kern (dev_load d);
          rt_ip_route_add_host (local_ip T) (dev_addr D) d;;
          in_kern (rtdev_dereference t)
      | None => mret ()
      end;;
      ifup_loopback n (i + 1) d
  end.

Definition rt_ip_ifup (d : nat) (ip_addr up_broadcast_ip : Z) : M rstate () :=
  rt_ip_route_del_all d;;
  when (negb (ip_addr =? 2 ^ 32 - 1))
    (in_kern (dev_upd d (λ D, D <| local_ip := ip_addr |> <| broadcast_ip := up_broadcast_ip |>)));;
  D ← in_kern (dev_load d);
  when (negb (local_ip D =? 0))
    ((if negb (Z.land (flags D) IFF_LOOPBACK =? 0) then ifup_loopback MAX_RT_DEVICES 0 d
      else
        tmp ← in_kern rtdev_get_loopback;
        match tmp with
        | Some t =>
            T ← in_kern (dev_load t);
            rt_ip_route_add_host (local_ip D) (dev_addr T) t;;
            in_kern (rtdev_dereference t)
        | None => mret ()
        end);;
     when (negb (Z.land (flags D) IFF_BROADCAST =? 0))
       (rt_ip_route_add_host up_broadcast_ip (broadcast D) d;; mret ())).

Definition rt_ip_ifdown (d : nat) : M rstate () := rt_ip_route_del_all d.

(** taking an interface down removes every route through it, but the route to
    the interface's own address that [rt_ip_ifup] installed on the loopback device
    survives whenever the loopback device has another address: the final deletion
    of [rt_ip_route_del_all] looks for it on an interface with the address of the
    device that goes down. *)
Theorem ifdown_keeps_loopback_route r B F T d D lo L mac :
  host_state r B F T → devs (kern r) !! d = Some D → devs (kern r) !! lo = Some L →
  is_u32 (local_ip D) → lo ≠ d → local_ip L ≠ local_ip D →
  T !! (local_ip D, local_ip L) = Some (lo, mac) →
  ∃ r' B' F' T', rt_ip_ifdown d r = Some ((), r') ∧ host_state r' B' F' T' ∧
    (∀ k v, T' !! k = Some v → v.1 ≠ d) ∧ T' !! (local_ip D, local_ip L) = Some (lo, mac).
Proof.
  intros Hs HD HL Hip Hlo Hne HT.
  destruct (wp_elim _ _ _ (del_all_run r B F T d D Hs HD Hip)) as ([] & r' & E & _ & B' & F' & Hs').
  exists r', B', F'. eexists. split; [exact E|]. split; [exact Hs'|].
  assert (Hw : without_dev T d !! (local_ip D, local_ip L) = Some (lo, mac))
    by (by apply map_lookup_filter_Some).
  split.
  - intros k v Hk. destruct (local_ip D =? 0);
      [|apply lookup_delete_Some in Hk as [_ Hk]]; by apply map_lookup_filter_Some in Hk as [_ ?].
  - destruct (local_ip D =? 0); [done|]. rewrite lookup_delete_ne; [done|]. congruence.
Qed.
End ifupdown.

(** ** Dotted addresses *)

(** The loop of [rt_inet_aton]: [p] and [n] as in the code, [u] the four
    characters of the union ([u.c]); 46 is ['.'], 48 is ['0'].  A dot past the
    fourth character would be written outside the union. *)
Fixpoint aton_loop (ip0 : list Z) (p : nat) (n : Z) (u : list Z) : option (option (Z * list Z)) :=
  match ip0 with
  | [] => Some (Some (n, u))
  | c :: ip0 =>
      if c =? 0 then Some (Some (n, u))
      else if negb (c =? 46) then aton_loop ip0 p (n * 10 + c - 48) u
      else if 255 <? n then Some None
      else if (p <? 4)%nat then aton_loop ip0 (S p) 0 (<[p := u8 n]> u) else None
  end.
(** The four bytes of the result in memory order; [Some None] stands for the
    return value 0, [None] for the undefined behaviour above. *)
Definition rt_inet_aton (ip0 : list Z) : option (option (list Z)) :=
  match aton_loop ip0 0 0 (replicate 4 0) with
  | Some (Some (n, u)) => Some (Some (<[3%nat := u8 n]> u))
  | Some None => Some None
  | None => None
  end.

(** The decimal digits of an octet, and a dotted quad. *)
Definition octet (n : Z) : list Z :=
  if n <? 10 then [48 + n]
  else if n <? 100 then [48 + n / 10; 48 + n mod 10]
  else [48 + n / 100; 48 + n / 10 mod 10; 48 + n mod 10].
Definition dotted (a b c d : Z) : list Z :=
  octet a ++ [46] ++ octet b ++ [46] ++ octet c ++ [46] ++ octet d ++ [0].

Section aton.
Lemma aton_digit c ip0 p n u :
  48 ≤ c ≤ 57 → aton_loop (c :: ip0) p n u = aton_loop ip0 p (n * 10 + c - 48) u.
Proof.
  intros Hc. cbn [aton_loop]. destruct (Z.eqb_spec c 0); [lia|]. by destruct (Z.eqb_spec c 46); [lia|].
Qed.
Lemma aton_octet n ip0 p u :
  0 ≤ n < 256 → aton_loop (octet n ++ ip0) p 0 u = aton_loop ip0 p n u.
Proof.
  intros Hn. unfold octet. destruct (Z.ltb_spec n 10); [|destruct (Z.ltb_spec n 100)]; cbn [app].
  - rewrite aton_digit by lia. f_equal. lia.
  - rewrite !aton_digit by divlia. f_equal. divlia.
  - rewrite !aton_digit by divlia. f_equal. divlia.
Qed.
Lemma aton_dot ip0 p n u :
  0 ≤ n < 256 → (p < 4)%nat → aton_loop (46 :: ip0) p n u = aton_loop ip0 (S p) 0 (<[p := n]> u).
Proof.
  intros Hn Hp. cbn [aton_loop]. cbn [Z.eqb negb]. destruct (Z.ltb_spec 255 n); [lia|].
  destruct (Nat.ltb_spec p 4); [|lia]. unfold u8. by rewrite Z.mod_small by lia.
Qed.

(** [rt_inet_aton] parses what a dotted quad prints: the four octets come
    back in order. *)
Theorem rt_inet_aton_dotted a b c d :
  0 ≤ a < 256 → 0 ≤ b < 256 → 0 ≤ c < 256 → 0 ≤ d < 256 →
  rt_inet_aton (dotted a b c d) = Some (Some [a; b; c; d]).
Proof.
  intros Ha Hb Hc Hd. unfold rt_inet_aton, dotted.
  rewrite aton_octet by done. cbn [app]. rewrite aton_dot by (done || lia).
  rewrite aton_octet by done. cbn [app]. rewrite aton_dot by (done || lia).
  rewrite aton_octet by done. cbn [app]. rewrite aton_dot by (done || lia).
  rewrite aton_octet by done. cbn. unfold u8. by rewrite Z.mod_small by lia.
Qed.
End aton.

(** ** Transport protocols (protocol.c) *)

Definition MAX_RT_INET_PROTOCOLS : nat := 32.
Definition rt_inet_hashkey (id : Z) : nat := Z.to_nat (Z.land id (Z.of_nat MAX_RT_INET_PROTOCOLS - 1)).
Definition IPPROTO_ICMP := 1.
Definition IPPROTO_TCP := 6.
Definition IPPROTO_UDP := 17.

Inductive socket_type := SOCK_STREAM | SOCK_DGRAM | SOCK_RAW.

(** A protocol: its identity as an object and its number. *)
Record rtinet_protocol := mk_protocol { prot_addr : nat; prot_protocol : Z }.
Abbreviation prot_table := (list (option rtinet_protocol)).

Definition rt_inet_add_protocol (prot : rtinet_protocol) (t : prot_table) : prot_table :=
  let hash := rt_inet_hashkey (u8 (prot_protocol prot)) in
  match t !! hash with
  | Some None => <[hash := Some prot]> t
  | _ => t
  end.

Definition rt_inet_del_protocol (prot : rtinet_protocol) (t : prot_table) : prot_table :=
  let hash := rt_inet_hashkey (u8 (prot_protocol prot)) in
  match t !! hash with
  | Some (Some p) => if decide (prot_addr p = prot_addr prot) then <[hash := None]> t else t
  | _ => t
  end.

(** The protocol whose [init_socket] is called, or the error. *)
Definition rt_inet_socket (ty : socket_type) (protocol0 : Z) (t : prot_table) : rtinet_protocol + Z :=
  let protocol1 :=
    if protocol0 =? 0 then
      match ty with SOCK_DGRAM => IPPROTO_UDP | SOCK_STREAM => IPPROTO_TCP | SOCK_RAW => protocol0 end
    else protocol0 in
  match t !! rt_inet_hashkey protocol1 with
  | Some (Some prot) => if prot_protocol prot =? protocol1 then inl prot else inr (- ENOPROTOOPT)
  | _ => inr (- ENOPROTOOPT)
  end.

Section protocols.
Lemma hashkey_bound id : (rt_inet_hashkey id < MAX_RT_INET_PROTOCOLS)%nat.
Proof.
  unfold rt_inet_hashkey. pose proof (land_nonneg_bound id (Z.of_nat MAX_RT_INET_PROTOCOLS - 1)).
  unfold MAX_RT_INET_PROTOCOLS in *. lia.
Qed.

(** a protocol added to a free slot is the one that creates the sockets for
    its number until it is deleted, after which they fail with -ENOPROTOOPT; the
    other numbers are not affected by either.  Adding to an occupied slot, and
    deleting a protocol that is not the registered one, change nothing. *)
Theorem protocol_table_correct t p ty id :
  length t = MAX_RT_INET_PROTOCOLS → 0 < prot_protocol p < 256 → id ≠ 0 →
  let h := rt_inet_hashkey (prot_protocol p) in
  (t !! h = Some None →
     rt_inet_socket ty (prot_protocol p) (rt_inet_add_protocol p t) = inl p ∧
     rt_inet_socket ty (prot_protocol p) (rt_inet_del_protocol p (rt_inet_add_protocol p t))
       = inr (- ENOPROTOOPT) ∧
     (id ≠ prot_protocol p →
      rt_inet_socket ty id (rt_inet_add_protocol p t) = rt_inet_socket ty id t) ∧
     rt_inet_del_protocol p (rt_inet_add_protocol p t) = t) ∧
  (∀ q, t !! h = Some (Some q) →
     rt_inet_add_protocol p t = t ∧ (prot_addr q ≠ prot_addr p → rt_inet_del_protocol p t = t)).
Proof.
  intros Hlen Hp Hid h. pose proof (hashkey_bound (prot_protocol p)) as Hb. fold h in Hb.
  assert (Eh : rt_inet_hashkey (u8 (prot_protocol p)) = h) by (unfold u8; by rewrite Z.mod_small by lia).
  assert (Hz : prot_protocol p =? 0 = false) by lia. assert (Hz' : id =? 0 = false) by lia.
  unfold rt_inet_socket, rt_inet_add_protocol, rt_inet_del_protocol. rewrite Eh, Hz, Hz'. split.
  - intros Hfree. rewrite Hfree. fold h. rewrite list_lookup_insert_eq by lia.
    rewrite Z.eqb_refl, decide_True by done.
    rewrite list_insert_insert_eq, list_insert_id by done. rewrite Hfree. split_and!; try done.
    intros Hne. destruct (decide (rt_inet_hashkey id = h)) as [Ek|Ek].
    + rewrite Ek, list_lookup_insert_eq, Hfree by lia. by rewrite (proj2 (Z.eqb_neq _ _)) by done.
    + by rewrite list_lookup_insert_ne by done.
  - intros q Hq. rewrite Hq. split; [done|]. intros Ha. by rewrite decide_False.
Qed.
End protocols.
