(* ===== verification/IpFragment.v ===== *)
(** * Reassembly of IP fragments (stack/ipv4/ip_fragment.c)

    Ten collectors gather the fragments of a message as a chain of buffers.  Only
    fragments that arrive in order are accepted; the buffers of a message are
    charged to the pool of the socket it is for. *)
From S2P Require Import Prelude State RtskbQueue Rtskb RtskbData.

(** ** IP headers *)

Record iphdr := mk_iphdr {
  ihl : Z;
  iph_id : Z;
  frag_off : Z;
  iph_protocol : Z;
  iph_saddr : Z;
  iph_daddr : Z;
}.
(** [skb->nh.iph]: the header at the network header pointer. *)
Definition iph `{Config} (x : rtskb) : option iphdr :=
  v ← buf_read x (nh_raw x) 1;
  i ← buf_read x (nh_raw x + 4) 2 ≫= rd16;
  f ← buf_read x (nh_raw x + 6) 2 ≫= rd16;
  p ← buf_read x (nh_raw x + 9) 1;
  s ← buf_read x (nh_raw x + 12) 4 ≫= rd32;
  d ← buf_read x (nh_raw x + 16) 4 ≫= rd32;
  match v, p with
  | [v], [p] => Some (mk_iphdr (Z.land v 15) i f p s d)
  | _, _ => None
  end.

Definition IP_MF := 8192.
Definition IP_OFFSET := 8191.
(** [offset] and [more_frags] of [rt_ip_defrag]. *)
Definition frag_offset `{Config} (h : iphdr) : Z := Z.shiftl (Z.land (ntohs (frag_off h)) IP_OFFSET) 3.
Definition more_frags `{Config} (h : iphdr) : bool := negb (Z.land (ntohs (frag_off h)) IP_MF =? 0).

(** ** State *)

Record ip_collector := mk_collector {
  coll_in_use : bool;
  coll_saddr : Z;
  coll_daddr : Z;
  coll_id : Z;
  coll_protocol : Z;
  frags_first : option nat;
  frags_last : option nat;
  coll_sock : option nat;
  buf_size : Z;
}.
#[export] Instance collector_eta : Settable ip_collector := λ r,
  mk_collector (coll_in_use r) (coll_saddr r) (coll_daddr r) (coll_id r) (coll_protocol r)
    (frags_first r) (frags_last r) (coll_sock r) (buf_size r).

Record fstate := mk_fstate {
  fkern : kstate;
  socks : gmap nat rtsocket;
  collector : list ip_collector;
}.
#[export] Instance fstate_eta : Settable fstate := λ r, mk_fstate (fkern r) (socks r) (collector r).

Definition COLLECTOR_COUNT : nat := 10.

Section defs.
Context `{Config}.
(** The handler RTproxy installs for packets RTnet has no receiver for, and the
    [dest_socket] function of a transport protocol, which references the socket. *)
Context (rt_ip_fallback_handler : option (nat → M fstate ())).
Context (dest_socket : nat → M fstate (option nat)).

Definition in_fkern {A} : M kstate A → M fstate A := zoom fkern (λ k s, s <| fkern := k |>).
Definition coll_upd (i : nat) (f : ip_collector → ip_collector) : M fstate () :=
  cs ← gets collector;
  c ← deref (cs !! i);
  modify (λ s, s <| collector := <[i := f c]> (collector s) |>).
Definition sock_load (a : nat) : M fstate rtsocket := m ← gets socks; deref (m !! a).
Definition rt_socket_dereference (a : nat) : M fstate () :=
  S ← sock_load a;
  modify (λ s, s <| socks := <[a := S <| close_lock_count := close_lock_count S - 1 |>]> (socks s) |>).

(** The first index whose collector satisfies [f]. *)
Fixpoint find_coll (f : ip_collector → bool) (cs : list ip_collector) (i : nat) : option (nat * ip_collector) :=
  match cs with
  | [] => None
  | c :: cs => if f c then Some (i, c) else find_coll f cs (S i)
  end.

Definition load_iph (skb : nat) : M fstate iphdr :=
  x ← in_fkern (skb_load skb); deref (iph x).

Definition alloc_collector (skb sock : nat) : M fstate () :=
  h ← load_iph skb;
  cs ← gets collector;
  match find_coll (λ c, negb (coll_in_use c)) cs 0 with
  | Some (i, _) =>
      x ← in_fkern (skb_load skb);
      coll_upd i (λ _, mk_collector true (iph_saddr h) (iph_daddr h) (iph_id h) (iph_protocol h)
                         (Some skb) (Some skb) (Some sock) (len x))
  | None => in_fkern (kfree_rtskb (Some skb))
  end.

Definition coll_matches (h : iphdr) (c : ip_collector) : bool :=
  coll_in_use c && (iph_saddr h =? coll_saddr c) && (iph_daddr h =? coll_daddr c) &&
  (iph_id h =? coll_id c) && (iph_protocol h =? coll_protocol c).

(** The end of [add_to_collector]: the packet goes to RTproxy, if that is there,
    or is dropped. *)
Definition no_collector (skb : nat) (h : iphdr) : M fstate (option nat) :=
  match (if CONFIG_RTNET_ADDON_PROXY then rt_ip_fallback_handler else None) with
  | Some handler =>
      in_fkern (skb_upd skb (λ x, snd (__rtskb_push (ihl h * 4) x)));;
      handler skb;;
      mret None
  | None => in_fkern (kfree_rtskb (Some skb));; mret None
  end.

(** The optimized [__rtskb_queue_tail] and the extension of the chain. *)
Definition link_frag (first_skb last_skb skb : nat) : M kstate () :=
  skb_upd skb (λ x, x <| next := None |>);;
  skb_upd last_skb (λ x, x <| next := Some skb |>);;
  skb_upd first_skb (λ x, x <| chain_end := Some skb |>);;
  when CONFIG_RTNET_CHECKED (skb_upd first_skb (λ x, x <| chain_len := u32 (chain_len x + 1) |>)).

Definition add_to_collector (skb : nat) (offset : Z) (more : bool) : M fstate (option nat) :=
  h ← load_iph skb;
  cs ← gets collector;
  match find_coll (coll_matches h) cs 0 with
  | None => no_collector skb h
  | Some (i, c) =>
      first_skb ← deref (frags_first c);
      sk0 ← deref (coll_sock c);
      S ← sock_load sk0;
      ret ← in_fkern (rtskb_acquire skb (skb_pool S));
      if negb (ret =? 0) then
        coll_upd i (λ c, c <| coll_in_use := false |>);;
        in_fkern (kfree_rtskb (Some first_skb));;
        in_fkern (kfree_rtskb (Some skb));;
        mret None
      else
        last_skb ← deref (frags_last c);
        in_fkern (link_frag first_skb last_skb skb);;
        coll_upd i (λ c, c <| frags_last := Some skb |>);;
        if negb (offset =? buf_size c) then
          coll_upd i (λ c, c <| coll_in_use := false |>);;
          no_collector first_skb h
        else
          x ← in_fkern (skb_load skb);
          coll_upd i (λ c, c <| buf_size := u32 (buf_size c + len x) |>);;
          if negb more then
            coll_upd i (λ c, c <| coll_in_use := false |>);;
            mret (Some first_skb)
          else mret None
  end.

(** Both clean-up loops: the collectors that satisfy [f] are given up. *)
Fixpoint clean_loop (f : ip_collector → bool) (n i : nat) : M fstate () :=
  match n with
  | O => mret ()
  | S n =>
      cs ← gets collector;
      c ← deref (cs !! i);
      when (coll_in_use c && f c)
        (coll_upd i (λ c, c <| coll_in_use := false |>);;
         in_fkern (kfree_rtskb (frags_first c)));;
      clean_loop f n (S i)
  end.
Definition rt_ip_frag_invalidate_socket (sock : nat) : M fstate () :=
  clean_loop (λ c, bool_decide (coll_sock c = Some sock)) COLLECTOR_COUNT 0.
Definition cleanup_all_collectors : M fstate () := clean_loop (λ _, true) COLLECTOR_COUNT 0.

Definition rt_ip_defrag (skb : nat) : M fstate (option nat) :=
  h ← load_iph skb;
  let offset := frag_offset h in
  if offset =? 0 then
    sock ← dest_socket skb;
    match sock with
    | None => no_collector skb h
    | Some sock =>
        S ← sock_load sock;
        ret ← in_fkern (rtskb_acquire skb (skb_pool S));
        rt_socket_dereference sock;;
        (if negb (ret =? 0) then in_fkern (kfree_rtskb (Some skb))
         else alloc_collector skb sock);;
        mret None
    end
  else add_to_collector skb offset (more_frags h).

(** [memset(collector, 0, sizeof(collector))] *)
Definition zero_collector : ip_collector := mk_collector false 0 0 0 0 None None None 0.
Definition rt_ip_fragment_init : M fstate Z :=
  modify (λ s, s <| collector := replicate COLLECTOR_COUNT zero_collector |>);; mret 0.
Definition rt_ip_fragment_cleanup : M fstate () := cleanup_all_collectors.
End defs.

(** ** Specification *)

Section spec.
Context `{Config}.
Implicit Types (s : kstate) (f : fstate) (h : gmap nat rtskb) (C : gmap nat (list nat)) (l : list nat).

(** The buffers [l] carry consecutive fragments: the first has offset [off], each
    other begins where its predecessor ends, and the last ends at [off']. *)
Fixpoint contiguous h (off : Z) l (off' : Z) : Prop :=
  match l with
  | [] => off = off'
  | a :: l => ∃ x i, h !! a = Some x ∧ iph x = Some i ∧ frag_offset i = off ∧
                     contiguous h (u32 (off + len x)) l off'
  end.

(** What the fragments of one message have in common. *)
Definition hdr_key (i : iphdr) : Z * Z * Z * Z := (iph_saddr i, iph_daddr i, iph_id i, iph_protocol i).
Definition coll_key (c : ip_collector) : Z * Z * Z * Z := (coll_saddr c, coll_daddr c, coll_id c, coll_protocol c).
Definition keyed h (key : Z * Z * Z * Z) l : Prop :=
  ∀ a, a ∈ l → ∃ x i, h !! a = Some x ∧ iph x = Some i ∧ hdr_key i = key.

(** Collector [c] holds the message of the buffers [l]: a chain, contiguous from
    offset 0, of used buffers that belong to the pool of the socket, all with the
    addresses, the identification and the protocol of the collector. *)
Record coll_ok s (sm : gmap nat rtsocket) C (c : ip_collector) l : Prop := {
  co_chain : ∃ p, frags_first c = Some p ∧ is_chain (skbs s) p l;
  co_last : frags_last c = last l;
  co_pool : ∃ sk0 S, coll_sock c = Some sk0 ∧ sm !! sk0 = Some S ∧ is_Some (C !! skb_pool S) ∧
                     releasable s C (skb_pool S) l;
  co_cont : contiguous (skbs s) 0 l (buf_size c);
  co_keys : keyed (skbs s) (coll_key c) l;
}.

Record frag_inv f C (L : list (list nat)) : Prop := {
  fi_pools : pools_inv (fkern f) C;
  fi_count : length (collector f) = COLLECTOR_COUNT;
  fi_len : length L = COLLECTOR_COUNT;
  fi_coll : ∀ i c l, collector f !! i = Some c → L !! i = Some l →
    if coll_in_use c then coll_ok (fkern f) (socks f) C c l else l = [];
  fi_disj : ∀ i j l k a, L !! i = Some l → L !! j = Some k → a ∈ l → a ∈ k → i = j;
}.

(** A received fragment: a used buffer of its own, of pool [r], held by no
    collector and not shared with RTcap. *)
Record fragment f C (L : list (list nat)) (p : nat) (x : rtskb) (r : nat) : Prop := {
  fr_skb : skbs (fkern f) !! p = Some x;
  fr_end : chain_end x = Some p;
  fr_pool : pool x = Some r;
  fr_owner : is_Some (C !! r);
  fr_used : in_use C p;
  fr_new : ∀ i l, L !! i = Some l → p ∉ l;
  fr_cap : CONFIG_RTNET_ADDON_RTCAP = true → Z.land (cap_flags x) RTSKB_CAP_SHARED = 0;
}.

Lemma contiguous_app h off l1 l2 off' :
  contiguous h off (l1 ++ l2) off' ↔ ∃ m, contiguous h off l1 m ∧ contiguous h m l2 off'.
Proof.
  revert off. induction l1 as [|a l1 IH]; intros off; cbn; [naive_solver|].
  setoid_rewrite IH. naive_solver.
Qed.
(** [h'] keeps what matters of the buffers [l]. *)
Definition frag_view (x : rtskb) := (len x, iph x, pool x, cap_flags x).
Lemma contiguous_frame h h' off l off' :
  contiguous h off l off' → (∀ a, a ∈ l → frag_view <$> h' !! a = frag_view <$> h !! a) →
  contiguous h' off l off'.
Proof.
  revert off. induction l as [|a l IH]; intros off; cbn [contiguous]; [done|].
  intros (x & i & Hx & Hi & Ho & Hc) Hv.
  assert (Ha : frag_view <$> h' !! a = frag_view <$> h !! a) by (apply Hv; set_solver).
  rewrite Hx in Ha. destruct (h' !! a) as [y|]; [|done].
  assert (E : frag_view y = frag_view x) by (by apply (inj Some)).
  injection E as El Ei _ _. exists y, i. rewrite El, Ei. split_and!; try done. apply IH; [done|set_solver].
Qed.
Lemma keyed_frame h h' key l :
  keyed h key l → (∀ a, a ∈ l → frag_view <$> h' !! a = frag_view <$> h !! a) → keyed h' key l.
Proof.
  intros Hk Hv a Ha. destruct (Hk a Ha) as (x & i & Hx & Hi & E). specialize (Hv a Ha). rewrite Hx in Hv.
  destruct (h' !! a) as [y|]; [|done]. apply (inj Some) in Hv. injection Hv as _ Ei _ _. exists y, i. by rewrite Ei.
Qed.
Lemma matches_key i c : coll_matches i c = true ↔ coll_in_use c = true ∧ hdr_key i = coll_key c.
Proof.
  unfold coll_matches, hdr_key, coll_key. rewrite !andb_true_iff, !Z.eqb_eq. split.
  - by intros [[[[-> ->] ->] ->] ->].
  - intros [-> E]. by injection E as -> -> -> ->.
Qed.
Lemma releasable_frame s s' C C' q l :
  releasable s C q l → (∀ a, a ∈ l → frag_view <$> skbs s' !! a = frag_view <$> skbs s !! a) →
  (∀ a, a ∈ l → in_use C a → in_use C' a) → releasable s' C' q l.
Proof.
  intros Hrel Hv Hu a Ha. destruct (Hrel a Ha) as [Huse Hx]. split; [auto|].
  intros y Hy. specialize (Hv a Ha). rewrite Hy in Hv.
  destruct (skbs s !! a) as [x|]; [|done]. apply (inj Some) in Hv. injection Hv as _ _ Ep Ec.
  rewrite Ep, Ec. by apply Hx.
Qed.
Lemma is_chain_frame h h' p l :
  is_chain h p l → (∀ a, a ∈ l → h' !! a = h !! a) → is_chain h' p l.
Proof.
  intros (x & r & Hh & Hx & Hce & Hs & Hnd) Hv. exists x, r. split_and!; try done.
  - rewrite Hv; [done|]. destruct l; simplify_eq/=. set_solver.
  - eapply lseg_frame; [exact Hs|]. intros a y Ha Hy. exists y. by rewrite Hv.
Qed.

Lemma coll_ok_frame s s' sm C C' c l :
  coll_ok s sm C c l → (∀ a, a ∈ l → skbs s' !! a = skbs s !! a) →
  (∀ a, a ∈ l → in_use C a → in_use C' a) → (∀ q, is_Some (C !! q) → is_Some (C' !! q)) →
  coll_ok s' sm C' c l.
Proof.
  intros [(p & Hp & Hc) Hl (sk0 & S & Hs & HS & HC & Hr) Hcont Hkey] Hv Hu Hdom. split.
  - exists p. split; [done|]. by eapply is_chain_frame.
  - done.
  - exists sk0, S. split_and!; [done..|auto|]. eapply releasable_frame; [done| |done].
    intros a Ha. by rewrite Hv.
  - eapply contiguous_frame; [done|]. intros a Ha. by rewrite Hv.
  - eapply keyed_frame; [done|]. intros a Ha. by rewrite Hv.
Qed.
End spec.

(** ** Rules *)

Section rules.
Context `{Config}.
Implicit Types (s : kstate) (f : fstate) (C : gmap nat (list nat)) (l T : list nat).

(** From [s] with free buffers [C] to [s'] with [C']: used buffers outside [T]
    stay used and keep their contents, and no pool disappears. *)
Record evolves s C s' C' T : Prop := {
  ev_pools : pools_inv s' C';
  ev_keep : ∀ b, b ∉ T → in_use C b → skbs s' !! b = skbs s !! b ∧ in_use C' b;
  ev_dom : ∀ q, is_Some (C !! q) → is_Some (C' !! q);
}.
Lemma evolves_trans s1 C1 s2 C2 s3 C3 T1 T2 T :
  evolves s1 C1 s2 C2 T1 → evolves s2 C2 s3 C3 T2 → T1 ⊆ T → T2 ⊆ T → evolves s1 C1 s3 C3 T.
Proof.
  intros [_ K1 D1] [P2 K2 D2] HT1 HT2. split; [done| |auto].
  intros b Hb Hu. destruct (K1 b) as [E1 U1]; [set_solver|done|].
  destruct (K2 b) as [E2 U2]; [set_solver|done|]. split; [congruence|done].
Qed.

Lemma wp_acquire s C p x r comp l (Q : Z → kstate → Prop) :
  pools_inv s C → C !! comp = Some l → is_Some (C !! r) →
  skbs s !! p = Some x → pool x = Some r → in_use C p →
  (l = [] → Q (- ENOMEM) s) →
  (∀ s' C', l ≠ [] → evolves s C s' C' [p] → in_use C' p →
     skbs s' !! p = Some (x <| pool := Some comp |>) → Q 0 s') →
  wp (rtskb_acquire p comp) Q s.
Proof.
  intros Hinv Hl Hr Hx Hpx Huse Hfail Hok. eapply wp_mono; [|by eapply acquire_run]. cbn beta.
  intros ret s'. destruct l as [|a l]; [intros [-> ->]; auto|].
  intros (-> & _ & (lr & Hlr & Hinv' & Hu') & _ & _ & _ & Hx' & _ & Hframe).
  eapply Hok; [done| |exact Hu'|done]. split; [done|..].
  - intros b Hb Hub. split; [apply Hframe; [set_solver|done]|].
    assert (Hba : b ∉ a :: l) by (by eapply Hub).
    assert (Hblr : b ∉ lr).
    { destruct (decide (comp = r)) as [->|]; simplify_map_eq; [set_solver|by eapply (Hub r)]. }
    apply in_use_insert; [apply in_use_insert; [done|set_solver]|set_solver].
  - intros q Hq. destruct (decide (r = q)) as [->|]; [simplify_map_eq; eauto|].
    destruct (decide (comp = q)) as [->|]; by simplify_map_eq.
Qed.

Lemma wp_kfree s C p c q (Q : () → kstate → Prop) :
  pools_inv s C → is_Some (C !! q) → is_chain (skbs s) p c → releasable s C q c →
  (∀ s' C', evolves s C s' C' c → (∀ a, a ∈ c ∨ ¬ in_use C a → ¬ in_use C' a) → Q () s') →
  wp (kfree_rtskb (Some p)) Q s.
Proof.
  intros Hinv [k Hk] Hc Hrel HQ. eapply wp_mono; [|by eapply kfree_rtskb_run]. cbn beta.
  intros [] s' (Hinv' & _ & _ & _ & Hframe). eapply HQ; [split; [done|..]|].
  - intros b Hb Hub. assert (b ∉ k ++ c) by (specialize (Hub _ _ Hk); set_solver).
    split; [by apply Hframe|by apply in_use_insert].
  - intros q' Hq'. destruct (decide (q = q')) as [->|]; simplify_map_eq; eauto.
  - intros a Ha Hu. specialize (Hu q (k ++ c)) as Hq. rewrite lookup_insert_eq in Hq.
    specialize (Hq eq_refl). destruct Ha as [Ha|Ha]; [set_solver|]. apply Ha.
    intros q' k' Hk' Hak'. destruct (decide (q = q')) as [->|]; [simplify_eq; set_solver|].
    eapply (Hu q'); [|done]. by rewrite lookup_insert_ne.
Qed.

Lemma view_insert (h : gmap nat rtskb) k x y b :
  h !! k = Some x → frag_view y = frag_view x → frag_view <$> <[k := y]> h !! b = frag_view <$> h !! b.
Proof.
  intros Hx E. destruct (decide (k = b)) as [<-|]; [|by rewrite lookup_insert_ne].
  rewrite lookup_insert_eq, Hx. by apply (f_equal Some).
Qed.

(** Extending the chain [l] of [p] by the used buffer [a]. *)
Lemma wp_link_frag s C p l e a xa (Q : () → kstate → Prop) :
  pools_inv s C → is_chain (skbs s) p l → last l = Some e → (∀ b, b ∈ l → in_use C b) →
  in_use C a → a ∉ l → skbs s !! a = Some xa →
  (∀ s', evolves s C s' C (l ++ [a]) → is_chain (skbs s') p (l ++ [a]) →
     (∀ b, frag_view <$> skbs s' !! b = frag_view <$> skbs s !! b) → Q () s') →
  wp (link_frag p e a) Q s.
Proof.
  intros Hinv Hc He Hul Hua Hal Hxa HQ. unfold link_frag.
  pose proof Hc as (xp & r & Hh & Hxp & Hce & Hseg & Hnd).
  assert (Hpl : p ∈ l) by (destruct l; simplify_eq/=; set_solver).
  assert (Hel : e ∈ l) by (by apply last_Some_elem_of).
  destruct (lseg_lookup _ _ _ _ _ e Hseg Hel) as [xe Hxe].
  assert (a ≠ e ∧ a ≠ p) as [Hae Hap] by (split; intros ->; done).
  apply wp_bind. eapply wp_use; [done|done|done|]. intros s1 I1 E1 _.
  apply wp_bind. eapply wp_use; [done|by apply Hul|rewrite E1; by simplify_map_eq|]. intros s2 I2 E2 _.
  assert (Hxp2 : ∃ y, skbs s2 !! p = Some y ∧ frag_view y = frag_view xp ∧
    next y = (if decide (p = e) then Some a else next xp)).
  { rewrite E2, E1. destruct (decide (p = e)) as [->|].
    - rewrite lookup_insert_eq. simplify_eq. eauto.
    - simplify_map_eq. eauto. }
  destruct Hxp2 as (y & Hy & Vy & Ny).
  pose (J s' := pools_inv s' C ∧ ∃ z, skbs s' = <[p := z]> (skbs s2) ∧ frag_view z = frag_view y ∧
    next z = next y ∧ chain_end z = Some a).
  apply wp_bind. eapply wp_use; [done|by apply Hul|done|]. intros s3 I3 E3 _.
  apply (wp_when J).
  { split; [done|]. eexists. split_and!; [exact E3|done..]. }
  { intros _. eapply wp_use; [done|by apply Hul|rewrite E3; by simplify_map_eq|]. intros s4 I4 E4 _.
    split; [done|]. eexists. split_and!; [rewrite E4, E3; apply insert_insert_eq|done..]. }
  clear dependent s3. intros s3 (I3 & z & E3 & Vz & Nz & Cz). apply HQ.
  - split; [done| |done]. intros b Hb Hub. split; [|done].
    rewrite E3, E2, E1. rewrite !lookup_insert_ne; [done|set_solver..].
  - exists z, None. rewrite last_snoc. split_and!; [|rewrite E3; by simplify_map_eq|done| |].
    + destruct l; simplify_eq/=. done.
    + destruct l as [|e' l0 _] using rev_ind; [done|]. rewrite last_snoc in He. injection He as ->.
      apply NoDup_app in Hnd as (_ & Hel0 & _).
      apply lseg_app. exists (Some a). split.
      * rewrite E3. eapply lseg_insert_same; [exact Hy|done|]. rewrite E2, E1.
        eapply lseg_relink; [intros ?; by eapply (Hel0 e); [|set_solver]| |done].
        apply lseg_insert_ne; [set_solver|exact Hseg].
      * cbn [lseg]. split; [done|]. exists (xa <| next := None |>). split; [|done].
        rewrite E3, E2, E1. by rewrite !lookup_insert_ne, lookup_insert_eq by congruence.
    + apply NoDup_app. split_and!; [done|set_solver|apply NoDup_singleton].
  - intros b. rewrite E3, (view_insert (skbs s2) p y z b Hy Vz), E2.
    rewrite (view_insert (skbs s1) e xe); [|rewrite E1; by rewrite lookup_insert_ne|done].
    rewrite E1. by rewrite (view_insert (skbs s) a xa).
Qed.
End rules.

Section ops.
Context `{Config}.
Implicit Types (s : kstate) (f : fstate) (C : gmap nat (list nat)) (l T : list nat) (L : list (list nat)).

Lemma wp_in_fkern {A} (m : M kstate A) (Q : A → fstate → Prop) f :
  wp m (λ a k, Q a (f <| fkern := k |>)) (fkern f) → wp (in_fkern m) Q f.
Proof. intros Hw. by apply (wp_zoom fkern (λ k f, f <| fkern := k |>)). Qed.
Lemma wp_coll_upd i g c (Q : () → fstate → Prop) f :
  collector f !! i = Some c → Q () (f <| collector := <[i := g c]> (collector f) |>) →
  wp (coll_upd i g) Q f.
Proof. intros Hc HQ. unfold coll_upd. wp_run. done. Qed.
Lemma wp_load_iph p x i (Q : iphdr → fstate → Prop) f :
  skbs (fkern f) !! p = Some x → iph x = Some i → Q i f → wp (load_iph p) Q f.
Proof.
  intros Hx Hi HQ. unfold load_iph. apply wp_bind, wp_in_fkern. eapply wp_skb_load; [done|].
  eapply wp_deref; [done|]. by destruct f.
Qed.

Lemma find_coll_spec (g : ip_collector → bool) cs i0 :
  match find_coll g cs i0 with
  | Some (i, c) => ∃ k, i = (i0 + k)%nat ∧ cs !! k = Some c ∧ g c = true
  | None => ∀ j c, cs !! j = Some c → g c = false
  end.
Proof.
  revert i0. induction cs as [|c cs IH]; intros i0; cbn [find_coll]; [done|].
  destruct (g c) eqn:Hg; [exists O; split_and!; [lia|done..]|].
  specialize (IH (S i0)). destruct (find_coll g cs (S i0)) as [[i c']|].
  - destruct IH as (k & -> & Hk & ?). exists (S k). split_and!; [lia|done..].
  - intros [|j] c' Hj; simplify_eq/=; eauto.
Qed.

(** The collectors after a step that touches only the message of collector [i]. *)
Lemma frag_inv_evolve f C L i c l c' l' s' C' T f' :
  frag_inv f C L → collector f !! i = Some c → L !! i = Some l →
  fkern f' = s' → socks f' = socks f → collector f' = <[i := c']> (collector f) →
  evolves (fkern f) C s' C' T →
  (∀ a j k, a ∈ T ++ l' → j ≠ i → L !! j = Some k → a ∉ k) →
  (if coll_in_use c' then coll_ok s' (socks f) C' c' l' else l' = []) →
  frag_inv f' C' (<[i := l']> L).
Proof.
  intros [Hp Hn Hl0 Hcoll Hdisj] Hc Hl Es Em Ec [Hp' Hkeep Hdom] HT Hc'.
  pose proof (lookup_lt_Some _ _ _ Hc). pose proof (lookup_lt_Some _ _ _ Hl).
  split; rewrite ?Es, ?Em, ?Ec, ?length_insert; [done..| |].
  - intros j d k [(<- & <- & _)|(Hne & Hd)]%list_lookup_insert_Some.
    + rewrite list_lookup_insert_eq by done. by intros [= <-].
    + rewrite list_lookup_insert_ne by done. intros Hk. specialize (Hcoll j d k Hd Hk).
      destruct (coll_in_use d); [|done].
      assert (Hu : ∀ a, a ∈ k → in_use C a).
      { destruct Hcoll as [_ _ (sk0 & S & _ & _ & _ & Hr) _ _]. intros a Ha. by apply Hr. }
      assert (HaT : ∀ a, a ∈ k → a ∉ T) by (intros a Ha HaT; by apply (HT a j k); [set_solver|..]).
      eapply coll_ok_frame; [done|..|done]; intros a Ha; [apply Hkeep; auto|].
      intros Hua. apply Hkeep; auto.
  - assert (Hdj : ∀ j k a, j ≠ i → L !! j = Some k → a ∈ l' → a ∉ k).
    { intros j k a Hne Hk Ha. by apply (HT a j k); [set_solver|..]. }
    intros j1 j2 k1 k2 a [(<- & <- & _)|(Hne1 & Hk1)]%list_lookup_insert_Some
      [(<- & <- & _)|(Hne2 & Hk2)]%list_lookup_insert_Some Ha1 Ha2; [done|..|eauto].
    + exfalso. by eapply (Hdj j2).
    + exfalso. by eapply (Hdj j1).
Qed.
(** ... and after one that touches no message. *)
Lemma frag_inv_evolve0 f C L s' C' T :
  frag_inv f C L → evolves (fkern f) C s' C' T → (∀ a j k, a ∈ T → L !! j = Some k → a ∉ k) →
  frag_inv (f <| fkern := s' |>) C' L.
Proof.
  intros [Hp Hn Hl0 Hcoll Hdisj] [Hp' Hkeep Hdom] HT. split; cbn; try done.
  intros j d k Hd Hk. specialize (Hcoll j d k Hd Hk). destruct (coll_in_use d); [|done].
  assert (Hu : ∀ a, a ∈ k → in_use C a).
  { destruct Hcoll as [_ _ (sk0 & S & _ & _ & _ & Hr) _ _]. intros a Ha. by apply Hr. }
  assert (HaT : ∀ a, a ∈ k → a ∉ T) by (intros a Ha HaT; by eapply HT).
  eapply coll_ok_frame; [done|..|done]; intros a Ha; [apply Hkeep; auto|].
  intros Hua. apply Hkeep; auto.
Qed.

(** A complete message: a chain of used buffers of one pool with consecutive
    fragments from offset 0 on, all of the message [key] stands for. *)
Record message s C (q p : nat) key l : Prop := {
  ms_chain : is_chain (skbs s) p l;
  ms_owned : releasable s C q l;
  ms_whole : ∃ total, contiguous (skbs s) 0 l total;
  ms_key : keyed (skbs s) key l;
}.

(** The message collector [i] gathers for a fragment with header [h], and the
    pool of its socket. *)
Record gathers f C L (h : iphdr) (i : nat) (c : ip_collector) l (q : nat) : Prop := {
  ga_coll : collector f !! i = Some c;
  ga_match : coll_matches h c = true;
  ga_list : L !! i = Some l;
  ga_pool : ∃ sk0 S, coll_sock c = Some sk0 ∧ socks f !! sk0 = Some S ∧ skb_pool S = q;
}.

(** Only collector [i] changes, and no socket. *)
Definition only_coll f (i : nat) (c' : ip_collector) f' : Prop :=
  collector f' = <[i := c']> (collector f) ∧ socks f' = socks f.

(** What becomes of a fragment [p] that is not the first of its message. *)
Inductive outcome f C L (p : nat) (h : iphdr) : option nat → fstate → gmap nat (list nat) → list (list nat) → Prop :=
  | dropped_alone f' C' :
      (∀ i c, collector f !! i = Some c → coll_matches h c = false) → ¬ in_use C' p →
      collector f' = collector f → socks f' = socks f →
      outcome f C L p h None f' C' L
  | dropped_message i c l q f' C' c' :
      gathers f C L h i c l q → C !! q = Some [] ∨ frag_offset h ≠ buf_size c →
      (∀ a, a ∈ l ++ [p] → ¬ in_use C' a) →
      only_coll f i c' f' → coll_in_use c' = false →
      outcome f C L p h None f' C' (<[i := []]> L)
  | accepted i c l q f' C' c' :
      gathers f C L h i c l q → frag_offset h = buf_size c → more_frags h = true →
      only_coll f i c' f' → coll_in_use c' = true → coll_key c' = coll_key c → coll_sock c' = coll_sock c →
      outcome f C L p h None f' C' (<[i := l ++ [p]]> L)
  | completed i c l q first_skb f' C' c' :
      gathers f C L h i c l q → frag_offset h = buf_size c → more_frags h = false →
      head l = Some first_skb → message (fkern f') C' q first_skb (hdr_key h) (l ++ [p]) →
      only_coll f i c' f' → coll_in_use c' = false →
      outcome f C L p h (Some first_skb) f' C' (<[i := []]> L).

Lemma fragment_chain f C L p x r : fragment f C L p x r → is_chain (skbs (fkern f)) p [p].
Proof. intros []. by eapply is_chain_single. Qed.
Lemma fragment_releasable f C L p x r : fragment f C L p x r → releasable (fkern f) C r [p].
Proof.
  intros [] a ->%list_elem_of_singleton. split; [done|]. intros y Hy. simplify_eq. auto.
Qed.

(** The used buffers of a collector, and its socket. *)
Lemma gathered f C L i c l h :
  frag_inv f C L → collector f !! i = Some c → L !! i = Some l → coll_matches h c = true →
  coll_ok (fkern f) (socks f) C c l.
Proof.
  intros Hinv Hc Hl Hm. pose proof (fi_coll _ _ _ Hinv i c l Hc Hl) as Hok.
  unfold coll_matches in Hm. by destruct (coll_in_use c).
Qed.
End ops.

Section add.
Context `{Config} (fb : option (nat → M fstate ())).
Context (no_proxy : (if CONFIG_RTNET_ADDON_PROXY then fb else None) = None).
Implicit Types (s : kstate) (f : fstate) (C : gmap nat (list nat)) (l T : list nat) (L : list (list nat)).

Lemma wp_no_collector f C q p c h (Q : option nat → fstate → Prop) :
  pools_inv (fkern f) C → is_Some (C !! q) → is_chain (skbs (fkern f)) p c →
  releasable (fkern f) C q c →
  (∀ s' C', evolves (fkern f) C s' C' c → (∀ a, a ∈ c ∨ ¬ in_use C a → ¬ in_use C' a) →
     Q None (f <| fkern := s' |>)) →
  wp (no_collector fb p h) Q f.
Proof.
  intros Hinv Hq Hc Hr HQ. unfold no_collector. rewrite no_proxy. apply wp_bind, wp_in_fkern.
  eapply wp_kfree; [done..|]. intros s' C' ??. apply wp_ret. eauto.
Qed.

(** No room in the pool of the socket: the whole message is given up. *)
Lemma add_drop_run f C L p x r i c l q h :
  frag_inv f C L → fragment f C L p x r → gathers f C L h i c l q → C !! q = Some [] →
  ∀ p0, frags_first c = Some p0 →
  wp (coll_upd i (λ c, c <| coll_in_use := false |>);;
      in_fkern (kfree_rtskb (Some p0));; in_fkern (kfree_rtskb (Some p));; mret None)
     (λ ret f', ∃ C' L', frag_inv f' C' L' ∧ outcome f C L p h ret f' C' L') f.
Proof.
  intros Hinv Hfr Hga Hempty p0 Hp0. pose proof Hga as [Hc Hm Hl (sk0 & S & Hsk & HS & Hq)].
  pose proof (gathered _ _ _ _ _ _ _ Hinv Hc Hl Hm) as [(p0' & Hp0' & Hch) _ (sk1 & S1 & Hsk1 & HS1 & HC & Hrel) _ _].
  simplify_eq. pose proof Hfr as []. pose proof Hinv as [].
  apply wp_bind. eapply wp_coll_upd; [done|]. apply wp_bind, wp_in_fkern. cbn [fkern].
  eapply (wp_kfree (fkern f) C _ l (skb_pool S)); [done..|]. intros s1 C1 Hev1 Hf1.
  apply wp_bind, wp_in_fkern. cbn [fkern].
  assert (Hpl : p ∉ l) by eauto.
  assert (Hev1' := Hev1). destruct Hev1' as [Hp1 Hk1 Hd1]. destruct (Hk1 p Hpl fr_used0) as [Ep Hup].
  eapply (wp_kfree s1 C1 p [p] r); [done|auto| | |].
  - eapply is_chain_single; [rewrite Ep; exact fr_skb0|done].
  - eapply releasable_frame; [by eapply fragment_releasable| |].
    + intros b ->%list_elem_of_singleton. by rewrite Ep.
    + by intros b ->%list_elem_of_singleton.
  - intros s2 C2 Hev2 Hf2. apply wp_ret. exists C2, (<[i := []]> L). split.
    + eapply (frag_inv_evolve f C L i c l (c <| coll_in_use := false |>) [] s2 C2 (l ++ [p])); [done..| | |done].
      * eapply evolves_trans; [exact Hev1|exact Hev2|set_solver..].
      * intros b j k Hb Hne Hk Hbk. rewrite app_nil_r in Hb. apply elem_of_app in Hb as [Hb|Hb].
        -- apply Hne. by eapply fi_disj0.
        -- apply list_elem_of_singleton in Hb as ->. by eapply fr_new0.
    + eapply (dropped_message f C L p h i c l _); [done|by left| |by split|done].
      intros b [Hb|Hb]%elem_of_app; apply Hf2; [right; apply Hf1; by left|by left].
Qed.

(** Used buffers stay owned by their pool. *)
Lemma releasable_app s C q l1 l2 : releasable s C q (l1 ++ l2) ↔ releasable s C q l1 ∧ releasable s C q l2.
Proof.
  unfold releasable. setoid_rewrite elem_of_app. naive_solver.
Qed.

Lemma add_run f C L p x r h :
  frag_inv f C L → fragment f C L p x r → iph x = Some h →
  wp (add_to_collector fb p (frag_offset h) (more_frags h))
     (λ ret f', ∃ C' L', frag_inv f' C' L' ∧ outcome f C L p h ret f' C' L') f.
Proof.
  intros Hinv Hfr Hh. pose proof Hfr as []. pose proof Hinv as [].
  unfold add_to_collector. apply wp_bind. eapply wp_load_iph; [done..|]. wp_run.
  pose proof (find_coll_spec (coll_matches h) (collector f) 0) as Hfind.
  destruct (find_coll (coll_matches h) (collector f) 0) as [[i c]|].
  2: { eapply (wp_no_collector f C r p [p]); [done|done|by eapply fragment_chain|by eapply fragment_releasable|].
       intros s' C' Hev Hfree. exists C', L. split.
       - eapply frag_inv_evolve0; [done..|]. intros a j k ->%list_elem_of_singleton. eauto.
       - constructor; [done| |done|done]. apply Hfree. left. set_solver. }
  destruct Hfind as (k & -> & Hc & Hm). cbn [Nat.add].
  destruct (lookup_lt_is_Some_2 L k) as [l Hl]; [apply lookup_lt_Some in Hc; lia|].
  pose proof (gathered _ _ _ _ _ _ _ Hinv Hc Hl Hm)
    as [(p0 & Hp0 & Hch) Hlast (sk0 & S & Hsk & HS & [fl HC] & Hrel) Hcont Hkey].
  assert (Hga : gathers f C L h k c l (skb_pool S)) by (split; eauto).
  assert (Hpl : p ∉ l) by eauto.
  wp_run. unfold sock_load. wp_run. apply wp_in_fkern.
  eapply (wp_acquire (fkern f) C p x r (skb_pool S) fl); [done..| |].
  { intros ->. cbn [Z.eqb negb]. assert (f <| fkern := fkern f |> = f) as -> by (by destruct f).
    change (- ENOMEM =? 0) with false. cbn [negb]. by eapply add_drop_run. }
  intros s1 C1 _ Hev1 Hu1 Hx1. cbn [Z.eqb negb].
  pose proof Hev1 as [Hp1 Hk1 Hd1].
  assert (Hl1 : ∀ a, a ∈ l → skbs s1 !! a = skbs (fkern f) !! a ∧ in_use C1 a).
  { intros a Ha. apply Hk1; [set_solver|]. by apply Hrel. }
  destruct (last l) as [e|] eqn:He; [|apply last_None in He as ->; by destruct Hch as (?&?&?&_)].
  rewrite Hlast. wp_run. apply wp_in_fkern. cbn [fkern].
  eapply (wp_link_frag s1 C1 p0 l e p); [done|..|exact Hx1|].
  { eapply is_chain_frame; [exact Hch|]. intros a Ha. by apply Hl1. }
  { done. } { intros a Ha. by apply Hl1. } { done. } { done. }
  intros s2 Hev2 Hch2 Hv2.
  assert (Hev : evolves (fkern f) C s2 C1 (l ++ [p])) by (eapply evolves_trans; [exact Hev1|exact Hev2|set_solver..]).
  assert (Hrel2 : releasable s2 C1 (skb_pool S) (l ++ [p])).
  { apply releasable_app. split.
    - eapply releasable_frame; [exact Hrel| |].
      + intros a Ha. rewrite Hv2. by destruct (Hl1 a Ha) as [-> _].
      + intros a Ha _. by apply Hl1.
    - intros a ->%list_elem_of_singleton. split; [done|]. intros y Hy. specialize (Hv2 p).
      rewrite Hy, Hx1 in Hv2. apply (inj Some) in Hv2. injection Hv2 as _ _ -> ->. auto. }
  assert (Hothers : ∀ a j k', a ∈ l ++ [p] → j ≠ k → L !! j = Some k' → a ∉ k').
  { intros a j k' [Ha|Ha]%elem_of_app Hne Hk' Hak'; [by apply Hne; eapply fi_disj0|].
    apply list_elem_of_singleton in Ha as ->. by eapply fr_new0. }
  apply wp_bind. eapply wp_coll_upd; [done|]. set (f2 := f <| fkern := s1 |> <| fkern := s2 |>).
  pose proof (lookup_lt_Some _ _ _ Hc).
  assert (Hc2 : ∀ c0, <[k := c0]> (collector f) !! k = Some c0) by (intros; by apply list_lookup_insert_eq).
  destruct (Z.eqb_spec (frag_offset h) (buf_size c)) as [Hoff|Hoff]; cbn [negb].
  2: { apply wp_bind. eapply wp_coll_upd; [apply Hc2|].
       eapply (wp_no_collector _ C1 (skb_pool S) p0 (l ++ [p])); [apply Hev|apply Hd1; eauto|done..|].
       intros s3 C3 Hev3 Hfree. exists C3, (<[k := []]> L). split.
       - eapply (frag_inv_evolve f C L k c l (c <| frags_last := Some p |> <| coll_in_use := false |>) [] s3 C3
           (l ++ [p])); [done|done|done|done|done| | | |done].
         + cbn. apply list_insert_insert_eq.
         + eapply evolves_trans; [exact Hev|exact Hev3|set_solver..].
         + by rewrite app_nil_r.
       - eapply (dropped_message f C L p h k c l); [done|by right| |split; [cbn; apply list_insert_insert_eq|done]|done].
         intros a Ha. apply Hfree. by left. }
  assert (Hx2 : ∃ y, skbs s2 !! p = Some y ∧ len y = len x).
  { specialize (Hv2 p). rewrite Hx1 in Hv2. destruct (skbs s2 !! p) as [y|]; [|done].
    apply (inj Some) in Hv2. injection Hv2 as ? _ _ _. eauto. }
  destruct Hx2 as (y & Hy & Hly).
  assert (Hcont2 : contiguous (skbs s2) 0 (l ++ [p]) (u32 (buf_size c + len y))).
  { apply contiguous_app. exists (buf_size c). split.
    - eapply contiguous_frame; [exact Hcont|]. intros a Ha. rewrite Hv2. by destruct (Hl1 a Ha) as [-> _].
    - specialize (Hv2 p). rewrite Hx1, Hy in Hv2. apply (inj Some) in Hv2. injection Hv2 as _ Hiy _ _.
      exists y, h. split_and!; [done| |done|done]. rewrite Hiy. exact Hh. }
  apply matches_key in Hm as [Hu Em].
  assert (Hkey2 : keyed (skbs s2) (coll_key c) (l ++ [p])).
  { intros a [Ha|Ha]%elem_of_app.
    - eapply keyed_frame; [exact Hkey| |exact Ha]. intros b Hb. rewrite Hv2. by destruct (Hl1 b Hb) as [-> _].
    - apply list_elem_of_singleton in Ha as ->. specialize (Hv2 p). rewrite Hx1, Hy in Hv2. apply (inj Some) in Hv2.
      injection Hv2 as _ Hiy _ _. exists y, h. split_and!; [done|rewrite Hiy; exact Hh|done]. }
  apply wp_bind, wp_in_fkern. eapply wp_skb_load; [done|]. apply wp_bind.
  eapply wp_coll_upd; [apply Hc2|]. destruct (more_frags h) eqn:Hmore; cbn [negb].
  - apply wp_ret. exists C1, (<[k := l ++ [p]]> L).
    split; [|eapply accepted; [done..|split; [cbn; apply list_insert_insert_eq|done]|done|done|done]].
    eapply (frag_inv_evolve f C L k c l _ (l ++ [p]) s2 C1 (l ++ [p])); [done..| | | |].
    + cbn. apply list_insert_insert_eq.
    + done.
    + intros a j k' Ha. apply Hothers. set_solver.
    + cbn. rewrite Hu. split; cbn; [eauto|by rewrite last_snoc| |done|exact Hkey2].
      exists sk0, S. split_and!; [done..|apply Hd1; eauto|done].
  - apply wp_bind. eapply wp_coll_upd; [cbn; rewrite list_insert_insert_eq; apply Hc2|]. apply wp_ret.
    exists C1, (<[k := []]> L). split.
    + eapply (frag_inv_evolve f C L k c l (c <| frags_last := Some p |>
        <| buf_size := u32 (buf_size c + len y) |> <| coll_in_use := false |>) [] s2 C1 (l ++ [p]));
        [done|done|done|done|done| |done| |done].
      * cbn. rewrite !list_insert_insert_eq. done.
      * by rewrite app_nil_r.
    + eapply (completed f C L p h k c l); [done..| | |split; [cbn; by rewrite !list_insert_insert_eq|done]|done].
      * destruct Hch as (?&?&?&_). done.
      * rewrite Em. split; [done..|eauto|exact Hkey2].
Qed.
End add.

(** ** What reassembly relies on of a transport protocol *)

(** The packet after its protocol has looked at it: at most the socket and the
    state of the checksum differ. *)
Definition marked (x x' : rtskb) : Prop :=
  x' = x <| sk := sk x' |> <| ip_summed := ip_summed x' |> <| csum := csum x' |>.
Definition with_skb (p : nat) (x : rtskb) (f : fstate) : fstate :=
  f <| fkern := (fkern f) <| skbs := <[p := x]> (skbs (fkern f)) |> |>.
Definition with_ref (a : nat) (S : rtsocket) (f : fstate) : fstate :=
  f <| socks := <[a := S <| close_lock_count := close_lock_count S + 1 |>]> (socks f) |>.
(** The socket the packet is for, with one more reference, or NULL. *)
Definition dest_result (p : nat) (x : rtskb) (f : fstate) (r : option nat) (f' : fstate) : Prop :=
  ∃ x', marked x x' ∧
    match r with
    | None => f' = with_skb p x' f
    | Some a => ∃ S, socks f !! a = Some S ∧ f' = with_ref a S (with_skb p x' f)
    end.
(** [ready] says which packets the protocol's [dest_socket] can be called with. *)
Class DestSocket (dest_socket : nat → M fstate (option nat)) (ready : fstate → rtskb → Prop) : Prop :=
  dest_socket_spec p f x :
    skbs (fkern f) !! p = Some x → ready f x → wp (dest_socket p) (dest_result p x f) f.

Section defrag.
Context `{Config} (fb : option (nat → M fstate ())) (dest_socket : nat → M fstate (option nat)).
Context (ready : fstate → rtskb → Prop) `{!DestSocket dest_socket ready}.
Implicit Types (s : kstate) (f : fstate) (C : gmap nat (list nat)) (l T : list nat) (L : list (list nat)).

(** What becomes of a first fragment with header [h] for the socket [dest]: it starts a
    message of that socket in a free collector, or is dropped, if there is no socket, no
    free buffer in its pool, or no free collector. *)
Inductive first_outcome f C L (p : nat) (h : iphdr) (dest : option nat) :
    option nat → fstate → gmap nat (list nat) → list (list nat) → Prop :=
  | first_dropped f' C' :
      match dest with
      | None => True
      | Some a => ∃ S, socks f !! a = Some S ∧
                  (C !! skb_pool S = Some [] ∨ ∀ i c, collector f !! i = Some c → coll_in_use c = true)
      end → ¬ in_use C' p → collector f' = collector f → socks f' = socks f →
      first_outcome f C L p h dest None f' C' L
  | first_started a S i c f' C' c' :
      dest = Some a → socks f !! a = Some S → C !! skb_pool S ≠ Some [] → collector f !! i = Some c → coll_in_use c = false →
      only_coll f i c' f' → coll_in_use c' = true → coll_key c' = hdr_key h → coll_sock c' = Some a →
      first_outcome f C L p h dest None f' C' (<[i := [p]]> L).

Lemma wp_socket_deref f k a S (Q : () → fstate → Prop) :
  socks f !! a = Some S → Q () (f <| fkern := k |>) →
  wp (rt_socket_dereference a) Q (with_ref a S f <| fkern := k |>).
Proof.
  intros HS HQ. unfold rt_socket_dereference, sock_load, with_ref.
  apply wp_bind, wp_bind, wp_gets. eapply wp_deref; [cbn; apply lookup_insert_eq|]. apply wp_modify.
  match goal with |- Q () ?g => assert (g = f <| fkern := k |>) as ->; [|done] end.
  destruct f as [fk sm cs]. unfold upd. cbn in *. f_equal. rewrite insert_insert_eq. apply insert_id.
  rewrite HS. f_equal. destruct S. cbn. f_equal. lia.
Qed.

Lemma alloc_collector_run f C L p x sk0 S h :
  frag_inv f C L → skbs (fkern f) !! p = Some x → iph x = Some h → frag_offset h = 0 →
  fragment f C L p x (skb_pool S) → socks f !! sk0 = Some S →
  0 ≤ len x < 2 ^ 32 →
  wp (alloc_collector p sk0)
     (λ _ f', (∃ C', frag_inv f' C' L ∧ ¬ in_use C' p ∧ collector f' = collector f ∧ socks f' = socks f ∧
                     ∀ i c, collector f !! i = Some c → coll_in_use c = true) ∨
              ∃ i c c', frag_inv f' C (<[i := [p]]> L) ∧ collector f !! i = Some c ∧ coll_in_use c = false ∧
                only_coll f i c' f' ∧ coll_in_use c' = true ∧ coll_key c' = hdr_key h ∧ coll_sock c' = Some sk0) f.
Proof.
  intros Hinv Hx Hh Hoff Hfr HS Hlen. pose proof Hfr as []. pose proof Hinv as [].
  unfold alloc_collector. apply wp_bind. eapply wp_load_iph; [done..|]. wp_run.
  pose proof (find_coll_spec (λ c, negb (coll_in_use c)) (collector f) 0) as Hfind.
  destruct (find_coll _ (collector f) 0) as [[i c]|].
  - destruct Hfind as (k & -> & Hc & Hfree). cbn [Nat.add]. apply negb_true_iff in Hfree.
    destruct (lookup_lt_is_Some_2 L k) as [l Hl]; [apply lookup_lt_Some in Hc; lia|].
    assert (l = []) as -> by (specialize (fi_coll0 k c l Hc Hl); by rewrite Hfree in fi_coll0).
    apply wp_bind, wp_in_fkern. eapply wp_skb_load; [done|]. eapply wp_coll_upd; [done|].
    right. eexists k, c, _. split; [|by split_and!].
    eapply (frag_inv_evolve f C L k c [] _ [p] (fkern f) C []); [done|done|done|done|done|done| | |].
    + split; [done|by split|done].
    + intros a j k' Ha Hne Hk'. apply list_elem_of_singleton in Ha as ->. eauto.
    + cbn. split; cbn.
      * exists p. split; [done|]. by eapply is_chain_single.
      * done.
      * exists sk0, S. split_and!; [done..|]. by eapply fragment_releasable.
      * exists x, h. split_and!; try done. by apply Z.mod_small.
      * intros a ->%list_elem_of_singleton. by exists x, h.
  - apply wp_in_fkern. eapply (wp_kfree (fkern f) C p [p] (skb_pool S)); [done|done|..].
    { by eapply is_chain_single. } { by eapply fragment_releasable. }
    intros s' C' Hev Hf. left. exists C'. split_and!; [|apply Hf; left; set_solver|done|done|].
    + eapply frag_inv_evolve0; [done..|]. intros a j k ->%list_elem_of_singleton. eauto.
    + intros i c Hc. specialize (Hfind i c Hc). by apply negb_false_iff in Hfind.
Qed.

Lemma marked_view x x' : marked x x' → frag_view x' = frag_view x ∧ chain_end x' = chain_end x ∧ pool x' = pool x.
Proof. by intros ->. Qed.
(** Marking a packet that is no collector's keeps everything. *)
Lemma frag_inv_marked f C L p x r x' :
  frag_inv f C L → fragment f C L p x r → marked x x' →
  frag_inv (with_skb p x' f) C L ∧ fragment (with_skb p x' f) C L p x' r.
Proof.
  intros Hinv Hfr (Hv & He & Hp)%marked_view. pose proof Hfr as []. injection Hv as _ _ _ Ec. split.
  - eapply (frag_inv_evolve0 f C L _ C [p]); [done| |intros a j k ->%list_elem_of_singleton; eauto].
    split; [|intros b Hb Hu; split; [|done]; cbn; apply lookup_insert_ne; set_solver|done].
    eapply (pools_inv_touch (fkern f) _ C p); [apply Hinv|done| |].
    + intros b Hb. cbn. by apply lookup_insert_ne.
    + intros q Q HQ. exists Q. done.
  - split; try done; [cbn; apply lookup_insert_eq|congruence|congruence|]. rewrite Ec. done.
Qed.

(** The rest of [rt_ip_defrag] on a first fragment, once its socket is known. *)
Lemma defrag_first_run f C L p x r h sk0 f1 :
  (if CONFIG_RTNET_ADDON_PROXY then fb else None) = None →
  frag_inv f C L → fragment f C L p x r → iph x = Some h → 0 ≤ len x < 2 ^ 32 → frag_offset h = 0 →
  (∀ a S, socks f !! a = Some S → is_Some (C !! skb_pool S)) →
  (match sk0 with None => f1 = f | Some a => ∃ S, socks f !! a = Some S ∧ f1 = with_ref a S f end) →
  wp (match sk0 with
      | None => no_collector fb p h
      | Some sock =>
          S ← sock_load sock;
          ret ← in_fkern (rtskb_acquire p (skb_pool S));
          rt_socket_dereference sock;;
          (if negb (ret =? 0) then in_fkern (kfree_rtskb (Some p)) else alloc_collector p sock);;
          mret None
      end)
     (λ ret f', ∃ C' L', frag_inv f' C' L' ∧ first_outcome f C L p h sk0 ret f' C' L') f1.
Proof.
  intros Hnp Hinv Hfr Hh Hlen Hoff Hpools Hr. pose proof Hfr as [].
  assert (Hdrop : ∀ s' C', match sk0 with None => True | Some a => ∃ S, socks f !! a = Some S ∧ (C !! skb_pool S = Some [] ∨
      ∀ i c, collector f !! i = Some c → coll_in_use c = true) end →
    evolves (fkern f) C s' C' [p] → (∀ a, a ∈ [p] ∨ ¬ in_use C a → ¬ in_use C' a) →
    ∃ C' L', frag_inv (f <| fkern := s' |>) C' L' ∧ first_outcome f C L p h sk0 None (f <| fkern := s' |>) C' L').
  { intros s' C' Hwhy Hev Hf. exists C', L. split; [|constructor; [done| |done|done]; apply Hf; left; set_solver].
    eapply frag_inv_evolve0; [done..|]. intros a j k ->%list_elem_of_singleton. eauto. }
  destruct sk0 as [sk0|].
  2: { subst f1. eapply (wp_no_collector fb Hnp f C r p [p]);
       [apply Hinv|done|by eapply fragment_chain|by eapply fragment_releasable|]. eauto. }
  destruct Hr as (S & HS & ->). destruct (Hpools _ _ HS) as [fl Hfl]. unfold sock_load.
  apply wp_bind, wp_bind, wp_gets. eapply wp_deref; [cbn; apply lookup_insert_eq|].
  apply wp_bind, wp_in_fkern. cbn [fkern skb_pool].
  eapply (wp_acquire (fkern f) C p x r (skb_pool S) fl); [apply Hinv|done..| |].
  - intros ->. apply wp_bind, wp_socket_deref; [done|]. change (- ENOMEM =? 0) with false. cbn [negb].
    apply wp_bind, wp_in_fkern.
    eapply (wp_kfree (fkern f) C p [p] r); [apply Hinv|done|by eapply fragment_chain|by eapply fragment_releasable|].
    intros s' C' Hev Hf. apply wp_ret. apply (Hdrop s' C'); [exists S; auto|done|done].
  - intros s1 C1 Hfl0 Hev1 Hu1 Hx1. apply wp_bind, wp_socket_deref; [done|]. cbn [Z.eqb negb].
    pose proof Hev1 as [Hp1 Hk1 Hd1]. apply wp_bind.
    eapply wp_mono; [|eapply (alloc_collector_run (f <| fkern := s1 |>) C1 L p _ sk0 S h);
      [|exact Hx1|exact Hh|done| |done|done]].
    + intros [] f' [(C' & Hinv' & Hf' & Ec & Es & Hall)|(i & c & c' & Hinv' & Hc & Hfree & Ho & Hc')]; apply wp_ret.
      * exists C', L. split; [done|]. constructor; [|done..]. exists S. split; [done|]. by right.
      * exists C1, (<[i := [p]]> L). split; [done|]. destruct Hc' as (?&?&?). eapply first_started; try done. rewrite Hfl. by intros [= ->].
    + eapply frag_inv_evolve0; [done..|]. intros a j k ->%list_elem_of_singleton. eauto.
    + split; cbn; try done. apply Hd1. eauto.
Qed.

(** C1: [rt_ip_defrag] on a fragment in a buffer of its own, with any state of the
    collectors.  It never faults and keeps every message under collection intact.
    A first fragment starts a message in a free collector, which gets the addresses, the
    identification and the protocol of the fragment and the socket the protocol found;
    it is dropped if there is no socket, no free buffer in its pool or no free
    collector.  Another fragment is appended to its message if it continues it, and
    completes it if it is the last: then the result is the first buffer of a chain that
    holds the fragments of the whole message, all with the same addresses,
    identification and protocol, in order and without gaps, owned by the socket's pool.
    A fragment out of order, or one the socket has no buffers for, drops its message:
    all buffers go back to their pools.  One that belongs to no message is dropped.  No
    other collector and no socket changes.  RTproxy has not installed a handler for
    what is dropped. *)
Theorem rt_ip_defrag_correct f C L p x r h :
  (if CONFIG_RTNET_ADDON_PROXY then fb else None) = None →
  frag_inv f C L → fragment f C L p x r → iph x = Some h → 0 ≤ len x < 2 ^ 32 →
  (frag_offset h = 0 → ready f x) →
  (∀ a S, socks f !! a = Some S → is_Some (C !! skb_pool S)) →
  ∃ ret f' C' L', rt_ip_defrag fb dest_socket p f = Some (ret, f') ∧ frag_inv f' C' L' ∧
    (if frag_offset h =? 0
     then ∃ dest f1, dest_socket p f = Some (dest, f1) ∧ first_outcome f C L p h dest ret f' C' L'
     else outcome f C L p h ret f' C' L').
Proof.
  intros Hnp Hinv Hfr Hh Hlen Hready Hpools.
  cut (wp (rt_ip_defrag fb dest_socket p) (λ ret f', ∃ C' L', frag_inv f' C' L' ∧
    (if frag_offset h =? 0 then ∃ dest f1, dest_socket p f = Some (dest, f1) ∧ first_outcome f C L p h dest ret f' C' L'
     else outcome f C L p h ret f' C' L')) f).
  { intros (ret & f' & E & C' & L' & ?)%wp_elim. eauto 10. }
  unfold rt_ip_defrag. apply wp_bind. eapply wp_load_iph; [apply Hfr|done|].
  destruct (Z.eqb_spec (frag_offset h) 0) as [Hoff|Hoff]; [|by eapply add_run].
  destruct (wp_elim _ _ _ (dest_socket_spec p f x (fr_skb _ _ _ _ _ _ Hfr) (Hready Hoff))) as (sk0 & f1 & Ed & x' & Hm & Hr).
  apply wp_bind. eapply wp_intro; [exact Ed|]. destruct (frag_inv_marked f C L p x r x' Hinv Hfr Hm) as [Hi1 Hf1].
  assert (Hh' : iph x' = Some h) by (rewrite Hm; exact Hh).
  assert (Hlen' : 0 ≤ len x' < 2 ^ 32) by (rewrite Hm; exact Hlen).
  eapply wp_mono; [|eapply (defrag_first_run (with_skb p x' f) C L p x' r h sk0 f1); try done].
  intros ret f' (C' & L' & Hi' & Hout). exists C', L'. split; [done|]. exists sk0, f1. split; [done|].
  destruct Hout; [by apply first_dropped|by eapply first_started].
Qed.
End defrag.

Section cleanup.
Context `{Config} (g : ip_collector → bool).
Implicit Types (f : fstate) (C : gmap nat (list nat)) (L : list (list nat)).

(** The collectors from [i] on that satisfy [g] are given up and their buffers
    are free; all others are untouched. *)
Record cleaned (i : nat) f C L f' C' L' : Prop := {
  cl_inv : frag_inv f' C' L';
  cl_free : ∀ a, ¬ in_use C a → ¬ in_use C' a;
  cl_coll : ∀ j c l, collector f !! j = Some c → L !! j = Some l →
    if bool_decide (i ≤ j)%nat && (coll_in_use c && g c)
    then collector f' !! j = Some (c <| coll_in_use := false |>) ∧ L' !! j = Some [] ∧
         ∀ a, a ∈ l → ¬ in_use C' a
    else collector f' !! j = Some c ∧ L' !! j = Some l;
}.

Lemma clean_step f C L i c l :
  frag_inv f C L → collector f !! i = Some c → L !! i = Some l →
  wp (when (coll_in_use c && g c)
        (coll_upd i (λ c, c <| coll_in_use := false |>);; in_fkern (kfree_rtskb (frags_first c))))
     (λ _ f', ∃ C' L', frag_inv f' C' L' ∧ (∀ a, ¬ in_use C a → ¬ in_use C' a) ∧
        (∀ j, j ≠ i → collector f' !! j = collector f !! j ∧ L' !! j = L !! j) ∧
        if coll_in_use c && g c
        then collector f' !! i = Some (c <| coll_in_use := false |>) ∧ L' !! i = Some [] ∧
             ∀ a, a ∈ l → ¬ in_use C' a
        else collector f' !! i = Some c ∧ L' !! i = Some l) f.
Proof.
  intros Hinv Hc Hl. destruct (coll_in_use c && g c) eqn:Hg; cbn [when].
  2: { apply wp_ret. exists C, L. by split_and!. }
  apply andb_true_iff in Hg as [Hu _]. pose proof (fi_coll _ _ _ Hinv i c l Hc Hl) as Hok. rewrite Hu in Hok.
  destruct Hok as [(p & Hp & Hch) _ (sk0 & S & _ & _ & HC & Hrel) _ _].
  pose proof (lookup_lt_Some _ _ _ Hc). pose proof (lookup_lt_Some _ _ _ Hl).
  apply wp_bind. eapply wp_coll_upd; [done|]. rewrite Hp. apply wp_in_fkern.
  eapply (wp_kfree (fkern f) C p l (skb_pool S)); [apply Hinv|done..|].
  intros s' C' Hev Hf. exists C', (<[i := []]> L). split_and!.
  - eapply (frag_inv_evolve f C L i c l (c <| coll_in_use := false |>) [] s' C' l); [done..| |done].
    intros a j k Ha Hne Hk Hak. rewrite app_nil_r in Ha. apply Hne. by eapply (fi_disj _ _ _ Hinv).
  - intros a Ha. apply Hf. by right.
  - intros j Hj. cbn. by rewrite !list_lookup_insert_ne by done.
  - by apply list_lookup_insert_eq.
  - by apply list_lookup_insert_eq.
  - intros a Ha. apply Hf. by left.
Qed.

Lemma clean_loop_run n : ∀ i f C L,
  frag_inv f C L → (i + n = COLLECTOR_COUNT)%nat →
  wp (clean_loop g n i) (λ _ f', ∃ C' L', cleaned i f C L f' C' L') f.
Proof.
  induction n as [|n IH]; intros i f C L Hinv Hn; cbn [clean_loop].
  - apply wp_ret. exists C, L. split; [done..|]. intros j c l Hc Hl.
    rewrite bool_decide_eq_false_2; [done|]. apply lookup_lt_Some in Hc.
    pose proof (fi_count _ _ _ Hinv). lia.
  - pose proof (fi_count _ _ _ Hinv). pose proof (fi_len _ _ _ Hinv).
    destruct (lookup_lt_is_Some_2 (collector f) i) as [c Hc]; [lia|].
    destruct (lookup_lt_is_Some_2 L i) as [l Hl]; [lia|]. wp_run.
    eapply wp_mono; [|by eapply clean_step]. cbn beta.
    intros _ f1 (C1 & L1 & Hinv1 & Hfree1 & Hother & Hi).
    eapply wp_mono; [|eapply (IH (S i) f1 C1 L1); [done|lia]]. cbn beta.
    intros _ f2 (C2 & L2 & [Hinv2 Hfree2 Hcoll2]). exists C2, L2. split; [done|auto|].
    intros j d k Hd Hk. destruct (decide (j = i)) as [->|Hne].
    + simplify_eq. rewrite bool_decide_eq_true_2 by done. cbn [andb].
      destruct (coll_in_use c && g c).
      * destruct Hi as (Hc1 & Hl1 & Hf1). specialize (Hcoll2 _ _ _ Hc1 Hl1).
        rewrite bool_decide_eq_false_2 in Hcoll2 by lia. destruct Hcoll2. split_and!; auto.
      * destruct Hi as (Hc1 & Hl1). specialize (Hcoll2 _ _ _ Hc1 Hl1).
        by rewrite bool_decide_eq_false_2 in Hcoll2 by lia.
    + destruct (Hother j Hne) as [Ec El]. rewrite <-Ec in Hd. rewrite <-El in Hk.
      specialize (Hcoll2 j d k Hd Hk).
      assert (bool_decide (i ≤ j)%nat = bool_decide (S i ≤ j)%nat) as ->; [|done].
      apply bool_decide_ext. lia.
Qed.
End cleanup.

(** [rt_ip_frag_invalidate_socket] gives up exactly the messages that are
    collected for the socket: their collectors are free again, all their buffers are
    back in their pools, and every other message stays as it was. *)
Theorem rt_ip_frag_invalidate_socket_correct `{Config} sock f C L :
  frag_inv f C L →
  ∃ f' C' L', rt_ip_frag_invalidate_socket sock f = Some ((), f') ∧ frag_inv f' C' L' ∧
    ∀ j c l, collector f !! j = Some c → L !! j = Some l →
      if coll_in_use c && bool_decide (coll_sock c = Some sock)
      then collector f' !! j = Some (c <| coll_in_use := false |>) ∧ L' !! j = Some [] ∧
           ∀ a, a ∈ l → ¬ in_use C' a
      else collector f' !! j = Some c ∧ L' !! j = Some l.
Proof.
  intros Hinv.
  destruct (wp_elim _ _ _ (clean_loop_run (λ c, bool_decide (coll_sock c = Some sock)) COLLECTOR_COUNT 0 f C L Hinv eq_refl))
    as ([] & f' & E & C' & L' & [Hinv' _ Hcoll]).
  exists f', C', L'. split_and!; [exact E|done|]. intros j c l Hc Hl. specialize (Hcoll j c l Hc Hl).
  by rewrite bool_decide_eq_true_2 in Hcoll by lia.
Qed.
