(* ===== verification/Socket.v ===== *)
(** * Sockets (stack/socket.c)

    Creation and release of a socket with its buffer pool, the ioctl requests common to
    all sockets, and the interface requests. *)
From S2P Require Import Prelude State RtskbQueue Rtskb RtskbData Rtdev IpFragment.

Definition EBADF := 9.
Definition ENOSYS := 38.
Definition EOPNOTSUPP := 95.
Definition AF_INET := 2.

(** [SOCK_DEF_PRIO] as the preprocessor expands it: [SOCK_MIN_PRIO] has no
    parentheses. *)
Definition SOCK_MAX_PRIO := 0.
Definition SOCK_NRT_PRIO := 31.
Definition SOCK_DEF_PRIO := SOCK_MAX_PRIO + (SOCK_NRT_PRIO - 1 - SOCK_MAX_PRIO + 1) / 2.
Definition SOCK_DEF_RT_CHANNEL := 0.
Definition SOCK_XMIT_PARAMS (priority channel : Z) : Z := Z.lor priority (Z.shiftl channel 16).

(** The ioctl requests with what their argument points to. *)
Inductive socket_request :=
  | RTNET_RTIOC_XMITPARAMS (priority : Z)
  | RTNET_RTIOC_TIMEOUT (timeout : Z)
  | RTNET_RTIOC_CALLBACK (func : option nat) (arg : Z)
  | RTNET_RTIOC_EXTPOOL (rtskbs : Z)
  | RTNET_RTIOC_SHRPOOL (rtskbs : Z)
  | RTIOC_OTHER.

Section defs.
Context `{Config}.

Definition sock_upd (sock : nat) (f : rtsocket → rtsocket) : M fstate () :=
  S ← sock_load sock; modify (λ s, s <| socks := <[sock := f S]> (socks s) |>).

Definition rt_bare_socket_init (sock : nat) (protocol priority pool_size : Z) : M fstate Z :=
  sock_upd sock (λ S, S <| so_protocol := protocol |> <| so_priority := priority |>);;
  S ← sock_load sock;
  in_fkern (rtskb_pool_init (skb_pool S) pool_size).

Definition rt_socket_cleanup (sock : nat) : M fstate Z :=
  sock_upd sock (λ S, S <| pending_sem := None |> <| pool_closed := true |>);;
  S ← sock_load sock;
  if 0 <? so_pool_size S then
    n ← in_fkern (rtskb_pool_shrink (skb_pool S) (so_pool_size S));
    sock_upd sock (λ S, S <| so_pool_size := u32 (so_pool_size S - n) |>);;
    S ← sock_load sock;
    if 0 <? so_pool_size S then mret (- EAGAIN)
    else in_fkern (__rtskb_pool_release (skb_pool S));; mret 0
  else mret 0.

(** [socket_rtskbs] is the module parameter. *)
Definition rt_socket_init (socket_rtskbs : Z) (sock : nat) (protocol : Z) : M fstate Z :=
  sock_upd sock (λ S, S <| callback_func := None |>);;
  S ← sock_load sock;
  in_fkern (rtskb_queue_init (incoming S));;
  sock_upd sock (λ S, S <| so_timeout := 0 |> <| pending_sem := Some 0 |>);;
  pool_size ← rt_bare_socket_init sock protocol (SOCK_XMIT_PARAMS SOCK_DEF_PRIO SOCK_DEF_RT_CHANNEL) socket_rtskbs;
  sock_upd sock (λ S, S <| so_pool_size := u32 pool_size |>);;
  if u32 pool_size <? socket_rtskbs then
    when (u32 pool_size =? 0)
      (in_fkern (modify (λ s, s <| rtskb_pools := u32 (rtskb_pools s - 1) |>)));;
    rt_socket_cleanup sock;;
    mret (- ENOMEM)
  else mret 0.

(** [user_info] and [in_rt]: the call comes from user space, from a real-time task. *)
Definition rt_socket_common_ioctl (sock : nat) (user_info in_rt : bool) (request : socket_request) : M fstate Z :=
  match request with
  | RTNET_RTIOC_XMITPARAMS v => sock_upd sock (λ S, S <| so_priority := v |>);; mret 0
  | RTNET_RTIOC_TIMEOUT v => sock_upd sock (λ S, S <| so_timeout := v |>);; mret 0
  | RTNET_RTIOC_CALLBACK func arg =>
      if user_info then mret (- EACCES)
      else sock_upd sock (λ S, S <| callback_func := func |> <| callback_arg := arg |>);; mret 0
  | RTNET_RTIOC_EXTPOOL rtskbs =>
      if in_rt then mret (- ENOSYS)
      else
        S ← sock_load sock;
        if pool_closed S then mret (- EBADF)
        else
          n ← in_fkern (rtskb_pool_extend (skb_pool S) rtskbs);
          let ret := s32 n in
          sock_upd sock (λ S, S <| so_pool_size := u32 (so_pool_size S + ret) |>);;
          mret (if (ret =? 0) && (0 <? rtskbs) then - ENOMEM else ret)
  | RTNET_RTIOC_SHRPOOL rtskbs =>
      if in_rt then mret (- ENOSYS)
      else
        S ← sock_load sock;
        n ← in_fkern (rtskb_pool_shrink (skb_pool S) rtskbs);
        let ret := s32 n in
        sock_upd sock (λ S, S <| so_pool_size := u32 (so_pool_size S - ret) |>);;
        mret (if (ret =? 0) && (0 <? rtskbs) then - EBUSY else ret)
  | RTIOC_OTHER => mret (- EOPNOTSUPP)
  end.

(** ** Interface requests *)

(** An entry of the array [SIOCGIFCONF] fills: name, family and address. *)
Record ifconf_entry := mk_ifconf { ifc_name : list Z; ifc_family : Z; ifc_addr : Z }.

(** The value a request stores in the [struct ifreq]. *)
Inductive ifr_value :=
  | ifr_none
  | ifr_ifindex (i : Z)
  | ifr_flags (f : Z)
  | ifr_hwaddr (family : Z) (sa_data : list Z)
  | ifr_addr (family addr : Z).
Inductive if_request := SIOCGIFINDEX | SIOCGIFFLAGS | SIOCGIFHWADDR | SIOCGIFADDR | SIOCETHTOOL | SIOC_OTHER.

(** The loop over the device indices [i], ..; [room] is [ifc->ifc_len].  The result is
    the final [size] and the entries written. *)
Context (sizeof_ifreq : Z) (do_ioctl : nat → option (M kstate Z)).
Fixpoint ifconf_loop (n : nat) (i room size : Z) (out : list ifconf_entry) : M kstate (Z * list ifconf_entry) :=
  match n with
  | O => mret (size, out)
  | S n =>
      r ← rtdev_get_by_index i;
      match r with
      | None => ifconf_loop n (i + 1) room size out
      | Some d =>
          D ← dev_load d;
          if Z.land (flags D) IFF_RUNNING =? 0 then
            rtdev_dereference d;; ifconf_loop n (i + 1) room size out
          else
            let size := size + sizeof_ifreq in
            if room <? size then rtdev_dereference d;; mret (room, out)
            else
              let e := mk_ifconf (strncpy IFNAMSIZ (name D)) AF_INET (local_ip D) in
              rtdev_dereference d;; ifconf_loop n (i + 1) room size (out ++ [e])
      end
  end.
(** [SIOCGIFCONF]: the new [ifc->ifc_len] and the entries. *)
Definition rt_socket_if_conf (ifc_len : Z) : M kstate (Z * list ifconf_entry) :=
  ifconf_loop MAX_RT_DEVICES 1 ifc_len 0 [].

Definition rt_socket_if_ioctl (request : if_request) (ifr_name : list Z) : M kstate (Z * ifr_value) :=
  r ← rtdev_get_by_name ifr_name;
  match r with
  | None => mret (- ENODEV, ifr_none)
  | Some d =>
      D ← dev_load d;
      ret ← match request with
            | SIOCGIFINDEX => mret (0, ifr_ifindex (ifindex D))
            | SIOCGIFFLAGS => mret (0, ifr_flags (flags D))
            | SIOCGIFHWADDR => mret (0, ifr_hwaddr (dtype D) (take (addr_len D) (dev_addr D)))
            | SIOCGIFADDR => mret (0, ifr_addr AF_INET (local_ip D))
            | SIOCETHTOOL =>
                match do_ioctl d with
                | Some f => r ← f; mret (r, ifr_none)
                | None => mret (- EOPNOTSUPP, ifr_none)
                end
            | SIOC_OTHER => mret (- EOPNOTSUPP, ifr_none)
            end;
      rtdev_dereference d;;
      mret ret
  end.
End defs.

(** ** Options and addresses of IP sockets (stack/ipv4/ip_sock.c)

    Each takes the socket and yields the result; lengths are in bytes. *)

Definition SOL_IP := 0.
Definition IP_TOS := 1.
Definition SIZEOF_UINT := 4.
Definition SIZEOF_SOCKADDR_IN := 16.

(** [optval]: the [unsigned int] it points to. *)
Definition rt_ip_setsockopt (S : rtsocket) (level optname optval optlen : Z) : Z * rtsocket :=
  if negb (level =? SOL_IP) then (- ENOPROTOOPT, S)
  else if optlen <? SIZEOF_UINT then (- EINVAL, S)
  else if optname =? IP_TOS then (0, S <| inet_tos := u8 optval |>)
  else (- ENOPROTOOPT, S).
(** The second part is what is stored in [optval] and [optlen]. *)
Definition rt_ip_getsockopt (S : rtsocket) (optname optlen : Z) : Z * option (Z * Z) :=
  if optlen <? SIZEOF_UINT then (- EINVAL, None)
  else if optname =? IP_TOS then (0, Some (inet_tos S, SIZEOF_UINT))
  else (- ENOPROTOOPT, None).
(** The address with family and port, and the new length. *)
Definition rt_ip_getsockname (S : rtsocket) (addrlen : Z) : Z * option (Z * Z * Z * Z) :=
  if addrlen <? SIZEOF_SOCKADDR_IN then (- EINVAL, None)
  else (0, Some (AF_INET, inet_saddr S, inet_sport S, SIZEOF_SOCKADDR_IN)).
Definition rt_ip_getpeername (S : rtsocket) (addrlen : Z) : Z * option (Z * Z * Z * Z) :=
  if addrlen <? SIZEOF_SOCKADDR_IN then (- EINVAL, None)
  else (0, Some (AF_INET, inet_daddr S, inet_dport S, SIZEOF_SOCKADDR_IN)).

(** The type of service that was set is the one that is read, as a byte. *)
Lemma sockopt_tos_roundtrip S v n m :
  SIZEOF_UINT ≤ n → SIZEOF_UINT ≤ m →
  ∃ S', rt_ip_setsockopt S SOL_IP IP_TOS v n = (0, S') ∧ rt_ip_getsockopt S' IP_TOS m = (0, Some (u8 v, SIZEOF_UINT)).
Proof.
  unfold SIZEOF_UINT. intros Hn Hm. unfold rt_ip_setsockopt, rt_ip_getsockopt. cbn [Z.eqb negb SOL_IP IP_TOS]. eexists.
  destruct (Z.ltb_spec n SIZEOF_UINT), (Z.ltb_spec m SIZEOF_UINT); unfold SIZEOF_UINT in *; try lia. done.
Qed.

(** ** The buffer pool of a socket *)

Section pool.
Context `{Config} (f : nat → Z).
Implicit Types (s : fstate) (S : rtsocket) (C : gmap nat (list nat)).

(** The socket knows how many buffers belong to its pool, used and free ones. *)
Definition accounted s S : Prop := so_pool_size S = Z.of_nat (pool_size (fkern s) (skb_pool S)).
(** There are fewer than 2^31 buffers. *)
Definition few_buffers s S : Prop :=
  Z.of_nat (pool_size (fkern s) (skb_pool S) + length (slab (fkern s))) < 2 ^ 31.

Lemma wp_sock_load sock S (Q : rtsocket → fstate → Prop) s :
  socks s !! sock = Some S → Q S s → wp (sock_load sock) Q s.
Proof. intros HS HQ. unfold sock_load. wp_run. done. Qed.
Lemma wp_sock_upd sock S g (Q : () → fstate → Prop) s :
  socks s !! sock = Some S → Q () (s <| socks := <[sock := g S]> (socks s) |>) → wp (sock_upd sock g) Q s.
Proof. intros HS HQ. unfold sock_upd. apply wp_bind. eapply wp_sock_load; [done|]. by apply wp_modify. Qed.

(** The outcome of a request: the result, the socket after it and the pools. *)
Definition ioctl_outcome (rq : socket_request) (user_info in_rt : bool) s S C l ret S' (C' : gmap nat (list nat)) : Prop :=
  match rq with
  | RTNET_RTIOC_XMITPARAMS v => ret = 0 ∧ S' = S <| so_priority := v |> ∧ C' = C
  | RTNET_RTIOC_TIMEOUT v => ret = 0 ∧ S' = S <| so_timeout := v |> ∧ C' = C
  | RTNET_RTIOC_CALLBACK g a =>
      C' = C ∧ if user_info then ret = - EACCES ∧ S' = S
               else ret = 0 ∧ S' = S <| callback_func := g |> <| callback_arg := a |>
  | RTNET_RTIOC_EXTPOOL n =>
      let got := Z.min n (Z.of_nat (length (slab (fkern s)))) in
      if in_rt then ret = - ENOSYS ∧ S' = S ∧ C' = C
      else if pool_closed S then ret = - EBADF ∧ S' = S ∧ C' = C
      else ret = (if (got =? 0) && (0 <? n) then - ENOMEM else got) ∧
           S' = S <| so_pool_size := so_pool_size S + got |> ∧
           C' = <[skb_pool S := l ++ take (Z.to_nat n) (slab (fkern s)).*1]> C
  | RTNET_RTIOC_SHRPOOL n =>
      let got := Z.min n (Z.of_nat (length l)) in
      if in_rt then ret = - ENOSYS ∧ S' = S ∧ C' = C
      else ret = (if (got =? 0) && (0 <? n) then - EBUSY else got) ∧
           S' = S <| so_pool_size := so_pool_size S - got |> ∧
           C' = <[skb_pool S := drop (Z.to_nat n) l]> C
  | RTIOC_OTHER => ret = - EOPNOTSUPP ∧ S' = S ∧ C' = C
  end.
Definition request_ok (rq : socket_request) : Prop :=
  match rq with RTNET_RTIOC_EXTPOOL n | RTNET_RTIOC_SHRPOOL n => is_u32 n | _ => True end.

Lemma u32_succ_pred z : is_u32 z → u32 (u32 (z + 1) - 1) = z.
Proof. unfold u32. intros Hz. rewrite Zminus_mod_idemp_l, Z.add_simpl_r. by apply u32_id. Qed.
Lemma s32_small z : 0 ≤ z < 2 ^ 31 → s32 z = z.
Proof. unfold s32. intros Hz. rewrite Z.mod_small; lia. Qed.

(** every request of [rt_socket_common_ioctl] has the documented outcome, keeps the
    pools well-formed and keeps [pool_size] of the socket equal to the number of buffers
    that belong to its pool: extending adds as many buffers as the allocator has,
    shrinking removes as many free ones as there are, [-ENOMEM] and [-EBUSY] report that
    there were none, and the pool of a closed socket cannot be extended. *)
Theorem rt_socket_common_ioctl_correct s C sock S l rq user_info in_rt :
  pool_sys f (fkern s) C → socks s !! sock = Some S → C !! skb_pool S = Some l → accounted s S →
  few_buffers s S → request_ok rq →
  wp (rt_socket_common_ioctl sock user_info in_rt rq)
     (λ ret s', ∃ S' C', socks s' = <[sock := S']> (socks s) ∧ collector s' = collector s ∧
        pool_sys f (fkern s') C' ∧ accounted s' S' ∧ ioctl_outcome rq user_info in_rt s S C l ret S' C') s.
Proof.
  intros Hsys HS Hl Hacc Hfew Hrq. pose proof (free_le_pool_size _ _ _ _ (ps_pools _ _ _ Hsys) Hl) as Hle.
  unfold accounted, few_buffers in *.
  assert (Hid : socks s = <[sock := S]> (socks s)) by (by rewrite insert_id).
  destruct rq as [v|v|g a|n|n|]; cbn [rt_socket_common_ioctl ioctl_outcome].
  - apply wp_bind. eapply wp_sock_upd; [done|]. apply wp_ret. by eexists _, _.
  - apply wp_bind. eapply wp_sock_upd; [done|]. apply wp_ret. by eexists _, _.
  - destruct user_info; [apply wp_ret; by exists S, C|].
    apply wp_bind. eapply wp_sock_upd; [done|]. apply wp_ret. by eexists _, _.
  - destruct in_rt; [apply wp_ret; by exists S, C|]. apply wp_bind. eapply wp_sock_load; [done|].
    destruct (pool_closed S); [apply wp_ret; by exists S, C|]. apply wp_bind, wp_in_fkern.
    eapply wp_mono; [|eapply (extend_run f n); [done..|by destruct Hrq]].
    intros r k (-> & Hsys' & _ & Hsz). specialize (Hsz (skb_pool S)). rewrite decide_True in Hsz by done.
    destruct Hrq as [Hn _]. rewrite s32_small by lia.
    apply wp_bind. eapply wp_sock_upd; [done|]. apply wp_ret. eexists _, _. split_and!; [done..| |done| |done].
    + cbn. rewrite Hacc, Hsz. unfold u32. rewrite Z.mod_small; lia.
    + rewrite Hacc. unfold u32. rewrite Z.mod_small by lia. by rewrite <-Hacc.
  - destruct in_rt; [apply wp_ret; by exists S, C|]. apply wp_bind. eapply wp_sock_load; [done|].
    apply wp_bind, wp_in_fkern. eapply wp_mono; [|eapply (shrink_run f n); [done..|by destruct Hrq]].
    intros r k (-> & Hsys' & _ & _ & _ & _ & _ & Hsz). specialize (Hsz (skb_pool S)). rewrite decide_True in Hsz by done.
    rewrite length_take in Hsz. destruct Hrq as [Hn _]. rewrite s32_small by lia.
    apply wp_bind. eapply wp_sock_upd; [done|]. apply wp_ret. eexists _, _. split_and!; [done..| |done| |done].
    + cbn. rewrite Hacc. unfold u32. rewrite Z.mod_small; lia.
    + rewrite Hacc. unfold u32. rewrite Z.mod_small by lia. by rewrite <-Hacc.
  - apply wp_ret. by exists S, C.
Qed.

(** The socket after the release of its free buffers, [used] are still in use. *)
Definition closed_socket S used : rtsocket :=
  S <| pending_sem := None |> <| pool_closed := true |> <| so_pool_size := used |>.

Lemma rt_socket_cleanup_run s C sock S l :
  pool_sys f (fkern s) C → socks s !! sock = Some S → C !! skb_pool S = Some l → accounted s S →
  is_u32 (so_pool_size S) → is_u32 (rtskb_pools (fkern s)) →
  let used := so_pool_size S - Z.of_nat (length l) in
  wp (rt_socket_cleanup sock)
     (λ ret s', ∃ C', C' = <[skb_pool S := []]> C ∧ pool_sys f (fkern s') C' ∧ collector s' = collector s ∧
        socks s' = <[sock := closed_socket S used]> (socks s) ∧ accounted s' (closed_socket S used) ∧
        ret = (if used =? 0 then 0 else - EAGAIN) ∧
        (∀ q, q ≠ skb_pool S → pool_size (fkern s') q = pool_size (fkern s) q) ∧ devs (fkern s') = devs (fkern s) ∧
        rtskb_pools (fkern s') =
          if (0 <? so_pool_size S) && (used =? 0) then u32 (rtskb_pools (fkern s) - 1) else rtskb_pools (fkern s)) s.
Proof.
  intros Hsys HS Hl Hacc Hfew Hu used. pose proof (free_le_pool_size _ _ _ _ (ps_pools _ _ _ Hsys) Hl) as Hle.
  unfold is_u32, accounted in *. unfold rt_socket_cleanup. apply wp_bind. eapply wp_sock_upd; [done|].
  apply wp_bind. eapply wp_sock_load; [apply lookup_insert_eq|]. cbn [so_pool_size skb_pool upd].
  destruct (Z.ltb_spec 0 (so_pool_size S)) as [Hpos|Hnpos].
  2: { apply wp_ret. destruct l; [|cbn in Hle; lia]. cbn in used.
    assert (Eu : used = so_pool_size S) by lia. replace (used =? 0) with true by lia.
    replace (closed_socket S used) with (S <| pending_sem := None |> <| pool_closed := true |>)
      by (rewrite Eu; by destruct S).
    eexists. by rewrite insert_id. }
  apply wp_bind, wp_in_fkern. eapply wp_mono; [|eapply (shrink_run f); [done..|lia]].
  intros r k (-> & Hsys1 & (Hdv & _ & Hp & _) & _ & _ & _ & _ & Hsz). cbn in Hdv, Hp, Hsz.
  assert (Hr : Z.min (so_pool_size S) (Z.of_nat (length l)) = Z.of_nat (length l)) by lia. rewrite Hr.
  rewrite drop_ge in Hsys1 by lia. rewrite take_ge in Hsz by lia.
  apply wp_bind. eapply wp_sock_upd; [apply lookup_insert_eq|]. cbn [so_pool_size upd].
  assert (Hu32 : u32 (so_pool_size S - Z.of_nat (length l)) = used) by (apply u32_id; unfold is_u32; lia).
  rewrite Hu32.
  apply wp_bind. eapply wp_sock_load; [apply lookup_insert_eq|]. cbn [so_pool_size skb_pool upd].
  pose proof (Hsz (skb_pool S)) as Hsz0. rewrite decide_True in Hsz0 by done.
  assert (Hoth : ∀ q, q ≠ skb_pool S → pool_size k q = pool_size (fkern s) q).
  { intros q Hq. specialize (Hsz q). rewrite decide_False in Hsz by done. lia. }
  assert (Eu : used = so_pool_size S - Z.of_nat (length l)) by done.
  destruct (Z.ltb_spec 0 used) as [Hup|Hun].
  - apply wp_ret. replace (used =? 0) with false by lia. rewrite andb_false_r. eexists. cbn.
    rewrite insert_insert_eq. split_and!; [done..|lia|done|done|done|done].
  - apply wp_bind, wp_in_fkern. eapply wp_mono; [|eapply (release_run f); [done|apply lookup_insert_eq]].
    intros [] k' (Hsys2 & ((Hdv2 & _) & _ & _ & _ & _ & Hsz2) & Hp2). cbn in Hdv2. apply wp_ret.
    assert (Hz : ∀ q, pool_size k' q = pool_size k q).
    { intros q. specialize (Hsz2 q). unfold pool_size, pool_map in *. cbn in Hsz2. case_decide; lia. }
    replace (used =? 0) with true by lia. rewrite andb_true_r. rewrite insert_insert_eq in Hsys2. eexists. cbn.
    rewrite insert_insert_eq, Hp2. cbn. rewrite Hp. split_and!; [done..|rewrite Hz; lia|done|intros q Hq; by rewrite Hz, Hoth|congruence|done].
Qed.

(** [rt_socket_cleanup] closes the pool of the socket and gives all its free buffers
    back to the allocator.  It returns 0, and the pool is no longer counted, exactly when
    none of its buffers is in use any more; otherwise it returns [-EAGAIN] with
    [pool_size] telling how many are, so that the call can be repeated.  A socket whose
    pool was shrunk to nothing before is never taken off the count of pools. *)
Theorem rt_socket_cleanup_correct s C sock S l :
  pool_sys f (fkern s) C → socks s !! sock = Some S → C !! skb_pool S = Some l → accounted s S →
  is_u32 (so_pool_size S) → is_u32 (rtskb_pools (fkern s)) →
  let used := so_pool_size S - Z.of_nat (length l) in
  wp (rt_socket_cleanup sock)
     (λ ret s', pool_sys f (fkern s') (<[skb_pool S := []]> C) ∧
        socks s' = <[sock := closed_socket S used]> (socks s) ∧ accounted s' (closed_socket S used) ∧
        ret = (if used =? 0 then 0 else - EAGAIN) ∧
        rtskb_pools (fkern s') =
          if (0 <? so_pool_size S) && (used =? 0) then u32 (rtskb_pools (fkern s) - 1) else rtskb_pools (fkern s)) s.
Proof.
  intros. eapply wp_mono; [|by eapply rt_socket_cleanup_run]. intros ret s' (C' & -> & ? & _ & ? & ? & ? & _ & _ & ?). done.
Qed.

(** [rt_socket_init] gives the socket a pool with the configured number of buffers,
    an empty input queue and the default parameters.  If the allocator cannot provide
    all of them it returns [-ENOMEM], and the buffers and the count of pools are as
    before. *)
Theorem rt_socket_init_correct s C sock S Qp Qi n protocol :
  pool_sys f (fkern s) C → socks s !! sock = Some S → C !! skb_pool S = None → C !! incoming S = None →
  incoming S ≠ skb_pool S → queues (fkern s) !! skb_pool S = Some Qp → queues (fkern s) !! incoming S = Some Qi →
  pool_size (fkern s) (skb_pool S) = 0%nat → few_buffers s S → is_u32 (rtskb_pools (fkern s)) → 0 ≤ n < 2 ^ 31 →
  let have := Z.of_nat (length (slab (fkern s))) in
  wp (rt_socket_init n sock protocol)
     (λ ret s', ∃ S', socks s' = <[sock := S']> (socks s) ∧ accounted s' S' ∧ skb_pool S' = skb_pool S ∧
        if n <=? have then
          ret = 0 ∧ so_pool_size S' = n ∧ pending_sem S' = Some 0 ∧ so_protocol S' = protocol ∧ so_priority S' = 15 ∧
          so_timeout S' = 0 ∧ callback_func S' = None ∧
          pool_sys f (fkern s') (<[skb_pool S := take (Z.to_nat n) (slab (fkern s)).*1]> C) ∧
          rtskb_pools (fkern s') = u32 (rtskb_pools (fkern s) + 1)
        else
          ret = - ENOMEM ∧ so_pool_size S' = 0 ∧ pool_sys f (fkern s') (<[skb_pool S := []]> C) ∧
          rtskb_pools (fkern s') = rtskb_pools (fkern s)) s.
Proof.
  intros Hsys HS HC HCi Hne HQp HQi Hz Hfew Hu Hn have. unfold few_buffers in Hfew.
  assert (Hh : Z.of_nat (length (slab (fkern s))) = have) by done. clearbody have.
  unfold rt_socket_init, rt_bare_socket_init. apply wp_bind. eapply wp_sock_upd; [done|].
  apply wp_bind. eapply wp_sock_load; [apply lookup_insert_eq|]. cbn [incoming upd].
  apply wp_bind, wp_in_fkern. unfold rtskb_queue_init. kstep.
  apply wp_bind. eapply wp_sock_upd; [apply lookup_insert_eq|]. apply wp_bind, wp_bind.
  eapply wp_sock_upd; [apply lookup_insert_eq|]. apply wp_bind. eapply wp_sock_load; [apply lookup_insert_eq|].
  apply wp_in_fkern. cbn [skb_pool upd fkern].
  eapply wp_mono; [|eapply (pool_init_run f n); [by apply pool_sys_queue|done|cbn; by rewrite lookup_insert_ne|lia]].
  intros r k (-> & Hsys1 & Hp & Hsz). cbn in Hsys1, Hp, Hsz. cbn [slab fkern upd] in *.
  rewrite Hh in Hsz |- *.
  specialize (Hsz (skb_pool S)) as Hsz0. rewrite decide_True in Hsz0 by done.
  unfold pool_size at 2, pool_map in Hsz0. cbn in Hsz0. fold (pool_map (fkern s)) in Hsz0.
  fold (pool_size (fkern s) (skb_pool S)) in Hsz0. rewrite Hz, Nat.add_0_l in Hsz0.
  assert (Hr : u32 (Z.min n have) = Z.min n have) by (apply u32_id; unfold is_u32; lia). rewrite Hr.
  apply wp_bind. eapply wp_sock_upd; [apply lookup_insert_eq|]. cbn. rewrite !insert_insert_eq.
  destruct (Z.leb_spec n have) as [Hok|Hshort].
  - rewrite Z.min_l by lia. rewrite Z.ltb_irrefl. apply wp_ret. eexists. split; [done|].
    unfold accounted. cbn. rewrite Hsz0, Z.min_l by lia. split_and!; try done. lia.
  - rewrite Z.min_r in * by lia. replace (have <? n) with true by lia.
    rewrite take_ge in Hsys1 by (rewrite length_fmap; lia).
    match goal with |- context [<[sock := ?X]> (socks s)] => set (S1 := X) end.
    apply wp_bind. apply (wp_mono _ (λ _ s1, s1 = mk_fstate (fkern s1) (<[sock := S1]> (socks s)) (collector s) ∧
      pool_sys f (fkern s1) (<[skb_pool S := (slab (fkern s)).*1]> C) ∧ pool_size (fkern s1) (skb_pool S) = Z.to_nat have ∧
      rtskb_pools (fkern s1) = if have =? 0 then rtskb_pools (fkern s) else u32 (rtskb_pools (fkern s) + 1))).
    2: { destruct (have =? 0).
      - apply wp_in_fkern, wp_modify. cbn. split_and!; [done|by apply pool_sys_pools|done|]. rewrite Hp. apply u32_succ_pred, Hu.
      - by apply wp_ret. }
    intros [] [k1 so co] (E & Hsys2 & Hsz2 & Hp2). injection E as -> ->. cbn in *.
    apply wp_bind. eapply wp_mono; [|eapply (rt_socket_cleanup_run _ (<[skb_pool S := (slab (fkern s)).*1]> C) _ S1);
      [done|apply lookup_insert_eq|apply lookup_insert_eq|unfold accounted; cbn; lia|cbn; unfold is_u32; lia|]].
    2: { cbn. rewrite Hp2. case_match; [done|apply u32_range]. }
    rewrite length_fmap, Hh. replace (so_pool_size S1 - have) with 0 by (cbn; lia).
    intros ret s' (C' & -> & Hs & _ & Eso & Hac & _ & _ & _ & Hpp). apply wp_ret.
    change (skb_pool S1) with (skb_pool S) in Hs. rewrite insert_insert_eq in Hs. cbn [socks] in Eso.
    rewrite insert_insert_eq in Eso. cbn in Hpp.
    eexists. split_and!; [done|exact Hac|done|done|done|done|]. rewrite Hpp, Hp2, andb_true_r.
    destruct (Z.eqb_spec have 0) as [->|]; [done|]. replace (0 <? have) with true by lia. apply u32_succ_pred, Hu.
Qed.
End pool.

(** ** Interface requests *)

Section interfaces.
Context `{Config} (sizeof_ifreq : Z) (do_ioctl : nat → option (M kstate Z)).
Implicit Types s : kstate.

(** The entry of a running device of the table. *)
Definition running_entry s (o : option nat) : option ifconf_entry :=
  d ← o; D ← devs s !! d;
  if Z.land (flags D) IFF_RUNNING =? 0 then None
  else Some (mk_ifconf (strncpy IFNAMSIZ (name D)) AF_INET (local_ip D)).

Lemma slot_run i s :
  devtab s → (i < MAX_RT_DEVICES)%nat →
  wp (rtdev_get_by_index (Z.of_nat i + 1))
     (λ r s', rtnet_devices s !! i = Some r ∧
        match r with None => s' = s | Some d => ∃ D, devs s !! d = Some D ∧ s' = ref_taken s d D end) s.
Proof.
  intros Ht Hi. eapply wp_mono; [|by apply get_by_index_run]. pose proof Ht as [Hlen Hdev _ _].
  intros [d|] s'.
  - intros (D & [k Hk] & HD & Hx & ->). destruct (Hdev _ _ Hk) as (D' & HD' & E). simplify_eq.
    apply Z.eqb_eq in Hx. replace k with i in Hk by lia. eauto.
  - intros [-> Hno]. split; [|done]. destruct (lookup_lt_is_Some_2 (rtnet_devices s) i) as [[d|] Hr]; [lia| |done].
    destruct (Hdev _ _ Hr) as (D & HD & E). specialize (Hno d D (ex_intro _ i Hr) HD). lia.
Qed.

Lemma ifconf_loop_run n i room out s :
  devtab s → (i + n = MAX_RT_DEVICES)%nat → 0 < sizeof_ifreq →
  let size := Z.of_nat (length out) * sizeof_ifreq in size ≤ room →
  let all := out ++ omap (running_entry s) (drop i (rtnet_devices s)) in
  wp (ifconf_loop sizeof_ifreq n (Z.of_nat i + 1) room size out)
     (λ r s', s' = s ∧ r.2 = take (Z.to_nat (room / sizeof_ifreq)) all ∧
        r.1 = Z.min room (Z.of_nat (length all) * sizeof_ifreq)) s.
Proof.
  revert i out. induction n as [|n IH]; intros i out Ht Hin Hsz size Hroom all; subst size all; cbn [ifconf_loop].
  { apply wp_ret. pose proof Ht as [Hlen _ _ _]. rewrite drop_ge by lia. cbn. rewrite app_nil_r.
    assert (Z.of_nat (length out) ≤ room / sizeof_ifreq) by (apply Z.div_le_lower_bound; lia).
    rewrite take_ge by lia. split_and!; [done..|lia]. }
  apply wp_bind. eapply wp_mono; [|apply slot_run; [done|lia]]. intros r s1 [Hr Hs1].
  rewrite (drop_S _ r) by done. replace (Z.of_nat i + 1 + 1) with (Z.of_nat (S i) + 1) by lia. cbn [omap list_omap].
  destruct r as [d|]; [|subst s1; cbn; apply IH; auto; lia].
  destruct Hs1 as (D & HD & ->). apply wp_bind. eapply wp_dev_load; [apply lookup_insert_eq|].
  cbn [flags name local_ip upd]. unfold running_entry at 1 3. cbn. rewrite HD. cbn.
  destruct (Z.land (flags D) IFF_RUNNING =? 0) eqn:Hrun.
  { apply wp_bind. apply wp_ref_deref; [done|]. apply IH; auto; lia. }
  set (e := mk_ifconf _ _ _).
  destruct (Z.ltb_spec room (Z.of_nat (length out) * sizeof_ifreq + sizeof_ifreq)) as [Hfull|Hfit].
  - apply wp_bind. apply wp_ref_deref; [done|]. apply wp_ret. rewrite length_app. cbn [length fst snd].
    assert (room / sizeof_ifreq = Z.of_nat (length out)) as ->.
    { symmetry. apply (Z.div_unique _ _ _ (room - Z.of_nat (length out) * sizeof_ifreq)); lia. }
    rewrite Nat2Z.id, take_app_length. split_and!; [done..|]. nia.
  - apply wp_bind. apply wp_ref_deref; [done|]. specialize (IH (S i) (out ++ [e])).
    rewrite length_app in IH. cbn [length] in IH. rewrite <-app_assoc in IH.
    replace (Z.of_nat (length out) * sizeof_ifreq + sizeof_ifreq)
      with (Z.of_nat (length out + 1) * sizeof_ifreq) in * by lia.
    apply IH; auto; lia.
Qed.

(** C37: [SIOCGIFCONF] lists the running devices in the order of their indices, as many
    as fit into the array of the caller, and never writes beyond it; the device
    references it takes are all given back.  The length it reports is that of all running
    devices, but not more than the length of the array: if not all fit, the length of the
    array, which may be more than what was written. *)
Theorem rt_socket_if_conf_correct s ifc_len :
  devtab s → 0 < sizeof_ifreq → 0 ≤ ifc_len →
  let all := omap (running_entry s) (rtnet_devices s) in
  wp (rt_socket_if_conf sizeof_ifreq ifc_len)
     (λ r s', s' = s ∧ r.2 = take (Z.to_nat (ifc_len / sizeof_ifreq)) all ∧
        Z.of_nat (length r.2) * sizeof_ifreq ≤ ifc_len ∧
        r.1 = Z.min ifc_len (Z.of_nat (length all) * sizeof_ifreq)) s.
Proof.
  intros Ht Hsz Hlen all. unfold rt_socket_if_conf.
  eapply wp_mono; [|apply (ifconf_loop_run MAX_RT_DEVICES 0 ifc_len [] s); auto].
  rewrite drop_0, app_nil_l. fold all. intros r s' (-> & -> & ->). split_and!; [done..| |done].
  rewrite length_take. pose proof (Z.mul_div_le ifc_len sizeof_ifreq Hsz).
  assert (0 ≤ ifc_len / sizeof_ifreq) by (apply Z.div_pos; lia). nia.
Qed.

(** The interface requests by name do not change anything, and give back the
    reference. *)
Lemma rt_socket_if_ioctl_run s rq nm :
  devtab s → rq ≠ SIOCETHTOOL →
  wp (rt_socket_if_ioctl do_ioctl rq nm)
     (λ r s', s' = s ∧ (r = (- ENODEV, ifr_none) ∧ (∀ d D, registered s d → devs s !! d = Some D → has_name nm D = false) ∨
        ∃ d D, registered s d ∧ devs s !! d = Some D ∧ has_name nm D = true ∧
          r = match rq with
              | SIOCGIFINDEX => (0, ifr_ifindex (ifindex D))
              | SIOCGIFFLAGS => (0, ifr_flags (flags D))
              | SIOCGIFHWADDR => (0, ifr_hwaddr (dtype D) (take (addr_len D) (dev_addr D)))
              | SIOCGIFADDR => (0, ifr_addr AF_INET (local_ip D))
              | _ => (- EOPNOTSUPP, ifr_none)
              end)) s.
Proof.
  intros Ht Hrq. unfold rt_socket_if_ioctl. apply wp_bind. eapply wp_mono; [|by apply get_by_name_run].
  intros [d|] s'; [|intros [-> Hno]; apply wp_ret; eauto].
  intros (D & Hd & HD & Hnm & ->). apply wp_bind. eapply wp_dev_load; [apply lookup_insert_eq|].
  destruct rq; try done; apply wp_bind, wp_ret, wp_bind, wp_ref_deref; try done; apply wp_ret; (split; [done|]);
    right; exists d, D; split_and!; done.
Qed.
End interfaces.
