(* ===== verification/IpOutput.v ===== *)
(** * IP output (stack/ipv4/ip_output.c)

    A message is sent as one packet or cut into fragments.  The function that copies
    the data of the message ([getfrag]) comes from the protocol above and has a state
    [W] of its own; the header checksum is a function of the architecture; the header
    creation, the MTU and the transmission are hooks of the device. *)
From S2P Require Import Prelude State RtskbQueue Rtskb RtskbData Rtdev Eth Route IpFragment.

Definition ETH_P_IP := 2048.
Definition IP_DF := 16384.
(** [sizeof(struct iphdr)] *)
Definition IPHDR_LEN := 20.

Record ostate (W : Type) := mk_ostate {
  okern : kstate;
  rt_ip_id_count : Z;
  ofrag : W;
}.
Arguments mk_ostate {W}.
Arguments okern {W}.
Arguments rt_ip_id_count {W}.
Arguments ofrag {W}.
#[export] Instance ostate_eta W : Settable (ostate W) := λ r,
  mk_ostate (okern r) (rt_ip_id_count r) (ofrag r).

Section defs.
Context `{Config} {W : Type}.
Context (ip_fast_csum : list Z → Z).
Context (hard_header : nat → option (nat → Z → list Z → list Z → Z → M kstate Z)).
Context (get_mtu : nat → Z → M kstate Z) (drv_xmit : nat → nat → M kstate Z).
Context (getfrag : nat → Z → Z → Z → M (ostate W) Z).

Definition in_okern {A} : M kstate A → M (ostate W) A := zoom okern (λ k s, s <| okern := k |>).

(** A 16 bit object of the target in memory. *)
Definition wr16 (x : Z) : list Z := be16 (ntohs x).
(** The bytes of a [struct iphdr] without options. *)
Definition ip_header (tos tot_len id frag_off proto check saddr daddr : Z) : list Z :=
  [69; u8 tos] ++ be16 tot_len ++ be16 id ++ be16 frag_off ++ [255; u8 proto] ++ wr16 check ++
  wr32 saddr ++ wr32 daddr.

(** From [rtskb_reserve] to the checksum; the result is [iph]. *)
Definition put_ip (sk : rtsocket) (rt : dest_route) (d skb : nat) (hh_len fraglen prio id frag_off : Z)
    : M kstate Z :=
  skb_upd skb (rtskb_reserve hh_len);;
  x ← skb_load skb;
  let '(iph, x) := rtskb_put fraglen x in
  skb_store skb (x <| rtdev := Some d |> <| nh_raw := iph |> <| priority := prio |>);;
  D ← dev_load d;
  skb_write skb iph (ip_header (inet_tos sk) fraglen id frag_off (so_protocol sk) 0 (local_ip D) (ip rt));;
  hdr ← skb_read skb iph IPHDR_LEN;
  skb_write skb (iph + 10) (wr16 (ip_fast_csum hdr));;
  mret iph.

(** The data and the link header; 0, or the error for which the packet is dropped. *)
Definition fill_ip (rt : dest_route) (d skb : nat) (iph offset n : Z) : M (ostate W) Z :=
  err ← getfrag skb (iph + IPHDR_LEN) offset n;
  if negb (err =? 0) then mret err
  else
    match hard_header d with
    | None => mret 0
    | Some f =>
        D ← in_okern (dev_load d);
        x ← in_okern (skb_load skb);
        err ← in_okern (f skb ETH_P_IP (dest_addr rt) (dev_addr D) (len x));
        mret (if err <? 0 then err else 0)
    end.

Definition next_id : M (ostate W) Z :=
  id ← gets rt_ip_id_count;
  modify (λ s, s <| rt_ip_id_count := u16 (id + 1) |>);; mret id.

(** The label [error]. *)
Definition xmit_error (skb next_skb : option nat) (err : Z) : M (ostate W) Z :=
  match skb with
  | None => mret err
  | Some _ =>
      in_okern (kfree_rtskb skb);;
      match next_skb with Some _ => in_okern (kfree_rtskb next_skb) | None => mret () end;;
      mret err
  end.

(** The length and the [frag_off] field of the fragment at [offset], the buffer for the
    next one, and [next_err]. *)
Definition next_frag (sk : rtsocket) (length rtskb_size fragdatalen offset : Z)
    : M (ostate W) (Z * Z * option nat * Z) :=
  let frag_off := u16 (Z.shiftr offset 3) in
  if u32 (length - fragdatalen) <=? offset then mret (IPHDR_LEN + length - offset, frag_off, None, 0)
  else
    let frag_off := Z.lor frag_off IP_MF in
    r ← in_okern (alloc_rtskb rtskb_size (skb_pool sk));
    mret (match r with
          | None => (IPHDR_LEN + fragdatalen, Z.land frag_off (Z.lnot IP_MF), None, - ENOBUFS)
          | Some b => (IPHDR_LEN + fragdatalen, frag_off, Some b, 0)
          end).

Fixpoint slow_loop (fuel : nat) (sk : rtsocket) (rt : dest_route) (d : nat)
    (length prio hh_len rtskb_size fragdatalen id offset : Z) (skb : option nat) : M (ostate W) Z :=
  if negb (offset <? length) then mret 0
  else
    match fuel with
    | O => ub
    | S fuel =>
        '(fraglen, frag_off, next_skb, next_err) ← next_frag sk length rtskb_size fragdatalen offset;
        a ← deref skb;
        iph ← in_okern (put_ip sk rt d a hh_len fraglen prio id frag_off);
        err ← fill_ip rt d a iph offset (fraglen - IPHDR_LEN);
        if negb (err =? 0) then xmit_error skb next_skb err
        else
          err ← in_okern (rtdev_xmit drv_xmit skb);
          if negb (err =? 0) then xmit_error next_skb next_skb (- EAGAIN)
          else if negb (next_err =? 0) then mret next_err
          else
            slow_loop fuel sk rt d length prio hh_len rtskb_size fragdatalen id
              (u32 (offset + fragdatalen)) next_skb
    end.

(** [(rtdev->hard_header_len + 15) & ~15] *)
Definition hh_len (D : rtnet_device) : Z := Z.land (hard_header_len D + 15) (Z.lnot 15).

(** Each round advances by at least 8 bytes. *)
Definition rt_ip_build_xmit_slow (sk : rtsocket) (length : Z) (rt : dest_route) (mtu prio : Z) : M (ostate W) Z :=
  d ← deref (dest_rtdev rt);
  D ← in_okern (dev_load d);
  let fragdatalen := u32 (Z.land (mtu - IPHDR_LEN) (Z.lnot 7)) in
  id ← next_id;
  let rtskb_size := u32 (mtu + hh_len D + 15) in
  skb ← in_okern (alloc_rtskb rtskb_size (skb_pool sk));
  match skb with
  | None => mret (- ENOBUFS)
  | Some _ =>
      slow_loop (Z.to_nat (length / 8 + 1)) sk rt d length prio (hh_len D) rtskb_size fragdatalen id 0 skb
  end.

Definition rt_ip_build_xmit (sk : rtsocket) (length : Z) (rt : dest_route) : M (ostate W) Z :=
  d ← deref (dest_rtdev rt);
  let prio := so_priority sk in
  mtu ← in_okern (get_mtu d prio);
  let length := u32 (length + IPHDR_LEN) in
  if mtu <? length then rt_ip_build_xmit_slow sk (u32 (length - IPHDR_LEN)) rt mtu prio
  else
    id ← next_id;
    D ← in_okern (dev_load d);
    r ← in_okern (alloc_rtskb (u32 (length + hh_len D + 15)) (skb_pool sk));
    match r with
    | None => mret (- ENOBUFS)
    | Some skb =>
        iph ← in_okern (put_ip sk rt d skb (hh_len D) length prio id IP_DF);
        err ← fill_ip rt d skb iph 0 (length - IPHDR_LEN);
        if negb (err =? 0) then in_okern (kfree_rtskb (Some skb));; mret err
        else
          err ← in_okern (rtdev_xmit drv_xmit (Some skb));
          mret (if negb (err =? 0) then - EAGAIN else 0)
    end.
End defs.

(** ** Building one packet *)

Section packet.
Context `{Config}.
Context (ip_fast_csum : list Z → Z).
Implicit Types (k : kstate) (x y : rtskb).

Definition header_of (sk : rtsocket) (rt : dest_route) (D : rtnet_device) (fraglen id frag_off check : Z) : list Z :=
  ip_header (inet_tos sk) fraglen id frag_off (so_protocol sk) check (local_ip D) (ip rt).
(** The header with its checksum. *)
Definition full_header sk rt D fraglen id frag_off : list Z :=
  header_of sk rt D fraglen id frag_off (ip_fast_csum (header_of sk rt D fraglen id frag_off 0)).

Lemma length_wr32 v : length (wr32 v) = 4%nat.
Proof. unfold wr32. by destruct little_endian. Qed.
Lemma length_header sk rt D n id off c : length (header_of sk rt D n id off c) = 20%nat.
Proof. unfold header_of, ip_header. rewrite !length_app, !length_wr32. done. Qed.
Lemma header_check sk rt D n id off c c' :
  splice 10 (wr16 c') (header_of sk rt D n id off c) = header_of sk rt D n id off c'.
Proof.
  exact (splice_mid ([69; u8 (inet_tos sk)] ++ be16 n ++ be16 id ++ be16 off ++ [255; u8 (so_protocol sk)])
    (wr16 c) (wr16 c') (wr32 (local_ip D) ++ wr32 (ip rt)) eq_refl).
Qed.

(** A packet of [n] bytes in buffer [x], starting with the header. *)
Definition ip_packet_in x d hh n prio hdr y : Prop :=
  wf_rtskb y ∧ length (buf y) = length (buf x) ∧ take 20 (payload y) = hdr ∧
  y = x <| data := buf_start x + hh |> <| tail := buf_start x + hh + n |> <| len := n |> <| rtdev := Some d |>
        <| nh_raw := buf_start x + hh |> <| priority := prio |> <| buf := buf y |>.

Lemma put_ip_run sk rt d D a x hh n prio id off k :
  skbs k !! a = Some x → devs k !! d = Some D → data x = buf_start x → tail x = buf_start x → len x = 0 →
  0 ≤ hh → 20 ≤ n → hh + n ≤ Z.of_nat (length (buf x)) < 2 ^ 32 →
  wp (put_ip ip_fast_csum sk rt d a hh n prio id off)
     (λ iph k', iph = buf_start x + hh ∧ ∃ y, k' = upd_skb a y k ∧
        ip_packet_in x d hh n prio (full_header sk rt D n id off) y) k.
Proof.
  intros Hx HD Ed Et El Hh Hn Hlen. unfold put_ip. apply wp_bind. eapply wp_skb_upd; [done|].
  fold (upd_skb a (rtskb_reserve hh x) k). apply wp_bind, wp_upd_skb_load. cbn [rtskb_put].
  unfold rtskb_put, rtskb_reserve. cbn [tail data len upd]. rewrite Et, El, Z.add_0_l, u32_id by (unfold is_u32; lia).
  set (x1 := _ <| priority := prio |>). apply wp_bind. apply wp_upd_skb_store.
  assert (Hx1 : x1 = x <| data := buf_start x + hh |> <| tail := buf_start x + hh + n |> <| len := n |> <| rtdev := Some d |>
    <| nh_raw := buf_start x + hh |> <| priority := prio |>).
  { unfold x1. rewrite <-Ed. done. }
  clearbody x1. assert (Hw1 : wf_rtskb x1) by (rewrite Hx1; split; cbn; lia).
  assert (Hd1 : data x1 = buf_start x + hh) by (by rewrite Hx1). assert (Hl1 : len x1 = n) by (by rewrite Hx1).
  pose proof (length_payload _ Hw1) as Hp1.
  apply wp_bind. eapply wp_dev_load; [exact HD|]. fold (header_of sk rt D n id off 0). apply wp_bind.
  eapply (wp_write_payload a x1 0); [done|rewrite length_header; lia|lia|]. intros x2 F2 Hw2 Hp2.
  pose proof F2 as [E2 L2]. assert (Hd2 : data x2 = data x1 ∧ len x2 = n) by (by rewrite E2). destruct Hd2 as [Hd2 Hl2].
  assert (Ht2 : payload x2 = header_of sk rt D n id off 0 ++ drop 20 (payload x1)).
  { rewrite Hp2. unfold splice. by rewrite take_0, length_header. }
  apply wp_bind. eapply (wp_read_payload a x2 0); [apply upd_skb_lookup|done|done|unfold IPHDR_LEN; lia|lia|].
  rewrite drop_0, Ht2, take_app_length' by (by rewrite length_header).
  apply wp_bind. eapply (wp_write_payload a x2 10); [done|cbn; lia|lia|]. intros y F3 Hwy Hpy.
  pose proof (same_frame_trans _ _ _ F2 F3) as [Ey Ly]. apply wp_ret. split; [done|].
  exists y. split; [done|]. split_and!; [done|by rewrite Ly, Hx1| |rewrite Ey, Hx1; done].
  rewrite Hpy, Ht2, splice_app_l by (rewrite length_header; cbn; lia).
  rewrite header_check. apply take_app_length'. unfold full_header. by rewrite length_header.
Qed.
End packet.

(** ** Sending a message *)

Section send.
Context `{Config} {W : Type}.
Context (ip_fast_csum : list Z → Z).
Context (hard_header : nat → option (nat → Z → list Z → list Z → Z → M kstate Z)).
Context (get_mtu : nat → Z → M kstate Z) (drv_xmit : nat → nat → M kstate Z).
Context (getfrag : nat → Z → Z → Z → M (ostate W) Z).
(** The message, and the state of its source after a number of bytes. *)
Context (msg : list Z) (Wat : Z → W → Prop).
Context (sk : rtsocket) (rt : dest_route) (d : nat) (D : rtnet_device) (lh : list Z).
Implicit Types (s : ostate W) (x y : rtskb) (C : gmap nat (list nat)).

(** [getfrag] copies the bytes of the message from [offset] on behind the IP header;
    the first call has room for the header of the protocol, which is 8 bytes long. *)
Definition getfrag_spec : Prop :=
  ∀ s a x offset n, skbs (okern s) !! a = Some x → wf_rtskb x → len x = 20 + n → 0 ≤ n → 0 ≤ offset →
  (offset = 0 → 8 ≤ n) →
  offset + n ≤ Z.of_nat (length msg) → Wat offset (ofrag s) →
  wp (getfrag a (data x + 20) offset n)
     (λ err s', err = 0 ∧ rt_ip_id_count s' = rt_ip_id_count s ∧ Wat (offset + n) (ofrag s') ∧
        ∃ y, okern s' = upd_skb a y (okern s) ∧ same_frame x y ∧ wf_rtskb y ∧
          payload y = take 20 (payload x) ++ take (Z.to_nat n) (drop (Z.to_nat offset) msg)) s.

(** The same for one call, in the state the buffer [a] was prepared in. *)
Definition getfrag_here s a offset n : Prop :=
  ∀ x, wf_rtskb x → len x = 20 + n →
  wp (getfrag a (data x + 20) offset n)
     (λ err s', err = 0 ∧ rt_ip_id_count s' = rt_ip_id_count s ∧ Wat (offset + n) (ofrag s') ∧
        ∃ y, okern s' = upd_skb a y (okern s) ∧ same_frame x y ∧ wf_rtskb y ∧
          payload y = take 20 (payload x) ++ take (Z.to_nat n) (drop (Z.to_nat offset) msg))
     (s <| okern := upd_skb a x (okern s) |>).
Lemma getfrag_spec_here s a offset n :
  getfrag_spec → 0 ≤ n → 0 ≤ offset → (offset = 0 → 8 ≤ n) → offset + n ≤ Z.of_nat (length msg) → Wat offset (ofrag s) →
  getfrag_here s a offset n.
Proof.
  intros Hgf Hn Ho H8 Hon HW x Hw Hl. eapply wp_mono; [|eapply (Hgf _ a x); [apply upd_skb_lookup|done..]].
  intros err s' (-> & Hid & HW' & y & Hk & Hrest). split_and!; try done. exists y. split; [|done].
  cbn [okern upd] in Hk. by rewrite upd_skb_twice in Hk.
Qed.

(** The hook of the device puts the link header [lh] in front of a packet. *)
Definition header_spec : Prop :=
  match hard_header d with
  | None => lh = []
  | Some f =>
      ∀ k a x, skbs k !! a = Some x → devs k !! d = Some D → wf_rtskb x → hard_header_len D ≤ headroom x →
      wp (f a ETH_P_IP (dest_addr rt) (dev_addr D) (len x))
         (λ r k', 0 ≤ r ∧ ∃ y, k' = upd_skb a y k ∧ rtdev y = rtdev x ∧ payload y = lh ++ payload x) k
  end.

(** The driver takes every packet. *)
Definition driver_spec : Prop :=
  start_xmit D ≠ XMIT_NULL ∧ ∀ k a, is_Some (skbs k !! a) → drv_xmit a d k = Some (0, k).

(** The state after a packet was handed to the driver. *)
Definition sent_one s a y packet : kstate :=
  (upd_skb a y (okern s)) <| xmit_log := xmit_log (okern s) ++ [(d, a, packet)] |>.

Lemma wp_in_okern {A} (m : M kstate A) (Q : A → ostate W → Prop) s :
  wp m (λ a k, Q a (s <| okern := k |>)) (okern s) → wp (in_okern m) Q s.
Proof. apply (wp_zoom okern (λ k s, s <| okern := k |>)). Qed.

Lemma hh_len_ge : hard_header_len D ≤ hh_len D.
Proof using Type.
  unfold hh_len. rewrite <-Z.ldiff_land. change 15 with (Z.ones 4) at 2. rewrite Z.ldiff_ones_r by done.
  rewrite Z.shiftr_div_pow2, Z.shiftl_mul_pow2 by done. change (2 ^ 4) with 16. clear. divlia.
Qed.

(** Transmission hands the packet to the driver. *)
Lemma xmit_run k a z :
  driver_spec → skbs k !! a = Some z → rtdev z = Some d → devs k !! d = Some D →
  wp (rtdev_xmit drv_xmit (Some a)) (λ r k', r = 0 ∧ k' = k <| xmit_log := xmit_log k ++ [(d, a, payload z)] |>) k.
Proof using Type.
  intros [Hsx Hdrv] Hz Hrz HD. unfold rtdev_xmit, xmit_or_free, call_start_xmit.
  apply wp_bind. eapply wp_skb_load; [done|]. rewrite Hrz. apply wp_bind, wp_bind.
  eapply wp_dev_load; [done|]. apply wp_bind. eapply wp_skb_load; [done|]. apply wp_bind, wp_modify.
  set (k' := _ <| xmit_log := _ |>). apply (wp_mono _ (λ r k, r = 0 ∧ k = k')).
  - intros r ? [-> ->]. cbn [Z.eqb negb when]. by apply wp_bind, wp_ret, wp_ret.
  - assert (Hrun : wp (drv_xmit a d) (λ r k, r = 0 ∧ k = k') k').
    { eapply (wp_intro _ _ _ 0); [|done]. apply Hdrv. cbn. rewrite Hz. eauto. }
    by destruct (start_xmit D).
Qed.

Lemma wp_send_one s a x n prio id off offset (E K : Z → M (ostate W) Z) Q :
  getfrag_here s a offset (n - 20) → header_spec → driver_spec → skbs (okern s) !! a = Some x → devs (okern s) !! d = Some D →
  data x = buf_start x → tail x = buf_start x → len x = 0 → 0 ≤ hh_len D → 20 ≤ n →
  hh_len D + n ≤ Z.of_nat (length (buf x)) < 2 ^ 32 →
  (∀ y s', okern s' = sent_one s a y (lh ++ full_header ip_fast_csum sk rt D n id off ++
                                     take (Z.to_nat (n - 20)) (drop (Z.to_nat offset) msg)) →
     Wat (offset + (n - 20)) (ofrag s') → rt_ip_id_count s' = rt_ip_id_count s → wp (K 0) Q s') →
  wp (iph ← in_okern (put_ip ip_fast_csum sk rt d a (hh_len D) n prio id off);
      err ← fill_ip hard_header getfrag rt d a iph offset (n - IPHDR_LEN);
      if negb (err =? 0) then E err
      else err ← in_okern (rtdev_xmit drv_xmit (Some a)); K err) Q s.
Proof.
  intros Hgf Hlh Hdrv Hx HD Ed Et El Hh Hn Hlen HQ.
  apply wp_bind, wp_in_okern. eapply wp_mono; [|by eapply put_ip_run].
  intros iph k (-> & x1 & -> & Hw1 & L1 & Hp1 & E1). unfold fill_ip. apply wp_bind, wp_bind.
  assert (Hd1 : buf_start x + hh_len D = data x1 ∧ len x1 = 20 + (n - 20) ∧ rtdev x1 = Some d ∧
    headroom x1 = hh_len D) by (unfold headroom; rewrite E1; cbn; split_and!; try done; lia).
  destruct Hd1 as (Hd1 & Hl1 & Hr1 & Hh1). rewrite Hd1. change IPHDR_LEN with 20.
  eapply wp_mono; [|by apply (Hgf x1)].
  intros err s1 (-> & Hid1 & HW1 & y & Hk1 & Hf & Hwy & Hpy). cbn [Z.eqb negb]. rewrite Hp1 in Hpy.
  destruct Hf as [Ef _].
  assert (Hry : rtdev y = Some d ∧ headroom y = hh_len D) by (unfold headroom in *; rewrite Ef; done).
  destruct Hry as [Hry Hhy].
  apply (wp_mono _ (λ err s2, err = 0 ∧ ofrag s2 = ofrag s1 ∧ rt_ip_id_count s2 = rt_ip_id_count s1 ∧
    ∃ z, okern s2 = upd_skb a z (okern s) ∧ rtdev z = Some d ∧ payload z = lh ++ payload y)).
  2: { unfold header_spec in Hlh. destruct (hard_header d) as [f|].
    - apply wp_bind, wp_in_okern. rewrite Hk1. eapply wp_dev_load; [exact HD|]. apply wp_bind, wp_in_okern.
      eapply wp_skb_load; [apply upd_skb_lookup|]. apply wp_bind, wp_in_okern. cbn [okern upd].
      eapply wp_mono; [|eapply (Hlh _ a y); [apply upd_skb_lookup|exact HD|done|rewrite Hhy; apply hh_len_ge]].
      intros r k (Hr & z & -> & Hrz & Hpz). apply wp_ret. replace (r <? 0) with false by lia.
      split_and!; try done. exists z. rewrite upd_skb_twice. by rewrite Hrz.
    - subst lh. apply wp_ret. split_and!; try done. by exists y. }
  intros err s2 (-> & Ef2 & Hid2 & z & Hk2 & Hrz & Hpz). cbn [Z.eqb negb].
  apply wp_bind, wp_in_okern. rewrite Hk2.
  eapply wp_mono; [|by eapply (xmit_run _ a z Hdrv); [apply upd_skb_lookup| |exact HD]].
  intros r k [-> ->]. eapply (HQ z).
  - cbn [okern upd]. by rewrite Hpz, Hpy.
  - cbn [ofrag upd]. by rewrite Ef2.
  - cbn [rt_ip_id_count upd]. by rewrite Hid2.
Qed.

(** *** Fragments *)

Context (f : nat) (id : Z).
(** The fragment at byte [o]; [more]: the flag for more fragments. *)
Definition frag_data (o : nat) : list Z := take f (drop o msg).
Definition frag_packet (o : nat) (more : bool) : list Z :=
  full_header ip_fast_csum sk rt D (20 + Z.of_nat (length (frag_data o))) id
    (Z.lor (Z.of_nat o / 8) (if more then IP_MF else 0)) ++ frag_data o.
(** The transmissions of the message from byte [o] on, with the buffers [bufs]: a
    fragment is marked as the last one when no data or no buffer is left. *)
Fixpoint frag_log (bufs : list nat) (o : nat) : list (nat * nat * list Z) :=
  match bufs with
  | [] => []
  | a :: bufs =>
      if (length msg <=? o + f)%nat then [(d, a, lh ++ frag_packet o false)]
      else (d, a, lh ++ frag_packet o (nonempty bufs)) :: frag_log bufs (o + f)
  end.

Lemma more_bit o : 0 ≤ o < 2 ^ 13 → Z.land (Z.lor o IP_MF) (Z.lnot IP_MF) = o.
Proof.
  intros Ho. apply Z.bits_inj'. intros i Hi. change IP_MF with (2 ^ 13).
  rewrite Z.land_spec, Z.lnot_spec, Z.lor_spec, Z.pow2_bits_eqb by lia.
  destruct (Z.eqb_spec 13 i) as [<-|]; [|by rewrite orb_false_r, andb_true_r]. rewrite andb_false_r. symmetry.
  destruct (decide (o = 0)) as [->|]; [by rewrite Z.bits_0|]. apply Z.bits_above_log2; [lia|]. apply Z.log2_lt_pow2; lia.
Qed.

(** The buffers that are left have room for a fragment. *)
Definition roomy k (l : list nat) n : Prop :=
  ∀ b x, b ∈ l → skbs k !! b = Some x → hh_len D + n ≤ Z.of_nat (length (buf x)) < 2 ^ 32.

Lemma pools_inv_sent s C a y packet k :
  pools_inv (okern s) C → in_use C a → k = sent_one s a y packet → pools_inv k C.
Proof.
  intros Hinv Ha ->. eapply pools_inv_touch; [exact Hinv|exact Ha|..]; cbn; [|eauto].
  intros b Hb. by apply lookup_insert_ne.
Qed.

Lemma frag_packet_eq o (more : bool) n :
  n = 20 + Z.of_nat (length (frag_data o)) →
  full_header ip_fast_csum sk rt D n id (Z.lor (Z.of_nat o / 8) (if more then IP_MF else 0)) ++
    take (Z.to_nat (n - 20)) (drop (Z.to_nat (Z.of_nat o)) msg) = frag_packet o more.
Proof.
  intros ->. unfold frag_packet. f_equal. rewrite Nat2Z.id. replace (Z.to_nat _) with (length (frag_data o)) by lia.
  unfold frag_data. rewrite length_take. destruct (Nat.le_ge_cases f (length (drop o msg))) as [Hl|Hl].
  - by rewrite Nat.min_l by done.
  - by rewrite Nat.min_r, !take_ge by done.
Qed.

Lemma frag_log_cons a l o :
  frag_log (a :: l) o = if (length msg <=? o + f)%nat then [(d, a, lh ++ frag_packet o false)]
                        else (d, a, lh ++ frag_packet o (nonempty l)) :: frag_log l (o + f).
Proof using Type. done. Qed.
Lemma frag_log_pos a l o : (0 < length (frag_log (a :: l) o))%nat.
Proof. cbn. case_match; cbn; lia. Qed.
Lemma slow_loop_done fuel n prio hh size fl o r :
  n ≤ o → slow_loop ip_fast_csum hard_header drv_xmit getfrag fuel sk rt d n prio hh size fl id o r = mret 0.
Proof. intros Ho. destruct fuel; cbn [slow_loop]; by replace (o <? n) with false by lia. Qed.

Lemma slow_loop_run fuel a l o prio size s C x :
  getfrag_spec → header_spec → driver_spec → (8 ≤ f)%nat → (8 | Z.of_nat f) → (8 | Z.of_nat o) → 0 ≤ hh_len D →
  (o < length msg)%nat → (f < length msg)%nat → Z.of_nat (length msg) < 65536 → (length msg ≤ o + 8 * fuel)%nat →
  size ≤ SKB_DATA_ALIGN RTSKB_SIZE →
  pools_inv (okern s) C → C !! skb_pool sk = Some l → in_use C a → devs (okern s) !! d = Some D →
  skbs (okern s) !! a = Some x → data x = buf_start x → tail x = buf_start x → len x = 0 →
  roomy (okern s) (a :: l) (20 + Z.of_nat f) → Wat (Z.of_nat o) (ofrag s) →
  wp (slow_loop ip_fast_csum hard_header drv_xmit getfrag fuel sk rt d (Z.of_nat (length msg)) prio (hh_len D)
        size (Z.of_nat f) id (Z.of_nat o) (Some a))
     (λ ret s', ret = (if (length msg <=? o + f * S (length l))%nat then 0 else - ENOBUFS) ∧
        devs (okern s') = devs (okern s) ∧ rt_ip_id_count s' = rt_ip_id_count s ∧
        xmit_log (okern s') = xmit_log (okern s) ++ frag_log (a :: l) o ∧
        pools_inv (okern s') (<[skb_pool sk := drop (length (frag_log (a :: l) o) - 1) l]> C)) s.
Proof.
  intros Hgf Hlh Hdrv Hf8 Hf Ho8 Hh Ho Hfl Hlm Hfuel Hsz. revert a l o s C x Ho8 Ho Hfuel.
  assert (HI : IPHDR_LEN = 20) by done.
  induction fuel as [|fuel IH]; intros a l o s C x Ho8 Ho Hfuel Hinv Hl Ha HD Hx Ed Et El Hroom HW; [lia|].
  cbn [slow_loop]. replace (Z.of_nat o <? Z.of_nat (length msg)) with true by lia. cbn [negb].
  assert (Hoff : u16 (Z.shiftr (Z.of_nat o) 3) = Z.of_nat o / 8).
  { rewrite Z.shiftr_div_pow2 by done. change (2 ^ 3) with 8. unfold u16. change (2 ^ 16) with 65536. rewrite Z.mod_small; divlia. }
  unfold next_frag. rewrite Hoff, (u32_id (Z.of_nat (length msg) - Z.of_nat f)), (u32_id (Z.of_nat o + Z.of_nat f))
    by (unfold is_u32; lia). cbn [frag_log].
  destruct (Nat.leb_spec (length msg) (o + f)) as [Hlast|Hmore].
  - replace (Z.of_nat (length msg) - Z.of_nat f <=? Z.of_nat o) with true by lia.
    apply wp_bind, wp_ret. cbn beta iota. apply wp_bind. eapply wp_deref; [done|].
    assert (Hdl : length (frag_data o) = (length msg - o)%nat).
    { unfold frag_data. rewrite length_take, length_drop. lia. }
    eapply (wp_send_one s a x); try done; try lia; [apply getfrag_spec_here; try done; lia|by specialize (Hroom a x ltac:(set_solver) Hx); lia|].
    intros y s' Hk HW' Hid. cbn [Z.eqb negb]. rewrite slow_loop_done by lia. apply wp_ret. rewrite Hk.
    replace (length msg <=? o + f * S (length l))%nat with true by (symmetry; apply Nat.leb_le; nia).
    cbn [length Nat.sub]. rewrite drop_0, insert_id by done.
    split_and!; try done; [|by eapply pools_inv_sent].
    unfold sent_one. cbn [xmit_log upd]. rewrite <-(frag_packet_eq o false (IPHDR_LEN + Z.of_nat (length msg) - Z.of_nat o)) by lia. by rewrite Z.lor_0_r.
  - replace (Z.of_nat (length msg) - Z.of_nat f <=? Z.of_nat o) with false by lia.
    assert (Hdl : length (frag_data o) = f) by (unfold frag_data; rewrite length_take, length_drop; lia).
    apply wp_bind, wp_bind, wp_in_okern. eapply wp_mono; [|eapply alloc_rtskb_run; [done..|exact Hsz]].
    intros r k. destruct l as [|b l].
    + intros [-> ->]. apply wp_ret. cbn beta iota. apply wp_bind. eapply wp_deref; [done|].
      replace (s <| okern := okern s |>) with s by (by destruct s). rewrite more_bit by divlia.
      eapply (wp_send_one s a x); try done; try lia; [apply getfrag_spec_here; try done; lia|by specialize (Hroom a x ltac:(set_solver) Hx); lia|].
      intros y s' Hk HW' Hid. cbn [Z.eqb negb Z.opp ENOBUFS]. apply wp_ret. rewrite Hk.
      replace (length msg <=? o + f * S (length []))%nat with false by (symmetry; apply Nat.leb_gt; cbn; lia).
      cbn [length Nat.sub]. rewrite drop_nil, insert_id by done. split_and!; try done; [|by eapply pools_inv_sent].
      unfold sent_one. cbn [xmit_log upd nonempty frag_log]. rewrite <-(frag_packet_eq o false (IPHDR_LEN + Z.of_nat f)) by lia.
      by rewrite Z.lor_0_r.
    + intros (-> & Ew & Hinv1 & Hb & _ & Hoth & x0 & x1 & Hx0 & Hx1 & Hfr).
      apply wp_ret. cbn beta iota. apply wp_bind. eapply wp_deref; [done|].
      assert (Hab : a ≠ b) by (intros ->; apply (Ha _ _ Hl); set_solver).
      assert (Hda : devs k = devs (okern s) ∧ xmit_log k = xmit_log (okern s)) by (by rewrite Ew).
      destruct Hda as [Hdk Hxk]. set (s1 := s <| okern := k |>).
      eapply (wp_send_one s1 a x); try done; try lia; [apply getfrag_spec_here; try done; lia|by cbn; rewrite Hoth|by cbn; rewrite Hdk| |].
      { specialize (Hroom a x ltac:(set_solver) Hx). lia. }
      intros y s' Hk HW' Hid. cbn [Z.eqb negb].
      destruct Hfr as (Eb & Ebs & _ & _ & _ & Edx & Etx & _ & Elx & _).
      replace (Z.of_nat o + Z.of_nat f) with (Z.of_nat (o + f)) by lia.
      assert (Ha1 : in_use (<[skb_pool sk := l]> C) a).
      { apply in_use_insert; [done|]. specialize (Ha _ _ Hl). set_solver. }
      eapply wp_mono; [|eapply (IH b l (o + f)%nat s' (<[skb_pool sk := l]> C) x1)]; try done.
      * intros ret s2 (-> & Hd2 & Hid2 & Hlog & Hinv2). rewrite Hd2, Hid2, Hlog, Hk, Hid. cbn [sent_one devs xmit_log upd length].
        rewrite insert_insert_eq in Hinv2.
        split_and!; [|done|done| |].
        -- replace (o + f * S (S (length l)))%nat with (o + f + f * S (length l))%nat by lia. done.
        -- unfold sent_one. cbn [xmit_log upd]. unfold s1. cbn [okern upd]. rewrite Hxk. cbn [nonempty].
           rewrite <-(frag_packet_eq o true (IPHDR_LEN + Z.of_nat f)) by lia. by rewrite <-app_assoc.
        -- rewrite Nat.sub_succ, Nat.sub_0_r. pose proof (frag_log_pos b l (o + f)).
           destruct (length (frag_log (b :: l) (o + f))) as [|j]; [lia|]. by rewrite Nat.sub_succ, Nat.sub_0_r in Hinv2.
      * rewrite Nat2Z.inj_add. by apply Z.divide_add_r.
      * lia.
      * by eapply (pools_inv_sent s1).
      * apply lookup_insert_eq.
      * rewrite Hk. cbn. by rewrite Hdk.
      * rewrite Hk. cbn. by rewrite lookup_insert_ne.
      * intros c z Hc Hz. rewrite Hk in Hz. cbn in Hz.
        rewrite lookup_insert_ne in Hz by (intros ->; apply (Ha _ _ Hl); set_solver).
        destruct (decide (c = b)) as [->|Hcb].
        -- rewrite Hx1 in Hz. injection Hz as <-. rewrite Eb. apply (Hroom b x0); [set_solver|done].
        -- rewrite Hoth in Hz by done. apply (Hroom c z); [set_solver|done].
      * by replace (Z.of_nat (o + f)) with (Z.of_nat o + (IPHDR_LEN + Z.of_nat f - 20)) by lia.
Qed.

(** What is transmitted for the message with the buffers [l]. *)
Definition message_log (mtu : Z) (l : list nat) : list (nat * nat * list Z) :=
  if Z.of_nat (length msg) + 20 <=? mtu then
    match l with
    | [] => []
    | a :: _ => [(d, a, lh ++ full_header ip_fast_csum sk rt D (20 + Z.of_nat (length msg)) id IP_DF ++ msg)]
    end
  else frag_log l 0.
(** There are enough buffers. *)
Definition enough (mtu : Z) (l : list nat) : bool :=
  if Z.of_nat (length msg) + 20 <=? mtu then nonempty l else (length msg <=? f * length l)%nat.

Lemma frag_size mtu : 28 ≤ mtu → Z.of_nat f = Z.land (mtu - 20) (Z.lnot 7) →
  (8 ≤ f)%nat ∧ (8 | Z.of_nat f) ∧ Z.of_nat f ≤ mtu - 20.
Proof.
  intros Hm Hf. rewrite <-Z.ldiff_land in Hf. change 7 with (Z.ones 3) in Hf. rewrite Z.ldiff_ones_r in Hf by done.
  rewrite Z.shiftr_div_pow2, Z.shiftl_mul_pow2 in Hf by done. change (2 ^ 3) with 8 in Hf.
  split_and!; [divlia|exists ((mtu - 20) / 8); lia|divlia].
Qed.

Lemma build_xmit_slow_run s C l mtu prio :
  getfrag_spec → header_spec → driver_spec → dest_rtdev rt = Some d → devs (okern s) !! d = Some D →
  28 ≤ mtu → 0 ≤ hh_len D → mtu + hh_len D + 15 ≤ SKB_DATA_ALIGN RTSKB_SIZE < 2 ^ 32 →
  Z.of_nat f = Z.land (mtu - 20) (Z.lnot 7) → rt_ip_id_count s = id →
  mtu < Z.of_nat (length msg) + 20 < 65536 → pools_inv (okern s) C → C !! skb_pool sk = Some l →
  roomy (okern s) l mtu → Wat 0 (ofrag s) →
  wp (rt_ip_build_xmit_slow ip_fast_csum hard_header drv_xmit getfrag sk (Z.of_nat (length msg)) rt mtu prio)
     (λ ret s', ret = (if (length msg <=? f * length l)%nat then 0 else - ENOBUFS) ∧ devs (okern s') = devs (okern s) ∧
        rt_ip_id_count s' = u16 (id + 1) ∧ xmit_log (okern s') = xmit_log (okern s) ++ frag_log l 0 ∧
        pools_inv (okern s') (<[skb_pool sk := drop (length (frag_log l 0)) l]> C)) s.
Proof.
  intros Hgf Hlh Hdrv Hrt HD Hmtu Hh Hsz Hf Hid Hlen Hinv Hl Hroom HW.
  destruct (frag_size mtu Hmtu Hf) as (Hf8 & Hf8' & Hfm). unfold rt_ip_build_xmit_slow, next_id.
  apply wp_bind. eapply wp_deref; [done|]. apply wp_bind, wp_in_okern. eapply wp_dev_load; [done|].
  apply wp_bind, wp_bind, wp_gets, wp_bind, wp_modify, wp_ret. cbn [rt_ip_id_count upd]. rewrite Hid.
  change IPHDR_LEN with 20. rewrite <-Hf, (u32_id (Z.of_nat f)), (u32_id (mtu + hh_len D + 15)) by (unfold is_u32; lia).
  apply wp_bind, wp_in_okern. eapply wp_mono; [|eapply alloc_rtskb_run; [done..|lia]]. intros r k. destruct l as [|a l].
  { intros [-> ->]. apply wp_ret. cbn. rewrite app_nil_r, insert_id by done.
    replace (length msg <=? f * 0)%nat with false by (symmetry; apply Nat.leb_gt; lia). done. }
  intros (-> & Ew & Hinv1 & Ha & _ & Hoth & x0 & x1 & Hx0 & Hx1 & Hfr).
  assert (Hdk : devs k = devs (okern s) ∧ xmit_log k = xmit_log (okern s)) by (by rewrite Ew). destruct Hdk as [Hdk Hxk].
  destruct Hfr as (Eb & Ebs & _ & _ & _ & Edx & Etx & _ & Elx & _).
  change 0 with (Z.of_nat 0) at 2.
  eapply wp_mono; [|eapply (slow_loop_run _ a l 0 prio _ _ (<[skb_pool sk := l]> C) x1)]; try done; try lia.
  - cbn [okern upd rt_ip_id_count length]. rewrite Hxk, insert_insert_eq.
    intros ret s' (-> & Hd2 & Hid2 & Hlog & Hinv2). rewrite Nat.add_0_l. split_and!; try done; [congruence|].
    pose proof (frag_log_pos a l 0). destruct (length (frag_log (a :: l) 0)) as [|j]; [lia|].
    by rewrite Nat.sub_succ, Nat.sub_0_r in Hinv2.
  - apply Z.divide_0_r.
  - divlia.
  - apply lookup_insert_eq.
  - cbn. by rewrite Hdk.
  - intros c z Hc Hz. cbn in Hz. destruct (decide (c = a)) as [->|Hca].
    + rewrite Hx1 in Hz. injection Hz as <-. specialize (Hroom a x0 ltac:(set_solver) Hx0). rewrite Eb. lia.
    + rewrite Hoth in Hz by done. specialize (Hroom c z Hc Hz). lia.
Qed.

(** A message that fits into one packet. *)
Lemma build_xmit_fast_run s C l mtu :
  header_spec → driver_spec → dest_rtdev rt = Some d → devs (okern s) !! d = Some D →
  (∀ k, get_mtu d (so_priority sk) k = Some (mtu, k)) → 0 ≤ hh_len D →
  Z.of_nat (length msg) + 20 ≤ mtu → mtu + hh_len D + 15 ≤ SKB_DATA_ALIGN RTSKB_SIZE < 2 ^ 32 →
  rt_ip_id_count s = id → pools_inv (okern s) C → C !! skb_pool sk = Some l → roomy (okern s) l mtu →
  (∀ s1 a l', l = a :: l' → in_use (<[skb_pool sk := l']> C) a → (∀ b, b ≠ a → skbs (okern s1) !! b = skbs (okern s) !! b) →
     devs (okern s1) = devs (okern s) → ofrag s1 = ofrag s → getfrag_here s1 a 0 (Z.of_nat (length msg))) →
  wp (rt_ip_build_xmit ip_fast_csum hard_header get_mtu drv_xmit getfrag sk (Z.of_nat (length msg)) rt)
     (λ ret s', ret = (if nonempty l then 0 else - ENOBUFS) ∧ devs (okern s') = devs (okern s) ∧ rt_ip_id_count s' = u16 (id + 1) ∧
        xmit_log (okern s') = xmit_log (okern s) ++
          match l with [] => [] | a :: _ => [(d, a, lh ++ full_header ip_fast_csum sk rt D (20 + Z.of_nat (length msg)) id IP_DF ++ msg)] end ∧
        pools_inv (okern s') (<[skb_pool sk := drop 1 l]> C) ∧
        ∀ b, in_use C b → skbs (okern s') !! b = skbs (okern s) !! b) s.
Proof.
  intros Hlh Hdrv Hrt HD Hmt Hh Hlen Hsz Hid Hinv Hl Hroom Hgf. unfold rt_ip_build_xmit.
  apply wp_bind. eapply wp_deref; [done|]. apply wp_bind, wp_in_okern. eapply wp_intro; [apply Hmt|].
  replace (s <| okern := okern s |>) with s by (by destruct s). change IPHDR_LEN with 20.
  rewrite (u32_id (Z.of_nat (length msg) + 20)) by (unfold is_u32; lia).
  replace (mtu <? Z.of_nat (length msg) + 20) with false by lia. unfold next_id.
  apply wp_bind, wp_bind, wp_gets, wp_bind, wp_modify, wp_ret. cbn [rt_ip_id_count upd]. rewrite Hid.
  apply wp_bind, wp_in_okern. eapply wp_dev_load; [done|]. rewrite u32_id by (unfold is_u32; lia).
  apply wp_bind, wp_in_okern. eapply wp_mono; [|eapply alloc_rtskb_run; [done..|lia]]. intros r k. destruct l as [|a l].
  { intros [-> ->]. apply wp_ret. cbn. by rewrite app_nil_r, insert_id by done. }
  intros (-> & Ew & Hinv1 & Ha & _ & Hoth & x0 & x1 & Hx0 & Hx1 & Hfr).
  assert (Hdk : devs k = devs (okern s) ∧ xmit_log k = xmit_log (okern s)) by (by rewrite Ew). destruct Hdk as [Hdk Hxk].
  destruct Hfr as (Eb & Ebs & _ & _ & _ & Edx & Etx & _ & Elx & _). specialize (Hroom a x0 ltac:(set_solver) Hx0).
  rewrite (Z.add_comm _ 20).
  eapply (wp_send_one _ a x1); try done; try lia; [|by cbn; rewrite Hdk|by rewrite Eb; lia|].
  { replace (20 + Z.of_nat (length msg) - 20) with (Z.of_nat (length msg)) by lia. by eapply Hgf. }
  intros y s' Hk HW' Hid'. apply wp_ret. rewrite Hk, Hid'. cbn [Z.eqb negb nonempty length].
  rewrite skipn_cons, drop_0. split_and!; try done.
  - unfold sent_one. cbn [xmit_log upd okern]. rewrite Hxk. by rewrite (take_ge msg) by lia.
  - eapply pools_inv_sent; [| |reflexivity]; done.
  - intros b Hb. assert (b ≠ a) by (intros ->; eapply (Hb (skb_pool sk)); [done|set_solver]). cbn. rewrite lookup_insert_ne by done.
    by apply Hoth.
Qed.

Lemma build_xmit_run s C l mtu :
  getfrag_spec → header_spec → driver_spec → dest_rtdev rt = Some d → devs (okern s) !! d = Some D →
  (∀ k, get_mtu d (so_priority sk) k = Some (mtu, k)) →
  28 ≤ mtu → 0 ≤ hh_len D → mtu + hh_len D + 15 ≤ SKB_DATA_ALIGN RTSKB_SIZE < 2 ^ 32 →
  Z.of_nat f = Z.land (mtu - 20) (Z.lnot 7) → rt_ip_id_count s = id →
  28 ≤ Z.of_nat (length msg) + 20 < 65536 → pools_inv (okern s) C → C !! skb_pool sk = Some l →
  roomy (okern s) l mtu → Wat 0 (ofrag s) →
  wp (rt_ip_build_xmit ip_fast_csum hard_header get_mtu drv_xmit getfrag sk (Z.of_nat (length msg)) rt)
     (λ ret s', ret = (if enough mtu l then 0 else - ENOBUFS) ∧ devs (okern s') = devs (okern s) ∧ rt_ip_id_count s' = u16 (id + 1) ∧
        xmit_log (okern s') = xmit_log (okern s) ++ message_log mtu l ∧
        pools_inv (okern s') (<[skb_pool sk := drop (length (message_log mtu l)) l]> C)) s.
Proof.
  intros Hgf Hlh Hdrv Hrt HD Hmt Hmtu Hh Hsz Hf Hid Hlen Hinv Hl Hroom HW. unfold message_log, enough.
  destruct (Z.leb_spec (Z.of_nat (length msg) + 20) mtu) as [Hfast|Hslow].
  - eapply wp_mono; [|by eapply (build_xmit_fast_run s C l mtu); try done;
      intros s1 a l' _ _ _ _ Eo; apply getfrag_spec_here; try done; try lia; rewrite Eo].
    intros ret s' (-> & ? & ? & ? & ? & _). by destruct l.
  - unfold rt_ip_build_xmit. apply wp_bind. eapply wp_deref; [done|]. apply wp_bind, wp_in_okern. eapply wp_intro; [apply Hmt|].
    replace (s <| okern := okern s |>) with s by (by destruct s). change IPHDR_LEN with 20.
    rewrite (u32_id (Z.of_nat (length msg) + 20)) by (unfold is_u32; lia).
    replace (mtu <? Z.of_nat (length msg) + 20) with true by lia. rewrite Z.add_simpl_r, u32_id by (unfold is_u32; lia).
    apply build_xmit_slow_run; try done; lia.
Qed.

(** C19: [rt_ip_build_xmit] sends a message that fits into the MTU as one packet with the
    flag "don't fragment", and a longer one in fragments of the greatest possible
    multiple of 8 bytes, in order, each in its own buffer of the socket's pool and with a
    complete IP header (same identification, offset, "more fragments" on all but the
    last, header checksum).  When the pool runs out of buffers the result is
    [-ENOBUFS]; the last fragment that was sent is then marked as the end of the
    message.  The loop ends, and all accesses are inside the buffers.  All this for an
    MTU of at least 28 bytes (below, the loop does not advance), a message of at least 8
    bytes, buffers with room for the MTU, and a driver, a header function of the device
    and a [getfrag] that succeed. *)
Theorem rt_ip_build_xmit_correct s C l mtu :
  getfrag_spec → header_spec → driver_spec → dest_rtdev rt = Some d → devs (okern s) !! d = Some D →
  (∀ k, get_mtu d (so_priority sk) k = Some (mtu, k)) →
  28 ≤ mtu → 0 ≤ hh_len D → mtu + hh_len D + 15 ≤ SKB_DATA_ALIGN RTSKB_SIZE < 2 ^ 32 →
  Z.of_nat f = Z.land (mtu - 20) (Z.lnot 7) → rt_ip_id_count s = id →
  28 ≤ Z.of_nat (length msg) + 20 < 65536 → pools_inv (okern s) C → C !! skb_pool sk = Some l →
  roomy (okern s) l mtu → Wat 0 (ofrag s) →
  wp (rt_ip_build_xmit ip_fast_csum hard_header get_mtu drv_xmit getfrag sk (Z.of_nat (length msg)) rt)
     (λ ret s', ret = (if enough mtu l then 0 else - ENOBUFS) ∧ rt_ip_id_count s' = u16 (id + 1) ∧
        xmit_log (okern s') = xmit_log (okern s) ++ message_log mtu l ∧
        pools_inv (okern s') (<[skb_pool sk := drop (length (message_log mtu l)) l]> C)) s.
Proof.
  intros. eapply wp_mono; [|by apply (build_xmit_run s C l mtu)]. intros ret s' (? & _ & ?). done.
Qed.

(** *** Putting the fragments together again *)

(** The receiver's view of a sequence of IP packets: [frag_offset] and [more_frags] are
    the functions reassembly uses; [acc] is the data so far. *)
Definition frag_field (p : list Z) : option iphdr :=
  v ← rd16 (take 2 (drop 6 p)); Some (mk_iphdr 5 0 v 0 0 0).
Fixpoint reassemble (acc : list Z) (ps : list (list Z)) : option (list Z) :=
  match ps with
  | [] => None
  | p :: ps =>
      h ← frag_field p;
      if negb (frag_offset h =? Z.of_nat (length acc)) then None
      else if more_frags h then reassemble (acc ++ drop 20 p) ps
      else match ps with [] => Some (acc ++ drop 20 p) | _ => None end
  end.

Lemma frag_flags o : 0 ≤ o < 2 ^ 13 →
  Z.land o IP_OFFSET = o ∧ Z.land o IP_MF = 0 ∧
  Z.land (Z.lor o IP_MF) IP_OFFSET = o ∧ Z.land (Z.lor o IP_MF) IP_MF = IP_MF ∧ 0 ≤ Z.lor o IP_MF < 2 ^ 16.
Proof using Type.
  intros Ho. change IP_OFFSET with (Z.ones 13). change IP_MF with (2 ^ 13).
  assert (H0 : Z.land o (2 ^ 13) = 0).
  { apply Z.bits_inj'. intros i Hi. rewrite Z.land_spec, Z.pow2_bits_eqb, Z.bits_0 by lia.
    destruct (Z.eqb_spec 13 i) as [<-|]; [|by rewrite andb_false_r]. rewrite andb_true_r.
    destruct (decide (o = 0)) as [->|]; [by rewrite Z.bits_0|]. apply Z.bits_above_log2; [lia|]. apply Z.log2_lt_pow2; lia. }
  assert (Hlor : Z.lor o (2 ^ 13) = o + 2 ^ 13) by (rewrite <-Z.lxor_lor by done; symmetry; by apply Z.add_nocarry_lxor).
  split_and!; [|done| | |lia|lia].
  - rewrite Z.land_ones by done. by apply Z.mod_small.
  - rewrite Z.land_ones, Hlor by done. rewrite <-(Z.mul_1_l (2 ^ 13)) at 1. rewrite Z_mod_plus_full. by apply Z.mod_small.
  - by rewrite Z.land_lor_distr_l, H0, Z.land_diag.
Qed.

Lemma frag_packet_field o (more : bool) :
  (8 | Z.of_nat o) → Z.of_nat o < 65536 →
  ∃ h, frag_field (frag_packet o more) = Some h ∧ frag_offset h = Z.of_nat o ∧ more_frags h = more ∧
    drop 20 (frag_packet o more) = frag_data o.
Proof using Type.
  intros Ho8 Ho. unfold frag_field, frag_packet, full_header.
  set (v := Z.lor _ _). set (c := ip_fast_csum _).
  assert (Hr : 0 ≤ Z.of_nat o / 8 < 2 ^ 13) by (clear -Ho; divlia). destruct (frag_flags _ Hr) as (F1 & F2 & F3 & F4 & F5).
  assert (Hv : 0 ≤ v < 2 ^ 16) by (unfold v; destruct more; rewrite ?Z.lor_0_r; lia).
  change (take 2 (drop 6 _)) with (be16 v). rewrite rd16_be16 by done. cbn [mbind option_bind].
  eexists. split; [done|]. unfold frag_offset, more_frags. cbn [frag_off]. rewrite ntohs_involutive by done.
  assert (Z.shiftl (Z.of_nat o / 8) 3 = Z.of_nat o).
  { rewrite Z.shiftl_mul_pow2 by done. destruct Ho8 as [j Hj]. change (2 ^ 3) with 8. clear -Hj. divlia. }
  split_and!.
  - unfold v. destruct more; rewrite ?Z.lor_0_r; by rewrite ?F3, ?F1.
  - unfold v. destruct more; rewrite ?Z.lor_0_r; by rewrite ?F4, ?F2.
  - apply drop_app_length'. by rewrite length_header.
Qed.

(** The IP packets in a list of transmissions. *)
Definition ip_packets (log : list (nat * nat * list Z)) : list (list Z) := (λ e, drop (length lh) e.2) <$> log.

Lemma fragments_reassemble a l :
  (8 ≤ f)%nat → (8 | Z.of_nat f) → (0 < length msg)%nat → Z.of_nat (length msg) < 65536 →
  reassemble [] (ip_packets (frag_log (a :: l) 0)) = Some (take (f * S (length l)) msg).
Proof using Type.
  intros Hf8 Hf Hpos Hlm.
  assert (Hgen : ∀ l a o, (8 | Z.of_nat o) → (o < length msg)%nat →
    reassemble (take o msg) (ip_packets (frag_log (a :: l) o)) = Some (take (o + f * S (length l)) msg)).
  2: { specialize (Hgen l a 0%nat). rewrite take_0, Nat.add_0_l in Hgen. apply Hgen; [apply Z.divide_0_r|done]. }
  clear a l. induction l as [|b l IH]; intros a o Ho8 Ho.
  - assert (Hcase : ∀ more, ip_packets [(d, a, lh ++ frag_packet o more)] = [frag_packet o more]).
    { intros more. cbn. by rewrite drop_app_length. }
    destruct (frag_packet_field o false Ho8 ltac:(lia)) as (h & Hh & Hho & Hhm & Hd).
    assert (Hlog : ip_packets (frag_log [a] o) = [frag_packet o false]) by (cbn [frag_log]; case_match; apply Hcase).
    rewrite Hlog. cbn [reassemble]. rewrite Hh. cbn [mbind option_bind]. rewrite Hho, Hhm, Hd, length_take_le by lia.
    rewrite Z.eqb_refl. cbn [negb length]. f_equal. unfold frag_data. rewrite take_take_drop. f_equal. lia.
  - rewrite frag_log_cons. destruct (Nat.leb_spec (length msg) (o + f)) as [Hlast|Hmore].
    + destruct (frag_packet_field o false Ho8 ltac:(lia)) as (h & Hh & Hho & Hhm & Hd).
      cbn [ip_packets fmap list_fmap snd]. rewrite drop_app_length. cbn [reassemble]. rewrite Hh. cbn [mbind option_bind].
      rewrite Hho, Hhm, Hd, length_take_le by lia. rewrite Z.eqb_refl. cbn [negb length]. f_equal. unfold frag_data.
      rewrite take_take_drop, !take_ge by nia. done.
    + destruct (frag_packet_field o true Ho8 ltac:(lia)) as (h & Hh & Hho & Hhm & Hd).
      specialize (IH b (o + f)%nat). unfold ip_packets in *. rewrite fmap_cons. cbn [nonempty snd]. rewrite drop_app_length. cbn [reassemble]. rewrite Hh. cbn [mbind option_bind].
      rewrite Hho, Hhm, Hd, length_take_le by lia. rewrite Z.eqb_refl. cbn [negb]. unfold frag_data.
      rewrite take_take_drop, IH by (lia || (rewrite Nat2Z.inj_add; by apply Z.divide_add_r)). do 2 f_equal. cbn [length]. lia.
Qed.

(** C7: fragmentation is undone by reassembly.  [rt_ip_build_xmit] on a message that does
    not fit into the MTU, with at least one buffer in the pool of the socket, puts packets
    on the wire which, read the way the receiving side reads them, are in order and without
    a gap, and exactly the last one has no "more fragments" flag.  If the pool has enough
    buffers, they are put together to the message, and the result is 0; else the result
    is [-ENOBUFS], and the receiver puts together what the buffers could carry, which it
    takes for a complete message.  The device and its header function do not fail, and
    the buffers have room for the MTU. *)
Theorem fragments_roundtrip s C a l mtu :
  getfrag_spec → header_spec → driver_spec → dest_rtdev rt = Some d → devs (okern s) !! d = Some D →
  (∀ k, get_mtu d (so_priority sk) k = Some (mtu, k)) →
  28 ≤ mtu → 0 ≤ hh_len D → mtu + hh_len D + 15 ≤ SKB_DATA_ALIGN RTSKB_SIZE < 2 ^ 32 →
  Z.of_nat f = Z.land (mtu - 20) (Z.lnot 7) → rt_ip_id_count s = id →
  mtu < Z.of_nat (length msg) + 20 < 65536 → pools_inv (okern s) C → C !! skb_pool sk = Some (a :: l) →
  roomy (okern s) (a :: l) mtu → Wat 0 (ofrag s) →
  wp (rt_ip_build_xmit ip_fast_csum hard_header get_mtu drv_xmit getfrag sk (Z.of_nat (length msg)) rt)
     (λ ret s', ∃ sent, xmit_log (okern s') = xmit_log (okern s) ++ sent ∧
        if (length msg <=? f * S (length l))%nat then ret = 0 ∧ reassemble [] (ip_packets sent) = Some msg
        else ret = - ENOBUFS ∧ reassemble [] (ip_packets sent) = Some (take (f * S (length l)) msg)) s.
Proof.
  intros Hgf Hlh Hdrv Hrt HD Hmt Hmtu Hh Hsz Hf Hid Hlen Hinv Hl Hroom HW.
  eapply wp_mono; [|apply (build_xmit_run s C (a :: l) mtu); try done; lia]. intros ret s' (Hret & _ & _ & Hlog & _).
  eexists. split; [exact Hlog|]. revert Hret. unfold message_log, enough. replace (Z.of_nat (length msg) + 20 <=? mtu) with false by lia.
  assert (Ef : Z.of_nat f = (mtu - 20) / 8 * 8).
  { rewrite Hf. change 7 with (Z.ones 3). rewrite <-Z.ldiff_land, Z.ldiff_ones_r, Z.shiftr_div_pow2, Z.shiftl_mul_pow2 by lia. done. }
  rewrite fragments_reassemble; [|clear -Ef Hmtu; divlia|by exists ((mtu - 20) / 8)|lia|lia].
  cbn [length]. destruct (Nat.leb_spec (length msg) (f * S (length l))); [|done]. by rewrite firstn_all2.
Qed.
End send.

(** The Ethernet header is such a link header. *)
Lemma eth_header_spec `{Config} (hard_header : nat → option (nat → Z → list Z → list Z → Z → M kstate Z)) rt d D :
  hard_header d = Some (λ skb type daddr saddr n, rt_eth_header skb d type (Some daddr) (Some saddr) n) →
  addr_len D = ETH_ALEN → hard_header_len D = ETH_HLEN → Z.land (flags D) (Z.lor IFF_LOOPBACK IFF_NOARP) = 0 →
  (ETH_ALEN ≤ length (dest_addr rt))%nat → (ETH_ALEN ≤ length (dev_addr D))%nat →
  header_spec hard_header rt d D (take ETH_ALEN (dest_addr rt) ++ take ETH_ALEN (dev_addr D) ++ be16 ETH_P_IP).
Proof.
  intros Hh Ha Hl Hfl Hd Hs. unfold header_spec. rewrite Hh. intros k a x Hx HD Hw Hr. rewrite Hl in Hr.
  eapply wp_mono; [|by apply (rt_eth_header_run k a d D x)].
  intros r k' (-> & y & -> & _ & _ & Ey & Hp). rewrite Hl. split; [done|]. exists y. rewrite Hp, <-!app_assoc.
  split_and!; try done. by rewrite Ey.
Qed.
