(* ===== verification/IpInput.v ===== *)
(** * IP input (stack/ipv4/ip_input.c) and forwarding

    A received packet is checked, forwarded when the stack is a router, reassembled, and
    handed to the transport protocol with the socket it is for. *)
From S2P Require Import Prelude State RtskbQueue Rtskb RtskbData Rtdev Eth Route RouteHost RouteOps Inet IpFragment Socket IpOutput.

(** [QUEUE_MAX_PRIO + (QUEUE_MIN_PRIO - QUEUE_MAX_PRIO + 1) / 2] on the real-time channel. *)
Definition ROUTER_FORWARD_PRIO :=
  SOCK_XMIT_PARAMS (QUEUE_MAX_PRIO + (QUEUE_MIN_PRIO - QUEUE_MAX_PRIO + 1) / 2) SOCK_DEF_RT_CHANNEL.

Section forward.
Context `{Config} (global_pool : nat).
Context (hard_header : nat → option (nat → Z → list Z → list Z → Z → M kstate Z)) (drv_xmit : nat → nat → M kstate Z).

(** The label [error]. *)
Definition forward_error (rtskb : nat) : M rstate Z := in_kern (kfree_rtskb (Some rtskb));; mret 1.

(** The device's header function, if it has one; whether it succeeds. *)
Definition forward_header (rtskb o : nat) (dest : dest_route) : M rstate bool :=
  match hard_header o with
  | None => mret true
  | Some f =>
      O ← in_kern (dev_load o);
      x ← in_kern (skb_load rtskb);
      r ← in_kern (f rtskb ETH_P_IP (dest_addr dest) (dev_addr O) (len x));
      mret (negb (r <? 0))
  end.

Definition rt_ip_route_forward (rtskb : nat) (daddr : Z) : M rstate Z :=
  x ← in_kern (skb_load rtskb);
  d ← deref (rtdev x);
  D ← in_kern (dev_load d);
  if (daddr =? local_ip D) || (daddr =? broadcast_ip D) || negb (Z.land (flags D) IFF_LOOPBACK =? 0) then mret 0
  else
    err ← in_kern (rtskb_acquire rtskb global_pool);
    if negb (err =? 0) then forward_error rtskb
    else
      ro ← rt_ip_route_output daddr INADDR_ANY;
      if ro.1 <? 0 then forward_error rtskb
      else
        dest ← deref ro.2;
        o ← deref (dest_rtdev dest);
        in_kern (skb_upd rtskb (λ x, x <| rtdev := Some o |> <| priority := ROUTER_FORWARD_PRIO |>));;
        ok ← forward_header rtskb o dest;
        if negb ok then forward_error rtskb
        else in_kern (rtdev_xmit drv_xmit (Some rtskb));; mret 1.
End forward.

Section input.
Context `{Config} {St : Type}.
(** The state of the protocols extends that of reassembly and that of routing. *)
Context (getf : St → fstate) (setf : fstate → St → St) (getr : St → rstate) (setr : rstate → St → St).
Context (ip_fast_csum : list Z → Z).
(** The table of protocols, and the functions of a protocol. *)
Context (rt_inet_protocols : prot_table).
Context (dest_socket : nat → nat → M fstate (option nat)) (rcv_handler : nat → nat → M St ()).
Context (rt_ip_fallback_handler : option (nat → M fstate ())).
Context (route_forward : nat → Z → M rstate Z).

Definition in_frag {A} : M fstate A → M St A := zoom getf setf.
Definition in_rt {A} : M rstate A → M St A := zoom getr setr.

(** A packet that is not fragmented: it is charged to the pool of its socket. *)
Definition deliver_whole (prot : nat) (h : iphdr) (skb : nat) : M fstate (option nat) :=
  sock ← dest_socket prot skb;
  match sock with
  | None => no_collector rt_ip_fallback_handler skb h
  | Some sock =>
      S ← sock_load sock;
      err ← in_fkern (rtskb_acquire skb (skb_pool S));
      rt_socket_dereference sock;;
      if negb (err =? 0) then in_fkern (kfree_rtskb (Some skb));; mret None
      else mret (Some skb)
  end.

(** No protocol for the packet: RTproxy takes it, if it is there. *)
Definition no_protocol (skb : nat) : M St () :=
  match (if CONFIG_RTNET_ADDON_PROXY then rt_ip_fallback_handler else None) with
  | Some handler => in_frag (handler skb)
  | None => in_frag (in_fkern (kfree_rtskb (Some skb)))
  end.

Definition rt_ip_local_deliver (skb : nat) : M St () :=
  h ← in_frag (load_iph skb);
  let protocol := iph_protocol h in
  ipprot ← deref (rt_inet_protocols !! rt_inet_hashkey protocol);
  match ipprot with
  | Some p =>
      if prot_protocol p =? protocol then
        in_frag (in_fkern (skb_upd skb (λ x, snd (__rtskb_pull (ihl h * 4) x))));;
        in_frag (in_fkern (skb_upd skb (λ x, x <| h_raw := data x |>)));;
        r ← in_frag (if negb (Z.land (frag_off h) (ntohs (Z.lor IP_MF IP_OFFSET)) =? 0)
                     then rt_ip_defrag rt_ip_fallback_handler (dest_socket (prot_addr p)) skb
                     else deliver_whole (prot_addr p) h skb);
        match r with
        | Some skb => rcv_handler (prot_addr p) skb
        | None => mret ()
        end
      else no_protocol skb
  | None => no_protocol skb
  end.

(** The label [drop]. *)
Definition rcv_drop (skb : nat) : M St Z := in_frag (in_fkern (kfree_rtskb (Some skb)));; mret 0.

(** The first byte holds version and header length. *)
Definition rt_ip_rcv (skb : nat) : M St Z :=
  x ← in_frag (in_fkern (skb_load skb));
  if pkt_type x =? PACKET_OTHERHOST then rcv_drop skb
  else
    b ← deref (buf_read x (nh_raw x) 1 ≫= head);
    let ihl := Z.land b 15 in
    if (ihl <? 5) || negb (Z.shiftr b 4 =? 4) then rcv_drop skb
    else
      hdr ← deref (buf_read x (nh_raw x) (ihl * 4));
      if negb (ip_fast_csum hdr =? 0) then rcv_drop skb
      else
        tot_len ← deref (buf_read x (nh_raw x + 2) 2 ≫= rd16);
        let n := ntohs tot_len in
        if (len x <? n) || (n <? Z.shiftl ihl 2) then rcv_drop skb
        else
          in_frag (in_fkern (skb_upd skb (rtskb_trim n)));;
          if CONFIG_RTNET_RTIPV4_ROUTER then
            h ← in_frag (load_iph skb);
            fwd ← in_rt (route_forward skb (iph_daddr h));
            if negb (fwd =? 0) then mret 0 else rt_ip_local_deliver skb;; mret 0
          else rt_ip_local_deliver skb;; mret 0.
End input.

(** ** Forwarding *)

Section forward_props.
Context `{Config} (global_pool : nat).
Context (hard_header : nat → option (nat → Z → list Z → list Z → Z → M kstate Z)) (drv_xmit : nat → nat → M kstate Z).
Implicit Types (r : rstate) (B : list (list nat)) (F : list nat) (T : route_map) (C : gmap nat (list nat)).

Definition is_local D daddr : bool :=
  (daddr =? local_ip D) || (daddr =? broadcast_ip D) || negb (Z.land (flags D) IFF_LOOPBACK =? 0).
(** A received packet in buffer [k] that nothing else refers to. *)
Record loose (s : kstate) C (k : nat) (x : rtskb) (rp : nat) : Prop := {
  lo_skb : skbs s !! k = Some x;
  lo_wf : wf_rtskb x;
  lo_end : chain_end x = Some k;
  lo_pool : pool x = Some rp;
  lo_pools : is_Some (C !! rp);
  lo_use : in_use C k;
  lo_cap : CONFIG_RTNET_ADDON_RTCAP = true → Z.land (cap_flags x) RTSKB_CAP_SHARED = 0;
}.
Lemma loose_chain s C k x rp : loose s C k x rp → is_chain (skbs s) k [k] ∧ releasable s C rp [k].
Proof.
  intros [Hx _ He Hp _ Hu Hc]. split.
  - exists x, (next x). split_and!; [done..| |apply NoDup_singleton]. split; [done|]. by exists x.
  - intros a ->%list_elem_of_singleton. split; [done|]. intros y Hy. by simplify_eq.
Qed.
Lemma loose_free s C k x rp lr (Q : () → kstate → Prop) :
  pools_inv s C → loose s C k x rp → C !! rp = Some lr →
  (∀ s', pools_inv s' (<[rp := lr ++ [k]]> C) → same_world s s' → Q () s') →
  wp (kfree_rtskb (Some k)) Q s.
Proof.
  intros Hinv Hlo Hlr HQ. destruct (loose_chain _ _ _ _ _ Hlo) as [Hc Hr].
  eapply wp_mono; [|by eapply kfree_rtskb_run]. cbn beta. intros [] s' (Hinv' & _ & Hw & _). by apply HQ.
Qed.

(** What happens to a packet that is for another station. *)
Inductive forward_outcome r T C (k : nat) (x : rtskb) (rp : nat) (daddr : Z) (lh : nat → dest_route → list Z) r' : Prop :=
  | fwd_overload lr : C !! global_pool = Some [] → C !! rp = Some lr → pools_inv (kern r') (<[rp := lr ++ [k]]> C) →
      same_world (kern r) (kern r') → forward_outcome r T C k x rp daddr lh r'
  | fwd_no_route C' l : (∀ a, T !! (daddr, a) = None) → pools_inv (kern r') (<[global_pool := l ++ [k]]> C') →
      same_world (kern r) (kern r') → forward_outcome r T C k x rp daddr lh r'
  | fwd_sent C' o O dst : route_for r T daddr INADDR_ANY daddr o dst → devs (kern r) !! o = Some O →
      pools_inv (kern r') C' → in_use C' k →
      xmit_log (kern r') = xmit_log (kern r) ++ [(o, k, lh o dst ++ payload x)] →
      devs (kern r') = <[o := O <| refcount := refcount O + 1 |>]> (devs (kern r)) →
      forward_outcome r T C k x rp daddr lh r'.

Lemma host_state_devs r B F T k : host_state r B F T → devs k = devs (kern r) → host_state (r <| kern := k |>) B F T.
Proof. intros [H1 H2] E. by split; unfold ids_of; cbn; rewrite E. Qed.
Lemma wp_in_kern {A} (m : M kstate A) (Q : A → rstate → Prop) r :
  wp m (λ a k, Q a (r <| kern := k |>)) (kern r) → wp (in_kern m) Q r.
Proof. apply (wp_zoom kern (λ k s, s <| kern := k |>)). Qed.

(** The packet leaves through device [o]. *)
Lemma forward_sent_run r C k x o O dst lh (Q : Z → rstate → Prop) :
  pools_inv (kern r) C → in_use C k → skbs (kern r) !! k = Some x → wf_rtskb x → devs (kern r) !! o = Some O →
  header_spec hard_header dst o O lh → driver_spec drv_xmit o O → hard_header_len O ≤ headroom x →
  (∀ r', pools_inv (kern r') C → devs (kern r') = devs (kern r) → r' = r <| kern := kern r' |> →
     xmit_log (kern r') = xmit_log (kern r) ++ [(o, k, lh ++ payload x)] → Q 1 r') →
  wp (in_kern (skb_upd k (λ x, x <| rtdev := Some o |> <| priority := ROUTER_FORWARD_PRIO |>));;
      ok ← forward_header hard_header k o dst;
      if negb ok then forward_error k
      else in_kern (rtdev_xmit drv_xmit (Some k));; mret 1) Q r.
Proof.
  intros Hinv Hu Hx Hwf HO Hh Hdrv Hroom HQ. apply wp_bind, wp_in_kern. eapply wp_skb_upd; [done|].
  set (x1 := x <| rtdev := Some o |> <| priority := _ |>). fold (upd_skb k x1 (kern r)).
  assert (Hw1 : wf_rtskb x1) by (by destruct Hwf). apply wp_bind.
  apply (wp_mono _ (λ ok r1, ok = true ∧ ∃ z, r1 = r <| kern := upd_skb k z (kern r) |> ∧ rtdev z = Some o ∧ payload z = lh ++ payload x)).
  - intros ok r1 (-> & z & -> & Hz & Hp). cbn [negb]. apply wp_bind, wp_in_kern.
    eapply wp_mono; [|by eapply (xmit_run _ o O _ k z Hdrv); [apply upd_skb_lookup| |exact HO]].
    intros e k' [-> ->]. apply wp_ret. apply HQ; [|done|done|cbn; by rewrite Hp].
    eapply pools_inv_touch; [exact Hinv|exact Hu|..]; cbn; [|eauto]. intros b Hb. by apply lookup_insert_ne.
  - unfold forward_header. unfold header_spec in Hh. destruct (hard_header o) as [f|].
    + apply wp_bind, wp_in_kern. eapply wp_dev_load; [exact HO|]. apply wp_bind, wp_in_kern.
      eapply wp_skb_load; [apply upd_skb_lookup|]. apply wp_bind, wp_in_kern. cbn [kern upd].
      eapply wp_mono; [|eapply (Hh _ k x1); [apply upd_skb_lookup|exact HO|done|done]].
      intros e k' (He & z & -> & Hz & Hp). apply wp_ret. replace (e <? 0) with false by lia. split; [done|].
      exists z. rewrite upd_skb_twice. split; [done|]. split; [by rewrite Hz|exact Hp].
    + subst lh. apply wp_ret. split; [done|]. by exists x1.
Qed.

(** [rt_ip_route_forward] leaves a packet for this station alone, and takes any other:
    it is charged to the global pool, given the link header for the next station and
    sent, unchanged, through the device the routing table has for the destination; with
    an empty pool or without a route it is dropped into its pool.  Each forwarded packet
    leaves the outgoing device with one reference more. *)
Theorem rt_ip_route_forward_correct r B F T C k x rp l d D daddr lh :
  CONFIG_RTNET_RTIPV4_NETROUTING = false → host_state r B F T → is_u32 daddr →
  pools_inv (kern r) C → C !! global_pool = Some l → loose (kern r) C k x rp →
  rtdev x = Some d → devs (kern r) !! d = Some D →
  (∀ o O dst, route_for r T daddr INADDR_ANY daddr o dst → devs (kern r) !! o = Some O →
     let O1 := O <| refcount := refcount O + 1 |> in
     header_spec hard_header dst o O1 (lh o dst) ∧ driver_spec drv_xmit o O1 ∧ hard_header_len O ≤ headroom x) →
  wp (rt_ip_route_forward global_pool hard_header drv_xmit k daddr)
     (λ ret r', if is_local D daddr then ret = 0 ∧ r' = r
                else ret = 1 ∧ host_state r' B F T ∧ forward_outcome r T C k x rp daddr lh r') r.
Proof.
  intros Hnr Hs Hda Hinv Hl Hlo Hd HD Hout. pose proof Hlo as [Hx Hwf He Hp [lr Hlr] Hu Hc].
  unfold rt_ip_route_forward. apply wp_bind, wp_in_kern. eapply wp_skb_load; [done|]. apply wp_bind. eapply wp_deref; [done|].
  apply wp_bind, wp_in_kern. eapply wp_dev_load; [exact HD|]. do 2 (replace (r <| kern := kern r |>) with r by (by destruct r)).
  unfold is_local. destruct ((daddr =? local_ip D) || _ || _); [by apply wp_ret|].
  apply wp_bind, wp_in_kern. eapply wp_mono; [|by eapply acquire_run]. cbn beta. destruct l as [|a l'].
  - intros e k1 [-> ->]. cbn [Z.eqb negb ENOMEM Z.opp]. unfold forward_error. apply wp_bind, wp_in_kern.
    eapply loose_free; [done..|]. intros k2 Hinv2 Hw. apply wp_ret. split; [done|].
    split; [apply (host_state_devs r); [done|by rewrite Hw]|]. by eapply fwd_overload.
  - intros e k1 (-> & Hw & (lr' & Hlr' & Hinv1 & Hu1) & _ & _ & _ & Hx1 & _). cbn [Z.eqb negb].
    assert (Hdev : devs k1 = devs (kern r)) by (by rewrite Hw).
    assert (Hs1 : host_state (r <| kern := k1 |>) B F T) by (by apply host_state_devs).
    set (C1 := <[rp := lr' ++ [a]]> (<[global_pool := l']> C)) in *.
    destruct (route_output_run _ _ _ _ daddr INADDR_ANY Hnr Hs1 Hda) as (ret & dst & r2 & Er & Hs2 & Hcase).
    apply wp_bind. eapply wp_intro; [exact Er|]. cbn [fst snd].
    destruct Hcase as [(-> & y & o & O & -> & Hrf & HO & ->)|(-> & -> & -> & Hno)]; cbn [Z.ltb Z.compare Z.opp EHOSTUNREACH].
    + apply wp_bind. eapply wp_deref; [done|]. apply wp_bind. eapply wp_deref; [apply Hrf|]. cbn [kern upd] in HO. rewrite Hdev in HO.
      assert (Hrf' : route_for r T daddr INADDR_ANY daddr o y) by (unfold route_for in *; cbn [kern upd] in Hrf; by rewrite Hdev in Hrf).
      destruct (Hout o O y Hrf' HO) as (Hh & Hdrv & Hroom).
      eapply (forward_sent_run _ C1 k (x <| pool := Some global_pool |>) o); try done.
      * destruct Hinv1. by split.
      * by destruct Hwf.
      * apply lookup_insert_eq.
      * intros r' Hinv' Hdev' Er' Hlog. split; [done|]. split.
        { rewrite Er'. by apply host_state_devs. }
        eapply fwd_sent; [done|done|exact Hinv'|done|rewrite Hlog; cbn; by rewrite Hw|rewrite Hdev'; cbn; by rewrite Hdev].
    + unfold forward_error. apply wp_bind, wp_in_kern. assert (∃ lg, C1 !! global_pool = Some lg) as [lg Hlg].
      { unfold C1. destruct (decide (rp = global_pool)) as [->|]; simplify_map_eq; eauto. }
      eapply (loose_free k1 C1 k (x <| pool := Some global_pool |>) global_pool lg); [done| |done|].
      { split; try done; by destruct Hwf. }
      intros k2 Hinv2 Hw2. apply wp_ret. split; [done|]. split; [apply host_state_devs; [done|by rewrite Hw2]|].
      eapply fwd_no_route; [|exact Hinv2|by eapply same_world_trans]. intros lip. by apply Hno.
Qed.
End forward_props.

(** ** Delivery to a protocol *)

Section deliver_props.
Context `{Config} (dest_socket : nat → nat → M fstate (option nat)) (fb : option (nat → M fstate ())).
Implicit Types (f : fstate) (C : gmap nat (list nat)) (x : rtskb).

(** The answer [r] of a protocol that looked at packet [x] in buffer [k]; [R] says which. *)
Definition answered (R : option nat → Prop) k x f (r : option nat) f' : Prop :=
  R r ∧ ∃ x', marked x x' ∧ sk x' = r ∧
    match r with
    | None => f' = with_skb k x' f
    | Some so => ∃ S, socks f !! so = Some S ∧ f' = with_ref so S (with_skb k x' f)
    end.

(** The packet is dropped into its pool [rp]. *)
Definition rejected C k rp s' : Prop := ∃ lr, C !! rp = Some lr ∧ pools_inv s' (<[rp := lr ++ [k]]> C).
(** The packet is charged to pool [q], and a buffer of [q] is put into its pool for it. *)
Definition charged C k x rp q s s' C' : Prop :=
  ∃ a l lr, C !! q = Some (a :: l) ∧ <[q := l]> C !! rp = Some lr ∧ C' = <[rp := lr ++ [a]]> (<[q := l]> C) ∧
    pools_inv s' C' ∧ in_use C' k ∧ skbs s' !! k = Some (x <| pool := Some q |>) ∧ same_world s s' ∧ only_two rp q s s' ∧
    ∀ b, b ≠ k → in_use C b → skbs s' !! b = skbs s !! b ∧ in_use C' b.

Lemma in_use_charged C rp q a l lr b :
  C !! q = Some (a :: l) → <[q := l]> C !! rp = Some lr → in_use C b → in_use (<[rp := lr ++ [a]]> (<[q := l]> C)) b.
Proof using Type.
  intros Hq Hlr Hb. clear -Hq Hlr Hb. assert (Hal : b ∉ a :: l) by (by eapply Hb).
  apply in_use_insert; [apply in_use_insert; [done|set_solver]|].
  assert (b ∉ lr); [|set_solver]. destruct (decide (q = rp)) as [->|]; simplify_map_eq; [set_solver|by eapply (Hb rp)].
Qed.

Lemma marked_loose s C k x x' rp : loose s C k x rp → marked x x' → loose (upd_skb k x' s) C k x' rp.
Proof.
  intros [Hx [] He Hp Hps Hu Hc] Hm. rewrite Hm. split; try done.
  - apply lookup_insert_eq.
Qed.

(** What [deliver_whole] makes of a packet, if the protocol answers as [R] says. *)
Lemma deliver_whole_run R prot h k x rp f C :
  wp (dest_socket prot k) (answered R k x f) f → (CONFIG_RTNET_ADDON_PROXY = true → fb = None) →
  pools_inv (fkern f) C → loose (fkern f) C k x rp →
  (∀ so S, R (Some so) → socks f !! so = Some S → is_Some (C !! skb_pool S)) →
  wp (deliver_whole dest_socket fb prot h k)
     (λ r f', socks f' = socks f ∧ collector f' = collector f ∧
        match r with
        | None => rejected C k rp (fkern f') ∧ same_world (fkern f) (fkern f') ∧
            (R None ∨ ∃ so S, R (Some so) ∧ socks f !! so = Some S ∧ C !! skb_pool S = Some [])
        | Some k' => k' = k ∧ ∃ so S x' C', R (Some so) ∧ socks f !! so = Some S ∧ marked x x' ∧ sk x' = Some so ∧
            charged C k x' rp (skb_pool S) (upd_skb k x' (fkern f)) (fkern f') C'
        end) f.
Proof.
  intros Hds Hfb Hinv Hlo Hpl. unfold deliver_whole. apply wp_bind. eapply wp_mono; [|exact Hds].
  intros r f1 (HR & x' & Hm & Hsk & Hr). pose proof (marked_loose _ _ _ _ _ _ Hlo Hm) as Hlo'.
  assert (Hinv' : pools_inv (upd_skb k x' (fkern f)) C).
  { eapply pools_inv_touch; [exact Hinv|apply Hlo|..]; cbn; [|eauto]. intros b Hb. by apply lookup_insert_ne. }
  destruct (lo_pools _ _ _ _ _ Hlo) as [lr Hlr].
  destruct r as [so|].
  - destruct Hr as (S & HS & ->). apply wp_bind. unfold sock_load. eapply wp_sock_load.
    { cbn. apply lookup_insert_eq. }
    apply wp_bind, wp_in_fkern. cbn [fkern upd with_ref with_skb skb_pool].
    destruct (Hpl so S HR HS) as [l Hl].
    eapply wp_mono; [|eapply (acquire_run (upd_skb k x' (fkern f)) C k x' rp (skb_pool S) l); [done|done|by eexists|apply Hlo'..]].
    intros err k1 Hacq. apply wp_bind. eapply (wp_socket_deref (with_skb k x' f) k1 so S); [done|].
    destruct l as [|a l].
    + destruct Hacq as [-> ->]. cbn [Z.eqb negb ENOMEM Z.opp]. apply wp_bind, wp_in_fkern.
      eapply (loose_free (upd_skb k x' (fkern f)) C); [done|exact Hlo'|done|]. intros s' Hs' Hw. apply wp_ret. split_and!; [done..| | |].
      * by exists lr.
      * cbn in *. rewrite Hw. by destruct (fkern f).
      * right. by exists so, S.
    + destruct Hacq as (-> & Hw & (lr' & Hlr' & Hp' & Hu') & _ & _ & _ & Hx1 & Ho & Hf). cbn [Z.eqb negb]. apply wp_ret.
      split_and!; [done..|]. exists so, S, x'. eexists. split_and!; [done..|]. exists a, l, lr'. split_and!; [done..|].
      intros b Hb Hub. split; [by apply Hf|by apply in_use_charged].
  - subst f1. apply (wp_mono _ (λ r f', r = None ∧ socks f' = socks f ∧ collector f' = collector f ∧ rejected C k rp (fkern f') ∧
      same_world (fkern f) (fkern f'))).
    { intros r f' (-> & ? & ? & ? & ?). eauto 10. }
    assert (Hk : wp (in_fkern (kfree_rtskb (Some k));; mret (@None nat)) (λ r f', r = None ∧ socks f' = socks f ∧ collector f' = collector f ∧
      rejected C k rp (fkern f') ∧ same_world (fkern f) (fkern f')) (with_skb k x' f)).
    { apply wp_bind, wp_in_fkern. eapply (loose_free (upd_skb k x' (fkern f)) C); [done|exact Hlo'|done|].
      intros s' Hs' Hw. apply wp_ret. split_and!; [done..|by exists lr|]. cbn in *. rewrite Hw. by destruct (fkern f). }
    unfold no_collector. destruct CONFIG_RTNET_ADDON_PROXY; [rewrite Hfb by done|]; exact Hk.
Qed.
End deliver_props.
