(* ===== verification/Arp.v ===== *)
(** * ARP (stack/ipv4/arp.c)

    Answers to requests for the address of a device; every request or reply directed to
    this station enters the sender into the routing table. *)
From S2P Require Import Prelude State RtskbQueue Rtskb RtskbData Rtdev Eth Route RouteHost RouteOps IpFragment Socket IpOutput IpInput.

Definition ARPOP_REQUEST := 1.
Definition ARPOP_REPLY := 2.
Definition ARPHRD_IEEE802 := 6.
Definition ETH_P_ARP := 2054.
(** [sizeof(struct arphdr)] *)
Definition ARPHDR_LEN := 8.
Definition SOCK_DEF_NRT_CHANNEL := 1.
Definition RT_ARP_SKB_PRIO := SOCK_XMIT_PARAMS (QUEUE_MIN_PRIO - 1) SOCK_DEF_NRT_CHANNEL.

Section defs.
Context `{Config} (global_pool : nat).
Context (hard_header : nat → option (nat → Z → list Z → list Z → Z → M kstate Z)).
Context (drv_xmit : nat → nat → M kstate Z).

(** The packet: [struct arphdr] and the four addresses. *)
Definition arp_packet (hrd pro hln pln op : Z) (sha : list Z) (sip : Z) (tha : list Z) (tip : Z) : list Z :=
  be16 hrd ++ be16 pro ++ [u8 hln; u8 pln] ++ be16 op ++ sha ++ wr32 sip ++ tha ++ wr32 tip.

Definition rt_arp_send (type ptype dest_ip : Z) (d : nat) (src_ip : Z) (dest_hw src_hw target_hw : option (list Z)) : M kstate () :=
  D ← dev_load d;
  if negb (Z.land (flags D) IFF_NOARP =? 0) then mret ()
  else
    let n := ARPHDR_LEN + 2 * (Z.of_nat (addr_len D) + 4) in
    r ← alloc_rtskb (u32 (n + hard_header_len D + 15)) global_pool;
    match r with
    | None => mret ()
    | Some skb =>
        skb_upd skb (rtskb_reserve (hh_len D));;
        skb_upd skb (λ x, x <| nh_raw := data x |>);;
        x ← skb_load skb;
        let '(arp, x) := rtskb_put n x in
        skb_store skb (x <| rtdev := Some d |> <| protocol := ntohs ETH_P_ARP |> <| priority := RT_ARP_SKB_PRIO |>);;
        let src := default (dev_addr D) src_hw in
        let dst := default (broadcast D) dest_hw in
        err ← match hard_header d with
              | None => mret 0
              | Some f => x ← skb_load skb; f skb ptype dst src (len x)
              end;
        if err <? 0 then kfree_rtskb (Some skb)
        else
          sha ← deref (mem_read src (addr_len D));
          tha ← match target_hw with
                | Some t => deref (mem_read t (addr_len D))
                | None => mret (replicate (addr_len D) 0)
                end;
          skb_write skb arp (arp_packet (dtype D) ETH_P_IP (Z.of_nat (addr_len D)) 4 (u16 type) sha src_ip tha dest_ip);;
          rtdev_xmit drv_xmit (Some skb);;
          mret ()
    end.

(** The handler of RTproxy for packets of all kinds. *)
Context (rt_ip_fallback_handler : option (nat → M rstate ())).

(** The label [out]. *)
Definition arp_out (skb : nat) : M rstate Z :=
  match (if CONFIG_RTNET_ADDON_PROXY_ARP then rt_ip_fallback_handler else None) with
  | Some handler => handler skb;; mret 0
  | None => in_kern (kfree_rtskb (Some skb));; mret 0
  end.

(** The switch over the type of the device: whether the packet is accepted. *)
Definition arp_types_ok (dev_type hrd pro : Z) : bool :=
  if dev_type =? ARPHRD_ETHER then
    ((hrd =? ntohs ARPHRD_ETHER) || (hrd =? ntohs ARPHRD_IEEE802)) && (pro =? ntohs ETH_P_IP)
  else (pro =? ntohs ETH_P_IP) || (ntohs dev_type =? hrd).

Definition rt_arp_rcv (skb : nat) : M rstate Z :=
  x ← in_kern (skb_load skb);
  d ← deref (rtdev x);
  D ← in_kern (dev_load d);
  let arp := nh_raw x in
  hln ← deref (buf_read x (arp + 4) 1 ≫= head);
  pln ← deref (buf_read x (arp + 5) 1 ≫= head);
  if negb (hln =? Z.of_nat (addr_len D)) || negb (Z.land (flags D) IFF_NOARP =? 0) ||
     (pkt_type x =? PACKET_OTHERHOST) || (pkt_type x =? PACKET_LOOPBACK) || negb (pln =? 4)
  then arp_out skb
  else
    hrd ← deref (buf_read x arp 2 ≫= rd16);
    pro ← deref (buf_read x (arp + 2) 2 ≫= rd16);
    if negb (arp_types_ok (dtype D) hrd pro) then arp_out skb
    else
      op ← deref (buf_read x (arp + 6) 2 ≫= rd16);
      if negb (op =? ntohs ARPOP_REPLY) && negb (op =? ntohs ARPOP_REQUEST) then arp_out skb
      else
        let n := Z.of_nat (addr_len D) in
        sha ← deref (buf_read x (arp + ARPHDR_LEN) n);
        sip ← deref (buf_read x (arp + ARPHDR_LEN + n) 4 ≫= rd32);
        tip ← deref (buf_read x (arp + ARPHDR_LEN + n + 4 + n) 4 ≫= rd32);
        when (tip =? local_ip D)
          (rt_ip_route_add_host sip sha d;;
           when (negb CONFIG_RTNET_ADDON_PROXY_ARP && (op =? ntohs ARPOP_REQUEST))
             (in_kern (rt_arp_send ARPOP_REPLY ETH_P_ARP sip d tip (Some sha) (Some (dev_addr D)) (Some sha))));;
        arp_out skb.
End defs.

(** ** Sending *)

Section send.
Context `{Config} (global_pool : nat).
Context (hard_header : nat → option (nat → Z → list Z → list Z → Z → M kstate Z)).
Context (drv_xmit : nat → nat → M kstate Z).
Context (d : nat) (D : rtnet_device).
Implicit Types (k : kstate) (x y : rtskb) (C : gmap nat (list nat)).

(** The link header [lh] for an ARP packet from [src] to [dst]. *)
Definition link_spec (dst src lh : list Z) : Prop :=
  match hard_header d with
  | None => lh = []
  | Some f =>
      ∀ k a x, skbs k !! a = Some x → devs k !! d = Some D → wf_rtskb x → hard_header_len D ≤ headroom x →
      wp (f a ETH_P_ARP dst src (len x))
         (λ r k', 0 ≤ r ∧ ∃ y, k' = upd_skb a y k ∧ wf_rtskb y ∧ rtdev y = rtdev x ∧
            data y + Z.of_nat (length lh) = data x ∧ payload y = lh ++ payload x) k
  end.
Definition arp_len : Z := ARPHDR_LEN + 2 * (Z.of_nat (addr_len D) + 4).

Lemma length_arp hrd pro hln pln op sha sip tha tip :
  length sha = addr_len D → length tha = addr_len D →
  Z.of_nat (length (arp_packet hrd pro hln pln op sha sip tha tip)) = arp_len.
Proof.
  intros E1 E2. unfold arp_packet, arp_len, ARPHDR_LEN. rewrite !length_app, !length_wr32, E1, E2. cbn. lia.
Qed.

(** A reply or request to [dest_hw]. *)
Lemma arp_send_run k C l type dest_ip src_ip dest_hw src_hw target_hw lh :
  devs k !! d = Some D → Z.land (flags D) IFF_NOARP = 0 → pools_inv k C → C !! global_pool = Some l →
  link_spec dest_hw src_hw lh → driver_spec drv_xmit d D → 0 ≤ hard_header_len D →
  arp_len + hard_header_len D + 15 ≤ SKB_DATA_ALIGN RTSKB_SIZE < 2 ^ 32 → roomy D k l arp_len →
  (addr_len D ≤ length src_hw)%nat → (addr_len D ≤ length target_hw)%nat →
  let packet := arp_packet (dtype D) ETH_P_IP (Z.of_nat (addr_len D)) 4 (u16 type) (take (addr_len D) src_hw) src_ip
                  (take (addr_len D) target_hw) dest_ip in
  wp (rt_arp_send global_pool hard_header drv_xmit type ETH_P_ARP dest_ip d src_ip (Some dest_hw) (Some src_hw) (Some target_hw))
     (λ _ k', pools_inv k' (<[global_pool := drop 1 l]> C) ∧ devs k' = devs k ∧
        xmit_log k' = xmit_log k ++ (match l with [] => [] | a :: _ => [(d, a, lh ++ packet)] end) ∧
        ∀ b, in_use C b → skbs k' !! b = skbs k !! b) k.
Proof.
  intros HD Hna Hinv Hl Hlh Hdrv Hhl Hsz Hroom Hsrc Htgt packet. unfold rt_arp_send. apply wp_bind. eapply wp_dev_load; [done|].
  rewrite Hna. cbn [Z.eqb negb]. fold arp_len. assert (H0 : 16 ≤ arp_len) by (unfold arp_len, ARPHDR_LEN; lia).
  rewrite u32_id by (unfold is_u32; lia).
  apply wp_bind. eapply wp_mono; [|eapply (alloc_rtskb_run k C global_pool l); [done|done|lia]]. cbn beta.
  destruct l as [|a l]; [intros r k1 [-> ->]; apply wp_ret; cbn [drop]; rewrite insert_id, app_nil_r by done; done|].
  intros r k1 (-> & Ek & Hinv1 & Hu & _ & Hoth & x0 & x & Hx0 & Hx & Hfr).
  destruct Hfr as (Eb & Ebs & _ & _ & _ & Ed & Et & _ & El & _).
  destruct (Hroom a x0 ltac:(set_solver) Hx0) as [Hr1 Hr2]. rewrite <-Eb in Hr1, Hr2.
  assert (Hhh : 0 ≤ hh_len D) by (pose proof (hh_len_ge D); lia).
  apply wp_bind. eapply wp_skb_upd; [done|]. fold (upd_skb a (rtskb_reserve (hh_len D) x) k1).
  apply wp_bind. eapply wp_skb_upd; [apply upd_skb_lookup|].
  set (x1 := (rtskb_reserve (hh_len D) x) <| nh_raw := data (rtskb_reserve (hh_len D) x) |>). fold (upd_skb a x1 (upd_skb a (rtskb_reserve (hh_len D) x) k1)).
  rewrite upd_skb_twice. apply wp_bind, wp_upd_skb_load. unfold rtskb_put.
  unfold x1, rtskb_reserve. cbn [tail data len upd]. rewrite Et, El, Z.add_0_l, (u32_id arp_len) by (unfold is_u32; lia).
  match goal with |- context [skb_store a ?v] => set (x2 := v) end. apply wp_bind, wp_upd_skb_store.
  assert (Hx2 : x2 = x <| data := buf_start x + hh_len D |> <| tail := buf_start x + hh_len D + arp_len |> <| len := arp_len |>
    <| nh_raw := buf_start x + hh_len D |> <| rtdev := Some d |> <| protocol := ntohs ETH_P_ARP |> <| priority := RT_ARP_SKB_PRIO |>).
  { unfold x2. rewrite <-Ed. done. }
  clearbody x2. assert (Hw2 : wf_rtskb x2) by (rewrite Hx2; split; cbn; lia).
  assert (Hd2 : data x2 = buf_start x + hh_len D ∧ len x2 = arp_len ∧ rtdev x2 = Some d ∧ headroom x2 = hh_len D).
  { unfold headroom. rewrite Hx2. cbn. split_and!; try done; lia. }
  destruct Hd2 as (Hd2 & Hl2 & Hr2' & Hh2). pose proof (length_payload _ Hw2) as Hp2.
  assert (HD1 : devs k1 !! d = Some D) by (by rewrite Ek). cbn [from_option id default].
  apply wp_bind, (wp_mono _ (λ e k2, 0 ≤ e ∧ ∃ y, k2 = upd_skb a y k1 ∧ wf_rtskb y ∧ rtdev y = Some d ∧
    data y + Z.of_nat (length lh) = data x2 ∧ payload y = lh ++ payload x2)).
  2: { unfold link_spec in Hlh. destruct (hard_header d) as [f|].
    - apply wp_bind, wp_upd_skb_load.
      eapply wp_mono; [|eapply (Hlh _ a x2); [apply upd_skb_lookup|exact HD1|done|rewrite Hh2; apply hh_len_ge]].
      intros e k2 (He & y & -> & Hwy & Hry & Hdy & Hpy). split; [done|]. exists y. rewrite upd_skb_twice. split_and!; try done. congruence.
    - subst lh. apply wp_ret. split; [done|]. exists x2. split_and!; try done. cbn. lia. }
  intros e k2 (He & y & -> & Hwy & Hry & Hdy & Hpy). replace (e <? 0) with false by lia.
  apply wp_bind. eapply wp_deref; [unfold mem_read; by rewrite (proj2 (Nat.leb_le _ _))|].
  apply wp_bind. eapply wp_deref; [unfold mem_read; by rewrite (proj2 (Nat.leb_le _ _))|]. fold packet.
  assert (Hlp : length (payload x2) = length packet).
  { apply Nat2Z.inj. unfold packet. rewrite length_arp by (rewrite length_take; lia). lia. }
  pose proof (length_payload _ Hwy) as Hly. rewrite Hpy, length_app in Hly.
  apply wp_bind. eapply (wp_write_at a y (length lh)); [apply upd_skb_lookup|done|lia|lia|].
  intros z [Ez Lz] Hwz Hpz. rewrite upd_skb_twice. apply wp_bind.
  eapply wp_mono; [|eapply (xmit_run drv_xmit d D _ a z Hdrv); [apply upd_skb_lookup|by rewrite Ez|exact HD1]].
  intros e' k3 [-> ->]. apply wp_ret.
  rewrite Hpy in Hpz. pose proof (splice_mid lh (payload x2) packet [] Hlp) as Hs. rewrite !app_nil_r in Hs. rewrite Hs in Hpz.
  split_and!; cbn.
  - rewrite drop_0. eapply pools_inv_touch; [exact Hinv1|exact Hu|..]; cbn; [|eauto]. intros b Hb. by apply lookup_insert_ne.
  - by rewrite Ek.
  - rewrite Hpz. by rewrite Ek.
  - intros b Hb. assert (b ≠ a) by (intros ->; eapply (Hb global_pool); [done|set_solver]). rewrite lookup_insert_ne by done. by apply Hoth.
Qed.
End send.

(** ** Receiving *)

Section decode.
Context `{Config}.

Lemma arp_decode x hrd pro hln pln op sha sip tha tip pad n :
  wf_rtskb x → payload x = arp_packet hrd pro hln pln op sha sip tha tip ++ pad →
  length sha = n → length tha = n →
  0 ≤ hrd < 65536 → 0 ≤ pro < 65536 → 0 ≤ op < 65536 → is_u32 sip → is_u32 tip →
  let a := data x in
  buf_read x (a + 4) 1 = Some [u8 hln] ∧ buf_read x (a + 5) 1 = Some [u8 pln] ∧
  buf_read x a 2 ≫= rd16 = Some (ntohs hrd) ∧ buf_read x (a + 2) 2 ≫= rd16 = Some (ntohs pro) ∧
  buf_read x (a + 6) 2 ≫= rd16 = Some (ntohs op) ∧ buf_read x (a + ARPHDR_LEN) (Z.of_nat n) = Some sha ∧
  buf_read x (a + ARPHDR_LEN + Z.of_nat n) 4 ≫= rd32 = Some sip ∧
  buf_read x (a + ARPHDR_LEN + Z.of_nat n + 4 + Z.of_nat n) 4 ≫= rd32 = Some tip.
Proof.
  intros Hw Hp Ls Lt Hh Hpr Ho Hs Ht a. pose proof (length_payload _ Hw) as Hl. rewrite Hp in Hl. unfold arp_packet in *.
  rewrite !length_app, !length_wr32, Ls, Lt in Hl. cbn [length be16] in Hl.
  set (h8 := be16 hrd ++ be16 pro ++ [u8 hln; u8 pln] ++ be16 op).
  assert (Ep : payload x = h8 ++ sha ++ wr32 sip ++ tha ++ wr32 tip ++ pad) by (rewrite Hp; unfold h8; by rewrite <-!app_assoc).
  assert (R : ∀ o m : nat, (o + m ≤ 16 + 2 * n)%nat → buf_read x (a + Z.of_nat o) (Z.of_nat m) = Some (take m (drop o (payload x)))).
  { intros o m Hom. unfold a. rewrite payload_read by (done || lia). by rewrite !Nat2Z.id. }
  assert (R0 : ∀ m : nat, (m ≤ 16 + 2 * n)%nat → buf_read x a (Z.of_nat m) = Some (take m (payload x))).
  { intros m Hm. rewrite <-(Z.add_0_r a). by apply (R 0%nat). }
  split_and!.
  - rewrite (R 4%nat 1%nat ltac:(lia) : buf_read x (a + 4) 1 = _), Ep. done.
  - rewrite (R 5%nat 1%nat ltac:(lia) : buf_read x (a + 5) 1 = _), Ep. done.
  - rewrite (R0 2%nat ltac:(lia) : buf_read x a 2 = _), Ep. by apply rd16_be16.
  - rewrite (R 2%nat 2%nat ltac:(lia) : buf_read x (a + 2) 2 = _), Ep. by apply rd16_be16.
  - rewrite (R 6%nat 2%nat ltac:(lia) : buf_read x (a + 6) 2 = _), Ep. by apply rd16_be16.
  - change (a + ARPHDR_LEN) with (a + Z.of_nat 8). rewrite R, Ep, drop_app_length' by (done || lia).
    by rewrite take_app_length'.
  - replace (a + ARPHDR_LEN + Z.of_nat n) with (a + Z.of_nat (8 + n)) by (unfold ARPHDR_LEN; lia).
    rewrite (R (8 + n)%nat 4%nat ltac:(lia) : buf_read x (a + Z.of_nat (8 + n)) 4 = _), Ep. rewrite app_assoc, drop_app_length' by (rewrite length_app, Ls; done).
    cbn [mbind option_bind]. rewrite take_app_length' by (by rewrite length_wr32). by apply rd32_wr32.
  - replace (a + ARPHDR_LEN + Z.of_nat n + 4 + Z.of_nat n) with (a + Z.of_nat (8 + n + 4 + n)) by (unfold ARPHDR_LEN; lia).
    rewrite (R (8 + n + 4 + n)%nat 4%nat ltac:(lia) : buf_read x (a + Z.of_nat (8 + n + 4 + n)) 4 = _), Ep. rewrite !app_assoc, <-(app_assoc _ _ pad).
    rewrite drop_app_length' by (rewrite !length_app, length_wr32, Ls, Lt; done).
    cbn [mbind option_bind]. rewrite take_app_length' by (by rewrite length_wr32). by apply rd32_wr32.
Qed.
End decode.

Section rcv.
Context `{Config} (global_pool : nat).
Context (hard_header : nat → option (nat → Z → list Z → list Z → Z → M kstate Z)).
Context (drv_xmit : nat → nat → M kstate Z).
Implicit Types (r : rstate) (B : list (list nat)) (F : list nat) (T : route_map) (C : gmap nat (list nat)).

(** What the sender of a packet to this station becomes in the routing table [T]. *)
Definition learnt F T (sip : Z) (sha : list Z) (d : nat) (D : rtnet_device) T' : Prop :=
  if Z.testbit (priv_flags D) PRIV_FLAG_UP && negb (Z.testbit (priv_flags D) PRIV_FLAG_ADDING_ROUTE)
  then T' = add_route T sip sha d D ∨ (F = [] ∧ T !! (sip, local_ip D) = None ∧ T' = T)
  else T' = T.
(** The answer of device [D] to a request from [sip]. *)
Definition arp_answer (D : rtnet_device) (sha : list Z) (sip : Z) : list Z :=
  arp_packet (dtype D) ETH_P_IP (Z.of_nat (addr_len D)) 4 ARPOP_REPLY (take (addr_len D) (dev_addr D)) (local_ip D) sha sip.

(** The packet goes back to its pool. *)
Lemma arp_out_run r C k x rp (Q : Z → rstate → Prop) :
  CONFIG_RTNET_ADDON_PROXY_ARP = false → pools_inv (kern r) C → loose (kern r) C k x rp →
  (∀ k2, same_world (kern r) k2 → rejected C k rp k2 → Q 0 (r <| kern := k2 |>)) → wp (arp_out None k) Q r.
Proof.
  intros Hpx Hi Hl HQ. unfold arp_out. rewrite Hpx. destruct (lo_pools _ _ _ _ _ Hl) as [lr Hlr].
  apply wp_bind, wp_in_kern. eapply loose_free; [done..|]. intros k2 Hi2 Hw. apply wp_ret. apply HQ; [done|]. by exists lr.
Qed.
Lemma arp_ether_ip : arp_types_ok ARPHRD_ETHER (ntohs ARPHRD_ETHER) (ntohs ETH_P_IP) = true.
Proof. unfold arp_types_ok. cbn [Z.eqb Pos.eqb ARPHRD_ETHER]. by rewrite !Z.eqb_refl. Qed.
Lemma arp_ops op : op = ARPOP_REQUEST ∨ op = ARPOP_REPLY →
  negb (ntohs op =? ntohs ARPOP_REPLY) && negb (ntohs op =? ntohs ARPOP_REQUEST) = false ∧
  (ntohs op =? ntohs ARPOP_REQUEST) = (op =? ARPOP_REQUEST).
Proof.
  intros [->| ->]; rewrite ?Z.eqb_refl, ?andb_false_r; split; try done. unfold ntohs. by destruct little_endian.
Qed.

(** C32: [rt_arp_rcv] on an ARP packet of an Ethernet device, request or reply.  If it asks
    for or is directed to the address of the device, its sender is entered into the
    routing table, and a request is answered: a packet in the same format, with the
    address of the device as sender and the roles exchanged, is sent to the hardware
    address of the requester (if the global pool has a buffer).  Packets for other
    addresses change nothing.  In all cases the packet itself goes back to its pool. *)
Theorem rt_arp_rcv_correct r B F T C l k x rp d D op sha sip tha tip pad lh :
  CONFIG_RTNET_ADDON_PROXY_ARP = false → host_state r B F T → pools_inv (kern r) C → C !! global_pool = Some l →
  loose (kern r) C k x rp → rtdev x = Some d → devs (kern r) !! d = Some D → nh_raw x = data x →
  pkt_type x ≠ PACKET_OTHERHOST → pkt_type x ≠ PACKET_LOOPBACK →
  dtype D = ARPHRD_ETHER → Z.land (flags D) IFF_NOARP = 0 → (addr_len D ≤ 255)%nat → (addr_len D ≤ length (dev_addr D))%nat →
  0 ≤ hard_header_len D → arp_len D + hard_header_len D + 15 ≤ SKB_DATA_ALIGN RTSKB_SIZE < 2 ^ 32 → roomy D (kern r) l (arp_len D) →
  op = ARPOP_REQUEST ∨ op = ARPOP_REPLY → length sha = addr_len D → length tha = addr_len D → is_u32 sip → is_u32 tip →
  payload x = arp_packet ARPHRD_ETHER ETH_P_IP (Z.of_nat (addr_len D)) 4 op sha sip tha tip ++ pad →
  link_spec hard_header d D sha (dev_addr D) lh → driver_spec drv_xmit d D →
  wp (rt_arp_rcv global_pool hard_header drv_xmit None k)
     (λ ret r', ret = 0 ∧ devs (kern r') = devs (kern r) ∧
        (∃ B' F' T', host_state r' B' F' T' ∧ if tip =? local_ip D then learnt F T sip sha d D T' else T' = T) ∧
        xmit_log (kern r') = xmit_log (kern r) ++
          (if (tip =? local_ip D) && (op =? ARPOP_REQUEST)
           then match l with [] => [] | a :: _ => [(d, a, lh ++ arp_answer D sha sip)] end else []) ∧
        ∃ C', rejected C' k rp (kern r')) r.
Proof.
  intros Hpx Hs Hinv Hl Hlo Hrd HD Hnh Ht1 Ht2 Hty Hna Hal Hda Hhl Hsz Hroom Hop Ls Lt Hsip Htip Hpay Hlh Hdrv.
  assert (Hopr : 0 ≤ op < 65536) by (destruct Hop as [->| ->]; done).
  destruct (arp_decode x ARPHRD_ETHER ETH_P_IP (Z.of_nat (addr_len D)) 4 op sha sip tha tip pad (addr_len D))
    as (R1 & R2 & R3 & R4 & R5 & R6 & R7 & R8); try done. { apply Hlo. }
  assert (Hu8 : u8 (Z.of_nat (addr_len D)) = Z.of_nat (addr_len D)) by (unfold u8; rewrite Z.mod_small; lia).
  rewrite Hu8 in R1. unfold rt_arp_rcv. apply wp_bind, wp_in_kern. eapply wp_skb_load; [apply Hlo|].
  replace (r <| kern := kern r |>) with r by (by destruct r). apply wp_bind. eapply wp_deref; [done|].
  apply wp_bind, wp_in_kern. eapply wp_dev_load; [done|]. replace (r <| kern := kern r |>) with r by (by destruct r).
  rewrite Hnh. apply wp_bind. eapply wp_deref; [by rewrite R1|]. apply wp_bind. eapply wp_deref; [by rewrite R2|].
  rewrite Z.eqb_refl, Hna. apply Z.eqb_neq in Ht1 as ->, Ht2 as ->. change (u8 4 =? 4) with true. cbn [negb orb Z.eqb].
  apply wp_bind. eapply wp_deref; [done|]. apply wp_bind. eapply wp_deref; [done|]. rewrite Hty.
  rewrite arp_ether_ip. cbn [negb]. apply wp_bind. eapply wp_deref; [done|].
  destruct (arp_ops op Hop) as [-> ->]. apply wp_bind. eapply wp_deref; [done|]. apply wp_bind. eapply wp_deref; [done|].
  apply wp_bind. eapply wp_deref; [done|]. apply wp_bind. unfold when at 1.
  destruct (Z.eqb_spec tip (local_ip D)) as [->|Hne]; cbn [andb].
  2: { apply wp_ret. eapply (arp_out_run _ C); [done..|]. intros k2 Hw Hrej. split_and!; [done|by cbn; rewrite Hw| |cbn; by rewrite Hw, app_nil_r|by exists C].
    exists B, F, T. split; [|done]. apply host_state_devs; [done|by rewrite Hw]. }
  apply wp_bind. eapply wp_mono; [|eapply (add_host_run r B F T sip sha d D); [done..|lia]].
  intros e r1 (Ek & Hadd). rewrite Hpx. cbn [negb andb].
  assert (Hlearn : ∃ B' F' T', host_state r1 B' F' T' ∧ learnt F T sip sha d D T').
  { unfold learnt. destruct (_ && _); [destruct Hadd as [(_ & B' & F' & Hs')|(_ & ? & ? & ->)]|destruct Hadd as [_ ->]]; eauto 10. }
  destruct Hlearn as (B' & F' & T' & Hs' & Hle). unfold when.
  destruct (Z.eqb_spec op ARPOP_REQUEST) as [->|Hrep].
  - apply wp_in_kern. rewrite Ek.
    eapply wp_mono; [|eapply (arp_send_run global_pool hard_header drv_xmit d D (kern r) C l ARPOP_REPLY sip (local_ip D) sha (dev_addr D) sha lh)];
      try done; try lia.
    intros [] k1 (Hi1 & Ed1 & Elog & Hsk). eapply (arp_out_run _ (<[global_pool := drop 1 l]> C)); [done|done| |].
    + destruct Hlo as [Hx ? ? ? ? Hu ?]. cbn [kern upd]. split; try done.
      * by rewrite Hsk.
      * destruct (decide (global_pool = rp)) as [->|]; simplify_map_eq; eauto.
      * apply in_use_insert; [done|]. intros Hin. eapply (Hu global_pool); [done|]. by eapply subseteq_drop.
    + cbn [kern upd]. intros k2 Hw Hrej. split_and!; [done|by rewrite Hw| | |by eexists].
      * exists B', F', T'. split; [|done]. apply (host_state_devs r1); [done|]. rewrite Hw. cbn. by rewrite Ed1, Ek.
      * rewrite Hw. cbn. rewrite Elog. unfold arp_answer. by rewrite (take_ge sha) by lia.
  - apply wp_ret. eapply (arp_out_run _ C); [done|by rewrite Ek|by rewrite Ek|]. intros k2 Hw Hrej. rewrite Ek in Hw.
    split_and!; [done|by cbn; rewrite Hw| |cbn; by rewrite Hw, app_nil_r|by exists C].
    exists B', F', T'. split; [|done]. apply host_state_devs; [done|]. by rewrite Hw, Ek.
Qed.
End rcv.

(** The Ethernet header is such a link header. *)
Lemma eth_link_spec `{Config} (hard_header : nat → option (nat → Z → list Z → list Z → Z → M kstate Z)) d D dst src :
  hard_header d = Some (λ skb type daddr saddr n, rt_eth_header skb d type (Some daddr) (Some saddr) n) →
  addr_len D = ETH_ALEN → hard_header_len D = ETH_HLEN → Z.land (flags D) (Z.lor IFF_LOOPBACK IFF_NOARP) = 0 →
  (ETH_ALEN ≤ length dst)%nat → (ETH_ALEN ≤ length src)%nat →
  link_spec hard_header d D dst src (take ETH_ALEN dst ++ take ETH_ALEN src ++ be16 ETH_P_ARP).
Proof.
  intros Hh Ha Hl Hfl Hd Hs. unfold link_spec. rewrite Hh. intros k a x Hx HD Hw Hr. rewrite Hl in Hr.
  eapply wp_mono; [|by apply (rt_eth_header_run k a d D x)].
  intros r k' (-> & y & -> & Hwy & _ & Ey & Hp). rewrite Hl. split; [done|]. exists y. rewrite Hp, <-!app_assoc.
  assert (Ed : data y = data x - ETH_HLEN) by (by rewrite Ey).
  split_and!; try done; [by rewrite Ey|]. rewrite Ed, !length_app, !length_take_le by done. cbn [length be16 Nat.add]. unfold ETH_HLEN, ETH_ALEN. lia.
Qed.
