(* ===== verification/Udp.v ===== *)
(** * UDP (stack/ipv4/udp/udp.c)

    The registry of bound sockets, the socket calls, and the reception of datagrams.
    The checksum functions of the architecture are arguments. *)
From S2P Require Import Prelude State RtskbQueue Rtskb RtskbData Rtdev Eth Iovec Route IpFragment Socket IpOutput.

Definition EWOULDBLOCK := 11.
Definition EINTR := 4.
Definition EFAULT := 14.
Definition EMSGSIZE := 90.
Definition EADDRINUSE := 98.
Definition ENOTCONN := 107.
Definition ETIMEDOUT := 110.
Definition EIDRM := 43.
Definition RT_UDP_SOCKETS : nat := 64.
Definition BITS_PER_LONG := 64.
Definition RT_PORT_BITMAP_WORDS : nat := 1.
Definition TCP_ESTABLISHED := 1.
Definition TCP_CLOSE := 7.
Definition AF_UNSPEC := 0.
Definition IPPROTO_UDP := 17.
Definition CHECKSUM_UNNECESSARY := 1.
Definition UDPHDR_LEN := 8.
Definition MSG_OOB := 1.
Definition MSG_PEEK := 2.
Definition MSG_DONTROUTE := 4.
Definition MSG_TRUNC := 32.
Definition MSG_DONTWAIT := 64.

(** ** The registry *)

(** [us_link]: the bucket the entry is linked into. *)
Record udp_socket := mk_udp_socket {
  us_sport : Z;
  us_saddr : Z;
  us_sock : option nat;
  us_link : option nat;
}.
#[export] Instance udp_socket_eta : Settable udp_socket := λ r,
  mk_udp_socket (us_sport r) (us_saddr r) (us_sock r) (us_link r).

(** The static variables; [port_hash] holds the indices of the linked entries,
    [port_lock] tells whether [udp_socket_base_lock] is held. *)
Record pstate := mk_pstate {
  auto_port_start : Z;
  auto_port_mask : Z;
  free_ports : Z;
  port_bitmap : list Z;
  port_registry : list udp_socket;
  port_hash : list (list nat);
  port_lock : bool;
}.
#[export] Instance pstate_eta : Settable pstate := λ r,
  mk_pstate (auto_port_start r) (auto_port_mask r) (free_ports r) (port_bitmap r) (port_registry r) (port_hash r)
    (port_lock r).

Definition port_hash_mask := Z.of_nat RT_UDP_SOCKETS * 2 - 1.
Definition port_bucket (sport : Z) : nat := Z.to_nat (Z.land sport port_hash_mask).

Definition port_match (saddr sport : Z) (e : udp_socket) : bool :=
  (us_sport e =? sport) && ((saddr =? INADDR_ANY) || (us_saddr e =? saddr) || (us_saddr e =? INADDR_ANY)).
Fixpoint hash_find (reg : list udp_socket) (saddr sport : Z) (l : list nat) : option (option nat) :=
  match l with
  | [] => Some None
  | i :: l => e ← reg !! i; if port_match saddr sport e then Some (Some i) else hash_find reg saddr sport l
  end.
Definition port_hash_search (P : pstate) (saddr sport : Z) : option (option nat) :=
  l ← port_hash P !! port_bucket sport; hash_find (port_registry P) saddr sport l.

Definition reg_load (i : nat) : M pstate udp_socket := r ← gets port_registry; deref (r !! i).
Definition reg_upd (i : nat) (f : udp_socket → udp_socket) : M pstate () :=
  e ← reg_load i; modify (λ P, P <| port_registry := <[i := f e]> (port_registry P) |>).

Definition port_hash_insert (i : nat) (saddr sport : Z) : M pstate Z :=
  P ← get;
  r ← deref (port_hash_search P saddr sport);
  match r with
  | Some _ => mret (- EADDRINUSE)
  | None =>
      let bucket := port_bucket sport in
      l ← deref (port_hash P !! bucket);
      reg_upd i (λ e, e <| us_saddr := saddr |> <| us_sport := sport |> <| us_link := Some bucket |>);;
      modify (λ P, P <| port_hash := <[bucket := i :: l]> (port_hash P) |>);;
      mret 0
  end.

(** [hlist_del] on an entry that is not linked is a fault. *)
Definition port_hash_del (i : nat) : M pstate () :=
  e ← reg_load i;
  bucket ← deref (us_link e);
  h ← gets port_hash;
  l ← deref (h !! bucket);
  l' ← deref (list_del i l);
  reg_upd i (λ e, e <| us_link := None |>);;
  modify (λ P, P <| port_hash := <[bucket := l']> (port_hash P) |>).

(** Taking the lock while it is held never returns. *)
Definition lock_get : M pstate () :=
  b ← gets port_lock; if (b : bool) then ub else modify (λ P, P <| port_lock := true |>).
Definition lock_put : M pstate () := modify (λ P, P <| port_lock := false |>).

(** ** The state of the protocol *)

(** [uroute] holds the routing tables; its kernel state is that of [uf]. *)
Record ustate := mk_ustate {
  uf : fstate;
  up : pstate;
  uroute : rstate;
  u_ip_id : Z;
  um : umem;
}.
#[export] Instance ustate_eta : Settable ustate := λ r, mk_ustate (uf r) (up r) (uroute r) (u_ip_id r) (um r).

Definition in_fs {A} : M fstate A → M ustate A := zoom uf (λ f s, s <| uf := f |>).
Definition in_ports {A} : M pstate A → M ustate A := zoom up (λ p s, s <| up := p |>).
Definition in_route {A} : M rstate A → M ustate A :=
  zoom (λ s, (uroute s) <| kern := fkern (uf s) |>)
       (λ r s, s <| uroute := r |> <| uf := (uf s) <| fkern := kern r |> |>).
Definition in_ukern {A} (m : M kstate A) : M ustate A := in_fs (in_fkern m).

Section defs.
Context `{Config}.
Context (csum_partial : list Z → Z → Z) (csum_tcpudp_magic csum_tcpudp_nofold : Z → Z → Z → Z → Z → Z).

(** [rt_udp_v4_lookup]: the lock is held while the registry [P] is searched. *)
Definition rt_udp_v4_lookup (P : pstate) (daddr dport : Z) : M fstate (option nat) :=
  if port_lock P then ub
  else
    r ← deref (port_hash_search P daddr dport);
    match r with
    | None => mret None
    | Some i =>
        e ← deref (port_registry P !! i);
        a ← deref (us_sock e);
        sock_upd a (λ S, S <| close_lock_count := close_lock_count S + 1 |>);;
        mret (Some a)
    end.

(** *** Socket calls *)

(** [auto] ports: [index + auto_port_start], as an unsigned number. *)
Definition rt_udp_bind (sock : nat) (sin_addr sin_port addrlen : Z) : M ustate Z :=
  start ← in_ports (gets auto_port_start);
  mask ← in_ports (gets auto_port_mask);
  if (addrlen <? SIZEOF_SOCKADDR_IN) || (Z.land sin_port mask =? start) then mret (- EINVAL)
  else
    in_ports lock_get;;
    S ← in_fs (sock_load sock);
    if reg_index S <? 0 then in_ports lock_put;; mret (- EBADF)
    else if negb (inet_state S =? TCP_CLOSE) then in_ports lock_put;; mret (- EINVAL)
    else
      let index := Z.to_nat (reg_index S) in
      in_ports (port_hash_del index);;
      err ← in_ports (port_hash_insert index sin_addr
                        (u16 (if negb (sin_port =? 0) then sin_port else reg_index S + start)));
      if negb (err =? 0) then
        e ← in_ports (reg_load index);
        in_ports (port_hash_insert index (us_saddr e) (us_sport e));;
        in_ports lock_put;;
        mret (- EADDRINUSE)
      else
        e ← in_ports (reg_load index);
        in_fs (sock_upd sock (λ S, S <| inet_saddr := us_saddr e |> <| inet_sport := us_sport e |>));;
        in_ports lock_put;;
        mret 0.

Definition rt_udp_connect (sock : nat) (sin_family sin_addr sin_port addrlen : Z) : M ustate Z :=
  if sin_family =? AF_UNSPEC then
    S ← in_fs (sock_load sock);
    if reg_index S <? 0 then mret (- EBADF)
    else
      start ← in_ports (gets auto_port_start);
      in_ports lock_get;;
      in_fs (sock_upd sock (λ S, S <| inet_saddr := INADDR_ANY |> <| inet_sport := u16 (reg_index S + start) |>
                                   <| inet_daddr := INADDR_ANY |> <| inet_dport := 0 |> <| inet_state := TCP_CLOSE |>));;
      in_ports lock_put;;
      mret 0
  else if (addrlen <? SIZEOF_SOCKADDR_IN) || negb (sin_family =? AF_INET) then mret (- EINVAL)
  else
    in_ports lock_get;;
    S ← in_fs (sock_load sock);
    if negb (inet_state S =? TCP_CLOSE) then in_ports lock_put;; mret (- EINVAL)
    else
      in_fs (sock_upd sock (λ S, S <| inet_state := TCP_ESTABLISHED |> <| inet_daddr := sin_addr |>
                                   <| inet_dport := sin_port |>));;
      in_ports lock_put;;
      mret 0.

(** The first word of the bitmap that has a free bit. *)
Fixpoint free_word (ws : list Z) (i : nat) : nat :=
  match ws with
  | [] => i
  | w :: ws => if negb (w =? 2 ^ 64 - 1) then i else free_word ws (S i)
  end.

Definition rt_udp_socket (socket_rtskbs : Z) (sock : nat) : M ustate Z :=
  ret ← in_fs (rt_socket_init socket_rtskbs sock IPPROTO_UDP);
  if negb (ret =? 0) then mret ret
  else
    in_fs (sock_upd sock (λ S, S <| inet_saddr := INADDR_ANY |> <| inet_state := TCP_CLOSE |> <| inet_tos := 0 |>));;
    in_ports lock_get;;
    n ← in_ports (gets free_ports);
    if n =? 0 then
      in_ports lock_put;; in_fs (rt_socket_cleanup sock);; mret (- EAGAIN)
    else
      in_ports (modify (λ P, P <| free_ports := n - 1 |>));;
      ws ← in_ports (gets port_bitmap);
      let i := free_word ws 0 in
      w ← deref (ws !! i);
      let bit := ffz w in
      in_ports (modify (λ P, P <| port_bitmap := <[i := Z.setbit w bit]> (port_bitmap P) |>));;
      let index := bit + Z.of_nat i * 32 in
      start ← in_ports (gets auto_port_start);
      let sport := u16 (index + start) in
      in_fs (sock_upd sock (λ S, S <| reg_index := index |> <| inet_sport := sport |>));;
      in_ports (port_hash_insert (Z.to_nat index) INADDR_ANY sport);;
      in_ports (reg_upd (Z.to_nat index) (λ e, e <| us_sock := Some sock |>));;
      in_ports lock_put;;
      mret 0.

(** The locked part of [rt_udp_close]. *)
Definition udp_unregister (sock : nat) : M ustate () :=
  in_ports lock_get;;
  in_fs (sock_upd sock (λ S, S <| inet_state := TCP_CLOSE |>));;
  S ← in_fs (sock_load sock);
  (if 0 <=? reg_index S then
     ws ← in_ports (gets port_bitmap);
     let port := reg_index S in
     w ← deref (ws !! Z.to_nat (port / BITS_PER_LONG));
     in_ports (modify (λ P, P <| port_bitmap := <[Z.to_nat (port / BITS_PER_LONG) :=
                                Z.clearbit w (port mod BITS_PER_LONG)]> (port_bitmap P) |>));;
     in_ports (port_hash_del (Z.to_nat port));;
     in_ports (modify (λ P, P <| free_ports := free_ports P + 1 |>));;
     in_fs (sock_upd sock (λ S, S <| reg_index := -1 |>))
   else mret ());;
  in_ports lock_put.
(** [rtskb_queue_purge] is the loop over [rtskb_dequeue] and [kfree_rtskb]. *)
Definition rt_udp_close (sock : nat) : M ustate Z :=
  udp_unregister sock;;
  in_fs (rt_ip_frag_invalidate_socket sock);;
  S ← in_fs (sock_load sock);
  in_ukern (rtskb_queue_purge (incoming S));;
  in_fs (rt_socket_cleanup sock).

(** *** Reception by the application *)

(** [rtdm_sem_timeddown]: [waited] is the result of waiting, should it come to that. *)
Definition sem_timeddown (sock : nat) (timeout waited : Z) : M fstate Z :=
  S ← sock_load sock;
  match pending_sem S with
  | None => mret (- EIDRM)
  | Some n =>
      if 0 <? n then sock_upd sock (λ S, S <| pending_sem := Some (n - 1) |>);; mret 0
      else if timeout <? 0 then mret (- EWOULDBLOCK)
      else mret waited
  end.
Definition sem_up (sock : nat) : M fstate () :=
  sock_upd sock (λ S, S <| pending_sem := (λ n, n + 1) <$> pending_sem S |>).

Definition in_mem {A} (f : umem → option (A * umem)) : M ustate A := λ s,
  match f (um s) with Some (a, m) => Some (a, s <| um := m |>) | None => None end.

(** The loop over the buffers of the datagram: the bytes left of the datagram, the
    bytes copied, the room of the caller, and whether [MSG_TRUNC] was set; [size_t]
    arithmetic.  Yields [copied], [data_len] and the flag. *)
Fixpoint recv_loop (fuel : nat) (skb : nat) (data_len copied room : Z) (iov : list iovec) : M ustate (Z * Z * bool) :=
  match fuel with
  | O => ub
  | S fuel =>
      in_ukern (skb_upd skb (rtskb_trim (u32 data_len)));;
      x ← in_ukern (skb_load skb);
      let block_size := len x in
      let copied := u64 (copied + block_size) in
      let data_len := u64 (data_len - block_size) in
      kdata ← in_ukern (skb_read skb (data x) (len x));
      if room <? copied then
        in_mem (rt_memcpy_tokerneliovec iov kdata (s32 (block_size - (copied - room))));;
        mret (room, data_len, true)
      else
        iov ← in_mem (rt_memcpy_tokerneliovec iov kdata (s32 block_size));
        match next x with
        | None => mret (copied, data_len, false)
        | Some skb => recv_loop fuel skb data_len copied room iov
        end
  end.

(** The sender's address and port, if the caller asks for them, the flags and the
    result. *)
Definition rt_udp_recvmsg (sock : nat) (iov : list iovec) (want_name : bool) (msg_flags waited : Z)
    : M ustate (Z * option (Z * Z * Z) * Z) :=
  let room := rt_iovec_len iov in
  S ← in_fs (sock_load sock);
  let timeout := if negb (Z.land msg_flags MSG_DONTWAIT =? 0) then -1 else so_timeout S in
  ret ← in_fs (sem_timeddown sock timeout waited);
  if ret <? 0 then
    mret (if (ret =? - EWOULDBLOCK) || (ret =? - ETIMEDOUT) || (ret =? - EINTR) then ret else - EBADF, None, 0)
  else
    r ← in_ukern (rtskb_dequeue_chain (incoming S));
    match r with
    | None => if assert_fails false then mret (- EFAULT, None, 0) else ub
    | Some first_skb =>
        x ← in_ukern (skb_load first_skb);
        ulen ← deref (buf_read x (h_raw x + 4) 2 ≫= rd16);
        source ← deref (buf_read x (h_raw x) 2 ≫= rd16);
        h ← deref (iph x);
        let name := if want_name then Some (AF_INET, source, iph_saddr h) else None in
        in_ukern (skb_upd first_skb (λ x, snd (__rtskb_pull UDPHDR_LEN x)));;
        fuel ← in_ukern (gets (λ k, size (skbs k)));
        '(copied, data_len, trunc) ← recv_loop fuel first_skb (u64 (ntohs ulen - UDPHDR_LEN)) 0 room iov;
        let flags := if trunc || (0 <? data_len) then MSG_TRUNC else 0 in
        if Z.land msg_flags MSG_PEEK =? 0 then
          in_ukern (kfree_rtskb (Some first_skb));; mret (copied, name, flags)
        else
          in_ukern (skb_upd first_skb (λ x, snd (__rtskb_push UDPHDR_LEN x)));;
          in_ukern (rtskb_queue_head (incoming S) first_skb);;
          in_fs (sem_up sock);;
          mret (copied, name, flags)
    end.

(** *** Sending *)

(** [struct udpfakehdr], and the memory the vector points into. *)
Record udpfakehdr := mk_ufh {
  uh_source : Z;
  uh_dest : Z;
  uh_len : Z;
  uh_check : Z;
  ufh_daddr : Z;
  ufh_saddr : Z;
  ufh_iov : list iovec;
  ufh_wcheck : Z;
  ufh_mem : umem;
}.
#[export] Instance ufh_eta : Settable udpfakehdr := λ r,
  mk_ufh (uh_source r) (uh_dest r) (uh_len r) (uh_check r) (ufh_daddr r) (ufh_saddr r) (ufh_iov r) (ufh_wcheck r)
    (ufh_mem r).
(** The bytes of [struct udphdr]. *)
Definition udp_header (u : udpfakehdr) : list Z :=
  wr16 (uh_source u) ++ wr16 (uh_dest u) ++ wr16 (uh_len u) ++ wr16 (uh_check u).

(** The loop over the vector that sums up the data. *)
Fixpoint csum_iov (iov : list iovec) (m : umem) (w : Z) : option Z :=
  match iov with
  | [] => Some w
  | v :: iov => b ← load_bytes (iov_base v) (Z.to_nat (iov_len v)) m; csum_iov iov m (csum_partial b w)
  end.
(** [csum_tcpudp_magic], and -1 for 0. *)
Definition udp_check (u : udpfakehdr) : Z :=
  let c := csum_tcpudp_magic (ufh_saddr u) (ufh_daddr u) (ntohs (uh_len u)) IPPROTO_UDP (ufh_wcheck u) in
  if c =? 0 then 65535 else c.

Definition rt_udp_getfrag (skb : nat) (to offset fraglen : Z) : M (ostate udpfakehdr) Z :=
  u ← gets ofrag;
  if offset =? 0 then
    w ← deref (csum_iov (ufh_iov u) (ufh_mem u) (ufh_wcheck u));
    r ← deref (rt_memcpy_fromkerneliovec (ufh_iov u) (s32 (fraglen - UDPHDR_LEN)) (ufh_mem u));
    in_okern (skb_write skb (to + UDPHDR_LEN) r.1);;
    let u := u <| ufh_iov := r.2 |> <| ufh_wcheck := csum_partial (udp_header u) w |> in
    let u := u <| uh_check := udp_check u |> in
    modify (λ s, s <| ofrag := u |>);;
    in_okern (skb_write skb to (udp_header u));;
    mret 0
  else
    r ← deref (rt_memcpy_fromkerneliovec (ufh_iov u) (s32 fraglen) (ufh_mem u));
    in_okern (skb_write skb to r.1);;
    modify (λ s, s <| ofrag := u <| ufh_iov := r.2 |> |>);;
    mret 0.

Context (ip_fast_csum : list Z → Z).
Context (hard_header : nat → option (nat → Z → list Z → list Z → Z → M kstate Z)).
Context (get_mtu : nat → Z → M kstate Z) (drv_xmit : nat → nat → M kstate Z).

(** Running IP output with the source of the data (the fake header, on the stack of the
    caller). *)
Definition in_output {W A} (u : W) (m : M (ostate W) A) : M ustate A := λ s,
  match m (mk_ostate (fkern (uf s)) (u_ip_id s) u) with
  | Some (a, o) => Some (a, s <| uf := (uf s) <| fkern := okern o |> |> <| u_ip_id := rt_ip_id_count o |>)
  | None => None
  end.

(** [msg_name]: family, address and port when the caller gives a destination of the
    right size. *)
Definition rt_udp_sendmsg (sock : nat) (iov : list iovec) (msg_name : option (Z * Z * Z)) (msg_flags : Z)
    : M ustate Z :=
  let len0 := rt_iovec_len iov in
  let ulen := len0 + UDPHDR_LEN in
  if 65535 - IPHDR_LEN - UDPHDR_LEN <? len0 then mret (- EMSGSIZE)
  else if negb (Z.land msg_flags MSG_OOB =? 0) then mret (- EOPNOTSUPP)
  else if negb (Z.land msg_flags (Z.lnot (Z.lor MSG_DONTROUTE MSG_DONTWAIT)) =? 0) then mret (- EINVAL)
  else
    r ← match msg_name with
        | Some (family, addr, port) =>
            if negb (family =? AF_INET) && negb (family =? AF_UNSPEC) then mret (inl (- EINVAL))
            else in_ports lock_get;; mret (inr (addr, port))
        | None =>
            in_ports lock_get;;
            S ← in_fs (sock_load sock);
            if negb (inet_state S =? TCP_ESTABLISHED) then mret (inl (- ENOTCONN))
            else mret (inr (inet_daddr S, inet_dport S))
        end;
    match r with
    | inl err => mret err
    | inr (daddr, dport) =>
        S ← in_fs (sock_load sock);
        let saddr := inet_saddr S in
        let source := inet_sport S in
        in_ports lock_put;;
        if Z.lor daddr dport =? 0 then mret (- EINVAL)
        else
          ro ← in_route (rt_ip_route_output daddr saddr);
          if negb (ro.1 =? 0) then mret ro.1
          else
            rt ← deref ro.2;
            d ← deref (dest_rtdev rt);
            D ← in_ukern (dev_load d);
            m ← gets um;
            let u := mk_ufh source dport (ntohs ulen) 0 daddr
                       (if negb (saddr =? INADDR_ANY) then saddr else local_ip D) iov 0 m in
            S ← in_fs (sock_load sock);
            err ← in_output u (rt_ip_build_xmit ip_fast_csum hard_header get_mtu drv_xmit rt_udp_getfrag S ulen rt);
            in_ukern (rtdev_dereference d);;
            mret (if err =? 0 then len0 else err)
    end.

(** *** Reception from IP *)

Definition rt_udp_dest_socket (P : pstate) (skb : nat) : M fstate (option nat) :=
  x ← in_fkern (skb_load skb);
  ulen ← deref (buf_read x (h_raw x + 4) 2 ≫= rd16);
  check ← deref (buf_read x (h_raw x + 6) 2 ≫= rd16);
  dest ← deref (buf_read x (h_raw x + 2) 2 ≫= rd16);
  h ← deref (iph x);
  in_fkern (skb_upd skb (λ x, x <| ip_summed := if check =? 0 then CHECKSUM_UNNECESSARY else ip_summed x |>));;
  in_fkern (skb_upd skb (λ x, x <| csum := if negb (ip_summed x =? CHECKSUM_UNNECESSARY)
              then csum_tcpudp_nofold (iph_saddr h) (iph_daddr h) (ntohs ulen) IPPROTO_UDP 0 else csum x |>));;
  d ← deref (rtdev x);
  D ← in_fkern (dev_load d);
  let daddr := if iph_daddr h =? broadcast_ip D then local_ip D else iph_daddr h in
  r ← rt_udp_v4_lookup P daddr dest;
  in_fkern (skb_upd skb (λ x, x <| sk := r |>));;
  mret r.

(** [callback] runs the function a socket has registered. *)
Definition rt_udp_rcv (callback : nat → nat → Z → M fstate ()) (skb : nat) : M fstate () :=
  x ← in_fkern (skb_load skb);
  sock ← deref (sk x);
  S ← sock_load sock;
  in_fkern (rtskb_queue_tail (incoming S) skb);;
  sem_up sock;;
  S ← sock_load sock;
  match callback_func S with
  | Some f => callback f sock (callback_arg S)
  | None => mret ()
  end.

(** *** Initialization *)

(** The module parameters are [unsigned int]. *)
Definition rt_udp_init : M pstate () :=
  modify (λ P, if 65536 - Z.of_nat RT_UDP_SOCKETS <=? auto_port_start P then P <| auto_port_start := 1024 |> else P);;
  modify (λ P, P <| auto_port_start := ntohs (u16 (Z.land (auto_port_start P) (Z.land (auto_port_mask P) 65535))) |>);;
  modify (λ P, P <| auto_port_mask := ntohs (u16 (Z.lor (auto_port_mask P) 4294901760)) |>);;
  modify (λ P, P <| port_hash := replicate (RT_UDP_SOCKETS * 2) [] |>).
(** The static initializers. *)
Definition udp_boot : pstate :=
  mk_pstate 1024 (u32 (Z.lnot (Z.of_nat RT_UDP_SOCKETS - 1))) (Z.of_nat RT_UDP_SOCKETS) (replicate RT_PORT_BITMAP_WORDS 0)
    (replicate RT_UDP_SOCKETS (mk_udp_socket 0 0 None None)) [] false.
End defs.
