(* ===== verification/UdpOps.v ===== *)
(** * UDP: the registry of bound sockets

    The hash table of registered sockets refines a map from the index of a socket to its
    local address and port, in which no two sockets can get the same datagram; the
    socket calls that work on it, in terms of that map. *)
From S2P Require Import Prelude State RtskbQueue Rtskb RtskbData Rtdev Iovec Route IpFragment Socket IpOutput Udp.

Section registry.
Context `{Config}.
Implicit Types (P : pstate) (e : udp_socket) (i j b : nat) (a p : Z).

(** The address and port socket [i] is registered with. *)
Definition bound P i : option (Z * Z) :=
  e ← port_registry P !! i; _ ← us_link e; Some (us_saddr e, us_sport e).
(** Two registrations that claim the same datagram. *)
Definition conflict (x y : Z * Z) : Prop := x.2 = y.2 ∧ (x.1 = INADDR_ANY ∨ y.1 = INADDR_ANY ∨ x.1 = y.1).
#[export] Instance conflict_dec x y : Decision (conflict x y).
Proof. unfold conflict. apply _. Defined.

Record reg_ok P : Prop := {
  ro_len : length (port_registry P) = RT_UDP_SOCKETS;
  ro_hash : length (port_hash P) = (RT_UDP_SOCKETS * 2)%nat;
  ro_bucket : ∀ b l, port_hash P !! b = Some l → NoDup l ∧ ∀ i, i ∈ l →
    ∃ e, port_registry P !! i = Some e ∧ us_link e = Some b ∧ port_bucket (us_sport e) = b;
  ro_link : ∀ i e b, port_registry P !! i = Some e → us_link e = Some b →
    ∃ l, port_hash P !! b = Some l ∧ i ∈ l;
  ro_excl : ∀ i j x y, bound P i = Some x → bound P j = Some y → conflict x y → i = j;
}.

Lemma port_bucket_lt p : (port_bucket p < RT_UDP_SOCKETS * 2)%nat.
Proof.
  unfold port_bucket. assert (0 ≤ Z.land p port_hash_mask ≤ port_hash_mask) by (by apply land_nonneg_bound).
  unfold port_hash_mask, RT_UDP_SOCKETS in *. lia.
Qed.
Lemma bound_Some P i x : bound P i = Some x ↔
  ∃ e b, port_registry P !! i = Some e ∧ us_link e = Some b ∧ x = (us_saddr e, us_sport e).
Proof.
  unfold bound. destruct (port_registry P !! i) as [e|]; cbn; [|naive_solver].
  destruct (us_link e) as [b|] eqn:E; cbn; [|naive_solver]. split; [intros [= <-]; eauto|intros (?&?&[= <-]&?&->); done].
Qed.
Lemma port_match_conflict a p e : port_match a p e = true ↔ conflict (a, p) (us_saddr e, us_sport e).
Proof. unfold port_match, conflict. cbn. rewrite andb_true_iff, !orb_true_iff, !Z.eqb_eq. naive_solver. Qed.

Lemma hash_find_run reg a p l :
  (∀ i, i ∈ l → is_Some (reg !! i)) →
  ∃ r, hash_find reg a p l = Some r ∧
    match r with
    | Some i => i ∈ l ∧ ∃ e, reg !! i = Some e ∧ port_match a p e = true
    | None => ∀ i e, i ∈ l → reg !! i = Some e → port_match a p e = false
    end.
Proof.
  induction l as [|i l IH]; intros Hl; cbn [hash_find]; [exists None; split; [done|set_solver]|].
  destruct (Hl i) as [e He]; [set_solver|]. rewrite He. cbn. destruct (port_match a p e) eqn:Hm.
  - exists (Some i). split; [done|]. split; [set_solver|eauto].
  - destruct IH as (r & -> & Hr); [set_solver|]. exists r. split; [done|]. destruct r as [j|].
    + destruct Hr as [? ?]. split; [set_solver|done].
    + intros j e' [->|Hj]%elem_of_cons He'; [congruence|eauto].
Qed.

(** The search finds a registered socket the address belongs to, if there is one. *)
Lemma search_run P a p :
  reg_ok P →
  ∃ r, port_hash_search P a p = Some r ∧
    match r with
    | Some i => ∃ x, bound P i = Some x ∧ conflict (a, p) x
    | None => ∀ i x, bound P i = Some x → ¬ conflict (a, p) x
    end.
Proof.
  intros [Hlen Hhash Hbk Hlk _]. unfold port_hash_search.
  destruct (lookup_lt_is_Some_2 (port_hash P) (port_bucket p)) as [l Hl]; [rewrite Hhash; apply port_bucket_lt|].
  rewrite Hl. cbn [mbind option_bind]. destruct (Hbk _ _ Hl) as [Hnd Hin].
  destruct (hash_find_run (port_registry P) a p l) as (r & Hr & Hcase).
  { intros i Hi. destruct (Hin i Hi) as (e & He & _). eauto. }
  exists r. split; [done|]. destruct r as [i|].
  - destruct Hcase as (Hi & e & He & Hm). destruct (Hin i Hi) as (e' & He' & Hk & _). simplify_eq.
    exists (us_saddr e, us_sport e). split; [by apply bound_Some; eauto|by apply port_match_conflict].
  - intros i x (e & b & He & Hk & ->)%bound_Some Hc. pose proof Hc as [Hp _]. cbn in Hp. subst p.
    destruct (Hlk _ _ _ He Hk) as (l' & Hl' & Hi). destruct (Hbk _ _ Hl') as [_ Hin'].
    destruct (Hin' i Hi) as (e' & He' & Hk' & Hb). simplify_eq.
    specialize (Hcase i _ Hi He). apply port_match_conflict in Hc. congruence.
Qed.

(** Everything but the registration of entry [i]. *)
Definition same_ports (i : nat) P P' : Prop :=
  auto_port_start P' = auto_port_start P ∧ auto_port_mask P' = auto_port_mask P ∧ free_ports P' = free_ports P ∧
  port_bitmap P' = port_bitmap P ∧ port_lock P' = port_lock P ∧ (∀ j, j ≠ i → port_registry P' !! j = port_registry P !! j) ∧
  (us_sock <$> port_registry P' !! i) = (us_sock <$> port_registry P !! i).

Lemma bound_other i j P P' : same_ports i P P' → j ≠ i → bound P' j = bound P j.
Proof. intros (_ & _ & _ & _ & _ & Ho & _) Hj. unfold bound. by rewrite Ho. Qed.

Lemma del_run P i x :
  reg_ok P → bound P i = Some x →
  wp (port_hash_del i)
     (λ _ P', reg_ok P' ∧ same_ports i P P' ∧ bound P' i = None ∧
        ∃ e, port_registry P' !! i = Some e ∧ (us_saddr e, us_sport e) = x) P.
Proof.
  intros Hok Hx. pose proof Hok as [Hlen Hhash Hbk Hlk Hex].
  pose proof Hx as (e & b & He & Hk & ->)%bound_Some. destruct (Hlk _ _ _ He Hk) as (l & Hl & Hi).
  destruct (Hbk _ _ Hl) as [Hnd Hin]. destruct (list_del_elem i l Hi) as [l' Hl'].
  pose proof (list_del_perm _ _ _ Hl') as Hperm.
  assert (Hnd' : NoDup (i :: l')) by (by rewrite <-Hperm). apply NoDup_cons in Hnd' as [Hil Hnd'].
  unfold port_hash_del, reg_upd, reg_load. wp_run. cbn.
  set (P' := P <| port_registry := _ |> <| port_hash := _ |>).
  assert (Hi2 : port_registry P' !! i = Some (e <| us_link := None |>)).
  { cbn. rewrite list_lookup_insert_eq; [done|]. by eapply lookup_lt_Some. }
  assert (Hoth : ∀ j, j ≠ i → port_registry P' !! j = port_registry P !! j).
  { intros j Hj. cbn. by rewrite list_lookup_insert_ne. }
  assert (Hsame : same_ports i P P') by (unfold same_ports; rewrite Hi2, He; done).
  assert (Hbi : bound P' i = None) by (unfold bound; by rewrite Hi2).
  split_and!; [|done|done|by eexists]. split.
  - cbn. by rewrite length_insert.
  - cbn. by rewrite length_insert.
  - intros b' k. cbn. intros [(<- & <- & _)|[Hbb Hk']]%list_lookup_insert_Some.
    + split; [done|]. intros j Hj. destruct (Hin j ltac:(rewrite Hperm; set_solver)) as (e' & He' & ?).
      exists e'. rewrite list_lookup_insert_ne by set_solver. done.
    + destruct (Hbk _ _ Hk') as [? Hin']. split; [done|]. intros j Hj. destruct (Hin' j Hj) as (e' & He' & Hk2 & ?).
      exists e'. split_and!; [|done..]. rewrite list_lookup_insert_ne; [done|]. intros ->. congruence.
  - intros j e' b' He' Hb'. destruct (decide (j = i)) as [->|Hj]; [rewrite Hi2 in He'; by simplify_eq|].
    rewrite Hoth in He' by done. destruct (Hlk _ _ _ He' Hb') as (k & Hk' & Hjk). cbn.
    destruct (decide (b = b')) as [<-|]; [|rewrite list_lookup_insert_ne by done; eauto].
    simplify_eq. exists l'. split; [apply list_lookup_insert_eq; by eapply lookup_lt_Some|]. rewrite Hperm in Hjk. set_solver.
  - intros j j' x y Hj Hj' Hc. destruct (decide (j = i)) as [->|]; [congruence|].
    destruct (decide (j' = i)) as [->|]; [congruence|]. rewrite (bound_other i j P) in Hj by done. rewrite (bound_other i j' P) in Hj' by done. by eapply Hex.
Qed.

Lemma insert_run P i a p :
  reg_ok P → (i < RT_UDP_SOCKETS)%nat → bound P i = None →
  wp (port_hash_insert i a p)
     (λ r P', (r = 0 ∧ reg_ok P' ∧ same_ports i P P' ∧ bound P' i = Some (a, p) ∧
               ∀ j y, bound P j = Some y → ¬ conflict (a, p) y) ∨
              (r = - EADDRINUSE ∧ P' = P ∧ ∃ j y, bound P j = Some y ∧ conflict (a, p) y)) P.
Proof.
  intros Hok Hi Hbi. pose proof Hok as [Hlen Hhash Hbk Hlk Hex].
  destruct (search_run P a p Hok) as (r & Hr & Hcase). unfold port_hash_insert.
  apply wp_bind. eapply wp_intro; [reflexivity|]. apply wp_bind. eapply wp_deref; [exact Hr|].
  destruct r as [j|]; [apply wp_ret; right; naive_solver|].
  destruct (lookup_lt_is_Some_2 (port_hash P) (port_bucket p)) as [l Hl]; [rewrite Hhash; apply port_bucket_lt|].
  destruct (lookup_lt_is_Some_2 (port_registry P) i) as [e He]; [lia|].
  unfold reg_upd, reg_load. wp_run. cbn. left. split; [done|].
  set (e' := e <| us_saddr := a |> <| us_sport := p |> <| us_link := Some (port_bucket p) |>).
  set (P' := P <| port_registry := _ |> <| port_hash := _ |>).
  assert (Hunl : us_link e = None).
  { unfold bound in Hbi. rewrite He in Hbi. cbn in Hbi. by destruct (us_link e). }
  assert (Hi2 : port_registry P' !! i = Some e').
  { cbn. rewrite list_lookup_insert_eq; [done|]. by eapply lookup_lt_Some. }
  assert (Hoth : ∀ j, j ≠ i → port_registry P' !! j = port_registry P !! j).
  { intros j Hj. cbn. by rewrite list_lookup_insert_ne. }
  assert (Hsame : same_ports i P P') by (unfold same_ports; rewrite Hi2, He; done).
  assert (Hb2 : bound P' i = Some (a, p)) by (unfold bound; by rewrite Hi2).
  split_and!; [|done..|]; [|done]. split.
  - cbn. by rewrite length_insert.
  - cbn. by rewrite length_insert.
  - intros b' k Hk. cbn in Hk. apply list_lookup_insert_Some in Hk as [(<- & <- & _)|[Hbb Hk']].
    + destruct (Hbk _ _ Hl) as [Hnd Hin].
      assert (Hil : i ∉ l) by (intros Hil; destruct (Hin i Hil) as (e0 & He0 & Hk0 & _); simplify_eq; congruence).
      split; [by apply NoDup_cons|]. intros j [->|Hj]%elem_of_cons; [by exists e'|].
      destruct (Hin j Hj) as (e0 & He0 & ?). exists e0. rewrite Hoth by set_solver. done.
    + destruct (Hbk _ _ Hk') as [? Hin']. split; [done|]. intros j Hj. destruct (Hin' j Hj) as (e0 & He0 & Hk0 & ?).
      exists e0. rewrite Hoth; [done|]. intros ->. congruence.
  - intros j e0 b' He0 Hb'. destruct (decide (j = i)) as [->|Hj].
    + rewrite Hi2 in He0. injection He0 as <-. injection Hb' as <-. exists (i :: l).
      split; [apply list_lookup_insert_eq; by eapply lookup_lt_Some|set_solver].
    + rewrite Hoth in He0 by done. destruct (Hlk _ _ _ He0 Hb') as (k & Hk' & Hjk). cbn.
      destruct (decide (port_bucket p = b')) as [<-|]; [|rewrite list_lookup_insert_ne by done; eauto].
      simplify_eq. exists (i :: l). split; [apply list_lookup_insert_eq; by eapply lookup_lt_Some|set_solver].
  - assert (Hnew : ∀ j y, j ≠ i → bound P' j = Some y → ¬ conflict (a, p) y).
    { intros j y Hj Hy. rewrite (bound_other i j P) in Hy by done. by eapply Hcase. }
    assert (Hsym : ∀ x y, conflict x y → conflict y x) by (unfold conflict; naive_solver).
    intros j j' x y Hj Hj' Hc. destruct (decide (j = i)) as [->|], (decide (j' = i)) as [->|]; try done.
    + rewrite Hb2 in Hj. injection Hj as <-. by destruct (Hnew _ _ n Hj').
    + rewrite Hb2 in Hj'. injection Hj' as <-. by destruct (Hnew _ _ n Hj); apply Hsym.
    + rewrite (bound_other i j P) in Hj by done. rewrite (bound_other i j' P) in Hj' by done. by eapply Hex.
Qed.
End registry.

(** ** Binding *)

Section bind.
Context `{Config}.
Implicit Types (s : ustate) (P : pstate) (S : rtsocket).

Lemma wp_in_ports {A} (m : M pstate A) (Q : A → ustate → Prop) s :
  wp m (λ a p, Q a (s <| up := p |>)) (up s) → wp (in_ports m) Q s.
Proof. apply (wp_zoom up (λ p s, s <| up := p |>)). Qed.
Lemma wp_in_fs {A} (m : M fstate A) (Q : A → ustate → Prop) s :
  wp m (λ a f, Q a (s <| uf := f |>)) (uf s) → wp (in_fs m) Q s.
Proof. apply (wp_zoom uf (λ f s, s <| uf := f |>)). Qed.
Lemma wp_lock_get (Q : () → pstate → Prop) P :
  port_lock P = false → Q () (P <| port_lock := true |>) → wp lock_get Q P.
Proof. intros Hl HQ. unfold lock_get. wp_run. rewrite Hl. by apply wp_modify. Qed.

Lemma reg_ok_lock P b : reg_ok P → reg_ok (P <| port_lock := b |>).
Proof. intros []. by split. Qed.
Lemma reg_load_run P i e (Q : udp_socket → pstate → Prop) :
  port_registry P !! i = Some e → Q e P → wp (reg_load i) Q P.
Proof. intros He HQ. unfold reg_load. wp_run. done. Qed.

(** Inserting again what was just deleted succeeds. *)
Lemma reinsert_run P P1 i x :
  reg_ok P → bound P i = Some x → reg_ok P1 → same_ports i P P1 → bound P1 i = None → (i < RT_UDP_SOCKETS)%nat →
  wp (port_hash_insert i x.1 x.2) (λ r P', r = 0 ∧ reg_ok P' ∧ same_ports i P1 P' ∧ bound P' i = Some x) P1.
Proof.
  intros Hok Hx Hok1 Hsame Hn Hi. eapply wp_mono; [|by apply insert_run].
  intros r P' [(-> & Hok' & Hs' & Hb & _)|(_ & _ & j & y & Hy & Hc)]; [by destruct x|].
  destruct (decide (j = i)) as [->|Hj]; [congruence|]. rewrite (bound_other i j P) in Hy by done.
  destruct x as [a p]. cbn in Hc. destruct Hj. symmetry. by eapply (ro_excl _ Hok).
Qed.

(** The part of [rt_udp_bind] behind the checks of its arguments. *)
Lemma bind_run s sock S x sin_addr sin_port addrlen :
  reg_ok (up s) → port_lock (up s) = false → socks (uf s) !! sock = Some S → 0 ≤ reg_index S < 64 →
  bound (up s) (Z.to_nat (reg_index S)) = Some x → inet_state S = TCP_CLOSE → SIZEOF_SOCKADDR_IN ≤ addrlen →
  Z.land sin_port (auto_port_mask (up s)) ≠ auto_port_start (up s) →
  let i := Z.to_nat (reg_index S) in
  let new := (sin_addr, u16 (if negb (sin_port =? 0) then sin_port else reg_index S + auto_port_start (up s))) in
  wp (rt_udp_bind sock sin_addr sin_port addrlen)
     (λ r s', reg_ok (up s') ∧ port_lock (up s') = false ∧ (∀ j, j ≠ i → bound (up s') j = bound (up s) j) ∧
        fkern (uf s') = fkern (uf s) ∧
        ((r = 0 ∧ bound (up s') i = Some new ∧ (∀ j y, j ≠ i → bound (up s) j = Some y → ¬ conflict new y) ∧
          socks (uf s') = <[sock := S <| inet_saddr := new.1 |> <| inet_sport := new.2 |>]> (socks (uf s))) ∨
         (r = - EADDRINUSE ∧ bound (up s') i = Some x ∧ socks (uf s') = socks (uf s) ∧
          ∃ j y, j ≠ i ∧ bound (up s) j = Some y ∧ conflict new y))) s.
Proof.
  intros Hok Hlk HS Hi Hx Hst Hal Hpt i new.
  assert (Hi64 : (i < RT_UDP_SOCKETS)%nat) by (unfold i, RT_UDP_SOCKETS; lia). fold i in Hx.
  unfold rt_udp_bind. do 2 (apply wp_bind, wp_in_ports, wp_gets).
  replace (addrlen <? SIZEOF_SOCKADDR_IN) with false by lia. apply Z.eqb_neq in Hpt. cbn [up upd]. rewrite Hpt. cbn [orb].
  apply wp_bind, wp_in_ports, wp_lock_get; [done|]. apply wp_bind, wp_in_fs. eapply wp_sock_load; [done|].
  replace (reg_index S <? 0) with false by lia. rewrite Hst. cbn [Z.eqb negb TCP_CLOSE Pos.eqb]. fold i. fold new.2. fold new.1.
  set (P0 := (up s) <| port_lock := true |>). assert (Hok0 : reg_ok P0) by (by apply reg_ok_lock).
  apply wp_bind, wp_in_ports. eapply wp_mono; [|by apply (del_run P0 i x)].
  intros _ P1 (Hok1 & Hs1 & Hb1 & e1 & He1 & Hex). cbn [up upd]. apply wp_bind, wp_in_ports.
  eapply wp_mono; [|by apply (insert_run P1 i new.1 new.2)].
  assert (Hoth : ∀ j, j ≠ i → bound P1 j = bound (up s) j) by (intros j Hj; by rewrite (bound_other i j P0)).
  intros r P2 [(-> & Hok2 & Hs2 & Hb2 & Hno)|(-> & -> & j & y & Hy & Hc)]; cbn [Z.eqb negb Z.opp EADDRINUSE].
  - pose proof Hb2 as (e2 & b2 & He2 & _ & Enew)%bound_Some. apply wp_bind, wp_in_ports. eapply reg_load_run; [exact He2|].
    apply wp_bind, wp_in_fs. eapply wp_sock_upd; [done|]. apply wp_bind, wp_in_ports. apply wp_modify. apply wp_ret.
    cbn [up upd uf socks fkern port_lock]. split_and!; [by apply reg_ok_lock|done| |done|left].
    + intros j Hj. transitivity (bound P2 j); [done|]. by rewrite (bound_other i j P1), Hoth.
    + split_and!; [done|exact Hb2| |injection Enew as E1 E2; rewrite <-E1, <-E2; done]. intros j y Hj Hy. apply (Hno j). by rewrite Hoth.
  - apply wp_bind, wp_in_ports. eapply reg_load_run; [exact He1|].
    apply wp_bind, wp_in_ports. replace (us_saddr e1) with x.1 by (by rewrite <-Hex). replace (us_sport e1) with x.2 by (by rewrite <-Hex).
    eapply wp_mono; [|by apply (reinsert_run P0 P1 i x)]. intros r P3 (-> & Hok3 & Hs3 & Hb3).
    apply wp_bind, wp_in_ports. apply wp_modify. apply wp_ret.
    cbn [up upd uf socks fkern port_lock]. split_and!; [by apply reg_ok_lock|done| |done|right].
    + intros j' Hj. transitivity (bound P3 j'); [done|]. by rewrite (bound_other i j' P1), Hoth.
    + assert (j ≠ i) by (intros ->; congruence). split_and!; [done|exact Hb3|done|]. exists j, y. by rewrite <-Hoth.
Qed.

(** C18: [rt_udp_bind] on the registry as a map from sockets to addresses.  A short address
    and a port of the automatic range are refused with [-EINVAL], also a socket that is
    connected, a socket that is being closed with [-EBADF]; nothing changes then.
    Otherwise the socket moves to the new address (an unused port of its own for port 0)
    exactly when no other socket is registered for the same port with the same or an
    unspecified address; else the result is [-EADDRINUSE], and the socket keeps its
    registration.  In every case the other sockets are untouched, the lock is free again,
    and no two sockets claim the same datagram. *)
Theorem rt_udp_bind_correct s sock S x sin_addr sin_port addrlen :
  reg_ok (up s) → port_lock (up s) = false → socks (uf s) !! sock = Some S →
  (0 ≤ reg_index S → reg_index S < 64 ∧ bound (up s) (Z.to_nat (reg_index S)) = Some x) →
  let i := Z.to_nat (reg_index S) in
  let new := (sin_addr, u16 (if negb (sin_port =? 0) then sin_port else reg_index S + auto_port_start (up s))) in
  wp (rt_udp_bind sock sin_addr sin_port addrlen)
     (λ r s', reg_ok (up s') ∧ port_lock (up s') = false ∧ (∀ j, j ≠ i → bound (up s') j = bound (up s) j) ∧
        fkern (uf s') = fkern (uf s) ∧
        if (addrlen <? SIZEOF_SOCKADDR_IN) || (Z.land sin_port (auto_port_mask (up s)) =? auto_port_start (up s))
        then r = - EINVAL ∧ s' = s
        else if reg_index S <? 0 then r = - EBADF ∧ s' = s
        else if negb (inet_state S =? TCP_CLOSE) then r = - EINVAL ∧ s' = s
        else (r = 0 ∧ bound (up s') i = Some new ∧ (∀ j y, j ≠ i → bound (up s) j = Some y → ¬ conflict new y) ∧
              socks (uf s') = <[sock := S <| inet_saddr := new.1 |> <| inet_sport := new.2 |>]> (socks (uf s))) ∨
             (r = - EADDRINUSE ∧ bound (up s') i = Some x ∧ socks (uf s') = socks (uf s) ∧
              ∃ j y, j ≠ i ∧ bound (up s) j = Some y ∧ conflict new y)) s.
Proof.
  intros Hok Hlk HS Hreg i new.
  destruct ((addrlen <? _) || _) eqn:Ea.
  { unfold rt_udp_bind. do 2 (apply wp_bind, wp_in_ports, wp_gets). cbn [up upd]. rewrite Ea. apply wp_ret. by destruct s as [[] []]. }
  apply orb_false_iff in Ea as [Eal Ept]. apply Z.ltb_ge in Eal. apply Z.eqb_neq in Ept.
  assert (Hearly : (reg_index S <? 0) || negb (inet_state S =? TCP_CLOSE) = true → ∀ Q : Z → ustate → Prop,
    Q (if reg_index S <? 0 then - EBADF else - EINVAL) s → wp (rt_udp_bind sock sin_addr sin_port addrlen) Q s).
  { intros Ebad Q HQ. unfold rt_udp_bind. do 2 (apply wp_bind, wp_in_ports, wp_gets). cbn [up upd].
    replace (addrlen <? SIZEOF_SOCKADDR_IN) with false by lia. apply Z.eqb_neq in Ept. rewrite Ept. cbn [orb].
    apply wp_bind, wp_in_ports, wp_lock_get; [done|]. apply wp_bind, wp_in_fs. eapply wp_sock_load; [done|].
    assert (Es : s = s <| up := (up s) <| port_lock := true |> <| port_lock := false |> |>).
    { destruct s as [? []]. unfold upd. cbn in *. by rewrite Hlk. }
    destruct (reg_index S <? 0); [|destruct (negb (inet_state S =? TCP_CLOSE)); [|done]];
      apply wp_bind, wp_in_ports, wp_modify, wp_ret; rewrite Es in HQ; by destruct s as [[] []]. }
  destruct (Z.ltb_spec (reg_index S) 0) as [Hneg|Hpos]; [by apply Hearly|].
  destruct (inet_state S =? TCP_CLOSE) eqn:Est; cbn [negb]; [|by apply Hearly].
  destruct (Hreg Hpos) as [Hlt Hx]. apply Z.eqb_eq in Est. by apply (bind_run s sock S x).
Qed.
End bind.

(** ** Finding the socket of a datagram *)

Section dest.
Context `{Config} (csum_tcpudp_nofold : Z → Z → Z → Z → Z → Z) (P : pstate).
Implicit Types (f : fstate) (x : rtskb).

(** The registered sockets exist. *)
Definition sockets_exist f : Prop :=
  ∀ i y, bound P i = Some y → ∃ e a, port_registry P !! i = Some e ∧ us_sock e = Some a ∧ is_Some (socks f !! a).
(** A packet with an IP and a UDP header, from a device [D]: destination address and
    port as the code looks them up (a broadcast counts as one for the device). *)
Definition udp_target f x (a p : Z) : Prop :=
  ∃ h ulen check d D, iph x = Some h ∧ (buf_read x (h_raw x + 4) 2 ≫= rd16) = Some ulen ∧
    (buf_read x (h_raw x + 6) 2 ≫= rd16) = Some check ∧ (buf_read x (h_raw x + 2) 2 ≫= rd16) = Some p ∧
    rtdev x = Some d ∧ devs (fkern f) !! d = Some D ∧
    a = (if iph_daddr h =? broadcast_ip D then local_ip D else iph_daddr h).
Definition udp_ready f x : Prop :=
  reg_ok P ∧ port_lock P = false ∧ sockets_exist f ∧ ∃ a p, udp_target f x a p.

Lemma udp_lookup_run f a p :
  reg_ok P → port_lock P = false → sockets_exist f →
  wp (rt_udp_v4_lookup P a p)
     (λ r f', match r with
              | None => f' = f ∧ ∀ i y, bound P i = Some y → ¬ conflict (a, p) y
              | Some so => ∃ S i e y, socks f !! so = Some S ∧ f' = with_ref so S f ∧
                  bound P i = Some y ∧ conflict (a, p) y ∧ port_registry P !! i = Some e ∧ us_sock e = Some so
              end) f.
Proof.
  intros Hok Hlk Hex. unfold rt_udp_v4_lookup. rewrite Hlk.
  destruct (search_run P a p Hok) as (r & Hr & Hcase). apply wp_bind. eapply wp_deref; [done|].
  destruct r as [i|]; [|by apply wp_ret]. destruct Hcase as (y & Hy & Hc).
  destruct (Hex i y Hy) as (e & so & He & Hso & S & HS). apply wp_bind. eapply wp_deref; [done|].
  apply wp_bind. eapply wp_deref; [done|]. apply wp_bind. eapply wp_sock_upd; [done|]. apply wp_ret.
  exists S, i, e, y. done.
Qed.

Lemma dest_socket_run f k x a p :
  skbs (fkern f) !! k = Some x → reg_ok P → port_lock P = false → sockets_exist f → udp_target f x a p →
  wp (rt_udp_dest_socket csum_tcpudp_nofold P k)
     (λ r f', ∃ x', marked x x' ∧ sk x' = r ∧
        match r with
        | None => f' = with_skb k x' f ∧ ∀ i y, bound P i = Some y → ¬ conflict (a, p) y
        | Some so => ∃ S i e y, socks f !! so = Some S ∧ f' = with_ref so S (with_skb k x' f) ∧
            bound P i = Some y ∧ conflict (a, p) y ∧ port_registry P !! i = Some e ∧ us_sock e = Some so
        end) f.
Proof.
  intros Hx Hok Hlk Hex (h & ulen & check & d & D & Hh & Hul & Hck & Hp & Hd & HD & Ha). unfold rt_udp_dest_socket.
  apply wp_bind, wp_in_fkern. eapply wp_skb_load; [done|]. do 4 (apply wp_bind; eapply wp_deref; [done|]).
  apply wp_bind, wp_in_fkern. eapply wp_skb_upd; [done|]. set (x1 := x <| ip_summed := _ |>).
  apply wp_bind, wp_in_fkern. eapply wp_skb_upd; [apply lookup_insert_eq|]. set (x2 := x1 <| csum := _ |>).
  apply wp_bind. eapply wp_deref; [done|]. apply wp_bind, wp_in_fkern. eapply wp_dev_load; [exact HD|].
  rewrite <-Ha. set (f2 := _ <| fkern := _ |>).
  assert (Ef2 : f2 = with_skb k x2 f) by (unfold f2, with_skb; cbn; by rewrite insert_insert_eq).
  rewrite Ef2. clear Ef2 f2. apply wp_bind. eapply wp_mono; [|by apply udp_lookup_run].
  intros r f3 Hr. apply wp_bind, wp_in_fkern.
  assert (Hx3 : skbs (fkern f3) !! k = Some x2).
  { destruct r as [so|]; [destruct Hr as (S & i & e & y & _ & -> & _)|destruct Hr as [-> _]]; apply lookup_insert_eq. }
  eapply wp_skb_upd; [done|]. apply wp_ret. exists (x2 <| sk := r |>). split; [done|]. split; [done|].
  destruct r as [so|].
  - destruct Hr as (S & i & e & y & HS & -> & Hb). exists S, i, e, y. split; [done|]. split; [|done].
    unfold with_ref, with_skb. cbn. by rewrite insert_insert_eq.
  - destruct Hr as [-> Hno]. split; [|done]. unfold with_skb. cbn. by rewrite insert_insert_eq.
Qed.

(** UDP keeps the promise reassembly relies on. *)
#[export] Instance udp_dest_socket : DestSocket (rt_udp_dest_socket csum_tcpudp_nofold P) udp_ready.
Proof.
  intros k f x Hx (Hok & Hlk & Hex & a & p & Ht). eapply wp_mono; [|by eapply dest_socket_run].
  intros r f' (x' & Hm & _ & Hr). exists x'. split; [done|].
  destruct r as [so|]; [destruct Hr as (S & _ & _ & _ & HS & -> & _); eauto|by destruct Hr].
Qed.

(** a datagram is delivered to the one socket that is registered for its port with
    its destination address or with the unspecified address, with a reference on that
    socket, and to none exactly when no socket is; nothing of the packet changes but the
    socket and the state of its checksum. *)
Theorem rt_udp_dest_socket_correct f k x a p :
  skbs (fkern f) !! k = Some x → reg_ok P → port_lock P = false → sockets_exist f → udp_target f x a p → a ≠ INADDR_ANY →
  wp (rt_udp_dest_socket csum_tcpudp_nofold P k)
     (λ r f', ∃ x', marked x x' ∧ sk x' = r ∧
        match r with
        | None => f' = with_skb k x' f ∧ ∀ i y, bound P i = Some y → y.2 = p → y.1 ≠ a ∧ y.1 ≠ INADDR_ANY
        | Some so => ∃ S i e, socks f !! so = Some S ∧ f' = with_ref so S (with_skb k x' f) ∧
            port_registry P !! i = Some e ∧ us_sock e = Some so ∧
            ∀ j, (∃ y, bound P j = Some y ∧ y.2 = p ∧ (y.1 = a ∨ y.1 = INADDR_ANY)) ↔ j = i
        end) f.
Proof.
  intros Hx Hok Hlk Hex Ht Ha. eapply wp_mono; [|by eapply dest_socket_run].
  intros r f' (x' & Hm & Hs & Hr). exists x'. split; [done|]. split; [done|]. destruct r as [so|].
  - destruct Hr as (S & i & e & y & HS & -> & Hy & [Hp Hc] & He & Hso). exists S, i, e. split_and!; try done.
    intros j. split; [|intros ->; exists y; cbn in *; naive_solver].
    intros (z & Hz & Hzp & Hza). eapply (ro_excl _ Hok); [exact Hz|exact Hy|]. split; cbn in *; [congruence|].
    destruct Hza as [->| ->], Hc as [?|[->| <-]]; naive_solver.
  - destruct Hr as [-> Hno]. split; [done|]. intros i y Hy Hyp. split; intros E; apply (Hno i y Hy); split; cbn; auto.
Qed.
End dest.
