(* ===== verification/UdpSend.v ===== *)
(** * UDP: sending and receiving data

    The source of a datagram ([rt_udp_getfrag]) fulfils what IP output asks of it, so
    that a sent datagram arrives on the wire as UDP header and data of the caller; the
    receiving call copies a datagram from its buffers to the memory of the caller. *)
From S2P Require Import Prelude State RtskbQueue Rtskb RtskbData Rtdev Eth Iovec Route IpFragment Socket IpOutput Udp UdpOps.

(** ** The source of the data *)

Section getfrag.
Context `{Config} (csum_partial : list Z → Z → Z) (csum_tcpudp_magic : Z → Z → Z → Z → Z → Z).
(** The fake header as [rt_udp_sendmsg] sets it up, and the data its vector covers. *)
Context (u0 : udpfakehdr) (bytes : list Z).
Implicit Types (u : udpfakehdr) (x y : rtskb).

(** The checksum of the data, and the header with all fields: the checksum covers the pseudo
    header, the header and the data, and is never 0. *)
Definition data_sum : Z :=
  default 0 (csum_iov csum_partial (ufh_iov u0) (ufh_mem u0) (ufh_wcheck u0)).
Definition full_udp : udpfakehdr :=
  let u := u0 <| ufh_wcheck := csum_partial (udp_header u0) data_sum |> in
  let c := csum_tcpudp_magic (ufh_saddr u0) (ufh_daddr u0) (ntohs (uh_len u0)) IPPROTO_UDP (ufh_wcheck u) in
  u <| uh_check := if c =? 0 then 65535 else c |>.
(** The datagram. *)
Definition datagram : list Z := udp_header full_udp ++ bytes.

(** The state after [o] bytes. *)
Definition udp_at (o : Z) u : Prop :=
  if o =? 0 then u = u0
  else 8 ≤ o ∧ iov_addrs (ufh_iov u) = drop (Z.to_nat (o - 8)) (iov_addrs (ufh_iov u0)) ∧
       Forall (λ v, 0 ≤ iov_len v < 2 ^ 31) (ufh_iov u) ∧ ufh_mem u = ufh_mem u0.

Lemma csum_iov_ok iov m w : iov_ok iov m → is_Some (csum_iov csum_partial iov m w).
Proof.
  revert w. induction iov as [|v iov IH]; intros w Hok; [by eexists|]. pose proof (iov_ok_cons _ _ _ Hok) as [Hv Hok'].
  cbn [csum_iov]. rewrite load_bytes_all.
  destruct (load_all_Some (range (iov_base v) (Z.to_nat (iov_len v))) m) as (b & -> & _); [|by apply IH].
  intros a Ha. apply (proj2 Hok). rewrite iov_addrs_cons. set_solver.
Qed.
Lemma load_all_length addrs m l : load_all addrs m = Some l → length l = length addrs.
Proof.
  revert l. unfold load_all. induction addrs as [|a addrs IH]; intros l; cbn; [by intros [= <-]|].
  destruct (m !! a); cbn; [|done]. destruct (mapM _ addrs) as [l'|]; cbn; [|done]. intros [= <-]. cbn. by rewrite (IH l').
Qed.
Lemma load_all_slice addrs m l n o :
  load_all addrs m = Some l → load_all (take n (drop o addrs)) m = Some (take n (drop o l)).
Proof.
  intros Hl. pose proof (load_all_length _ _ _ Hl) as Hlen.
  assert (Hsplit : ∀ (a1 a2 l1 l2 : list Z), length a1 = length l1 → load_all (a1 ++ a2) m = Some (l1 ++ l2) →
    load_all a1 m = Some l1 ∧ load_all a2 m = Some l2).
  { intros a1 a2 l1 l2 E. rewrite load_all_app. destruct (load_all a1 m) as [k1|] eqn:E1; cbn; [|done].
    destruct (load_all a2 m) as [k2|] eqn:E2; cbn; [|done]. intros [= Ek].
    apply app_inj_1 in Ek as [-> ->]; [done|]. rewrite (load_all_length _ _ _ E1). congruence. }
  rewrite <-(take_drop o addrs), <-(take_drop o l) in Hl. apply Hsplit in Hl as [_ Hl]; [|rewrite !length_take; lia].
  rewrite <-(take_drop n (drop o addrs)), <-(take_drop n (drop o l)) in Hl. apply Hsplit in Hl as [Hl _]; [done|].
  rewrite !length_take, !length_drop. lia.
Qed.

Lemma length_udp_header u : length (udp_header u) = 8%nat.
Proof. done. Qed.

(** Two writes behind the IP header. *)
Lemma splice_two (p h b : list Z) :
  length h = 8%nat → length p = (28 + length b)%nat →
  splice 20 h (splice 28 b p) = take 20 p ++ h ++ b.
Proof.
  intros Hh Hp. rewrite <-(take_drop 20 p) at 1. rewrite <-(take_drop 8 (drop 20 p)), drop_drop. cbn [Nat.add].
  assert (L1 : length (take 20 p) = 20%nat) by (rewrite length_take; lia).
  assert (L2 : length (take 8 (drop 20 p)) = 8%nat) by (rewrite length_take, length_drop; lia).
  rewrite app_assoc. replace 28%nat with (length (take 20 p ++ take 8 (drop 20 p))) at 1 by (rewrite length_app; lia).
  rewrite <-(app_nil_r (drop 28 p)), splice_mid by (rewrite length_drop; lia). rewrite app_nil_r, <-app_assoc.
  replace 20%nat with (length (take 20 p)) at 1 by lia. rewrite splice_mid by lia. done.
Qed.

Lemma udp_getfrag_spec :
  iov_ok (ufh_iov u0) (ufh_mem u0) → load_all (iov_addrs (ufh_iov u0)) (ufh_mem u0) = Some bytes →
  Z.of_nat (length bytes) < 65536 →
  getfrag_spec (rt_udp_getfrag csum_partial csum_tcpudp_magic) datagram udp_at.
Proof.
  intros Hok Hload Hlen s a x offset n Hx Hw Hl Hn Ho H8 Hon Hat.
  pose proof (load_all_length _ _ _ Hload) as Hla. unfold datagram in Hon |- *. rewrite length_app, length_udp_header in Hon.
  pose proof (length_payload _ Hw) as Hlp. unfold rt_udp_getfrag. apply wp_bind, wp_gets.
  unfold udp_at in Hat.
  destruct (Z.eqb_spec offset 0) as [->|Hne].
  - specialize (H8 eq_refl). rewrite Hat. destruct (csum_iov_ok _ _ (ufh_wcheck u0) Hok) as [w Hw0].
    apply wp_bind. eapply wp_deref; [exact Hw0|].
    rewrite s32_small by (change UDPHDR_LEN with 8; lia). change UDPHDR_LEN with 8.
    pose proof (fromkernel_run (ufh_iov u0) (n - 8) (ufh_mem u0) Hok ltac:(lia)) as Hfk. cbn zeta in Hfk.
    rewrite (proj2 (Nat.leb_le _ _)) in Hfk by lia. destruct Hfk as (b & iov' & Hfk & Hb & Hai & Hfi).
    apply wp_bind. eapply wp_deref; [exact Hfk|]. cbn [fst snd].
    assert (Eb : b = take (Z.to_nat (n - 8)) bytes).
    { pose proof (load_all_slice _ _ _ (Z.to_nat (n - 8)) 0 Hload) as E. rewrite !drop_0 in E. congruence. }
    assert (Lb : length b = Z.to_nat (n - 8)) by (rewrite Eb, length_take; lia).
    apply wp_bind, wp_in_okern. eapply (wp_write_at a x 28); [done|done|lia|lia|]. intros x1 F1 Hw1 Hp1.
    apply wp_bind, wp_modify. apply wp_bind, wp_in_okern. cbn [okern upd]. pose proof F1 as [E1 _].
    assert (Hd1 : data x1 = data x ∧ len x1 = len x) by (by rewrite E1). destruct Hd1 as [Hd1 Hl1].
    set (u := _ <| uh_check := _ |>).
    assert (Eh : udp_header u = udp_header full_udp).
    { unfold u, full_udp, data_sum. rewrite Hw0. done. }
    rewrite Eh. eapply (wp_write_payload a x1 20); [done|rewrite length_udp_header; lia|lia|]. intros y F2 Hwy Hpy.
    apply wp_ret. cbn [okern upd ofrag rt_ip_id_count]. split_and!; [done|done| |].
    + unfold udp_at. rewrite Z.add_0_l. replace (n =? 0) with false by lia. split_and!; [lia|exact Hai|exact Hfi|done].
    + exists y. split; [done|]. split; [by eapply same_frame_trans|]. split; [done|]. rewrite Hpy, Hp1.
      rewrite splice_two by (done || lia). f_equal. change (Z.to_nat 0) with 0%nat. rewrite drop_0.
      rewrite take_app, length_udp_header, take_ge by (rewrite length_udp_header; lia). f_equal. rewrite Eb. f_equal. lia.
  - destruct Hat as (Ho8 & Hai & Hfi & Hmem). rewrite s32_small by lia. rewrite Hmem.
    assert (Hok1 : iov_ok (ufh_iov (ofrag s)) (ufh_mem u0)).
    { split; [done|]. intros i Hi. apply (proj2 Hok). rewrite Hai in Hi. by eapply subseteq_drop. }
    pose proof (fromkernel_run (ufh_iov (ofrag s)) n (ufh_mem u0) Hok1 ltac:(lia)) as Hfk. cbn zeta in Hfk.
    rewrite Hai, length_drop in Hfk. rewrite (proj2 (Nat.leb_le _ _)) in Hfk by lia.
    destruct Hfk as (b & iov' & Hfk & Hb & Hai' & Hfi').
    rewrite (load_all_slice _ _ _ _ _ Hload) in Hb. injection Hb as Eb.
    assert (Lb : length b = Z.to_nat n) by (rewrite <-Eb, length_take, length_drop; lia).
    apply wp_bind. eapply wp_deref; [exact Hfk|]. apply wp_bind, wp_in_okern.
    eapply (wp_write_at a x 20); [done|done|cbn [fst]; lia|lia|]. intros y F Hwy Hpy. apply wp_bind, wp_modify, wp_ret.
    cbn [okern upd ofrag rt_ip_id_count fst snd] in Hpy |- *. split_and!; [done|done| |].
    + unfold udp_at. replace (offset + n =? 0) with false by lia. split_and!; [lia| |exact Hfi'|exact Hmem].
      change (iov_addrs iov' = drop (Z.to_nat (offset + n - 8)) (iov_addrs (ufh_iov u0))). rewrite Hai', drop_drop. f_equal. lia.
    + exists y. split; [done|]. split; [done|]. split; [done|]. rewrite Hpy. unfold splice.
      rewrite (drop_ge (payload x)) by lia. rewrite app_nil_r. f_equal.
      rewrite drop_app, drop_ge, app_nil_l by (rewrite length_udp_header; lia).
      rewrite <-Eb, length_udp_header. do 2 f_equal. lia.
Qed.
End getfrag.

(** ** Sending *)

Section send.
Context `{Config} (csum_partial : list Z → Z → Z) (csum_tcpudp_magic : Z → Z → Z → Z → Z → Z).
Context (ip_fast_csum : list Z → Z).
Context (hard_header : nat → option (nat → Z → list Z → list Z → Z → M kstate Z)).
Context (get_mtu : nat → Z → M kstate Z) (drv_xmit : nat → nat → M kstate Z).
Implicit Types (s : ustate) (S : rtsocket).

Lemma wp_in_ukern {A} (m : M kstate A) (Q : A → ustate → Prop) s :
  wp m (λ a k, Q a (s <| uf := (uf s) <| fkern := k |> |>)) (fkern (uf s)) → wp (in_ukern m) Q s.
Proof. intros Hm. apply wp_in_fs, wp_in_fkern. exact Hm. Qed.
Lemma wp_in_output {W A} (u : W) (m : M (ostate W) A) (Q : A → ustate → Prop) s :
  wp m (λ a o, Q a (s <| uf := (uf s) <| fkern := okern o |> |> <| u_ip_id := rt_ip_id_count o |>))
     (mk_ostate (fkern (uf s)) (u_ip_id s) u) →
  wp (in_output u m) Q s.
Proof. unfold wp, in_output. by destruct (m _) as [[a o]|]. Qed.

(** The destination: the one given, or that of a connected socket. *)
Definition destination S (msg_name : option (Z * Z * Z)) (daddr dport : Z) : Prop :=
  match msg_name with
  | Some (family, a, p) => (family = AF_INET ∨ family = AF_UNSPEC) ∧ a = daddr ∧ p = dport
  | None => inet_state S = TCP_ESTABLISHED ∧ inet_daddr S = daddr ∧ inet_dport S = dport
  end.
(** The header [rt_udp_sendmsg] starts from. *)
Definition sent_header s S D iov n daddr dport : udpfakehdr :=
  mk_ufh (inet_sport S) dport (ntohs (n + 8)) 0 daddr
    (if negb (inet_saddr S =? INADDR_ANY) then inet_saddr S else local_ip D) iov 0 (um s).

(** The choice of the destination, with the lock taken. *)
Lemma destination_run s sock S msg_name daddr dport (Q : Z + Z * Z → ustate → Prop) :
  socks (uf s) !! sock = Some S → port_lock (up s) = false → destination S msg_name daddr dport →
  Q (inr (daddr, dport)) (s <| up := (up s) <| port_lock := true |> |>) →
  wp (match msg_name with
      | Some (family, addr, port) =>
          if negb (family =? AF_INET) && negb (family =? AF_UNSPEC) then mret (inl (- EINVAL))
          else in_ports lock_get;; mret (inr (addr, port))
      | None =>
          in_ports lock_get;;
          S ← in_fs (sock_load sock);
          if negb (inet_state S =? TCP_ESTABLISHED) then mret (inl (- ENOTCONN))
          else mret (inr (inet_daddr S, inet_dport S))
      end) Q s.
Proof.
  intros HS Hlk Hd HQ. destruct msg_name as [[[fam a] p]|]; cbn in Hd.
  - destruct Hd as (Hf & -> & ->). replace (negb (fam =? AF_INET) && negb (fam =? AF_UNSPEC)) with false
      by (destruct Hf as [->| ->]; done).
    apply wp_bind, wp_in_ports, wp_lock_get; [done|]. by apply wp_ret.
  - destruct Hd as (Hst & <- & <-). apply wp_bind, wp_in_ports, wp_lock_get; [done|].
    apply wp_bind, wp_in_fs. eapply wp_sock_load; [exact HS|]. rewrite Hst. cbn. apply wp_ret. by destruct s.
Qed.

(** C6: [rt_udp_sendmsg] puts on the wire, through IP output and the link header of the
    device, exactly the UDP header (ports, length, checksum over pseudo header, header
    and data) followed by the bytes the caller's buffers hold, as one packet or in
    fragments, and returns the number of bytes, or [-ENOBUFS] if the socket's pool does
    not suffice.  The lock and the reference on the route's device are released. *)
Theorem rt_udp_sendmsg_correct s sock S iov bytes msg_name msg_flags daddr dport rt d D lh C l mtu :
  let k := fkern (uf s) in
  let R := (uroute s) <| kern := k |> in
  let D1 := D <| refcount := refcount D + 1 |> in
  let f := Z.to_nat (Z.land (mtu - 20) (Z.lnot 7)) in
  let msg := datagram csum_partial csum_tcpudp_magic (sent_header s S D iov (Z.of_nat (length bytes)) daddr dport) bytes in
  port_lock (up s) = false → socks (uf s) !! sock = Some S → destination S msg_name daddr dport →
  Z.lor daddr dport ≠ 0 → msg_flags = 0 ∨ msg_flags = MSG_DONTWAIT →
  iov_ok iov (um s) → load_all (iov_addrs iov) (um s) = Some bytes → Z.of_nat (length bytes) ≤ 65507 →
  rt_ip_route_output daddr (inet_saddr S) R = Some ((0, Some rt), R <| kern := ref_taken k d D |>) →
  dest_rtdev rt = Some d → devs k !! d = Some D →
  header_spec hard_header rt d D1 lh → driver_spec drv_xmit d D1 →
  (∀ k, get_mtu d (so_priority S) k = Some (mtu, k)) →
  28 ≤ mtu → 0 ≤ hh_len D → mtu + hh_len D + 15 ≤ SKB_DATA_ALIGN RTSKB_SIZE < 2 ^ 32 →
  pools_inv k C → C !! skb_pool S = Some l → roomy D k l mtu →
  wp (rt_udp_sendmsg csum_partial csum_tcpudp_magic ip_fast_csum hard_header get_mtu drv_xmit sock iov msg_name msg_flags)
     (λ ret s', ret = (if enough msg f mtu l then Z.of_nat (length bytes) else - ENOBUFS) ∧ port_lock (up s') = false ∧
        devs (fkern (uf s')) = devs k ∧
        xmit_log (fkern (uf s')) = xmit_log k ++ message_log ip_fast_csum msg S rt d D1 lh f (u_ip_id s) mtu l ∧
        pools_inv (fkern (uf s')) (<[skb_pool S := drop (length (message_log ip_fast_csum msg S rt d D1 lh f (u_ip_id s) mtu l)) l]> C)) s.
Proof.
  intros k R D1 f msg Hlk HS Hdst Hnz Hfl Hok Hload Hlen Hro Hrt HD Hlh Hdrv Hmt Hmtu Hhh Hsz Hinv Hl Hroom.
  pose proof (load_all_length _ _ _ Hload) as Hla.
  unfold rt_udp_sendmsg. rewrite (rt_iovec_len_addrs iov) by (apply Hok || lia). rewrite <-Hla.
  change IPHDR_LEN with 20. change UDPHDR_LEN with 8.
  replace (65535 - 20 - 8 <? Z.of_nat (length bytes)) with false by lia.
  replace (negb (Z.land msg_flags MSG_OOB =? 0)) with false by (destruct Hfl as [->| ->]; done).
  replace (negb (Z.land msg_flags (Z.lnot (Z.lor MSG_DONTROUTE MSG_DONTWAIT)) =? 0)) with false
    by (destruct Hfl as [->| ->]; done).
  apply wp_bind. eapply destination_run; [done..|]. apply wp_bind, wp_in_fs. eapply wp_sock_load; [done|].
  apply wp_bind, wp_in_ports, wp_modify. apply Z.eqb_neq in Hnz as ->. cbn [uf upd].
  apply wp_bind. unfold in_route. apply wp_zoom. cbn [uf uroute upd]. fold k R.
  eapply wp_intro; [exact Hro|]. cbn [fst snd Z.eqb negb]. apply wp_bind. eapply wp_deref; [done|].
  apply wp_bind. eapply wp_deref; [done|]. apply wp_bind, wp_in_ukern. eapply wp_dev_load; [apply lookup_insert_eq|].
  apply wp_bind, wp_gets. apply wp_bind, wp_in_fs. eapply wp_sock_load; [done|].
  cbn [um upd local_ip]. fold (sent_header s S D iov (Z.of_nat (length bytes)) daddr dport).
  set (u0 := sent_header _ _ _ _ _ _ _).
  assert (Hml : Z.of_nat (length bytes) + 8 = Z.of_nat (length msg)).
  { unfold msg, datagram. rewrite length_app, length_udp_header. lia. }
  rewrite Hml. apply wp_bind, wp_in_output. cbn [uf fkern upd u_ip_id].
  assert (Hinv1 : pools_inv (ref_taken k d D) C).
  { destruct Hinv. by split. }
  eapply wp_mono; [|eapply (build_xmit_run ip_fast_csum hard_header get_mtu drv_xmit _ msg (udp_at u0) S rt d D1 lh f
    (u_ip_id s) (mk_ostate (ref_taken k d D) (u_ip_id s) u0) C l mtu)]; try done; try lia.
  - intros err o (-> & Hdo & Hid & Hlog & Hpo). apply wp_bind, wp_in_ukern. cbn [uf fkern upd okern] in *.
    unfold rtdev_dereference. eapply wp_dev_upd; [rewrite Hdo; apply lookup_insert_eq|]. apply wp_ret.
    cbn [uf fkern upd devs xmit_log up port_lock]. rewrite Hdo, Hlog. split_and!; [by destruct (enough msg f mtu l)|done| |done|].
    + cbn [ref_taken devs upd]. rewrite insert_insert_eq. apply insert_id. rewrite HD. f_equal. destruct D. unfold upd. cbn. f_equal. lia.
    + destruct Hpo. by split.
  - apply udp_getfrag_spec; [done|exact Hload|lia].
  - apply lookup_insert_eq.
  - unfold f. rewrite Z2Nat.id; [done|]. apply Z.land_nonneg. lia.
Qed.
End send.

(** ** Receiving *)

Section recv.
Context `{Config}.
Implicit Types (s : ustate) (h : gmap nat rtskb) (c : list nat).

(** Only packets of [c] changed, and neither their links nor their pools. *)
Definition same_links c h h' : Prop :=
  ∀ a, match h !! a, h' !! a with
       | Some x, Some y => (next y, chain_end y, pool y, cap_flags y) = (next x, chain_end x, pool x, cap_flags x) ∧
                           (a ∉ c → y = x)
       | None, None => True
       | _, _ => False
       end.
Lemma same_links_refl c h : same_links c h h.
Proof. intros a. by destruct (h !! a). Qed.
Lemma same_links_trans c h1 h2 h3 : same_links c h1 h2 → same_links c h2 h3 → same_links c h1 h3.
Proof.
  intros H1 H2 a. specialize (H1 a). specialize (H2 a).
  destruct (h1 !! a), (h2 !! a), (h3 !! a); try done. destruct H1 as [E1 F1], H2 as [E2 F2].
  split; [congruence|]. intros Ha. rewrite F2, F1; done.
Qed.
Lemma same_links_mono c c' h h' : same_links c h h' → c ⊆ c' → same_links c' h h'.
Proof.
  intros H1 Hc a. specialize (H1 a). destruct (h !! a), (h' !! a); try done. destruct H1 as [E F].
  split; [done|]. intros Ha. apply F. set_solver.
Qed.
Lemma same_links_insert a x y h :
  h !! a = Some x → (next y, chain_end y, pool y, cap_flags y) = (next x, chain_end x, pool x, cap_flags x) →
  same_links [a] h (<[a := y]> h).
Proof.
  intros Hx E b. destruct (decide (a = b)) as [<-|Hab].
  - rewrite Hx, lookup_insert_eq. split; [done|set_solver].
  - rewrite lookup_insert_ne by done. by destruct (h !! b).
Qed.
Lemma same_links_lseg c h h' p l r : same_links c h h' → lseg next h p l r → lseg next h' p l r.
Proof.
  intros Hs Hl. eapply lseg_frame; [exact Hl|]. intros a x Ha Hx. specialize (Hs a). rewrite Hx in Hs.
  destruct (h' !! a) as [y|]; [|done]. exists y. split; [done|]. destruct Hs as [E _]. congruence.
Qed.

(** The state with other buffers and another memory of the caller. *)
Definition copied_state s h m : ustate :=
  s <| uf := (uf s) <| fkern := (fkern (uf s)) <| skbs := h |> |> |> <| um := m |>.

Lemma wp_in_mem {A} (g : umem → option (A * umem)) a m (Q : A → ustate → Prop) s :
  g (um s) = Some (a, m) → Q a (s <| um := m |>) → wp (in_mem g) Q s.
Proof. intros E HQ. unfold wp, in_mem. by rewrite E. Qed.

Definition good_packets h c : Prop := ∀ a x, a ∈ c → h !! a = Some x → wf_rtskb x ∧ len x < 2 ^ 31.

(** Two stores one after the other. *)
Lemma store_two (addrs B T : list Z) n m :
  (length B ≤ length addrs)%nat → (n ≤ length T)%nat →
  store_all (zip (take n (drop (length B) addrs)) (take n T)) (store_all (zip (take (length B) addrs) B) m)
  = store_all (zip (take (length B + n) addrs) (take (length B + n) (B ++ T))) m.
Proof.
  intros Ha Hn. unfold store_all. rewrite <-foldl_app, take_app_add, <-(take_take_drop addrs).
  rewrite zip_with_app; [done|]. rewrite length_take. lia.
Qed.

(** One round of the loop. *)
Lemma recv_round fuel a x dl copied room iov s (Q : Z * Z * bool → ustate → Prop) :
  let h := skbs (fkern (uf s)) in
  let B := take (Z.to_nat dl) (payload x) in
  let y := rtskb_trim dl x in
  h !! a = Some x → wf_rtskb x → len x < 2 ^ 31 → 0 ≤ dl < 2 ^ 32 → 0 ≤ copied ≤ room → room < 2 ^ 31 →
  iov_ok iov (um s) → Z.of_nat (length (iov_addrs iov)) = room - copied →
  (room - copied < Z.of_nat (length B) →
   Q (room, dl - Z.of_nat (length B), true)
     (copied_state s (<[a := y]> h) (store_all (zip (iov_addrs iov) (take (Z.to_nat (room - copied)) B)) (um s)))) →
  (Z.of_nat (length B) ≤ room - copied → ∀ iov',
   let m' := store_all (zip (take (length B) (iov_addrs iov)) B) (um s) in
   iov_addrs iov' = drop (length B) (iov_addrs iov) → iov_ok iov' m' →
   wp (match next x with
       | None => mret (copied + Z.of_nat (length B), dl - Z.of_nat (length B), false)
       | Some b => recv_loop fuel b (dl - Z.of_nat (length B)) (copied + Z.of_nat (length B)) room iov'
       end) Q (copied_state s (<[a := y]> h) m')) →
  wp (recv_loop (S fuel) a dl copied room iov) Q s.
Proof.
  intros h B y Hx Hwf Hlx Hdl Hcp Hroom Hok Hiov Hfull Hfit. cbn [recv_loop].
  apply wp_bind, wp_in_ukern. rewrite u32_id by (unfold is_u32; lia). eapply wp_skb_upd; [done|]. fold y.
  destruct (trim_ok x dl Hwf ltac:(lia)) as (Hwy & Hpy & Hly). fold y in Hwy, Hpy, Hly. fold B in Hpy.
  pose proof (length_payload _ Hwy) as Hlb. rewrite Hpy in Hlb. pose proof (wf_len _ Hwf) as Hl0.
  apply wp_bind, wp_in_ukern. eapply wp_skb_load; [apply lookup_insert_eq|].
  apply wp_bind, wp_in_ukern. eapply (wp_read_payload a y 0); [apply lookup_insert_eq|done|lia|lia|lia|].
  rewrite drop_0, take_ge by (rewrite Hpy; lia). rewrite Hpy, <-Hlb.
  unfold u64. rewrite !Z.mod_small by lia.
  assert (Hny : next y = next x) by (unfold y, rtskb_trim; by destruct (dl <? len x)).
  match goal with |- wp _ _ ?t => assert (Et : t = s <| uf := (uf s) <| fkern := (fkern (uf s)) <| skbs := <[a := y]> h |> |> |>) by done end.
  rewrite Et. clear Et.
  destruct (Z.ltb_spec room (copied + Z.of_nat (length B))) as [Hlt|Hge].
  - set (z := room - copied).
    assert (Hs : s32 (Z.of_nat (length B) - (copied + Z.of_nat (length B) - room)) = z) by (rewrite s32_small; lia).
    rewrite Hs. pose proof (tokernel_run iov B z (um s) Hok ltac:(lia) ltac:(lia)) as Ht. cbn zeta in Ht.
    rewrite (proj2 (Nat.leb_le _ _)) in Ht by lia. destruct Ht as (iov' & Ht & _ & _).
    apply wp_bind. eapply wp_in_mem; [exact Ht|]. apply wp_ret. rewrite (take_ge (iov_addrs iov)) by lia. apply Hfull. lia.
  - rewrite s32_small by lia.
    pose proof (tokernel_run iov B (Z.of_nat (length B)) (um s) Hok ltac:(lia) ltac:(lia)) as Ht. cbn zeta in Ht.
    rewrite Nat2Z.id, (take_ge B) in Ht by lia. rewrite (proj2 (Nat.leb_le _ _)) in Ht by lia.
    destruct Ht as (iov' & Ht & Ha' & Hf'). apply wp_bind. eapply wp_in_mem; [exact Ht|]. rewrite Hny.
    apply (Hfit ltac:(lia) iov' Ha'). split; [done|]. intros i Hi. apply store_all_dom, (proj2 Hok). rewrite Ha' in Hi.
    by eapply subseteq_drop.
Qed.

Lemma recv_loop_run c : ∀ a fuel dl copied room iov s,
  lseg next (skbs (fkern (uf s))) (Some a) (a :: c) None → NoDup (a :: c) → (length (a :: c) ≤ fuel)%nat →
  good_packets (skbs (fkern (uf s))) (a :: c) → 0 ≤ dl < 2 ^ 32 → 0 ≤ copied ≤ room → room < 2 ^ 31 →
  iov_ok iov (um s) → Z.of_nat (length (iov_addrs iov)) = room - copied →
  let T := take (Z.to_nat dl) (chain_bytes (skbs (fkern (uf s))) (a :: c)) in
  let n := Nat.min (Z.to_nat (room - copied)) (length T) in
  wp (recv_loop fuel a dl copied room iov)
     (λ r s', ∃ h dl' tr, r = (copied + Z.of_nat n, dl', tr) ∧ tr || (0 <? dl') = (Z.of_nat n <? dl) ∧
        same_links (a :: c) (skbs (fkern (uf s))) h ∧
        s' = copied_state s h (store_all (zip (take n (iov_addrs iov)) (take n T)) (um s))) s.
Proof.
  induction c as [|b c IH]; intros a fuel dl copied room iov s Hseg Hnd Hfuel Hgood Hdl Hcp Hroom Hok Hiov T n.
  all: destruct fuel as [|fuel]; [cbn in Hfuel; lia|].
  all: pose proof Hseg as (_ & x & Hx & Hnext); destruct (Hgood a x) as [Hwf Hlx]; [set_solver|done|].
  all: assert (Hln : same_links [a] (skbs (fkern (uf s))) (<[a := rtskb_trim dl x]> (skbs (fkern (uf s)))))
         by (eapply same_links_insert; [done|unfold rtskb_trim; by destruct (dl <? len x)]).
  all: eapply recv_round; try done; set (B := take (Z.to_nat dl) (payload x)).
  - assert (ET : T = B) by (unfold T; cbn; rewrite Hx, app_nil_r; done).
    intros Hfull. assert (En : n = Z.to_nat (room - copied)) by (unfold n; rewrite ET; lia).
    assert (Hlb : (length B ≤ Z.to_nat dl)%nat) by (unfold B; rewrite length_take; lia).
    eexists _, _, _. split; [do 2 f_equal; lia|]. split; [cbn; lia|]. split; [done|].
    by rewrite En, ET, (take_ge (iov_addrs iov)) by lia.
  - assert (ET : T = B) by (unfold T; cbn; rewrite Hx, app_nil_r; done).
    intros Hfit iov' m' Ha' Hok'. rewrite Hnext. apply wp_ret. assert (En : n = length B) by (unfold n; rewrite ET; lia).
    eexists _, _, _. split; [rewrite En; done|]. split; [cbn; lia|]. split; [done|]. by rewrite En, ET, (take_ge B) by lia.
  - assert (ET : ∃ T', T = B ++ T').
    { unfold T. cbn [chain_bytes]. rewrite Hx, take_app. eauto. }
    destruct ET as [T' ET]. intros Hfull.
    assert (En : n = Z.to_nat (room - copied)) by (unfold n; rewrite ET, length_app; lia).
    assert (Hlb : (length B ≤ Z.to_nat dl)%nat) by (unfold B; rewrite length_take; lia).
    eexists _, _, _. split; [do 2 f_equal; lia|]. split; [cbn; lia|].
    split; [eapply same_links_mono; [done|set_solver]|].
    by rewrite En, ET, (take_ge (iov_addrs iov)), take_app_le by lia.
  - intros Hfit iov' m' Ha' Hok'. destruct Hnext as (Hnb & Hseg'). rewrite Hnb.
    apply NoDup_cons in Hnd as [Hac Hnd].
    set (T' := take (Z.to_nat (dl - Z.of_nat (length B))) (chain_bytes (skbs (fkern (uf s))) (b :: c))).
    assert (ET : T = B ++ T').
    { unfold T, T'. cbn [chain_bytes]. rewrite Hx, take_app. do 2 f_equal. unfold B. rewrite length_take. lia. }
    assert (Hlb : (length B ≤ Z.to_nat dl)%nat) by (unfold B; rewrite length_take; lia).
    assert (Hcb : chain_bytes (<[a := rtskb_trim dl x]> (skbs (fkern (uf s)))) (b :: c) = chain_bytes (skbs (fkern (uf s))) (b :: c)).
    { apply chain_bytes_frame. intros i Hi. f_equal. apply lookup_insert_ne. intros ->. done. }
    eapply wp_mono; [|eapply (IH b fuel _ _ _ iov' (copied_state s (<[a := rtskb_trim dl x]> (skbs (fkern (uf s)))) m'))].
    + cbn zeta. cbn [copied_state uf upd fkern skbs um]. rewrite Hcb. fold T'.
      intros r s' (h & dl' & tr & -> & Hflag & Hsl & ->).
      set (n' := Nat.min (Z.to_nat (room - (copied + Z.of_nat (length B)))) (length T')) in *.
      assert (En : n = (length B + n')%nat) by (unfold n, n'; rewrite ET, length_app; lia).
      exists h, dl', tr. split; [do 2 f_equal; lia|]. split; [rewrite Hflag; destruct (Z.ltb_spec (Z.of_nat n') (dl - Z.of_nat (length B))), (Z.ltb_spec (Z.of_nat n) dl); lia|].
      split; [eapply same_links_trans; [eapply same_links_mono; [done|set_solver]|eapply same_links_mono; [done|set_solver]]|].
      rewrite Ha', En, ET. unfold m'. rewrite store_two by lia. done.
    + cbn [copied_state uf upd fkern skbs]. apply lseg_insert_ne; [done|]. by split.
    + done.
    + cbn in Hfuel |- *. lia.
    + intros i z Hi. cbn. rewrite lookup_insert_ne by (intros ->; done). apply Hgood. set_solver.
    + lia.
    + lia.
    + lia.
    + done.
    + rewrite Ha', length_drop. lia.
Qed.

(** Packets of [c] may have changed, but not the fields that the release looks at. *)
Definition kept c h h' : Prop :=
  ∀ b, match h !! b, h' !! b with
       | Some x, Some y => (chain_end y, pool y, cap_flags y) = (chain_end x, pool x, cap_flags x) ∧ (b ∉ c → y = x)
       | None, None => True
       | _, _ => False
       end.
Lemma kept_trans c h1 h2 h3 : kept c h1 h2 → kept c h2 h3 → kept c h1 h3.
Proof.
  intros H1 H2 a. specialize (H1 a). specialize (H2 a).
  destruct (h1 !! a), (h2 !! a), (h3 !! a); try done. destruct H1 as [E1 F1], H2 as [E2 F2].
  split; [congruence|]. intros Ha. rewrite F2, F1; done.
Qed.
Lemma relinked_kept c h h' : relinked c h h' → kept c h h'.
Proof.
  intros Hr b. specialize (Hr b). destruct (h !! b) as [x|], (h' !! b) as [y|]; try done.
  destruct Hr as [E F]. split; [by rewrite E|done].
Qed.
Lemma same_links_kept c h h' : same_links c h h' → kept c h h'.
Proof.
  intros Hs b. specialize (Hs b). destruct (h !! b) as [x|], (h' !! b) as [y|]; try done.
  destruct Hs as [E F]. split; [congruence|done].
Qed.
Lemma kept_outside c h h' b : kept c h h' → b ∉ c → h' !! b = h !! b.
Proof. intros Hk Hb. specialize (Hk b). destruct (h !! b), (h' !! b); try done. destruct Hk as [_ F]. by rewrite F. Qed.

(** A chain taken off a queue that is not a pool can be released to its pool. *)
Lemma taken_release k k' C q a c i :
  pools_inv k C → releasable k C q c → is_chain (skbs k) a c → C !! i = None →
  kept c (skbs k) (skbs k') → lseg next (skbs k') (Some a) c None → only_queue i k k' →
  pools_inv k' C ∧ releasable k' C q c ∧ is_chain (skbs k') a c.
Proof.
  intros Hinv Hrel Hch Hi Hk Hseg Ho. split_and!.
  - eapply pools_inv_frame; [exact Hinv|..].
    + intros q' l' Hl'. destruct (pi_queue _ _ Hinv _ _ Hl') as (Q & HQ & _). exists Q, Q.
      rewrite (Ho q') by congruence. done.
    + intros q' l' b Hl' Hb. apply (kept_outside c); [done|]. intros Hbc. destruct (Hrel b Hbc) as [Hu _]. by eapply Hu.
  - intros b Hb. destruct (Hrel b Hb) as [Hu Hx]. split; [done|]. intros y Hy. specialize (Hk b). rewrite Hy in Hk.
    destruct (skbs k !! b) as [x|]; [|done]. destruct Hk as [E _]. injection E as _ -> ->. by apply Hx.
  - destruct Hch as (x & r & Hh & Hx & Hce & _ & Hnd). specialize (Hk a). rewrite Hx in Hk.
    destruct (skbs k' !! a) as [y|] eqn:Hy; [|done]. destruct Hk as [E _]. exists y, None. split_and!; try done. congruence.
Qed.

(** The bytes of a chain once the header of its first packet is pulled. *)
Lemma chain_bytes_pull h a x c n :
  h !! a = Some x → a ∉ c → wf_rtskb x → 0 ≤ n ≤ len x →
  chain_bytes (<[a := snd (rtskb_pull n x)]> h) (a :: c) = drop (Z.to_nat n) (chain_bytes h (a :: c)).
Proof.
  intros Hx Hac Hwf Hn. cbn [chain_bytes]. rewrite Hx, lookup_insert_eq. destruct (pull_ok x n) as (_ & _ & ->); [done..|].
  pose proof (length_payload x Hwf). rewrite drop_app_le by lia. f_equal. apply chain_bytes_frame. intros b Hb.
  f_equal. apply lookup_insert_ne. by intros ->.
Qed.
Lemma chain_bytes_relinked W h h' c : relinked W h h' → chain_bytes h' c = chain_bytes h c.
Proof.
  intros Hr. induction c as [|a c IH]; [done|]. cbn. rewrite IH. f_equal. specialize (Hr a).
  destruct (h !! a) as [x|], (h' !! a) as [y|]; try done. destruct Hr as [E _]. by rewrite E.
Qed.
Lemma good_relinked W h h' c : relinked W h h' → good_packets h c → good_packets h' c.
Proof.
  intros Hr Hg b y Hb Hy. specialize (Hr b). rewrite Hy in Hr. destruct (h !! b) as [x|] eqn:Hx; [|done].
  destruct Hr as [-> _]. destruct (Hg b x) as [Hwf Hl]; [done..|]. split; [by destruct Hwf|done].
Qed.

(** The queue behind the chain [c], which was taken out and freed. *)
Lemma rest_queue h h1 h3 h4 Q Q1 c rest :
  is_queue h Q (c ++ rest) → is_queue h1 Q1 rest → kept c h h1 → kept c h h3 →
  (∀ b, b ∈ rest → b ∉ c → h4 !! b = h3 !! b) → is_queue h4 Q1 rest.
Proof.
  intros Hq [Hseg Hlast] Hk1 Hk3 H4. split; [|done]. eapply lseg_frame; [exact Hseg|]. intros b y Hb Hy. exists y. split; [|done].
  assert (Hbc : b ∉ c) by (apply is_queue_NoDup in Hq; apply NoDup_app in Hq as (_ & Hd & _); intros ?; by eapply Hd).
  rewrite H4 by done. rewrite (kept_outside _ _ _ b Hk3 Hbc), <-Hy. symmetry. by apply (kept_outside c).
Qed.
(** The first packet of a chain whose links changed. *)
Lemma chain_first W h h1 a c x :
  is_chain h a c → relinked W h h1 → h !! a = Some x →
  (∃ c', c = a :: c' ∧ NoDup (a :: c')) ∧ ∃ x1, h1 !! a = Some x1 ∧ x1 = x <| next := next x1 |>.
Proof.
  intros (? & ? & Hh & _ & _ & _ & Hnd) Hr Hx. split; [destruct c as [|? c']; simplify_eq/=; eauto|].
  specialize (Hr a). rewrite Hx in Hr. destruct (h1 !! a) as [y1|]; [|done]. exists y1. by destruct Hr.
Qed.

(** C27: [rt_udp_recvmsg] on a socket with a pending datagram, be it one buffer or the
    chain that reassembly built: the caller's memory receives the datagram's bytes, as
    many as the UDP length says and the vector holds; the number is returned, and
    [MSG_TRUNC] is set exactly if that is less than the datagram.  The whole chain goes
    back to its pool, later datagrams stay queued, and one pending count is taken. *)
Theorem rt_udp_recvmsg_correct s sock S n Q a x c rest iov want_name msg_flags waited ulen source hd C q l :
  let k := fkern (uf s) in
  let T := take (Z.to_nat (ntohs ulen - 8)) (drop 8 (chain_bytes (skbs k) c)) in
  let m := Nat.min (length (iov_addrs iov)) (length T) in
  socks (uf s) !! sock = Some S → pending_sem S = Some n → 0 < n → Z.land msg_flags MSG_PEEK = 0 →
  queues k !! incoming S = Some Q → is_queue (skbs k) Q (c ++ rest) → is_chain (skbs k) a c →
  skbs k !! a = Some x → 8 ≤ len x → good_packets (skbs k) c →
  buf_read x (h_raw x + 4) 2 ≫= rd16 = Some ulen → buf_read x (h_raw x) 2 ≫= rd16 = Some source → iph x = Some hd →
  8 ≤ ntohs ulen < 65536 → iov_ok iov (um s) → Z.of_nat (length (iov_addrs iov)) < 2 ^ 31 →
  pools_inv k C → C !! q = Some l → C !! incoming S = None → releasable k C q c → (∀ b, b ∈ rest → in_use C b) →
  wp (rt_udp_recvmsg sock iov want_name msg_flags waited)
     (λ r s', r = (Z.of_nat m, if want_name then Some (AF_INET, source, iph_saddr hd) else None,
                   if Z.of_nat m <? ntohs ulen - 8 then MSG_TRUNC else 0) ∧
        um s' = store_all (zip (take m (iov_addrs iov)) (take m T)) (um s) ∧
        pools_inv (fkern (uf s')) (<[q := l ++ c]> C) ∧
        (∃ Q', queues (fkern (uf s')) !! incoming S = Some Q' ∧ is_queue (skbs (fkern (uf s'))) Q' rest) ∧
        socks (uf s') !! sock = Some (S <| pending_sem := Some (n - 1) |>) ∧ up s' = up s) s.
Proof.
  intros k T m HS Hp Hn Hpeek HQ Hq Hch Hx Hlx Hgood Hul Hsrc Hhd Hulen Hok Hlen Hinv Hl Hi Hrel Hrest.
  unfold rt_udp_recvmsg. rewrite (rt_iovec_len_addrs iov) by (apply Hok || lia).
  apply wp_bind, wp_in_fs. eapply wp_sock_load; [done|]. apply wp_bind, wp_in_fs. unfold sem_timeddown. apply wp_bind.
  eapply wp_sock_load; [done|]. rewrite Hp. apply Z.ltb_lt in Hn as ->. apply wp_bind. eapply wp_sock_upd; [done|].
  apply wp_ret. cbn [Z.ltb Z.compare]. apply wp_bind, wp_in_ukern.
  eapply wp_mono; [|by eapply dequeue_chain_spec]. cbn beta. intros r k1 (-> & h1 & Q1 & -> & Hq1 & Hseg1 & _ & Hr1).
  destruct (chain_first _ (skbs k) h1 a c x Hch Hr1 Hx) as ((c' & -> & Hnd) & x1 & Hx1 & Ex).
  assert (Hr : relinked (a :: c') (skbs k) h1) by exact Hr1. clear Hr1. rename Hr into Hr1.
  pose proof Hnd as [Hac _]%NoDup_cons. pose proof (relinked_kept _ _ _ Hr1) as Hk1.
  destruct (good_relinked _ _ _ _ Hr1 Hgood a x1) as [Hwf1 Hl1]; [set_solver|done|].
  assert (Hlen1 : len x1 = len x) by (by rewrite Ex).
  apply wp_bind, wp_in_ukern. eapply wp_skb_load; [done|].
  apply wp_bind. eapply wp_deref; [rewrite Ex; exact Hul|]. apply wp_bind. eapply wp_deref; [rewrite Ex; exact Hsrc|].
  apply wp_bind. eapply wp_deref; [rewrite Ex; exact Hhd|].
  apply wp_bind, wp_in_ukern. eapply wp_skb_upd; [done|].
  destruct (pull_ok x1 8) as (Ep & Hwp & _); [done|lia|].
  assert (Epull : snd (__rtskb_pull UDPHDR_LEN x1) = snd (rtskb_pull 8 x1)) by (rewrite Ep; apply pulled_eq; [done|change UDPHDR_LEN with 8; lia]).
  rewrite Epull.
  cbn [uf upd fkern skbs queues socks um up].
  apply wp_bind, wp_in_ukern, wp_gets. cbn [uf upd fkern skbs queues socks um up].
  set (h2 := <[a := _]> h1). unfold u64. rewrite Z.mod_small by (change UDPHDR_LEN with 8; lia).
  change UDPHDR_LEN with 8. match goal with |- wp _ _ ?s1 => set (s2 := s1) end.
  assert (Hs12 : same_links (a :: c') h1 h2).
  { eapply same_links_mono; [eapply same_links_insert; [done|by rewrite Ep]|set_solver]. }
  assert (Hseg2 : lseg next h2 (Some a) (a :: c') None) by (by eapply same_links_lseg).
  assert (Hcb : chain_bytes h2 (a :: c') = drop 8 (chain_bytes (skbs k) (a :: c'))).
  { unfold h2. by rewrite chain_bytes_pull, (chain_bytes_relinked _ _ _ _ Hr1) by (done || lia). }
  apply wp_bind. eapply wp_mono; [|eapply (recv_loop_run c' a _ _ 0 (Z.of_nat (length (iov_addrs iov))) iov s2)]; try done; try lia.
  - cbn zeta. change (skbs (fkern (uf s2))) with h2. rewrite Hcb, Z.sub_0_r, Nat2Z.id. fold T. fold m.
    intros r s3 (h3 & dl & tr & -> & -> & Hs3 & ->). rewrite Hpeek. cbn [Z.eqb].
    assert (Hk3 : kept (a :: c') (skbs k) h3).
    { eapply kept_trans; [done|]. eapply kept_trans; [by apply same_links_kept|by apply same_links_kept]. }
    apply wp_bind, wp_in_ukern. cbn [copied_state uf upd fkern].
    match goal with |- wp _ _ ?t => set (k3 := t) end.
    destruct (taken_release k k3 C q a (a :: c') (incoming S)) as (Hinv3 & Hrel3 & Hch3); try done.
    { by eapply same_links_lseg. }
    { intros q' Hq'. cbn. by rewrite lookup_insert_ne. }
    eapply wp_mono; [|by eapply kfree_rtskb_run]. cbn beta. intros [] k4 (Hinv4 & _ & _ & Ho4 & Hf4). apply wp_ret.
    cbn [uf upd fkern um socks up]. split_and!; [done|done|done| |apply lookup_insert_eq|done].
    exists Q1. rewrite Ho4 by congruence. split; [apply lookup_insert_eq|].
    eapply (rest_queue (skbs k) h1 h3 (skbs k4)); [exact Hq|exact Hq1|exact Hk1|exact Hk3|].
    intros b Hb Hbc. apply Hf4, not_elem_of_app. split; [by eapply Hrest|done].
  - change (skbs (fkern (uf s2))) with h2. apply NoDup_length_size; [done|]. intros b Hb. by eapply lseg_lookup.
  - change (skbs (fkern (uf s2))) with h2. intros b y Hb. unfold h2. rewrite lookup_insert_Some. intros [(<- & <-)|(Hne & Hy)].
    + split; [done|]. rewrite Ep. cbn. lia.
    + by eapply (good_relinked _ _ _ _ Hr1 Hgood).
Qed.
End recv.
