(* ===== verification/UdpInput.v ===== *)
(** * A datagram from IP input to its socket

    The composition of IP input (checks, protocol table, pool of the socket) with the
    destination lookup and the reception of UDP. *)
From S2P Require Import Prelude State RtskbQueue Rtskb RtskbData Rtdev Route Inet IpFragment Socket IpOutput IpInput Udp UdpOps UdpSend.

Section input.
Context `{Config} (csum_tcpudp_nofold : Z → Z → Z → Z → Z → Z) (ip_fast_csum : list Z → Z).
Context (protocols : prot_table) (forward : nat → Z → M rstate Z) (callback : nat → nat → Z → M fstate ()).
Implicit Types (s : ustate) (f : fstate) (x : rtskb) (C : gmap nat (list nat)) (P : pstate).

(** IP input on the state of UDP, with the registry [P]. *)
Definition ip_rcv P : nat → M ustate Z :=
  rt_ip_rcv uf (λ f s, s <| uf := f |>) (λ s, (uroute s) <| kern := fkern (uf s) |>)
    (λ r s, s <| uroute := r |> <| uf := (uf s) <| fkern := kern r |> |>) ip_fast_csum protocols
    (λ _, rt_udp_dest_socket csum_tcpudp_nofold P) (λ _ skb, in_fs (rt_udp_rcv callback skb)) None forward.

(** The packet as it reaches the transport protocol: [n] bytes without the IP header. *)
Definition delivered (n i : Z) x : rtskb :=
  let y := snd (__rtskb_pull (i * 4) (rtskb_trim n x)) in y <| h_raw := data y |>.

Lemma delivered_ok n i x :
  wf_rtskb x → 0 ≤ i → i * 4 ≤ n ≤ len x →
  wf_rtskb (delivered n i x) ∧ payload (delivered n i x) = drop (Z.to_nat (i * 4)) (take (Z.to_nat n) (payload x)).
Proof.
  intros Hwf Hi Hn. destruct (trim_ok x n Hwf ltac:(lia)) as (Hw1 & Hp1 & Hl1).
  assert (Hl : i * 4 ≤ len (rtskb_trim n x)) by lia.
  destruct (pull_ok (rtskb_trim n x) (i * 4) Hw1 ltac:(lia)) as (Ep & Hw2 & Hp2).
  assert (E : snd (__rtskb_pull (i * 4) (rtskb_trim n x)) = snd (rtskb_pull (i * 4) (rtskb_trim n x))).
  { unfold __rtskb_pull, rtskb_pull, assert_fails. replace (i * 4 <=? len (rtskb_trim n x)) with true by lia.
    replace (len (rtskb_trim n x) <? i * 4) with false by lia. by rewrite andb_false_r. }
  unfold delivered. rewrite E. rewrite Hp1 in Hp2. split; [by destruct Hw2|exact Hp2].
Qed.

(** The header fields of a received packet. *)
Record ip_fields x (b n : Z) (hdr : list Z) (h : iphdr) : Prop := {
  if_first : buf_read x (nh_raw x) 1 = Some [b];
  if_header : buf_read x (nh_raw x) (Z.land b 15 * 4) = Some hdr;
  if_len : ∃ t, buf_read x (nh_raw x + 2) 2 ≫= rd16 = Some t ∧ ntohs t = n;
  if_iph : iph x = Some h;
}.
(** The checks of [rt_ip_rcv]. *)
Definition acceptable x (b n : Z) (hdr : list Z) : bool :=
  negb (pkt_type x =? PACKET_OTHERHOST) && (5 <=? Z.land b 15) && (Z.shiftr b 4 =? 4) && (ip_fast_csum hdr =? 0) &&
  (n <=? len x) && (Z.land b 15 * 4 <=? n).

(** The sockets [a] and [p] select. *)
Definition selects P (a p : Z) (r : option nat) : Prop :=
  match r with
  | None => ∀ i y, bound P i = Some y → y.2 = p → y.1 ≠ a ∧ y.1 ≠ INADDR_ANY
  | Some so => ∃ i e, port_registry P !! i = Some e ∧ us_sock e = Some so ∧
      ∀ j, (∃ y, bound P j = Some y ∧ y.2 = p ∧ (y.1 = a ∨ y.1 = INADDR_ANY)) ↔ j = i
  end.
(** The input queue of socket [S] holds the datagrams [li]. *)
Definition receives (k : kstate) C S (li : list nat) : Prop :=
  is_Some (C !! skb_pool S) ∧ C !! incoming S = None ∧ callback_func S = None ∧
  (∃ Q, queues k !! incoming S = Some Q ∧ is_queue (skbs k) Q li) ∧ ∀ b, b ∈ li → in_use C b.

Lemma udp_answers P f k x a p :
  skbs (fkern f) !! k = Some x → reg_ok P → port_lock P = false → sockets_exist P f → udp_target f x a p → a ≠ INADDR_ANY →
  wp (rt_udp_dest_socket csum_tcpudp_nofold P k) (answered (selects P a p) k x f) f.
Proof.
  intros Hx Hok Hlk Hex Ht Ha. eapply wp_mono; [|by eapply dest_socket_run].
  intros r f' (x' & Hm & Hs & Hr). destruct r as [so|].
  - destruct Hr as (S & i & e & y & HS & -> & Hy & [Hp Hc] & He & Hso). split; [|exists x'; by eauto].
    exists i, e. split_and!; try done.
    intros j. split; [|intros ->; exists y; cbn in *; naive_solver].
    intros (z & Hz & Hzp & Hza). eapply (ro_excl _ Hok); [exact Hz|exact Hy|]. split; cbn in *; [congruence|].
    destruct Hza as [->| ->], Hc as [?|[->| <-]]; naive_solver.
  - destruct Hr as [-> Hno]. split; [|by exists x']. intros i y Hy Hyp. split; intros E; apply (Hno i y Hy); split; cbn; auto.
Qed.

(** Queuing a packet that is in use at a socket. *)
Lemma udp_rcv_run f C k x so S li :
  pools_inv (fkern f) C → in_use C k → skbs (fkern f) !! k = Some x → chain_end x = Some k → sk x = Some so →
  socks f !! so = Some S → receives (fkern f) C S li → k ∉ li →
  wp (rt_udp_rcv callback k)
     (λ _ f', pools_inv (fkern f') C ∧ collector f' = collector f ∧
        socks f' = <[so := S <| pending_sem := (λ n, n + 1) <$> pending_sem S |>]> (socks f) ∧
        same_world (fkern f) (fkern f') ∧
        (∃ Q, queues (fkern f') !! incoming S = Some Q ∧ is_queue (skbs (fkern f')) Q (li ++ [k])) ∧
        ∃ z, skbs (fkern f') !! k = Some z ∧ z = x <| next := next z |>) f.
Proof.
  intros Hinv Hu Hx He Hsk HS (_ & Hin & Hcb & (Q & HQ & Hq) & Hli) Hk. unfold rt_udp_rcv.
  apply wp_bind, wp_in_fkern. eapply wp_skb_load; [done|]. apply wp_bind. eapply wp_deref; [done|].
  apply wp_bind. eapply wp_sock_load; [done|]. apply wp_bind, wp_in_fkern.
  eapply wp_mono; [|eapply (queue_tail_spec _ _ Q li k [k]); [done|done|by eapply is_chain_single|]].
  2: { by intros b ->%list_elem_of_singleton. }
  intros [] k1 (h' & Q' & -> & Hq' & _ & HR). apply wp_bind. eapply wp_sock_upd; [done|].
  apply wp_bind. eapply wp_sock_load; [apply lookup_insert_eq|]. cbn [callback_func upd]. rewrite Hcb. apply wp_ret.
  cbn [fkern upd collector socks]. split_and!; [|done|done|by destruct (fkern f)| |].
  - eapply pools_inv_frame; [exact Hinv|..]; cbn.
    + intros q l Hl. destruct (pi_queue _ _ Hinv _ _ Hl) as (Q1 & HQ1 & _). exists Q1, Q1.
      rewrite lookup_insert_ne by congruence. done.
    + intros q l b Hl Hb. eapply relinked_out; [exact HR|]. intros [Hbl| ->%list_elem_of_singleton]%elem_of_app.
      * by eapply (Hli b Hbl).
      * by eapply Hu.
  - exists Q'. split; [apply lookup_insert_eq|done].
  - cbn. assert (HR2 : relinked (li ++ [k]) (skbs (fkern f)) h') by exact HR. specialize (HR2 k). rewrite Hx in HR2. destruct (h' !! k) as [z|]; [|done]. exists z. by destruct HR2.
Qed.

(** The charge leaves the input queue of the socket alone. *)
Lemma receives_charged k0 k1 C C' k x rp S li :
  charged C k x rp (skb_pool S) k0 k1 C' → is_Some (C !! rp) → receives k0 C S li → k ∉ li → receives k1 C' S li.
Proof.
  intros (a & l & lr & HC & Hlr & -> & _ & _ & _ & _ & Ho & Hf) [l0 Hrp] (_ & Hin & Hcb & (Q & HQ & [Hq1 Hq2]) & Hli) Hk.
  assert (N1 : incoming S ≠ rp) by congruence. assert (N2 : incoming S ≠ skb_pool S) by congruence.
  split_and!.
  - destruct (decide (rp = skb_pool S)) as [->|]; simplify_map_eq; eauto.
  - by simplify_map_eq.
  - done.
  - exists Q. rewrite Ho by done. split; [done|]. split; [|done]. eapply lseg_frame; [exact Hq1|].
    intros b z Hb Hz. exists z. destruct (Hf b) as [-> _]; [by intros ->|by apply Hli|done].
  - intros b Hb. apply Hf; [by intros ->|by apply Hli].
Qed.

(** The end of [rt_ip_local_deliver]: the outcome for a packet [y] without its IP header. *)
Definition udp_outcome P C k rp (a p : Z) (bytes : list Z) f f' : Prop :=
  (rejected C k rp (fkern f') ∧ socks f' = socks f ∧
   (selects P a p None ∨ ∃ so S, selects P a p (Some so) ∧ socks f !! so = Some S ∧ C !! skb_pool S = Some [])) ∨
  (∃ so S li Q z C', selects P a p (Some so) ∧ socks f !! so = Some S ∧ receives (fkern f) C S li ∧
     socks f' = <[so := S <| pending_sem := (λ n, n + 1) <$> pending_sem S |>]> (socks f) ∧
     queues (fkern f') !! incoming S = Some Q ∧ is_queue (skbs (fkern f')) Q (li ++ [k]) ∧
     skbs (fkern f') !! k = Some z ∧ pool z = Some (skb_pool S) ∧ payload z = bytes ∧
     pools_inv (fkern f') C' ∧ in_use C' k).

Lemma udp_deliver_run P prot h f k y rp C a p :
  pools_inv (fkern f) C → loose (fkern f) C k y rp → reg_ok P → port_lock P = false → sockets_exist P f →
  udp_target f y a p → a ≠ INADDR_ANY →
  (∀ so S, selects P a p (Some so) → socks f !! so = Some S → ∃ li, receives (fkern f) C S li ∧ k ∉ li) →
  wp (r ← deliver_whole (λ _, rt_udp_dest_socket csum_tcpudp_nofold P) None prot h k;
      match r with Some skb => rt_udp_rcv callback skb | None => mret () end)
     (λ _ f', same_world (fkern f) (fkern f') ∧ udp_outcome P C k rp a p (payload y) f f') f.
Proof.
  intros Hinv Hlo Hok Hlk Hex Ht Ha Hrec. apply wp_bind.
  eapply wp_mono; [|eapply (deliver_whole_run _ None (selects P a p) prot h k y rp f C); [|done|done|done|]].
  - intros r f1 (Es & _ & Hr). destruct r as [k'|].
    + destruct Hr as (-> & so & S & y' & C' & Hsel & HS & Hm & Hsk & Hch). destruct (Hrec so S Hsel HS) as (li & Hre & Hk).
      pose proof Hch as (a0 & l & lr & _ & _ & _ & Hinv1 & Hu1 & Hx1 & Hw & _).
      assert (Hre0 : receives (upd_skb k y' (fkern f)) C S li).
      { destruct Hre as (? & ? & ? & (Q & HQ & [Hq1 Hq2]) & ?). split_and!; try done. exists Q. split; [done|]. split; [|done].
        by apply lseg_insert_ne. }
      pose proof (receives_charged _ _ _ _ _ _ _ _ _ Hch (lo_pools _ _ _ _ _ Hlo) Hre0 Hk) as Hre1.
      eapply wp_mono; [|eapply (udp_rcv_run f1 C' k _ so S li Hinv1 Hu1 Hx1)]; try done.
      * intros _ f2 (Hinv2 & _ & Es2 & Hw2 & (Q & HQ & Hq) & z & Hz & Ez). split.
        { rewrite Hw2, Hw. by destruct (fkern f). }
        right. exists so, S, li, Q, z, C'. split_and!; try done; [by rewrite Es2, Es|by rewrite Ez|].
        rewrite Ez. change (payload y' = payload y). by rewrite Hm.
      * change (chain_end y' = Some k). rewrite Hm. apply (lo_end _ _ _ _ _ Hlo).
      * by rewrite Es.
    + destruct Hr as (Hrej & Hw & Hcase). apply wp_ret. split; [done|]. by left.
  - eapply udp_answers; try done. apply Hlo.
  - intros so S Hsel HS. destruct (Hrec so S Hsel HS) as (li & Hre & _). apply Hre.
Qed.

Lemma wp_in_fs_match (m : M fstate (option nat)) (g : nat → M fstate ()) (Q : () → ustate → Prop) s :
  wp (r ← m; match r with Some skb => g skb | None => mret () end) (λ a f, Q a (s <| uf := f |>)) (uf s) →
  wp (r ← in_fs m; match r with Some skb => in_fs (g skb) | None => mret () end) Q s.
Proof.
  unfold wp, in_fs, zoom, mbind, M_bind. cbn. destruct (m (uf s)) as [[[k|] f]|]; cbn; [|done..].
  by destruct (g k f) as [[[] f']|].
Qed.

Lemma iph_ihl x b n hdr h : ip_fields x b n hdr h → ihl h = Z.land b 15.
Proof.
  intros [Hf _ _ Hi]. unfold iph in Hi. rewrite Hf in Hi. cbn in Hi.
  repeat (match type of Hi with context [mbind _ ?o] => destruct o as [?|] eqn:?; [|done] end; cbn in Hi).
  destruct l as [|? [|]]; simplify_eq. done.
Qed.

(** The part behind the checks. *)
Lemma udp_local_run s k x rp C b n hdr h p0 a p :
  let f := uf s in let y := delivered n (Z.land b 15) x in
  pools_inv (fkern f) C → loose (fkern f) C k x rp → ip_fields x b n hdr h → 0 ≤ Z.land b 15 → Z.land b 15 * 4 ≤ n ≤ len x →
  protocols !! rt_inet_hashkey IPPROTO_UDP = Some (Some p0) → prot_protocol p0 = IPPROTO_UDP → iph_protocol h = IPPROTO_UDP →
  Z.land (frag_off h) (ntohs (Z.lor IP_MF IP_OFFSET)) = 0 →
  reg_ok (up s) → port_lock (up s) = false → sockets_exist (up s) f → udp_target f y a p → a ≠ INADDR_ANY →
  (∀ so S, selects (up s) a p (Some so) → socks f !! so = Some S → ∃ li, receives (fkern f) C S li ∧ k ∉ li) →
  wp (rt_ip_local_deliver uf (λ f s, s <| uf := f |>) protocols (λ _, rt_udp_dest_socket csum_tcpudp_nofold (up s))
        (λ _ skb, in_fs (rt_udp_rcv callback skb)) None k)
     (λ _ s', up s' = up s ∧ same_world (fkern f) (fkern (uf s')) ∧ udp_outcome (up s) C k rp a p (payload y) f (uf s'))
     (s <| uf := with_skb k (rtskb_trim n x) f |>).
Proof.
  intros f y Hinv Hlo Hfi Hi Hn Hp0 Hpp Hpr Hnf Hok Hlk Hex Ht Ha Hrec. pose proof (iph_ihl _ _ _ _ _ Hfi) as Eihl.
  pose proof Hlo as [Hx Hwf He Hpo Hps Hu Hcap]. destruct (delivered_ok n (Z.land b 15) x Hwf Hi Hn) as [Hwy _]. fold y in Hwy.
  unfold rt_ip_local_deliver. apply wp_bind, wp_in_fs. unfold load_iph. apply wp_bind, wp_in_fkern.
  eapply wp_skb_load; [apply lookup_insert_eq|]. eapply wp_deref.
  { transitivity (iph x); [|apply Hfi]. unfold rtskb_trim. by destruct (n <? len x). }
  rewrite Hpr. apply wp_bind. eapply wp_deref; [done|]. cbn beta iota. rewrite Hpp, Z.eqb_refl, Eihl.
  apply wp_bind, wp_in_fs, wp_in_fkern. eapply wp_skb_upd; [apply lookup_insert_eq|].
  apply wp_bind, wp_in_fs, wp_in_fkern. eapply wp_skb_upd; [apply lookup_insert_eq|]. fold (delivered n (Z.land b 15) x). fold y.
  rewrite Hnf. cbn [Z.eqb negb].
  match goal with |- wp _ _ ?t => assert (Et : t = s <| uf := with_skb k y f |>)
    by (unfold with_skb, upd; cbn; by rewrite !insert_insert_eq) end.
  rewrite Et. clear Et. apply (wp_in_fs_match _ (rt_udp_rcv callback)). cbn [uf upd].
  assert (Ey : chain_end y = chain_end x ∧ pool y = pool x ∧ cap_flags y = cap_flags x).
  { unfold y, delivered, __rtskb_pull, rtskb_trim. by destruct (n <? len x), (assert_fails _). }
  destruct Ey as (Ey1 & Ey2 & Ey3).
  eapply wp_mono; [|eapply (udp_deliver_run (up s) (prot_addr p0) h (with_skb k y f) k y rp C a p)]; try done.
  - intros [] f' [Hw Ho]. cbn [up uf upd]. split; [done|]. split; [eapply same_world_trans; [|exact Hw]; unfold with_skb, f; by destruct (uf s) as [[]]|].
    destruct Ho as [?|(so & S & li & Q & z & C' & Hsel & HS & Hre & ?)]; [by left|right].
    destruct (Hrec so S Hsel HS) as (li' & Hre' & Hk').
    assert (li' = li) as ->.
    { destruct Hre as (_ & _ & _ & (Q1 & HQ1 & Hq1 & _) & _), Hre' as (_ & _ & _ & (Q2 & HQ2 & Hq2 & _) & _).
      assert (Q2 = Q1) as -> by (by apply (inj Some); rewrite <-HQ1, <-HQ2). eapply llist_det; [|exact Hq1]. by apply lseg_insert_ne. }
    by exists so, S, li, Q, z, C'.
  - eapply pools_inv_touch; [exact Hinv|exact Hu|..]; cbn; [|eauto]. intros c Hc. by apply lookup_insert_ne.
  - split; try done; [apply lookup_insert_eq|congruence|congruence|by rewrite Ey3].
  - intros so S Hsel HS. destruct (Hrec so S Hsel HS) as (li & (? & ? & ? & (Q & HQ & [Hq1 Hq2]) & ?) & Hk). exists li.
    split; [|done]. split_and!; try done. exists Q. split; [done|]. split; [|done]. by apply lseg_insert_ne.
Qed.

(** C2: a UDP packet that reaches [rt_ip_rcv].  One that fails a check (for another host,
    header too short, wrong version, checksum, length) goes back to its pool, and no
    socket changes.  Otherwise the one socket registered for its port and address, or for
    the port and any address, gets it at the end of its input queue: [tot_len] bytes
    without the IP header, charged to the pool of the socket, with one pending count
    more.  If there is no such socket or its pool is empty the packet goes back to its
    pool. *)
Theorem rt_ip_rcv_udp_correct s k x rp C b n hdr h p0 a p :
  let f := uf s in
  CONFIG_RTNET_RTIPV4_ROUTER = false → pools_inv (fkern f) C → loose (fkern f) C k x rp → ip_fields x b n hdr h →
  protocols !! rt_inet_hashkey IPPROTO_UDP = Some (Some p0) → prot_protocol p0 = IPPROTO_UDP → iph_protocol h = IPPROTO_UDP →
  Z.land (frag_off h) (ntohs (Z.lor IP_MF IP_OFFSET)) = 0 →
  reg_ok (up s) → port_lock (up s) = false → sockets_exist (up s) f →
  udp_target f (delivered n (Z.land b 15) x) a p → a ≠ INADDR_ANY →
  (∀ so S, selects (up s) a p (Some so) → socks f !! so = Some S → ∃ li, receives (fkern f) C S li ∧ k ∉ li) →
  wp (ip_rcv (up s) k)
     (λ ret s', ret = 0 ∧ up s' = up s ∧ same_world (fkern f) (fkern (uf s')) ∧
        if acceptable x b n hdr
        then udp_outcome (up s) C k rp a p (drop (Z.to_nat (Z.land b 15 * 4)) (take (Z.to_nat n) (payload x))) f (uf s')
        else rejected C k rp (fkern (uf s')) ∧ socks (uf s') = socks f) s.
Proof.
  intros f Hnr Hinv Hlo Hfi Hp0 Hpp Hpr Hnf Hok Hlk Hex Ht Ha Hrec.
  pose proof Hfi as [Hb Hh (t & Ht16 & Hn) _]. destruct (lo_pools _ _ _ _ _ Hlo) as [lr Hlr].
  assert (Hdrop : ∀ Q : Z → ustate → Prop,
    (∀ s', up s' = up s → same_world (fkern f) (fkern (uf s')) → rejected C k rp (fkern (uf s')) → socks (uf s') = socks f → Q 0 s') →
    wp (rcv_drop uf (λ f s, s <| uf := f |>) k) Q s).
  { intros Q HQ. unfold rcv_drop. apply wp_bind, wp_in_fs, wp_in_fkern. eapply (loose_free (fkern f)); [done..|].
    intros k1 Hinv1 Hw1. apply wp_ret. apply HQ; try done. by exists lr. }
  unfold ip_rcv, rt_ip_rcv. apply wp_bind, wp_in_fs, wp_in_fkern. eapply wp_skb_load; [apply Hlo|].
  replace (s <| uf := (uf s) <| fkern := fkern (uf s) |> |>) with s by (by destruct s as [[]]).
  unfold acceptable. destruct (pkt_type x =? PACKET_OTHERHOST); [by apply Hdrop|]. cbn [negb andb].
  apply wp_bind. eapply wp_deref; [by rewrite Hb|].
  destruct (Z.ltb_spec (Z.land b 15) 5) as [Hi|Hi].
  { replace (5 <=? Z.land b 15) with false by lia. by apply Hdrop. }
  replace (5 <=? Z.land b 15) with true by lia. cbn [orb andb].
  destruct (Z.shiftr b 4 =? 4); cbn [negb andb]; [|by apply Hdrop].
  apply wp_bind. eapply wp_deref; [done|]. destruct (ip_fast_csum hdr =? 0); cbn [negb andb]; [|by apply Hdrop].
  apply wp_bind. eapply wp_deref; [done|]. rewrite Hn, Z.shiftl_mul_pow2 by done. change (2 ^ 2) with 4.
  destruct (Z.ltb_spec (len x) n) as [Hl|Hl].
  { replace (n <=? len x) with false by lia. by apply Hdrop. }
  replace (n <=? len x) with true by lia. cbn [orb andb]. destruct (Z.ltb_spec n (Z.land b 15 * 4)) as [Hs|Hs].
  { replace (Z.land b 15 * 4 <=? n) with false by lia. by apply Hdrop. }
  replace (Z.land b 15 * 4 <=? n) with true by lia. apply wp_bind, wp_in_fs, wp_in_fkern. eapply wp_skb_upd; [apply Hlo|].
  rewrite Hnr. apply wp_bind. eapply wp_mono; [|eapply (udp_local_run s k x rp C b n hdr h p0 a p)]; try done; try lia.
  intros [] s' (Hup & Hw & Ho). apply wp_ret. destruct (delivered_ok n (Z.land b 15) x) as [_ Hpay]; [apply Hlo|lia|lia|].
  rewrite Hpay in Ho. done.
Qed.
End input.
