(* ===== verification/UdpErrors.v ===== *)
(** * Errors of the send, close and port handling paths

    Runs of the code in states it gets into by its own calls, where it does not do what
    it means to: a lock that is never released, a port registered twice, and buffers
    that are lost or freed twice. *)
From S2P Require Import Prelude State RtskbQueue Rtskb RtskbData Rtdev Eth Iovec Route IpFragment Socket IpOutput Udp UdpOps UdpSend.

(** ** The lock after [-ENOTCONN] *)

Section notconn.
Context `{Config}.
Context (csum_partial : list Z → Z → Z) (csum_tcpudp_magic : Z → Z → Z → Z → Z → Z) (ip_fast_csum : list Z → Z).
Context (hard_header : nat → option (nat → Z → list Z → list Z → Z → M kstate Z)).
Context (get_mtu : nat → Z → M kstate Z) (drv_xmit : nat → nat → M kstate Z).

(** [rt_udp_sendmsg] without a destination on a socket that is not connected
    returns [-ENOTCONN] with [udp_socket_base_lock] held: from then on closing any UDP
    socket, binding one to a port outside the automatic range, connecting one, or
    looking up the socket of an arriving datagram never returns. *)
Theorem rt_udp_sendmsg_notconn s sock S iov msg_flags :
  port_lock (up s) = false → socks (uf s) !! sock = Some S → inet_state S ≠ TCP_ESTABLISHED →
  rt_iovec_len iov ≤ 65507 → msg_flags = 0 ∨ msg_flags = MSG_DONTWAIT →
  ∃ s', rt_udp_sendmsg csum_partial csum_tcpudp_magic ip_fast_csum hard_header get_mtu drv_xmit sock iov None msg_flags s
          = Some (- ENOTCONN, s') ∧
    uf s' = uf s ∧
    (∀ sk, rt_udp_close sk s' = None) ∧
    (∀ sk addr port addrlen, SIZEOF_SOCKADDR_IN ≤ addrlen → Z.land port (auto_port_mask (up s)) ≠ auto_port_start (up s) →
       rt_udp_bind sk addr port addrlen s' = None) ∧
    (∀ sk addr port addrlen, SIZEOF_SOCKADDR_IN ≤ addrlen → rt_udp_connect sk AF_INET addr port addrlen s' = None) ∧
    (∀ daddr dport f, rt_udp_v4_lookup (up s') daddr dport f = None).
Proof.
  intros Hlk HS Hst Hlen Hfl. exists (s <| up := (up s) <| port_lock := true |> |>).
  split_and!; [|done|..]; intros.
  - match goal with |- ?m s = _ => assert (W : wp m (λ r t, r = - ENOTCONN ∧ t = s <| up := (up s) <| port_lock := true |> |>) s) end.
    + unfold rt_udp_sendmsg. change (65535 - IPHDR_LEN - UDPHDR_LEN) with 65507.
      replace (65507 <? rt_iovec_len iov) with false by lia.
      replace (negb (Z.land msg_flags MSG_OOB =? 0)) with false by (destruct Hfl as [->| ->]; done).
      replace (negb (Z.land msg_flags (Z.lnot (Z.lor MSG_DONTROUTE MSG_DONTWAIT)) =? 0)) with false
        by (destruct Hfl as [->| ->]; done).
      do 2 apply wp_bind. apply wp_in_ports, wp_lock_get; [done|]. apply wp_bind, wp_in_fs. eapply wp_sock_load; [done|].
      apply Z.eqb_neq in Hst as ->. by apply wp_ret.
    + destruct (wp_elim _ _ _ W) as (r & t & E & -> & ->). exact E.
  - done.
  - unfold rt_udp_bind, in_ports, zoom, gets, mbind, M_bind. cbn. replace (addrlen <? SIZEOF_SOCKADDR_IN) with false by lia.
    apply Z.eqb_neq in H1. by rewrite H1.
  - unfold rt_udp_connect, in_ports, zoom, gets, mbind, M_bind. cbn. by replace (addrlen <? SIZEOF_SOCKADDR_IN) with false by lia.
  - done.
Qed.
End notconn.

(** ** Runs from a freshly loaded module *)

#[local] Existing Instance default_config.

Definition raw_socket (pl inc : nat) : rtsocket := mk_socket 0 pl 0 inc 0 0 None None 0 0 0 0 0 0 0 0 0 false.
Definition no_queue : rtskb_queue := mk_queue None None 0.
(** Four queue objects, eight buffers at the slab allocator, no device. *)
Definition fresh_kernel : kstate :=
  mk_kstate ∅ (<[0%nat := no_queue]> (<[1%nat := no_queue]> (<[2%nat := no_queue]> (<[3%nat := no_queue]> ∅)))) ∅ ∅
    ((λ p, (p, replicate 128 0)) <$> seq 10 8) [] (replicate 8 None) None 0 0 0 0 [] [].
(** Two sockets not yet opened; pools 0 and 2, reception queues 1 and 3. *)
Definition fresh_udp : ustate :=
  mk_ustate
    (mk_fstate fresh_kernel (<[0%nat := raw_socket 0 1]> (<[1%nat := raw_socket 2 3]> ∅)) (replicate COLLECTOR_COUNT zero_collector))
    (from_option snd udp_boot (rt_udp_init udp_boot)) (mk_rstate fresh_kernel ∅ None 0 [] ∅ None 0 [] 0) 0 ∅.

(** Two sockets are opened and closed again. *)
Example udp_open_close :
  fst <$> (a ← rt_udp_socket 2 0; b ← rt_udp_socket 2 1; c ← rt_udp_close 1; d ← rt_udp_close 0; mret (a, b, c, d)) fresh_udp
  = Some (0, 0, 0, 0).
Proof. vm_compute. reflexivity. Qed.

(** An application binds the first socket to port 1280 (5 in network byte order).  The
    check of [rt_udp_bind] accepts it, but it is the automatic port of the second
    socket, as the index is added to the port in network byte order: opening that one
    succeeds although it could not be registered, and closing it removes an entry that
    is in no list. *)
Lemma udp_port_clash :
  (fst <$> (a ← rt_udp_socket 2 0; b ← rt_udp_bind 0 INADDR_ANY 5 SIZEOF_SOCKADDR_IN; c ← rt_udp_socket 2 1;
            mret (a, b, c)) fresh_udp = Some (0, 0, 0)) ∧
  (rt_udp_socket 2 0;; rt_udp_bind 0 INADDR_ANY 5 SIZEOF_SOCKADDR_IN;; rt_udp_socket 2 1;; rt_udp_close 1) fresh_udp = None.
Proof. split; vm_compute; reflexivity. Qed.

(** A datagram in two fragments reaches the socket: what the reassembly hands over. *)
Definition two_fragments (q inc : nat) : M ustate () :=
  in_ukern (a ← alloc_rtskb 20 q; b ← alloc_rtskb 20 q; a ← deref a; b ← deref b;
            skb_upd a (λ x, x <| next := Some b |> <| chain_end := Some b |>);; rtskb_queue_tail inc a).
(** The socket is closed before it is received.  The buffers are dequeued one by one, yet
    the first still names the second as the end of its chain: one of them is lost to the
    pool, and closing the socket returns [-EAGAIN] however often it is tried. *)
Lemma udp_close_loses_buffer :
  fst <$> (a ← rt_udp_socket 2 0; two_fragments 0 1;; b ← rt_udp_close 0; c ← rt_udp_close 0; S ← in_fs (sock_load 0);
           q ← in_ukern (queue_load 0); mret (a, b, c, so_pool_size S, first q)) fresh_udp
  = Some (0, - EAGAIN, - EAGAIN, 1, None).
Proof. vm_compute. reflexivity. Qed.

(** A message of 40 bytes in fragments for an MTU of 36, and a driver that refuses the
    first packet: the buffer prepared for the second fragment is freed twice, and the
    free list of the pool runs in a circle. *)
Lemma ip_output_double_free :
  fst <$> (in_ukern (modify (λ k, k <| devs := <[0%nat := zero_device <| start_xmit := HARD_START_XMIT |>]> ∅ |>));;
           rt_udp_socket 2 0;; S ← in_fs (sock_load 0);
           err ← in_output (mk_ufh 0 0 0 0 0 0 [] 0 ∅)
             (rt_ip_build_xmit (λ _, 0) (λ _, None) (λ _ _, mret 36) (λ _ _, mret 1) (λ _ _ _ _, mret 0) S 40
                (mk_dest 0 [] (Some 0%nat)));
           q ← in_ukern (queue_load 0); x ← in_ukern (skb_load 10); y ← in_ukern (skb_load 11);
           mret (err, first q, next x, next y)) fresh_udp
  = Some (- EAGAIN, Some 10%nat, Some 11%nat, Some 11%nat).
Proof. vm_compute. reflexivity. Qed.
