(* ===== verification/Packet.v ===== *)
(** * Packet sockets (stack/packet/af_packet.c)

    Sockets that send and receive link-layer frames: a socket registers a packet type
    with the stack manager, which hands it the packets of that type; the parsing of
    hardware addresses. *)
From S2P Require Import Prelude State RtskbQueue Rtskb RtskbData RtskbFifo Rtdev Eth Iovec StackMgr IpFragment Socket Udp.

Definition EUNATCH := 49.
Definition ENETDOWN := 100.
Definition AF_PACKET := 17.
Definition SOCK_DGRAM := 2.
Definition SOCK_RAW := 3.
(** [struct sockaddr_ll]: its size, and the offset of [sll_addr] in it. *)
Definition SIZEOF_SOCKADDR_LL := 20.
Definition OFFSETOF_SLL_ADDR := 12.

Record sockaddr_ll := mk_sll {
  sll_family : Z;
  sll_protocol : Z;
  sll_ifindex : Z;
  sll_hatype : Z;
  sll_pkttype : Z;
  sll_halen : Z;
  sll_addr : list Z;
}.
#[export] Instance sll_eta : Settable sockaddr_ll := λ r,
  mk_sll (sll_family r) (sll_protocol r) (sll_ifindex r) (sll_hatype r) (sll_pkttype r) (sll_halen r) (sll_addr r).

(** What packet sockets add to the state of the stack manager: the sockets, the member
    [prot.packet.ifindex] of their unions, the memory of the applications.  The packet
    type embedded in socket [sock] is the object [sock] of [packets]. *)
Record pworld := mk_pworld {
  pw_socks : gmap nat rtsocket;
  pw_collector : list ip_collector;
  pw_ifindex : gmap nat Z;
  pw_mem : umem;
}.
#[export] Instance pworld_eta : Settable pworld := λ r, mk_pworld (pw_socks r) (pw_collector r) (pw_ifindex r) (pw_mem r).
Notation pkstate := (mstate pworld).

(** The ioctl requests of a packet socket. *)
Inductive packet_request :=
  | PKT_NETWORK (request : socket_request)
  | _RTIOC_BIND (sll : sockaddr_ll) (addrlen : Z)
  | _RTIOC_GETSOCKNAME (sll : sockaddr_ll) (addrlen : Z)
  | PKT_IFCONF (ifc_len : Z)
  | PKT_IF (request : if_request) (ifr_name : list Z).
Inductive packet_reply :=
  | REPLY_NONE
  | REPLY_NAME (sll : sockaddr_ll) (addrlen : Z)
  | REPLY_IFCONF (ifc_len : Z) (entries : list ifconf_entry)
  | REPLY_IF (v : ifr_value).

Section defs.
Context `{Config}.
(** [callback] runs the function a socket has registered. *)
Context (callback : nat → nat → Z → M pkstate ()).

Definition in_pf {A} : M fstate A → M pkstate A :=
  zoom (λ s, mk_fstate (mkern s) (pw_socks (upper s)) (pw_collector (upper s)))
    (λ f s, s <| mkern := fkern f |>
              <| upper := (upper s) <| pw_socks := socks f |> <| pw_collector := collector f |> |>).
Definition in_pmem {A} (f : umem → option (A * umem)) : M pkstate A := λ s,
  match f (pw_mem (upper s)) with Some (a, m) => Some (a, s <| upper := (upper s) <| pw_mem := m |> |>) | None => None end.
Definition load_ifindex (sock : nat) : M pkstate Z := m ← gets (λ s, pw_ifindex (upper s)); deref (m !! sock).
Definition set_ifindex (sock : nat) (i : Z) : M pkstate () :=
  modify (λ s, s <| upper := (upper s) <| pw_ifindex := <[sock := i]> (pw_ifindex (upper s)) |> |>).

(** *** Reception *)

(** The packet is queued at the socket. *)
Definition packet_enqueue (sock skb : nat) : M pkstate Z :=
  x ← in_mkern (skb_load skb);
  d ← deref (rtdev x);
  in_mkern (rtdev_reference d);;
  S ← in_pf (sock_load sock);
  in_mkern (rtskb_queue_tail (incoming S) skb);;
  in_pf (sem_up sock);;
  S ← in_pf (sock_load sock);
  match callback_func S with
  | Some f => callback f sock (callback_arg S)
  | None => mret ()
  end;;
  mret 0.

Definition packet_take (sock skb : nat) : M pkstate Z :=
  P ← pt_load sock;
  S ← in_pf (sock_load sock);
  if CONFIG_RTNET_ETH_P_ALL && (pt_type P =? ntohs ETH_P_ALL) then
    clone_skb ← in_mkern (rtskb_clone skb (skb_pool S));
    match clone_skb with
    | None => mret 0
    | Some skb => packet_enqueue sock skb
    end
  else
    r ← in_mkern (rtskb_acquire skb (skb_pool S));
    if r <? 0 then in_mkern (kfree_rtskb (Some skb));; mret 0
    else packet_enqueue sock skb.

Definition rt_packet_rcv (sock skb : nat) : M pkstate Z :=
  ifindex0 ← load_ifindex sock;
  if ifindex0 =? 0 then packet_take sock skb
  else
    x ← in_mkern (skb_load skb);
    d ← deref (rtdev x);
    D ← in_mkern (dev_load d);
    if negb (ifindex0 =? ifindex D) then mret (- EUNATCH) else packet_take sock skb.

(** *** Binding *)

Definition rt_packet_bind (sock : nat) (sll : sockaddr_ll) (addrlen : Z) : M pkstate Z :=
  if (addrlen <? SIZEOF_SOCKADDR_LL) || negb (sll_family sll =? AF_PACKET) then mret (- EINVAL)
  else
    S ← in_pf (sock_load sock);
    let new_type := if negb (sll_protocol sll =? 0) then sll_protocol sll else so_protocol S in
    P ← pt_load sock;
    ret ← (if negb (pt_type P =? 0) then rtdev_remove_pack (Some sock) else mret 0);
    if ret <? 0 then mret ret
    else
      pt_upd sock (λ P, P <| pt_type := new_type |>);;
      set_ifindex sock (sll_ifindex sll);;
      if negb (new_type =? 0) then rtdev_add_pack sock else mret 0.

(** The result is the address and the new length of the caller's buffer. *)
Definition rt_packet_getsockname (sock : nat) (sll : sockaddr_ll) (addrlen : Z)
    : M pkstate (Z * option (sockaddr_ll * Z)) :=
  if addrlen <? SIZEOF_SOCKADDR_LL then mret (- EINVAL, None)
  else
    i ← load_ifindex sock;
    S ← in_pf (sock_load sock);
    let sll := sll <| sll_family := AF_PACKET |> <| sll_ifindex := i |> <| sll_protocol := so_protocol S |> in
    r ← in_mkern (rtdev_get_by_index i);
    match r with
    | Some d =>
        D ← in_mkern (dev_load d);
        addr ← deref (mem_read (dev_addr D) (addr_len D));
        if (length (sll_addr sll) <? addr_len D)%nat then ub
        else
        let sll := sll <| sll_hatype := dtype D |> <| sll_halen := u8 (Z.of_nat (addr_len D)) |>
                       <| sll_addr := memcpy (sll_addr sll) addr (addr_len D) |> in
        in_mkern (rtdev_dereference d);;
        mret (0, Some (sll, SIZEOF_SOCKADDR_LL))
    | None => mret (0, Some (sll <| sll_hatype := 0 |> <| sll_halen := 0 |>, SIZEOF_SOCKADDR_LL))
    end.

(** *** Creation and closing *)

(** [socket_rtskbs] is the module parameter, [protocol] an [int]. *)
Definition rt_packet_socket (socket_rtskbs : Z) (sock : nat) (protocol : Z) : M pkstate Z :=
  ret ← in_pf (rt_socket_init socket_rtskbs sock (u16 protocol));
  if negb (ret =? 0) then mret ret
  else
    pt_upd sock (λ P, P <| pt_type := u16 protocol |>);;
    set_ifindex sock 0;;
    if negb (protocol =? 0) then
      ret ← rtdev_add_pack sock;
      if ret <? 0 then in_pf (rt_socket_cleanup sock);; mret ret else mret 0
    else mret 0.

(** The loop that empties the input queue; [fuel] bounds its length. *)
Fixpoint packet_purge (fuel : nat) (q : nat) : M kstate () :=
  match fuel with
  | O => ub
  | S fuel =>
      r ← rtskb_dequeue q;
      match r with
      | None => mret ()
      | Some del =>
          x ← skb_load del;
          d ← deref (rtdev x);
          rtdev_dereference d;;
          kfree_rtskb (Some del);;
          packet_purge fuel q
      end
  end.

Definition rt_packet_close (sock : nat) : M pkstate Z :=
  P ← pt_load sock;
  ret ← (if negb (pt_type P =? 0) then
           ret ← rtdev_remove_pack (Some sock);
           when (ret =? 0) (pt_upd sock (λ P, P <| pt_type := 0 |>));;
           mret ret
         else mret 0);
  S ← in_pf (sock_load sock);
  fuel ← in_mkern (gets (λ k, Datatypes.S (size (skbs k))));
  in_mkern (packet_purge fuel (incoming S));;
  if ret =? 0 then in_pf (rt_socket_cleanup sock) else mret ret.

(** *** Reception by the application *)

(** The address of the sender of packet [x]. *)
Definition sender_ll (x : rtskb) (D : rtnet_device) (sll : sockaddr_ll) : option sockaddr_ll :=
  h_source ← buf_read x (mac_raw x + 6) 6;
  Some (sll <| sll_family := AF_PACKET |> <| sll_hatype := dtype D |> <| sll_protocol := protocol x |>
            <| sll_pkttype := pkt_type x |> <| sll_ifindex := ifindex D |>
            <| sll_addr := memcpy (sll_addr sll) h_source ETH_ALEN |> <| sll_halen := Z.of_nat ETH_ALEN |>).

(** The sender's address, if the caller has a buffer [msg_name] for it, the flags that
    are set, and the result.  [waited] is the result of waiting, should it come to that;
    [socket_type] that of the RTDM device of the socket. *)
Definition rt_packet_recvmsg (socket_type : Z) (sock : nat) (iov : list iovec) (msg_name : option sockaddr_ll)
    (msg_flags waited : Z) : M pkstate (Z * option sockaddr_ll * Z) :=
  let room := rt_iovec_len iov in
  S ← in_pf (sock_load sock);
  let timeout := if negb (Z.land msg_flags MSG_DONTWAIT =? 0) then -1 else so_timeout S in
  ret ← in_pf (sem_timeddown sock timeout waited);
  if ret <? 0 then
    mret (if (ret =? - EWOULDBLOCK) || (ret =? - ETIMEDOUT) || (ret =? - EINTR) then ret else - EBADF, msg_name, 0)
  else
    r ← in_mkern (rtskb_dequeue_chain (incoming S));
    match r with
    | None => if assert_fails false then mret (- EFAULT, msg_name, 0) else ub
    | Some rtskb =>
        x ← in_mkern (skb_load rtskb);
        name ← match msg_name with
               | Some sll =>
                   d ← deref (rtdev x);
                   D ← in_mkern (dev_load d);
                   sll ← deref (sender_ll x D sll);
                   mret (Some sll)
               | None => mret None
               end;
        when (negb (socket_type =? SOCK_DGRAM))
          (in_mkern (skb_upd rtskb (λ x, snd (rtskb_push (u32 (data x - mac_raw x)) x))));;
        x ← in_mkern (skb_load rtskb);
        let real_len := len x in
        let copy_len := if room <? real_len then room else real_len in
        kdata ← in_mkern (skb_read rtskb (data x) (len x));
        in_pmem (rt_memcpy_tokerneliovec iov kdata (s32 copy_len));;
        let flags := if room <? real_len then MSG_TRUNC else 0 in
        if Z.land msg_flags MSG_PEEK =? 0 then
          d ← deref (rtdev x);
          in_mkern (rtdev_dereference d);;
          in_mkern (kfree_rtskb (Some rtskb));;
          mret (real_len, name, flags)
        else
          in_mkern (rtskb_queue_head (incoming S) rtskb);;
          in_pf (sem_up sock);;
          mret (real_len, name, flags)
    end.

(** *** Sending *)

(** The header function of a device, if it has one: buffer, protocol, destination,
    source, length. *)
Context (hard_header : nat → option (nat → Z → option (list Z) → option (list Z) → Z → M kstate Z)).
Context (drv_xmit : nat → nat → M kstate Z).

(** The label [out], and [err] before it. *)
Definition send_out (d : nat) (ret : Z) : M pkstate Z := in_mkern (rtdev_dereference d);; mret ret.
Definition send_err (d rtskb : nat) (ret : Z) : M pkstate Z :=
  in_mkern (kfree_rtskb (Some rtskb));; send_out d ret.

(** The link header; [false] when a datagram socket has no header. *)
Definition packet_header (socket_type : Z) (d rtskb : nat) (proto : Z) (addr : option (list Z)) (len0 : Z) : M kstate bool :=
  match hard_header d with
  | None => mret true
  | Some f =>
      hdr_len ← f rtskb (ntohs proto) addr None (u32 len0);
      if negb (socket_type =? SOCK_DGRAM) then
        skb_upd rtskb (λ x, x <| tail := data x |> <| len := 0 |>);; mret true
      else mret (negb (hdr_len <? 0))
  end.

(** [msg_name] with [msg_namelen]. *)
Definition rt_packet_sendmsg (socket_type : Z) (sock : nat) (iov : list iovec) (msg_name : option (sockaddr_ll * Z))
    (msg_flags : Z) : M pkstate Z :=
  let len0 := rt_iovec_len iov in
  if negb (Z.land msg_flags MSG_OOB =? 0) then mret (- EOPNOTSUPP)
  else if negb (Z.land msg_flags (Z.lnot MSG_DONTWAIT) =? 0) then mret (- EINVAL)
  else
    r ← match msg_name with
        | None =>
            i ← load_ifindex sock;
            P ← pt_load sock;
            mret (Some (i, pt_type P, None))
        | Some (sll, namelen) =>
            if (namelen <? SIZEOF_SOCKADDR_LL) || (namelen <? sll_halen sll + OFFSETOF_SLL_ADDR) ||
               (negb (sll_family sll =? AF_PACKET) && negb (sll_family sll =? AF_UNSPEC)) then mret None
            else mret (Some (sll_ifindex sll, sll_protocol sll, Some (sll_addr sll)))
        end;
    match r with
    | None => mret (- EINVAL)
    | Some (i, proto, addr) =>
        r ← in_mkern (rtdev_get_by_index i);
        match r with
        | None => mret (- ENODEV)
        | Some d =>
            D ← in_mkern (dev_load d);
            S ← in_pf (sock_load sock);
            r ← in_mkern (alloc_rtskb (u32 (hard_header_len D + len0)) (skb_pool S));
            match r with
            | None => send_out d (- ENOBUFS)
            | Some rtskb =>
                if u32 (mtu D + (if socket_type =? SOCK_RAW then hard_header_len D else 0)) <? len0 then
                  send_err d rtskb (- EMSGSIZE)
                else if (match msg_name with
                         | Some (sll, _) => negb (sll_halen sll =? Z.of_nat (addr_len D)) | None => false end) then
                  send_err d rtskb (- EINVAL)
                else
                  in_mkern (skb_upd rtskb (rtskb_reserve (hard_header_len D)));;
                  in_mkern (skb_upd rtskb (λ x, x <| rtdev := Some d |> <| priority := so_priority S |>));;
                  ok ← in_mkern (packet_header socket_type d rtskb proto addr len0);
                  if negb ok then send_err d rtskb (- EINVAL)
                  else
                    x ← in_mkern (skb_load rtskb);
                    let '(p, x) := rtskb_put (u32 len0) x in
                    in_mkern (skb_store rtskb x);;
                    m ← gets (λ s, pw_mem (upper s));
                    b ← deref (rt_memcpy_fromkerneliovec iov (s32 len0) m);
                    in_mkern (skb_write rtskb p b.1);;
                    D ← in_mkern (dev_load d);
                    if negb (Z.land (flags D) IFF_UP =? 0) then
                      ret ← in_mkern (rtdev_xmit drv_xmit (Some rtskb));
                      send_out d (if ret =? 0 then s32 len0 else ret)
                    else send_err d rtskb (- ENETDOWN)
            end
        end
    end.

(** The ioctl handler: the result, and what the request stores for the caller. *)
Context (sizeof_ifreq : Z) (do_ioctl : nat → option (M kstate Z)).
Definition rt_packet_ioctl (sock : nat) (user_info in_rt : bool) (request : packet_request) : M pkstate (Z * packet_reply) :=
  match request with
  | PKT_NETWORK rq => r ← in_pf (rt_socket_common_ioctl sock user_info in_rt rq); mret (r, REPLY_NONE)
  | _RTIOC_BIND sll addrlen => r ← rt_packet_bind sock sll addrlen; mret (r, REPLY_NONE)
  | _RTIOC_GETSOCKNAME sll addrlen =>
      r ← rt_packet_getsockname sock sll addrlen;
      mret (r.1, match r.2 with Some (sll, n) => REPLY_NAME sll n | None => REPLY_NONE end)
  | PKT_IFCONF n => r ← in_mkern (rt_socket_if_conf sizeof_ifreq n); mret (0, REPLY_IFCONF r.1 r.2)
  | PKT_IF rq nm => r ← in_mkern (rt_socket_if_ioctl do_ioctl rq nm); mret (r.1, REPLY_IF r.2)
  end.
End defs.

(** *** Hardware addresses as text *)

Definition hex2int (hex_char : Z) : Z :=
  if (48 <=? hex_char) && (hex_char <=? 57) then hex_char - 48
  else if (97 <=? hex_char) && (hex_char <=? 102) then hex_char - 97 + 10
  else if (65 <=? hex_char) && (hex_char <=? 70) then hex_char - 65 + 10
  else - EINVAL.

(** The loop with [n] bytes to go; [out] is what [addr_buf] holds so far.  The string
    is the list of its characters with the terminating 0; reading past it is
    undefined.  58 is [':']. *)
Fixpoint eth_aton_loop (n : nat) (mac out : list Z) : option (Z * list Z) :=
  match n with
  | O => Some (0, out)
  | S n =>
      c ← head mac;
      if c =? 0 then Some (- EINVAL, out)
      else if hex2int c <? 0 then Some (hex2int c, out)
      else
        let hi := u8 (Z.shiftl (hex2int c) 4) in
        let mac := drop 1 mac in
        c ← head mac;
        if c =? 0 then Some (- EINVAL, out ++ [hi])
        else if hex2int c <? 0 then Some (hex2int c, out ++ [hi])
        else
          let out := out ++ [Z.lor hi (hex2int c)] in
          let mac := drop 1 mac in
          match n with
          | O => Some (0, out)
          | _ =>
              c ← head mac;
              if (c =? 0) || negb (c =? 58) then Some (- EINVAL, out)
              else eth_aton_loop n (drop 1 mac) out
          end
  end.
Definition rt_eth_aton (mac : list Z) : option (Z * list Z) := eth_aton_loop 6 mac [].

(** ** Hardware addresses *)

(** The digits, and the text of an address: pairs of digits with colons between. *)
Definition hex_digit (c v : Z) : Prop :=
  (48 ≤ c ≤ 57 ∧ v = c - 48) ∨ (97 ≤ c ≤ 102 ∧ v = c - 87) ∨ (65 ≤ c ≤ 70 ∧ v = c - 55).
Inductive mac_text : list Z → list Z → Prop :=
  | mac_last h l a b : hex_digit h a → hex_digit l b → mac_text [h; l] [16 * a + b]
  | mac_colon h l a b t out : hex_digit h a → hex_digit l b → mac_text t out →
      mac_text (h :: l :: 58 :: t) (16 * a + b :: out).

Lemma hex2int_cases c : (hex2int c = - EINVAL ∧ ∀ v, ¬ hex_digit c v) ∨ (hex_digit c (hex2int c) ∧ 0 ≤ hex2int c < 16 ∧ c ≠ 0).
Proof.
  unfold hex2int, hex_digit, EINVAL.
  destruct (Z.leb_spec 48 c), (Z.leb_spec c 57), (Z.leb_spec 97 c), (Z.leb_spec c 102), (Z.leb_spec 65 c), (Z.leb_spec c 70);
    cbn; solve [lia | right; lia | left; split; [done|intros v; lia]].
Qed.
Lemma hex_digit_inv c v : hex_digit c v → hex2int c = v ∧ 0 ≤ v < 16 ∧ c ≠ 0.
Proof.
  intros Hv. destruct (hex2int_cases c) as [[_ Hn]|(Hd & ? & ?)]; [by destruct (Hn v)|].
  unfold hex_digit in *. lia.
Qed.
Lemma hex_byte a b : 0 ≤ a < 16 → 0 ≤ b < 16 → Z.lor (u8 (Z.shiftl a 4)) b = 16 * a + b.
Proof.
  intros Ha Hb. rewrite Z.shiftl_mul_pow2 by done. unfold u8. rewrite Z.mod_small by lia.
  symmetry. rewrite (Z.mul_comm 16). change 16 with (2^4). rewrite <-Z.shiftl_mul_pow2 by done.
  rewrite <-Z.lxor_lor; [apply Z.add_nocarry_lxor|];
  (apply Z.bits_inj'; intros i Hi; rewrite Z.land_spec, Z.bits_0; destruct (Z.lt_ge_cases i 4);
   [rewrite Z.shiftl_spec_low by lia; done|]; rewrite (Z.bits_above_log2 b); [by rewrite andb_false_r|lia|];
   destruct (decide (b = 0)) as [->|]; [cbn; lia|]; apply Z.log2_lt_pow2; [lia|];
   apply Z.lt_le_trans with (2^4); [lia|]; by apply Z.pow_le_mono_r).
Qed.

(** Two digits. *)
Lemma eth_aton_byte n h l a b mac out : hex_digit h a → hex_digit l b →
  eth_aton_loop (S n) (h :: l :: mac) out =
    match n with
    | O => Some (0, out ++ [16 * a + b])
    | _ => c ← head mac; if (c =? 0) || negb (c =? 58) then Some (- EINVAL, out ++ [16 * a + b])
                         else eth_aton_loop n (drop 1 mac) (out ++ [16 * a + b])
    end.
Proof.
  intros (Eh & Ha & Nh)%hex_digit_inv (El & Hb & Nl)%hex_digit_inv. apply Z.eqb_neq in Nh, Nl.
  cbn [eth_aton_loop head drop mbind option_bind]. rewrite Eh, El, Nh, Nl.
  destruct (Z.ltb_spec a 0) as [|_]; [lia|]. destruct (Z.ltb_spec b 0) as [|_]; [lia|]. by rewrite hex_byte.
Qed.
(** Text of an address is parsed to its bytes, whatever follows it. *)
Lemma eth_aton_text t r : mac_text t r → ∀ rest out,
  eth_aton_loop (length r) (t ++ rest) out = Some (0, out ++ r) ∧ r ≠ [].
Proof.
  induction 1 as [h l a b Hh Hl|h l a b t r Hh Hl Ht IH]; intros rest out; cbn [length app];
    rewrite (eth_aton_byte _ h l a b) by done; [done|]. split; [|done].
  destruct (IH rest (out ++ [16 * a + b])) as [E Hne]. rewrite <-app_assoc in E. destruct r as [|r0 r]; [done|]. exact E.
Qed.
(** What is accepted is text of an address; the parser stops before the end of the
    string. *)
Lemma eth_aton_accepts n : ∀ mac out, 0 ∈ mac →
  ∃ ret res, eth_aton_loop (S n) mac out = Some (ret, res) ∧ (ret = - EINVAL ∨
    ret = 0 ∧ ∃ t rest r, mac = t ++ rest ∧ mac_text t r ∧ length r = S n ∧ res = out ++ r).
Proof.
  induction n as [|n IH]; intros mac out Hz; (destruct mac as [|h mac]; [by apply not_elem_of_nil in Hz|]);
    (destruct (hex2int_cases h) as [[Eh _]|(Hdh & Hrh & Nh)];
     [cbn; rewrite Eh; destruct (h =? 0); cbn; eauto 10|]); (apply elem_of_cons in Hz as [?|Hz]; [done|]);
    (destruct mac as [|l mac]; [by apply not_elem_of_nil in Hz|]);
    (destruct (hex2int_cases l) as [[El _]|(Hdl & Hrl & Nl)];
     [cbn; rewrite El, (proj2 (Z.eqb_neq h 0) Nh); destruct (Z.ltb_spec (hex2int h) 0) as [|_]; [lia|];
      destruct (l =? 0); cbn; eauto 10|]); (apply elem_of_cons in Hz as [?|Hz]; [done|]);
    rewrite (eth_aton_byte _ h l _ _ _ _ Hdh Hdl).
  - eexists _, _. split; [done|]. right. split; [done|]. exists [h; l], mac. eexists. split; [done|]. split; [by constructor|done].
  - destruct mac as [|c mac]; [by apply not_elem_of_nil in Hz|]. cbn [head mbind option_bind]. destruct (Z.eqb_spec c 58) as [->|Hc]; [|rewrite orb_true_r; eauto 10].
    apply elem_of_cons in Hz as [?|Hz]; [done|]. cbn [Z.eqb orb negb].
    destruct (IH mac (out ++ [16 * hex2int h + hex2int l]) Hz) as (ret & res & E & Hr). exists ret, res.
    split; [exact E|]. destruct Hr as [?|(-> & t & rest & r & -> & Ht & Hlen & ->)]; [by left|right]. split; [done|].
    exists (h :: l :: 58 :: t), rest, (16 * hex2int h + hex2int l :: r). split_and!; [done|by constructor|cbn; lia|].
    by rewrite <-app_assoc.
Qed.

(** [rt_eth_aton] reads a string that starts with six bytes in hexadecimal (either
    case) with colons between them, stores these bytes and returns 0; any other string
    gives [-EINVAL].  It does not read past the end of the string. *)
Theorem rt_eth_aton_correct mac :
  0 ∈ mac →
  ∃ ret res, rt_eth_aton mac = Some (ret, res) ∧
    (ret = 0 ∧ length res = 6%nat ∧ (∃ t rest, mac = t ++ rest ∧ mac_text t res) ∨
     ret = - EINVAL ∧ ∀ t rest r, mac = t ++ rest → mac_text t r → length r ≠ 6%nat).
Proof.
  intros Hz. destruct (eth_aton_accepts 5 mac [] Hz) as (ret & res & E & Hr). exists ret, res. split; [exact E|].
  destruct Hr as [->|(-> & t & rest & r & -> & Ht & Hlen & ->)]; [right; split; [done|]|left; eauto 10].
  intros t rest r -> Ht Hlen. destruct (eth_aton_text t r Ht rest []) as [E' _]. rewrite Hlen, E in E'. done.
Qed.
