(* ===== verification/PacketOps.v ===== *)
(** * Properties of packet sockets

    Binding as an update of the table of packet types, reception of a packet through the
    stack manager, delivery to the application, closing. *)
From S2P Require Import Prelude State RtskbQueue Rtskb RtskbData RtskbFifo Rtdev Eth Iovec StackMgr IpFragment Socket IpInput Udp Packet.

Section run.
Context `{Config}.
Implicit Types (s : pkstate) (S : rtsocket) (P : rtpacket_type).

Lemma wp_in_pf {A} (m : M fstate A) (Q : A → pkstate → Prop) s :
  wp m (λ a f, Q a (s <| mkern := fkern f |>
                      <| upper := (upper s) <| pw_socks := socks f |> <| pw_collector := collector f |> |>))
     (mk_fstate (mkern s) (pw_socks (upper s)) (pw_collector (upper s))) →
  wp (in_pf m) Q s.
Proof. intros Hm. unfold in_pf. by apply wp_zoom. Qed.
Lemma wp_psock_load so S (Q : rtsocket → pkstate → Prop) s :
  pw_socks (upper s) !! so = Some S → Q S s → wp (in_pf (sock_load so)) Q s.
Proof. intros HS HQ. apply wp_in_pf. eapply wp_sock_load; [done|]. by destruct s as [? ? ? ? ? []]. Qed.
Lemma wp_load_ifindex so i (Q : Z → pkstate → Prop) s :
  pw_ifindex (upper s) !! so = Some i → Q i s → wp (load_ifindex so) Q s.
Proof. intros Hi HQ. unfold load_ifindex. wp_run. done. Qed.
Lemma wp_mkern_load {A} (m : M kstate A) a (Q : A → pkstate → Prop) s :
  m (mkern s) = Some (a, mkern s) → Q a s → wp (in_mkern m) Q s.
Proof. intros E HQ. apply wp_in_mkern. unfold wp. rewrite E. by destruct s. Qed.

(** A packet socket [so]: its parts, and that its packet type is linked where the table
    says. *)
Record psock s (so : nat) S P (i : Z) : Prop := {
  ps_sock : pw_socks (upper s) !! so = Some S;
  ps_pack : packets s !! so = Some P;
  ps_ifindex : pw_ifindex (upper s) !! so = Some i;
  ps_link : if pt_type P =? 0 then unlinked so s else list_entry P ≠ LINK_NONE ∧ link_ok s so P;
}.

(** The outcome of a binding: the lists without the socket, and the socket at the end of
    the one of its new type, if that is not 0. *)
Definition bound_buckets so ty s : list (list nat) :=
  if (ty =? 0) || (ty =? ntohs ETH_P_ALL) then buckets_without so s
  else alter (.++ [so]) (pack_hash ty) (buckets_without so s).
Definition bound_all so ty s : list nat :=
  if negb (ty =? 0) && (ty =? ntohs ETH_P_ALL) && CONFIG_RTNET_ETH_P_ALL then all_without so s ++ [so] else all_without so s.
Definition bind_result (ty : Z) : Z :=
  if negb (ty =? 0) && (ty =? ntohs ETH_P_ALL) && negb CONFIG_RTNET_ETH_P_ALL then - EINVAL else 0.
Definition rebound so S ty i s ret s' : Prop :=
  ret = bind_result ty ∧ mkern s' = mkern s ∧ rx s' = rx s ∧ pack_table s' ∧
  upper s' = (upper s) <| pw_ifindex := <[so := i]> (pw_ifindex (upper s)) |> ∧
  (∃ P', psock s' so S P' i ∧ pt_type P' = ty) ∧ (∀ p, p ≠ so → packets s' !! p = packets s !! p) ∧
  rt_packets s' = bound_buckets so ty s ∧ rt_packets_all s' = bound_all so ty s.

Lemma unlinked_id so P s : packets s !! so = Some P → unlinked so s → unlinked_state so P s = s.
Proof. intros HP [Eb Ea]. unfold unlinked_state. rewrite Eb, Ea, insert_id by done. by destruct s. Qed.

(** The socket in no list, with its new type and interface. *)
Definition prepared so P1 ty i s : pkstate :=
  (unlinked_state so (P1 <| pt_type := ty |>) s)
    <| upper := (upper s) <| pw_ifindex := <[so := i]> (pw_ifindex (upper s)) |> |>.
Lemma prepare_run s so P1 ty i (m : M pkstate Z) (Q : Z → pkstate → Prop) :
  wp m Q (prepared so P1 ty i s) →
  wp (pt_upd so (λ P, P <| pt_type := ty |>);; set_ifindex so i;; m) Q (unlinked_state so P1 s).
Proof.
  intros Hm. apply wp_bind. eapply wp_pt_upd; [apply lookup_insert_eq|]. apply wp_bind. unfold set_ifindex. apply wp_modify.
  unfold prepared, unlinked_state, upd in *. cbn in *. by rewrite insert_insert_eq.
Qed.
(** Its registration. *)
Lemma register_run s so S P1 ty i :
  pack_table s → pw_socks (upper s) !! so = Some S →
  wp (if negb (ty =? 0) then rtdev_add_pack so else mret 0) (rebound so S ty i s) (prepared so P1 ty i s).
Proof.
  intros Ht HS. set (P2 := P1 <| pt_type := ty |>). destruct (unlinked_state_table s so P2 Ht) as [Ht2 Hu2].
  set (s1 := prepared so P1 ty i s). assert (Hp1 : packets s1 = <[so := P2]> (packets s)) by done.
  assert (Ht3 : pack_table s1) by (destruct Ht2; by split). assert (Hu3 : unlinked so s1) by (exact Hu2).
  destruct (ty =? 0) eqn:E0; cbn [negb].
  - apply wp_ret. split_and!; try done.
    + unfold bind_result. by rewrite E0.
    + exists P2. split; [|done]. split; [done|by rewrite Hp1, lookup_insert_eq|cbn; apply lookup_insert_eq|].
      change (pt_type P2) with ty. by rewrite E0.
    + intros p Hp. by rewrite Hp1, lookup_insert_ne.
    + unfold bound_buckets. by rewrite E0.
    + unfold bound_all. by rewrite E0.
  - eapply wp_mono; [|eapply add_pack_run; [done|by rewrite Hp1, lookup_insert_eq]].
    change (pt_type P2) with ty. cbn beta. intros ret s' [-> ->].
    destruct (linked_state_table s1 so ty Ht3 Hu3) as (Ht4 & P' & HP' & Ety & _ & Hne & Hl).
    assert (Hk : mkern (linked_state so ty s1) = mkern s ∧ rx (linked_state so ty s1) = rx s ∧
      upper (linked_state so ty s1) = (upper s) <| pw_ifindex := <[so := i]> (pw_ifindex (upper s)) |> ∧
      (∀ p, p ≠ so → packets (linked_state so ty s1) !! p = packets s !! p) ∧
      rt_packets (linked_state so ty s1) = bound_buckets so ty s ∧ rt_packets_all (linked_state so ty s1) = bound_all so ty s).
    { unfold linked_state, bound_buckets, bound_all. rewrite E0. cbn [orb negb andb].
      destruct (ty =? ntohs ETH_P_ALL); [destruct CONFIG_RTNET_ETH_P_ALL|]; cbn [andb]; split_and!; try done;
        intros p Hp; cbn; rewrite !lookup_insert_ne by done; done. }
    destruct Hk as (Ek & Er & Eu & Ep & Eb & Ea). split_and!; try done.
    { unfold bind_result. by rewrite E0. }
    exists P'. split; [|done]. split; [by rewrite Eu|done|rewrite Eu; apply lookup_insert_eq|]. by rewrite Ety, E0.
Qed.

(** [rt_packet_bind] refuses a bad address, and a socket whose handler is running;
    in both cases nothing changes.  Otherwise the socket is taken out of the list it was
    in and put at the end of the list of its new type (the one it was created with if
    the address has none, no list for type 0), bound to the interface of the address;
    the table stays well-formed and no other entry changes.  Without
    [CONFIG_RTNET_ETH_P_ALL] a binding to all packets fails and leaves the socket in no
    list. *)
Theorem rt_packet_bind_correct s so S P i sll addrlen :
  pack_table s → psock s so S P i →
  let ty := if negb (sll_protocol sll =? 0) then sll_protocol sll else so_protocol S in
  wp (rt_packet_bind so sll addrlen)
     (λ ret s',
        if (addrlen <? SIZEOF_SOCKADDR_LL) || negb (sll_family sll =? AF_PACKET) then ret = - EINVAL ∧ s' = s
        else if negb (pt_type P =? 0) && (0 <? pt_refcount P) then ret = - EAGAIN ∧ s' = s
        else rebound so S ty (sll_ifindex sll) s ret s') s.
Proof.
  intros Ht [HS HP Hi Hl] ty. unfold rt_packet_bind. destruct (_ || _); [by apply wp_ret|].
  apply wp_bind. eapply wp_psock_load; [done|]. fold ty. apply wp_bind. eapply wp_pt_load; [done|]. apply wp_bind.
  destruct (pt_type P =? 0); cbn [negb andb].
  - apply wp_ret. cbn [Z.ltb Z.compare]. match goal with |- wp ?m ?Q s => cut (wp m Q (unlinked_state so P s)); [by rewrite unlinked_id|] end.
    apply prepare_run. by apply register_run.
  - destruct Hl as [Hne Hl]. eapply wp_mono; [|by eapply remove_pack_run]. cbn beta. intros ret s1.
    destruct (0 <? pt_refcount P).
    + intros [-> ->]. by apply wp_ret.
    + intros [-> ->]. cbn [Z.ltb Z.compare]. apply prepare_run. by apply register_run.
Qed.
End run.

(** ** The input queue of a socket *)

Section inbox.
Context `{Config}.
Implicit Types (k : kstate) (S : rtsocket) (C : gmap nat (list nat)).

(** A packet that waits at a socket: charged to the socket's pool, with a reference on
    its device. *)
Definition waiting k C (q a : nat) : Prop :=
  ∃ x d, loose k C a x q ∧ rtdev x = Some d ∧ is_Some (devs k !! d).
Record inbox k C S (l : list nat) : Prop := {
  ib_pool : is_Some (C !! skb_pool S);
  ib_none : C !! incoming S = None;
  ib_queue : ∃ Q, queues k !! incoming S = Some Q ∧ is_queue (skbs k) Q l;
  ib_waiting : ∀ a, a ∈ l → waiting k C (skb_pool S) a;
}.

(** The buffers [l] differ in their links only. *)
Lemma waiting_frame k k' C C' q a :
  waiting k C q a → (∀ x, skbs k !! a = Some x → ∃ y, skbs k' !! a = Some y ∧ y = x <| next := next y |>) →
  (∀ d, is_Some (devs k !! d) → is_Some (devs k' !! d)) → (in_use C a → in_use C' a) → is_Some (C' !! q) → waiting k' C' q a.
Proof.
  intros (x & d & [Hx Hwf He Hp Hps Hu Hc] & Hr & Hd) Hs Hdev Huse Hq. destruct (Hs x Hx) as (y & Hy & E).
  exists y, d. split_and!; [|by rewrite E|auto]. split; [done|rewrite E; by destruct Hwf|by rewrite E|by rewrite E|done|auto|].
  by rewrite E.
Qed.
Lemma inbox_frame k k' C C' S l :
  inbox k C S l → queues k' !! incoming S = queues k !! incoming S → is_Some (C' !! skb_pool S) → C' !! incoming S = None →
  (∀ a, a ∈ l → skbs k' !! a = skbs k !! a ∧ (in_use C a → in_use C' a)) →
  (∀ d, is_Some (devs k !! d) → is_Some (devs k' !! d)) → inbox k' C' S l.
Proof.
  intros [Hp Hn (Q & HQ & [Hseg Hlast]) Hw] EQ Hp' Hn' Hs Hd. split; [done|done|..].
  - exists Q. rewrite EQ. split; [done|]. split; [|done]. eapply lseg_frame; [done|]. intros a x Ha Hx.
    exists x. by rewrite (proj1 (Hs a Ha)).
  - intros a Ha. eapply waiting_frame; [by apply Hw|..]; [|done|by apply Hs|done].
    intros x Hx. exists x. rewrite (proj1 (Hs a Ha)), Hx. split; [done|by destruct x].
Qed.
Lemma inbox_devs k C S l ds :
  inbox k C S l → (∀ d, is_Some (devs k !! d) → is_Some (ds !! d)) → inbox (k <| devs := ds |>) C S l.
Proof. intros Hi Hd. eapply inbox_frame; [exact Hi|done|apply Hi|apply Hi|done|done]. Qed.

(** The queue holds [l'] after a change of links of waiting packets. *)
Lemma inbox_requeued k C S l l' W h' Q' :
  pools_inv k C → inbox k C S l → is_queue h' Q' l' → relinked W (skbs k) h' →
  (∀ b, b ∈ W ++ l' → waiting k C (skb_pool S) b) →
  let k' := k <| skbs := h' |> <| queues := <[incoming S := Q']> (queues k) |> in
  pools_inv k' C ∧ inbox k' C S l' ∧ same_world k k' ∧ only_queue (incoming S) k k' ∧
  (∀ b, waiting k C (skb_pool S) b → waiting k' C (skb_pool S) b).
Proof.
  intros Hinv [Hp Hn _ _] Hq' HR HW k'.
  assert (Hwk : ∀ b, waiting k C (skb_pool S) b → waiting k' C (skb_pool S) b).
  { intros b Hb. eapply waiting_frame; [exact Hb|..]; try done. cbn. intros y Hy. specialize (HR b). rewrite Hy in HR.
    destruct (h' !! b) as [z|]; [|done]. exists z. by destruct HR. }
  split_and!; [| |by destruct k| |done].
  - eapply pools_inv_frame; [exact Hinv|..]; cbn.
    + intros q l2 Hl2. destruct (pi_queue _ _ Hinv _ _ Hl2) as (Q1 & HQ1 & _). exists Q1, Q1.
      rewrite lookup_insert_ne by congruence. done.
    + intros q l2 b Hl2 Hb. eapply relinked_out; [exact HR|]. intros Hin. destruct (HW b) as (y & ? & Hy & _); [set_solver|].
      by eapply (lo_use _ _ _ _ _ Hy).
  - split; [done|done|exists Q'; split; [apply lookup_insert_eq|done]|]. intros b Hb. apply Hwk, HW. set_solver.
  - intros q Hq2. cbn. by rewrite lookup_insert_ne.
Qed.
Lemma waiting_chain k C q a : waiting k C q a → is_chain (skbs k) a [a].
Proof. intros (x & d & Hlo & _). by eapply loose_chain. Qed.

(** A waiting packet is put at the end, or at the head. *)
Lemma inbox_enqueue_run k C S l a :
  pools_inv k C → inbox k C S l → waiting k C (skb_pool S) a → a ∉ l →
  wp (rtskb_queue_tail (incoming S) a)
     (λ _ k', pools_inv k' C ∧ inbox k' C S (l ++ [a]) ∧ same_world k k' ∧ only_queue (incoming S) k k' ∧
        relinked (l ++ [a]) (skbs k) (skbs k')) k.
Proof.
  intros Hinv Hib Hwa Ha. pose proof Hib as [_ _ (Q & HQ & Hq) Hw].
  eapply wp_mono; [|eapply (queue_tail_spec _ _ Q l a [a]); [done|done|by eapply waiting_chain|]].
  2: { by intros b ->%list_elem_of_singleton. }
  intros [] k' (h' & Q' & -> & Hq' & _ & HR).
  edestruct (inbox_requeued k C S l (l ++ [a]) (l ++ [a])) as (? & ? & ? & ? & _); try done.
  set_unfold. naive_solver.
Qed.
Lemma enqueue_head_run k C S l a :
  pools_inv k C → inbox k C S l → waiting k C (skb_pool S) a → a ∉ l →
  wp (rtskb_queue_head (incoming S) a)
     (λ _ k', pools_inv k' C ∧ inbox k' C S (a :: l) ∧ same_world k k' ∧ only_queue (incoming S) k k' ∧
        relinked [a] (skbs k) (skbs k')) k.
Proof.
  intros Hinv Hib Hwa Ha. pose proof Hib as [_ _ (Q & HQ & Hq) Hw].
  eapply wp_mono; [|eapply (queue_head_spec _ _ Q l a [a]); [done|done|by eapply waiting_chain|]].
  2: { by intros b ->%list_elem_of_singleton. }
  intros [] k' (h' & Q' & -> & Hq' & _ & HR).
  edestruct (inbox_requeued k C S l (a :: l) [a]) as (? & ? & ? & ? & _); try done. set_unfold. naive_solver.
Qed.
(** The first packet is taken out. *)
Definition dequeued k C S a l (r : option nat) k' : Prop :=
  r = Some a ∧ pools_inv k' C ∧ inbox k' C S l ∧ waiting k' C (skb_pool S) a ∧ same_world k k' ∧
  only_queue (incoming S) k k' ∧ relinked [a] (skbs k) (skbs k') ∧ a ∉ l.
Lemma inbox_dequeue_run k C S a l :
  pools_inv k C → inbox k C S (a :: l) → wp (rtskb_dequeue (incoming S)) (dequeued k C S a l) k.
Proof.
  intros Hinv Hib. pose proof Hib as [_ _ (Q & HQ & Hq) Hw]. pose proof (is_queue_NoDup _ _ _ Hq) as [Hal _]%NoDup_cons.
  eapply wp_mono; [|by eapply dequeue_spec]. cbn beta.
  intros r k' (-> & x & Q' & Hx & -> & Hq' & _). pose proof (relinked_cut _ _ _ Hx) as HR.
  edestruct (inbox_requeued k C S (a :: l) l [a]) as (? & ? & ? & ? & Hwk); try done.
  split_and!; try done. apply Hwk, Hw. set_solver.
Qed.
Lemma inbox_dequeue_chain_run k C S a l :
  pools_inv k C → inbox k C S (a :: l) → wp (rtskb_dequeue_chain (incoming S)) (dequeued k C S a l) k.
Proof.
  intros Hinv Hib. pose proof Hib as [_ _ (Q & HQ & Hq) Hw]. pose proof (is_queue_NoDup _ _ _ Hq) as [Hal _]%NoDup_cons.
  assert (Hwa : waiting k C (skb_pool S) a) by (apply Hw; set_solver).
  eapply wp_mono; [|eapply (dequeue_chain_spec _ _ Q a [a] l); [done|exact Hq|by eapply waiting_chain]]. cbn beta.
  intros r k' (-> & h' & Q' & -> & Hq' & _ & _ & HR).
  edestruct (inbox_requeued k C S (a :: l) l [a]) as (? & ? & ? & ? & Hwk); try done. split_and!; try done. by apply Hwk.
Qed.
(** A packet that was taken out is released. *)
Lemma inbox_free_run k C S l a l0 :
  pools_inv k C → inbox k C S l → waiting k C (skb_pool S) a → a ∉ l → C !! skb_pool S = Some l0 →
  wp (kfree_rtskb (Some a))
     (λ _ k', pools_inv k' (<[skb_pool S := l0 ++ [a]]> C) ∧ inbox k' (<[skb_pool S := l0 ++ [a]]> C) S l ∧
        same_world k k' ∧ only_queue (skb_pool S) k k' ∧ pool_map k' = pool_map k ∧
        (∀ b, b ∈ l → skbs k' !! b = skbs k !! b)) k.
Proof.
  intros Hinv Hib (x & d & Hlo & _) Ha Hl0. destruct (loose_chain _ _ _ _ _ Hlo) as [Hc Hrel].
  eapply wp_mono; [|by eapply kfree_rtskb_run]. cbn beta. intros [] k' (Hinv' & Hpm & Hw & Ho & Hf).
  assert (Hfr : ∀ b, b ∈ l → b ∉ l0 ++ [a] ∧ in_use C b).
  { intros b Hb. destruct (ib_waiting _ _ _ _ Hib b Hb) as (y & ? & Hy & _). pose proof (lo_use _ _ _ _ _ Hy) as Hu.
    split; [|done]. apply not_elem_of_app. split; [by eapply Hu|]. intros ->%list_elem_of_singleton. done. }
  split_and!; try done; [|intros b Hb; by apply Hf, Hfr].
  pose proof Hib as [_ Hn _ _]. assert (incoming S ≠ skb_pool S) by congruence.
  eapply inbox_frame; [exact Hib|by apply Ho|rewrite lookup_insert_eq; eauto|by rewrite lookup_insert_ne| |by rewrite Hw].
  intros b Hb. destruct (Hfr b Hb). split; [by apply Hf|]. intros _. by apply in_use_insert.
Qed.
End inbox.

(** ** Reception *)

Section rcv.
Context `{Config} (callback : nat → nat → Z → M pkstate ()).
Implicit Types (s : pkstate) (k : kstate) (S : rtsocket) (C : gmap nat (list nat)).

(** One more packet is waiting. *)
Definition notified S : rtsocket := S <| pending_sem := (λ n, n + 1) <$> pending_sem S |>.
(** Packet [a] of contents [x], received on device [d], is the last of the packets that
    wait at [so]; another socket's queue is as before. *)
Definition queued_at s C so S li a x d (D : rtnet_device) s' : Prop :=
  pools_inv (mkern s') C ∧ inbox (mkern s') C S (li ++ [a]) ∧
  devs (mkern s') = <[d := D <| refcount := refcount D + 1 |>]> (devs (mkern s)) ∧
  s' = s <| mkern := mkern s' |> <| upper := (upper s) <| pw_socks := <[so := notified S]> (pw_socks (upper s)) |> |> ∧
  (∃ z, skbs (mkern s') !! a = Some z ∧ z = x <| next := next z |>) ∧ relinked (li ++ [a]) (skbs (mkern s)) (skbs (mkern s')) ∧
  ∀ S2 l2, inbox (mkern s) C S2 l2 → incoming S2 ≠ incoming S → (∀ b, b ∈ l2 → b ∉ li ++ [a]) → inbox (mkern s') C S2 l2.

Lemma insert_some {A} (m : gmap nat A) i v d : is_Some (m !! d) → is_Some (<[i := v]> m !! d).
Proof. intros Hd. destruct (decide (i = d)) as [->|]; [rewrite lookup_insert_eq; eauto|by rewrite lookup_insert_ne]. Qed.

Lemma packet_enqueue_run s C so S li a x d D :
  pools_inv (mkern s) C → pw_socks (upper s) !! so = Some S → inbox (mkern s) C S li → callback_func S = None →
  loose (mkern s) C a x (skb_pool S) → rtdev x = Some d → devs (mkern s) !! d = Some D → a ∉ li →
  wp (packet_enqueue callback so a) (λ ret s', ret = 0 ∧ queued_at s C so S li a x d D s') s.
Proof.
  intros Hinv HS Hib Hcb Hlo Hd HD Ha. unfold packet_enqueue. pose proof (lo_skb _ _ _ _ _ Hlo) as Hx.
  apply wp_bind. eapply wp_mkern_load; [apply wp_exact; eapply wp_skb_load; done|]. apply wp_bind. eapply wp_deref; [done|].
  apply wp_bind, wp_in_mkern. eapply wp_reference; [done|]. set (k1 := ref_taken (mkern s) d D).
  assert (Hinv1 : pools_inv k1 C) by (destruct Hinv; by split).
  assert (Hib1 : inbox k1 C S li) by (apply inbox_devs; [done|intros; by apply insert_some]).
  assert (Hw1 : waiting k1 C (skb_pool S) a).
  { exists x, d. split_and!; [destruct Hlo; by split|done|]. cbn. rewrite lookup_insert_eq. eauto. }
  apply wp_bind. eapply wp_psock_load; [done|]. apply wp_bind, wp_in_mkern.
  eapply wp_mono; [|by apply (inbox_enqueue_run k1 C S li a)]. intros [] k2 (Hinv2 & Hib2 & Hw2 & Ho2 & HR).
  apply wp_bind, wp_in_pf. unfold sem_up. eapply wp_sock_upd; [done|]. apply wp_bind.
  eapply wp_psock_load; [cbn; apply lookup_insert_eq|]. cbn [callback_func upd]. rewrite Hcb. apply wp_bind, wp_ret, wp_ret.
  split; [done|]. cbn [mkern upd fkern]. assert (Hdv : devs k2 = devs k1) by (by rewrite Hw2). split_and!; [done|done|done|done| |exact HR|].
  - specialize (HR a). cbn in HR. rewrite Hx in HR. destruct (skbs k2 !! a) as [z|] eqn:Hz; [|done]. exists z. by destruct HR.
  - intros S2 l2 Hi2 Hne Hdis. eapply (inbox_frame (mkern s)); [exact Hi2| |apply Hi2|apply Hi2| |].
    + transitivity (queues k1 !! incoming S2); [by apply Ho2|done].
    + intros b Hb. split; [|done]. transitivity (skbs k1 !! b); [|done]. apply (relinked_out _ _ _ b HR). by apply Hdis.
    + intros d' Hd'. change (is_Some (devs k2 !! d')). rewrite Hdv. by apply insert_some.
Qed.

(** The charge to the pool of the socket leaves all input queues alone. *)
Lemma inbox_charged k k' C a x rp q C' S2 l2 :
  charged C a x rp q k k' C' → is_Some (C !! rp) → inbox k C S2 l2 → a ∉ l2 → inbox k' C' S2 l2.
Proof.
  intros (b & l & lr & HC & Hlr & -> & _ & _ & _ & Hw & Ho & Hf) Hrp Hib Ha.
  pose proof Hib as [[l0 Hp] Hn _ Hwt]. destruct Hrp as [l1 Hrp].
  assert (N1 : incoming S2 ≠ rp) by congruence. assert (N2 : incoming S2 ≠ q) by congruence.
  eapply inbox_frame; [exact Hib|by apply Ho|by repeat apply insert_some|by rewrite !lookup_insert_ne| |by rewrite Hw].
  intros c Hc. destruct (Hwt c Hc) as (y & ? & Hy & _). split; [apply Hf; [by intros ->|apply Hy]|].
  intros Hu. by eapply in_use_charged.
Qed.
Lemma loose_charged k k' C a x rp q C' : loose k C a x rp → charged C a x rp q k k' C' → loose k' C' a (x <| pool := Some q |>) q.
Proof.
  intros [Hx Hwf He Hp Hps Hu Hc] (b & l & lr & HC & Hlr & -> & _ & Hu' & Hx' & _). split; try done.
  - by destruct Hwf.
  - apply insert_some. rewrite lookup_insert_eq. eauto.
Qed.
Lemma acquire_charged k C a x rp q l :
  pools_inv k C → loose k C a x rp → C !! q = Some l →
  wp (rtskb_acquire a q)
     (λ ret k', match l with [] => ret = - ENOMEM ∧ k' = k | _ => ret = 0 ∧ ∃ C', charged C a x rp q k k' C' end) k.
Proof.
  intros Hinv Hlo Hl. eapply wp_mono; [|eapply (acquire_run k C a x rp q l); [done|done|apply Hlo..]].
  intros ret k' Hq. destruct l as [|b l]; [done|].
  destruct Hq as (-> & Hw & (lr & Hlr & Hp & Hu) & _ & _ & _ & Hx & Ho & Hf). split; [done|].
  eexists. exists b, l, lr. split_and!; [done..|]. intros c Hc Huc. split; [by apply Hf|by apply in_use_charged].
Qed.

(** What becomes of a packet that is offered to a socket bound to interface [i]. *)
Definition rcv_outcome s C so S li a x rp d (D : rtnet_device) (i ret : Z) s' : Prop :=
  if negb (i =? 0) && negb (i =? ifindex D) then ret = - EUNATCH ∧ s' = s
  else ret = 0 ∧
    if bool_decide (C !! skb_pool S = Some []) then
      rejected C a rp (mkern s') ∧ same_world (mkern s) (mkern s') ∧ s' = s <| mkern := mkern s' |>
    else ∃ s1 C', charged C a x rp (skb_pool S) (mkern s) (mkern s1) C' ∧ s1 = s <| mkern := mkern s1 |> ∧
      queued_at s1 C' so S li a (x <| pool := Some (skb_pool S) |>) d D s'.

(** The decision on the interface. *)
Lemma rcv_interface_run s so i a x d D (Q : Z → pkstate → Prop) :
  pw_ifindex (upper s) !! so = Some i → skbs (mkern s) !! a = Some x → rtdev x = Some d → devs (mkern s) !! d = Some D →
  (if negb (i =? 0) && negb (i =? ifindex D) then Q (- EUNATCH) s else wp (packet_take callback so a) Q s) →
  wp (rt_packet_rcv callback so a) Q s.
Proof.
  intros Hi Hx Hd HD HQ. unfold rt_packet_rcv. apply wp_bind. eapply wp_load_ifindex; [done|].
  destruct (i =? 0); [exact HQ|]. cbn [negb andb] in HQ.
  apply wp_bind. eapply wp_mkern_load; [apply wp_exact; eapply wp_skb_load; done|]. apply wp_bind. eapply wp_deref; [done|].
  apply wp_bind. eapply wp_mkern_load; [apply wp_exact; eapply wp_dev_load; done|]. by destruct (negb (i =? ifindex D)).
Qed.

Lemma rt_packet_rcv_run s C so S P i li a x rp d D :
  pools_inv (mkern s) C → psock s so S P i → inbox (mkern s) C S li → callback_func S = None →
  CONFIG_RTNET_ETH_P_ALL && (pt_type P =? ntohs ETH_P_ALL) = false →
  loose (mkern s) C a x rp → rtdev x = Some d → devs (mkern s) !! d = Some D → a ∉ li →
  wp (rt_packet_rcv callback so a) (rcv_outcome s C so S li a x rp d D i) s.
Proof.
  intros Hinv [HS HP Hi _] Hib Hcb Hty Hlo Hd HD Ha. pose proof (lo_skb _ _ _ _ _ Hlo) as Hx.
  eapply rcv_interface_run; [done..|]. unfold rcv_outcome. destruct (negb (i =? 0) && _); [done|].
  unfold packet_take. apply wp_bind. eapply wp_pt_load; [done|]. apply wp_bind. eapply wp_psock_load; [done|]. rewrite Hty.
  destruct (ib_pool _ _ _ _ Hib) as [l Hl]. rewrite Hl. apply wp_bind, wp_in_mkern.
  eapply wp_mono; [|by eapply acquire_charged]. intros ret k1 Hq. destruct l as [|b l].
  - destruct Hq as [-> ->]. rewrite bool_decide_eq_true_2 by done. cbn [Z.ltb Z.compare ENOMEM Z.opp].
    destruct (lo_pools _ _ _ _ _ Hlo) as [lr Hlr]. apply wp_bind, wp_in_mkern. eapply (loose_free (mkern s)); [done..|].
    intros k' Hk' Hw. apply wp_ret. split; [done|]. split_and!; [by exists lr|done|by destruct s].
  - destruct Hq as (-> & C' & Hch). rewrite bool_decide_eq_false_2 by done. cbn [Z.ltb Z.compare].
    pose proof (inbox_charged _ _ _ _ _ _ _ _ _ _ Hch (lo_pools _ _ _ _ _ Hlo) Hib Ha) as Hib1.
    pose proof (loose_charged _ _ _ _ _ _ _ _ Hlo Hch) as Hlo1. pose proof Hch as (_ & _ & _ & _ & _ & _ & Hinv1 & _ & _ & Hw & _).
    eapply wp_mono; [|eapply (packet_enqueue_run (s <| mkern := k1 |>) C' so S li a); try done].
    + intros ret s' [-> Hq]. split; [done|]. exists (s <| mkern := k1 |>), C'. done.
    + cbn. by rewrite Hw.
Qed.

(** A socket for all packets gets a copy: the packet itself, and the sockets that get
    it, are not affected; with an empty pool nothing happens. *)
Theorem rt_packet_rcv_all_correct s C so S P i li a x rp d D l :
  pools_inv (mkern s) C → psock s so S P i → inbox (mkern s) C S li → callback_func S = None →
  CONFIG_RTNET_ETH_P_ALL = true → pt_type P = ntohs ETH_P_ALL → i = 0 ∨ i = ifindex D → C !! skb_pool S = Some l →
  loose (mkern s) C a x rp → rtdev x = Some d → devs (mkern s) !! d = Some D → a ∉ li →
  buf_start x ≤ mac_raw x ≤ data x → 0 ≤ end_ x - buf_start x ≤ SKB_DATA_ALIGN RTSKB_SIZE →
  SKB_DATA_ALIGN RTSKB_SIZE < 2 ^ 32 → (∀ b y, skbs (mkern s) !! b = Some y → length (buf y) = length (buf x)) →
  wp (rt_packet_rcv callback so a)
     (λ ret s', ret = 0 ∧
        match l with
        | [] => s' = s
        | c :: l => ∃ s1 y, clone_of x y ∧ queued_at s1 (<[skb_pool S := l]> C) so S li c y d D s' ∧ s1 = s <| mkern := mkern s1 |> ∧
            devs (mkern s1) = devs (mkern s) ∧ skbs (mkern s') !! a = Some x ∧ in_use (<[skb_pool S := l]> C) a
        end) s.
Proof.
  intros Hinv [HS HP Hi _] Hib Hcb Hall Hty Hii Hl Hlo Hd HD Ha Hm He1 He2 Hlens. pose proof (lo_skb _ _ _ _ _ Hlo) as Hx.
  eapply rcv_interface_run; [done..|].
  replace (negb (i =? 0) && negb (i =? ifindex D)) with false
    by (destruct Hii as [->| ->]; [done|rewrite Z.eqb_refl; by rewrite andb_false_r]).
  unfold packet_take. apply wp_bind. eapply wp_pt_load; [done|]. apply wp_bind. eapply wp_psock_load; [done|].
  rewrite Hall, Hty, Z.eqb_refl. cbn [andb]. apply wp_bind, wp_in_mkern.
  eapply wp_mono; [|eapply (rtskb_clone_run (mkern s) C (skb_pool S) l a x); try done; [apply Hlo..|by eauto]].
  cbn beta. intros r k1 Hcl. destruct l as [|c l].
  { destruct Hcl as [-> ->]. apply wp_ret. split; [done|]. by destruct s. }
  destruct Hcl as (-> & Hoth & Hca & (Hw & Ho & Hinv1 & Hu1) & y & Hy & Hwy & Hcl & _ & Hce & Hpo & Hcap & _).
  assert (Hcu : ∀ b, in_use C b → b ≠ c).
  { intros b Hb ->. eapply (Hb (skb_pool S)); [done|]. set_solver. }
  assert (Hus : ∀ b, in_use C b → in_use (<[skb_pool S := l]> C) b).
  { intros b Hb. apply in_use_insert; [done|]. assert (b ∉ c :: l) by (by eapply Hb). set_solver. }
  assert (Hwt : ∀ b, b ∈ li → in_use C b).
  { intros b Hb. destruct (ib_waiting _ _ _ _ Hib b Hb) as (z & ? & Hz & _). apply Hz. }
  assert (Hib1 : inbox k1 (<[skb_pool S := l]> C) S li).
  { eapply inbox_frame; [exact Hib| | | | |by rewrite Hw].
    - apply Ho. intros E. pose proof (ib_none _ _ _ _ Hib). congruence.
    - rewrite lookup_insert_eq. eauto.
    - rewrite lookup_insert_ne; [apply Hib|]. intros E. pose proof (ib_none _ _ _ _ Hib). congruence.
    - intros b Hb. split; [apply Hoth, Hcu; auto|auto]. }
  assert (Hcl' : c ∉ li) by (intros Hin; by apply (Hcu c); [apply Hwt|]).
  eapply wp_mono; [|eapply (packet_enqueue_run (s <| mkern := k1 |>) (<[skb_pool S := l]> C) so S li c y d D); try done].
  - intros ret s' [-> Hq]. split; [done|]. exists (s <| mkern := k1 |>), y. split_and!; try done.
    + cbn. by rewrite Hw.
    + destruct Hq as (_ & _ & _ & _ & _ & HR & _). rewrite (relinked_out _ _ _ a HR); [by rewrite Hoth|].
      apply not_elem_of_app. split; [done|]. by intros ->%list_elem_of_singleton.
    + apply Hus. apply Hlo.
  - split; try done. rewrite lookup_insert_eq. eauto.
  - destruct Hcl as (_ & _ & _ & _ & _ & _ & _ & _ & _ & _ & Er & _). congruence.
  - cbn. by rewrite Hw.
Qed.
End rcv.

(** ** From the stack manager to the socket *)

Section delivery.
Context `{Config} (callback : nat → nat → Z → M pkstate ()).
Implicit Types (s : pkstate) (S : rtsocket) (C : gmap nat (list nat)) (D : rtnet_device).

(** [n] references on device [d] fewer. *)
Definition unref d D (n : nat) s : pkstate :=
  s <| mkern := (mkern s) <| devs := <[d := D <| refcount := refcount D - Z.of_nat n |>]> (devs (mkern s)) |> |>.
(** The packet type [pt] is for another protocol than [ty], or for another interface
    than that of [D]. *)
Definition refuses s (ty : Z) D (pt : nat) : Prop :=
  ∃ P i, packets s !! pt = Some P ∧ pw_ifindex (upper s) !! pt = Some i ∧ (pt_type P = ty → i ≠ 0 ∧ i ≠ ifindex D).
Definition asked s (ty : Z) (l : list nat) : nat := length (filter (λ pt, Is_true (handles ty s pt)) l).

Lemma unref_0 d D s : devs (mkern s) !! d = Some D → unref d D 0 s = s.
Proof.
  intros HD. unfold unref. cbn. replace (D <| refcount := refcount D - 0 |>) with D.
  - rewrite insert_id by done. by destruct s as [[]].
  - destruct D. unfold upd. cbn. f_equal. lia.
Qed.
Lemma wp_unref d D n s (Q : () → pkstate → Prop) :
  Q () (unref d D (Datatypes.S n) s) → wp (in_mkern (rtdev_dereference d)) Q (unref d D n s).
Proof.
  intros HQ. apply wp_in_mkern. unfold rtdev_dereference. eapply wp_dev_upd; [cbn; apply lookup_insert_eq|].
  unfold unref, upd in *. cbn in *. rewrite insert_insert_eq.
  replace (refcount D - Z.of_nat (Datatypes.S n)) with (refcount D - Z.of_nat n - 1) in HQ by lia. exact HQ.
Qed.

(** The next entry of the bucket. *)
Lemma next_entry_run fuel k l1 pt l2 d a s (Q : bool → pkstate → Prop) :
  rt_packets s !! k = Some (l1 ++ pt :: l2) → pt ∉ l1 →
  wp (deliver_hash (rt_packet_rcv callback) fuel (head l2) k d a) Q s →
  wp (tbl ← gets rt_packets; l ← deref (tbl !! k); cur ← deref (after pt l);
      deliver_hash (rt_packet_rcv callback) fuel cur k d a) Q s.
Proof.
  intros Hl Hpt HQ. apply wp_bind, wp_gets. apply wp_bind. eapply wp_deref; [done|]. apply wp_bind.
  eapply wp_deref; [by apply after_app|]. done.
Qed.

(** The entries of a bucket that refuse the packet. *)
Lemma refused_run k d D ty a x l2 (Q : bool → pkstate → Prop) s :
  skbs (mkern s) !! a = Some x → rtdev x = Some d → protocol x = ty → devs (mkern s) !! d = Some D →
  ∀ l l1 n fuel, (∀ pt, pt ∈ l → refuses s ty D pt) → rt_packets s !! k = Some (l1 ++ l ++ l2) → NoDup (l1 ++ l ++ l2) →
  wp (deliver_hash (rt_packet_rcv callback) fuel (head l2) k d a) Q (unref d D (n + asked s ty l) s) →
  wp (deliver_hash (rt_packet_rcv callback) (length l + fuel) (head (l ++ l2)) k d a) Q (unref d D n s).
Proof.
  intros Hx Hd Hty HD. induction l as [|pt l IH]; intros l1 n fuel Href Hl Hnd HQ.
  { unfold asked in HQ. cbn in HQ. by rewrite Nat.add_0_r in HQ. }
  destruct (Href pt) as (P & i & HP & Hi & Hr); [set_solver|]. cbn [length Nat.add app head deliver_hash].
  assert (Hpt : pt ∉ l1) by (apply NoDup_app in Hnd; set_solver).
  assert (Hh : handles ty s pt = (pt_type P =? ty)) by (unfold handles; by rewrite HP).
  unfold asked in HQ. rewrite filter_cons, Hh in HQ.
  apply wp_bind. eapply wp_pt_load; [done|]. apply wp_bind.
  eapply wp_mkern_load; [apply wp_exact; eapply wp_skb_load; [exact Hx|done]|]. rewrite Hty.
  destruct (Z.eqb_spec (pt_type P) ty) as [Ety|_].
  - destruct (Hr Ety) as [Hi0 Hii]. rewrite decide_True in HQ by done. cbn [length] in HQ. apply wp_bind.
    unfold call_handler. apply wp_bind. eapply wp_pt_upd; [done|]. apply wp_bind.
    eapply rcv_interface_run; [done|done|done|cbn; apply lookup_insert_eq|]. cbn [ifindex upd].
    apply Z.eqb_neq in Hi0, Hii. rewrite Hi0, Hii. cbn [negb andb]. apply wp_bind.
    eapply wp_pt_upd; [cbn; apply lookup_insert_eq|]. apply wp_ret.
    apply wp_bind. match goal with |- wp _ _ ?t => assert (Et : t = unref d D n s) end.
    { unfold unref, upd. cbn. rewrite insert_insert_eq, (insert_id (packets s)); [done|]. rewrite HP. destruct P. cbn. do 2 f_equal. lia. }
    rewrite Et. clear Et. apply wp_unref. cbn [Z.eqb EUNATCH Z.opp]. eapply (next_entry_run _ _ l1); [exact Hl|done|].
    apply (IH (l1 ++ [pt])); [set_solver|by rewrite <-app_assoc|by rewrite <-app_assoc|].
    unfold asked. by rewrite Nat.add_succ_comm.
  - rewrite decide_False in HQ by tauto. eapply (next_entry_run _ _ l1); [exact Hl|done|].
    apply (IH (l1 ++ [pt])); [set_solver|by rewrite <-app_assoc|by rewrite <-app_assoc|]. done.
Qed.

(** [rt_stack_deliver] up to the handlers of the protocol. *)
Lemma deliver_start_run s C a x rp d bucket (Q : () → pkstate → Prop) :
  loose (mkern s) C a x rp → rtdev x = Some d → rt_packets_all s = [] →
  rt_packets s !! pack_hash (protocol x) = Some bucket →
  wp (taken ← deliver_hash (rt_packet_rcv callback) (Datatypes.S (size (packets s))) (head bucket) (pack_hash (protocol x)) d a;
      if (taken : bool) then mret ()
      else in_mkern (kfree_rtskb (Some a));; in_mkern (rtdev_dereference d)) Q
     (s <| mkern := upd_skb a (x <| nh_raw := data x |>) (mkern s) |>) →
  wp (rt_stack_deliver (rt_packet_rcv callback) None a) Q s.
Proof.
  intros Hlo Hd Hall Hb HQ. pose proof (lo_skb _ _ _ _ _ Hlo) as Hx. unfold rt_stack_deliver, rtcap_report_incoming.
  apply wp_bind. eapply wp_mkern_load; [apply wp_exact; eapply wp_skb_load; done|]. apply wp_bind. eapply wp_deref; [done|].
  assert (Hcap : ∀ Q' : () → pkstate → Prop, Q' () s →
    wp (match (if CONFIG_RTNET_ADDON_RTCAP then @None (nat → M pkstate ()) else None) with
        | Some f => f a | None => mret () end) Q' s) by (by destruct CONFIG_RTNET_ADDON_RTCAP).
  apply wp_bind, Hcap. apply wp_bind, wp_in_mkern. eapply wp_skb_upd; [done|]. fold (upd_skb a (x <| nh_raw := data x |>) (mkern s)).
  apply wp_bind, wp_gets. apply wp_bind.
  apply (wp_mono _ (λ _ t, t = s <| mkern := upd_skb a (x <| nh_raw := data x |>) (mkern s) |>)).
  2: { destruct CONFIG_RTNET_ETH_P_ALL; [|by apply wp_ret]. cbn [when]. apply wp_bind, wp_gets. cbn. rewrite Hall. done. }
  intros [] t ->. apply wp_bind. eapply wp_mkern_load; [apply wp_exact; eapply wp_skb_load; [apply upd_skb_lookup|done]|].
  apply wp_bind, wp_gets. apply wp_bind. eapply wp_deref; [exact Hb|]. exact HQ.
Qed.

Lemma nh_inbox k C a x S l n : skbs k !! a = Some x → inbox k C S l → a ∉ l → inbox (upd_skb a (x <| nh_raw := n |>) k) C S l.
Proof.
  intros Hx Hib Ha. eapply inbox_frame; [exact Hib|done|apply Hib|apply Hib| |done].
  intros b Hb. split; [|done]. cbn. apply lookup_insert_ne. by intros ->.
Qed.
Lemma nh_loose k C a x rp n : loose k C a x rp → loose (upd_skb a (x <| nh_raw := n |>) k) C a (x <| nh_raw := n |>) rp.
Proof. intros [Hx [] He Hp Hps Hu Hc]. split; try done. apply upd_skb_lookup. Qed.
Lemma nh_pools k C a x rp n : pools_inv k C → loose k C a x rp → pools_inv (upd_skb a (x <| nh_raw := n |>) k) C.
Proof.
  intros Hinv Hlo. eapply pools_inv_touch; [exact Hinv|apply Hlo|..]; cbn; [|eauto]. intros b Hb. by apply lookup_insert_ne.
Qed.

(** The packet is at socket [so], after [n] others were asked. *)
Definition delivered_to s C so S li a x rp d D (n : nat) s' : Prop :=
  tables s' = tables s ∧
  if bool_decide (C !! skb_pool S = Some []) then
    rejected C a rp (mkern s') ∧ upper s' = upper s ∧
    devs (mkern s') = <[d := D <| refcount := refcount D - Z.of_nat n - 1 |>]> (devs (mkern s))
  else ∃ C' z, pools_inv (mkern s') C' ∧ inbox (mkern s') C' S (li ++ [a]) ∧
    upper s' = (upper s) <| pw_socks := <[so := notified S]> (pw_socks (upper s)) |> ∧
    devs (mkern s') = <[d := D <| refcount := refcount D - Z.of_nat n |>]> (devs (mkern s)) ∧
    skbs (mkern s') !! a = Some z ∧ pool z = Some (skb_pool S) ∧ payload z = payload x ∧ rtdev z = Some d ∧
    mac_raw z = mac_raw x ∧ data z = data x ∧
    ∀ S2 l2, inbox (mkern s) C S2 l2 → incoming S2 ≠ incoming S → (∀ b, b ∈ l2 → b ∉ li ++ [a]) → inbox (mkern s') C' S2 l2.

(** The call of the handler that takes it. *)
Lemma taken_run s C so S P i li a x rp d D n :
  pools_inv (mkern s) C → psock s so S P i → inbox (mkern s) C S li → callback_func S = None →
  CONFIG_RTNET_ETH_P_ALL && (pt_type P =? ntohs ETH_P_ALL) = false → i = 0 ∨ i = ifindex D →
  loose (mkern s) C a x rp → rtdev x = Some d → devs (mkern s) !! d = Some D → a ∉ li →
  wp (err ← call_handler (rt_packet_rcv callback) so a; in_mkern (rtdev_dereference d);;
      if err =? 0 then mret true else mret false)
     (λ r s', r = true ∧ delivered_to s C so S li a x rp d D n s') (unref d D n s).
Proof.
  intros Hinv [HS HP Hi Hl] Hib Hcb Hty Hii Hlo Hd HD Ha. set (D' := D <| refcount := refcount D - Z.of_nat n |>).
  apply wp_bind. unfold call_handler. apply wp_bind. eapply wp_pt_upd; [done|]. apply wp_bind.
  set (P1 := P <| pt_refcount := pt_refcount P + 1 |>). match goal with |- wp _ _ ?t => set (t1 := t) end.
  assert (Hd1 : ∀ d', is_Some (devs (mkern s) !! d') → is_Some (devs (mkern t1) !! d')) by (intros; by apply insert_some).
  assert (HD1 : devs (mkern t1) !! d = Some D') by (apply lookup_insert_eq).
  eapply wp_mono; [|eapply (rt_packet_rcv_run callback t1 C so S P1 i li a x rp d D'); try done].
  - intros ret t2 Hout. unfold rcv_outcome in Hout.
    replace (negb (i =? 0) && negb (i =? ifindex D')) with false in Hout.
    2: { change (ifindex D') with (ifindex D). destruct Hii as [->| ->]; [done|]. rewrite Z.eqb_refl. by rewrite andb_false_r. }
    destruct Hout as [-> Hout]. unfold delivered_to. apply wp_bind.
    assert (HP1 : <[so := P1 <| pt_refcount := pt_refcount P1 - 1 |>]> (<[so := P1]> (packets s)) = packets s).
    { rewrite insert_insert_eq, insert_id; [done|]. rewrite HP. destruct P. unfold P1, upd. cbn. do 2 f_equal. lia. }
    case_bool_decide as Epl.
    + destruct Hout as ((lr & Hlr & Hrej) & Hw & Et). rewrite Et. eapply wp_pt_upd; [cbn; apply lookup_insert_eq|].
      apply wp_ret. apply wp_bind, wp_in_mkern. unfold rtdev_dereference.
      eapply wp_dev_upd; [cbn; rewrite Hw; cbn; apply lookup_insert_eq|]. apply wp_ret. split; [done|].
      split; [unfold tables; f_equal; f_equal; exact HP1|]. split_and!; [|done|].
      * exists lr. split; [done|]. destruct Hrej. by split.
      * cbn. rewrite Hw. cbn. by rewrite !insert_insert_eq.
    + destruct Hout as (s1 & C' & Hch & Es1 & Hinv' & Hib' & Hdv & Es' & (z & Hz & Ez) & _ & Hoth). rewrite Es1 in Hdv, Es'.
      rewrite Es'. eapply wp_pt_upd; [cbn; apply lookup_insert_eq|]. apply wp_ret. apply wp_bind, wp_in_mkern.
      pose proof Hch as (_ & _ & _ & _ & _ & _ & _ & _ & _ & Hw & _).
      unfold rtdev_dereference. eapply wp_dev_upd; [cbn; rewrite Hdv; apply lookup_insert_eq|]. apply wp_ret. split; [done|].
      split; [unfold tables; f_equal; f_equal; exact HP1|]. exists C', z. cbn [mkern upd].
      assert (Hd2 : ∀ v d', is_Some (devs (mkern t2) !! d') → is_Some (<[d := v]> (devs (mkern t2)) !! d')) by (intros; by apply insert_some).
      split_and!; try done.
      * destruct Hinv'. by split.
      * apply inbox_devs; [done|auto].
      * cbn. rewrite Hdv, Hw. cbn. rewrite !insert_insert_eq. f_equal. destruct D. unfold D', upd. cbn. f_equal. lia.
      * by rewrite Ez.
      * by rewrite Ez.
      * by rewrite Ez.
      * by rewrite Ez.
      * by rewrite Ez.
      * intros S2 l2 Hi2 Hne Hdis. apply inbox_devs; [|auto]. apply Hoth; [|done|done].
        eapply inbox_charged; [exact Hch|apply Hlo| |set_solver]. by apply inbox_devs.
  - destruct Hinv; by split.
  - split; [done|apply lookup_insert_eq|done|exact Hl].
  - by apply inbox_devs.
  - destruct Hlo; by split.
Qed.

(** C30: a received packet whose protocol is that of packet sockets: [rt_stack_deliver]
    asks them in the order of their registration, and the first one that is bound to no
    interface, or to the one of the packet's device, gets it.  Its pool pays for the
    packet, which is put at the end of its input queue, with one pending count more and
    a reference on the device; the packet's bytes are not touched, and the queues of
    other sockets stay.  If the pool is empty, the packet goes back to its own pool.
    Each socket of the protocol that was asked before and is bound to another interface
    costs the device one reference. *)
Theorem packet_delivery_correct s C l1 so l2 S P i li a x rp d D :
  pack_table s → pools_inv (mkern s) C → rt_packets_all s = [] →
  loose (mkern s) C a x rp → rtdev x = Some d → devs (mkern s) !! d = Some D →
  rt_packets s !! pack_hash (protocol x) = Some (l1 ++ so :: l2) → (∀ pt, pt ∈ l1 → refuses s (protocol x) D pt) →
  psock s so S P i → pt_type P = protocol x → protocol x ≠ ntohs ETH_P_ALL → i = 0 ∨ i = ifindex D →
  inbox (mkern s) C S li → callback_func S = None → a ∉ li →
  wp (rt_stack_deliver (rt_packet_rcv callback) None a)
     (λ _, delivered_to s C so S li a x rp d D (asked s (protocol x) l1)) s.
Proof.
  intros Ht Hinv Hall Hlo Hd HD Hb Href Hps Hty Hna Hii Hib Hcb Ha. eapply deliver_start_run; [done..|]. apply wp_bind.
  pose proof (lo_skb _ _ _ _ _ Hlo) as Hx. pose proof Ht as [Hlen Hnd Hent _]. specialize (Hnd _ _ Hb).
  set (x1 := x <| nh_raw := data x |>). set (s1 := s <| mkern := upd_skb a x1 (mkern s) |>).
  assert (Hfu : ∃ fuel, Datatypes.S (size (packets s)) = (length l1 + Datatypes.S fuel)%nat).
  { exists (size (packets s) - length l1)%nat. enough (length l1 ≤ size (packets s))%nat by lia.
    apply NoDup_length_size; [by apply NoDup_app in Hnd as [? _]|]. intros pt Hpt.
    destruct (Hent _ _ pt Hb) as (P' & HP' & _); [set_solver|eauto]. }
  destruct Hfu as [fuel ->]. match goal with |- wp _ _ ?t => assert (Et : t = unref d D 0 s1) by (symmetry; by apply unref_0) end.
  rewrite Et. clear Et. eapply (refused_run _ d D (protocol x) a x1 (so :: l2) _ s1 (upd_skb_lookup _ _ _) Hd eq_refl HD l1 [] 0); try done.
  cbn [head deliver_hash]. destruct Hps as [HS HP Hi Hl]. apply wp_bind. eapply wp_pt_load; [exact HP|]. apply wp_bind.
  eapply wp_mkern_load; [apply wp_exact; eapply wp_skb_load; [apply upd_skb_lookup|done]|].
  change (protocol x1) with (protocol x). rewrite Hty, Z.eqb_refl. change (asked s1) with (asked s).
  set (n := asked s (protocol x) l1).
  assert (Htk : wp (err ← call_handler (rt_packet_rcv callback) so a; in_mkern (rtdev_dereference d);;
      if err =? 0 then mret true else mret false)
     (λ r s', r = true ∧ delivered_to s1 C so S li a x1 rp d D n s') (unref d D n s1)).
  { eapply (taken_run s1 C so S P i li a x1 rp d D n); try done.
    - by eapply nh_pools.
    - by apply nh_inbox.
    - rewrite Hty. apply Z.eqb_neq in Hna as ->. apply andb_false_r.
    - by apply nh_loose. }
  revert Htk. rewrite Nat.add_0_l. unfold wp, mbind, M_bind.
  destruct (call_handler _ so a _) as [[err t]|]; [|done]. destruct (in_mkern _ t) as [[[] t2]|]; [|done].
  destruct (err =? 0); cbn; [|by intros [? _]]. intros [_ Hdel].
  unfold delivered_to in *. case_bool_decide; [exact Hdel|]. destruct Hdel as (Etb & C' & z & Hrest).
  split; [exact Etb|]. exists C', z. destruct Hrest as (? & ? & ? & ? & ? & ? & ? & ? & ? & ? & Ho). split_and!; try done.
  intros S2 l3 Hi2 Hne Hdis. apply Ho; [|done|done]. apply nh_inbox; [done|done|]. intros Hin. apply (Hdis a Hin). set_solver.
Qed.

(** A packet that every socket of its protocol refuses goes back to its pool. *)
Theorem packet_undelivered_correct s C bucket a x rp d D :
  pack_table s → pools_inv (mkern s) C → rt_packets_all s = [] →
  loose (mkern s) C a x rp → rtdev x = Some d → devs (mkern s) !! d = Some D →
  rt_packets s !! pack_hash (protocol x) = Some bucket → (∀ pt, pt ∈ bucket → refuses s (protocol x) D pt) →
  wp (rt_stack_deliver (rt_packet_rcv callback) None a)
     (λ _ s', tables s' = tables s ∧ rejected C a rp (mkern s') ∧ upper s' = upper s ∧
        devs (mkern s') = <[d := D <| refcount := refcount D - Z.of_nat (asked s (protocol x) bucket) - 1 |>]> (devs (mkern s))) s.
Proof.
  intros Ht Hinv Hall Hlo Hd HD Hb Href. eapply deliver_start_run; [done..|]. apply wp_bind.
  pose proof (lo_skb _ _ _ _ _ Hlo) as Hx. pose proof Ht as [Hlen Hnd Hent _]. specialize (Hnd _ _ Hb).
  set (x1 := x <| nh_raw := data x |>). set (s1 := s <| mkern := upd_skb a x1 (mkern s) |>).
  assert (Hfu : ∃ fuel, Datatypes.S (size (packets s)) = (length bucket + fuel)%nat).
  { exists (Datatypes.S (size (packets s)) - length bucket)%nat. enough (length bucket ≤ size (packets s))%nat by lia.
    apply NoDup_length_size; [done|]. intros pt Hpt. destruct (Hent _ _ pt Hb Hpt) as (P' & HP' & _). eauto. }
  destruct Hfu as [fuel ->]. match goal with |- wp _ _ ?t => assert (Et : t = unref d D 0 s1) by (symmetry; by apply unref_0) end.
  rewrite Et. clear Et. rewrite <-(app_nil_r bucket) at 2.
  eapply (refused_run _ d D (protocol x) a x1 [] _ s1 (upd_skb_lookup _ _ _) Hd eq_refl HD bucket [] 0);
    rewrite ?app_nil_r; try done.
  rewrite Nat.add_0_l. change (asked s1) with (asked s). set (n := asked s (protocol x) bucket).
  assert (Hret : ∀ fuel, deliver_hash (rt_packet_rcv callback) fuel None (pack_hash (protocol x)) d a = mret false) by (by intros []).
  cbn [head]. rewrite Hret. apply wp_ret. destruct (lo_pools _ _ _ _ _ Hlo) as [lr Hlr].
  apply wp_bind, wp_in_mkern. eapply (loose_free (mkern (unref d D n s1)) C a x1 rp lr); [| |done|].
  - destruct (nh_pools _ _ _ _ _ (data x) Hinv Hlo). by split.
  - destruct (nh_loose _ _ _ _ _ (data x) Hlo). by split.
  - intros k' Hk' Hw. apply wp_in_mkern. unfold rtdev_dereference.
    eapply wp_dev_upd; [cbn; rewrite Hw; cbn; apply lookup_insert_eq|]. split_and!; [done| |done|].
    + exists lr. split; [done|]. destruct Hk'. by split.
    + cbn. rewrite Hw. cbn. by rewrite insert_insert_eq.
Qed.
End delivery.
