(* ===== verification/PacketIo.v ===== *)
(** * Packet sockets: receiving, sending, closing

    What an application gets from [rt_packet_recvmsg], what [rt_packet_sendmsg] puts on
    the wire, and how a socket is closed. *)
From S2P Require Import Prelude State RtskbQueue Rtskb RtskbData RtskbFifo Rtdev Eth Iovec StackMgr IpFragment Socket IpOutput IpInput Udp Packet PacketOps.

Section name.
Context `{Config}.
Implicit Types (s : pkstate) (S : rtsocket) (P : rtpacket_type) (D : rtnet_device).

(** [rt_packet_getsockname] reports the interface of the binding with the hardware
    address of its device, if there is one, and changes nothing.  The protocol it
    reports is the one the socket was created with, not the one it is bound to. *)
Theorem rt_packet_getsockname_correct s so S P i sll addrlen :
  devtab (mkern s) → psock s so S P i → length (sll_addr sll) = 8%nat →
  (∀ d D, registered (mkern s) d → devs (mkern s) !! d = Some D → (addr_len D ≤ 8 ∧ addr_len D ≤ length (dev_addr D))%nat) →
  wp (rt_packet_getsockname so sll addrlen)
     (λ r s', s' = s ∧
        if addrlen <? SIZEOF_SOCKADDR_LL then r = (- EINVAL, None)
        else ∃ a, r = (0, Some (a, SIZEOF_SOCKADDR_LL)) ∧ sll_family a = AF_PACKET ∧ sll_ifindex a = i ∧
          sll_protocol a = so_protocol S ∧
          (sll_halen a = 0 ∧ (∀ d D, registered (mkern s) d → devs (mkern s) !! d = Some D → ifindex D ≠ i) ∨
           ∃ d D, registered (mkern s) d ∧ devs (mkern s) !! d = Some D ∧ ifindex D = i ∧
             sll_halen a = Z.of_nat (addr_len D) ∧ sll_hatype a = dtype D ∧
             take (addr_len D) (sll_addr a) = take (addr_len D) (dev_addr D))) s.
Proof.
  intros Ht [HS HP Hi _] H8 Hdev. unfold rt_packet_getsockname. destruct (addrlen <? SIZEOF_SOCKADDR_LL); [by apply wp_ret|].
  apply wp_bind. eapply wp_load_ifindex; [done|]. apply wp_bind. eapply wp_psock_load; [done|].
  apply wp_bind, wp_in_mkern. eapply wp_mono; [|by apply get_by_index_run]. intros r k Hlook. destruct r as [d|]; cbn in Hlook.
  - destruct Hlook as (D & Hr & HD & Hx & ->). destruct (Hdev d D Hr HD) as [Ha1 Ha2]. apply Z.eqb_eq in Hx.
    apply wp_bind. eapply wp_mkern_load; [apply wp_exact; eapply wp_dev_load; [apply lookup_insert_eq|done]|].
    cbn [addr_len dev_addr dtype upd]. unfold mem_read. rewrite (proj2 (Nat.leb_le _ _) Ha2). apply wp_bind. eapply wp_deref; [done|].
    cbn [sll_addr upd]. rewrite H8, (proj2 (Nat.ltb_ge 8 (addr_len D)) Ha1).
    apply wp_bind, wp_in_mkern. apply wp_ref_deref; [done|]. apply wp_ret. split; [by destruct s|].
    eexists. split; [done|]. split_and!; [done..|]. right. exists d, D. split_and!; [done..| |done|].
    + cbn. unfold u8. rewrite Z.mod_small; lia.
    + cbn. unfold memcpy. rewrite take_take, Nat.min_id, take_app_le, take_take, Nat.min_id; [done|]. rewrite length_take. lia.
  - destruct Hlook as [-> Hno]. apply wp_ret. split; [by destruct s|]. eexists. split; [done|]. split_and!; [done..|].
    left. split; [done|]. intros d D Hr HD E. specialize (Hno d D Hr HD). lia.
Qed.
End name.

Section recv.
Context `{Config}.
Implicit Types (s : pkstate) (k : kstate) (S : rtsocket) (C : gmap nat (list nat)) (x y : rtskb).

(** The packet as a socket of type [ty] sees it: with the link header, unless the type
    is [SOCK_DGRAM]. *)
Definition seen_as (ty : Z) x : rtskb :=
  if ty =? SOCK_DGRAM then x else x <| data := mac_raw x |> <| len := len x + (data x - mac_raw x) |>.
Definition frame_of (ty : Z) x : list Z := payload (seen_as ty x).
(** The link header is in front of the packet. *)
Definition headed x : Prop := buf_start x ≤ mac_raw x ≤ data x ∧ mac_raw x + 12 ≤ buf_start x + Z.of_nat (length (buf x)).

Lemma seen_as_ok ty x : wf_rtskb x → headed x → wf_rtskb (seen_as ty x) ∧ (ty ≠ SOCK_DGRAM →
  drop (Z.to_nat (data x - mac_raw x)) (frame_of ty x) = payload x).
Proof.
  intros Hwf [Hm _]. unfold frame_of, seen_as. destruct (Z.eqb_spec ty SOCK_DGRAM) as [->|Hne]; [done|].
  destruct (push_ok x (data x - mac_raw x)) as (E & Hw & Hp); [done|unfold headroom; lia|]. rewrite E in Hw, Hp. cbn [snd] in *.
  replace (data x - (data x - mac_raw x)) with (mac_raw x) in * by lia. split; [done|]. intros _. exact Hp.
Qed.
(** The header of a raw socket. *)
Lemma wp_raw_push ty a x k (Q : () → kstate → Prop) :
  skbs k !! a = Some x → wf_rtskb x → headed x → Q () (upd_skb a (seen_as ty x) k) →
  wp (when (negb (ty =? SOCK_DGRAM)) (skb_upd a (λ x, snd (rtskb_push (u32 (data x - mac_raw x)) x)))) Q k.
Proof.
  intros Hx Hwf [Hm _] HQ. unfold seen_as in HQ. destruct (ty =? SOCK_DGRAM); cbn [negb when].
  { apply wp_ret. by rewrite upd_skb_id in HQ. }
  eapply wp_skb_upd; [done|]. pose proof Hwf as [Hs Hd Hl Ht He].
  rewrite u32_id by (unfold is_u32; lia).
  destruct (push_ok x (data x - mac_raw x)) as (E & _ & _); [done|unfold headroom; lia|]. rewrite E. cbn [snd].
  replace (data x - (data x - mac_raw x)) with (mac_raw x) by lia. exact HQ.
Qed.
(** The sender's address. *)
Definition name_of x (D : rtnet_device) (msg_name : option sockaddr_ll) : option sockaddr_ll :=
  (λ sll, default sll (sender_ll x D sll)) <$> msg_name.
Lemma sender_ll_some x D sll : headed x → is_Some (sender_ll x D sll).
Proof. intros [Hm Hb]. unfold sender_ll. rewrite buf_read_range by lia. cbn. eauto. Qed.

(** Waiting is over: the state with the semaphore taken. *)
Lemma wp_sem_down s so S n timeout waited (Q : Z → pkstate → Prop) :
  pw_socks (upper s) !! so = Some S → pending_sem S = Some n → 0 < n →
  Q 0 (s <| upper := (upper s) <| pw_socks := <[so := S <| pending_sem := Some (n - 1) |>]> (pw_socks (upper s)) |> |>) →
  wp (in_pf (sem_timeddown so timeout waited)) Q s.
Proof.
  intros HS Hp Hn HQ. apply wp_in_pf. unfold sem_timeddown. apply wp_bind. eapply wp_sock_load; [done|]. rewrite Hp.
  apply Z.ltb_lt in Hn as ->. apply wp_bind. eapply wp_sock_upd; [done|]. apply wp_ret. by destruct s as [? ? ? ? ? []].
Qed.
Lemma wp_in_pmem {A} (g : umem → option (A * umem)) a m (Q : A → pkstate → Prop) s :
  g (pw_mem (upper s)) = Some (a, m) → Q a (s <| upper := (upper s) <| pw_mem := m |> |>) → wp (in_pmem g) Q s.
Proof. intros E HQ. unfold wp, in_pmem. by rewrite E. Qed.

(** A change of the waiting packet itself keeps its place. *)
Lemma waiting_seen k C q a x ty d :
  loose k C a x q → headed x → rtdev x = Some d → is_Some (devs k !! d) → waiting (upd_skb a (seen_as ty x) k) C q a.
Proof.
  intros [Hx Hwf He Hp Hps Hu Hc] Hh Hd HD. exists (seen_as ty x), d. destruct (seen_as_ok ty x Hwf Hh) as [Hw _].
  assert (E : chain_end (seen_as ty x) = chain_end x ∧ pool (seen_as ty x) = pool x ∧
    cap_flags (seen_as ty x) = cap_flags x ∧ rtdev (seen_as ty x) = rtdev x)
    by (unfold seen_as; by destruct (ty =? SOCK_DGRAM)).
  destruct E as (E1 & E2 & E3 & E4). split_and!; [|congruence|done].
  split; [apply upd_skb_lookup|done|congruence|congruence|done|done|by rewrite E3].
Qed.

(** The outcome for the packet: released, or kept for the next call. *)
Definition after_recv (peek : bool) s C so S n a li l0 d (D : rtnet_device) (bytes : list Z) x s' : Prop :=
  if peek then
    pools_inv (mkern s') C ∧ inbox (mkern s') C S (a :: li) ∧ devs (mkern s') = devs (mkern s) ∧
    pw_socks (upper s') = pw_socks (upper s) ∧
    ∃ y, skbs (mkern s') !! a = Some y ∧ payload y = bytes ∧ mac_raw y = mac_raw x
  else
    pools_inv (mkern s') (<[skb_pool S := l0 ++ [a]]> C) ∧ inbox (mkern s') (<[skb_pool S := l0 ++ [a]]> C) S li ∧
    devs (mkern s') = <[d := D <| refcount := refcount D - 1 |>]> (devs (mkern s)) ∧
    pw_socks (upper s') = <[so := S <| pending_sem := Some (n - 1) |>]> (pw_socks (upper s)).

(** The end of the call, when the packet was copied. *)
Lemma recv_end_run {A} (r : A) peek s t C so S n a li l0 d D y bytes x (v : Z) (Q : A → pkstate → Prop) :
  pools_inv (mkern t) C → inbox (mkern t) C S li → waiting (mkern t) C (skb_pool S) a → a ∉ li →
  skbs (mkern t) !! a = Some y → rtdev y = Some d → payload y = bytes → mac_raw y = mac_raw x →
  devs (mkern t) = devs (mkern s) → devs (mkern s) !! d = Some D → C !! skb_pool S = Some l0 →
  pw_socks (upper s) !! so = Some S → pending_sem S = Some n →
  pw_socks (upper t) = <[so := S <| pending_sem := Some (n - 1) |>]> (pw_socks (upper s)) →
  (∀ s', pw_mem (upper s') = pw_mem (upper t) → after_recv peek s C so S n a li l0 d D bytes x s' → Q r s') →
  wp (if negb peek then d ← deref (rtdev y); in_mkern (rtdev_dereference d);; in_mkern (kfree_rtskb (Some a));; mret r
      else in_mkern (rtskb_queue_head (incoming S) a);; in_pf (sem_up so);; mret r) Q t.
Proof.
  intros Hinv Hib Hwa Ha Hy Hd Hp Hm Hdv HD Hl0 HS Hn Hso HQ. destruct peek; cbn [negb].
  - apply wp_bind, wp_in_mkern. eapply wp_mono; [|by eapply enqueue_head_run].
    intros [] k' (Hinv' & Hib' & Hw & _ & HR). apply wp_bind, wp_in_pf. unfold sem_up.
    eapply wp_sock_upd; [cbn; rewrite Hso; apply lookup_insert_eq|]. apply wp_ret. apply HQ; [done|].
    split_and!; [exact Hinv'|exact Hib'|cbn; rewrite Hw; exact Hdv| |].
    + cbn. rewrite Hso, insert_insert_eq, insert_id; [done|]. rewrite HS. f_equal. destruct S. cbn in *. rewrite Hn. cbn.
      unfold upd. cbn. do 2 f_equal. lia.
    + specialize (HR a). cbn in HR. rewrite Hy in HR. cbn. destruct (skbs k' !! a) as [z|]; [|done]. exists z.
      destruct HR as [E _]. split; [done|]. by rewrite E.
  - apply wp_bind. eapply wp_deref; [done|]. apply wp_bind, wp_in_mkern. unfold rtdev_dereference.
    eapply wp_dev_upd; [by rewrite Hdv|]. apply wp_bind, wp_in_mkern.
    eapply wp_mono; [|eapply (inbox_free_run _ C S li a l0); [destruct Hinv; by split| | |done|done]].
    + intros [] k' (Hinv' & Hib' & Hw & _). apply wp_ret. apply HQ; [done|]. split_and!; [done|done| |done].
      cbn. rewrite Hw. cbn. by rewrite Hdv.
    + apply inbox_devs; [done|intros; by apply insert_some].
    + destruct Hwa as (z & d' & Hlo & Hd' & HD'). exists z, d'. split_and!; [destruct Hlo; by split|done|by apply insert_some].
Qed.

(** [rt_packet_recvmsg] on a socket with a waiting packet gives the caller the first
    one: its bytes (with the link header for a raw socket) as far as the caller's buffers
    reach, in order, the length of the whole packet as result, [MSG_TRUNC] exactly if it
    did not fit, and the sender's address.  The packet is then released into the pool of
    the socket, with the reference on its device; with [MSG_PEEK] it stays the first one
    and the next call sees the same bytes. *)
Theorem rt_packet_recvmsg_correct ty s C so S n a li l0 x d D iov msg_name msg_flags waited :
  let bytes := frame_of ty x in
  let m := Nat.min (length (iov_addrs iov)) (length bytes) in
  pools_inv (mkern s) C → pw_socks (upper s) !! so = Some S → pending_sem S = Some n → 0 < n →
  inbox (mkern s) C S (a :: li) → C !! skb_pool S = Some l0 →
  skbs (mkern s) !! a = Some x → rtdev x = Some d → devs (mkern s) !! d = Some D →
  headed x → Z.of_nat (length bytes) < 2 ^ 31 →
  iov_ok iov (pw_mem (upper s)) → Z.of_nat (length (iov_addrs iov)) < 2 ^ 31 →
  wp (rt_packet_recvmsg ty so iov msg_name msg_flags waited)
     (λ r s', r = (Z.of_nat (length bytes), name_of x D msg_name,
                   if (length (iov_addrs iov) <? length bytes)%nat then MSG_TRUNC else 0) ∧
        pw_mem (upper s') = store_all (zip (take m (iov_addrs iov)) (take m bytes)) (pw_mem (upper s)) ∧
        after_recv (negb (Z.land msg_flags MSG_PEEK =? 0)) s C so S n a li l0 d D bytes x s') s.
Proof.
  intros bytes m Hinv HS Hn Hpos Hib Hl0 Hx Hd HD Hh Hbl Hok Hal. unfold rt_packet_recvmsg.
  rewrite (rt_iovec_len_addrs iov) by (apply Hok || lia). apply wp_bind. eapply wp_psock_load; [done|].
  apply wp_bind. eapply wp_sem_down; [done..|]. cbn [Z.ltb Z.compare]. apply wp_bind, wp_in_mkern.
  eapply wp_mono; [|by eapply inbox_dequeue_chain_run]. intros r k1 (-> & Hinv1 & Hib1 & Hw1 & Hsw & Ho1 & HR & Ha).
  assert (∃ x1, skbs k1 !! a = Some x1 ∧ x1 = x <| next := next x1 |>) as (x1 & Hx1 & Ex).
  { specialize (HR a). cbn in HR. rewrite Hx in HR. destruct (skbs k1 !! a) as [z|]; [|done]. exists z. by destruct HR. }
  assert (Hlo1 : loose k1 C a x1 (skb_pool S)) by (destruct Hw1 as (x' & d' & Hlo & _); pose proof (lo_skb _ _ _ _ _ Hlo); by simplify_eq).
  assert (Hdev : devs k1 = devs (mkern s)) by (by rewrite Hsw).
  assert (Hh1 : headed x1) by (rewrite Ex; exact Hh). assert (Hd1 : rtdev x1 = Some d) by (by rewrite Ex).
  set (y := seen_as ty x1). destruct (seen_as_ok ty x1 (lo_wf _ _ _ _ _ Hlo1) Hh1) as [Hwy _]. fold y in Hwy.
  assert (Hpy : payload y = bytes).
  { unfold y, bytes, frame_of, seen_as. rewrite Ex. by destruct (ty =? SOCK_DGRAM). }
  pose proof (length_payload _ Hwy) as Hly. rewrite Hpy in Hly.
  apply wp_bind. eapply wp_mkern_load; [apply wp_exact; eapply wp_skb_load; [exact Hx1|done]|]. apply wp_bind.
  apply (wp_mono _ (λ r t, r = name_of x D msg_name ∧ t = s <| mkern := k1 |> <| upper := (upper s)
    <| pw_socks := <[so := S <| pending_sem := Some (n - 1) |>]> (pw_socks (upper s)) |> |>)).
  2: { destruct msg_name as [sll|]; [|by apply wp_ret]. apply wp_bind. eapply wp_deref; [done|].
    apply wp_bind. eapply wp_mkern_load; [apply wp_exact; eapply wp_dev_load; [cbn; rewrite Hdev; exact HD|done]|].
    destruct (sender_ll_some x D sll Hh) as [v Hv]. apply wp_bind. eapply wp_deref; [exact Hv|].
    apply wp_ret. cbn. by rewrite Hv. }
  intros r t [-> ->]. apply wp_bind.
  apply (wp_mono _ (λ _ t, t = s <| mkern := upd_skb a y k1 |> <| upper := (upper s)
    <| pw_socks := <[so := S <| pending_sem := Some (n - 1) |>]> (pw_socks (upper s)) |> |>)).
  2: { pose proof (wp_raw_push ty a x1 k1 (λ _ t, t = upd_skb a y k1) Hx1 (lo_wf _ _ _ _ _ Hlo1) Hh1 eq_refl) as Hpush.
    destruct (negb (ty =? SOCK_DGRAM)); cbn [when] in *.
    - apply wp_in_mkern. eapply wp_mono; [|exact Hpush]. by intros [] t ->.
    - apply wp_elim in Hpush as ([] & t & E & E'). injection E as E. apply wp_ret. rewrite <-E', <-E. done. }
  intros [] t ->. apply wp_bind. eapply wp_mkern_load; [apply wp_exact; eapply wp_skb_load; [apply upd_skb_lookup|done]|].
  apply wp_bind, wp_in_mkern. eapply (wp_read_payload a y 0); [apply upd_skb_lookup|done|lia|lia|lia|].
  rewrite drop_0, take_ge by (rewrite Hpy; lia). rewrite Hpy, <-Hly. set (room := length (iov_addrs iov)) in *.
  assert (Hcl : s32 (if Z.of_nat room <? Z.of_nat (length bytes) then Z.of_nat room else Z.of_nat (length bytes)) = Z.of_nat m).
  { rewrite s32_small; destruct (Z.ltb_spec (Z.of_nat room) (Z.of_nat (length bytes))); unfold m; lia. }
  rewrite Hcl. pose proof (tokernel_run iov bytes (Z.of_nat m) (pw_mem (upper s)) Hok ltac:(unfold m; lia) ltac:(unfold m; lia)) as Ht.
  cbn zeta in Ht. rewrite Nat2Z.id, (proj2 (Nat.leb_le _ _)) in Ht by (unfold m, room; lia). destruct Ht as (iov' & Ht & _).
  apply wp_bind. eapply wp_in_pmem; [exact Ht|].
  replace (Z.of_nat room <? Z.of_nat (length bytes)) with (room <? length bytes)%nat
    by (destruct (Nat.ltb_spec room (length bytes)), (Z.ltb_spec (Z.of_nat room) (Z.of_nat (length bytes))); lia || done).
  match goal with |- wp (if ?c then _ else _) _ _ => rewrite <-(negb_involutive c) end.
  eapply (recv_end_run _ _ s _ C so S n a li l0 d D y bytes x 0); try done; cbn [mkern upper upd].
  - eapply pools_inv_touch; [exact Hinv1|apply Hlo1|..]; cbn; [|eauto]. intros b Hb. by apply lookup_insert_ne.
  - eapply inbox_frame; [exact Hib1|done|apply Hib1|apply Hib1| |done]. intros b Hb. split; [|done]. cbn.
    apply lookup_insert_ne. by intros ->.
  - eapply waiting_seen; [done|done|done|]. rewrite Hdev. eauto.
  - apply upd_skb_lookup.
  - unfold y, seen_as. by destruct (ty =? SOCK_DGRAM).
  - unfold y, seen_as. rewrite Ex. by destruct (ty =? SOCK_DGRAM).
  - intros s' Hmem Haf. split; [done|]. split; [exact Hmem|]. by rewrite negb_involutive.
Qed.
End recv.
