(* ===== verification/PacketSend.v ===== *)
(** * Packet sockets: sending

    What [rt_packet_sendmsg] puts on the wire through an Ethernet device, and its result
    on every path. *)
From S2P Require Import Prelude State RtskbQueue Rtskb RtskbData RtskbFifo Rtdev Eth Iovec StackMgr IpFragment Socket IpOutput IpInput Udp UdpOps UdpSend Packet PacketOps.

(** An Ethernet device as [rt_eth_setup] and its driver set it up. *)
Record ether (D : rtnet_device) : Prop := {
  et_alen : addr_len D = ETH_ALEN;
  et_hlen : hard_header_len D = ETH_HLEN;
  et_addr : (ETH_ALEN ≤ length (dev_addr D))%nat;
  et_mtu : 0 ≤ mtu D < 2 ^ 16;
  et_arp : Z.land (flags D) (Z.lor IFF_LOOPBACK IFF_NOARP) = 0;
}.

Section header.
Context `{Config}.
Implicit Types (k : kstate) (x y z : rtskb).

Definition eth_hook (d : nat) : option (nat → Z → option (list Z) → option (list Z) → Z → M kstate Z) :=
  Some (λ skb type daddr saddr len0, rt_eth_header skb d type daddr saddr len0).

(** A packet with other contents in front. *)
Definition pushed x y : Prop :=
  wf_rtskb y ∧ y = x <| mac_raw := mac_raw y |> <| data := data x - ETH_HLEN |> <| len := len x + ETH_HLEN |> <| buf := buf y |> ∧
  length (buf y) = length (buf x).
Definition opt_long (daddr : option (list Z)) : Prop := match daddr with Some a => (ETH_ALEN ≤ length a)%nat | None => True end.

(** Whatever the addresses, the header is in front; without a destination the result is
    negative. *)
Lemma eth_header_shape k a d D x type daddr saddr len0 :
  skbs k !! a = Some x → devs k !! d = Some D → wf_rtskb x → ETH_HLEN ≤ headroom x → ether D → opt_long daddr → opt_long saddr →
  wp (rt_eth_header a d type daddr saddr len0)
     (λ r k', (r <? 0) = bool_decide (daddr = None) ∧ ∃ y, k' = upd_skb a y k ∧ pushed x y) k.
Proof.
  intros Hx HD Hwf Hh [Ha Hl Hdev _ Hfl] Hda Hsa0.
  assert (Had : (ETH_ALEN ≤ length (default (dev_addr D) saddr))%nat) by (by destruct saddr).
  destruct (push_ok x ETH_HLEN Hwf ltac:(split; [done|exact Hh])) as (E0 & Hw0 & _). rewrite E0 in Hw0. cbn [snd] in Hw0.
  unfold rt_eth_header. apply wp_bind. eapply wp_skb_load; [done|]. rewrite E0.
  set (x1 := x <| data := data x - ETH_HLEN |> <| len := len x + ETH_HLEN |> <| mac_raw := data x - ETH_HLEN |>).
  assert (Hw1 : wf_rtskb x1) by (destruct Hw0; by split). pose proof (wf_len _ Hwf) as Hl0.
  assert (El : len x1 = len x + 14) by done. assert (Ed : data x1 = data x - ETH_HLEN) by done.
  assert (Hfin : ∀ y, same_frame x1 y → wf_rtskb y → pushed x y).
  { intros y [E L] Hw. split_and!; [done| |exact L]. rewrite E. done. }
  apply wp_bind, wp_modify. fold (upd_skb a x1 k). apply wp_bind. eapply wp_dev_load; [exact HD|]. rewrite Ha, Hl.
  apply wp_bind. eapply (wp_write_payload a x1 12); [done|destruct (negb _); rewrite length_be16; lia|rewrite Ed; lia|]. intros x2 F2 Hw2 _.
  pose proof F2 as [E2 _]. assert (El2 : len x2 = len x1) by (by rewrite E2).
  unfold mem_read. rewrite (proj2 (Nat.leb_le ETH_ALEN _) Had). apply wp_bind. eapply wp_deref; [done|].
  assert (Hsl : length (take ETH_ALEN (default (dev_addr D) saddr)) = 6%nat) by (rewrite length_take; unfold ETH_ALEN in *; lia).
  apply wp_bind. eapply (wp_write_payload a x2 6); [done|rewrite Hsl; lia|rewrite E2; cbn; lia|]. intros x3 F3 Hw3 _.
  pose proof (same_frame_trans _ _ _ F2 F3) as F13. pose proof F13 as [E3 _]. assert (El3 : len x3 = len x1) by (by rewrite E3).
  rewrite Hfl. cbn [Z.eqb negb]. destruct daddr as [da|].
  - cbn in Hda. rewrite (proj2 (Nat.leb_le ETH_ALEN _) Hda). apply wp_bind. eapply wp_deref; [done|].
    assert (Hdl : length (take ETH_ALEN da) = 6%nat) by (rewrite length_take; unfold ETH_ALEN in *; lia).
    apply wp_bind. eapply (wp_write_payload a x3 0); [done|rewrite Hdl; lia|rewrite E3; cbn; lia|]. intros y F4 Hwy _.
    apply wp_ret. split; [by rewrite bool_decide_eq_false_2|]. exists y. split; [done|]. apply Hfin; [|done]. by eapply same_frame_trans.
  - apply wp_ret. split; [by rewrite bool_decide_eq_true_2|]. exists x3. split; [done|]. by apply Hfin.
Qed.

(** What precedes the message on the wire. *)
Definition link_bytes (ty : Z) (D : rtnet_device) (addr : option (list Z)) (proto : Z) : list Z :=
  if ty =? SOCK_DGRAM then take ETH_ALEN (default [] addr) ++ take ETH_ALEN (dev_addr D) ++ be16 (ntohs proto) else [].

(** The packet is the buffer [x], reserved for the header: empty, with its data at
    [ETH_HLEN] bytes from the start. *)
Lemma packet_header_run ty k a d D x proto addr len0 (n : Z) :
  skbs k !! a = Some x → devs k !! d = Some D → ether D → opt_long addr → ty = SOCK_RAW ∨ ty = SOCK_DGRAM →
  wf_rtskb x → data x = buf_start x + ETH_HLEN → len x = 0 → n + ETH_HLEN ≤ Z.of_nat (length (buf x)) →
  (ty = SOCK_DGRAM → ntohs proto ≠ ETH_P_802_3) →
  wp (packet_header eth_hook ty d a proto addr len0)
     (λ ok k', ok = negb ((ty =? SOCK_DGRAM) && bool_decide (addr = None)) ∧ ∃ y, k' = upd_skb a y k ∧ wf_rtskb y ∧
        (rtdev y, pool y, chain_end y, cap_flags y) = (rtdev x, pool x, chain_end x, cap_flags x) ∧
        (ok = true → payload y = link_bytes ty D addr proto ∧
           n + (if ty =? SOCK_RAW then ETH_HLEN else 0) ≤ tailroom y)) k.
Proof.
  intros Hx HD He Hda Hty Hwf Hdx Hlx Hn Hnp. unfold packet_header, eth_hook. apply wp_bind.
  assert (Hh : ETH_HLEN ≤ headroom x) by (unfold headroom; lia). pose proof (wf_tail _ Hwf) as Htx.
  destruct Hty as [-> | ->]; cbn [Z.eqb negb andb SOCK_RAW SOCK_DGRAM Pos.eqb].
  - eapply wp_mono; [|by eapply (eth_header_shape k a d D x)]. intros r k' (_ & y & -> & Hw & Ey & Hbl).
    apply wp_bind. eapply wp_skb_upd; [apply upd_skb_lookup|]. apply wp_ret. split; [done|].
    eexists. split; [apply upd_skb_twice|]. destruct Hw as [H1 H2 H3 H4 H5].
    split; [split; cbn; lia|]. split; [by rewrite Ey|]. intros _. unfold link_bytes, tailroom, payload. cbn.
    split; [done|]. rewrite Ey. cbn. rewrite Hbl. lia.
  - destruct addr as [da|].
    + pose proof He as [Ha Hl Had _ Hfl].
      eapply wp_mono; [|eapply wp_both; [eapply (rt_eth_header_run k a d D x (ntohs proto) da None); auto|
        by eapply (eth_header_shape k a d D x)]].
      intros r k' ((-> & y & -> & Hwy & _ & Ey & Hp) & _ & y' & Ek & _ & _ & Hbl).
      assert (y' = y) as ->.
      { pose proof (upd_skb_lookup a y k) as E. rewrite Ek, upd_skb_lookup in E. by injection E. }
      apply wp_ret. rewrite Hl. split; [done|]. exists y. split; [done|]. split; [done|]. split; [by rewrite Ey|]. intros _.
      assert (Hnil : payload x = []) by (apply nil_length_inv; pose proof (length_payload _ Hwf); lia).
      split; [by rewrite Hp, Hnil, app_nil_r|]. unfold tailroom. rewrite Hbl, Ey. cbn. lia.
    + eapply wp_mono; [|by eapply (eth_header_shape k a d D x)]. intros r k' (Hr & y & -> & Hw & Ey & Hbl).
      apply wp_ret. rewrite Hr. split; [done|]. exists y. split; [done|]. split; [done|]. split; [by rewrite Ey|]. by rewrite bool_decide_eq_true_2.
Qed.
End header.

Section send.
Context `{Config} (drv_xmit : nat → nat → M kstate Z).
Implicit Types (s t : pkstate) (k : kstate) (S : rtsocket) (C : gmap nat (list nat)) (x y z : rtskb) (D : rtnet_device).

Definition too_long (ty : Z) D (n : Z) : bool := mtu D + (if ty =? SOCK_RAW then ETH_HLEN else 0) <? n.
Definition bad_halen D (msg_name : option (sockaddr_ll * Z)) : bool :=
  match msg_name with Some (sll, _) => negb (sll_halen sll =? Z.of_nat (addr_len D)) | None => false end.
(** The result for a message of [n] bytes through device [D]; [free] tells whether the
    pool has a buffer. *)
Definition send_result (ty : Z) D (free : bool) (msg_name : option (sockaddr_ll * Z)) (n : Z) : Z :=
  if negb free then - ENOBUFS
  else if too_long ty D n then - EMSGSIZE
  else if bad_halen D msg_name then - EINVAL
  else if (ty =? SOCK_DGRAM) && bool_decide (msg_name = None) then - EINVAL
  else if Z.land (flags D) IFF_UP =? 0 then - ENETDOWN
  else n.
(** The state after the call: the packet went to the driver, or back to the pool. *)
Definition send_done s C (q : nat) (l : list nat) (d : nat) (frame : list Z) (ret : Z) s' : Prop :=
  s' = s <| mkern := mkern s' |> ∧ devs (mkern s') = devs (mkern s) ∧
  match l with
  | [] => s' = s
  | a :: l =>
      if 0 <=? ret
      then pools_inv (mkern s') (<[q := l]> C) ∧ xmit_log (mkern s') = xmit_log (mkern s) ++ [(d, a, frame)]
      else pools_inv (mkern s') (<[q := l ++ [a]]> C) ∧ xmit_log (mkern s') = xmit_log (mkern s)
  end.

(** The states on the way: buffer [a] was taken from the pool, the rest is as in [s]. *)
Record sending s C (q a : nat) (l : list nat) d D y t : Prop := {
  sg_state : t = s <| mkern := mkern t |>;
  sg_pools : pools_inv (mkern t) (<[q := l]> C);
  sg_loose : loose (mkern t) (<[q := l]> C) a y q;
  sg_world : same_world (ref_taken (mkern s) d D) (mkern t);
}.
Lemma sending_devs s C q a l d D y t : sending s C q a l d D y t →
  devs (mkern t) = <[d := D <| refcount := refcount D + 1 |>]> (devs (mkern s)) ∧ xmit_log (mkern t) = xmit_log (mkern s).
Proof. intros [_ _ _ Hw]. by rewrite Hw. Qed.
(** A change of the packet itself. *)
Lemma sending_upd s C q a l d D y t z :
  sending s C q a l d D y t → wf_rtskb z →
  (pool z, chain_end z, cap_flags z) = (pool y, chain_end y, cap_flags y) →
  sending s C q a l d D z (t <| mkern := upd_skb a z (mkern t) |>).
Proof.
  intros [E Hp [Hx Hwf He Hpo Hps Hu Hc] Hw] Hwz Ez. injection Ez as E1 E2 E3. split; cbn.
  - by rewrite E.
  - eapply pools_inv_touch; [exact Hp|exact Hu|..]; cbn; [|eauto]. intros b Hb. by apply lookup_insert_ne.
  - split; [apply upd_skb_lookup|done|congruence|congruence|done|done|by rewrite E3].
  - rewrite Hw. by destruct (mkern s).
Qed.
(** Giving back the reference. *)
Lemma send_out_run s C q a l d D y t ret (k' : kstate) (Q : Z → pkstate → Prop) :
  devs (mkern s) !! d = Some D → devs k' = <[d := D <| refcount := refcount D + 1 |>]> (devs (mkern s)) →
  sending s C q a l d D y t → Q ret (s <| mkern := k' <| devs := devs (mkern s) |> |>) →
  wp (send_out d ret) Q (t <| mkern := k' |>).
Proof.
  intros HD Hdv [E _ _ _] HQ. unfold send_out. apply wp_bind, wp_in_mkern. unfold rtdev_dereference.
  eapply wp_dev_upd; [cbn; rewrite Hdv; apply lookup_insert_eq|]. apply wp_ret. rewrite E. unfold upd. cbn.
  rewrite Hdv, insert_insert_eq, insert_id; [exact HQ|]. rewrite HD. f_equal. destruct D. unfold upd. cbn. f_equal. lia.
Qed.
Lemma send_err_run s C q a l d D y t frame ret :
  devs (mkern s) !! d = Some D → C !! q = Some (a :: l) → sending s C q a l d D y t → ret < 0 →
  wp (send_err d a ret) (λ r s', r = ret ∧ send_done s C q (a :: l) d frame ret s') t.
Proof.
  intros HD HC Hs Hr. destruct (sending_devs _ _ _ _ _ _ _ _ _ Hs) as [Hdv Hlog]. pose proof Hs as [_ Hp Hlo _].
  unfold send_err. apply wp_bind, wp_in_mkern. eapply (loose_free (mkern t)); [done|done|apply lookup_insert_eq|].
  intros k' Hinv Hw. rewrite insert_insert_eq in Hinv. assert (Edv : devs k' = devs (mkern t)) by (by rewrite Hw).
  eapply (send_out_run s C q a l d D y t); [done|by rewrite Edv, Hdv|done|]. split; [done|]. split_and!; [done|done|].
  replace (0 <=? ret) with false by lia. cbn. split; [destruct Hinv; by split|]. rewrite Hw. exact Hlog.
Qed.

(** The message is put into the packet and sent. *)
Lemma send_fill_run s C q a l d D y t iov bytes prefix :
  devs (mkern s) !! d = Some D → C !! q = Some (a :: l) → sending s C q a l d D y t → rtdev y = Some d →
  payload y = prefix → Z.of_nat (length bytes) ≤ tailroom y → Z.of_nat (length bytes) < 2 ^ 31 →
  iov_ok iov (pw_mem (upper s)) → load_all (iov_addrs iov) (pw_mem (upper s)) = Some bytes →
  driver_spec drv_xmit d (D <| refcount := refcount D + 1 |>) →
  let n := Z.of_nat (length bytes) in
  let ret := if Z.land (flags D) IFF_UP =? 0 then - ENETDOWN else n in
  wp (x ← in_mkern (skb_load a);
      let '(p, x) := rtskb_put (u32 n) x in
      in_mkern (skb_store a x);;
      m ← gets (λ s, pw_mem (upper s));
      b ← deref (rt_memcpy_fromkerneliovec iov (s32 n) m);
      in_mkern (skb_write a p b.1);;
      D ← in_mkern (dev_load d);
      if negb (Z.land (flags D) IFF_UP =? 0) then
        ret ← in_mkern (rtdev_xmit drv_xmit (Some a));
        send_out d (if ret =? 0 then s32 n else ret)
      else send_err d a (- ENETDOWN))
     (λ r s', r = ret ∧ send_done s C q (a :: l) d (prefix ++ bytes) ret s') t.
Proof.
  intros HD HC Hs Hrd Hpre Hroom Hsm Hok Hload Hdrv n ret. pose proof (load_all_length _ _ _ Hload) as Hla.
  destruct (sending_devs _ _ _ _ _ _ _ _ _ Hs) as [Hdv Hlog]. pose proof Hs as [Es Hp Hlo Hw].
  pose proof (lo_wf _ _ _ _ _ Hlo) as Hwf. pose proof (lo_skb _ _ _ _ _ Hlo) as Hy.
  apply wp_bind. eapply wp_mkern_load; [apply wp_exact; eapply wp_skb_load; done|].
  rewrite u32_id by (unfold is_u32, n; lia). destruct (put_ok y n Hwf ltac:(unfold n; lia)) as (E1 & _ & _).
  destruct (put_write_payload y bytes Hwf Hroom) as (z & Hz & Hwz & Hpz). fold n in Hz. rewrite E1 in Hz |- *. cbn [snd] in Hz.
  apply wp_bind, wp_in_mkern. apply wp_modify. apply wp_bind, wp_gets.
  pose proof (fromkernel_run iov n (pw_mem (upper s)) Hok ltac:(unfold n; lia)) as Hfk. cbn zeta in Hfk.
  rewrite (proj2 (Nat.leb_le _ _)) in Hfk by (unfold n; lia). destruct Hfk as (b & iov' & Hfk & Hb & _).
  rewrite take_ge in Hb by (unfold n; lia). rewrite Hload in Hb. injection Hb as <-.
  rewrite s32_small by (unfold n; lia). apply wp_bind. eapply wp_deref; [rewrite Es; exact Hfk|]. cbn [fst].
  apply wp_bind, wp_in_mkern. eapply wp_skb_write; [apply lookup_insert_eq|exact Hz|].
  match goal with |- context [<[a := z]> (skbs ?k0)] => fold (upd_skb a z k0) end.
  match goal with |- wp _ _ ?t0 => assert (Et : t0 = t <| mkern := upd_skb a z (mkern t) |>) end.
  { unfold upd_skb, upd. cbn. by rewrite insert_insert_eq. }
  rewrite Et. clear Et.
  assert (Hzf : (pool z, chain_end z, cap_flags z) = (pool y, chain_end y, cap_flags y) ∧ rtdev z = rtdev y).
  { rewrite buf_write_range in Hz; [by injection Hz as <-|..]; cbn; pose proof Hwf as [? ? ? ? ?]; unfold tailroom in Hroom; lia. }
  destruct Hzf as [Hzf Hzr]. pose proof (sending_upd _ _ _ _ _ _ _ _ _ z Hs Hwz Hzf) as Hs2.
  destruct (sending_devs _ _ _ _ _ _ _ _ _ Hs2) as [Hdv2 Hlog2].
  apply wp_bind. eapply wp_mkern_load; [apply wp_exact; eapply wp_dev_load; [rewrite Hdv2; apply lookup_insert_eq|done]|].
  cbn [flags upd]. unfold ret. destruct (Z.land (flags D) IFF_UP =? 0); cbn [negb].
  - by eapply send_err_run.
  - apply wp_bind, wp_in_mkern. eapply wp_mono; [|eapply (xmit_run drv_xmit d (D <| refcount := refcount D + 1 |>) _ a z Hdrv)].
    2: apply upd_skb_lookup. 2: congruence. 2: rewrite Hdv2; apply lookup_insert_eq.
    intros r k' [-> ->]. cbn [Z.eqb]. eapply send_out_run; [done| |exact Hs2|].
    + cbn in *. exact Hdv2.
    + split; [done|]. split_and!; [done|done|]. replace (0 <=? n) with true by (unfold n; lia).
      cbn. split; [destruct (sg_pools _ _ _ _ _ _ _ _ _ Hs2); by split|]. rewrite Hpz, Hpre. f_equal. exact Hlog.
Qed.

(** The destination: from the address, or from the binding. *)
Definition send_to (i ty : Z) (msg_name : option (sockaddr_ll * Z)) (idx proto : Z) (addr : option (list Z)) : Prop :=
  match msg_name with
  | None => idx = i ∧ proto = ty ∧ addr = None
  | Some (sll, n) =>
      (SIZEOF_SOCKADDR_LL ≤ n ∧ sll_halen sll + OFFSETOF_SLL_ADDR ≤ n) ∧ (sll_family sll = AF_PACKET ∨ sll_family sll = AF_UNSPEC) ∧
      idx = sll_ifindex sll ∧ proto = sll_protocol sll ∧ addr = Some (sll_addr sll)
  end.
(** The buffers of the pool hold a message of [n] bytes with its header. *)
Definition roomy_pool k (l : list nat) (n : Z) : Prop :=
  ∀ b x, b ∈ l → skbs k !! b = Some x → n ≤ Z.of_nat (length (buf x)) < 2 ^ 32.

(** The part of the call that has a buffer. *)
Lemma send_packet_run ty s C q a l d D x t S iov bytes msg_name i0 ty0 idx proto addr :
  devs (mkern s) !! d = Some D → C !! q = Some (a :: l) → sending s C q a l d D x t → ether D → ty = SOCK_RAW ∨ ty = SOCK_DGRAM →
  data x = buf_start x → len x = 0 → mtu D + ETH_HLEN ≤ Z.of_nat (length (buf x)) →
  send_to i0 ty0 msg_name idx proto addr → opt_long addr → (ty = SOCK_DGRAM → ntohs proto ≠ ETH_P_802_3) →
  iov_ok iov (pw_mem (upper s)) → load_all (iov_addrs iov) (pw_mem (upper s)) = Some bytes →
  driver_spec drv_xmit d (D <| refcount := refcount D + 1 |>) →
  let n := Z.of_nat (length bytes) in
  let ret := send_result ty D true msg_name n in
  wp (if u32 (mtu D + (if ty =? SOCK_RAW then ETH_HLEN else 0)) <? n then send_err d a (- EMSGSIZE)
      else if bad_halen D msg_name then send_err d a (- EINVAL)
      else
        in_mkern (skb_upd a (rtskb_reserve ETH_HLEN));;
        in_mkern (skb_upd a (λ x, x <| rtdev := Some d |> <| priority := so_priority S |>));;
        ok ← in_mkern (packet_header eth_hook ty d a proto addr n);
        if negb ok then send_err d a (- EINVAL)
        else
          x ← in_mkern (skb_load a);
          let '(p, x) := rtskb_put (u32 n) x in
          in_mkern (skb_store a x);;
          m ← gets (λ s, pw_mem (upper s));
          b ← deref (rt_memcpy_fromkerneliovec iov (s32 n) m);
          in_mkern (skb_write a p b.1);;
          D ← in_mkern (dev_load d);
          if negb (Z.land (flags D) IFF_UP =? 0) then
            ret ← in_mkern (rtdev_xmit drv_xmit (Some a));
            send_out d (if ret =? 0 then s32 n else ret)
          else send_err d a (- ENETDOWN))
     (λ r s', r = ret ∧ send_done s C q (a :: l) d (link_bytes ty D addr proto ++ bytes) ret s') t.
Proof.
  intros HD HC Hs He Hty Hdx Hlx Hbl Hto Hda Hnp Hok Hload Hdrv n ret. pose proof He as [Eal Ehl Had Hmt Hfl].
  assert (Hn : 0 ≤ n) by (unfold n; lia).
  rewrite u32_id by (unfold is_u32, ETH_HLEN; destruct (ty =? SOCK_RAW); lia). unfold ret, send_result. cbn [negb].
  fold (too_long ty D n). destruct (too_long ty D n) eqn:Hlong; [by eapply send_err_run|].
  destruct (bad_halen D msg_name); [by eapply send_err_run|]. unfold too_long in Hlong.
  pose proof Hs as [Es Hp Hlo Hw]. pose proof (lo_wf _ _ _ _ _ Hlo) as Hwf. pose proof (lo_skb _ _ _ _ _ Hlo) as Hx.
  destruct (sending_devs _ _ _ _ _ _ _ _ _ Hs) as [Hdv _]. pose proof (wf_tail _ Hwf) as Htx.
  set (x1 := (rtskb_reserve ETH_HLEN x) <| rtdev := Some d |> <| priority := so_priority S |>).
  assert (Hw1 : wf_rtskb x1) by (destruct Hwf; split; cbn; unfold ETH_HLEN in *; lia).
  apply wp_bind, wp_in_mkern. eapply wp_skb_upd; [done|]. apply wp_bind, wp_in_mkern. eapply wp_skb_upd; [apply lookup_insert_eq|].
  fold x1. match goal with |- wp _ _ ?t0 => assert (Et : t0 = t <| mkern := upd_skb a x1 (mkern t) |>) end.
  { unfold upd_skb, upd. cbn. by rewrite insert_insert_eq. }
  rewrite Et. clear Et. pose proof (sending_upd _ _ _ _ _ _ _ _ _ x1 Hs Hw1 eq_refl) as Hs1.
  apply wp_bind, wp_in_mkern.
  eapply wp_mono; [|eapply (packet_header_run ty _ a d (D <| refcount := refcount D + 1 |>) x1 proto addr n (mtu D)); try done].
  - intros ok k' (-> & y & -> & Hwy & Ey & Hpay). injection Ey as Ey1 Ey2 Ey3 Ey4. rewrite negb_involutive.
    assert (Eaddr : bool_decide (addr = None) = bool_decide (msg_name = None)).
    { destruct msg_name as [[sll m]|]; destruct Hto as (? & ? & H3).
      - destruct H3 as (_ & _ & ->). by rewrite !bool_decide_eq_false_2.
      - subst addr. by rewrite !bool_decide_eq_true_2. }
    rewrite Eaddr in *. pose proof (sending_upd _ _ _ _ _ _ _ _ _ y Hs1 Hwy ltac:(by rewrite Ey2, Ey3, Ey4)) as Hs2.
    cbn [mkern upd] in Hs2. destruct ((ty =? SOCK_DGRAM) && bool_decide (msg_name = None)); [by eapply send_err_run|].
    destruct (Hpay eq_refl) as [Hpre Hroom].
    eapply (send_fill_run s C q a l d D y _ iov bytes (link_bytes ty D addr proto)); try done.
    + fold n. lia.
    + fold n. unfold ETH_HLEN in *. destruct (ty =? SOCK_RAW); lia.
  - apply upd_skb_lookup.
  - cbn. rewrite Hdv. apply lookup_insert_eq.
  - cbn. unfold ETH_HLEN in *. lia.
Qed.

(** C31: [rt_packet_sendmsg] through an Ethernet device puts exactly one packet on the
    wire: for a raw socket the bytes of the caller's buffers, for a datagram socket the
    link header (destination, address of the device, protocol) and these bytes, and
    returns their number.  Unknown device, no free buffer, message too long for the
    device, address of the wrong length, no address on a datagram socket and a device
    that is down give the respective error; the buffer is then back in the pool and
    nothing was sent.  The reference on the device is given back on every path. *)
Theorem rt_packet_sendmsg_correct ty s C so S P i l iov bytes msg_name msg_flags idx proto addr :
  let q := skb_pool S in
  let n := Z.of_nat (length bytes) in
  devtab (mkern s) → pools_inv (mkern s) C → psock s so S P i → C !! q = Some l → ty = SOCK_RAW ∨ ty = SOCK_DGRAM →
  msg_flags = 0 ∨ msg_flags = MSG_DONTWAIT → send_to i (pt_type P) msg_name idx proto addr → opt_long addr →
  (ty = SOCK_DGRAM → ntohs proto ≠ ETH_P_802_3) →
  iov_ok iov (pw_mem (upper s)) → load_all (iov_addrs iov) (pw_mem (upper s)) = Some bytes →
  n + ETH_HLEN ≤ SKB_DATA_ALIGN RTSKB_SIZE < 2 ^ 31 →
  (∀ d D, registered (mkern s) d → devs (mkern s) !! d = Some D → ifindex D = idx →
     ether D ∧ driver_spec drv_xmit d (D <| refcount := refcount D + 1 |>) ∧ roomy_pool (mkern s) l (mtu D + ETH_HLEN)) →
  wp (rt_packet_sendmsg eth_hook drv_xmit ty so iov msg_name msg_flags)
     (λ ret s', ret = - ENODEV ∧ s' = s ∧ (∀ d D, registered (mkern s) d → devs (mkern s) !! d = Some D → ifindex D ≠ idx) ∨
        ∃ d D, registered (mkern s) d ∧ devs (mkern s) !! d = Some D ∧ ifindex D = idx ∧
          ret = send_result ty D (negb (bool_decide (l = []))) msg_name n ∧
          send_done s C q l d (link_bytes ty D addr proto ++ bytes) ret s') s.
Proof.
  intros q n Ht Hinv [HS HP Hi _] Hl Hty Hfl Hto Hda Hnp Hok Hload Hsz Hdevs.
  pose proof (load_all_length _ _ _ Hload) as Hla. unfold rt_packet_sendmsg.
  rewrite (rt_iovec_len_addrs iov) by (apply Hok || (unfold n, ETH_HLEN in Hsz; lia)). rewrite <-Hla. fold n.
  replace (negb (Z.land msg_flags MSG_OOB =? 0)) with false by (destruct Hfl as [->| ->]; done).
  replace (negb (Z.land msg_flags (Z.lnot MSG_DONTWAIT) =? 0)) with false by (destruct Hfl as [->| ->]; done).
  apply wp_bind. apply (wp_mono _ (λ r t, r = Some (idx, proto, addr) ∧ t = s)).
  2: { destruct msg_name as [[sll m]|].
    - destruct Hto as ([H1 H2] & Hf & -> & -> & ->). replace (_ || _ || _) with false; [by apply wp_ret|].
      apply Z.ltb_ge in H1, H2. rewrite H1, H2. by destruct Hf as [->| ->].
    - destruct Hto as (-> & -> & ->). apply wp_bind. eapply wp_load_ifindex; [done|]. apply wp_bind.
      eapply wp_pt_load; [done|]. by apply wp_ret. }
  intros r t [-> ->]. apply wp_bind, wp_in_mkern. eapply wp_mono; [|by apply get_by_index_run]. intros r k' Hlook.
  destruct r as [d|]; cbn in Hlook.
  2: { destruct Hlook as [-> Hno]. apply wp_ret. left. split; [done|]. split; [by destruct s|].
    intros d D Hr HD E. specialize (Hno d D Hr HD). lia. }
  destruct Hlook as (D & Hr & HD & Hx & ->). apply Z.eqb_eq in Hx.
  destruct (Hdevs d D Hr HD Hx) as (He & Hdrv & Hroom). pose proof He as [Eal Ehl Had Hmt Hflg].
  apply wp_bind. eapply wp_mkern_load; [apply wp_exact; eapply wp_dev_load; [apply lookup_insert_eq|done]|].
  cbn [hard_header_len mtu addr_len upd]. apply wp_bind. eapply wp_psock_load; [exact HS|]. fold q.
  rewrite Ehl, (u32_id (ETH_HLEN + n)) by (unfold is_u32, n, ETH_HLEN in *; lia). rewrite (Z.add_comm ETH_HLEN n). apply wp_bind, wp_in_mkern.
  assert (Hinv0 : pools_inv (ref_taken (mkern s) d D) C) by (destruct Hinv; by split).
  eapply wp_mono; [|eapply wp_both; [eapply (alloc_rtskb_run _ C q l)|eapply (alloc_rtskb_unshared _ C q l)]; done || lia].
  intros r k1 [Hal Hcap]. destruct l as [|a l].
  - destruct Hal as [-> ->]. unfold send_out. apply wp_bind, wp_in_mkern. apply wp_ref_deref; [done|]. apply wp_ret.
    right. exists d, D. split_and!; [done..|]. unfold send_result. cbn. split_and!; [by destruct s|done|by destruct s].
  - destruct Hal as (-> & Hw & Hinv1 & Hu & _ & _ & x0 & x & Hx0 & Hx1 & Eb & Ebs & Hnx & Hce & Hpo & Hdat & Htl & _ & Hlen & _).
    destruct (Hroom a x0) as [Hr1 Hr2]; [set_solver|exact Hx0|].
    assert (Hs : sending s C q a l d D x (s <| mkern := k1 |>)).
    { split; [done|done| |exact Hw]. split; [done| |done|done|rewrite lookup_insert_eq; eauto|done|].
      - split; rewrite ?Eb; lia.
      - intros Hc. by apply (Hcap a x). }
    match goal with |- wp _ _ ?t0 => assert (Et : t0 = s <| mkern := k1 |>) by done end. rewrite Et. clear Et.
    eapply wp_mono; [|eapply (send_packet_run ty s C q a l d D x _ S iov bytes msg_name i (pt_type P) idx proto addr); try done].
    + intros r s' [-> Hd]. right. exists d, D. split_and!; [done..|]. exact Hd.
    + rewrite Eb. exact Hr1.
Qed.
End send.
