(* ===== verification/PacketClose.v ===== *)
(** * Packet sockets: creation and closing

    Closing a socket takes it out of the table of packet types, gives all packets that
    wait at it back to its pool with their references on devices, and releases the pool. *)
From S2P Require Import Prelude State RtskbQueue Rtskb RtskbData RtskbFifo Rtdev Eth Iovec StackMgr IpFragment Socket IpInput Udp Packet PacketOps.

(** ** Closing *)

Section close.
Context `{Config} (f : nat → Z).
Implicit Types (s : pkstate) (k : kstate) (S : rtsocket) (C : gmap nat (list nat)) (P : rtpacket_type).

(** The devices the packets [l] refer to, and one reference on each given back. *)
Definition devices_of k (l : list nat) : list nat := omap (λ a, skbs k !! a ≫= rtdev) l.
Definition unref_all (ds : list nat) (m : gmap nat rtnet_device) : gmap nat rtnet_device :=
  foldl (λ m d, alter (λ D, D <| refcount := refcount D - 1 |>) d m) m ds.
Lemma alter_as_insert {A} (g : A → A) (m : gmap nat A) d D : m !! d = Some D → alter g d m = <[d := g D]> m.
Proof.
  intros HD. apply map_eq. intros e. destruct (decide (d = e)) as [<-|Hne].
  - by rewrite lookup_alter_eq, lookup_insert_eq, HD.
  - by rewrite lookup_alter_ne, lookup_insert_ne.
Qed.
Lemma unref_all_lookup ds m d D : m !! d = Some D → ∃ D', unref_all ds m !! d = Some D' ∧ map_rtskb D' = map_rtskb D.
Proof.
  revert m D. induction ds as [|e ds IH]; intros m D HD; cbn; [eauto|].
  destruct (decide (e = d)) as [->|Hne].
  - destruct (IH (alter (λ D, D <| refcount := refcount D - 1 |>) d m) (D <| refcount := refcount D - 1 |>)) as (D' & ? & ?);
      [by rewrite lookup_alter_eq, HD|]. eauto.
  - apply IH. by rewrite lookup_alter_ne.
Qed.

(** The system of pools after a change of free buffers and references. *)
Lemma pool_sys_moved k k' C C' ds :
  pool_sys f k C → pools_inv k' C' → pool_map k' = pool_map k → dma_map k' = dma_map k →
  k' = k <| skbs := skbs k' |> <| queues := queues k' |> <| devs := unref_all ds (devs k) |> → pool_sys f k' C'.
Proof.
  intros [_ [Hnd Hsl] [Hf Hdma] Hli Ham] Hinv Hpm Hdm E. unfold pool_map, dma_map in *. split; [done|..].
  - rewrite E. split; [done|]. intros p Hp. rewrite <-E. specialize (Hsl p Hp).
    apply (f_equal (.!! p)) in Hpm. rewrite !lookup_fmap, Hsl in Hpm. by destruct (skbs k' !! p).
  - split; [done|]. rewrite E. cbn. intros d Hd. destruct (Hdma d Hd) as (D & HD & Hm).
    destruct (unref_all_lookup ds _ _ _ HD) as (D' & HD' & Em). exists D'. by rewrite Em.
  - intros a x Hx Hne. apply (f_equal (.!! a)) in Hdm. rewrite !lookup_fmap, Hx in Hdm.
    destruct (skbs k !! a) as [y|] eqn:Hy; [|done]. injection Hdm as Ey. rewrite E. cbn. apply (Hli a y); [done|congruence].
  - by rewrite E.
Qed.

(** The loop that empties the input queue. *)
Definition purged k C S l l0 k' : Prop :=
  pools_inv k' (<[skb_pool S := l0 ++ l]> C) ∧ inbox k' (<[skb_pool S := l0 ++ l]> C) S [] ∧ pool_map k' = pool_map k ∧
  dma_map k' = dma_map k ∧
  k' = k <| skbs := skbs k' |> <| queues := queues k' |> <| devs := unref_all (devices_of k l) (devs k) |>.

Lemma empty_queue_run k C S (Q : option nat → kstate → Prop) :
  inbox k C S [] → Q None k → wp (rtskb_dequeue (incoming S)) Q k.
Proof.
  intros [_ _ (q & Hq & Hqs) _] HQ. eapply wp_mono; [|by eapply dequeue_spec]. cbn beta. by intros r k' [-> ->].
Qed.
Lemma packet_purge_run S l : ∀ fuel k C l0,
  pools_inv k C → inbox k C S l → C !! skb_pool S = Some l0 → (length l < fuel)%nat →
  wp (packet_purge fuel (incoming S)) (λ _, purged k C S l l0) k.
Proof.
  induction l as [|a l IH]; intros [|fuel] k C l0 Hinv Hib Hl0 Hfu; [lia| |lia|]; cbn [packet_purge].
  - apply wp_bind. eapply empty_queue_run; [done|]. apply wp_ret. unfold purged. rewrite app_nil_r, insert_id by done.
    split_and!; try done. by destruct k.
  - cbn in Hfu. apply wp_bind. eapply wp_mono; [|by apply wp_keeps; [apply _|eapply inbox_dequeue_run]].
    intros r k1 [(-> & Hinv1 & Hib1 & Hw1 & Hsw & _ & HR & Ha) Hdm1%shape_dma].
    pose proof (pool_map_relinked _ _ _ HR) as Hpm1. fold (pool_map k1) (pool_map k) in Hpm1.
    destruct Hw1 as (x1 & d & Hlo1 & Hd & [D HD]). apply wp_bind. eapply wp_skb_load; [apply Hlo1|].
    apply wp_bind. eapply wp_deref; [done|]. apply wp_bind. unfold rtdev_dereference. eapply wp_dev_upd; [done|].
    set (k2 := k1 <| devs := _ |>). assert (Hdv1 : devs k1 = devs k) by (by rewrite Hsw). apply wp_bind.
    eapply wp_mono; [|apply wp_keeps; [apply _|eapply (inbox_free_run k2 C S l a l0); [destruct Hinv1; by split| | |done|done]]].
    + intros [] k3 [(Hinv3 & Hib3 & Hw3 & _ & Hpm3 & Hf3) Hdm3%shape_dma].
      eapply wp_mono; [|eapply (IH fuel k3 _ (l0 ++ [a])); [done|done|apply lookup_insert_eq|lia]].
      intros [] k4 (Hinv4 & Hib4 & Hpm4 & Hdm4 & E4). rewrite <-app_assoc, insert_insert_eq in Hinv4, Hib4. cbn [app] in *.
      assert (Hdl : devices_of k3 l = devices_of k l).
      { unfold devices_of. apply list_omap_ext. apply Forall_Forall2_diag, Forall_forall. intros b Hb. rewrite Hf3 by done.
        change (skbs k2 !! b) with (skbs k1 !! b). rewrite (relinked_out _ _ _ b HR); [done|].
        intros ->%list_elem_of_singleton. done. }
      assert (Hda : (skbs k !! a ≫= rtdev) = Some d).
      { specialize (HR a). rewrite (lo_skb _ _ _ _ _ Hlo1) in HR. destruct (skbs k !! a) as [x|]; [|done].
        destruct HR as [E _]. cbn. by rewrite <-Hd, E. }
      split_and!; [done|done|by rewrite Hpm4, Hpm3|by rewrite Hdm4, Hdm3|].
      assert (Hdv3 : devs k3 = alter (λ D, D <| refcount := refcount D - 1 |>) d (devs k)).
      { rewrite Hw3. cbn. rewrite Hdv1. symmetry. apply (alter_as_insert (λ D, D <| refcount := refcount D - 1 |>) (devs k) d D). by rewrite <-Hdv1. }
      rewrite E4, Hdl, Hdv3. unfold devices_of. cbn [omap list_omap]. rewrite Hda. cbn. rewrite Hw3. unfold k2. rewrite Hsw. by destruct k.
    + apply inbox_devs; [done|intros; by apply insert_some].
    + exists x1, d. split_and!; [destruct Hlo1; by split|done|]. cbn. apply insert_some. eauto.
Qed.

(** The first part of [rt_packet_close]: the packet type. *)
Definition is_running P : bool := negb (pt_type P =? 0) && (0 <? pt_refcount P).
Definition unregistered so s s1 : Prop :=
  mkern s1 = mkern s ∧ upper s1 = upper s ∧ rx s1 = rx s ∧ pack_table s1 ∧
  rt_packets s1 = buckets_without so s ∧ rt_packets_all s1 = all_without so s ∧
  (∃ P', packets s1 !! so = Some P' ∧ pt_type P' = 0) ∧ (∀ p, p ≠ so → packets s1 !! p = packets s !! p).

Lemma unregister_run s so S P i :
  pack_table s → psock s so S P i →
  wp (if negb (pt_type P =? 0) then
        ret ← rtdev_remove_pack (Some so);
        when (ret =? 0) (pt_upd so (λ P, P <| pt_type := 0 |>));;
        mret ret
      else mret 0)
     (λ ret s1, if is_running P then ret = - EAGAIN ∧ s1 = s else ret = 0 ∧ unregistered so s s1) s.
Proof.
  intros Ht [HS HP Hi Hl]. unfold is_running. destruct (pt_type P =? 0) eqn:E0; cbn [negb andb].
  - apply wp_ret. split; [done|]. destruct Hl as [Eb Ea]. split_and!; try done. exists P. split; [done|]. lia.
  - destruct Hl as [Hne Hl]. apply wp_bind. eapply wp_mono; [|by eapply remove_pack_run]. cbn beta. intros ret s1.
    destruct (0 <? pt_refcount P).
    + intros [-> ->]. by apply wp_bind, wp_ret, wp_ret.
    + intros [-> ->]. cbn [Z.eqb when]. apply wp_bind. eapply wp_pt_upd; [apply lookup_insert_eq|]. apply wp_ret. split; [done|].
      set (P' := _ <| pt_type := 0 |>). destruct (unlinked_state_table s so P' Ht) as [Ht' _].
      split_and!; try done.
      * destruct Ht' as [? ? Hent Hall]. split; try done; cbn in *; by rewrite insert_insert_eq.
      * exists P'. split; [cbn; by rewrite lookup_insert_eq|done].
      * intros p Hp. cbn. by rewrite !lookup_insert_ne.
Qed.

(** C28: [rt_packet_close] gives all packets that wait at the socket back to its pool
    and their references back to the devices.  While the handler of the socket is
    running it returns [-EAGAIN] and leaves the socket registered; otherwise the socket
    is taken out of the table of packet types, which stays well-formed, its pool is
    closed and emptied, and the result is 0 exactly when no buffer of the pool is in use
    elsewhere. *)
Theorem rt_packet_close_correct s C so S P i l l0 :
  let q := skb_pool S in
  let used := so_pool_size S - Z.of_nat (length (l0 ++ l)) in
  pack_table s → psock s so S P i → pool_sys f (mkern s) C → inbox (mkern s) C S l → C !! q = Some l0 →
  so_pool_size S = Z.of_nat (pool_size (mkern s) q) → is_u32 (so_pool_size S) → is_u32 (rtskb_pools (mkern s)) →
  wp (rt_packet_close so)
     (λ ret s', devs (mkern s') = unref_all (devices_of (mkern s) l) (devs (mkern s)) ∧ pack_table s' ∧
        if is_running P then
          ret = - EAGAIN ∧ tables s' = tables s ∧ upper s' = upper s ∧
          pool_sys f (mkern s') (<[q := l0 ++ l]> C) ∧ inbox (mkern s') (<[q := l0 ++ l]> C) S []
        else
          ret = (if used =? 0 then 0 else - EAGAIN) ∧ rt_packets s' = buckets_without so s ∧ rt_packets_all s' = all_without so s ∧
          (∃ P', packets s' !! so = Some P' ∧ pt_type P' = 0) ∧
          pw_socks (upper s') = <[so := closed_socket S used]> (pw_socks (upper s)) ∧ pool_sys f (mkern s') (<[q := []]> C)) s.
Proof.
  intros q used Ht Hps Hsys Hib Hl0 Hsz Hu32 Hpu. pose proof Hps as [HS HP Hi _]. unfold rt_packet_close.
  apply wp_bind. eapply wp_pt_load; [done|]. apply wp_bind. eapply wp_mono; [|by eapply unregister_run]. cbn beta.
  intros ret s1 Hreg. assert (Hk : mkern s1 = mkern s ∧ upper s1 = upper s ∧ pack_table s1)
    by (destruct (is_running P); [by destruct Hreg as [_ ->]|by destruct Hreg as (_ & ? & ? & _ & ? & _)]).
  destruct Hk as (Ek & Eu & Ht1). apply wp_bind. eapply wp_psock_load; [by rewrite Eu|].
  apply wp_bind, wp_in_mkern, wp_gets. apply wp_bind, wp_in_mkern. cbn [mkern upd]. rewrite Ek.
  eapply wp_mono; [|eapply (packet_purge_run S l _ (mkern s) C l0); [apply Hsys|done|done|]].
  2: { apply Nat.lt_succ_r, NoDup_length_size.
    - destruct (ib_queue _ _ _ _ Hib) as (Q & _ & Hq). by eapply is_queue_NoDup.
    - intros b Hb. destruct (ib_waiting _ _ _ _ Hib b Hb) as (x & ? & Hlo & _). rewrite (lo_skb _ _ _ _ _ Hlo). eauto. }
  intros [] k (Hinv & Hib' & Hpm & Hdm & E). fold q in Hinv, Hib'.
  pose proof (pool_sys_moved _ _ _ _ _ Hsys Hinv Hpm Hdm E) as Hsys'.
  assert (Edv : devs k = unref_all (devices_of (mkern s) l) (devs (mkern s))) by (by rewrite E).
  destruct (is_running P) eqn:Hrun.
  - destruct Hreg as [-> ->]. cbn [Z.eqb EAGAIN Z.opp]. apply wp_ret. split_and!; try done. by destruct Ht1.
  - destruct Hreg as (-> & _ & _ & Er & _ & Hb & Ha & HP' & _). cbn [Z.eqb]. apply wp_in_pf.
    eapply wp_mono; [|eapply (rt_socket_cleanup_run f _ (<[q := l0 ++ l]> C) so S (l0 ++ l)); cbn [fkern socks]; try done].
    + cbn zeta. fold used. fold q. intros ret s' (C' & -> & Hs' & _ & Eso & _ & -> & _ & Hdv & _).
      rewrite insert_insert_eq in Hs'. cbn [mkern upper upd]. cbn [fkern] in Hdv.
      split_and!; try done; [by rewrite Hdv|by destruct Ht1|]. rewrite Eso, <-Eu. done.
    + change (pw_socks (upper s1) !! so = Some S). by rewrite Eu.
    + apply lookup_insert_eq.
    + unfold accounted. cbn. rewrite Hsz. unfold pool_size. by rewrite Hpm.
    + by rewrite E.
Qed.
End close.
