(* ===== verification/Icmp.v ===== *)
(** * ICMP (stack/ipv4/icmp.c)

    Echo requests are answered; a received echo reply completes the oldest waiting ping. *)
From S2P Require Import Prelude State RtskbQueue Rtskb RtskbData Rtdev Eth Iovec Route RouteHost RouteOps Inet IpFragment Socket IpOutput IpInput.
From S2P Require Import Udp UdpOps UdpSend Arp.

Definition ICMP_ECHOREPLY := 0.
Definition ICMP_ECHO := 8.
Definition NR_ICMP_TYPES := 18.
Definition IPPROTO_ICMP := 1.
(** [sizeof(struct icmphdr)], [sizeof(nanosecs_abs_t)] *)
Definition ICMPHDR_LEN := 8.
Definition STAMP_LEN := 8.
Definition RT_ICMP_PRIO := SOCK_XMIT_PARAMS (QUEUE_MIN_PRIO - 1) SOCK_DEF_NRT_CHANNEL.
Definition ICMP_REPLY_POOL_SIZE := 8.

(** Where the data of a message comes from. *)
Inductive bxm_source := BXM_SKB (skb : nat) | BXM_BUF (buf : list Z).
(** [head] holds the bytes of the header and of the time stamp. *)
Record icmp_bxm := mk_bxm {
  bxm_csum : Z;
  bxm_head_len : Z;
  bxm_data_len : Z;
  bxm_offset : Z;
  bxm_head : list Z;
  bxm_data : bxm_source;
}.
#[export] Instance bxm_eta : Settable icmp_bxm := λ r,
  mk_bxm (bxm_csum r) (bxm_head_len r) (bxm_data_len r) (bxm_offset r) (bxm_head r) (bxm_data r).

(** The arguments of a ping ([struct ipv4_cmd]). *)
Record ping_args := mk_ping {
  ping_ip_addr : Z;
  ping_id : Z;
  ping_sequence : Z;
  ping_msg_size : Z;
  ping_rtt : Z;
}.
#[export] Instance ping_eta : Settable ping_args := λ r,
  mk_ping (ping_ip_addr r) (ping_id r) (ping_sequence r) (ping_msg_size r) (ping_rtt r).

(** [echo_calls]: the calls waiting for a reply; [call_results]: the calls completed so far. *)
Record istate := mk_istate {
  iu : ustate;
  echo_calls : list nat;
  pings : gmap nat ping_args;
  call_results : list (nat * Z);
}.
#[export] Instance istate_eta : Settable istate := λ r,
  mk_istate (iu r) (echo_calls r) (pings r) (call_results r).
Definition in_u {A} : M ustate A → M istate A := zoom iu (λ u s, s <| iu := u |>).
Definition complete_call (call : nat) (result : Z) : M istate () :=
  modify (λ s, s <| call_results := call_results s ++ [(call, result)] |>).

Definition rt_icmp_queue_echo_request (call : nat) : M istate () :=
  modify (λ s, s <| echo_calls := list_add_tail call (echo_calls s) |>).
Definition rt_icmp_dequeue_echo_request (call : nat) : M istate () :=
  l ← gets echo_calls; l' ← deref (list_del call l); modify (λ s, s <| echo_calls := l' |>).
Fixpoint complete_all (l : list nat) : M istate () :=
  match l with
  | [] => mret ()
  | call :: l => complete_call call (- EINTR);; complete_all l
  end.

Section defs.
Context `{Config}.
(** Checksums of the architecture: [csum_partial_copy_nocheck] (as a function of the bytes
    it copies), [csum_fold], [ip_compute_csum]. *)
Context (csum_copy : list Z → Z → Z) (csum_fold : Z → Z) (ip_compute_csum ip_fast_csum : list Z → Z).
Context (hard_header : nat → option (nat → Z → list Z → list Z → Z → M kstate Z)).
Context (get_mtu : nat → Z → M kstate Z) (drv_xmit : nat → nat → M kstate Z).
(** The static socket; the time; what the stack held in the place of [icmp_param.head]. *)
Context (icmp_socket : nat) (now : Z) (stack : list Z).

Definition rt_icmp_cleanup_echo_requests : M istate () :=
  l ← gets echo_calls;
  modify (λ s, s <| echo_calls := [] |>);;
  complete_all l;;
  in_u (in_fs (rt_ip_frag_invalidate_socket icmp_socket)).

(** [rtskb_copy_and_csum_bits] of stack/rtskb.c, to address [to] of buffer [dst]. *)
Definition rtskb_copy_and_csum_bits (skb : nat) (offset : Z) (dst : nat) (to n csum0 : Z) : M kstate Z :=
  x ← skb_load skb;
  let copy := s32 (len x - offset) in
  if 0 <? copy then
    let copy := if n <? copy then n else copy in
    bytes ← skb_read skb (data x + offset) copy;
    skb_write dst to bytes;;
    mret (csum_copy bytes csum0)
  else mret csum0.

Definition rt_icmp_glue_reply_bits (skb : nat) (to offset fraglen : Z) : M (ostate icmp_bxm) Z :=
  if negb (offset =? 0) then mret (- EMSGSIZE)
  else
    p ← gets ofrag;
    let head := take (Z.to_nat (bxm_head_len p)) (bxm_head p) in
    in_okern (skb_write skb to head);;
    src ← deref (match bxm_data p with BXM_SKB a => Some a | BXM_BUF _ => None end);
    c ← in_okern (rtskb_copy_and_csum_bits src (bxm_offset p) skb (to + bxm_head_len p) (s32 (fraglen - bxm_head_len p))
                    (csum_copy head (bxm_csum p)));
    in_okern (skb_write skb (to + 2) (wr16 (csum_fold c)));;
    mret 0.

(** [head.icmph.checksum = 0] *)
Definition clear_checksum (head : list Z) : list Z := splice 2 [0; 0] head.

Definition rt_icmp_send_reply (p : icmp_bxm) (skb : nat) : M ustate () :=
  let p := p <| bxm_head := clear_checksum (bxm_head p) |> <| bxm_csum := 0 |> in
  x ← in_ukern (skb_load skb);
  h ← deref (iph x);
  d ← deref (rtdev x);
  D ← in_ukern (dev_load d);
  ro ← in_route (rt_ip_route_output (iph_saddr h) (local_ip D));
  if negb (ro.1 =? 0) then mret ()
  else
    rt ← deref ro.2;
    S ← in_fs (sock_load icmp_socket);
    in_output p (rt_ip_build_xmit ip_fast_csum hard_header get_mtu drv_xmit rt_icmp_glue_reply_bits S (ICMPHDR_LEN + bxm_data_len p) rt);;
    o ← deref (dest_rtdev rt);
    in_ukern (rtdev_dereference o).

Definition rt_icmp_echo_reply (skb : nat) : M istate () :=
  l ← gets echo_calls;
  match l with
  | [] => mret ()
  | call :: l' =>
      modify (λ s, s <| echo_calls := l' |>);;
      x ← in_u (in_ukern (skb_load skb));
      h ← deref (iph x);
      m ← gets pings;
      cmd ← deref (m !! call);
      id ← deref (buf_read x (h_raw x + 4) 2 ≫= rd16);
      seq ← deref (buf_read x (h_raw x + 6) 2 ≫= rd16);
      let cmd := cmd <| ping_ip_addr := iph_saddr h |> <| ping_rtt := 0 |> in
      if (id =? ping_id cmd) && (ntohs seq =? ping_sequence cmd) && (len x =? ping_msg_size cmd) then
        rtt ← (if STAMP_LEN <=? len x then t ← deref (buf_read x (data x) 8 ≫= rd64); mret (s64 (now - t)) else mret 0);
        modify (λ s, s <| pings := <[call := cmd <| ping_rtt := rtt |>]> (pings s) |>);;
        complete_call call (ICMPHDR_LEN + len x)
      else
        modify (λ s, s <| pings := <[call := cmd]> (pings s) |>);;
        complete_call call 0
  end.

Definition rt_icmp_echo_request (skb : nat) : M istate () :=
  x ← in_u (in_ukern (skb_load skb));
  icmph ← deref (buf_read x (h_raw x) ICMPHDR_LEN);
  in_u (rt_icmp_send_reply
    (mk_bxm 0 ICMPHDR_LEN (len x) 0 (splice 0 [ICMP_ECHOREPLY] (icmph ++ drop 8 stack)) (BXM_SKB skb)) skb).

Definition rt_icmp_glue_request_bits (skb : nat) (to offset fraglen : Z) : M (ostate icmp_bxm) Z :=
  if assert_fails (offset =? 0) then mret (-1)
  else
    p ← gets ofrag;
    let head := take (Z.to_nat (bxm_head_len p)) (bxm_head p) in
    in_okern (skb_write skb to head);;
    buf0 ← deref (match bxm_data p with BXM_BUF b => Some b | BXM_SKB _ => None end);
    bytes ← deref (mem_read buf0 (Z.to_nat (fraglen - bxm_head_len p)));
    in_okern (skb_write skb (to + bxm_head_len p) bytes);;
    in_okern (skb_write skb (to + 2) (wr16 (csum_fold (csum_copy bytes (csum_copy head (bxm_csum p))))));;
    mret 0.

Definition rt_icmp_send_request (daddr : Z) (p : icmp_bxm) : M ustate Z :=
  let p := p <| bxm_head := clear_checksum (bxm_head p) |> <| bxm_csum := 0 |> in
  ro ← in_route (rt_ip_route_output daddr INADDR_ANY);
  if ro.1 <? 0 then mret ro.1
  else
    rt ← deref ro.2;
    o ← deref (dest_rtdev rt);
    let size := u32 (bxm_head_len p + bxm_data_len p) in
    mtu ← in_ukern (get_mtu o RT_ICMP_PRIO);
    err ← (if mtu <? u32 (size + 20) then mret (- EMSGSIZE)
           else
             S ← in_fs (sock_load icmp_socket);
             in_output p (rt_ip_build_xmit ip_fast_csum hard_header get_mtu drv_xmit rt_icmp_glue_request_bits S size rt));
    in_ukern (rtdev_dereference o);;
    mret err.

(** The pattern 0, 1, .., 255, 0, .. *)
Definition pattern_buf (n : Z) : list Z := (λ pos, Z.land pos 255) <$> seqZ 0 n.
Definition rt_icmp_send_echo (daddr id sequence msg_size : Z) : M istate Z :=
  in_u (in_fs (rt_ip_frag_invalidate_socket icmp_socket));;
  let icmph := [ICMP_ECHO; 0] ++ take 2 (drop 2 stack) ++ wr16 id ++ be16 sequence in
  in_u (rt_icmp_send_request daddr
    (if STAMP_LEN <=? msg_size then
       mk_bxm 0 (ICMPHDR_LEN + STAMP_LEN) (msg_size - STAMP_LEN) 0 (icmph ++ wr64 now) (BXM_BUF (pattern_buf (msg_size - STAMP_LEN)))
     else
       mk_bxm 0 (ICMPHDR_LEN + msg_size) 0 0 (icmph ++ drop 8 stack) (BXM_BUF (pattern_buf msg_size)))).

(** [rt_icmp_pointers]: the handler of a message type. *)
Definition icmp_handler (type : Z) (skb : nat) : M istate () :=
  if type =? ICMP_ECHOREPLY then rt_icmp_echo_reply skb
  else if type =? ICMP_ECHO then rt_icmp_echo_request skb
  else mret ().

(** Not in the table of open sockets: no reference is taken. *)
Definition rt_icmp_dest_socket (skb : nat) : M fstate (option nat) := mret (Some icmp_socket).

(** The checks and the handler; then the label [cleanup]. *)
Definition icmp_process (skb : nat) : M istate () :=
  x ← in_u (in_ukern (skb_load skb));
  if (len x <? ICMPHDR_LEN) || bool_decide (is_Some (next x)) then mret ()
  else
    bytes ← deref (buf_read x (h_raw x) (len x));
    if negb (ip_compute_csum bytes =? 0) then mret ()
    else
      let r := rtskb_pull ICMPHDR_LEN x in
      in_u (in_ukern (skb_store skb (snd r)));;
      match fst r with
      | None => mret ()
      | Some _ =>
          type ← deref (buf_read x (h_raw x) 1 ≫= head);
          if NR_ICMP_TYPES <? type then mret () else icmp_handler type skb
      end.
Definition rt_icmp_rcv (skb : nat) : M istate () :=
  icmp_process skb;; in_u (in_ukern (kfree_rtskb (Some skb))).

(** [t] is the table of the protocols before; the result is the table after it. *)
Definition rt_icmp_init (icmp_protocol : rtinet_protocol) (t : prot_table) : M fstate prot_table :=
  rt_bare_socket_init icmp_socket IPPROTO_ICMP RT_ICMP_PRIO ICMP_REPLY_POOL_SIZE;;
  sock_upd icmp_socket (λ S, S <| inet_tos := 0 |>);;
  mret (rt_inet_add_protocol icmp_protocol t).
Definition rt_icmp_release (icmp_protocol : rtinet_protocol) (t : prot_table) : M istate prot_table :=
  rt_icmp_cleanup_echo_requests;;
  S ← in_u (in_fs (sock_load icmp_socket));
  in_u (in_ukern (__rtskb_pool_release (skb_pool S)));;
  mret (rt_inet_del_protocol icmp_protocol t).
End defs.

(** ** Answering an echo request *)

Section echo.
Context `{Config}.
Context (csum_copy : list Z → Z → Z) (csum_fold : Z → Z) (ip_compute_csum ip_fast_csum : list Z → Z).
Context (hard_header : nat → option (nat → Z → list Z → list Z → Z → M kstate Z)).
Context (get_mtu : nat → Z → M kstate Z) (drv_xmit : nat → nat → M kstate Z).
Context (icmp_socket : nat) (now : Z) (stack : list Z).
Implicit Types (x y z : rtskb).

(** The header of the answer before its checksum is known, and the answer to [req]: same
    code, identifier, sequence number and data. *)
Definition reply_head (req : list Z) : list Z := ICMP_ECHOREPLY :: take 1 (drop 1 req) ++ [0; 0] ++ take 4 (drop 4 req).
Definition echo_sum (req : list Z) : Z :=
  let c := csum_copy (reply_head req) 0 in
  if (length req =? 8)%nat then c else csum_copy (drop 8 req) c.
Definition echo_answer (req : list Z) : list Z :=
  ICMP_ECHOREPLY :: take 1 (drop 1 req) ++ wr16 (csum_fold (echo_sum req)) ++ drop 4 req.

Definition reply_param (req : list Z) (rk : nat) : icmp_bxm :=
  mk_bxm 0 ICMPHDR_LEN (Z.of_nat (length req) - 8) 0 (clear_checksum (splice 0 [ICMP_ECHOREPLY] (take 8 req ++ drop 8 stack))) (BXM_SKB rk).

Lemma reply_param_head req rk : (8 ≤ length req)%nat → take 8 (bxm_head (reply_param req rk)) = reply_head req.
Proof.
  intros Hl. do 8 (destruct req as [|? req]; [cbn in Hl; lia|]). reflexivity.
Qed.
Lemma length_reply_head req : (8 ≤ length req)%nat → length (reply_head req) = 8%nat.
Proof. intros Hl. do 8 (destruct req as [|? req]; [cbn in Hl; lia|]). reflexivity. Qed.
Lemma echo_answer_splice req :
  (8 ≤ length req)%nat → echo_answer req = splice 2 (wr16 (csum_fold (echo_sum req))) (reply_head req) ++ drop 8 req.
Proof.
  intros Hl. unfold echo_answer. generalize (csum_fold (echo_sum req)). intros c.
  do 8 (destruct req as [|? req]; [cbn in Hl; lia|]). reflexivity.
Qed.

Lemma length_echo_answer req : (8 ≤ length req)%nat → length (echo_answer req) = length req.
Proof. intros Hl. unfold echo_answer. do 8 (destruct req as [|? req]; [cbn in Hl; lia|]). reflexivity. Qed.

Lemma splice_reply (P hd w data0 : list Z) :
  length hd = 8%nat → length w = 2%nat → length P = (28 + length data0)%nat →
  splice 22 w (splice 28 data0 (splice 20 hd P)) = take 20 P ++ splice 2 w hd ++ data0.
Proof.
  intros Hhd Hw HP. rewrite <-(take_drop 20 P). set (A := take 20 P). rewrite <-(take_drop 8 (drop 20 P)), drop_drop.
  assert (HA : length A = 20%nat) by (unfold A; rewrite length_take; lia).
  assert (HB : length (take 8 (drop 20 P)) = length hd) by (rewrite length_take, length_drop; lia).
  rewrite take_app_length' by done.
  pose proof (splice_mid A _ hd (drop (20 + 8) P) HB) as E0. rewrite HA in E0. rewrite E0.
  assert (H28 : length (A ++ hd) = 28%nat) by (rewrite length_app; lia).
  assert (Hd : length (drop (20 + 8) P) = length data0) by (rewrite length_drop; lia).
  pose proof (splice_mid (A ++ hd) (drop (20 + 8) P) data0 [] Hd) as E. rewrite H28, !app_nil_r, <-!app_assoc in E. rewrite E.
  do 8 (destruct hd as [|? hd]; [done|]). destruct hd; [|done]. destruct w as [|w1 [|w2 [|]]]; try done.
  pose proof (splice_mid (A ++ [z; z0]) [z1; z2] [w1; w2] ([z3; z4; z5; z6] ++ data0) eq_refl) as E2.
  rewrite length_app, HA, <-!app_assoc in E2. exact E2.
Qed.

Lemma glue_reply_here s a rk z req :
  a ≠ rk → skbs (okern s) !! rk = Some z → wf_rtskb z → payload z = drop 8 req → (8 ≤ length req)%nat → Z.of_nat (length req) < 65536 →
  ofrag s = reply_param req rk →
  getfrag_here (rt_icmp_glue_reply_bits csum_copy csum_fold) (echo_answer req) (λ _ _, True) s a 0 (Z.of_nat (length req)).
Proof.
  intros Hne Hz Hwz Hpz Hl Hl2 Hp x Hw Hlx. unfold rt_icmp_glue_reply_bits. cbn [Z.eqb negb].
  apply wp_bind, wp_gets. cbn [ofrag upd]. rewrite Hp. cbn [bxm_head_len bxm_data bxm_offset bxm_csum reply_param].
  change (Z.to_nat ICMPHDR_LEN) with 8%nat. fold (reply_param req rk). rewrite reply_param_head by done.
  set (hd := reply_head req). assert (Hhd : length hd = 8%nat) by (by apply length_reply_head).
  pose proof (length_payload _ Hw) as Hpx. pose proof (length_payload _ Hwz) as Hlz. rewrite Hpz, length_drop in Hlz.
  apply wp_bind, wp_in_okern. eapply (wp_write_at a x 20); [apply upd_skb_lookup|done|lia|lia|].
  intros x1 F1 Hw1 Hp1. cbn [okern upd]. rewrite upd_skb_twice. pose proof F1 as [E1 _].
  assert (Hd1 : data x1 = data x ∧ len x1 = len x) by (by rewrite E1). destruct Hd1 as [Hd1 Hl1].
  apply wp_bind. eapply wp_deref; [done|]. apply wp_bind, wp_in_okern. cbn [okern upd].
  apply (wp_mono _ (λ c k, c = echo_sum req ∧ ∃ x2, k = upd_skb a x2 (okern s) ∧ same_frame x1 x2 ∧ wf_rtskb x2 ∧
    payload x2 = splice 28 (drop 8 req) (payload x1))).
  2: { unfold rtskb_copy_and_csum_bits. apply wp_bind. eapply wp_skb_load; [cbn; by rewrite lookup_insert_ne|].
    rewrite Z.sub_0_r, s32_small by lia. change ICMPHDR_LEN with 8. rewrite s32_small by lia.
    unfold echo_sum. fold hd. destruct (Z.ltb_spec 0 (len z)) as [Hp0|Hp0].
    - replace (Z.of_nat (length req) - 8 <? len z) with false by lia. apply wp_bind.
      eapply (wp_read_payload rk z 0); [cbn; by rewrite lookup_insert_ne|done|lia|lia|lia|].
      rewrite drop_0, Hpz, take_ge by (rewrite length_drop; lia). apply wp_bind.
      eapply (wp_write_at a x1 28); [apply upd_skb_lookup|done|rewrite length_drop; lia|lia|].
      intros x2 F2 Hw2 Hp2. rewrite upd_skb_twice. apply wp_ret. rewrite (proj2 (Nat.eqb_neq _ _)) by lia. split; [done|]. by exists x2.
    - apply wp_ret. rewrite (proj2 (Nat.eqb_eq _ _)) by lia. split; [done|]. exists x1. split_and!; [done|by split; [destruct x1|]|done|].
      rewrite (drop_ge req) by lia. unfold splice. cbn [length app]. by rewrite Nat.add_0_r, take_drop. }
  intros c k (-> & x2 & -> & F2 & Hw2 & Hp2). pose proof (same_frame_trans _ _ _ F1 F2) as F. pose proof F as [E2 _].
  assert (Hd2 : data x2 = data x ∧ len x2 = len x) by (by rewrite E2). destruct Hd2 as [Hd2 Hl2'].
  apply wp_bind, wp_in_okern. eapply (wp_write_at a x2 22); [apply upd_skb_lookup|done|cbn; lia|lia|].
  intros y F3 Hwy Hpy. cbn [okern upd]. rewrite upd_skb_twice. apply wp_ret. split_and!; try done.
  exists y. split; [done|]. split; [by eapply same_frame_trans|]. split; [done|].
  change (Z.to_nat 0) with 0%nat. rewrite drop_0, Nat2Z.id, (take_ge (echo_answer req)) by (by rewrite length_echo_answer).
  rewrite echo_answer_splice by done.
  rewrite Hpy, Hp2, Hp1. apply splice_reply; [done|done|rewrite length_drop; lia].
Qed.

Lemma wp_in_u {A} (m : M ustate A) (Q : A → istate → Prop) s :
  wp m (λ a u, Q a (s <| iu := u |>)) (iu s) → wp (in_u m) Q s.
Proof. apply (wp_zoom iu (λ u s, s <| iu := u |>)). Qed.
Lemma wp_in_route {A} (m : M rstate A) (Q : A → ustate → Prop) u :
  wp m (λ a r, Q a (u <| uroute := r |> <| uf := (uf u) <| fkern := kern r |> |>)) ((uroute u) <| kern := fkern (uf u) |>) →
  wp (in_route m) Q u.
Proof. intros Hm. unfold in_route. by apply wp_zoom. Qed.

(** The part of [rt_icmp_send_reply] behind the route: the request [req] is in buffer [rk]. *)
Lemma send_reply_run u S rk z rp C l req h d D o O B F T lh mtu :
  let K := fkern (uf u) in
  let R := (uroute u) <| kern := K |> in
  let O1 := O <| refcount := refcount O + 1 |> in
  CONFIG_RTNET_RTIPV4_NETROUTING = false → host_state R B F T → is_u32 (iph_saddr h) → local_ip D ≠ INADDR_ANY →
  (∃ mac, T !! (iph_saddr h, local_ip D) = Some (o, mac)) → devs K !! o = Some O →
  socks (uf u) !! icmp_socket = Some S → pools_inv K C → loose K C rk z rp → C !! skb_pool S = Some l →
  payload z = drop 8 req → (8 ≤ length req)%nat → iph z = Some h → rtdev z = Some d → devs K !! d = Some D →
  (∀ dst, route_for R T (iph_saddr h) (local_ip D) (iph_saddr h) o dst → header_spec hard_header dst o O1 lh) → driver_spec drv_xmit o O1 →
  (∀ k, get_mtu o (so_priority S) k = Some (mtu, k)) → Z.of_nat (length req) + 20 ≤ mtu < 65536 → 0 ≤ hh_len O →
  mtu + hh_len O + 15 ≤ SKB_DATA_ALIGN RTSKB_SIZE < 2 ^ 32 → roomy O K l mtu →
  wp (rt_icmp_send_reply csum_copy csum_fold ip_fast_csum hard_header get_mtu drv_xmit icmp_socket
        (mk_bxm 0 ICMPHDR_LEN (Z.of_nat (length req) - 8) 0 (splice 0 [ICMP_ECHOREPLY] (take 8 req ++ drop 8 stack)) (BXM_SKB rk)) rk)
     (λ _ u', let K' := fkern (uf u') in devs K' = devs K ∧ socks (uf u') = socks (uf u) ∧
        (∃ dst, route_for R T (iph_saddr h) (local_ip D) (iph_saddr h) o dst ∧
           xmit_log K' = xmit_log K ++ match l with [] => [] | a :: _ =>
             [(o, a, lh ++ full_header ip_fast_csum S dst O1 (20 + Z.of_nat (length req)) (u_ip_id u) IP_DF ++ echo_answer req)] end) ∧
        pools_inv K' (<[skb_pool S := drop 1 l]> C) ∧ loose K' (<[skb_pool S := drop 1 l]> C) rk z rp) u.
Proof.
  intros K R O1 Hnr Hhs Hsa Hlip (mac & HT) HO HS Hinv Hlo Hl Hpz Hl8 Hh Hd HD Hhd Hdrv Hmt Hmtu Hhh Hsz Hroom.
  unfold rt_icmp_send_reply. cbn [bxm_head upd bxm_data_len].
  apply wp_bind, wp_in_ukern. eapply wp_skb_load; [apply Hlo|]. apply wp_bind. eapply wp_deref; [done|].
  apply wp_bind. eapply wp_deref; [done|]. apply wp_bind, wp_in_ukern. eapply wp_dev_load; [exact HD|].
  replace (u <| uf := (uf u) <| fkern := fkern (uf u) |> |>) with u by (by destruct u as [[]]).
  replace (u <| uf := (uf u) <| fkern := fkern (uf u) |> |>) with u by (by destruct u as [[]]).
  destruct (route_output_run R B F T (iph_saddr h) (local_ip D) Hnr Hhs Hsa) as (ret & dst & r' & Er & _ & Hcase).
  assert (El : saddr_lip (local_ip D) = Some (local_ip D)) by (unfold saddr_lip; by destruct (Z.eqb_spec (local_ip D) INADDR_ANY)).
  destruct Hcase as [(-> & y & o' & O' & -> & Hrf & HO' & ->)|(_ & _ & _ & Hno)].
  2: { exfalso. rewrite (Hno (iph_saddr h, local_ip D)) in HT; [done|by rewrite El]. }
  assert (o' = o) as ->.
  { destruct Hrf as (_ & _ & k & ? & ? & Hk & HTk & _). rewrite El in Hk. cbn in Hk. subst k. congruence. }
  assert (O' = O) as -> by (apply (inj Some); by rewrite <-HO, <-HO'). clear HO'.
  apply wp_bind, wp_in_route. eapply wp_intro; [exact Er|]. cbn [fst snd Z.eqb negb].
  apply wp_bind. eapply wp_deref; [done|]. apply wp_bind, wp_in_fs. eapply wp_sock_load; [done|].
  apply wp_bind, wp_in_output. cbn [uf fkern upd u_ip_id kern].
  assert (Hlen : ICMPHDR_LEN + (Z.of_nat (length req) - 8) = Z.of_nat (length (echo_answer req)))
    by (rewrite length_echo_answer by done; unfold ICMPHDR_LEN; lia).
  rewrite Hlen. fold O1.
  assert (Hinv1 : pools_inv (ref_taken K o O) C) by (destruct Hinv; by split).
  eapply wp_mono; [|eapply (build_xmit_fast_run ip_fast_csum hard_header get_mtu drv_xmit
    (rt_icmp_glue_reply_bits csum_copy csum_fold) (echo_answer req) (λ _ _, True) S y o O1 lh (u_ip_id u)
    (mk_ostate (ref_taken K o O) (u_ip_id u) (reply_param req rk)) C l mtu)]; rewrite ?length_echo_answer by done; try done; try lia.
  - intros e os (_ & Hdo & _ & Hlog & Hpo & Hfr). apply wp_bind. eapply wp_deref; [apply Hrf|]. apply wp_in_ukern.
    cbn [uf fkern upd okern] in *. unfold rtdev_dereference. eapply wp_dev_upd; [rewrite Hdo; apply lookup_insert_eq|].
    cbn [uf fkern upd devs xmit_log skbs socks].
    split_and!.
    + rewrite Hdo. cbn [ref_taken devs upd]. rewrite insert_insert_eq. apply insert_id. fold K. rewrite HO. f_equal. destruct O. unfold O1, upd. cbn. f_equal. lia.
    + done.
    + exists y. split; [exact Hrf|]. rewrite Hlog. by destruct l.
    + destruct Hpo. by split.
    + destruct Hlo as [Hx ? ? ? [l0 Hl0] Hu ?]. split; try done.
      * cbn. rewrite Hfr by done. exact Hx.
      * destruct (decide (skb_pool S = rp)) as [->|]; simplify_map_eq; eauto.
      * apply in_use_insert; [done|]. intros Hin. eapply (Hu (skb_pool S)); [done|]. by eapply subseteq_drop.
  - by apply Hhd.
  - apply Hrf.
  - apply lookup_insert_eq.
  - intros s1 a l' El1 Hua Hoth Hdev Hof. eapply (glue_reply_here s1 a rk z req); try done.
    + intros ->. eapply (lo_use _ _ _ _ _ Hlo (skb_pool S)); [done|]. rewrite El1. set_solver.
    + rewrite Hoth; [apply Hlo|]. intros ->. eapply (lo_use _ _ _ _ _ Hlo (skb_pool S)); [done|]. rewrite El1. set_solver.
    + apply Hlo.
    + lia.
Qed.

(** C29: a valid echo request (type 8, right checksum, one buffer) is answered: if the ICMP
    pool has a buffer, exactly one packet goes back to the sender through the route the
    table has for it, with code, identifier, sequence number and data of the request, type
    0 and a new checksum, in one IP packet.  The request goes back to its pool, the
    reference on the outgoing device is given back, and no waiting ping is affected. *)
Theorem rt_icmp_rcv_echo_correct s S k x rp C l req code h d D o O B F T lh mtu :
  let u := iu s in let K := fkern (uf u) in
  let R := (uroute u) <| kern := K |> in
  let O1 := O <| refcount := refcount O + 1 |> in
  CONFIG_RTNET_RTIPV4_NETROUTING = false → host_state R B F T → is_u32 (iph_saddr h) → local_ip D ≠ INADDR_ANY →
  (∃ mac, T !! (iph_saddr h, local_ip D) = Some (o, mac)) → devs K !! o = Some O →
  socks (uf u) !! icmp_socket = Some S → pools_inv K C → loose K C k x rp → C !! skb_pool S = Some l →
  payload x = ICMP_ECHO :: code :: req → (6 ≤ length req)%nat → h_raw x = data x → next x = None → ip_compute_csum (payload x) = 0 →
  iph x = Some h → rtdev x = Some d → devs K !! d = Some D →
  (∀ dst, route_for R T (iph_saddr h) (local_ip D) (iph_saddr h) o dst → header_spec hard_header dst o O1 lh) → driver_spec drv_xmit o O1 →
  (∀ k, get_mtu o (so_priority S) k = Some (mtu, k)) → len x + 20 ≤ mtu < 65536 → 0 ≤ hh_len O →
  mtu + hh_len O + 15 ≤ SKB_DATA_ALIGN RTSKB_SIZE < 2 ^ 32 → roomy O K l mtu →
  wp (rt_icmp_rcv csum_copy csum_fold ip_compute_csum ip_fast_csum hard_header get_mtu drv_xmit icmp_socket now stack k)
     (λ _ s', let K' := fkern (uf (iu s')) in devs K' = devs K ∧
        echo_calls s' = echo_calls s ∧ pings s' = pings s ∧ call_results s' = call_results s ∧
        (∃ dst, route_for R T (iph_saddr h) (local_ip D) (iph_saddr h) o dst ∧
           xmit_log K' = xmit_log K ++ match l with [] => [] | a :: _ =>
             [(o, a, lh ++ full_header ip_fast_csum S dst O1 (20 + len x) (u_ip_id u) IP_DF ++ echo_answer (payload x))] end) ∧
        rejected (<[skb_pool S := drop 1 l]> C) k rp K') s.
Proof.
  intros u K R O1 Hnr Hhs Hsa Hlip HT HO HS Hinv Hlo Hl Hpx Hl6 Hraw Hnx Hck Hh Hd HD Hhd Hdrv Hmt Hmtu Hhh Hsz Hroom.
  pose proof Hlo as [Hx Hwf He Hpo Hps Hu Hc]. pose proof (length_payload _ Hwf) as Hlp.
  assert (Hl8 : (8 ≤ length (payload x))%nat) by (rewrite Hpx; cbn; lia).
  destruct (pull_ok x 8 Hwf ltac:(lia)) as (Ep & Hwz & Hpz). set (z := snd (rtskb_pull 8 x)) in *.
  assert (Ez : z = x <| len := len x - 8 |> <| data := data x + 8 |>) by (unfold z; by rewrite Ep).
  assert (Hread : ∀ n : Z, 0 ≤ n ≤ len x → buf_read x (h_raw x) n = Some (take (Z.to_nat n) (payload x))).
  { intros n Hn. rewrite Hraw, <-(Z.add_0_r (data x)), payload_read by (done || lia). by rewrite drop_0. }
  unfold rt_icmp_rcv, icmp_process. apply wp_bind, wp_bind, wp_in_u, wp_in_ukern. eapply wp_skb_load; [done|].
  change ICMPHDR_LEN with 8. replace (len x <? 8) with false by lia. rewrite Hnx. rewrite bool_decide_eq_false_2 by (by intros []). cbn [orb].
  apply wp_bind. eapply wp_deref; [apply Hread; lia|]. rewrite take_ge by lia. rewrite Hck. cbn [Z.eqb negb].
  assert (Ef : fst (rtskb_pull 8 x) = Some (data x + 8)) by (by rewrite Ep). rewrite Ef. fold z.
  apply wp_bind, wp_in_u, wp_in_ukern, wp_modify.
  apply wp_bind. eapply wp_deref; [rewrite Hread, Hpx by lia; reflexivity|]. cbn [Z.ltb Z.compare NR_ICMP_TYPES ICMP_ECHO Pos.compare Pos.compare_cont].
  change (icmp_handler csum_copy csum_fold ip_fast_csum hard_header get_mtu drv_xmit icmp_socket now stack 8 k)
    with (rt_icmp_echo_request csum_copy csum_fold ip_fast_csum hard_header get_mtu drv_xmit icmp_socket stack k).
  unfold rt_icmp_echo_request. apply wp_bind, wp_in_u, wp_in_ukern. eapply wp_skb_load; [apply lookup_insert_eq|].
  apply wp_bind. eapply wp_deref; [transitivity (buf_read x (h_raw x) 8); [by rewrite Ez|apply Hread; lia]|].
  assert (Elen : len z = Z.of_nat (length (payload x)) - 8) by (rewrite Ez; cbn; lia). rewrite Elen.
  apply wp_in_u. cbn [iu upd uf fkern].
  match goal with |- wp _ _ ?t => set (u1 := t) end.
  assert (Hinv1 : pools_inv (fkern (uf u1)) C).
  { eapply pools_inv_touch; [exact Hinv|exact Hu|..]; cbn; [|eauto]. intros b Hb. by apply lookup_insert_ne. }
  assert (Hlo1 : loose (fkern (uf u1)) C k z rp).
  { split; try done; try (by rewrite Ez). apply lookup_insert_eq. }
  assert (Hroom1 : roomy O (fkern (uf u1)) l mtu).
  { intros b y Hb Hy. assert (b ≠ k) by (intros ->; by eapply (Hu (skb_pool S))). cbn in Hy. rewrite lookup_insert_ne in Hy by done.
    by eapply Hroom. }
  eapply wp_mono; [|eapply (send_reply_run u1 S k z rp C l (payload x) h d D o O B F T lh mtu)]; try done; try lia; try (by rewrite Ez).
  - cbn zeta. intros [] u2 (Hdev & _ & (dst & Hrf & Hlog) & Hinv2 & Hlo2). apply wp_in_u, wp_in_ukern. cbn [iu upd].
    destruct (lo_pools _ _ _ _ _ Hlo2) as [lr Hlr].
    eapply loose_free; [exact Hinv2|exact Hlo2|exact Hlr|]. intros k' Hk' Hw. cbn [iu upd uf fkern echo_calls pings call_results].
    split_and!; try done.
    + rewrite Hw. exact Hdev.
    + exists dst. split; [exact Hrf|]. rewrite Hw. cbn [xmit_log upd]. rewrite Hlog, <-Hlp. done.
    + by exists lr.
  - by apply (host_state_devs R).
Qed.
End echo.
