(* ===== verification/Timerwheel.v ===== *)
(** * The timer wheel of the TCP stack (stack/ipv4/tcp/timerwheel.c)

    A ring of slots, each a list of timers.  A timer that is to expire in [s]
    intervals is put [s] slots ahead of the current one; the pivot task moves one
    slot on per interval and fires the timers of the slot it arrives at. *)
From S2P Require Import Prelude.

Definition TIMERWHEEL_TIMER_UNUSED := -1.

Record timerwheel_timer := mk_timer { tslot : Z; trefcount : Z }.
#[export] Instance timer_eta : Settable timerwheel_timer := λ r, mk_timer (tslot r) (trefcount r).

(** [struct wheel]; the timers are objects of the users of the wheel. *)
Record wheel := mk_wheel {
  timeout : Z;
  slots : Z;
  interval : Z;
  interval_base : Z;
  ring : list (list nat);
  current_slot : Z;
  timers : gmap nat timerwheel_timer;
}.
#[export] Instance wheel_eta : Settable wheel := λ r,
  mk_wheel (timeout r) (slots r) (interval r) (interval_base r) (ring r) (current_slot r) (timers r).

Definition timer_load (t : nat) : M wheel timerwheel_timer := m ← gets timers; deref (m !! t).
Definition timer_upd (t : nat) (f : timerwheel_timer → timerwheel_timer) : M wheel () :=
  T ← timer_load t; modify (λ w, w <| timers := <[t := f T]> (timers w) |>).
Definition ring_upd (i : Z) (f : list nat → option (list nat)) : M wheel () :=
  r ← gets ring;
  l ← deref (r !! Z.to_nat i);
  l' ← deref (f l);
  modify (λ w, w <| ring := <[Z.to_nat i := l']> (ring w) |>).

Definition timerwheel_init_timer (t : nat) : M wheel () :=
  modify (λ w, w <| timers := <[t := mk_timer TIMERWHEEL_TIMER_UNUSED 0]> (timers w) |>).

Definition timerwheel_get_from_current_slot : M wheel (option nat) :=
  cur ← gets current_slot;
  r ← gets ring;
  slot_list ← deref (r !! Z.to_nat cur);
  match slot_list with
  | [] => mret None
  | t :: _ =>
      ring_upd cur (list_del t);;
      timer_upd t (λ T, T <| tslot := TIMERWHEEL_TIMER_UNUSED |> <| trefcount := trefcount T + 1 |>);;
      mret (Some t)
  end.

(** [int slot = expires >> interval_base]; the comparisons with the unsigned
    [wheel.slots] are unsigned. *)
Definition timerwheel_add_timer (t : nat) (expires : Z) : M wheel Z :=
  base ← gets interval_base;
  n ← gets slots;
  let slot := s32 (Z.shiftr expires base) in
  if n <=? u32 slot then mret (- EINVAL)
  else
    T ← timer_load t;
    when (0 <=? tslot T) (ring_upd (tslot T) (list_del t));;
    cur ← gets current_slot;
    let slot := s32 (u32 (slot + cur)) in
    let slot := if n <=? u32 slot then s32 (u32 (slot - n)) else slot in
    ring_upd slot (λ l, Some (list_add_tail t l));;
    timer_upd t (λ T, T <| tslot := slot |>);;
    mret 0.

(** [ret]: what [rtdm_task_sleep] returns. *)
Definition timerwheel_sleep (ret : Z) : M wheel Z :=
  if ret <? 0 then mret ret
  else
    modify (λ w, w <| current_slot := u32 (current_slot w + 1) |>);;
    modify (λ w, if current_slot w =? slots w then w <| current_slot := 0 |> else w);;
    mret 0.

Definition timerwheel_remove_timer (t : nat) : M wheel Z :=
  T ← timer_load t;
  if 0 <=? tslot T then
    ring_upd (tslot T) (list_del t);;
    timer_upd t (λ T, T <| tslot := TIMERWHEEL_TIMER_UNUSED |>);;
    mret 0
  else mret (- ENOENT).

(** [while (timer->refcount > 0) msleep(..)]: while this task sleeps, the pivot
    task goes on, one step of [env] per round. *)
Fixpoint wait_idle (env : list (M wheel ())) (t : nat) : M wheel () :=
  T ← timer_load t;
  if 0 <? trefcount T then
    match env with
    | [] => ub
    | e :: env => e;; wait_idle env t
    end
  else mret ().
Definition timerwheel_remove_timer_sync (env : list (M wheel ())) (t : nat) : M wheel () :=
  timerwheel_remove_timer t;; wait_idle env t.

(** [mem]: whether [kmalloc] succeeds; [err]: what [rtdm_task_init] returns. *)
Definition timerwheel_init (timeout0 granularity : Z) (mem : bool) (err : Z) : M wheel Z :=
  if granularity <? 10 then mret (- EINVAL)
  else
    let n := u32 (Z.shiftr timeout0 granularity + 1) in
    modify (λ w, w <| timeout := timeout0 |> <| interval_base := granularity |> <| slots := n |>
                   <| interval := s32 (Z.shiftl 1 granularity) |> <| current_slot := 0 |>);;
    if negb mem then mret (- ENOMEM)
    else modify (λ w, w <| ring := replicate (Z.to_nat n) [] |>);; mret err.

Section pivot.
(** The handlers of the timers. *)
Context (handler : nat → M wheel ()).

(** The inner loop of [timerwheel_pivot]; the result lists the timers fired. *)
Fixpoint pivot_drain (fuel : nat) : M wheel (list nat) :=
  match fuel with
  | O => ub
  | S fuel =>
      r ← timerwheel_get_from_current_slot;
      match r with
      | None => mret []
      | Some t =>
          handler t;;
          timer_upd t (λ T, T <| trefcount := trefcount T - 1 |>);;
          fired ← pivot_drain fuel;
          mret (t :: fired)
      end
  end.
(** One round of the outer loop, after a sleep that was not interrupted. *)
Definition pivot_round : M wheel (list nat) :=
  timerwheel_sleep 0;;
  fuel ← gets (λ w, S (size (timers w)));
  pivot_drain fuel.
(** A round for each of [others], which is what other tasks do on the wheel while the
    pivot task sleeps. *)
Fixpoint pivot_rounds (others : list (M wheel ())) : M wheel (list (list nat)) :=
  match others with
  | [] => mret []
  | o :: others => o;; fired ← pivot_round; rest ← pivot_rounds others; mret (fired :: rest)
  end.
End pivot.

(** ** Invariant *)

Record wheel_wf (w : wheel) : Prop := {
  wf_slots : 0 < slots w < 2 ^ 31;
  wf_ring : length (ring w) = Z.to_nat (slots w);
  wf_cur : 0 ≤ current_slot w < slots w;
}.
(** The timers outside [X] are in the slot their [slot] field says, once, and
    nowhere else; those of [X] are in no slot. *)
Record wheel_inv (X : nat → Prop) (w : wheel) : Prop := {
  wi_wf : wheel_wf w;
  wi_nodup : ∀ i l, ring w !! i = Some l → NoDup l;
  wi_lists : ∀ i l t, ring w !! i = Some l → t ∈ l →
    ¬ X t ∧ ∃ T, timers w !! t = Some T ∧ tslot T = Z.of_nat i;
  wi_timers : ∀ t T, ¬ X t → timers w !! t = Some T →
    tslot T = TIMERWHEEL_TIMER_UNUSED ∨
    ∃ i l, tslot T = Z.of_nat i ∧ ring w !! i = Some l ∧ t ∈ l;
}.
Abbreviation wheel_ok := (wheel_inv (λ _, False)).
Abbreviation detached t := (wheel_inv (λ u, u = t)).

(** What [timerwheel_init] has set up. *)
Definition geometry (w : wheel) : Z * Z * Z * Z := (timeout w, slots w, interval w, interval_base w).
Lemma geometry_slots w w' : geometry w' = geometry w → slots w' = slots w ∧ interval_base w' = interval_base w.
Proof. intros [= _ E1 _ E2]. done. Qed.

Section wheel.
Implicit Types (w : wheel) (t : nat).

(** Where a timer is, in terms of its own field. *)
Lemma in_slot w i l t : wheel_ok w → ring w !! i = Some l → t ∈ l ↔ ∃ T, timers w !! t = Some T ∧ tslot T = Z.of_nat i.
Proof.
  intros Hok Hl. split; [intros Ht; by apply (wi_lists _ _ Hok i l t Hl Ht)|]. intros (T & HT & E).
  destruct (wi_timers _ _ Hok t T) as [Hi|(j & k & Ej & Hk & Htk)]; [tauto|done|unfold TIMERWHEEL_TIMER_UNUSED in *; lia|].
  assert (j = i) as -> by lia. by simplify_eq.
Qed.

Lemma wp_timer_load t T Q w : timers w !! t = Some T → Q T w → wp (timer_load t) Q w.
Proof. intros HT HQ. unfold timer_load. wp_run. done. Qed.
Lemma wp_timer_upd t f T Q w :
  timers w !! t = Some T → Q () (w <| timers := <[t := f T]> (timers w) |>) → wp (timer_upd t f) Q w.
Proof.
  intros HT HQ. unfold timer_upd. apply wp_bind. eapply wp_timer_load; [done|]. by apply wp_modify.
Qed.
Lemma wp_ring_upd i f l l' (Q : () → wheel → Prop) w :
  ring w !! Z.to_nat i = Some l → f l = Some l' →
  Q () (w <| ring := <[Z.to_nat i := l']> (ring w) |>) → wp (ring_upd i f) Q w.
Proof. intros Hl Hf HQ. unfold ring_upd. wp_run. done. Qed.

Lemma list_del_NoDup (l l' : list nat) t :
  NoDup l → list_del t l = Some l' → NoDup l' ∧ ∀ u, u ∈ l' ↔ u ∈ l ∧ u ≠ t.
Proof.
  intros Hnd Hd. pose proof (list_del_perm _ _ _ Hd) as Hp. rewrite Hp in Hnd.
  apply NoDup_cons in Hnd as [Ht Hnd]. split; [done|]. intros u. rewrite Hp, elem_of_cons.
  split; [|naive_solver]. intros Hu. split; [by right|]. by intros ->.
Qed.

(** Taking a timer out of its slot. *)
Lemma detach_run w t i l (Q : () → wheel → Prop) :
  wheel_ok w → ring w !! Z.to_nat i = Some l → t ∈ l →
  (∀ l', list_del t l = Some l' →
     detached t (w <| ring := <[Z.to_nat i := l']> (ring w) |>) →
     Q () (w <| ring := <[Z.to_nat i := l']> (ring w) |>)) →
  wp (ring_upd i (list_del t)) Q w.
Proof.
  intros [Hwf Hnd Hl Ht] Hi Hin HQ. destruct (list_del_elem t l Hin) as [l' Hd].
  eapply wp_ring_upd; [done..|]. apply HQ; [done|].
  destruct (list_del_NoDup l l' t (Hnd _ _ Hi) Hd) as [Hnd' Hin'].
  pose proof (lookup_lt_Some _ _ _ Hi).
  split; cbn.
  - destruct Hwf. split; cbn; rewrite ?length_insert; done.
  - intros j k [(<- & <- & _)|(_ & Hk)]%list_lookup_insert_Some; eauto.
  - intros j k u [(<- & <- & _)|(Hne & Hk)]%list_lookup_insert_Some Hu.
    + apply Hin' in Hu as [Hu Hut]. split; [done|]. by eapply Hl.
    + destruct (Hl j k u Hk Hu) as (_ & U & HU & HUs). split; [|eauto]. intros ->.
      destruct (Hl _ _ t Hi Hin) as (_ & T & HT & HTs). simplify_eq. apply Hne. lia.
  - intros u U Hut HU. destruct (Ht u U) as [?|(j & k & ? & Hk & Huk)]; [auto|done|by left|].
    right. destruct (decide (j = Z.to_nat i)) as [->|Hne].
    + exists (Z.to_nat i), l'. rewrite list_lookup_insert_eq by done. simplify_eq.
      split_and!; [done..|]. by apply Hin'.
    + exists j, k. by rewrite list_lookup_insert_ne.
Qed.
Lemma detached_idle w t T :
  wheel_ok w → timers w !! t = Some T → tslot T = TIMERWHEEL_TIMER_UNUSED → detached t w.
Proof.
  intros [Hwf Hnd Hl Ht] HT Hidle. split; [done..| |].
  - intros i l u Hi Hu. destruct (Hl i l u Hi Hu) as (_ & U & HU & HUs). split; [|eauto].
    intros ->. simplify_eq. unfold TIMERWHEEL_TIMER_UNUSED in *. lia.
  - intros u U _ HU. apply (Ht u U); auto.
Qed.
(** A detached timer becomes idle, or is put into a slot. *)
Lemma settle_idle w t T :
  detached t w → tslot T = TIMERWHEEL_TIMER_UNUSED → wheel_ok (w <| timers := <[t := T]> (timers w) |>).
Proof.
  intros [Hwf Hnd Hl Ht] Hidle. split; cbn.
  - by destruct Hwf.
  - done.
  - intros i l u Hi Hu. destruct (Hl i l u Hi Hu) as (Hne & U & HU & HUs). split; [tauto|].
    exists U. by rewrite lookup_insert_ne.
  - intros u U _ [(<- & <-)|(Hne & HU)]%lookup_insert_Some; [by left|]. apply (Ht u U); [congruence|done].
Qed.
Lemma settle_slot w t T i l :
  detached t w → ring w !! i = Some l → tslot T = Z.of_nat i →
  wheel_ok (w <| ring := <[i := list_add_tail t l]> (ring w) |> <| timers := <[t := T]> (timers w) |>).
Proof.
  intros [Hwf Hnd Hl Ht] Hi Hs. pose proof (lookup_lt_Some _ _ _ Hi).
  assert (Htl : t ∉ l) by (intros Hin; by destruct (Hl _ _ _ Hi Hin)).
  split; cbn.
  - destruct Hwf. split; cbn; rewrite ?length_insert; done.
  - intros j k [(<- & <- & _)|(_ & Hk)]%list_lookup_insert_Some; [|eauto].
    apply NoDup_app. split_and!; [eauto|set_solver|apply NoDup_singleton].
  - intros j k u [(<- & <- & _)|(Hne & Hk)]%list_lookup_insert_Some Hu; (split; [tauto|]).
    + apply elem_of_app in Hu as [Hu| ->%list_elem_of_singleton].
      * destruct (Hl i l u Hi Hu) as (? & U & HU & HUs). exists U. by rewrite lookup_insert_ne.
      * exists T. by rewrite lookup_insert_eq.
    + destruct (Hl j k u Hk Hu) as (? & U & HU & HUs). exists U. by rewrite lookup_insert_ne.
  - intros u U _ [(<- & <-)|(Hne & HU)]%lookup_insert_Some.
    + right. exists i, (list_add_tail t l). rewrite list_lookup_insert_eq by done. split_and!; [done..|].
      unfold list_add_tail. set_solver.
    + destruct (Ht u U) as [?|(j & k & ? & Hk & Hu)]; [congruence|done|by left|]. right.
      destruct (decide (j = i)) as [->|].
      * exists i, (list_add_tail t l). rewrite list_lookup_insert_eq by done. simplify_eq.
        split_and!; [done..|]. unfold list_add_tail. set_solver.
      * exists j, k. by rewrite list_lookup_insert_ne.
Qed.

(** The slot arithmetic of [timerwheel_add_timer], on [int] and [unsigned int]. *)
Lemma slot_wrap n a c :
  0 < n < 2 ^ 31 → 0 ≤ a < n → 0 ≤ c < n →
  (let s1 := s32 (u32 (a + c)) in if n <=? u32 s1 then s32 (u32 (s1 - n)) else s1)
  = (if a + c <? n then a + c else a + c - n).
Proof.
  intros Hn Ha Hc. cbn zeta. change (2 ^ 31) with 2147483648 in Hn.
  assert (E1 : u32 (a + c) = a + c) by (apply Z.mod_small; lia).
  assert (E2 : u32 (s32 (a + c)) = a + c).
  { unfold u32, s32. change (2 ^ 31) with 2147483648. change (2 ^ 32) with 4294967296. divlia. }
  rewrite E1, E2. destruct (Z.leb_spec n (a + c)), (Z.ltb_spec (a + c) n); try lia.
  - unfold u32, s32. change (2 ^ 31) with 2147483648. change (2 ^ 32) with 4294967296. divlia.
  - unfold s32. change (2 ^ 31) with 2147483648. change (2 ^ 32) with 4294967296. divlia.
Qed.

(** The slot a timer goes to. *)
Definition target w (s : Z) : Z :=
  if s + current_slot w <? slots w then s + current_slot w else s + current_slot w - slots w.

Lemma add_timer_run w t T expires :
  wheel_ok w → timers w !! t = Some T →
  let s := s32 (Z.shiftr expires (interval_base w)) in
  wp (timerwheel_add_timer t expires)
     (λ ret w', if slots w <=? u32 s then ret = - EINVAL ∧ w' = w
                else ret = 0 ∧ wheel_ok w' ∧ geometry w' = geometry w ∧ current_slot w' = current_slot w ∧
                  timers w' = <[t := T <| tslot := target w s |>]> (timers w) ∧
                  ∃ l, ring w' !! Z.to_nat (target w s) = Some l ∧ t ∈ l) w.
Proof.
  intros Hok HT s. unfold timerwheel_add_timer. wp_run. fold s.
  destruct (Z.leb_spec (slots w) (u32 s)) as [Hbig|Hs]; [by wp_run|].
  pose proof (wi_wf _ _ Hok) as [Hsl Hr Hcur].
  assert (Hs0 : 0 ≤ s < slots w).
  { unfold u32, s32 in *. change (2 ^ 31) with 2147483648 in *. change (2 ^ 32) with 4294967296 in *.
    subst s. divlia. }
  apply wp_bind. eapply wp_timer_load; [done|]. apply wp_bind.
  apply (wp_mono _ (λ _ w', detached t w' ∧ geometry w' = geometry w ∧ current_slot w' = current_slot w ∧
    timers w' = timers w)); last first.
  { destruct (wi_timers _ _ Hok t T) as [Hi|(i & l & Hi & Hl & Hin)]; [tauto|done|..]; rewrite Hi.
    - cbn [when Z.leb TIMERWHEEL_TIMER_UNUSED Z.compare]. wp_run. split; [by eapply detached_idle|done].
    - replace (0 <=? Z.of_nat i) with true by lia. cbn [when].
      eapply detach_run; [done|by rewrite Nat2Z.id|done|]. done. }
  cbn beta. intros _ w1 (Hd & Eg & Ec & Et). pose proof (geometry_slots _ _ Eg) as [Es _]. wp_run. rewrite Ec.
  pose proof (slot_wrap (slots w) s (current_slot w) Hsl Hs0 Hcur) as Hwrap. cbn zeta in Hwrap.
  rewrite Hwrap. fold (target w s).
  assert (Htg : 0 ≤ target w s < slots w) by (unfold target; destruct (Z.ltb_spec (s + current_slot w) (slots w)); lia).
  pose proof (wi_wf _ _ Hd) as [_ Hr1 _]. rewrite Es in Hr1.
  destruct (lookup_lt_is_Some_2 (ring w1) (Z.to_nat (target w s))) as [l Hl]; [lia|].
  eapply wp_ring_upd; [done..|]. apply wp_bind. eapply wp_timer_upd; [cbn; by rewrite Et|]. wp_run.
  split; [done|]. split; [|split_and!; cbn; [done..|by rewrite Et|]].
  - apply (settle_slot w1 t (T <| tslot := target w s |>) _ l); [done..|]. cbn. lia.
  - exists (list_add_tail t l). rewrite list_lookup_insert_eq by (by eapply lookup_lt_Some).
    split; [done|]. unfold list_add_tail. set_solver.
Qed.

(** Removing the first timer of the current slot. *)
Lemma get_current_run w l :
  wheel_ok w → ring w !! Z.to_nat (current_slot w) = Some l →
  wp timerwheel_get_from_current_slot
     (λ r w', match l with
      | [] => r = None ∧ w' = w
      | t :: l' => r = Some t ∧ wheel_ok w' ∧ ∃ T, timers w !! t = Some T ∧
          w' = w <| ring := <[Z.to_nat (current_slot w) := l']> (ring w) |>
                 <| timers := <[t := mk_timer TIMERWHEEL_TIMER_UNUSED (trefcount T + 1)]> (timers w) |>
      end) w.
Proof.
  intros Hok Hl. unfold timerwheel_get_from_current_slot. wp_run.
  destruct l as [|t l]; [by wp_run|]. wp_run.
  destruct (wi_lists _ _ Hok _ _ t Hl) as (_ & T & HT & _); [set_solver|].
  eapply detach_run; [done..|set_solver|]. cbn [list_del]. rewrite decide_True by done.
  intros l' [= <-] Hd. apply wp_bind. eapply wp_timer_upd; [done|]. wp_run.
  split; [done|]. split; [|by eexists]. by apply settle_idle.
Qed.

Lemma remove_timer_run w t T :
  wheel_ok w → timers w !! t = Some T →
  wp (timerwheel_remove_timer t)
     (λ ret w', wheel_ok w' ∧ geometry w' = geometry w ∧ current_slot w' = current_slot w ∧
        if 0 <=? tslot T
        then ret = 0 ∧ timers w' = <[t := T <| tslot := TIMERWHEEL_TIMER_UNUSED |>]> (timers w) ∧
             ∀ i l, ring w' !! i = Some l → t ∉ l
        else ret = - ENOENT ∧ w' = w) w.
Proof.
  intros Hok HT. unfold timerwheel_remove_timer. apply wp_bind. eapply wp_timer_load; [done|].
  destruct (wi_timers _ _ Hok t T) as [Hi|(i & l & Hi & Hl & Hin)]; [tauto|done|..]; rewrite Hi.
  - change (0 <=? TIMERWHEEL_TIMER_UNUSED) with false. wp_run. done.
  - replace (0 <=? Z.of_nat i) with true by lia. apply wp_bind.
    eapply detach_run; [done|by rewrite Nat2Z.id|done|]. intros l' Hd Hdet.
    apply wp_bind. eapply wp_timer_upd; [done|]. wp_run. split; [by apply settle_idle|]. split; [done|]. split; [done|].
    split_and!; [done..|]. intros j k Hk Htk. destruct (wi_lists _ _ Hdet j k t Hk Htk) as [? _]. auto.
Qed.

(** the operations on timers keep the wheel consistent (every pending timer is
    in exactly the slot its [slot] field names) and do what they promise on every
    path: adding re-queues a pending timer, puts it the given number of intervals
    ahead of the current slot, modulo the size of the wheel and without overflow in
    the [int] arithmetic, and rejects a timeout beyond the wheel with -EINVAL and no
    effect; removing makes the timer idle, or returns -ENOENT if it is. *)
Theorem timerwheel_add_remove_correct w t T expires :
  wheel_ok w → timers w !! t = Some T →
  let s := s32 (Z.shiftr expires (interval_base w)) in
  (∃ ret w', timerwheel_add_timer t expires w = Some (ret, w') ∧
     if slots w <=? u32 s then ret = - EINVAL ∧ w' = w
     else ret = 0 ∧ wheel_ok w' ∧ current_slot w' = current_slot w ∧
       timers w' = <[t := T <| tslot := target w s |>]> (timers w) ∧
       ∃ l, ring w' !! Z.to_nat (target w s) = Some l ∧ t ∈ l) ∧
  (∃ ret w', timerwheel_remove_timer t w = Some (ret, w') ∧ wheel_ok w' ∧
     if 0 <=? tslot T
     then ret = 0 ∧ timers w' = <[t := T <| tslot := TIMERWHEEL_TIMER_UNUSED |>]> (timers w) ∧
          ∀ i l, ring w' !! i = Some l → t ∉ l
     else ret = - ENOENT ∧ w' = w).
Proof.
  intros Hok HT s. split.
  - destruct (wp_elim _ _ _ (add_timer_run w t T expires Hok HT)) as (ret & w' & E & Hw').
    exists ret, w'. split; [exact E|]. fold s in Hw'. destruct (slots w <=? u32 s); [done|]. tauto.
  - destruct (wp_elim _ _ _ (remove_timer_run w t T Hok HT)) as (ret & w' & E & Hw' & _ & _ & Hc). eauto 6.
Qed.

(** *** Rounds of the pivot task *)

(** A step of somebody else: it may add and remove timers, but leaves timer [t] where it
    is. *)
Record undisturbed t w w' : Prop := {
  ud_ok : wheel_ok w';
  ud_geometry : geometry w' = geometry w;
  ud_current : current_slot w' = current_slot w;
  ud_dom : dom (timers w) ⊆ dom (timers w');
  ud_slot : tslot <$> timers w' !! t = tslot <$> timers w !! t;
}.
(** No timer is new in the current slot. *)
Definition slot_shrinks w w' : Prop :=
  ∀ l l' u, ring w !! Z.to_nat (current_slot w) = Some l → ring w' !! Z.to_nat (current_slot w) = Some l' → u ∈ l' → u ∈ l.

(** The wheel was set up as [g], and the timers [D] exist. *)
Record setting (g : Z * Z * Z * Z) (D : gset nat) w : Prop := {
  se_ok : wheel_ok w;
  se_geometry : geometry w = g;
  se_timers : D ⊆ dom (timers w);
}.
(** Other tasks leave timer [t] alone; so do the handlers of other timers, and no handler
    starts a timer with less than one interval to go (the pivot task would serve it at
    once, again and again). *)
Definition bystander t g D (m : M wheel ()) : Prop := ∀ w, setting g D w → wp m (λ _ w', undisturbed t w w') w.
Definition behaved t g D (handler : nat → M wheel ()) : Prop :=
  ∀ u w, setting g D w → is_Some (timers w !! u) →
    wp (handler u) (λ _ w', (∃ t', (u ≠ t → t' = t) ∧ undisturbed t' w w') ∧ slot_shrinks w w') w.

(** A timer is started. *)
Lemma add_undisturbed w u U e t :
  wheel_ok w → timers w !! u = Some U → t ≠ u →
  wp (timerwheel_add_timer u e) (λ _ w', undisturbed t w w') w.
Proof.
  intros Hok HU Ht. eapply wp_mono; [|by eapply add_timer_run]. cbn zeta. intros ret w'.
  destruct (_ <=? _); [intros [_ ->]; by split|]. intros (_ & Hok' & Eg & Ec & Et & _). split; try done; rewrite Et.
  - set_solver.
  - by rewrite lookup_insert_ne.
Qed.
(** A handler that starts its timer again, at least one interval later: as the one of TCP
    does it. *)
Lemma rearm_behaved t g D e :
  (let '(_, n, _, base) := g in 0 < Z.shiftr e base < n) →
  behaved t g D (λ u, timerwheel_add_timer u e;; mret ()).
Proof.
  destruct g as [[[to n] iv] base]. intros He u w [Hok [= _ En _ Eb] _] [U HU]. apply wp_bind.
  assert (∃ t', (u ≠ t → t' = t) ∧ t' ≠ u) as (t' & Ht' & Hne).
  { destruct (decide (u = t)) as [->|]; [exists (S t); split; [done|lia]|exists t; auto]. }
  eapply wp_mono; [|apply wp_both; [by eapply add_undisturbed|by eapply (add_timer_run w u U e)]].
  intros ret w' [Hud Hadd]. apply wp_ret. split; [by exists t'|]. pose proof (wi_wf _ _ Hok) as [Hsl _ Hcur].
  assert (Es : s32 (Z.shiftr e (interval_base w)) = Z.shiftr e base).
  { rewrite Eb. unfold s32. change (2 ^ 31) with 2147483648 in *. change (2 ^ 32) with 4294967296. divlia. }
  cbn zeta in Hadd. rewrite Es in Hadd. replace (slots w <=? u32 (Z.shiftr e base)) with false in Hadd
    by (symmetry; apply Z.leb_gt; unfold u32; rewrite Z.mod_small; lia).
  destruct Hadd as (_ & Hok' & _ & _ & Et & _). intros l l' v Hl Hl' Hv.
  apply (in_slot w' _ l' v Hok' Hl') in Hv as (V & HV & Esl). apply (in_slot w _ l v Hok Hl). rewrite Et in HV.
  apply lookup_insert_Some in HV as [[<- <-]|[_ HV]]; [|eauto]. exfalso. cbn in Esl. revert Esl. unfold target.
  destruct (_ <? _) eqn:E; lia.
Qed.

Context (handler : nat → M wheel ()).

(** The reference count of a timer is nobody's business. *)
Lemma refcount_undisturbed t w u U n :
  wheel_ok w → timers w !! u = Some U →
  let w' := w <| timers := <[u := U <| trefcount := n |>]> (timers w) |> in undisturbed t w w' ∧ ring w' = ring w.
Proof.
  intros [Hwf Hnd Hl Ht] HU w'. split; [|done]. split; try done; cbn.
  - split; cbn; [by destruct Hwf|done| |].
    + intros i l v Hi Hv. destruct (Hl i l v Hi Hv) as (? & V & HV & E). split; [done|].
      destruct (decide (u = v)) as [->|]; [|exists V; by rewrite lookup_insert_ne]. simplify_eq. eexists. by rewrite lookup_insert_eq.
    + intros v V _ [(<- & <-)|(_ & HV)]%lookup_insert_Some; [apply (Ht u U); [tauto|done]|apply (Ht v V); [tauto|done]].
  - set_solver.
  - destruct (decide (u = t)) as [->|]; [by rewrite lookup_insert_eq, HU|by rewrite lookup_insert_ne].
Qed.

(** What the pivot task does to timer [t] in a slot with the timers [l]: if it is one of
    them it is fired; otherwise it stays where it is. *)
Record drained t w (l : list nat) (fired : list nat) w' : Prop := {
  dr_ok : wheel_ok w';
  dr_geometry : geometry w' = geometry w;
  dr_current : current_slot w' = current_slot w;
  dr_dom : dom (timers w) ⊆ dom (timers w');
  dr_fired : ∀ u, u ∈ fired → u ∈ l;
  dr_due : t ∈ l → t ∈ fired;
  dr_stays : t ∉ l → tslot <$> timers w' !! t = tslot <$> timers w !! t;
}.
(** One timer of the current slot is served. *)
Lemma serve_run t g D w u l :
  behaved t g D handler → setting g D w → ring w !! Z.to_nat (current_slot w) = Some (u :: l) →
  wp (timerwheel_get_from_current_slot ≫= λ r, match r with None => ub | Some v =>
        handler v;; timer_upd v (λ T, T <| trefcount := trefcount T - 1 |>);; mret v end)
     (λ v w', v = u ∧ setting g D w' ∧ current_slot w' = current_slot w ∧ dom (timers w) ⊆ dom (timers w') ∧
        (u ≠ t → tslot <$> timers w' !! t = tslot <$> timers w !! t) ∧
        ∃ l', ring w' !! Z.to_nat (current_slot w) = Some l' ∧ l' ⊆ l) w.
Proof.
  intros Hb [Hok Hg HD] Hl. pose proof (lookup_lt_Some _ _ _ Hl) as Hlt. apply wp_bind. eapply wp_mono; [|by eapply get_current_run]. cbn beta iota.
  intros r w1 (-> & Hok1 & U & HU & E1). apply wp_bind.
  assert (Hd1 : dom (timers w) ⊆ dom (timers w1)) by (rewrite E1; cbn; set_solver).
  eapply wp_mono; [|apply (Hb u w1); [split; [done|by rewrite E1|set_solver]|rewrite E1; cbn; rewrite lookup_insert_eq; eauto]].
  intros _ w2 [(t' & Ht' & [Hok2 Eg2 Ec2 Hd2 Es2]) Hsh]. apply wp_bind.
  assert (is_Some (timers w2 !! u)) as [U2 HU2] by (apply elem_of_dom, Hd2; rewrite E1; cbn; set_solver).
  eapply wp_timer_upd; [exact HU2|]. apply wp_ret.
  destruct (refcount_undisturbed t w2 u U2 (trefcount U2 - 1) Hok2 HU2) as [[Hok3 Eg3 Ec3 Hd3 Es3] Er3].
  assert (Ec1 : current_slot w1 = current_slot w) by (by rewrite E1).
  assert (Hr1 : ring w1 !! Z.to_nat (current_slot w) = Some l) by (rewrite E1; by apply list_lookup_insert_eq).
  split; [done|]. split; [split; [done|by rewrite Eg3, Eg2, E1|set_solver]|]. split_and!; [by rewrite Ec3, Ec2|set_solver| |].
  - intros Hne. rewrite Es3. rewrite (Ht' Hne) in Es2. rewrite Es2, E1. cbn. by rewrite lookup_insert_ne.
  - rewrite Er3. pose proof (wi_wf _ _ Hok2) as [_ Hr2 Hc2].
    destruct (lookup_lt_is_Some_2 (ring w2) (Z.to_nat (current_slot w))) as [l' Hl']; [lia|].
    exists l'. split; [done|]. intros v Hv. eapply (Hsh l l'); rewrite ?Ec1; done.
Qed.
Lemma drain_run t g D : ∀ fuel w l,
  behaved t g D handler → setting g D w → ring w !! Z.to_nat (current_slot w) = Some l → (length l < fuel)%nat →
  wp (pivot_drain handler fuel) (drained t w l) w.
Proof.
  induction fuel as [|fuel IH]; intros w l Hb Hse Hl Hf; [lia|]. pose proof Hse as [Hok Hg _]. cbn [pivot_drain]. destruct l as [|u l].
  { apply wp_bind. eapply wp_mono; [|by eapply get_current_run]. cbn beta iota. intros r w' [-> ->]. apply wp_ret. by split. }
  pose proof (serve_run t g D w u l Hb Hse Hl) as (v & w1 & E & -> & Hse1 & Ec1 & Hd1 & Ht1 & l1 & Hl1 & Hsub)%wp_elim.
  pose proof Hse1 as [Hok1 Hg1 _].
  assert (Hlen : (length l1 ≤ length l)%nat) by (apply submseteq_length, NoDup_submseteq; [by eapply (wi_nodup _ _ Hok1)|done]).
  specialize (IH w1 l1 Hb Hse1 ltac:(by rewrite Ec1) ltac:(cbn in Hf; lia)).
  revert E IH. unfold wp, mbind, M_bind. destruct (timerwheel_get_from_current_slot w) as [[[v|] wa]|]; [|done..].
  destruct (handler v wa) as [[[] wb]|]; [|done]. destruct (timer_upd v _ wb) as [[[] wc]|]; [|done].
  intros [= -> ->]. destruct (pivot_drain handler fuel w1) as [[fired w2]|]; [|done]. cbn.
  intros [Hok2 Eg2 Ec2 Hd2 Hfi Hdue Hst]. pose proof (wi_nodup _ _ Hok _ _ Hl) as [Hul _]%NoDup_cons.
  assert (Hkeep : u ≠ t → t ∈ l ↔ t ∈ l1).
  { intros Hne. specialize (Ht1 Hne). split; [|apply Hsub]. intros Htl. apply (in_slot w1 _ l1 t Hok1 Hl1).
    destruct (proj1 (in_slot w _ (u :: l) t Hok Hl)) as (T & HT & ET); [set_solver|]. rewrite HT in Ht1.
    destruct (timers w1 !! t) as [T1|] eqn:HT1; [|done]. injection Ht1 as E1. exists T1. split; [done|congruence]. }
  split; [done|by rewrite Eg2, Hg1|by rewrite Ec2|set_solver| | |].
  - intros x [->|Hx%Hfi]%elem_of_cons; set_solver.
  - intros [->|Ht]%elem_of_cons; [set_solver|]. destruct (decide (u = t)) as [->|Hne]; [set_solver|]. apply elem_of_cons. right. by apply Hdue, Hkeep.
  - intros [Hne Ht]%not_elem_of_cons. rewrite Hst by (rewrite <-Hkeep; [done|congruence]). apply Ht1. congruence.
Qed.

Definition next_slot w : Z := if current_slot w + 1 =? slots w then 0 else current_slot w + 1.
Lemma round_run t g D w :
  behaved t g D handler → setting g D w →
  wp (pivot_round handler)
     (λ fired w', ∃ l, ring w !! Z.to_nat (next_slot w) = Some l ∧ drained t (w <| current_slot := next_slot w |>) l fired w') w.
Proof.
  intros Hb [Hok Hg HD]. unfold pivot_round, timerwheel_sleep. cbn [Z.ltb Z.compare]. wp_run.
  pose proof (wi_wf _ _ Hok) as [Hsl Hr Hcur].
  set (w1 := w <| current_slot := u32 (current_slot w + 1) |>).
  set (w2 := if current_slot w1 =? slots w1 then w1 <| current_slot := 0 |> else w1).
  assert (Hu : u32 (current_slot w + 1) = current_slot w + 1) by (apply Z.mod_small; lia).
  assert (E2 : w2 = w <| current_slot := next_slot w |>).
  { unfold w2, w1, next_slot. cbn. rewrite Hu. by destruct (current_slot w + 1 =? slots w). }
  rewrite E2. assert (Hn : 0 ≤ next_slot w < slots w).
  { unfold next_slot. destruct (Z.eqb_spec (current_slot w + 1) (slots w)); lia. }
  assert (Hok2 : wheel_ok (w <| current_slot := next_slot w |>)).
  { destruct Hok as [[] ? ? ?]. split; [split|..]; done. }
  destruct (lookup_lt_is_Some_2 (ring w) (Z.to_nat (next_slot w))) as [l Hl]; [lia|].
  eapply wp_mono; [|eapply (drain_run t g D _ _ l); [done|by split|done|]].
  - cbn beta. intros fired w' Hdr. by exists l.
  - cbn. apply Nat.lt_succ_r. apply NoDup_length_size; [by eapply wi_nodup|].
    intros u Hu1. destruct (wi_lists _ _ Hok _ _ u Hl Hu1) as (_ & T & HT & _). eauto.
Qed.

(** The slot [d] rounds ahead. *)
Definition ahead w (d : Z) : Z := (current_slot w + d) mod slots w.
Lemma next_slot_mod w : wheel_wf w → next_slot w = ahead w 1.
Proof.
  intros [Hsl _ Hcur]. unfold next_slot, ahead. destruct (Z.eqb_spec (current_slot w + 1) (slots w)) as [->|].
  - by rewrite Z.mod_same by lia.
  - by rewrite Z.mod_small by lia.
Qed.

(** A timer [d] slots ahead fires in round [d] and in none before. *)
Lemma rounds_run t g D : ∀ others w T,
  behaved t g D handler → Forall (bystander t g D) others → others ≠ [] → setting g D w →
  Z.of_nat (length others) ≤ slots w → timers w !! t = Some T → tslot T = ahead w (Z.of_nat (length others)) →
  wp (pivot_rounds handler others)
     (λ fired w', wheel_ok w' ∧ ∃ early due, fired = early ++ [due] ∧ S (length early) = length others ∧
        t ∈ due ∧ ∀ fs, fs ∈ early → t ∉ fs) w.
Proof.
  induction others as [|o others IH]; intros w T Hb Hoth Hne Hse Hle HT Hsl; [done|]. pose proof Hse as [Hok Hg HD].
  apply Forall_cons in Hoth as [Ho Hoth]. cbn [pivot_rounds]. apply wp_bind. eapply wp_mono; [|by apply (Ho w)].
  intros _ w1 [Hok1 Eg1 Ec1 Hd1 Es1]. rewrite HT in Es1. destruct (timers w1 !! t) as [T1|] eqn:HT1; [|done]. injection Es1 as Es1.
  destruct (geometry_slots _ _ Eg1) as [Esl1 _]. pose proof (wi_wf _ _ Hok1) as Hwf. pose proof Hwf as [Hs1 Hr1 Hcur1].
  assert (Hah : ∀ d, ahead w1 d = ahead w d) by (intros d; unfold ahead; by rewrite Esl1, Ec1).
  apply wp_bind. eapply wp_mono; [|eapply (round_run t g D w1); [done|split; [done|by rewrite Eg1|set_solver]]].
  intros fired w2 (l & Hl & [Hok2 Eg2 Ec2 Hd2 Hfi Hdue Hst]). rewrite (next_slot_mod w1 Hwf) in *. change (geometry (w1 <| current_slot := ahead w1 1 |>)) with (geometry w1) in Eg2.
  cbn in Ec2, Hd2, Hst. destruct (geometry_slots _ _ Eg2) as [Esl2 _].
  assert (Hpos : ∀ x, 0 ≤ ahead w1 x < slots w1) by (intros x; apply Z.mod_pos_bound; lia).
  assert (Hin : t ∈ l ↔ tslot T1 = ahead w1 1).
  { pose proof (Hpos 1). rewrite (in_slot w1 _ l t Hok1 Hl), HT1. split; [intros (? & [= <-] & E); lia|intros E; exists T1; split; [done|lia]]. }
  destruct others as [|o2 others].
  - cbn [pivot_rounds]. wp_run. split; [done|]. exists [], fired. split_and!; [done|done| |set_solver]. apply Hdue, Hin. by rewrite Es1, Hsl, Hah.
  - set (d := Z.of_nat (length (o2 :: others))) in *.
    assert (Ed : Z.of_nat (length (o :: o2 :: others)) = d + 1) by (unfold d; cbn; lia). rewrite Ed in Hle, Hsl.
    assert (Hdp : 0 < d) by (unfold d; cbn; lia).
    assert (Htl : t ∉ l).
    { rewrite Hin, Es1, Hsl, Hah. unfold ahead. rewrite Z.cong_iff_0. replace (_ - _) with d by lia. rewrite Z.mod_small; lia. }
    specialize (Hst Htl). rewrite HT1 in Hst. destruct (timers w2 !! t) as [T2|] eqn:HT2; [|done]. injection Hst as Hst.
    apply wp_bind. eapply wp_mono; [|eapply (IH w2 T2); [done|done|done|split; [done|by rewrite Eg2, Eg1|set_solver]|fold d; lia|done|]].
    + cbn beta. intros fs w'' (Hok'' & early & due & -> & Hlen & Hd' & Hearly). wp_run. split; [done|].
      exists (fired :: early), due. split_and!; [done|cbn in *; lia|done|]. intros y [->|Hy]%elem_of_cons; [|auto]. by intros ?%Hfi.
    + fold d. rewrite Hst, Es1, Hsl. unfold ahead at 2. rewrite Esl2, Ec2. unfold ahead. rewrite Zplus_mod_idemp_l, Esl1, Ec1. f_equal. lia.
Qed.

(** C38: a timer fires on time: one that is added with a timeout of [s] intervals
    fires in the [s]-th round of the pivot task after that and in no earlier one, while
    handlers and other tasks start and stop other timers as they like (handlers not for
    less than one interval).  The exception is a timeout of less than one interval, whose
    slot is the current one: it fires only after a full rotation of the wheel. *)
Theorem timer_fires_on_time w t T expires others :
  behaved t (geometry w) (dom (timers w)) handler → Forall (bystander t (geometry w) (dom (timers w))) others → wheel_ok w → timers w !! t = Some T →
  let s := Z.shiftr expires (interval_base w) in
  0 ≤ s < slots w →
  let rounds := if s =? 0 then slots w else s in
  Z.of_nat (length others) = rounds →
  ∃ w1 w2 early due, timerwheel_add_timer t expires w = Some (0, w1) ∧
    pivot_rounds handler others w1 = Some (early ++ [due], w2) ∧
    Z.of_nat (length early) = rounds - 1 ∧ t ∈ due ∧ ∀ fs, fs ∈ early → t ∉ fs.
Proof.
  intros Hb Hoth Hok HT s Hs rounds Hlen. pose proof (wi_wf _ _ Hok) as [Hsl Hr Hcur].
  assert (Es32 : s32 s = s).
  { unfold s32. change (2 ^ 31) with 2147483648 in *. change (2 ^ 32) with 4294967296. divlia. }
  destruct (wp_elim _ _ _ (add_timer_run w t T expires Hok HT)) as (ret & w1 & E & Hw1).
  fold s in Hw1. rewrite Es32 in Hw1.
  assert (u32 s = s) as Eu by (apply Z.mod_small; lia). rewrite Eu in Hw1.
  destruct (Z.leb_spec (slots w) s); [lia|].
  destruct Hw1 as (-> & Hok1 & Eg & Ec & Et & _). destruct (geometry_slots _ _ Eg) as [Esl _].
  assert (Hrounds : 0 < rounds ≤ slots w) by (unfold rounds; destruct (Z.eqb_spec s 0); lia).
  assert (Hah : target w s = ahead w1 rounds).
  { unfold ahead, target. rewrite Esl, Ec.
    unfold rounds. destruct (Z.eqb_spec s 0); destruct (Z.ltb_spec (s + current_slot w) (slots w)); try lia.
    all: first [apply (Z.mod_unique_pos _ _ 1); lia | apply (Z.mod_unique_pos _ _ 0); lia]. }
  destruct (wp_elim _ _ _ (rounds_run t (geometry w) (dom (timers w)) others w1 (T <| tslot := target w s |>) Hb Hoth ltac:(intros ->; cbn in Hlen; lia)
    ltac:(split; [done|done|rewrite Et; set_solver]) ltac:(lia) ltac:(rewrite Et; apply lookup_insert_eq) ltac:(cbn; by rewrite Hlen)))
    as (fired & w2 & E2 & _ & early & due & -> & Hle & Hdue & Hearly).
  exists w1, w2, early, due. split_and!; [done|done|lia|done..].
Qed.
End wheel.
