(* ===== verification/Tcp.v ===== *)
(** * TCP (stack/ipv4/tcp/tcp.c)

    The registry of sockets, the segments that are sent and kept for retransmission, the
    state machine that serves received segments, and the calls of the application.  The
    socket itself is an [rtsocket] of the layer below; its timer is a timer of the wheel;
    both have the address of the TCP socket.  [socket_lock] is part of the state: taking
    it while it is held does not return.  The code between two operations on the lock,
    and what [tcp_socket_base_lock] covers, is one step.

    Not modelled: the functions under [YET_UNUSED] (keepalive probes), /proc output. *)
From S2P Require Import Prelude State RtskbQueue Rtskb RtskbData Rtdev Iovec Route IpFragment Socket IpOutput Arp Udp Timerwheel.

Definition EPROTO := 71.
Definition EPIPE := 32.
Definition EALREADY := 114.
Definition EDOM := 33.
Definition EAFNOSUPPORT := 97.
Definition ENETUNREACH := 101.
Definition ECONNREFUSED := 111.
Definition IPPROTO_TCP := 6.
Definition RT_TCP_SOCKETS : nat := 32.
Definition RT_TCP_RST_PRIO := SOCK_XMIT_PARAMS (QUEUE_MIN_PRIO - 1) SOCK_DEF_NRT_CHANNEL.
Definition RT_TCP_RST_POOL_SIZE := 8.
Definition TCPHDR_LEN := 20.

(** net/tcp_states.h *)
Definition TCP_SYN_SENT := 2.
Definition TCP_SYN_RECV := 3.
Definition TCP_FIN_WAIT1 := 4.
Definition TCP_FIN_WAIT2 := 5.
Definition TCP_TIME_WAIT := 6.
Definition TCP_CLOSE_WAIT := 8.
Definition TCP_LAST_ACK := 9.
Definition TCP_LISTEN := 10.
Definition TCP_CLOSING := 11.

(** linux/tcp.h: the word of the header that holds the flags, in network byte order. *)
Definition TCP_FLAG_FIN `{Config} := ntohl (Z.shiftl 1 16).
Definition TCP_FLAG_SYN `{Config} := ntohl (Z.shiftl 2 16).
Definition TCP_FLAG_RST `{Config} := ntohl (Z.shiftl 4 16).
Definition TCP_FLAG_ACK `{Config} := ntohl (Z.shiftl 16 16).

Definition rt_tcp_connection_timeout := 1000000000.
Definition rt_tcp_keepalive_probes := 9.
Definition rt_tcp_retransmission_timeout := 50000000.
Definition max_retransmits := 3.

(** An event is [None] when it was destroyed or never initialized, and otherwise tells
    whether it is pending.  [ts_link]: the bucket of [port_hash] the socket is in.
    [ka_timer]: the keepalive timer runs. *)
Record tcp_socket := mk_tcp_socket {
  ts_sport : Z;
  ts_saddr : Z;
  ts_dport : Z;
  ts_daddr : Z;
  tcp_state : Z;
  is_binding : bool;
  is_bound : bool;
  is_valid : bool;
  is_accepting : bool;
  is_accepted : bool;
  is_closed : bool;
  send_evt : option bool;
  conn_evt : option bool;
  ts_rt : dest_route;
  sync_seq : Z;
  sync_ack_seq : Z;
  sync_window : Z;
  sync_dst_window : Z;
  ka_enabled : bool;
  ka_probes : Z;
  ka_timer : bool;
  ts_link : option nat;
  sk_sndtimeo : Z;
  nacked_first : Z;
  timer_state : Z;
  retransmit_queue : nat;
  packet_counter : Z;
  ts_error_rate : Z;
  ts_multi_error : Z;
  socket_lock : bool;
}.
#[export] Instance tcp_socket_eta : Settable tcp_socket := λ r,
  mk_tcp_socket (ts_sport r) (ts_saddr r) (ts_dport r) (ts_daddr r) (tcp_state r) (is_binding r) (is_bound r)
    (is_valid r) (is_accepting r) (is_accepted r) (is_closed r) (send_evt r) (conn_evt r) (ts_rt r) (sync_seq r)
    (sync_ack_seq r) (sync_window r) (sync_dst_window r) (ka_enabled r) (ka_probes r) (ka_timer r) (ts_link r)
    (sk_sndtimeo r) (nacked_first r) (timer_state r) (retransmit_queue r) (packet_counter r) (ts_error_rate r)
    (ts_multi_error r) (socket_lock r).

(** The static variables of the registry; [port_hash] holds the linked sockets. *)
Record tports := mk_tports {
  tcp_auto_port_start : Z;
  tcp_auto_port_mask : Z;
  free_ports : Z;
  port_bitmap : list Z;
  port_registry : list (option nat);
  port_hash : list (list nat);
}.
#[export] Instance tports_eta : Settable tports := λ r,
  mk_tports (tcp_auto_port_start r) (tcp_auto_port_mask r) (free_ports r) (port_bitmap r) (port_registry r) (port_hash r).

(** [troute] holds the routing tables (its kernel state is that of [tf]), [tmem] the
    memory of the application, [tclock] the monotonic clock. *)
Record tstate := mk_tstate {
  tf : fstate;
  troute : rstate;
  tports_of : tports;
  tsocks : gmap nat tcp_socket;
  twheel : wheel;
  tmem : umem;
  tclock : Z;
}.
#[export] Instance tstate_eta : Settable tstate := λ r,
  mk_tstate (tf r) (troute r) (tports_of r) (tsocks r) (twheel r) (tmem r) (tclock r).

Definition in_tf {A} : M fstate A → M tstate A := zoom tf (λ f s, s <| tf := f |>).
Definition in_tkern {A} (m : M kstate A) : M tstate A := in_tf (in_fkern m).
Definition in_troute {A} : M rstate A → M tstate A :=
  zoom (λ s, (troute s) <| kern := fkern (tf s) |>)
       (λ r s, s <| troute := r <| kern := kern (troute s) |> |> <| tf := (tf s) <| fkern := kern r |> |>).
Definition in_wheel {A} : M wheel A → M tstate A := zoom twheel (λ w s, s <| twheel := w |>).
Definition ts_load (ts : nat) : M tstate tcp_socket := m ← gets tsocks; deref (m !! ts).
Definition ts_upd (ts : nat) (f : tcp_socket → tcp_socket) : M tstate () :=
  T ← ts_load ts; modify (λ s, s <| tsocks := <[ts := f T]> (tsocks s) |>).
Definition ports_upd (f : tports → tports) : M tstate () := modify (λ s, s <| tports_of := f (tports_of s) |>).

(** [rtdm_lock_get_irqsave] and [rtdm_lock_put_irqrestore] on [socket_lock]. *)
Definition lock_get (ts : nat) : M tstate () :=
  T ← ts_load ts; if socket_lock T then ub else ts_upd ts (λ T, T <| socket_lock := true |>).
Definition lock_put (ts : nat) : M tstate () := ts_upd ts (λ T, T <| socket_lock := false |>).

(** [rtdm_sem_destroy], and [rtdm_event_signal] for the two events. *)
Definition sem_destroy (ts : nat) : M tstate () := in_tf (sock_upd ts (λ S, S <| pending_sem := None |>)).
Definition signal_conn (ts : nat) : M tstate () := ts_upd ts (λ T, T <| conn_evt := (λ _, true) <$> conn_evt T |>).
Definition signal_send (ts : nat) : M tstate () := ts_upd ts (λ T, T <| send_evt := (λ _, true) <$> send_evt T |>).
Definition clear_send (ts : nat) : M tstate () := ts_upd ts (λ T, T <| send_evt := (λ _, false) <$> send_evt T |>).

(** The fields of [struct tcphdr], as the machine reads them. *)
Record tcphdr := mk_th {
  th_source : Z;
  th_dest : Z;
  th_seq : Z;
  th_ack_seq : Z;
  th_doff : Z;
  th_flags : Z;
  th_window : Z;
}.
Definition th `{Config} (x : rtskb) : option tcphdr :=
  b ← buf_read x (h_raw x) TCPHDR_LEN;
  source ← rd16 (take 2 b);
  dest ← rd16 (take 2 (drop 2 b));
  seq ← rd32 (take 4 (drop 4 b));
  ack_seq ← rd32 (take 4 (drop 8 b));
  off ← b !! 12%nat;
  fl ← b !! 13%nat;
  window ← rd16 (take 2 (drop 14 b));
  Some (mk_th source dest seq ack_seq (Z.shiftr off 4) fl window).
Definition th_fin (t : tcphdr) : bool := Z.testbit (th_flags t) 0.
Definition th_syn (t : tcphdr) : bool := Z.testbit (th_flags t) 1.
Definition th_rst (t : tcphdr) : bool := Z.testbit (th_flags t) 2.
Definition th_ack (t : tcphdr) : bool := Z.testbit (th_flags t) 4.

(** ** Sequence numbers *)

Definition rt_tcp_before (seq1 seq2 : Z) : bool := s32 (u32 (seq1 - seq2)) <=? 0.

Definition rt_tcp_after (seq1 seq2 : Z) : bool := s32 (u32 (seq2 - seq1)) <=? 0.
Definition rt_tcp_compute_ack_seq `{Config} (t : tcphdr) (n : Z) : Z :=
  let ack_seq := u32 (ntohl (th_seq t) + n) in
  if th_syn t || th_fin t then u32 (ack_seq + 1) else ack_seq.
Definition rt_tcp_initial_seq (clock_val : Z) : Z := u32 (Z.lxor clock_val (Z.shiftr clock_val 32)).

Section defs.
Context `{Config}.

(** ** The registry *)

Definition port_hash_mask := Z.of_nat RT_TCP_SOCKETS * 2 - 1.
Definition port_bucket (sport : Z) : nat := Z.to_nat (Z.land sport port_hash_mask).
Definition port_match (saddr sport : Z) (T : tcp_socket) : bool :=
  (ts_sport T =? sport) && ((saddr =? INADDR_ANY) || (ts_saddr T =? saddr) || (ts_saddr T =? INADDR_ANY)).
Fixpoint hash_find (m : gmap nat tcp_socket) (saddr sport : Z) (l : list nat) : option (option nat) :=
  match l with
  | [] => Some None
  | ts :: l => T ← m !! ts; if port_match saddr sport T then Some (Some ts) else hash_find m saddr sport l
  end.
Definition port_hash_search (saddr sport : Z) : M tstate (option nat) :=
  m ← gets tsocks;
  h ← gets (λ s, port_hash (tports_of s));
  l ← deref (h !! port_bucket sport);
  deref (hash_find m saddr sport l).

Definition port_hash_insert (ts : nat) (saddr sport : Z) : M tstate Z :=
  r ← port_hash_search saddr sport;
  match r with
  | Some _ => mret (- EADDRINUSE)
  | None =>
      let bucket := port_bucket sport in
      ts_upd ts (λ T, T <| ts_saddr := saddr |> <| ts_sport := sport |> <| ts_daddr := 0 |> <| ts_dport := 0 |>
                        <| ts_link := Some bucket |>);;
      h ← gets (λ s, port_hash (tports_of s));
      l ← deref (h !! bucket);
      ports_upd (λ P, P <| port_hash := <[bucket := ts :: l]> (port_hash P) |>);;
      mret 0
  end.

(** [hlist_del] on a socket that is not linked is a fault. *)
Definition port_hash_del (ts : nat) : M tstate () :=
  T ← ts_load ts;
  bucket ← deref (ts_link T);
  h ← gets (λ s, port_hash (tports_of s));
  l ← deref (h !! bucket);
  l' ← deref (list_del ts l);
  ts_upd ts (λ T, T <| ts_link := None |>);;
  ports_upd (λ P, P <| port_hash := <[bucket := l']> (port_hash P) |>).

(** The arguments are [u32] and [u16]. *)
Definition rt_tcp_v4_lookup (daddr dport : Z) : M tstate (option nat) :=
  r ← port_hash_search daddr (u16 dport);
  match r with
  | Some ts => in_tf (sock_upd ts (λ S, S <| close_lock_count := close_lock_count S + 1 |>));; mret (Some ts)
  | None => mret None
  end.

(** ** Keepalive *)

Definition rt_tcp_keepalive_start (ts : nat) : M tstate () :=
  T ← ts_load ts; when (tcp_state T =? TCP_ESTABLISHED) (ts_upd ts (λ T, T <| ka_timer := true |>)).
Definition rt_tcp_keepalive_stop (ts : nat) : M tstate () :=
  T ← ts_load ts; when (tcp_state T =? TCP_ESTABLISHED) (ts_upd ts (λ T, T <| ka_timer := false |>)).
Definition rt_tcp_keepalive_disable (ts : nat) : M tstate () :=
  T ← ts_load ts;
  if negb (ka_enabled T) then mret ()
  else
    rt_tcp_keepalive_stop ts;;
    (* rtdm_timer_destroy *)
    ts_upd ts (λ T, T <| ka_timer := false |> <| ka_enabled := false |>).
Definition rt_tcp_keepalive_feed (ts : nat) : M tstate () :=
  lock_get ts;;
  T ← ts_load ts;
  when ((tcp_state T =? TCP_ESTABLISHED) && ka_enabled T)
    (ts_upd ts (λ T, T <| ka_probes := rt_tcp_keepalive_probes |> <| ka_timer := true |>));;
  lock_put ts.

(** ** Validity of a connection *)

Definition rt_tcp_socket_invalidate (ts : nat) (to_state : Z) : M tstate bool :=
  T ← ts_load ts;
  let signal := is_valid T in
  ts_upd ts (λ T, T <| tcp_state := to_state |>);;
  when (is_valid T)
    (ts_upd ts (λ T, T <| is_valid := false |>);;
     when (ka_enabled T) (rt_tcp_keepalive_stop ts));;
  mret signal.
Definition rt_tcp_socket_invalidate_signal (ts : nat) : M tstate () :=
  sem_destroy ts;;
  ts_upd ts (λ T, T <| send_evt := None |>).
Definition rt_tcp_socket_validate (ts : nat) : M tstate () :=
  ts_upd ts (λ T, T <| tcp_state := TCP_ESTABLISHED |> <| is_valid := true |>);;
  T ← ts_load ts;
  when (ka_enabled T) (rt_tcp_keepalive_start ts);;
  ts_upd ts (λ T, T <| send_evt := Some false |>).

(** ** Segments *)

Context (csum_partial : list Z → Z → Z) (csum_tcpudp_magic : Z → Z → Z → Z → Z → Z) (ip_fast_csum : list Z → Z).
Context (hard_header : nat → option (nat → Z → list Z → list Z → Z → M kstate Z)).
Context (get_mtu : nat → Z → M kstate Z) (drv_xmit : nat → nat → M kstate Z).
Definition tcp_v4_check (n saddr daddr base : Z) : Z := csum_tcpudp_magic saddr daddr n IPPROTO_TCP base.

(** The header function, called between [rtdev_reference] and [rtdev_dereference];
    [iph] is the address of the IP header. *)
Definition rt_ip_build_frame (skb ts : nat) (rt : dest_route) (iph : Z) : M tstate Z :=
  d ← deref (dest_rtdev rt);
  match hard_header d with
  | None => if assert_fails false then mret (- EBADF) else ub
  | Some f =>
      in_tkern (skb_upd skb (λ x, x <| nh_raw := iph |>));;
      S ← in_tf (sock_load ts);
      D ← in_tkern (dev_load d);
      x ← in_tkern (skb_load skb);
      in_tkern (skb_write skb iph (ip_header (inet_tos S) (u16 (len x)) 0 IP_DF (so_protocol S) 0 (local_ip D) (ip rt)));;
      hdr ← in_tkern (skb_read skb iph IPHDR_LEN);
      in_tkern (skb_write skb (iph + 10) (wr16 (ip_fast_csum hdr)));;
      in_tkern (rtdev_reference d);;
      ret ← in_tkern (f skb ETH_P_IP (dest_addr rt) (dev_addr D) (len x));
      in_tkern (rtdev_dereference d);;
      mret (if negb (ret =? hard_header_len D) then - EINVAL else 0)
  end.

(** The header of a segment: [rt_tcp_set_flags] stores the lower half of [flags] over
    the 16 bits that begin with the length of the header, which is set afterwards. *)
Definition tcp_header (T : tcp_socket) (flags check : Z) (is_keepalive : bool) : list Z :=
  let seq := ntohl (sync_seq T) in
  wr16 (ts_sport T) ++ wr16 (ts_dport T) ++ wr32 (if is_keepalive then u32 (seq - 1) else seq) ++
  wr32 (ntohl (sync_ack_seq T)) ++ [80] ++ drop 1 (wr16 (u16 flags)) ++ wr16 (ntohs (sync_window T)) ++ wr16 check ++ [0; 0].

Definition rt_tcp_build_header (ts skb : nat) (flags : Z) (is_keepalive : bool) : M tstate () :=
  T ← ts_load ts;
  x ← in_tkern (skb_load skb);
  in_tkern (skb_write skb (h_raw x) (tcp_header T flags 0 is_keepalive));;
  hdr ← in_tkern (skb_read skb (h_raw x) TCPHDR_LEN);
  let wcheck := csum_partial hdr 0 in
  let n := u32 (len x - TCPHDR_LEN - IPHDR_LEN) in
  wcheck ← (if negb (n =? 0) then
              bytes ← in_tkern (skb_read skb (data x + TCPHDR_LEN + IPHDR_LEN) n);
              mret (csum_partial bytes wcheck)
            else mret wcheck);
  in_tkern (skb_write skb (h_raw x + 16) (wr16 (tcp_v4_check (len x - IPHDR_LEN) (ts_saddr T) (ts_daddr T) wcheck))).

(** Enqueues a copied segment; [skb->h.th->seq]. *)
Definition skb_seq (skb : nat) : M tstate Z :=
  x ← in_tkern (skb_load skb); t ← deref (th x); mret (ntohl (th_seq t)).

Definition rt_tcp_retransmit_send (ts skb : nat) : M tstate () :=
  T ← ts_load ts;
  empty ← in_tkern (rtskb_queue_empty (retransmit_queue T));
  if (empty : bool) then
    seq ← skb_seq skb;
    ts_upd ts (λ T, T <| nacked_first := u32 (seq + 1) |>);;
    in_tkern (__rtskb_queue_tail (retransmit_queue T) skb);;
    in_wheel (timerwheel_add_timer ts rt_tcp_retransmission_timeout);;
    mret ()
  else in_tkern (__rtskb_queue_tail (retransmit_queue T) skb).

(** From [rtskb_reserve] to the priority; the result is [iph].  [data_ptr] points into the
    memory of the application. *)
Definition put_segment (d skb : nat) (hh prio data_len data_ptr : Z) : M tstate Z :=
  in_tkern (skb_upd skb (rtskb_reserve hh));;
  x ← in_tkern (skb_load skb);
  let '(iph, x) := rtskb_put IPHDR_LEN x in
  let '(th, x) := rtskb_put TCPHDR_LEN (x <| nh_raw := iph |>) in
  in_tkern (skb_store skb (x <| h_raw := th |>));;
  when (negb (data_len =? 0))
    (x ← in_tkern (skb_load skb);
     let '(to, x) := rtskb_put data_len x in
     in_tkern (skb_store skb x);;
     m ← gets tmem;
     bytes ← deref (load_bytes data_ptr (Z.to_nat data_len) m);
     in_tkern (skb_write skb to bytes));;
  in_tkern (skb_upd skb (λ x, x <| rtdev := Some d |> <| priority := prio |>));;
  mret iph.

(** The copy for retransmission; [false] when there is no buffer for it. *)
Definition keep_copy (ts skb : nat) (flags data_len : Z) : M tstate bool :=
  T ← ts_load ts;
  S ← in_tf (sock_load ts);
  if negb (tcp_state T =? TCP_CLOSE) &&
     (negb (Z.land flags (Z.lor TCP_FLAG_SYN TCP_FLAG_FIN) =? 0) || negb (data_len =? 0)) then
    cloned_skb ← in_tkern (rtskb_clone skb (skb_pool S));
    match cloned_skb with
    | None => mret false
    | Some c => rt_tcp_retransmit_send ts c;; mret true
    end
  else mret true.

Definition rt_tcp_segment (rt : dest_route) (ts : nat) (flags data_len data_ptr : Z) (is_keepalive : bool) : M tstate Z :=
  d ← deref (dest_rtdev rt);
  D ← in_tkern (dev_load d);
  S ← in_tf (sock_load ts);
  let prio := so_priority S in
  mtu ← in_tkern (get_mtu d prio);
  r ← in_tkern (alloc_rtskb (u32 (mtu + hh_len D + 15)) (skb_pool S));
  match r with
  | None => mret (- ENOBUFS)
  | Some skb =>
      iph ← put_segment d skb (hh_len D) prio data_len data_ptr;
      let data_len := if mtu <? data_len then mtu else data_len in
      lock_get ts;;
      rt_tcp_build_header ts skb flags is_keepalive;;
      ret ← rt_ip_build_frame skb ts rt iph;
      if negb (ret =? 0) then lock_put ts;; in_tkern (kfree_rtskb (Some skb));; mret ret
      else
        ok ← keep_copy ts skb flags data_len;
        if negb ok then lock_put ts;; in_tkern (kfree_rtskb (Some skb));; mret (- ENOMEM)
        else
          when (negb (Z.land flags (Z.lor TCP_FLAG_FIN TCP_FLAG_SYN) =? 0))
            (ts_upd ts (λ T, T <| sync_seq := u32 (sync_seq T + 1) |>));;
          ts_upd ts (λ T, T <| sync_seq := u32 (sync_seq T + data_len) |>
                            <| sync_dst_window := u16 (sync_dst_window T - data_len) |>);;
          lock_put ts;;
          in_tkern (rtdev_xmit drv_xmit (Some skb));;
          mret data_len
  end.

Definition rt_tcp_send (ts : nat) (flags : Z) : M tstate Z :=
  T ← ts_load ts;
  match dest_rtdev (ts_rt T) with
  | Some _ => rt_tcp_segment (ts_rt T) ts flags 0 0 false
  | None =>
      ro ← in_troute (rt_ip_route_output (ts_daddr T) (ts_saddr T));
      if ro.1 =? 0 then
        rt ← deref ro.2;
        ret ← rt_tcp_segment rt ts flags 0 0 false;
        d ← deref (dest_rtdev rt);
        in_tkern (rtdev_dereference d);;
        mret ret
      else mret ro.1
  end.

(** ** Retransmission *)

(** When the queue is empty the lock is taken again instead of released. *)
Definition rt_tcp_retransmit_handler (ts : nat) : M tstate () :=
  lock_get ts;;
  T ← ts_load ts;
  empty ← in_tkern (rtskb_queue_empty (retransmit_queue T));
  if (empty : bool) then lock_get ts
  else if tcp_state T =? TCP_CLOSE then lock_put ts
  else if negb (timer_state T =? 0) then
    ts_upd ts (λ T, T <| timer_state := timer_state T - 1 |>);;
    in_wheel (timerwheel_add_timer ts rt_tcp_retransmission_timeout);;
    Q ← in_tkern (queue_load (retransmit_queue T));
    first_skb ← deref (first Q);
    S ← in_tf (sock_load ts);
    skb ← in_tkern (rtskb_clone first_skb (skb_pool S));
    lock_put ts;;
    ret ← in_tkern (rtdev_xmit drv_xmit skb);
    when (negb (ret =? 0)) (in_tkern (kfree_rtskb skb))
  else
    ts_upd ts (λ T, T <| timer_state := max_retransmits |>);;
    signal ← rt_tcp_socket_invalidate ts TCP_CLOSE;
    lock_put ts;;
    when signal (rt_tcp_socket_invalidate_signal ts).

(** The loop at [dequeue_loop]; [fuel] bounds the length of the queue. *)
Fixpoint dequeue_loop (fuel : nat) (ts : nat) (ack_seq : Z) : M tstate () :=
  match fuel with
  | O => ub
  | S fuel =>
      T ← ts_load ts;
      if tcp_state T =? TCP_CLOSE then lock_put ts
      else
        r ← in_tkern (__rtskb_dequeue (retransmit_queue T));
        match r with
        | None => ts_upd ts (λ T, T <| timer_state := max_retransmits |>);; lock_put ts
        | Some skb =>
            if rt_tcp_before (nacked_first T) ack_seq then
              lock_put ts;;
              in_tkern (kfree_rtskb (Some skb));;
              lock_get ts;;
              dequeue_loop fuel ts ack_seq
            else
              seq ← skb_seq skb;
              ts_upd ts (λ T, T <| nacked_first := u32 (seq + 1) |>);;
              in_tkern (__rtskb_queue_head (retransmit_queue T) skb);;
              in_wheel (timerwheel_add_timer ts rt_tcp_retransmission_timeout);;
              lock_put ts
        end
  end.

Definition rt_tcp_retransmit_ack (ts : nat) (ack_seq : Z) : M tstate () :=
  lock_get ts;;
  T ← ts_load ts;
  empty ← in_tkern (rtskb_queue_empty (retransmit_queue T));
  if (empty : bool) then lock_put ts
  else if negb (rt_tcp_before (nacked_first T) ack_seq) then lock_put ts
  else
    ret ← in_wheel (timerwheel_remove_timer ts);
    if negb (ret =? 0) then lock_put ts
    else
      fuel ← in_tkern (gets (λ k, Datatypes.S (size (skbs k))));
      dequeue_loop fuel ts ack_seq.

(** ** Reception *)

(** The socket that answers for no socket: a static variable. *)
Context (rst_socket : nat).
(** [error_rate]: the module parameter, if error injection is configured. *)
Context (error_injection : option Z).

(** [rst_socket] is prepared to answer segment [t] of [h], and a segment is sent through
    the route from [dst] to [src]. *)
Definition send_reset (h : iphdr) (t : tcphdr) (data_len seq dst src : Z) (flags : Z) : M tstate () :=
  ts_upd rst_socket (λ R, R <| ts_saddr := iph_daddr h |> <| ts_daddr := iph_saddr h |> <| ts_sport := th_dest t |>
                            <| ts_dport := th_source t |> <| sync_seq := seq |>
                            <| sync_ack_seq := rt_tcp_compute_ack_seq t data_len |>);;
  ro ← in_troute (rt_ip_route_output dst src);
  if ro.1 =? 0 then
    rt ← deref ro.2;
    ts_upd rst_socket (λ R, R <| ts_rt := rt |>);;
    rt_tcp_send rst_socket flags;;
    R ← ts_load rst_socket;
    d ← deref (dest_rtdev (ts_rt R));
    in_tkern (rtdev_dereference d)
  else mret ().

Definition rt_tcp_dest_socket (skb : nat) : M tstate (option nat) :=
  x ← in_tkern (skb_load skb);
  t ← deref (th x);
  h ← deref (iph x);
  bytes ← deref (buf_read x (data x) (len x));
  if negb (tcp_v4_check (len x) (iph_saddr h) (iph_daddr h) (csum_partial bytes 0) =? 0) then mret None
  else
    r ← rt_tcp_v4_lookup (iph_daddr h) (th_dest t);
    in_tkern (skb_upd skb (λ x, x <| sk := r |>));;
    when (bool_decide (r = None) && negb (th_rst t))
      (send_reset h t (u32 (len x - Z.shiftl (th_doff t) 2)) 0 (iph_daddr h) (iph_saddr h)
         (Z.lor TCP_FLAG_ACK TCP_FLAG_RST));;
    mret r.

Definition rt_tcp_window_update (ts : nat) (window : Z) : M tstate () :=
  lock_get ts;;
  T ← ts_load ts;
  if negb (sync_dst_window T =? 0) then
    ts_upd ts (λ T, T <| sync_dst_window := window |>);;
    lock_put ts;;
    when (window =? 0) (clear_send ts)
  else if negb (window =? 0) then
    ts_upd ts (λ T, T <| sync_dst_window := window |>);;
    lock_put ts;;
    signal_send ts
  else lock_put ts.

(** How [rt_tcp_rcv] goes on: the labels [feed] and [drop], or the segment was queued. *)
Inductive verdict := FEED | DROP | QUEUED.

(** The check of the sequence number. *)
Definition seq_in_window (T : tcp_socket) (t : tcphdr) : bool :=
  let seq := ntohl (th_seq t) in
  (rt_tcp_after seq (sync_ack_seq T) && rt_tcp_before seq (u32 (sync_ack_seq T + sync_window T))) || th_rst t ||
  (th_syn t && ((tcp_state T =? TCP_LISTEN) || (tcp_state T =? TCP_SYN_SENT))).
Definition rcv_old (ts : nat) (T : tcp_socket) (h : iphdr) (t : tcphdr) (data_len : Z) : M tstate verdict :=
  if rt_tcp_after (ntohl (th_seq t)) (u32 (sync_ack_seq T - data_len)) then
    lock_put ts;; rt_tcp_send ts TCP_FLAG_ACK;; mret DROP
  else
    lock_put ts;;
    if th_ack t && (tcp_state T =? TCP_ESTABLISHED) then mret DROP
    else
      send_reset h t data_len (ntohl (th_ack_seq t)) (iph_saddr h) (iph_daddr h) (Z.lor TCP_FLAG_RST TCP_FLAG_ACK);;
      mret DROP.

Definition rcv_syn_sent (ts : nat) (t : tcphdr) (data_len : Z) : M tstate verdict :=
  ts_upd ts (λ T, T <| sync_ack_seq := rt_tcp_compute_ack_seq t data_len |>);;
  if th_syn t && th_ack t then
    rt_tcp_socket_validate ts;;
    lock_put ts;;
    signal_conn ts;;
    rt_tcp_send ts TCP_FLAG_ACK;;
    mret FEED
  else
    ts_upd ts (λ T, T <| tcp_state := TCP_CLOSE |> <| sync_seq := ntohl (th_ack_seq t) |>);;
    lock_put ts;;
    signal_conn ts;;
    rt_tcp_send ts (Z.lor TCP_FLAG_RST TCP_FLAG_ACK);;
    mret DROP.

Definition rcv_rst (ts : nat) (T : tcp_socket) : M tstate verdict :=
  if tcp_state T =? TCP_SYN_RECV then
    ts_upd ts (λ T, T <| tcp_state := TCP_LISTEN |>);; lock_put ts;; mret DROP
  else
    signal ← rt_tcp_socket_invalidate ts TCP_CLOSE;
    lock_put ts;;
    when signal (rt_tcp_socket_invalidate_signal ts);;
    mret DROP.

Definition rcv_fin (ts : nat) (T : tcp_socket) (t : tcphdr) : M tstate verdict :=
  if tcp_state T =? TCP_ESTABLISHED then
    signal ← rt_tcp_socket_invalidate ts TCP_CLOSE_WAIT;
    lock_put ts;;
    when signal (rt_tcp_socket_invalidate_signal ts);;
    rt_tcp_send ts TCP_FLAG_ACK;;
    mret FEED
  else if ((tcp_state T =? TCP_FIN_WAIT1) && th_ack t) || (tcp_state T =? TCP_FIN_WAIT2) then
    ts_upd ts (λ T, T <| tcp_state := TCP_TIME_WAIT |>);;
    lock_put ts;;
    rt_tcp_send ts TCP_FLAG_ACK;;
    sem_destroy ts;;
    mret FEED
  else if tcp_state T =? TCP_FIN_WAIT1 then
    ts_upd ts (λ T, T <| tcp_state := TCP_CLOSING |>);;
    lock_put ts;;
    rt_tcp_send ts TCP_FLAG_ACK;;
    sem_destroy ts;;
    mret FEED
  else lock_put ts;; mret DROP.

Definition rcv_syn (ts : nat) (T : tcp_socket) (h : iphdr) (t : tcphdr) : M tstate verdict :=
  if tcp_state T =? TCP_LISTEN then
    now ← gets tclock;
    ts_upd ts (λ T, T <| ts_saddr := iph_daddr h |> <| ts_daddr := iph_saddr h |> <| ts_dport := th_source t |>
                      <| sync_seq := rt_tcp_initial_seq now |> <| sync_window := 4096 |> <| tcp_state := TCP_SYN_RECV |>);;
    lock_put ts;;
    rt_tcp_send ts (Z.lor TCP_FLAG_SYN TCP_FLAG_ACK);;
    mret DROP
  else
    lock_put ts;;
    rt_tcp_send ts (Z.lor TCP_FLAG_RST TCP_FLAG_ACK);;
    mret DROP.

(** The segment carries data, or nothing. *)
Definition rcv_data (ts skb : nat) (T : tcp_socket) (data_len : Z) : M tstate verdict :=
  if negb (tcp_state T =? TCP_ESTABLISHED) then lock_put ts;; mret DROP
  else if data_len =? 0 then lock_put ts;; mret FEED
  else
    ts_upd ts (λ T, T <| sync_window := u16 (sync_window T - data_len) |>);;
    lock_put ts;;
    rt_tcp_send ts TCP_FLAG_ACK;;
    S ← in_tf (sock_load ts);
    in_tkern (rtskb_queue_tail (incoming S) skb);;
    in_tf (sem_up ts);;
    mret QUEUED.

Definition rcv_ack (ts skb : nat) (T : tcp_socket) (t : tcphdr) (data_len : Z) : M tstate verdict :=
  if rt_tcp_before (u32 (sync_seq T + 1)) (ntohl (th_ack_seq t)) then lock_put ts;; mret DROP
  else if tcp_state T =? TCP_LAST_ACK then
    ts_upd ts (λ T, T <| tcp_state := TCP_CLOSE |>);; lock_put ts;; mret DROP
  else if tcp_state T =? TCP_FIN_WAIT1 then
    ts_upd ts (λ T, T <| tcp_state := TCP_FIN_WAIT2 |>);; lock_put ts;; mret FEED
  else if tcp_state T =? TCP_SYN_RECV then
    rt_tcp_socket_validate ts;; lock_put ts;; signal_conn ts;; mret FEED
  else if tcp_state T =? TCP_CLOSING then
    ts_upd ts (λ T, T <| tcp_state := TCP_TIME_WAIT |>);; lock_put ts;; mret FEED
  else rcv_data ts skb T data_len.

(** A segment of a connection whose sequence number is acceptable. *)
Definition rcv_accepted (ts skb : nat) (T : tcp_socket) (h : iphdr) (t : tcphdr) (data_len : Z) : M tstate verdict :=
  if th_rst t then rcv_rst ts T
  else
    ts_upd ts (λ T, T <| sync_ack_seq := rt_tcp_compute_ack_seq t data_len |>);;
    T ← ts_load ts;
    if th_fin t then rcv_fin ts T t
    else if th_syn t then rcv_syn ts T h t
    else if th_ack t then rcv_ack ts skb T t data_len
    else rcv_data ts skb T data_len.

(** From the lock to the labels. *)
Definition rcv_segment (ts skb : nat) (h : iphdr) (t : tcphdr) (data_len : Z) : M tstate verdict :=
  lock_get ts;;
  T ← ts_load ts;
  lost ← match error_injection with
         | Some error_rate =>
             if 0 <? ts_error_rate T then
               ts_upd ts (λ T, T <| packet_counter := u32 (packet_counter T + 1) |>);;
               if error_rate =? 0 then ub else mret (packet_counter T mod error_rate <? ts_multi_error T)
             else mret false
         | None => mret false
         end;
  T ← ts_load ts;
  if (lost : bool) then lock_put ts;; mret DROP
  else if negb (tcp_state T =? TCP_LISTEN) &&
          (negb (ts_daddr T =? iph_saddr h) || negb (ts_dport T =? th_source t)) then lock_put ts;; mret DROP
  else if (sync_ack_seq T =? u32 (ntohl (th_seq t) + 1)) && (tcp_state T =? TCP_ESTABLISHED) then
    lock_put ts;; rt_tcp_send ts TCP_FLAG_ACK;; mret FEED
  else if tcp_state T =? TCP_SYN_SENT then rcv_syn_sent ts t data_len
  else if negb (seq_in_window T t) then rcv_old ts T h t data_len
  else rcv_accepted ts skb T h t data_len.

Definition rcv_feed (ts : nat) (t : tcphdr) : M tstate () :=
  when (th_ack t) (rt_tcp_retransmit_ack ts (ntohl (th_ack_seq t)));;
  rt_tcp_keepalive_feed ts;;
  rt_tcp_window_update ts (ntohs (th_window t)).

Definition rt_tcp_rcv (skb : nat) : M tstate () :=
  x ← in_tkern (skb_load skb);
  t ← deref (th x);
  h ← deref (iph x);
  ts ← deref (sk x);
  v ← rcv_segment ts skb h t (u32 (len x - Z.shiftl (th_doff t) 2));
  match v with
  | FEED => rcv_feed ts t;; in_tkern (kfree_rtskb (Some skb))
  | DROP => in_tkern (kfree_rtskb (Some skb))
  | QUEUED => rcv_feed ts t
  end.

(** ** The calls of the application *)

Definition rt_tcp_window_send (ts : nat) (data_len data_ptr : Z) : M tstate Z :=
  T ← ts_load ts;
  let dst_window := sync_dst_window T in
  rt_tcp_segment (ts_rt T) ts TCP_FLAG_ACK (if dst_window <? data_len then dst_window else data_len) data_ptr false.

(** The module parameters of the error injection: start value, rate, length. *)
Context (counter_start multi_error : Z).

Definition rt_tcp_socket_create (ts : nat) : M tstate Z :=
  in_tf (sock_upd ts (λ S, S <| inet_saddr := INADDR_ANY |> <| inet_state := TCP_CLOSE |> <| inet_tos := 0 |>));;
  ts_upd ts (λ T, T <| socket_lock := false |> <| ts_rt := (ts_rt T) <| dest_rtdev := None |> |> <| tcp_state := TCP_CLOSE |>
                    <| is_accepting := false |> <| is_accepted := false |> <| is_binding := false |> <| is_bound := false |>
                    <| is_valid := false |> <| is_closed := false |> <| sk_sndtimeo := 0 |> <| conn_evt := Some false |>
                    <| ka_enabled := false |> <| timer_state := max_retransmits |>);;
  in_wheel (timerwheel_init_timer ts);;
  T ← ts_load ts;
  in_tkern (rtskb_queue_init (retransmit_queue T));;
  match error_injection with
  | Some error_rate => ts_upd ts (λ T, T <| packet_counter := counter_start |> <| ts_error_rate := error_rate |>
                                        <| ts_multi_error := multi_error |>)
  | None => mret ()
  end;;
  P ← gets tports_of;
  if free_ports P =? 0 then mret (- EAGAIN)
  else
    ports_upd (λ P, P <| free_ports := free_ports P - 1 |>);;
    let i := free_word (port_bitmap P) 0 in
    w ← deref (port_bitmap P !! i);
    let bit := ffz w in
    ports_upd (λ P, P <| port_bitmap := <[i := Z.setbit w bit]> (port_bitmap P) |>);;
    let index := bit + Z.of_nat i * 32 in
    let sport := u16 (index + tcp_auto_port_start P) in
    in_tf (sock_upd ts (λ S, S <| reg_index := index |> <| inet_sport := sport |>));;
    deref (port_registry P !! Z.to_nat index);;
    ports_upd (λ P, P <| port_registry := <[Z.to_nat index := Some ts]> (port_registry P) |>);;
    port_hash_insert ts INADDR_ANY sport;;
    mret 0.

Definition rt_tcp_socket (socket_rtskbs : Z) (ts : nat) : M tstate Z :=
  ret ← in_tf (rt_socket_init socket_rtskbs ts IPPROTO_TCP);
  if negb (ret =? 0) then mret ret
  else
    ret ← rt_tcp_socket_create ts;
    when (negb (ret =? 0)) (in_tf (rt_socket_cleanup ts);; mret ());;
    mret ret.

(** The part of [rt_tcp_socket_destruct] that unregisters the socket. *)
Definition tcp_unregister (ts : nat) : M tstate () :=
  S ← in_tf (sock_load ts);
  when (0 <=? reg_index S)
    (let index := reg_index S in
     P ← gets tports_of;
     w ← deref (port_bitmap P !! Z.to_nat (index / BITS_PER_LONG));
     ports_upd (λ P, P <| port_bitmap := <[Z.to_nat (index / BITS_PER_LONG) :=
                            Z.clearbit w (index mod BITS_PER_LONG)]> (port_bitmap P) |>);;
     r ← deref (port_registry P !! Z.to_nat index);
     u ← deref r;
     port_hash_del u;;
     ports_upd (λ P, P <| free_ports := free_ports P + 1 |>);;
     in_tf (sock_upd ts (λ S, S <| reg_index := -1 |>))).
(** [env]: what the timer task does while this one waits for it. *)
Definition rt_tcp_socket_destruct (env : list (M wheel ())) (ts : nat) : M tstate () :=
  tcp_unregister ts;;
  lock_get ts;;
  signal ← rt_tcp_socket_invalidate ts TCP_CLOSE;
  rt_tcp_keepalive_disable ts;;
  in_tf (sock_upd ts (λ S, S <| inet_state := TCP_CLOSE |>));;
  T ← ts_load ts;
  match dest_rtdev (ts_rt T) with
  | Some d =>
      in_tkern (rtdev_dereference d);;
      ts_upd ts (λ T, T <| ts_rt := (ts_rt T) <| dest_rtdev := None |> |>)
  | None => mret ()
  end;;
  lock_put ts;;
  when signal (rt_tcp_socket_invalidate_signal ts);;
  ts_upd ts (λ T, T <| conn_evt := None |>);;
  in_tf (rt_ip_frag_invalidate_socket ts);;
  S ← in_tf (sock_load ts);
  in_tkern (rtskb_queue_purge (incoming S));;
  in_wheel (timerwheel_remove_timer_sync env ts);;
  T ← ts_load ts;
  in_tkern (rtskb_queue_purge (retransmit_queue T)).

(** [mem]: whether the call into the real-time domain can be dispatched; [sleep]: what
    happens during the second the peer gets to answer. *)
Definition rt_tcp_close (mem : bool) (sleep : M tstate ()) (env : list (M wheel ())) (ts : nat) : M tstate Z :=
  let fin (to_state : Z) :=
    (signal ← rt_tcp_socket_invalidate ts to_state;
     lock_put ts;;
     when mem (rt_tcp_send ts (Z.lor TCP_FLAG_FIN TCP_FLAG_ACK);; mret ());;
     sleep;;
     mret signal) in
  lock_get ts;;
  ts_upd ts (λ T, T <| is_closed := true |>);;
  T ← ts_load ts;
  signal ← (if (tcp_state T =? TCP_ESTABLISHED) || (tcp_state T =? TCP_SYN_RECV) then fin TCP_FIN_WAIT1
            else if tcp_state T =? TCP_CLOSE_WAIT then fin TCP_LAST_ACK
            else lock_put ts;; mret false);
  when signal (rt_tcp_socket_invalidate_signal ts);;
  rt_tcp_socket_destruct env ts;;
  in_tf (rt_socket_cleanup ts).

(** The registry operations of [rt_tcp_bind]. *)
Definition rebind (ts : nat) (index sin_addr sin_port : Z) : M tstate Z :=
  start ← gets (λ s, tcp_auto_port_start (tports_of s));
  port_hash_del ts;;
  err ← port_hash_insert ts sin_addr (u16 (if negb (sin_port =? 0) then sin_port else index + start));
  if negb (err =? 0) then
    T ← ts_load ts;
    port_hash_insert ts (ts_saddr T) (ts_sport T);;
    mret (- EADDRINUSE)
  else mret 0.
Definition rt_tcp_bind (ts : nat) (sin_addr sin_port addrlen : Z) : M tstate Z :=
  P ← gets tports_of;
  if (addrlen <? SIZEOF_SOCKADDR_IN) || (Z.land sin_port (tcp_auto_port_mask P) =? tcp_auto_port_start P) then mret (- EINVAL)
  else
    lock_get ts;;
    T ← ts_load ts;
    if negb (tcp_state T =? TCP_CLOSE) || is_bound T || is_binding T then lock_put ts;; mret (- EINVAL)
    else
      ts_upd ts (λ T, T <| is_binding := true |>);;
      lock_put ts;;
      S ← in_tf (sock_load ts);
      ret ← (if reg_index S <? 0 then mret (- EBADF) else rebind ts (reg_index S) sin_addr sin_port);
      lock_get ts;;
      ts_upd ts (λ T, T <| is_bound := (ret =? 0) |> <| is_binding := false |>);;
      lock_put ts;;
      mret ret.

(** [rtdm_event_timedwait]: [waited] is what other tasks do until the wait ends, with its
    result, should it come to a wait; a pending event is consumed. *)
Definition conn_timedwait (ts : nat) (timeout : Z) (waited : M tstate Z) : M tstate Z :=
  T ← ts_load ts;
  match conn_evt T with
  | None => mret (- EIDRM)
  | Some true => ts_upd ts (λ T, T <| conn_evt := Some false |>);; mret 0
  | Some false => if timeout <? 0 then mret (- EWOULDBLOCK) else waited
  end.
Definition send_timedwait (ts : nat) (timeout : Z) (waited : M tstate Z) : M tstate Z :=
  T ← ts_load ts;
  match send_evt T with
  | None => mret (- EIDRM)
  | Some true => ts_upd ts (λ T, T <| send_evt := Some false |>);; mret 0
  | Some false => if timeout <? 0 then mret (- EWOULDBLOCK) else waited
  end.

Definition rt_tcp_connect (waited : M tstate Z) (ts : nat) (sin_family sin_addr sin_port addrlen : Z) : M tstate Z :=
  if addrlen <? SIZEOF_SOCKADDR_IN then mret (- EINVAL)
  else if negb (sin_family =? AF_INET) then mret (- EAFNOSUPPORT)
  else
    T ← ts_load ts;
    ro ← in_troute (rt_ip_route_output sin_addr (ts_saddr T));
    if ro.1 <? 0 then mret (- ENETUNREACH)
    else
      rt ← deref ro.2;
      d ← deref (dest_rtdev rt);
      lock_get ts;;
      T ← ts_load ts;
      if is_closed T then lock_put ts;; in_tkern (rtdev_dereference d);; mret (- EBADF)
      else if negb (tcp_state T =? TCP_CLOSE) || is_binding T then
        lock_put ts;; in_tkern (rtdev_dereference d);; mret (- EINVAL)
      else
        match dest_rtdev (ts_rt T) with
        | None => ts_upd ts (λ T, T <| ts_rt := rt |>)
        | Some _ => in_tkern (rtdev_dereference d)
        end;;
        D ← in_tkern (dev_load d);
        now ← gets tclock;
        ts_upd ts (λ T, T <| ts_saddr := local_ip D |> <| ts_daddr := sin_addr |> <| ts_dport := sin_port |>
                          <| sync_seq := rt_tcp_initial_seq now |> <| sync_ack_seq := 0 |> <| sync_window := 4096 |>
                          <| sync_dst_window := 0 |> <| tcp_state := TCP_SYN_SENT |>);;
        lock_put ts;;
        ret ← rt_tcp_send ts TCP_FLAG_SYN;
        if ret <? 0 then mret ret
        else
          ret ← conn_timedwait ts rt_tcp_connection_timeout waited;
          if ret <? 0 then
            mret (if (ret =? - EWOULDBLOCK) || (ret =? - ETIMEDOUT) || (ret =? - EINTR) then ret else - EBADF)
          else
            T ← ts_load ts;
            mret (if tcp_state T =? TCP_SYN_SENT then - ECONNREFUSED else ret).

Definition rt_tcp_listen (ts : nat) : M tstate Z :=
  lock_get ts;;
  T ← ts_load ts;
  if is_closed T then lock_put ts;; mret (- EBADF)
  else if negb (tcp_state T =? TCP_CLOSE) || is_binding T then lock_put ts;; mret (- EINVAL)
  else ts_upd ts (λ T, T <| tcp_state := TCP_LISTEN |>);; lock_put ts;; mret 0.

(** The file descriptor of the socket is [fd]; with it the caller gets the address of
    the peer: family, port and address. *)
Definition rt_tcp_accept (waited : M tstate Z) (fd : Z) (ts : nat) (addrlen : Z) : M tstate (Z * option (Z * Z * Z)) :=
  S ← in_tf (sock_load ts);
  lock_get ts;;
  T ← ts_load ts;
  if is_accepting T || is_accepted T then lock_put ts;; mret (- EALREADY, None)
  else if negb (tcp_state T =? TCP_LISTEN) || (addrlen <? SIZEOF_SOCKADDR_IN) then lock_put ts;; mret (- EINVAL, None)
  else
    let err {A} (r : A) : M tstate A := ts_upd ts (λ T, T <| is_accepting := false |>);; mret r in
    ts_upd ts (λ T, T <| is_accepting := true |>);;
    lock_put ts;;
    ret ← conn_timedwait ts (so_timeout S) waited;
    if ret <? 0 then err (if (ret =? - ETIMEDOUT) || (ret =? - EINTR) then ret else - EBADF, None)
    else
      T ← ts_load ts;
      ro ← in_troute (rt_ip_route_output (ts_daddr T) (ts_saddr T));
      if ro.1 <? 0 then err (- EPROTO, None)
      else
        rt ← deref ro.2;
        d ← deref (dest_rtdev rt);
        lock_get ts;;
        T ← ts_load ts;
        if negb (tcp_state T =? TCP_ESTABLISHED) then
          lock_put ts;; in_tkern (rtdev_dereference d);; err (- EPROTO, None)
        else
          match dest_rtdev (ts_rt T) with
          | None => ts_upd ts (λ T, T <| ts_rt := rt |>)
          | Some _ => in_tkern (rtdev_dereference d)
          end;;
          ts_upd ts (λ T, T <| is_accepted := true |>);;
          lock_put ts;;
          err (fd, Some (AF_INET, ts_dport T, ts_daddr T)).

Definition rt_tcp_shutdown : Z := - EOPNOTSUPP.

Definition SO_REUSEADDR := 2.
Definition SO_ERROR := 4.
Definition SO_KEEPALIVE := 9.
Definition SO_SNDTIMEO := 21.
Definition SIZEOF_TIMEVAL := 16.
Definition MAX_SCHEDULE_TIMEOUT := 2 ^ 63 - 1.
(** [tv]: seconds and microseconds, if the memory of the caller can be read. *)
Definition rt_tcp_setsockopt (ts : nat) (optname optlen : Z) (tv : option (Z * Z)) : M tstate Z :=
  if optname =? SO_KEEPALIVE then mret (if optlen <? SIZEOF_UINT then - EINVAL else 0)
  else if optname =? SO_SNDTIMEO then
    if optlen <? SIZEOF_TIMEVAL then mret (- EINVAL)
    else
      match tv with
      | None => mret (- EFAULT)
      | Some (tv_sec, tv_usec) =>
          if (tv_usec <? 0) || (1000000 <=? tv_usec) then mret (- EDOM)
          else
            lock_get ts;;
            (if tv_sec <? 0 then ts_upd ts (λ T, T <| sk_sndtimeo := -1 |>)
             else
               ts_upd ts (λ T, T <| sk_sndtimeo := 0 |>);;
               when (negb ((tv_sec =? 0) && (tv_usec =? 0)) && (tv_sec <? MAX_SCHEDULE_TIMEOUT / 1000000000 - 1))
                 (ts_upd ts (λ T, T <| sk_sndtimeo := s64 ((tv_sec * 1000000 + tv_usec) * 1000) |>)));;
            lock_put ts;;
            mret 0
      end
  else if optname =? SO_REUSEADDR then mret (- EOPNOTSUPP)
  else mret (- ENOPROTOOPT).
Definition rt_tcp_getsockopt (optname optlen : Z) : Z :=
  if optlen <? SIZEOF_UINT then - EINVAL else if optname =? SO_ERROR then 0 else - ENOPROTOOPT.

(** *** Reading and writing *)

(** [rtdm_copy_to_user]; [false] when the buffer is not accessible. *)
Definition copy_to_user (addr : Z) (bytes : list Z) : M tstate bool := λ s,
  match store_bytes addr bytes (tmem s) with
  | Some m => Some (true, s <| tmem := m |>)
  | None => Some (false, s)
  end.

(** [block_size] bytes were read: the window grows, and the peer is told if it was
    closed. *)
Definition window_credit (ts : nat) (block_size : Z) : M tstate () :=
  lock_get ts;;
  T ← ts_load ts;
  if negb (sync_window T =? 0) then
    ts_upd ts (λ T, T <| sync_window := u16 (sync_window T + block_size) |>);; lock_put ts
  else
    ts_upd ts (λ T, T <| sync_window := u16 block_size |>);;
    lock_put ts;;
    rt_tcp_send ts TCP_FLAG_ACK;;
    mret ().

(** The loop at [iterate_fragments], for the segment that starts with [first_skb]:
    [inl] of the result of the call, or [inr] of the bytes copied and the address the
    copy goes on at. *)
Fixpoint read_fragments (fuel : nat) (ts first_skb skb : nat) (data_len copied user_buf nbyte : Z)
    : M tstate (Z + Z * Z) :=
  match fuel with
  | O => ub
  | S fuel =>
      x ← in_tkern (skb_load skb);
      let block_size := len x in
      let copied := u64 (copied + block_size) in
      let data_len := u64 (data_len - block_size) in
      if nbyte <? copied then
        let block_size := block_size - (copied - nbyte) in
        bytes ← in_tkern (skb_read skb (data x) block_size);
        ok ← copy_to_user user_buf bytes;
        if negb ok then in_tkern (kfree_rtskb (Some first_skb));; mret (inl (- EFAULT))
        else
          window_credit ts block_size;;
          in_tkern (skb_upd skb (λ x, snd (__rtskb_pull (u32 block_size) x)));;
          in_tkern (skb_upd first_skb (λ x, snd (__rtskb_push TCPHDR_LEN x)));;
          x ← in_tkern (skb_load first_skb);
          o ← in_tkern (skb_read first_skb (h_raw x + 12) 1);
          in_tkern (skb_write first_skb (h_raw x + 12) ((λ b, 80 + b mod 16) <$> o));;
          S ← in_tf (sock_load ts);
          in_tkern (rtskb_queue_head (incoming S) first_skb);;
          in_tf (sem_up ts);;
          mret (inl nbyte)
      else
        bytes ← in_tkern (skb_read skb (data x) block_size);
        ok ← copy_to_user user_buf bytes;
        if negb ok then in_tkern (kfree_rtskb (Some first_skb));; mret (inl (- EFAULT))
        else
          window_credit ts block_size;;
          x ← in_tkern (skb_load skb);
          match next x with
          | Some skb => read_fragments fuel ts first_skb skb data_len copied (user_buf + data_len) nbyte
          | None => in_tkern (kfree_rtskb (Some first_skb));; mret (inr (copied, user_buf))
          end
  end.

(** The loop over the segments; [waits] are the waits for more of them, in order; [fuel]
    bounds the number of segments (each has at least one byte). *)
Fixpoint read_loop (fuel : nat) (waits : list (M tstate Z)) (ts : nat) (timeout copied user_buf nbyte : Z) : M tstate Z :=
  if nbyte <=? copied then mret copied
  else
    match fuel with
    | O => ub
    | S fuel =>
        S ← in_tf (sock_load ts);
        '(ret, waits) ← match pending_sem S with
          | None => mret (- EIDRM, waits)
          | Some n =>
              if 0 <? n then in_tf (sock_upd ts (λ S, S <| pending_sem := Some (n - 1) |>));; mret (0, waits)
              else if timeout <? 0 then mret (- EWOULDBLOCK, waits)
              else match waits with [] => ub | w :: waits => ret ← w; mret (ret, waits) end
          end;
        if ret <? 0 then
          if (ret =? - EWOULDBLOCK) || (ret =? - ETIMEDOUT) || (ret =? - EINTR) then
            mret (if negb (copied =? 0) then copied else ret)
          else T ← ts_load ts; mret (if is_closed T then - EBADF else 0)
        else
          S ← in_tf (sock_load ts);
          r ← in_tkern (rtskb_dequeue_chain (incoming S));
          match r with
          | None => if assert_fails false then mret (- EFAULT) else ub
          | Some skb =>
              x ← in_tkern (skb_load skb);
              t ← deref (th x);
              let th_len := Z.shiftl (th_doff t) 2 in
              let data_len := u64 (len x - th_len) in
              in_tkern (skb_upd skb (λ x, snd (__rtskb_pull th_len x)));;
              n ← in_tkern (gets (λ k, size (skbs k)));
              r ← read_fragments n ts skb skb data_len copied user_buf nbyte;
              match r with
              | inl ret => mret ret
              | inr (copied, user_buf) => read_loop fuel waits ts timeout copied user_buf nbyte
              end
          end
    end.
Definition rt_tcp_read (waits : list (M tstate Z)) (ts : nat) (user_info : bool) (buf nbyte : Z) : M tstate Z :=
  S ← in_tf (sock_load ts);
  if negb user_info then mret (- EFAULT)
  else
    lock_get ts;;
    T ← ts_load ts;
    lock_put ts;;
    if is_closed T then mret (- EBADF)
    else if negb (is_valid T) then mret 0
    else if negb (tcp_state T =? TCP_ESTABLISHED) && negb (tcp_state T =? TCP_FIN_WAIT2) then mret (- EINVAL)
    else read_loop (Z.to_nat nbyte) waits ts (so_timeout S) 0 buf nbyte.

(** The loop of [rt_tcp_write]: [uint32_t sent_len]; every round but the last sends at
    least one byte or waits for the window to open.  [sent_len ? : ret] and
    [ret < 0 ? ret : sent_len] are of type [unsigned int], which is extended by zeros to
    the [ssize_t] of 64 bits that is returned. *)
Fixpoint write_loop (fuel : nat) (waits : list (M tstate Z)) (ts : nat) (timeout sent_len buf nbyte : Z) : M tstate Z :=
  if nbyte <=? sent_len then mret sent_len
  else
    match fuel with
    | O => ub
    | S fuel =>
        T ← ts_load ts;
        let w := match send_evt T with Some false => 0 <=? timeout | _ => false end in
        ret ← send_timedwait ts timeout (match waits with [] => ub | w :: _ => w end);
        let waits := if w then drop 1 waits else waits in
        if ret <? 0 then
          if (ret =? - EWOULDBLOCK) || (ret =? - ETIMEDOUT) || (ret =? - EINTR) then
            mret (if negb (sent_len =? 0) then sent_len else u32 ret)
          else T ← ts_load ts; mret (if is_closed T then - EBADF else if negb (sent_len =? 0) then sent_len else u32 ret)
        else
          ret ← rt_tcp_window_send ts (u32 (nbyte - sent_len)) (buf + sent_len);
          if ret <? 0 then signal_send ts;; mret (u32 ret)
          else
            let sent_len := u32 (sent_len + ret) in
            T ← ts_load ts;
            when (negb (sync_dst_window T =? 0)) (signal_send ts);;
            write_loop fuel waits ts timeout sent_len buf nbyte
    end.
Definition rt_tcp_write (fuel : nat) (waits : list (M tstate Z)) (ts : nat) (user_info : bool) (buf nbyte : Z) : M tstate Z :=
  if negb user_info then mret (- EFAULT)
  else
    lock_get ts;;
    T ← ts_load ts;
    lock_put ts;;
    if negb (is_valid T) then mret (- EPIPE)
    else if (Z.lor (ts_daddr T) (ts_dport T) =? 0) || negb (tcp_state T =? TCP_ESTABLISHED) then mret (- EINVAL)
    else write_loop fuel waits ts (sk_sndtimeo T) 0 buf nbyte.

Definition rt_tcp_recvmsg (waits : list (M tstate Z)) (ts : nat) (user_info : bool) (iov : list iovec) (msg_flags : Z) : M tstate Z :=
  if negb (msg_flags =? 0) then mret (- EOPNOTSUPP)
  else match iov with
       | [v] => rt_tcp_read waits ts user_info (iov_base v) (iov_len v)
       | _ => mret (- EOPNOTSUPP)
       end.
Definition rt_tcp_sendmsg (fuel : nat) (waits : list (M tstate Z)) (ts : nat) (user_info : bool) (iov : list iovec) (msg_flags : Z)
    : M tstate Z :=
  if negb (msg_flags =? 0) then mret (- EOPNOTSUPP)
  else match iov with
       | [v] => rt_tcp_write fuel waits ts user_info (iov_base v) (iov_len v)
       | _ => mret (- EOPNOTSUPP)
       end.

(** ** Initialization *)

(** [mem] and [err]: the results of the allocation and of the start of the timer task. *)
Definition rt_tcp_init (mem : bool) (err : Z) : M tstate Z :=
  ports_upd (λ P, if 65536 - Z.of_nat RT_TCP_SOCKETS <=? tcp_auto_port_start P then P <| tcp_auto_port_start := 1024 |> else P);;
  ports_upd (λ P, P <| tcp_auto_port_start := ntohs (u16 (Z.land (tcp_auto_port_start P) (Z.land (tcp_auto_port_mask P) 65535))) |>);;
  ports_upd (λ P, P <| tcp_auto_port_mask := ntohs (u16 (Z.lor (tcp_auto_port_mask P) 4294901760)) |>);;
  ports_upd (λ P, P <| port_hash := replicate (RT_TCP_SOCKETS * 2) [] |>);;
  in_tf (rt_bare_socket_init rst_socket IPPROTO_TCP RT_TCP_RST_PRIO RT_TCP_RST_POOL_SIZE);;
  in_tf (sock_upd rst_socket (λ S, S <| inet_tos := 0 |>));;
  ts_upd rst_socket (λ R, R <| socket_lock := false |>);;
  in_wheel (timerwheel_init 100000000 23 mem err).
End defs.
