(* ===== verification/TcpSeq.v ===== *)
(** * TCP: sequence numbers

    The comparison of sequence numbers modulo 2^32, and the check whether a segment is
    inside the window. *)
From S2P Require Import Prelude State RtskbQueue Rtskb RtskbData Rtdev Iovec Route IpFragment Socket IpOutput Arp Udp Timerwheel Tcp.

(** How far [seq] is ahead of [base] in the sequence space. *)
Definition ahead_of (base seq : Z) : Z := (seq - base) mod 2 ^ 32.

Lemma before_spec seq1 seq2 : rt_tcp_before seq1 seq2 = ((ahead_of seq2 seq1 =? 0) || (2 ^ 31 <=? ahead_of seq2 seq1)).
Proof.
  unfold rt_tcp_before, ahead_of, s32, u32. change (2 ^ 32) with 4294967296. change (2 ^ 31) with 2147483648. divlia.
Qed.
Lemma after_spec seq1 seq2 : rt_tcp_after seq1 seq2 = (ahead_of seq2 seq1 <=? 2 ^ 31).
Proof.
  unfold rt_tcp_after, ahead_of, s32, u32. change (2 ^ 32) with 4294967296. change (2 ^ 31) with 2147483648. divlia.
Qed.
Lemma ahead_of_add base seq w : ahead_of (u32 (base + w)) seq = (ahead_of base seq - w) mod 2 ^ 32.
Proof. unfold ahead_of, u32. change (2 ^ 32) with 4294967296. divlia. Qed.

(** C25: The comparisons in the sequence space wrap around: a number is [before] another when
    it is equal or up to 2^31 behind it, [after] when it is equal or up to 2^31 ahead of
    it; and the check of [rt_tcp_rcv] accepts exactly the numbers from the next expected
    one up to the one behind the window (both included), at whatever place in the
    sequence space the window is, except that a closed window lets in the number on the
    far side as well. *)
Theorem seq_window_exact seq ack window :
  0 ≤ window < 2 ^ 16 →
  rt_tcp_before seq ack = bool_decide (ahead_of seq ack ≤ 2 ^ 31) ∧
  rt_tcp_after seq ack = bool_decide (ahead_of ack seq ≤ 2 ^ 31) ∧
  rt_tcp_after seq ack && rt_tcp_before seq (u32 (ack + window)) =
    bool_decide (ahead_of ack seq ≤ window) || bool_decide (window = 0 ∧ ahead_of ack seq = 2 ^ 31).
Proof.
  intros Hw. rewrite after_spec, !before_spec, ahead_of_add.
  assert (Hd : 0 ≤ ahead_of ack seq < 2 ^ 32) by (apply Z.mod_pos_bound; lia).
  assert (E : ahead_of seq ack = (- ahead_of ack seq) mod 2 ^ 32).
  { unfold ahead_of. change (2 ^ 32) with 4294967296. divlia. }
  rewrite E. set (d := ahead_of ack seq) in *. clearbody d. clear E.
  change (2 ^ 32) with 4294967296 in *. change (2 ^ 31) with 2147483648 in *. change (2 ^ 16) with 65536 in *.
  split_and!; apply eq_bool_prop_intro; rewrite ?Is_true_true, ?andb_true_iff, ?orb_true_iff, ?bool_decide_eq_true, ?Z.leb_le, ?Z.eqb_eq; divlia.
Qed.
