(* ===== verification/TcpPorts.v ===== *)
(** * TCP: the registry of sockets

    The hash table of sockets by local port refines a map from sockets to the address and
    port they are bound to, in which no two sockets overlap. *)
From S2P Require Import Prelude State RtskbQueue Rtskb RtskbData Rtdev Iovec Route IpFragment Socket IpOutput Arp Udp Timerwheel Tcp.

(** The abstract registry: address and port of every registered socket. *)
Definition binding (T : tcp_socket) : option (Z * Z) := (λ _, (ts_saddr T, ts_sport T)) <$> ts_link T.
Definition bindings (m : gmap nat tcp_socket) : gmap nat (Z * Z) := omap binding m.
(** Two bindings that a segment may not tell apart. *)
Definition overlap (b1 b2 : Z * Z) : bool :=
  (b2.2 =? b1.2) && ((b1.1 =? INADDR_ANY) || (b2.1 =? b1.1) || (b2.1 =? INADDR_ANY)).

Record reg_ok (m : gmap nat tcp_socket) (h : list (list nat)) : Prop := {
  rg_len : length h = Z.to_nat (port_hash_mask + 1);
  rg_lists : ∀ i l, h !! i = Some l → NoDup l ∧ ∀ u, u ∈ l ↔ ∃ T, m !! u = Some T ∧ ts_link T = Some i;
  rg_bucket : ∀ u T i, m !! u = Some T → ts_link T = Some i → i = port_bucket (ts_sport T);
  rg_alone : ∀ u1 u2 b1 b2, bindings m !! u1 = Some b1 → bindings m !! u2 = Some b2 → overlap b1 b2 = true → u1 = u2;
}.

Section ports.
Implicit Types (s : tstate) (T : tcp_socket) (m : gmap nat tcp_socket) (h : list (list nat)) (u : nat).

Lemma bindings_lookup m u b : bindings m !! u = Some b ↔ ∃ T i, m !! u = Some T ∧ ts_link T = Some i ∧ b = (ts_saddr T, ts_sport T).
Proof.
  unfold bindings. rewrite lookup_omap. split.
  - destruct (m !! u) as [T|]; [|done]. cbn. unfold binding. destruct (ts_link T) as [i|] eqn:E; [|done]. intros [= <-]. eauto.
  - intros (T & i & -> & Hi & ->). cbn. unfold binding. by rewrite Hi.
Qed.
Lemma bucket_lookup h p : length h = Z.to_nat (port_hash_mask + 1) → is_Some (h !! port_bucket p).
Proof.
  intros Hl. apply lookup_lt_is_Some. rewrite Hl. unfold port_bucket, port_hash_mask. change (Z.of_nat RT_TCP_SOCKETS * 2 - 1) with (Z.ones 6).
  rewrite Z.land_ones by lia. pose proof (Z.mod_pos_bound p (2 ^ 6) ltac:(lia)). change (Z.ones 6 + 1) with 64. change (2 ^ 6) with 64 in *. lia.
Qed.

Lemma hash_find_spec m saddr sport l :
  (∀ u, u ∈ l → is_Some (m !! u)) →
  ∃ r, hash_find m saddr sport l = Some r ∧
    match r with
    | Some u => u ∈ l ∧ ∃ T, m !! u = Some T ∧ port_match saddr sport T = true
    | None => ∀ u T, u ∈ l → m !! u = Some T → port_match saddr sport T = false
    end.
Proof.
  induction l as [|u l IH]; intros Hl; [exists None; split; [done|]; set_solver|]. cbn.
  destruct (Hl u) as [T HT]; [set_solver|]. rewrite HT. cbn. destruct (port_match saddr sport T) eqn:Em.
  - exists (Some u). split; [done|]. split; [set_solver|eauto].
  - destruct IH as ([v|] & -> & Hr); [set_solver|..].
    + exists (Some v). split; [done|]. set_solver.
    + exists None. split; [done|]. intros v T' [->|Hv]%elem_of_cons HT'; [congruence|by eapply Hr].
Qed.

(** The search finds a socket that overlaps, if there is one. *)
Lemma port_search_run s saddr sport (Q : option nat → tstate → Prop) :
  reg_ok (tsocks s) (port_hash (tports_of s)) →
  (∀ r, match r with
        | Some u => ∃ b, bindings (tsocks s) !! u = Some b ∧ overlap (saddr, sport) b = true
        | None => ∀ u b, bindings (tsocks s) !! u = Some b → overlap (saddr, sport) b = false
        end → Q r s) →
  wp (port_hash_search saddr sport) Q s.
Proof.
  intros [Hlen Hls Hbk Hal] HQ. unfold port_hash_search. apply wp_bind, wp_gets. apply wp_bind, wp_gets.
  destruct (bucket_lookup _ sport Hlen) as [l Hl]. apply wp_bind. eapply wp_deref; [done|]. destruct (Hls _ _ Hl) as [_ Hin].
  destruct (hash_find_spec (tsocks s) saddr sport l) as (r & Hr & Hres).
  { intros u [T [HT _]]%Hin. eauto. }
  eapply wp_deref; [done|]. apply HQ. destruct r as [u|].
  - destruct Hres as ([T [HT Hlk]]%Hin & T' & HT' & Hm). rewrite HT in HT'. injection HT' as <-.
    exists (ts_saddr T, ts_sport T). split; [apply bindings_lookup; eauto|]. exact Hm.
  - intros u b (T & i & HT & Hi & ->)%bindings_lookup. destruct (overlap _ _) eqn:Eo; [|done].
    assert (Hs : ts_sport T = sport) by (unfold overlap in Eo; cbn in Eo; apply andb_true_iff in Eo as [? _]; lia).
    rewrite <-(Hres u T); [exact (eq_sym Eo)| |done]. apply Hin. exists T. split; [done|]. rewrite <-Hs, <-(Hbk u T i HT Hi). done.
Qed.

(** [s] with the sockets [m] and the table [h]. *)
Definition reg_set s m h : tstate := s <| tsocks := m |> <| tports_of := (tports_of s) <| port_hash := h |> |>.
Lemma reg_set_set s m h m' h' : reg_set (reg_set s m h) m' h' = reg_set s m' h'.
Proof. done. Qed.

Lemma wp_ts_load s ts T (Q : tcp_socket → tstate → Prop) : tsocks s !! ts = Some T → Q T s → wp (ts_load ts) Q s.
Proof. intros HT HQ. unfold ts_load. apply wp_bind, wp_gets. by eapply wp_deref. Qed.
Lemma wp_ts_upd s ts T f (Q : () → tstate → Prop) :
  tsocks s !! ts = Some T → Q () (s <| tsocks := <[ts := f T]> (tsocks s) |>) → wp (ts_upd ts f) Q s.
Proof. intros HT HQ. unfold ts_upd. apply wp_bind. eapply wp_ts_load; [done|]. by apply wp_modify. Qed.

Lemma wp_reg_load s m h ts T (Q : tcp_socket → tstate → Prop) :
  Q T (reg_set s (<[ts := T]> m) h) → wp (ts_load ts) Q (reg_set s (<[ts := T]> m) h).
Proof. intros HQ. eapply wp_ts_load; [apply lookup_insert_eq|done]. Qed.
Lemma wp_reg_upd s m h ts T f (Q : () → tstate → Prop) :
  Q () (reg_set s (<[ts := f T]> m) h) → wp (ts_upd ts f) Q (reg_set s (<[ts := T]> m) h).
Proof.
  intros HQ. eapply wp_ts_upd; [apply lookup_insert_eq|]. unfold reg_set, upd in *. cbn in *. by rewrite insert_insert_eq.
Qed.

(** Entering and leaving the table. *)
Definition entered T saddr sport : tcp_socket :=
  T <| ts_saddr := saddr |> <| ts_sport := sport |> <| ts_daddr := 0 |> <| ts_dport := 0 |> <| ts_link := Some (port_bucket sport) |>.
Lemma bindings_insert m ts T : bindings (<[ts := T]> m) = partial_alter (λ _, binding T) ts (bindings m).
Proof.
  apply map_eq. intros u. unfold bindings. rewrite lookup_omap. destruct (decide (u = ts)) as [->|].
  - by rewrite lookup_insert_eq, lookup_partial_alter_eq.
  - rewrite lookup_insert_ne, lookup_partial_alter_ne, lookup_omap by done. done.
Qed.
Lemma enter_reg_ok m h ts T saddr sport l :
  reg_ok m h → m !! ts = Some T → ts_link T = None → h !! port_bucket sport = Some l →
  (∀ u b, bindings m !! u = Some b → overlap (saddr, sport) b = false) →
  reg_ok (<[ts := entered T saddr sport]> m) (<[port_bucket sport := ts :: l]> h).
Proof.
  intros [Hlen Hls Hbk Hal] HT Hno Hl Hfree. assert (Hsym : ∀ b1 b2, overlap b1 b2 = overlap b2 b1).
  { intros [a1 p1] [a2 p2]. unfold overlap. cbn. rewrite (Z.eqb_sym p2), (Z.eqb_sym a2 a1).
    destruct (p1 =? p2), (a1 =? INADDR_ANY), (a2 =? INADDR_ANY), (a1 =? a2); done. }
  split.
  - by rewrite length_insert.
  - intros i l' Hi. destruct (decide (i = port_bucket sport)) as [->|Hne].
    + rewrite list_lookup_insert_eq in Hi by (by eapply lookup_lt_Some). injection Hi as <-. destruct (Hls _ _ Hl) as [Hnd Hin].
      split; [apply NoDup_cons; split; [|done]; intros (T' & HT' & Hlk)%Hin; congruence|]. intros u. rewrite elem_of_cons, Hin.
      destruct (decide (u = ts)) as [->|Hu]; [rewrite lookup_insert_eq; split; eauto|rewrite lookup_insert_ne by done; naive_solver].
    + rewrite list_lookup_insert_ne in Hi by done. destruct (Hls _ _ Hi) as [Hnd Hin]. split; [done|]. intros u. rewrite Hin.
      destruct (decide (u = ts)) as [->|Hu]; [|by rewrite lookup_insert_ne]. rewrite lookup_insert_eq. split.
      * intros (T' & HT' & Hlk). congruence.
      * intros (T' & [= <-] & Hlk). cbn in Hlk. congruence.
  - intros u T' i. destruct (decide (u = ts)) as [->|Hu]; [rewrite lookup_insert_eq; by intros [= <-] [= <-]|].
    rewrite lookup_insert_ne by done. apply Hbk.
  - intros u1 u2 b1 b2. rewrite bindings_insert. destruct (decide (u1 = ts)) as [->|H1], (decide (u2 = ts)) as [->|H2];
      rewrite ?lookup_partial_alter_eq, ?lookup_partial_alter_ne by done; [done|..].
    + intros [= <-] Hb2. cbn. rewrite (Hfree _ _ Hb2). done.
    + intros Hb1 [= <-]. rewrite Hsym. cbn. rewrite (Hfree _ _ Hb1). done.
    + apply Hal.
Qed.

Lemma port_insert_run s ts T saddr sport (Q : Z → tstate → Prop) :
  reg_ok (tsocks s) (port_hash (tports_of s)) → tsocks s !! ts = Some T → ts_link T = None →
  (∀ u b, bindings (tsocks s) !! u = Some b → overlap (saddr, sport) b = true → Q (- EADDRINUSE) s) →
  (∀ h', (∀ u b, bindings (tsocks s) !! u = Some b → overlap (saddr, sport) b = false) →
     reg_ok (<[ts := entered T saddr sport]> (tsocks s)) h' → Q 0 (reg_set s (<[ts := entered T saddr sport]> (tsocks s)) h')) →
  wp (port_hash_insert ts saddr sport) Q s.
Proof.
  intros Hok HT Hno Hbusy Hfree. unfold port_hash_insert. apply wp_bind, port_search_run; [done|]. intros [u|].
  - intros (b & Hb & Ho). apply wp_ret. by eapply Hbusy.
  - intros Hall. destruct (bucket_lookup _ sport (rg_len _ _ Hok)) as [l Hl].
    apply wp_bind. eapply wp_ts_upd; [done|]. apply wp_bind, wp_gets. apply wp_bind. eapply wp_deref; [exact Hl|].
    unfold ports_upd. apply wp_bind, wp_modify, wp_ret. apply (Hfree (<[port_bucket sport := ts :: l]> (port_hash (tports_of s)))); [done|].
    by apply enter_reg_ok.
Qed.
Lemma port_del_run s ts T i (Q : () → tstate → Prop) :
  reg_ok (tsocks s) (port_hash (tports_of s)) → tsocks s !! ts = Some T → ts_link T = Some i →
  (∀ h', reg_ok (<[ts := T <| ts_link := None |>]> (tsocks s)) h' → Q () (reg_set s (<[ts := T <| ts_link := None |>]> (tsocks s)) h')) →
  wp (port_hash_del ts) Q s.
Proof.
  intros [Hlen Hls Hbk Hal] HT Hlk HQ. unfold port_hash_del. apply wp_bind. eapply wp_ts_load; [done|]. apply wp_bind. eapply wp_deref; [done|].
  apply wp_bind, wp_gets. destruct (bucket_lookup _ (ts_sport T) Hlen) as [l Hl]. rewrite <-(Hbk _ _ _ HT Hlk) in Hl.
  apply wp_bind. eapply wp_deref; [done|]. destruct (Hls _ _ Hl) as [Hnd Hin].
  destruct (list_elem_of_split l ts) as (l1 & l2 & El); [apply Hin; eauto|].
  assert (Hd : list_del ts l = Some (l1 ++ l2)).
  { rewrite El. apply list_del_split. rewrite El in Hnd. apply NoDup_app in Hnd as (_ & Hx & _). intros Hi. apply (Hx _ Hi). set_solver. }
  apply wp_bind. eapply wp_deref; [done|]. apply wp_bind. eapply wp_ts_upd; [done|]. unfold ports_upd. apply wp_modify.
  apply (HQ (<[i := l1 ++ l2]> (port_hash (tports_of s)))). destruct (list_del_NoDup _ _ _ Hnd Hd) as [Hnd' Hin'].
  split.
  - by rewrite length_insert.
  - intros j l' Hj. destruct (decide (j = i)) as [->|Hne].
    + rewrite list_lookup_insert_eq in Hj by (by eapply lookup_lt_Some). injection Hj as <-. split; [done|]. intros u. rewrite Hin', Hin.
      destruct (decide (u = ts)) as [->|Hu]; [rewrite lookup_insert_eq; naive_solver|rewrite lookup_insert_ne by done; naive_solver].
    + rewrite list_lookup_insert_ne in Hj by done. destruct (Hls _ _ Hj) as [Hnd2 Hin2]. split; [done|]. intros u. rewrite Hin2.
      destruct (decide (u = ts)) as [->|Hu]; [rewrite lookup_insert_eq; naive_solver|by rewrite lookup_insert_ne].
  - intros u T' j. destruct (decide (u = ts)) as [->|Hu]; [rewrite lookup_insert_eq; by intros [= <-]|].
    rewrite lookup_insert_ne by done. apply Hbk.
  - intros u1 u2 b1 b2. rewrite bindings_insert. destruct (decide (u1 = ts)) as [->|H1], (decide (u2 = ts)) as [->|H2];
      rewrite ?lookup_partial_alter_eq, ?lookup_partial_alter_ne by done; [done..|]. apply Hal.
Qed.

(** Changes of a socket that keep its registration. *)
Record same_reg T T' : Prop := {
  sr_link : ts_link T' = ts_link T;
  sr_saddr : ts_saddr T' = ts_saddr T;
  sr_sport : ts_sport T' = ts_sport T;
}.
Lemma same_reg_bindings m ts T T' : m !! ts = Some T → same_reg T T' → bindings (<[ts := T']> m) = bindings m.
Proof.
  intros HT [E1 E2 E3]. assert (E : bindings m !! ts = binding T') by (unfold bindings; rewrite lookup_omap, HT; cbn; unfold binding; by rewrite E1, E2, E3).
  rewrite bindings_insert. apply map_eq. intros u. destruct (decide (ts = u)) as [->|]; [by rewrite lookup_partial_alter_eq|by rewrite lookup_partial_alter_ne].
Qed.
Lemma same_reg_ok m h ts T T' : m !! ts = Some T → same_reg T T' → reg_ok m h → reg_ok (<[ts := T']> m) h.
Proof.
  intros HT Hs [Hlen Hls Hbk Hal]. pose proof Hs as [E1 E2 E3]. split; [done| | |by erewrite same_reg_bindings].
  - intros i l Hl. destruct (Hls _ _ Hl) as [Hnd Hin]. split; [done|]. intros u. rewrite Hin.
    destruct (decide (u = ts)) as [->|Hu]; [rewrite lookup_insert_eq; naive_solver congruence|by rewrite lookup_insert_ne].
  - intros u Tu i. destruct (decide (u = ts)) as [->|Hu]; [rewrite lookup_insert_eq; intros [= <-]; rewrite E1, E3; by eapply Hbk|].
    rewrite lookup_insert_ne by done. apply Hbk.
Qed.

Lemma rebind_run s ts T i index addr port :
  let m := tsocks s in
  let p := u16 (if negb (port =? 0) then port else index + tcp_auto_port_start (tports_of s)) in
  reg_ok m (port_hash (tports_of s)) → m !! ts = Some T → ts_link T = Some i →
  wp (rebind ts index addr port)
     (λ ret s', ∃ T' h', s' = reg_set s (<[ts := T']> m) h' ∧ reg_ok (<[ts := T']> m) h' ∧
        ((ret = 0 ∧ T' = entered T addr p ∧ ∀ u b, u ≠ ts → bindings m !! u = Some b → overlap (addr, p) b = false) ∨
         (ret = - EADDRINUSE ∧ T' = entered T (ts_saddr T) (ts_sport T) ∧
          ∃ u b, u ≠ ts ∧ bindings m !! u = Some b ∧ overlap (addr, p) b = true))) s.
Proof.
  intros m p Hok HT Hlk. unfold rebind. apply wp_bind, wp_gets. apply wp_bind. eapply port_del_run; [done..|]. intros h1 Hok1.
  fold p. set (T1 := T <| ts_link := None |>) in *. set (m1 := <[ts := T1]> m) in *. change (<[ts := T1]> (tsocks s)) with m1 in *.
  assert (HT1 : m1 !! ts = Some T1) by apply lookup_insert_eq.
  assert (Eall : ∀ T2, <[ts := T2]> m1 = <[ts := T2]> m) by (intros; apply insert_insert_eq).
  assert (Hoth : ∀ u b, bindings m1 !! u = Some b ↔ u ≠ ts ∧ bindings m !! u = Some b).
  { intros u b. unfold m1. rewrite bindings_insert. destruct (decide (u = ts)) as [->|]; [rewrite lookup_partial_alter_eq; naive_solver|].
    rewrite lookup_partial_alter_ne by done. naive_solver. }
  apply wp_bind. eapply (port_insert_run (reg_set s m1 h1) ts T1); [done|done|done| |].
  - intros u b [Hu Hb]%Hoth Ho. cbn. apply wp_bind. eapply wp_ts_load; [exact HT1|]. apply wp_bind.
    eapply (port_insert_run (reg_set s m1 h1) ts T1); [done|done|done| |].
    + intros u2 b2 [Hu2 Hb2]%Hoth Ho2. exfalso. apply Hu2. symmetry. eapply (rg_alone _ _ Hok); [|exact Hb2|exact Ho2].
      apply bindings_lookup. eauto.
    + intros h2 _ Hok2. apply wp_ret. cbn in Hok2. rewrite Eall in Hok2. exists (entered T (ts_saddr T) (ts_sport T)), h2.
      split; [cbn; by rewrite reg_set_set, Eall|]. split; [done|]. right. split_and!; [done|done|]. by exists u, b.
  - intros h2 Hfree Hok2. cbn in Hok2. rewrite Eall in Hok2. cbn [Z.eqb negb]. apply wp_ret. exists (entered T addr p), h2.
    split; [by rewrite reg_set_set, Eall|]. split; [done|]. left. split_and!; [done|done|]. intros u b Hu Hb. apply (Hfree u b). by apply Hoth.
Qed.

(** C12: Binding refines an update of the abstract registry: the socket gets the address and
    port that were asked for (port 0: the one that was reserved for it) if no other
    socket's binding overlaps with it, and otherwise keeps its registration with
    -EADDRINUSE; in the range of reserved ports, with a short address, and for a socket
    that is bound, being bound or not closed the result is -EINVAL and nothing changes.
    In every case the registry stays without overlaps and the lock is free. *)
Theorem rt_tcp_bind_correct s ts T S i addr port addrlen :
  let m := tsocks s in let P := tports_of s in
  let p := u16 (if negb (port =? 0) then port else reg_index S + tcp_auto_port_start P) in
  reg_ok m (port_hash P) → m !! ts = Some T → socks (tf s) !! ts = Some S → socket_lock T = false → ts_link T = Some i →
  wp (rt_tcp_bind ts addr port addrlen)
     (λ ret s', ∃ T' h', s' = reg_set s (<[ts := T']> m) h' ∧ reg_ok (<[ts := T']> m) h' ∧ socket_lock T' = false ∧
        if (addrlen <? SIZEOF_SOCKADDR_IN) || (Z.land port (tcp_auto_port_mask P) =? tcp_auto_port_start P) ||
           negb (tcp_state T =? TCP_CLOSE) || is_bound T || is_binding T
        then ret = - EINVAL ∧ s' = s
        else if reg_index S <? 0 then ret = - EBADF ∧ bindings (<[ts := T']> m) = bindings m ∧ is_bound T' = false
        else (ret = 0 ∧ (∀ u b, u ≠ ts → bindings m !! u = Some b → overlap (addr, p) b = false) ∧
              bindings (<[ts := T']> m) = <[ts := (addr, p)]> (bindings m) ∧ is_bound T' = true) ∨
             (ret = - EADDRINUSE ∧ (∃ u b, u ≠ ts ∧ bindings m !! u = Some b ∧ overlap (addr, p) b = true) ∧
              bindings (<[ts := T']> m) = bindings m ∧ is_bound T' = false)) s.
Proof.
  intros m P p Hok HT HS Hlk Hli.
  assert (Hid : s = reg_set s (<[ts := T]> m) (port_hash P)).
  { unfold reg_set, upd. rewrite insert_id by done. by destruct s as [? ? [] ? ? ? ?]. }
  assert (Hsame : ∀ T', same_reg T T' → reg_ok (<[ts := T']> m) (port_hash P)) by (intros; by eapply same_reg_ok).
  assert (ET : T <| socket_lock := true |> <| socket_lock := false |> = T) by (destruct T; cbn in *; by rewrite Hlk).
  unfold rt_tcp_bind. apply wp_bind, wp_gets. fold P.
  destruct ((addrlen <? _) || _) eqn:Ea; cbn [orb].
  { apply wp_ret. exists T, (port_hash P). split; [done|]. split; [by apply Hsame|done]. }
  apply wp_bind. unfold lock_get. rewrite Hid at 1. apply wp_bind. eapply wp_reg_load. rewrite Hlk. apply wp_reg_upd.
  apply wp_bind, wp_reg_load. cbn [tcp_state is_bound is_binding upd].
  destruct (negb (tcp_state T =? TCP_CLOSE) || is_bound T || is_binding T) eqn:Es.
  { apply wp_bind, wp_reg_upd, wp_ret. rewrite ET, <-Hid. exists T, (port_hash P). split; [done|]. split; [by apply Hsame|done]. }
  apply wp_bind, wp_reg_upd. apply wp_bind, wp_reg_upd. set (T1 := T <| socket_lock := true |> <| is_binding := true |> <| socket_lock := false |>).
  assert (Hs1 : same_reg T T1) by done. apply wp_bind. unfold in_tf. apply wp_zoom. eapply wp_sock_load; [exact HS|].
  match goal with |- wp _ _ ?t => change t with (reg_set s (<[ts := T1]> m) (port_hash P)) end.
  assert (Hend : ∀ ret T2 h2 (Q : Z → tstate → Prop), socket_lock T2 = false →
    Q ret (reg_set s (<[ts := T2 <| is_bound := (ret =? 0) |> <| is_binding := false |>]> m) h2) →
    wp (lock_get ts;; ts_upd ts (λ T, T <| is_bound := (ret =? 0) |> <| is_binding := false |>);; lock_put ts;; mret ret) Q
       (reg_set s (<[ts := T2]> m) h2)).
  { intros ret T2 h2 Q Hl2 HQ. apply wp_bind. unfold lock_get. apply wp_bind, wp_reg_load. rewrite Hl2. apply wp_reg_upd.
    apply wp_bind, wp_reg_upd. apply wp_bind, wp_reg_upd, wp_ret.
    match goal with |- Q ret (reg_set s (<[ts := ?T3]> m) h2) => replace T3 with (T2 <| is_bound := (ret =? 0) |> <| is_binding := false |>) end; [done|].
    destruct T2. cbn in *. by rewrite Hl2. }
  destruct (Z.ltb_spec (reg_index S) 0) as [Hr|Hr].
  - apply wp_bind, wp_ret. apply Hend; [done|]. eexists _, (port_hash P). split; [done|]. split; [by apply Hsame|]. split; [done|].
    split_and!; [done|by eapply same_reg_bindings|done].
  - apply wp_bind. eapply wp_mono; [|eapply (rebind_run (reg_set s (<[ts := T1]> m) (port_hash P)) ts T1 i); [by apply Hsame|apply lookup_insert_eq|done]].
    intros ret s2 (T2 & h2 & -> & Hok2 & Hcase). cbn [tsocks reg_set upd tports_of port_hash] in *. rewrite insert_insert_eq in Hok2.
    rewrite reg_set_set, insert_insert_eq. assert (Hbe : bindings (<[ts := T1]> m) = bindings m) by (by eapply same_reg_bindings). rewrite Hbe in Hcase.
    set (T3 := T2 <| is_bound := (ret =? 0) |> <| is_binding := false |>).
    assert (H3 : <[ts := T3]> m = <[ts := T3]> (<[ts := T2]> m)) by (by rewrite insert_insert_eq).
    assert (Hok3 : reg_ok (<[ts := T3]> m) h2) by (rewrite H3; eapply same_reg_ok; [apply lookup_insert_eq|done|done]).
    destruct Hcase as [(-> & -> & Hfree)|(-> & -> & Hbusy)]; (apply Hend; [done|]); exists T3, h2; (split; [done|]); (split; [done|]); (split; [done|]).
    + left. split_and!; [done|done| |done]. rewrite bindings_insert. done.
    + right. split_and!; [done|done| |done]. eapply same_reg_bindings; [done|]. split; [|done..]. cbn. rewrite Hli. f_equal. symmetry.
      by eapply (rg_bucket _ _ Hok).
Qed.

(** The socket a segment is for: found in the table exactly when one is bound to the
    destination, which is then the only one, and protected against being closed. *)
Theorem rt_tcp_v4_lookup_correct s daddr dport :
  let m := tsocks s in
  reg_ok m (port_hash (tports_of s)) → (∀ u, is_Some (bindings m !! u) → is_Some (socks (tf s) !! u)) → 0 ≤ dport < 2 ^ 16 → daddr ≠ INADDR_ANY →
  wp (rt_tcp_v4_lookup daddr dport)
     (λ r s', match r with
        | None => s' = s ∧ ∀ u b, bindings m !! u = Some b → overlap (daddr, dport) b = false
        | Some ts => (∀ u b, bindings m !! u = Some b → overlap (daddr, dport) b = bool_decide (u = ts)) ∧ is_Some (bindings m !! ts) ∧
            ∃ S, socks (tf s) !! ts = Some S ∧
              s' = s <| tf := (tf s) <| socks := <[ts := S <| close_lock_count := close_lock_count S + 1 |>]> (socks (tf s)) |> |>
        end) s.
Proof.
  intros m Hok Hsk Hp Ha. unfold rt_tcp_v4_lookup. unfold u16. rewrite Z.mod_small by done. apply wp_bind, port_search_run; [done|].
  intros [ts|] Hres; [|by apply wp_ret]. destruct Hres as (b & Hb & Ho). destruct (Hsk ts) as [S HS]; [eauto|].
  apply wp_bind. unfold in_tf. apply wp_zoom. eapply wp_sock_upd; [done|]. apply wp_ret. split; [|split; [eauto|by exists S]].
  intros u b' Hb'. destruct (decide (u = ts)) as [->|Hu].
  - rewrite bool_decide_eq_true_2 by done. unfold m in Hb'. rewrite Hb in Hb'. by injection Hb' as <-.
  - rewrite bool_decide_eq_false_2 by done. destruct (overlap _ b') eqn:Ho'; [|done]. exfalso. apply Hu. eapply (rg_alone _ _ Hok); [exact Hb'|exact Hb|].
    destruct b as [a1 p1], b' as [a2 p2]. unfold overlap in *. cbn in *. apply Z.eqb_neq in Ha. rewrite Ha in *. cbn in *.
    apply andb_true_iff in Ho as [? Ho]. apply andb_true_iff in Ho' as [? Ho']. apply andb_true_iff. split; [lia|].
    apply orb_true_iff in Ho, Ho'. unfold INADDR_ANY in *. lia.
Qed.
End ports.
