(* ===== verification/TcpSend.v ===== *)
(** * TCP: the segments that are sent

    [rt_tcp_segment] byte by byte, with the copy that is kept for retransmission. *)
From S2P Require Import Prelude State RtskbQueue Rtskb RtskbData Rtdev Eth Iovec StackMgr Route RouteHost RouteOps IpFragment.
From S2P Require Import Socket IpOutput IpInput Arp Udp UdpOps Icmp Packet PacketOps PacketSend Timerwheel Tcp.

(** ** The state of one socket *)

(** [s] with kernel memory [k], wheel [w] and socket [ts]: its TCP part [T] and its
    common part [S]. *)
Definition st (s : tstate) (ts : nat) (k : kstate) (w : wheel) (T : tcp_socket) (S : rtsocket) : tstate :=
  s <| tf := mk_fstate k (<[ts := S]> (socks (tf s))) (collector (tf s)) |> <| twheel := w |>
    <| tsocks := <[ts := T]> (tsocks s) |>.
Definition tkern (s : tstate) : kstate := fkern (tf s).
Record tsock (s : tstate) (ts : nat) (T : tcp_socket) (S : rtsocket) : Prop := {
  tk_tcp : tsocks s !! ts = Some T;
  tk_sock : socks (tf s) !! ts = Some S;
}.

Section st.
Context `{Config}.
Implicit Types (s : tstate) (T : tcp_socket) (S : rtsocket).

Lemma st_id s ts T S : tsock s ts T S → st s ts (tkern s) (twheel s) T S = s.
Proof.
  intros [HT HS]. unfold st, tkern. destruct s as [[k so c] ? ? m ? ? ?]. unfold upd. cbn in *.
  by rewrite (insert_id so), (insert_id m).
Qed.
Lemma st_st s ts k w T S k' w' T' S' : st (st s ts k w T S) ts k' w' T' S' = st s ts k' w' T' S'.
Proof. unfold st, upd. cbn. by rewrite !insert_insert_eq. Qed.
Lemma st_tsock s ts k w T S : tsock (st s ts k w T S) ts T S.
Proof. split; apply lookup_insert_eq. Qed.
Lemma wp_st {A} (m : M tstate A) Q s ts T S : tsock s ts T S → wp m Q (st s ts (tkern s) (twheel s) T S) → wp m Q s.
Proof. intros Hs. by rewrite st_id. Qed.

Lemma st_kern {A} (m : M kstate A) Q s ts k w T S :
  wp m (λ a k', Q a (st s ts k' w T S)) k → wp (in_tkern m) Q (st s ts k w T S).
Proof.
  intros Hm. unfold in_tkern, in_tf. apply wp_zoom. apply wp_in_fkern. eapply wp_mono; [|exact Hm].
  intros a k' HQ. cbn. unfold st, upd in *. cbn in *. exact HQ.
Qed.
Lemma st_wheel {A} (m : M wheel A) Q s ts k w T S :
  wp m (λ a w', Q a (st s ts k w' T S)) w → wp (in_wheel m) Q (st s ts k w T S).
Proof. intros Hm. unfold in_wheel. apply wp_zoom. eapply wp_mono; [|exact Hm]. intros a w' HQ. exact HQ. Qed.
Lemma st_load Q s ts k w T S : Q T (st s ts k w T S) → wp (ts_load ts) Q (st s ts k w T S).
Proof. intros HQ. unfold ts_load. apply wp_bind, wp_gets. eapply wp_deref; [apply lookup_insert_eq|done]. Qed.
Lemma st_upd f Q s ts k w T S : Q () (st s ts k w (f T) S) → wp (ts_upd ts f) Q (st s ts k w T S).
Proof.
  intros HQ. unfold ts_upd. apply wp_bind, st_load, wp_modify. unfold st, upd in *. cbn in *. by rewrite insert_insert_eq.
Qed.
Lemma st_sload Q s ts k w T S : Q S (st s ts k w T S) → wp (in_tf (sock_load ts)) Q (st s ts k w T S).
Proof.
  intros HQ. unfold in_tf. apply wp_zoom. eapply wp_sock_load; [apply lookup_insert_eq|]. exact HQ.
Qed.
Lemma st_supd f Q s ts k w T S : Q () (st s ts k w T (f S)) → wp (in_tf (sock_upd ts f)) Q (st s ts k w T S).
Proof.
  intros HQ. unfold in_tf. apply wp_zoom. eapply wp_sock_upd; [apply lookup_insert_eq|].
  unfold st, upd in *. cbn in *. by rewrite insert_insert_eq.
Qed.
Lemma st_lock Q s ts k w T S :
  socket_lock T = false → Q () (st s ts k w (T <| socket_lock := true |>) S) → wp (lock_get ts) Q (st s ts k w T S).
Proof. intros HT HQ. unfold lock_get. apply wp_bind, st_load. rewrite HT. by apply st_upd. Qed.
Lemma st_unlock Q s ts k w T S :
  Q () (st s ts k w (T <| socket_lock := false |>) S) → wp (lock_put ts) Q (st s ts k w T S).
Proof. apply st_upd. Qed.
End st.

(** ** What a step leaves alone *)

(** From [k] with the pools [C] to [k'] with [C']: only queues of [Wq] and pools, only
    buffers of [W] and free ones were touched. *)
Record kframe (W Wq : list nat) (k : kstate) (C : gmap nat (list nat)) (k' : kstate) (C' : gmap nat (list nat)) : Prop := {
  kf_inv : pools_inv k' C';
  kf_pools : ∀ q, is_Some (C !! q) ↔ is_Some (C' !! q);
  kf_skbs : ∀ b, in_use C b → b ∉ W → skbs k' !! b = skbs k !! b ∧ in_use C' b;
  kf_queues : ∀ q, C !! q = None → q ∉ Wq → queues k' !! q = queues k !! q;
  kf_devs : devs k' = devs k;
  kf_lens : lens k' = lens k;
}.
Section kframe.
Context `{Config}.
Implicit Types (k : kstate) (C : gmap nat (list nat)).

Lemma kframe_refl W Wq k C : pools_inv k C → kframe W Wq k C k C.
Proof. by split. Qed.
Lemma kframe_trans W Wq k1 C1 k2 C2 k3 C3 :
  kframe W Wq k1 C1 k2 C2 → kframe W Wq k2 C2 k3 C3 → kframe W Wq k1 C1 k3 C3.
Proof.
  intros [? P1 S1 Q1 D1 L1] [? P2 S2 Q2 D2 L2]. split; [done|..].
  - intros q. by rewrite P1.
  - intros b Hb HW. destruct (S1 b Hb HW) as [E1 U1]. destruct (S2 b U1 HW) as [E2 U2]. by rewrite E2.
  - intros q Hq HW. rewrite Q2, Q1; [done..| |done]. apply eq_None_not_Some. rewrite <-P1. rewrite Hq. by intros [].
  - congruence.
  - congruence.
Qed.
Lemma kframe_mono W W' Wq Wq' k C k' C' :
  W ⊆ W' → Wq ⊆ Wq' → kframe W Wq k C k' C' → kframe W' Wq' k C k' C'.
Proof.
  intros HW HQ [? ? S1 Q1 ? ?]. split; try done.
  - intros b Hb Hb'. apply S1; set_solver.
  - intros q Hq Hq'. apply Q1; set_solver.
Qed.
Lemma kframe_inbox W Wq k C k' C' S l :
  kframe W Wq k C k' C' → inbox k C S l → incoming S ∉ Wq → (∀ a, a ∈ l → a ∉ W) → inbox k' C' S l.
Proof.
  intros [? P1 S1 Q1 D1 _] Hib Hq Hl. pose proof Hib as [Hp Hn _ Hw].
  eapply inbox_frame; [exact Hib|by apply Q1|by apply P1| | |by rewrite D1].
  - apply eq_None_not_Some. rewrite <-P1. rewrite Hn. by intros [].
  - intros a Ha. destruct (Hw a Ha) as (x & ? & Hlo & _). destruct (S1 a) as [E U]; [apply Hlo|by apply Hl|]. done.
Qed.
Lemma kframe_loose W Wq k C k' C' a x rp :
  kframe W Wq k C k' C' → loose k C a x rp → a ∉ W → loose k' C' a x rp.
Proof.
  intros [? P1 S1 Q1 D1 _] [Hx Hwf He Hp Hps Hu Hc] Ha. destruct (S1 a Hu Ha) as [E U].
  split; try done; [by rewrite E|by apply P1].
Qed.
Lemma kframe_devs W Wq k C ds :
  pools_inv k C → ds = devs k → kframe W Wq k C (k <| devs := ds |>) C.
Proof. intros Hinv ->. split; try done. destruct Hinv. by split. Qed.
End kframe.

(** ** Reading a header *)

Section th.
Context `{Config}.
Lemma ntohl_involutive x : is_u32 x → ntohl (ntohl x) = x.
Proof.
  unfold ntohl. destruct little_endian; [apply bswap32_involutive|done].
Qed.
Lemma rd16_wr16 x : 0 ≤ x < 2 ^ 16 → rd16 (wr16 x) = Some x.
Proof. intros Hx. unfold wr16. rewrite rd16_be16 by (by apply ntohs_range). by rewrite ntohs_involutive. Qed.

(** The addresses and numbers of a socket are in their ranges. *)
Record tcp_ranges (T : tcp_socket) : Prop := {
  tr_sport : 0 ≤ ts_sport T < 2 ^ 16;
  tr_dport : 0 ≤ ts_dport T < 2 ^ 16;
  tr_seq : is_u32 (sync_seq T);
  tr_ack : is_u32 (sync_ack_seq T);
  tr_win : 0 ≤ sync_window T < 2 ^ 16;
  tr_dwin : 0 ≤ sync_dst_window T < 2 ^ 16;
}.
(** What the peer reads from the header of a segment. *)
Lemma th_header x T flags c ka p rest :
  tcp_ranges T → wf_rtskb x → payload x = p ++ tcp_header T flags c ka ++ rest → h_raw x = data x + Z.of_nat (length p) →
  th x = Some (mk_th (ts_sport T) (ts_dport T) (if ka then u32 (ntohl (sync_seq T) - 1) else ntohl (sync_seq T))
                 (ntohl (sync_ack_seq T)) 5 (ntohs (u16 flags) mod 256) (ntohs (sync_window T))).
Proof.
  intros [? ? Hs Ha Hw _] Hwf Hp Hh. pose proof (length_payload _ Hwf) as Hl. rewrite Hp, !length_app in Hl.
  assert (Ht : length (tcp_header T flags c ka) = 20%nat).
  { unfold tcp_header. cbv zeta. rewrite !length_app. unfold wr32. by destruct little_endian. }
  unfold th. rewrite Hh, payload_read by (done || unfold TCPHDR_LEN; lia). cbn [mbind option_bind].
  rewrite Nat2Z.id, Hp, drop_app_length, take_app_length' by (by rewrite Ht).
  set (sq := if ka then u32 (ntohl (sync_seq T) - 1) else ntohl (sync_seq T)).
  assert (Hsq : is_u32 sq) by (unfold sq; destruct ka; [apply Z.mod_pos_bound; lia|by apply ntohl_range]).
  assert (H4 : ∀ v, ∃ a b c d, wr32 v = [a; b; c; d]) by (intros v; unfold wr32; destruct little_endian; by eexists _, _, _, _).
  pose proof (rd16_wr16 (ts_sport T) ltac:(done)) as R1. pose proof (rd16_wr16 (ts_dport T) ltac:(done)) as R2.
  pose proof (rd32_wr32 sq Hsq) as R3. pose proof (rd32_wr32 (ntohl (sync_ack_seq T)) ltac:(by apply ntohl_range)) as R4.
  pose proof (rd16_wr16 (ntohs (sync_window T)) ltac:(by apply ntohs_range)) as R5.
  destruct (H4 sq) as (b1 & b2 & b3 & b4 & E1). destruct (H4 (ntohl (sync_ack_seq T))) as (c1 & c2 & c3 & c4 & E2).
  unfold tcp_header. fold sq. rewrite E1, E2 in *. unfold wr16, be16 in *. cbn -[rd16 rd32 ntohs ntohl u16].
  rewrite R1, R2, R3, R4, R5. cbn -[rd16 rd32 ntohs ntohl u16]. done.
Qed.

(** The flags [f] of a header, as the constants of the code hold them. *)
Definition flag_word (f : Z) : Z := ntohl (Z.shiftl f 16).
Lemma flags_stored f : 0 ≤ f < 256 → ntohs (u16 (flag_word f)) mod 256 = if little_endian then f else 0.
Proof.
  intros Hf. unfold flag_word, ntohl, ntohs, u16. rewrite Z.shiftl_mul_pow2 by lia. change (2 ^ 16) with 65536.
  destruct little_endian; unfold bswap32, bswap16; divlia.
Qed.
(** C24: A receiver of the same byte order reads from the header of a segment the ports, the
    sequence and acknowledgement numbers and the window the socket has, and no options.
    The flags get through on little-endian machines; on big-endian ones every segment
    goes out without flags. *)
Theorem tcp_header_roundtrip x T f c p rest :
  tcp_ranges T → 0 ≤ f < 256 → wf_rtskb x → payload x = p ++ tcp_header T (flag_word f) c false ++ rest →
  h_raw x = data x + Z.of_nat (length p) →
  ∃ t, th x = Some t ∧ th_source t = ts_sport T ∧ th_dest t = ts_dport T ∧ ntohl (th_seq t) = sync_seq T ∧
    ntohl (th_ack_seq t) = sync_ack_seq T ∧ ntohs (th_window t) = sync_window T ∧ Z.shiftl (th_doff t) 2 = TCPHDR_LEN ∧
    th_fin t = little_endian && Z.testbit f 0 ∧ th_syn t = little_endian && Z.testbit f 1 ∧
    th_rst t = little_endian && Z.testbit f 2 ∧ th_ack t = little_endian && Z.testbit f 4.
Proof.
  intros Hr Hf Hwf Hp Hh. pose proof Hr as [_ _ Hs Ha Hw _].
  eexists. split; [by eapply th_header|]. cbn [th_source th_dest th_seq th_ack_seq th_window th_doff]. split_and!; try done.
  1,2: by apply ntohl_involutive.
  1: by apply ntohs_involutive.
  all: unfold th_fin, th_syn, th_rst, th_ack; cbn [th_flags]; rewrite flags_stored by done; destruct little_endian; [done|apply Z.bits_0].
Qed.
End th.

(** ** Buffers of segments *)

Section copy.
Context `{Config}.
Implicit Types (k : kstate) (x y : rtskb) (s : tstate) (T : tcp_socket) (S : rtsocket) (C : gmap nat (list nat)).

Lemma buf_write_frame x addr bytes y : buf_write x addr bytes = Some y → y = x <| buf := buf y |> ∧ length (buf y) = length (buf x).
Proof.
  unfold buf_write. destruct (_ && _) eqn:E; [|done]. apply andb_true_iff in E as [E1 E2]. intros [= <-]. split; [done|].
  cbn. rewrite !length_app, length_take, length_drop. lia.
Qed.

(** The buffer of a segment: room for the headers, then the data. *)
Definition segment_in x d prio hh (bytes : list Z) y : Prop :=
  wf_rtskb y ∧ length (buf y) = length (buf x) ∧ (∃ p, length p = 40%nat ∧ payload y = p ++ bytes) ∧
  y = x <| data := buf_start x + hh |> <| tail := tail y |> <| len := 40 + Z.of_nat (length bytes) |>
        <| nh_raw := buf_start x + hh |> <| h_raw := buf_start x + hh + 20 |> <| rtdev := Some d |> <| priority := prio |>
        <| buf := buf y |>.

Lemma put_segment_run s ts k w T S d a x hh prio ptr bytes (Q : Z → tstate → Prop) :
  skbs k !! a = Some x → data x = buf_start x → tail x = buf_start x → len x = 0 → 0 ≤ hh →
  hh + 40 + Z.of_nat (length bytes) ≤ Z.of_nat (length (buf x)) < 2 ^ 32 →
  load_bytes ptr (length bytes) (tmem s) = Some bytes →
  (∀ y, segment_in x d prio hh bytes y → Q (data y) (st s ts (upd_skb a y k) w T S)) →
  wp (put_segment d a hh prio (Z.of_nat (length bytes)) ptr) Q (st s ts k w T S).
Proof.
  intros Hx Ed Et El Hh Hlen Hload HQ. unfold put_segment.
  apply wp_bind, st_kern. eapply wp_skb_upd; [done|]. fold (upd_skb a (rtskb_reserve hh x) k).
  apply wp_bind, st_kern, wp_upd_skb_load. unfold rtskb_put, rtskb_reserve. cbn [tail data len upd]. rewrite Ed, Et, El.
  change (u32 (0 + IPHDR_LEN)) with 20. change (u32 (20 + TCPHDR_LEN)) with 40.
  apply wp_bind, st_kern, wp_upd_skb_store. set (x1 := _ <| h_raw := _ |>).
  assert (E1 : x1 = x <| data := buf_start x + hh |> <| tail := buf_start x + hh + 40 |> <| len := 40 |>
    <| nh_raw := buf_start x + hh |> <| h_raw := buf_start x + hh + 20 |>).
  { unfold x1, IPHDR_LEN, TCPHDR_LEN. replace (buf_start x + hh + 40) with (buf_start x + hh + 20 + 20) by lia. done. }
  clearbody x1. assert (Hw1 : wf_rtskb x1) by (rewrite E1; split; cbn; lia).
  assert (Hp1 : length (payload x1) = 40%nat) by (apply Nat2Z.inj; rewrite (length_payload _ Hw1), E1; done).
  apply wp_bind. apply (wp_mono _ (λ _ t, ∃ y, t = st s ts (upd_skb a y k) w T S ∧ wf_rtskb y ∧ payload y = payload x1 ++ bytes ∧
    length (buf y) = length (buf x) ∧ y = x1 <| tail := tail y |> <| len := 40 + Z.of_nat (length bytes) |> <| buf := buf y |>)).
  - intros [] t (y & -> & Hwy & Hpy & Hly & Ey). apply wp_bind, st_kern, wp_upd_skb_upd, wp_ret.
    set (z := y <| rtdev := Some d |> <| priority := prio |>).
    assert (Ez : buf_start x + hh = data z) by (unfold z; rewrite Ey, E1; done).
    rewrite Ez. apply HQ. split_and!; [destruct Hwy; by split|done|exists (payload x1); by split|].
    unfold z. rewrite Ey, E1. done.
  - destruct bytes as [|b bs].
    + cbn [length Z.of_nat Z.eqb negb when]. apply wp_ret. exists x1. split_and!; [done|done|by rewrite app_nil_r|by rewrite E1|].
      rewrite E1. done.
    + set (n := Z.of_nat (length (b :: bs))) in *. destruct (Z.eqb_spec n 0) as [E0|_]; [by cbn in E0|]. cbn [negb when].
      apply wp_bind, st_kern, wp_upd_skb_load. destruct (put_write_payload x1 (b :: bs) Hw1) as (y & Hy & Hwy & Hpy).
      { unfold tailroom. rewrite E1. cbn -[length Z.of_nat]. fold n. lia. }
      fold n in Hy. unfold rtskb_put in *. cbn [snd] in Hy. apply wp_bind, st_kern, wp_upd_skb_store.
      apply wp_bind, wp_gets. apply wp_bind. eapply wp_deref; [unfold n; rewrite Nat2Z.id; exact Hload|].
      apply st_kern. eapply wp_skb_write; [apply upd_skb_lookup|exact Hy|]. fold (upd_skb a y (upd_skb a (x1 <| tail := tail x1 + n |> <| len := u32 (len x1 + n) |>) k)).
      rewrite upd_skb_twice. exists y. apply buf_write_frame in Hy as [Ey Ly].
      split_and!; [done|done|done| |].
      * rewrite Ly, E1. done.
      * rewrite Ey, E1. cbn -[n]. rewrite u32_id by (unfold is_u32; lia). done.
Qed.

(** *** The copy for retransmission *)

(** The retransmission queue, seen as the input queue of a socket. *)
Definition sendq T S : rtsocket := S <| incoming := retransmit_queue T |>.
(** The wheel as [rt_tcp_init] sets it up: 100 ms in slots of 2^23 ns. *)
Record tcp_wheel (w : wheel) : Prop := {
  tw_ok : wheel_ok w;
  tw_base : interval_base w = 23;
  tw_slots : slots w = u32 (Z.shiftr 100000000 23 + 1);
}.
Lemma tcp_wheel_step w w' : tcp_wheel w → wheel_ok w' → geometry w' = geometry w → tcp_wheel w'.
Proof. intros [_ E1 E2] Hok [E3 E4]%geometry_slots. by split; [|rewrite E4|rewrite E3]. Qed.
(** The retransmission timer of [ts] was started: it is in the slot that the pivot task
    reaches after the number of intervals in the timeout, which is five. *)
Definition retransmission_slots : Z := Z.shiftr rt_tcp_retransmission_timeout 23.
Definition armed (ts : nat) (w w' : wheel) : Prop :=
  tcp_wheel w' ∧ timerwheel_add_timer ts rt_tcp_retransmission_timeout w = Some (0, w') ∧
  (∀ t, t ≠ ts → timers w' !! t = timers w !! t) ∧
  ∃ tm l, timers w' !! ts = Some tm ∧ tslot tm = target w retransmission_slots ∧ ring w' !! Z.to_nat (tslot tm) = Some l ∧ ts ∈ l.
Lemma armed_run ts w tm (Q : Z → wheel → Prop) :
  tcp_wheel w → timers w !! ts = Some tm → (∀ w', armed ts w w' → Q 0 w') →
  wp (timerwheel_add_timer ts rt_tcp_retransmission_timeout) Q w.
Proof.
  intros Hw HT HQ. pose proof Hw as [Hok Eb Es].
  destruct (wp_elim _ _ _ (add_timer_run w ts tm rt_tcp_retransmission_timeout Hok HT)) as (ret & w' & E & Hw').
  cbn zeta in Hw'. rewrite Eb, Es in Hw'. change (s32 (Z.shiftr rt_tcp_retransmission_timeout 23)) with retransmission_slots in Hw'.
  change (_ <=? u32 retransmission_slots) with false in Hw'. destruct Hw' as (-> & Hok' & Eg & _ & Et & l & Hl & Hin).
  eapply wp_intro; [exact E|]. apply HQ. split; [by eapply tcp_wheel_step|]. split; [done|]. rewrite Et. split; [intros t Ht; by rewrite lookup_insert_ne|].
  eexists _, l. by rewrite lookup_insert_eq.
Qed.

Lemma lens_relinked W k k' : relinked W (skbs k) (skbs k') → lens k' = lens k.
Proof.
  intros HR. apply map_eq. intros a. unfold lens. rewrite !lookup_fmap. specialize (HR a).
  destruct (skbs k !! a), (skbs k' !! a); try done. destruct HR as [-> _]. done.
Qed.
(** One buffer changed, but not its size. *)
Lemma lens_touch k k' a x y :
  (∀ b, b ≠ a → skbs k' !! b = skbs k !! b) → skbs k !! a = Some x → skbs k' !! a = Some y → length (buf y) = length (buf x) →
  lens k' = lens k.
Proof.
  intros Hb Hx Hy E. apply map_eq. intros b. unfold lens. rewrite !lookup_fmap.
  destruct (decide (b = a)) as [->|Hne]; [rewrite Hx, Hy; cbn; by rewrite E|by rewrite Hb].
Qed.
Lemma relinked_kframe W q k C k' :
  pools_inv k' C → same_world k k' → only_queue q k k' → relinked W (skbs k) (skbs k') → kframe W [q] k C k' C.
Proof.
  intros Hinv Hw Ho HR. split; [done|done| | |by rewrite Hw|by eapply lens_relinked].
  - intros b Hb HW. split; [|done]. by eapply relinked_out.
  - intros q' _ Hq'. apply Ho. set_solver.
Qed.

(** The segment [c], the last of the queue, was copied. *)
Definition retransmits T (lr : list nat) (seq : Z) : tcp_socket :=
  match lr with [] => T <| nacked_first := u32 (seq + 1) |> | _ => T end.
Definition wheel_after ts (lr : list nat) w w' : Prop := match lr with [] => armed ts w w' | _ => w' = w end.

Lemma retransmit_send_run s ts k w T S C lr c xc t tm (Q : () → tstate → Prop) :
  pools_inv k C → inbox k C (sendq T S) lr → waiting k C (skb_pool S) c → c ∉ lr → skbs k !! c = Some xc → th xc = Some t →
  tcp_wheel w → timers w !! ts = Some tm →
  (∀ k' w', kframe (lr ++ [c]) [retransmit_queue T] k C k' C → inbox k' C (sendq T S) (lr ++ [c]) → wheel_after ts lr w w' →
     same_world k k' → relinked (lr ++ [c]) (skbs k) (skbs k') →
     Q () (st s ts k' w' (retransmits T lr (ntohl (th_seq t))) S)) →
  wp (rt_tcp_retransmit_send ts c) Q (st s ts k w T S).
Proof.
  intros Hinv Hib Hwc Hc Hxc Ht Hok HT HQ. unfold rt_tcp_retransmit_send. apply wp_bind, st_load.
  pose proof Hib as [_ _ (Qr & HQr & Hqr) _]. apply wp_bind, st_kern. unfold rtskb_queue_empty.
  apply wp_bind. eapply wp_queue_load; [exact HQr|]. apply wp_ret.
  assert (Henq : ∀ k2, k2 = k → wp (__rtskb_queue_tail (retransmit_queue T) c)
    (λ _ k', kframe (lr ++ [c]) [retransmit_queue T] k C k' C ∧ inbox k' C (sendq T S) (lr ++ [c]) ∧ same_world k k' ∧
       relinked (lr ++ [c]) (skbs k) (skbs k')) k2).
  { intros k2 ->. eapply wp_mono; [|by apply (inbox_enqueue_run k C (sendq T S) lr c)].
    intros [] k' (Hinv' & Hib' & Hw & Ho & HR). split_and!; try done. by eapply relinked_kframe. }
  destruct lr as [|b lr].
  - rewrite bool_decide_eq_true_2 by (by inversion Hqr). unfold skb_seq.
    apply wp_bind, wp_bind, st_kern. eapply wp_skb_load; [done|]. apply wp_bind. eapply wp_deref; [done|]. apply wp_ret.
    apply wp_bind, st_upd. apply wp_bind, st_kern. eapply wp_mono; [|by apply Henq].
    intros [] k' (Hf & Hib' & Hw & HR). apply wp_bind, st_wheel. eapply armed_run; [done|done|]. intros w' Ha.
    apply wp_ret. by apply HQ.
  - rewrite bool_decide_eq_false_2 by (destruct Hqr as [? _]; cbn in *; naive_solver).
    apply st_kern. eapply wp_mono; [|by apply Henq]. intros [] k' (Hf & Hib' & Hw & HR). by apply (HQ k' w).
Qed.

Lemma kframe_take k C q c l k' :
  C !! q = Some (c :: l) → pools_inv k' (<[q := l]> C) → (∀ b, b ≠ c → skbs k' !! b = skbs k !! b) → devs k' = devs k →
  only_queue q k k' → lens k' = lens k → kframe [] [] k C k' (<[q := l]> C).
Proof.
  intros Hq Hinv Hs Hd Ho Hlen. split; [done| | | |done|done].
  - intros q'. destruct (decide (q = q')) as [->|]; [rewrite lookup_insert_eq, Hq|by rewrite lookup_insert_ne].
    split; intros _; eauto.
  - intros b Hb _. assert (Hbl : b ∉ c :: l) by (by eapply Hb). split; [apply Hs; set_solver|].
    apply in_use_insert; [done|set_solver].
  - intros q' Hq' _. apply Ho. congruence.
Qed.
Lemma kframe_drop W Wq c k C k' C' : ¬ in_use C c → kframe (W ++ [c]) Wq k C k' C' → kframe W Wq k C k' C'.
Proof.
  intros Hc [? ? S1 ? ? ?]. split; try done. intros b Hb HW. apply S1; [done|]. intros [?|Hb']%elem_of_app; [done|].
  apply list_elem_of_singleton in Hb' as ->. done.
Qed.
Lemma pool_buffer k C q c l : pools_inv k C → C !! q = Some (c :: l) → is_Some (skbs k !! c).
Proof. intros Hinv Hq. destruct (pi_queue _ _ Hinv q _ Hq) as (Q & _ & [Hs _]). eapply lseg_lookup; [exact Hs|]. set_solver. Qed.
Lemma not_in_use C q c l : C !! q = Some (c :: l) → ¬ in_use C c.
Proof. intros Hq Hc. apply (Hc q _ Hq). set_solver. Qed.

Definition needs_copy T (flags n : Z) : bool :=
  negb (tcp_state T =? TCP_CLOSE) && (negb (Z.land flags (Z.lor TCP_FLAG_SYN TCP_FLAG_FIN) =? 0) || negb (n =? 0)).
(** Segment [y] of socket [ts] was copied to buffer [c]. *)
Definition copied s ts k w T S C lr y c l t : Prop :=
  ∃ k' w' xc, t = st s ts k' w' (retransmits T lr (sync_seq T)) S ∧
    kframe lr [retransmit_queue T] k C k' (<[skb_pool S := l]> C) ∧ inbox k' (<[skb_pool S := l]> C) (sendq T S) (lr ++ [c]) ∧
    wheel_after ts lr w w' ∧ skbs k' !! c = Some xc ∧ payload xc = payload y ∧ xmit_log k' = xmit_log k.

Lemma keep_copy_run s ts k w T S C l lr a y d flags n p c0 bytes tm :
  pools_inv k C → C !! skb_pool S = Some l → loose k C a y (skb_pool S) → mac_raw y = data y →
  0 ≤ end_ y - buf_start y ≤ SKB_DATA_ALIGN RTSKB_SIZE → SKB_DATA_ALIGN RTSKB_SIZE < 2 ^ 32 →
  (∀ b z, b ∈ l → skbs k !! b = Some z → length (buf z) = length (buf y)) →
  inbox k C (sendq T S) lr → rtdev y = Some d → is_Some (devs k !! d) →
  tcp_ranges T → payload y = p ++ tcp_header T flags c0 false ++ bytes → h_raw y = data y + Z.of_nat (length p) →
  tcp_wheel w → timers w !! ts = Some tm →
  wp (keep_copy ts a flags n)
     (λ r t, if needs_copy T flags n then
               match l with
               | [] => r = false ∧ t = st s ts k w T S
               | c :: l => r = true ∧ copied s ts k w T S C lr y c l t
               end
             else r = true ∧ t = st s ts k w T S) (st s ts k w T S).
Proof.
  intros Hinv Hl Hlo Hm He1 He2 Hlens Hib Hd HD Hr Hp Hh Hok HT. unfold keep_copy.
  apply wp_bind, st_load. apply wp_bind, st_sload. fold (needs_copy T flags n).
  destruct (needs_copy T flags n); [|by apply wp_ret].
  pose proof Hlo as [Hy Hwf _ _ _ Hu _]. apply wp_bind, st_kern.
  eapply wp_mono; [|eapply (rtskb_clone_run k C (skb_pool S) l a y)]; try done.
  2: { rewrite Hm. split; [apply Hwf|done]. }
  cbn beta. intros r k1 Hcl. destruct l as [|c l].
  { destruct Hcl as [-> ->]. by apply wp_ret. }
  destruct Hcl as (-> & Hs1 & Hca & (Hw1 & Ho1 & Hinv1 & Hu1) & xc & Hxc & Hwc & Hcl & Hnc & Hce & Hpc & Hcap & Hlx).
  set (C1 := <[skb_pool S := l]> C) in *.
  assert (Hdv : devs k1 = devs k) by (by rewrite Hw1).
  destruct (pool_buffer k C (skb_pool S) c l Hinv Hl) as [zc Hzc].
  assert (F1 : kframe [] [] k C k1 C1).
  { eapply kframe_take; try done. eapply lens_touch; [exact Hs1|exact Hzc|exact Hxc|]. rewrite Hlx. symmetry.
    apply (Hlens c); [set_solver|done]. }
  assert (Hcl0 : c ∉ lr).
  { intros Hin. destruct (ib_waiting _ _ _ _ Hib c Hin) as (? & ? & Hlc & _). by eapply not_in_use; [|apply Hlc]. }
  assert (Hib1 : inbox k1 C1 (sendq T S) lr) by (eapply kframe_inbox; [exact F1|done|set_solver|set_solver]).
  destruct Hcl as (Ep & El & Ed & Et & Ee & Em & En & Eh & _ & _ & Er & _).
  assert (Hwt : waiting k1 C1 (skb_pool S) c).
  { exists xc, d. split_and!; [|by rewrite Er|by rewrite Hdv]. split; try done. unfold C1. rewrite lookup_insert_eq. eauto. }
  assert (Hth : th xc = Some (mk_th (ts_sport T) (ts_dport T) (ntohl (sync_seq T)) (ntohl (sync_ack_seq T)) 5
    (ntohs (u16 flags) mod 256) (ntohs (sync_window T)))).
  { apply (th_header xc T flags c0 false p bytes); [done|done|by rewrite Ep|lia]. }
  apply wp_bind. eapply (retransmit_send_run s ts k1 w T S C1 lr c xc); [done..|].
  cbn [th_seq]. rewrite ntohl_involutive by apply Hr. intros k2 w2 F2 Hib2 Hwh Hw2 HR2. apply wp_ret. split; [done|].
  specialize (HR2 c) as Hc2. rewrite Hxc in Hc2. destruct (skbs k2 !! c) as [xc2|] eqn:Hxc2; [|done].
  exists k2, w2, xc2. split_and!; try done.
  - eapply (kframe_drop lr _ c); [by eapply not_in_use|]. eapply kframe_trans; [|exact F2].
    eapply kframe_mono; [| |exact F1]; set_solver.
  - destruct Hc2 as [-> _]. exact Ep.
  - rewrite Hw2, Hw1. done.
Qed.

Lemma free_kframe k C a x q l (Q : () → kstate → Prop) :
  pools_inv k C → loose k C a x q → C !! q = Some l →
  (∀ k', kframe [a] [] k C k' (<[q := l ++ [a]]> C) → same_world k k' → Q () k') → wp (kfree_rtskb (Some a)) Q k.
Proof.
  intros Hinv Hlo Hl HQ. destruct (loose_chain _ _ _ _ _ Hlo) as [Hc Hrel].
  eapply wp_mono; [|apply wp_keeps; [apply _|by eapply kfree_rtskb_run]]. cbn beta.
  intros [] k' [(Hinv' & _ & Hw & Ho & Hf) HL%shape_lens]. apply HQ; [|done]. split; [done| | | |by rewrite Hw|done].
  - intros q'. destruct (decide (q = q')) as [->|]; [rewrite lookup_insert_eq, Hl|by rewrite lookup_insert_ne].
    split; intros _; eauto.
  - intros b Hb HW. assert (Hbl : b ∉ l ++ [a]) by (apply not_elem_of_app; split; [by eapply Hb|done]).
    split; [by apply Hf|by apply in_use_insert].
  - intros q' Hq' _. apply Ho. congruence.
Qed.

Definition is_ctl (flags : Z) : bool := negb (Z.land flags (Z.lor TCP_FLAG_FIN TCP_FLAG_SYN) =? 0).
Definition advance T (flags n : Z) : tcp_socket :=
  T <| sync_seq := u32 (sync_seq T + (if is_ctl flags then 1 else 0) + n) |>
    <| sync_dst_window := u16 (sync_dst_window T - n) |>.
Lemma locked_same T : socket_lock T = false → T <| socket_lock := true |> <| socket_lock := false |> = T.
Proof. destruct T. cbn. by intros ->. Qed.
Lemma locked_advance T lr flags n q : socket_lock T = false →
  (advance (retransmits (T <| socket_lock := true |>) lr q) flags n) <| socket_lock := false |> = advance (retransmits T lr q) flags n.
Proof. destruct T, lr; cbn; by intros ->. Qed.
Lemma kframe_log W Wq k C k' C' log : kframe W Wq k C k' C' → kframe W Wq k C (k' <| xmit_log := log |>) C'.
Proof. intros [Hi ? ? ? ? ?]. split; try done. destruct Hi. by split. Qed.
Lemma inbox_log k C S l log : inbox k C S l → inbox (k <| xmit_log := log |>) C S l.
Proof. intros Hib. eapply inbox_frame; [exact Hib|done|apply Hib|apply Hib|done|done]. Qed.
End copy.

(** ** Headers *)

Section send.
Context `{Config}.
Context (csum_partial : list Z → Z → Z) (csum_tcpudp_magic : Z → Z → Z → Z → Z → Z) (ip_fast_csum : list Z → Z).
Context (hard_header : nat → option (nat → Z → list Z → list Z → Z → M kstate Z)).
Context (get_mtu : nat → Z → M kstate Z) (drv_xmit : nat → nat → M kstate Z).
(** The link header of device [d] for destination [dst]. *)
Context (link : nat → list Z → list Z).
Implicit Types (k : kstate) (x y : rtskb) (s : tstate) (T : tcp_socket) (S : rtsocket) (C : gmap nat (list nat)).

Lemma splice_app_r (a b bytes : list Z) o : splice (length a + o) bytes (a ++ b) = a ++ splice o bytes b.
Proof.
  unfold splice. rewrite take_app_add, <-Nat.add_assoc, drop_app_add, <-app_assoc. done.
Qed.
Lemma length_tcp_header T flags c ka : length (tcp_header T flags c ka) = 20%nat.
Proof. unfold tcp_header. cbv zeta. rewrite !length_app, !length_wr32. done. Qed.
Lemma tcp_header_check T flags c c' ka : splice 16 (wr16 c') (tcp_header T flags c ka) = tcp_header T flags c' ka.
Proof.
  set (p := wr16 (ts_sport T) ++ wr16 (ts_dport T) ++ wr32 (if ka then u32 (ntohl (sync_seq T) - 1) else ntohl (sync_seq T)) ++
    wr32 (ntohl (sync_ack_seq T)) ++ [80] ++ drop 1 (wr16 (u16 flags)) ++ wr16 (ntohs (sync_window T))).
  assert (E : ∀ c, tcp_header T flags c ka = p ++ wr16 c ++ [0; 0]) by (intros; unfold p; by rewrite <-!app_assoc).
  assert (Hp : length p = 16%nat) by (unfold p; rewrite !length_app, !length_wr32; done).
  rewrite !E, <-Hp. by apply splice_mid.
Qed.

(** The checksum of a segment with data [bytes], and its header with it. *)
Definition tcp_sum T flags ka (bytes : list Z) : Z :=
  let w := csum_partial (tcp_header T flags 0 ka) 0 in
  let w := match bytes with [] => w | _ => csum_partial bytes w end in
  tcp_v4_check csum_tcpudp_magic (20 + Z.of_nat (length bytes)) (ts_saddr T) (ts_daddr T) w.
Definition tcp_segment T flags ka (bytes : list Z) : list Z :=
  tcp_header T flags (tcp_sum T flags ka bytes) ka ++ bytes.

Lemma build_header_run s ts k w T S a x flags ka p bytes (Q : () → tstate → Prop) :
  wf_rtskb x → h_raw x = data x + 20 → length p = 40%nat → payload x = p ++ bytes →
  (∀ y, same_frame x y → wf_rtskb y → payload y = take 20 p ++ tcp_segment T flags ka bytes → Q () (st s ts (upd_skb a y k) w T S)) →
  wp (rt_tcp_build_header csum_partial csum_tcpudp_magic ts a flags ka) Q (st s ts (upd_skb a x k) w T S).
Proof.
  intros Hwf Hh Hp Hpx HQ. pose proof (length_payload _ Hwf) as Hl. rewrite Hpx, length_app, Hp in Hl.
  pose proof (wf_size _ Hwf) as Hsz. pose proof Hwf as [_ Hd0 Hl0 Ht0 He0].
  unfold rt_tcp_build_header. apply wp_bind, st_load. apply wp_bind, st_kern, wp_upd_skb_load.
  apply wp_bind, st_kern. eapply (wp_write_payload a x 20); [done|rewrite length_tcp_header; lia|lia|].
  intros x1 F1 Hw1 Hp1. pose proof F1 as [E1 L1]. assert (Hm1 : data x1 = data x ∧ len x1 = len x) by (by rewrite E1).
  destruct Hm1 as [Hd1 Hl1].
  assert (Hp1' : payload x1 = take 20 p ++ tcp_header T flags 0 ka ++ bytes).
  { rewrite Hp1, Hpx, <-(take_drop 20 p) at 1. rewrite <-app_assoc.
    assert (H20 : length (take 20 p) = 20%nat) by (rewrite length_take; lia). rewrite <-H20 at 1.
    rewrite app_assoc, <-app_assoc. apply splice_mid. rewrite length_drop, length_tcp_header. lia. }
  apply wp_bind, st_kern. eapply (wp_read_payload a x1 20); [apply upd_skb_lookup|done|done|unfold TCPHDR_LEN; lia|lia|].
  assert (H20 : length (take 20 p) = 20%nat) by (rewrite length_take; lia).
  rewrite Hp1', drop_app_length' by done. change (Z.to_nat TCPHDR_LEN) with 20%nat.
  rewrite take_app_length' by (by rewrite length_tcp_header).
  replace (len x - TCPHDR_LEN - IPHDR_LEN) with (Z.of_nat (length bytes)) by (unfold TCPHDR_LEN, IPHDR_LEN; lia).
  rewrite u32_id by (unfold is_u32; lia).
  apply wp_bind. apply (wp_mono _ (λ v t, v = match bytes with [] => csum_partial (tcp_header T flags 0 ka) 0
    | _ => csum_partial bytes (csum_partial (tcp_header T flags 0 ka) 0) end ∧ t = st s ts (upd_skb a x1 k) w T S)).
  2: { destruct bytes as [|b bs]; [by apply wp_ret|]. destruct (Z.eqb_spec (Z.of_nat (length (b :: bs))) 0) as [E0|_]; [by cbn in E0|]. cbn [negb].
    apply wp_bind, st_kern. eapply (wp_read_payload a x1 40); [apply upd_skb_lookup|done|lia|lia|unfold TCPHDR_LEN, IPHDR_LEN; lia|].
    apply wp_ret. split; [|done]. rewrite Hp1', app_assoc, drop_app_length' by (rewrite length_app, length_tcp_header; lia).
    by rewrite Nat2Z.id, firstn_all. }
  intros v t [-> ->].
  apply st_kern. eapply (wp_write_payload a x1 36); [done|cbn; lia|lia|]. intros y F2 Hwy Hpy.
  apply HQ; [by eapply same_frame_trans|done|]. rewrite Hpy, Hp1'. unfold tcp_segment, tcp_sum.
  replace (len x - IPHDR_LEN) with (20 + Z.of_nat (length bytes)) by (unfold IPHDR_LEN; lia). set (c := tcp_v4_check _ _ _ _ _).
  change 36%nat with (20 + 16)%nat. rewrite <-H20 at 1. rewrite splice_app_r. f_equal.
  rewrite splice_app_l by (rewrite length_tcp_header; cbn; lia). by rewrite tcp_header_check.
Qed.

(** Buffer [y] is [x] with the bytes [lh] in front. *)
Definition put_front (lh : list Z) x y : Prop :=
  wf_rtskb y ∧ mac_raw y = data y ∧ length (buf y) = length (buf x) ∧ payload y = lh ++ payload x ∧
  y = x <| mac_raw := mac_raw y |> <| data := data x - Z.of_nat (length lh) |> <| len := len x + Z.of_nat (length lh) |>
        <| buf := buf y |>.

(** What TCP relies on: the device puts its link header in front, its driver takes every
    packet, its MTU is that of the device, and a buffer has room for a packet. *)
Record linkdev (d : nat) (D : rtnet_device) : Prop := {
  ld_hook : ∃ f, hard_header d = Some f ∧ ∀ k a x dst D', skbs k !! a = Some x → devs k !! d = Some D' →
    D' = D <| refcount := refcount D' |> → wf_rtskb x → hard_header_len D ≤ headroom x → (addr_len D ≤ length dst)%nat →
    wp (f a ETH_P_IP dst (dev_addr D) (len x))
       (λ r k', r = hard_header_len D ∧ ∃ y, k' = upd_skb a y k ∧ put_front (link d dst) x y) k;
  ld_drv : start_xmit D ≠ XMIT_NULL ∧ ∀ k a, is_Some (skbs k !! a) → drv_xmit a d k = Some (0, k);
  ld_mtu : ∀ prio k D', devs k !! d = Some D' → get_mtu d prio k = Some (mtu D', k);
  ld_size : 0 ≤ mtu D ∧ 0 ≤ hh_len D ∧ mtu D + hh_len D + 15 ≤ SKB_DATA_ALIGN RTSKB_SIZE < 2 ^ 32;
}.
Lemma linkdev_ref d D n : linkdev d D → linkdev d (D <| refcount := n |>).
Proof.
  intros [(f & Hf & Hh) Hd Hm Hs]. split; [|done|done|done]. exists f. split; [done|].
  intros k a x dst D' Hx HD' E. apply (Hh k a x dst D'); [done|done|]. rewrite E. done.
Qed.

(** The frame of a segment: link, IP and TCP headers and data. *)
Definition tcp_frame T S (rt : dest_route) d D flags ka (bytes : list Z) : list Z :=
  link d (dest_addr rt) ++ full_header ip_fast_csum S rt D (40 + Z.of_nat (length bytes)) 0 IP_DF ++ tcp_segment T flags ka bytes.

Lemma build_frame_run s ts k w T S d D rt a x ipp seg (Q : Z → tstate → Prop) :
  dest_rtdev rt = Some d → devs k !! d = Some D → linkdev d D → (addr_len D ≤ length (dest_addr rt))%nat →
  wf_rtskb x → hard_header_len D ≤ headroom x → length ipp = 20%nat → payload x = ipp ++ seg → len x < 2 ^ 16 →
  (∀ y z, same_frame (x <| nh_raw := data x |>) z → put_front (link d (dest_addr rt)) z y →
     payload z = full_header ip_fast_csum S rt D (len x) 0 IP_DF ++ seg → Q 0 (st s ts (upd_skb a y k) w T S)) →
  wp (rt_ip_build_frame ip_fast_csum hard_header a ts rt (data x)) Q (st s ts (upd_skb a x k) w T S).
Proof.
  intros Hrt HD [(f & Hf & Hhook) _ _ _] Hal Hwf Hhr Hip Hpx Hl16 HQ.
  pose proof (length_payload _ Hwf) as Hl. rewrite Hpx, length_app, Hip in Hl.
  unfold rt_ip_build_frame. apply wp_bind. eapply wp_deref; [done|]. rewrite Hf.
  apply wp_bind, st_kern, wp_upd_skb_upd. set (x1 := x <| nh_raw := data x |>).
  assert (Hw1 : wf_rtskb x1) by (destruct Hwf; by split).
  apply wp_bind, st_sload. apply wp_bind, st_kern. eapply wp_dev_load; [exact HD|]. apply wp_bind, st_kern, wp_upd_skb_load.
  change (len x1) with (len x). unfold u16. rewrite Z.mod_small by lia. fold (header_of S rt D (len x) 0 IP_DF 0).
  apply wp_bind, st_kern. eapply (wp_write_payload a x1 0); [done|rewrite length_header; change (len x1) with (len x); lia|cbn; lia|].
  intros x2 F2 Hw2 Hp2. pose proof F2 as [E2 L2]. assert (Hm2 : data x2 = data x ∧ len x2 = len x) by (by rewrite E2).
  destruct Hm2 as [Hd2 Hl2].
  assert (Hp2' : payload x2 = header_of S rt D (len x) 0 IP_DF 0 ++ seg).
  { rewrite Hp2. change (payload x1) with (payload x). rewrite Hpx.
    apply (splice_mid [] ipp (header_of S rt D (len x) 0 IP_DF 0) seg). by rewrite length_header. }
  apply wp_bind, st_kern. eapply (wp_read_payload a x2 0); [apply upd_skb_lookup|done|done|unfold IPHDR_LEN; lia|lia|].
  rewrite drop_0, Hp2'. change (Z.to_nat IPHDR_LEN) with 20%nat. rewrite take_app_length' by (by rewrite length_header).
  apply wp_bind, st_kern. eapply (wp_write_payload a x2 10); [done|cbn; lia|lia|]. intros x3 F3 Hw3 Hp3.
  pose proof (same_frame_trans _ _ _ F2 F3) as F13. pose proof F13 as [E3 L3].
  assert (Hp3' : payload x3 = full_header ip_fast_csum S rt D (len x) 0 IP_DF ++ seg).
  { rewrite Hp3, Hp2', splice_app_l by (rewrite length_header; cbn; lia). by rewrite header_check. }
  apply wp_bind, st_kern. eapply wp_reference; [exact HD|]. apply wp_bind, st_kern.
  assert (Hl3 : len x = len x3) by (by rewrite E3). rewrite Hl3.
  eapply wp_mono; [|eapply (Hhook _ a x3 (dest_addr rt) (D <| refcount := refcount D + 1 |>))].
  - intros r k' (-> & y & -> & Hy). apply wp_bind, st_kern. unfold rtdev_dereference.
    eapply wp_dev_upd; [cbn; apply lookup_insert_eq|]. apply wp_ret. rewrite Z.eqb_refl. cbn [negb].
    match goal with |- Q 0 (st s ts ?k' w T S) => replace k' with (upd_skb a y k) end; [by apply (HQ y x3)|].
    unfold ref_taken, upd_skb, upd. cbn. rewrite !insert_insert_eq. rewrite (insert_id (devs k)); [done|].
    rewrite HD. f_equal. destruct D. unfold upd. cbn. f_equal. lia.
  - cbn. apply lookup_insert_eq.
  - cbn. apply lookup_insert_eq.
  - done.
  - done.
  - unfold headroom in *. rewrite E3. exact Hhr.
  - done.
Qed.

(** ** The whole segment *)

(** What a socket sends with: its pool with the free buffers [l] of size [N], and the
    segments [lr] that wait for an acknowledgement. *)
Record sender s ts T S C (l lr : list nat) (N : Z) : Prop := {
  sd_sock : tsock s ts T S;
  sd_lock : socket_lock T = false;
  sd_range : tcp_ranges T;
  sd_inv : pools_inv (tkern s) C;
  sd_pool : C !! skb_pool S = Some l;
  sd_bufs : ∀ b z, b ∈ l → skbs (tkern s) !! b = Some z → Z.of_nat (length (buf z)) = N;
  sd_queue : inbox (tkern s) C (sendq T S) lr;
  sd_wheel : tcp_wheel (twheel s);
  sd_timer : is_Some (timers (twheel s) !! ts);
}.
(** The way out for a segment with [n] bytes of data. *)
Record egress s (rt : dest_route) d D (N n : Z) : Prop := {
  eg_dev : dest_rtdev rt = Some d;
  eg_some : devs (tkern s) !! d = Some D;
  eg_link : linkdev d D;
  eg_addr : (addr_len D ≤ length (dest_addr rt))%nat;
  eg_mtu : n ≤ mtu D;
  eg_room : hh_len D + 40 + n ≤ N < 2 ^ 32;
  eg_len : 40 + n < 2 ^ 16;
}.

(** The frame went to the driver in buffer [a]; [l] is what is left of the pool. *)
Definition gone s ts T S C a l d (frame : list Z) n s' : Prop :=
  ∃ k', s' = st s ts k' (twheel s) T S ∧ kframe [] [] (tkern s) C k' (<[skb_pool S := l]> C) ∧
    xmit_log k' = xmit_log (tkern s) ++ [(d, a, frame)] ∧ in_use (<[skb_pool S := l]> C) a ∧ 0 ≤ n.
(** The same with a copy in buffer [c]. *)
Definition gone_kept s ts T T' S C lr a c l d (frame : list Z) s' : Prop :=
  ∃ k' w' xc, s' = st s ts k' w' T' S ∧ kframe lr [retransmit_queue T] (tkern s) C k' (<[skb_pool S := l]> C) ∧
    inbox k' (<[skb_pool S := l]> C) (sendq T S) (lr ++ [c]) ∧ wheel_after ts lr (twheel s) w' ∧
    skbs k' !! c = Some xc ∧ payload xc = frame ∧ xmit_log k' = xmit_log (tkern s) ++ [(d, a, frame)].
Definition segment_done s ts T S C (l lr : list nat) d flags n (frame : list Z) ret s' : Prop :=
  match l with
  | [] => ret = - ENOBUFS ∧ s' = s
  | a :: l =>
      if needs_copy T flags n then
        match l with
        | [] => ret = - ENOMEM ∧ ∃ k', s' = st s ts k' (twheel s) T S ∧ kframe [] [] (tkern s) C k' C ∧
                  xmit_log k' = xmit_log (tkern s)
        | c :: l => ret = n ∧ gone_kept s ts T (advance (retransmits T lr (sync_seq T)) flags n) S C lr a c l d frame s'
        end
      else ret = n ∧ gone s ts (advance T flags n) S C a l d frame n s'
  end.

(** The end of [rt_tcp_segment], with the lock held. *)
Lemma segment_end_run s ts k w T S d D a y flags n :
  skbs k !! a = Some y → rtdev y = Some d → devs k !! d = Some D → linkdev d D →
  wp (when (is_ctl flags) (ts_upd ts (λ T, T <| sync_seq := u32 (sync_seq T + 1) |>));;
      ts_upd ts (λ T, T <| sync_seq := u32 (sync_seq T + n) |> <| sync_dst_window := u16 (sync_dst_window T - n) |>);;
      lock_put ts;;
      in_tkern (rtdev_xmit drv_xmit (Some a));;
      mret n)
     (λ ret t, ret = n ∧ t = st s ts (k <| xmit_log := xmit_log k ++ [(d, a, payload y)] |>) w
                               ((advance T flags n) <| socket_lock := false |>) S) (st s ts k w T S).
Proof.
  intros Hy Hd HD Hld. apply wp_bind.
  apply (wp_mono _ (λ _ t, t = st s ts k w (T <| sync_seq := if is_ctl flags then u32 (sync_seq T + 1) else sync_seq T |>) S)).
  2: { destruct (is_ctl flags); cbn [when]; [by apply st_upd|apply wp_ret]. by destruct T. }
  intros [] t ->. apply wp_bind, st_upd. apply wp_bind, st_unlock. apply wp_bind, st_kern.
  eapply wp_mono; [|eapply (xmit_run drv_xmit d D k a y); [apply Hld|done..]]. intros r k' [-> ->]. apply wp_ret. split; [done|].
  f_equal. unfold advance. destruct T, (is_ctl flags); unfold upd; cbn; f_equal; unfold u32.
  - by rewrite Zplus_mod_idemp_l.
  - f_equal. lia.
Qed.

(** The buffer of a segment, ready to be sent. *)
Record ready s S C l a d (frame : list Z) k y : Prop := {
  rd_frame : kframe [] [] (tkern s) C k (<[skb_pool S := l]> C);
  rd_loose : loose k (<[skb_pool S := l]> C) a y (skb_pool S);
  rd_rtdev : rtdev y = Some d;
  rd_payload : payload y = frame;
  rd_log : xmit_log k = xmit_log (tkern s);
  rd_others : ∀ b, b ≠ a → skbs k !! b = skbs (tkern s) !! b;
  rd_copy : mac_raw y = data y ∧ 0 ≤ end_ y - buf_start y ≤ SKB_DATA_ALIGN RTSKB_SIZE;
}.

Lemma segment_build_run s ts T S C a l lr N d D rt flags ptr bytes (K : nat → Z → M tstate Z) (Q : Z → tstate → Prop) :
  sender s ts T S C (a :: l) lr N → egress s rt d D N (Z.of_nat (length bytes)) →
  load_bytes ptr (length bytes) (tmem s) = Some bytes →
  let frame := tcp_frame T S rt d D flags false bytes in
  let pre := link d (dest_addr rt) ++ full_header ip_fast_csum S rt D (40 + Z.of_nat (length bytes)) 0 IP_DF in
  (∀ k y, ready s S C l a d frame k y → Z.of_nat (length (buf y)) = N → h_raw y = data y + Z.of_nat (length pre) →
     wp (K a 0) Q (st s ts k (twheel s) (T <| socket_lock := true |>) S)) →
  wp (r ← in_tkern (alloc_rtskb (u32 (mtu D + hh_len D + 15)) (skb_pool S));
      match r with
      | None => mret (- ENOBUFS)
      | Some skb =>
          iph ← put_segment d skb (hh_len D) (so_priority S) (Z.of_nat (length bytes)) ptr;
          lock_get ts;;
          rt_tcp_build_header csum_partial csum_tcpudp_magic ts skb flags false;;
          ret ← rt_ip_build_frame ip_fast_csum hard_header skb ts rt iph;
          K skb ret
      end) Q (st s ts (tkern s) (twheel s) T S).
Proof.
  intros [Hsk Hlk Hr Hinv Hl Hbufs Hib Hwh Htm] [Hrd HD Hld Hal Hn Hroom Hlen] Hload frame pre HQ.
  pose proof Hld as [_ _ _ (Hm0 & Hh0 & Hsz)]. rewrite u32_id by (unfold is_u32; lia).
  apply wp_bind, st_kern. eapply wp_mono; [|eapply wp_both; [eapply alloc_rtskb_run|eapply wp_both;
    [eapply alloc_rtskb_only|eapply alloc_rtskb_unshared]]; [done|done|lia|done|done|lia|done|done|lia]].
  cbn beta iota. intros r k1 [(-> & Hw1 & Hinv1 & Hu1 & _ & Hs1 & x0 & x & Hx0 & Hx & Hfr) [Ho1 Hcap]].
  destruct Hfr as (Eb & Ebs & Hnx & Hce & Hpl & Ed & Et & Ee & Elen & Epk & Exm).
  assert (HN : Z.of_nat (length (buf x)) = N) by (rewrite Eb; eapply Hbufs; [|exact Hx0]; set_solver).
  apply wp_bind. eapply put_segment_run; try done; [lia|].
  intros y (Hwy & Hly & (p & Hp & Hpy) & Ey). apply wp_bind, st_lock; [done|].
  apply wp_bind. eapply (build_header_run _ _ _ _ _ _ a y flags false p bytes); [done|rewrite Ey; cbn; lia|done|done|].
  intros y2 [E2 L2] Hw2 Hp2.
  assert (Hdv1 : devs k1 !! d = Some D) by (by rewrite Hw1).
  assert (Hm2 : data y2 = data y ∧ len y2 = 40 + Z.of_nat (length bytes) ∧ headroom y2 = hh_len D).
  { unfold headroom. rewrite E2, Ey. cbn. split_and!; lia. }
  destruct Hm2 as (Hd2 & Hl2 & Hh2). rewrite <-Hd2.
  assert (H20 : length (take 20 p) = 20%nat) by (rewrite length_take; lia).
  apply wp_bind. eapply (build_frame_run s ts k1 _ _ S d D rt a y2 (take 20 p)); try done.
  { rewrite Hh2. apply hh_len_ge. }
  { rewrite Hl2. lia. }
  intros y3 z [Ez Lz] (Hw3 & Hm3 & L3 & Hp3 & E3) Hpz.
  assert (Hall : y3 = x <| data := data y3 |> <| tail := tail y3 |> <| len := len y3 |> <| nh_raw := nh_raw y3 |> <| h_raw := h_raw y3 |>
    <| rtdev := Some d |> <| priority := so_priority S |> <| mac_raw := mac_raw y3 |> <| buf := buf y3 |>).
  { rewrite E3, Ez, E2, Ey. done. }
  apply (HQ _ y3).
  - split.
    + eapply kframe_take; [done| | | | |].
      * eapply pools_inv_touch; [exact Hinv1|exact Hu1|..]; cbn; [|eauto]. intros b Hb. by apply lookup_insert_ne.
      * intros b Hb. cbn. rewrite lookup_insert_ne by done. by apply Hs1.
      * cbn. by rewrite Hw1.
      * exact Ho1.
      * eapply (lens_touch _ _ a x0 y3); [|done|apply upd_skb_lookup|].
        -- intros b Hb. cbn. rewrite lookup_insert_ne by done. by apply Hs1.
        -- rewrite L3, Lz. cbn. by rewrite L2, Hly, Eb.
    + split; [apply upd_skb_lookup|done|by rewrite Hall|by rewrite Hall|rewrite lookup_insert_eq; eauto|done|].
      rewrite Hall. cbn. by apply (Hcap a x).
    + by rewrite Hall.
    + rewrite Hp3, Hpz, Hl2. done.
    + cbn. by rewrite Hw1.
    + intros b Hb. cbn. rewrite lookup_insert_ne by done. by apply Hs1.
    + split; [done|]. rewrite Hall. cbn. rewrite Ee. lia.
  - rewrite L3, Lz. cbn. rewrite L2, Hly. done.
  - unfold pre. rewrite length_app. unfold full_header. rewrite length_header. rewrite E3, Ez. cbn. rewrite E2. cbn. rewrite Ey. cbn. lia.
Qed.

Lemma segment_run s ts T S C l lr N d D rt flags ptr bytes :
  sender s ts T S C l lr N → egress s rt d D N (Z.of_nat (length bytes)) →
  load_bytes ptr (length bytes) (tmem s) = Some bytes →
  wp (rt_tcp_segment csum_partial csum_tcpudp_magic ip_fast_csum hard_header get_mtu drv_xmit rt ts flags
        (Z.of_nat (length bytes)) ptr false)
     (segment_done s ts T S C l lr d flags (Z.of_nat (length bytes)) (tcp_frame T S rt d D flags false bytes)) s.
Proof.
  intros Hs He Hload. pose proof Hs as [Hsk Hlk Hr Hinv Hl Hbufs Hib Hwh [tm Htm]]. pose proof He as [Hrd HD Hld Hal Hn Hroom Hlen].
  apply (wp_st _ _ _ _ _ _ Hsk). unfold rt_tcp_segment. apply wp_bind. eapply wp_deref; [done|].
  apply wp_bind, st_kern. eapply wp_dev_load; [exact HD|]. apply wp_bind, st_sload. cbv zeta.
  apply wp_bind, st_kern. eapply wp_intro; [by apply Hld|]. replace (mtu D <? Z.of_nat (length bytes)) with false by lia.
  destruct l as [|a l].
  { apply wp_bind, st_kern. pose proof Hld as [_ _ _ (Hm0 & Hh0 & Hsz)]. rewrite u32_id by (unfold is_u32; lia).
    eapply wp_mono; [|eapply alloc_rtskb_run; [done|done|lia]]. cbn beta iota. intros r k' [-> ->]. apply wp_ret.
    split; [done|]. by apply st_id. }
  eapply (segment_build_run s ts T S C a l lr N d D rt flags ptr bytes); [done..|].
  intros k y [F1 Hlo Hrdev Hpay Hlog Hoth [Hmac Hend]] HyN Hh. cbn [Z.eqb negb]. set (C1 := <[skb_pool S := l]> C) in *.
  set (T1 := T <| socket_lock := true |>). apply wp_bind.
  assert (Hib1 : inbox k C1 (sendq T1 S) lr) by (eapply kframe_inbox; [exact F1|exact Hib|set_solver|set_solver]).
  assert (Ha : a ∉ lr).
  { intros Hin. destruct (ib_waiting _ _ _ _ Hib a Hin) as (? & ? & Hlc & _). by eapply not_in_use; [|apply Hlc]. }
  assert (Hdk : devs k !! d = Some D) by (by rewrite (kf_devs _ _ _ _ _ _ F1)).
  eapply wp_mono; [|eapply (keep_copy_run s ts k (twheel s) T1 S C1 l lr a y d flags (Z.of_nat (length bytes))); try done].
  all: try (by eauto).
  - change (needs_copy T1 flags (Z.of_nat (length bytes))) with (needs_copy T flags (Z.of_nat (length bytes))).
    intros ok t Hok. unfold segment_done. destruct (needs_copy T flags _) eqn:En; [destruct l as [|c l]|].
    + destruct Hok as [-> ->]. cbn [negb]. apply wp_bind, st_unlock. apply wp_bind, st_kern.
      eapply free_kframe; [apply F1|done|apply lookup_insert_eq|]. intros k' F2 Hw2. apply wp_ret. split; [done|].
      exists k'. unfold T1. rewrite locked_same by done. split; [done|]. split; [|by rewrite Hw2].
      assert (EC : <[skb_pool S := [] ++ [a]]> C1 = C) by (unfold C1; rewrite insert_insert_eq; by apply insert_id).
      rewrite EC in F2. eapply (kframe_drop [] _ a); [by eapply not_in_use|]. eapply kframe_trans; [|exact F2].
      eapply kframe_mono; [| |exact F1]; set_solver.
    + destruct Hok as (-> & k2 & w2 & xc & -> & F2 & Hib2 & Hwa & Hxc & Hpc & Hl2). cbn [negb].
      assert (Ha2 : skbs k2 !! a = Some y).
      { destruct (kf_skbs _ _ _ _ _ _ F2 a) as [E _]; [apply Hlo|done|]. rewrite E. apply Hlo. }
      eapply wp_mono; [|eapply (segment_end_run s ts k2 w2 _ S d D a y); [done|done|by rewrite (kf_devs _ _ _ _ _ _ F2)|done]].
      intros ret t [-> ->]. split; [done|].
      assert (EC : <[skb_pool S := l]> C1 = <[skb_pool S := l]> C) by (unfold C1; by rewrite insert_insert_eq).
      rewrite EC in F2, Hib2. exists (k2 <| xmit_log := xmit_log k2 ++ [(d, a, payload y)] |>), w2, xc.
      split; [by rewrite <-(locked_advance T) by done|]. split_and!; try done.
      * apply kframe_log. eapply kframe_trans; [|exact F2]. eapply kframe_mono; [| |exact F1]; set_solver.
      * by apply inbox_log.
      * by rewrite Hpc.
      * cbn. by rewrite Hl2, Hlog, Hpay.
    + destruct Hok as [-> ->]. cbn [negb].
      eapply wp_mono; [|eapply (segment_end_run s ts k _ _ S d D a y); [apply Hlo|done|done|done]].
      intros ret t [-> ->]. split; [done|]. exists (k <| xmit_log := xmit_log k ++ [(d, a, payload y)] |>).
      pose proof (locked_advance T [1%nat] flags (Z.of_nat (length bytes)) 0 Hlk) as Eadv. cbn [retransmits] in Eadv.
      split; [by rewrite <-Eadv|]. split_and!; [by apply kframe_log|cbn; by rewrite Hlog, Hpay|apply Hlo|lia].
  - apply F1.
  - apply lookup_insert_eq.
  - apply Hld.
  - intros b z Hb Hz. apply Nat2Z.inj. rewrite HyN. apply (Hbufs b); [set_solver|]. rewrite <-Hoth; [done|].
    intros ->. apply (lo_use _ _ _ _ _ Hlo (skb_pool S) l); [apply lookup_insert_eq|done].
  - by destruct Hr.
  - rewrite Hpay. unfold tcp_frame, tcp_segment. rewrite app_assoc. reflexivity.
Qed.

(** C4: rt_tcp_segment sends a segment with the given flags and data to the peer: the frame
    that goes to the driver is the link header, an IP header with the DF bit and the
    checksum, a TCP header with ports, sequence number, acknowledgement, flags and window
    of the socket and the checksum over the segment, and the data; a segment that takes a
    sequence number (data, SYN or FIN, unless the socket is closed) is also put, byte by
    byte the same, at the end of the retransmission queue; if it is the first there, the
    timer is started and is in the slot that is served five intervals later; then the
    sequence number advances by the data (and one for SYN or FIN).  Without a free buffer
    the result is -ENOBUFS, without one for the copy -ENOMEM; nothing is sent and nothing
    changes.  All other buffers, queues and sockets are as before and the lock is free.
    The data is not longer than the MTU of the device and fits the buffers with the
    headers, and the driver takes every packet. *)
Theorem rt_tcp_segment_correct s ts T S C l lr N d D rt flags ptr bytes :
  sender s ts T S C l lr N → egress s rt d D N (Z.of_nat (length bytes)) →
  load_bytes ptr (length bytes) (tmem s) = Some bytes →
  wp (rt_tcp_segment csum_partial csum_tcpudp_magic ip_fast_csum hard_header get_mtu drv_xmit rt ts flags
        (Z.of_nat (length bytes)) ptr false)
     (segment_done s ts T S C l lr d flags (Z.of_nat (length bytes)) (tcp_frame T S rt d D flags false bytes)) s.
Proof. apply segment_run. Qed.
End send.
