(* ===== verification/TcpOut.v ===== *)
(** * TCP: segments without data on their way out

    [rt_tcp_send] finds the way to the peer: the route of the socket, or during the setup
    of a connection that of the routing table. *)
From S2P Require Import Prelude State RtskbQueue Rtskb RtskbData Rtdev Eth Iovec StackMgr Route RouteHost RouteOps IpFragment.
From S2P Require Import Socket IpOutput IpInput Arp Udp UdpOps Icmp Packet PacketOps PacketSend Timerwheel Tcp TcpSend.

Section out.
Context `{Config}.
Context (csum_partial : list Z → Z → Z) (csum_tcpudp_magic : Z → Z → Z → Z → Z → Z) (ip_fast_csum : list Z → Z).
Context (hard_header : nat → option (nat → Z → list Z → list Z → Z → M kstate Z)).
Context (get_mtu : nat → Z → M kstate Z) (drv_xmit : nat → nat → M kstate Z) (link : nat → list Z → list Z).
Implicit Types (k : kstate) (x y : rtskb) (s : tstate) (T : tcp_socket) (S : rtsocket) (C : gmap nat (list nat)).
Local Notation linkdev := (linkdev hard_header get_mtu drv_xmit link).
Local Notation rt_tcp_send := (rt_tcp_send csum_partial csum_tcpudp_magic ip_fast_csum hard_header get_mtu drv_xmit).
Local Notation tcp_frame := (tcp_frame csum_partial csum_tcpudp_magic ip_fast_csum link).

Definition rview s : rstate := (troute s) <| kern := tkern s |>.
(** The network a host is on: the routing table stands for [Tm], every device can send,
    and the buffers of [N] bytes have room for a segment without data. *)
Record network s (B : list (list nat)) (F : list nat) (Tm : route_map) (N : Z) : Prop := {
  nw_conf : CONFIG_RTNET_RTIPV4_NETROUTING = false;
  nw_host : host_state (rview s) B F Tm;
  nw_dev : ∀ d D, devs (tkern s) !! d = Some D → linkdev d D ∧ hh_len D + 40 ≤ N;
  nw_size : N < 2 ^ 32;
  nw_mac : ∀ key d mac D, Tm !! key = Some (d, mac) → devs (tkern s) !! d = Some D → length mac = addr_len D;
}.
(** A socket that can send: the route it may have is one of a device. *)
Record outlet s ts T S C (l lr : list nat) B F Tm (N : Z) : Prop := {
  ol_sender : sender s ts T S C l lr N;
  ol_net : network s B F Tm N;
  ol_daddr : is_u32 (ts_daddr T);
  ol_route : ∀ d, dest_rtdev (ts_rt T) = Some d →
    ∃ D, devs (tkern s) !! d = Some D ∧ (addr_len D ≤ length (dest_addr (ts_rt T)))%nat;
}.
(** The way to the peer, and that there is none. *)
Definition way s (Tm : route_map) T (rt : dest_route) d D : Prop :=
  devs (tkern s) !! d = Some D ∧ dest_rtdev rt = Some d ∧
  (rt = ts_rt T ∨ dest_rtdev (ts_rt T) = None ∧ route_for (rview s) Tm (ts_daddr T) (ts_saddr T) (ts_daddr T) d rt).
Definition no_way (Tm : route_map) T : Prop :=
  dest_rtdev (ts_rt T) = None ∧ ∀ key, key_matches (ts_daddr T) (saddr_lip (ts_saddr T)) key → Tm !! key = None.

Lemma kframe_unref W Wq k C ds k' C' :
  kframe W Wq (k <| devs := ds |>) C k' C' → kframe W Wq k C (k' <| devs := devs k |>) C'.
Proof. intros [Hi ? ? ? ? ?]. split; try done. destruct Hi. by split. Qed.

(** The reference taken for the time of sending changes nothing. *)
Lemma segment_done_unref s ts T S C l lr d flags frame ret s' o O :
  let s1 := st s ts (ref_taken (tkern s) o O) (twheel s) T S in
  tsock s ts T S → devs (tkern s) !! o = Some O →
  segment_done s1 ts T S C l lr d flags 0 frame ret s' →
  wp (in_tkern (rtdev_dereference o);; mret ret)
     (λ r s'', r = ret ∧ segment_done s ts T S C l lr d flags 0 frame ret s'') s'.
Proof.
  intros s1 Hsk HO Hdone.
  assert (Hrun : ∀ k' w' T' (Q : tstate → Prop), devs k' = devs (ref_taken (tkern s) o O) →
    Q (st s ts (k' <| devs := devs (tkern s) |>) w' T' S) →
    wp (in_tkern (rtdev_dereference o);; mret ret) (λ r s'', r = ret ∧ Q s'') (st s1 ts k' w' T' S)).
  { intros k' w' T' Q Hd HQ. unfold s1. rewrite st_st. apply wp_bind, st_kern. unfold rtdev_dereference.
    eapply wp_dev_upd; [rewrite Hd; apply lookup_insert_eq|]. apply wp_ret. split; [done|].
    match goal with |- Q (st s ts ?k2 w' T' S) => replace k2 with (k' <| devs := devs (tkern s) |>) end; [done|].
    rewrite Hd. unfold upd. cbn. f_equal. rewrite insert_insert_eq. symmetry. apply insert_id. rewrite HO. f_equal.
    destruct O. unfold upd. cbn. f_equal. lia. }
  revert Hdone. unfold segment_done. destruct l as [|a l]; [|destruct (needs_copy T flags 0); [destruct l as [|c l]|]].
  - intros [-> ->]. rewrite <-(st_id s1 ts T S) by apply st_tsock.
    apply (Hrun _ _ _ (λ s'', _)); [done|]. split; [done|]. etransitivity; [|by apply (st_id s ts T S)].
    f_equal. unfold ref_taken, upd. cbn. by destruct (tkern s).
  - intros (-> & k' & -> & Hf & Hl). apply (Hrun _ _ _ (λ s'', _)); [apply Hf|]. split; [done|].
    eexists. split; [done|]. split; [|done]. exact (kframe_unref _ _ _ _ _ _ _ Hf).
  - intros (-> & k' & w' & xc & -> & Hf & Hib & Hwh & Hxc & Hp & Hl). apply (Hrun _ _ _ (λ s'', _)); [apply Hf|]. split; [done|].
    eexists _, w', xc. split; [done|]. split; [exact (kframe_unref _ _ _ _ _ _ _ Hf)|]. split_and!; try done.
    apply inbox_devs; [done|]. rewrite (kf_devs _ _ _ _ _ _ Hf). cbn. intros d' Hd'.
    destruct (decide (o = d')) as [->|]; [rewrite HO; eauto|by rewrite lookup_insert_ne in Hd'].
  - intros (-> & k' & -> & Hf & Hl & Hu & Hn). apply (Hrun _ _ _ (λ s'', _)); [apply Hf|]. split; [done|].
    eexists. split; [done|]. split; [exact (kframe_unref _ _ _ _ _ _ _ Hf)|done].
Qed.

Lemma way_egress s ts T S C l lr B F Tm N rt d D :
  outlet s ts T S C l lr B F Tm N → way s Tm T rt d D → egress hard_header get_mtu drv_xmit link s rt d D N 0.
Proof.
  intros [_ [_ _ Hdev HN Hmac] _ Hrt] (HD & Hd & Hway). destruct (Hdev d D HD) as [Hld Hroom].
  pose proof (ld_size _ _ _ _ _ _ Hld) as (? & ? & ?). split; try done; [|split; lia].
  destruct Hway as [->|(_ & _ & _ & key & D' & mac & _ & HT & HD' & _ & Hm)].
  - destruct (Hrt d Hd) as (D' & HD' & Hal). by simplify_eq.
  - cbn in HD'. rewrite HD in HD'. injection HD' as <-. pose proof (Hmac _ _ _ _ HT HD) as Hl. rewrite <-Hm, length_take in Hl. lia.
Qed.
Lemma sender_ref s ts T S C l lr N o O :
  sender s ts T S C l lr N → devs (tkern s) !! o = Some O → sender (st s ts (ref_taken (tkern s) o O) (twheel s) T S) ts T S C l lr N.
Proof.
  intros [Hsk Hlk Hr Hinv Hl Hb Hib Hw Ht] HO. split; try done; [apply st_tsock|destruct Hinv; by split|].
  apply inbox_devs; [done|]. intros. by apply insert_some.
Qed.

Lemma send_run s ts T S C l lr B F Tm N flags :
  outlet s ts T S C l lr B F Tm N →
  wp (rt_tcp_send ts flags)
     (λ ret s', (no_way Tm T ∧ ret = - EHOSTUNREACH ∧ s' = s) ∨
        ∃ rt d D, way s Tm T rt d D ∧ segment_done s ts T S C l lr d flags 0 (tcp_frame T S rt d D flags false []) ret s') s.
Proof.
  intros Hol. pose proof Hol as [Hs [Hconf Hhost Hdev HN Hmac] Hda Hrt]. pose proof Hs as [Hsk _ _ _ _ _ _ _ _].
  unfold Tcp.rt_tcp_send. apply wp_bind. apply (wp_st _ _ _ _ _ _ Hsk), st_load. destruct (dest_rtdev (ts_rt T)) as [d|] eqn:Ed.
  - destruct (Hrt d eq_refl) as (D & HD & _). rewrite st_id by done.
    assert (Hway : way s Tm T (ts_rt T) d D) by (split_and!; auto).
    eapply wp_mono; [|eapply (segment_run csum_partial csum_tcpudp_magic ip_fast_csum hard_header get_mtu drv_xmit link
      s ts T S C l lr N d D (ts_rt T) flags 0 []); [done|by eapply way_egress|done]].
    intros ret s' Hdone. right. exists (ts_rt T), d, D. by split.
  - destruct (route_output_run (rview s) B F Tm (ts_daddr T) (ts_saddr T) Hconf Hhost Hda) as (ret & dst & r' & Er & _ & Hcase).
    apply wp_bind. unfold in_troute. apply wp_zoom. eapply wp_intro; [exact Er|].
    destruct Hcase as [(-> & rt & d & D & -> & Hrf & HD & ->)|(-> & -> & -> & Hno)].
    + cbn [fst snd Z.eqb]. apply wp_bind. eapply wp_deref; [done|].
      set (s1 := st s ts (ref_taken (tkern s) d D) (twheel s) T S).
      match goal with |- wp _ _ ?t => replace t with s1 by (unfold s1, st, rview, upd; cbn; by destruct s as [[] []]) end.
      pose proof Hrf as (_ & Hd & _). cbn in HD.
      assert (Hway : way s Tm T rt d D) by (split_and!; [done|done|by right]).
      pose proof (way_egress _ _ _ _ _ _ _ _ _ _ _ _ _ _ Hol Hway) as [_ _ Hld Hal Hm Hro Hle].
      apply wp_bind. eapply wp_mono; [|eapply (segment_run csum_partial csum_tcpudp_magic ip_fast_csum hard_header get_mtu drv_xmit link
        s1 ts T S C l lr N d (D <| refcount := refcount D + 1 |>) rt flags 0 []); [by apply sender_ref| |done]].
      * intros ret s' Hdone. apply wp_bind. eapply wp_deref; [done|].
        eapply wp_mono; [|by eapply (segment_done_unref s ts T S C l lr d flags _ ret s' d D)].
        intros r s'' [-> Hd2]. right. exists rt, d, D. by split.
      * split; try done; [apply lookup_insert_eq|by apply linkdev_ref].
    + cbn. apply wp_ret. left. split_and!; [by split|done|].
      etransitivity; [|by apply (st_id s ts T S)]. unfold st, rview, upd. cbn. by destruct s as [[] []].
Qed.
End out.
