(* ===== verification/TcpConn.v ===== *)
(** * TCP: the invariant of a connection, and what keeps it

    The resources of a socket ([conn]) are kept by sending, by an acknowledgement, and by
    the changes of state. *)
From S2P Require Import Prelude State RtskbQueue Rtskb RtskbData Rtdev Eth Iovec StackMgr Route RouteHost RouteOps IpFragment.
From S2P Require Import Socket IpOutput IpInput Arp Udp UdpOps Icmp Packet PacketOps PacketSend Timerwheel Tcp TcpSend TcpOut.

Section conn.
Context `{Config}.
Context (hard_header : nat → option (nat → Z → list Z → list Z → Z → M kstate Z)).
Context (get_mtu : nat → Z → M kstate Z) (drv_xmit : nat → nat → M kstate Z) (link : nat → list Z → list Z).
Implicit Types (k : kstate) (x y : rtskb) (s : tstate) (T : tcp_socket) (S : rtsocket) (C : gmap nat (list nat)).
Local Notation linkdev := (linkdev hard_header get_mtu drv_xmit link).
Local Notation outlet := (outlet hard_header get_mtu drv_xmit link).
Local Notation network := (network hard_header get_mtu drv_xmit link).

(** ** The timers *)

Definition wheel_step (w w' : wheel) : Prop := tcp_wheel w' ∧ ∀ t, is_Some (timers w !! t) → is_Some (timers w' !! t).
Lemma wheel_step_refl w : tcp_wheel w → wheel_step w w.
Proof. by split. Qed.
Lemma wheel_step_trans w1 w2 w3 : wheel_step w1 w2 → wheel_step w2 w3 → wheel_step w1 w3.
Proof. intros [_ H1] [H2 H3]. split; auto. Qed.
Lemma armed_step ts w w' : armed ts w w' → wheel_step w w'.
Proof.
  intros (Hw & _ & Ho & T & l & HT & _). split; [done|]. intros t Ht. destruct (decide (t = ts)) as [->|]; [eauto|by rewrite Ho].
Qed.

(** ** The socket *)

(** The socket [ts] with the free buffers [l], the segments [lr] that are not
    acknowledged and the segments [li] that are not read; all buffers have [N] bytes. *)
Record conn s ts T S C (l lr li : list nat) B F Tm (N : Z) : Prop := {
  cn_out : outlet s ts T S C l lr B F Tm N;
  cn_in : inbox (tkern s) C S li;
  cn_disj : ∀ a, a ∈ li → a ∉ lr;
  cn_queues : incoming S ≠ retransmit_queue T;
  cn_size : ∀ b n, b ∈ lr ++ li → lens (tkern s) !! b = Some n → Z.of_nat n = N;
  cn_ka : ka_enabled T = false;
}.

(** Changes of the socket that concern the connection only. *)
Record same_box T S T' S' : Prop := {
  sb_queue : retransmit_queue T' = retransmit_queue T;
  sb_rt : ts_rt T' = ts_rt T;
  sb_ka : ka_enabled T' = ka_enabled T;
  sb_pool : skb_pool S' = skb_pool S;
  sb_in : incoming S' = incoming S;
}.
(** The socket may be used by the next operation. *)
Record usable T : Prop := { us_lock : socket_lock T = false; us_range : tcp_ranges T; us_daddr : is_u32 (ts_daddr T) }.

Lemma inbox_same k C S S' l : skb_pool S' = skb_pool S → incoming S' = incoming S → inbox k C S l → inbox k C S' l.
Proof. intros E1 E2 [? ? ? ?]. split; by rewrite ?E1, ?E2. Qed.
Lemma lens_some k b z : skbs k !! b = Some z → lens k !! b = Some (length (buf z)).
Proof. intros Hz. unfold lens. by rewrite lookup_fmap, Hz. Qed.
Lemma lens_inv k b n : lens k !! b = Some n → ∃ z, skbs k !! b = Some z ∧ n = length (buf z).
Proof. unfold lens. rewrite lookup_fmap. destruct (skbs k !! b) as [z|]; [|done]. intros [= <-]. eauto. Qed.

Lemma network_kframe s ts W Wq C k' C' w' T' S' B F Tm N :
  network s B F Tm N → kframe W Wq (tkern s) C k' C' → network (st s ts k' w' T' S') B F Tm N.
Proof.
  intros [Hcf Hh Hdev HN Hmac] Hf. assert (Edev : devs k' = devs (tkern s)) by apply Hf.
  split; try done; change (tkern (st s ts k' w' T' S')) with k'.
  - by apply (host_state_devs (rview s)).
  - by rewrite Edev.
  - by rewrite Edev.
Qed.

(** A step after which the socket has the buffers [l'], [lr'] and [li']. *)
Lemma conn_gen s ts T S C l lr li B F Tm N W Wq k' w' T' S' C' l' lr' li' :
  conn s ts T S C l lr li B F Tm N →
  kframe W Wq (tkern s) C k' C' → same_box T S T' S' → usable T' →
  C' !! skb_pool S = Some l' → inbox k' C' (sendq T S) lr' → inbox k' C' S li' → (∀ a, a ∈ li' → a ∉ lr') →
  (∀ b, b ∈ l' ++ lr' ++ li' → b ∈ l ++ lr ++ li ∨ lens (tkern s) !! b = Some (Z.to_nat N) ∧ 0 ≤ N) →
  wheel_step (twheel s) w' →
  conn (st s ts k' w' T' S') ts T' S' C' l' lr' li' B F Tm N.
Proof.
  intros [[[Hsk Hlk Hr Hinv Hl Hb Hib Hw Ht] Hnet Hda Hrt] Hin Hdis Hq Hsz Hka] Hf [E1 E2 E3 E4 E5] [U1 U2 U3]
    Hl' Hib' Hin' Hdis' Hsub [Hw' Ht'].
  assert (Edev : devs k' = devs (tkern s)) by apply Hf.
  assert (HNl : ∀ b n, b ∈ l' ++ lr' ++ li' → lens k' !! b = Some n → Z.of_nat n = N).
  { intros b n [Hbl|[Hbl ?]]%Hsub; rewrite (kf_lens _ _ _ _ _ _ Hf); intros Hn; [|rewrite Hbl in Hn; injection Hn as <-; lia].
    apply elem_of_app in Hbl as [Hbl|?]; [|by eapply Hsz]. apply lens_inv in Hn as (z & Hz & ->). by eapply Hb. }
  split.
  - split.
    + split; try done; [apply st_tsock|apply Hf|by rewrite E4| |by eapply inbox_same; [| |exact Hib']|by apply Ht'].
      intros b z Hbl Hz. apply (HNl b); [|by apply lens_some]. set_solver.
    + by eapply network_kframe.
    + done.
    + change (tkern (st s ts k' w' T' S')) with k'. by rewrite Edev, E2.
  - by eapply inbox_same; [| |exact Hin'].
  - done.
  - by rewrite E5, E1.
  - intros b n Hbr. apply HNl. set_solver.
  - by rewrite E3.
Qed.
(** A step that touches the queue of [ts] for retransmission and its pool. *)
Lemma conn_step s ts T S C l lr li B F Tm N k' w' T' S' C' l' lr' :
  conn s ts T S C l lr li B F Tm N →
  kframe lr [retransmit_queue T] (tkern s) C k' C' → same_box T S T' S' → usable T' →
  C' !! skb_pool S = Some l' → inbox k' C' (sendq T S) lr' → (∀ a, a ∈ l' ++ lr' → a ∈ l ++ lr) →
  (∀ a, a ∈ li → a ∉ lr') →
  wheel_step (twheel s) w' →
  conn (st s ts k' w' T' S') ts T' S' C' l' lr' li B F Tm N.
Proof.
  intros Hc Hf Hsb Hu Hl' Hib' Hsub Hdis' Hw'. pose proof Hc as [_ Hin Hdis Hq _ _].
  eapply conn_gen; try done.
  - eapply kframe_inbox; [exact Hf|exact Hin|set_solver|done].
  - intros b Hb. specialize (Hsub b). set_solver.
Qed.

(** The common case: the buffers and queues are as before. *)
Lemma conn_upd s ts T S C l lr li B F Tm N T' S' :
  conn s ts T S C l lr li B F Tm N → same_box T S T' S' → usable T' →
  conn (st s ts (tkern s) (twheel s) T' S') ts T' S' C l lr li B F Tm N.
Proof.
  intros Hc Hb Hu. pose proof Hc as [[[Hsk Hlk Hr Hinv Hl Hbu Hib Hw Ht] _ _ _] _ Hdis _ Hsz _].
  eapply (conn_step s ts T S C l lr li B F Tm N (tkern s) (twheel s) T' S' C l lr); try done; by apply kframe_refl.
Qed.
End conn.
