(* ===== verification/TcpRcv.v ===== *)
(** * TCP: the world a segment is received in

    Two sockets are involved: the one the segment is for, and the static one that answers
    segments nobody wants.  Every step of the reception keeps their resources. *)
From S2P Require Import Prelude State RtskbQueue Rtskb RtskbData Rtdev Eth Iovec StackMgr Route RouteHost RouteOps IpFragment.
From S2P Require Import Socket IpOutput IpInput Arp Udp UdpOps Icmp Packet PacketOps PacketSend Timerwheel Tcp TcpSend TcpOut TcpConn.

Section world.
Context `{Config}.
Context (hard_header : nat → option (nat → Z → list Z → list Z → Z → M kstate Z)).
Context (get_mtu : nat → Z → M kstate Z) (drv_xmit : nat → nat → M kstate Z) (link : nat → list Z → list Z).
Implicit Types (k : kstate) (s : tstate) (T R : tcp_socket) (S : rtsocket) (C : gmap nat (list nat)).
Local Notation outlet := (outlet hard_header get_mtu drv_xmit link).
Local Notation conn := (conn hard_header get_mtu drv_xmit link).

(** The routing table and the size of the buffers; the static socket [rst] with its common
    part [SR]; the received segment [x] in buffer [a]. *)
Context (B : list (list nat)) (F : list nat) (Tm : route_map) (N : Z) (rst : nat) (SR : rtsocket) (a : nat) (x : rtskb).

(** The received segment belongs to the socket and is not queued. *)
Record packet k C S (lr li : list nat) : Prop := {
  pk_loose : loose k C a x (skb_pool S);
  pk_dev : ∃ d, rtdev x = Some d ∧ is_Some (devs k !! d);
  pk_size : Z.of_nat (length (buf x)) = N;
  pk_new : a ∉ lr ∧ a ∉ li;
}.
Record world (held : bool) s ts T S C (l lr li : list nat) R (lR : list nat) : Prop := {
  wo_conn : conn s ts T S C l lr li B F Tm N;
  wo_rst : outlet s rst R SR C lR [] B F Tm N;
  wo_ne : rst ≠ ts;
  wo_pool : skb_pool SR ≠ skb_pool S;
  wo_queue : retransmit_queue R ≠ retransmit_queue T ∧ retransmit_queue R ≠ incoming S;
  wo_pkt : held = true → packet (tkern s) C S lr li;
}.

Lemma world_tsock h s ts T S C l lr li R lR : world h s ts T S C l lr li R lR → tsock s ts T S.
Proof. intros [[[[Hsk _ _ _ _ _ _ _ _] _ _ _] _ _ _ _ _] _ _ _ _ _]. exact Hsk. Qed.
Lemma world_usable h s ts T S C l lr li R lR : world h s ts T S C l lr li R lR → usable T.
Proof. intros [[[[_ Hl Hr _ _ _ _ _ _] _ Hd _] _ _ _ _ _] _ _ _ _ _]. by split. Qed.

Lemma outlet_other s ts R C lR W Wq k' C' w' T' S' :
  outlet s rst R SR C lR [] B F Tm N → rst ≠ ts → kframe W Wq (tkern s) C k' C' → retransmit_queue R ∉ Wq →
  C' !! skb_pool SR = Some lR → wheel_step (twheel s) w' →
  outlet (st s ts k' w' T' S') rst R SR C' lR [] B F Tm N.
Proof.
  intros [[[HT HS] Hlk Hr Hinv Hl Hb Hib Hw Ht] Hnet Hda Hrt] Hne Hf HW Hl' [Hw' Ht'].
  assert (Edev : devs k' = devs (tkern s)) by apply Hf. split.
  - split; try done.
    + split; cbn; by rewrite lookup_insert_ne.
    + apply Hf.
    + intros b z Hbl Hz. apply lens_some in Hz. cbn in Hz. rewrite (kf_lens _ _ _ _ _ _ Hf) in Hz.
      apply lens_inv in Hz as (z0 & Hz & ->). by eapply Hb.
    + eapply kframe_inbox; [exact Hf|exact Hib|done|set_solver].
    + by apply Ht'.
  - by eapply network_kframe.
  - done.
  - change (tkern (st s ts k' w' T' S')) with k'. by rewrite Edev.
Qed.

Lemma world_step h s ts T S C l lr li R lR k' w' T' S' C' l' lr' :
  world h s ts T S C l lr li R lR →
  kframe lr [retransmit_queue T] (tkern s) C k' C' → same_box T S T' S' → usable T' →
  C' !! skb_pool S = Some l' → C' !! skb_pool SR = Some lR → inbox k' C' (sendq T S) lr' →
  (∀ b, b ∈ l' ++ lr' → b ∈ l ++ lr) → wheel_step (twheel s) w' →
  world h (st s ts k' w' T' S') ts T' S' C' l' lr' li R lR.
Proof.
  intros [Hc Ho Hne Hp [Hq1 Hq2] Hpk] Hf Hsb Hu Hl' HlR Hib Hsub Hw.
  pose proof Hsb as [E1 E2 E3 E4 E5]. pose proof Hc as [[[_ _ _ _ Hl _ _ _ _] _ _ _] Hin Hdis _ _ _].
  assert (Hnew : ∀ b, in_use C b → b ∉ lr → b ∉ lr').
  { intros b Hb Hbr Hbr'. assert (Hbl : b ∈ l ++ lr) by (apply Hsub; set_solver).
    apply elem_of_app in Hbl as [Hbl|?]; [by eapply Hb|done]. }
  split.
  - eapply conn_step; try done. intros b Hb. destruct (ib_waiting _ _ _ _ Hin b Hb) as (? & ? & Hlo & _).
    apply Hnew; [apply Hlo|by apply Hdis].
  - eapply outlet_other; try done. set_solver.
  - done.
  - by rewrite E4.
  - by rewrite E1, E5.
  - intros Hh. destruct (Hpk Hh) as [Hlo [d [Hd HD]] Hsz [Hn1 Hn2]]. split.
    + rewrite E4. by eapply kframe_loose.
    + exists d. cbn. by rewrite (kf_devs _ _ _ _ _ _ Hf).
    + done.
    + split; [|done]. apply Hnew; [apply Hlo|done].
Qed.
(** The common case: the buffers and queues are as before. *)
Lemma world_upd h s ts T S C l lr li R lR T' S' :
  world h s ts T S C l lr li R lR → same_box T S T' S' → usable T' →
  world h (st s ts (tkern s) (twheel s) T' S') ts T' S' C l lr li R lR.
Proof.
  intros Hw Hb Hu. pose proof Hw as [[[[Hsk Hlk Hr Hinv Hl Hbu Hib Hwh Ht] _ _ _] _ Hdis _ Hsz _] [[_ _ _ _ HlR _ _ _ _] _ _ _] _ _ _ _].
  eapply world_step; try done; by apply kframe_refl.
Qed.

(** ** The static socket *)

(** A step of the static socket. *)
Lemma conn_other s ts T S C l lr li k' C' w' R' :
  conn s ts T S C l lr li B F Tm N → rst ≠ ts → kframe [] [] (tkern s) C k' C' → C' !! skb_pool S = Some l →
  wheel_step (twheel s) w' →
  conn (st s rst k' w' R' SR) ts T S C' l lr li B F Tm N.
Proof.
  intros [[[[HT HS] Hlk Hr Hinv Hl Hb Hib Hw Ht] Hnet Hda Hrt] Hin Hdis Hq Hsz Hka] Hne Hf Hl' [Hw' Ht'].
  assert (Edev : devs k' = devs (tkern s)) by apply Hf.
  split; try done; [split|..]; try done; change (tkern (st s rst k' w' R' SR)) with k'.
  - split; try done.
    + split; cbn; by rewrite lookup_insert_ne.
    + apply Hf.
    + intros b z Hbl Hz. apply lens_some in Hz. cbn in Hz. rewrite (kf_lens _ _ _ _ _ _ Hf) in Hz.
      apply lens_inv in Hz as (z0 & Hz & ->). by eapply Hb.
    + eapply kframe_inbox; [exact Hf|exact Hib|set_solver|set_solver].
    + by apply Ht'.
  - by eapply network_kframe.
  - by rewrite Edev.
  - eapply kframe_inbox; [exact Hf|exact Hin|set_solver|set_solver].
  - by rewrite (kf_lens _ _ _ _ _ _ Hf).
Qed.
Lemma world_reset_step h s ts T S C l lr li R lR k' C' R' lR' :
  world h s ts T S C l lr li R lR → kframe [] [] (tkern s) C k' C' → C' !! skb_pool S = Some l → C' !! skb_pool SR = Some lR' →
  (∀ b, b ∈ lR' → b ∈ lR) → retransmit_queue R' = retransmit_queue R → usable R' →
  (∀ d, dest_rtdev (ts_rt R') = Some d → ∃ D, devs (tkern s) !! d = Some D ∧ (addr_len D ≤ length (dest_addr (ts_rt R')))%nat) →
  world h (st s rst k' (twheel s) R' SR) ts T S C' l lr li R' lR'.
Proof.
  intros [Hc Ho Hne Hp Hq Hpk] Hf Hl' HlR' Hsub Eq [U1 U2 U3] Hrt.
  pose proof Ho as [[Hsk Hlk Hr Hinv Hl Hb Hib Hw Ht] Hnet Hda _].
  assert (Edev : devs k' = devs (tkern s)) by apply Hf.
  split; [by eapply conn_other; try done; apply wheel_step_refl| |done|done|by rewrite Eq|].
  - split; try done; [split; try done|..].
    + apply st_tsock.
    + apply Hf.
    + intros b z Hbl Hz. apply lens_some in Hz. cbn in Hz. rewrite (kf_lens _ _ _ _ _ _ Hf) in Hz.
      apply lens_inv in Hz as (z0 & Hz & ->). by eapply Hb; [apply Hsub|].
    + eapply inbox_same; [| |eapply kframe_inbox; [exact Hf|exact Hib|set_solver|set_solver]]; done.
    + by eapply network_kframe.
    + change (tkern (st s rst k' (twheel s) R' SR)) with k'. by rewrite Edev.
  - intros Hh. destruct (Hpk Hh) as [Hlo [d [Hd HD]] Hsz Hn]. split; [eapply (kframe_loose [] [] (tkern s) C); [done|done|set_solver]| |done|done].
    exists d. cbn. by rewrite Edev.
Qed.

(** ** The end of a segment *)

(** The segment goes back to the pool of the socket. *)
Lemma free_world s ts T S C l lr li R lR (Q : () → tstate → Prop) :
  world true s ts T S C l lr li R lR →
  (∀ k', world false (st s ts k' (twheel s) T S) ts T S (<[skb_pool S := l ++ [a]]> C) (l ++ [a]) lr li R lR →
     xmit_log k' = xmit_log (tkern s) ∧ (∀ b, b ∈ li → skbs k' !! b = skbs (tkern s) !! b) → Q () (st s ts k' (twheel s) T S)) →
  wp (in_tkern (kfree_rtskb (Some a))) Q s.
Proof.
  intros Hwo HQ. pose proof (world_tsock _ _ _ _ _ _ _ _ _ _ _ Hwo) as Hsk. pose proof (world_usable _ _ _ _ _ _ _ _ _ _ _ Hwo) as Hu.
  pose proof Hwo as [Hc Ho Hne Hp [Hq1 Hq2] Hpk]. destruct (Hpk eq_refl) as [Hlo _ Hsz [Hn1 Hn2]].
  pose proof Hc as [[[_ _ _ Hinv Hl _ Hib Hwh _] _ _ _] Hin Hdis _ _ _]. pose proof Ho as [[_ _ _ _ HlR _ _ _ _] _ _ _].
  apply (wp_st _ _ _ _ _ _ Hsk), st_kern. eapply free_kframe; [done|exact Hlo|exact Hl|]. intros k' Hf Hw. apply HQ.
  2: { split; [by rewrite Hw|]. intros b Hb. destruct (ib_waiting _ _ _ _ Hin b Hb) as (? & ? & Hlb & _).
    apply (kf_skbs _ _ _ _ _ _ Hf); [apply Hlb|set_solver]. }
  assert (HlR' : <[skb_pool S := l ++ [a]]> C !! skb_pool SR = Some lR) by (by rewrite lookup_insert_ne by congruence).
  split; [|eapply outlet_other; try done; set_solver|done..].
  eapply conn_gen; try done.
  - apply lookup_insert_eq.
  - eapply kframe_inbox; [exact Hf|exact Hib|set_solver|set_solver].
  - eapply kframe_inbox; [exact Hf|exact Hin|set_solver|set_solver].
  - intros b. rewrite !elem_of_app, list_elem_of_singleton. intros [[?| ->]|[?|?]]; [tauto| |tauto..]. right.
    rewrite (lens_some _ _ _ (lo_skb _ _ _ _ _ Hlo)), <-Hsz. split; [f_equal; lia|lia].
Qed.

(** The segment is queued for the application. *)
Lemma enqueue_world s ts T S C l lr li R lR (Q : () → tstate → Prop) :
  world true s ts T S C l lr li R lR →
  (∀ k', world false (st s ts k' (twheel s) T S) ts T S C l lr (li ++ [a]) R lR →
     xmit_log k' = xmit_log (tkern s) → relinked (li ++ [a]) (skbs (tkern s)) (skbs k') → Q () (st s ts k' (twheel s) T S)) →
  wp (in_tkern (rtskb_queue_tail (incoming S) a)) Q s.
Proof.
  intros Hwo HQ. pose proof (world_tsock _ _ _ _ _ _ _ _ _ _ _ Hwo) as Hsk. pose proof (world_usable _ _ _ _ _ _ _ _ _ _ _ Hwo) as Hu.
  pose proof Hwo as [Hc Ho Hne Hp [Hq1 Hq2] Hpk]. destruct (Hpk eq_refl) as [Hlo (d & Hd & HD) Hsz [Hn1 Hn2]].
  pose proof Hc as [[[_ _ _ Hinv Hl _ Hib Hwh _] _ _ _] Hin Hdis Hqs _ _]. pose proof Ho as [[_ _ _ _ HlR _ _ _ _] _ _ _].
  apply (wp_st _ _ _ _ _ _ Hsk), st_kern. eapply wp_mono; [|eapply inbox_enqueue_run; try done; by exists x, d].
  intros [] k' (Hinv' & Hin' & Hw & Ho' & HR). apply HQ; [|by rewrite Hw|done].
  assert (Hf : kframe (li ++ [a]) [incoming S] (tkern s) C k' C) by (by eapply relinked_kframe).
  split; [|eapply outlet_other; try done; set_solver|done..].
  eapply conn_gen; try done.
  - eapply kframe_inbox; [exact Hf|exact Hib|set_solver|]. intros b Hb. specialize (Hdis b). set_solver.
  - intros b. rewrite elem_of_app, list_elem_of_singleton. intros [?| ->]; [by apply Hdis|done].
  - intros b. rewrite !elem_of_app, list_elem_of_singleton. intros [?|[?|[?| ->]]]; [tauto..|]. right.
    rewrite (lens_some _ _ _ (lo_skb _ _ _ _ _ Hlo)), <-Hsz. split; [f_equal; lia|lia].
Qed.
(** ** Sending *)

Context (csum_partial : list Z → Z → Z) (csum_tcpudp_magic : Z → Z → Z → Z → Z → Z) (ip_fast_csum : list Z → Z).
Local Notation rt_tcp_send := (rt_tcp_send csum_partial csum_tcpudp_magic ip_fast_csum hard_header get_mtu drv_xmit).
Local Notation tcp_frame := (tcp_frame csum_partial csum_tcpudp_magic ip_fast_csum link).

(** What [rt_tcp_send] does. *)
Definition sent s ts T S C (l lr : list nat) flags ret s' : Prop :=
  (no_way Tm T ∧ ret = - EHOSTUNREACH ∧ s' = s) ∨
  ∃ rt d D, way s Tm T rt d D ∧ segment_done s ts T S C l lr d flags 0 (tcp_frame T S rt d D flags false []) ret s'.
(** Sending changes at most the sequence numbers. *)
Definition numbered T T' : Prop := T' = T <| sync_seq := sync_seq T' |> <| nacked_first := nacked_first T' |>.
(** A segment without SYN or FIN: it was sent, or there is no buffer or no way. *)
Definition replied s T S (l : list nat) flags (log : list (nat * nat * list Z)) : Prop :=
  (log = [] ∧ (l = [] ∨ no_way Tm T)) ∨
  ∃ b rt d D, way s Tm T rt d D ∧ head l = Some b ∧ log = [(d, b, tcp_frame T S rt d D flags false [])].

Lemma is_ctl_copy T flags : is_ctl flags = false → needs_copy T flags 0 = false.
Proof. unfold is_ctl, needs_copy. rewrite (Z.lor_comm TCP_FLAG_SYN). intros ->. apply andb_false_r. Qed.
Lemma advance_0 T flags : tcp_ranges T → advance T flags 0 = T <| sync_seq := sync_seq (advance T flags 0) |>.
Proof.
  intros [_ _ Hs _ _ Hd]. unfold advance. rewrite Z.sub_0_r. unfold u16. rewrite (Z.mod_small (sync_dst_window T)) by done. by destruct T.
Qed.
Lemma advance_id T flags : is_ctl flags = false → tcp_ranges T → advance T flags 0 = T.
Proof.
  intros Hc Hr. rewrite advance_0 by done. unfold advance at 1. rewrite Hc. cbn. rewrite !Z.add_0_r, u32_id by apply Hr. by destruct T.
Qed.
Lemma numbered_refl T : numbered T T.
Proof. by destruct T. Qed.
Lemma numbered_advance T lr q flags : tcp_ranges T → numbered T (advance (retransmits T lr q) flags 0).
Proof.
  intros Hr. unfold numbered. rewrite advance_0 at 1 by (by destruct lr, Hr). by destruct T, lr.
Qed.
Lemma numbered_box T T' S : numbered T T' → same_box T S T' S.
Proof. intros ->. by split. Qed.
Lemma numbered_usable T T' : numbered T T' → usable T → is_u32 (sync_seq T') → usable T'.
Proof. intros E [Hl [] Hd] Hs. rewrite E. by split. Qed.

Lemma sent_world h s ts T S C l lr li R lR flags ret s' :
  world h s ts T S C l lr li R lR → sent s ts T S C l lr flags ret s' →
  ∃ T' C' l' lr', world h s' ts T' S C' l' lr' li R lR ∧ numbered T T'.
Proof.
  intros Hwo. pose proof Hwo as [Hc Ho Hne Hp Hq Hpk]. pose proof (world_usable _ _ _ _ _ _ _ _ _ _ _ Hwo) as Hu.
  pose proof Hc as [[[_ _ Hr Hinv Hl _ Hib Hwh [tm Ht]] _ _ _] _ _ _ _ _]. pose proof Ho as [[_ _ _ _ HlR _ _ _ _] _ _ _].
  intros [(_ & _ & ->)|(rt & d & D & Hway & Hd)].
  { exists T, C, l, lr. split; [done|apply numbered_refl]. }
  revert Hd. unfold segment_done. destruct l as [|b l]; [|destruct (needs_copy T flags 0); [destruct l as [|c l]|]].
  - intros [_ ->]. exists T, C, [], lr. split; [done|apply numbered_refl].
  - intros (_ & k' & -> & Hf & _). exists T, C, [b], lr. split; [|apply numbered_refl].
    eapply world_step; try done; [eapply kframe_mono; [| |exact Hf]; set_solver|].
    eapply kframe_inbox; [exact Hf|exact Hib|set_solver|set_solver].
  - intros (_ & k' & w' & xc & -> & Hf & Hib' & Hwa & _).
    set (T' := advance (retransmits T lr (sync_seq T)) flags 0).
    assert (HT' : numbered T T') by (by apply numbered_advance).
    exists T', (<[skb_pool S := l]> C), l, (lr ++ [c]). split; [|done].
    eapply world_step; try done; [by apply numbered_box| |apply lookup_insert_eq|by rewrite lookup_insert_ne|set_solver|].
    + eapply numbered_usable; [done|done|]. apply Z.mod_pos_bound. lia.
    + destruct lr; [by eapply armed_step|]. cbn in Hwa. subst w'. by apply wheel_step_refl.
  - intros (_ & k' & -> & Hf & _). pose proof (numbered_advance T [1%nat] 0 flags Hr) as HT'. cbn [retransmits] in HT'.
    exists (advance T flags 0), (<[skb_pool S := l]> C), l, lr. split; [|done].
    eapply world_step; try done; [eapply kframe_mono; [| |exact Hf]; set_solver| |apply lookup_insert_eq
      |by rewrite lookup_insert_ne| |set_solver].
    + eapply numbered_usable; [done|done|]. apply Z.mod_pos_bound. lia.
    + eapply kframe_inbox; [exact Hf|exact Hib|set_solver|set_solver].
Qed.

Lemma send_world h s ts T S C l lr li R lR flags (Q : Z → tstate → Prop) :
  world h s ts T S C l lr li R lR →
  (∀ ret s' T' C' l' lr', world h s' ts T' S C' l' lr' li R lR → numbered T T' → sent s ts T S C l lr flags ret s' → Q ret s') →
  wp (rt_tcp_send ts flags) Q s.
Proof.
  intros Hwo HQ. eapply wp_mono; [|eapply send_run; apply Hwo]. intros ret s' Hs.
  destruct (sent_world _ _ _ _ _ _ _ _ _ _ _ _ _ _ Hwo Hs) as (T' & C' & l' & lr' & Hw' & Hn). by eapply HQ.
Qed.
(** An answer without SYN or FIN leaves the socket as it is. *)
Lemma sent_reply h s ts T S C l lr li R lR flags ret s' :
  is_ctl flags = false → world h s ts T S C l lr li R lR → sent s ts T S C l lr flags ret s' →
  ∃ k' log, s' = st s ts k' (twheel s) T S ∧ xmit_log k' = xmit_log (tkern s) ++ log ∧ replied s T S l flags log.
Proof.
  intros Hctl Hwo. pose proof (world_usable _ _ _ _ _ _ _ _ _ _ _ Hwo) as [_ Hr _].
  pose proof (world_tsock _ _ _ _ _ _ _ _ _ _ _ Hwo) as Hsk.
  intros [(Hno & _ & ->)|(rt & d & D & Hway & Hd)].
  { exists (tkern s), []. rewrite st_id, app_nil_r by done. split_and!; [done|done|]. left. auto. }
  revert Hd. unfold segment_done. rewrite is_ctl_copy by done. destruct l as [|b l].
  - intros [_ ->]. exists (tkern s), []. rewrite st_id, app_nil_r by done. split_and!; [done|done|]. left. auto.
  - rewrite advance_id by done. intros (_ & k' & -> & _ & Hl & _). eexists k', _. split_and!; [done|exact Hl|].
    right. by exists b, rt, d, D.
Qed.

(** The header of a received segment, as the machine reads it. *)
Record header_ok (hdr : iphdr) (t : tcphdr) : Prop := {
  ho_saddr : is_u32 (iph_saddr hdr);
  ho_daddr : is_u32 (iph_daddr hdr);
  ho_source : 0 ≤ th_source t < 2 ^ 16;
  ho_dest : 0 ≤ th_dest t < 2 ^ 16;
  ho_seq : is_u32 (th_seq t);
  ho_ack : is_u32 (th_ack_seq t);
  ho_win : 0 ≤ th_window t < 2 ^ 16;
}.
Lemma compute_ack_range t n : is_u32 (rt_tcp_compute_ack_seq t n).
Proof. unfold rt_tcp_compute_ack_seq. destruct (_ || _); apply Z.mod_pos_bound; lia. Qed.

(** The wait for the end of a statement whose value is not used. *)
Lemma wp_drop {A} (m : M tstate ()) (v : A) (Q : A → tstate → Prop) s : wp (m;; mret v) Q s → wp m (λ _, Q v) s.
Proof. unfold wp, mbind, M_bind. destruct (m s) as [[[] s']|]; [|done]. done. Qed.

Local Notation send_reset := (send_reset csum_partial csum_tcpudp_magic ip_fast_csum hard_header get_mtu drv_xmit rst).
Lemma reset_world h s ts T S C l lr li R lR hdr t n seq dst src flags :
  world h s ts T S C l lr li R lR → header_ok hdr t → is_ctl flags = false → is_u32 seq → is_u32 dst →
  wp (send_reset hdr t n seq dst src flags) (λ _ s', ∃ C' R' lR', world h s' ts T S C' l lr li R' lR') s.
Proof.
  intros Hwo Hh Hctl Hseq Hdst. pose proof Hwo as [Hc Ho Hne Hp Hq Hpk].
  pose proof Ho as [[Hsk Hlk Hr Hinv HlR Hb Hib Hwh Ht] [Hconf Hhost Hdev HN Hmac] Hda Hrt].
  pose proof Hc as [[[_ _ _ _ Hl _ _ _ _] _ _ _] _ _ _ _ _].
  unfold Tcp.send_reset. apply wp_bind, (wp_st _ _ _ _ _ _ Hsk), st_upd. set (R1 := R <| ts_saddr := _ |> <| ts_daddr := _ |> <| ts_sport := _ |>
    <| ts_dport := _ |> <| sync_seq := _ |> <| sync_ack_seq := _ |>).
  assert (Hu1 : usable R1).
  { destruct Hr, Hh. split; [done|split; cbn; try done|done]. apply compute_ack_range. }
  assert (Hwo1 : world h (st s rst (tkern s) (twheel s) R1 SR) ts T S C l lr li R1 lR).
  { eapply world_reset_step; try done. }
  destruct (route_output_run (rview s) B F Tm dst src Hconf Hhost Hdst) as (ret & ds & r' & Er & _ & Hcase).
  apply wp_bind. unfold in_troute. apply wp_zoom. eapply wp_intro; [exact Er|].
  destruct Hcase as [(-> & rt & d & D & -> & Hrf & HD & ->)|(-> & -> & -> & Hno)].
  2: { cbn. apply wp_ret. exists C, R1, lR. match goal with |- world h ?t _ _ _ _ _ _ _ _ _ => replace t with (st s rst (tkern s) (twheel s) R1 SR) end; [done|].
    unfold st, rview, upd. cbn. by destruct s as [[] []]. }
  cbn [fst snd Z.eqb]. apply wp_bind. eapply wp_deref; [done|].
  match goal with |- wp _ _ ?t => replace t with (st s rst (ref_taken (tkern s) d D) (twheel s) R1 SR) by (unfold st, rview, upd; cbn; by destruct s as [[] []]) end.
  apply wp_bind, st_upd. set (R2 := R1 <| ts_rt := rt |>). pose proof Hrf as (_ & Hd & key & D' & mac & _ & HT & HD' & _ & Hm).
  cbn in HD, HD'. rewrite HD in HD'. injection HD' as <-.
  assert (Hal : (addr_len D ≤ length (dest_addr rt))%nat).
  { pose proof (Hmac _ _ _ _ HT HD) as Hlm. rewrite <-Hm, length_take in Hlm. lia. }
  set (s2 := st s rst (tkern s) (twheel s) R2 SR).
  assert (Hwo2 : world h s2 ts T S C l lr li R2 lR).
  { eapply world_reset_step; try done; [by destruct Hu1 as [? [] ?]|]. intros d' Hd'. cbn in Hd'.
    rewrite Hd in Hd'. injection Hd' as <-. eauto. }
  pose proof (wo_rst _ _ _ _ _ _ _ _ _ _ _ Hwo2) as Ho2. pose proof (sd_sock _ _ _ _ _ _ _ _ (ol_sender _ _ _ _ _ _ _ _ _ _ _ _ _ _ _ Ho2)) as Hsk2.
  assert (Hway : way s2 Tm R2 rt d D) by (split_and!; [done|done|by left]).
  pose proof (way_egress _ _ _ _ _ _ _ _ _ _ _ _ _ _ _ _ _ _ Ho2 Hway) as [_ _ Hld _ Hmt Hro Hle].
  replace (st s rst (ref_taken (tkern s) d D) (twheel s) R2 SR) with (st s2 rst (ref_taken (tkern s2) d D) (twheel s2) R2 SR) by apply st_st.
  unfold Tcp.rt_tcp_send. apply wp_bind, wp_bind, st_load. cbn [ts_rt R2 upd]. rewrite Hd.
  eapply wp_mono; [|eapply (segment_run csum_partial csum_tcpudp_magic ip_fast_csum hard_header get_mtu drv_xmit link
    (st s2 rst (ref_taken (tkern s2) d D) (twheel s2) R2 SR) rst R2 SR C lR [] N d (D <| refcount := refcount D + 1 |>) rt flags 0 []); [by apply sender_ref; [apply Ho2|]| |done]].
  2: { split; try done; [apply lookup_insert_eq|by apply linkdev_ref]. }
  assert (Hr2 : tcp_ranges R2) by (by destruct Hu1 as [_ [] _]).
  intros ret s3 Hdone. cbn [length Z.of_nat] in Hdone. pose proof Hdone as Hsd. unfold segment_done in Hsd. rewrite is_ctl_copy in Hsd by done.
  assert (E3 : ∃ k3, s3 = st s2 rst k3 (twheel s) R2 SR).
  { destruct lR as [|b lR]; [destruct Hsd as [_ ->]; eauto|]. rewrite (advance_id R2) in Hsd by done.
    destruct Hsd as (_ & k3 & -> & _). exists k3. rewrite st_st. done. }
  destruct E3 as [k3 ->]. apply wp_bind, st_load. apply wp_bind. eapply wp_deref; [exact Hd|].
  apply (wp_drop _ ret (λ _ s', _)). eapply wp_mono; [|by eapply (segment_done_unref s2 rst R2 SR C lR [] d flags _ ret _ d D)].
  intros _ s4 [_ Hdone4]. unfold segment_done in Hdone4. rewrite is_ctl_copy in Hdone4 by done.
  destruct lR as [|b lR]; [destruct Hdone4 as [_ ->]; eauto|]. rewrite (advance_id R2) in Hdone4 by done.
  destruct Hdone4 as (_ & k4 & -> & Hf4 & _). exists (<[skb_pool SR := lR]> C), R2, lR.
  eapply (world_reset_step h s2); try done; [by rewrite lookup_insert_ne by congruence|apply lookup_insert_eq|set_solver|by destruct Hu1 as [? [] ?]|apply Ho2].
Qed.
End world.
