(* ===== verification/TcpFeed.v ===== *)
(** * TCP: acknowledgements and windows

    What follows an accepted segment (label [feed] of [rt_tcp_rcv]): segments that are
    acknowledged leave the retransmission queue, and the window of the peer is updated. *)
From S2P Require Import Prelude State RtskbQueue Rtskb RtskbData Rtdev Eth Iovec StackMgr Route RouteHost RouteOps IpFragment.
From S2P Require Import Socket IpOutput IpInput Arp Udp UdpOps Icmp Packet PacketOps PacketSend PacketClose Timerwheel Tcp TcpSend TcpOut TcpConn TcpRcv.

Section feed.
Context `{Config}.
Context (hard_header : nat → option (nat → Z → list Z → list Z → Z → M kstate Z)).
Context (get_mtu : nat → Z → M kstate Z) (drv_xmit : nat → nat → M kstate Z) (link : nat → list Z → list Z).
Context (B : list (list nat)) (F : list nat) (Tm : route_map) (N : Z) (rst : nat) (SR : rtsocket) (a : nat) (x : rtskb).
Implicit Types (k : kstate) (s : tstate) (T R : tcp_socket) (S : rtsocket) (C : gmap nat (list nat)).
Local Notation world := (world hard_header get_mtu drv_xmit link B F Tm N rst SR a x).

(** ** The retransmission queue *)

Lemma dequeue_loop_run ts ack s w T S : ∀ lr fuel k C l (Q : () → tstate → Prop),
  pools_inv k C → inbox k C (sendq T S) lr → C !! skb_pool S = Some l → (length lr < fuel)%nat →
  tcp_state T ≠ TCP_CLOSE → rt_tcp_before (nacked_first T) ack = true →
  (∀ k', kframe lr [retransmit_queue T] k C k' (<[skb_pool S := l ++ lr]> C) →
     inbox k' (<[skb_pool S := l ++ lr]> C) (sendq T S) [] → xmit_log k' = xmit_log k →
     Q () (st s ts k' w (T <| timer_state := max_retransmits |> <| socket_lock := false |>) S)) →
  wp (dequeue_loop fuel ts ack) Q (st s ts k w (T <| socket_lock := true |>) S).
Proof.
  intros lr. induction lr as [|c lr IH]; intros [|fuel] k C l Q Hinv Hib Hl Hfu Hst Hbf HQ; [lia| |lia|]; cbn [dequeue_loop].
  all: apply wp_bind, st_load; cbn [tcp_state retransmit_queue nacked_first upd]; replace (tcp_state T =? TCP_CLOSE) with false by lia;
    apply wp_bind, st_kern.
  - eapply (empty_queue_run k C (sendq T S)); [done|]. apply wp_bind, st_upd. apply st_unlock. apply (HQ k); [|by rewrite app_nil_r, insert_id|done].
    rewrite app_nil_r, insert_id by done. by apply kframe_refl.
  - eapply wp_mono; [|by apply (inbox_dequeue_run k C (sendq T S))].
    intros r k1 (-> & Hinv1 & Hib1 & (xc & d & Hlo & Hd) & Hw1 & Ho1 & HR1 & Hc). rewrite Hbf.
    assert (F1 : kframe [c] [retransmit_queue T] k C k1 C) by (by eapply relinked_kframe).
    apply wp_bind, st_unlock. apply wp_bind, st_kern. eapply free_kframe; [done|exact Hlo|exact Hl|]. intros k2 F2 Hw2.
    apply wp_bind, st_lock; [done|]. set (C2 := <[skb_pool S := l ++ [c]]> C) in *.
    assert (F12 : kframe (c :: lr) [retransmit_queue T] k C k2 C2).
    { eapply kframe_trans; [eapply kframe_mono; [| |exact F1]; set_solver|eapply kframe_mono; [| |exact F2]; set_solver]. }
    eapply (IH fuel k2 C2 (l ++ [c]) Q); [apply F2| |apply lookup_insert_eq|cbn in Hfu; lia|done|done|].
    + eapply kframe_inbox; [exact F2|exact Hib1|set_solver|set_solver].
    + assert (EC : <[skb_pool S := (l ++ [c]) ++ lr]> C2 = <[skb_pool S := l ++ c :: lr]> C).
      { unfold C2. by rewrite insert_insert_eq, <-app_assoc. }
      intros k' F3 Hib3 Hw3. rewrite EC in F3, Hib3. apply HQ; [|done|by rewrite Hw3, Hw2, Hw1].
      eapply kframe_trans; [exact F12|]. eapply kframe_mono; [| |exact F3]; set_solver.
Qed.

(** What an acknowledgement leaves of the retransmission queue: everything, or nothing. *)
Definition acknowledged s ts T S C (l lr : list nat) ack T' C' l' lr' : Prop :=
  (T' = T ∧ C' = C ∧ l' = l ∧ lr' = lr ∧
   (lr = [] ∨ rt_tcp_before (nacked_first T) ack = false ∨ tcp_state T = TCP_CLOSE ∨
    ∃ tm, timers (twheel s) !! ts = Some tm ∧ tslot tm < 0)) ∨
  (T' = T <| timer_state := max_retransmits |> ∧ C' = <[skb_pool S := l ++ lr]> C ∧ l' = l ++ lr ∧ lr' = [] ∧ lr ≠ [] ∧
   rt_tcp_before (nacked_first T) ack = true ∧ tcp_state T ≠ TCP_CLOSE ∧ ∃ tm, timers (twheel s) !! ts = Some tm ∧ 0 ≤ tslot tm).

(** The timer is stopped exactly if it runs for segments of which the first is
    acknowledged (in state CLOSE as well, where the queue is left alone). *)
Definition timer_after ts T (lr : list nat) ack w w' : Prop :=
  ∃ tm, timers w !! ts = Some tm ∧
    if negb (bool_decide (lr = [])) && rt_tcp_before (nacked_first T) ack && (0 <=? tslot tm)
    then timers w' = <[ts := tm <| tslot := TIMERWHEEL_TIMER_UNUSED |>]> (timers w) ∧ ∀ i slot, ring w' !! i = Some slot → ts ∉ slot
    else w' = w.

Lemma retransmit_ack_run h s ts T S C l lr li R lR ack (Q : () → tstate → Prop) :
  world h s ts T S C l lr li R lR →
  (∀ k' w' T' C' l' lr', world h (st s ts k' w' T' S) ts T' S C' l' lr' li R lR →
     kframe lr [retransmit_queue T] (tkern s) C k' C' → xmit_log k' = xmit_log (tkern s) →
     acknowledged s ts T S C l lr ack T' C' l' lr' → timer_after ts T lr ack (twheel s) w' → Q () (st s ts k' w' T' S)) →
  wp (rt_tcp_retransmit_ack ts ack) Q s.
Proof.
  intros Hwo HQ. assert (Hsk : tsock s ts T S) by (eapply world_tsock; exact Hwo).
  assert (Hu : usable T) by (eapply world_usable; exact Hwo).
  pose proof Hwo as [Hc Ho Hne Hp [Hq1 Hq2] Hpk].
  pose proof Hc as [[[_ Hlk Hr Hinv Hl _ Hib Hwh [tm Ht]] _ _ _] Hin Hdis Hqs _ _]. pose proof Ho as [[_ _ _ _ HlR _ _ _ _] _ _ _].
  assert (Hsame : ∀ w', wheel_step (twheel s) w' → timer_after ts T lr ack (twheel s) w' →
    lr = [] ∨ rt_tcp_before (nacked_first T) ack = false ∨ tcp_state T = TCP_CLOSE ∨ (∃ tm, timers (twheel s) !! ts = Some tm ∧ tslot tm < 0) → Q () (st s ts (tkern s) w' (T <| socket_lock := true |> <| socket_lock := false |>) S)).
  { intros w' Hw' Hta Hwhy. rewrite locked_same by done. eapply (HQ _ _ T C l lr); [|by apply kframe_refl|done|by left|done].
    eapply world_step; try done. }
  unfold rt_tcp_retransmit_ack. apply wp_bind, (wp_st _ _ _ _ _ _ Hsk), st_lock; [done|]. apply wp_bind, st_load.
  pose proof Hib as [_ _ (Qr & HQr & Hqr) _]. cbn [retransmit_queue nacked_first upd]. apply wp_bind, st_kern. unfold rtskb_queue_empty. apply wp_bind.
  eapply wp_queue_load; [exact HQr|]. apply wp_ret. destruct (bool_decide _) eqn:Ee.
  { apply bool_decide_eq_true in Ee. assert (lr = []) as -> by (destruct lr; [done|]; destruct Hqr as [[Hq0 _] _]; by rewrite Ee in Hq0).
    apply st_unlock, Hsame; [by apply wheel_step_refl|by exists tm|by left]. }
  assert (Hlr : bool_decide (lr = []) = false).
  { apply bool_decide_eq_false. intros ->. apply bool_decide_eq_false in Ee. apply Ee. by inversion Hqr. }
  destruct (rt_tcp_before _ _) eqn:Eb; cbn [negb].
  2: { apply st_unlock, Hsame; [by apply wheel_step_refl|exists tm; by rewrite Eb, andb_false_r|auto]. }
  apply wp_bind, st_wheel. eapply wp_mono; [|by eapply remove_timer_run; [apply Hwh|]]. intros ret w' (Hw' & Eg & _ & Hcase).
  destruct (Z.leb_spec 0 (tslot tm)) as [Hsl|Hsl].
  2: { destruct Hcase as [-> ->]. cbn. apply st_unlock, Hsame; [by apply wheel_step_refl| |do 3 right; eauto].
    exists tm. replace (0 <=? tslot tm) with false by lia. by rewrite andb_false_r. }
  destruct Hcase as (-> & Ht' & Hring). cbn [Z.eqb negb].
  assert (Hws : wheel_step (twheel s) w') by (split; [by eapply tcp_wheel_step|]; intros t Htt; rewrite Ht'; by apply insert_some).
  assert (Hta : timer_after ts T lr ack (twheel s) w').
  { exists tm. rewrite Hlr, Eb. replace (0 <=? tslot tm) with true by lia. by split_and!. }
  apply wp_bind, st_kern, wp_gets.
  assert (Hlen : (length lr < Datatypes.S (size (skbs (tkern s))))%nat).
  { destruct Hqr as [Hs _]. apply llist_length in Hs. lia. }
  destruct (decide (tcp_state T = TCP_CLOSE)) as [Ec|Ec].
  { cbn [dequeue_loop]. apply wp_bind, st_load. cbn [tcp_state upd]. rewrite Ec. apply st_unlock, Hsame; auto. }
  eapply (dequeue_loop_run ts ack s w' T S lr _ (tkern s) C l); try done.
  intros k' Hf Hib' Hlog.
  assert (ET : T <| timer_state := max_retransmits |> <| socket_lock := false |> = T <| timer_state := max_retransmits |>).
  { destruct T. cbn in *. by rewrite Hlk. }
  rewrite ET. eapply HQ; [|done|done|right; split_and!; try done|done].
  - eapply world_step; try done; [by destruct Hu as [? [] ?]|apply lookup_insert_eq|by rewrite lookup_insert_ne by congruence|set_solver].
  - by apply bool_decide_eq_false in Hlr.
  - eauto.
Qed.

(** ** The window of the peer *)

(** The peer announced [window]; a writer waits for the event exactly while it is 0. *)
Definition opened T (window : Z) : tcp_socket :=
  T <| sync_dst_window := window |>
    <| send_evt := if sync_dst_window T =? 0
                   then if window =? 0 then send_evt T else (λ _, true) <$> send_evt T
                   else if window =? 0 then (λ _, false) <$> send_evt T else send_evt T |>.

Lemma keepalive_feed_run s ts k w T S (Q : () → tstate → Prop) :
  socket_lock T = false → ka_enabled T = false → Q () (st s ts k w T S) → wp (rt_tcp_keepalive_feed ts) Q (st s ts k w T S).
Proof.
  intros Hl Hk HQ. unfold rt_tcp_keepalive_feed. apply wp_bind, st_lock; [done|]. apply wp_bind, st_load. cbn [tcp_state ka_enabled upd].
  rewrite Hk, andb_false_r. cbn [when]. apply wp_bind, wp_ret, st_unlock. by rewrite locked_same.
Qed.
Lemma window_update_run s ts k w T S window (Q : () → tstate → Prop) :
  socket_lock T = false → Q () (st s ts k w (opened T window) S) → wp (rt_tcp_window_update ts window) Q (st s ts k w T S).
Proof.
  intros Hl HQ. unfold rt_tcp_window_update. apply wp_bind, st_lock; [done|]. apply wp_bind, st_load. cbn [sync_dst_window upd].
  assert (HQ' : ∀ T', T' = opened T window → Q () (st s ts k w T' S)) by (by intros ? ->).
  unfold opened in HQ'. destruct (Z.eqb_spec (sync_dst_window T) 0) as [E0|E0]; cbn [negb].
  - destruct (Z.eqb_spec window 0) as [->|]; cbn [negb].
    + apply st_unlock, HQ'. rewrite locked_same by done. rewrite <-E0. by destruct T.
    + apply wp_bind, st_upd, wp_bind, st_unlock. apply st_upd, HQ'. destruct T. cbn in *. by rewrite Hl.
  - apply wp_bind, st_upd, wp_bind, st_unlock. destruct (Z.eqb_spec window 0) as [->|]; cbn [when].
    + apply st_upd, HQ'. destruct T. cbn in *. by rewrite Hl.
    + apply wp_ret, HQ'. destruct T. cbn in *. by rewrite Hl.
Qed.

(** An accepted segment: the acknowledgement and the window it carries. *)
Definition fed s ts T S C (l lr : list nat) (t : tcphdr) T' C' l' lr' : Prop :=
  ∃ T1, T' = opened T1 (ntohs (th_window t)) ∧
    if th_ack t then acknowledged s ts T S C l lr (ntohl (th_ack_seq t)) T1 C' l' lr' else T1 = T ∧ C' = C ∧ l' = l ∧ lr' = lr.
Lemma feed_run h s ts T S C l lr li R lR t (Q : () → tstate → Prop) :
  world h s ts T S C l lr li R lR → 0 ≤ th_window t < 2 ^ 16 →
  (∀ k' w' T' C' l' lr', world h (st s ts k' w' T' S) ts T' S C' l' lr' li R lR →
     kframe lr [retransmit_queue T] (tkern s) C k' C' → xmit_log k' = xmit_log (tkern s) →
     fed s ts T S C l lr t T' C' l' lr' → Q () (st s ts k' w' T' S)) →
  wp (rcv_feed ts t) Q s.
Proof.
  intros Hwo Ht HQ. unfold rcv_feed. apply wp_bind.
  assert (Hrest : ∀ k' w' T1 C' l' lr', world h (st s ts k' w' T1 S) ts T1 S C' l' lr' li R lR →
    kframe lr [retransmit_queue T] (tkern s) C k' C' → xmit_log k' = xmit_log (tkern s) →
    fed s ts T S C l lr t (opened T1 (ntohs (th_window t))) C' l' lr' →
    wp (rt_tcp_keepalive_feed ts;; rt_tcp_window_update ts (ntohs (th_window t))) Q (st s ts k' w' T1 S)).
  { intros k' w' T1 C' l' lr' Hw1 Hf Hlog Hfed. assert (Hu : usable T1) by (eapply world_usable; exact Hw1).
    pose proof Hw1 as [[_ _ _ _ _ Hka] _ _ _ _ _]. apply wp_bind, keepalive_feed_run; [apply Hu|done|].
    apply window_update_run; [apply Hu|]. eapply HQ; [|exact Hf|exact Hlog|exact Hfed].
    rewrite <-(st_st s ts k' w' T1 S). eapply world_upd with (T := T1) (S := S); [exact Hw1|done|].
    destruct Hu as [? [] ?]. split; try done. split; try done. by apply ntohs_range. }
  destruct (th_ack t) eqn:Ea; cbn [when].
  - eapply retransmit_ack_run; [exact Hwo|]. intros k' w' T1 C' l' lr' Hw1 Hf Hlog Hack _. eapply Hrest; [exact Hw1|exact Hf|done|].
    exists T1. by rewrite Ea.
  - assert (Hsk : tsock s ts T S) by (eapply world_tsock; exact Hwo). apply wp_ret, (wp_st _ _ _ _ _ _ Hsk).
    pose proof (sd_inv _ _ _ _ _ _ _ _ (ol_sender _ _ _ _ _ _ _ _ _ _ _ _ _ _ _ (cn_out _ _ _ _ _ _ _ _ _ _ _ _ _ _ _ _ (wo_conn _ _ _ _ _ _ _ _ _ _ _ _ _ _ _ _ _ _ _ _ _ _ _ Hwo)))) as Hinv.
    eapply Hrest; [by rewrite st_id|by apply kframe_refl|done|]. exists T. by rewrite Ea.
Qed.
End feed.
