(* ===== verification/TcpStates.v ===== *)
(** * TCP: the reception of a segment

    [rt_tcp_rcv] on every branch: the states a socket goes through, and that nothing is
    lost on the way. *)
From S2P Require Import Prelude State RtskbQueue Rtskb RtskbData Rtdev Eth Iovec StackMgr Route RouteHost RouteOps IpFragment.
From S2P Require Import Socket IpOutput IpInput Arp Udp UdpOps Icmp Packet PacketOps PacketSend PacketClose Timerwheel.
From S2P Require Import Tcp TcpSend TcpOut TcpConn TcpRcv TcpFeed.

(** ** The diagram of states *)

(** The moves of a socket that receives the segment [t]. *)
Inductive moves (t : tcphdr) : Z → Z → Prop :=
  | mv_stay z : moves t z z
  | mv_syn : th_rst t = false → th_fin t = false → th_syn t = true → moves t TCP_LISTEN TCP_SYN_RECV
  | mv_connected : th_syn t = true → th_ack t = true → moves t TCP_SYN_SENT TCP_ESTABLISHED
  | mv_refused : th_syn t && th_ack t = false → moves t TCP_SYN_SENT TCP_CLOSE
  | mv_accepted : th_rst t = false → th_fin t = false → th_syn t = false → th_ack t = true → moves t TCP_SYN_RECV TCP_ESTABLISHED
  | mv_relisten : th_rst t = true → moves t TCP_SYN_RECV TCP_LISTEN
  | mv_reset z : th_rst t = true → z ≠ TCP_SYN_SENT → z ≠ TCP_SYN_RECV → moves t z TCP_CLOSE
  | mv_fin : th_rst t = false → th_fin t = true → moves t TCP_ESTABLISHED TCP_CLOSE_WAIT
  | mv_fin_both : th_rst t = false → th_fin t = true → th_ack t = true → moves t TCP_FIN_WAIT1 TCP_TIME_WAIT
  | mv_fin_last : th_rst t = false → th_fin t = true → moves t TCP_FIN_WAIT2 TCP_TIME_WAIT
  | mv_fin_cross : th_rst t = false → th_fin t = true → th_ack t = false → moves t TCP_FIN_WAIT1 TCP_CLOSING
  | mv_fin_acked : th_rst t = false → th_fin t = false → th_syn t = false → th_ack t = true → moves t TCP_FIN_WAIT1 TCP_FIN_WAIT2
  | mv_closed : th_rst t = false → th_fin t = false → th_syn t = false → th_ack t = true → moves t TCP_CLOSING TCP_TIME_WAIT
  | mv_last : th_rst t = false → th_fin t = false → th_syn t = false → th_ack t = true → moves t TCP_LAST_ACK TCP_CLOSE.

(** A socket is valid exactly while its connection is established, and then has the event
    its writers wait for. *)
Definition valid_ok (T : tcp_socket) : Prop :=
  is_valid T = (tcp_state T =? TCP_ESTABLISHED) ∧ (is_valid T = true → is_Some (send_evt T)).
(** The segment is from the peer, or the socket has none yet. *)
Definition from_peer (T : tcp_socket) (hdr : iphdr) (t : tcphdr) : bool :=
  (tcp_state T =? TCP_LISTEN) || ((ts_daddr T =? iph_saddr hdr) && (ts_dport T =? th_source t)).

Section states.
Context `{Config}.
Implicit Types (k : kstate) (s : tstate) (T R : tcp_socket) (S : rtsocket) (C : gmap nat (list nat)).

(** Its sequence number counts. *)
Definition acceptable T (t : tcphdr) : bool := (tcp_state T =? TCP_SYN_SENT) || seq_in_window T t.
(** What a segment may do to a socket. *)
Record reacts (hdr : iphdr) (t : tcphdr) (n : Z) T S (v : verdict) T' S' : Prop := {
  ra_moves : moves t (tcp_state T) (tcp_state T');
  ra_valid : valid_ok T → valid_ok T';
  ra_sem : v ≠ QUEUED → pending_sem S' = pending_sem S ∨ pending_sem S' = None;
  ra_queued : v = QUEUED → tcp_state T = TCP_ESTABLISHED ∧ seq_in_window T t = true ∧ n ≠ 0 ∧
                pending_sem S' = (λ i, i + 1) <$> pending_sem S;
  ra_foreign : from_peer T hdr t = false → v = DROP ∧ T' = T ∧ S' = S;
  ra_outside : acceptable T t = false → tcp_state T' = tcp_state T;
}.

(** ** Steps with the lock held *)

Lemma invalidate_run s ts k w T S z (Q : bool → tstate → Prop) :
  ka_enabled T = false → Q (is_valid T) (st s ts k w (T <| tcp_state := z |> <| is_valid := false |>) S) →
  wp (rt_tcp_socket_invalidate ts z) Q (st s ts k w T S).
Proof.
  intros Hk HQ. unfold rt_tcp_socket_invalidate. apply wp_bind, st_load. apply wp_bind, st_upd. apply wp_bind.
  destruct (is_valid T) eqn:Ev; cbn [when].
  - apply wp_bind, st_upd. rewrite Hk. cbn [when]. apply wp_ret, wp_ret. done.
  - apply wp_ret, wp_ret. destruct T. cbn in *. by rewrite Ev in *.
Qed.
Lemma validate_run s ts k w T S (Q : () → tstate → Prop) :
  ka_enabled T = false →
  Q () (st s ts k w (T <| tcp_state := TCP_ESTABLISHED |> <| is_valid := true |> <| send_evt := Some false |>) S) →
  wp (rt_tcp_socket_validate ts) Q (st s ts k w T S).
Proof.
  intros Hk HQ. unfold rt_tcp_socket_validate. apply wp_bind, st_upd. apply wp_bind, st_load. cbn [ka_enabled upd]. rewrite Hk. cbn [when].
  apply wp_bind, wp_ret. by apply st_upd.
Qed.
(** The connection ends: the lock is released, and whoever waits is woken up. *)
Definition ended T (z : Z) : tcp_socket :=
  T <| tcp_state := z |> <| is_valid := false |> <| socket_lock := false |>
    <| send_evt := if is_valid T then None else send_evt T |>.
Definition hung T S : rtsocket := S <| pending_sem := if is_valid T then None else pending_sem S |>.
Lemma hangup_end s ts k w T S z (Q : () → tstate → Prop) :
  ka_enabled T = false → Q () (st s ts k w (ended T z) (hung T S)) →
  wp (signal ← rt_tcp_socket_invalidate ts z; lock_put ts;; when signal (rt_tcp_socket_invalidate_signal ts)) Q (st s ts k w T S).
Proof.
  intros Hk HQ. apply wp_bind, invalidate_run; [done|]. apply wp_bind, st_unlock. unfold ended, hung in HQ.
  destruct (is_valid T); cbn [when].
  - unfold rt_tcp_socket_invalidate_signal. apply wp_bind. unfold sem_destroy. apply st_supd, st_upd. done.
  - apply wp_ret. destruct T, S. done.
Qed.
Lemma hangup_run {A} s ts k w T S z (K : M tstate A) (Q : A → tstate → Prop) :
  ka_enabled T = false → wp K Q (st s ts k w (ended T z) (hung T S)) →
  wp (signal ← rt_tcp_socket_invalidate ts z; lock_put ts;; when signal (rt_tcp_socket_invalidate_signal ts);; K) Q (st s ts k w T S).
Proof.
  intros Hk HQ. pose proof (hangup_end s ts k w T S z (λ _, wp K Q) Hk HQ) as Hrun. revert Hrun.
  unfold wp, mbind, M_bind. destruct (rt_tcp_socket_invalidate ts z _) as [[b s1]|]; [|done].
  destruct (lock_put ts s1) as [[[] s2]|]; [|done]. by destruct (when b _ s2) as [[[] s3]|].
Qed.
End states.

(** ** The branches *)

Section branches.
Context `{Config}.
Context (csum_partial : list Z → Z → Z) (csum_tcpudp_magic : Z → Z → Z → Z → Z → Z) (ip_fast_csum : list Z → Z).
Context (hard_header : nat → option (nat → Z → list Z → list Z → Z → M kstate Z)).
Context (get_mtu : nat → Z → M kstate Z) (drv_xmit : nat → nat → M kstate Z) (link : nat → list Z → list Z).
Context (B : list (list nat)) (F : list nat) (Tm : route_map) (N : Z) (rst : nat) (SR : rtsocket) (a : nat) (x : rtskb).
Implicit Types (k : kstate) (s : tstate) (T R : tcp_socket) (S : rtsocket) (C : gmap nat (list nat)).
Local Notation world := (world hard_header get_mtu drv_xmit link B F Tm N rst SR a x).
Local Notation rt_tcp_send := (rt_tcp_send csum_partial csum_tcpudp_magic ip_fast_csum hard_header get_mtu drv_xmit).

(** The segment: its headers and the length of its data; the socket before it came, and
    [Tc] while the lock is held. *)
Context (hdr : iphdr) (t : tcphdr) (n : Z) (Hhdr : header_ok hdr t).
Context (ts : nat) (s : tstate) (T : tcp_socket) (S : rtsocket) (C : gmap nat (list nat)) (l lr li : list nat) (R : tcp_socket) (lR : list nat).
Context (Hwo : world true s ts T S C l lr li R lR).

(** The segment was served: what remains to be done with its buffer, and with the socket. *)
Definition served (v : verdict) s' : Prop :=
  ∃ T' S' C' l' lr' R' lR',
    world (match v with QUEUED => false | _ => true end) s' ts T' S' C' l' lr' (match v with QUEUED => li ++ [a] | _ => li end) R' lR' ∧
    reacts hdr t n T S v T' S'.
Definition now T S : tstate := st s ts (tkern s) (twheel s) T S.

Lemma now_world T1 S1 : same_box T S T1 S1 → usable T1 → world true (now T1 S1) ts T1 S1 C l lr li R lR.
Proof. by apply world_upd. Qed.
Lemma settle v T1 S1 : v ≠ QUEUED → same_box T S T1 S1 → usable T1 → reacts hdr t n T S v T1 S1 → served v (now T1 S1).
Proof.
  intros Hv Hb Hu Hr. exists T1, S1, C, l, lr, R, lR. split; [|done]. destruct v; [by apply now_world..|done].
Qed.
Lemma reacts_numbered v T1 S1 T' : from_peer T hdr t = true → reacts hdr t n T S v T1 S1 → numbered T1 T' → reacts hdr t n T S v T' S1.
Proof.
  intros Hp [Hm Hv Hs Hq _ Ho] E. split; try done; [by rewrite E..| |by rewrite E].
  by rewrite Hp.
Qed.
(** The last statement of many branches. *)
Lemma settle_send v flags T1 S1 :
  v ≠ QUEUED → from_peer T hdr t = true → same_box T S T1 S1 → usable T1 → reacts hdr t n T S v T1 S1 →
  wp (rt_tcp_send ts flags;; mret v) served (now T1 S1).
Proof.
  intros Hv Hp Hb Hu Hr. apply wp_bind. eapply send_world; [by apply now_world|].
  intros ret s' T' C' l' lr' Hw' Hn _. apply wp_ret. exists T', S1, C', l', lr', R, lR. split; [by destruct v|].
  by eapply reacts_numbered.
Qed.

Lemma settle_send_destroy v flags T1 :
  v ≠ QUEUED → from_peer T hdr t = true → same_box T S T1 S → usable T1 → reacts hdr t n T S v T1 S →
  wp (rt_tcp_send ts flags;; sem_destroy ts;; mret v) served (now T1 S).
Proof.
  intros Hv Hp Hb Hu Hr. apply wp_bind. eapply send_world; [by apply now_world|].
  intros ret s' T' C' l' lr' Hw' Hn _. assert (Hsk : tsock s' ts T' S) by (eapply world_tsock; exact Hw').
  apply wp_bind. unfold sem_destroy. apply (wp_st _ _ _ _ _ _ Hsk), st_supd, wp_ret.
  assert (Hu' : usable T') by (eapply world_usable; exact Hw').
  exists T', (S <| pending_sem := None |>), C', l', lr', R, lR. split.
  - destruct v; [eapply world_upd; try done..|done].
  - destruct (reacts_numbered v T1 S T' Hp Hr Hn) as [? ? ? ? ? ?]. split; try done; [auto|rewrite Hp; done].
Qed.

(** The socket with the lock held, and the number [A] to acknowledge. *)
Definition held (A : Z) : tcp_socket := T <| socket_lock := true |> <| sync_ack_seq := A |>.
Hypothesis (Hpeer : from_peer T hdr t = true) (Hacc : acceptable T t = true).

Lemma usable_T : usable T.
Proof. eapply world_usable; exact Hwo. Qed.
Lemma ka_T : ka_enabled T = false.
Proof. destruct Hwo as [[_ _ _ _ _ Hka] _ _ _ _ _]. exact Hka. Qed.
(** The next use of the socket. *)
Ltac usable_tac := destruct usable_T as [? [] ?]; split; try done; split; try done; try (apply Z.mod_pos_bound; lia).
Ltac react_tac := split; cbn; try done; try (rewrite Hpeer; done); try (rewrite Hacc; done); try tauto.

Lemma rst_run : th_rst t = true → tcp_state T ≠ TCP_SYN_SENT → wp (rcv_rst ts (held (sync_ack_seq T))) served (now (held (sync_ack_seq T)) S).
Proof.
  intros Hr Hs. unfold rcv_rst. cbn [tcp_state held upd]. destruct (Z.eqb_spec (tcp_state T) TCP_SYN_RECV) as [E|E].
  - apply wp_bind, st_upd. apply wp_bind, st_unlock, wp_ret. apply settle; [done|done|usable_tac|]. react_tac.
    + rewrite E. by constructor.
    + unfold valid_ok. rewrite E. done.
  - apply hangup_run; [apply ka_T|]. apply wp_ret. apply settle; [done|done|usable_tac|]. react_tac.
    + by constructor.
    + destruct (is_valid T); auto.
Qed.

Lemma fin_run A : th_rst t = false → th_fin t = true → is_u32 A → wp (rcv_fin csum_partial csum_tcpudp_magic ip_fast_csum hard_header get_mtu drv_xmit ts (held A) t) served (now (held A) S).
Proof.
  intros Hr Hf HA. unfold rcv_fin. cbn [tcp_state held upd]. destruct (Z.eqb_spec (tcp_state T) TCP_ESTABLISHED) as [E|E].
  { apply hangup_run; [apply ka_T|]. apply settle_send; [done|done|done|usable_tac|]. react_tac.
    - rewrite E. by constructor.
    - destruct (is_valid T); auto. }
  destruct (Z.eqb_spec (tcp_state T) TCP_FIN_WAIT1) as [E1|E1]; cbn [andb].
  - destruct (th_ack t) eqn:Ea; cbn [orb].
    + apply wp_bind, st_upd. apply wp_bind, st_unlock. apply settle_send_destroy; [done|done|done|usable_tac|]. react_tac.
      * rewrite E1. by constructor.
      * unfold valid_ok. rewrite E1. done.
    + rewrite E1. cbn. apply wp_bind, st_upd. apply wp_bind, st_unlock. apply settle_send_destroy; [done|done|done|usable_tac|]. react_tac.
      * rewrite E1. by constructor.
      * unfold valid_ok. rewrite E1. done.
  - cbn [orb]. destruct (Z.eqb_spec (tcp_state T) TCP_FIN_WAIT2) as [E2|E2].
    + apply wp_bind, st_upd. apply wp_bind, st_unlock. apply settle_send_destroy; [done|done|done|usable_tac|]. react_tac.
      * rewrite E2. by constructor.
      * unfold valid_ok. rewrite E2. done.
    + apply wp_bind, st_unlock, wp_ret. apply settle; [done|done|usable_tac|]. react_tac. constructor.
Qed.

Lemma ack_not_ctl : is_ctl TCP_FLAG_ACK = false ∧ is_ctl (Z.lor TCP_FLAG_RST TCP_FLAG_ACK) = false.
Proof.
  unfold is_ctl, TCP_FLAG_ACK, TCP_FLAG_RST, TCP_FLAG_FIN, TCP_FLAG_SYN, ntohl. by destruct little_endian.
Qed.

Lemma syn_run A : th_rst t = false → th_fin t = false → th_syn t = true → is_u32 A →
  wp (rcv_syn csum_partial csum_tcpudp_magic ip_fast_csum hard_header get_mtu drv_xmit ts (held A) hdr t) served (now (held A) S).
Proof.
  intros Hr Hf Hs HA. unfold rcv_syn. cbn [tcp_state held upd]. destruct (Z.eqb_spec (tcp_state T) TCP_LISTEN) as [E|E].
  - apply wp_bind, wp_gets. apply wp_bind, st_upd. apply wp_bind, st_unlock. destruct Hhdr.
    apply settle_send; [done|done|done|usable_tac|]. react_tac.
    + rewrite E. by constructor.
    + unfold valid_ok. rewrite E. done.
  - apply wp_bind, st_unlock. apply settle_send; [done|done|done|usable_tac|]. react_tac. constructor.
Qed.

(** Data on an established connection. *)
Definition taken A : tcp_socket :=
  T <| sync_ack_seq := A |> <| sync_window := u16 (sync_window T - n) |>.
Definition upped : rtsocket := S <| pending_sem := (λ i, i + 1) <$> pending_sem S |>.
Definition queued A s' : Prop :=
  ∃ k' C' l' lr' log y, s' = st s ts k' (twheel s) (taken A) upped ∧ world false s' ts (taken A) upped C' l' lr' (li ++ [a]) R lR ∧
    xmit_log k' = xmit_log (tkern s) ++ log ∧
    replied link Tm csum_partial csum_tcpudp_magic ip_fast_csum (now (taken A) S) (taken A) S l TCP_FLAG_ACK log ∧
    skbs k' !! a = Some y ∧ payload y = payload x.
Lemma data_queued_run A : is_u32 A →
  wp (lock_put ts;;
      rt_tcp_send ts TCP_FLAG_ACK;;
      S ← in_tf (sock_load ts);
      in_tkern (rtskb_queue_tail (incoming S) a);;
      in_tf (sem_up ts);;
      mret QUEUED) (λ v s', v = QUEUED ∧ queued A s') (now ((held A) <| sync_window := u16 (sync_window T - n) |>) S).
Proof.
  intros HA. apply wp_bind, st_unlock.
  assert (E1 : (held A) <| sync_window := u16 (sync_window T - n) |> <| socket_lock := false |> = taken A).
  { unfold held, taken. pose proof usable_T as [Hl _ _]. destruct T. cbn in *. by rewrite Hl. }
  rewrite E1. assert (Hu1 : usable (taken A)) by usable_tac.
  assert (Hnw : world true (now (taken A) S) ts (taken A) S C l lr li R lR) by (by apply now_world).
  apply wp_bind. eapply send_world; [exact Hnw|]. intros ret s' T' C' l' lr' Hw' Hn Hsent.
  edestruct sent_reply as (k1 & log & Es & Hlog & Hrep); [|exact Hnw|exact Hsent|]; [apply ack_not_ctl|]. subst s'.
  assert (HT' : T' = taken A).
  { assert (Hsk : tsock (st (now (taken A) S) ts k1 (twheel (now (taken A) S)) (taken A) S) ts T' S) by (eapply world_tsock; exact Hw').
    destruct Hsk as [Hk _]. cbn in Hk. rewrite lookup_insert_eq in Hk. by injection Hk. }
  subst T'. unfold now in *. rewrite st_st in *. change (twheel (st s ts (tkern s) (twheel s) (taken A) S)) with (twheel s) in *.
  apply wp_bind, st_sload. apply wp_bind.
  pose proof (wo_pkt _ _ _ _ _ _ _ _ _ _ _ _ _ _ _ _ _ _ _ _ _ _ _ Hw' eq_refl) as [Hlo _ _ _].
  eapply enqueue_world; [exact Hw'|]. intros k2 Hw2 Hlog2 HR. rewrite st_st in *.
  change (twheel (st s ts k1 (twheel s) (taken A) S)) with (twheel s) in *. apply wp_bind. unfold sem_up. apply st_supd.
  apply wp_ret. split; [done|]. specialize (HR a). change (tkern (st s ts k1 (twheel s) (taken A) S)) with k1 in *. rewrite (lo_skb _ _ _ _ _ Hlo) in HR.
  destruct (skbs k2 !! a) as [y|] eqn:Hy; [|done]. destruct HR as [Ey _].
  exists k2, C', l', lr', log, y. split_and!; try done.
  - rewrite <-(st_st s ts k2 (twheel s) (taken A) S). by eapply (world_upd _ _ _ _ _ _ _ _ _ _ _ _ _ (st s ts k2 (twheel s) (taken A) S)).
  - by rewrite Hlog2.
  - by rewrite Ey.
Qed.

Local Notation rcv_data := (rcv_data csum_partial csum_tcpudp_magic ip_fast_csum hard_header get_mtu drv_xmit).
Local Notation rcv_ack := (rcv_ack csum_partial csum_tcpudp_magic ip_fast_csum hard_header get_mtu drv_xmit).
Lemma data_run A : tcp_state T ≠ TCP_SYN_SENT → is_u32 A → wp (rcv_data ts a (held A) n) served (now (held A) S).
Proof.
  intros Hss HA. unfold Tcp.rcv_data. cbn [tcp_state held upd].
  destruct (Z.eqb_spec (tcp_state T) TCP_ESTABLISHED) as [E|E]; cbn [negb].
  2: { apply wp_bind, st_unlock, wp_ret. apply settle; [done|done|usable_tac|]. react_tac. constructor. }
  destruct (Z.eqb_spec n 0) as [En|En].
  { apply wp_bind, st_unlock, wp_ret. apply settle; [done|done|usable_tac|]. react_tac. constructor. }
  apply wp_bind, st_upd. cbn [sync_window upd]. eapply wp_mono; [|by apply data_queued_run].
  intros v s' (-> & k' & C' & l' & lr' & log & y & -> & Hw' & _). exists (taken A), upped, C', l', lr', R, lR. split; [done|].
  react_tac; [constructor|]. intros _. split_and!; try done. unfold acceptable in Hacc. apply orb_true_iff in Hacc as [?|?]; [lia|done].
Qed.

Lemma ack_run A : th_rst t = false → th_fin t = false → th_syn t = false → th_ack t = true → tcp_state T ≠ TCP_SYN_SENT → is_u32 A →
  wp (rcv_ack ts a (held A) t n) served (now (held A) S).
Proof.
  intros Hr Hf Hs Ha Hss HA. unfold Tcp.rcv_ack. cbn [tcp_state sync_seq held upd].
  destruct (rt_tcp_before _ _).
  { apply wp_bind, st_unlock, wp_ret. apply settle; [done|done|usable_tac|]. react_tac. constructor. }
  destruct (Z.eqb_spec (tcp_state T) TCP_LAST_ACK) as [E|_].
  { apply wp_bind, st_upd. apply wp_bind, st_unlock, wp_ret. apply settle; [done|done|usable_tac|]. react_tac; [rewrite E; by constructor|].
    unfold valid_ok. by rewrite E. }
  destruct (Z.eqb_spec (tcp_state T) TCP_FIN_WAIT1) as [E|_].
  { apply wp_bind, st_upd. apply wp_bind, st_unlock, wp_ret. apply settle; [done|done|usable_tac|]. react_tac; [rewrite E; by constructor|].
    unfold valid_ok. by rewrite E. }
  destruct (Z.eqb_spec (tcp_state T) TCP_SYN_RECV) as [E|_].
  { apply wp_bind, validate_run; [apply ka_T|]. apply wp_bind, st_unlock. apply wp_bind, st_upd, wp_ret.
    apply settle; [done|done|usable_tac|]. react_tac. rewrite E. by constructor. }
  destruct (Z.eqb_spec (tcp_state T) TCP_CLOSING) as [E|_].
  { apply wp_bind, st_upd. apply wp_bind, st_unlock, wp_ret. apply settle; [done|done|usable_tac|]. react_tac; [rewrite E; by constructor|].
    unfold valid_ok. by rewrite E. }
  by apply data_run.
Qed.

Lemma accepted_run : tcp_state T ≠ TCP_SYN_SENT →
  wp (rcv_accepted csum_partial csum_tcpudp_magic ip_fast_csum hard_header get_mtu drv_xmit ts a (held (sync_ack_seq T)) hdr t n)
     served (now (held (sync_ack_seq T)) S).
Proof.
  intros Hss. unfold rcv_accepted. destruct (th_rst t) eqn:Er; [by apply rst_run|].
  apply wp_bind, st_upd. apply wp_bind, st_load. change ((held (sync_ack_seq T)) <| sync_ack_seq := rt_tcp_compute_ack_seq t n |>) with (held (rt_tcp_compute_ack_seq t n)).
  pose proof (compute_ack_range t n) as HA. fold (now (held (rt_tcp_compute_ack_seq t n)) S).
  destruct (th_fin t) eqn:Ef; [by apply fin_run|]. destruct (th_syn t) eqn:Es; [by apply syn_run|].
  destruct (th_ack t) eqn:Ea; [by apply ack_run|by apply data_run].
Qed.

Lemma syn_sent_run : tcp_state T = TCP_SYN_SENT →
  wp (rcv_syn_sent csum_partial csum_tcpudp_magic ip_fast_csum hard_header get_mtu drv_xmit ts t n) served (now (held (sync_ack_seq T)) S).
Proof.
  intros E. pose proof (compute_ack_range t n) as HA. unfold rcv_syn_sent. apply wp_bind, st_upd.
  destruct (th_syn t && th_ack t) eqn:Esa.
  - apply andb_true_iff in Esa as [? ?]. apply wp_bind, validate_run; [apply ka_T|]. apply wp_bind, st_unlock. apply wp_bind, st_upd.
    apply settle_send; [done|done|done|usable_tac|]. react_tac. rewrite E. by constructor.
  - apply wp_bind, st_upd. apply wp_bind, st_unlock. apply wp_bind, st_upd. destruct Hhdr.
    apply settle_send; [done|done|done|usable_tac; by apply ntohl_range|]. react_tac; [rewrite E; by constructor|]. unfold valid_ok. by rewrite E.
Qed.
End branches.

(** ** The whole segment *)

Section segment.
Context `{Config}.
Context (csum_partial : list Z → Z → Z) (csum_tcpudp_magic : Z → Z → Z → Z → Z → Z) (ip_fast_csum : list Z → Z).
Context (hard_header : nat → option (nat → Z → list Z → list Z → Z → M kstate Z)).
Context (get_mtu : nat → Z → M kstate Z) (drv_xmit : nat → nat → M kstate Z) (link : nat → list Z → list Z).
Context (B : list (list nat)) (F : list nat) (Tm : route_map) (N : Z) (rst : nat) (SR : rtsocket) (a : nat) (x : rtskb).
Implicit Types (k : kstate) (s : tstate) (T R : tcp_socket) (S : rtsocket) (C : gmap nat (list nat)).
Local Notation world := (world hard_header get_mtu drv_xmit link B F Tm N rst SR a x).
Local Notation served := (served hard_header get_mtu drv_xmit link B F Tm N rst SR a x).
Local Notation rcv_old := (rcv_old csum_partial csum_tcpudp_magic ip_fast_csum hard_header get_mtu drv_xmit rst).
Local Notation rcv_segment := (rcv_segment csum_partial csum_tcpudp_magic ip_fast_csum hard_header get_mtu drv_xmit rst None).

(** Nothing happened to the socket. *)
Lemma reacts_none hdr t n T S v : v = DROP → reacts hdr t n T S v T S.
Proof. intros ->. split; try done; [constructor|auto]. Qed.
Lemma reacts_stay hdr t n T S v : v ≠ QUEUED → from_peer T hdr t = true → reacts hdr t n T S v T S.
Proof. intros Hv Hp. split; try done; [constructor|auto|by rewrite Hp]. Qed.

Lemma old_run hdr t n ts s T S C l lr li R lR :
  header_ok hdr t → world true s ts T S C l lr li R lR → from_peer T hdr t = true →
  wp (rcv_old ts (held T (sync_ack_seq T)) hdr t n) (served hdr t n ts T S li) (now ts s (held T (sync_ack_seq T)) S).
Proof.
  intros Hh Hwo Hp. assert (Hu : usable T) by (eapply world_usable; exact Hwo). assert (Hsk : tsock s ts T S) by (eapply world_tsock; exact Hwo).
  assert (Hl : (held T (sync_ack_seq T)) <| socket_lock := false |> = T) by (apply (locked_same T); apply Hu).
  unfold Tcp.rcv_old. destruct (rt_tcp_after _ _).
  - apply wp_bind, st_unlock. rewrite Hl. eapply settle_send; [exact Hwo|done|done|done|done|by apply reacts_stay].
  - apply wp_bind, st_unlock. rewrite Hl, st_id by done. destruct (_ && _).
    { apply wp_ret. exists T, S, C, l, lr, R, lR. split; [done|by apply reacts_none]. }
    apply wp_bind. destruct Hh as [Hsa Hda Hso Hde Hsq Hak Hwi]. eapply wp_mono; [|eapply reset_world; [exact Hwo|by split|apply ack_not_ctl|by apply ntohl_range|done]].
    intros [] s' (C' & R' & lR' & Hw'). apply wp_ret. exists T, S, C', l, lr, R', lR'. split; [done|by apply reacts_none].
Qed.

Lemma rcv_segment_run hdr t n ts s T S C l lr li R lR :
  header_ok hdr t → world true s ts T S C l lr li R lR →
  wp (rcv_segment ts a hdr t n) (served hdr t n ts T S li) s.
Proof.
  intros Hh Hwo. assert (Hu : usable T) by (eapply world_usable; exact Hwo). assert (Hsk : tsock s ts T S) by (eapply world_tsock; exact Hwo).
  assert (Hl : (held T (sync_ack_seq T)) <| socket_lock := false |> = T) by (apply (locked_same T); apply Hu).
  unfold Tcp.rcv_segment. apply wp_bind, (wp_st _ _ _ _ _ _ Hsk), st_lock; [apply Hu|]. apply wp_bind, st_load. apply wp_bind, wp_ret.
  apply wp_bind, st_load. change (T <| socket_lock := true |>) with (held T (sync_ack_seq T)). fold (now ts s (held T (sync_ack_seq T)) S).
  cbn [tcp_state ts_daddr ts_dport sync_ack_seq held upd].
  destruct (negb (tcp_state T =? TCP_LISTEN) && (negb (ts_daddr T =? iph_saddr hdr) || negb (ts_dport T =? th_source t))) eqn:Efor.
  { apply wp_bind, st_unlock, wp_ret. rewrite Hl, st_id by done. exists T, S, C, l, lr, R, lR. split; [done|by apply reacts_none]. }
  assert (Hp : from_peer T hdr t = true).
  { unfold from_peer. destruct (tcp_state T =? TCP_LISTEN); [done|]. cbn in *. by destruct (ts_daddr T =? iph_saddr hdr), (ts_dport T =? th_source t). }
  destruct (_ && (tcp_state T =? TCP_ESTABLISHED)).
  { apply wp_bind, st_unlock. rewrite Hl. eapply settle_send; [exact Hwo|done|done|done|done|by apply reacts_stay]. }
  destruct (Z.eqb_spec (tcp_state T) TCP_SYN_SENT) as [Es|Es].
  { eapply syn_sent_run; try done. unfold acceptable. by rewrite Es. }
  change (seq_in_window (held T (sync_ack_seq T)) t) with (seq_in_window T t).
  destruct (seq_in_window T t) eqn:Ew; cbn [negb]; [|by eapply old_run].
  eapply accepted_run; try done. unfold acceptable. by rewrite Ew, orb_true_r.
Qed.

(** New data on an established connection. *)
Record fresh_data T (hdr : iphdr) (t : tcphdr) (n : Z) : Prop := {
  fr_state : tcp_state T = TCP_ESTABLISHED;
  fr_peer : from_peer T hdr t = true;
  fr_window : seq_in_window T t = true;
  fr_some : n ≠ 0;
  fr_new : sync_ack_seq T ≠ u32 (ntohl (th_seq t) + 1);
  fr_plain : th_rst t = false ∧ th_fin t = false ∧ th_syn t = false;
  fr_ack : th_ack t = true → rt_tcp_before (u32 (sync_seq T + 1)) (ntohl (th_ack_seq t)) = false;
}.
Lemma fresh_ack_seq T hdr t n : fresh_data T hdr t n → rt_tcp_compute_ack_seq t n = u32 (ntohl (th_seq t) + n).
Proof. intros [_ _ _ _ _ (_ & Hf & Hs) _]. unfold rt_tcp_compute_ack_seq. by rewrite Hs, Hf. Qed.
Lemma segment_queued_run hdr t n ts s T S C l lr li R lR :
  world true s ts T S C l lr li R lR → fresh_data T hdr t n →
  wp (rcv_segment ts a hdr t n)
     (λ v s', v = QUEUED ∧ queued csum_partial csum_tcpudp_magic ip_fast_csum hard_header get_mtu drv_xmit link B F Tm N rst SR a x n ts s T S l li R lR
        (u32 (ntohl (th_seq t) + n)) s') s.
Proof.
  intros Hwo Hfr. pose proof Hfr as [Est Hp Hw Hn Hka (Hr & Hf & Hs) Hak]. assert (Hu : usable T) by (eapply world_usable; exact Hwo).
  assert (Hsk : tsock s ts T S) by (eapply world_tsock; exact Hwo).
  unfold Tcp.rcv_segment. apply wp_bind, (wp_st _ _ _ _ _ _ Hsk), st_lock; [apply Hu|]. apply wp_bind, st_load. apply wp_bind, wp_ret.
  apply wp_bind, st_load. change (T <| socket_lock := true |>) with (held T (sync_ack_seq T)).
  cbn [tcp_state ts_daddr ts_dport sync_ack_seq held upd]. unfold from_peer in Hp. rewrite Est in *. cbn [Z.eqb TCP_ESTABLISHED TCP_LISTEN negb andb orb] in *.
  apply andb_true_iff in Hp as [-> ->]. cbn [negb orb]. apply Z.eqb_neq in Hka as ->. cbn [andb]. change (TCP_ESTABLISHED =? TCP_SYN_SENT) with false. cbn [andb].
  change (seq_in_window (held T (sync_ack_seq T)) t) with (seq_in_window T t). rewrite Hw. cbn [negb].
  unfold rcv_accepted. rewrite Hr. apply wp_bind, st_upd. apply wp_bind, st_load. rewrite Hf, Hs.
  change ((held T (sync_ack_seq T)) <| sync_ack_seq := rt_tcp_compute_ack_seq t n |>) with (held T (rt_tcp_compute_ack_seq t n)).
  rewrite (fresh_ack_seq T hdr t n Hfr). set (A := u32 (ntohl (th_seq t) + n)).
  assert (HA : is_u32 A) by (apply Z.mod_pos_bound; lia).
  assert (Hd : wp (rcv_data csum_partial csum_tcpudp_magic ip_fast_csum hard_header get_mtu drv_xmit ts a (held T A) n)
    (λ v s', v = QUEUED ∧ queued csum_partial csum_tcpudp_magic ip_fast_csum hard_header get_mtu drv_xmit link B F Tm N rst SR a x n ts s T S l li R lR A s')
    (st s ts (tkern s) (twheel s) (held T A) S)).
  { unfold rcv_data. cbn [tcp_state held upd]. rewrite Est. cbn [Z.eqb TCP_ESTABLISHED negb]. apply Z.eqb_neq in Hn as ->.
    apply wp_bind, st_upd. cbn [sync_window upd].
    eapply data_queued_run with (hdr := hdr) (t := t); [exact Hwo|apply Hfr|unfold acceptable; by rewrite Hw, orb_true_r|done]. }
  destruct (th_ack t) eqn:Ea; [|exact Hd]. unfold rcv_ack. cbn [tcp_state sync_seq held upd]. rewrite Hak, Est by done. exact Hd.
Qed.
End segment.
