(* ===== verification/TcpReceive.v ===== *)
(** * TCP: received segments

    The theorems about [rt_tcp_rcv] and [rt_tcp_retransmit_ack]. *)
From S2P Require Import Prelude State RtskbQueue Rtskb RtskbData Rtdev Eth Iovec StackMgr Route RouteHost RouteOps IpFragment.
From S2P Require Import Socket IpOutput IpInput Arp Udp UdpOps Icmp Packet PacketOps PacketSend PacketClose Timerwheel.
From S2P Require Import Tcp TcpSend TcpOut TcpConn TcpRcv TcpFeed TcpStates.

Section receive.
Context `{Config}.
Context (csum_partial : list Z → Z → Z) (csum_tcpudp_magic : Z → Z → Z → Z → Z → Z) (ip_fast_csum : list Z → Z).
Context (hard_header : nat → option (nat → Z → list Z → list Z → Z → M kstate Z)).
Context (get_mtu : nat → Z → M kstate Z) (drv_xmit : nat → nat → M kstate Z) (link : nat → list Z → list Z).
Context (B : list (list nat)) (F : list nat) (Tm : route_map) (N : Z) (rst : nat) (SR : rtsocket) (a : nat) (x : rtskb).
Implicit Types (k : kstate) (s : tstate) (T R : tcp_socket) (S : rtsocket) (C : gmap nat (list nat)).
Local Notation world := (world hard_header get_mtu drv_xmit link B F Tm N rst SR a x).
Local Notation rt_tcp_rcv := (rt_tcp_rcv csum_partial csum_tcpudp_magic ip_fast_csum hard_header get_mtu drv_xmit rst None).

(** The segment [x] with its headers, for socket [ts]. *)
Record segment (ts : nat) (hdr : iphdr) (t : tcphdr) : Prop := {
  sg_sk : sk x = Some ts;
  sg_iph : iph x = Some hdr;
  sg_th : th x = Some t;
  sg_ok : header_ok hdr t;
}.
(** The bytes of data in it. *)
Definition data_length (t : tcphdr) : Z := u32 (len x - Z.shiftl (th_doff t) 2).

(** Acknowledgement and window do not concern the state. *)
Lemma fed_reacts hdr t n s ts T S v T1 S1 C l lr T' C' l' lr' :
  v ≠ DROP → reacts hdr t n T S v T1 S1 → fed s ts T1 S1 C l lr t T' C' l' lr' → reacts hdr t n T S v T' S1.
Proof.
  intros Hv [Hm Hok Hs Hq Hf Ho] (T2 & -> & Hack).
  assert (E2 : T2 = T1 <| timer_state := timer_state T2 |>).
  { destruct (th_ack t); [destruct Hack as [(-> & _)|(-> & _)]|destruct Hack as (-> & _)]; by destruct T1. }
  rewrite E2. split; try done.
  - intros [Hv1 Hs1]%Hok. split; [done|]. intros Hi. specialize (Hs1 Hi) as [b Hb]. cbn. rewrite Hb.
    repeat case_match; cbn; eauto.
  - intros Hp. destruct (Hf Hp) as [? _]. done.
Qed.

(** C3: [rt_tcp_rcv] takes every segment: it does not fault (the lock of the socket is never
    taken twice and is free in the end), and the resources of the socket and of the
    static socket are kept.  The segment is in the queue of the socket, with the
    semaphore raised, or back in the pool.  The state of the socket moves along the
    diagram [moves] only; it does not move for a sequence number outside the window; a
    segment that is not from the peer leaves the socket as it is; and the socket is valid
    exactly while the connection is established. *)
Theorem rt_tcp_rcv_correct s ts T S C l lr li R lR hdr t :
  world true s ts T S C l lr li R lR → segment ts hdr t → valid_ok T →
  wp (rt_tcp_rcv a)
     (λ _ s', ∃ v T' S' C' l' lr' li' R' lR',
        world false s' ts T' S' C' l' lr' li' R' lR' ∧ valid_ok T' ∧ reacts hdr t (data_length t) T S v T' S' ∧
        (v = QUEUED ∧ li' = li ++ [a] ∨ v ≠ QUEUED ∧ li' = li ∧ a ∈ l')) s.
Proof.
  intros Hwo [Hsk Hi Ht Hh] Hv. assert (Hts : tsock s ts T S) by (eapply world_tsock; exact Hwo).
  pose proof (wo_pkt _ _ _ _ _ _ _ _ _ _ _ _ _ _ _ _ _ _ _ _ _ _ _ Hwo eq_refl) as [Hlo _ _ _].
  unfold Tcp.rt_tcp_rcv. apply wp_bind, (wp_st _ _ _ _ _ _ Hts), st_kern. eapply wp_skb_load; [apply Hlo|].
  apply wp_bind. eapply wp_deref; [done|]. apply wp_bind. eapply wp_deref; [done|]. apply wp_bind. eapply wp_deref; [done|].
  rewrite st_id by done. apply wp_bind. eapply wp_mono; [|by eapply rcv_segment_run]. fold (data_length t).
  intros v s1 (T1 & S1 & C1 & l1 & lr1 & R1 & lR1 & Hw1 & Hr1). destruct v.
  - apply wp_bind. eapply feed_run; [exact Hw1|apply Hh|]. intros k2 w2 T2 C2 l2 lr2 Hw2 _ _ Hfed.
    apply (fed_reacts hdr t (data_length t) s1 ts T S FEED) in Hfed as Hr2; [|done|done].
    eapply free_world; [exact Hw2|]. intros k3 Hw3 _. exists FEED, T2, S1. eexists _, _, _, _, _, _. split; [exact Hw3|].
    split; [by apply Hr2|]. split; [done|]. right. split_and!; [done|done|set_solver].
  - eapply free_world; [exact Hw1|]. intros k3 Hw3 _. exists DROP, T1, S1. eexists _, _, _, _, _, _. split; [exact Hw3|].
    split; [by apply Hr1|]. split; [done|]. right. split_and!; [done|done|set_solver].
  - eapply feed_run; [exact Hw1|apply Hh|]. intros k2 w2 T2 C2 l2 lr2 Hw2 _ _ Hfed.
    apply (fed_reacts hdr t (data_length t) s1 ts T S QUEUED) in Hfed as Hr2; [|done|done].
    exists QUEUED, T2, S1. eexists _, _, _, _, _, _. split; [exact Hw2|]. split; [by apply Hr2|]. split; [done|]. by left.
Qed.

(** C5: Data on an established connection: the segment is put at the end of the socket's
    queue as it is and the semaphore is raised; the data is counted off the window; an
    acknowledgement of the last byte, with the smaller window, is sent to the peer unless
    there is no buffer or no way; then acknowledgement and window of the segment are
    processed. *)
Theorem rt_tcp_rcv_data s ts T S C l lr li R lR hdr t :
  world true s ts T S C l lr li R lR → segment ts hdr t → fresh_data T hdr t (data_length t) →
  let T1 := T <| sync_ack_seq := u32 (ntohl (th_seq t) + data_length t) |> <| sync_window := u16 (sync_window T - data_length t) |> in
  wp (rt_tcp_rcv a)
     (λ _ s', ∃ s1 T' C1 C' l1 l' lr1 lr' log y,
        world false s' ts T' (upped S) C' l' lr' (li ++ [a]) R lR ∧
        fed s1 ts T1 (upped S) C1 l1 lr1 t T' C' l' lr' ∧
        skbs (tkern s') !! a = Some y ∧ payload y = payload x ∧
        xmit_log (tkern s') = xmit_log (tkern s) ++ log ∧
        replied link Tm csum_partial csum_tcpudp_magic ip_fast_csum (now ts s T1 S) T1 S l TCP_FLAG_ACK log) s.
Proof.
  intros Hwo [Hsk Hi Ht Hh] Hfr T1. assert (Hts : tsock s ts T S) by (eapply world_tsock; exact Hwo).
  pose proof (wo_pkt _ _ _ _ _ _ _ _ _ _ _ _ _ _ _ _ _ _ _ _ _ _ _ Hwo eq_refl) as [Hlo _ _ _].
  unfold Tcp.rt_tcp_rcv. apply wp_bind, (wp_st _ _ _ _ _ _ Hts), st_kern. eapply wp_skb_load; [apply Hlo|].
  apply wp_bind. eapply wp_deref; [done|]. apply wp_bind. eapply wp_deref; [done|]. apply wp_bind. eapply wp_deref; [done|].
  rewrite st_id by done. apply wp_bind. eapply wp_mono; [|by eapply segment_queued_run].
  fold (data_length t). intros v s1 (-> & k1 & C1 & l1 & lr1 & log & y & -> & Hw1 & Hlog & Hrep & Hy & Hpy).
  change (taken (data_length t) T (u32 (ntohl (th_seq t) + data_length t))) with T1 in *.
  eapply feed_run; [exact Hw1|apply Hh|]. intros k2 w2 T2 C2 l2 lr2 Hw2 Hf2 Hlog2 Hfed. rewrite st_st in *.
  eexists _, T2, C1, C2, l1, l2, lr1, lr2, log, y. split_and!; [exact Hw2|exact Hfed| |done|by etransitivity; [exact Hlog2|]|exact Hrep].
  pose proof (wo_conn _ _ _ _ _ _ _ _ _ _ _ _ _ _ _ _ _ _ _ _ _ _ _ Hw1) as [_ Hin Hdis _ _ _].
  destruct (ib_waiting _ _ _ _ Hin a) as (z & d & Hz & _); [set_solver|].
  destruct (kf_skbs _ _ _ _ _ _ Hf2 a) as [E _]; [apply Hz|apply Hdis; set_solver|]. cbn. by rewrite E.
Qed.

(** [ack] acknowledges the first of the segments [lr], for which the timer [tm] runs; and
    the connection is open. *)
Definition first_acked (T : tcp_socket) (lr : list nat) (tm : timerwheel_timer) (ack : Z) : bool :=
  negb (bool_decide (lr = [])) && rt_tcp_before (nacked_first T) ack && (0 <=? tslot tm).
Definition acknowledges (T : tcp_socket) (lr : list nat) (tm : timerwheel_timer) (ack : Z) : bool :=
  first_acked T lr tm ack && negb (tcp_state T =? TCP_CLOSE).

(** C26: An acknowledgement of the first unacknowledged segment of an open connection whose
    timer runs empties the retransmission queue, whatever it says of the segments behind
    the first: all of them go back to the pool, and the counter of attempts is set back.
    Any other acknowledgement leaves queue, pool and socket as they are.  The timer is
    stopped, and in no slot of the wheel any more, exactly if it runs and the first
    segment of the queue is acknowledged, also in state CLOSE; otherwise the wheel is as
    it was. *)
Theorem rt_tcp_retransmit_ack_correct h s ts T S C l lr li R lR ack tm :
  world h s ts T S C l lr li R lR → timers (twheel s) !! ts = Some tm →
  wp (rt_tcp_retransmit_ack ts ack)
     (λ _ s', ∃ T' C' l' lr', world h s' ts T' S C' l' lr' li R lR ∧ xmit_log (tkern s') = xmit_log (tkern s) ∧
        (if acknowledges T lr tm ack then l' = l ++ lr ∧ lr' = [] ∧ T' = T <| timer_state := max_retransmits |>
         else l' = l ∧ lr' = lr ∧ T' = T) ∧
        if first_acked T lr tm ack
        then timers (twheel s') = <[ts := tm <| tslot := TIMERWHEEL_TIMER_UNUSED |>]> (timers (twheel s)) ∧
             ∀ i slot, ring (twheel s') !! i = Some slot → ts ∉ slot
        else twheel s' = twheel s) s.
Proof.
  intros Hwo Htm. eapply retransmit_ack_run; [exact Hwo|]. intros k' w' T' C' l' lr' Hw' _ Hlog Hack (tm1 & Htm1 & Hta).
  rewrite Htm in Htm1. injection Htm1 as <-. exists T', C', l', lr'. split; [done|]. split; [done|]. split; [|exact Hta].
  unfold acknowledges, first_acked. destruct Hack as [(-> & _ & -> & -> & Hwhy)|(-> & _ & -> & -> & Hlr & Hb & Hcl & tm' & Htm' & Hsl)].
  - match goal with |- if ?b then _ else _ => replace b with false end; [done|]. symmetry.
    destruct Hwhy as [->|[->|[->|(tm' & Htm' & Hsl)]]]; [done|by rewrite andb_false_r|by rewrite andb_false_r|].
    rewrite Htm in Htm'. injection Htm' as <-. replace (0 <=? tslot tm) with false by lia. by rewrite andb_false_r.
  - rewrite Htm in Htm'. injection Htm' as <-. rewrite bool_decide_eq_false_2, Hb by done. replace (0 <=? tslot tm) with true by lia. cbn [negb andb].
    apply Z.eqb_neq in Hcl as ->. done.
Qed.
End receive.
