(* ===== verification/TcpRetransmit.v ===== *)
(** * TCP: retransmission

    The handler of the timer that watches over the segments without acknowledgement. *)
From S2P Require Import Prelude State RtskbQueue Rtskb RtskbData Rtdev Eth Iovec StackMgr Route RouteHost RouteOps IpFragment.
From S2P Require Import Socket IpOutput IpInput Arp Udp UdpOps Icmp Packet PacketOps PacketSend PacketClose Timerwheel.
From S2P Require Import Tcp TcpSend TcpOut TcpConn TcpRcv TcpFeed TcpStates.

(** Running the first of two statements. *)
Lemma bind_to {S A B} (m : M S A) (g : A → M S B) s a s1 r : m s = Some (a, s1) → g a s1 = r → (m ≫= g) s = r.
Proof. unfold mbind, M_bind. by intros -> <-. Qed.

Section retransmit.
Context `{Config}.
Context (hard_header : nat → option (nat → Z → list Z → list Z → Z → M kstate Z)).
Context (get_mtu : nat → Z → M kstate Z) (drv_xmit : nat → nat → M kstate Z) (link : nat → list Z → list Z).
Context (B : list (list nat)) (F : list nat) (Tm : route_map) (N : Z) (rst : nat) (SR : rtsocket) (a : nat) (x : rtskb).
Implicit Types (k : kstate) (s : tstate) (T R : tcp_socket) (S : rtsocket) (C : gmap nat (list nat)).
Local Notation world := (world hard_header get_mtu drv_xmit link B F Tm N rst SR a x).
Local Notation rt_tcp_retransmit_handler := (rt_tcp_retransmit_handler drv_xmit).

(** The handler begins with the lock and a look at the queue. *)
Lemma handler_locked h s ts T S C l lr li R lR (Q : () → tstate → Prop) :
  world h s ts T S C l lr li R lR → lr ≠ [] → tcp_state T ≠ TCP_CLOSE →
  (let TL := T <| socket_lock := true |> in
   wp (if negb (timer_state T =? 0) then
         ts_upd ts (λ T, T <| timer_state := timer_state T - 1 |>);;
         in_wheel (timerwheel_add_timer ts rt_tcp_retransmission_timeout);;
         Q ← in_tkern (queue_load (retransmit_queue T));
         first_skb ← deref (first Q);
         S ← in_tf (sock_load ts);
         skb ← in_tkern (rtskb_clone first_skb (skb_pool S));
         lock_put ts;;
         ret ← in_tkern (rtdev_xmit drv_xmit skb);
         when (negb (ret =? 0)) (in_tkern (kfree_rtskb skb))
       else
         ts_upd ts (λ T, T <| timer_state := max_retransmits |>);;
         signal ← rt_tcp_socket_invalidate ts TCP_CLOSE;
         lock_put ts;;
         when signal (rt_tcp_socket_invalidate_signal ts)) Q (st s ts (tkern s) (twheel s) TL S)) →
  wp (rt_tcp_retransmit_handler ts) Q s.
Proof.
  intros Hwo Hlr Hst HK. assert (Hsk : tsock s ts T S) by (eapply world_tsock; exact Hwo).
  assert (Hu : usable T) by (eapply world_usable; exact Hwo).
  pose proof (wo_conn _ _ _ _ _ _ _ _ _ _ _ _ _ _ _ _ _ _ _ _ _ _ _ Hwo) as [[[_ _ _ _ _ _ Hib _ _] _ _ _] _ _ _ _ _].
  unfold Tcp.rt_tcp_retransmit_handler. apply wp_bind, (wp_st _ _ _ _ _ _ Hsk), st_lock; [apply Hu|]. apply wp_bind, st_load.
  cbn [retransmit_queue tcp_state timer_state upd]. apply wp_bind, st_kern. destruct Hib as [_ _ (Qr & HQr & Hqr) _].
  unfold rtskb_queue_empty. apply wp_bind. eapply wp_queue_load; [exact HQr|]. apply wp_ret.
  rewrite bool_decide_eq_false_2 by (destruct lr; [done|]; destruct Hqr as [[E _] _]; by rewrite E).
  apply Z.eqb_neq in Hst as ->. exact HK.
Qed.

(** A copy of the first segment [z] of the queue: it has its headers in front, and a
    buffer of the size all have. *)
Definition copyable (z : rtskb) : Prop :=
  buf_start z ≤ mac_raw z ≤ data z ∧ 0 ≤ end_ z - buf_start z ≤ SKB_DATA_ALIGN RTSKB_SIZE.

(** The copy of buffer [b] was taken from the pool. *)
Lemma clone_world h s ts T S C c l lr li R lR b z (Q : option nat → kstate → Prop) :
  world h s ts T S C (c :: l) lr li R lR → SKB_DATA_ALIGN RTSKB_SIZE < 2 ^ 32 → b ∈ lr → skbs (tkern s) !! b = Some z → copyable z →
  (∀ k' y, kframe [] [] (tkern s) C k' (<[skb_pool S := l]> C) → xmit_log k' = xmit_log (tkern s) →
     skbs k' !! c = Some y → payload y = payload z → rtdev y = rtdev z → Q (Some c) k') →
  wp (rtskb_clone b (skb_pool S)) Q (tkern s).
Proof.
  intros Hwo Hsz Hb Hz [Hmac Hend] HQ.
  pose proof (wo_conn _ _ _ _ _ _ _ _ _ _ _ _ _ _ _ _ _ _ _ _ _ _ _ Hwo) as [[[_ _ _ Hinv Hl Hbs Hib _ _] _ _ _] _ _ _ Hszs _].
  destruct (ib_waiting _ _ _ _ Hib b Hb) as (z' & d & Hlo & Hd & HD). pose proof (lo_skb _ _ _ _ _ Hlo) as Hz'. rewrite Hz in Hz'. injection Hz' as <-.
  assert (HN : ∀ e y, e ∈ c :: l → skbs (tkern s) !! e = Some y → length (buf y) = length (buf z)).
  { intros e y He Hy. apply Nat2Z.inj. rewrite (Hbs e y He Hy). symmetry. eapply Hszs; [|by apply lens_some]. set_solver. }
  eapply wp_mono; [|eapply (rtskb_clone_run (tkern s) C (skb_pool S) (c :: l) b z); try done; apply Hlo].
  cbn beta iota. intros r k1 (-> & Hs1 & Hca & (Hw1 & Ho1 & Hinv1 & Hu1) & y & Hy & _ & Hcl & _ & _ & _ & _ & Hly).
  assert (is_Some (skbs (tkern s) !! c)) as [zc Hzc] by (by eapply pool_buffer). destruct Hcl as (Ep & _ & _ & _ & _ & _ & _ & _ & _ & _ & Er & _).
  apply (HQ k1 y); [|by rewrite Hw1|done|done|done]. eapply kframe_take; try done; [by rewrite Hw1|].
  eapply lens_touch; [exact Hs1|exact Hzc|exact Hy|]. rewrite Hly. symmetry. apply (HN c); [set_solver|done].
Qed.

(** The connection is open and has attempts left. *)
Definition attempting T : bool := negb (tcp_state T =? TCP_CLOSE) && negb (timer_state T =? 0).

(** No buffer is left for the copy. *)
Lemma clone_empty h s ts T S C lr li R lR b z :
  world h s ts T S C [] lr li R lR → SKB_DATA_ALIGN RTSKB_SIZE < 2 ^ 32 → b ∈ lr → skbs (tkern s) !! b = Some z → copyable z →
  rtskb_clone b (skb_pool S) (tkern s) = Some (None, tkern s).
Proof.
  intros Hwo Hsz Hb Hz [Hmac Hend].
  pose proof (wo_conn _ _ _ _ _ _ _ _ _ _ _ _ _ _ _ _ _ _ _ _ _ _ _ Hwo) as [[[_ _ _ Hinv Hl _ Hib _ _] _ _ _] _ _ _ _ _].
  destruct (ib_waiting _ _ _ _ Hib b Hb) as (z' & d & Hlo & _). pose proof (lo_skb _ _ _ _ _ Hlo) as Hz'. rewrite Hz in Hz'. injection Hz' as <-.
  apply wp_exact. eapply wp_mono; [|eapply (rtskb_clone_run (tkern s) C (skb_pool S) [] b z); try done; [apply Hlo|apply Hlo|set_solver]]. done.
Qed.
(** The handler up to the end of its first part, in which an attempt is counted and the
    timer starts again: what follows decides, be it a fault. *)
Lemma attempt_run h s ts T S C l b lr li R lR :
  world h s ts T S C l (b :: lr) li R lR → tcp_state T ≠ TCP_CLOSE → timer_state T ≠ 0 →
  ∃ w', armed ts (twheel s) w' ∧
    rt_tcp_retransmit_handler ts s =
      (skb ← in_tkern (rtskb_clone b (skb_pool S));
       lock_put ts;;
       ret ← in_tkern (rtdev_xmit drv_xmit skb);
       when (negb (ret =? 0)) (in_tkern (kfree_rtskb skb)))
      (st s ts (tkern s) w' (T <| socket_lock := true |> <| timer_state := timer_state T - 1 |>) S).
Proof.
  intros Hwo Hst Hts. assert (Hsk : tsock s ts T S) by (eapply world_tsock; exact Hwo). pose proof (world_usable _ _ _ _ _ _ _ _ _ _ _ _ _ _ _ _ _ _ _ _ _ _ _ Hwo) as [Hlk _ _].
  pose proof (wo_conn _ _ _ _ _ _ _ _ _ _ _ _ _ _ _ _ _ _ _ _ _ _ _ Hwo) as [[[_ _ _ _ _ _ Hib Hwh [tm Htm]] _ _ _] _ _ _ _ _].
  pose proof Hib as [_ _ (Qr & HQr & [[Hq0 _] _]) _]. cbn in HQr, Hq0.
  assert (Harm : wp (timerwheel_add_timer ts rt_tcp_retransmission_timeout) (λ _ w', armed ts (twheel s) w') (twheel s)) by (by eapply armed_run).
  apply wp_elim in Harm as (ret & w' & Ew & Hw'). exists w'. split; [done|].
  transitivity (rt_tcp_retransmit_handler ts (st s ts (tkern s) (twheel s) T S)); [by rewrite st_id|].
  unfold Tcp.rt_tcp_retransmit_handler.
  eapply bind_to; [apply wp_exact, st_lock; [done|by split]|]. eapply bind_to; [apply wp_exact, st_load; by split|].
  cbn [retransmit_queue tcp_state timer_state upd].
  eapply (bind_to _ _ _ false); [apply wp_exact, st_kern; unfold rtskb_queue_empty; apply wp_bind; eapply wp_queue_load; [exact HQr|]; apply wp_ret; split; [|done];
    rewrite bool_decide_eq_false_2; [done|by rewrite Hq0]|].
  apply Z.eqb_neq in Hst as ->, Hts as ->. cbn [negb].
  eapply bind_to; [apply wp_exact, st_upd; by split|].
  eapply (bind_to _ _ _ ret); [apply wp_exact, st_wheel; eapply wp_intro; [exact Ew|by split]|].
  eapply bind_to; [apply wp_exact, st_kern; eapply wp_queue_load; [exact HQr|by split]|].
  eapply bind_to; [rewrite Hq0; reflexivity|]. eapply bind_to; [apply wp_exact, st_sload; by split|]. reflexivity.
Qed.
(** An attempt without a buffer for the copy.  Where the assertions of RTnet are checked
    ([CONFIG_RTNET_CHECKED]), the NULL pointer is refused and nothing is sent; otherwise it
    is dereferenced. *)
Lemma attempt_empty h s ts T S C b lr li R lR z :
  world h s ts T S C [] (b :: lr) li R lR → tcp_state T ≠ TCP_CLOSE → timer_state T ≠ 0 →
  SKB_DATA_ALIGN RTSKB_SIZE < 2 ^ 32 → skbs (tkern s) !! b = Some z → copyable z →
  ∃ w', armed ts (twheel s) w' ∧ rt_tcp_retransmit_handler ts s =
    if CONFIG_RTNET_CHECKED then Some ((), st s ts (tkern s) w' (T <| timer_state := timer_state T - 1 |>) S) else None.
Proof.
  intros Hwo Hst Hts Hsz Hz Hcp. destruct (attempt_run h s ts T S C [] b lr li R lR Hwo Hst Hts) as (w' & Hw' & ->).
  exists w'. split; [done|]. pose proof (world_usable _ _ _ _ _ _ _ _ _ _ _ _ _ _ _ _ _ _ _ _ _ _ _ Hwo) as [Hlk _ _].
  eapply (bind_to _ _ _ None); [apply wp_exact, st_kern; eapply wp_intro; [by eapply (clone_empty h s ts T S C (b :: lr)); [exact Hwo|done|set_solver|exact Hz|]|by split]|].
  eapply bind_to; [apply wp_exact, st_unlock; by split|].
  assert (ET : T <| socket_lock := true |> <| timer_state := timer_state T - 1 |> <| socket_lock := false |> = T <| timer_state := timer_state T - 1 |>).
  { destruct T. cbn in *. by rewrite Hlk. }
  rewrite ET. unfold rtdev_xmit, assert_fails. destruct CONFIG_RTNET_CHECKED eqn:Ek; cbn [andb negb].
  - eapply (bind_to _ _ _ (- EINVAL)); [apply wp_exact, st_kern, wp_ret; by split|]. cbn [Z.eqb negb when]. apply wp_exact, st_kern.
    unfold kfree_rtskb, assert_fails. rewrite Ek. cbn. by apply wp_ret.
  - reflexivity.
Qed.
(** An attempt: the first segment goes out from a copy in buffer [c]. *)
Lemma attempt_sent h s ts T S C c l b lr li R lR z d :
  world h s ts T S C (c :: l) (b :: lr) li R lR → tcp_state T ≠ TCP_CLOSE → timer_state T ≠ 0 →
  SKB_DATA_ALIGN RTSKB_SIZE < 2 ^ 32 → skbs (tkern s) !! b = Some z → copyable z → rtdev z = Some d →
  wp (rt_tcp_retransmit_handler ts)
     (λ _ s', ∃ C', world h s' ts (T <| timer_state := timer_state T - 1 |>) S C' l (b :: lr) li R lR ∧
        armed ts (twheel s) (twheel s') ∧ xmit_log (tkern s') = xmit_log (tkern s) ++ [(d, c, payload z)]) s.
Proof.
  intros Hwo Hst Hts Hsz Hz Hcp Hd. destruct (attempt_run h s ts T S C (c :: l) b lr li R lR Hwo Hst Hts) as (w' & Hw' & E).
  unfold wp at 1. rewrite E. match goal with |- match ?m ?t with _ => _ end => change (wp m (λ _ s', ∃ C', world h s' ts (T <| timer_state := timer_state T - 1 |>) S C' l (b :: lr) li R lR ∧
        armed ts (twheel s) (twheel s') ∧ xmit_log (tkern s') = xmit_log (tkern s) ++ [(d, c, payload z)]) t) end.
  assert (Hu : usable T) by (eapply world_usable; exact Hwo).
  pose proof (wo_conn _ _ _ _ _ _ _ _ _ _ _ _ _ _ _ _ _ _ _ _ _ _ _ Hwo) as [[[_ _ _ Hinv HlC _ Hib Hwh _] [_ _ Hdev _ _] _ _] _ _ _ _ Hka].
  apply wp_bind, st_kern. eapply clone_world; [exact Hwo|done|set_solver|exact Hz|done|]. intros k1 y Hf Hlog Hy Hpy Hry.
  apply wp_bind, st_unlock. destruct (ib_waiting _ _ _ _ Hib b) as (z' & d' & Hlo & Hd' & [D HD]); [set_solver|].
  pose proof (lo_skb _ _ _ _ _ Hlo) as Hz'. rewrite Hz in Hz'. injection Hz' as <-. rewrite Hd in Hd'. injection Hd' as <-.
  apply wp_bind, st_kern. eapply wp_mono; [|eapply (xmit_run drv_xmit d D k1 c y); [apply (Hdev d D HD)|done|by rewrite Hry|by rewrite (kf_devs _ _ _ _ _ _ Hf)]].
  intros r k2 [-> ->]. cbn [Z.eqb negb when]. apply wp_ret. exists (<[skb_pool S := l]> C).
  assert (ET : T <| socket_lock := true |> <| timer_state := timer_state T - 1 |> <| socket_lock := false |> = T <| timer_state := timer_state T - 1 |>).
  { destruct Hu as [Hlk _ _]. destruct T. cbn in *. by rewrite Hlk. }
  rewrite ET. split; [|split; [done|cbn; by rewrite Hlog, Hpy]].
  eapply world_step; [exact Hwo|apply kframe_log; eapply kframe_mono; [| |exact Hf]; set_solver|..]; try done.
  - by destruct Hu as [? [] ?].
  - apply lookup_insert_eq.
  - rewrite lookup_insert_ne; [apply Hwo|]. pose proof (wo_pool _ _ _ _ _ _ _ _ _ _ _ _ _ _ _ _ _ _ _ _ _ _ _ Hwo). congruence.
  - apply inbox_log. eapply kframe_inbox; [exact Hf|exact Hib|set_solver|set_solver].
  - set_solver.
  - by eapply armed_step.
Qed.

(** C11: The timer of a socket with unacknowledged segments expires.  As long as attempts are
    left, the first segment is sent again, byte by byte as before, through the device it
    was sent by, from a copy: the segment stays in the queue, there is one attempt less,
    and the timer is in the slot that is served five intervals later.  Without a free
    buffer nothing is sent, with the same effect on timer and attempts, if assertions are
    checked; else the handler dereferences a NULL pointer.  After the last attempt the
    connection is given up: the socket is closed, and readers and writers are woken up by
    the end of semaphore and event.  A socket that is closed is left alone. *)
Theorem rt_tcp_retransmit_handler_correct h s ts T S C l b lr li R lR z d :
  world h s ts T S C l (b :: lr) li R lR → SKB_DATA_ALIGN RTSKB_SIZE < 2 ^ 32 →
  skbs (tkern s) !! b = Some z → copyable z → rtdev z = Some d →
  if attempting T && bool_decide (l = []) && negb CONFIG_RTNET_CHECKED then rt_tcp_retransmit_handler ts s = None
  else wp (rt_tcp_retransmit_handler ts)
     (λ _ s', ∃ T' S' C' l', world h s' ts T' S' C' l' (b :: lr) li R lR ∧
        if tcp_state T =? TCP_CLOSE then s' = s
        else if timer_state T =? 0 then
          T' = T <| tcp_state := TCP_CLOSE |> <| is_valid := false |> <| timer_state := max_retransmits |>
                 <| send_evt := if is_valid T then None else send_evt T |> ∧
          S' = hung T S ∧ l' = l ∧ twheel s' = twheel s ∧ xmit_log (tkern s') = xmit_log (tkern s)
        else
          T' = T <| timer_state := timer_state T - 1 |> ∧ S' = S ∧ armed ts (twheel s) (twheel s') ∧ l' = drop 1 l ∧
          xmit_log (tkern s') = xmit_log (tkern s) ++ match l with [] => [] | c :: _ => [(d, c, payload z)] end) s.
Proof.
  intros Hwo Hsz Hz Hcp Hd. unfold attempting. assert (Hsk : tsock s ts T S) by (eapply world_tsock; exact Hwo).
  assert (Hu : usable T) by (eapply world_usable; exact Hwo).
  pose proof (wo_conn _ _ _ _ _ _ _ _ _ _ _ _ _ _ _ _ _ _ _ _ _ _ _ Hwo) as [[[_ _ _ _ _ _ Hib _ _] _ _ _] _ _ _ _ Hka].
  destruct (Z.eqb_spec (tcp_state T) TCP_CLOSE) as [Ec|Ec]; cbn [negb andb].
  { destruct Hib as [_ _ (Qr & HQr & [[Hq0 _] _]) _]. cbn in Hq0.
    unfold Tcp.rt_tcp_retransmit_handler. apply wp_bind, (wp_st _ _ _ _ _ _ Hsk), st_lock; [apply Hu|]. apply wp_bind, st_load.
    cbn [retransmit_queue tcp_state timer_state upd]. apply wp_bind, st_kern. unfold rtskb_queue_empty. apply wp_bind.
    eapply wp_queue_load; [exact HQr|]. apply wp_ret. rewrite bool_decide_eq_false_2 by (by rewrite Hq0). rewrite Ec. cbn [Z.eqb TCP_CLOSE Pos.eqb].
    apply st_unlock. rewrite locked_same, st_id by (done || apply Hu). by exists T, S, C, l. }
  destruct (Z.eqb_spec (timer_state T) 0) as [E0|E0]; cbn [negb andb].
  { eapply handler_locked; [exact Hwo|done|done|]. rewrite E0. cbn [Z.eqb negb]. cbv zeta. apply wp_bind, st_upd.
    apply hangup_end; [done|]. set (T1 := ended _ _).
    assert (E1 : T1 = T <| tcp_state := TCP_CLOSE |> <| is_valid := false |> <| timer_state := max_retransmits |>
                        <| send_evt := if is_valid T then None else send_evt T |>).
    { unfold T1, ended. destruct Hu as [Hlk _ _]. destruct T. cbn in *. by rewrite Hlk. }
    exists T1, (hung T S), C, l. split; [|by split_and!]. eapply world_upd; [exact Hwo|done|]. by destruct Hu as [? [] ?]. }
  destruct l as [|c l].
  - destruct (attempt_empty h s ts T S C b lr li R lR z Hwo Ec E0 Hsz Hz Hcp) as (w' & Hw' & E).
    rewrite bool_decide_eq_true_2 by done. cbn [andb]. destruct CONFIG_RTNET_CHECKED; cbn [negb]; [|exact E].
    eapply wp_intro; [exact E|]. eexists _, S, C, []. split; [|split_and!; [done|done|done|done|by rewrite app_nil_r]].
    pose proof (sd_inv _ _ _ _ _ _ _ _ (ol_sender _ _ _ _ _ _ _ _ _ _ _ _ _ _ _ (cn_out _ _ _ _ _ _ _ _ _ _ _ _ _ _ _ _ (wo_conn _ _ _ _ _ _ _ _ _ _ _ _ _ _ _ _ _ _ _ _ _ _ _ Hwo)))) as Hinv.
    eapply world_step; [exact Hwo|by apply kframe_refl|..]; try done; [by destruct Hu as [? [] ?]|apply Hwo|apply Hwo|by eapply armed_step].
  - rewrite bool_decide_eq_false_2 by done. cbn [andb]. eapply wp_mono; [|by eapply attempt_sent].
    intros _ s' (C' & Hw' & Ha & Hlog). by exists (T <| timer_state := timer_state T - 1 |>), S, C', l.
Qed.

(** With an empty queue the handler does not return: it asks for the lock it holds. *)
Theorem retransmit_handler_deadlock h s ts T S C l li R lR :
  world h s ts T S C l [] li R lR → rt_tcp_retransmit_handler ts s = None.
Proof.
  intros Hwo. assert (Hsk : tsock s ts T S) by (eapply world_tsock; exact Hwo). destruct Hsk as [HT _].
  assert (Hu : usable T) by (eapply world_usable; exact Hwo). destruct Hu as [Hlk _ _].
  pose proof (wo_conn _ _ _ _ _ _ _ _ _ _ _ _ _ _ _ _ _ _ _ _ _ _ _ Hwo) as [[[_ _ _ _ _ _ Hib _ _] _ _ _] _ _ _ _ _].
  destruct Hib as [_ _ (Q & HQ & [Hq _]) _]. cbn in HQ, Hq.
  unfold Tcp.rt_tcp_retransmit_handler, lock_get, ts_upd, ts_load, mbind, M_bind, gets, deref, modify. rewrite HT, Hlk. cbn. rewrite HT. cbn.
  rewrite lookup_insert_eq. cbn. unfold in_tkern, in_tf, in_fkern, zoom, rtskb_queue_empty, queue_load, mbind, M_bind, gets, deref. cbn.
  change (fkern (tf s)) with (tkern s). rewrite HQ. cbn. rewrite Hq. cbn. by rewrite lookup_insert_eq.
Qed.
End retransmit.
