(* ===== verification/TcpRead.v ===== *)
(** * TCP: reading from a connection

    [rt_tcp_read] takes the data out of the segments that wait at the socket; what is not
    asked for stays at the head of the queue for the next call. *)
From S2P Require Import Prelude State RtskbQueue Rtskb RtskbData Rtdev Eth Iovec StackMgr Route RouteHost RouteOps IpFragment.
From S2P Require Import Socket IpOutput IpInput Arp Udp UdpOps Icmp Packet PacketOps PacketSend PacketClose Timerwheel.
From S2P Require Import Tcp TcpSend TcpOut TcpConn TcpRcv TcpFeed TcpStates.

(** ** The data of a segment *)

Section segment.
Context `{Config}.
Implicit Types (x y : rtskb) (bytes : list Z).

(** The next reader of segment [x] gets [bytes]: as many bytes as the header says are
    skipped.  The header lies before the data, but not always right before it: see
    [put_back]. *)
Record readable x bytes : Prop := {
  rb_wf : wf_rtskb x;
  rb_th : ∃ t p, th x = Some t ∧ payload x = p ++ bytes ∧ Z.of_nat (length p) = Z.shiftl (th_doff t) 2 ∧
            TCPHDR_LEN ≤ Z.of_nat (length p) ∧ h_raw x + TCPHDR_LEN ≤ data x + Z.of_nat (length p);
}.
(** The segment without its header. *)
Record opened x bytes : Prop := {
  op_wf : wf_rtskb x;
  op_data : payload x = bytes;
  op_head : buf_start x ≤ h_raw x ∧ h_raw x + TCPHDR_LEN ≤ data x;
  op_room : buf_start x + TCPHDR_LEN ≤ data x;
  op_th : is_Some (th x);
}.
Lemma th_range x t : th x = Some t → buf_start x ≤ h_raw x ∧ h_raw x + TCPHDR_LEN ≤ buf_start x + Z.of_nat (length (buf x)).
Proof.
  unfold th, buf_read. destruct (_ && _) eqn:E; [|done]. intros _. rewrite !andb_true_iff in E. lia.
Qed.
Lemma readable_open x t p bytes :
  wf_rtskb x → th x = Some t → payload x = p ++ bytes → TCPHDR_LEN ≤ Z.of_nat (length p) →
  h_raw x + TCPHDR_LEN ≤ data x + Z.of_nat (length p) →
  snd (__rtskb_pull (Z.of_nat (length p)) x) = pulled (Z.of_nat (length p)) x ∧ opened (pulled (Z.of_nat (length p)) x) bytes.
Proof.
  intros Hwf Ht Hp Hl Hh. pose proof (length_payload _ Hwf) as Hlen. rewrite Hp, length_app in Hlen.
  assert (E : snd (__rtskb_pull (Z.of_nat (length p)) x) = pulled (Z.of_nat (length p)) x) by (apply pulled_eq; [done|lia]).
  split; [done|]. destruct (pulled_ok (Z.of_nat (length p)) x Hwf ltac:(lia)) as [Hw Hpl].
  destruct (th_range _ _ Ht) as [Hr _]. split; [done| |split; cbn; lia| |by exists t].
  - rewrite Hpl, Hp, Nat2Z.id. apply drop_app_length.
  - cbn. destruct Hwf. lia.
Qed.

(** [n] bytes are read, and the rest gets room for a header in front; the old header is
    the one that counts, with its length set to 5 words. *)
Definition put_back (n v : Z) x : rtskb :=
  let o := Z.to_nat (h_raw x + 12 - buf_start x) in
  x <| len := len x - n + TCPHDR_LEN |> <| data := data x + n - TCPHDR_LEN |>
    <| buf := take o (buf x) ++ [v] ++ drop (o + 1) (buf x) |>.
Lemma splice_length {A} (o : nat) (v : A) l : (o < length l)%nat → length (take o l ++ [v] ++ drop (o + 1) l) = length l.
Proof. intros Ho. rewrite !length_app, length_take, length_drop. cbn. lia. Qed.
Lemma splice_drop {A} (o m : nat) (v : A) l : (o < m)%nat → (o < length l)%nat → drop m (take o l ++ [v] ++ drop (o + 1) l) = drop m l.
Proof.
  intros Hm Ho. rewrite app_assoc, drop_app_ge; rewrite length_app, length_take; cbn; [|lia]. rewrite drop_drop. f_equal. lia.
Qed.
Lemma th_put_back n v x :
  wf_rtskb x → is_Some (th x) → Z.shiftr v 4 = 5 → ∃ t, th (put_back n v x) = Some t ∧ Z.shiftl (th_doff t) 2 = TCPHDR_LEN.
Proof.
  intros Hwf [t Ht] Hv. destruct (th_range _ _ Ht) as [Hr1 Hr2]. change TCPHDR_LEN with 20 in *. revert Ht. unfold th.
  rewrite !buf_read_range by (unfold put_back; cbn [h_raw buf_start buf upd]; rewrite ?splice_length; lia || done).
  unfold put_back. cbn [h_raw buf_start buf upd]. set (o := Z.to_nat (h_raw x - buf_start x)).
  replace (Z.to_nat (h_raw x + 12 - buf_start x)) with (o + 12)%nat by lia.
  assert (Hl : (length (drop o (buf x)) ≥ 20)%nat) by (rewrite length_drop; lia).
  assert (E : drop o (take (o + 12) (buf x) ++ [v] ++ drop (o + 12 + 1) (buf x)) =
              take 12 (drop o (buf x)) ++ [v] ++ drop 13 (drop o (buf x))).
  { rewrite drop_app_le by (rewrite length_take; rewrite length_drop in Hl; lia). f_equal; [|by rewrite drop_drop, <-Nat.add_assoc].
    rewrite skipn_firstn_comm. f_equal. lia. }
  rewrite E. change (Z.to_nat TCPHDR_LEN) with 20%nat. generalize dependent (drop o (buf x)). intros b Hl _.
  do 20 (destruct b as [|? b]; [cbn in Hl; lia|]). cbn -[rd16 rd32]. intros Ht.
  repeat match type of Ht with context [rd16 ?l] => destruct (rd16 l); [|done] | context [rd32 ?l] => destruct (rd32 l); [|done] end.
  eexists. split; [reflexivity|]. cbn [th_doff]. by rewrite Hv.
Qed.
Lemma put_back_readable n v x bytes :
  opened x bytes → 0 ≤ n < Z.of_nat (length bytes) → Z.shiftr v 4 = 5 →
  wf_rtskb (put_back n v x) ∧ length (buf (put_back n v x)) = length (buf x) ∧ readable (put_back n v x) (drop (Z.to_nat n) bytes).
Proof.
  intros [Hwf <- [Hh1 Hh2] Hro Hth] Hn Hv. pose proof (length_payload _ Hwf) as Hlen. rewrite Hlen in Hn. pose proof Hwf as [H1 H2 H3 H4 H5].
  change TCPHDR_LEN with 20 in *. set (o := Z.to_nat (h_raw x + 12 - buf_start x)).
  assert (Ho : (o < length (buf x))%nat) by lia.
  assert (El : length (buf (put_back n v x)) = length (buf x)) by (by apply splice_length).
  assert (Hwf' : wf_rtskb (put_back n v x)).
  { split; rewrite ?El; unfold put_back; cbn [len data tail buf_start upd]; change TCPHDR_LEN with 20; lia. }
  split; [done|]. split; [done|]. split; [done|]. destruct (th_put_back n v x Hwf Hth Hv) as (t & Ht & Hd).
  set (off := Z.to_nat (data x + n - 20 - buf_start x)). exists t, (take 20 (drop off (buf (put_back n v x)))).
  assert (E20 : length (take 20 (drop off (buf (put_back n v x)))) = 20%nat) by (rewrite length_take, length_drop, El; lia).
  rewrite E20, Hd. split; [done|]. split; [|split_and!; [done|done|unfold put_back; cbn; change TCPHDR_LEN with 20; lia]].
  unfold payload. change (data (put_back n v x)) with (data x + n - 20). change (len (put_back n v x)) with (len x - n + 20).
  change (buf_start (put_back n v x)) with (buf_start x). fold off.
  replace (Z.to_nat (len x - n + 20)) with (20 + Z.to_nat (len x - n))%nat by lia.
  rewrite <-(take_drop 20 (drop off _)) at 1. rewrite take_app_add' by done. f_equal.
  rewrite drop_drop. unfold put_back. cbn [buf upd]. fold o. rewrite splice_drop by lia.
  rewrite skipn_firstn_comm, drop_drop. f_equal; [lia|]. f_equal. lia.
Qed.
End segment.

(** ** The segment in the hands of the reader *)

Section read.
Context `{Config}.
Context (hard_header : nat → option (nat → Z → list Z → list Z → Z → M kstate Z)).
Context (get_mtu : nat → Z → M kstate Z) (drv_xmit : nat → nat → M kstate Z) (link : nat → list Z → list Z).
Context (B : list (list nat)) (F : list nat) (Tm : route_map) (N : Z) (rst : nat) (SR : rtsocket).
Implicit Types (k : kstate) (s : tstate) (T R : tcp_socket) (S : rtsocket) (C : gmap nat (list nat)) (x y : rtskb) (a : nat).
Local Notation world := (world hard_header get_mtu drv_xmit link B F Tm N rst SR).

(** The memory of the application does not concern the connection. *)
Lemma world_mem a x h s ts T S C l lr li R lR m :
  world a x h s ts T S C l lr li R lR → world a x h (s <| tmem := m |>) ts T S C l lr li R lR.
Proof.
  intros [[[[[] ? ? ? ? ? ? ? ?] [] ? ?] ? ? ? ? ?] [[[] ? ? ? ? ? ? ? ?] [] ? ?] ? ? ? ?].
  repeat (first [done | split]).
Qed.

(** A step on the buffers of the reader. *)
Lemma reader_step a x h s ts T S C l lr li R lR W Wq k' S' a' x' h' li' :
  world a x h s ts T S C l lr li R lR → kframe W Wq (tkern s) C k' C → same_box T S T S' →
  retransmit_queue T ∉ Wq → retransmit_queue R ∉ Wq → (∀ b, b ∈ lr → b ∉ W) →
  inbox k' C S li' → (∀ b, b ∈ li' → b ∉ lr) →
  (∀ b, b ∈ li' → b ∈ li ∨ lens (tkern s) !! b = Some (Z.to_nat N) ∧ 0 ≤ N) →
  (h' = true → packet N a' x' k' C S lr li') →
  world a' x' h' (st s ts k' (twheel s) T S') ts T S' C l lr li' R lR.
Proof.
  intros Hwo Hf Hsb Hq1 Hq2 Hlr Hin Hdis Hsz Hpk. pose proof Hwo as [Hc Ho Hne Hp Hq _].
  pose proof Hsb as [_ _ _ E4 E5]. pose proof Hc as [[[_ _ _ _ Hl _ Hib Hw _] _ _ _] _ _ _ _ _].
  pose proof Ho as [[_ _ _ _ HlR _ _ _ _] _ _ _]. split.
  - eapply conn_gen; try done; [eapply world_usable; exact Hwo|eapply kframe_inbox; [exact Hf|exact Hib|done|done]|].
    intros b. rewrite !elem_of_app. intros [?|[?|Hb]]; [tauto..|]. specialize (Hsz b Hb). tauto.
  - by eapply outlet_other.
  - done.
  - by rewrite E4.
  - by rewrite E5.
  - intros Hh. destruct (Hpk Hh) as [Hlo Hd Hsz' Hn]. by split; [rewrite E4|..].
Qed.

(** The first segment is taken out of the queue. *)
Lemma dequeue_world a x a0 x0 s ts T S C l lr li R lR (Q : option nat → tstate → Prop) :
  world a0 x0 false s ts T S C l lr (a :: li) R lR → skbs (tkern s) !! a = Some x →
  (∀ k', world a (x <| next := None |>) true (st s ts k' (twheel s) T S) ts T S C l lr li R lR →
     xmit_log k' = xmit_log (tkern s) → devs k' = devs (tkern s) → (∀ b, b ∈ li → skbs k' !! b = skbs (tkern s) !! b) → Q (Some a) (st s ts k' (twheel s) T S)) →
  wp (in_tkern (rtskb_dequeue_chain (incoming S))) Q s.
Proof.
  intros Hwo Hx HQ. pose proof (world_tsock _ _ _ _ _ _ _ _ _ _ _ _ _ _ _ _ _ _ _ _ _ _ _ Hwo) as Hsk.
  pose proof Hwo as [Hc Ho _ _ [Hq1 Hq2] _]. pose proof Hc as [[[_ _ _ Hinv _ _ _ _ _] _ _ _] Hin Hdis Hqs Hsz _].
  pose proof Hin as [_ _ (Q0 & HQ0 & Hq) Hwt]. assert (Hwa : waiting (tkern s) C (skb_pool S) a) by (apply Hwt; set_solver).
  apply (wp_st _ _ _ _ _ _ Hsk), st_kern.
  eapply wp_mono; [|apply wp_both; [by eapply inbox_dequeue_chain_run|eapply (dequeue_chain_spec _ _ Q0 a [a] li); [done|exact Hq|by eapply waiting_chain]]].
  intros r k' [(-> & Hinv' & Hin' & Hwa' & Hw & Ho' & HR & Ha) (_ & h' & Q' & -> & _ & [_ (y & Hy & Hny)] & _ & _)]. cbn in Hny.
  assert (Ey : y = x <| next := None |>).
  { specialize (HR a). cbn in HR. rewrite Hx, Hy in HR. destruct HR as [-> _]. cbn in Hny. by rewrite Hny. }
  subst y. apply HQ; [|done|done|intros b Hb; eapply relinked_out; [exact HR|set_solver]].
  assert (Hf : kframe [a] [incoming S] (tkern s) C ((tkern s) <| skbs := h' |> <| queues := <[incoming S := Q']> (queues (tkern s)) |>) C)
    by (by eapply relinked_kframe).
  eapply reader_step; [exact Hwo|exact Hf|done|set_solver|set_solver|intros b Hb; specialize (Hdis a); set_solver|done|
    intros b Hb; apply Hdis; set_solver|set_solver|].
  intros _. destruct Hwa' as (z & d & Hlo & Hd & HD). pose proof (lo_skb _ _ _ _ _ Hlo) as Hz. cbn in Hz. rewrite Hy in Hz. injection Hz as <-.
  split; [done|by exists d| |split; [apply Hdis; set_solver|done]].
  apply (Hsz a); [set_solver|]. by apply lens_some in Hx.
Qed.
(** The reader changes the segment. *)
Definition alike x y : Prop :=
  wf_rtskb y ∧ chain_end y = chain_end x ∧ pool y = pool x ∧ cap_flags y = cap_flags x ∧ rtdev y = rtdev x ∧ length (buf y) = length (buf x).
Lemma touch_world a x y s ts T S C l lr li R lR :
  world a x true s ts T S C l lr li R lR → alike x y →
  world a y true (st s ts (upd_skb a y (tkern s)) (twheel s) T S) ts T S C l lr li R lR.
Proof.
  intros Hwo (Hwf & E1 & E2 & E3 & E4 & E5). pose proof Hwo as [Hc Ho _ _ _ Hpk]. destruct (Hpk eq_refl) as [Hlo Hd Hsz [Hn1 Hn2]].
  pose proof Hc as [[[_ _ _ Hinv _ _ _ _ _] _ _ _] Hin Hdis _ _ _]. pose proof Hlo as [Hx _ He Hp Hps Hu Hcap].
  assert (Hinv' : pools_inv (upd_skb a y (tkern s)) C).
  { eapply pools_inv_touch; [exact Hinv|exact Hu|..]; cbn; [|eauto]. intros b Hb. by apply lookup_insert_ne. }
  assert (Hf : kframe [a] [] (tkern s) C (upd_skb a y (tkern s)) C).
  { split; try done.
    - intros b Hb Hba. split; [|done]. cbn. apply lookup_insert_ne. set_solver.
    - eapply lens_touch; [|exact Hx|apply upd_skb_lookup|done]. intros b Hb. by apply lookup_insert_ne. }
  eapply reader_step; [exact Hwo|exact Hf|done|set_solver|set_solver|intros b Hb; set_solver|
    eapply kframe_inbox; [exact Hf|exact Hin|set_solver|set_solver]|done|auto|].
  intros _. split; [|by rewrite E4|by rewrite E5|done].
  split; [apply upd_skb_lookup|done|by rewrite E1|by rewrite E2|done|done|by rewrite E3].
Qed.
(** The rest of the segment is put back. *)
Lemma head_world a x s ts T S C l lr li R lR (Q : () → tstate → Prop) :
  world a x true s ts T S C l lr li R lR →
  (∀ k' y, world a x false (st s ts k' (twheel s) T S) ts T S C l lr (a :: li) R lR →
     xmit_log k' = xmit_log (tkern s) → (∀ b, b ∈ li → skbs k' !! b = skbs (tkern s) !! b) →
     skbs k' !! a = Some y → y = x <| next := next y |> → Q () (st s ts k' (twheel s) T S)) →
  wp (in_tkern (rtskb_queue_head (incoming S) a)) Q s.
Proof.
  intros Hwo HQ. pose proof (world_tsock _ _ _ _ _ _ _ _ _ _ _ _ _ _ _ _ _ _ _ _ _ _ _ Hwo) as Hsk.
  pose proof Hwo as [Hc Ho _ _ [Hq1 Hq2] Hpk]. destruct (Hpk eq_refl) as [Hlo (d & Hd & HD) Hsz [Hn1 Hn2]].
  pose proof Hc as [[[_ _ _ Hinv _ _ _ _ _] _ _ _] Hin Hdis Hqs _ _].
  apply (wp_st _ _ _ _ _ _ Hsk), st_kern. eapply wp_mono; [|eapply enqueue_head_run; try done; by exists x, d].
  intros [] k' (Hinv' & Hin' & Hw & Ho' & HR). assert (Hf : kframe [a] [incoming S] (tkern s) C k' C) by (by eapply relinked_kframe).
  pose proof (HR a) as HRa. rewrite (lo_skb _ _ _ _ _ Hlo) in HRa. destruct (skbs k' !! a) as [y|] eqn:Hy; [|done].
  apply (HQ k' y); [|by rewrite Hw|intros b Hb; eapply relinked_out; [exact HR|set_solver]|done|apply HRa].
  eapply reader_step; [exact Hwo|exact Hf|done|set_solver|set_solver|intros b Hb; set_solver|done|..|done].
  - intros b [->|?]%elem_of_cons; [done|by apply Hdis].
  - intros b [->|?]%elem_of_cons; [|by left]. right. rewrite (lens_some _ _ _ (lo_skb _ _ _ _ _ Hlo)), <-Hsz. split; [f_equal; lia|lia].
Qed.

(** ** The window *)

Context (csum_partial : list Z → Z → Z) (csum_tcpudp_magic : Z → Z → Z → Z → Z → Z) (ip_fast_csum : list Z → Z).
Local Notation replied := (replied link Tm csum_partial csum_tcpudp_magic ip_fast_csum).
Local Notation window_credit := (window_credit csum_partial csum_tcpudp_magic ip_fast_csum hard_header get_mtu drv_xmit).

(** An answer takes a buffer at most. *)
Lemma reply_world a x h s ts T S C l lr li R lR flags (Q : Z → tstate → Prop) :
  is_ctl flags = false → world a x h s ts T S C l lr li R lR →
  (∀ ret k' C' l' log, world a x h (st s ts k' (twheel s) T S) ts T S C' l' lr li R lR → kframe [] [] (tkern s) C k' C' →
     xmit_log k' = xmit_log (tkern s) ++ log → replied s T S l flags log → Q ret (st s ts k' (twheel s) T S)) →
  wp (rt_tcp_send csum_partial csum_tcpudp_magic ip_fast_csum hard_header get_mtu drv_xmit ts flags) Q s.
Proof.
  intros Hctl Hwo HQ. assert (Hu : usable T) by (eapply world_usable; exact Hwo). assert (Hsk : tsock s ts T S) by (eapply world_tsock; exact Hwo).
  pose proof Hwo as [Hc Ho Hne Hp _ _]. pose proof Hc as [[[_ _ Hr Hinv Hl _ Hib Hwh _] _ _ _] _ _ _ _ _]. pose proof Ho as [[_ _ _ _ HlR _ _ _ _] _ _ _].
  assert (Hsame : ∀ ret, l = [] ∨ no_way Tm T → Q ret s).
  { intros ret Hno. rewrite <-(st_id s ts T S) by done. eapply (HQ _ _ C l []); [by rewrite st_id|by apply kframe_refl|by rewrite app_nil_r|by left]. }
  eapply wp_mono; [|eapply send_run; apply Hwo]. intros ret s' [(Hno & _ & ->)|(rt & d & D & Hway & Hd)]; [auto|].
  revert Hd. unfold segment_done. rewrite is_ctl_copy by done. destruct l as [|b l]; [intros [_ ->]; auto|].
  rewrite advance_id by done. intros (_ & k' & -> & Hf & Hlog & _). eapply (HQ _ _ (<[skb_pool S := l]> C) l); [|exact Hf|exact Hlog|].
  - eapply world_step; try done; [eapply kframe_mono; [| |exact Hf]; set_solver|apply lookup_insert_eq|by rewrite lookup_insert_ne| |set_solver].
    eapply kframe_inbox; [exact Hf|exact Hib|set_solver|set_solver].
  - right. by exists b, rt, d, D.
Qed.

Definition credited T (n : Z) : tcp_socket := T <| sync_window := u16 (sync_window T + n) |>.
(** The peer is told when the window was closed. *)
Definition notified s ts T S (l : list nat) n log : Prop :=
  if sync_window T =? 0
  then replied (st s ts (tkern s) (twheel s) (credited T n) S) (credited T n) S l TCP_FLAG_ACK log else log = [].
Lemma credit_world a x s ts T S C l lr li R lR n (Q : () → tstate → Prop) :
  world a x true s ts T S C l lr li R lR →
  (∀ k' C' l' log, world a x true (st s ts k' (twheel s) (credited T n) S) ts (credited T n) S C' l' lr li R lR →
     xmit_log k' = xmit_log (tkern s) ++ log → (∀ b, b ∈ li → skbs k' !! b = skbs (tkern s) !! b) →
     notified s ts T S l n log → Q () (st s ts k' (twheel s) (credited T n) S)) →
  wp (window_credit ts n) Q s.
Proof.
  intros Hwo HQ. assert (Hu : usable T) by (eapply world_usable; exact Hwo). assert (Hsk : tsock s ts T S) by (eapply world_tsock; exact Hwo).
  assert (Hu' : usable (credited T n)).
  { destruct Hu as [? [] ?]. split; try done. split; try done. cbn. apply Z.mod_pos_bound. lia. }
  assert (Hw1 : world a x true (st s ts (tkern s) (twheel s) (credited T n) S) ts (credited T n) S C l lr li R lR) by (by eapply world_upd).
  assert (E : ∀ T', T' = credited T n → T' <| socket_lock := true |> <| socket_lock := false |> = credited T n).
  { intros T' ->. unfold credited. destruct Hu as [Hl _ _]. destruct T. cbn in *. by rewrite Hl. }
  unfold Tcp.window_credit. apply wp_bind, (wp_st _ _ _ _ _ _ Hsk), st_lock; [apply Hu|]. apply wp_bind, st_load. cbn [sync_window upd].
  unfold notified in HQ. destruct (Z.eqb_spec (sync_window T) 0) as [E0|E0]; cbn [negb]; apply wp_bind, st_upd.
  2: { apply st_unlock. match goal with |- Q _ (st _ _ _ _ ?T1 _) => replace T1 with (credited T n) by (symmetry; exact (E _ eq_refl)) end. eapply HQ; [exact Hw1|by rewrite app_nil_r|done|done]. }
  apply wp_bind, st_unlock. match goal with |- wp _ _ (st _ _ _ _ ?T1 _) => replace T1 with (credited T n) end.
  2: { rewrite <-(E (credited T n)) by done. unfold credited, upd. cbn. by rewrite E0. }
  apply wp_bind. eapply reply_world; [apply ack_not_ctl|exact Hw1|]. intros ret k' C' l' log Hw' Hf Hlog Hrep. apply wp_ret.
  rewrite st_st in *. eapply HQ; [exact Hw'|exact Hlog| |exact Hrep].
  intros b Hb. destruct (ib_waiting _ _ _ _ (cn_in _ _ _ _ _ _ _ _ _ _ _ _ _ _ _ _ (wo_conn _ _ _ _ _ _ _ _ _ _ _ _ _ _ _ _ _ _ _ _ _ _ _ Hwo)) b Hb) as (z & ? & Hlo & _).
  apply (kf_skbs _ _ _ _ _ _ Hf); [apply Hlo|set_solver].
Qed.

(** ** One segment *)

Local Notation read_fragments := (read_fragments csum_partial csum_tcpudp_magic ip_fast_csum hard_header get_mtu drv_xmit).
Local Notation read_loop := (read_loop csum_partial csum_tcpudp_magic ip_fast_csum hard_header get_mtu drv_xmit).
Local Notation rt_tcp_read := (rt_tcp_read csum_partial csum_tcpudp_magic ip_fast_csum hard_header get_mtu drv_xmit).

Lemma world_free_packet a x a' x' s ts T S C l lr li R lR :
  world a x false s ts T S C l lr li R lR → world a' x' false s ts T S C l lr li R lR.
Proof. intros []. by split. Qed.
Lemma st_copy s ts k w T S addr bytes (Q : bool → tstate → Prop) :
  match store_bytes addr bytes (tmem s) with
  | Some m => Q true (st (s <| tmem := m |>) ts k w T S)
  | None => Q false (st s ts k w T S)
  end → wp (copy_to_user addr bytes) Q (st s ts k w T S).
Proof. unfold wp, copy_to_user. cbn. by destruct (store_bytes _ _ _). Qed.
Lemma put_back_run {B0} s ts k w T S a x bytes n (K : M tstate B0) Q :
  skbs k !! a = Some x → opened x bytes → 0 ≤ n < Z.of_nat (length bytes) →
  (∀ v, Z.shiftr v 4 = 5 → wp K Q (st s ts (upd_skb a (put_back n v x) k) w T S)) →
  wp (in_tkern (skb_upd a (λ x, snd (__rtskb_pull (u32 n) x)));;
      in_tkern (skb_upd a (λ x, snd (__rtskb_push TCPHDR_LEN x)));;
      x ← in_tkern (skb_load a);
      o ← in_tkern (skb_read a (h_raw x + 12) 1);
      in_tkern (skb_write a (h_raw x + 12) ((λ b, 80 + b mod 16) <$> o));; K) Q (st s ts k w T S).
Proof.
  intros Hx [Hwf Hp [Hh1 Hh2] Hro _] Hn HK. pose proof (length_payload _ Hwf) as Hlen. rewrite Hp in Hlen. pose proof Hwf as [H1 H2 H3 H4 H5].
  change TCPHDR_LEN with 20 in *. rewrite u32_id by (unfold is_u32; lia).
  apply wp_bind, st_kern. eapply wp_skb_upd; [exact Hx|]. rewrite pulled_eq by (done || lia).
  apply wp_bind, st_kern. eapply wp_skb_upd; [apply lookup_insert_eq|]. set (x2 := snd _).
  assert (E2 : x2 = x <| len := len x - n + 20 |> <| data := data x + n - 20 |>).
  { unfold x2, __rtskb_push. cbn. rewrite u32_id by (unfold is_u32; lia). done. }
  apply wp_bind, st_kern. eapply wp_skb_load; [apply lookup_insert_eq|]. rewrite E2. cbn [h_raw upd].
  apply wp_bind, st_kern. eapply wp_skb_read; [apply lookup_insert_eq|apply buf_read_range; cbn; lia|].
  set (o := Z.to_nat (h_raw x + 12 - buf_start x)).
  cbn [buf buf_start upd]. fold o. destruct (drop o (buf x)) as [|c r] eqn:Ed.
  { apply (f_equal length) in Ed. rewrite length_drop in Ed. cbn in Ed. lia. }
  change (take (Z.to_nat 1) (c :: r)) with [c]. apply wp_bind, st_kern. eapply wp_skb_write; [apply lookup_insert_eq| |].
  { apply buf_write_range; cbn [buf buf_start upd fmap list_fmap length]; lia. }
  cbn [fmap list_fmap length buf buf_start upd]. fold o. specialize (HK (80 + c mod 16)).
  match goal with |- wp K Q (st s ts ?k1 w T S) => replace k1 with (upd_skb a (put_back n (80 + c mod 16) x) k) end.
  - apply HK. rewrite Z.shiftr_div_pow2 by lia. change (2 ^ 4) with 16. divlia.
  - unfold upd_skb, put_back, upd. cbn. rewrite !insert_insert_eq. fold o. done.
Qed.

(** The segment [a] with the data [bytes] was read by a call for [n] bytes (not more than
    [bytes]) at [addr]; [T] and [S] are the socket with the segment taken out. *)
Definition taken_from s ts T S (l lr li : list nat) R lR a bytes addr n ret s' : Prop :=
  (∀ b, b ∈ li → skbs (tkern s') !! b = skbs (tkern s) !! b) ∧
  match store_bytes addr (take (Z.to_nat n) bytes) (tmem s) with
  | Some m =>
      ret = n ∧ tmem s' = m ∧
      ∃ C' l' log, xmit_log (tkern s') = xmit_log (tkern s) ++ log ∧ notified s ts T S l n log ∧
        if n <? Z.of_nat (length bytes)
        then (∀ a0 x0, world a0 x0 false s' ts (credited T n) (upped S) C' l' lr (a :: li) R lR) ∧
             ∃ y, skbs (tkern s') !! a = Some y ∧ readable y (drop (Z.to_nat n) bytes)
        else ∀ a0 x0, world a0 x0 false s' ts (credited T n) S C' (l' ++ [a]) lr li R lR
  | None =>
      ret = - EFAULT ∧ tmem s' = tmem s ∧ xmit_log (tkern s') = xmit_log (tkern s) ∧
      ∃ C', ∀ a0 x0, world a0 x0 false s' ts T S C' (l ++ [a]) lr li R lR
  end.

(** How the loop over the buffers ends. *)
Definition fragment_done s ts T S (l lr li : list nat) R lR a bytes addr n (r : Z + Z * Z) s' : Prop :=
  ∃ ret, taken_from s ts T S l lr li R lR a bytes addr n ret s' ∧ (r = inl ret ∨ ret = n ∧ r = inr (n, addr)).

Lemma st_id_mem s ts T S m : tsock s ts T S → st (s <| tmem := m |>) ts (tkern s) (twheel s) T S = s <| tmem := m |>.
Proof. intros Hs. assert (Hm : tsock (s <| tmem := m |>) ts T S) by (by destruct Hs; split). exact (st_id _ _ _ _ Hm). Qed.
(** The data is copied, and the window grows. *)
Lemma copied_run a x s ts T S C l lr li R lR bytes addr n (K : M tstate (Z + Z * Z)) :
  world a x true s ts T S C l lr li R lR → opened x bytes → 0 < n ≤ Z.of_nat (length bytes) →
  (∀ m k' C' l' log, store_bytes addr (take (Z.to_nat n) bytes) (tmem s) = Some m →
     world a x true (st (s <| tmem := m |>) ts k' (twheel s) (credited T n) S) ts (credited T n) S C' l' lr li R lR →
     xmit_log k' = xmit_log (tkern s) ++ log → (∀ b, b ∈ li → skbs k' !! b = skbs (tkern s) !! b) → notified s ts T S l n log →
     skbs k' !! a = Some x →
     wp K (fragment_done s ts T S l lr li R lR a bytes addr n) (st (s <| tmem := m |>) ts k' (twheel s) (credited T n) S)) →
  wp (bytes ← in_tkern (skb_read a (data x) n);
      ok ← copy_to_user addr bytes;
      if negb ok then in_tkern (kfree_rtskb (Some a));; mret (inl (- EFAULT)) else window_credit ts n;; K)
     (fragment_done s ts T S l lr li R lR a bytes addr n) s.
Proof.
  intros Hwo [Hwf Hp _ _ _] Hn HK. pose proof (length_payload _ Hwf) as Hlen. rewrite Hp in Hlen.
  assert (Hsk : tsock s ts T S) by (eapply world_tsock; exact Hwo).
  pose proof (wo_pkt _ _ _ _ _ _ _ _ _ _ _ _ _ _ _ _ _ _ _ _ _ _ _ Hwo eq_refl) as [[Hx _ _ _ _ _ _] _ _ _].
  apply wp_bind, (wp_st _ _ _ _ _ _ Hsk), st_kern. eapply (wp_read_payload a x 0); [exact Hx|done|lia|lia|lia|].
  rewrite drop_0, Hp. apply wp_bind, st_copy. destruct (store_bytes _ _ _) as [m|] eqn:Em; cbn [negb].
  - rewrite st_id_mem by done. apply wp_bind. eapply credit_world; [eapply world_mem; exact Hwo|]. intros k' C' l' log Hw' Hlog Hli Hno.
    eapply HK; try done. apply (wo_pkt _ _ _ _ _ _ _ _ _ _ _ _ _ _ _ _ _ _ _ _ _ _ _ Hw' eq_refl).
  - rewrite st_id by done. apply wp_bind. eapply free_world; [exact Hwo|]. intros k' Hw' [Hlog Hli]. apply wp_ret. exists (- EFAULT). split; [|by left].
    unfold taken_from. rewrite Em. split; [done|]. split_and!; [done|done|done|]. eexists. intros a0 x0. eapply world_free_packet. exact Hw'.
Qed.

Lemma fragment_run a x fuel s ts T S C l lr li R lR bytes d addr n :
  world a x true s ts T S C l lr li R lR → next x = None → opened x bytes → 0 < n ≤ Z.of_nat (length bytes) →
  wp (read_fragments (Datatypes.S fuel) ts a a d 0 addr n) (fragment_done s ts T S l lr li R lR a bytes addr n) s.
Proof.
  intros Hwo Hnx Hop Hn. pose proof Hop as [Hwf Hp _ _ _]. pose proof (length_payload _ Hwf) as Hlen. rewrite Hp in Hlen.
  assert (Hsk : tsock s ts T S) by (eapply world_tsock; exact Hwo). pose proof Hwf as [H1 H2 H3 H4 H5].
  pose proof (wo_pkt _ _ _ _ _ _ _ _ _ _ _ _ _ _ _ _ _ _ _ _ _ _ _ Hwo eq_refl) as [[Hx _ _ _ _ _ _] _ _ [_ Hali]].
  cbn [Tcp.read_fragments]. apply wp_bind, (wp_st _ _ _ _ _ _ Hsk), st_kern. eapply wp_skb_load; [exact Hx|]. rewrite st_id by done.
  rewrite Z.add_0_l, <-Hlen. replace (u64 (Z.of_nat (length bytes))) with (Z.of_nat (length bytes)) by (symmetry; apply Z.mod_small; lia).
  destruct (Z.ltb_spec n (Z.of_nat (length bytes))) as [Hlt|Hge].
  - replace (Z.of_nat (length bytes) - (Z.of_nat (length bytes) - n)) with n by lia.
    eapply copied_run; [exact Hwo|done|lia|]. intros m k1 C1 l1 log Em Hw1 Hlog Hli Hno Hx1.
    eapply put_back_run; [exact Hx1|done|lia|]. intros v Hv. destruct (put_back_readable n v x bytes Hop ltac:(lia) Hv) as (Hwf' & El & Hrd).
    assert (Hw2 : world a (put_back n v x) true (st (s <| tmem := m |>) ts (upd_skb a (put_back n v x) k1) (twheel s) (credited T n) S) ts (credited T n) S C1 l1 lr li R lR).
    { pose proof (touch_world _ _ (put_back n v x) _ _ _ _ _ _ _ _ _ _ Hw1 ltac:(done)) as Hw2. by rewrite st_st in Hw2. }
    apply wp_bind, st_sload. apply wp_bind. eapply head_world; [exact Hw2|]. intros k3 y Hw3 Hlog3 Hli3 Hy Ey. rewrite st_st in *.
    apply wp_bind. unfold sem_up. apply st_supd, wp_ret. exists n. split; [|by left]. unfold taken_from. rewrite Em. split.
    { intros b Hb. cbn. rewrite Hli3 by done. cbn. rewrite lookup_insert_ne by (by intros ->). by apply Hli. }
    split; [done|]. split; [done|]. exists C1, l1, log. split; [cbn; by rewrite Hlog3|]. split; [done|].
    replace (n <? Z.of_nat (length bytes)) with true by lia. split.
    + intros a0 x0. eapply world_free_packet. pose proof (world_usable _ _ _ _ _ _ _ _ _ _ _ _ _ _ _ _ _ _ _ _ _ _ _ Hw3) as Hu3.
      pose proof (world_upd _ _ _ _ _ _ _ _ _ _ _ _ _ _ _ _ _ _ _ _ _ _ _ (credited T n) (upped S) Hw3 ltac:(done) Hu3) as Hw4. rewrite st_st in Hw4. exact Hw4.
    + exists y. split; [done|]. rewrite Ey. destruct Hrd as [? Hth]. split; [by destruct Hwf'|exact Hth].
  - assert (n = Z.of_nat (length bytes)) as -> by lia.
    eapply copied_run; [exact Hwo|done|lia|]. intros m k1 C1 l1 log Em Hw1 Hlog Hli Hno Hx1.
    apply wp_bind, st_kern. eapply wp_skb_load; [exact Hx1|]. rewrite Hnx. apply wp_bind.
    eapply free_world; [exact Hw1|]. intros k3 Hw3 [Hlog3 Hli3]. rewrite st_st in *. apply wp_ret. eexists. split; [|by right].
    unfold taken_from. rewrite Em. split; [intros b Hb; cbn; rewrite Hli3 by done; by apply Hli|].
    split; [done|]. split; [done|]. eexists _, l1, log. split; [cbn; by rewrite Hlog3|]. split; [done|].
    rewrite Z.ltb_irrefl. intros a0 x0. eapply world_free_packet. exact Hw3.
Qed.

(** ** The call *)

(** The state before the segment was taken out differs in the links of buffers only. *)
Lemma taken_from_st s ts k T S S' l lr li R lR a bytes addr n ret s' :
  xmit_log k = xmit_log (tkern s) → devs k = devs (tkern s) → (∀ b, b ∈ li → skbs k !! b = skbs (tkern s) !! b) →
  taken_from (st s ts k (twheel s) T S') ts T S l lr li R lR a bytes addr n ret s' →
  taken_from s ts T S l lr li R lR a bytes addr n ret s'.
Proof.
  intros Hlog Hdev Hsk [Hli Hm]. split; [intros b Hb; rewrite Hli by done; by apply Hsk|]. revert Hm. cbn [tmem st upd].
  destruct (store_bytes _ _ _) as [m|].
  - intros (-> & Hm & C' & l' & log & Hl' & Hno & Hw). split; [done|]. split; [done|]. exists C', l', log. split; [by rewrite <-Hlog|].
    split; [|done]. revert Hno. unfold notified. destruct (_ =? _); [|done]. rewrite st_st.
    unfold TcpRcv.replied, way, route_for, rview, tkern, st, upd in *. cbn in *. by rewrite Hdev.
  - intros (-> & Hm & Hl' & Hw). split; [done|]. split; [done|]. split; [by rewrite <-Hlog|done].
Qed.

(** C9: Reading from an established connection, not more than the first waiting segment has:
    the next [n] bytes of the stream are copied to the buffer of the caller, and [n] is
    returned.  The window grows by [n], and the peer is told if it was closed.  What the
    segment has left is what the next call reads; a segment that is read to its end goes
    back to the pool.  All other segments are as they were.  When the buffer of the caller
    is not accessible the result is -EFAULT, and the segment is lost. *)
Theorem rt_tcp_read_correct a0 x0 s ts T S C l lr a x li R lR j bytes waits addr n :
  world a0 x0 false s ts T S C l lr (a :: li) R lR → is_closed T = false → is_valid T = true → tcp_state T = TCP_ESTABLISHED →
  pending_sem S = Some j → 0 < j → skbs (tkern s) !! a = Some x → readable x bytes → 0 < n ≤ Z.of_nat (length bytes) →
  wp (rt_tcp_read waits ts true addr n)
     (taken_from s ts T (S <| pending_sem := Some (j - 1) |>) l lr li R lR a bytes addr n) s.
Proof.
  intros Hwo Hcl Hva Hst Hj Hj0 Hx [Hwf (t & p & Ht & Hp & Hpl & H20 & Hh)] Hn.
  assert (Hsk : tsock s ts T S) by (eapply world_tsock; exact Hwo). assert (Hu : usable T) by (eapply world_usable; exact Hwo).
  unfold Tcp.rt_tcp_read. apply wp_bind, (wp_st _ _ _ _ _ _ Hsk), st_sload. cbn [negb].
  apply wp_bind, st_lock; [apply Hu|]. apply wp_bind, st_load. apply wp_bind, st_unlock. rewrite locked_same by apply Hu.
  cbn [is_closed is_valid tcp_state upd]. rewrite Hcl, Hva, Hst. cbn [negb Z.eqb TCP_ESTABLISHED Pos.eqb andb].
  destruct (Z.to_nat n) as [|fuel] eqn:En; [lia|]. cbn [Tcp.read_loop]. replace (n <=? 0) with false by lia.
  apply wp_bind, st_sload. rewrite Hj. replace (0 <? j) with true by lia. apply wp_bind, wp_bind, st_supd, wp_ret.
  cbn [Z.ltb Z.compare]. set (S1 := S <| pending_sem := Some (j - 1) |>).
  assert (Hw1 : world a0 x0 false (st s ts (tkern s) (twheel s) T S1) ts T S1 C l lr (a :: li) R lR) by (by eapply world_upd).
  apply wp_bind, st_sload. apply wp_bind. eapply dequeue_world; [exact Hw1|exact Hx|]. intros k1 Hw2 Hlog Hdev Hli. rewrite st_st in *.
  pose proof (wo_pkt _ _ _ _ _ _ _ _ _ _ _ _ _ _ _ _ _ _ _ _ _ _ _ Hw2 eq_refl) as [[Hx1 Hwf1 _ _ _ _ _] _ _ [_ Hal]].
  cbn in Hx1. set (x1 := x <| next := None |>) in *.
  apply wp_bind, st_kern. eapply wp_skb_load; [exact Hx1|]. apply wp_bind. eapply wp_deref; [exact Ht|]. cbn zeta. rewrite <-Hpl.
  destruct (readable_open x1 t p bytes Hwf1 Ht Hp H20 Hh) as [Epu Hop].
  apply wp_bind, st_kern. eapply wp_skb_upd; [exact Hx1|]. rewrite Epu. set (x2 := pulled _ x1) in *.
  assert (Hw3 : world a x2 true (st s ts (upd_skb a x2 k1) (twheel s) T S1) ts T S1 C l lr li R lR).
  { pose proof (touch_world _ _ x2 _ _ _ _ _ _ _ _ _ _ Hw2 ltac:(split_and!; [apply Hop|done..])) as Hw3. by rewrite st_st in Hw3. }
  apply wp_bind, st_kern, wp_gets. fold (upd_skb a x2 k1). destruct (size (skbs (upd_skb a x2 k1))) as [|sz] eqn:Es.
  { apply map_size_empty_inv in Es. pose proof (upd_skb_lookup a x2 k1) as E. by rewrite Es in E. }
  apply wp_bind. eapply wp_mono; [|eapply fragment_run; [exact Hw3|done|done|done]]. intros r s' (ret & Htk & Hr).
  assert (Hend : taken_from s ts T S1 l lr li R lR a bytes addr n ret s').
  { eapply (taken_from_st s ts (upd_skb a x2 k1) T S1 S1); [done|done| |exact Htk].
    intros b Hb. cbn. rewrite lookup_insert_ne by (by intros ->). by apply Hli. }
  destruct Hr as [->|[-> ->]]; [by apply wp_ret|]. destruct fuel; cbn [Tcp.read_loop]; rewrite Z.leb_refl; by apply wp_ret.
Qed.
End read.
