(* ===== verification/TcpWrite.v ===== *)
(** * TCP: writing to a connection

    [rt_tcp_write] with data that fits the window of the peer and one segment. *)
From S2P Require Import Prelude State RtskbQueue Rtskb RtskbData Rtdev Eth Iovec StackMgr Route RouteHost RouteOps IpFragment.
From S2P Require Import Socket IpOutput IpInput Arp Udp UdpOps Icmp Packet PacketOps PacketSend Timerwheel Tcp TcpSend TcpOut TcpConn TcpRcv.

(** A negative error converted to an unsigned 32-bit number. *)
Lemma u32_neg z : - 2 ^ 32 ≤ z < 0 → u32 z = 2 ^ 32 + z.
Proof. intros Hz. unfold u32. symmetry. apply (Z.mod_unique_pos _ _ (-1)); lia. Qed.

Section write.
Context `{Config}.
Context (csum_partial : list Z → Z → Z) (csum_tcpudp_magic : Z → Z → Z → Z → Z → Z) (ip_fast_csum : list Z → Z).
Context (hard_header : nat → option (nat → Z → list Z → list Z → Z → M kstate Z)).
Context (get_mtu : nat → Z → M kstate Z) (drv_xmit : nat → nat → M kstate Z) (link : nat → list Z → list Z).
Implicit Types (k : kstate) (s : tstate) (T : tcp_socket) (S : rtsocket) (C : gmap nat (list nat)).
Local Notation egress := (egress hard_header get_mtu drv_xmit link).
Local Notation tcp_frame := (tcp_frame csum_partial csum_tcpudp_magic ip_fast_csum link).
Local Notation rt_tcp_write := (rt_tcp_write csum_partial csum_tcpudp_magic ip_fast_csum hard_header get_mtu drv_xmit).

(** The event of the writers is set to [b]. *)
Definition event_set (b : bool) ts s : tstate := s <| tsocks := alter (λ T, T <| send_evt := Some b |>) ts (tsocks s) |>.
Lemma event_set_st b s ts k w T S : event_set b ts (st s ts k w T S) = st s ts k w (T <| send_evt := Some b |>) S.
Proof. unfold event_set, st, upd. cbn. f_equal. by rewrite alter_insert_eq. Qed.

(** The state a segment of [n] bytes leaves. *)
Lemma segment_done_st s ts T S C l lr d n frame ret s' :
  tsock s ts T S → n ≠ 0 → tcp_state T ≠ TCP_CLOSE → 0 ≤ n ≤ sync_dst_window T → sync_dst_window T < 2 ^ 16 →
  segment_done s ts T S C l lr d TCP_FLAG_ACK n frame ret s' →
  ∃ k w T', s' = st s ts k w T' S ∧ send_evt T' = send_evt T ∧
    (- 200 < ret < 0 ∨ ret = n ∧ sync_dst_window T' = sync_dst_window T - n).
Proof.
  intros Hsk Hn Hst Hdw Hw. unfold segment_done, needs_copy. apply Z.eqb_neq in Hst as ->, Hn as ->. rewrite orb_true_r. cbn [negb andb].
  destruct l as [|a [|c l]].
  - intros [-> ->]. exists (tkern s), (twheel s), T. rewrite st_id by done. split_and!; [done|done|by left].
  - intros (-> & k' & -> & _). eexists _, _, _. split_and!; [done|done|by left].
  - intros (-> & k' & w' & xc & -> & _). eexists _, _, _. split_and!; [done|by destruct lr|]. right. split; [done|].
    transitivity (u16 (sync_dst_window T - n)); [by destruct lr|]. apply Z.mod_small. lia.
Qed.

(** C10: Writing to an established connection, not more than the window of the peer and one
    segment take, when the event of the writers is set: one segment with the data goes
    out and is kept for retransmission, as [rt_tcp_segment] does it, and the length is
    returned.  An error [e] of [rt_tcp_segment] (no buffer) is returned as the positive
    number 2^32 + [e].  The event is set again unless the data fills the window. *)
Theorem rt_tcp_write_correct s ts T S C l lr N d D fuel waits ptr bytes :
  let n := Z.of_nat (length bytes) in
  let T0 := T <| send_evt := Some false |> in
  let s0 := event_set false ts s in
  sender s ts T S C l lr N → egress s (ts_rt T) d D N n → load_bytes ptr (length bytes) (tmem s) = Some bytes → bytes ≠ [] →
  is_valid T = true → tcp_state T = TCP_ESTABLISHED → Z.lor (ts_daddr T) (ts_dport T) ≠ 0 → send_evt T = Some true →
  n ≤ sync_dst_window T →
  wp (rt_tcp_write (Datatypes.S fuel) waits ts true ptr n)
     (λ ret s', ∃ e s1, segment_done s0 ts T0 S C l lr d TCP_FLAG_ACK n (tcp_frame T S (ts_rt T) d D TCP_FLAG_ACK false bytes) e s1 ∧
        ret = (if e <? 0 then 2 ^ 32 + e else n) ∧
        s' = event_set (negb ((e =? n) && (sync_dst_window T =? n))) ts s1) s.
Proof.
  intros n T0 s0 Hsn Heg Hld Hne Hva Hst Hpe Hev Hdw. pose proof Hsn as [Hsk Hlk Hr Hinv Hl Hb Hib Hw Ht].
  assert (Hn0 : 0 < n) by (unfold n; destruct bytes; [done|cbn; lia]).
  assert (Es0 : s0 = st s ts (tkern s) (twheel s) T0 S) by (unfold s0; rewrite <-(st_id s ts T S) at 1 by done; apply event_set_st).
  unfold Tcp.rt_tcp_write. cbn [negb]. apply wp_bind, (wp_st _ _ _ _ _ _ Hsk), st_lock; [done|]. apply wp_bind, st_load. apply wp_bind, st_unlock.
  rewrite locked_same by done. cbn [is_valid ts_daddr ts_dport tcp_state sk_sndtimeo upd]. rewrite Hva, Hst. apply Z.eqb_neq in Hpe as ->.
  cbn [negb orb Z.eqb TCP_ESTABLISHED Pos.eqb Tcp.write_loop]. replace (n <=? 0) with false by lia.
  apply wp_bind, st_load. apply wp_bind. unfold send_timedwait. apply wp_bind, st_load. rewrite Hev. apply wp_bind, st_upd, wp_ret.
  cbn [Z.ltb Z.compare]. apply wp_bind. unfold rt_tcp_window_send. apply wp_bind, st_load.
  rewrite Z.sub_0_r, Z.add_0_r. cbn [sync_dst_window ts_rt upd].
  pose proof Heg as [_ _ _ _ _ [_ _] Hle]. rewrite (u32_id n) by (unfold is_u32; lia). replace (sync_dst_window T <? n) with false by lia.
  match goal with |- wp _ _ ?t => change t with (st s ts (tkern s) (twheel s) T0 S) end. rewrite <-Es0.
  unfold n. eapply wp_mono; [|eapply (segment_run csum_partial csum_tcpudp_magic ip_fast_csum hard_header get_mtu drv_xmit link
    s0 ts T0 S C l lr N d D (ts_rt T) TCP_FLAG_ACK ptr bytes)].
  2: { rewrite Es0. split; try done; [apply st_tsock|by destruct Hr]. }
  2: { rewrite Es0. by destruct Heg. }
  2: { rewrite Es0. done. }
  fold n. intros ret s1 Hdone. pose proof Hr as [_ _ _ _ _ Hdr].
  destruct (segment_done_st s0 ts T0 S C l lr d n (tcp_frame T0 S (ts_rt T) d D TCP_FLAG_ACK false bytes) ret s1) as (k1 & w1 & T1 & -> & He1 & Hret); try done; try (cbn; lia).
  { rewrite Es0. apply st_tsock. }
  { cbn. by rewrite Hst. }
  destruct Hret as [Hret|[-> Hret]].
  - replace (ret <? 0) with true by lia. apply wp_bind, st_upd, wp_ret. eexists ret, _. split; [exact Hdone|].
    replace (ret =? n) with false by lia. replace (ret <? 0) with true by lia.
    split; [|by rewrite event_set_st, He1]. apply u32_neg. lia.
  - replace (n <? 0) with false by lia. apply wp_bind, st_load. rewrite Hret. change (sync_dst_window T0) with (sync_dst_window T).
    rewrite Z.add_0_l, (u32_id n) by (unfold is_u32; lia). apply wp_bind.
    apply (wp_mono _ (λ _ t, t = st s0 ts k1 w1 (T1 <| send_evt := Some (negb (sync_dst_window T - n =? 0)) |>) S)).
    + intros [] t ->. destruct fuel; cbn [Tcp.write_loop]; rewrite Z.leb_refl; apply wp_ret;
        (eexists n, _; split_and!; [exact Hdone|by replace (n <? 0) with false by lia|]); rewrite event_set_st, Z.eqb_refl; cbn [andb];
        replace (sync_dst_window T =? n) with (sync_dst_window T - n =? 0) by lia; done.
    + destruct (_ =? 0); cbn [negb when]; [apply wp_ret|apply st_upd; by rewrite He1]. destruct T1. cbn in *. by rewrite He1.
Qed.
End write.
