(* ===== verification/RtcfgFrame.v ===== *)
(** * RTcfg: state and frames (stack/rtcfg/rtcfg_frame.c, rtcfg_file.c)

    RTcfg distributes configuration from a server to the stations of a network.
    This file has the data of both sides, the frames they exchange, as bytes, and
    the functions that build and send them. *)
From S2P Require Import Prelude State RtskbQueue Rtskb RtskbData Rtdev Route.

(** ** Constants *)
Definition ETH_RTCFG := 36898.
Definition RTCFG_ID_STAGE_1_CFG := 0.
Definition RTCFG_ID_ANNOUNCE_NEW := 1.
Definition RTCFG_ID_ANNOUNCE_REPLY := 2.
Definition RTCFG_ID_STAGE_2_CFG := 3.
Definition RTCFG_ID_STAGE_2_CFG_FRAG := 4.
Definition RTCFG_ID_ACK_CFG := 5.
Definition RTCFG_ID_READY := 6.
Definition RTCFG_ID_HEARTBEAT := 7.
Definition RTCFG_ID_DEAD_STATION := 8.
Definition RTCFG_ADDRSIZE_IP := 4.
Definition RTCFG_FLAG_STAGE_2_DATA := 1.
Definition RTCFG_FLAG_READY := 2.
Definition FLAG_ASSIGN_ADDR_BY_MAC := 256.
Definition RTCFG_ADDR_MAC := 0.
Definition RTCFG_ADDR_IP := 1.
Definition RTCFG_ADDR_MASK := 255.
Definition FLAG_TIMER_STARTED := 65536.
Definition FLAG_TIMER_SHUTDOWN := 131072.
Definition CALL_PENDING := 1000.
Definition ENETDOWN := 100.
Definition EPROTONOSUPPORT := 93.
(** [RTSKB_PRIO_VALUE(QUEUE_MIN_PRIO-1, RTSKB_DEF_NRT_CHANNEL)]: the priority and
    the channel number in the upper half. *)
Definition RTCFG_SKB_PRIO := (QUEUE_MIN_PRIO - 1) + Z.shiftl 1 16.

(** Sizes of the packed frame structures without addresses and data. *)
Definition sizeof_frm_head := 1.
Definition sizeof_frm_stage_1_cfg := 5.
Definition sizeof_frm_announce := 4.
Definition sizeof_frm_stage_2_cfg := 12.
Definition sizeof_frm_stage_2_cfg_frag := 5.
Definition sizeof_frm_ack_cfg := 5.
Definition sizeof_frm_dead_station := 34.

(** ** Data *)

(** The events in the order of the source; an event number outside of them (a
    frame with an unknown id) is [RTCFG_UNKNOWN]. *)
Inductive RTCFG_EVENT :=
  | RTCFG_CMD_SERVER | RTCFG_CMD_ADD | RTCFG_CMD_DEL | RTCFG_CMD_WAIT | RTCFG_CMD_CLIENT
  | RTCFG_CMD_ANNOUNCE | RTCFG_CMD_READY | RTCFG_CMD_DETACH | RTCFG_TIMER
  | RTCFG_FRM_STAGE_1_CFG | RTCFG_FRM_ANNOUNCE_NEW | RTCFG_FRM_ANNOUNCE_REPLY
  | RTCFG_FRM_STAGE_2_CFG | RTCFG_FRM_STAGE_2_CFG_FRAG | RTCFG_FRM_ACK_CFG
  | RTCFG_FRM_READY | RTCFG_FRM_HEARTBEAT | RTCFG_FRM_DEAD_STATION | RTCFG_UNKNOWN.
#[export] Instance rtcfg_event_eq_dec : EqDecision RTCFG_EVENT.
Proof. solve_decision. Defined.

Inductive RTCFG_CONN_STATE :=
  | RTCFG_CONN_SEARCHING | RTCFG_CONN_STAGE_1 | RTCFG_CONN_STAGE_2 | RTCFG_CONN_READY
  | RTCFG_CONN_DEAD.
#[export] Instance rtcfg_conn_state_eq_dec : EqDecision RTCFG_CONN_STATE.
Proof. solve_decision. Defined.

Inductive RTCFG_MAIN_STATE :=
  | RTCFG_MAIN_OFF | RTCFG_MAIN_SERVER_RUNNING | RTCFG_MAIN_CLIENT_0 | RTCFG_MAIN_CLIENT_1
  | RTCFG_MAIN_CLIENT_ANNOUNCED | RTCFG_MAIN_CLIENT_ALL_KNOWN | RTCFG_MAIN_CLIENT_ALL_FRAMES
  | RTCFG_MAIN_CLIENT_2 | RTCFG_MAIN_CLIENT_READY.
#[export] Instance rtcfg_main_state_eq_dec : EqDecision RTCFG_MAIN_STATE.
Proof. solve_decision. Defined.

Record rtcfg_connection := mk_conn {
  conn_ifindex : Z;
  conn_state : RTCFG_CONN_STATE;
  conn_mac : list Z;
  conn_addr_type : Z;
  conn_ip : Z;
  stage1_data : list Z;
  stage1_size : Z;
  stage2_file : option nat;
  conn_cfg_offs : Z;
  conn_flags : Z;
  conn_burstrate : Z;
  last_frame : Z;
  cfg_timeout : Z;
}.
#[export] Instance conn_eta : Settable rtcfg_connection := λ r,
  mk_conn (conn_ifindex r) (conn_state r) (conn_mac r) (conn_addr_type r) (conn_ip r)
    (stage1_data r) (stage1_size r) (stage2_file r) (conn_cfg_offs r) (conn_flags r)
    (conn_burstrate r) (last_frame r) (cfg_timeout r).

Record rtcfg_station := mk_station { st_mac : list Z; st_flags : Z }.
#[export] Instance station_eta : Settable rtcfg_station := λ r, mk_station (st_mac r) (st_flags r).

Record rtcfg_file := mk_file {
  ref_count : Z;
  file_name : list Z;
  file_size : Z;
  file_buffer : option (list Z);
}.
#[export] Instance file_eta : Settable rtcfg_file := λ r,
  mk_file (ref_count r) (file_name r) (file_size r) (file_buffer r).

(** [struct rtcfg_device]; [dev_locked] is its mutex, [conn_list] the linked
    connections.  The members of the union [spec] are kept apart: the server's
    first, then the client's (the source never uses [stage2_buffer]). *)
Record rtcfg_device := mk_cfgdev {
  dev_state : RTCFG_MAIN_STATE;
  other_stations : Z;
  stations_found : Z;
  stations_ready : Z;
  dev_locked : bool;
  event_calls : list nat;
  dev_flags : Z;
  dev_burstrate : Z;
  clients_configured : Z;
  conn_list : list nat;
  heartbeat : Z;
  heartbeat_timeout : Z;
  clt_addr_type : Z;
  clt_srv_mac : list Z;
  clt_srv_ip : Z;
  clt_cfg_len : Z;
  clt_cfg_offs : Z;
  clt_packet_counter : Z;
  clt_chain_len : Z;
  clt_max_stations : Z;
  clt_station_addr_list : option nat;
  clt_stage2_chain : option nat;
}.
#[export] Instance cfgdev_eta : Settable rtcfg_device := λ r,
  mk_cfgdev (dev_state r) (other_stations r) (stations_found r) (stations_ready r) (dev_locked r)
    (event_calls r) (dev_flags r) (dev_burstrate r) (clients_configured r) (conn_list r)
    (heartbeat r) (heartbeat_timeout r) (clt_addr_type r) (clt_srv_mac r) (clt_srv_ip r)
    (clt_cfg_len r) (clt_cfg_offs r) (clt_packet_counter r) (clt_chain_len r) (clt_max_stations r) (clt_station_addr_list r) (clt_stage2_chain r).

(** The arguments of a command ([union args] of [struct rtcfg_cmd]); the pointers
    in them tell the caller what it still owns. *)
Record add_args := mk_add {
  add_addr_type : Z;
  add_ip_addr : Z;
  add_mac_addr : list Z;
  add_timeout : Z;
  add_stage1_size : Z;
  add_stage1_data : option (list Z);
  add_conn_buf : option nat;
  add_stage2_file : option nat;
}.
#[export] Instance add_eta : Settable add_args := λ r,
  mk_add (add_addr_type r) (add_ip_addr r) (add_mac_addr r) (add_timeout r) (add_stage1_size r)
    (add_stage1_data r) (add_conn_buf r) (add_stage2_file r).
Inductive cmd_args :=
  | Args_server (period burstrate heartbeat threshold flags : Z)
  | Args_add (a : add_args)
  | Args_del (addr_type ip_addr : Z) (mac_addr : list Z) (conn_buf stage2_file : option nat)
  | Args_client (max_stations buffer_size : Z) (station_buf rtskb0 : option nat)
  | Args_announce (flags0 burstrate buffer_size : Z) (rtskb0 : option nat)
  | Args_detach (conn_buf stage2_file station_addr_list stage2_chain : option nat)
  | Args_none.
Record rtcfg_cmd := mk_cmd { cmd_ifindex : Z; cmd_event : RTCFG_EVENT; cmd_args_of : cmd_args }.
#[export] Instance cmd_eta : Settable rtcfg_cmd := λ r,
  mk_cmd (cmd_ifindex r) (cmd_event r) (cmd_args_of r).

(** The state of RTcfg on top of the stack and the routing tables.  [calls] holds
    the command of every call, [stations] the arrays of station addresses, [completed] logs the calls that were completed with
    their results. *)
Record cfgstate := mk_cfgstate {
  rt : rstate;
  device : list rtcfg_device;
  conns : gmap nat rtcfg_connection;
  files : gmap nat rtcfg_file;
  rtcfg_files : list nat;
  stations : gmap nat (list rtcfg_station);
  calls : gmap nat rtcfg_cmd;
  completed : list (nat * Z);
}.
#[export] Instance cfgstate_eta : Settable cfgstate := λ r,
  mk_cfgstate (rt r) (device r) (conns r) (files r) (rtcfg_files r) (stations r) (calls r) (completed r).

Definition in_rt {A} : M rstate A → M cfgstate A := zoom rt (λ k s, s <| rt := k |>).
Definition in_k {A} (m : M kstate A) : M cfgstate A := in_rt (in_kern m).

(** [&device[ifindex]]: the array has [MAX_RT_DEVICES] elements. *)
Definition cfgdev_load (ifindex0 : Z) : M cfgstate rtcfg_device :=
  l ← gets device; deref (if ifindex0 <? 0 then None else l !! Z.to_nat ifindex0).
Definition cfgdev_upd (ifindex0 : Z) (f : rtcfg_device → rtcfg_device) : M cfgstate () :=
  d ← cfgdev_load ifindex0;
  modify (λ s, s <| device := <[Z.to_nat ifindex0 := f d]> (device s) |>).
Definition conn_load (c : nat) : M cfgstate rtcfg_connection := m ← gets conns; deref (m !! c).
Definition conn_upd (c : nat) (f : rtcfg_connection → rtcfg_connection) : M cfgstate () :=
  x ← conn_load c; modify (λ s, s <| conns := <[c := f x]> (conns s) |>).
Definition file_load (a : nat) : M cfgstate rtcfg_file := m ← gets files; deref (m !! a).
Definition file_upd (a : nat) (f : rtcfg_file → rtcfg_file) : M cfgstate () :=
  x ← file_load a; modify (λ s, s <| files := <[a := f x]> (files s) |>).

(** ** Shared files (rtcfg_file.c) *)

Fixpoint get_file_loop (l : list nat) (filename : list Z) : M cfgstate (option nat) :=
  match l with
  | [] => mret None
  | a :: l =>
      F ← file_load a;
      if bool_decide (cstr (length (file_name F)) (file_name F) = cstr (length filename) filename)
      then file_upd a (λ F, F <| ref_count := ref_count F + 1 |>);; mret (Some a)
      else get_file_loop l filename
  end.
Definition rtcfg_get_file (filename : list Z) : M cfgstate (option nat) :=
  l ← gets rtcfg_files; get_file_loop l filename.
Definition rtcfg_add_file (a : nat) : M cfgstate () :=
  file_upd a (λ F, F <| ref_count := 1 |>);;
  modify (λ s, s <| rtcfg_files := list_add_tail a (rtcfg_files s) |>).
Definition rtcfg_release_file (a : nat) : M cfgstate Z :=
  file_upd a (λ F, F <| ref_count := ref_count F - 1 |>);;
  F ← file_load a;
  when (ref_count F =? 0)
    (l ← gets rtcfg_files; l' ← deref (list_del a l); modify (λ s, s <| rtcfg_files := l' |>));;
  mret (ref_count F).

(** ** Frames as bytes *)

(** [struct rtcfg_frm_head]: five bits of id, three of version; the two bit-field
    layouts of the source give the same byte. *)
Definition frm_head (id version : Z) : Z := id + 32 * version.
Definition frm_head_id (b : Z) : Z := b mod 32.

Definition is_ip (addr_type : Z) : bool := Z.land addr_type RTCFG_ADDR_MASK =? RTCFG_ADDR_IP.

Section frames.
Context `{Config}.

Definition with_ip (addr_type : Z) (b : list Z) : list Z :=
  if CONFIG_RTNET_RTIPV4 && is_ip addr_type then b else [].

Definition stage_1_bytes (C : rtcfg_connection) (server_ip burstrate : Z) : list Z :=
  [frm_head RTCFG_ID_STAGE_1_CFG 0; Z.land (conn_addr_type C) RTCFG_ADDR_MASK]
  ++ with_ip (conn_addr_type C) (wr32 (conn_ip C) ++ wr32 server_ip)
  ++ [u8 burstrate] ++ be16 (u16 (stage1_size C)) ++ take (Z.to_nat (stage1_size C)) (stage1_data C).
Definition stage_2_bytes (d : rtcfg_device) (total_size : Z) (payload0 : list Z) : list Z :=
  [frm_head RTCFG_ID_STAGE_2_CFG 0; u8 (dev_flags d)] ++ be32 (other_stations d)
  ++ be16 (heartbeat d) ++ be32 (u32 total_size) ++ payload0.
Definition stage_2_frag_bytes (offs : Z) (payload0 : list Z) : list Z :=
  [frm_head RTCFG_ID_STAGE_2_CFG_FRAG 0] ++ be32 offs ++ payload0.
Definition announce_bytes (id addr_type ip0 flags0 burstrate : Z) : list Z :=
  [frm_head id 0; u8 addr_type] ++ with_ip addr_type (wr32 ip0) ++ [u8 flags0; u8 burstrate].
Definition ack_bytes (len0 : Z) : list Z := [frm_head RTCFG_ID_ACK_CFG 0] ++ be32 len0.
Definition simple_bytes (id : Z) : list Z := [frm_head id 0].
Definition dead_station_bytes (C : rtcfg_connection) : list Z :=
  [frm_head RTCFG_ID_DEAD_STATION 0; Z.land (conn_addr_type C) RTCFG_ADDR_MASK]
  ++ with_ip (conn_addr_type C) (wr32 (conn_ip C))
  ++ take ETH_ALEN (conn_mac C) ++ replicate (32 - ETH_ALEN) 0.
End frames.

(** ** Sending *)

Section send.
Context `{Config}.
(** The pool of RTcfg, and the hooks of the network device: header creation,
    MTU per priority and transmission. *)
Context (rtcfg_pool : nat) (hard_header : nat → option (nat → Z → list Z → M kstate Z)).
Context (get_mtu : nat → Z → Z) (drv_xmit : nat → nat → M kstate Z).

(** [rtskb_put] and the bytes written there. *)
Definition put_bytes (skb : nat) (bytes : list Z) : M kstate () :=
  x ← skb_load skb;
  let '(p, x') := rtskb_put (Z.of_nat (length bytes)) x in
  x'' ← deref (buf_write x' p bytes);
  skb_store skb x''.

Definition rtcfg_send_frame (skb d : nat) (dest : list Z) : M kstate Z :=
  skb_upd skb (λ x, x <| rtdev := Some d |> <| priority := RTCFG_SKB_PRIO |>);;
  ret ← match hard_header d with Some f => f skb ETH_RTCFG dest | None => mret 0 end;
  if ret <? 0 then kfree_rtskb (Some skb);; rtdev_dereference d;; mret ret
  else
    D ← dev_load d;
    if negb (Z.land (flags D) IFF_UP =? 0) then
      err ← rtdev_xmit drv_xmit (Some skb);
      rtdev_dereference d;;
      mret (if err =? 0 then 0 else - EAGAIN)
    else kfree_rtskb (Some skb);; rtdev_dereference d;; mret (- ENETDOWN).

(** The common part of the send functions: a buffer with room for the header of
    the device and the frame; NULL when the pool is empty. *)
Definition new_frame (d : nat) (bytes : list Z) : M kstate (option nat) :=
  D ← dev_load d;
  r ← alloc_rtskb (u32 (hard_header_len D + Z.of_nat (length bytes))) rtcfg_pool;
  match r with
  | None => mret None
  | Some skb =>
      skb_upd skb (rtskb_reserve (hard_header_len D));;
      put_bytes skb bytes;;
      mret (Some skb)
  end.
(** [rtdev_get_by_index], [-ENODEV] without a device, [-ENOBUFS] without a
    buffer (the reference is dropped again), then transmission to the address
    [dest] yields. *)
Definition send_to (ifindex0 : Z) (bytes : rtnet_device → M cfgstate (list Z))
    (dest : rtnet_device → M cfgstate (list Z)) : M cfgstate Z :=
  r ← in_k (rtdev_get_by_index ifindex0);
  match r with
  | None => mret (- ENODEV)
  | Some d =>
      D ← in_k (dev_load d);
      b ← bytes D;
      f ← in_k (new_frame d b);
      match f with
      | None => in_k (rtdev_dereference d);; mret (- ENOBUFS)
      | Some skb => a ← dest D; in_k (rtcfg_send_frame skb d a)
      end
  end.

Definition rtcfg_send_stage_1 (c : nat) : M cfgstate Z :=
  C ← conn_load c;
  send_to (conn_ifindex C)
    (λ D, d ← cfgdev_load (conn_ifindex C);
          mret (stage_1_bytes C (local_ip D) (dev_burstrate d)))
    (λ _, mret (conn_mac C)).

(** [MIN(mtu - sizeof(..), size)] in [size_t]. *)
Definition frag_len (d : nat) (hdr rest0 : Z) : Z :=
  Z.min (u64 (get_mtu d RTCFG_SKB_PRIO - hdr)) rest0.
(** The contents of a file from [offs] on, [n] bytes. *)
Definition file_bytes (F : rtcfg_file) (offs n : Z) : M cfgstate (list Z) :=
  b ← deref (file_buffer F);
  deref (if (0 <=? offs) && (offs + n <=? Z.of_nat (length b))
         then Some (take (Z.to_nat n) (drop (Z.to_nat offs) b)) else None).

Definition rtcfg_send_stage_2 (c : nat) (send_data : bool) : M cfgstate Z :=
  C ← conn_load c;
  r ← in_k (rtdev_get_by_index (conn_ifindex C));
  match r with
  | None => mret (- ENODEV)
  | Some d =>
      D ← in_k (dev_load d);
      dv ← cfgdev_load (conn_ifindex C);
      payload_total ←
        (if send_data then
           a ← deref (stage2_file C);
           F ← file_load a;
           let frag_size := frag_len d sizeof_frm_stage_2_cfg (file_size F) in
           b ← file_bytes F 0 frag_size;
           mret (b, file_size F)
         else mret ([], 0));
      let '(b, total_size) := payload_total in
      f ← in_k (new_frame d (stage_2_bytes dv total_size b));
      match f with
      | None => in_k (rtdev_dereference d);; mret (- ENOBUFS)
      | Some skb =>
          conn_upd c (λ C, C <| conn_cfg_offs := u32 (Z.of_nat (length b)) |>);;
          in_k (rtcfg_send_frame skb d (conn_mac C))
      end
  end.

Definition rtcfg_send_stage_2_frag (c : nat) : M cfgstate Z :=
  C ← conn_load c;
  r ← in_k (rtdev_get_by_index (conn_ifindex C));
  match r with
  | None => mret (- ENODEV)
  | Some d =>
      a ← deref (stage2_file C);
      F ← file_load a;
      let frag_size := frag_len d sizeof_frm_stage_2_cfg_frag (u64 (file_size F - conn_cfg_offs C)) in
      b ← file_bytes F (conn_cfg_offs C) frag_size;
      f ← in_k (new_frame d (stage_2_frag_bytes (conn_cfg_offs C) b));
      match f with
      | None => in_k (rtdev_dereference d);; mret (- ENOBUFS)
      | Some skb =>
          conn_upd c (λ C, C <| conn_cfg_offs := u32 (conn_cfg_offs C + frag_size) |>);;
          in_k (rtcfg_send_frame skb d (conn_mac C))
      end
  end.

Definition rtcfg_send_announce_new (ifindex0 : Z) : M cfgstate Z :=
  send_to ifindex0
    (λ D, d ← cfgdev_load ifindex0;
          mret (announce_bytes RTCFG_ID_ANNOUNCE_NEW (clt_addr_type d) (local_ip D) (dev_flags d)
                  (dev_burstrate d)))
    (λ D, mret (broadcast D)).
Definition rtcfg_send_announce_reply (ifindex0 : Z) (dest_mac_addr : list Z) : M cfgstate Z :=
  send_to ifindex0
    (λ D, d ← cfgdev_load ifindex0;
          mret (announce_bytes RTCFG_ID_ANNOUNCE_REPLY (clt_addr_type d) (local_ip D)
                  (Z.land (dev_flags d) RTCFG_FLAG_READY) 0))
    (λ _, mret dest_mac_addr).
Definition rtcfg_send_ack (ifindex0 : Z) : M cfgstate Z :=
  send_to ifindex0
    (λ _, d ← cfgdev_load ifindex0; mret (ack_bytes (clt_cfg_offs d)))
    (λ _, d ← cfgdev_load ifindex0; mret (clt_srv_mac d)).
(** [dest] reads the address the pointer argument designates, if it is not NULL. *)
Definition rtcfg_send_simple_frame (ifindex0 frame_id : Z) (dest : option (M cfgstate (list Z)))
    : M cfgstate Z :=
  send_to ifindex0 (λ _, mret (simple_bytes frame_id))
    (λ D, match dest with Some a => a | None => mret (broadcast D) end).
Definition rtcfg_send_ready (ifindex0 : Z) : M cfgstate Z :=
  rtcfg_send_simple_frame ifindex0 RTCFG_ID_READY None.
Definition rtcfg_send_heartbeat (ifindex0 : Z) : M cfgstate Z :=
  rtcfg_send_simple_frame ifindex0 RTCFG_ID_HEARTBEAT
    (Some (d ← cfgdev_load ifindex0; mret (clt_srv_mac d))).
Definition rtcfg_send_dead_station (c : nat) : M cfgstate Z :=
  C ← conn_load c;
  send_to (conn_ifindex C) (λ _, mret (dead_station_bytes C)) (λ D, mret (broadcast D)).
End send.
