(* ===== verification/RtcfgConn.v ===== *)
(** * RTcfg: connection state machine of the server (rtcfg_conn_event.c)

    One connection per client.  A connection goes from SEARCHING through stage 1
    and stage 2 to READY, back to SEARCHING when the client stops answering during
    configuration, and to DEAD when its heartbeat stops. *)
From S2P Require Import Prelude State Rtskb RtskbData Rtdev Route RtcfgFrame.

(** ** Blocking calls (rtcfg_event.c) *)

Definition rtcfg_queue_blocking_call (ifindex0 : Z) (call : nat) : M cfgstate () :=
  cfgdev_upd ifindex0 (λ d, d <| event_calls := list_add_tail call (event_calls d) |>).

Definition rtcfg_dequeue_blocking_call (ifindex0 : Z) : M cfgstate (option nat) :=
  d ← cfgdev_load ifindex0;
  match event_calls d with
  | [] => mret None
  | call :: l => cfgdev_upd ifindex0 (λ d, d <| event_calls := l |>);; mret (Some call)
  end.

Definition rtpc_complete_call (call : nat) (result : Z) : M cfgstate () :=
  modify (λ s, s <| completed := completed s ++ [(call, result)] |>).

Fixpoint complete_loop (fuel : nat) (ifindex0 : Z) (ev : RTCFG_EVENT) (result : Z) : M cfgstate () :=
  match fuel with
  | O => ub
  | S fuel =>
      r ← rtcfg_dequeue_blocking_call ifindex0;
      match r with
      | None => mret ()
      | Some call =>
          m ← gets calls;
          e ← deref (m !! call);
          rtpc_complete_call call (if decide (cmd_event e = ev) then result else - EINVAL);;
          complete_loop fuel ifindex0 ev result
      end
  end.
Definition rtcfg_complete_cmd (ifindex0 : Z) (ev : RTCFG_EVENT) (result : Z) : M cfgstate () :=
  d ← cfgdev_load ifindex0;
  complete_loop (S (length (event_calls d))) ifindex0 ev result.

Section conn.
Context `{Config}.
Context (rtcfg_pool : nat) (hard_header : nat → option (nat → Z → list Z → M kstate Z)).
Context (get_mtu : nat → Z → Z) (drv_xmit : nat → nat → M kstate Z).
(** The value [rtdm_clock_read] returns. *)
Context (now : Z).

Definition rtcfg_next_conn_state (c : nat) (st : RTCFG_CONN_STATE) : M cfgstate () :=
  conn_upd c (λ C, C <| conn_state := st |>).

(** The byte at offset [off] of the frame, and [rtskb->time_stamp]. *)
Definition frame_byte (skb : nat) (off : Z) : M cfgstate Z :=
  x ← in_k (skb_load skb);
  b ← deref (buf_read x (data x + off) 1);
  match b with [v] => mret v | _ => ub end.
Definition frame_be32 (skb : nat) (off : Z) : M cfgstate Z :=
  x ← in_k (skb_load skb); deref (buf_read x (data x + off) 4 ≫= rd_be32).
Definition stamp (c skb : nat) : M cfgstate () :=
  x ← in_k (skb_load skb); conn_upd c (λ C, C <| last_frame := time_stamp x |>).

(** [while (cfg_offs < size && packets > 0) { send_stage_2_frag; packets--; }] *)
Fixpoint send_frags (packets : nat) (c : nat) : M cfgstate () :=
  match packets with
  | O => mret ()
  | S packets =>
      C ← conn_load c;
      a ← deref (stage2_file C);
      F ← file_load a;
      if conn_cfg_offs C <? file_size F then
        rtcfg_send_stage_2_frag rtcfg_pool hard_header get_mtu drv_xmit c;;
        send_frags packets c
      else mret ()
  end.

(** [clients_configured++], and the waiting calls when all clients are. *)
Definition client_configured (ifindex0 : Z) : M cfgstate () :=
  cfgdev_upd ifindex0 (λ d, d <| clients_configured := u32 (clients_configured d + 1) |>);;
  d ← cfgdev_load ifindex0;
  when (clients_configured d =? other_stations d) (rtcfg_complete_cmd ifindex0 RTCFG_CMD_WAIT 0).

Definition rtcfg_conn_recv_announce_new (c skb : nat) : M cfgstate () :=
  stamp c skb;;
  fl ← frame_byte skb 2;
  br ← frame_byte skb 3;
  conn_upd c (λ C, C <| conn_flags := fl |>
                     <| conn_burstrate := if br <? conn_burstrate C then br else conn_burstrate C |>);;
  rtcfg_next_conn_state c RTCFG_CONN_STAGE_1;;
  C ← conn_load c;
  cfgdev_upd (conn_ifindex C) (λ d, d <| stations_found := u32 (stations_found d + 1) |>);;
  when (negb (Z.land (conn_flags C) RTCFG_FLAG_READY =? 0))
    (cfgdev_upd (conn_ifindex C) (λ d, d <| stations_ready := u32 (stations_ready d + 1) |>));;
  if negb (Z.land (conn_flags C) RTCFG_FLAG_STAGE_2_DATA =? 0) && bool_decide (stage2_file C ≠ None)
  then
    rtcfg_send_stage_2 rtcfg_pool hard_header get_mtu drv_xmit c true;;
    send_frags (Z.to_nat (s32 (conn_burstrate C - 1))) c
  else
    rtcfg_send_stage_2 rtcfg_pool hard_header get_mtu drv_xmit c false;;
    conn_upd c (λ C, C <| conn_flags := Z.land (conn_flags C) (Z.lnot RTCFG_FLAG_STAGE_2_DATA) |>).

(** [memcpy(conn->mac_addr, rtdev->broadcast, MAX_ADDR_LEN)] *)
Definition forget_mac (c d : nat) : M cfgstate () :=
  D ← in_k (dev_load d); conn_upd c (λ C, C <| conn_mac := broadcast D |>).

Definition rtcfg_conn_check_cfg_timeout (c : nat) : M cfgstate () :=
  C ← conn_load c;
  if cfg_timeout C =? 0 then mret ()
  else if u64 (last_frame C + cfg_timeout C) <=? now then
    cfgdev_upd (conn_ifindex C) (λ d, d <| stations_found := u32 (stations_found d - 1) |>);;
    when (bool_decide (conn_state C = RTCFG_CONN_STAGE_2))
      (cfgdev_upd (conn_ifindex C) (λ d, d <| clients_configured := u32 (clients_configured d - 1) |>));;
    rtcfg_next_conn_state c RTCFG_CONN_SEARCHING;;
    conn_upd c (λ C, C <| conn_cfg_offs := 0 |> <| conn_flags := 0 |>);;
    if CONFIG_RTNET_RTIPV4 && (conn_addr_type C =? RTCFG_ADDR_IP) then
      r ← in_k (rtdev_get_by_index (conn_ifindex C));
      match r with
      | None => mret ()
      | Some d => forget_mac c d;; in_k (rtdev_dereference d)
      end
    else mret ()
  else mret ().

Definition rtcfg_conn_check_heartbeat (c : nat) : M cfgstate () :=
  C ← conn_load c;
  d ← cfgdev_load (conn_ifindex C);
  if heartbeat_timeout d =? 0 then mret ()
  else if u64 (last_frame C + heartbeat_timeout d) <=? now then
    cfgdev_upd (conn_ifindex C)
      (λ d, d <| stations_found := u32 (stations_found d - 1) |>
              <| stations_ready := u32 (stations_ready d - 1) |>
              <| clients_configured := u32 (clients_configured d - 1) |>);;
    rtcfg_send_dead_station rtcfg_pool hard_header drv_xmit c;;
    rtcfg_next_conn_state c RTCFG_CONN_DEAD;;
    conn_upd c (λ C, C <| conn_cfg_offs := 0 |> <| conn_flags := 0 |>);;
    if CONFIG_RTNET_RTIPV4 && is_ip (conn_addr_type C) then
      r ← in_k (rtdev_get_by_index (conn_ifindex C));
      in_rt (rt_ip_route_del_host (conn_ip C) r);;
      match r with
      | None => mret ()
      | Some d =>
          when (Z.land (conn_addr_type C) FLAG_ASSIGN_ADDR_BY_MAC =? 0) (forget_mac c d);;
          in_k (rtdev_dereference d)
      end
    else mret ()
  else mret ().

Definition rtcfg_conn_state_searching (c : nat) (ev : RTCFG_EVENT) (skb : option nat) : M cfgstate Z :=
  match ev with
  | RTCFG_FRM_ANNOUNCE_NEW =>
      skb ← deref skb; rtcfg_conn_recv_announce_new c skb;; mret 0
  | RTCFG_FRM_ANNOUNCE_REPLY =>
      skb ← deref skb;
      stamp c skb;;
      rtcfg_next_conn_state c RTCFG_CONN_READY;;
      C ← conn_load c;
      cfgdev_upd (conn_ifindex C)
        (λ d, d <| stations_found := u32 (stations_found d + 1) |>
                <| stations_ready := u32 (stations_ready d + 1) |>);;
      client_configured (conn_ifindex C);;
      mret 0
  | _ => mret (- EINVAL)
  end.

(** The client has all its data: it is configured, and READY if it said so
    before. *)
Definition stage_1_done (c : nat) : M cfgstate () :=
  C ← conn_load c;
  client_configured (conn_ifindex C);;
  rtcfg_next_conn_state c
    (if negb (Z.land (conn_flags C) RTCFG_FLAG_READY =? 0) then RTCFG_CONN_READY else RTCFG_CONN_STAGE_2).

Definition rtcfg_conn_state_stage_1 (c : nat) (ev : RTCFG_EVENT) (skb : option nat) : M cfgstate Z :=
  match ev with
  | RTCFG_FRM_ACK_CFG =>
      skb ← deref skb;
      stamp c skb;;
      ack_len ← frame_be32 skb 1;
      conn_upd c (λ C, C <| conn_cfg_offs := ack_len |>);;
      C ← conn_load c;
      (if negb (Z.land (conn_flags C) RTCFG_FLAG_STAGE_2_DATA =? 0) then
         a ← deref (stage2_file C);
         F ← file_load a;
         if file_size F <=? conn_cfg_offs C then stage_1_done c
         else send_frags (Z.to_nat (s32 (conn_burstrate C))) c
       else stage_1_done c);;
      mret 0
  | RTCFG_TIMER => rtcfg_conn_check_cfg_timeout c;; mret 0
  | _ => mret (- EINVAL)
  end.

Definition rtcfg_conn_state_stage_2 (c : nat) (ev : RTCFG_EVENT) (skb : option nat) : M cfgstate Z :=
  match ev with
  | RTCFG_FRM_READY =>
      skb ← deref skb;
      stamp c skb;;
      rtcfg_next_conn_state c RTCFG_CONN_READY;;
      conn_upd c (λ C, C <| conn_flags := Z.lor (conn_flags C) RTCFG_FLAG_READY |>);;
      C ← conn_load c;
      cfgdev_upd (conn_ifindex C) (λ d, d <| stations_ready := u32 (stations_ready d + 1) |>);;
      d ← cfgdev_load (conn_ifindex C);
      when (stations_ready d =? other_stations d)
        (rtcfg_complete_cmd (conn_ifindex C) RTCFG_CMD_READY 0);;
      mret 0
  | RTCFG_TIMER => rtcfg_conn_check_cfg_timeout c;; mret 0
  | _ => mret (- EINVAL)
  end.

Definition rtcfg_conn_state_ready (c : nat) (ev : RTCFG_EVENT) (skb : option nat) : M cfgstate Z :=
  match ev with
  | RTCFG_TIMER => rtcfg_conn_check_heartbeat c;; mret 0
  | RTCFG_FRM_HEARTBEAT => skb ← deref skb; stamp c skb;; mret 0
  | _ => mret (- EINVAL)
  end.

Definition rtcfg_conn_state_dead (c : nat) (ev : RTCFG_EVENT) (skb : option nat) : M cfgstate Z :=
  match ev with
  | RTCFG_FRM_ANNOUNCE_NEW =>
      skb ← deref skb; rtcfg_conn_recv_announce_new c skb;; mret 0
  | _ => mret (- EINVAL)
  end.

Definition rtcfg_do_conn_event (c : nat) (ev : RTCFG_EVENT) (skb : option nat) : M cfgstate Z :=
  C ← conn_load c;
  match conn_state C with
  | RTCFG_CONN_SEARCHING => rtcfg_conn_state_searching c ev skb
  | RTCFG_CONN_STAGE_1 => rtcfg_conn_state_stage_1 c ev skb
  | RTCFG_CONN_STAGE_2 => rtcfg_conn_state_stage_2 c ev skb
  | RTCFG_CONN_READY => rtcfg_conn_state_ready c ev skb
  | RTCFG_CONN_DEAD => rtcfg_conn_state_dead c ev skb
  end.
End conn.
