(* ===== verification/RtcfgServer.v ===== *)
(** * RTcfg: main state machine, server side (rtcfg_event.c, rtcfg_timer.c)

    The commands and frames a server handles, the list of its connections and the
    counters over them.  Every handler is entered with the device's mutex held and
    releases it. *)
From S2P Require Import Prelude State Rtskb RtskbData Rtdev Route RtcfgFrame RtcfgConn.

Definition dev_lock (ifindex0 : Z) : M cfgstate () :=
  d ← cfgdev_load ifindex0;
  if dev_locked d then ub else cfgdev_upd ifindex0 (λ d, d <| dev_locked := true |>).
Definition dev_unlock (ifindex0 : Z) : M cfgstate () :=
  cfgdev_upd ifindex0 (λ d, d <| dev_locked := false |>).

Definition call_load (call : nat) : M cfgstate rtcfg_cmd := m ← gets calls; deref (m !! call).
Definition call_set_args (call : nat) (a : cmd_args) : M cfgstate () :=
  cmd ← call_load call;
  modify (λ s, s <| calls := <[call := cmd <| cmd_args_of := a |>]> (calls s) |>).

Definition rtcfg_next_main_state (ifindex0 : Z) (st : RTCFG_MAIN_STATE) : M cfgstate () :=
  cfgdev_upd ifindex0 (λ d, d <| dev_state := st |>).

(** [memset(&rtcfg_dev->spec, 0, ..); INIT_LIST_HEAD(conn_list)] with the counters. *)
Definition rtcfg_reset_device (ifindex0 : Z) : M cfgstate () :=
  cfgdev_upd ifindex0
    (λ d, d <| other_stations := 0 |> <| stations_found := 0 |> <| stations_ready := 0 |>
            <| dev_flags := 0 |> <| dev_burstrate := 0 |>
            <| clients_configured := 0 |> <| conn_list := [] |> <| heartbeat := 0 |>
            <| heartbeat_timeout := 0 |> <| clt_addr_type := 0 |> <| clt_srv_mac := replicate MAX_ADDR_LEN 0 |>
            <| clt_srv_ip := 0 |> <| clt_cfg_len := 0 |> <| clt_packet_counter := 0 |>
            <| clt_chain_len := 0 |> <| clt_cfg_offs := 0 |> <| clt_max_stations := 0 |> <| clt_station_addr_list := None |>
            <| clt_stage2_chain := None |>).

Section server.
Context `{Config}.
Context (rtcfg_pool : nat) (hard_header : nat → option (nat → Z → list Z → M kstate Z)).
Context (get_mtu : nat → Z → Z) (drv_xmit : nat → nat → M kstate Z).
Context (now : Z).
(** What [rtdm_task_init] returns for the timer task. *)
Context (task_init_ret : Z).

Definition do_conn_event := rtcfg_do_conn_event rtcfg_pool hard_header get_mtu drv_xmit now.

Definition rtcfg_main_state_off (ifindex0 : Z) (ev : RTCFG_EVENT) (call : nat) : M cfgstate Z :=
  match ev with
  | RTCFG_CMD_SERVER =>
      cmd ← call_load call;
      match cmd_args_of cmd with
      | Args_server period br hb threshold fl =>
          cfgdev_upd ifindex0 (λ d, d <| conn_list := [] |>);;
          if task_init_ret <? 0 then dev_unlock ifindex0;; mret task_init_ret
          else
            cfgdev_upd ifindex0
              (λ d, d <| dev_flags := Z.lor FLAG_TIMER_STARTED (Z.land fl RTCFG_FLAG_READY) |>
                      <| dev_burstrate := br |> <| heartbeat := u16 hb |>
                      <| heartbeat_timeout := u64 (hb * 1000000 * threshold) |>);;
            rtcfg_next_main_state ifindex0 RTCFG_MAIN_SERVER_RUNNING;;
            dev_unlock ifindex0;;
            mret 0
      | _ => ub
      end
  | RTCFG_CMD_CLIENT =>
      cmd ← call_load call;
      match cmd_args_of cmd with
      | Args_client maxs size buf skb =>
          cfgdev_upd ifindex0 (λ d, d <| clt_station_addr_list := buf |> <| clt_max_stations := maxs |>
                                      <| other_stations := u32 (-1) |>);;
          call_set_args call (Args_client maxs size None skb);;
          rtcfg_queue_blocking_call ifindex0 call;;
          rtcfg_next_main_state ifindex0 RTCFG_MAIN_CLIENT_0;;
          dev_unlock ifindex0;;
          mret (- CALL_PENDING)
      | _ => ub
      end
  | _ => dev_unlock ifindex0;; mret (- EINVAL)
  end.

(** *** Commands *)

(** Whether an existing connection has the address of the new one. *)
Definition same_client (addr_type ip0 : Z) (mac : list Z) (C : rtcfg_connection) : bool :=
  (CONFIG_RTNET_RTIPV4 && (addr_type =? RTCFG_ADDR_IP) && (conn_ip C =? ip0)) ||
  ((addr_type =? RTCFG_ADDR_MAC) && memcmp_eq (conn_mac C) mac MAX_ADDR_LEN).
(** [list_for_each] over the connections: the first with [f]. *)
Fixpoint find_conn (f : rtcfg_connection → bool) (l : list nat) : M cfgstate (option nat) :=
  match l with
  | [] => mret None
  | c :: l => C ← conn_load c; if f C then mret (Some c) else find_conn f l
  end.

(** The hardware address of a new connection: unknown, hence broadcast, for a
    client known by its IP address only.  [inr] is the error the function returns
    with; without IPv4 that return does not release the mutex. *)
Definition new_conn_mac (a : add_args) (ifindex0 : Z) : M cfgstate (list Z + Z) :=
  if add_addr_type a =? RTCFG_ADDR_IP then
    if CONFIG_RTNET_RTIPV4 then
      r ← in_k (rtdev_get_by_index ifindex0);
      match r with
      | None => dev_unlock ifindex0;; mret (inr (- ENODEV))
      | Some d =>
          D ← in_k (dev_load d);
          in_k (rtdev_dereference d);;
          mret (inl (broadcast D))
      end
    else mret (inr (- EPROTONOSUPPORT))
  else mret (inl (memcpy (replicate MAX_ADDR_LEN 0) (add_mac_addr a) MAX_ADDR_LEN)).

(** The stage 2 file: a new one with contents, or one already shared under the
    name; [inr] when that is not there.  Also the pointer left in the command. *)
Definition new_conn_file (a : add_args) (ifindex0 : Z) : M cfgstate (option nat * option nat + Z) :=
  match add_stage2_file a with
  | None => mret (inl (None, None))
  | Some f =>
      F ← file_load f;
      match file_buffer F with
      | Some _ => rtcfg_add_file f;; mret (inl (Some f, None))
      | None =>
          r ← rtcfg_get_file (file_name F);
          match r with
          | None => dev_unlock ifindex0;; mret (inr 1)
          | Some g => mret (inl (Some g, Some f))
          end
      end
  end.

Definition rtcfg_server_add (call : nat) : M cfgstate Z :=
  cmd ← call_load call;
  match cmd_args_of cmd with
  | Args_add a =>
      let ifindex0 := cmd_ifindex cmd in
      let addr_type := Z.land (add_addr_type a) RTCFG_ADDR_MASK in
      d ← cfgdev_load ifindex0;
      new_conn ← deref (add_conn_buf a);
      let C0 := mk_conn ifindex0 RTCFG_CONN_SEARCHING (replicate MAX_ADDR_LEN 0) (add_addr_type a)
                  (if CONFIG_RTNET_RTIPV4 then add_ip_addr a else 0)
                  (default [] (add_stage1_data a)) (add_stage1_size a) None 0 0 (dev_burstrate d) 0
                  (u64 (add_timeout a * 1000000)) in
      modify (λ s, s <| conns := <[new_conn := C0]> (conns s) |>);;
      m ← new_conn_mac a ifindex0;
      match m with
      | inr err => mret err
      | inl mac =>
          conn_upd new_conn (λ C, C <| conn_mac := mac |>);;
          fl ← new_conn_file a ifindex0;
          match fl with
          | inr err => mret err
          | inl (file, keep) =>
              conn_upd new_conn (λ C, C <| stage2_file := file |>);;
              d ← cfgdev_load ifindex0;
              dup ← find_conn (same_client addr_type (add_ip_addr a) mac) (conn_list d);
              match dup with
              | Some _ =>
                  dev_unlock ifindex0;;
                  match file with
                  | Some f =>
                      n ← rtcfg_release_file f;
                      call_set_args call (Args_add (a <| add_stage2_file := if n =? 0 then Some f else keep |>))
                  | None => mret ()
                  end;;
                  mret (- EEXIST)
              | None =>
                  cfgdev_upd ifindex0
                    (λ d, d <| conn_list := list_add_tail new_conn (conn_list d) |>
                            <| other_stations := u32 (other_stations d + 1) |>);;
                  dev_unlock ifindex0;;
                  call_set_args call (Args_add (a <| add_conn_buf := None |> <| add_stage1_data := None |>
                                                  <| add_stage2_file := keep |>));;
                  mret 0
              end
          end
      end
  | _ => ub
  end.

(** The counters when a connection is taken out of the list. *)
Definition leave_counters (C : rtcfg_connection) (d : rtcfg_device) : rtcfg_device :=
  let d := d <| other_stations := u32 (other_stations d - 1) |> in
  match conn_state C with
  | RTCFG_CONN_SEARCHING => d
  | st =>
      let d := d <| stations_found := u32 (stations_found d - 1) |> in
      let d := match st with
               | RTCFG_CONN_STAGE_2 | RTCFG_CONN_READY | RTCFG_CONN_DEAD =>
                   d <| clients_configured := u32 (clients_configured d - 1) |>
               | _ => d
               end in
      if negb (Z.land (conn_flags C) RTCFG_FLAG_READY =? 0)
      then d <| stations_ready := u32 (stations_ready d - 1) |> else d
  end.
(** Unlinking a connection; the result is the file to be freed, if its last user
    is gone. *)
Definition unlink_conn (ifindex0 : Z) (c : nat) : M cfgstate (option nat) :=
  C ← conn_load c;
  d ← cfgdev_load ifindex0;
  l ← deref (list_del c (conn_list d));
  cfgdev_upd ifindex0 (λ d, leave_counters C (d <| conn_list := l |>));;
  match stage2_file C with
  | None => mret None
  | Some f => n ← rtcfg_release_file f; mret (if n =? 0 then Some f else None)
  end.

Definition del_match (addr_type ip0 : Z) (mac : list Z) (C : rtcfg_connection) : bool :=
  (addr_type =? conn_addr_type C) && same_client addr_type ip0 mac C.

Definition rtcfg_server_del (call : nat) : M cfgstate Z :=
  cmd ← call_load call;
  match cmd_args_of cmd with
  | Args_del at0 ip0 mac _ f0 =>
      let addr_type := Z.land at0 RTCFG_ADDR_MASK in
      d ← cfgdev_load (cmd_ifindex cmd);
      r ← find_conn (del_match addr_type ip0 mac) (conn_list d);
      match r with
      | Some c =>
          f ← unlink_conn (cmd_ifindex cmd) c;
          dev_unlock (cmd_ifindex cmd);;
          call_set_args call (Args_del at0 ip0 mac (Some c) (match f with Some _ => f | None => f0 end));;
          mret 0
      | None => dev_unlock (cmd_ifindex cmd);; mret (- ENOENT)
      end
  | _ => ub
  end.

(** Detaching takes one connection per call ([-EAGAIN]) until none is left. *)
Definition rtcfg_server_detach (ifindex0 : Z) (call : nat) : M cfgstate Z :=
  cmd ← call_load call;
  match cmd_args_of cmd with
  | Args_detach b0 f0 sl ch =>
      d ← cfgdev_load ifindex0;
      match conn_list d with
      | c :: _ =>
          f ← unlink_conn ifindex0 c;
          dev_unlock ifindex0;;
          call_set_args call (Args_detach (Some c) (match f with Some _ => f | None => f0 end) sl ch);;
          mret (- EAGAIN)
      | [] =>
          rtcfg_reset_device ifindex0;;
          rtcfg_next_main_state ifindex0 RTCFG_MAIN_OFF;;
          dev_unlock ifindex0;;
          mret 0
      end
  | _ => ub
  end.

(** *** Frames *)

(** [rtskb->mac.ethernet->h_source] *)
Definition h_source (skb : nat) : M cfgstate (list Z) :=
  x ← in_k (skb_load skb); deref (buf_read x (mac_raw x + 6) 6).

(** The loop of [rtcfg_server_recv_announce]. *)
Fixpoint announce_loop (l : list nat) (ev : RTCFG_EVENT) (skb : nat) : M cfgstate () :=
  match l with
  | [] => mret ()
  | c :: l =>
      C ← conn_load c;
      at0 ← frame_byte skb 1;
      if CONFIG_RTNET_RTIPV4 && (at0 =? RTCFG_ADDR_IP) then
        x ← in_k (skb_load skb);
        announce_addr ← deref (buf_read x (data x + 2) 4 ≫= rd32);
        if is_ip (conn_addr_type C) && (announce_addr =? conn_ip C) then
          src ← h_source skb;
          conn_upd c (λ C, C <| conn_mac := memcpy (conn_mac C) src ETH_ALEN |>);;
          C ← conn_load c;
          d ← deref (rtdev x);
          in_rt (rt_ip_route_add_host (conn_ip C) (conn_mac C) d);;
          in_k (skb_upd skb (λ x, snd (__rtskb_pull RTCFG_ADDRSIZE_IP x)));;
          do_conn_event c ev (Some skb);;
          mret ()
        else announce_loop l ev skb
      else if at0 =? RTCFG_ADDR_MAC then
        src ← h_source skb;
        if memcmp_eq (conn_mac C) src ETH_ALEN then do_conn_event c ev (Some skb);; mret ()
        else announce_loop l ev skb
      else announce_loop l ev skb
  end.

Definition rtcfg_server_recv_announce (ifindex0 : Z) (ev : RTCFG_EVENT) (skb : nat) : M cfgstate Z :=
  x ← in_k (skb_load skb);
  if len x <? sizeof_frm_announce then dev_unlock ifindex0;; mret (- EINVAL)
  else
    d ← cfgdev_load ifindex0;
    announce_loop (conn_list d) ev skb;;
    dev_unlock ifindex0;;
    in_k (kfree_rtskb (Some skb));;
    mret 0.

(** The event goes to the connection with the sender's hardware address. *)
Definition to_sender (ifindex0 : Z) (ev : RTCFG_EVENT) (skb : nat) : M cfgstate Z :=
  d ← cfgdev_load ifindex0;
  src ← h_source skb;
  r ← find_conn (λ C, memcmp_eq (conn_mac C) src ETH_ALEN) (conn_list d);
  match r with
  | Some c => do_conn_event c ev (Some skb);; mret ()
  | None => mret ()
  end;;
  dev_unlock ifindex0;;
  in_k (kfree_rtskb (Some skb));;
  mret 0.
Definition rtcfg_server_recv_ack (ifindex0 : Z) (skb : nat) : M cfgstate Z :=
  x ← in_k (skb_load skb);
  if len x <? sizeof_frm_ack_cfg then dev_unlock ifindex0;; mret (- EINVAL)
  else to_sender ifindex0 RTCFG_FRM_ACK_CFG skb.
Definition rtcfg_server_recv_simple_frame (ifindex0 : Z) (ev : RTCFG_EVENT) (skb : nat) : M cfgstate Z :=
  to_sender ifindex0 ev skb.

Definition rtcfg_main_state_server_running (ifindex0 : Z) (ev : RTCFG_EVENT) (data0 : nat)
    : M cfgstate Z :=
  match ev with
  | RTCFG_CMD_ADD => rtcfg_server_add data0
  | RTCFG_CMD_DEL => rtcfg_server_del data0
  | RTCFG_CMD_WAIT =>
      d ← cfgdev_load ifindex0;
      (if clients_configured d =? other_stations d then rtpc_complete_call data0 0
       else rtcfg_queue_blocking_call ifindex0 data0);;
      dev_unlock ifindex0;;
      mret (- CALL_PENDING)
  | RTCFG_CMD_READY =>
      d ← cfgdev_load ifindex0;
      (if stations_ready d =? other_stations d then rtpc_complete_call data0 0
       else rtcfg_queue_blocking_call ifindex0 data0);;
      when (Z.land (dev_flags d) RTCFG_FLAG_READY =? 0)
        (cfgdev_upd ifindex0 (λ d, d <| dev_flags := Z.lor (dev_flags d) RTCFG_FLAG_READY |>);;
         rtcfg_send_ready rtcfg_pool hard_header drv_xmit ifindex0;; mret ());;
      dev_unlock ifindex0;;
      mret (- CALL_PENDING)
  | RTCFG_CMD_DETACH => rtcfg_server_detach ifindex0 data0
  | RTCFG_FRM_ANNOUNCE_NEW | RTCFG_FRM_ANNOUNCE_REPLY => rtcfg_server_recv_announce ifindex0 ev data0
  | RTCFG_FRM_ACK_CFG => rtcfg_server_recv_ack ifindex0 data0
  | RTCFG_FRM_READY | RTCFG_FRM_HEARTBEAT => rtcfg_server_recv_simple_frame ifindex0 ev data0
  | _ => dev_unlock ifindex0;; mret (- EINVAL)
  end.

(** [client] stands for the handlers of the client states. *)
Definition rtcfg_do_main_event (client : RTCFG_MAIN_STATE → Z → RTCFG_EVENT → nat → M cfgstate Z)
    (ifindex0 : Z) (ev : RTCFG_EVENT) (data0 : nat) : M cfgstate Z :=
  dev_lock ifindex0;;
  d ← cfgdev_load ifindex0;
  match dev_state d with
  | RTCFG_MAIN_OFF => rtcfg_main_state_off ifindex0 ev data0
  | RTCFG_MAIN_SERVER_RUNNING => rtcfg_main_state_server_running ifindex0 ev data0
  | st => client st ifindex0 ev data0
  end.

(** *** The timer task (rtcfg_timer.c) *)

(** The loop over the connections; the state is [(last_stage_1, burst_credit)]. *)
Fixpoint timer_loop (l : list nat) (index last_stage_1 burst_credit : Z) : M cfgstate Z :=
  match l with
  | [] => mret (if last_stage_1 =? index - 1 then -1 else last_stage_1)
  | c :: l =>
      C ← conn_load c;
      match conn_state C with
      | RTCFG_CONN_SEARCHING | RTCFG_CONN_DEAD =>
          if (0 <? burst_credit) && (last_stage_1 <? index) then
            rtcfg_send_stage_1 rtcfg_pool hard_header drv_xmit c;;
            timer_loop l (index + 1) index (burst_credit - 1)
          else timer_loop l (index + 1) last_stage_1 burst_credit
      | _ =>
          let last_stage_1 := if last_stage_1 =? index - 1 then index else last_stage_1 in
          do_conn_event c RTCFG_TIMER None;;
          timer_loop l (index + 1) last_stage_1 burst_credit
      end
  end.
(** One round of [rtcfg_timer]; the result is [last_stage_1] for the next. *)
Definition rtcfg_timer_round (ifindex0 last_stage_1 : Z) : M cfgstate Z :=
  dev_lock ifindex0;;
  d ← cfgdev_load ifindex0;
  last' ← match dev_state d with
    | RTCFG_MAIN_SERVER_RUNNING => timer_loop (conn_list d) 0 last_stage_1 (s32 (dev_burstrate d))
    | RTCFG_MAIN_CLIENT_READY =>
        rtcfg_send_heartbeat rtcfg_pool hard_header drv_xmit ifindex0;; mret last_stage_1
    | _ => mret last_stage_1
    end;
  dev_unlock ifindex0;;
  mret last'.
End server.
