(* ===== verification/RtcfgClient.v ===== *)
(** * RTcfg: main state machine, client side (rtcfg_client_event.c)

    A client waits for its stage 1 data (CLIENT_0), announces itself (CLIENT_1),
    collects the stage 2 data and the announcements of the other stations
    (ANNOUNCED, ALL_KNOWN, ALL_FRAMES) and reports that it is ready (CLIENT_2,
    READY).  It keeps an array of the hardware addresses and flags of the other
    stations.  Handlers are entered with the device's mutex held. *)
From S2P Require Import Prelude State RtskbQueue Rtskb RtskbData Rtdev Route RtcfgFrame RtcfgConn RtcfgServer.

Definition PACKET_BROADCAST := 1.
Definition PACKET_OTHERHOST := 3.

(** ** The array of stations *)

Definition station_list (d : rtcfg_device) : M cfgstate (nat * list rtcfg_station) :=
  a ← deref (clt_station_addr_list d);
  m ← gets stations;
  L ← deref (m !! a);
  mret (a, L).
Definition station_list_set (a : nat) (L : list rtcfg_station) : M cfgstate () :=
  modify (λ s, s <| stations := <[a := L]> (stations s) |>).

(** [for (i = ..; i < stations_found; i++) if (memcmp(list[i].mac_addr, ..) == 0)]:
    [n] rounds are left; the index of the station found. *)
Fixpoint find_station (n i : nat) (d : rtcfg_device) (mac : list Z) : M cfgstate (option nat) :=
  match n with
  | O => mret None
  | S n =>
      r ← station_list d;
      e ← deref (r.2 !! i);
      if memcmp_eq (st_mac e) mac ETH_ALEN then mret (Some i) else find_station n (S i) d mac
  end.

Definition rtcfg_add_to_station_list (ifindex0 : Z) (mac_addr : list Z) (flags0 : Z) : M cfgstate Z :=
  d ← cfgdev_load ifindex0;
  if stations_found d =? clt_max_stations d then mret (- ENOMEM)
  else
    r ← station_list d;
    let i := Z.to_nat (stations_found d) in
    e ← deref (r.2 !! i);
    station_list_set r.1
      (<[i := e <| st_mac := memcpy (st_mac e) mac_addr ETH_ALEN |> <| st_flags := flags0 |>]> r.2);;
    cfgdev_upd ifindex0 (λ d, d <| stations_found := u32 (stations_found d + 1) |>);;
    when (negb (Z.land flags0 RTCFG_FLAG_READY =? 0))
      (cfgdev_upd ifindex0 (λ d, d <| stations_ready := u32 (stations_ready d + 1) |>));;
    mret 0.

(** [memmove(&list[i], &list[i+1], sizeof(..) * (found - i))], [found] being the
    number of stations that remain. *)
Definition station_memmove (L : list rtcfg_station) (i found : nat) : list rtcfg_station :=
  take i L ++ take (found - i) (drop (S i) L) ++ drop found L.

(** ** Bytes of a frame at an address of its buffer *)

Definition at_byte (skb : nat) (p : Z) : M cfgstate Z :=
  x ← in_k (skb_load skb);
  b ← deref (buf_read x p 1);
  match b with [v] => mret v | _ => ub end.
Definition at_addr `{Config} (skb : nat) (p : Z) : M cfgstate Z :=
  x ← in_k (skb_load skb); deref (buf_read x p 4 ≫= rd32).
Definition pull `{Config} (skb : nat) (n : Z) : M cfgstate () :=
  in_k (skb_upd skb (λ x, snd (__rtskb_pull n x))).
(** [rtdm_mutex_unlock(&rtcfg_dev->dev_mutex); kfree_rtskb(rtskb)] *)
Definition unlock_free `{Config} (ifindex0 : Z) (skb : nat) : M cfgstate () :=
  dev_unlock ifindex0;; in_k (kfree_rtskb (Some skb)).

Section client.
Context `{Config}.
Context (rtcfg_pool : nat) (hard_header : nat → option (nat → Z → list Z → M kstate Z)).
Context (get_mtu : nat → Z → Z) (drv_xmit : nat → nat → M kstate Z).
(** What [rtdm_task_init] returns for the timer task. *)
Context (task_init_ret : Z).

(** *** Commands *)

Definition configured_state (d : rtcfg_device) : RTCFG_MAIN_STATE :=
  if negb (Z.land (dev_flags d) RTCFG_FLAG_READY =? 0)
  then RTCFG_MAIN_CLIENT_READY else RTCFG_MAIN_CLIENT_2.

Definition rtcfg_client_get_frag (ifindex0 : Z) (call : nat) : M cfgstate Z :=
  d ← cfgdev_load ifindex0;
  if Z.land (dev_flags d) RTCFG_FLAG_STAGE_2_DATA =? 0 then dev_unlock ifindex0;; mret (- EINVAL)
  else
    rtcfg_send_ack rtcfg_pool hard_header drv_xmit ifindex0;;
    d ← cfgdev_load ifindex0;
    (if clt_cfg_len d <=? clt_cfg_offs d then
       if stations_found d =? other_stations d then
         rtpc_complete_call call 0;;
         rtcfg_next_main_state ifindex0 (configured_state d)
       else
         rtcfg_next_main_state ifindex0 RTCFG_MAIN_CLIENT_ALL_FRAMES;;
         rtcfg_queue_blocking_call ifindex0 call
     else rtcfg_queue_blocking_call ifindex0 call);;
    dev_unlock ifindex0;;
    mret (- CALL_PENDING).

(** [while ((call = rtcfg_dequeue_blocking_call(..))) rtpc_complete_call(call, -ENODEV)] *)
Fixpoint abort_calls (fuel : nat) (ifindex0 : Z) : M cfgstate () :=
  match fuel with
  | O => ub
  | S fuel =>
      r ← rtcfg_dequeue_blocking_call ifindex0;
      match r with
      | None => mret ()
      | Some call => rtpc_complete_call call (- ENODEV);; abort_calls fuel ifindex0
      end
  end.

Definition rtcfg_client_detach (ifindex0 : Z) (call : nat) : M cfgstate () :=
  cmd ← call_load call;
  match cmd_args_of cmd with
  | Args_detach b0 f0 _ _ =>
      d ← cfgdev_load ifindex0;
      call_set_args call (Args_detach b0 f0 (clt_station_addr_list d) (clt_stage2_chain d));;
      abort_calls (S (length (event_calls d))) ifindex0;;
      rtcfg_reset_device ifindex0;;
      rtcfg_next_main_state (cmd_ifindex cmd) RTCFG_MAIN_OFF;;
      dev_unlock ifindex0
  | _ => ub
  end.

(** *** Frames *)

(** The default netmask of an address class. *)
Definition class_mask (daddr : Z) : Z :=
  if ntohl daddr <=? 2147483647 then 255          (* 0x7FFFFFFF, 0x000000FF *)
  else if ntohl daddr <=? 3221225471 then 65535   (* 0xBFFFFFFF, 0x0000FFFF *)
  else 16777215.                                  (* 0x00FFFFFF *)

(** The server assigns the address [daddr] to [rtdev]. *)
Definition assign_addr (d : nat) (daddr : Z) : M cfgstate () :=
  let bcast := Z.lor daddr (u32 (Z.lnot (class_mask daddr))) in
  in_rt (rt_ip_route_del_all d);;
  in_k (dev_upd d (λ D, D <| local_ip := daddr |> <| broadcast_ip := bcast |>));;
  tmp ← in_k rtdev_get_loopback;
  match tmp with
  | Some t =>
      T ← in_k (dev_load t);
      in_rt (rt_ip_route_add_host daddr (dev_addr T) t);;
      in_k (rtdev_dereference t)
  | None => mret ()
  end;;
  D ← in_k (dev_load d);
  when (negb (Z.land (flags D) IFF_BROADCAST =? 0))
    (in_rt (rt_ip_route_add_host bcast (broadcast D) d);; mret ()).

(** The loop over the pending calls at the end of [rtcfg_client_recv_stage_1]:
    the first CLIENT command with a buffer gets the frame, whose data length is
    at address [p]; the result is the frame if nobody got it. *)
Fixpoint stage_1_calls (fuel : nat) (ifindex0 : Z) (skb : option nat) (p : Z)
    : M cfgstate (option nat) :=
  match fuel with
  | O => ub
  | S fuel =>
      r ← rtcfg_dequeue_blocking_call ifindex0;
      match r with
      | None => mret skb
      | Some call =>
          cmd ← call_load call;
          if decide (cmd_event cmd = RTCFG_CMD_CLIENT) then
            match cmd_args_of cmd with
            | Args_client maxs size buf _ =>
                match skb with
                | Some b =>
                    if 0 <? size then
                      x ← in_k (skb_load b);
                      cfg_len ← deref (buf_read x p 2 ≫= rd_be16);
                      call_set_args call (Args_client maxs size buf (Some b));;
                      rtpc_complete_call call cfg_len;;
                      stage_1_calls fuel ifindex0 None p
                    else rtpc_complete_call call 0;; stage_1_calls fuel ifindex0 skb p
                | None => rtpc_complete_call call 0;; stage_1_calls fuel ifindex0 None p
                end
            | _ => ub
            end
          else rtpc_complete_call call (- EINVAL);; stage_1_calls fuel ifindex0 skb p
      end
  end.

(** The part shared by both ways of accepting a stage 1 frame: type, hardware
    address of the server and burst rate are stored, the calls completed. *)
Definition stage_1_accept (ifindex0 : Z) (skb : nat) (addr_type p : Z) : M cfgstate () :=
  cfgdev_upd ifindex0 (λ d, d <| clt_addr_type := addr_type |>);;
  src ← h_source skb;
  br ← at_byte skb (p + 2);
  cfgdev_upd ifindex0 (λ d, d <| clt_srv_mac := memcpy (clt_srv_mac d) src ETH_ALEN |>
                             <| dev_burstrate := br |>);;
  rtcfg_next_main_state ifindex0 RTCFG_MAIN_CLIENT_1;;
  dev_unlock ifindex0;;
  d ← cfgdev_load ifindex0;
  left ← stage_1_calls (S (length (event_calls d))) ifindex0 (Some skb) (p + 3);
  match left with Some b => in_k (kfree_rtskb (Some b)) | None => mret () end.

Definition rtcfg_client_recv_stage_1 (ifindex0 : Z) (skb : nat) : M cfgstate () :=
  x ← in_k (skb_load skb);
  if len x <? sizeof_frm_stage_1_cfg then unlock_free ifindex0 skb
  else
    let p := data x in
    pull skb sizeof_frm_stage_1_cfg;;
    addr_type ← at_byte skb (p + 1);
    if CONFIG_RTNET_RTIPV4 && (addr_type =? RTCFG_ADDR_IP) then
      x ← in_k (skb_load skb);
      if len x <? sizeof_frm_stage_1_cfg + 2 * RTCFG_ADDRSIZE_IP then unlock_free ifindex0 skb
      else
        d ← deref (rtdev x);
        daddr ← at_addr skb (p + 2);
        saddr ← at_addr skb (p + RTCFG_ADDRSIZE_IP + 2);
        pull skb (2 * RTCFG_ADDRSIZE_IP);;
        D ← in_k (dev_load d);
        if (pkt_type x =? PACKET_BROADCAST) && negb (daddr =? local_ip D)
        then unlock_free ifindex0 skb
        else
          when (negb (pkt_type x =? PACKET_BROADCAST)) (assign_addr d daddr);;
          src ← h_source skb;
          in_rt (rt_ip_route_add_host saddr src d);;
          cfgdev_upd ifindex0 (λ d, d <| clt_srv_ip := saddr |>);;
          stage_1_accept ifindex0 skb addr_type (p + 2 * RTCFG_ADDRSIZE_IP)
    else if addr_type =? RTCFG_ADDR_MAC then stage_1_accept ifindex0 skb addr_type p
    else unlock_free ifindex0 skb.

(** 0 with the mutex still held, or an error after releasing it. *)
Definition rtcfg_client_recv_announce (ifindex0 : Z) (skb : nat) : M cfgstate Z :=
  x ← in_k (skb_load skb);
  if len x <? sizeof_frm_announce then dev_unlock ifindex0;; mret (- EINVAL)
  else
    addr_type ← at_byte skb (data x + 1);
    p ← (if CONFIG_RTNET_RTIPV4 && (addr_type =? RTCFG_ADDR_IP) then
           if len x <? sizeof_frm_announce + RTCFG_ADDRSIZE_IP
           then dev_unlock ifindex0;; mret None
           else
             announce_frm_addr ← at_addr skb (data x + 2);
             src ← h_source skb;
             d ← deref (rtdev x);
             in_rt (rt_ip_route_add_host announce_frm_addr src d);;
             mret (Some (data x + RTCFG_ADDRSIZE_IP))
         else if addr_type =? RTCFG_ADDR_MAC then mret (Some (data x))
         else dev_unlock ifindex0;; mret None);
    match p with
    | None => mret (- EINVAL)
    | Some p =>
        d ← cfgdev_load ifindex0;
        src ← h_source skb;
        r ← find_station (Z.to_nat (stations_found d)) 0 d src;
        match r with
        | Some _ => mret 0
        | None =>
            fl ← at_byte skb (p + 2);
            result ← rtcfg_add_to_station_list ifindex0 src fl;
            when (result <? 0) (dev_unlock ifindex0);;
            mret result
        end
    end.

(** The calls waiting for stage 2 data: the first one gets the chain. *)
Fixpoint stage_2_calls (fuel : nat) (ifindex0 : Z) : M cfgstate () :=
  match fuel with
  | O => ub
  | S fuel =>
      r ← rtcfg_dequeue_blocking_call ifindex0;
      match r with
      | None => mret ()
      | Some call =>
          cmd ← call_load call;
          d ← cfgdev_load ifindex0;
          result ← match clt_stage2_chain d with
            | Some b =>
                match cmd_args_of cmd with
                | Args_announce fl br size _ =>
                    call_set_args call (Args_announce fl br size (Some b));;
                    cfgdev_upd ifindex0 (λ d, d <| clt_stage2_chain := None |>);;
                    mret (s32 (clt_chain_len d))
                | _ => ub
                end
            | None => mret 0
            end;
          rtpc_complete_call call
            (if decide (cmd_event cmd = RTCFG_CMD_ANNOUNCE) then result else - EINVAL);;
          stage_2_calls fuel ifindex0
      end
  end.

Definition rtcfg_client_queue_frag (ifindex0 : Z) (skb : nat) (data_len : Z) : M cfgstate () :=
  in_k (skb_upd skb (rtskb_trim data_len));;
  d ← cfgdev_load ifindex0;
  match clt_stage2_chain d with
  | None => cfgdev_upd ifindex0 (λ d, d <| clt_stage2_chain := Some skb |>)
  | Some h =>
      X ← in_k (skb_load h);
      e ← deref (chain_end X);
      in_k (skb_upd e (λ x, x <| next := Some skb |>));;
      in_k (skb_upd h (λ x, x <| chain_end := Some skb |>))
  end;;
  cfgdev_upd ifindex0 (λ d, d <| clt_cfg_offs := u32 (clt_cfg_offs d + data_len) |>
                             <| clt_chain_len := u32 (clt_chain_len d + data_len) |>);;
  d ← cfgdev_load ifindex0;
  complete ← (if clt_cfg_len d <=? clt_cfg_offs d then mret true
              else
                cfgdev_upd ifindex0 (λ d, d <| clt_packet_counter := u32 (clt_packet_counter d + 1) |>);;
                mret (u32 (clt_packet_counter d + 1) =? dev_burstrate d));
  when complete
    (stage_2_calls (S (length (event_calls d))) ifindex0;;
     cfgdev_upd ifindex0 (λ d, d <| clt_packet_counter := 0 |> <| clt_chain_len := 0 |>)).

Definition all_found (ifindex0 : Z) (m : M cfgstate ()) : M cfgstate () :=
  d ← cfgdev_load ifindex0; when (stations_found d =? other_stations d) m.
(** The ANNOUNCE command is complete. *)
Definition announce_done (ifindex0 : Z) : M cfgstate () :=
  rtcfg_complete_cmd ifindex0 RTCFG_CMD_ANNOUNCE 0;;
  d ← cfgdev_load ifindex0;
  rtcfg_next_main_state ifindex0 (configured_state d).

Definition rtcfg_client_recv_stage_2_cfg (ifindex0 : Z) (skb : nat) : M cfgstate () :=
  x ← in_k (skb_load skb);
  if len x <? sizeof_frm_stage_2_cfg then unlock_free ifindex0 skb
  else
    let p := data x in
    pull skb sizeof_frm_stage_2_cfg;;
    heartbeat_period ← deref (buf_read x (p + 6) 2 ≫= rd_be16);
    when (negb (heartbeat_period =? 0) && negb (task_init_ret <? 0))
      (cfgdev_upd ifindex0 (λ d, d <| dev_flags := Z.lor (dev_flags d) FLAG_TIMER_STARTED |>));;
    src ← h_source skb;
    fl ← at_byte skb (p + 1);
    r ← rtcfg_add_to_station_list ifindex0 src fl;
    if r <? 0 then unlock_free ifindex0 skb
    else
      others ← deref (buf_read x (p + 2) 4 ≫= rd_be32);
      cfg_len ← deref (buf_read x (p + 8) 4 ≫= rd_be32);
      cfgdev_upd ifindex0 (λ d, d <| other_stations := others |> <| clt_cfg_len := cfg_len |>);;
      y ← in_k (skb_load skb);
      d ← cfgdev_load ifindex0;
      let data_len := Z.min cfg_len (len y) in
      if negb (Z.land (dev_flags d) RTCFG_FLAG_STAGE_2_DATA =? 0) && (0 <? data_len) then
        rtcfg_client_queue_frag ifindex0 skb data_len;;
        all_found ifindex0 (rtcfg_next_main_state ifindex0 RTCFG_MAIN_CLIENT_ALL_KNOWN);;
        dev_unlock ifindex0
      else
        (if stations_found d =? other_stations d then announce_done ifindex0
         else rtcfg_next_main_state ifindex0 RTCFG_MAIN_CLIENT_ALL_FRAMES);;
        rtcfg_send_ack rtcfg_pool hard_header drv_xmit ifindex0;;
        unlock_free ifindex0 skb.

Definition rtcfg_client_recv_stage_2_frag (ifindex0 : Z) (skb : nat) : M cfgstate () :=
  x ← in_k (skb_load skb);
  if len x <? sizeof_frm_stage_2_cfg_frag then unlock_free ifindex0 skb
  else
    let p := data x in
    pull skb sizeof_frm_stage_2_cfg_frag;;
    d ← cfgdev_load ifindex0;
    y ← in_k (skb_load skb);
    let data_len := Z.min (u32 (clt_cfg_len d - clt_cfg_offs d)) (len y) in
    if Z.land (dev_flags d) RTCFG_FLAG_STAGE_2_DATA =? 0 then unlock_free ifindex0 skb
    else
      frag_offs ← deref (buf_read x (p + 1) 4 ≫= rd_be32);
      if clt_cfg_offs d =? frag_offs then
        rtcfg_client_queue_frag ifindex0 skb data_len;;
        dev_unlock ifindex0
      else
        rtcfg_send_ack rtcfg_pool hard_header drv_xmit ifindex0;;
        cfgdev_upd ifindex0 (λ d, d <| clt_packet_counter := 0 |>);;
        unlock_free ifindex0 skb.

(** 0 with the mutex still held, or an error after releasing it. *)
Definition rtcfg_client_recv_ready (ifindex0 : Z) (skb : nat) : M cfgstate Z :=
  x ← in_k (skb_load skb);
  if len x <? sizeof_frm_head then unlock_free ifindex0 skb;; mret (- EINVAL)
  else
    d ← cfgdev_load ifindex0;
    src ← h_source skb;
    r ← find_station (Z.to_nat (stations_found d)) 0 d src;
    match r with
    | Some i =>
        l ← station_list d;
        e ← deref (l.2 !! i);
        when (Z.land (st_flags e) RTCFG_FLAG_READY =? 0)
          (station_list_set l.1 (<[i := e <| st_flags := Z.lor (st_flags e) RTCFG_FLAG_READY |>]> l.2);;
           cfgdev_upd ifindex0 (λ d, d <| stations_ready := u32 (stations_ready d + 1) |>))
    | None => mret ()
    end;;
    in_k (kfree_rtskb (Some skb));;
    mret 0.

(** A station leaves the array. *)
Definition drop_station (ifindex0 : Z) (i : nat) : M cfgstate () :=
  d ← cfgdev_load ifindex0;
  l ← station_list d;
  e ← deref (l.2 !! i);
  when (negb (Z.land (st_flags e) RTCFG_FLAG_READY =? 0))
    (cfgdev_upd ifindex0 (λ d, d <| stations_ready := u32 (stations_ready d - 1) |>));;
  cfgdev_upd ifindex0 (λ d, d <| stations_found := u32 (stations_found d - 1) |>);;
  d ← cfgdev_load ifindex0;
  station_list_set l.1 (station_memmove l.2 i (Z.to_nat (stations_found d)));;
  when (bool_decide (dev_state d = RTCFG_MAIN_CLIENT_ALL_KNOWN))
    (rtcfg_next_main_state ifindex0 RTCFG_MAIN_CLIENT_ANNOUNCED).

Definition rtcfg_client_recv_dead_station (ifindex0 : Z) (skb : nat) : M cfgstate () :=
  x ← in_k (skb_load skb);
  if len x <? sizeof_frm_dead_station then unlock_free ifindex0 skb
  else
    addr_type ← at_byte skb (data x + 1);
    p ← (if CONFIG_RTNET_RTIPV4 && (addr_type =? RTCFG_ADDR_IP) then
           if len x <? sizeof_frm_dead_station + RTCFG_ADDRSIZE_IP
           then unlock_free ifindex0 skb;; mret None
           else
             ip0 ← at_addr skb (data x + 2);
             d ← deref (rtdev x);
             D ← in_k (dev_load d);
             when (negb (local_ip D =? ip0)) (in_rt (rt_ip_route_del_host ip0 (Some d));; mret ());;
             mret (Some (data x + RTCFG_ADDRSIZE_IP))
         else if addr_type =? RTCFG_ADDR_MAC then mret (Some (data x))
         else unlock_free ifindex0 skb;; mret None);
    match p with
    | None => mret ()
    | Some p =>
        d ← cfgdev_load ifindex0;
        mac ← deref (buf_read x (p + 2) 6);
        r ← find_station (Z.to_nat (stations_found d)) 0 d mac;
        match r with Some i => drop_station ifindex0 i | None => mret () end;;
        unlock_free ifindex0 skb
    end.

(** The end of [rtcfg_client_update_server]. *)
Definition update_server_accept (ifindex0 : Z) (skb : nat) : M cfgstate () :=
  src ← h_source skb;
  cfgdev_upd ifindex0 (λ d, d <| clt_srv_mac := memcpy (clt_srv_mac d) src ETH_ALEN |>);;
  rtcfg_send_announce_reply rtcfg_pool hard_header drv_xmit ifindex0 src;;
  unlock_free ifindex0 skb.

(** A short frame with IP addresses is freed and processing goes on with it: the
    [switch] is left with [break] there. *)
Definition rtcfg_client_update_server (ifindex0 : Z) (skb : nat) : M cfgstate () :=
  x ← in_k (skb_load skb);
  if len x <? sizeof_frm_stage_1_cfg then unlock_free ifindex0 skb
  else
    let p := data x in
    pull skb sizeof_frm_stage_1_cfg;;
    addr_type ← at_byte skb (p + 1);
    if CONFIG_RTNET_RTIPV4 && (addr_type =? RTCFG_ADDR_IP) then
      x ← in_k (skb_load skb);
      if len x <? sizeof_frm_stage_1_cfg + 2 * RTCFG_ADDRSIZE_IP then
        unlock_free ifindex0 skb;; update_server_accept ifindex0 skb
      else
        d ← deref (rtdev x);
        daddr ← at_addr skb (p + 2);
        saddr ← at_addr skb (p + RTCFG_ADDRSIZE_IP + 2);
        pull skb (2 * RTCFG_ADDRSIZE_IP);;
        D ← in_k (dev_load d);
        if (pkt_type x =? PACKET_BROADCAST) && negb (daddr =? local_ip D)
        then unlock_free ifindex0 skb
        else
          src ← h_source skb;
          in_rt (rt_ip_route_add_host saddr src d);;
          cfgdev_upd ifindex0 (λ d, d <| clt_srv_ip := saddr |>);;
          update_server_accept ifindex0 skb
    else if addr_type =? RTCFG_ADDR_MAC then update_server_accept ifindex0 skb
    else unlock_free ifindex0 skb.

(** *** States *)

Definition ignore_event (ifindex0 : Z) : M cfgstate Z := dev_unlock ifindex0;; mret (- EINVAL).
(** [if (recv_announce(..) == 0) { m; unlock; } kfree_rtskb(rtskb);] *)
Definition on_announce (ifindex0 : Z) (skb : nat) (m : M cfgstate ()) : M cfgstate Z :=
  r ← rtcfg_client_recv_announce ifindex0 skb;
  when (r =? 0) (m;; dev_unlock ifindex0);;
  in_k (kfree_rtskb (Some skb));;
  mret 0.
Definition on_ready (ifindex0 : Z) (skb : nat) (m : M cfgstate ()) : M cfgstate Z :=
  r ← rtcfg_client_recv_ready ifindex0 skb;
  when (r =? 0) (m;; dev_unlock ifindex0);;
  mret 0.
Definition reply (ifindex0 : Z) (skb : nat) : M cfgstate () :=
  src ← h_source skb;
  rtcfg_send_announce_reply rtcfg_pool hard_header drv_xmit ifindex0 src;;
  mret ().

Definition rtcfg_main_state_client_0 (ifindex0 : Z) (ev : RTCFG_EVENT) (data0 : nat) : M cfgstate Z :=
  match ev with
  | RTCFG_CMD_DETACH => rtcfg_client_detach ifindex0 data0;; mret 0
  | RTCFG_FRM_STAGE_1_CFG => rtcfg_client_recv_stage_1 ifindex0 data0;; mret 0
  | RTCFG_FRM_ANNOUNCE_NEW => on_announce ifindex0 data0 (mret ())
  | RTCFG_FRM_READY => on_ready ifindex0 data0 (mret ())
  | _ => ignore_event ifindex0
  end.

Definition rtcfg_main_state_client_1 (ifindex0 : Z) (ev : RTCFG_EVENT) (data0 : nat) : M cfgstate Z :=
  match ev with
  | RTCFG_CMD_CLIENT =>
      rtcfg_queue_blocking_call ifindex0 data0;;
      rtcfg_next_main_state ifindex0 RTCFG_MAIN_CLIENT_0;;
      dev_unlock ifindex0;;
      mret (- CALL_PENDING)
  | RTCFG_CMD_ANNOUNCE =>
      cmd ← call_load data0;
      match cmd_args_of cmd with
      | Args_announce fl br _ _ =>
          if br =? 0 then dev_unlock ifindex0;; mret (- EINVAL)
          else
            rtcfg_queue_blocking_call ifindex0 data0;;
            cfgdev_upd ifindex0
              (λ d, d <| dev_flags := Z.land fl (Z.lor RTCFG_FLAG_STAGE_2_DATA RTCFG_FLAG_READY) |>
                      <| dev_burstrate := if br <? dev_burstrate d then br else dev_burstrate d |>);;
            rtcfg_next_main_state ifindex0 RTCFG_MAIN_CLIENT_ANNOUNCED;;
            ret ← rtcfg_send_announce_new rtcfg_pool hard_header drv_xmit ifindex0;
            if ret <? 0 then
              rtcfg_dequeue_blocking_call ifindex0;;
              dev_unlock ifindex0;;
              mret ret
            else dev_unlock ifindex0;; mret (- CALL_PENDING)
      | _ => ub
      end
  | RTCFG_CMD_DETACH => rtcfg_client_detach ifindex0 data0;; mret 0
  | RTCFG_FRM_ANNOUNCE_NEW => on_announce ifindex0 data0 (reply ifindex0 data0)
  | RTCFG_FRM_ANNOUNCE_REPLY => on_announce ifindex0 data0 (mret ())
  | RTCFG_FRM_READY => on_ready ifindex0 data0 (mret ())
  | RTCFG_FRM_STAGE_1_CFG => unlock_free ifindex0 data0;; mret 0
  | _ => ignore_event ifindex0
  end.

Definition all_known (ifindex0 : Z) : M cfgstate () :=
  all_found ifindex0 (rtcfg_next_main_state ifindex0 RTCFG_MAIN_CLIENT_ALL_KNOWN).

Definition rtcfg_main_state_client_announced (ifindex0 : Z) (ev : RTCFG_EVENT) (data0 : nat)
    : M cfgstate Z :=
  match ev with
  | RTCFG_CMD_ANNOUNCE => rtcfg_client_get_frag ifindex0 data0
  | RTCFG_CMD_DETACH => rtcfg_client_detach ifindex0 data0;; mret 0
  | RTCFG_FRM_STAGE_2_CFG => rtcfg_client_recv_stage_2_cfg ifindex0 data0;; mret 0
  | RTCFG_FRM_STAGE_2_CFG_FRAG => rtcfg_client_recv_stage_2_frag ifindex0 data0;; mret 0
  | RTCFG_FRM_ANNOUNCE_NEW => on_announce ifindex0 data0 (reply ifindex0 data0;; all_known ifindex0)
  | RTCFG_FRM_ANNOUNCE_REPLY => on_announce ifindex0 data0 (all_known ifindex0)
  | RTCFG_FRM_READY => on_ready ifindex0 data0 (mret ())
  | RTCFG_FRM_STAGE_1_CFG => unlock_free ifindex0 data0;; mret 0
  | _ => ignore_event ifindex0
  end.

Definition rtcfg_main_state_client_all_known (ifindex0 : Z) (ev : RTCFG_EVENT) (data0 : nat)
    : M cfgstate Z :=
  match ev with
  | RTCFG_CMD_ANNOUNCE => rtcfg_client_get_frag ifindex0 data0
  | RTCFG_CMD_DETACH => rtcfg_client_detach ifindex0 data0;; mret 0
  | RTCFG_FRM_STAGE_2_CFG_FRAG => rtcfg_client_recv_stage_2_frag ifindex0 data0;; mret 0
  | RTCFG_FRM_READY => on_ready ifindex0 data0 (mret ())
  | RTCFG_FRM_ANNOUNCE_NEW => on_announce ifindex0 data0 (reply ifindex0 data0)
  | RTCFG_FRM_DEAD_STATION => rtcfg_client_recv_dead_station ifindex0 data0;; mret 0
  | RTCFG_FRM_STAGE_1_CFG => unlock_free ifindex0 data0;; mret 0
  | _ => ignore_event ifindex0
  end.

Definition rtcfg_main_state_client_all_frames (ifindex0 : Z) (ev : RTCFG_EVENT) (data0 : nat)
    : M cfgstate Z :=
  match ev with
  | RTCFG_CMD_DETACH => rtcfg_client_detach ifindex0 data0;; mret 0
  | RTCFG_FRM_ANNOUNCE_NEW =>
      on_announce ifindex0 data0 (reply ifindex0 data0;; all_found ifindex0 (announce_done ifindex0))
  | RTCFG_FRM_ANNOUNCE_REPLY => on_announce ifindex0 data0 (all_found ifindex0 (announce_done ifindex0))
  | RTCFG_FRM_READY => on_ready ifindex0 data0 (mret ())
  | RTCFG_FRM_DEAD_STATION => rtcfg_client_recv_dead_station ifindex0 data0;; mret 0
  | RTCFG_FRM_STAGE_1_CFG => unlock_free ifindex0 data0;; mret 0
  | _ => ignore_event ifindex0
  end.

Definition rtcfg_main_state_client_2 (ifindex0 : Z) (ev : RTCFG_EVENT) (data0 : nat) : M cfgstate Z :=
  match ev with
  | RTCFG_CMD_READY =>
      d ← cfgdev_load ifindex0;
      (if stations_ready d =? other_stations d then rtpc_complete_call data0 0
       else rtcfg_queue_blocking_call ifindex0 data0);;
      rtcfg_next_main_state ifindex0 RTCFG_MAIN_CLIENT_READY;;
      when (Z.land (dev_flags d) RTCFG_FLAG_READY =? 0)
        (cfgdev_upd ifindex0 (λ d, d <| dev_flags := Z.lor (dev_flags d) RTCFG_FLAG_READY |>);;
         rtcfg_send_ready rtcfg_pool hard_header drv_xmit ifindex0;; mret ());;
      dev_unlock ifindex0;;
      mret (- CALL_PENDING)
  | RTCFG_CMD_DETACH => rtcfg_client_detach ifindex0 data0;; mret 0
  | RTCFG_FRM_READY => on_ready ifindex0 data0 (mret ())
  | RTCFG_FRM_ANNOUNCE_NEW => on_announce ifindex0 data0 (reply ifindex0 data0)
  | RTCFG_FRM_DEAD_STATION => rtcfg_client_recv_dead_station ifindex0 data0;; mret 0
  | RTCFG_FRM_STAGE_1_CFG => unlock_free ifindex0 data0;; mret 0
  | _ => ignore_event ifindex0
  end.

Definition rtcfg_main_state_client_ready (ifindex0 : Z) (ev : RTCFG_EVENT) (data0 : nat)
    : M cfgstate Z :=
  match ev with
  | RTCFG_CMD_DETACH => rtcfg_client_detach ifindex0 data0;; mret 0
  | RTCFG_FRM_READY =>
      on_ready ifindex0 data0
        (d ← cfgdev_load ifindex0;
         when (stations_ready d =? other_stations d) (rtcfg_complete_cmd ifindex0 RTCFG_CMD_READY 0))
  | RTCFG_FRM_ANNOUNCE_NEW => on_announce ifindex0 data0 (reply ifindex0 data0)
  | RTCFG_FRM_DEAD_STATION => rtcfg_client_recv_dead_station ifindex0 data0;; mret 0
  | RTCFG_FRM_STAGE_1_CFG => rtcfg_client_update_server ifindex0 data0;; mret 0
  | _ => ignore_event ifindex0
  end.

Definition client_state (st : RTCFG_MAIN_STATE) : Z → RTCFG_EVENT → nat → M cfgstate Z :=
  match st with
  | RTCFG_MAIN_CLIENT_0 => rtcfg_main_state_client_0
  | RTCFG_MAIN_CLIENT_1 => rtcfg_main_state_client_1
  | RTCFG_MAIN_CLIENT_ANNOUNCED => rtcfg_main_state_client_announced
  | RTCFG_MAIN_CLIENT_ALL_KNOWN => rtcfg_main_state_client_all_known
  | RTCFG_MAIN_CLIENT_ALL_FRAMES => rtcfg_main_state_client_all_frames
  | RTCFG_MAIN_CLIENT_2 => rtcfg_main_state_client_2
  | RTCFG_MAIN_CLIENT_READY => rtcfg_main_state_client_ready
  | RTCFG_MAIN_OFF | RTCFG_MAIN_SERVER_RUNNING => λ _ _ _, ub
  end.
End client.

(** ** Reception (rtcfg_frame.c) and the device array (rtcfg_event.c) *)

Section receive.
Context `{Config}.
Context (rtcfg_pool : nat) (hard_header : nat → option (nat → Z → list Z → M kstate Z)).
Context (get_mtu : nat → Z → Z) (drv_xmit : nat → nat → M kstate Z).
Context (now task_init_ret : Z).

Definition do_main_event : Z → RTCFG_EVENT → nat → M cfgstate Z :=
  rtcfg_do_main_event rtcfg_pool hard_header get_mtu drv_xmit now task_init_ret
    (client_state rtcfg_pool hard_header drv_xmit task_init_ret).

Definition rtcfg_rx_handler (rx_queue skb : nat) : M kstate Z :=
  r ← rtskb_acquire skb rtcfg_pool;
  if r =? 0 then
    x ← skb_load skb;
    d ← deref (rtdev x);
    rtdev_reference d;;
    rtskb_queue_tail rx_queue skb;;
    mret 0
  else kfree_rtskb (Some skb);; mret 0.

(** [frm_head->id + RTCFG_FRM_STAGE_1_CFG] *)
Definition frame_event (id : Z) : RTCFG_EVENT :=
  match id with
  | 0 => RTCFG_FRM_STAGE_1_CFG | 1 => RTCFG_FRM_ANNOUNCE_NEW | 2 => RTCFG_FRM_ANNOUNCE_REPLY
  | 3 => RTCFG_FRM_STAGE_2_CFG | 4 => RTCFG_FRM_STAGE_2_CFG_FRAG | 5 => RTCFG_FRM_ACK_CFG
  | 6 => RTCFG_FRM_READY | 7 => RTCFG_FRM_HEARTBEAT | 8 => RTCFG_FRM_DEAD_STATION
  | _ => RTCFG_UNKNOWN
  end.

(** One round of the inner loop of [rtcfg_rx_task]; [false] when the queue is empty. *)
Definition rtcfg_rx_round (rx_queue : nat) : M cfgstate bool :=
  r ← in_k (rtskb_dequeue rx_queue);
  match r with
  | None => mret false
  | Some skb =>
      x ← in_k (skb_load skb);
      d ← deref (rtdev x);
      (if (pkt_type x =? PACKET_OTHERHOST) || (len x <? sizeof_frm_head) then
         in_k (rtdev_dereference d);; in_k (kfree_rtskb (Some skb))
       else
         b ← at_byte skb (data x);
         D ← in_k (dev_load d);
         r ← do_main_event (ifindex D) (frame_event (frm_head_id b)) skb;
         when (r <? 0) (in_k (kfree_rtskb (Some skb)));;
         in_k (rtdev_dereference d));;
      mret true
  end.

Definition zero_cfgdev : rtcfg_device :=
  mk_cfgdev RTCFG_MAIN_OFF 0 0 0 false [] 0 0 0 [] 0 0 0 (replicate MAX_ADDR_LEN 0) 0 0 0 0 0 0 None None.
Definition rtcfg_init_state_machines : M cfgstate () :=
  modify (λ s, s <| device := replicate MAX_RT_DEVICES zero_cfgdev |>).
End receive.
