(* ===== verification/RtcfgOps.v ===== *)
(** * RTcfg: properties of the server

    The counters the server keeps over its connections, the calls that wait for
    them, the commands that change the list of connections, and the frames as an
    encoding. *)
From S2P Require Import Prelude State Rtskb RtskbData Rtdev Route RtcfgFrame RtcfgConn RtcfgServer.

(** ** Symbolic execution *)
Section rules.
Implicit Types (s : cfgstate).

(** The state in which device [i] has contents [d]. *)
Definition with_cfgdev s (i : nat) (d : rtcfg_device) : cfgstate := s <| device := <[i := d]> (device s) |>.

Lemma wp_cfgdev_load i d Q s :
  device s !! i = Some d → Q d s → wp (cfgdev_load (Z.of_nat i)) Q s.
Proof.
  intros Hd HQ. unfold cfgdev_load. wp_run. destruct (Z.ltb_spec (Z.of_nat i) 0); [lia|].
  rewrite Nat2Z.id. by eapply wp_deref.
Qed.
Lemma wp_cfgdev_upd i f d (Q : () → cfgstate → Prop) s :
  device s !! i = Some d → Q () (with_cfgdev s i (f d)) → wp (cfgdev_upd (Z.of_nat i) f) Q s.
Proof.
  intros Hd HQ. unfold cfgdev_upd. apply wp_bind. eapply wp_cfgdev_load; [done|]. apply wp_modify.
  by rewrite Nat2Z.id.
Qed.
Lemma wp_conn_load c C Q s : conns s !! c = Some C → Q C s → wp (conn_load c) Q s.
Proof. intros HC HQ. unfold conn_load. wp_run. done. Qed.
Lemma wp_conn_upd c f C (Q : () → cfgstate → Prop) s :
  conns s !! c = Some C → Q () (s <| conns := <[c := f C]> (conns s) |>) → wp (conn_upd c f) Q s.
Proof.
  intros HC HQ. unfold conn_upd. apply wp_bind. eapply wp_conn_load; [done|]. by apply wp_modify.
Qed.
Lemma wp_call_load a x Q s : calls s !! a = Some x → Q x s → wp (call_load a) Q s.
Proof. intros Hx HQ. unfold call_load. wp_run. done. Qed.
Lemma wp_call_set_args a x g (Q : () → cfgstate → Prop) s :
  calls s !! a = Some x → Q () (s <| calls := <[a := x <| cmd_args_of := g |>]> (calls s) |>) →
  wp (call_set_args a g) Q s.
Proof.
  intros Hx HQ. unfold call_set_args. apply wp_bind. eapply wp_call_load; [done|]. by apply wp_modify.
Qed.
Lemma wp_file_load a F Q s : files s !! a = Some F → Q F s → wp (file_load a) Q s.
Proof. intros HF HQ. unfold file_load. wp_run. done. Qed.
Lemma wp_file_upd a f F (Q : () → cfgstate → Prop) s :
  files s !! a = Some F → Q () (s <| files := <[a := f F]> (files s) |>) → wp (file_upd a f) Q s.
Proof.
  intros HF HQ. unfold file_upd. apply wp_bind. eapply wp_file_load; [done|]. by apply wp_modify.
Qed.
Lemma with_cfgdev_lookup s i d d0 : device s !! i = Some d0 → device (with_cfgdev s i d) !! i = Some d.
Proof. intros Hd. apply list_lookup_insert_eq. by eapply lookup_lt_Some. Qed.
Lemma with_cfgdev_twice s i d d' : with_cfgdev (with_cfgdev s i d) i d' = with_cfgdev s i d'.
Proof.
  unfold with_cfgdev. destruct s. unfold upd. cbn. f_equal. apply list_insert_insert_eq.
Qed.
End rules.

(** ** Waiting calls *)

(** The results the calls [l] are completed with. *)
Definition results (m : gmap nat rtcfg_cmd) (ev : RTCFG_EVENT) (result : Z) (l : list nat) : list (nat * Z) :=
  (λ a, (a, match m !! a with
            | Some c => if decide (cmd_event c = ev) then result else - EINVAL
            | None => 0
            end)) <$> l.

Section complete.
Implicit Types (s : cfgstate).

Lemma complete_loop_run i ev result l : ∀ fuel s d,
  device s !! i = Some d → event_calls d = l → (length l < fuel)%nat →
  (∀ a, a ∈ l → is_Some (calls s !! a)) →
  wp (complete_loop fuel (Z.of_nat i) ev result)
     (λ _ s', s' = (with_cfgdev s i (d <| event_calls := [] |>))
                   <| completed := completed s ++ results (calls s) ev result l |>) s.
Proof.
  induction l as [|a l IH]; intros fuel s d Hd Hl Hf Hc; (destruct fuel as [|fuel]; [simpl in Hf; lia|]);
    cbn [complete_loop]; unfold rtcfg_dequeue_blocking_call; apply wp_bind, wp_bind;
    (eapply wp_cfgdev_load; [done|]); rewrite Hl.
  - wp_run. assert (with_cfgdev s i (d <| event_calls := [] |>) = s) as ->.
    { unfold with_cfgdev. rewrite list_insert_id; [by destruct s|]. rewrite Hd. f_equal.
      destruct d. cbn in *. by subst. }
    unfold results. cbn [fmap list_fmap]. rewrite app_nil_r. by destruct s.
  - destruct (Hc a) as [cm Hcm]; [set_solver|]. apply wp_bind. eapply wp_cfgdev_upd; [done|]. wp_run.
    apply wp_modify. eapply wp_mono; [|eapply (IH fuel _ (d <| event_calls := l |>))].
    + cbn beta. intros _ s' ->. destruct s as [r0 ds cs fs rf ca co]. unfold with_cfgdev, upd. cbn.
      f_equal; [by rewrite list_insert_insert_eq|]. rewrite <-app_assoc. f_equal. cbn.
      cbn in Hcm. by rewrite Hcm.
    + cbn. apply list_lookup_insert_eq. by eapply lookup_lt_Some.
    + done.
    + simpl in Hf. lia.
    + intros b Hb. apply Hc. set_solver.
Qed.

Lemma complete_cmd_run s i d ev result :
  device s !! i = Some d → (∀ a, a ∈ event_calls d → is_Some (calls s !! a)) →
  wp (rtcfg_complete_cmd (Z.of_nat i) ev result)
     (λ _ s', s' = (with_cfgdev s i (d <| event_calls := [] |>))
                   <| completed := completed s ++ results (calls s) ev result (event_calls d) |>) s.
Proof.
  intros Hd Hc. unfold rtcfg_complete_cmd. apply wp_bind. eapply wp_cfgdev_load; [done|].
  eapply complete_loop_run; [done..|lia|done].
Qed.

(** [rtcfg_complete_cmd] terminates and completes every waiting call of the
    device exactly once and in the order in which they were queued: those that wait
    for the event with the given result, all others with -EINVAL.  Nothing else
    changes. *)
Theorem rtcfg_complete_cmd_correct s i d ev result :
  device s !! i = Some d → (∀ a, a ∈ event_calls d → is_Some (calls s !! a)) →
  rtcfg_complete_cmd (Z.of_nat i) ev result s
  = Some ((), (with_cfgdev s i (d <| event_calls := [] |>))
              <| completed := completed s ++ results (calls s) ev result (event_calls d) |>).
Proof.
  intros Hd Hc. destruct (wp_elim _ _ _ (complete_cmd_run s i d ev result Hd Hc)) as ([] & s' & E & ->).
  exact E.
Qed.
End complete.

(** ** Counters *)

Definition has_flag (C : rtcfg_connection) : bool := negb (Z.land (conn_flags C) RTCFG_FLAG_READY =? 0).
Definition is_found (C : rtcfg_connection) : bool :=
  match conn_state C with
  | RTCFG_CONN_STAGE_1 | RTCFG_CONN_STAGE_2 | RTCFG_CONN_READY => true
  | _ => false
  end.
Definition is_configured (C : rtcfg_connection) : bool :=
  match conn_state C with RTCFG_CONN_STAGE_2 | RTCFG_CONN_READY => true | _ => false end.
(** A station is ready when its connection is, or when it announced itself as ready
    and still gets its data. *)
Definition is_ready (C : rtcfg_connection) : bool :=
  match conn_state C with
  | RTCFG_CONN_READY => true
  | RTCFG_CONN_STAGE_1 => has_flag C
  | _ => false
  end.

Fixpoint count (f : rtcfg_connection → bool) (Cs : list rtcfg_connection) : Z :=
  match Cs with [] => 0 | C :: Cs => (if f C then 1 else 0) + count f Cs end.

(** The counters of the device count its connections. *)
Record counters_ok (d : rtcfg_device) (Cs : list rtcfg_connection) : Prop := {
  ct_other : other_stations d = Z.of_nat (length Cs);
  ct_found : stations_found d = count is_found Cs;
  ct_ready : stations_ready d = count is_ready Cs;
  ct_conf : clients_configured d = count is_configured Cs;
  ct_bound : Z.of_nat (length Cs) < 2 ^ 32;
}.

(** A connection whose READY flag agrees with its state. *)
Definition flag_agrees (C : rtcfg_connection) : Prop :=
  match conn_state C with
  | RTCFG_CONN_READY => has_flag C = true
  | RTCFG_CONN_STAGE_2 => has_flag C = false
  | RTCFG_CONN_DEAD => False
  | _ => True
  end.

Section counters.
Lemma count_app f Cs1 Cs2 : count f (Cs1 ++ Cs2) = count f Cs1 + count f Cs2.
Proof. induction Cs1 as [|C Cs1 IH]; cbn [count app]; [done|]. rewrite IH. lia. Qed.
Lemma count_bound f Cs : 0 ≤ count f Cs ≤ Z.of_nat (length Cs).
Proof. induction Cs as [|C Cs IH]; cbn [count length]; [done|]. destruct (f C); lia. Qed.
Lemma count_middle f Cs1 C Cs2 :
  count f (Cs1 ++ C :: Cs2) = count f (Cs1 ++ Cs2) + if f C then 1 else 0.
Proof. rewrite !count_app. cbn [count]. lia. Qed.
Lemma u32_pred n k : k = n + 1 → 0 ≤ n → k < 2 ^ 32 → u32 (k - 1) = n.
Proof. intros -> ? ?. replace (n + 1 - 1) with n by lia. apply Z.mod_small. lia. Qed.

Lemma leave_counters_ok d Cs1 C Cs2 :
  counters_ok d (Cs1 ++ C :: Cs2) → flag_agrees C → counters_ok (leave_counters C d) (Cs1 ++ Cs2).
Proof.
  intros [Ho Hf Hr Hc Hb] Hag. rewrite count_middle in Hf, Hr, Hc.
  rewrite length_app in Ho, Hb. cbn [length] in Ho, Hb.
  pose proof (count_bound is_found (Cs1 ++ Cs2)) as Bf. pose proof (count_bound is_ready (Cs1 ++ Cs2)) as Br.
  pose proof (count_bound is_configured (Cs1 ++ Cs2)) as Bc. rewrite length_app in Bf, Br, Bc.
  unfold is_found at 2 in Hf. unfold is_ready at 2 in Hr. unfold is_configured at 2 in Hc.
  unfold flag_agrees, has_flag in *. unfold leave_counters.
  destruct (conn_state C); try done; destruct (negb (Z.land (conn_flags C) RTCFG_FLAG_READY =? 0));
    try done; (split; cbn; rewrite ?length_app; first [lia | apply u32_pred; lia]).
Qed.

(** The counters of [d] are off by the given amounts. *)
Lemma leave_counters_dead d Cs1 C Cs2 :
  counters_ok d (Cs1 ++ C :: Cs2) → conn_state C = RTCFG_CONN_DEAD → has_flag C = false →
  stations_found (leave_counters C d) = u32 (count is_found (Cs1 ++ Cs2) - 1) ∧
  clients_configured (leave_counters C d) = u32 (count is_configured (Cs1 ++ Cs2) - 1).
Proof.
  intros [_ Hf _ Hc _] Hst Hfl. rewrite count_middle in Hf, Hc.
  unfold is_found at 2 in Hf. unfold is_configured at 2 in Hc. unfold leave_counters, has_flag in *.
  rewrite Hst in *. rewrite Hfl. cbn. rewrite Hf, Hc, !Z.add_0_r. done.
Qed.
End counters.

(** ** The list of connections *)

(** Device [i] is [d] and its connections are [Cs], in order. *)
Record server (s : cfgstate) (i : nat) (d : rtcfg_device) (Cs : list rtcfg_connection) : Prop := {
  sv_dev : device s !! i = Some d;
  sv_nodup : NoDup (conn_list d);
  sv_conns : Forall2 (λ c C, conns s !! c = Some C) (conn_list d) Cs;
}.
(** The stage 2 file of a connection exists and is listed while it has users. *)
Definition file_ok (s : cfgstate) (C : rtcfg_connection) : Prop :=
  ∀ f, stage2_file C = Some f → ∃ F, files s !! f = Some F ∧ (ref_count F = 1 → f ∈ rtcfg_files s).

Section conn_list.
Context `{Config}.
Implicit Types (s : cfgstate) (d : rtcfg_device).

Lemma leave_conn_list C d : conn_list (leave_counters C d) = conn_list d.
Proof. unfold leave_counters. by repeat case_match. Qed.

Lemma find_conn_run f l Cs s :
  Forall2 (λ c C, conns s !! c = Some C) l Cs →
  wp (find_conn f l) (λ r s', s' = s ∧
    match r with
    | Some c => ∃ l1 l2 Cs1 C Cs2, l = l1 ++ c :: l2 ∧ Cs = Cs1 ++ C :: Cs2 ∧ f C = true ∧
        conns s !! c = Some C ∧ Forall (λ C, f C = false) Cs1 ∧
        Forall2 (λ c C, conns s !! c = Some C) l1 Cs1 ∧ Forall2 (λ c C, conns s !! c = Some C) l2 Cs2
    | None => Forall (λ C, f C = false) Cs
    end) s.
Proof.
  induction 1 as [|c C l Cs HC Hl IH]; cbn [find_conn]; [by apply wp_ret|].
  apply wp_bind. eapply wp_conn_load; [done|]. destruct (f C) eqn:Hf.
  - apply wp_ret. split; [done|]. exists [], l, [], C, Cs. split_and!; try done; constructor.
  - eapply wp_mono; [|exact IH]. intros [e|] s' [-> Hr]; (split; [done|]).
    + destruct Hr as (l1 & l2 & Cs1 & E & Cs2 & -> & -> & ? & ? & ? & ? & ?).
      exists (c :: l1), l2, (C :: Cs1), E, Cs2. split_and!; try done; by constructor.
    + by constructor.
Qed.

Lemma release_file_run f F s :
  files s !! f = Some F → (ref_count F = 1 → f ∈ rtcfg_files s) →
  wp (rtcfg_release_file f) (λ n s', n = ref_count F - 1 ∧
    device s' = device s ∧ conns s' = conns s ∧ calls s' = calls s ∧
    (n = 0 → list_del f (rtcfg_files s) = Some (rtcfg_files s')) ∧
    (n ≠ 0 → rtcfg_files s' = rtcfg_files s)) s.
Proof.
  intros HF Hl. unfold rtcfg_release_file. apply wp_bind. eapply wp_file_upd; [done|]. apply wp_bind.
  eapply wp_file_load; [cbn; by rewrite lookup_insert_eq|].
  cbn [ref_count]. destruct (Z.eqb_spec (ref_count F - 1) 0) as [E|E].
  - replace (ref_count (F <| ref_count := ref_count F - 1 |>)) with (ref_count F - 1) by done.
    rewrite E. cbn [Z.eqb when]. destruct (list_del_elem f (rtcfg_files s)) as [l' Hl']; [apply Hl; lia|].
    wp_run. cbn. rewrite Hl'. split_and!; done.
  - replace (ref_count (F <| ref_count := ref_count F - 1 |>)) with (ref_count F - 1) by done.
    rewrite (proj2 (Z.eqb_neq _ _) E). cbn [when]. wp_run. by split_and!.
Qed.

Lemma unlink_conn_run s i d c C l1 l2 :
  device s !! i = Some d → conn_list d = l1 ++ c :: l2 → c ∉ l1 → conns s !! c = Some C → file_ok s C →
  wp (unlink_conn (Z.of_nat i) c) (λ f s',
    device s' = <[i := leave_counters C (d <| conn_list := l1 ++ l2 |>)]> (device s) ∧
    conns s' = conns s ∧ calls s' = calls s ∧
    match f with
    | Some f => stage2_file C = Some f ∧ list_del f (rtcfg_files s) = Some (rtcfg_files s')
    | None => rtcfg_files s' = rtcfg_files s
    end) s.
Proof.
  intros Hd Hl Hc HC Hfile. unfold unlink_conn. apply wp_bind. eapply wp_conn_load; [done|].
  apply wp_bind. eapply wp_cfgdev_load; [done|]. rewrite Hl, list_del_split by done. wp_run.
  eapply wp_cfgdev_upd; [done|]. destruct (stage2_file C) as [f|] eqn:Hf; [|by wp_run].
  destruct (Hfile f Hf) as (F & HF & HFl). apply wp_bind.
  eapply wp_mono; [|by apply (release_file_run f F)]. cbn beta.
  intros n s' (-> & Ed & Ec & Eca & Hz & Hnz). apply wp_ret. split_and!; [done..|].
  destruct (Z.eqb_spec (ref_count F - 1) 0) as [E|E]; auto.
Qed.

(** What a removal leaves of the device: the connection is gone, the mutex free,
    and the counters follow if the connection's flag agrees with its state. *)
Definition removed s i d (Cs1 : list rtcfg_connection) (C : rtcfg_connection) Cs2 (l1 l2 : list nat) s' : Prop :=
  ∃ d', server s' i d' (Cs1 ++ Cs2) ∧ conn_list d' = l1 ++ l2 ∧ dev_locked d' = false ∧
        (counters_ok d (Cs1 ++ C :: Cs2) → flag_agrees C → counters_ok d' (Cs1 ++ Cs2)).

(** deleting a client.  [rtcfg_server_del] removes exactly the first connection
    with the address, hands its memory (and its file, if that has no other user)
    back through the command, keeps all other connections and releases the mutex;
    the counters keep counting the connections whenever the flag of the removed one
    agrees with its state.  Without such a connection the result is -ENOENT and
    only the mutex changes. *)
Theorem rtcfg_server_del_correct s i d Cs call at0 ip0 mac b0 f0 ev :
  server s i d Cs → Forall (file_ok s) Cs →
  calls s !! call = Some (mk_cmd (Z.of_nat i) ev (Args_del at0 ip0 mac b0 f0)) →
  let f := del_match (Z.land at0 RTCFG_ADDR_MASK) ip0 mac in
  ∃ ret s', rtcfg_server_del call s = Some (ret, s') ∧
    ((ret = - ENOENT ∧ Forall (λ C, f C = false) Cs ∧ s' = with_cfgdev s i (d <| dev_locked := false |>)) ∨
     (ret = 0 ∧ ∃ l1 c l2 Cs1 C Cs2 f1, conn_list d = l1 ++ c :: l2 ∧ Cs = Cs1 ++ C :: Cs2 ∧
        f C = true ∧ Forall (λ C, f C = false) Cs1 ∧ conns s !! c = Some C ∧
        removed s i d Cs1 C Cs2 l1 l2 s' ∧
        calls s' !! call = Some (mk_cmd (Z.of_nat i) ev (Args_del at0 ip0 mac (Some c) f1)))).
Proof.
  intros [Hd Hnd Hcs] Hfiles Hcall f. apply wp_elim. unfold rtcfg_server_del. apply wp_bind.
  eapply wp_call_load; [done|]. cbn [cmd_args_of cmd_ifindex]. apply wp_bind.
  eapply wp_cfgdev_load; [done|]. apply wp_bind. eapply wp_mono; [|by apply find_conn_run].
  cbn beta. fold f. intros [c|] s1 [-> Hr].
  2: { apply wp_bind. eapply wp_cfgdev_upd; [done|]. apply wp_ret. left. by split_and!. }
  destruct Hr as (l1 & l2 & Cs1 & C & Cs2 & Hl & -> & Hf & HC & Hbefore & Hcs1 & Hcs2).
  rewrite Hl in Hnd. apply NoDup_app in Hnd as (Hnd1 & Hdis & [Hcl2 Hnd2]%NoDup_cons).
  assert (Hcl1 : c ∉ l1) by (intros Hc; apply (Hdis c Hc); set_solver).
  apply wp_bind. eapply wp_mono; [|eapply (unlink_conn_run s i d c C l1 l2); try done].
  2: { apply Forall_app in Hfiles as [_ Hfiles]. by apply Forall_cons in Hfiles as [? _]. }
  cbn beta. intros fr s1 (Ed & Ec & Eca & _). pose proof (lookup_lt_Some _ _ _ Hd).
  apply wp_bind. eapply wp_cfgdev_upd; [rewrite Ed; by apply list_lookup_insert_eq|].
  apply wp_bind. eapply wp_call_set_args; [cbn; by rewrite Eca|]. apply wp_ret. right. split; [done|].
  exists l1, c, l2, Cs1, C, Cs2. eexists. split_and!; try done; [|cbn; by rewrite lookup_insert_eq].
  set (d' := (leave_counters C (d <| conn_list := l1 ++ l2 |>)) <| dev_locked := false |>).
  assert (Ecl : conn_list d' = l1 ++ l2) by (apply leave_conn_list).
  exists d'. split_and!.
  - split; rewrite ?Ecl.
    + cbn. rewrite Ed. apply list_lookup_insert_eq. by rewrite length_insert.
    + apply NoDup_app. split_and!; [done| |done]. set_solver.
    + cbn. rewrite Ec. by apply Forall2_app.
  - done.
  - done.
  - intros Hct Hag. pose proof (leave_counters_ok (d <| conn_list := l1 ++ l2 |>) Cs1 C Cs2) as [].
    + by destruct Hct.
    + done.
    + by split.
Qed.

(** deleting a client that is considered dead miscounts: its heartbeat timeout
    has already taken it out of [stations_found] and [clients_configured], and its
    removal from the list does so again, so that afterwards both counters are one
    less than the number of connections they count. *)
Theorem dead_client_counted_twice s i d Cs1 C Cs2 l1 c l2 :
  server s i d (Cs1 ++ C :: Cs2) → conn_list d = l1 ++ c :: l2 → length l1 = length Cs1 →
  conn_state C = RTCFG_CONN_DEAD → conn_flags C = 0 → file_ok s C →
  counters_ok d (Cs1 ++ C :: Cs2) →
  ∃ f s' d', unlink_conn (Z.of_nat i) c s = Some (f, s') ∧ device s' !! i = Some d' ∧
    conn_list d' = l1 ++ l2 ∧
    stations_found d' = u32 (count is_found (Cs1 ++ Cs2) - 1) ∧
    clients_configured d' = u32 (count is_configured (Cs1 ++ Cs2) - 1).
Proof.
  intros [Hd Hnd Hcs] Hl Hlen Hdead Hflags Hfile Hct. rewrite Hl in Hnd, Hcs.
  apply Forall2_app_inv in Hcs as [_ [HC _]%Forall2_cons]; [|done].
  apply NoDup_app in Hnd as (_ & Hdis & _).
  assert (Hcl1 : c ∉ l1) by (intros Hc; apply (Hdis c Hc); set_solver).
  destruct (wp_elim _ _ _ (unlink_conn_run s i d c C l1 l2 Hd Hl Hcl1 HC Hfile))
    as (f & s' & E & Ed & _).
  exists f, s'. eexists. split; [exact E|]. rewrite Ed. split.
  { apply list_lookup_insert_eq. by eapply lookup_lt_Some. }
  split; [apply leave_conn_list|].
  apply leave_counters_dead; [by destruct Hct|done|]. unfold has_flag. by rewrite Hflags.
Qed.
End conn_list.

(** ** Frames *)

Section frames.
Context `{Config}.

Lemma put_bytes_run skb x bytes s :
  skbs s !! skb = Some x → wf_rtskb x → Z.of_nat (length bytes) ≤ tailroom x →
  wp (put_bytes skb bytes) (λ _ s', ∃ y, s' = s <| skbs := <[skb := y]> (skbs s) |> ∧ wf_rtskb y ∧
       payload y = payload x ++ bytes) s.
Proof.
  intros Hx Hwf Hr. destruct (put_write_payload x bytes Hwf Hr) as (y & E & Hy & Hp).
  unfold put_bytes. apply wp_bind. eapply wp_skb_load; [done|]. cbn [rtskb_put].
  apply wp_bind. eapply wp_deref; [exact E|]. apply wp_modify. eauto.
Qed.

(** [__rtskb_pull] of a frame that is long enough. *)
Lemma pull_payload n x :
  wf_rtskb x → 0 ≤ n ≤ len x →
  wf_rtskb (snd (__rtskb_pull n x)) ∧ payload (snd (__rtskb_pull n x)) = drop (Z.to_nat n) (payload x).
Proof.
  intros Hwf Hn. pose proof Hwf as [? ? ? ? ?]. unfold __rtskb_pull, assert_fails.
  replace (n <=? len x) with true by lia. rewrite andb_false_r. cbn [snd].
  assert (E : u32 (len x - n) = len x - n).
  { apply (wf_u32 x (- n)); [done|]. unfold headroom, tailroom. lia. }
  split; [split; cbn; rewrite ?E; lia|]. unfold payload. cbn. rewrite E, skipn_firstn_comm, drop_drop.
  f_equal; [lia|]. f_equal. lia.
Qed.

(** round trip of the announcement and acknowledgement frames: what a client
    puts into the frame is what the server reads from it: address type, IP address
    and, once the address is pulled, flags and burst rate of an announcement; the
    length of an acknowledgement. *)
Theorem rtcfg_frames_roundtrip skb x s id at0 ip0 fl br n :
  skbs s !! skb = Some x → wf_rtskb x → payload x = [] → 8 ≤ tailroom x →
  CONFIG_RTNET_RTIPV4 = true → 0 ≤ at0 < 256 → is_u32 ip0 → 0 ≤ fl < 256 → 0 ≤ br < 256 → is_u32 n →
  (∃ s' y, put_bytes skb (announce_bytes id at0 ip0 fl br) s = Some ((), s') ∧
     skbs s' !! skb = Some y ∧ buf_read y (data y + 1) 1 = Some [at0] ∧
     let z := if is_ip at0 then snd (__rtskb_pull RTCFG_ADDRSIZE_IP y) else y in
     (is_ip at0 = true → buf_read y (data y + 2) 4 ≫= rd32 = Some ip0) ∧
     buf_read z (data z + 2) 1 = Some [fl] ∧ buf_read z (data z + 3) 1 = Some [br]) ∧
  (∃ s' y, put_bytes skb (ack_bytes n) s = Some ((), s') ∧ skbs s' !! skb = Some y ∧
     buf_read y (data y + 1) 4 ≫= rd_be32 = Some n).
Proof.
  intros Hx Hwf Hp Hr H4 Hat Hip Hfl Hbr Hn.
  assert (Hput : ∀ bytes, (length bytes ≤ 8)%nat → ∃ s' y, put_bytes skb bytes s = Some ((), s') ∧
    skbs s' !! skb = Some y ∧ wf_rtskb y ∧ payload y = bytes ∧ len y = Z.of_nat (length bytes)).
  { intros bytes Hb. destruct (wp_elim _ _ _ (put_bytes_run skb x bytes s Hx Hwf ltac:(lia)))
      as ([] & s' & E & y & -> & Hy & Hpy). rewrite Hp in Hpy. cbn in Hpy.
    exists (s <| skbs := <[skb := y]> (skbs s) |>), y. split; [exact E|].
    split; [apply lookup_insert_eq|]. split_and!; [done..|].
    pose proof (length_payload y Hy) as Hl. rewrite Hpy in Hl. done. }
  assert (Hw : length (wr32 ip0) = 4%nat) by (unfold wr32; by destruct little_endian).
  split.
  - destruct (Hput (announce_bytes id at0 ip0 fl br)) as (s' & y & E & Hy & Hwy & Hpy & Hly).
    { unfold announce_bytes, with_ip. rewrite H4. destruct (is_ip at0); cbn [andb];
        rewrite ?length_cons, ?length_app, ?Hw; cbn [length]; lia. }
    exists s', y. split; [done|]. split; [done|]. unfold announce_bytes, with_ip in Hpy, Hly.
    rewrite H4 in Hpy, Hly. assert (E8 : ∀ v, 0 ≤ v < 256 → u8 v = v) by (intros; by apply Z.mod_small).
    rewrite !E8 in Hpy by done. cbn [andb] in Hpy, Hly. destruct (is_ip at0) eqn:Hi.
    + destruct (wr32 ip0) as [|a [|b [|c [|e [|? ?]]]]] eqn:Ew; try done. cbn in Hpy, Hly.
      destruct (pull_payload RTCFG_ADDRSIZE_IP y Hwy) as [Hwz Hpz]; [unfold RTCFG_ADDRSIZE_IP; lia|].
      assert (Hlz : len (snd (__rtskb_pull RTCFG_ADDRSIZE_IP y)) = 4)
        by (by rewrite <-(length_payload _ Hwz), Hpz, Hpy).
      cbv zeta. rewrite !payload_read by (done || lia). rewrite Hpz, Hpy. cbn.
      split_and!; try done. intros _. rewrite <-(rd32_wr32 ip0 Hip), Ew. done.
    + cbn in Hpy, Hly. cbv zeta. split_and!; try done; rewrite payload_read by (done || lia); by rewrite Hpy.
  - destruct (Hput (ack_bytes n)) as (s' & y & E & Hy & Hwy & Hpy & Hly); [cbn; lia|].
    exists s', y. split; [done|]. split; [done|]. cbn in Hly.
    rewrite payload_read by (done || lia). rewrite Hpy. apply (rd_be32_be32 n Hn).
Qed.
End frames.
