(* ===== verification/RtcfgClientOps.v ===== *)
(** * RTcfg: properties of the client

    The array of stations the client keeps refines a list; announcements, READY
    and DEAD frames are operations on that list. *)
From S2P Require Import Prelude State RtskbQueue Rtskb RtskbData Rtdev Route RouteHost RouteOps.
From S2P Require Import RtcfgFrame RtcfgConn RtcfgServer RtcfgClient RtcfgOps.

(** ** Symbolic execution *)

Definition kern_of (s : cfgstate) : kstate := kern (rt s).
Definition with_kern (s : cfgstate) (k : kstate) : cfgstate := s <| rt := (rt s) <| kern := k |> |>.

Section rules.
Implicit Types (s : cfgstate).

Lemma with_kern_id s : with_kern s (kern_of s) = s.
Proof. destruct s as [[]]. done. Qed.
Lemma wp_in_k {A} (m : M kstate A) Q s :
  wp m (λ a k, Q a (with_kern s k)) (kern_of s) → wp (in_k m) Q s.
Proof. intros Hm. unfold in_k, in_rt, in_kern. by apply wp_zoom, wp_zoom. Qed.
Lemma wp_in_k_skb p x Q s : skbs (kern_of s) !! p = Some x → Q x s → wp (in_k (skb_load p)) Q s.
Proof.
  intros Hx HQ. apply wp_in_k. eapply wp_skb_load; [done|]. by rewrite with_kern_id.
Qed.
Lemma wp_in_k_dev d D Q s : devs (kern_of s) !! d = Some D → Q D s → wp (in_k (dev_load d)) Q s.
Proof.
  intros Hx HQ. apply wp_in_k. eapply wp_dev_load; [done|]. by rewrite with_kern_id.
Qed.
Lemma wp_in_rt {A} (m : M rstate A) Q s : wp m (λ a r, Q a (s <| rt := r |>)) (rt s) → wp (in_rt m) Q s.
Proof. intros Hm. unfold in_rt. by apply wp_zoom. Qed.

(** Reading a frame. *)
Lemma wp_at_byte skb x p v Q s :
  skbs (kern_of s) !! skb = Some x → buf_read x p 1 = Some [v] → Q v s → wp (at_byte skb p) Q s.
Proof.
  intros Hx Hv HQ. unfold at_byte. apply wp_bind. eapply wp_in_k_skb; [done|]. rewrite Hv. by wp_run.
Qed.
Lemma wp_at_addr `{Config} skb x p v Q s :
  skbs (kern_of s) !! skb = Some x → buf_read x p 4 ≫= rd32 = Some v → Q v s → wp (at_addr skb p) Q s.
Proof.
  intros Hx Hv HQ. unfold at_addr. apply wp_bind. eapply wp_in_k_skb; [done|]. by eapply wp_deref.
Qed.
Lemma wp_h_source skb x src Q s :
  skbs (kern_of s) !! skb = Some x → buf_read x (mac_raw x + 6) 6 = Some src → Q src s →
  wp (h_source skb) Q s.
Proof.
  intros Hx Hv HQ. unfold h_source. apply wp_bind. eapply wp_in_k_skb; [done|]. by eapply wp_deref.
Qed.
Lemma wp_dev_unlock i d (Q : () → cfgstate → Prop) s :
  device s !! i = Some d → Q () (with_cfgdev s i (d <| dev_locked := false |>)) →
  wp (dev_unlock (Z.of_nat i)) Q s.
Proof. intros Hd HQ. by eapply wp_cfgdev_upd. Qed.
End rules.

(** ** The array of stations *)

Definition st_ready (e : rtcfg_station) : bool := negb (Z.land (st_flags e) RTCFG_FLAG_READY =? 0).
Fixpoint ready_count (l : list rtcfg_station) : Z :=
  match l with [] => 0 | e :: l => (if st_ready e then 1 else 0) + ready_count l end.

(** The memory at [a] is an array of [max_stations] entries whose first
    [stations_found] are the stations [sts]; [stations_ready] counts the ready ones. *)
Record station_table (s : cfgstate) (i : nat) (d : rtcfg_device) (sts : list rtcfg_station) : Prop := {
  tb_dev : device s !! i = Some d;
  tb_mem : ∃ a L, clt_station_addr_list d = Some a ∧ stations s !! a = Some L ∧
    length L = Z.to_nat (clt_max_stations d) ∧ take (Z.to_nat (stations_found d)) L = sts ∧
    Forall (λ e, length (st_mac e) = ETH_ALEN) L;
  tb_found : 0 ≤ stations_found d ≤ clt_max_stations d;
  tb_max : clt_max_stations d < 2 ^ 32;
  tb_ready : stations_ready d = ready_count sts;
}.

Section table.
Implicit Types (s : cfgstate) (d : rtcfg_device) (sts : list rtcfg_station).

Lemma ready_count_app l1 l2 : ready_count (l1 ++ l2) = ready_count l1 + ready_count l2.
Proof. induction l1 as [|e l1 IH]; cbn [ready_count app]; [done|]. rewrite IH. lia. Qed.
Lemma ready_count_bound l : 0 ≤ ready_count l ≤ Z.of_nat (length l).
Proof. induction l as [|e l IH]; cbn [ready_count length]; [done|]. destruct (st_ready e); lia. Qed.

Lemma table_length s i d sts : station_table s i d sts → Z.of_nat (length sts) = stations_found d.
Proof.
  intros [Hd (a & L & _ & _ & Hlen & <- & _) Hf Hm _]. rewrite length_take. lia.
Qed.
Lemma table_macs s i d sts : station_table s i d sts → Forall (λ e, length (st_mac e) = ETH_ALEN) sts.
Proof. intros [_ (a & L & _ & _ & _ & <- & HF) _ _ _]. by apply Forall_take. Qed.

(** The table is independent of the parts of the state it does not mention. *)
Lemma table_frame s s' i d d' sts :
  station_table s i d sts → device s' !! i = Some d' → stations s' = stations s →
  clt_station_addr_list d' = clt_station_addr_list d → clt_max_stations d' = clt_max_stations d →
  stations_found d' = stations_found d → stations_ready d' = stations_ready d →
  station_table s' i d' sts.
Proof.
  intros [Hd Hm Hf Hx Hr] Hd' Es Ea Em Ef Er. split; [done|..]; by rewrite ?Es, ?Ea, ?Em, ?Ef, ?Er.
Qed.

Lemma wp_station_list s i d sts Q :
  station_table s i d sts →
  (∀ a L, clt_station_addr_list d = Some a → stations s !! a = Some L → Q (a, L) s) →
  wp (station_list d) Q s.
Proof.
  intros [_ (a & L & Ha & HL & _) _ _ _] HQ. unfold station_list. rewrite Ha. wp_run. auto.
Qed.

Lemma mac_eq (e : rtcfg_station) mac :
  length (st_mac e) = ETH_ALEN → length mac = ETH_ALEN →
  memcmp_eq (st_mac e) mac ETH_ALEN = bool_decide (st_mac e = mac).
Proof. intros He Hm. unfold memcmp_eq. by rewrite !take_ge by lia. Qed.

(** The loop over the stations from index [k] on: the first with the address. *)
Lemma find_station_run s i d sts mac n : ∀ k,
  station_table s i d sts → length mac = ETH_ALEN → (k + n)%nat = length sts →
  wp (find_station n k d mac) (λ r s', s' = s ∧
    match r with
    | Some j => (k ≤ j)%nat ∧ (∃ e, sts !! j = Some e ∧ st_mac e = mac) ∧
                ∀ j' e, (k ≤ j' < j)%nat → sts !! j' = Some e → st_mac e ≠ mac
    | None => ∀ j e, (k ≤ j)%nat → sts !! j = Some e → st_mac e ≠ mac
    end) s.
Proof.
  induction n as [|n IH]; intros k Ht Hmac Hk; cbn [find_station].
  - apply wp_ret. split; [done|]. intros j e Hj He. apply lookup_lt_Some in He. lia.
  - destruct (lookup_lt_is_Some_2 sts k) as [e He]; [lia|].
    pose proof (Forall_lookup_1 _ _ _ _ (table_macs _ _ _ _ Ht) He) as Hlen.
    apply wp_bind. eapply wp_station_list; [done|]. intros a L Ha HL. apply wp_bind.
    pose proof Ht as [_ (a' & L' & Ha' & HL' & _ & Htk & _) _ _ _]. simplify_eq.
    pose proof He as He'. rewrite lookup_take in He'. case_decide; [|done].
    eapply wp_deref; [done|]. rewrite mac_eq by done. case_bool_decide as Hm.
    + apply wp_ret. split; [done|]. split; [lia|]. split; [eauto|]. intros; lia.
    + eapply wp_mono; [|by apply (IH (S k)); [done..|lia]]. cbn beta. intros [j|] s' [-> Hr]; (split; [done|]).
      * destruct Hr as (Hj & Hje & Hlt). split; [lia|]. split; [done|]. intros j' e' Hj' He2.
        destruct (decide (j' = k)) as [->|]; [congruence|]. apply (Hlt j' e'); [lia|done].
      * intros j e' Hj He2. destruct (decide (j = k)) as [->|]; [congruence|]. apply (Hr j e'); [lia|done].
Qed.
End table.

Section announce.
Context `{Config}.
Implicit Types (s : cfgstate) (d : rtcfg_device) (sts : list rtcfg_station).

(** What an operation on the table does not touch. *)
Definition same_client_dev d d' : Prop :=
  dev_state d' = dev_state d ∧ other_stations d' = other_stations d ∧ event_calls d' = event_calls d ∧
  dev_flags d' = dev_flags d ∧ clt_max_stations d' = clt_max_stations d.

(** The device after a station with flags [fl] was appended. *)
Definition one_more d (fl : Z) : rtcfg_device :=
  let d1 := d <| stations_found := u32 (stations_found d + 1) |> in
  if negb (Z.land fl RTCFG_FLAG_READY =? 0) then d1 <| stations_ready := u32 (stations_ready d + 1) |> else d1.
Lemma one_more_fields d fl :
  stations_found (one_more d fl) = u32 (stations_found d + 1) ∧
  stations_ready (one_more d fl) =
    (if negb (Z.land fl RTCFG_FLAG_READY =? 0) then u32 (stations_ready d + 1) else stations_ready d) ∧
  clt_station_addr_list (one_more d fl) = clt_station_addr_list d ∧
  clt_max_stations (one_more d fl) = clt_max_stations d ∧ dev_locked (one_more d fl) = dev_locked d ∧
  same_client_dev d (one_more d fl).
Proof. unfold one_more, same_client_dev. by destruct (negb _). Qed.

Lemma add_station_run s i d sts mac fl :
  station_table s i d sts → length mac = ETH_ALEN → stations_found d ≠ clt_max_stations d →
  wp (rtcfg_add_to_station_list (Z.of_nat i) mac fl) (λ r s', r = 0 ∧ rt s' = rt s ∧
    station_table s' i (one_more d fl) (sts ++ [mk_station mac fl])) s.
Proof.
  intros Ht Hmac Hroom. pose proof (table_length _ _ _ _ Ht) as Hlen.
  pose proof (ready_count_bound sts) as Hrb.
  pose proof Ht as [Hd (a & L & Ha & HL & HLn & Htk & Hmacs) Hf Hx Hr].
  set (n := Z.to_nat (stations_found d)) in *.
  destruct (lookup_lt_is_Some_2 L n) as [e He]; [lia|].
  unfold rtcfg_add_to_station_list. apply wp_bind. eapply wp_cfgdev_load; [done|].
  rewrite (proj2 (Z.eqb_neq _ _) Hroom). apply wp_bind. eapply wp_station_list; [done|].
  intros a' L' Ha' HL'.
  assert (a' = a) as -> by congruence. assert (L' = L) as -> by congruence. cbn [snd fst]. fold n. apply wp_bind. eapply wp_deref; [done|].
  apply wp_bind. apply wp_modify. apply wp_bind. eapply wp_cfgdev_upd; [done|].
  set (e' := e <| st_mac := _ |> <| st_flags := fl |>).
  assert (Ee : e' = mk_station mac fl).
  { unfold e', memcpy. pose proof (Forall_lookup_1 _ _ _ _ Hmacs He) as Hl. cbn beta in Hl.
    rewrite (take_ge mac), drop_ge, app_nil_r by lia. done. }
  clearbody e'. subst e'. set (s1 := s <| stations := _ |>). set (d1 := d <| stations_found := _ |>).
  assert (Hs2 : ∀ d2, d2 = one_more d fl → station_table (with_cfgdev s1 i d2) i d2 (sts ++ [mk_station mac fl])).
  { intros d2 ->. destruct (one_more_fields d fl) as (Ef & Er & Eal & Em & _ & _).
    assert (Ef' : stations_found (one_more d fl) = stations_found d + 1) by (rewrite Ef; apply u32_id; split; lia).
    split; [by apply (with_cfgdev_lookup s1 i _ d)|..].
    - exists a, (<[n := mk_station mac fl]> L). rewrite Eal, Em, Ef'. split_and!; [done|..].
      + cbn. apply lookup_insert_eq.
      + by rewrite length_insert.
      + replace (Z.to_nat (stations_found d + 1)) with (S n) by lia.
        rewrite (take_S_r _ _ (mk_station mac fl)) by (apply list_lookup_insert_eq; by eapply lookup_lt_Some).
        by rewrite take_insert_ge, Htk.
      + by apply Forall_insert.
    - rewrite Ef', Em. lia.
    - by rewrite Em.
    - rewrite Er, ready_count_app. cbn [ready_count]. unfold st_ready. cbn [st_flags].
      destruct (negb _); [rewrite u32_id; [|split]|]; lia. }
  unfold one_more in Hs2 |- *. fold d1 in Hs2 |- *. apply wp_bind. destruct (negb (Z.land fl RTCFG_FLAG_READY =? 0)).
  - cbn [when]. eapply wp_cfgdev_upd; [by apply (with_cfgdev_lookup s1 i d1 d)|]. apply wp_ret.
    rewrite with_cfgdev_twice. split_and!; [done..|]. by apply Hs2.
  - apply wp_ret, wp_ret. split_and!; [done..|]. by apply Hs2.
Qed.

Lemma u8_id v : 0 ≤ v < 256 → u8 v = v.
Proof. apply Z.mod_small. Qed.
(** Buffer [skb] holds a frame that starts with [bytes], from the station [src]. *)
Record received s (skb : nat) (x : rtskb) (bytes : list Z) (src : list Z) : Prop := {
  rc_skb : skbs (kern_of s) !! skb = Some x;
  rc_wf : wf_rtskb x;
  rc_bytes : ∃ pad, payload x = bytes ++ pad;
  rc_src : buf_read x (mac_raw x + 6) 6 = Some src;
}.
Lemma buf_read_length x p n b : buf_read x p n = Some b → length b = Z.to_nat n.
Proof.
  unfold buf_read. intros Hb. case_match eqn:Hc; [|done]. injection Hb as <-.
  apply andb_true_iff in Hc as [[? ?]%andb_true_iff ?]. rewrite length_take, length_drop. lia.
Qed.
(** The bytes of the frame at offset [off]. *)
Lemma received_read s skb x bytes src off n b :
  received s skb x bytes src → 0 ≤ off → 0 ≤ n → take (Z.to_nat n) (drop (Z.to_nat off) bytes) = b →
  off + n ≤ Z.of_nat (length bytes) → buf_read x (data x + off) n = Some b.
Proof.
  intros [Hx Hwf [pad Hp] _] Ho Hn Hb Hl. pose proof (length_payload x Hwf) as Hlen.
  rewrite Hp, length_app in Hlen. rewrite payload_read by (done || lia). rewrite Hp, drop_app_le by lia.
  rewrite take_app_le by (rewrite length_drop; lia). by rewrite Hb.
Qed.
Lemma received_len s skb x bytes src : received s skb x bytes src → Z.of_nat (length bytes) ≤ len x.
Proof.
  intros [_ Hwf [pad Hp] _]. pose proof (length_payload x Hwf) as Hlen. rewrite Hp, length_app in Hlen. lia.
Qed.

(** What an announcement does to the table. *)
Definition announced s i d sts (src : list Z) (fl ret : Z) s' : Prop :=
  if decide (src ∈ st_mac <$> sts) then ret = 0 ∧ station_table s' i d sts
  else if stations_found d =? clt_max_stations d
  then ret = - ENOMEM ∧ station_table s' i (d <| dev_locked := false |>) sts
  else ret = 0 ∧ ∃ d', station_table s' i d' (sts ++ [mk_station src fl]) ∧
                       dev_locked d' = dev_locked d ∧ same_client_dev d d'.

(** The part of the handler behind the address. *)
Lemma announce_station_run s i d sts skb x src p fl :
  station_table s i d sts → skbs (kern_of s) !! skb = Some x → buf_read x (mac_raw x + 6) 6 = Some src →
  buf_read x (p + 2) 1 = Some [fl] →
  wp (d ← cfgdev_load (Z.of_nat i);
      src ← h_source skb;
      r ← find_station (Z.to_nat (stations_found d)) 0 d src;
      match r with
      | Some _ => mret 0
      | None =>
          fl ← at_byte skb (p + 2);
          result ← rtcfg_add_to_station_list (Z.of_nat i) src fl;
          when (result <? 0) (dev_unlock (Z.of_nat i));;
          mret result
      end) (λ ret s', rt s' = rt s ∧ announced s i d sts src fl ret s') s.
Proof.
  intros Ht Hx Hsrc Hfl. pose proof (buf_read_length _ _ _ _ Hsrc) as Hmac.
  pose proof (table_length _ _ _ _ Ht) as Hlen. pose proof (tb_dev _ _ _ _ Ht) as Hd.
  apply wp_bind. eapply wp_cfgdev_load; [done|]. apply wp_bind. eapply wp_h_source; [done..|].
  apply wp_bind. eapply wp_mono; [|eapply find_station_run; [done|done|lia]]. cbn beta.
  unfold announced. intros [j|] s' [-> Hr].
  - destruct Hr as (_ & (e & He & <-) & _). apply wp_ret. split; [done|].
    rewrite decide_True; [done|]. apply list_elem_of_fmap. exists e. split; [done|]. by eapply list_elem_of_lookup_2.
  - destruct (decide (src ∈ st_mac <$> sts)) as [Hin|_].
    { apply list_elem_of_fmap in Hin as (e & -> & [j He]%list_elem_of_lookup). by destruct (Hr j e); [lia|..]. }
    apply wp_bind. eapply wp_at_byte; [done..|]. destruct (Z.eqb_spec (stations_found d) (clt_max_stations d)) as [E|E].
    + apply wp_bind. unfold rtcfg_add_to_station_list. apply wp_bind. eapply wp_cfgdev_load; [done|].
      rewrite E, Z.eqb_refl. apply wp_ret. change (- ENOMEM <? 0) with true. cbn [when]. apply wp_bind.
      eapply wp_dev_unlock; [done|]. apply wp_ret. split_and!; [done..|].
      eapply table_frame; [done|by apply (with_cfgdev_lookup s i _ d)|done..].
    + apply wp_bind. eapply wp_mono; [|by apply (add_station_run s i d sts src fl)]. cbn beta.
      intros r s' (-> & Er & Ht'). apply wp_bind, wp_ret, wp_ret. split; [done|]. split; [done|].
      destruct (one_more_fields d fl) as (_ & _ & _ & _ & Hl & Hs). eauto.
Qed.

(** C35: an announcement of another station.  [rtcfg_client_recv_announce] on a
    complete frame of either address type enters the sender's IP address into the
    routing table (through [rt_ip_route_add_host], and only for that address type)
    and appends the station with its flags to the table unless it is already
    there; the table stays a list of [stations_found] stations of which
    [stations_ready] are ready.  If the array is full the result is -ENOMEM, the
    table is unchanged and the mutex is released, otherwise the result is 0 and
    the mutex is still held. *)
Theorem rtcfg_client_recv_announce_correct s i d sts skb x id at0 ip0 fl br src dv D B F T :
  station_table s i d sts → received s skb x (announce_bytes id at0 ip0 fl br) src →
  CONFIG_RTNET_RTIPV4 = true → at0 = RTCFG_ADDR_MAC ∨ at0 = RTCFG_ADDR_IP → is_u32 ip0 → 0 ≤ fl < 256 →
  rtdev x = Some dv → devs (kern_of s) !! dv = Some D → (addr_len D ≤ ETH_ALEN)%nat →
  host_state (rt s) B F T →
  ∃ ret s', rtcfg_client_recv_announce (Z.of_nat i) skb s = Some (ret, s') ∧
    (if at0 =? RTCFG_ADDR_IP then ∃ n, rt_ip_route_add_host ip0 src dv (rt s) = Some (n, rt s')
     else rt s' = rt s) ∧
    announced s i d sts src fl ret s'.
Proof.
  intros Ht Hrc H4 Hat Hip Hfl Hdv HD Hal Hhs. apply wp_elim. unfold rtcfg_client_recv_announce.
  pose proof Hrc as [Hx Hwf _ Hsrc]. pose proof (received_len _ _ _ _ _ Hrc) as Hlen.
  pose proof (buf_read_length _ _ _ _ Hsrc) as Hmac.
  assert (Hw : length (wr32 ip0) = 4%nat) by (unfold wr32; by destruct little_endian).
  apply wp_bind. eapply wp_in_k_skb; [done|]. unfold announce_bytes, with_ip in Hrc, Hlen.
  rewrite H4 in Hrc, Hlen. destruct Hat as [-> | ->].
  - change (is_ip RTCFG_ADDR_MAC) with false in Hrc, Hlen. cbn [andb app] in Hrc, Hlen. cbn [length] in Hlen.
    replace (len x <? sizeof_frm_announce) with false by (symmetry; apply Z.ltb_ge; exact Hlen).
    apply wp_bind. eapply wp_at_byte; [done|by eapply received_read|]. rewrite H4. apply wp_bind, wp_ret.
    eapply wp_mono; [|eapply (announce_station_run s i d sts skb x src (data x) fl); [done..|]].
    + done.
    + eapply received_read; [done|lia..| |cbn; lia]. by rewrite (u8_id fl).
  - change (is_ip RTCFG_ADDR_IP) with true in Hrc, Hlen. cbn [andb app] in Hrc, Hlen. cbn [length] in Hlen.
    rewrite length_app, Hw in Hlen. cbn [length] in Hlen.
    replace (len x <? sizeof_frm_announce) with false by (symmetry; apply Z.ltb_ge; unfold sizeof_frm_announce; lia).
    destruct (wr32 ip0) as [|b0 [|b1 [|b2 [|b3 [|? ?]]]]] eqn:Ew; try done. cbn [app] in Hrc.
    apply wp_bind. eapply wp_at_byte; [done|by eapply received_read|]. rewrite H4.
    change (u8 RTCFG_ADDR_IP =? RTCFG_ADDR_IP) with true. cbn [andb].
    replace (len x <? sizeof_frm_announce + RTCFG_ADDRSIZE_IP) with false
      by (symmetry; apply Z.ltb_ge; unfold sizeof_frm_announce, RTCFG_ADDRSIZE_IP; lia).
    apply wp_bind, wp_bind. eapply (wp_at_addr skb x _ ip0); [done| |].
    { assert (buf_read x (data x + 2) 4 = Some [b0; b1; b2; b3]) as ->.
      { eapply received_read; [done|lia..|reflexivity|by apply Z.leb_le]. }
      rewrite <-(rd32_wr32 ip0 Hip), Ew. done. }
    apply wp_bind. eapply wp_h_source; [done..|]. rewrite Hdv. apply wp_bind. eapply wp_deref; [done|].
    apply wp_bind, wp_in_rt.
    destruct (wp_elim _ _ _ (add_host_run (rt s) B F T ip0 src dv D Hhs Hip HD ltac:(rewrite Hmac; exact Hal)))
      as (n & r' & Er & Hk & _).
    eapply wp_intro; [exact Er|]. apply wp_ret.
    assert (Hk' : kern_of (s <| rt := r' |>) = kern_of s) by exact Hk.
    eapply wp_mono; [|eapply (announce_station_run (s <| rt := r' |>) i d sts skb x src); [|by rewrite Hk'|done|]].
    + cbn beta. intros ret s' [E Ha]. split; [|exact Ha]. exists n. by rewrite E.
    + eapply table_frame; [done|exact (tb_dev _ _ _ _ Ht)|done..].
    + replace (data x + RTCFG_ADDRSIZE_IP + 2) with (data x + 6) by (unfold RTCFG_ADDRSIZE_IP; lia).
      eapply received_read; [done|lia..| |cbn; lia]. by rewrite (u8_id fl).
Qed.
End announce.

(** ** Frames the client owns *)

Section owned.
Context `{Config}.
Implicit Types (s : cfgstate).

(** Buffer [skb] is a used single buffer of pool [q]; the pools hold [Cp]. *)
Record owned s (Cp : gmap nat (list nat)) (q skb : nat) (x : rtskb) : Prop := {
  ow_pools : pools_inv (kern_of s) Cp;
  ow_skb : skbs (kern_of s) !! skb = Some x;
  ow_pool : pool x = Some q;
  ow_queue : is_Some (Cp !! q);
  ow_end : chain_end x = Some skb;
  ow_used : in_use Cp skb;
  ow_cap : CONFIG_RTNET_ADDON_RTCAP = true → Z.land (cap_flags x) RTSKB_CAP_SHARED = 0;
}.
(** Only the buffers and queues of the kernel state differ. *)
Definition only_buffers s s' : Prop := ∃ k', same_world (kern_of s) k' ∧ s' = with_kern s k'.

Lemma wp_free_owned s Cp q skb x (Q : () → cfgstate → Prop) :
  owned s Cp q skb x →
  (∀ s' l, Cp !! q = Some l → pools_inv (kern_of s') (<[q := l ++ [skb]]> Cp) → only_buffers s s' → Q () s') →
  wp (in_k (kfree_rtskb (Some skb))) Q s.
Proof.
  intros [Hinv Hx Hp [l Hl] He Hu Hc] HQ. apply wp_in_k.
  eapply wp_mono; [|eapply (kfree_rtskb_run _ Cp skb [skb] q l); [done|done|by eapply is_chain_single|]].
  - cbn beta. intros [] k' (Hinv' & _ & Hw & _). eapply HQ; [done| |by exists k'].
    destruct s as [[]]. exact Hinv'.
  - intros a ->%list_elem_of_singleton. split; [done|]. intros y Hy. simplify_eq. auto.
Qed.
Lemma wp_pull_owned s Cp q skb x n (Q : () → cfgstate → Prop) :
  owned s Cp q skb x → wf_rtskb x → 0 ≤ n ≤ len x →
  (∀ s', owned s' Cp q skb (pulled n x) → wf_rtskb (pulled n x) →
     payload (pulled n x) = drop (Z.to_nat n) (payload x) → only_buffers s s' → Q () s') →
  wp (pull skb n) Q s.
Proof.
  intros [Hinv Hx Hp Hl He Hu Hc] Hwf Hn HQ. destruct (pull_payload n x Hwf Hn) as [Hwy Hpy].
  rewrite pulled_eq in Hwy, Hpy by done. unfold pull. apply wp_in_k. eapply wp_use; [done..|].
  intros k' Hinv' Hk' Hw. rewrite pulled_eq in Hk' by done. apply HQ; [|done|done|by exists k'].
  split; destruct s as [[]]; cbn; try done. cbn in Hk'. rewrite Hk'. apply lookup_insert_eq.
Qed.
Lemma only_buffers_trans s1 s2 s3 : only_buffers s1 s2 → only_buffers s2 s3 → only_buffers s1 s3.
Proof.
  intros (k2 & Hw2 & ->) (k3 & Hw3 & ->). exists k3. destruct s1 as [[]]. split; [|done].
  cbn in *. by eapply same_world_trans.
Qed.
Lemma only_buffers_fields s s' : only_buffers s s' →
  device s' = device s ∧ stations s' = stations s ∧ calls s' = calls s ∧ completed s' = completed s ∧
  conns s' = conns s ∧ devs (kern_of s') = devs (kern_of s).
Proof. intros (k' & Hw & ->). destruct s as [[]]. cbn in *. rewrite Hw. done. Qed.
Lemma owned_unlock s Cp q skb x i d : owned s Cp q skb x → owned (with_cfgdev s i d) Cp q skb x.
Proof. by intros []. Qed.

(** The end of most handlers: the mutex is released, the frame freed. *)
Lemma unlock_free_run s Cp q skb x i d (Q : () → cfgstate → Prop) :
  owned s Cp q skb x → device s !! i = Some d →
  (∀ s', only_buffers (with_cfgdev s i (d <| dev_locked := false |>)) s' → Q () s') →
  wp (unlock_free (Z.of_nat i) skb) Q s.
Proof.
  intros Ho Hd HQ. unfold unlock_free. apply wp_bind. eapply wp_dev_unlock; [done|].
  eapply wp_free_owned; [by apply owned_unlock|]. intros s' l _ _ Hb. by apply HQ.
Qed.

(** a stage 1 frame with IP addresses and less than five bytes of data, as
    [rtcfg_send_stage_1] builds it and without padding from the medium, is taken
    for invalid: the header has already been pulled when its length is compared
    with that of the header and the two addresses.  The client releases the mutex,
    frees the frame and stays in its state; no waiting call is completed. *)
Theorem stage_1_short_frame_dropped s Cp q skb x C sip br i d :
  owned s Cp q skb x → wf_rtskb x → payload x = stage_1_bytes C sip br →
  CONFIG_RTNET_RTIPV4 = true → Z.land (conn_addr_type C) RTCFG_ADDR_MASK = RTCFG_ADDR_IP →
  stage1_size C = Z.of_nat (length (stage1_data C)) → stage1_size C < 5 → device s !! i = Some d →
  ∃ s', rtcfg_client_recv_stage_1 (Z.of_nat i) skb s = Some ((), s') ∧
    device s' = <[i := d <| dev_locked := false |>]> (device s) ∧
    completed s' = completed s ∧ calls s' = calls s.
Proof.
  intros Ho Hwf Hp H4 Hat Hsz Hlt Hd.
  assert (Hw : ∀ v, length (wr32 v) = 4%nat) by (intros v; unfold wr32; by destruct little_endian).
  assert (Hlen : len x = 13 + stage1_size C).
  { rewrite <-(length_payload x Hwf), Hp. unfold stage_1_bytes, with_ip, is_ip, be16. rewrite H4, Hat, Z.eqb_refl.
    cbn [andb]. rewrite !length_app, !Hw, length_take. cbn [length]. lia. }
  enough (wp (rtcfg_client_recv_stage_1 (Z.of_nat i) skb)
    (λ _ s', only_buffers (with_cfgdev s i (d <| dev_locked := false |>)) s') s) as Hwp.
  { destruct (wp_elim _ _ _ Hwp) as ([] & s' & E & Hb). exists s'. split; [exact E|].
    by destruct (only_buffers_fields _ _ Hb) as (-> & _ & -> & -> & _). }
  unfold rtcfg_client_recv_stage_1. apply wp_bind. eapply wp_in_k_skb; [exact (ow_skb _ _ _ _ _ Ho)|].
  unfold sizeof_frm_stage_1_cfg, RTCFG_ADDRSIZE_IP. replace (len x <? 5) with false by lia.
  apply wp_bind. eapply wp_pull_owned; [done..|lia|]. intros s1 Ho1 Hwf1 Hp1 Hb1. apply wp_bind.
  pose proof (ow_skb _ _ _ _ _ Ho1) as Hx1.
  eapply (wp_at_byte skb (pulled 5 x) _ RTCFG_ADDR_IP); [done| |].
  { change (buf_read (pulled 5 x) (data x + 1) 1) with (buf_read x (data x + 1) 1).
    rewrite payload_read by (done || lia). rewrite Hp. unfold stage_1_bytes. rewrite Hat. done. }
  rewrite H4, Z.eqb_refl. cbn [andb]. apply wp_bind. eapply wp_in_k_skb; [done|].
  replace (len (pulled 5 x) <? 5 + 2 * 4) with true by (cbn; lia).
  destruct (only_buffers_fields _ _ Hb1) as (Ed & _).
  eapply unlock_free_run; [done|by rewrite Ed|]. intros s' Hb. destruct Hb1 as (k1 & Hk1 & ->).
  destruct Hb as (k2 & Hk2 & ->). exists k2. destruct s as [[]]. split; [|done]. cbn in *.
  by eapply same_world_trans.
Qed.
End owned.

(** ** Stations that leave *)

(** The list without the first station with the address. *)
Fixpoint drop_first (mac : list Z) (l : list rtcfg_station) : list rtcfg_station :=
  match l with
  | [] => []
  | e :: l => if decide (st_mac e = mac) then l else e :: drop_first mac l
  end.

Section dead.
Context `{Config}.
Implicit Types (s : cfgstate) (d : rtcfg_device) (sts : list rtcfg_station).

Lemma drop_first_delete mac l j e :
  l !! j = Some e → st_mac e = mac →
  (∀ j' e', (j' < j)%nat → l !! j' = Some e' → st_mac e' ≠ mac) → drop_first mac l = delete j l.
Proof.
  revert j. induction l as [|e0 l IH]; intros j Hj Hm Hlt; [done|]. cbn [drop_first].
  destruct j as [|j]; [injection Hj as ->; by rewrite decide_True|].
  rewrite decide_False by (apply (Hlt 0%nat e0); [lia|done]). cbn. f_equal. apply IH; [done..|].
  intros j' e' Hj' He'. apply (Hlt (S j') e'); [lia|done].
Qed.
Lemma drop_first_id mac l : (∀ j e, l !! j = Some e → st_mac e ≠ mac) → drop_first mac l = l.
Proof.
  induction l as [|e0 l IH]; intros Hn; [done|]. cbn [drop_first].
  rewrite decide_False by (by apply (Hn 0%nat e0)). f_equal. apply IH. intros j e He. by apply (Hn (S j) e).
Qed.

Lemma ready_count_delete l j e :
  l !! j = Some e → ready_count l = ready_count (delete j l) + if st_ready e then 1 else 0.
Proof.
  intros Hj. rewrite delete_take_drop. rewrite <-(take_drop_middle l j e Hj) at 1.
  rewrite !ready_count_app. cbn [ready_count]. lia.
Qed.
Lemma take_memmove (L : list rtcfg_station) j n :
  (j < S n)%nat → (S n ≤ length L)%nat → take n (station_memmove L j n) = delete j (take (S n) L).
Proof.
  intros Hj Hn. unfold station_memmove. rewrite delete_take_drop, take_take, skipn_firstn_comm.
  rewrite app_assoc, take_app_le.
  2: { rewrite length_app, !length_take, length_drop. lia. }
  rewrite take_ge. 2: { rewrite length_app, !length_take, length_drop. lia. }
  f_equal; f_equal; lia.
Qed.

(** The device after the removal of station [e]. *)
Definition one_less d (e : rtcfg_station) : rtcfg_device :=
  let d1 := if st_ready e then d <| stations_ready := u32 (stations_ready d - 1) |> else d in
  let d2 := d1 <| stations_found := u32 (stations_found d - 1) |> in
  if bool_decide (dev_state d = RTCFG_MAIN_CLIENT_ALL_KNOWN)
  then d2 <| dev_state := RTCFG_MAIN_CLIENT_ANNOUNCED |> else d2.
Lemma one_less_fields d e :
  stations_found (one_less d e) = u32 (stations_found d - 1) ∧
  stations_ready (one_less d e) = (if st_ready e then u32 (stations_ready d - 1) else stations_ready d) ∧
  clt_station_addr_list (one_less d e) = clt_station_addr_list d ∧
  clt_max_stations (one_less d e) = clt_max_stations d ∧
  dev_state (one_less d e) = (if bool_decide (dev_state d = RTCFG_MAIN_CLIENT_ALL_KNOWN)
                              then RTCFG_MAIN_CLIENT_ANNOUNCED else dev_state d).
Proof. unfold one_less. by destruct (st_ready e), (bool_decide _). Qed.

(** The table whose memory is [L], with device [d]. *)
Lemma one_less_table s i d sts j e a L :
  station_table s i d sts → sts !! j = Some e → clt_station_addr_list d = Some a → stations s !! a = Some L →
  let s1 := s <| stations := <[a := station_memmove L j (Z.to_nat (u32 (stations_found d - 1)))]> (stations s) |> in
  station_table (with_cfgdev s1 i (one_less d e)) i (one_less d e) (delete j sts).
Proof.
  intros Ht He Ha HL s1. pose proof (table_length _ _ _ _ Ht) as Hlen.
  pose proof Ht as [Hd (a' & L' & Ha' & HL' & HLn & Htk & Hmacs) Hf Hx Hr].
  assert (a' = a) as -> by congruence. assert (L' = L) as -> by congruence.
  pose proof (lookup_lt_Some _ _ _ He) as Hj. pose proof (ready_count_bound (delete j sts)) as Hb.
  rewrite (ready_count_delete _ _ _ He) in Hr. rewrite length_delete in Hb by (by eexists).
  destruct (one_less_fields d e) as (Ef & Er & Ea & Em & _).
  assert (E32 : u32 (stations_found d - 1) = stations_found d - 1) by (apply u32_id; split; lia).
  rewrite E32 in *. split.
  - by apply (with_cfgdev_lookup s1 i _ d).
  - exists a, (station_memmove L j (Z.to_nat (stations_found d - 1))). rewrite Ea, Em, Ef.
    split_and!; [done|cbn; rewrite E32; apply lookup_insert_eq|..].
    + unfold station_memmove. rewrite !length_app, !length_take, !length_drop. lia.
    + rewrite take_memmove by lia. replace (S (Z.to_nat (stations_found d - 1))) with (Z.to_nat (stations_found d)) by lia.
      by rewrite Htk.
    + unfold station_memmove. repeat apply Forall_app_2; auto using Forall_take, Forall_drop.
  - rewrite Ef, Em. lia.
  - by rewrite Em.
  - rewrite Er, Hr. destruct (st_ready e); [|lia]. rewrite u32_id; [lia|]. split; lia.
Qed.

Lemma drop_station_run s i d sts j e :
  station_table s i d sts → sts !! j = Some e →
  wp (drop_station (Z.of_nat i) j) (λ _ s', ∃ m, stations s' = m ∧
    s' = with_cfgdev (s <| stations := m |>) i (one_less d e) ∧ station_table s' i (one_less d e) (delete j sts)) s.
Proof.
  intros Ht He. pose proof (tb_dev _ _ _ _ Ht) as Hd. unfold drop_station. apply wp_bind.
  eapply wp_cfgdev_load; [done|]. apply wp_bind. eapply wp_station_list; [done|]. intros a L Ha HL. cbn [snd fst].
  pose proof Ht as [_ (a' & L' & Ha' & HL' & _ & Htk & _) _ _ _].
  assert (L' = L) as -> by congruence. pose proof He as He'. rewrite <-Htk, lookup_take in He'. case_decide; [|done].
  apply wp_bind. eapply wp_deref; [done|]. pose proof (one_less_table s i d sts j e a L Ht He Ha HL) as Htab.
  cbv zeta in Htab. fold (st_ready e). unfold one_less in *.
  assert (Hmm : ∀ d1, stations_found d1 = stations_found d → dev_state d1 = dev_state d →
    wp (cfgdev_upd (Z.of_nat i) (λ d, d <| stations_found := u32 (stations_found d - 1) |>);;
        d ← cfgdev_load (Z.of_nat i);
        station_list_set a (station_memmove L j (Z.to_nat (stations_found d)));;
        when (bool_decide (dev_state d = RTCFG_MAIN_CLIENT_ALL_KNOWN))
          (rtcfg_next_main_state (Z.of_nat i) RTCFG_MAIN_CLIENT_ANNOUNCED))
       (λ _ s', s' = with_cfgdev (s <| stations := <[a := station_memmove L j (Z.to_nat (u32 (stations_found d - 1)))]> (stations s) |>) i
          (let d2 := d1 <| stations_found := u32 (stations_found d - 1) |> in
           if bool_decide (dev_state d = RTCFG_MAIN_CLIENT_ALL_KNOWN)
           then d2 <| dev_state := RTCFG_MAIN_CLIENT_ANNOUNCED |> else d2)) (with_cfgdev s i d1)).
  { intros d1 Ef Es. apply wp_bind. eapply wp_cfgdev_upd; [by apply (with_cfgdev_lookup s i d1 d)|].
    rewrite with_cfgdev_twice, Ef. apply wp_bind.
    eapply wp_cfgdev_load; [by apply (with_cfgdev_lookup s i _ d)|]. apply wp_bind, wp_modify.
    cbn [stations_found dev_state]. change (dev_state (d1 <| stations_found := _ |>)) with (dev_state d1).
    rewrite Es. case_bool_decide; cbn [when].
    - eapply wp_cfgdev_upd; [cbn; apply list_lookup_insert_eq; by eapply lookup_lt_Some|].
      destruct s. unfold with_cfgdev, upd. cbn. by rewrite list_insert_insert_eq.
    - apply wp_ret. by destruct s. }
  apply wp_bind. destruct (st_ready e); cbn [when].
  - eapply wp_cfgdev_upd; [done|]. eapply wp_mono; [|by apply Hmm]. cbn beta. intros [] s' ->. by eexists.
  - apply wp_ret. assert (s = with_cfgdev s i d) as Hsd.
    { unfold with_cfgdev. rewrite list_insert_id by done. by destruct s. }
    pose proof (Hmm d eq_refl eq_refl) as Hm. rewrite <-Hsd in Hm. eapply wp_mono; [|exact Hm]. cbn beta. intros [] s' ->. by eexists.
Qed.

Lemma host_state_buffers s s' B F T : only_buffers s s' → host_state (rt s) B F T → host_state (rt s') B F T.
Proof.
  intros (k & Hw & ->) Hs. apply host_state_kern; [done|]. unfold same_world, kern_of in Hw. by rewrite Hw.
Qed.

(** What the announcement of a dead station leaves: the table without it, the
    mutex free and, unless the address is the client's own, no route to it. *)
Definition station_dead s i d sts (mac : list Z) (route : Z * Z → Prop) s' : Prop :=
  ∃ d' B' F' T', station_table s' i d' (drop_first mac sts) ∧ dev_locked d' = false ∧
    dev_state d' = (if decide (mac ∈ st_mac <$> sts ∧ dev_state d = RTCFG_MAIN_CLIENT_ALL_KNOWN)
                    then RTCFG_MAIN_CLIENT_ANNOUNCED else dev_state d) ∧
    host_state (rt s') B' F' T' ∧ ∀ k, route k → T' !! k = None.

(** The part of the handler behind the addresses. *)
Lemma dead_station_run s i d sts Cp q skb x mac route B F T :
  station_table s i d sts → owned s Cp q skb x → length mac = ETH_ALEN →
  host_state (rt s) B F T → (∀ k, route k → T !! k = None) →
  wp (r ← find_station (Z.to_nat (stations_found d)) 0 d mac;
      match r with Some j => drop_station (Z.of_nat i) j | None => mret () end;;
      unlock_free (Z.of_nat i) skb) (λ _ s', station_dead s i d sts mac route s') s.
Proof.
  intros Ht Ho Hmac Hhs Hroute. pose proof (table_length _ _ _ _ Ht) as Hlen. pose proof (tb_dev _ _ _ _ Ht) as Hd.
  assert (Hend : ∀ m d', station_table (with_cfgdev (s <| stations := m |>) i d') i d' (drop_first mac sts) →
    dev_state d' = (if decide (mac ∈ st_mac <$> sts ∧ dev_state d = RTCFG_MAIN_CLIENT_ALL_KNOWN)
                    then RTCFG_MAIN_CLIENT_ANNOUNCED else dev_state d) →
    wp (unlock_free (Z.of_nat i) skb) (λ _ s', station_dead s i d sts mac route s')
       (with_cfgdev (s <| stations := m |>) i d')).
  { intros m d' Ht' Hst. eapply (unlock_free_run _ Cp q skb x); [by destruct Ho|exact (tb_dev _ _ _ _ Ht')|].
    intros s' Hb. destruct (only_buffers_fields _ _ Hb) as (Ed & Es & _).
    exists (d' <| dev_locked := false |>), B, F, T. split_and!; [|done|done| |done].
    - eapply table_frame; [exact Ht'| |rewrite Es; done|done..]. rewrite Ed.
      by apply (with_cfgdev_lookup _ i _ d'), (tb_dev _ _ _ _ Ht').
    - eapply host_state_buffers; [exact Hb|]. done. }
  apply wp_bind. eapply wp_mono; [|eapply find_station_run; [done|done|lia]]. cbn beta.
  intros [j|] s' [-> Hr].
  - destruct Hr as (_ & (e & He & Em) & Hlt). apply wp_bind.
    eapply wp_mono; [|by eapply (drop_station_run s i d sts j e)]. cbn beta. intros [] s' (m & _ & -> & Ht').
    rewrite <-(drop_first_delete mac sts j e) in Ht'; [|done|done|intros; apply (Hlt j' e'); [lia|done]].
    apply Hend; [done|]. destruct (one_less_fields d e) as (_ & _ & _ & _ & ->).
    assert (Hin : mac ∈ st_mac <$> sts).
    { apply list_elem_of_fmap. exists e. split; [done|]. by eapply list_elem_of_lookup_2. }
    case_bool_decide; case_decide; naive_solver.
  - apply wp_bind, wp_ret. assert (Hsd : with_cfgdev (s <| stations := stations s |>) i d = s).
    { unfold with_cfgdev. cbn. rewrite list_insert_id by done. by destruct s. }
    assert (Hn : ∀ j e, sts !! j = Some e → st_mac e ≠ mac) by (intros j e; apply Hr; lia).
    rewrite <-Hsd. apply Hend.
    + rewrite Hsd, drop_first_id by done. done.
    + rewrite decide_False; [done|]. intros [(e & -> & [j He]%list_elem_of_lookup)%list_elem_of_fmap _].
      by apply (Hn j e).
Qed.

(** Reading a frame that [rtcfg_send_dead_station] built. *)
Lemma dead_frame_reads x C pad :
  wf_rtskb x → payload x = dead_station_bytes C ++ pad → CONFIG_RTNET_RTIPV4 = true →
  length (conn_mac C) = MAX_ADDR_LEN → is_u32 (conn_ip C) →
  let mac := take ETH_ALEN (conn_mac C) in
  buf_read x (data x + 1) 1 = Some [Z.land (conn_addr_type C) RTCFG_ADDR_MASK] ∧
  if is_ip (conn_addr_type C)
  then 38 ≤ len x ∧ buf_read x (data x + 2) 4 ≫= rd32 = Some (conn_ip C) ∧ buf_read x (data x + 6) 6 = Some mac
  else 34 ≤ len x ∧ buf_read x (data x + 2) 6 = Some mac.
Proof.
  intros Hwf Hp H4 Hcm Hip mac. assert (Hlm : length mac = ETH_ALEN) by (unfold mac; rewrite length_take, Hcm; done).
  pose proof (length_payload x Hwf) as Hlen. rewrite Hp in Hlen. unfold dead_station_bytes, with_ip in Hp, Hlen.
  fold mac in Hp, Hlen. rewrite H4 in Hp, Hlen. clearbody mac.
  assert (Hw : length (wr32 (conn_ip C)) = 4%nat) by (unfold wr32; by destruct little_endian).
  destruct mac as [|m0 [|m1 [|m2 [|m3 [|m4 [|m5 [|? ?]]]]]]]; try done. destruct (is_ip (conn_addr_type C)).
  - destruct (wr32 (conn_ip C)) as [|b0 [|b1 [|b2 [|b3 [|? ?]]]]] eqn:Ew; try done. cbn [andb app] in Hp, Hlen.
    rewrite !length_cons, length_app, length_replicate in Hlen. unfold ETH_ALEN in Hlen.
    split; [|split; [lia|]]; rewrite !payload_read by (done || lia); rewrite Hp; [done|].
    split; [|done]. rewrite <-(rd32_wr32 (conn_ip C) Hip), Ew. done.
  - cbn [andb app] in Hp, Hlen. rewrite !length_cons, length_app, length_replicate in Hlen. unfold ETH_ALEN in Hlen.
    split; [|split; [lia|]]; rewrite payload_read by (done || lia); by rewrite Hp.
Qed.

(** a station is reported dead.  [rtcfg_client_recv_dead_station] on a frame as
    [rtcfg_send_dead_station] builds it removes the station from the table (the
    order of the others is kept, the counters follow), goes back from ALL_KNOWN to
    ANNOUNCED if it was known, removes the route to its IP address unless that is
    the client's own, frees the frame and releases the mutex. *)
Theorem rtcfg_client_recv_dead_station_correct s i d sts Cp q skb x C pad dv D B F T :
  station_table s i d sts → owned s Cp q skb x → wf_rtskb x → payload x = dead_station_bytes C ++ pad →
  CONFIG_RTNET_RTIPV4 = true → length (conn_mac C) = MAX_ADDR_LEN → is_u32 (conn_ip C) →
  Z.land (conn_addr_type C) RTCFG_ADDR_MASK = RTCFG_ADDR_MAC ∨
  Z.land (conn_addr_type C) RTCFG_ADDR_MASK = RTCFG_ADDR_IP →
  rtdev x = Some dv → devs (kern_of s) !! dv = Some D → host_state (rt s) B F T →
  ∃ s', rtcfg_client_recv_dead_station (Z.of_nat i) skb s = Some ((), s') ∧
    station_dead s i d sts (take ETH_ALEN (conn_mac C))
      (λ k, is_ip (conn_addr_type C) = true ∧ conn_ip C ≠ local_ip D ∧ k = (conn_ip C, local_ip D)) s'.
Proof.
  intros Ht Ho Hwf Hp H4 Hcm Hip Hat Hdv HD Hhs. pose proof (ow_skb _ _ _ _ _ Ho) as Hx.
  destruct (dead_frame_reads x C pad Hwf Hp H4 Hcm Hip) as [Hty Hr].
  set (mac := take ETH_ALEN (conn_mac C)) in *.
  assert (Hlm : length mac = ETH_ALEN) by (unfold mac; rewrite length_take, Hcm; done).
  set (route := λ k, is_ip (conn_addr_type C) = true ∧ _).
  assert (Hrest : ∀ r' B' F' T' p, kern r' = kern (rt s) → host_state r' B' F' T' →
    (∀ k, route k → T' !! k = None) → buf_read x (p + 2) 6 = Some mac →
    wp (d0 ← cfgdev_load (Z.of_nat i);
        mac ← deref (buf_read x (p + 2) 6);
        r ← find_station (Z.to_nat (stations_found d0)) 0 d0 mac;
        match r with Some j => drop_station (Z.of_nat i) j | None => mret () end;;
        unlock_free (Z.of_nat i) skb) (λ _ s', station_dead s i d sts mac route s') (s <| rt := r' |>)).
  { intros r' B' F' T' p Hk Hs' Hn Hmac. assert (Hk' : kern_of (s <| rt := r' |>) = kern_of s) by exact Hk.
    apply wp_bind. eapply wp_cfgdev_load; [exact (tb_dev _ _ _ _ Ht)|]. apply wp_bind. eapply wp_deref; [done|].
    eapply (dead_station_run (s <| rt := r' |>)); [| |done|exact Hs'|exact Hn].
    - eapply table_frame; [done|exact (tb_dev _ _ _ _ Ht)|done..].
    - destruct Ho. split; by rewrite ?Hk'. }
  enough (wp (rtcfg_client_recv_dead_station (Z.of_nat i) skb) (λ _ s', station_dead s i d sts mac route s') s) as Hwp.
  { destruct (wp_elim _ _ _ Hwp) as ([] & s' & E & Hs). eauto. }
  unfold rtcfg_client_recv_dead_station, sizeof_frm_dead_station, RTCFG_ADDRSIZE_IP. apply wp_bind.
  eapply wp_in_k_skb; [done|]. pose proof (Hrest (rt s) B F T) as Hsame.
  replace (s <| rt := rt s |>) with s in Hsame by (by destruct s). unfold is_ip in Hr, route.
  destruct Hat as [Hat|Hat]; rewrite Hat in *.
  - change (RTCFG_ADDR_MAC =? RTCFG_ADDR_IP) with false in *. destruct Hr as [Hlen Hmac].
    replace (len x <? 34) with false by lia. apply wp_bind. eapply wp_at_byte; [done..|]. rewrite H4.
    apply wp_bind, wp_ret. apply Hsame; [done..| |done]. intros k [Hk _]. by rewrite Hat in Hk.
  - change (RTCFG_ADDR_IP =? RTCFG_ADDR_IP) with true in *. destruct Hr as (Hlen & Hipr & Hmac).
    replace (len x <? 34) with false by lia. apply wp_bind. eapply wp_at_byte; [done..|]. rewrite H4.
    change (RTCFG_ADDR_IP =? RTCFG_ADDR_IP) with true. cbn [andb]. replace (len x <? 34 + 4) with false by lia.
    apply wp_bind, wp_bind. eapply wp_at_addr; [done..|]. rewrite Hdv. apply wp_bind.
    eapply wp_deref; [done|]. apply wp_bind. eapply wp_in_k_dev; [done|].
    assert (Hp6 : buf_read x (data x + 4 + 2) 6 = Some mac) by (by replace (data x + 4 + 2) with (data x + 6) by lia).
    destruct (Z.eqb_spec (local_ip D) (conn_ip C)) as [E|E]; cbn [negb when].
    + apply wp_bind, wp_ret, wp_ret. apply Hsame; [done..| |done]. intros k (_ & Hne & _). congruence.
    + apply wp_bind, wp_bind, wp_in_rt.
      assert (Hlip : lip_of (rt s) (Some dv) = Some (Some (local_ip D))) by (cbn; unfold kern_of in HD; by rewrite HD).
      eapply wp_mono; [|by apply (del_host_run (rt s) B F T (conn_ip C) (Some dv) (Some (local_ip D)))].
      cbn beta. intros n r' [Hk Hr]. apply wp_ret, wp_ret.
      destruct Hr as [(_ & k & B' & F' & -> & _ & Hs')|(_ & Hn & ->)]; (eapply Hrest; [done..| |done]).
      * intros k (_ & _ & ->). apply lookup_delete_eq.
      * intros k (_ & _ & ->). by apply Hn.
Qed.
End dead.
