(* ===== verification/RtcfgStage2.v ===== *)
(** * RTcfg: collection of the stage 2 data

    The client chains the buffers of the stage 2 frames and hands the chain to a
    waiting ANNOUNCE command when a burst or the data is complete. *)
From S2P Require Import Prelude State RtskbQueue Rtskb RtskbData Route RtcfgFrame RtcfgConn RtcfgServer.
From S2P Require Import RtcfgClient RtcfgOps RtcfgClientOps.

Section chain.
Implicit Types (h : gmap nat rtskb) (c : list nat).

Lemma trim_payload n x : wf_rtskb x → 0 ≤ n ≤ len x → payload (rtskb_trim n x) = take (Z.to_nat n) (payload x).
Proof.
  intros Hwf Hn. unfold rtskb_trim. destruct (Z.ltb_spec n (len x)).
  - unfold payload. cbn. rewrite take_take. f_equal. lia.
  - rewrite take_ge; [done|]. pose proof (length_payload x Hwf). lia.
Qed.

(** Linking the buffer [b] to the chain of [p] whose last buffer is [e]. *)
Lemma chain_extend h p c e xe b y :
  is_chain h p c → last c = Some e → b ∉ c → h !! e = Some xe → h !! b = Some y →
  let h1 := <[e := xe <| next := Some b |>]> h in
  ∃ xp, h1 !! p = Some xp ∧
    let h2 := <[p := xp <| chain_end := Some b |>]> h1 in
    is_chain h2 p (c ++ [b]) ∧ chain_bytes h2 (c ++ [b]) = chain_bytes h c ++ payload y.
Proof.
  intros (x & r & Hh & Hx & Hce & Hseg & Hnd) He Hb Hxe Hy h1.
  assert (Hpc : p ∈ c) by (destruct c; simplify_eq/=; set_solver).
  assert (Hec : e ∈ c) by (by apply last_Some_elem_of).
  assert (b ≠ e ∧ b ≠ p) as [Hbe Hbp] by (split; intros ->; done).
  assert (∃ xp, h1 !! p = Some xp ∧ payload xp = payload x) as (xp & Hxp & Pxp).
  { unfold h1. destruct (decide (e = p)) as [->|]; [|rewrite lookup_insert_ne by done; eauto].
    rewrite lookup_insert_eq. simplify_eq. eauto. }
  exists xp. split; [done|]. cbv zeta. set (h2 := <[p := _]> h1). split.
  - exists (xp <| chain_end := Some b |>), (next y). rewrite last_snoc. split_and!.
    + destruct c; simplify_eq/=. done.
    + apply lookup_insert_eq.
    + done.
    + destruct c as [|e' c0 _] using rev_ind; [done|]. rewrite last_snoc in He. injection He as ->.
      apply NoDup_app in Hnd as (_ & Hec0 & _). apply lseg_app. exists (Some b). split.
      * eapply lseg_insert_same; [exact Hxp|done|]. eapply lseg_relink; [|exact Hseg|done].
        intros Hin. apply (Hec0 e Hin). set_solver.
      * cbn [lseg]. split; [done|]. exists y. split; [|done]. unfold h2, h1. by rewrite !lookup_insert_ne.
    + apply NoDup_app. split_and!; [done|set_solver|apply NoDup_singleton].
  - rewrite chain_bytes_app. f_equal.
    + apply chain_bytes_frame. intros a Ha. unfold h2. destruct (decide (p = a)) as [<-|].
      { rewrite lookup_insert_eq, Hx. cbn. by f_equal. }
      rewrite lookup_insert_ne by done. unfold h1. destruct (decide (e = a)) as [<-|].
      { by rewrite lookup_insert_eq, Hxe. }
      by rewrite lookup_insert_ne.
    + unfold chain_bytes. cbn. unfold h2, h1. rewrite !lookup_insert_ne, Hy by done. cbn. by rewrite app_nil_r.
Qed.
End chain.

(** The buffers [c] are the collected chain of device [d], with the data [bytes]. *)
Definition collected (h : gmap nat rtskb) (d : rtcfg_device) (c : list nat) (bytes : list Z) : Prop :=
  match c with
  | [] => clt_stage2_chain d = None
  | p :: _ => clt_stage2_chain d = Some p ∧ is_chain h p c
  end ∧ chain_bytes h c = bytes.

(** A waiting ANNOUNCE command. *)
Definition announce_call (m : gmap nat rtcfg_cmd) (a : nat) : Prop :=
  ∃ cmd fl br size b, m !! a = Some cmd ∧ cmd_event cmd = RTCFG_CMD_ANNOUNCE ∧
                      cmd_args_of cmd = Args_announce fl br size b.

Section queue_frag.
Implicit Types (s : cfgstate) (d : rtcfg_device).

(** Without data every waiting call is completed with 0. *)
Lemma stage_2_calls_none i l : ∀ fuel s d,
  device s !! i = Some d → event_calls d = l → clt_stage2_chain d = None → (length l < fuel)%nat →
  (∀ a, a ∈ l → announce_call (calls s) a) →
  wp (stage_2_calls fuel (Z.of_nat i))
     (λ _ s', s' = (with_cfgdev s i (d <| event_calls := [] |>))
                   <| completed := completed s ++ ((λ a, (a, 0)) <$> l) |>) s.
Proof.
  induction l as [|a l IH]; intros fuel s d Hd Hl Hch Hf Hc; (destruct fuel as [|fuel]; [simpl in Hf; lia|]);
    cbn [stage_2_calls]; unfold rtcfg_dequeue_blocking_call; apply wp_bind, wp_bind;
    (eapply wp_cfgdev_load; [done|]); rewrite Hl.
  - wp_run. rewrite app_nil_r. unfold with_cfgdev. rewrite list_insert_id; [by destruct s|].
    rewrite Hd. f_equal. destruct d. cbn in *. by subst.
  - destruct (Hc a) as (cm & fl & br & size & b & Hcm & Hev & Harg); [set_solver|].
    apply wp_bind. eapply wp_cfgdev_upd; [done|]. apply wp_ret, wp_bind. eapply wp_call_load; [done|].
    apply wp_bind. eapply wp_cfgdev_load; [by apply (with_cfgdev_lookup s i _ d)|].
    change (clt_stage2_chain (d <| event_calls := l |>)) with (clt_stage2_chain d). rewrite Hch.
    apply wp_bind, wp_ret. rewrite decide_True by done. apply wp_bind, wp_modify.
    eapply wp_mono; [|eapply (IH fuel _ (d <| event_calls := l |>))].
    + cbn beta. intros _ s' ->. destruct s. unfold with_cfgdev, upd. cbn.
      f_equal; [by rewrite list_insert_insert_eq|]. by rewrite <-app_assoc.
    + by apply (with_cfgdev_lookup s i _ d).
    + done.
    + done.
    + simpl in Hf. lia.
    + intros b' Hb'. apply Hc. set_solver.
Qed.

(** The first waiting call takes the chain. *)
Lemma stage_2_calls_first i a l p fuel s d :
  device s !! i = Some d → event_calls d = a :: l → clt_stage2_chain d = Some p → (S (length l) < fuel)%nat →
  (∀ b, b ∈ a :: l → announce_call (calls s) b) →
  wp (stage_2_calls fuel (Z.of_nat i))
     (λ _ s', ∃ cmd fl br size, s' = (with_cfgdev s i (d <| event_calls := [] |> <| clt_stage2_chain := None |>))
        <| calls := <[a := cmd <| cmd_args_of := Args_announce fl br size (Some p) |>]> (calls s) |>
        <| completed := completed s ++ (a, s32 (clt_chain_len d)) :: ((λ a, (a, 0)) <$> l) |>) s.
Proof.
  intros Hd Hl Hch Hf Hc. destruct fuel as [|fuel]; [lia|]. cbn [stage_2_calls].
  destruct (Hc a) as (cm & fl & br & size & b & Hcm & Hev & Harg); [set_solver|].
  unfold rtcfg_dequeue_blocking_call; apply wp_bind, wp_bind; (eapply wp_cfgdev_load; [done|]); rewrite Hl.
  apply wp_bind. eapply wp_cfgdev_upd; [done|]. apply wp_ret, wp_bind. eapply wp_call_load; [done|].
  apply wp_bind. eapply wp_cfgdev_load; [by apply (with_cfgdev_lookup s i _ d)|].
  change (clt_stage2_chain (d <| event_calls := l |>)) with (clt_stage2_chain d). rewrite Hch, Harg.
  apply wp_bind, wp_bind. eapply wp_call_set_args; [done|]. apply wp_bind.
  eapply wp_cfgdev_upd; [by apply (with_cfgdev_lookup s i _ d)|]. apply wp_ret. rewrite decide_True by done.
  apply wp_bind, wp_modify.
  eapply wp_mono; [|eapply (stage_2_calls_none i l fuel _ (d <| event_calls := l |> <| clt_stage2_chain := None |>))].
  - cbn beta. intros _ s' ->. exists cm, fl, br, size. destruct s. unfold with_cfgdev, upd. cbn.
    f_equal; [by rewrite !list_insert_insert_eq|]. by rewrite <-app_assoc.
  - cbn. rewrite list_insert_insert_eq. apply list_lookup_insert_eq. by eapply lookup_lt_Some.
  - done.
  - done.
  - lia.
  - intros b' Hb'. cbn. destruct (Hc b') as (cm' & Hrest); [set_solver|]. unfold announce_call.
    destruct (decide (a = b')) as [<-|].
    + rewrite lookup_insert_eq. by repeat eexists.
    + rewrite lookup_insert_ne by done. by exists cm'.
Qed.

(** The state with the buffers [h] in it. *)
Definition with_skbs s (h : gmap nat rtskb) : cfgstate := with_kern s ((kern_of s) <| skbs := h |>).
Lemma with_skbs_twice s h h' : with_skbs (with_skbs s h) h' = with_skbs s h'.
Proof. by destruct s as [[[]]]. Qed.
Lemma wp_in_k_skb_upd b f x (Q : () → cfgstate → Prop) s :
  skbs (kern_of s) !! b = Some x → Q () (with_skbs s (<[b := f x]> (skbs (kern_of s)))) →
  wp (in_k (skb_upd b f)) Q s.
Proof. intros Hx HQ. apply wp_in_k. by eapply wp_skb_upd. Qed.

(** The new buffer becomes the last of the chain. *)
Lemma link_run i s d c bytes skb y :
  device s !! i = Some d → collected (skbs (kern_of s)) d c bytes → skb ∉ c →
  skbs (kern_of s) !! skb = Some y → chain_end y = Some skb →
  wp (match clt_stage2_chain d with
      | None => cfgdev_upd (Z.of_nat i) (λ d, d <| clt_stage2_chain := Some skb |>)
      | Some h =>
          X ← in_k (skb_load h);
          e ← deref (chain_end X);
          in_k (skb_upd e (λ x, x <| next := Some skb |>));;
          in_k (skb_upd h (λ x, x <| chain_end := Some skb |>))
      end)
     (λ _ s', ∃ h p, s' = with_cfgdev (with_skbs s h) i (d <| clt_stage2_chain := Some p |>) ∧
        head (c ++ [skb]) = Some p ∧ is_chain h p (c ++ [skb]) ∧
        chain_bytes h (c ++ [skb]) = bytes ++ payload y) s.
Proof.
  intros Hd [Hc Hb] Hnin Hy Hce. destruct c as [|p c].
  - rewrite Hc. eapply wp_cfgdev_upd; [done|]. exists (skbs (kern_of s)), skb.
    split_and!; [by destruct s as [[[]]]|done|by eapply is_chain_single|].
    subst bytes. unfold chain_bytes. cbn. rewrite Hy. cbn. by rewrite app_nil_r.
  - destruct Hc as [Hh Hch]. rewrite Hh. pose proof Hch as (x & r & _ & Hx & Hcx & Hseg & _).
    destruct (last (p :: c)) as [e|] eqn:He; [|by apply last_None in He].
    destruct (lseg_lookup _ _ _ _ _ e Hseg) as [xe Hxe]; [by apply last_Some_elem_of|].
    destruct (chain_extend _ _ _ _ _ skb y Hch He Hnin Hxe Hy) as (xp & Hxp & Hch' & Hb'). cbv zeta in Hch', Hb'.
    apply wp_bind. eapply wp_in_k_skb; [done|]. rewrite Hcx. apply wp_bind. eapply wp_deref; [done|].
    apply wp_bind. eapply wp_in_k_skb_upd; [done|]. eapply wp_in_k_skb_upd; [exact Hxp|].
    rewrite with_skbs_twice. eexists _, p. split_and!; [|done|exact Hch'|by rewrite Hb', Hb].
    destruct s as [[[]]]. unfold with_cfgdev, with_skbs, with_kern, upd. cbn in *. f_equal.
    rewrite list_insert_id; [done|]. rewrite Hd. f_equal. destruct d. cbn in *. by rewrite Hh.
Qed.

(** Whether the frame with [n] bytes ends a burst or the data. *)
Definition burst_ends d (n : Z) : bool :=
  (clt_cfg_len d <=? clt_cfg_offs d + n) || (u32 (clt_packet_counter d + 1) =? dev_burstrate d).

Lemma collected_insert h d c bytes b y : collected h d c bytes → b ∉ c → collected (<[b := y]> h) d c bytes.
Proof.
  intros [Hc Hb] Hn. split.
  - destruct c as [|p c]; [done|]. destruct Hc as [Hp (x & r & Hh & Hx & Hce & Hseg & Hnd)]. split; [done|].
    exists x, r. split_and!; try done; [rewrite lookup_insert_ne; [done|set_solver]|by apply lseg_insert_ne].
  - rewrite <-Hb. apply chain_bytes_frame. intros a Ha. by rewrite lookup_insert_ne by set_solver.
Qed.
Lemma trim_end n x b : chain_end x = Some b → chain_end (rtskb_trim n x) = Some b.
Proof. unfold rtskb_trim. by destruct (n <? len x). Qed.

(** The result of a completed burst, the chain of [p] being [c] with [bytes]. *)
Definition burst_done s (calls0 : list nat) (c : list nat) (bytes : list Z) s' d' : Prop :=
  clt_chain_len d' = 0 ∧ clt_packet_counter d' = 0 ∧
  match calls0 with
  | [] => collected (skbs (kern_of s')) d' c bytes ∧ completed s' = completed s
  | a :: l => event_calls d' = [] ∧ clt_stage2_chain d' = None ∧
      completed s' = completed s ++ (a, Z.of_nat (length bytes)) :: ((λ b, (b, 0)) <$> l) ∧
      ∃ p cmd fl br size, calls s' !! a = Some (cmd <| cmd_args_of := Args_announce fl br size (Some p) |>) ∧
        is_chain (skbs (kern_of s')) p c ∧ chain_bytes (skbs (kern_of s')) c = bytes
  end.
Lemma burst_run i s d c bytes p :
  device s !! i = Some d → clt_stage2_chain d = Some p → head c = Some p → is_chain (skbs (kern_of s)) p c →
  chain_bytes (skbs (kern_of s)) c = bytes → clt_chain_len d = Z.of_nat (length bytes) →
  Z.of_nat (length bytes) < 2 ^ 31 → (∀ a, a ∈ event_calls d → announce_call (calls s) a) →
  wp (stage_2_calls (S (length (event_calls d))) (Z.of_nat i);;
      cfgdev_upd (Z.of_nat i) (λ d, d <| clt_packet_counter := 0 |> <| clt_chain_len := 0 |>))
     (λ _ s', ∃ d', device s' !! i = Some d' ∧ clt_cfg_offs d' = clt_cfg_offs d ∧
                    burst_done s (event_calls d) c bytes s' d') s.
Proof.
  intros Hd Hp Hh Hch Hb Hlen Hlt Hcalls. pose proof (lookup_lt_Some _ _ _ Hd) as Hi. apply wp_bind.
  assert (Es : s32 (clt_chain_len d) = Z.of_nat (length bytes)).
  { rewrite Hlen. unfold s32. rewrite Z.mod_small; lia. }
  destruct (event_calls d) as [|a l] eqn:El.
  - cbn [length stage_2_calls]. unfold rtcfg_dequeue_blocking_call. apply wp_bind, wp_bind.
    eapply wp_cfgdev_load; [done|]. rewrite El. apply wp_ret, wp_ret. eapply wp_cfgdev_upd; [done|].
    eexists. split; [by apply (with_cfgdev_lookup s i _ d)|]. split; [done|].
    split; [done|]. split; [done|]. split; [|done]. split; [|done]. destruct c; simplify_eq/=. done.
  - eapply wp_mono; [|eapply (stage_2_calls_first i a l p); [done..| |done]; cbn; lia].
    cbn beta. intros _ s' (cmd & fl & br & size & ->).
    eapply wp_cfgdev_upd; [cbn; by apply list_lookup_insert_eq|].
    eexists. split; [cbn; apply list_lookup_insert_eq; by rewrite length_insert|]. split; [done|].
    split; [done|]. split; [done|]. split; [done|]. split; [done|]. split; [cbn; by rewrite Es|]. exists p, cmd, fl, br, size.
    split_and!; [cbn; apply lookup_insert_eq|done..].
Qed.

(** one fragment of the stage 2 data.  [rtcfg_client_queue_frag] appends the
    fragment to the collected chain and advances [cfg_offs].  When neither the
    burst nor the data is complete it only counts.  Otherwise the first waiting
    ANNOUNCE command is completed with the number of bytes collected and gets the
    chain, whose buffers hold exactly these bytes in order; the other waiting
    commands are completed with 0.  If no command waits, the chain is kept, but its
    length is forgotten: [chain_len] is 0 then. *)
Theorem rtcfg_client_queue_frag_correct i s d c bytes skb x n :
  device s !! i = Some d → collected (skbs (kern_of s)) d c bytes → clt_chain_len d = Z.of_nat (length bytes) →
  skb ∉ c → skbs (kern_of s) !! skb = Some x → chain_end x = Some skb → wf_rtskb x → 0 ≤ n ≤ len x →
  0 ≤ clt_cfg_offs d → clt_cfg_offs d + n < 2 ^ 32 → Z.of_nat (length bytes) + n < 2 ^ 31 →
  (∀ a, a ∈ event_calls d → announce_call (calls s) a) →
  let bytes' := bytes ++ take (Z.to_nat n) (payload x) in
  ∃ s' d', rtcfg_client_queue_frag (Z.of_nat i) skb n s = Some ((), s') ∧ device s' !! i = Some d' ∧
    clt_cfg_offs d' = clt_cfg_offs d + n ∧
    (if burst_ends d n then burst_done s (event_calls d) (c ++ [skb]) bytes' s' d'
     else collected (skbs (kern_of s')) d' (c ++ [skb]) bytes' ∧ clt_chain_len d' = Z.of_nat (length bytes') ∧
          event_calls d' = event_calls d ∧ completed s' = completed s).
Proof.
  intros Hd Hcol Hlen Hnin Hx Hce Hwf Hn Ho Hon Hln Hcalls bytes'.
  pose proof (length_payload x Hwf) as Hpl.
  assert (Hl' : Z.of_nat (length bytes') = Z.of_nat (length bytes) + n).
  { unfold bytes'. rewrite length_app, length_take. lia. }
  enough (wp (rtcfg_client_queue_frag (Z.of_nat i) skb n)
    (λ _ s', ∃ d', device s' !! i = Some d' ∧ clt_cfg_offs d' = clt_cfg_offs d + n ∧
      (if burst_ends d n then burst_done s (event_calls d) (c ++ [skb]) bytes' s' d'
       else collected (skbs (kern_of s')) d' (c ++ [skb]) bytes' ∧ clt_chain_len d' = Z.of_nat (length bytes') ∧
            event_calls d' = event_calls d ∧ completed s' = completed s)) s) as Hwp.
  { destruct (wp_elim _ _ _ Hwp) as ([] & s' & E & d' & Hres). eauto. }
  unfold rtcfg_client_queue_frag. apply wp_bind. eapply wp_in_k_skb_upd; [done|].
  apply wp_bind. eapply wp_cfgdev_load; [done|]. apply wp_bind.
  eapply wp_mono; [|eapply (link_run i _ d c bytes skb (rtskb_trim n x)); [done| |done| |by apply trim_end]].
  2: { destruct s as [[[]]]. by apply collected_insert. }
  2: { destruct s as [[[]]]. apply lookup_insert_eq. }
  rewrite trim_payload by done. fold bytes'. cbn beta.
  intros [] s1 (h & p & -> & Hh & Hch & Hb). rewrite with_skbs_twice. pose proof (lookup_lt_Some _ _ _ Hd) as Hi.
  assert (Hdev : ∀ d1, device (with_cfgdev (with_skbs s h) i d1) !! i = Some d1) by (intros; by apply list_lookup_insert_eq).
  assert (Hk : ∀ d1, skbs (kern_of (with_cfgdev (with_skbs s h) i d1)) = h) by (by intros; destruct s as [[[]]]).
  apply wp_bind. eapply wp_cfgdev_upd; [apply Hdev|]. rewrite with_cfgdev_twice.
  change (clt_cfg_offs (d <| clt_stage2_chain := Some p |>)) with (clt_cfg_offs d).
  change (clt_chain_len (d <| clt_stage2_chain := Some p |>)) with (clt_chain_len d).
  rewrite !u32_id by (unfold is_u32; lia). rewrite Hlen, <-Hl'.
  set (d2 := d <| clt_stage2_chain := Some p |> <| clt_cfg_offs := _ |> <| clt_chain_len := _ |>).
  apply wp_bind. eapply wp_cfgdev_load; [apply Hdev|].
  assert (Hend : ∀ d3, clt_stage2_chain d3 = Some p → clt_chain_len d3 = clt_chain_len d2 →
    clt_cfg_offs d3 = clt_cfg_offs d2 → event_calls d3 = event_calls d →
    wp (stage_2_calls (S (length (event_calls d2))) (Z.of_nat i);;
        cfgdev_upd (Z.of_nat i) (λ d, d <| clt_packet_counter := 0 |> <| clt_chain_len := 0 |>))
       (λ _ s', ∃ d', device s' !! i = Some d' ∧ clt_cfg_offs d' = clt_cfg_offs d + n ∧
          burst_done s (event_calls d) (c ++ [skb]) bytes' s' d') (with_cfgdev (with_skbs s h) i d3)).
  { intros d3 E1 E2 E3 E4. change (event_calls d2) with (event_calls d). rewrite <-E4.
    eapply wp_mono; [|eapply (burst_run i _ d3 (c ++ [skb]) bytes' p); rewrite ?Hk; try done; [lia|by rewrite E4]].
    cbn beta. intros _ s' (d' & H1 & H2 & H3). exists d'. split_and!; [done|by rewrite H2, E3|exact H3]. }
  unfold burst_ends. change (clt_cfg_len d2) with (clt_cfg_len d). change (clt_cfg_offs d2) with (clt_cfg_offs d + n).
  change (clt_packet_counter d2) with (clt_packet_counter d). change (dev_burstrate d2) with (dev_burstrate d).
  apply wp_bind. destruct (clt_cfg_len d <=? clt_cfg_offs d + n); cbn [orb].
  - apply wp_ret. cbn [when]. by apply Hend.
  - apply wp_bind. eapply wp_cfgdev_upd; [apply Hdev|]. rewrite with_cfgdev_twice. apply wp_ret.
    destruct (u32 (clt_packet_counter d + 1) =? dev_burstrate d); cbn [when]; [by apply Hend|]. apply wp_ret.
    eexists. split; [apply Hdev|]. split_and!; try done. rewrite Hk. split; [|done].
    destruct (c ++ [skb]); simplify_eq/=. done.
Qed.
End queue_frag.
