(* ===== verification/Rtpc.v ===== *)
(** * Procedure calls into the real-time domain (stack/rtnet_rtpc.c)

    A task outside the real-time domain dispatches a call and sleeps; the dispatch task
    runs its procedure, which may leave the call pending; whoever completes the call
    queues it for a signal handler, which wakes the dispatcher.  The call object is
    shared by both sides and released by the last of them.  The functions work on the
    shared memory one after the other as the locks order them; [rtpc_step] is their
    interleaving, with the waiting dispatchers and the pending procedures as its
    threads. *)
From S2P Require Import Prelude.

Definition CALL_PENDING := 1000.

Section rtpc.
(** The private data of calls. *)
Context {P : Type}.

(** A call; [rc_proc] identifies its procedure. *)
Record rt_proc_call := mk_call {
  rc_processed : Z;
  rc_proc : nat;
  rc_result : Z;
  rc_ref_count : Z;
  rc_cleanup_handler : bool;
  rc_priv_data : P;
}.
#[local] Instance call_eta : Settable rt_proc_call := λ r,
  mk_call (rc_processed r) (rc_proc r) (rc_result r) (rc_ref_count r) (rc_cleanup_handler r) (rc_priv_data r).

(** The calls in memory, the addresses [kmalloc] will hand out, the two lists, and the
    private data the cleanup handlers were called with so far. *)
Record rtpc := mk_rtpc {
  calls : gmap nat rt_proc_call;
  call_mem : list nat;
  pending_calls : list nat;
  processed_calls : list nat;
  cleanups : list P;
}.
#[local] Instance rtpc_eta : Settable rtpc := λ r,
  mk_rtpc (calls r) (call_mem r) (pending_calls r) (processed_calls r) (cleanups r).

(** The procedures: from the private data to a result and new private data. *)
Context (run_proc : nat → P → Z * P).

Definition call_load (c : nat) : M rtpc rt_proc_call := m ← gets calls; deref (m !! c).
Definition call_upd (c : nat) (f : rt_proc_call → rt_proc_call) : M rtpc () :=
  x ← call_load c; modify (λ s, s <| calls := <[c := f x]> (calls s) |>).

(** [if (atomic_dec_and_test(&call->ref_count)) { .. kfree(call); }] *)
Definition rtpc_put (call : nat) : M rtpc () :=
  x ← call_load call;
  let n := rc_ref_count x - 1 in
  call_upd call (λ x, x <| rc_ref_count := n |>);;
  when (n =? 0)
    (when (rc_cleanup_handler x) (modify (λ s, s <| cleanups := cleanups s ++ [rc_priv_data x] |>));;
     modify (λ s, s <| calls := delete call (calls s) |> <| call_mem := call_mem s ++ [call] |>)).

(** [rtnet_rtpc_dispatch_call] up to the point where it waits.  Without memory it reads
    the cleanup handler through the NULL pointer. *)
Definition dispatch_start (proc : nat) (priv_data : P) (cleanup_handler : bool) : M rtpc nat :=
  l ← gets call_mem;
  match l with
  | [] => ub
  | call :: l =>
      modify (λ s, s <| call_mem := l |>
                     <| calls := <[call := mk_call 0 proc 0 2 cleanup_handler priv_data]> (calls s) |>);;
      modify (λ s, s <| pending_calls := pending_calls s ++ [call] |>);;
      mret call
  end.
(** The rest of it; [ret] is the result of the wait. *)
Definition dispatch_finish (call : nat) (ret : Z) (copy_back : option (rt_proc_call → rt_proc_call)) : M rtpc Z :=
  ret ← (if 0 <=? ret then
           match copy_back with Some f => call_upd call f | None => mret () end;;
           x ← call_load call; mret (rc_result x)
         else mret ret);
  rtpc_put call;;
  mret ret.
(** The whole function; [wait] is [wait_event_interruptible] or the variant with a
    timeout, during which the other tasks run. *)
Definition rtnet_rtpc_dispatch_call (wait : nat → M rtpc Z) (proc : nat) (priv_data : P)
    (copy_back : option (rt_proc_call → rt_proc_call)) (cleanup_handler : bool) : M rtpc Z :=
  call ← dispatch_start proc priv_data cleanup_handler;
  ret ← wait call;
  dispatch_finish call ret copy_back.

Definition rtpc_dequeue_pending_call : M rtpc (option nat) :=
  l ← gets pending_calls;
  match l with
  | [] => mret None
  | c :: l => modify (λ s, s <| pending_calls := l |>);; mret (Some c)
  end.
Definition rtpc_queue_processed_call (call : nat) : M rtpc () :=
  modify (λ s, s <| processed_calls := processed_calls s ++ [call] |>).
Definition rtpc_dequeue_processed_call : M rtpc (option nat) :=
  l ← gets processed_calls;
  match l with
  | [] => mret None
  | c :: l => modify (λ s, s <| processed_calls := l |>);; mret (Some c)
  end.

Definition rtnet_rtpc_complete_call (call : nat) (result : Z) : M rtpc () :=
  call_upd call (λ x, x <| rc_result := result |>);;
  rtpc_queue_processed_call call.
(** Called outside the real-time domain; [result] is not stored. *)
Definition rtnet_rtpc_complete_call_nrt (call : nat) (result : Z) : M rtpc () :=
  call_upd call (λ x, x <| rc_processed := 1 |>);;
  rtpc_put call.

(** One round of the inner loop of [rtpc_dispatch_handler]: [None] when there is no
    call left, else the call and whether its procedure leaves it pending. *)
Definition rtpc_dispatch_round : M rtpc (option (nat * bool)) :=
  r ← rtpc_dequeue_pending_call;
  match r with
  | None => mret None
  | Some call =>
      x ← call_load call;
      let '(ret, priv) := run_proc (rc_proc x) (rc_priv_data x) in
      call_upd call (λ x, x <| rc_priv_data := priv |>);;
      if negb (ret =? - CALL_PENDING) then rtnet_rtpc_complete_call call ret;; mret (Some (call, false))
      else mret (Some (call, true))
  end.
(** The loop, to be run when the dispatch event is signalled; [fuel] bounds its rounds,
    the result lists the calls left pending. *)
Fixpoint dispatch_rounds (fuel : nat) : M rtpc (list nat) :=
  match fuel with
  | O => ub
  | S fuel =>
      r ← rtpc_dispatch_round;
      match r with
      | None => mret []
      | Some (call, pending) => l ← dispatch_rounds fuel; mret (if pending : bool then call :: l else l)
      end
  end.
Definition rtpc_dispatch_handler : M rtpc (list nat) :=
  fuel ← gets (λ s, S (length (pending_calls s))); dispatch_rounds fuel.

(** One round of [rtpc_signal_handler], and its loop. *)
Definition rtpc_signal_round : M rtpc bool :=
  r ← rtpc_dequeue_processed_call;
  match r with
  | None => mret false
  | Some call =>
      call_upd call (λ x, x <| rc_processed := 1 |>);;
      rtpc_put call;;
      mret true
  end.
Fixpoint signal_rounds (fuel : nat) : M rtpc () :=
  match fuel with
  | O => ub
  | S fuel => r ← rtpc_signal_round; if r : bool then signal_rounds fuel else mret ()
  end.
Definition rtpc_signal_handler : M rtpc () :=
  fuel ← gets (λ s, S (length (processed_calls s))); signal_rounds fuel.

(** ** Interleavings *)

(** The shared memory with the dispatchers that wait ([waiting]), the calls whose
    procedure returned [-CALL_PENDING] and are to be completed ([serving]), and what was
    returned to dispatchers so far. *)
Record config := mk_config {
  sys : rtpc;
  waiting : gset nat;
  serving : list nat;
  returned : list (nat * Z);
}.
Inductive action :=
  | Dispatch (proc : nat) (priv : P) (cleanup : bool)
  | Wakeup (call : nat) (ret : Z)
  | Serve
  | Complete (call : nat) (result : Z)
  | CompleteNrt (call : nat) (result : Z)
  | Signal.

(** When an action can happen: a wait ends with a result that is not negative only when
    the call is processed; only pending calls are completed. *)
Definition enabled (g : config) (a : action) : Prop :=
  match a with
  | Dispatch _ _ _ => call_mem (sys g) ≠ []
  | Wakeup call ret =>
      call ∈ waiting g ∧ (0 ≤ ret → ∃ x, calls (sys g) !! call = Some x ∧ rc_processed x ≠ 0)
  | Serve | Signal => True
  | Complete call _ | CompleteNrt call _ => call ∈ serving g
  end.
Definition remove (c : nat) (l : list nat) : list nat := filter (λ x, x ≠ c) l.
Definition exec (g : config) (a : action) : option config :=
  match a with
  | Dispatch proc priv cleanup =>
      '(c, s) ← dispatch_start proc priv cleanup (sys g);
      Some (mk_config s ({[c]} ∪ waiting g) (serving g) (returned g))
  | Wakeup call ret =>
      '(r, s) ← dispatch_finish call ret None (sys g);
      Some (mk_config s (waiting g ∖ {[call]}) (serving g) (returned g ++ [(call, r)]))
  | Serve =>
      '(r, s) ← rtpc_dispatch_round (sys g);
      Some (mk_config s (waiting g)
              (match r with Some (c, true) => c :: serving g | _ => serving g end) (returned g))
  | Complete call result =>
      '(_, s) ← rtnet_rtpc_complete_call call result (sys g);
      Some (mk_config s (waiting g) (remove call (serving g)) (returned g))
  | CompleteNrt call result =>
      '(_, s) ← rtnet_rtpc_complete_call_nrt call result (sys g);
      Some (mk_config s (waiting g) (remove call (serving g)) (returned g))
  | Signal =>
      '(_, s) ← rtpc_signal_round (sys g);
      Some (mk_config s (waiting g) (serving g) (returned g))
  end.
Inductive rtpc_step (g g' : config) : Prop :=
  | step_action a : enabled g a → exec g a = Some g' → rtpc_step g g'.
Definition initial (g : config) : Prop :=
  calls (sys g) = ∅ ∧ NoDup (call_mem (sys g)) ∧ pending_calls (sys g) = [] ∧ processed_calls (sys g) = [] ∧
  cleanups (sys g) = [] ∧ waiting g = ∅ ∧ serving g = [] ∧ returned g = [].
Definition reachable (g : config) : Prop := ∃ g0, initial g0 ∧ rtc rtpc_step g0 g.

(** ** Ownership *)

Definition count (b : Prop) `{Decision b} : Z := if decide b then 1 else 0.
(** The calls in memory are those some dispatcher in [W] waits for or the real-time side
    owns ([O]); the reference count is the number of the two that hold; a call counts as
    processed once the real-time side is done with it. *)
Record owners (s : rtpc) (W : gset nat) (O : list nat) : Prop := {
  ow_nodup : NoDup O;
  ow_dom : ∀ c, is_Some (calls s !! c) ↔ c ∈ W ∨ c ∈ O;
  ow_ref : ∀ c x, calls s !! c = Some x → rc_ref_count x = count (c ∈ W) + count (c ∈ O);
  ow_processed : ∀ c x, calls s !! c = Some x → rc_processed x = 0 ↔ c ∈ O;
  ow_mem : NoDup (call_mem s) ∧ ∀ c, c ∈ call_mem s → calls s !! c = None;
}.
Definition owned (g : config) : list nat := pending_calls (sys g) ++ serving g ++ processed_calls (sys g).
Definition rtpc_ok (g : config) : Prop := owners (sys g) (waiting g) (owned g).

Lemma owners_perm s W O O' : O ≡ₚ O' → owners s W O → owners s W O'.
Proof.
  intros HP [Hn Hd Hr Hp Hm]. split; [by rewrite <-HP|..|done].
  - intros c. by rewrite <-HP.
  - intros c x Hx. rewrite (Hr c x Hx). unfold count. repeat case_decide; rewrite HP in *; done.
  - intros c x Hx. by rewrite <-HP, (Hp c x Hx).
Qed.
Lemma owners_frame s s' W O : calls s' = calls s → call_mem s' = call_mem s → owners s W O → owners s' W O.
Proof. intros E1 E2 [? ? ? ? ?]. by split; rewrite ?E1, ?E2. Qed.
(** The flag, the result and the private data may change. *)
Lemma owners_upd s W O c x y :
  calls s !! c = Some x → rc_ref_count y = rc_ref_count x → rc_processed y = rc_processed x →
  owners s W O → owners (s <| calls := <[c := y]> (calls s) |>) W O.
Proof.
  intros Hx E1 E2 [Hn Hd Hr Hp [Hm1 Hm2]]. split; cbn; [done|..].
  - intros b. rewrite <-Hd. destruct (decide (c = b)) as [->|]; simplify_map_eq; [split; eauto|done].
  - intros b z [[<- <-]|[? ?]]%lookup_insert_Some; [rewrite E1|]; eauto.
  - intros b z [[<- <-]|[? ?]]%lookup_insert_Some; [rewrite E2|]; eauto.
  - split; [done|]. intros b Hb. rewrite lookup_insert_ne; [by apply Hm2|]. intros ->. specialize (Hm2 _ Hb). congruence.
Qed.

(** The state after [rtpc_put] of the call [c] with contents [x]. *)
Definition put_state (c : nat) (x : rt_proc_call) (s : rtpc) : rtpc :=
  if rc_ref_count x =? 1 then
    s <| calls := delete c (calls s) |> <| call_mem := call_mem s ++ [c] |>
      <| cleanups := cleanups s ++ if rc_cleanup_handler x then [rc_priv_data x] else [] |>
  else s <| calls := <[c := x <| rc_ref_count := rc_ref_count x - 1 |>]> (calls s) |>.
Lemma wp_call_upd c f x Q s :
  calls s !! c = Some x → Q () (s <| calls := <[c := f x]> (calls s) |>) → wp (call_upd c f) Q s.
Proof. intros Hx HQ. unfold call_upd, call_load. wp_run. done. Qed.
Lemma put_run s c x (Q : () → rtpc → Prop) :
  calls s !! c = Some x → Q () (put_state c x s) → wp (rtpc_put c) Q s.
Proof.
  intros Hx HQ. unfold rtpc_put, call_load. wp_run. eapply wp_call_upd; [done|]. unfold put_state in HQ.
  replace (rc_ref_count x - 1 =? 0) with (rc_ref_count x =? 1) by (destruct (Z.eqb_spec (rc_ref_count x) 1); lia).
  destruct (rc_ref_count x =? 1); unfold when; [|by wp_run].
  destruct (rc_cleanup_handler x); wp_run; cbn in *; rewrite delete_insert_eq; [done|].
  rewrite app_nil_r in HQ. by destruct s.
Qed.
Lemma put_state_calls c x s b : b ≠ c → calls (put_state c x s) !! b = calls s !! b.
Proof. intros Hb. unfold put_state. destruct (_ =? _); cbn; simplify_map_eq; done. Qed.
Lemma put_state_lists c x s :
  pending_calls (put_state c x s) = pending_calls s ∧ processed_calls (put_state c x s) = processed_calls s.
Proof. unfold put_state. by destruct (_ =? _). Qed.

(** An owner drops its reference to [c]. *)
Lemma owners_drop s c x W O W' O' p :
  calls s !! c = Some x → owners s W O → NoDup O' →
  (∀ b, b ≠ c → (b ∈ W' ↔ b ∈ W) ∧ (b ∈ O' ↔ b ∈ O)) →
  count (c ∈ W') + count (c ∈ O') = rc_ref_count x - 1 → (p = 0 ↔ c ∈ O') →
  let y := x <| rc_processed := p |> in
  owners (put_state c y (s <| calls := <[c := y]> (calls s) |>)) W' O'.
Proof.
  intros Hx [Hn Hd Hr Hp [Hm1 Hm2]] Hn' Hoth Hcnt Hpc y.
  assert (Hcn : ∀ b, b ≠ c → count (b ∈ W') + count (b ∈ O') = count (b ∈ W) + count (b ∈ O)).
  { intros b Hb. destruct (Hoth b Hb) as [E1 E2]. unfold count. repeat case_decide; tauto. }
  unfold put_state. destruct (Z.eqb_spec (rc_ref_count y) 1) as [E|E]; cbn in E; split; cbn; try done.
  - intros b. destruct (decide (b = c)) as [->|Hb].
    + rewrite lookup_delete_eq. unfold count in Hcnt. split; [by intros []|]. repeat case_decide; try lia. tauto.
    + destruct (Hoth b Hb) as [-> ->]. rewrite <-Hd. by simplify_map_eq.
  - intros b z Hz. rewrite delete_insert_eq in Hz. apply lookup_delete_Some in Hz as [Hb Hz]. rewrite Hcn by done. eauto.
  - intros b z Hz. rewrite delete_insert_eq in Hz. apply lookup_delete_Some in Hz as [Hb Hz].
    destruct (Hoth b ltac:(done)) as [_ ->]. eauto.
  - rewrite delete_insert_eq. split.
    + apply NoDup_app. split_and!; [done| |apply NoDup_singleton]. intros b Hb ->%list_elem_of_singleton.
      rewrite Hm2 in Hx by done. done.
    + intros b [Hb| ->%list_elem_of_singleton]%elem_of_app; [|apply lookup_delete_eq].
      apply lookup_delete_None. right. by apply Hm2.
  - intros b. rewrite insert_insert_eq. destruct (decide (b = c)) as [->|Hb].
    + rewrite lookup_insert_eq. split; [|eauto]. intros _. unfold count in Hcnt.
      pose proof (Hr _ _ Hx) as Hrx. unfold count in Hrx. repeat case_decide; lia || tauto.
    + destruct (Hoth b Hb) as [-> ->]. rewrite <-Hd. by simplify_map_eq.
  - intros b z. rewrite insert_insert_eq. intros [[<- <-]|[Hb Hz]]%lookup_insert_Some; [cbn; lia|].
    rewrite Hcn by done. eauto.
  - intros b z. rewrite insert_insert_eq. intros [[<- <-]|[Hb Hz]]%lookup_insert_Some; [done|].
    destruct (Hoth b ltac:(done)) as [_ ->]. eauto.
  - rewrite insert_insert_eq. split; [done|]. intros b Hb. rewrite lookup_insert_ne; [by apply Hm2|].
    intros ->. rewrite Hm2 in Hx; done.
Qed.

(** The call [c] is completed and its dispatcher waits: the result stays. *)
Definition completed (g : config) (c : nat) (r : Z) : Prop :=
  c ∈ waiting g ∧ c ∉ pending_calls (sys g) ++ serving g ∧ ∃ x, calls (sys g) !! c = Some x ∧ rc_result x = r.
Definition good_step (g : config) (a : action) (g' : config) : Prop :=
  rtpc_ok g' ∧ ∀ c r, completed g c r → (∀ ret, a ≠ Wakeup c ret) → completed g' c r.

Lemma exec_wp {A} (m : M rtpc A) (f : A → rtpc → config) (g : config) (Q : config → Prop) :
  wp m (λ a s, Q (f a s)) (sys g) → ∃ g', ('(a, s) ← m (sys g); Some (f a s)) = Some g' ∧ Q g'.
Proof. intros (a & s & E & HQ)%wp_elim. exists (f a s). by rewrite E. Qed.

Lemma dispatch_step g proc priv cleanup :
  rtpc_ok g → enabled g (Dispatch proc priv cleanup) →
  ∃ g', exec g (Dispatch proc priv cleanup) = Some g' ∧ good_step g (Dispatch proc priv cleanup) g'.
Proof.
  intros [Hn Hd Hr Hp [Hm1 Hm2]] Hen. apply exec_wp. unfold dispatch_start. wp_run. cbn in Hen.
  destruct (call_mem (sys g)) as [|c l] eqn:Em; [done|]. wp_run. cbn.
  assert (Hc : calls (sys g) !! c = None) by (apply Hm2; set_solver).
  assert (Hno : c ∉ waiting g ∧ c ∉ owned g).
  { destruct (Hd c) as [_ Hc']. split; intros Hin; destruct Hc' as [? ?]; try congruence; auto. }
  apply NoDup_cons in Hm1 as [Hcl Hm1]. unfold owned in *. split.
  - unfold rtpc_ok, owned. cbn. apply (owners_perm _ _ (c :: owned g)).
    { unfold owned. by rewrite <-!app_assoc, Permutation_middle. }
    split; cbn.
    + apply NoDup_cons. by split; [apply Hno|].
    + intros b. unfold owned. rewrite lookup_insert_is_Some, elem_of_union, elem_of_singleton, elem_of_cons, Hd.
      destruct (decide (b = c)); [naive_solver|]. split; naive_solver.
    + intros b z [[<- <-]|[Hb Hz]]%lookup_insert_Some; cbn.
      * unfold count. rewrite !decide_True by set_solver. done.
      * rewrite (Hr _ _ Hz). unfold owned, count. repeat case_decide; set_solver.
    + intros b z [[<- <-]|[Hb Hz]]%lookup_insert_Some; cbn; [set_solver|].
      rewrite (Hp _ _ Hz). unfold owned. set_solver.
    + split; [done|]. intros b Hb. rewrite lookup_insert_ne by (intros ->; done). apply Hm2. set_solver.
  - intros b r (Hw & Hnin & x & Hx & Er) _. assert (b ≠ c) by (intros ->; congruence). split_and!; cbn; [set_solver|set_solver|].
    exists x. by rewrite lookup_insert_ne.
Qed.
Lemma put_state_keeps c y s b x :
  b ≠ c ∨ rc_ref_count y ≠ 1 → calls s !! b = Some x → (b = c → x = y) →
  ∃ z, calls (put_state c y s) !! b = Some z ∧ rc_result z = rc_result x.
Proof.
  intros Hor Hx Hy. destruct (decide (b = c)) as [->|]; [|exists x; by rewrite put_state_calls].
  rewrite Hy in * by done. unfold put_state. destruct (Z.eqb_spec (rc_ref_count y) 1); [naive_solver|].
  cbn. rewrite lookup_insert_eq. eauto.
Qed.

(** The real-time side is done with a call. *)
Lemma retire_run s c W O :
  owners s W (c :: O) →
  wp (call_upd c (λ x, x <| rc_processed := 1 |>);; rtpc_put c)
     (λ _ s', owners s' W O ∧ pending_calls s' = pending_calls s ∧ processed_calls s' = processed_calls s ∧
        ∀ b x, b ∈ W → calls s !! b = Some x → ∃ y, calls s' !! b = Some y ∧ rc_result y = rc_result x) s.
Proof.
  intros Ho. destruct (proj2 (ow_dom _ _ _ Ho c)) as [x Hx]; [set_solver|].
  pose proof (ow_nodup _ _ _ Ho) as [Hc Hn]%NoDup_cons.
  assert (Href : rc_ref_count x = count (c ∈ W) + 1).
  { rewrite (ow_ref _ _ _ Ho c x Hx). f_equal. unfold count. rewrite decide_True by set_solver. done. }
  wp_run. eapply wp_call_upd; [done|]. eapply put_run; [apply lookup_insert_eq|]. split_and!.
  - eapply owners_drop; [done|exact Ho|done|set_solver| |split; [done|intros; done]].
    rewrite Href. unfold count at 2. rewrite decide_False by done. lia.
  - by rewrite (proj1 (put_state_lists _ _ _)).
  - by rewrite (proj2 (put_state_lists _ _ _)).
  - intros b z Hb Hz. destruct (decide (b = c)) as [->|Hne].
    + assert (z = x) as -> by congruence. change (rc_result x) with (rc_result (x <| rc_processed := 1 |>)).
      eapply put_state_keeps; [|apply lookup_insert_eq|done].
      right. cbn. rewrite Href. unfold count. rewrite decide_True by done. lia.
    + eapply put_state_keeps; [by left| |done]. cbn. by rewrite lookup_insert_ne.
Qed.

Lemma wakeup_step g c ret :
  rtpc_ok g → enabled g (Wakeup c ret) →
  ∃ g', exec g (Wakeup c ret) = Some g' ∧ good_step g (Wakeup c ret) g' ∧
    (0 ≤ ret → ∃ x, calls (sys g) !! c = Some x ∧ returned g' = returned g ++ [(c, rc_result x)]).
Proof.
  intros Ho [Hw Hret]. destruct (proj2 (ow_dom _ _ _ Ho c)) as [x Hx]; [by left|]. apply exec_wp.
  assert (Hput : ∀ r, (0 ≤ ret → r = rc_result x) → wp (rtpc_put c)
    (λ _ s, good_step g (Wakeup c ret) (mk_config s (waiting g ∖ {[c]}) (serving g) (returned g ++ [(c, r)])) ∧
       (0 ≤ ret → ∃ x, calls (sys g) !! c = Some x ∧ returned g ++ [(c, r)] = returned g ++ [(c, rc_result x)])) (sys g)).
  { intros r Hr. eapply put_run; [done|]. split; [|intros; exists x; by rewrite Hr]. split.
    - unfold rtpc_ok, owned. cbn. rewrite (proj1 (put_state_lists _ _ _)), (proj2 (put_state_lists _ _ _)).
      replace (put_state c x (sys g)) with (let y := x <| rc_processed := rc_processed x |> in
        put_state c y ((sys g) <| calls := <[c := y]> (calls (sys g)) |>)).
      2: { cbn. replace (x <| rc_processed := rc_processed x |>) with x by (by destruct x). rewrite insert_id by done. by destruct (sys g). }
      eapply owners_drop; [done|exact Ho|apply Ho|set_solver| |by apply Ho].
      rewrite (ow_ref _ _ _ Ho c x Hx). unfold owned, count at 1 3. rewrite decide_False, decide_True by set_solver. lia.
    - intros b r' (Hb & Hnin & z & Hz & Er) Hne. assert (b ≠ c) by (intros ->; by eapply Hne).
      split_and!; cbn; [set_solver|by rewrite (proj1 (put_state_lists _ _ _))|]. exists z. by rewrite put_state_calls. }
  unfold dispatch_finish. apply wp_bind. destruct (Z.leb_spec 0 ret); wp_run.
  - unfold call_load. wp_run. by apply Hput.
  - apply Hput. lia.
Qed.

Lemma remove_notin c l : c ∉ l → remove c l = l.
Proof.
  unfold remove. induction l as [|b l IH]; intros Hc; [done|]. rewrite filter_cons, decide_True by set_solver.
  rewrite IH by set_solver. done.
Qed.
Lemma remove_perm c l : NoDup l → c ∈ l → l ≡ₚ c :: remove c l.
Proof.
  unfold remove. induction l as [|b l IH]; intros Hnd Hin; [set_solver|]. apply NoDup_cons in Hnd as [Hb Hnd].
  rewrite filter_cons. case_decide as Hd.
  - rewrite Permutation_swap, <-IH; [done|done|set_solver].
  - assert (b = c) as -> by (by destruct (decide (b = c))). fold (remove c l). by rewrite remove_notin.
Qed.

Lemma complete_step g c r :
  rtpc_ok g → enabled g (Complete c r) →
  ∃ g', exec g (Complete c r) = Some g' ∧ good_step g (Complete c r) g' ∧ (c ∈ waiting g → completed g' c r).
Proof.
  intros Ho Hin. cbn in Hin. apply exec_wp. destruct (proj2 (ow_dom _ _ _ Ho c)) as [x Hx]; [right; unfold owned; set_solver|].
  unfold rtnet_rtpc_complete_call, rtpc_queue_processed_call. wp_run. eapply wp_call_upd; [done|]. wp_run.
  pose proof (ow_nodup _ _ _ Ho) as Hnd. unfold owned in Hnd. apply NoDup_app in Hnd as (N1 & N2 & N3).
  apply NoDup_app in N3 as (N3 & N4 & N5).
  assert (Hperm : owned g ≡ₚ pending_calls (sys g) ++ remove c (serving g) ++ processed_calls (sys g) ++ [c]).
  { unfold owned. f_equiv. rewrite (app_assoc (remove _ _)), <-Permutation_cons_append, app_comm_cons. f_equiv.
    by apply remove_perm. }
  split; [split|].
  - unfold rtpc_ok, owned. cbn. eapply owners_frame; [| |apply (owners_upd (sys g) _ _ c x (x <| rc_result := r |>))]; try done.
    by eapply owners_perm.
  - intros b r' (Hb & Hnin & z & Hz & Er) _. assert (b ≠ c) by set_solver. split_and!; cbn; [done| |].
    + unfold remove. rewrite not_elem_of_app, list_elem_of_filter. set_solver.
    + exists z. by rewrite lookup_insert_ne.
  - intros Hw. split_and!; cbn; [done| |].
    + unfold remove. rewrite not_elem_of_app, list_elem_of_filter. set_solver.
    + eexists. by rewrite lookup_insert_eq.
Qed.
Lemma complete_nrt_step g c r :
  rtpc_ok g → enabled g (CompleteNrt c r) →
  ∃ g', exec g (CompleteNrt c r) = Some g' ∧ good_step g (CompleteNrt c r) g'.
Proof.
  intros Ho Hin. cbn in Hin. apply exec_wp. pose proof (ow_nodup _ _ _ Ho) as Hnd. unfold owned in Hnd.
  apply NoDup_app in Hnd as (N1 & N2 & (N3 & N4 & N5)%NoDup_app).
  eapply wp_mono; [|eapply (retire_run _ _ (waiting g) (pending_calls (sys g) ++ remove c (serving g) ++ processed_calls (sys g))), owners_perm, Ho].
  2: { unfold owned. transitivity (pending_calls (sys g) ++ (c :: remove c (serving g)) ++ processed_calls (sys g)).
    - f_equiv. f_equiv. by apply remove_perm.
    - symmetry. apply Permutation_middle. }
  intros [] s' (Ho' & E1 & E2 & Hres). split.
  - unfold rtpc_ok, owned. cbn. by rewrite E1, E2.
  - intros b r' (Hb & Hnin & z & Hz & Er) _. destruct (Hres b z Hb Hz) as (y & Hy & Ey). split_and!; cbn; [done| |].
    + rewrite E1. unfold remove. rewrite not_elem_of_app, list_elem_of_filter. set_solver.
    + exists y. split; [done|congruence].
Qed.
Lemma signal_step g :
  rtpc_ok g → ∃ g', exec g Signal = Some g' ∧ good_step g Signal g'.
Proof.
  intros Ho. apply exec_wp. unfold rtpc_signal_round, rtpc_dequeue_processed_call. wp_run.
  destruct (processed_calls (sys g)) as [|c l] eqn:El; wp_run.
  { split; [done|]. by intros. }
  apply wp_group.
  eapply wp_mono; [|eapply (retire_run _ _ (waiting g) (pending_calls (sys g) ++ serving g ++ l)), owners_frame, owners_perm, Ho]; try done.
  2: { unfold owned. rewrite El. rewrite !app_assoc. symmetry. apply Permutation_middle. }
  intros [] s' (Ho' & E1 & E2 & Hres). wp_run. split.
  - unfold rtpc_ok, owned. cbn. by rewrite E1, E2.
  - intros b r' (Hb & Hnin & z & Hz & Er) _. destruct (Hres b z Hb Hz) as (y & Hy & Ey). split_and!; cbn; [done|by rewrite E1|].
    exists y. split; [done|congruence].
Qed.
Lemma serve_step g :
  rtpc_ok g → ∃ g', exec g Serve = Some g' ∧ good_step g Serve g'.
Proof.
  intros Ho. apply exec_wp. unfold rtpc_dispatch_round, rtpc_dequeue_pending_call. wp_run.
  destruct (pending_calls (sys g)) as [|c l] eqn:El; wp_run.
  { split; [done|]. by intros. }
  destruct (proj2 (ow_dom _ _ _ Ho c)) as [x Hx]; [right; unfold owned; rewrite El; set_solver|].
  unfold call_load at 1. wp_run. destruct (run_proc (rc_proc x) (rc_priv_data x)) as [ret priv]. wp_run.
  eapply wp_call_upd; [done|]. set (y := x <| rc_priv_data := priv |>).
  pose proof (ow_nodup _ _ _ Ho) as Hnd. unfold owned in Hnd. rewrite El in Hnd. cbn in Hnd. apply NoDup_cons in Hnd as [Hc Hnd].
  destruct (negb _).
  - wp_run. unfold rtnet_rtpc_complete_call, rtpc_queue_processed_call. wp_run. eapply wp_call_upd; [apply lookup_insert_eq|]. wp_run.
    split.
    + unfold rtpc_ok, owned. cbn. rewrite insert_insert_eq. eapply owners_frame; [| |apply (owners_upd (sys g) _ _ c x (y <| rc_result := ret |>))]; try done.
      eapply owners_perm; [|exact Ho]. unfold owned. rewrite El. cbn. rewrite !app_assoc. apply Permutation_cons_append.
    + intros b r' (Hb & Hnin & z & Hz & Er) _. rewrite El in Hnin. assert (b ≠ c) by set_solver. split_and!; cbn; [done|set_solver|].
      exists z. by rewrite insert_insert_eq, lookup_insert_ne.
  - wp_run. split.
    + unfold rtpc_ok, owned. cbn. eapply owners_frame; [| |apply (owners_upd (sys g) _ _ c x y)]; try done.
      eapply owners_perm; [|exact Ho]. unfold owned. rewrite El. cbn. apply Permutation_middle.
    + intros b r' (Hb & Hnin & z & Hz & Er) _. rewrite El in Hnin. assert (b ≠ c) by set_solver. split_and!; cbn; [done|set_solver|].
      exists z. by rewrite lookup_insert_ne.
Qed.

Lemma exec_ok g a : rtpc_ok g → enabled g a → ∃ g', exec g a = Some g' ∧ good_step g a g'.
Proof.
  intros Ho Hen. destruct a.
  - by apply dispatch_step.
  - destruct (wakeup_step g call ret Ho Hen) as (? & ? & ? & ?); eauto.
  - by apply serve_step.
  - destruct (complete_step g call result Ho Hen) as (? & ? & ? & ?); eauto.
  - by apply complete_nrt_step.
  - by apply signal_step.
Qed.
Lemma reachable_ok g : reachable g → rtpc_ok g.
Proof.
  intros (g0 & (E1 & E2 & E3 & E4 & _ & E5 & E6 & _) & Hr). revert g Hr. apply rtc_ind_r.
  - unfold rtpc_ok, owned. rewrite E3, E4, E5, E6. split; [constructor|..]; rewrite ?E1; try set_solver.
    intros c. rewrite lookup_empty. split; [by intros []|set_solver].
  - intros g1 g2 _ [a Hen Hex] IH. destruct (exec_ok _ _ IH Hen) as (g' & E & Hg & _). by simplify_eq.
Qed.

(** C15: In every reachable state every action that can happen is defined (no side
    uses a call the other has released, no procedure is called for a released call),
    and the calls in memory are exactly those a dispatcher still waits for or the
    real-time side still owns, each with the number of these owners as its reference
    count: nothing is released twice or never. *)
Theorem rtpc_calls_safe g a :
  reachable g → enabled g a →
  (∃ g', exec g a = Some g') ∧
  (∀ c, is_Some (calls (sys g) !! c) ↔ c ∈ waiting g ∨ c ∈ owned g) ∧
  (∀ c x, calls (sys g) !! c = Some x → rc_ref_count x = count (c ∈ waiting g) + count (c ∈ owned g)).
Proof.
  intros Hr Hen. pose proof (reachable_ok g Hr) as Ho. destruct (exec_ok g a Ho Hen) as (g' & E & _).
  split_and!; [by exists g'|apply Ho|apply Ho].
Qed.

(** What the procedure of a call is completed with is what its dispatcher
    returns, whatever other calls do before it runs again. *)
Theorem rtpc_result_delivered g g1 g2 c r ret :
  reachable g → c ∈ waiting g → enabled g (Complete c r) → exec g (Complete c r) = Some g1 →
  rtc (λ g g', ∃ a, (∀ ret, a ≠ Wakeup c ret) ∧ enabled g a ∧ exec g a = Some g') g1 g2 →
  0 ≤ ret → enabled g2 (Wakeup c ret) →
  ∃ g3, exec g2 (Wakeup c ret) = Some g3 ∧ returned g3 = returned g2 ++ [(c, r)] ∧ c ∉ waiting g3.
Proof.
  intros Hr Hw Hen Hex Hsteps Hret Hen2. pose proof (reachable_ok g Hr) as Ho.
  destruct (complete_step g c r Ho Hen) as (g' & E & [Ho1 _] & Hc). simplify_eq. specialize (Hc Hw).
  assert (H2 : rtpc_ok g2 ∧ completed g2 c r).
  { clear -Ho1 Hc Hsteps. induction Hsteps as [|g1 g2 g3 (a & Hne & Hen & Hex) _ IH]; [done|].
    destruct (exec_ok _ _ Ho1 Hen) as (g' & E & Hg & Hk). simplify_eq. apply IH; auto. }
  destruct H2 as [Ho2 (_ & _ & x & Hx & Er)].
  destruct (wakeup_step g2 c ret Ho2 Hen2) as (g3 & E3 & _ & Hret3). exists g3. split; [done|].
  destruct (Hret3 Hret) as (y & Hy & ->). split; [congruence|].
  cbn in E3. destruct (dispatch_finish c ret None (sys g2)) as [[v s]|]; [|done]. cbn in E3. simplify_eq. cbn. set_solver.
Qed.

(** ** The two loops *)

Lemma signal_rounds_run fuel : ∀ s W O,
  (length (processed_calls s) < fuel)%nat → owners s W (processed_calls s ++ O) →
  wp (signal_rounds fuel) (λ _ s', processed_calls s' = [] ∧ pending_calls s' = pending_calls s ∧ owners s' W O) s.
Proof.
  induction fuel as [|fuel IH]; intros s W O Hf Ho; [lia|]. cbn [signal_rounds].
  unfold rtpc_signal_round, rtpc_dequeue_processed_call. wp_run.
  destruct (processed_calls s) as [|c l] eqn:El; wp_run; [done|]. apply wp_group.
  eapply wp_mono; [|eapply (retire_run _ _ W (l ++ O)), owners_frame; [..|exact Ho]]; try done.
  intros [] s' (Ho' & E1 & E2 & _). wp_run. cbn in E1, E2. rewrite <-E1. apply IH; [|by rewrite E2]. rewrite E2. cbn in *. lia.
Qed.
Lemma dispatch_rounds_run fuel : ∀ s W O,
  (length (pending_calls s) < fuel)%nat → owners s W (pending_calls s ++ O) →
  wp (dispatch_rounds fuel)
     (λ l s', pending_calls s' = [] ∧ ∃ l', processed_calls s' = processed_calls s ++ l' ∧
        l ++ l' ≡ₚ pending_calls s ∧ owners s' W (l ++ l' ++ O)) s.
Proof.
  induction fuel as [|fuel IH]; intros s W O Hf Ho; [lia|]. cbn [dispatch_rounds].
  unfold rtpc_dispatch_round, rtpc_dequeue_pending_call. wp_run.
  destruct (pending_calls s) as [|c l] eqn:El; wp_run; [split; [done|]; exists []; by rewrite app_nil_r|].
  destruct (proj2 (ow_dom _ _ _ Ho c)) as [x Hx]; [right; set_solver|]. unfold call_load at 1. wp_run.
  destruct (run_proc (rc_proc x) (rc_priv_data x)) as [ret priv]. wp_run. eapply wp_call_upd; [done|].
  assert (Hrot : owners s W (l ++ c :: O)).
  { eapply owners_perm; [|exact Ho]. apply Permutation_middle. }
  destruct (negb _); wp_run.
  - unfold rtnet_rtpc_complete_call, rtpc_queue_processed_call. wp_run. eapply wp_call_upd; [apply lookup_insert_eq|]. wp_run.
    eapply wp_mono; [|apply (IH _ W (c :: O)); cbn in *; [lia|]].
    + intros l1 s' (E & l2 & E1 & HP & Ho'). wp_run. split; [done|]. exists (c :: l2). cbn in *. rewrite E1, <-app_assoc. split_and!; [done| |].
      * by rewrite <-Permutation_middle, HP.
      * eapply owners_perm; [|exact Ho']. f_equiv. symmetry. apply Permutation_middle.
    + rewrite insert_insert_eq. eapply owners_frame; [| |apply (owners_upd s _ _ c x ((x <| rc_priv_data := priv |>) <| rc_result := ret |>))]; done.
  - eapply wp_mono; [|apply (IH _ W (c :: O)); cbn in *; [lia|]].
    + intros l1 s' (E & l2 & E1 & HP & Ho'). wp_run. split; [done|]. exists l2. cbn in *. split_and!; [done|by rewrite HP|].
      eapply owners_perm; [|exact Ho']. rewrite !app_assoc. symmetry. apply Permutation_middle.
    + eapply owners_frame; [| |apply (owners_upd s _ _ c x (x <| rc_priv_data := priv |>))]; done.
Qed.

(** Both loops end: the dispatch task serves every pending call (each is then
    queued as processed or left pending by its procedure), the signal handler marks
    every queued call as processed, so that no dispatcher waits for one of them any
    longer; ownership of all calls is kept. *)
Theorem rtpc_handlers_drain g :
  reachable g →
  wp rtpc_dispatch_handler
     (λ l s', pending_calls s' = [] ∧ ∃ l', processed_calls s' = processed_calls (sys g) ++ l' ∧
        l ++ l' ≡ₚ pending_calls (sys g) ∧ owners s' (waiting g) (l ++ serving g ++ processed_calls s')) (sys g) ∧
  wp rtpc_signal_handler
     (λ _ s', processed_calls s' = [] ∧ pending_calls s' = pending_calls (sys g) ∧
        ∀ c, c ∈ waiting g → c ∈ processed_calls (sys g) → ∃ x, calls s' !! c = Some x ∧ rc_processed x ≠ 0) (sys g).
Proof.
  intros Hr. pose proof (reachable_ok g Hr) as Ho. split.
  - unfold rtpc_dispatch_handler. wp_run. eapply wp_mono; [|by eapply (dispatch_rounds_run _ _ _ (serving g ++ processed_calls (sys g))); [lia|]].
    intros l s' (E & l' & E1 & HP & Ho'). split; [done|]. exists l'. split_and!; [done..|]. rewrite E1.
    eapply owners_perm; [|exact Ho']. f_equiv. rewrite (app_assoc (serving g)). apply Permutation_app_comm.
  - unfold rtpc_signal_handler. wp_run.
    eapply wp_mono; [|eapply (signal_rounds_run _ _ (waiting g) (pending_calls (sys g) ++ serving g)); [lia|]].
    + intros [] s' (E1 & E2 & Ho'). split_and!; [done..|]. intros c Hw Hc.
      destruct (proj2 (ow_dom _ _ _ Ho' c)) as [x Hx]; [by left|]. exists x. split; [done|].
      intros Hp%(ow_processed _ _ _ Ho' _ _ Hx). pose proof (ow_nodup _ _ _ Ho) as Hnd. unfold owned in Hnd.
      rewrite app_assoc in Hnd. apply NoDup_app in Hnd as (_ & Hd & _). by eapply Hd.
    + eapply owners_perm; [|exact Ho]. unfold owned. rewrite app_assoc. apply Permutation_app_comm.
Qed.

(** Without memory for a call the error path reads through the NULL pointer. *)
Lemma dispatch_no_memory wait proc priv cb cleanup s :
  call_mem s = [] → rtnet_rtpc_dispatch_call wait proc priv cb cleanup s = None.
Proof. intros E. unfold rtnet_rtpc_dispatch_call, dispatch_start, mbind, M_bind. cbn. by rewrite E. Qed.
End rtpc.
