(* ===== verification/Rtmac.v ===== *)
(** * RTmac (stack/rtmac): framing, dispatch, the NoMAC discipline and virtual NICs

    The RTmac header in front of control frames of a discipline and of tunnelled Linux
    frames (stack/include/rtmac/rtmac_proto.h), reception (rtmac_proto.c), the
    discipline that sends at once (nomac/nomac_proto.c), and the virtual network
    interface through which Linux sends over the discipline (rtmac_vnic.c). *)
From S2P Require Import Prelude State RtskbQueue Rtskb RtskbData Rtdev Eth Route RouteHost RouteOps IpFragment Socket IpOutput IpInput.

Definition RTMAC_VERSION := 2.
Definition ETH_RTMAC := 36897.
Definition RTMAC_FLAG_TUNNEL := 1.
(** [sizeof(struct rtmac_hdr)] *)
Definition RTMAC_HLEN := 4.
Definition RTSKB_CAP_RTMAC_STAMP := 2.
Definition NETDEV_TX_OK := 0.
Definition NETDEV_TX_BUSY := 1.

Section frames.
Context `{Config}.
Context (hard_header : nat → option (nat → Z → list Z → list Z → Z → M kstate Z)).
Context (drv_xmit : nat → nat → M kstate Z).

Definition rtmac_header (type flags : Z) : list Z := be16 type ++ [RTMAC_VERSION; u8 flags].

Definition rtmac_add_header (d : nat) (daddr : list Z) (skb : nat) (type flags : Z) : M kstate Z :=
  x ← skb_load skb;
  let '(hdr, x) := rtskb_push RTMAC_HLEN x in
  skb_store skb x;;
  skb_write skb hdr (rtmac_header type flags);;
  skb_upd skb (λ x, x <| rtdev := Some d |>);;
  D ← dev_load d;
  match hard_header d with
  | None => mret 0
  | Some f =>
      x ← skb_load skb;
      r ← f skb ETH_RTMAC daddr (dev_addr D) (len x);
      mret (if r <? 0 then -1 else 0)
  end.

(** The driver's transmit function is called directly, past the hook of the device. *)
Definition rtmac_xmit (skb : nat) : M kstate Z :=
  x ← skb_load skb;
  d ← deref (rtdev x);
  dev_load d;;
  modify (λ s, s <| xmit_log := xmit_log s ++ [(d, skb, payload x)] |>);;
  ret ← drv_xmit skb d;
  when (negb (ret =? 0)) (kfree_rtskb (Some skb));;
  mret ret.

(** With RTcap, the time at which a packet reaches the discipline. *)
Definition rtcap_mark_rtmac_enqueue (now : Z) (skb : nat) : M kstate () :=
  when CONFIG_RTNET_ADDON_RTCAP
    (skb_upd skb (λ x, x <| cap_flags := Z.lor (cap_flags x) RTSKB_CAP_RTMAC_STAMP |>
                         <| cap_rtmac_stamp := now |>)).

(** ** NoMAC *)

(** [now] is the clock, [rt] whether the caller is in the real-time domain. *)
Definition nomac_rt_packet_tx (now : Z) (rtskb : nat) : M kstate Z :=
  rtcap_mark_rtmac_enqueue now rtskb;;
  rtmac_xmit rtskb.

Definition nomac_nrt_packet_tx (nrt_rtskb_queue : nat) (now : Z) (rt : bool) (rtskb : nat) : M kstate Z :=
  rtcap_mark_rtmac_enqueue now rtskb;;
  if negb rt then rtskb_queue_tail nrt_rtskb_queue rtskb;; mret 0
  else rtmac_xmit rtskb.

(** The inner loop of [nrt_xmit_task]. *)
Fixpoint nrt_xmit_loop (fuel : nat) (nrt_rtskb_queue : nat) : M kstate () :=
  match fuel with
  | O => ub
  | S fuel =>
      r ← rtskb_dequeue nrt_rtskb_queue;
      match r with
      | None => mret ()
      | Some rtskb => rtmac_xmit rtskb;; nrt_xmit_loop fuel nrt_rtskb_queue
      end
  end.
Definition nrt_xmit_task (nrt_rtskb_queue : nat) : M kstate () :=
  fuel ← gets (λ s, S (size (skbs s))); nrt_xmit_loop fuel nrt_rtskb_queue.

Definition nomac_packet_rx (rtskb : nat) : M kstate Z := kfree_rtskb (Some rtskb);; mret 0.
End frames.

(** ** Reception *)

(** The part of [struct rtmac_disc] reception uses, over the state [S] of the
    discipline; [disc_type] is in network byte order. *)
Record rtmac_disc (S : Type) := mk_disc { disc_type : Z; packet_rx : nat → M S Z }.
Arguments mk_disc {S} _ _.
Arguments disc_type {S} _.
Arguments packet_rx {S} _ _.

Section proto.
Context `{Config} {S : Type} (kernel : S → kstate) (set_kernel : kstate → S → S).
Definition in_sk {A} : M kstate A → M S A := zoom kernel set_kernel.
(** [rtdev->mac_disc], and [rtmac_vnic_rx]. *)
Context (mac_disc : S → nat → option (rtmac_disc S)) (vnic_rx : nat → Z → M S Z).

Definition rtmac_proto_rx (skb : nat) : M S Z :=
  x ← in_sk (skb_load skb);
  d ← deref (rtdev x);
  disc ← gets (λ s, mac_disc s d);
  match disc with
  | None => in_sk (kfree_rtskb (Some skb));; mret 0
  | Some disc =>
      let hdr := data x in
      in_sk (skb_upd skb (λ x, snd (rtskb_pull RTMAC_HLEN x)));;
      ver ← deref (buf_read x (hdr + 2) 1 ≫= head);
      if negb (ver =? RTMAC_VERSION) then in_sk (kfree_rtskb (Some skb));; mret 0
      else
        flags ← deref (buf_read x (hdr + 3) 1 ≫= head);
        type ← deref (buf_read x hdr 2 ≫= rd16);
        (if negb (Z.land flags RTMAC_FLAG_TUNNEL =? 0) then vnic_rx skb type
         else if disc_type disc =? type then packet_rx disc skb
         else mret 0);;
        mret 0
  end.
End proto.

(** ** Virtual NICs *)

(** The part of [struct rtmac_priv] for the virtual NIC, with the MTU of the Linux
    device; the statistics are Linux' counters. *)
Record vnic_priv := mk_vnic {
  vnic_mtu : Z;
  vnic_skb_pool : nat;
  vnic_max_mtu : Z;
  rx_packets : Z;
  rx_bytes : Z;
  rx_dropped : Z;
  tx_packets : Z;
  tx_bytes : Z;
  tx_dropped : Z;
}.
#[export] Instance vnic_eta : Settable vnic_priv := λ r,
  mk_vnic (vnic_mtu r) (vnic_skb_pool r) (vnic_max_mtu r) (rx_packets r) (rx_bytes r) (rx_dropped r)
    (tx_packets r) (tx_bytes r) (tx_dropped r).

(** [mac_privs] maps a device to its [mac_priv]; [linux_skbs] is the number of buffers
    Linux can still allocate; [netif] the frames handed to Linux so far, with their
    device; [freed_skbs] counts the Linux buffers released. *)
Record vstate := mk_vstate {
  vkern : kstate;
  mac_privs : gmap nat vnic_priv;
  linux_skbs : nat;
  netif : list (nat * list Z);
  freed_skbs : nat;
}.
#[export] Instance vstate_eta : Settable vstate := λ r,
  mk_vstate (vkern r) (mac_privs r) (linux_skbs r) (netif r) (freed_skbs r).

Section vnic.
Context `{Config} (rx_queue : nat).
Context (hard_header : nat → option (nat → Z → list Z → list Z → Z → M kstate Z)).
(** The transmit function of the discipline for packets from outside the real-time
    domain, which may be missing. *)
Context (nrt_packet_tx : option (nat → M kstate Z)).
Definition in_vkern {A} : M kstate A → M vstate A := zoom vkern (λ k s, s <| vkern := k |>).
Definition priv_load (d : nat) : M vstate vnic_priv := m ← gets mac_privs; deref (m !! d).
Definition priv_upd (d : nat) (f : vnic_priv → vnic_priv) : M vstate () :=
  p ← priv_load d; modify (λ s, s <| mac_privs := <[d := f p]> (mac_privs s) |>).

Definition rtmac_vnic_rx (rtskb : nat) (type : Z) : M vstate Z :=
  x ← in_vkern (skb_load rtskb);
  d ← deref (rtdev x);
  priv ← priv_load d;
  e ← in_vkern (rtskb_acquire rtskb (vnic_skb_pool priv));
  if negb (e =? 0) then
    priv_upd d (λ p, p <| rx_dropped := rx_dropped p + 1 |>);;
    in_vkern (kfree_rtskb (Some rtskb));;
    mret (-1)
  else
    in_vkern (skb_upd rtskb (λ x, x <| protocol := type |>));;
    in_vkern (rtdev_reference d);;
    in_vkern (rtskb_queue_tail rx_queue rtskb);;
    mret 0.

(** The Ethernet header [hdr] with another protocol field. *)
Definition patch_proto (hdr proto : list Z) : list Z := take 12 hdr ++ proto ++ drop 14 hdr.

(** One packet of the loop of [rtmac_vnic_signal_handler]. *)
Definition vnic_signal_round (rtskb : nat) : M vstate () :=
  x ← in_vkern (skb_load rtskb);
  d ← deref (rtdev x);
  D ← in_vkern (dev_load d);
  let hdrlen := hard_header_len D in
  n ← gets linux_skbs;
  match n with
  | Datatypes.S n =>
      modify (λ s, s <| linux_skbs := n |>);;
      hdr ← deref (buf_read x (data x - hdrlen - RTMAC_HLEN) hdrlen);
      body ← deref (buf_read x (data x) (len x));
      let frame := patch_proto hdr (wr16 (protocol x)) ++ body in
      priv_load d;;
      in_vkern (kfree_rtskb (Some rtskb));;
      priv_upd d (λ p, p <| rx_packets := rx_packets p + 1 |>
                         <| rx_bytes := rx_bytes p + (Z.of_nat (length frame) - ETH_HLEN) |>);;
      modify (λ s, s <| netif := netif s ++ [(d, frame)] |>)
  | O => in_vkern (kfree_rtskb (Some rtskb))
  end;;
  in_vkern (rtdev_dereference d).

Fixpoint vnic_signal_loop (fuel : nat) : M vstate () :=
  match fuel with
  | O => ub
  | Datatypes.S fuel =>
      r ← in_vkern (rtskb_dequeue rx_queue);
      match r with
      | None => mret ()
      | Some rtskb => vnic_signal_round rtskb;; vnic_signal_loop fuel
      end
  end.
Definition rtmac_vnic_signal_handler : M vstate () :=
  fuel ← gets (λ s, Datatypes.S (size (skbs (vkern s)))); vnic_signal_loop fuel.

(** [skb] is the frame in a Linux buffer, [vhlen] the header length of the Linux device. *)
Definition rtmac_vnic_xmit (d : nat) (vhlen : Z) (skb : list Z) : M vstate Z :=
  priv ← priv_load d;
  let n := Z.of_nat (length skb) in
  r ← in_vkern (alloc_rtskb (Z.land (u32 (n + RTMAC_HLEN + 15)) (Z.lnot 15)) (vnic_skb_pool priv));
  match r with
  | None => mret NETDEV_TX_BUSY
  | Some rtskb =>
      D ← in_vkern (dev_load d);
      in_vkern (skb_upd rtskb (rtskb_reserve (hard_header_len D + RTMAC_HLEN)));;
      let data_len := n - vhlen in
      x ← in_vkern (skb_load rtskb);
      let '(dst, x) := rtskb_put data_len x in
      in_vkern (skb_store rtskb x);;
      body ← deref (if (0 <=? vhlen) && (vhlen <=? n) then Some (drop (Z.to_nat vhlen) skb) else None);
      in_vkern (skb_write rtskb dst body);;
      h_dest ← deref (mem_read skb 6);
      h_proto ← deref (mem_read (drop 12 skb) 2 ≫= rd_be16);
      res ← in_vkern (rtmac_add_header hard_header d h_dest rtskb h_proto RTMAC_FLAG_TUNNEL);
      (if res <? 0 then
         priv_upd d (λ p, p <| tx_dropped := tx_dropped p + 1 |>);;
         in_vkern (kfree_rtskb (Some rtskb))
       else
         if assert_fails (bool_decide (is_Some nrt_packet_tx)) then in_vkern (kfree_rtskb (Some rtskb))
         else
           tx ← deref nrt_packet_tx;
           res ← in_vkern (tx rtskb);
           if res <? 0 then
             priv_upd d (λ p, p <| tx_dropped := tx_dropped p + 1 |>);;
             in_vkern (kfree_rtskb (Some rtskb))
           else
             priv_upd d (λ p, p <| tx_packets := tx_packets p + 1 |> <| tx_bytes := tx_bytes p + n |>));;
      modify (λ s, s <| freed_skbs := Datatypes.S (freed_skbs s) |>);;
      mret NETDEV_TX_OK
  end.

Definition rtmac_vnic_change_mtu (d : nat) (new_mtu : Z) : M vstate Z :=
  if (new_mtu <? 68) || (1500 - RTMAC_HLEN <? u32 new_mtu) then mret (- EINVAL)
  else priv_upd d (λ p, p <| vnic_mtu := new_mtu |>);; mret 0.

(** [dev_set_mtu] of Linux runs the function above. *)
Definition rtmac_vnic_set_max_mtu (d : nat) (max_mtu : Z) : M vstate () :=
  p ← priv_load d;
  let prev_mtu := vnic_max_mtu p in
  let vmax := u32 (max_mtu - RTMAC_HLEN) in
  priv_upd d (λ p, p <| vnic_max_mtu := vmax |>);;
  when ((vmax <? vnic_mtu p) || (prev_mtu =? vmax)) (rtmac_vnic_change_mtu d (s32 vmax);; mret ()).
End vnic.

(** ** Queues of packets in use *)

Section waits.
Context `{Config}.
Implicit Types (k : kstate) (C : gmap nat (list nat)) (x y : rtskb).

(** The queue [q], which is none of the pools, holds the packets [l]. *)
Definition waits k C (q : nat) (l : list nat) : Prop :=
  C !! q = None ∧ (∃ Q, queues k !! q = Some Q ∧ is_queue (skbs k) Q l) ∧ ∀ b, b ∈ l → in_use C b.
(** Only the links of buffers change. *)
Definition same_packets k k' : Prop :=
  ∀ b x, skbs k !! b = Some x → ∃ y, skbs k' !! b = Some y ∧ y = x <| next := next y |>.

Lemma relinked_packets W k k' : relinked W (skbs k) (skbs k') → same_packets k k'.
Proof.
  intros HR b x Hx. specialize (HR b). rewrite Hx in HR. destruct (skbs k' !! b) as [y|]; [|done]. exists y. by destruct HR.
Qed.
Lemma pools_inv_relink k k' C q Q' W :
  pools_inv k C → C !! q = None → queues k' = <[q := Q']> (queues k) → relinked W (skbs k) (skbs k') →
  (∀ b, b ∈ W → in_use C b) → pools_inv k' C.
Proof.
  intros Hinv Hq Eq HR HW. eapply pools_inv_frame; [exact Hinv|..].
  - intros q' l Hl. destruct (pi_queue _ _ Hinv _ _ Hl) as (Q1 & HQ1 & _). exists Q1, Q1.
    rewrite Eq, lookup_insert_ne by congruence. done.
  - intros q' l b Hl Hb. eapply relinked_out; [exact HR|]. intros HbW. by eapply HW.
Qed.

Lemma pools_inv_log k C lg : pools_inv k C → pools_inv (k <| xmit_log := lg |>) C.
Proof. intros [Hq Hd Hp]. by split. Qed.

Lemma wait_enqueue k C q l a x (Q : () → kstate → Prop) :
  pools_inv k C → waits k C q l → in_use C a → skbs k !! a = Some x → chain_end x = Some a → a ∉ l →
  (∀ k', pools_inv k' C → waits k' C q (l ++ [a]) → same_world k k' → only_queue q k k' → same_packets k k' → Q () k') →
  wp (rtskb_queue_tail q a) Q k.
Proof.
  intros Hinv (Hq & (Q0 & HQ & Hiq) & Hl) Hu Hx He Ha HQ'.
  eapply wp_mono; [|eapply (queue_tail_spec _ _ Q0 l a [a]); [done|done|by eapply is_chain_single|]].
  2: { by intros b ->%list_elem_of_singleton. }
  intros [] k1 (h' & Q1 & -> & Hq' & _ & HR).
  assert (HW : ∀ b, b ∈ l ++ [a] → in_use C b).
  { intros b [Hb| ->%list_elem_of_singleton]%elem_of_app; [by apply Hl|done]. }
  apply HQ'; [|split_and!|by destruct k| |].
  - by eapply (pools_inv_relink k _ C q Q1 (l ++ [a])).
  - done.
  - exists Q1. split; [apply lookup_insert_eq|done].
  - done.
  - intros q' Hne. cbn. by rewrite lookup_insert_ne.
  - by eapply (relinked_packets (l ++ [a])).
Qed.
Lemma wait_dequeue k C q l (Q : option nat → kstate → Prop) :
  pools_inv k C → waits k C q l →
  match l with
  | [] => Q None k
  | a :: l' => ∀ k', pools_inv k' C → waits k' C q l' → same_world k k' → only_queue q k k' → same_packets k k' →
      a ∉ l' → Q (Some a) k'
  end →
  wp (rtskb_dequeue q) Q k.
Proof.
  intros Hinv (Hq & (Q0 & HQ & Hiq) & Hl) HQ'.
  eapply wp_mono; [|by eapply (dequeue_spec _ _ Q0 l)]. intros r k1 Hr.
  destruct l as [|a l]; [by destruct Hr as [-> ->]|]. destruct Hr as (-> & x & Q1 & Hx & -> & Hq' & _).
  pose proof (is_queue_NoDup _ _ _ Hiq) as [Ha _]%NoDup_cons.
  assert (HR : relinked [a] (skbs k) (<[a := x <| next := None |>]> (skbs k))) by (by apply relinked_cut).
  apply HQ'; [|split_and!|by destruct k| | |done].
  - eapply (pools_inv_relink k _ C q Q1 [a]); try done. intros b ->%list_elem_of_singleton. apply Hl. set_solver.
  - done.
  - exists Q1. split; [apply lookup_insert_eq|done].
  - intros b Hb. apply Hl. set_solver.
  - intros q' Hne. cbn. by rewrite lookup_insert_ne.
  - by eapply (relinked_packets [a]).
Qed.
Lemma waits_frame k k' C q l :
  waits k C q l → queues k' !! q = queues k !! q → (∀ b, b ∈ l → skbs k' !! b = skbs k !! b) → waits k' C q l.
Proof.
  intros (Hq & (Q & HQ & [Hl1 Hl2]) & Hu) Eq Es. split_and!; [done| |done]. exists Q. split; [congruence|]. split; [|done].
  eapply lseg_frame; [exact Hl1|]. intros b x Hb Hx. exists x. by rewrite Es.
Qed.
Lemma waits_size k C q l : waits k C q l → (length l ≤ size (skbs k))%nat.
Proof.
  intros (_ & (Q & _ & Hq) & _). apply NoDup_length_size; [by eapply is_queue_NoDup|].
  intros a Ha. destruct Hq as [Hl _]. by eapply lseg_lookup.
Qed.
End waits.

(** ** Frames *)

Section frame_specs.
Context `{Config}.
Context (hard_header : nat → option (nat → Z → list Z → list Z → Z → M kstate Z)).
Context (d : nat) (D : rtnet_device).
Implicit Types (k : kstate) (C : gmap nat (list nat)) (x y z : rtskb).

(** Only the place and the bytes of the packet change. *)
Definition reframed x y : Prop :=
  y = x <| mac_raw := mac_raw y |> <| data := data y |> <| len := len y |> <| buf := buf y |>.
(** The link header [lh] of an RTmac frame to [dst]. *)
Definition mac_link (dst lh : list Z) : Prop :=
  match hard_header d with
  | None => lh = []
  | Some f =>
      ∀ k a x, skbs k !! a = Some x → devs k !! d = Some D → wf_rtskb x → hard_header_len D ≤ headroom x →
      wp (f a ETH_RTMAC dst (dev_addr D) (len x))
         (λ r k', 0 ≤ r ∧ ∃ y, k' = upd_skb a y k ∧ wf_rtskb y ∧ reframed x y ∧
            data y + Z.of_nat (length lh) = data x ∧ payload y = lh ++ payload x) k
  end.
Lemma length_rtmac_header type fl : length (rtmac_header type fl) = 4%nat.
Proof. done. Qed.

Lemma add_header_run k a x dst lh type fl :
  skbs k !! a = Some x → devs k !! d = Some D → wf_rtskb x → 0 ≤ hard_header_len D →
  hard_header_len D + RTMAC_HLEN ≤ headroom x → mac_link dst lh →
  wp (rtmac_add_header hard_header d dst a type fl)
     (λ r k', r = 0 ∧ ∃ y, k' = upd_skb a y k ∧ wf_rtskb y ∧ reframed (x <| rtdev := Some d |>) y ∧
        data y + Z.of_nat (length lh) + 4 = data x ∧ payload y = lh ++ rtmac_header type fl ++ payload x) k.
Proof.
  intros Hx HD Hw Hhl Hh Hlh. unfold RTMAC_HLEN in *.
  destruct (push_ok x 4 Hw ltac:(lia)) as (E & Hw1 & Hp1). unfold rtmac_add_header.
  apply wp_bind. eapply wp_skb_load; [done|]. unfold RTMAC_HLEN. rewrite E in *. cbn [snd] in *.
  set (x1 := x <| data := _ |> <| len := _ |>) in *. apply wp_bind. apply wp_modify. fold (upd_skb a x1 k).
  assert (Hl1 : len x1 = len x + 4) by done. pose proof (wf_len _ Hw) as Hl0. pose proof (length_payload _ Hw1) as Hlp.
  apply wp_bind. eapply (wp_write_payload a x1 0); [done|cbn [length rtmac_header be16 app]; lia|cbn; lia|].
  intros x2 [E2 L2] Hw2 Hp2. apply wp_bind. apply wp_upd_skb_upd. apply wp_bind. eapply wp_dev_load; [done|].
  set (x3 := x2 <| rtdev := Some d |>). assert (Hw3 : wf_rtskb x3) by (by destruct Hw2; split).
  assert (Hp3 : payload x3 = rtmac_header type fl ++ payload x).
  { change (payload x2 = rtmac_header type fl ++ payload x). rewrite Hp2. unfold splice. rewrite length_rtmac_header.
    cbn [Nat.add]. by rewrite take_0, <-Hp1. }
  assert (Hd3 : data x3 = data x - 4 ∧ headroom x3 = headroom x - 4).
  { assert (E3 : data x2 = data x - 4 ∧ buf_start x2 = buf_start x) by (rewrite E2; done).
    unfold headroom. change (data x3) with (data x2). change (buf_start x3) with (buf_start x2). lia. }
  assert (Hr3 : reframed (x <| rtdev := Some d |>) x3) by (unfold reframed, x3; cbn; rewrite E2; done).
  unfold mac_link in Hlh. destruct (hard_header d) as [f|].
  - apply wp_bind, wp_upd_skb_load. apply wp_bind.
    eapply wp_mono; [|eapply (Hlh _ a x3); [apply upd_skb_lookup|done|done|lia]].
    intros r k' (Hr & y & -> & Hwy & Hry & Hdy & Hpy). apply wp_ret. replace (r <? 0) with false by lia.
    split; [done|]. exists y. rewrite upd_skb_twice. split_and!; try done; [|lia|by rewrite Hpy, Hp3].
    unfold reframed in *. rewrite Hry, Hr3. done.
  - subst lh. apply wp_ret. split; [done|]. exists x3. split_and!; try done. cbn [length]. lia.
Qed.

End frame_specs.

Section stamp.
Context `{Config}.
Implicit Types (k : kstate) (x : rtskb).

(** The packet with the time stamp of RTcap. *)
Definition stamped (now : Z) x : rtskb :=
  if CONFIG_RTNET_ADDON_RTCAP
  then x <| cap_flags := Z.lor (cap_flags x) RTSKB_CAP_RTMAC_STAMP |> <| cap_rtmac_stamp := now |> else x.
Lemma mark_run now k a x (R : () → kstate → Prop) :
  skbs k !! a = Some x → R () (upd_skb a (stamped now x) k) → wp (rtcap_mark_rtmac_enqueue now a) R k.
Proof.
  intros Hx HR. unfold rtcap_mark_rtmac_enqueue, stamped in *. destruct CONFIG_RTNET_ADDON_RTCAP; unfold when.
  - by eapply wp_skb_upd.
  - apply wp_ret. by rewrite upd_skb_id in HR.
Qed.
Lemma stamped_same now x : next (stamped now x) = next x ∧ chain_end (stamped now x) = chain_end x ∧ len (stamped now x) = len x ∧
  priority (stamped now x) = priority x ∧ payload (stamped now x) = payload x ∧ rtdev (stamped now x) = rtdev x.
Proof. unfold stamped. by destruct CONFIG_RTNET_ADDON_RTCAP. Qed.
End stamp.

Section nomac_specs.
Context `{Config} (drv_xmit : nat → nat → M kstate Z) (d : nat) (D : rtnet_device).
Implicit Types (k : kstate) (C : gmap nat (list nat)) (x y z : rtskb).

(** The driver takes every packet. *)
Definition takes_all : Prop := ∀ k a, is_Some (skbs k !! a) → drv_xmit a d k = Some (0, k).

Lemma mac_xmit_run k a z (Q : Z → kstate → Prop) :
  takes_all → skbs k !! a = Some z → rtdev z = Some d → devs k !! d = Some D →
  Q 0 (k <| xmit_log := xmit_log k ++ [(d, a, payload z)] |>) → wp (rtmac_xmit drv_xmit a) Q k.
Proof.
  intros Ht Hz Hrd HD HQ. unfold rtmac_xmit. apply wp_bind. eapply wp_skb_load; [done|].
  apply wp_bind. eapply wp_deref; [done|]. apply wp_bind. eapply wp_dev_load; [done|].
  apply wp_bind, wp_modify. apply wp_bind. eapply wp_intro; [apply Ht; cbn; rewrite Hz; eauto|]. cbn [Z.eqb negb when].
  by apply wp_bind, wp_ret, wp_ret.
Qed.

(** *** NoMAC *)

(** The packets of a queue, as they go out. *)
Definition frames_of k (l : list nat) : list (nat * nat * list Z) :=
  (λ a, (d, a, default [] (payload <$> skbs k !! a))) <$> l.

Lemma nrt_loop_run fuel : ∀ k C q l,
  takes_all → devs k !! d = Some D → pools_inv k C → waits k C q l → (length l < fuel)%nat →
  (∀ a x, a ∈ l → skbs k !! a = Some x → rtdev x = Some d) →
  wp (nrt_xmit_loop drv_xmit fuel q)
     (λ _ k', pools_inv k' C ∧ waits k' C q [] ∧ devs k' = devs k ∧ xmit_log k' = xmit_log k ++ frames_of k l) k.
Proof.
  induction fuel as [|fuel IH]; intros k C q l Ht HD Hinv Hw Hf Hrd; [lia|]. cbn [nrt_xmit_loop].
  apply wp_bind. eapply wait_dequeue; [done..|]. destruct l as [|a l].
  { apply wp_ret. split_and!; try done. cbn. by rewrite app_nil_r. }
  intros k1 Hinv1 Hw1 Hwd _ Hsp Ha.
  assert (Hx : ∃ x, skbs k !! a = Some x).
  { destruct Hw as (_ & (Q & _ & [Hl _]) & _). destruct (lseg_lookup _ _ _ _ _ a Hl) as [x Hx]; [set_solver|eauto]. }
  destruct Hx as [x Hx]. destruct (Hsp a x Hx) as (y & Hy & Ey).
  assert (Hrd1 : ∀ b z, skbs k1 !! b = Some z → b ∈ l → rtdev z = Some d).
  { intros b z Hz Hb. destruct Hw as (_ & (Q & _ & [Hl _]) & _).
    destruct (lseg_lookup _ _ _ _ _ b Hl) as [z0 Hz0]; [set_solver|]. destruct (Hsp b z0 Hz0) as (z' & Hz' & E).
    assert (z = z') as -> by congruence. rewrite E. change (rtdev z0 = Some d). eapply (Hrd b); [set_solver|done]. }
  apply wp_bind. eapply (mac_xmit_run k1 a y); try done.
  { rewrite Ey. change (rtdev x = Some d). eapply (Hrd a); [set_solver|done]. } { by rewrite Hwd. }
  eapply wp_mono; [|eapply (IH _ C q l)]; try done; [|by cbn; rewrite Hwd|by apply pools_inv_log|cbn in Hf; lia|by intros b z Hb Hz; eapply Hrd1].
  intros [] k2 (Hi2 & Hw2 & Ed & El). cbn in Ed, El. split_and!; [done..|by rewrite Ed, Hwd|].
  assert (Elog : xmit_log k1 = xmit_log k) by (by rewrite Hwd).
  rewrite El, Elog, <-app_assoc. f_equal. cbn. rewrite Hx. cbn.
  replace (payload y) with (payload x) by (by rewrite Ey). f_equal.
  apply list_fmap_ext. intros i b Hb. f_equal. cbn.
  apply list_elem_of_lookup_2 in Hb. destruct Hw as (_ & (Q & _ & [Hl _]) & _).
  destruct (lseg_lookup _ _ _ _ _ b Hl) as [z Hz]; [set_solver|]. destruct (Hsp b z Hz) as (z' & Hz' & E).
  rewrite Hz, Hz'. cbn. by rewrite E.
Qed.
End nomac_specs.

(** ** Tunnelling *)

Section vnic_basics.
Implicit Types v : vstate.
Lemma wp_in_vkern {A} (m : M kstate A) (Q : A → vstate → Prop) v :
  wp m (λ a k, Q a (v <| vkern := k |>)) (vkern v) → wp (in_vkern m) Q v.
Proof. apply (wp_zoom vkern (λ k s, s <| vkern := k |>)). Qed.
Lemma wp_priv_upd d p f (Q : () → vstate → Prop) v :
  mac_privs v !! d = Some p → Q () (v <| mac_privs := <[d := f p]> (mac_privs v) |>) → wp (priv_upd d f) Q v.
Proof. intros Hp HQ. unfold priv_upd, priv_load. wp_run. done. Qed.
Lemma vkern_id v k : k = vkern v → v <| vkern := k |> = v.
Proof. intros ->. by destruct v. Qed.
Lemma vkern_twice v k k' : v <| vkern := k |> <| vkern := k' |> = v <| vkern := k' |>.
Proof. done. Qed.
End vnic_basics.

Section tunnel_tx.
Context `{Config}.
Context (hard_header : nat → option (nat → Z → list Z → list Z → Z → M kstate Z)).
Context (tx : nat → M kstate Z).
Context (d : nat) (D : rtnet_device).
Implicit Types (v : vstate) (k : kstate) (C : gmap nat (list nat)) (x y z : rtskb).

(** The state [k] in which the discipline gets the frame [w]: it is in a buffer [z], [a]
    of the pool [vp], which has [l] left; of the kernel [k0] before that, nothing else
    has changed. *)
Record handed k0 C (vp a : nat) l w k z : Prop := {
  ha_pools : pools_inv k (<[vp := l]> C);
  ha_use : in_use (<[vp := l]> C) a;
  ha_skb : skbs k !! a = Some z;
  ha_dev : rtdev z = Some d;
  ha_end : chain_end z = Some a;
  ha_payload : payload z = w;
  ha_other : ∀ b, b ≠ a → skbs k !! b = skbs k0 !! b;
  ha_queue : only_queue vp k0 k;
  ha_world : same_world k0 k;
}.
(** The discipline takes the frame and leaves a state with [R]. *)
Definition takes k0 C vp a l w (R : kstate → Prop) : Prop :=
  ∀ k z, handed k0 C vp a l w k z → wp (tx a) (λ r k', r = 0 ∧ R k') k.

(** What Linux sends is handed to the discipline behind the RTmac header with the tunnel
    flag; without a free buffer Linux is told to try again. *)
Lemma vnic_xmit_run v C l p dst src ty body lh (R : kstate → Prop) :
  mac_privs v !! d = Some p → devs (vkern v) !! d = Some D → pools_inv (vkern v) C → C !! vnic_skb_pool p = Some l →
  length dst = 6%nat → length src = 6%nat → 0 ≤ ty < 2 ^ 16 → 0 ≤ hard_header_len D →
  Z.of_nat (length body) + 33 ≤ SKB_DATA_ALIGN RTSKB_SIZE < 2 ^ 32 →
  (∀ b x, b ∈ l → skbs (vkern v) !! b = Some x →
     hard_header_len D + RTMAC_HLEN + Z.of_nat (length body) ≤ Z.of_nat (length (buf x)) < 2 ^ 32) →
  mac_link hard_header d D dst lh →
  (∀ a l', l = a :: l' → takes (vkern v) C (vnic_skb_pool p) a l' (lh ++ rtmac_header ty RTMAC_FLAG_TUNNEL ++ body) R) →
  wp (rtmac_vnic_xmit hard_header (Some tx) d ETH_HLEN (dst ++ src ++ be16 ty ++ body))
     (λ r v', match l with
              | [] => r = NETDEV_TX_BUSY ∧ v' = v
              | a :: _ => r = NETDEV_TX_OK ∧ netif v' = netif v ∧ freed_skbs v' = S (freed_skbs v) ∧
                  R (vkern v') ∧
                  mac_privs v' = <[d := p <| tx_packets := tx_packets p + 1 |>
                                          <| tx_bytes := tx_bytes p + (14 + Z.of_nat (length body)) |>]> (mac_privs v)
              end) v.
Proof.
  intros Hp HD Hinv Hl Ld Ls Hty Hhl Hsz Hroom Hlh Hacc. unfold rtmac_vnic_xmit. apply wp_bind.
  unfold priv_load at 1. wp_run.
  assert (Hfr : length (dst ++ src ++ be16 ty ++ body) = (14 + length body)%nat ∧ drop 14 (dst ++ src ++ be16 ty ++ body) = body ∧
    mem_read (dst ++ src ++ be16 ty ++ body) 6 = Some dst ∧
    mem_read (drop 12 (dst ++ src ++ be16 ty ++ body)) 2 ≫= rd_be16 = Some ty).
  { unfold mem_read. split_and!.
    - rewrite !length_app, Ld, Ls. done.
    - by rewrite !app_assoc, drop_app_length' by (rewrite !length_app, Ld, Ls; done).
    - by rewrite (proj2 (Nat.leb_le _ _)), take_app_length' by (rewrite ?length_app, ?Ld; lia).
    - rewrite (app_assoc dst), drop_app_length' by (rewrite length_app, Ld, Ls; done).
      cbn [length be16 app Nat.leb mbind option_bind]. by apply rd_be16_be16. }
  destruct Hfr as (Fl & F14 & F6 & F12). rewrite Fl. set (fr := dst ++ _) in *. clearbody fr.
  set (n := length body) in *. set (size := Z.land _ _).
  assert (Hsize : size ≤ SKB_DATA_ALIGN RTSKB_SIZE).
  { unfold size, RTMAC_HLEN. rewrite u32_id by (unfold is_u32; lia).
    rewrite <-Z.ldiff_land. change 15 with (Z.ones 4) at 2. rewrite Z.ldiff_ones_r by done.
    rewrite Z.shiftr_div_pow2, Z.shiftl_mul_pow2 by done. change (2 ^ 4) with 16.
    generalize (SKB_DATA_ALIGN RTSKB_SIZE) Hsz. clear. intros. divlia. }
  clearbody size. apply wp_in_vkern. eapply wp_mono; [|eapply wp_both; [by eapply alloc_rtskb_run|by eapply alloc_rtskb_only]].
  intros r k1 [Hr Honly]. destruct l as [|a l].
  { destruct Hr as [-> ->]. apply wp_ret. split; [done|]. by apply vkern_id. }
  destruct Hr as (-> & Ek & Hinv1 & Hu & _ & Hoth & x0 & x & Hx0 & Hx & Hfr).
  destruct Hfr as (Eb & Ebs & _ & Ece & _ & Ed & Et & _ & El & _).
  destruct (Hroom a x0 ltac:(set_solver) Hx0) as [Hr1 Hr2]. rewrite <-Eb in Hr1, Hr2. unfold RTMAC_HLEN in Hr1.
  assert (HD1 : devs k1 !! d = Some D) by (by rewrite Ek).
  apply wp_bind, wp_in_vkern. eapply wp_dev_load; [done|]. rewrite vkern_twice.
  apply wp_bind, wp_in_vkern. eapply wp_skb_upd; [done|]. rewrite vkern_twice. cbn [vkern upd].
  set (x1 := rtskb_reserve (hard_header_len D + RTMAC_HLEN) x). fold (upd_skb a x1 k1).
  assert (Hw1 : wf_rtskb x1) by (unfold x1, rtskb_reserve, RTMAC_HLEN; split; cbn; lia).
  apply wp_bind, wp_in_vkern, wp_upd_skb_load. rewrite vkern_twice. cbn [vkern upd].
  change (RTMAC_HLEN) with 4 in *.
  assert (Ht1 : tailroom x1 = Z.of_nat (length (buf x)) - (hard_header_len D + 4)).
  { unfold tailroom, x1, rtskb_reserve. cbn. lia. }
  replace (Z.of_nat (14 + n) - ETH_HLEN) with (Z.of_nat n) by (unfold ETH_HLEN; lia).
  destruct (put_write_payload x1 body Hw1) as (y & Hy & Hwy & Hpy); [fold n; lia|]. fold n in Hy.
  destruct (rtskb_put (Z.of_nat n) x1) as [dst0 x2] eqn:Eput.
  assert (Hdst : dst0 = tail x1 ∧ x2 = x1 <| tail := tail x1 + Z.of_nat n |> <| len := u32 (len x1 + Z.of_nat n) |>).
  { unfold rtskb_put in Eput. by inversion Eput. }
  destruct Hdst as [-> Hx2]. cbn [snd] in Hy.
  apply wp_bind, wp_in_vkern, wp_upd_skb_store. rewrite vkern_twice. cbn [vkern upd].
  apply wp_bind. eapply wp_deref.
  { rewrite (proj2 (Z.leb_le ETH_HLEN _)) by (unfold ETH_HLEN; lia). done. }
  change (Z.to_nat ETH_HLEN) with 14%nat. rewrite F14.
  apply wp_bind, wp_in_vkern. cbn [vkern upd]. eapply wp_skb_write; [apply upd_skb_lookup|done|]. fold (upd_skb a y (upd_skb a x2 k1)).
  rewrite upd_skb_twice, vkern_twice.
  apply wp_bind. eapply wp_deref.
  { exact F6. }
  apply wp_bind. eapply wp_deref; [exact F12|].
  assert (Hfy : data y = buf_start x + (hard_header_len D + 4) ∧ buf_start y = buf_start x ∧ chain_end y = Some a).
  { unfold buf_write in Hy. destruct (_ && _) in Hy; [|done]. inversion Hy as [Ey]. rewrite Hx2. cbn. rewrite Ed. split_and!; [lia|lia|done]. }
  apply wp_bind, wp_in_vkern. cbn [vkern upd].
  eapply wp_mono; [|eapply (add_header_run hard_header d D _ a y dst lh ty RTMAC_FLAG_TUNNEL); [apply upd_skb_lookup|done|done|done| |done]].
  2: { unfold headroom, RTMAC_HLEN. lia. }
  intros r k2 (-> & z & -> & Hwz & Hrz & _ & Hpz). rewrite vkern_twice, upd_skb_twice. cbn [Z.ltb Z.compare].
  assert (Hp1 : payload x1 = []).
  { unfold payload, x1, rtskb_reserve. cbn. by rewrite El. }
  apply wp_bind. unfold assert_fails. rewrite bool_decide_eq_true_2, andb_false_r by eauto. apply wp_bind. eapply wp_deref; [done|].
  apply wp_bind, wp_in_vkern. cbn [vkern upd].
  eapply wp_mono; [|eapply (Hacc a l eq_refl _ z); split; [|exact Hu|apply upd_skb_lookup|by rewrite Hrz|rewrite Hrz; apply Hfy|..]].
  - intros r k3 (-> & HR). rewrite vkern_twice. cbn [Z.ltb Z.compare]. eapply wp_priv_upd; [done|].
    apply wp_bind, wp_modify, wp_ret. cbn. split_and!; [done..|]. by replace (Z.of_nat _) with (14 + Z.of_nat n) by lia.
  - eapply pools_inv_touch; [exact Hinv1|exact Hu|..]; cbn; [|eauto]. intros b Hb. by apply lookup_insert_ne.
  - rewrite Hpz, Hpy, Hp1. done.
  - intros b Hb. cbn. rewrite lookup_insert_ne by done. by apply Hoth.
  - exact Honly.
  - unfold same_world in *. cbn. rewrite Ek. by destruct (vkern v).
Qed.

End tunnel_tx.

Section tunnel_rx.
Context `{Config} (rx_queue : nat) (d : nat) (D : rtnet_device).
Implicit Types (v : vstate) (k : kstate) (C : gmap nat (list nat)) (x y z : rtskb).

(** A received packet [x]: [hdr] is the link header in front of it. *)
Definition behind (hdr : list Z) x : Prop := buf_read x (data x - Z.of_nat (length hdr)) (Z.of_nat (length hdr)) = Some hdr.

Lemma wr16_ntohs ty : 0 ≤ ty < 2 ^ 16 → wr16 (ntohs ty) = be16 ty.
Proof. change (2 ^ 16) with 65536. intros Hty. unfold wr16. by rewrite ntohs_involutive. Qed.

Lemma rtmac_decode x ty fl body :
  wf_rtskb x → payload x = rtmac_header ty fl ++ body → 0 ≤ ty < 2 ^ 16 → 0 ≤ fl < 256 →
  buf_read x (data x) 2 ≫= rd16 = Some (ntohs ty) ∧ buf_read x (data x + 2) 1 ≫= head = Some RTMAC_VERSION ∧
  buf_read x (data x + 3) 1 ≫= head = Some fl ∧ 4 ≤ len x.
Proof.
  intros Hw Hp Hty Hfl. pose proof (length_payload _ Hw) as Hl. rewrite Hp, length_app, length_rtmac_header in Hl.
  split_and!; [..|lia].
  - rewrite <-(Z.add_0_r (data x)), payload_read, Hp by (done || lia). by apply rd16_be16.
  - rewrite payload_read, Hp by (done || lia). done.
  - rewrite payload_read, Hp by (done || lia). change (Some (u8 fl) = Some fl). unfold u8. by rewrite Z.mod_small.
Qed.

(** A tunnelled packet is exchanged against a buffer of the virtual NIC and waits in the
    queue; if the NIC has none, it is dropped. *)
Lemma vnic_rx_run v C l p rp (k : nat) x q ty :
  mac_privs v !! d = Some p → devs (vkern v) !! d = Some D → pools_inv (vkern v) C → C !! vnic_skb_pool p = Some l →
  loose (vkern v) C k x rp → rtdev x = Some d → waits (vkern v) C rx_queue q → k ∉ q →
  wp (rtmac_vnic_rx rx_queue k ty)
     (λ r v', netif v' = netif v ∧ linux_skbs v' = linux_skbs v ∧
        match l with
        | [] => r = -1 ∧ mac_privs v' = <[d := p <| rx_dropped := rx_dropped p + 1 |>]> (mac_privs v) ∧
            rejected C k rp (vkern v') ∧ same_world (vkern v) (vkern v')
        | a :: l' => r = 0 ∧ mac_privs v' = mac_privs v ∧
            devs (vkern v') = <[d := D <| refcount := refcount D + 1 |>]> (devs (vkern v)) ∧
            ∃ C' z, is_Some (C' !! vnic_skb_pool p) ∧ pools_inv (vkern v') C' ∧ waits (vkern v') C' rx_queue (q ++ [k]) ∧
              skbs (vkern v') !! k = Some z ∧ z = x <| pool := Some (vnic_skb_pool p) |> <| protocol := ty |> <| next := next z |>
        end) v.
Proof.
  intros Hp HD Hinv Hl Hlo Hrd Hw Hk. pose proof Hlo as [Hx Hwf He Hpx Hps Hu Hc]. destruct Hps as [lr Hlr].
  unfold rtmac_vnic_rx. apply wp_bind, wp_in_vkern. eapply wp_skb_load; [done|]. rewrite vkern_id by done.
  apply wp_bind. eapply wp_deref; [done|]. apply wp_bind. unfold priv_load at 1. wp_run.
  apply wp_in_vkern. eapply wp_mono; [|eapply (acquire_run (vkern v) C k x rp (vnic_skb_pool p) l); try done; by eexists].
  intros e k1 Hacq. destruct l as [|a l].
  { destruct Hacq as [-> ->]. rewrite vkern_id by done. cbn [Z.eqb negb ENOMEM Z.opp]. apply wp_bind. eapply wp_priv_upd; [done|].
    apply wp_bind, wp_in_vkern. cbn [vkern upd]. eapply loose_free; [done..|]. intros k2 Hi2 Hw2. apply wp_ret. cbn.
    split_and!; try done. by exists lr. }
  destruct Hacq as (-> & Hwd & (lr' & Hlr' & Hp' & Hu') & _ & _ & _ & Hx1 & Ho & Hf). cbn [Z.eqb negb].
  set (C1 := <[rp := lr' ++ [a]]> (<[vnic_skb_pool p := l]> C)) in *.
  assert (Hu1 : ∀ b, in_use C b → in_use C1 b) by (intros b Hb; by eapply in_use_charged).
  apply wp_bind, wp_in_vkern. eapply wp_skb_upd; [done|]. rewrite vkern_twice. cbn [vkern upd].
  set (x2 := x <| pool := _ |> <| protocol := ty |>). fold (upd_skb k x2 k1).
  assert (HD1 : devs k1 !! d = Some D) by (by rewrite Hwd).
  apply wp_bind, wp_in_vkern. cbn [vkern upd]. eapply wp_reference; [done|]. rewrite vkern_twice.
  set (k2 := ref_taken (upd_skb k x2 k1) d D).
  destruct Hw as (Hq0 & (Q & HQ & [Hq1 Hq2]) & Hqu).
  assert (Hw2 : waits k2 C1 rx_queue q).
  { split_and!.
    - unfold C1. assert (rx_queue ≠ rp) by congruence. assert (rx_queue ≠ vnic_skb_pool p) by congruence. by simplify_map_eq.
    - exists Q. assert (rx_queue ≠ rp) by congruence. assert (rx_queue ≠ vnic_skb_pool p) by congruence.
      split; [change (queues k1 !! rx_queue = Some Q); by rewrite Ho|]. split; [|done].
      eapply lseg_frame; [exact Hq1|]. intros b z Hb Hz. exists z. split; [|done]. assert (b ≠ k) by (by intros ->).
      change (<[k := x2]> (skbs k1) !! b = Some z). rewrite lookup_insert_ne by done. destruct (Hf b); [done|by apply Hqu|]. congruence.
    - intros b Hb. by apply Hu1, Hqu. }
  assert (Hi2 : pools_inv k2 C1).
  { eapply pools_inv_touch; [exact Hp'|exact Hu'|..]; cbn; [|eauto]. intros b Hb. by apply lookup_insert_ne. }
  apply wp_bind, wp_in_vkern. cbn [vkern upd].
  eapply (wait_enqueue k2 C1 rx_queue q k x2); [done|done|done|apply upd_skb_lookup|done|done|].
  intros k3 Hi3 Hw3 Hwd3 _ Hsp3. apply wp_ret. cbn. split_and!; try done.
  - rewrite Hwd3. cbn. by rewrite Hwd.
  - destruct (Hsp3 k x2 (upd_skb_lookup _ _ _)) as (z & Hz & Ez). exists C1, z. split_and!; try done.
    unfold C1. destruct (decide (rp = vnic_skb_pool p)) as [->|]; simplify_map_eq; eauto.
Qed.

(** The signal handler rebuilds the Linux frame from a waiting packet. *)
Lemma signal_round_run v C p (k vp : nat) lv z E hdr n q :
  mac_privs v !! d = Some p → devs (vkern v) !! d = Some E → pools_inv (vkern v) C → C !! vp = Some lv →
  loose (vkern v) C k z vp → rtdev z = Some d → linux_skbs v = S n → length hdr = 14%nat → hard_header_len E = ETH_HLEN →
  buf_read z (data z - ETH_HLEN - RTMAC_HLEN) ETH_HLEN = Some hdr → waits (vkern v) C rx_queue q → k ∉ q →
  wp (vnic_signal_round k)
     (λ _ v', netif v' = netif v ++ [(d, patch_proto hdr (wr16 (protocol z)) ++ payload z)] ∧
        pools_inv (vkern v') (<[vp := lv ++ [k]]> C) ∧ waits (vkern v') (<[vp := lv ++ [k]]> C) rx_queue q ∧
        devs (vkern v') = <[d := E <| refcount := refcount E - 1 |>]> (devs (vkern v))) v.
Proof.
  intros Hp HE Hinv Hlv Hlo Hrd Hn Lh Hhl Hb Hw Hk. pose proof Hlo as [Hz Hwf _ _ _ Hu _].
  unfold vnic_signal_round. apply wp_bind, wp_in_vkern. eapply wp_skb_load; [done|]. rewrite vkern_id by done.
  apply wp_bind. eapply wp_deref; [done|]. apply wp_bind, wp_in_vkern. eapply wp_dev_load; [done|]. rewrite vkern_id by done.
  apply wp_bind, wp_gets. rewrite Hn, Hhl. apply wp_bind, wp_bind, wp_modify. apply wp_bind. eapply wp_deref; [done|].
  pose proof (length_payload _ Hwf) as Hl. pose proof (wf_len _ Hwf) as Hl0.
  apply wp_bind. eapply (wp_deref _ (payload z)).
  { rewrite <-(Z.add_0_r (data z)), payload_read by (done || lia). rewrite drop_0, take_ge; [done|lia]. }
  apply wp_bind. unfold priv_load at 1. wp_run. apply wp_in_vkern. cbn [vkern upd].
  destruct (loose_chain _ _ _ _ _ Hlo) as [Hc Hr].
  eapply wp_mono; [|by eapply kfree_rtskb_run]. intros [] k1 (Hi1 & _ & Hwd & Hoq & Hsk).
  apply wp_bind. eapply wp_priv_upd; [done|]. apply wp_modify. apply wp_in_vkern. cbn [vkern upd].
  eapply (wp_dev_upd _ _ E); [by rewrite Hwd|]. cbn. split_and!; [done|by destruct Hi1; split| |by rewrite Hwd].
  destruct Hw as (Hq0 & HQ & Hqu). assert (rx_queue ≠ vp) by congruence.
  assert (Hf : ∀ b, b ∈ q → skbs k1 !! b = skbs (vkern v) !! b).
  { intros b Hbq. apply Hsk. intros [Hin| ->%list_elem_of_singleton]%elem_of_app; [by eapply (Hqu b)|done]. }
  split_and!; [by simplify_map_eq| |].
  - destruct HQ as (Q & HQ & [Hq1 Hq2]). exists Q. cbn. rewrite Hoq by done. split; [done|]. split; [|done].
    eapply lseg_frame; [exact Hq1|]. intros b y Hbq Hy. exists y. by rewrite Hf.
  - intros b Hbq. apply in_use_insert; [by apply Hqu|]. intros [Hin| ->%list_elem_of_singleton]%elem_of_app; [by eapply (Hqu b)|done].
Qed.

Lemma tunnel_rx_run v C a l p rp (k : nat) x disc hdr ty body n :
  mac_privs v !! d = Some p → devs (vkern v) !! d = Some D → pools_inv (vkern v) C → C !! vnic_skb_pool p = Some (a :: l) →
  loose (vkern v) C k x rp → rtdev x = Some d → waits (vkern v) C rx_queue [] → linux_skbs v = S n →
  hard_header_len D = ETH_HLEN → length hdr = 14%nat → behind hdr x → 0 ≤ ty < 2 ^ 16 →
  payload x = rtmac_header ty RTMAC_FLAG_TUNNEL ++ body →
  wp (rtmac_proto_rx vkern (λ k s, s <| vkern := k |>) (λ _ _, Some disc) (rtmac_vnic_rx rx_queue) k;;
      rtmac_vnic_signal_handler rx_queue)
     (λ _ v', netif v' = netif v ++ [(d, patch_proto hdr (be16 ty) ++ body)] ∧ devs (vkern v') = devs (vkern v) ∧
        ∃ C' lv, pools_inv (vkern v') C' ∧ waits (vkern v') C' rx_queue [] ∧ C' !! vnic_skb_pool p = Some (lv ++ [k])) v.
Proof.
  intros Hp HD Hinv Hl Hlo Hrd Hw Hn Hhl Lh Hbh Hty Hpay. pose proof Hlo as [Hx Hwf He Hpx Hps Hu Hc].
  destruct (rtmac_decode x ty RTMAC_FLAG_TUNNEL body Hwf Hpay Hty ltac:(done)) as (R1 & R2 & R3 & H4).
  destruct (pull_ok x RTMAC_HLEN Hwf ltac:(unfold RTMAC_HLEN; lia)) as (Epull & Hw1 & Hp1). rewrite Epull in Hw1, Hp1. cbn [snd] in Hw1, Hp1.
  unfold rtmac_proto_rx, in_sk. fold (@in_vkern rtskb) (@in_vkern ()).
  apply wp_bind, wp_bind, wp_in_vkern. eapply wp_skb_load; [done|]. rewrite vkern_id by done.
  apply wp_bind. eapply wp_deref; [done|]. apply wp_bind, wp_gets.
  apply wp_bind, wp_in_vkern. eapply wp_skb_upd; [done|]. rewrite Epull. cbn [snd].
  set (x1 := x <| len := _ |> <| data := _ |>) in *. fold (upd_skb k x1 (vkern v)).
  apply wp_bind. eapply wp_deref; [done|]. cbn [Z.eqb Pos.eqb RTMAC_VERSION negb].
  apply wp_bind. eapply wp_deref; [done|]. apply wp_bind. eapply wp_deref; [done|].
  change (Z.land RTMAC_FLAG_TUNNEL RTMAC_FLAG_TUNNEL) with 1. cbn [Z.eqb negb].
  set (v1 := v <| vkern := upd_skb k x1 (vkern v) |>).
  assert (Hi1 : pools_inv (vkern v1) C).
  { eapply pools_inv_touch; [exact Hinv|exact Hu|..]; cbn; [|eauto]. intros b Hb. by apply lookup_insert_ne. }
  assert (Hlo1 : loose (vkern v1) C k x1 rp) by (split; try done; apply upd_skb_lookup).
  assert (Hw1' : waits (vkern v1) C rx_queue []) by (eapply waits_frame; [exact Hw|done|set_solver]).
  apply wp_bind. eapply wp_mono; [|eapply (vnic_rx_run v1 C (a :: l) p rp k x1 [] (ntohs ty)); try done; set_solver].
  intros r v2 (En & Els & -> & Em & Ed & C2 & z & [lv Hlv] & Hi2 & Hw2 & Hz & Ez). apply wp_ret. cbn [app] in Hw2.
  unfold rtmac_vnic_signal_handler. apply wp_bind, wp_gets.
  pose proof (waits_size _ _ _ _ Hw2) as Hsz. cbn [length] in Hsz.
  destruct (size (skbs (vkern v2))) as [|fuel] eqn:Efuel; [lia|]. cbn [vnic_signal_loop].
  pose proof (proj2 (proj2 Hw2)) as Hu2.
  apply wp_bind, wp_in_vkern. eapply (wait_dequeue _ C2 _ [k]); [done..|]. intros k3 Hi3 Hw3 Hwd3 _ Hsp3 _.
  destruct (Hsp3 k z Hz) as (z3 & Hz3 & Ez3). apply wp_bind.
  assert (Hzz : z3 = x1 <| pool := Some (vnic_skb_pool p) |> <| protocol := ntohs ty |> <| next := next z3 |>).
  { rewrite Ez3, Ez. done. }
  set (v3 := v2 <| vkern := k3 |>).
  assert (Hhdr : buf_read z3 (data z3 - ETH_HLEN - RTMAC_HLEN) ETH_HLEN = Some hdr).
  { unfold behind in Hbh. rewrite Lh in Hbh. change (Z.of_nat 14) with ETH_HLEN in Hbh. rewrite <-Hbh, Hzz.
    unfold buf_read. cbn. unfold RTMAC_HLEN. by replace (data x + 4 - ETH_HLEN - 4) with (data x - ETH_HLEN) by lia. }
  assert (Hlo3 : loose k3 C2 k z3 (vnic_skb_pool p)).
  { split; [done|rewrite Hzz; by destruct Hw1; split|by rewrite Hzz..|by exists lv|apply Hu2; set_solver|by rewrite Hzz]. }
  assert (Ed3 : devs k3 = <[d := D <| refcount := refcount D + 1 |>]> (devs (vkern v))) by (rewrite Hwd3; exact Ed).
  eapply wp_mono; [|eapply (signal_round_run v3 C2 p k (vnic_skb_pool p) lv z3 (D <| refcount := refcount D + 1 |>) hdr n [])].
  - intros [] v4 (En4 & Hi4 & Hw4 & Ed4). unfold v3 in En4, Ed4. cbn [vkern upd netif] in En4, Ed4.
    apply wp_bind, wp_in_vkern. eapply (wait_dequeue _ _ _ []); [done..|]. apply wp_ret. rewrite vkern_id by done. split_and!.
    + rewrite En4, En. cbn. do 3 f_equal. rewrite Hzz. cbn. rewrite wr16_ntohs by done. f_equal.
      change (payload x1 = body). rewrite Hp1, Hpay. done.
    + rewrite Ed4, Ed3, insert_insert_eq, insert_id; [done|]. rewrite HD. f_equal. destruct D. unfold upd. cbn. f_equal. lia.
    + exists (<[vnic_skb_pool p := lv ++ [k]]> C2), lv. split_and!; [done|done|by rewrite lookup_insert_eq].
  - change (mac_privs v2 !! d = Some p). by rewrite Em.
  - change (devs k3 !! d = Some (D <| refcount := refcount D + 1 |>)). by rewrite Ed3, lookup_insert_eq.
  - done.
  - done.
  - done.
  - by rewrite Hzz.
  - change (linux_skbs v2 = S n). by rewrite Els.
  - done.
  - done.
  - done.
  - done.
  - apply not_elem_of_nil.
Qed.
End tunnel_rx.

(** The Ethernet header is such a link header. *)
Lemma eth_mac_link `{Config} (hard_header : nat → option (nat → Z → list Z → list Z → Z → M kstate Z)) d D dst :
  hard_header d = Some (λ skb type daddr saddr n, rt_eth_header skb d type (Some daddr) (Some saddr) n) →
  addr_len D = ETH_ALEN → hard_header_len D = ETH_HLEN → Z.land (flags D) (Z.lor IFF_LOOPBACK IFF_NOARP) = 0 →
  (ETH_ALEN ≤ length dst)%nat → (ETH_ALEN ≤ length (dev_addr D))%nat →
  mac_link hard_header d D dst (take ETH_ALEN dst ++ take ETH_ALEN (dev_addr D) ++ be16 ETH_RTMAC).
Proof.
  intros Hh Ha Hl Hfl Hd Hs. unfold mac_link. rewrite Hh. intros k a x Hx HD Hw Hr. rewrite Hl in Hr.
  eapply wp_mono; [|by apply (rt_eth_header_run k a d D x)].
  intros r k' (-> & y & -> & Hwy & _ & Ey & Hp). rewrite Hl. split; [done|]. exists y. rewrite Hp, <-!app_assoc.
  assert (Ed : data y = data x - ETH_HLEN) by (by rewrite Ey).
  split_and!; try done; [unfold reframed; by rewrite Ey|].
  rewrite Ed, !length_app, !length_take_le by done. cbn [length be16 Nat.add]. unfold ETH_HLEN, ETH_ALEN. lia.
Qed.

(** From Linux, NoMAC puts the frame behind the packets [ln] that wait for its task. *)
Lemma nomac_queues `{Config} drv_xmit nq now d k0 C vp a l w ln :
  C !! vp = Some (a :: l) → waits k0 C nq ln → (∀ b x, b ∈ ln → skbs k0 !! b = Some x → rtdev x = Some d) →
  takes (nomac_nrt_packet_tx drv_xmit nq now false) d k0 C vp a l w (λ k',
    pools_inv k' (<[vp := l]> C) ∧ waits k' (<[vp := l]> C) nq (ln ++ [a]) ∧ same_world k0 k' ∧
    frames_of d k' (ln ++ [a]) = frames_of d k0 ln ++ [(d, a, w)] ∧
    ∀ b x, b ∈ ln ++ [a] → skbs k' !! b = Some x → rtdev x = Some d).
Proof.
  intros Hvp Hw Hrd k z [Hinv Hu Hz Hd He Hp Hoth Hq Hwd]. pose proof Hw as (Hnq & _ & Hlu).
  destruct (stamped_same now z) as (_ & Ec & _ & _ & Ep & Er).
  assert (Haln : a ∉ ln) by (intros Ha; apply (Hlu a Ha _ _ Hvp); set_solver).
  assert (Hw1 : waits (upd_skb a (stamped now z) k) (<[vp := l]> C) nq ln).
  { destruct (waits_frame k0 (upd_skb a (stamped now z) k) C nq ln Hw) as (_ & HQ & _).
    - cbn. apply Hq. congruence.
    - intros b Hb. cbn. rewrite lookup_insert_ne by (intros ->; done). apply Hoth. by intros ->.
    - split; [rewrite lookup_insert_ne by congruence; done|]. split; [done|]. intros b Hb. apply in_use_insert; [by apply Hlu|].
      intros Hin. apply (Hlu b Hb _ _ Hvp). set_solver. }
  unfold nomac_nrt_packet_tx. apply wp_bind. eapply mark_run; [done|]. cbn [negb]. apply wp_bind.
  eapply (wait_enqueue _ _ _ _ _ (stamped now z)); [|exact Hw1|done|apply upd_skb_lookup|by rewrite Ec|done|].
  { eapply pools_inv_touch; [exact Hinv|exact Hu|..]; cbn; [|eauto]. intros b Hb. by apply lookup_insert_ne. }
  intros k' Hi' Hw' Hsw _ Hsp. apply wp_ret. split; [done|].
  assert (Hz' : ∃ y, skbs k' !! a = Some y ∧ y = (stamped now z) <| next := next y |>) by (apply Hsp, upd_skb_lookup).
  assert (Hb' : ∀ b, b ∈ ln → ∃ x y, skbs k0 !! b = Some x ∧ skbs k' !! b = Some y ∧ y = x <| next := next y |>).
  { intros b Hb. destruct Hw as (_ & (Q & _ & [Hl _]) & _). destruct (lseg_lookup _ _ _ _ _ b Hl Hb) as [x Hx].
    destruct (Hsp b x) as (y & Hy & Ey); [cbn; rewrite lookup_insert_ne by (intros ->; done); rewrite Hoth; [done|by intros ->]|]. by exists x, y. }
  destruct Hz' as (y & Hy & Ey). split_and!; [done|done|..].
  - eapply same_world_trans; [exact Hwd|]. unfold same_world in *. rewrite Hsw. by destruct k.
  - unfold frames_of. rewrite fmap_app. f_equal.
    + apply list_fmap_ext. intros i b Hb. apply list_elem_of_lookup_2 in Hb. destruct (Hb' b Hb) as (x & y' & -> & -> & ->). done.
    + cbn. rewrite Hy, Ey. cbn. by rewrite <-Hp, <-Ep.
  - intros b x [Hb| ->%list_elem_of_singleton]%elem_of_app Hx.
    + destruct (Hb' b Hb) as (x0 & y' & Hx0 & Hy' & Ey'). assert (x = y') as -> by congruence. rewrite Ey'. by apply (Hrd b x0).
    + assert (x = y) as -> by congruence. rewrite Ey. cbn. by rewrite Er.
Qed.

(** C22: A frame that Linux sends through the virtual NIC of a station with NoMAC.  In the
    context of Linux it is queued; the task of NoMAC sends it, behind what waited before,
    as an RTmac frame.  Buffers of the sender: one of the NIC's pool is with the driver,
    the queue is empty.  Any station that receives the frame on the wire, perhaps with
    padding behind it, hands to Linux a frame with the same destination and type and the
    same contents, followed by the padding, and with the address of the sending device
    as source; the received buffer ends in the pool of the virtual NIC and the reference
    to the device is returned.  The driver takes every packet, the frame fits the
    buffers, and the receiving NIC and Linux have a free buffer. *)
Theorem vnic_tunnel_roundtrip `{Config} hard_header drv_xmit nq now rx_queue d D v C a0 l0 ln p dst src ty body :
  mac_privs v !! d = Some p → devs (vkern v) !! d = Some D → pools_inv (vkern v) C → C !! vnic_skb_pool p = Some (a0 :: l0) →
  length dst = ETH_ALEN → length src = ETH_ALEN → 0 ≤ ty < 2 ^ 16 →
  hard_header d = Some (λ skb type daddr saddr n, rt_eth_header skb d type (Some daddr) (Some saddr) n) →
  addr_len D = ETH_ALEN → hard_header_len D = ETH_HLEN → Z.land (flags D) (Z.lor IFF_LOOPBACK IFF_NOARP) = 0 →
  (ETH_ALEN ≤ length (dev_addr D))%nat →
  Z.of_nat (length body) + 33 ≤ SKB_DATA_ALIGN RTSKB_SIZE < 2 ^ 32 →
  (∀ b x, b ∈ a0 :: l0 → skbs (vkern v) !! b = Some x → 18 + Z.of_nat (length body) ≤ Z.of_nat (length (buf x)) < 2 ^ 32) →
  takes_all drv_xmit d → waits (vkern v) C nq ln → (∀ b x, b ∈ ln → skbs (vkern v) !! b = Some x → rtdev x = Some d) →
  wp (r ← rtmac_vnic_xmit hard_header (Some (nomac_nrt_packet_tx drv_xmit nq now false)) d ETH_HLEN (dst ++ src ++ be16 ty ++ body);
      in_vkern (nrt_xmit_task drv_xmit nq);; mret r)
     (λ r v', r = NETDEV_TX_OK ∧ pools_inv (vkern v') (<[vnic_skb_pool p := l0]> C) ∧
        waits (vkern v') (<[vnic_skb_pool p := l0]> C) nq [] ∧
        ∃ wire, xmit_log (vkern v') = xmit_log (vkern v) ++ frames_of d (vkern v) ln ++ [(d, a0, wire)] ∧
        ∀ w e E C a l q rp k x disc hdr pad n,
          mac_privs w !! e = Some q → devs (vkern w) !! e = Some E → pools_inv (vkern w) C →
          C !! vnic_skb_pool q = Some (a :: l) → loose (vkern w) C k x rp → rtdev x = Some e →
          waits (vkern w) C rx_queue [] → linux_skbs w = S n → hard_header_len E = ETH_HLEN →
          length hdr = 14%nat → behind hdr x → wire ++ pad = hdr ++ payload x →
          wp (rtmac_proto_rx vkern (λ k s, s <| vkern := k |>) (λ _ _, Some disc) (rtmac_vnic_rx rx_queue) k;;
              rtmac_vnic_signal_handler rx_queue)
             (λ _ w', netif w' = netif w ++ [(e, dst ++ take ETH_ALEN (dev_addr D) ++ be16 ty ++ body ++ pad)] ∧
                devs (vkern w') = devs (vkern w) ∧
                ∃ C' lv, pools_inv (vkern w') C' ∧ waits (vkern w') C' rx_queue [] ∧
                  C' !! vnic_skb_pool q = Some (lv ++ [k])) w) v.
Proof.
  intros Hp HD Hinv Hl Ld Ls Hty Hh Ha Hhl Hfl Hda Hsz Hroom Hta Hnq Hrd.
  pose proof (eth_mac_link hard_header d D dst Hh Ha Hhl Hfl ltac:(lia) Hda) as Hlh.
  rewrite (take_ge dst) in Hlh by lia.
  apply wp_bind. eapply wp_mono; [|eapply (vnic_xmit_run hard_header _ d D v C (a0 :: l0) p dst src ty body)]; try done.
  2: { by rewrite Hhl. } 2: { intros b x Hb Hx. rewrite Hhl. apply (Hroom b x Hb Hx). }
  2: { intros a l [= <- <-]. by apply nomac_queues. }
  intros r v1 (-> & _ & _ & (Hi1 & Hw1 & Hsw & Efr & Hrd1) & _). apply wp_bind, wp_in_vkern. unfold nrt_xmit_task. apply wp_bind, wp_gets.
  eapply wp_mono; [|eapply (nrt_loop_run drv_xmit d D); [done|by rewrite Hsw|exact Hi1|exact Hw1| |done]].
  2: { pose proof (waits_size _ _ _ _ Hw1). lia. }
  intros [] k2 (Hi2 & Hw2 & _ & Elog). apply wp_ret. rewrite Efr in Elog. split; [done|]. split; [done|]. split; [done|].
  assert (El0 : xmit_log (vkern v1) = xmit_log (vkern v)) by (by rewrite Hsw). rewrite El0 in Elog. eexists. split; [exact Elog|]. clear Hi2 Hw2.
  intros w e E C2 a l q rp k x disc hdr pad n Hq HE Hi2 Hl2 Hlo Hrx Hw Hn HhE Lh Hbh Hwire.
  set (src' := take ETH_ALEN (dev_addr D)) in *.
  assert (Lsrc : length src' = 6%nat) by (by apply length_take_le).
  assert (Hsplit : hdr = (dst ++ src') ++ be16 ETH_RTMAC ∧ payload x = rtmac_header ty RTMAC_FLAG_TUNNEL ++ body ++ pad).
  { rewrite <-!app_assoc in Hwire. rewrite 2!app_assoc in Hwire. apply app_inj_1 in Hwire; [|rewrite !length_app, Ld, Lsrc, Lh; done]. destruct Hwire as [<- <-]. by rewrite <-!app_assoc. }
  destruct Hsplit as [Ehdr Hpay].
  eapply wp_mono; [|eapply (tunnel_rx_run rx_queue e E w C2 a l q rp k x disc hdr ty (body ++ pad) n)]; try done.
  intros [] w' (En & Ed & Hrest). split; [|by split]. rewrite En, Ehdr. do 3 f_equal. unfold patch_proto.
  rewrite take_app_length' by (rewrite length_app, Ld, Lsrc; done).
  rewrite drop_ge by (rewrite !length_app, Ld, Lsrc; cbn; lia). by rewrite app_nil_r, <-!app_assoc.
Qed.

Section proto_specs.
Context `{Config} {S : Type} (kernel : S → kstate) (set_kernel : kstate → S → S).
Context (mac_disc : S → nat → option (rtmac_disc S)) (vnic_rx : nat → Z → M S Z).
Context (get_set : ∀ k s, kernel (set_kernel k s) = k) (set_get : ∀ s, set_kernel (kernel s) s = s)
        (set_set : ∀ k k' s, set_kernel k' (set_kernel k s) = set_kernel k' s).

(** The decisions of [rtmac_proto_rx]: packets for a device without a
    discipline and those of another version go back to their pool; of the rest, tunnelled
    packets go to the virtual NIC and packets of the discipline's type to the
    discipline, without the header; any other packet is given to nobody and not released
    either. *)
Theorem rtmac_proto_rx_correct s C k x rp d ty ver fl body :
  pools_inv (kernel s) C → loose (kernel s) C k x rp → rtdev x = Some d →
  0 ≤ ty < 2 ^ 16 → 0 ≤ ver < 256 → 0 ≤ fl < 256 → payload x = be16 ty ++ [ver; fl] ++ body →
  ∃ y, wf_rtskb y ∧ payload y = body ∧ pool y = Some rp ∧ rtdev y = Some d ∧
    let s1 := set_kernel (upd_skb k y (kernel s)) s in
    let run m := m s1 ≫= λ '(_, s'), Some (0, s') in
    match mac_disc s d with
    | None => wp (rtmac_proto_rx kernel set_kernel mac_disc vnic_rx k) (λ r s', r = 0 ∧ rejected C k rp (kernel s')) s
    | Some disc =>
        if negb (ver =? RTMAC_VERSION)
        then wp (rtmac_proto_rx kernel set_kernel mac_disc vnic_rx k) (λ r s', r = 0 ∧ rejected C k rp (kernel s')) s
        else rtmac_proto_rx kernel set_kernel mac_disc vnic_rx k s =
          if negb (Z.land fl RTMAC_FLAG_TUNNEL =? 0) then run (vnic_rx k (ntohs ty))
          else if disc_type disc =? ntohs ty then run (packet_rx disc k)
          else Some (0, s1)
    end.
Proof using All.
  intros Hinv Hlo Hrd Hty Hver Hfl Hpay. pose proof Hlo as [Hx Hwf He Hpx Hps Hu Hc].
  pose proof (length_payload _ Hwf) as Hlen. rewrite Hpay, !length_app in Hlen. cbn [length be16] in Hlen.
  destruct (pull_ok x RTMAC_HLEN Hwf ltac:(unfold RTMAC_HLEN; lia)) as (Epull & Hw1 & Hp1). rewrite Epull in Hw1, Hp1. cbn [snd] in Hw1, Hp1.
  set (y := x <| len := _ |> <| data := _ |>) in *. exists y. split; [done|]. split; [by rewrite Hp1, Hpay|].
  split; [done|]. split; [done|]. intros s1 run.
  assert (R1 : buf_read x (data x) 2 ≫= rd16 = Some (ntohs ty) ∧ buf_read x (data x + 2) 1 ≫= head = Some ver ∧
    buf_read x (data x + 3) 1 ≫= head = Some fl).
  { split_and!.
    - rewrite <-(Z.add_0_r (data x)), payload_read, Hpay by (done || lia). by apply rd16_be16.
    - by rewrite payload_read, Hpay by (done || lia).
    - by rewrite payload_read, Hpay by (done || lia). }
  destruct R1 as (R1 & R2 & R3). destruct Hps as [lr Hlr].
  assert (Hfree : ∀ x' s', loose (kernel s') C k x' rp → pools_inv (kernel s') C →
    wp (in_sk kernel set_kernel (kfree_rtskb (Some k));; mret 0) (λ r s'', r = 0 ∧ rejected C k rp (kernel s'')) s').
  { intros x' s' Hlo' Hi'. apply wp_bind, (wp_zoom kernel set_kernel). eapply loose_free; [done..|].
    intros k2 Hi2 _. apply wp_ret. rewrite get_set. split; [done|]. by exists lr. }
  assert (Hlo1 : loose (kernel s1) C k y rp).
  { unfold s1. rewrite get_set. split; try done; apply upd_skb_lookup. }
  assert (Hi1 : pools_inv (kernel s1) C).
  { unfold s1. rewrite get_set. eapply pools_inv_touch; [exact Hinv|exact Hu|..]; cbn; [|eauto]. intros b Hb. by apply lookup_insert_ne. }
  assert (Hload : in_sk kernel set_kernel (skb_load k) s = Some (x, s)).
  { unfold in_sk, zoom, skb_load, gets, deref, mbind, M_bind. rewrite Hx. by rewrite set_get. }
  assert (Hpull : in_sk kernel set_kernel (skb_upd k (λ x, snd (rtskb_pull RTMAC_HLEN x))) s = Some ((), s1)).
  { unfold in_sk, zoom, skb_upd, skb_store, modify, skb_load, gets, deref, mbind, M_bind. rewrite Hx, Epull. done. }
  unfold rtmac_proto_rx. destruct (mac_disc s d) as [disc|] eqn:Edisc.
  - destruct (negb (ver =? RTMAC_VERSION)) eqn:Ever.
    + apply wp_bind. eapply wp_intro; [exact Hload|]. apply wp_bind. eapply wp_deref; [done|]. apply wp_bind, wp_gets.
      rewrite Edisc. apply wp_bind. eapply wp_intro; [exact Hpull|]. apply wp_bind. eapply wp_deref; [done|].
      rewrite Ever. by apply (Hfree y).
    + unfold mbind at 1, M_bind at 1. rewrite Hload. unfold mbind at 1, M_bind at 1. rewrite Hrd. cbn [deref].
      unfold mbind at 1, M_bind at 1. cbn [gets]. rewrite Edisc. unfold mbind at 1, M_bind at 1. rewrite Hpull.
      unfold mbind at 1, M_bind at 1. rewrite R2. cbn [deref]. rewrite Ever. unfold mbind at 1, M_bind at 1. rewrite R3. cbn [deref].
      unfold mbind at 1, M_bind at 1. rewrite R1. cbn [deref]. unfold run.
      destruct (Z.land fl RTMAC_FLAG_TUNNEL =? 0); cbn [negb]; [destruct (disc_type disc =? ntohs ty)|].
      * unfold mbind, M_bind. by destruct (packet_rx disc k s1) as [[? ?]|].
      * done.
      * unfold mbind, M_bind. by destruct (vnic_rx k (ntohs ty) s1) as [[? ?]|].
  - apply wp_bind. eapply wp_intro; [exact Hload|]. apply wp_bind. eapply wp_deref; [done|]. apply wp_bind, wp_gets.
    rewrite Edisc. by apply (Hfree x).
Qed.
End proto_specs.

(** [nrt_xmit_task] sends the packets that wait, in the order of their arrival,
    and leaves the queue empty. *)
Lemma nrt_xmit_task_fifo `{Config} drv_xmit d D k C q l :
  takes_all drv_xmit d → devs k !! d = Some D → pools_inv k C → waits k C q l →
  (∀ a x, a ∈ l → skbs k !! a = Some x → rtdev x = Some d) →
  wp (nrt_xmit_task drv_xmit q)
     (λ _ k', pools_inv k' C ∧ waits k' C q [] ∧ devs k' = devs k ∧ xmit_log k' = xmit_log k ++ frames_of d k l) k.
Proof.
  intros Ht HD Hinv Hw Hrd. unfold nrt_xmit_task. apply wp_bind, wp_gets. eapply (nrt_loop_run drv_xmit d D); try done.
  pose proof (waits_size _ _ _ _ Hw). lia.
Qed.

(** Raising the maximum MTU does not restore the MTU of a virtual NIC that was at the
    previous maximum, as the comment in [rtmac_vnic_set_max_mtu] has it: the comparison
    is between the previous and the new maximum. *)
Lemma set_max_mtu_keeps_old d v p m :
  mac_privs v !! d = Some p → vnic_mtu p = vnic_max_mtu p → vnic_max_mtu p < u32 (m - RTMAC_HLEN) →
  rtmac_vnic_set_max_mtu d m v =
  Some ((), v <| mac_privs := <[d := p <| vnic_max_mtu := u32 (m - RTMAC_HLEN) |>]> (mac_privs v) |>).
Proof.
  intros Hp E Hlt. unfold rtmac_vnic_set_max_mtu, priv_upd, priv_load, gets, deref, modify, mbind, M_bind. rewrite Hp. cbn.
  rewrite Hp. cbn. rewrite E. replace (u32 (m - RTMAC_HLEN) <? vnic_max_mtu p) with false by lia.
  by replace (vnic_max_mtu p =? u32 (m - RTMAC_HLEN)) with false by lia.
Qed.
