(* ===== verification/Tdma.v ===== *)
(** * The TDMA discipline of RTmac (stack/rtmac/tdma): data, frames and the worker

    tdma_proto.c and tdma_worker.c: the jobs of a station (the synchronisation job, a job
    per time slot, calibration requests and replies) form a ring through the list heads
    they start with; the worker task goes around it, sleeps until a job is due and
    transmits.  Job addresses are byte addresses ([Z]): a reply job lies in the memory of
    its packet, behind the frame.  The lock makes the code between two sleeps atomic;
    what other tasks do while the worker sleeps or waits is a parameter. *)
From S2P Require Import Prelude State RtskbQueue Rtskb RtskbData Rtdev IpFragment Socket IpOutput IpInput Rtmac.

Definition RTMAC_TYPE_TDMA := 1.
Definition TDMA_FLAG_SHUTDOWN := 0.
Definition TDMA_FLAG_CALIBRATED := 1.
Definition TDMA_FLAG_RECEIVED_SYNC := 2.
Definition TDMA_FLAG_MASTER := 3.
Definition TDMA_FLAG_BACKUP_MASTER := 4.
Definition TDMA_FLAG_ATTACHED := 5.
Definition TDMA_FLAG_BACKUP_ACTIVE := 6.
Definition DEFAULT_SLOT : nat := 0.
Definition DEFAULT_NRT_SLOT : nat := 1.
Definition WAIT_ON_SYNC := -1.
Definition XMIT_SYNC := -2.
Definition BACKUP_SYNC := -3.
Definition XMIT_REQ_CAL := -4.
Definition XMIT_RPL_CAL := -5.
Definition TDMA_FRM_VERSION := 513.
Definition TDMA_FRM_SYNC := 0.
Definition TDMA_FRM_REQ_CAL := 16.
Definition TDMA_FRM_RPL_CAL := 17.
(** Sizes of the frames, [struct tdma_frm_sync], [.._req_cal], [.._rpl_cal]. *)
Definition SYNC_LEN := 24.
Definition REQ_CAL_LEN := 24.
Definition RPL_CAL_LEN := 28.
Definition RTSKB_CHANNEL_MASK := 4294901760.
Definition RTSKB_CHANNEL_SHIFT := 16.
Definition EMSGSIZE := 90.
Definition ENOTTY := 25.
Definition ETIME := 62.
Definition EFAULT := 14.

(** ** Data *)

(** [struct tdma_slot] behind its head; [queue] and [local_queue] are the addresses of
    prioritized queues. *)
Record tdma_slot := mk_slot {
  offset : Z;
  period : Z;
  phasing : Z;
  slot_mtu : Z;
  slot_size : Z;
  queue : nat;
  local_queue : nat;
}.
#[export] Instance slot_eta : Settable tdma_slot := λ r,
  mk_slot (offset r) (period r) (phasing r) (slot_mtu r) (slot_size r) (queue r) (local_queue r).
(** [result_buffer] is the array, [cal_results] whether results are copied to the user. *)
Record tdma_request_cal := mk_request_cal {
  req_offset : Z;
  req_period : Z;
  req_phasing : Z;
  req_cal_rounds : Z;
  cal_results : bool;
  result_buffer : list Z;
}.
#[export] Instance request_cal_eta : Settable tdma_request_cal := λ r,
  mk_request_cal (req_offset r) (req_period r) (req_phasing r) (req_cal_rounds r) (cal_results r) (result_buffer r).
Record tdma_reply_cal := mk_reply_cal { reply_cycle : Z; reply_offset : Z; reply_rtskb : nat }.

(** What follows a [struct tdma_job] in memory. *)
Inductive job_body :=
  | SYNC_JOB
  | SLOT_JOB (s : tdma_slot)
  | REQUEST_CAL_JOB (r : tdma_request_cal)
  | REPLY_CAL_JOB (r : tdma_reply_cal).
Record tdma_job := mk_job {
  entry_next : Z;
  entry_prev : Z;
  job_id : Z;
  ref_count : Z;
  job_rest : job_body;
}.
#[export] Instance job_eta : Settable tdma_job := λ r,
  mk_job (entry_next r) (entry_prev r) (job_id r) (ref_count r) (job_rest r).

(** [struct tdma_priv] of the station, the jobs in memory, the results of calls ([rtpc]),
    memory for slots and calls, the times the worker slept until and the number of
    pulses on [sync_event]. *)
Record tdma := mk_tdma {
  tv : vstate;
  jobs : gmap Z tdma_job;
  tflags : Z;
  cal_rounds : Z;
  current_cycle : Z;
  current_cycle_start : Z;
  master_packet_delay_ns : Z;
  clock_offset : Z;
  sync_job : Z;
  first_job : option Z;
  current_job : Z;
  job_list_revision : Z;
  max_slot_id : Z;
  slot_table : list (option Z);
  calibration_call : option Z;
  master_hw_addr : list Z;
  cal_rtskb_pool : nat;
  cycle_period : Z;
  backup_sync_inc : Z;
  call_results : gmap Z Z;
  slot_mem : list (Z * nat);
  call_memory : list Z;
  wakeups : list Z;
  sync_pulses : nat;
}.
#[export] Instance tdma_eta : Settable tdma := λ r,
  mk_tdma (tv r) (jobs r) (tflags r) (cal_rounds r) (current_cycle r) (current_cycle_start r)
    (master_packet_delay_ns r) (clock_offset r) (sync_job r) (first_job r) (current_job r)
    (job_list_revision r) (max_slot_id r) (slot_table r) (calibration_call r) (master_hw_addr r)
    (cal_rtskb_pool r) (cycle_period r) (backup_sync_inc r) (call_results r) (slot_mem r)
    (call_memory r) (wakeups r) (sync_pulses r).

Definition tkern (s : tdma) : kstate := vkern (tv s).
Definition set_tkern (k : kstate) (s : tdma) : tdma := s <| tv := (tv s) <| vkern := k |> |>.
Definition in_tkern {A} : M kstate A → M tdma A := zoom tkern set_tkern.
Definition in_tv {A} : M vstate A → M tdma A := zoom tv (λ v s, s <| tv := v |>).

Definition job_load (j : Z) : M tdma tdma_job := m ← gets jobs; deref (m !! j).
Definition job_upd (j : Z) (f : tdma_job → tdma_job) : M tdma () :=
  x ← job_load j; modify (λ s, s <| jobs := <[j := f x]> (jobs s) |>).
(** The casts [SLOT_JOB(job)] and so on. *)
Definition slot_of (x : tdma_job) : option tdma_slot := match job_rest x with SLOT_JOB s => Some s | _ => None end.
Definition request_of (x : tdma_job) : option tdma_request_cal := match job_rest x with REQUEST_CAL_JOB r => Some r | _ => None end.
Definition reply_of (x : tdma_job) : option tdma_reply_cal := match job_rest x with REPLY_CAL_JOB r => Some r | _ => None end.
Definition slot_load (j : Z) : M tdma tdma_slot := x ← job_load j; deref (slot_of x).
Definition slot_upd (j : Z) (f : tdma_slot → tdma_slot) : M tdma () :=
  s ← slot_load j; job_upd j (λ x, x <| job_rest := SLOT_JOB (f s) |>).
Definition request_load (j : Z) : M tdma tdma_request_cal := x ← job_load j; deref (request_of x).
Definition reply_load (j : Z) : M tdma tdma_reply_cal := x ← job_load j; deref (reply_of x).

(** Linux' [list_add] and [__list_del] on the list heads of jobs. *)
Definition job_list_add (new head : Z) : M tdma () :=
  h ← job_load head;
  let next := entry_next h in
  job_upd next (λ x, x <| entry_prev := new |>);;
  job_upd new (λ x, x <| entry_next := next |>);;
  job_upd new (λ x, x <| entry_prev := head |>);;
  job_upd head (λ x, x <| entry_next := new |>).
Definition __job_list_del (prev next : Z) : M tdma () :=
  job_upd next (λ x, x <| entry_prev := prev |>);;
  job_upd prev (λ x, x <| entry_next := next |>).

Definition set_flag (i : Z) : M tdma () := modify (λ s, s <| tflags := Z.setbit (tflags s) i |>).
Definition clear_flag (i : Z) : M tdma () := modify (λ s, s <| tflags := Z.clearbit (tflags s) i |>).
Definition test_flag (i : Z) : M tdma bool := gets (λ s, Z.testbit (tflags s) i).
Definition revise : M tdma () := modify (λ s, s <| job_list_revision := u32 (job_list_revision s + 1) |>).
Definition rtpc_complete_call (call r : Z) : M tdma () :=
  modify (λ s, s <| call_results := <[call := r]> (call_results s) |>).
Definition event_pulse : M tdma () := modify (λ s, s <| sync_pulses := S (sync_pulses s) |>).
(** The slot a packet of channel [c] goes to; the table is indexed without a check. *)
Definition slot_entry (c : Z) : M tdma (option Z) := t ← gets slot_table; deref (t !! Z.to_nat c).
Definition channel (prio : Z) : Z := Z.shiftr (Z.land prio RTSKB_CHANNEL_MASK) RTSKB_CHANNEL_SHIFT.

Section defs.
Context `{Config} (CONFIG_RTNET_TDMA_MASTER : bool) (sizeof_reply_cal : Z).
Context (global_pool : nat) (d : nat) (now : Z).
Context (hard_header : nat → option (nat → Z → list Z → list Z → Z → M kstate Z)).
Context (drv_xmit : nat → nat → M kstate Z).

(** ** Frames *)

(** The room for the link header and the RTmac header, [(hlen + 4 + 15) & ~15]. *)
Definition mac_room (D : rtnet_device) : Z := Z.land (hard_header_len D + RTMAC_HLEN + 15) (Z.lnot 15).
Definition frm_head (id : Z) : list Z := be16 TDMA_FRM_VERSION ++ be16 id.

(** A new packet with [n] bytes for a frame to [daddr]: its address and that of the
    frame, or the error. *)
Definition new_frame (pool : nat) (n : Z) (daddr : rtnet_device → list Z) : M tdma (option (nat * Z) * Z) :=
  D ← in_tkern (dev_load d);
  r ← in_tkern (alloc_rtskb (hard_header_len D + RTMAC_HLEN + n + 15) pool);
  match r with
  | None => mret (None, - ENOMEM)
  | Some rtskb =>
      in_tkern (skb_upd rtskb (rtskb_reserve (mac_room D)));;
      x ← in_tkern (skb_load rtskb);
      let '(frm, x) := rtskb_put n x in
      in_tkern (skb_store rtskb x);;
      e ← in_tkern (rtmac_add_header hard_header d (daddr D) rtskb RTMAC_TYPE_TDMA 0);
      if e <? 0 then in_tkern (kfree_rtskb (Some rtskb));; mret (None, e)
      else mret (Some (rtskb, frm), 0)
  end.

Definition sync_frame (cycle off sched : Z) : list Z :=
  frm_head TDMA_FRM_SYNC ++ be32 cycle ++ wr64 (u64 off) ++ be64 sched.
Definition tdma_xmit_sync_frame : M tdma () :=
  r ← new_frame global_pool SYNC_LEN (λ D, broadcast D);
  match r.1 with
  | None => mret ()
  | Some (rtskb, sync) =>
      t ← get;
      in_tkern (skb_write rtskb sync
        (sync_frame (current_cycle t) (clock_offset t) (u64 (clock_offset t + current_cycle_start t))));;
      in_tkern (skb_upd rtskb (λ x, x <| xmit_stamp := Some (sync + 8) |>));;
      in_tkern (rtmac_xmit drv_xmit rtskb);;
      event_pulse
  end.

Definition req_cal_frame (reply_cycle reply_slot_offset : Z) : list Z :=
  frm_head TDMA_FRM_REQ_CAL ++ replicate 8 0 ++ be32 reply_cycle ++ be64 reply_slot_offset.
Definition tdma_xmit_request_cal_frame (reply_cycle reply_slot_offset : Z) : M tdma Z :=
  hw ← gets master_hw_addr;
  r ← new_frame global_pool REQ_CAL_LEN (λ _, hw);
  match r.1 with
  | None => mret (r.2)
  | Some (rtskb, req_cal) =>
      in_tkern (skb_write rtskb req_cal (req_cal_frame reply_cycle reply_slot_offset));;
      in_tkern (skb_upd rtskb (λ x, x <| xmit_stamp := Some (req_cal + 4) |>));;
      ret ← in_tkern (rtmac_xmit drv_xmit rtskb);
      mret (if ret <? 0 then ret else 0)
  end.

(** ** Packets of the stack *)

(** The common part of the two transmit functions, under the lock. *)
Definition slot_enqueue (slot : option Z) (rtskb : nat) : M tdma Z :=
  match slot with
  | None => mret (- EAGAIN)
  | Some slot =>
      x ← in_tkern (skb_load rtskb);
      s ← slot_load slot;
      if slot_size s <? len x then mret (- EMSGSIZE)
      else in_tkern (__rtskb_prio_queue_tail (queue s) rtskb);; mret 0
  end.
Definition tdma_rt_packet_tx (rtskb : nat) : M tdma Z :=
  in_tkern (rtcap_mark_rtmac_enqueue now rtskb);;
  x ← in_tkern (skb_load rtskb);
  slot ← slot_entry (channel (priority x));
  slot_enqueue slot rtskb.
Definition tdma_nrt_packet_tx (rtskb : nat) : M tdma Z :=
  in_tkern (rtcap_mark_rtmac_enqueue now rtskb);;
  in_tkern (skb_upd rtskb (λ x, x <| priority := SOCK_XMIT_PARAMS QUEUE_MIN_PRIO (Z.of_nat DEFAULT_NRT_SLOT) |>));;
  slot ← slot_entry (Z.of_nat DEFAULT_NRT_SLOT);
  slot_enqueue slot rtskb.

Definition tdma_get_mtu (prio : Z) : M tdma Z :=
  slot ← slot_entry (channel prio);
  match slot with
  | None => D ← in_tkern (dev_load d); mret (mtu D)
  | Some slot => s ← slot_load slot; mret (slot_mtu s)
  end.

(** ** Received frames *)

Definition rx_sync (skb : nat) (x : rtskb) (head : Z) : M tdma () :=
  in_tkern (skb_upd skb (λ x, snd (rtskb_pull SYNC_LEN x)));;
  xmit ← deref (buf_read x (head + 8) 8 ≫= rd_be64);
  sched ← deref (buf_read x (head + 16) 8 ≫= rd_be64);
  cycle_no ← deref (buf_read x (head + 4) 4 ≫= rd_be32);
  t ← get;
  let off := s64 (u64 (xmit + master_packet_delay_ns t)) in
  let off := s64 (u64 (off - time_stamp x)) in
  let cycle_start := u64 (sched - off) in
  modify (λ s, s <| current_cycle := cycle_no |> <| current_cycle_start := cycle_start |> <| clock_offset := off |>);;
  h_source ← deref (buf_read x (mac_raw x + 6) 6);
  modify (λ s, s <| master_hw_addr := memcpy (master_hw_addr s) h_source ETH_ALEN |>);;
  set_flag TDMA_FLAG_RECEIVED_SYNC;;
  event_pulse.

(** Whether the search for the place of a reply job ends at [job]. *)
Definition reply_place (job : Z) (off : Z) : M tdma bool :=
  t ← get;
  if bool_decide (first_job t = Some job) then mret true
  else
    j ← job_load job;
    if 0 <=? job_id j then s ← deref (slot_of j); mret (offset s <? off)
    else if job_id j =? XMIT_RPL_CAL then r ← deref (reply_of j); mret (reply_offset r <? off)
    else mret false.
Fixpoint find_reply_place (fuel : nat) (job off : Z) : M tdma Z :=
  match fuel with
  | O => ub
  | S fuel =>
      j ← job_load job;
      let job := entry_prev j in
      b ← reply_place job off;
      if b : bool then mret job else find_reply_place fuel job off
  end.

Definition rpl_cal_frame (request_xmit_stamp : list Z) (reception_stamp : Z) : list Z :=
  frm_head TDMA_FRM_RPL_CAL ++ request_xmit_stamp ++ be64 reception_stamp ++ replicate 8 0.
Definition rx_req_cal (skb : nat) (x : rtskb) (head : Z) : M tdma () :=
  t ← get;
  if assert_fails (Z.testbit (tflags t) TDMA_FLAG_MASTER && Z.testbit (tflags t) TDMA_FLAG_CALIBRATED) then mret ()
  else
    in_tkern (skb_upd skb (λ x, snd (rtskb_pull REQ_CAL_LEN x)));;
    h_source ← deref (buf_read x (mac_raw x + 6) 6);
    r ← new_frame (cal_rtskb_pool t) RPL_CAL_LEN (λ _, h_source);
    match r.1 with
    | None => mret ()
    | Some (reply, rpl_cal_frm) =>
        stamp ← deref (buf_read x (head + 4) 8);
        in_tkern (skb_write reply rpl_cal_frm (rpl_cal_frame stamp (time_stamp x)));;
        in_tkern (skb_upd reply (λ x, x <| xmit_stamp := Some (rpl_cal_frm + 20) |>));;
        y ← in_tkern (skb_load reply);
        (if tail y + sizeof_reply_cal <=? buf_start y + Z.of_nat (length (buf y)) then mret () else ub);;
        cycle ← deref (buf_read x (head + 12) 4 ≫= rd_be32);
        off ← deref (buf_read x (head + 16) 8 ≫= rd_be64);
        modify (λ s, s <| jobs := <[tail y := mk_job 0 0 XMIT_RPL_CAL 0 (REPLY_CAL_JOB (mk_reply_cal cycle off reply))]> (jobs s) |>);;
        t ← get;
        job ← find_reply_place (size (jobs t)) (current_job t) off;
        job_list_add (tail y) job;;
        revise
    end.

Definition rx_rpl_cal (skb : nat) (x : rtskb) (head : Z) : M tdma () :=
  in_tkern (skb_upd skb (λ x, snd (rtskb_pull RPL_CAL_LEN x)));;
  request_xmit ← deref (buf_read x (head + 4) 8 ≫= rd_be64);
  reception ← deref (buf_read x (head + 12) 8 ≫= rd_be64);
  xmit ← deref (buf_read x (head + 20) 8 ≫= rd_be64);
  let delay := u64 (u64 (time_stamp x - request_xmit) - u64 (xmit - reception)) in
  let delay := Z.shiftr (u64 (delay + 1)) 1 in
  call ← gets calibration_call;
  match call with
  | None => mret ()
  | Some call =>
      r ← request_load call;
      let n := u32 (req_cal_rounds r - 1) in
      (if n <? Z.of_nat (length (result_buffer r)) then mret () else ub);;
      job_upd call (λ j, j <| job_rest := REQUEST_CAL_JOB
        (r <| req_cal_rounds := n |> <| result_buffer := <[Z.to_nat n := delay]> (result_buffer r) |>) |>);;
      if 0 <? n then
        revise;;
        f ← gets first_job;
        f ← deref f;
        job_list_add call f
      else
        modify (λ s, s <| calibration_call := None |>);;
        rtpc_complete_call call 0
  end.

Definition tdma_packet_rx (rtskb : nat) : M tdma Z :=
  x ← in_tkern (skb_load rtskb);
  let head := data x in
  version ← deref (buf_read x head 2 ≫= rd16);
  (if negb (version =? ntohs TDMA_FRM_VERSION) then mret ()
   else
     id ← deref (buf_read x (head + 2) 2 ≫= rd16);
     if id =? ntohs TDMA_FRM_SYNC then rx_sync rtskb x head
     else if CONFIG_RTNET_TDMA_MASTER && (id =? ntohs TDMA_FRM_REQ_CAL) then rx_req_cal rtskb x head
     else if id =? ntohs TDMA_FRM_RPL_CAL then rx_rpl_cal rtskb x head
     else mret ());;
  in_tkern (kfree_rtskb (Some rtskb));;
  mret 0.

(** ** The worker *)

(** What the other tasks do while the worker sleeps, and while it waits for a
    synchronisation frame. *)
Context (others wait_sync : M tdma ()).
Definition rtdm_task_sleep_abs (t : Z) : M tdma () :=
  modify (λ s, s <| wakeups := wakeups s ++ [t] |>);; others.

(** [(job->period != 1) && (current_cycle % job->period != job->phasing)]; a period of 0
    divides by zero. *)
Definition not_due (period phasing : Z) : M tdma bool :=
  if period =? 1 then mret false
  else if period =? 0 then ub
  else c ← gets current_cycle; mret (negb (c mod period =? phasing)).

Definition do_slot_job (job : Z) : M tdma () :=
  s ← slot_load job;
  skip ← not_due (period s) (phasing s);
  if skip : bool then mret ()
  else
    t ← get;
    rtdm_task_sleep_abs (u64 (current_cycle_start t + offset s));;
    s ← slot_load job;
    r ← in_tkern (__rtskb_prio_dequeue (queue s));
    match r with
    | None => mret ()
    | Some rtskb => in_tkern (rtmac_xmit drv_xmit rtskb);; mret ()
    end.

Definition next_cycle : M tdma () :=
  modify (λ s, s <| current_cycle := u32 (current_cycle s + 1) |>
                 <| current_cycle_start := u64 (current_cycle_start s + cycle_period s) |>).
Definition do_xmit_sync_job : M tdma () :=
  t ← get;
  rtdm_task_sleep_abs (u64 (current_cycle_start t + cycle_period t));;
  next_cycle;;
  tdma_xmit_sync_frame.
Definition do_backup_sync_job : M tdma () :=
  t ← get;
  rtdm_task_sleep_abs (u64 (current_cycle_start t + backup_sync_inc t));;
  received ← test_flag TDMA_FLAG_RECEIVED_SYNC;
  clear_flag TDMA_FLAG_RECEIVED_SYNC;;
  if negb received then
    next_cycle;;
    tdma_xmit_sync_frame;;
    set_flag TDMA_FLAG_BACKUP_ACTIVE
  else clear_flag TDMA_FLAG_BACKUP_ACTIVE.

(** The removal of a calibration job from the ring; the result is the job before it. *)
Definition unlink_job (job : Z) : M tdma Z :=
  j ← job_load job;
  __job_list_del (entry_prev j) (entry_next j);;
  job_upd job (λ x, x <| ref_count := u32 (ref_count x - 1) |>);;
  j ← job_load job;
  let prev_job := entry_prev j in
  modify (λ s, s <| current_job := prev_job |>);;
  job_upd prev_job (λ x, x <| ref_count := u32 (ref_count x + 1) |>);;
  revise;;
  mret prev_job.

Definition do_request_cal_job (job : Z) : M tdma Z :=
  r ← request_load job;
  skip ← not_due (req_period r) (req_phasing r);
  if skip : bool then mret job
  else
    prev_job ← unlink_job job;
    t ← get;
    rtdm_task_sleep_abs (u64 (current_cycle_start t + req_offset r));;
    r ← request_load job;
    t ← get;
    err ← tdma_xmit_request_cal_frame (u32 (current_cycle t + req_period r)) (req_offset r);
    when (err <? 0)
      (call ← gets calibration_call;
       modify (λ s, s <| calibration_call := None |>);;
       match call with Some call => rtpc_complete_call call err | None => mret () end);;
    mret prev_job.

(** The memory of the job goes with its packet. *)
Definition do_reply_cal_job (job : Z) : M tdma Z :=
  r ← reply_load job;
  t ← get;
  if current_cycle t <? reply_cycle r then mret job
  else
    prev_job ← unlink_job job;
    t ← get;
    (if reply_cycle r =? current_cycle t then
       rtdm_task_sleep_abs (u64 (current_cycle_start t + reply_offset r));;
       in_tkern (rtmac_xmit drv_xmit (reply_rtskb r));; mret ()
     else in_tkern (kfree_rtskb (Some (reply_rtskb r))));;
    modify (λ s, s <| jobs := delete job (jobs s) |>);;
    mret prev_job.

(** One round of the loop of [tdma_worker]; the result is the next job. *)
Definition worker_round (job : Z) : M tdma Z :=
  job_upd job (λ x, x <| ref_count := u32 (ref_count x + 1) |>);;
  j ← job_load job;
  job ← (if job_id j =? WAIT_ON_SYNC then wait_sync;; mret job
         else if job_id j =? XMIT_REQ_CAL then do_request_cal_job job
         else if CONFIG_RTNET_TDMA_MASTER && (job_id j =? XMIT_SYNC) then do_xmit_sync_job;; mret job
         else if CONFIG_RTNET_TDMA_MASTER && (job_id j =? BACKUP_SYNC) then do_backup_sync_job;; mret job
         else if CONFIG_RTNET_TDMA_MASTER && (job_id j =? XMIT_RPL_CAL) then do_reply_cal_job job
         else do_slot_job job;; mret job);
  job_upd job (λ x, x <| ref_count := u32 (ref_count x - 1) |>);;
  j ← job_load job;
  modify (λ s, s <| current_job := entry_next j |>);;
  mret (entry_next j).
(** [n] rounds of it, unless it is told to stop. *)
Fixpoint worker_rounds (n : nat) (job : Z) : M tdma Z :=
  match n with
  | O => mret job
  | S n => stop ← test_flag TDMA_FLAG_SHUTDOWN;
           if stop : bool then mret job else job ← worker_round job; worker_rounds n job
  end.
Definition tdma_worker (n : nat) : M tdma Z :=
  f ← gets first_job; job ← deref f; worker_rounds n job.
End defs.
