(* ===== verification/TdmaIoctl.v ===== *)
(** * Configuration of TDMA (stack/rtmac/tdma/tdma_ioctl.c, tdma_module.c)

    Master and slave mode, calibration, and the slots: insertion into the ring of jobs in
    the order of their offsets, replacement and removal with the packets that wait in
    them.  The callers hold the lock of the device for configuration, so two of these
    functions never run at once; the worker runs in between whenever one of them sleeps. *)
From S2P Require Import Prelude State RtskbQueue Rtskb RtskbData Rtdev IpFragment Socket IpOutput IpInput Rtmac Tdma.

(** [struct tdma_config], the member for slots. *)
Record slot_config := mk_slot_config {
  cfg_id : Z;
  cfg_period : Z;
  cfg_offset : Z;
  cfg_phasing : Z;
  cfg_size : Z;
  cfg_joint_slot : Z;
  cfg_cal_results : bool;
}.

Section defs.
Context `{Config} (CONFIG_RTNET_TDMA_MASTER : bool) (d : nat) (now : Z).
(** [msleep]: the other tasks run. *)
Context (msleep : M tdma ()).
(** How often the code is willing to look again at a reference count or at the revision of
    the job list. *)
Context (patience : nat).

(** [while (job->ref_count > 0) { .. msleep(100); .. }] *)
Fixpoint wait_unreferenced (fuel : nat) (job : Z) : M tdma () :=
  match fuel with
  | O => ub
  | S fuel => j ← job_load job; if 0 <? ref_count j then msleep;; wait_unreferenced fuel job else mret ()
  end.

(** ** Calibration *)

Definition start_calibration (call : Z) : M tdma Z :=
  modify (λ s, s <| calibration_call := Some call |>);;
  revise;;
  f ← gets first_job;
  f ← deref f;
  job_list_add call f;;
  mret (- 1000).

(** The sum of the results; the minimum and maximum are only printed.  [copied] tells
    whether the copies to the user succeed. *)
Definition sum_results (l : list Z) : Z := foldl (λ a v, u64 (a + v)) 0 l.
Definition copyback_calibration (copied : bool) (call : Z) : M tdma () :=
  r ← request_load call;
  n ← gets cal_rounds;
  (if Z.to_nat n <=? length (result_buffer r) then mret () else ub)%nat;;
  when (cal_results r && negb copied && (0 <? n)) (rtpc_complete_call call (- EFAULT));;
  (if n =? 0 then ub else mret ());;
  modify (λ s, s <| master_packet_delay_ns := sum_results (take (Z.to_nat n) (result_buffer r)) / n |>).

(** [rtpc_dispatch_call(start_calibration, ..)]: the call with its copy of the request is
    allocated, the procedure run, and the task waits; [wait] is the wait with its result. *)
Definition dispatch_calibration (wait : Z → M tdma Z) (copied : bool) (r : tdma_request_cal) : M tdma Z :=
  l ← gets call_memory;
  match l with
  | [] => ub
  | call :: l =>
      modify (λ s, s <| call_memory := l |> <| call_results := <[call := 0]> (call_results s) |>
                     <| jobs := <[call := mk_job 0 0 XMIT_REQ_CAL 0 (REQUEST_CAL_JOB r)]> (jobs s) |>);;
      start_calibration call;;
      ret ← wait call;
      if 0 <=? ret then
        copyback_calibration copied call;;
        res ← gets call_results;
        ret ← deref (res !! call);
        modify (λ s, s <| jobs := delete call (jobs s) |> <| call_memory := call_memory s ++ [call] |>);;
        mret ret
      else mret ret
  end.

(** ** Slots *)

(** Whether a slot with offset [off] and number [id] belongs before [job]. *)
Definition slot_place (job off id : Z) : M tdma bool :=
  j ← job_load job;
  f ← gets first_job;
  before ← (if 0 <=? job_id j then
              s ← deref (slot_of j);
              mret ((off <? offset s) || ((off =? offset s) && (id <=? job_id j)))
            else if CONFIG_RTNET_TDMA_MASTER && (job_id j =? XMIT_RPL_CAL) then
              r ← deref (reply_of j); mret (off <? reply_offset r)
            else mret false);
  mret (before || bool_decide (f = Some job)).
Fixpoint find_slot_place (fuel : nat) (job off id : Z) : M tdma Z :=
  match fuel with
  | O => ub
  | S fuel =>
      j ← job_load job;
      let prev_job := job in
      let job := entry_next j in
      b ← slot_place job off id;
      if b : bool then mret prev_job else find_slot_place fuel job off id
  end.

(** [slot_table[i]] as an object of C: out of its bounds is undefined. *)
Definition table_set (i : nat) (v : option Z) : M tdma () :=
  t ← gets slot_table; deref (t !! i);; modify (λ s, s <| slot_table := <[i := v]> t |>).

(** The label [restart] up to the point where the list is locked and unchanged; the other
    tasks may run between the search and the lock. *)
Fixpoint place_slot (preempt : M tdma ()) (fuel : nat) (old_slot : option Z) (slot : Z) : M tdma Z :=
  match fuel with
  | O => ub
  | S fuel =>
      rev ← gets job_list_revision;
      s ← slot_load slot;
      j ← job_load slot;
      prev_job ← match old_slot with
                 | None => f ← gets first_job; f ← deref f; n ← gets (λ s, size (jobs s)); find_slot_place n f (offset s) (job_id j)
                 | Some old => o ← job_load old; mret (entry_prev o)
                 end;
      preempt;;
      rev' ← gets job_list_revision;
      if negb (rev =? rev') then msleep;; place_slot preempt fuel old_slot slot
      else mret prev_job
  end.

(** The loop over the slots that share the queue of a slot that goes away. *)
Fixpoint joint_loop (n : nat) (jnt_id : nat) (local : nat) (change : Z → M tdma ()) : M tdma () :=
  match n with
  | O => mret ()
  | S n =>
      e ← slot_entry (Z.of_nat jnt_id);
      match e with
      | None => mret ()
      | Some j =>
          s ← slot_load j;
          when (bool_decide (queue s = local)) (wait_unreferenced patience j;; change j)
      end;;
      joint_loop n (S jnt_id) local change
  end.

(** [while ((rtskb = __rtskb_prio_dequeue(queue))) kfree_rtskb(rtskb);] *)
Fixpoint purge_loop (fuel : nat) (pq : nat) : M kstate () :=
  match fuel with
  | O => ub
  | S fuel =>
      r ← __rtskb_prio_dequeue pq;
      match r with
      | None => mret ()
      | Some rtskb => kfree_rtskb (Some rtskb);; purge_loop fuel pq
      end
  end.
Definition purge_prio (pq : nat) : M kstate () := fuel ← gets (λ s, S (size (skbs s))); purge_loop fuel pq.

(** The end of a slot nothing refers to any more. *)
Definition release_slot (slot : Z) : M tdma () :=
  slot_upd slot (λ s, s <| queue := local_queue s |>);;
  s ← slot_load slot;
  in_tkern (purge_prio (queue s));;
  modify (λ t, t <| jobs := delete slot (jobs t) |> <| slot_mem := slot_mem t ++ [(slot, local_queue s)] |>).

(** The checks of [tdma_ioctl_set_slot]: the size to use, or the error. *)
Definition check_slot (cfg : slot_config) (D : rtnet_device) : M tdma (Z + Z) :=
  m ← gets max_slot_id;
  if m <? u32 (cfg_id cfg) then mret (inr (- EINVAL))
  else
    let size := if cfg_size cfg =? 0 then mtu D else cfg_size cfg in
    if negb (cfg_size cfg =? 0) && (mtu D <? cfg_size cfg) then mret (inr (- EINVAL))
    else
      let jnt_id := cfg_joint_slot cfg in
      if 0 <=? jnt_id then
        if m <=? jnt_id then mret (inr (- EINVAL))
        else
          e ← slot_entry jnt_id;
          match e with
          | None => mret (inr (- EINVAL))
          | Some j => s ← slot_load j; mret (if negb (slot_mtu s =? size) then inr (- EINVAL) else inl size)
          end
      else mret (inl size).

(** What [kmalloc] returns for the results, what the wait for the call and the mode switch
    of a master do. *)
Context (kmalloc_results : Z → option (list Z)) (wait_call : Z → M tdma Z) (copied : bool) (preempt : M tdma ()).

(** The pending calibration job is taken out of the ring. *)
Definition kick_out_calibration : M tdma () :=
  f ← gets first_job; f ← deref f;
  j ← job_load f;
  let job := entry_next j in
  when (negb (job =? f))
    (x ← job_load job;
     __job_list_del (entry_prev x) (entry_next x);;
     wait_unreferenced patience job).

(** The part of [tdma_ioctl_set_slot] for a station that is not calibrated; 0 means that
    it is now. *)
Definition calibrate (cfg : slot_config) : M tdma Z :=
  n ← gets cal_rounds;
  match kmalloc_results n with
  | None => mret (- ENOMEM)
  | Some buffer =>
      ret ← dispatch_calibration wait_call copied
        (mk_request_cal (cfg_offset cfg) (cfg_period cfg) (cfg_phasing cfg) n (cfg_cal_results cfg) buffer);
      if ret <? 0 then kick_out_calibration;; mret ret
      else
        t ← get;
        if CONFIG_RTNET_TDMA_MASTER && Z.testbit (tflags t) TDMA_FLAG_MASTER then
          let cycle_no := current_cycle t in
          job_upd (sync_job t) (λ x, x <| job_id :=
            if Z.testbit (tflags t) TDMA_FLAG_BACKUP_MASTER then BACKUP_SYNC else XMIT_SYNC |>);;
          msleep;;
          c ← gets current_cycle;
          if cycle_no =? c then mret (- ETIME) else set_flag TDMA_FLAG_CALIBRATED;; mret 0
        else set_flag TDMA_FLAG_CALIBRATED;; mret 0
  end.

(** The new slot in its memory at [slot]. *)
Definition init_slot (cfg : slot_config) (D : rtnet_device) (size : Z) (slot : Z) (local : nat) : M tdma () :=
  modify (λ t, t <| jobs := <[slot := mk_job 0 0 (cfg_id cfg) 0 (SLOT_JOB
    (mk_slot (cfg_offset cfg) (cfg_period cfg) (cfg_phasing cfg) size (u32 (size + hard_header_len D)) local local))]> (jobs t) |>);;
  in_tkern (rtskb_prio_queue_init local);;
  when (0 <=? cfg_joint_slot cfg)
    (e ← slot_entry (cfg_joint_slot cfg);
     j ← deref e;
     s ← slot_load j;
     slot_upd slot (λ x, x <| queue := queue s |>)).

(** From the new slot to the end of the function. *)
Definition exchange_slot (cfg : slot_config) (size : Z) (slot : Z) : M tdma Z :=
  let id := Z.to_nat (cfg_id cfg) in
  t ← gets slot_table;
  old ← deref (t !! id);
  dflt ← deref (t !! DEFAULT_SLOT);
  let old_slot := if bool_decide (id = DEFAULT_NRT_SLOT) && bool_decide (old = dflt) then None else old in
  prev_job ← place_slot preempt patience old_slot slot;
  match old_slot with
  | Some o => x ← job_load o; __job_list_del (entry_prev x) (entry_next x)
  | None => mret ()
  end;;
  job_list_add slot prev_job;;
  table_set id (Some slot);;
  t ← gets slot_table;
  when (bool_decide (id = DEFAULT_SLOT))
    (e ← deref (t !! DEFAULT_NRT_SLOT);
     when (bool_decide (e = old_slot)) (table_set DEFAULT_NRT_SLOT (Some slot)));;
  match old_slot with
  | Some o =>
      wait_unreferenced patience o;;
      m ← gets max_slot_id;
      os ← slot_load o;
      joint_loop (Z.to_nat m) 0 (local_queue os)
        (λ j, ns ← slot_load slot; s ← slot_load j;
              if slot_mtu s <? slot_mtu ns then slot_upd j (λ s, s <| queue := local_queue s |>)
              else slot_upd j (λ s, s <| slot_mtu := slot_mtu ns |> <| queue := queue ns |>))
  | None => mret ()
  end;;
  in_tv (rtmac_vnic_set_max_mtu d size);;
  match old_slot with Some o => release_slot o | None => mret () end;;
  mret 0.

(** [attached]: the device has this discipline ([mac_priv] and its magic number). *)
Definition tdma_ioctl_set_slot (attached : bool) (cfg : slot_config) : M tdma Z :=
  if negb attached then mret (- ENOTTY)
  else
    D ← in_tkern (dev_load d);
    c ← check_slot cfg D;
    match c with
    | inr e => mret e
    | inl size =>
        l ← gets slot_mem;
        match l with
        | [] => mret (- ENOMEM)
        | (slot, local) :: l =>
            modify (λ s, s <| slot_mem := l |>);;
            calibrated ← test_flag TDMA_FLAG_CALIBRATED;
            ret ← (if calibrated : bool then mret 0 else calibrate cfg);
            if ret <? 0 then modify (λ s, s <| slot_mem := slot_mem s ++ [(slot, local)] |>);; mret ret
            else init_slot cfg D size slot local;; exchange_slot cfg size slot
        end
    end.

Definition tdma_cleanup_slot (slot : option Z) : M tdma Z :=
  match slot with
  | None => mret (- EINVAL)
  | Some slot =>
      j ← job_load slot;
      let id := Z.to_nat (u32 (job_id j)) in
      __job_list_del (entry_prev j) (entry_next j);;
      t ← gets slot_table;
      (if decide (id = DEFAULT_NRT_SLOT) then
         dflt ← deref (t !! DEFAULT_SLOT); table_set DEFAULT_NRT_SLOT dflt
       else
         when (bool_decide (id = DEFAULT_SLOT))
           (e ← deref (t !! DEFAULT_NRT_SLOT);
            when (bool_decide (e = Some slot)) (table_set DEFAULT_NRT_SLOT None));;
         table_set id None);;
      wait_unreferenced patience slot;;
      m ← gets max_slot_id;
      s ← slot_load slot;
      joint_loop (Z.to_nat m) 0 (local_queue s) (λ j, slot_upd j (λ s, s <| queue := local_queue s |>));;
      release_slot slot;;
      mret 0
  end.

Definition tdma_ioctl_remove_slot (attached : bool) (id : Z) : M tdma Z :=
  if negb attached then mret (- ENOTTY)
  else
    m ← gets max_slot_id;
    if m <? u32 id then mret (- EINVAL)
    else
      t ← gets slot_table;
      nrt ← deref (t !! DEFAULT_NRT_SLOT);
      dflt ← deref (t !! DEFAULT_SLOT);
      if (id =? Z.of_nat DEFAULT_NRT_SLOT) && bool_decide (nrt = dflt) then mret (- EINVAL)
      else e ← deref (t !! Z.to_nat id); tdma_cleanup_slot e.

(** ** Modes *)

Definition tdma_ioctl_cal_result_size (attached : bool) : M tdma Z :=
  if negb attached then mret (- ENOTTY)
  else b ← test_flag TDMA_FLAG_CALIBRATED; if b : bool then mret 0 else n ← gets cal_rounds; mret (s32 n).

(** The slot table for numbers up to [max_slot]: at least two entries.  Its size in bytes
    is an [unsigned int], with pointers of 8 bytes. *)
Definition table_size (max_slot : Z) : Z := u32 (8 * (if 1 <=? max_slot then u32 (max_slot + 1) else 2)).
Definition new_table (max_slot : Z) : list (option Z) := replicate (Z.to_nat (table_size max_slot / 8)) None.
(** [INIT_LIST_HEAD], and the other fields of the job. *)
Definition init_sync_job (id : Z) : M tdma () :=
  s ← gets sync_job;
  modify (λ t, t <| jobs := <[s := mk_job s s id 0 SYNC_JOB]> (jobs t) |>).

(** [rtmac_disc_attach] and [rtmac_disc_detach] for this discipline. *)
Context (disc_attach disc_detach : M tdma Z) (table_ok : bool).

(** The attachment both modes start with; 0 to go on. *)
Definition enter_mode (mac_priv magic : bool) : M tdma Z :=
  ret ← (if mac_priv then mret 0 else disc_attach);
  if ret <? 0 then mret ret
  else if negb magic then mret (- ENOTTY)
  else b ← test_flag TDMA_FLAG_ATTACHED; mret (if b : bool then - EBUSY else 0).
Definition leave_mode (ret : Z) : M tdma Z := disc_detach;; mret ret.

Definition tdma_ioctl_slave (mac_priv magic : bool) (rounds max_slot : Z) : M tdma Z :=
  e ← enter_mode mac_priv magic;
  if e <? 0 then mret e
  else
    modify (λ s, s <| cal_rounds := rounds |>);;
    when (rounds =? 0) (set_flag TDMA_FLAG_CALIBRATED);;
    if negb table_ok then leave_mode (- ENOMEM)
    else
      modify (λ s, s <| max_slot_id := max_slot |> <| slot_table := new_table max_slot |>);;
      init_sync_job WAIT_ON_SYNC;;
      modify (λ s, s <| first_job := Some (sync_job s) |> <| current_job := sync_job s |>);;
      set_flag TDMA_FLAG_ATTACHED;;
      mret 0.

Definition tdma_ioctl_master (mac_priv magic : bool) (cycle backup_offset rounds max_cal_requests max_slot : Z) : M tdma Z :=
  e ← enter_mode mac_priv magic;
  if e <? 0 then mret e
  else
    set_flag TDMA_FLAG_MASTER;;
    modify (λ s, s <| cal_rounds := rounds |>);;
    msleep;;
    p ← gets cal_rtskb_pool;
    n ← in_tkern (rtskb_pool_init p max_cal_requests);
    if negb (n =? max_cal_requests) then leave_mode (- ENOMEM)
    else if negb table_ok then leave_mode (- ENOMEM)
    else
      modify (λ s, s <| max_slot_id := max_slot |> <| slot_table := new_table max_slot |> <| cycle_period := cycle |>);;
      init_sync_job (if backup_offset =? 0 then XMIT_SYNC else BACKUP_SYNC);;
      when (negb (backup_offset =? 0))
        (set_flag TDMA_FLAG_BACKUP_MASTER;;
         modify (λ s, s <| backup_sync_inc := u64 (backup_offset + cycle_period s) |>));;
      received ← test_flag TDMA_FLAG_RECEIVED_SYNC;
      (if received : bool then s ← gets sync_job; job_upd s (λ x, x <| job_id := WAIT_ON_SYNC |>)
       else set_flag TDMA_FLAG_CALIBRATED;; modify (λ s, s <| current_cycle_start := now |>));;
      modify (λ s, s <| first_job := Some (sync_job s) |> <| current_job := sync_job s |>);;
      set_flag TDMA_FLAG_ATTACHED;;
      mret 0.

(** The loop of [tdma_detach] over the jobs: the ring is walked with the next job saved,
    slots and replies are released. *)
Fixpoint detach_loop (fuel : nat) (first job : Z) : M tdma () :=
  match fuel with
  | O => ub
  | S fuel =>
      if job =? first then mret ()
      else
        j ← job_load job;
        let tmp := entry_next j in
        (if 0 <=? job_id j then tdma_cleanup_slot (Some job);; mret ()
         else if job_id j =? XMIT_RPL_CAL then
           __job_list_del (entry_prev j) (entry_next j);;
           r ← reply_load job;
           in_tkern (kfree_rtskb (Some (reply_rtskb r)))
         else mret ());;
        detach_loop fuel first tmp
  end.
Definition detach_jobs : M tdma () :=
  f ← gets first_job;
  f ← deref f;
  j ← job_load f;
  n ← gets (λ s, S (size (jobs s)));
  detach_loop n f (entry_next j).
(** [dev_release] is [tdma_dev_release], [join] the wait for the end of the worker. *)
Definition tdma_detach (dev_release : M tdma Z) (join : M tdma ()) : M tdma Z :=
  set_flag TDMA_FLAG_SHUTDOWN;;
  err ← dev_release;
  if err <? 0 then mret err
  else
    join;;
    detach_jobs;;
    modify (λ s, s <| slot_table := [] |>);;
    m ← test_flag TDMA_FLAG_MASTER;
    when (CONFIG_RTNET_TDMA_MASTER && m) (p ← gets cal_rtskb_pool; in_tkern (__rtskb_pool_release p));;
    mret 0.
End defs.
