(* ===== verification/TdmaRing.v ===== *)
(** * The ring of TDMA jobs

    The list heads of the jobs as an abstract ring: [list_add] and [__list_del] of Linux
    insert into and delete from the list that represents it; the searches of the code for
    the place of a new job end, and find the place that keeps the jobs in the order of
    their time offsets. *)
From S2P Require Import Prelude State RtskbQueue Rtskb RtskbData Rtdev IpFragment Socket IpOutput IpInput Rtmac Tdma TdmaIoctl.
From Stdlib Require Import Sorted.

(** ** Links *)

Implicit Types (h : gmap Z tdma_job) (f a b c : Z) (l js : list Z).

Definition next_of h a : option Z := entry_next <$> h !! a.
Definition prev_of h a : option Z := entry_prev <$> h !! a.
Definition linked h a b : Prop := next_of h a = Some b ∧ prev_of h b = Some a.
(** From [a] through [l] to [b], forwards and backwards. *)
Fixpoint path h a l b : Prop :=
  match l with
  | [] => linked h a b
  | c :: l => linked h a c ∧ path h c l b
  end.
Definition ring h f js : Prop := path h f js f ∧ NoDup (f :: js).

Lemma path_app h a l1 c l2 b : path h a (l1 ++ c :: l2) b ↔ path h a l1 c ∧ path h c l2 b.
Proof. revert a. induction l1 as [|e l1 IH]; intros a; cbn; [done|]. rewrite IH. tauto. Qed.
Lemma path_frame h h' a l b :
  (∀ c, c ∈ a :: l → next_of h' c = next_of h c) → (∀ c, c ∈ l ++ [b] → prev_of h' c = prev_of h c) →
  path h a l b → path h' a l b.
Proof.
  revert a. induction l as [|c l IH]; intros a Hn Hp; cbn.
  - intros [E1 E2]. split; [rewrite Hn|rewrite Hp]; [done|set_solver|done|set_solver].
  - intros [[E1 E2] Hl]. split; [split; [rewrite Hn|rewrite Hp]; [done|set_solver|done|set_solver]|].
    apply IH; [..|done]; intros; [apply Hn|apply Hp]; set_solver.
Qed.
Lemma next_of_some h a b : next_of h a = Some b → is_Some (h !! a).
Proof. unfold next_of. rewrite fmap_Some. intros (x & -> & _). eauto. Qed.
Lemma prev_of_some h a b : prev_of h a = Some b → is_Some (h !! a).
Proof. unfold prev_of. rewrite fmap_Some. intros (x & -> & _). eauto. Qed.
Lemma path_exists h a l b c : path h a l b → c ∈ a :: l ++ [b] → is_Some (h !! c).
Proof.
  revert a. induction l as [|e l IH]; intros a Hp Hc; cbn in Hp.
  - destruct Hp as [E1 E2]. apply elem_of_cons in Hc as [->|Hc]; [by eapply next_of_some|].
    apply list_elem_of_singleton in Hc as ->. by eapply prev_of_some.
  - destruct Hp as [[E1 _] Hp]. apply elem_of_cons in Hc as [->|Hc]; [by eapply next_of_some|]. by eapply IH.
Qed.

(** The last job of [f :: l], the first of [l] followed by [f]. *)
Definition before f l : Z := default f (last l).
Definition after f l : Z := default f (head l).
Lemma before_elem f l : before f l ∈ f :: l.
Proof. unfold before. destruct (last l) eqn:E; cbn; [apply last_Some in E as [? ->]; set_solver|set_solver]. Qed.
Lemma after_elem f l : after f l ∈ l ++ [f].
Proof. unfold after. destruct l; cbn; set_solver. Qed.
Lemma before_snoc f l a : before f (l ++ [a]) = a.
Proof. unfold before. by rewrite last_snoc. Qed.

(** What a list operation may change. *)
Definition relinks h h' : Prop :=
  ∀ a, match h !! a, h' !! a with
       | Some x, Some y => y = x <| entry_next := entry_next y |> <| entry_prev := entry_prev y |>
       | None, None => True
       | _, _ => False
       end.
Lemma relinks_refl h : relinks h h.
Proof. intros a. by destruct (h !! a) as [[]|]. Qed.
Lemma relinks_upd h h' a x y :
  relinks h h' → h' !! a = Some x → y = x <| entry_next := entry_next y |> <| entry_prev := entry_prev y |> →
  relinks h (<[a := y]> h').
Proof.
  intros HR Ha Hy b. specialize (HR b). destruct (decide (a = b)) as [->|]; simplify_map_eq; [|done].
  destruct (h !! b) as [z|]; [|done]. rewrite Hy, HR. by destruct z, y.
Qed.
Lemma relinks_lookup h h' a x : relinks h h' → h !! a = Some x →
  ∃ y, h' !! a = Some y ∧ y = x <| entry_next := entry_next y |> <| entry_prev := entry_prev y |>.
Proof. intros HR Hx. specialize (HR a). rewrite Hx in HR. destruct (h' !! a); [eauto|done]. Qed.

(** ** The list operations *)

Lemma wp_job_load j x (Q : tdma_job → tdma → Prop) s : jobs s !! j = Some x → Q x s → wp (job_load j) Q s.
Proof. intros Hx HQ. unfold job_load. wp_run. done. Qed.
Lemma wp_job_upd j g x (Q : () → tdma → Prop) s :
  jobs s !! j = Some x → Q () (s <| jobs := <[j := g x]> (jobs s) |>) → wp (job_upd j g) Q s.
Proof. intros Hx HQ. unfold job_upd. wp_run. eapply wp_job_load; [done|]. by wp_run. Qed.
(** One store to a link. *)
Lemma next_of_upd h c x v a : h !! c = Some x →
  next_of (<[c := x <| entry_next := v |>]> h) a = (if decide (a = c) then Some v else next_of h a) ∧
  prev_of (<[c := x <| entry_next := v |>]> h) a = prev_of h a.
Proof. intros Hx. unfold next_of, prev_of. case_decide as E; [subst|]; simplify_map_eq; done. Qed.
Lemma prev_of_upd h c x v a : h !! c = Some x →
  prev_of (<[c := x <| entry_prev := v |>]> h) a = (if decide (a = c) then Some v else prev_of h a) ∧
  next_of (<[c := x <| entry_prev := v |>]> h) a = next_of h a.
Proof. intros Hx. unfold next_of, prev_of. destruct (decide (a = c)) as [->|]; simplify_map_eq; done. Qed.
Lemma wp_set_next c v (Q : () → tdma → Prop) s :
  is_Some (jobs s !! c) →
  (∀ h', relinks (jobs s) h' → (∀ a, next_of h' a = if decide (a = c) then Some v else next_of (jobs s) a) →
     (∀ a, prev_of h' a = prev_of (jobs s) a) → Q () (s <| jobs := h' |>)) →
  wp (job_upd c (λ x, x <| entry_next := v |>)) Q s.
Proof.
  intros [x Hx] HQ. eapply wp_job_upd; [done|]. apply HQ.
  - eapply relinks_upd; [apply relinks_refl|done|by destruct x].
  - intros a. by apply next_of_upd.
  - intros a. by apply next_of_upd.
Qed.
Lemma wp_set_prev c v (Q : () → tdma → Prop) s :
  is_Some (jobs s !! c) →
  (∀ h', relinks (jobs s) h' → (∀ a, prev_of h' a = if decide (a = c) then Some v else prev_of (jobs s) a) →
     (∀ a, next_of h' a = next_of (jobs s) a) → Q () (s <| jobs := h' |>)) →
  wp (job_upd c (λ x, x <| entry_prev := v |>)) Q s.
Proof.
  intros [x Hx] HQ. eapply wp_job_upd; [done|]. apply HQ.
  - eapply relinks_upd; [apply relinks_refl|done|by destruct x].
  - intros a. by apply prev_of_upd.
  - intros a. by apply prev_of_upd.
Qed.
Lemma relinks_trans h1 h2 h3 : relinks h1 h2 → relinks h2 h3 → relinks h1 h3.
Proof.
  intros H1 H2 a. specialize (H1 a). specialize (H2 a).
  destruct (h1 !! a) as [x|], (h2 !! a) as [y|], (h3 !! a) as [z|]; try done. rewrite H2, H1. by destruct x.
Qed.
Lemma relinks_some h h' a : relinks h h' → is_Some (h' !! a) ↔ is_Some (h !! a).
Proof. intros HR. specialize (HR a). destruct (h !! a), (h' !! a); naive_solver. Qed.

Lemma list_del_run s p n (Q : () → tdma → Prop) :
  is_Some (jobs s !! p) → is_Some (jobs s !! n) →
  (∀ h', relinks (jobs s) h' → (∀ a, next_of h' a = if decide (a = p) then Some n else next_of (jobs s) a) →
     (∀ a, prev_of h' a = if decide (a = n) then Some p else prev_of (jobs s) a) → Q () (s <| jobs := h' |>)) →
  wp (__job_list_del p n) Q s.
Proof.
  intros Hp Hn HQ. unfold __job_list_del. wp_run. apply wp_set_prev; [done|]. intros h1 R1 P1 N1.
  apply wp_set_next; [by apply (relinks_some _ _ _ R1)|]. cbn. intros h2 R2 N2 P2. apply HQ.
  - by eapply relinks_trans.
  - intros a. by rewrite N2, N1.
  - intros a. by rewrite P2, P1.
Qed.
Lemma list_add_run s new hd n (Q : () → tdma → Prop) :
  is_Some (jobs s !! new) → next_of (jobs s) hd = Some n → is_Some (jobs s !! n) → new ≠ hd → new ≠ n →
  (∀ h', relinks (jobs s) h' →
     (∀ a, next_of h' a = if decide (a = hd) then Some new else if decide (a = new) then Some n else next_of (jobs s) a) →
     (∀ a, prev_of h' a = if decide (a = n) then Some new else if decide (a = new) then Some hd else prev_of (jobs s) a) →
     Q () (s <| jobs := h' |>)) →
  wp (job_list_add new hd) Q s.
Proof.
  intros Hnew Hhd Hn N1 N2 HQ. unfold next_of in Hhd. destruct (jobs s !! hd) as [x|] eqn:Hx; [|done].
  injection Hhd as Ex. unfold job_list_add. wp_run. eapply wp_job_load; [done|]. rewrite Ex.
  wp_run. apply wp_set_prev; [done|]. intros h1 R1 P1 X1.
  apply wp_bind, wp_set_next; [by apply (relinks_some _ _ _ R1)|]. cbn. intros h2 R2 X2 P2.
  apply wp_bind, wp_set_prev; [cbn; rewrite (relinks_some _ _ _ R2); by apply (relinks_some _ _ _ R1)|]. cbn. intros h3 R3 P3 X3.
  apply wp_set_next; [cbn; rewrite (relinks_some _ _ _ R3), (relinks_some _ _ _ R2), (relinks_some _ _ _ R1); eauto|].
  cbn. intros h4 R4 X4 P4. apply HQ.
  - eauto using relinks_trans.
  - intros a. rewrite X4, X3, X2, X1. done.
  - intros a. rewrite P4, P3, P2, P1. repeat case_decide; congruence.
Qed.

(** ** Insertion into and deletion from a ring *)

Lemma ring_linked h f l1 l2 : ring h f (l1 ++ l2) → linked h (before f l1) (after f l2).
Proof.
  intros [Hp _]. destruct l1 as [|a l1 _] using rev_ind; cbn.
  - unfold before, after. cbn. destruct l2; cbn in *; [done|by destruct Hp].
  - rewrite <-app_assoc in Hp. cbn in Hp. apply path_app in Hp as [_ Hp]. rewrite before_snoc. unfold after.
    destruct l2; cbn in *; [done|by destruct Hp].
Qed.
Lemma ring_frame h h' f js : (∀ c, c ∈ f :: js → h' !! c = h !! c) → ring h f js → ring h' f js.
Proof.
  intros Hc [Hp Hnd]. split; [|done]. eapply path_frame; [..|exact Hp]; intros c Hin; unfold next_of, prev_of; rewrite Hc; set_solver.
Qed.
Lemma ring_exists h f js c : ring h f js → c ∈ f :: js → is_Some (h !! c).
Proof. intros [Hp _] Hc. eapply path_exists; [exact Hp|]. set_solver. Qed.

Lemma NoDup_before f l1 l2 : NoDup (f :: l1 ++ l2) → before f l1 ∉ l2.
Proof. pose proof (before_elem f l1). rewrite app_comm_cons, NoDup_app. intros (_ & Hd & _). by apply Hd. Qed.
Lemma NoDup_after f l1 l2 : NoDup (f :: l1 ++ l2) → after f l2 ∉ l1.
Proof.
  rewrite NoDup_cons, NoDup_app. intros (Hf & _ & Hd & _) Hin.
  destruct (elem_of_app l2 [f] (after f l2)) as [[Ha|Ha] _]; [apply after_elem|by eapply Hd|].
  apply list_elem_of_singleton in Ha. rewrite Ha in Hin. apply Hf, elem_of_app. by left.
Qed.
(** The path of a ring splits before and behind the cut. *)
Lemma ring_split h f l1 l2 :
  path h f (l1 ++ l2) f ↔
  match l1 with [] => True | _ => path h f (removelast l1) (before f l1) end ∧ linked h (before f l1) (after f l2) ∧
  match l2 with [] => True | a :: l2 => path h a l2 f end.
Proof.
  destruct l1 as [|a l1 _] using rev_ind.
  - cbn. unfold before, after. cbn. destruct l2; cbn; tauto.
  - rewrite <-app_assoc. cbn [app]. rewrite path_app, before_snoc, removelast_last.
    assert (E : match l1 ++ [a] with [] => True | _ => path h f l1 a end ↔ path h f l1 a) by (by destruct l1).
    rewrite E. unfold after. destruct l2; cbn; tauto.
Qed.
Lemma removelast_before l1 f : l1 ≠ [] → l1 = removelast l1 ++ [before f l1].
Proof. intros Hne. destruct l1 as [|a l1 _] using rev_ind; [done|]. by rewrite removelast_last, before_snoc. Qed.

Lemma ring_add h h' f l1 l2 new :
  ring h f (l1 ++ l2) → new ∉ f :: l1 ++ l2 →
  (∀ a, next_of h' a = if decide (a = before f l1) then Some new else if decide (a = new) then Some (after f l2) else next_of h a) →
  (∀ a, prev_of h' a = if decide (a = after f l2) then Some new else if decide (a = new) then Some (before f l1) else prev_of h a) →
  ring h' f (l1 ++ new :: l2).
Proof.
  intros [Hp Hnd] Hnew Hn Hv. pose proof (before_elem f l1) as Hb. pose proof (after_elem f l2) as Ha.
  assert (Hnb : new ≠ before f l1) by set_solver. assert (Hna : new ≠ after f l2) by set_solver.
  pose proof (NoDup_before _ _ _ Hnd) as Hb2. pose proof (NoDup_after _ _ _ Hnd) as Ha1. split.
  - apply ring_split in Hp as (P1 & _ & P2). rewrite path_app. split.
    + destruct l1 as [|a l1'].
      { split; [rewrite Hn, decide_True by done; done|rewrite Hv, decide_False, decide_True by done; done]. }
      set (l1 := a :: l1') in *. rewrite (removelast_before l1 f) by done. rewrite path_app. split.
      * eapply path_frame; [..|exact P1].
        -- intros c Hc. rewrite Hn, !decide_False; [done|..]; intros ->.
           ++ apply Hnew. rewrite (removelast_before l1 f) by done. set_solver.
           ++ rewrite (removelast_before l1 f) in Hnd by done.
              rewrite app_comm_cons, NoDup_app in Hnd. destruct Hnd as (Hnd & _). rewrite app_comm_cons, NoDup_app in Hnd.
              destruct Hnd as (_ & Hd & _). eapply (Hd (before f l1)); [done|set_solver].
        -- intros c Hc. assert (c ∈ l1) by (rewrite (removelast_before l1 f) by done; set_solver).
           rewrite Hv, !decide_False; [done|..]; intros ->; [set_solver|done].
      * split; [rewrite Hn, decide_True by done; done|rewrite Hv, decide_False, decide_True by done; done].
    + assert (Hlink : linked h' new (after f l2)).
      { split; [rewrite Hn, decide_False, decide_True by done; done|rewrite Hv, decide_True by done; done]. }
      destruct l2 as [|a l2]; [exact Hlink|]. split; [exact Hlink|]. eapply path_frame; [..|exact P2].
      * intros c Hc. rewrite Hn, !decide_False; [done|..]; intros ->; set_solver.
      * intros c Hc. assert (Hca : c ≠ a).
        { intros ->. rewrite NoDup_cons, NoDup_app in Hnd. destruct Hnd as (Hf & _ & _ & Hnd2).
          apply NoDup_cons in Hnd2 as [Hnd2 _]. set_solver. }
        rewrite Hv, !decide_False; [done|set_solver|done].
  - rewrite <-Permutation_middle, <-Permutation_swap. apply NoDup_cons. done.
Qed.
Lemma ring_del h h' f l1 c l2 :
  ring h f (l1 ++ c :: l2) →
  (∀ a, next_of h' a = if decide (a = before f l1) then Some (after f l2) else next_of h a) →
  (∀ a, prev_of h' a = if decide (a = after f l2) then Some (before f l1) else prev_of h a) →
  ring h' f (l1 ++ l2).
Proof.
  intros [Hp Hnd] Hn Hv. pose proof (before_elem f l1) as Hb. pose proof (after_elem f l2) as Ha.
  assert (Hnd' : NoDup (f :: l1 ++ l2)).
  { rewrite <-Permutation_middle, <-Permutation_swap in Hnd. by apply NoDup_cons in Hnd as [_ Hnd]. }
  pose proof (NoDup_before _ _ _ Hnd') as Hb2. pose proof (NoDup_after _ _ _ Hnd') as Ha1. split; [|done].
  apply ring_split in Hp as (P1 & _ & P2). apply ring_split. split_and!.
  - destruct l1 as [|a l1']; [done|]. set (l1 := a :: l1') in *. eapply path_frame; [..|exact P1].
    + intros e He. rewrite Hn, decide_False; [done|]. intros ->.
      rewrite (removelast_before l1 f) in Hnd' by done.
      rewrite app_comm_cons, NoDup_app in Hnd'. destruct Hnd' as (Hnd' & _). rewrite app_comm_cons, NoDup_app in Hnd'.
      destruct Hnd' as (_ & Hd & _). eapply (Hd (before f l1)); [done|set_solver].
    + intros e He. assert (e ∈ l1) by (rewrite (removelast_before l1 f) by done; set_solver).
      rewrite Hv, decide_False; [done|]. by intros ->.
  - split; [rewrite Hn, decide_True by done; done|rewrite Hv, decide_True by done; done].
  - destruct l2 as [|a l2]; [done|]. cbn in P2. destruct P2 as [_ P2]. eapply path_frame; [..|exact P2].
    + intros e He. rewrite Hn, decide_False; [done|]. intros ->. set_solver.
    + intros e He. assert (Hca : e ≠ a).
      { intros ->. rewrite NoDup_cons, NoDup_app in Hnd'. destruct Hnd' as (Hf & _ & _ & Hnd2).
        apply NoDup_cons in Hnd2 as [Hnd2 _]. set_solver. }
      rewrite Hv, decide_False; [done|]. set_solver.
Qed.
(** The neighbours of a job of a ring. *)
Lemma ring_neighbours h f l1 c l2 :
  ring h f (l1 ++ c :: l2) → prev_of h c = Some (before f l1) ∧ next_of h c = Some (after f l2).
Proof.
  intros Hr. split.
  - apply (ring_linked h f l1 (c :: l2)) in Hr as [_ Hr]. exact Hr.
  - replace (l1 ++ c :: l2) with ((l1 ++ [c]) ++ l2) in Hr by (by rewrite <-app_assoc).
    apply ring_linked in Hr as [Hr _]. by rewrite before_snoc in Hr.
Qed.

(** ** Jobs in the order of their offsets *)

(** The number of a job tells what it is. *)
Definition job_ok (x : tdma_job) : Prop :=
  match job_rest x with
  | SYNC_JOB => job_id x = WAIT_ON_SYNC ∨ job_id x = XMIT_SYNC ∨ job_id x = BACKUP_SYNC
  | SLOT_JOB _ => 0 ≤ job_id x
  | REQUEST_CAL_JOB _ => job_id x = XMIT_REQ_CAL
  | REPLY_CAL_JOB _ => job_id x = XMIT_RPL_CAL
  end.
(** The offset in the cycle at which a job is due, if it has one. *)
Definition time_of (x : tdma_job) : option Z :=
  match job_rest x with
  | SLOT_JOB s => Some (offset s)
  | REPLY_CAL_JOB r => Some (reply_offset r)
  | _ => None
  end.
Definition offsets h js : list Z := omap (λ j, h !! j ≫= time_of) js.

(** The jobs of a station: a ring that starts with the synchronisation job, in which
    slots and replies come in the order of their offsets. *)
Record job_ring (s : tdma) f js : Prop := {
  jr_first : first_job s = Some f;
  jr_ring : ring (jobs s) f js;
  jr_sync : ∃ x, jobs s !! f = Some x ∧ job_rest x = SYNC_JOB;
  jr_ok : ∀ j x, j ∈ f :: js → jobs s !! j = Some x → job_ok x;
  jr_rest : ∀ j x, j ∈ js → jobs s !! j = Some x → job_rest x ≠ SYNC_JOB;
  jr_order : StronglySorted Z.le (offsets (jobs s) js);
}.

Lemma relinks_time h h' js : relinks h h' → offsets h' js = offsets h js.
Proof.
  intros HR. unfold offsets. induction js as [|j js IH]; [done|]. cbn. rewrite IH. specialize (HR j).
  destruct (h !! j) as [x|], (h' !! j) as [y|]; try done. cbn. replace (time_of y) with (time_of x); [done|]. by rewrite HR.
Qed.
Lemma offsets_app h l1 l2 : offsets h (l1 ++ l2) = offsets h l1 ++ offsets h l2.
Proof. apply omap_app. Qed.
Lemma sorted_insert (l1 l2 : list Z) v :
  StronglySorted Z.le (l1 ++ l2) → Forall (λ x, x ≤ v) l1 → Forall (λ x, v ≤ x) l2 → StronglySorted Z.le (l1 ++ v :: l2).
Proof.
  induction l1 as [|a l1 IH]; cbn; intros Hs H1 H2; [by constructor|].
  apply StronglySorted_inv in Hs as [Hs Ha]. inversion H1; subst. constructor; [by apply IH|].
  apply Forall_app in Ha as [Ha1 Ha2]. apply Forall_app. split; [done|]. by constructor.
Qed.
Lemma sorted_delete (l1 l2 : list Z) v : StronglySorted Z.le (l1 ++ v ++ l2) → StronglySorted Z.le (l1 ++ l2).
Proof.
  induction l1 as [|a l1 IH]; cbn; intros Hs.
  - induction v as [|b v IHv]; [done|]. apply IHv. by apply StronglySorted_inv in Hs as [Hs _].
  - apply StronglySorted_inv in Hs as [Hs Ha]. constructor; [by apply IH|]. rewrite !Forall_app in *. tauto.
Qed.

(** A job with offset [v] may stand between [l1] and [l2]. *)
Definition fits h l1 l2 (v : Z) : Prop := Forall (λ x, x ≤ v) (offsets h l1) ∧ Forall (λ x, v ≤ x) (offsets h l2).

Lemma job_ring_insert s s' f l1 l2 new x h :
  job_ring s f (l1 ++ l2) → new ∉ f :: l1 ++ l2 → h !! new = Some x → job_ok x → job_rest x ≠ SYNC_JOB →
  (∀ j, j ≠ new → h !! j = jobs s !! j) →
  (∀ v, time_of x = Some v → fits (jobs s) l1 l2 v) →
  relinks h (jobs s') → first_job s' = first_job s →
  (∀ a, next_of (jobs s') a = if decide (a = before f l1) then Some new else if decide (a = new) then Some (after f l2) else next_of h a) →
  (∀ a, prev_of (jobs s') a = if decide (a = after f l2) then Some new else if decide (a = new) then Some (before f l1) else prev_of h a) →
  job_ring s' f (l1 ++ new :: l2).
Proof.
  intros [Hf Hr (y & Hy & Hys) Hok Hrest Hs] Hnew Hx Hokx Hsx Hoth Hfit HR Ef Hn Hp.
  assert (Hback : ∀ j z, jobs s' !! j = Some z → ∃ z0, h !! j = Some z0 ∧ job_rest z = job_rest z0 ∧ job_id z = job_id z0).
  { intros j z Hz. specialize (HR j). rewrite Hz in HR. destruct (h !! j) as [z0|]; [|done]. exists z0. split; [done|]. by rewrite HR. }
  assert (Hold : ∀ j, j ∈ f :: l1 ++ l2 → h !! j = jobs s !! j) by (intros j Hj; apply Hoth; by intros ->).
  split; [congruence|..].
  - eapply (ring_add h); try done. by eapply ring_frame.
  - destruct (relinks_lookup h (jobs s') f y HR) as (z & Hz & Ez); [by rewrite Hold by set_solver|]. exists z. split; [done|]. by rewrite Ez.
  - intros j z Hj Hz. destruct (Hback j z Hz) as (z0 & Hz0 & Er & Ei). unfold job_ok. rewrite Er, Ei.
    destruct (decide (j = new)) as [->|Hne]; [by simplify_eq|]. assert (Hj' : j ∈ f :: l1 ++ l2) by set_solver.
    rewrite Hold in Hz0 by done. by apply (Hok j z0).
  - intros j z Hj Hz. destruct (Hback j z Hz) as (z0 & Hz0 & -> & _). destruct (decide (j = new)) as [->|Hne]; [by simplify_eq|].
    assert (Hj' : j ∈ l1 ++ l2) by set_solver. rewrite Hold in Hz0 by set_solver. by apply (Hrest j z0).
  - rewrite (relinks_time h) by done. rewrite offsets_app in *. unfold offsets at 2. cbn [omap list_omap]. rewrite Hx. cbn.
    assert (El : ∀ l, (∀ j, j ∈ l → j ∈ l1 ++ l2) → offsets h l = offsets (jobs s) l).
    { intros l. induction l as [|j l IH]; [done|]. intros Hl. unfold offsets in *. cbn. rewrite Hold by set_solver.
      rewrite IH by set_solver. done. }
    fold (offsets h l2). rewrite !El by set_solver. destruct (time_of x) as [v|] eqn:Ev; [|done].
    destruct (Hfit v eq_refl). by apply sorted_insert.
Qed.

Lemma job_ring_same (s s' : tdma) f js :
  job_ring s f js → (∀ c, c ∈ f :: js → jobs s' !! c = jobs s !! c) → first_job s' = first_job s → job_ring s' f js.
Proof.
  intros [Hf Hr (x & Hx & Hs) Hok Hrest Ho] Hc Ef. split.
  - congruence.
  - by eapply ring_frame.
  - exists x. rewrite Hc by set_solver. done.
  - intros j y Hj. rewrite Hc by done. by apply Hok.
  - intros j y Hj. rewrite Hc by set_solver. by apply Hrest.
  - unfold offsets. replace (omap _ js) with (omap (λ j, jobs s !! j ≫= time_of) js); [done|].
    clear -Hc. induction js as [|j js IH]; [done|]. cbn. rewrite Hc by set_solver. rewrite IH by set_solver. done.
Qed.
(** [list_add] of a new job behind [l1]. *)
Lemma add_sorted_run s0 s f l1 l2 new x (Q : () → tdma → Prop) :
  job_ring s0 f (l1 ++ l2) → new ∉ f :: l1 ++ l2 → jobs s !! new = Some x → job_ok x → job_rest x ≠ SYNC_JOB →
  (∀ j, j ≠ new → jobs s !! j = jobs s0 !! j) → first_job s = first_job s0 →
  (∀ v, time_of x = Some v → fits (jobs s0) l1 l2 v) →
  (∀ h, job_ring (s <| jobs := h |>) f (l1 ++ new :: l2) → relinks (jobs s) h → Q () (s <| jobs := h |>)) →
  wp (job_list_add new (before f l1)) Q s.
Proof.
  intros Hr Hnew Hx Hok Hns Hoth Ef Hfit HQ.
  assert (Hold : ∀ j, j ∈ f :: l1 ++ l2 → jobs s !! j = jobs s0 !! j) by (intros j Hj; apply Hoth; by intros ->).
  pose proof (ring_frame _ (jobs s) _ _ Hold (jr_ring _ _ _ Hr)) as Hring.
  pose proof (ring_linked _ _ _ _ Hring) as [Hn Hp]. pose proof (before_elem f l1). pose proof (after_elem f l2).
  eapply (list_add_run s new (before f l1) (after f l2)); [done|done|by eapply prev_of_some|set_solver|set_solver|].
  intros h' HR Hn' Hp'. apply HQ; [|done]. by eapply (job_ring_insert s0 _ f l1 l2 new x (jobs s)).
Qed.

(** ** The searches *)

Section searches.
Context (MASTER : bool).
Implicit Types s : tdma.

(** Replies exist only at masters. *)
Definition no_stray_replies s js : Prop :=
  MASTER = true ∨ ∀ j x, j ∈ js → jobs s !! j = Some x → job_id x ≠ XMIT_RPL_CAL.

(** The decision at a job of the ring that is not the first one. *)
Lemma slot_place_run s f js c x off id (Q : bool → tdma → Prop) :
  job_ring s f js → no_stray_replies s js → c ∈ js → jobs s !! c = Some x →
  (∀ b : bool, (if b then ∃ v, time_of x = Some v ∧ off ≤ v else ∀ v, time_of x = Some v → v ≤ off) → Q b s) →
  wp (slot_place MASTER c off id) Q s.
Proof.
  intros [Hf [_ Hnd] _ Hok Hrest _] Hst Hc Hx HQ. unfold slot_place. wp_run. eapply wp_job_load; [done|]. wp_run.
  assert (Hcf : bool_decide (first_job s = Some c) = false).
  { rewrite bool_decide_eq_false, Hf. intros [= ->]. by apply NoDup_cons in Hnd as [? _]. }
  rewrite Hcf. pose proof (Hok c x ltac:(set_solver) Hx) as Hjo. unfold job_ok in Hjo. unfold time_of in HQ. unfold slot_of, reply_of.
  destruct (job_rest x) as [|t|r|r] eqn:Er.
  - by destruct (Hrest c x Hc Hx).
  - rewrite (proj2 (Z.leb_le _ _) Hjo). wp_run. rewrite orb_false_r. apply HQ.
    destruct (Z.ltb_spec off (offset t)); cbn; [exists (offset t); split; [done|lia]|].
    destruct (Z.eqb_spec off (offset t)); cbn; [|intros v [= <-]; lia].
    destruct (id <=? job_id x); [exists (offset t); split; [done|lia]|intros v [= <-]; lia].
  - rewrite Hjo. cbn [Z.leb Z.compare XMIT_REQ_CAL Z.eqb Pos.eqb XMIT_RPL_CAL]. rewrite andb_false_r. wp_run. by apply HQ.
  - rewrite Hjo. cbn [Z.leb Z.compare XMIT_RPL_CAL Z.eqb Pos.eqb].
    destruct Hst as [->|Hst]; [|by destruct (Hst c x Hc Hx)]. cbn [andb]. wp_run. rewrite orb_false_r. apply HQ.
    destruct (Z.ltb_spec off (reply_offset r)); [exists (reply_offset r); split; [done|lia]|intros v [= <-]; lia].
Qed.
Lemma slot_place_first s f js off id (Q : bool → tdma → Prop) :
  job_ring s f js → Q true s → wp (slot_place MASTER f off id) Q s.
Proof.
  intros [Hf _ (x & Hx & Er) Hok _ _] HQ. unfold slot_place. wp_run. eapply wp_job_load; [done|]. wp_run.
  pose proof (Hok f x ltac:(set_solver) Hx) as Hjo. unfold job_ok in Hjo. rewrite Er in Hjo.
  rewrite (bool_decide_eq_true_2 (first_job s = Some f)) by done.
  destruct Hjo as [-> | [-> | ->]]; cbn [Z.leb Z.compare WAIT_ON_SYNC XMIT_SYNC BACKUP_SYNC Z.eqb Pos.eqb XMIT_RPL_CAL];
    rewrite andb_false_r; wp_run; by rewrite orb_true_r.
Qed.

Lemma sorted_tail_ge v (l : list Z) : StronglySorted Z.le (v :: l) → Forall (λ x, v ≤ x) l.
Proof. by intros [_ ?]%StronglySorted_inv. Qed.
Lemma sorted_app_r (l1 l2 : list Z) : StronglySorted Z.le (l1 ++ l2) → StronglySorted Z.le l2.
Proof. induction l1; [done|]. intros [? _]%StronglySorted_inv. auto. Qed.
Lemma sorted_last_le (l : list Z) v : StronglySorted Z.le (l ++ [v]) → Forall (λ x, x ≤ v) (l ++ [v]).
Proof.
  induction l as [|a l IH]; cbn; intros Hs; [by constructor|]. apply StronglySorted_inv in Hs as [Hs Ha].
  constructor; [|by apply IH]. rewrite Forall_app in Ha. destruct Ha as [_ Ha]. by inversion Ha.
Qed.

Lemma find_slot_run fuel s f off id : ∀ l1 l2,
  job_ring s f (l1 ++ l2) → no_stray_replies s (l1 ++ l2) → Forall (λ x, x ≤ off) (offsets (jobs s) l1) → (length l2 < fuel)%nat →
  wp (find_slot_place MASTER fuel (before f l1) off id)
     (λ r s', s' = s ∧ ∃ m1 m2, l1 ++ l2 = m1 ++ m2 ∧ r = before f m1 ∧ fits (jobs s) m1 m2 off) s.
Proof.
  induction fuel as [|fuel IH]; intros l1 l2 Hr Hst H1 Hf; [lia|]. cbn [find_slot_place].
  destruct (ring_linked _ _ _ _ (jr_ring _ _ _ Hr)) as [Hn _]. unfold next_of in Hn.
  destruct (jobs s !! before f l1) as [x|] eqn:Hx; [|done]. injection Hn as Hn.
  wp_run. eapply wp_job_load; [done|]. rewrite Hn. wp_run. destruct l2 as [|c l2].
  - eapply slot_place_first; [done|]. wp_run. split; [done|]. exists l1, []. split_and!; [done..|]. by split; [|constructor].
  - change (after f (c :: l2)) with c.
    destruct (ring_exists _ _ _ c (jr_ring _ _ _ Hr)) as [y Hy]; [set_solver|].
    eapply (slot_place_run s f _ c y); [done|done|set_solver|done|]. intros b Hb. destruct b.
    + wp_run. split; [done|]. exists l1, (c :: l2). split_and!; [done..|]. split; [done|].
      destruct Hb as (v & Hv & Hle). pose proof (jr_order _ _ _ Hr) as Hs. rewrite offsets_app in Hs. apply sorted_app_r in Hs.
      unfold offsets in *. cbn in *. rewrite Hy in *. cbn in *. rewrite Hv in *. constructor; [done|].
      eapply Forall_impl; [by apply sorted_tail_ge|]. cbn. lia.
    + rewrite <-(before_snoc f l1 c) at 1. replace (l1 ++ c :: l2) with ((l1 ++ [c]) ++ l2) in * by (by rewrite <-app_assoc).
      apply IH; [done|done| |cbn in Hf; lia]. rewrite offsets_app. apply Forall_app. split; [done|].
      unfold offsets. cbn. rewrite Hy. cbn. destruct (time_of y) as [v|]; [|constructor]. constructor; [|constructor]. by apply Hb.
Qed.

Lemma sorted_app_l (l1 l2 : list Z) : StronglySorted Z.le (l1 ++ l2) → StronglySorted Z.le l1.
Proof.
  induction l1 as [|a l1 IH]; [constructor|]. intros [Hs Ha]%StronglySorted_inv. constructor; [by apply IH|].
  by apply Forall_app in Ha as [? _].
Qed.
Lemma reply_place_run s f js c x off (Q : bool → tdma → Prop) :
  job_ring s f js → c ∈ js → jobs s !! c = Some x →
  (∀ b : bool, (if b then ∃ v, time_of x = Some v ∧ v ≤ off else ∀ v, time_of x = Some v → off ≤ v) → Q b s) →
  wp (reply_place c off) Q s.
Proof.
  intros [Hf [_ Hnd] _ Hok Hrest _] Hc Hx HQ. unfold reply_place, get. apply wp_bind. unfold wp at 1.
  assert (Hcf : bool_decide (first_job s = Some c) = false).
  { rewrite bool_decide_eq_false, Hf. intros [= ->]. by apply NoDup_cons in Hnd as [? _]. }
  rewrite Hcf. wp_run. eapply wp_job_load; [done|].
  pose proof (Hok c x ltac:(set_solver) Hx) as Hjo. unfold job_ok in Hjo. unfold time_of in HQ. unfold slot_of, reply_of.
  destruct (job_rest x) as [|t|r|r] eqn:Er.
  - by destruct (Hrest c x Hc Hx).
  - rewrite (proj2 (Z.leb_le _ _) Hjo). wp_run. apply HQ.
    destruct (Z.ltb_spec (offset t) off); [exists (offset t); split; [done|lia]|intros v [= <-]; lia].
  - rewrite Hjo. cbn [Z.leb Z.compare XMIT_REQ_CAL Z.eqb Pos.eqb XMIT_RPL_CAL]. wp_run. by apply HQ.
  - rewrite Hjo. cbn [Z.leb Z.compare XMIT_RPL_CAL Z.eqb Pos.eqb]. wp_run. apply HQ.
    destruct (Z.ltb_spec (reply_offset r) off); [exists (reply_offset r); split; [done|lia]|intros v [= <-]; lia].
Qed.

(** The search for a reply goes backwards from the job before [l2], whose jobs are not
    due earlier. *)
Lemma find_reply_run fuel s f off : ∀ l1 l2,
  job_ring s f (l1 ++ l2) → Forall (λ x, off ≤ x) (offsets (jobs s) l2) → (length l1 < fuel)%nat →
  wp (find_reply_place fuel (after f l2) off)
     (λ r s', s' = s ∧ ∃ m1 m2, l1 ++ l2 = m1 ++ m2 ∧ r = before f m1 ∧ fits (jobs s) m1 m2 off) s.
Proof.
  induction fuel as [|fuel IH]; intros l1 l2 Hr H2 Hf; [lia|]. cbn [find_reply_place].
  destruct (ring_linked _ _ _ _ (jr_ring _ _ _ Hr)) as [_ Hp]. unfold prev_of in Hp.
  destruct (jobs s !! after f l2) as [x|] eqn:Hx; [|done]. injection Hp as Hp.
  wp_run. eapply wp_job_load; [done|]. rewrite Hp. wp_run. destruct l1 as [|e l1 _] using rev_ind.
  - unfold reply_place, get. apply wp_bind. unfold wp at 1. change (before f []) with f.
    rewrite (bool_decide_eq_true_2 (first_job s = Some f)) by apply Hr. wp_run. split; [done|]. exists [], l2.
    split_and!; [done..|]. by split; [constructor|].
  - rewrite before_snoc. destruct (ring_exists _ _ _ e (jr_ring _ _ _ Hr)) as [y Hy]; [set_solver|].
    pose proof (jr_order _ _ _ Hr) as Hs. rewrite offsets_app in Hs. apply sorted_app_l in Hs.
    eapply (reply_place_run s f _ e y); [done|set_solver|done|]. intros b Hb. destruct b.
    + wp_run. split; [done|]. exists (l1 ++ [e]), l2. split_and!; [done|by rewrite before_snoc|]. split; [|done].
      destruct Hb as (v & Hv & Hle). rewrite offsets_app in Hs |- *. unfold offsets at 2 in Hs. unfold offsets at 2. cbn in *. rewrite Hy in *. cbn in *. rewrite Hv in *.
      eapply Forall_impl; [by apply sorted_last_le|]. cbn. lia.
    + change e with (after f (e :: l2)) at 1. replace ((l1 ++ [e]) ++ l2) with (l1 ++ e :: l2) in * by (by rewrite <-app_assoc).
      apply IH; [done| |rewrite length_app in Hf; cbn in Hf; lia]. unfold offsets. cbn. rewrite Hy. cbn.
      destruct (time_of y) as [v|]; [|done]. constructor; [by apply Hb|done].
Qed.
End searches.
