(* ===== verification/TdmaSlots.v ===== *)
(** * Packets in TDMA slots

    The prioritized queues of all slots as one abstract map from queues to their packets;
    transmission by the stack is an insertion into it, a round of the worker is the
    schedule: every slot that is due wakes up at its offset in the cycle and sends the
    packet that waits longest at the highest priority. *)
From S2P Require Import Prelude State RtskbQueue Rtskb RtskbData Rtdev IpFragment Socket IpOutput IpInput Rtmac Tdma TdmaIoctl TdmaRing.

(** ** Several prioritized queues *)

Notation prio_map := (gmap nat (list (list nat))).

(** The first packet of the highest priority. *)
Fixpoint pop (L : list (list nat)) : option (nat * list (list nat)) :=
  match L with
  | [] => None
  | [] :: L => '(a, L') ← pop L; Some (a, [] :: L')
  | (a :: l) :: L => Some (a, l :: L)
  end.
Lemma pop_first L i a l :
  L !! i = Some (a :: l) → (∀ j k, (j < i)%nat → L !! j = Some k → k = []) → pop L = Some (a, <[i := l]> L).
Proof.
  revert i. induction L as [|k L IH]; intros i Hi Hlow; [done|]. destruct i as [|i]; cbn in *.
  - by injection Hi as ->.
  - rewrite (Hlow 0%nat k) by (done || lia). rewrite (IH i); [done..|]. intros j k' Hj Hk. apply (Hlow (S j)); [lia|done].
Qed.
Lemma pop_none L : (∀ i l, L !! i = Some l → l = []) → pop L = None.
Proof.
  induction L as [|k L IH]; intros Hl; [done|]. cbn. rewrite (Hl 0%nat k) by done. rewrite IH; [done|].
  intros i l Hi. by apply (Hl (S i)).
Qed.
Lemma pop_elem L a L' : pop L = Some (a, L') → ∃ l, l ∈ L ∧ a ∈ l.
Proof.
  revert L'. induction L as [|k L IH]; intros L' HL; [done|]. cbn in HL. destruct k as [|b k].
  - destruct (pop L) as [[b L1]|] eqn:E; [|done]. cbn in HL. simplify_eq. destruct (IH _ eq_refl) as (l & Hl & Ha).
    exists l. set_solver.
  - simplify_eq. exists (a :: k). set_solver.
Qed.

(** [P] describes prioritized queues that are disjoint from each other and from the
    pools; their packets are in use. *)
Record prio_world (k : kstate) (P : prio_map) (C : gmap nat (list nat)) : Prop := {
  pw_queue : ∀ q L, P !! q = Some L → is_prio_queue k q L;
  pw_packets : ∀ q1 q2 L1 L2 l1 l2 a, P !! q1 = Some L1 → P !! q2 = Some L2 → l1 ∈ L1 → l2 ∈ L2 → a ∈ l1 → a ∈ l2 → q1 = q2;
  pw_subs : ∀ q1 q2 Q1 Q2 i j, is_Some (P !! q1) → is_Some (P !! q2) → prioqs k !! q1 = Some Q1 → prioqs k !! q2 = Some Q2 →
    (i < 32)%nat → (j < 32)%nat → (sub_base Q1 + i = sub_base Q2 + j)%nat → q1 = q2;
  pw_pools : ∀ q Q i, is_Some (P !! q) → prioqs k !! q = Some Q → (i < 32)%nat → C !! (sub_base Q + i)%nat = None;
  pw_use : ∀ q L l a, P !! q = Some L → l ∈ L → a ∈ l → in_use C a;
}.
(** The packet [a] waits in one of the queues. *)
Definition queued (P : prio_map) (a : nat) : Prop := ∃ q L l, P !! q = Some L ∧ l ∈ L ∧ a ∈ l.

Section world.
Context `{Config}.
Implicit Types (k : kstate) (P : prio_map) (C : gmap nat (list nat)) (L : list (list nat)) (x y : rtskb).

Lemma is_prio_queue_frame k k' q L :
  is_prio_queue k q L → prioqs k' !! q = prioqs k !! q →
  (∀ Q i, prioqs k !! q = Some Q → (i < 32)%nat → queues k' !! (sub_base Q + i)%nat = queues k !! (sub_base Q + i)%nat) →
  (∀ l a x, l ∈ L → a ∈ l → skbs k !! a = Some x → ∃ y, skbs k' !! a = Some y ∧ next y = next x) →
  is_prio_queue k' q L.
Proof.
  intros [Hlen (Q & HQ & Hu & Hq) Hd] Ep Eq Es. split; [done| |done]. exists Q. rewrite Ep. split; [done|]. split; [done|].
  intros i l Hl. destruct (Hq i l Hl) as (Hb & Q0 & HQ0 & [Hl1 Hl2]). split; [done|]. exists Q0.
  rewrite (Eq Q i HQ) by (apply lookup_lt_Some in Hl; lia). split; [done|]. split; [|done].
  eapply lseg_frame; [exact Hl1|]. intros a x Ha Hx. destruct (Es l a x ltac:(by eapply list_elem_of_lookup_2) Ha Hx) as (y & Hy & Ey). eauto.
Qed.

(** Changes to the pools and to other packets. *)
Lemma prio_world_frame k k' P C C' :
  prio_world k P C → prioqs k' = prioqs k → (∀ q, C !! q = None → queues k' !! q = queues k !! q ∧ C' !! q = None) →
  (∀ b, queued P b → skbs k' !! b = skbs k !! b ∧ in_use C' b) → prio_world k' P C'.
Proof.
  intros [Hq Hpk Hsub Hpl Hu] Ep Eq Es. split.
  - intros q L HL. eapply is_prio_queue_frame; [by apply Hq|by rewrite Ep|..].
    + intros Q i HQ Hi. apply Eq. by eapply (Hpl q).
    + intros m b x Hm Hb Hx. exists x. split; [|done]. destruct (Es b) as [-> _]; [by exists q, L, m|done].
  - done.
  - intros q1 q2 Q1 Q2 i j. rewrite Ep. by apply Hsub.
  - intros q Q i HP HQ Hi. rewrite Ep in HQ. apply Eq. by eapply (Hpl q).
  - intros q L m b HL Hm Hb. apply Es. by exists q, L, m.
Qed.
Lemma queued_use k P C a : prio_world k P C → queued P a → in_use C a.
Proof. intros Hw (q & L & l & HL & Hl & Ha). by eapply (pw_use _ _ _ Hw). Qed.
(** An operation on the queue [q] that leaves it with the packets [L']. *)
Lemma prio_world_step k k' P C q L L' W :
  pools_inv k C → prio_world k P C → P !! q = Some L → prio_step k k' q W → is_prio_queue k' q L' →
  (∀ a, a ∈ W → in_use C a ∧ ∀ q' M l, q' ≠ q → P !! q' = Some M → l ∈ M → a ∉ l) →
  (∀ l a, l ∈ L' → a ∈ l → in_use C a ∧ ∀ q' M l, q' ≠ q → P !! q' = Some M → l ∈ M → a ∉ l) →
  pools_inv k' C ∧ prio_world k' (<[q := L']> P) C ∧ same_packets k k'.
Proof.
  intros Hinv [Hq Hpk Hsub Hpl Hu] HL [Ew Hsk Hqs Hoth Hbase] HL' HW HLw.
  destruct (pq_object _ _ _ (Hq _ _ HL)) as (Q & HQ & _ & Hqq). destruct (Hbase Q HQ) as (Q' & HQ' & Eb).
  assert (Hsp : same_packets k k') by (by eapply relinked_packets).
  assert (Hkeep : ∀ q', q' ≠ q → is_Some (P !! q') → prioqs k' !! q' = prioqs k !! q') by (intros; by apply Hoth).
  split_and!; [|split|done].
  - eapply pools_inv_frame; [exact Hinv|..].
    + intros q0 l0 Hl0. destruct (pi_queue _ _ Hinv _ _ Hl0) as (Q0 & HQ0 & _). exists Q0, Q0.
      rewrite (Hqs Q q0 HQ); [done|]. intros i Hi ->. rewrite (Hpl q Q i) in Hl0; eauto. done.
    + intros q0 l0 a Hl0 Ha. eapply relinked_out; [exact Hsk|]. intros HaW. destruct (HW a HaW) as [Hua _]. by eapply Hua.
  - intros q0 M [[<- <-]|[Hne HM]]%lookup_insert_Some; [done|]. eapply is_prio_queue_frame; [by apply Hq|by apply Hoth|..].
    + intros Q0 i HQ0 Hi. apply (Hqs Q); [done|]. intros j Hj E. apply Hne. symmetry. eapply (Hsub q0 q Q0 Q i j); eauto.
    + intros l a x Hl Ha Hx. exists x. split; [|done]. rewrite <-Hx. eapply relinked_out; [exact Hsk|].
      intros HaW. destruct (HW a HaW) as [_ Hno]. by eapply (Hno q0 M l).
  - intros q1 q2 L1 L2 l1 l2 a [[<- <-]|[Hne1 H1]]%lookup_insert_Some [[<- <-]|[Hne2 H2]]%lookup_insert_Some Hl1 Hl2 Ha1 Ha2; [done|..].
    + destruct (HLw l1 a Hl1 Ha1) as [_ Hno]. by destruct (Hno q2 L2 l2).
    + destruct (HLw l2 a Hl2 Ha2) as [_ Hno]. by destruct (Hno q1 L1 l1).
    + by eapply (Hpk q1 q2).
  - assert (Hb' : ∀ q0 Q0, prioqs k' !! q0 = Some Q0 → ∃ Q1, prioqs k !! q0 = Some Q1 ∧ sub_base Q0 = sub_base Q1).
    { intros q0 Q0 HQ0. destruct (decide (q0 = q)) as [->|Hne]; [exists Q; split; [done|congruence]|].
      exists Q0. by rewrite <-Hoth. }
    assert (Hd : ∀ q0, is_Some (<[q := L']> P !! q0) → is_Some (P !! q0)).
    { intros q0 [M HM]. apply lookup_insert_Some in HM as [[<- _]|[_ HM]]; eauto. }
    intros q1 q2 Q1 Q2 i j H1 H2 HQ1 HQ2 Hi Hj E. destruct (Hb' _ _ HQ1) as (R1 & HR1 & E1), (Hb' _ _ HQ2) as (R2 & HR2 & E2).
    rewrite E1, E2 in E. eapply (Hsub q1 q2 R1 R2 i j); auto.
  - intros q0 Q0 i [M HM] HQ0 Hi. apply lookup_insert_Some in HM as [[<- _]|[Hne HM]].
    + assert (Q0 = Q') as -> by congruence. rewrite Eb. eapply (Hpl q Q); eauto.
    + rewrite Hoth in HQ0 by done. eapply (Hpl q0 Q0); eauto.
  - intros q0 M l a [[<- <-]|[Hne HM]]%lookup_insert_Some Hl Ha; [by eapply HLw|by eapply (Hu q0 M l)].
Qed.

Lemma world_dequeue k P C q L (R : option nat → kstate → Prop) :
  pools_inv k C → prio_world k P C → P !! q = Some L →
  match pop L with
  | None => R None k
  | Some (a, L') => ∀ k', pools_inv k' C → prio_world k' (<[q := L']> P) C → same_packets k k' →
      k' = k <| skbs := skbs k' |> <| queues := queues k' |> <| prioqs := prioqs k' |> →
      ¬ queued (<[q := L']> P) a → R (Some a) k'
  end →
  wp (__rtskb_prio_dequeue q) R k.
Proof.
  intros Hinv Hw HL HR. pose proof (pw_queue _ _ _ Hw _ _ HL) as Hpq.
  eapply wp_mono; [|by apply prio_dequeue_run]. intros r k' [(-> & -> & Hno)|(i & a & l & Hi & -> & Hlow & Hpq' & Hst)].
  { by rewrite (pop_none L) in HR. }
  rewrite (pop_first L i a l Hi Hlow) in HR. pose proof (lookup_lt_Some _ _ _ Hi) as Hlt.
  assert (Hal : (a :: l) ∈ L) by (by eapply list_elem_of_lookup_2).
  assert (Hel : ∀ m b, m ∈ <[i := l]> L → b ∈ m → ∃ m', m' ∈ L ∧ b ∈ m').
  { intros m b [j Hm]%list_elem_of_lookup Hb. apply list_lookup_insert_Some in Hm as [(_ & <- & _)|(_ & Hm)];
      [exists (a :: l); set_solver|exists m; split; [by eapply list_elem_of_lookup_2|done]]. }
  assert (Hin : ∀ m b, m ∈ L → b ∈ m → in_use C b ∧ ∀ q' M l', q' ≠ q → P !! q' = Some M → l' ∈ M → b ∉ l').
  { intros m b Hm Hb. split; [by eapply (pw_use _ _ _ Hw q L m)|]. intros q' M l' Hne HM Hl' Hbl. apply Hne.
    by eapply (pw_packets _ _ _ Hw q' q M L l' m). }
  destruct (prio_world_step k k' P C q L (<[i := l]> L) [a] Hinv Hw HL Hst Hpq') as (Hi' & Hw' & Hsp).
  - intros b ->%list_elem_of_singleton. apply (Hin (a :: l) a); [done|set_solver].
  - intros m b Hm Hb. destruct (Hel m b Hm Hb) as (m' & Hm' & Hb'). by apply (Hin m').
  - apply HR; [done..|apply Hst|]. intros (q0 & M & m & HM & Hm & Ha).
    apply lookup_insert_Some in HM as [[<- <-]|[Hne HM]].
    + apply list_elem_of_lookup in Hm as [j Hm]. apply list_lookup_insert_Some in Hm as [(<- & <- & _)|(Hne & Hm)].
      * destruct (pq_object _ _ _ Hpq) as (Q & _ & _ & Hqq). destruct (Hqq i _ Hi) as (_ & Q0 & _ & Hq0).
        apply is_queue_NoDup, NoDup_cons in Hq0 as [Hq0 _]. done.
      * apply Hne. eapply (pq_disjoint _ _ _ Hpq i j (a :: l) m a); [done..|set_solver|done].
    + destruct (Hin (a :: l) a) as [_ Hno]; [done|set_solver|]. by eapply (Hno q0 M m).
Qed.

Lemma world_enqueue k P C q L i l a x (R : () → kstate → Prop) :
  pools_inv k C → prio_world k P C → P !! q = Some L → L !! i = Some l →
  skbs k !! a = Some x → chain_end x = Some a → queue_prio x = Z.of_nat i → in_use C a → ¬ queued P a →
  (∀ k', pools_inv k' C → prio_world k' (<[q := <[i := l ++ [a]]> L]> P) C → same_packets k k' →
     k' = k <| skbs := skbs k' |> <| queues := queues k' |> <| prioqs := prioqs k' |> → R () k') →
  wp (__rtskb_prio_queue_tail q a) R k.
Proof.
  intros Hinv Hw HL Hl Hx He Hp Hu Hnw HR. pose proof (pw_queue _ _ _ Hw _ _ HL) as Hpq.
  eapply wp_mono; [|eapply (prio_queue_tail_run k q L a x [a] i l); [done|by eapply is_chain_single|done| |done|done]].
  2: { intros b j m ->%list_elem_of_singleton Hm Ha. apply Hnw. exists q, L, m. split_and!; [done|by eapply list_elem_of_lookup_2|done]. }
  intros [] k' [Hpq' Hst].
  assert (Hin : ∀ m b, m ∈ L → b ∈ m → in_use C b ∧ ∀ q' M l', q' ≠ q → P !! q' = Some M → l' ∈ M → b ∉ l').
  { intros m b Hm Hb. split; [by eapply (pw_use _ _ _ Hw q L m)|]. intros q' M l' Hne HM Hl' Hbl. apply Hne.
    by eapply (pw_packets _ _ _ Hw q' q M L l' m). }
  assert (Ha : in_use C a ∧ ∀ q' M l', q' ≠ q → P !! q' = Some M → l' ∈ M → a ∉ l').
  { split; [done|]. intros q' M l' _ HM Hl' Hal. apply Hnw. by exists q', M, l'. }
  assert (Hll : l ∈ L) by (by eapply list_elem_of_lookup_2).
  destruct (prio_world_step k k' P C q L (<[i := l ++ [a]]> L) (l ++ [a]) Hinv Hw HL Hst Hpq') as (Hi' & Hw' & Hsp).
  - intros b [Hb| ->%list_elem_of_singleton]%elem_of_app; [by apply (Hin l)|done].
  - intros m b [j Hm]%list_elem_of_lookup Hb. apply list_lookup_insert_Some in Hm as [(_ & <- & _)|(_ & Hm)].
    + apply elem_of_app in Hb as [Hb|Hb%list_elem_of_singleton]; [by apply (Hin l)|by subst].
    + apply (Hin m); [by eapply list_elem_of_lookup_2|done].
  - apply HR; [done..|apply Hst].
Qed.
End world.

(** ** Transmission by the stack *)

Lemma wp_in_tkern {A} (m : M kstate A) (R : A → tdma → Prop) s :
  wp m (λ a k, R a (set_tkern k s)) (tkern s) → wp (in_tkern m) R s.
Proof. apply (wp_zoom tkern set_tkern). Qed.
Lemma tkern_set k s : tkern (set_tkern k s) = k.
Proof. done. Qed.
Lemma set_tkern_twice k k' s : set_tkern k' (set_tkern k s) = set_tkern k' s.
Proof. done. Qed.
Lemma set_tkern_id k s : k = tkern s → set_tkern k s = s.
Proof. intros ->. unfold set_tkern, tkern. destruct s as [v]. by destruct v. Qed.
Lemma wp_slot_load j x sl (R : tdma_slot → tdma → Prop) s :
  jobs s !! j = Some x → job_rest x = SLOT_JOB sl → R sl s → wp (slot_load j) R s.
Proof. intros Hx Hr HR. unfold slot_load, slot_of. wp_run. eapply wp_job_load; [done|]. rewrite Hr. by wp_run. Qed.
Lemma wp_slot_entry c e (R : option Z → tdma → Prop) s :
  slot_table s !! Z.to_nat c = Some e → R e s → wp (slot_entry c) R s.
Proof. intros He HR. unfold slot_entry. wp_run. done. Qed.

Section tx.
Context `{Config}.
Implicit Types (s : tdma) (k : kstate) (P : prio_map) (C : gmap nat (list nat)) (x y : rtskb).

Lemma same_packets_refl k : same_packets k k.
Proof. intros b x Hx. exists x. split; [done|]. by destruct x. Qed.
Lemma prio_world_touch k P C a x y :
  prio_world k P C → skbs k !! a = Some x → next y = next x → prio_world (upd_skb a y k) P C.
Proof.
  intros [Hq Hpk Hsub Hpl Hu] Hx En. split; try done. intros q L HL. eapply is_prio_queue_frame; [by apply Hq|done..|].
  intros l b z Hl Hb Hz. cbn. destruct (decide (a = b)) as [->|]; simplify_map_eq; eauto.
Qed.

(** What becomes of a packet [a] for the entry [e] of the slot table: no slot, too long for
    it, or the last of its priority in the queue of the slot. *)
Definition tx_outcome s P C (e : option Z) (a : nat) x (r : Z) s' : Prop :=
  jobs s' = jobs s ∧ slot_table s' = slot_table s ∧ pools_inv (tkern s') C ∧ xmit_log (tkern s') = xmit_log (tkern s) ∧
  match e with
  | None => r = - EAGAIN ∧ prio_world (tkern s') P C
  | Some j => ∃ jx sl, jobs s !! j = Some jx ∧ job_rest jx = SLOT_JOB sl ∧
      if slot_size sl <? len x then r = - EMSGSIZE ∧ prio_world (tkern s') P C
      else r = 0 ∧ ∃ L i l, P !! queue sl = Some L ∧ L !! i = Some l ∧ queue_prio x = Z.of_nat i ∧
        prio_world (tkern s') (<[queue sl := <[i := l ++ [a]]> L]> P) C
  end.
(** The slots of the table exist, and their queues are among those of [P]. *)
Definition table_ok s P : Prop :=
  ∀ i j, slot_table s !! i = Some (Some j) → ∃ jx sl, jobs s !! j = Some jx ∧ job_rest jx = SLOT_JOB sl ∧ is_Some (P !! queue sl).

Lemma enqueue_run s s0 P C e a x i :
  pools_inv (tkern s) C → prio_world (tkern s) P C → table_ok s P → e ∈ slot_table s →
  skbs (tkern s) !! a = Some x → chain_end x = Some a → queue_prio x = Z.of_nat i → (i < 32)%nat → in_use C a → ¬ queued P a →
  jobs s0 = jobs s → slot_table s0 = slot_table s → xmit_log (tkern s0) = xmit_log (tkern s) →
  wp (slot_enqueue e a) (tx_outcome s0 P C e a x) s.
Proof.
  intros Hinv Hw Ht He Hx Hce Hpr Hi Hu Hnw Ej Et El. unfold slot_enqueue, tx_outcome. rewrite Ej, Et, El.
  apply list_elem_of_lookup in He as [n He]. destruct e as [j|]; [|by apply wp_ret].
  destruct (Ht n j He) as (jx & sl & Hj & Hr & [L HL]). wp_run. apply wp_in_tkern. eapply wp_skb_load; [done|].
  rewrite set_tkern_id by done. wp_run. eapply wp_slot_load; [done..|]. destruct (slot_size sl <? len x) eqn:Esz.
  - wp_run. split_and!; [done..|]. exists jx, sl. rewrite Esz. done.
  - pose proof (pq_length _ _ _ (pw_queue _ _ _ Hw _ _ HL)) as Hlen. destruct (lookup_lt_is_Some_2 L i) as [l Hl]; [lia|].
    wp_run. apply wp_in_tkern. eapply world_enqueue; [done..|]. intros k' Hi' Hw' _ Ek. wp_run. rewrite tkern_set.
    split_and!; [done..|by rewrite Ek|]. exists jx, sl. rewrite Esz. split_and!; [done..|]. by exists L, i, l.
Qed.
Lemma queue_prio_bound x : (0 ≤ Z.land (priority x) RTSKB_PRIO_MASK ≤ 31 ∨ CONFIG_RTNET_CHECKED = true) →
  ∃ i, queue_prio x = Z.of_nat i ∧ (i < 32)%nat.
Proof.
  intros Hp. pose proof (land_nonneg_bound (priority x) RTSKB_PRIO_MASK ltac:(done)) as Hb. unfold queue_prio, assert_fails.
  destruct (Z.leb_spec (Z.land (priority x) RTSKB_PRIO_MASK) 31); cbn.
  - rewrite andb_false_r. exists (Z.to_nat (Z.land (priority x) RTSKB_PRIO_MASK)). lia.
  - rewrite andb_true_r. destruct CONFIG_RTNET_CHECKED; [exists 31%nat; lia|]. destruct Hp; [lia|done].
Qed.

(** [tdma_rt_packet_tx] on a packet whose channel number is in the slot table:
    without a slot there it is refused with [-EAGAIN], one that is longer than the slot
    takes with [-EMSGSIZE]; any other waits behind all packets of its priority in the queue
    of the slot.  Nothing is sent yet and no other queue changes. *)
Theorem tdma_rt_packet_tx_correct s P C now a x e :
  pools_inv (tkern s) C → prio_world (tkern s) P C → table_ok s P → slot_table s !! Z.to_nat (channel (priority x)) = Some e →
  skbs (tkern s) !! a = Some x → chain_end x = Some a → in_use C a → ¬ queued P a →
  (0 ≤ Z.land (priority x) RTSKB_PRIO_MASK ≤ 31 ∨ CONFIG_RTNET_CHECKED = true) →
  wp (tdma_rt_packet_tx now a) (tx_outcome s P C e a x) s.
Proof.
  intros Hinv Hw Ht He Hx Hce Hu Hnw Hpr. destruct (stamped_same now x) as (E1 & E2 & E3 & E4 & _).
  destruct (queue_prio_bound x Hpr) as (i & Hi & Hlt).
  unfold tdma_rt_packet_tx. wp_run. apply wp_in_tkern. eapply mark_run; [done|]. wp_run. apply wp_in_tkern. rewrite tkern_set.
  apply wp_upd_skb_load. rewrite set_tkern_twice, E4. wp_run. eapply wp_slot_entry; [done|].
  set (s1 := set_tkern (upd_skb a (stamped now x) (tkern s)) s).
  eapply wp_mono; [|eapply (enqueue_run s1 s P C e a (stamped now x) i)]; try done.
  - intros r s' Hout. unfold tx_outcome in *. rewrite E3 in Hout. unfold queue_prio in *. by rewrite E4 in Hout.
  - unfold s1. rewrite tkern_set. eapply pools_inv_touch; [exact Hinv|exact Hu|..]; cbn; [|eauto]. intros b Hb. by apply lookup_insert_ne.
  - unfold s1. rewrite tkern_set. by eapply prio_world_touch.
  - by eapply list_elem_of_lookup_2.
  - unfold s1. rewrite tkern_set. apply upd_skb_lookup.
  - congruence.
  - unfold queue_prio. by rewrite E4.
Qed.

(** A channel number beyond the slot table is used as an index all the same. *)
Lemma tdma_tx_channel_unchecked s now a x :
  CONFIG_RTNET_ADDON_RTCAP = false → skbs (tkern s) !! a = Some x →
  (length (slot_table s) ≤ Z.to_nat (channel (priority x)))%nat → tdma_rt_packet_tx now a s = None.
Proof.
  intros Hc Hx Hlen. unfold tdma_rt_packet_tx, rtcap_mark_rtmac_enqueue, slot_entry. rewrite Hc.
  unfold in_tkern, zoom, skb_load, gets, deref, mbind, M_bind, when, mret, M_ret. rewrite set_tkern_id by done. rewrite Hx.
  rewrite set_tkern_id by done. by rewrite lookup_ge_None_2.
Qed.
End tx.
