(* ===== verification/TdmaFrames.v ===== *)
(** * TDMA frames

    The frames a station makes and sends, and what it takes from those it receives: the
    cycle and the clock of the master from a synchronisation frame, the packet delay
    from the answer to a calibration request. *)
From S2P Require Import Prelude State RtskbQueue Rtskb RtskbData Rtdev IpFragment Socket IpOutput IpInput Rtmac Tdma TdmaIoctl TdmaRing TdmaSlots.

Section frames.
Context `{Config} (d : nat) (D : rtnet_device).
Context (hard_header : nat → option (nat → Z → list Z → list Z → Z → M kstate Z)).
Implicit Types (s : tdma) (k : kstate) (C : gmap nat (list nat)) (x y : rtskb).

(** A packet [a] from the pool [q], of which [l] is left, with the headers and room for
    [n] bytes at [frm]. *)
Record frame_made s C (q : nat) (l : list nat) (lh : list Z) (n : nat) (a : nat) (frm : Z) k y : Prop := {
  fm_world : same_world (tkern s) k;
  fm_queues : only_queue q (tkern s) k;
  fm_others : ∀ b, b ≠ a → skbs k !! b = skbs (tkern s) !! b;
  fm_pools : pools_inv k (<[q := l]> C);
  fm_use : in_use (<[q := l]> C) a;
  fm_skb : skbs k !! a = Some y;
  fm_wf : wf_rtskb y;
  fm_end : chain_end y = Some a;
  fm_pool : pool y = Some q;
  fm_dev : rtdev y = Some d;
  fm_place : frm = data y + Z.of_nat (length lh) + 4;
  fm_bytes : ∃ G, length G = n ∧ payload y = lh ++ rtmac_header RTMAC_TYPE_TDMA 0 ++ G;
}.
(** The buffers of the pool hold the headers and [n] bytes. *)
Definition frame_room k (l : list nat) (n : Z) : Prop :=
  ∀ b x, b ∈ l → skbs k !! b = Some x → mac_room D + n ≤ Z.of_nat (length (buf x)) < 2 ^ 32.

Lemma mac_room_bound : 0 ≤ hard_header_len D → hard_header_len D + 4 ≤ mac_room D ≤ hard_header_len D + 19.
Proof.
  intros Hh. unfold mac_room, RTMAC_HLEN. rewrite <-Z.ldiff_land. change 15 with (Z.ones 4) at 2 4. rewrite Z.ldiff_ones_r by done.
  rewrite Z.shiftr_div_pow2, Z.shiftl_mul_pow2 by done. change (2 ^ 4) with 16. divlia.
Qed.

Lemma new_frame_run s C q l n daddr lh :
  devs (tkern s) !! d = Some D → pools_inv (tkern s) C → C !! q = Some l → 0 ≤ hard_header_len D → 0 ≤ n →
  hard_header_len D + 4 + n + 15 ≤ SKB_DATA_ALIGN RTSKB_SIZE → frame_room (tkern s) l n → mac_link hard_header d D (daddr D) lh →
  wp (new_frame d hard_header q n daddr)
     (λ r s', match l with
              | [] => r = (None, - ENOMEM) ∧ s' = s
              | a :: l' => ∃ frm k y, r = (Some (a, frm), 0) ∧ s' = set_tkern k s ∧ frame_made s C q l' lh (Z.to_nat n) a frm k y
              end) s.
Proof.
  intros HD Hinv Hl Hh Hn Hsz Hroom Hlh. pose proof (mac_room_bound Hh) as Hmr. unfold new_frame. wp_run. apply wp_in_tkern. eapply wp_dev_load; [done|].
  rewrite set_tkern_id by done. wp_run. apply wp_in_tkern.
  eapply wp_mono; [|apply wp_both; [eapply (alloc_rtskb_run (tkern s) C q l)|eapply (alloc_rtskb_only (tkern s) C q l)]; try done; unfold RTMAC_HLEN; lia].
  intros r k1 [Hr Honly]. destruct l as [|a l]; [destruct Hr as [-> ->]; apply wp_ret; split; [done|]; by rewrite set_tkern_id|].
  destruct Hr as (-> & Ek & Hinv1 & Hu & _ & Hoth & x0 & x & Hx0 & Hx & Eb & Ebs & _ & Ece & Epl & Ed & Et & _ & El & _).
  destruct (Hroom a x0 ltac:(set_solver) Hx0) as [Hr1 Hr2]. rewrite <-Eb in Hr1, Hr2.
  wp_run. apply wp_in_tkern. rewrite tkern_set. eapply wp_skb_upd; [done|].
  set (x1 := rtskb_reserve (mac_room D) x). fold (upd_skb a x1 k1). rewrite set_tkern_twice.
  assert (Hw1 : wf_rtskb x1) by (unfold x1, rtskb_reserve; split; cbn; lia).
  wp_run. apply wp_in_tkern. rewrite tkern_set. apply wp_upd_skb_load. rewrite set_tkern_twice.
  assert (Ht1 : tailroom x1 = Z.of_nat (length (buf x)) - mac_room D) by (unfold tailroom, x1, rtskb_reserve; cbn; lia).
  destruct (put_ok x1 n Hw1 ltac:(lia)) as (Ep & Hw2 & _). rewrite Ep in Hw2 |- *. cbn [snd] in Hw2. set (x2 := x1 <| tail := _ |> <| len := _ |>) in *.
  wp_run. apply wp_in_tkern. rewrite tkern_set. apply wp_upd_skb_store. rewrite set_tkern_twice. wp_run.
  apply wp_in_tkern. rewrite tkern_set.
  eapply wp_mono; [|eapply (add_header_run hard_header d D _ a x2 (daddr D) lh RTMAC_TYPE_TDMA 0); [apply upd_skb_lookup|cbn; by rewrite Ek|done|done| |done]].
  2: { unfold headroom, x2, x1, rtskb_reserve, RTMAC_HLEN. cbn. lia. }
  intros r k2 (-> & y & -> & Hwy & Hry & Hdy & Hpy). rewrite set_tkern_twice, upd_skb_twice. cbn [Z.ltb Z.compare]. wp_run.
  assert (Hlx : len x2 = n) by (unfold x2, x1, rtskb_reserve; cbn; lia).
  exists (tail x1), (upd_skb a y k1), y. split_and!; [done..|]. split; try done.
  - unfold same_world in *. rewrite Ek. done.
  - intros b Hb. cbn. rewrite lookup_insert_ne by done. by apply Hoth.
  - eapply pools_inv_touch; [exact Hinv1|exact Hu|..]; cbn; [intros b Hb; by apply lookup_insert_ne|eauto].
  - apply upd_skb_lookup.
  - by rewrite Hry.
  - by rewrite Hry.
  - by rewrite Hry.
  - assert (data x2 = buf_start x + mac_room D ∧ tail x1 = buf_start x + mac_room D) by (unfold x2, x1, rtskb_reserve; cbn; lia). lia.
  - exists (payload x2). split; [|done]. pose proof (length_payload _ Hw2). lia.
Qed.

Context (drv_xmit : nat → nat → M kstate Z) (global_pool : nat).

(** The kernel after the frame [fr] in packet [a] of the pool [q] is sent; [l] is left of
    the pool. *)
Record frame_sent s C (q : nat) (l : list nat) (a : nat) (fr : list Z) k : Prop := {
  fs_world : k = (tkern s) <| skbs := skbs k |> <| queues := queues k |> <| xmit_log := xmit_log (tkern s) ++ [(d, a, fr)] |>;
  fs_queues : only_queue q (tkern s) k;
  fs_others : ∀ b, b ≠ a → skbs k !! b = skbs (tkern s) !! b;
  fs_pools : pools_inv k (<[q := l]> C);
  fs_use : in_use (<[q := l]> C) a;
  fs_skb : ∃ y, skbs k !! a = Some y ∧ pool y = Some q ∧ rtdev y = Some d ∧ chain_end y = Some a;
}.

Lemma fill_run s C q l lh bytes a frm k y (Q : () → tdma → Prop) :
  frame_made s C q l lh (length bytes) a frm k y →
  (∀ k' y', frame_made s C q l lh (length bytes) a frm k' y' → payload y' = lh ++ rtmac_header RTMAC_TYPE_TDMA 0 ++ bytes →
     Q () (set_tkern k' s)) →
  wp (in_tkern (skb_write a frm bytes)) Q (set_tkern k s).
Proof.
  intros [Ew Eq Eo Hi Hu Hy Hwf He Hp Hd -> (G & HG & HpG)] HQ. apply wp_in_tkern. rewrite tkern_set.
  pose proof (length_payload _ Hwf) as Hlen. rewrite HpG, !length_app, length_rtmac_header in Hlen.
  eapply (wp_write_at a y (length lh + 4)); [done|done|lia|lia|]. intros y' [Ey Ly] Hwy Hpy. rewrite set_tkern_twice.
  apply (HQ _ y').
  - split; try done.
    + by rewrite Ew.
    + intros b Hb. cbn. rewrite lookup_insert_ne by done. by apply Eo.
    + eapply pools_inv_touch; [exact Hi|exact Hu|..]; cbn; [intros b Hb; by apply lookup_insert_ne|eauto].
    + apply upd_skb_lookup.
    + by rewrite Ey.
    + by rewrite Ey.
    + by rewrite Ey.
    + rewrite Ey. cbn. lia.
    + exists bytes. split; [done|]. rewrite Hpy, HpG. rewrite !app_assoc.
      rewrite <-(length_rtmac_header RTMAC_TYPE_TDMA 0) at 1. rewrite <-length_app, <-(app_nil_r G), splice_mid by done. by rewrite app_nil_r.
  - rewrite Hpy, HpG. rewrite !app_assoc.
    rewrite <-(length_rtmac_header RTMAC_TYPE_TDMA 0) at 1. rewrite <-length_app, <-(app_nil_r G), splice_mid by done. by rewrite app_nil_r.
Qed.
Lemma stamp_and_send {B} s C q l lh bytes a frm k y st (K : Z → M tdma B) (Q : B → tdma → Prop) :
  takes_all drv_xmit d → devs (tkern s) !! d = Some D → frame_made s C q l lh (length bytes) a frm k y →
  (∀ k', frame_sent s C q l a (lh ++ rtmac_header RTMAC_TYPE_TDMA 0 ++ bytes) k' → wp (K 0) Q (set_tkern k' s)) →
  wp (in_tkern (skb_write a frm bytes);; in_tkern (skb_upd a (λ x, x <| xmit_stamp := st |>));; r ← in_tkern (rtmac_xmit drv_xmit a); K r) Q (set_tkern k s).
Proof.
  intros Ht HD Hm HQ. wp_run. eapply fill_run; [done|]. clear k y Hm. intros k y [Ew Eq Eo Hi Hu Hy Hwf He Hp Hd _ _] Hpy. wp_run.
  apply wp_in_tkern. rewrite tkern_set. eapply wp_skb_upd; [done|]. set (y1 := y <| xmit_stamp := st |>). fold (upd_skb a y1 k).
  rewrite set_tkern_twice. wp_run. apply wp_in_tkern. rewrite tkern_set.
  eapply (mac_xmit_run drv_xmit d D (upd_skb a y1 k) a y1); [done|apply upd_skb_lookup|done|cbn; by rewrite Ew|]. rewrite set_tkern_twice.
  apply HQ. change (payload y1) with (payload y). rewrite Hpy. split; try done.
  - cbn. rewrite Ew. done.
  - intros b Hb. cbn. rewrite lookup_insert_ne by done. by apply Eo.
  - apply pools_inv_log. eapply pools_inv_touch; [exact Hi|exact Hu|..]; cbn; [intros b Hb; by apply lookup_insert_ne|eauto].
  - exists y1. split; [apply upd_skb_lookup|done].
Qed.

Lemma length_sync_frame c o t : length (sync_frame c o t) = 24%nat.
Proof. unfold sync_frame, wr64. destruct little_endian; by rewrite !length_app, !length_wr32. Qed.
Lemma length_req_cal_frame c o : length (req_cal_frame c o) = 24%nat.
Proof. done. Qed.

(** The synchronisation frame of the current cycle, if there is a free buffer. *)
Lemma sync_frame_run s C l lh (Q : () → tdma → Prop) :
  takes_all drv_xmit d → devs (tkern s) !! d = Some D → pools_inv (tkern s) C → C !! global_pool = Some l → 0 ≤ hard_header_len D →
  hard_header_len D + 43 ≤ SKB_DATA_ALIGN RTSKB_SIZE → frame_room (tkern s) l SYNC_LEN → mac_link hard_header d D (broadcast D) lh →
  match l with
  | [] => Q () s
  | a :: l' => ∀ k, frame_sent s C global_pool l' a (lh ++ rtmac_header RTMAC_TYPE_TDMA 0 ++
        sync_frame (current_cycle s) (clock_offset s) (u64 (clock_offset s + current_cycle_start s))) k →
      Q () (set_tkern k s <| sync_pulses := S (sync_pulses s) |>)
  end →
  wp (tdma_xmit_sync_frame global_pool d hard_header drv_xmit) Q s.
Proof.
  intros Ht HD Hinv Hl Hh Hsz Hroom Hlh HQ. unfold tdma_xmit_sync_frame. wp_run.
  eapply wp_mono; [|eapply (new_frame_run s C global_pool l SYNC_LEN (λ D, broadcast D) lh); try done; unfold SYNC_LEN; lia].
  intros r s1 Hr. destruct l as [|a l]; [destruct Hr as [-> ->]; by wp_run|].
  destruct Hr as (frm & k & y & -> & -> & Hm). cbn [fst]. wp_run. apply wp_get.
  change (sync_frame _ _ _) with
    (sync_frame (current_cycle s) (clock_offset s) (u64 (clock_offset s + current_cycle_start s))).
  eapply (stamp_and_send s C global_pool l lh _ a frm k y); [done|done|by rewrite length_sync_frame|]. intros k' Hs. unfold event_pulse. wp_run. by apply HQ.
Qed.
(** A calibration request to the master, which asks for an answer at [off] in [cycle]. *)
Lemma request_frame_run s C l lh cycle off (Q : Z → tdma → Prop) :
  takes_all drv_xmit d → devs (tkern s) !! d = Some D → pools_inv (tkern s) C → C !! global_pool = Some l → 0 ≤ hard_header_len D →
  hard_header_len D + 43 ≤ SKB_DATA_ALIGN RTSKB_SIZE → frame_room (tkern s) l REQ_CAL_LEN → mac_link hard_header d D (master_hw_addr s) lh →
  match l with
  | [] => Q (- ENOMEM) s
  | a :: l' => ∀ k, frame_sent s C global_pool l' a (lh ++ rtmac_header RTMAC_TYPE_TDMA 0 ++ req_cal_frame cycle off) k → Q 0 (set_tkern k s)
  end →
  wp (tdma_xmit_request_cal_frame global_pool d hard_header drv_xmit cycle off) Q s.
Proof.
  intros Ht HD Hinv Hl Hh Hsz Hroom Hlh HQ. unfold tdma_xmit_request_cal_frame. wp_run.
  eapply wp_mono; [|eapply (new_frame_run s C global_pool l REQ_CAL_LEN (λ _, master_hw_addr s) lh); try done; unfold REQ_CAL_LEN; lia].
  intros r s1 Hr. destruct l as [|a l]; [destruct Hr as [-> ->]; by wp_run|].
  destruct Hr as (frm & k & y & -> & -> & Hm). cbn [fst snd].
  eapply (stamp_and_send s C global_pool l lh (req_cal_frame cycle off) a frm k y); [done..|]. intros k' Hs. wp_run. by apply HQ.
Qed.
End frames.

(** ** Received frames *)

Section rx.
Context `{Config} (MASTER : bool) (sizeof_reply_cal : Z) (d : nat).
Context (hard_header : nat → option (nat → Z → list Z → list Z → Z → M kstate Z)).
Implicit Types (s : tdma) (k : kstate) (C : gmap nat (list nat)) (x y : rtskb).

(** A field of a packet. *)
Lemma payload_field x pre f post addr (n : Z) :
  wf_rtskb x → payload x = pre ++ f ++ post → addr = data x + Z.of_nat (length pre) → n = Z.of_nat (length f) →
  buf_read x addr n = Some f.
Proof.
  intros Hwf Hp -> ->. pose proof (length_payload _ Hwf) as Hl. rewrite Hp, !length_app in Hl.
  rewrite payload_read, Hp by (done || lia). rewrite !Nat2Z.id, drop_app_length, take_app_length. done.
Qed.
Lemma loose_pulled s C a x rp n :
  pools_inv (tkern s) C → loose (tkern s) C a x rp → 0 ≤ n ≤ len x →
  ∃ y, snd (rtskb_pull n x) = y ∧ loose (upd_skb a y (tkern s)) C a y rp ∧ pools_inv (upd_skb a y (tkern s)) C.
Proof.
  intros Hinv [Hx Hwf He Hp Hps Hu Hc] Hn. destruct (pull_ok x n Hwf ltac:(lia)) as (E & Hw & _). rewrite E in *. cbn [snd] in *.
  eexists. split; [done|]. split; [split; try done; apply upd_skb_lookup|].
  eapply pools_inv_touch; [exact Hinv|exact Hu|..]; cbn; [intros b Hb; by apply lookup_insert_ne|eauto].
Qed.
Lemma buf_read_size x addr n b : buf_read x addr n = Some b → length b = Z.to_nat n.
Proof. unfold buf_read. destruct (_ && _) eqn:E; [|done]. intros [= <-]. rewrite length_take, length_drop. lia. Qed.
(** Packet [a] is back in the pool [rp], and nothing else is different. *)
Definition released k C (a rp : nat) k' : Prop :=
  ∃ lr, C !! rp = Some lr ∧ pools_inv k' (<[rp := lr ++ [a]]> C) ∧ same_world k k' ∧ only_queue rp k k' ∧
    ∀ b, b ∉ lr ++ [a] → skbs k' !! b = skbs k !! b.
Lemma rx_release k0 s C a y rp (Q : () → tdma → Prop) :
  tkern s = upd_skb a y k0 → pools_inv (tkern s) C → loose (tkern s) C a y rp →
  (∀ k, released k0 C a rp k → Q () (set_tkern k s)) →
  wp (in_tkern (kfree_rtskb (Some a))) Q s.
Proof.
  intros Ek Hinv Hlo HQ. destruct (lo_pools _ _ _ _ _ Hlo) as [lr Hlr]. apply wp_in_tkern.
  destruct (loose_chain _ _ _ _ _ Hlo) as [Hc Hr]. eapply wp_mono; [|by eapply kfree_rtskb_run].
  intros [] k (Hi & _ & Hw & Ho & Hb). apply HQ. exists lr. rewrite Ek in Hw, Ho, Hb. split_and!; try done.
  intros b Hnb. rewrite Hb by done. cbn. apply lookup_insert_ne. intros ->. apply Hnb, elem_of_app. right. by apply list_elem_of_singleton.
Qed.
(** The queues of other packets are as they were. *)
Lemma released_world k k' P C a rp :
  prio_world k P C → released k C a rp k' → ¬ queued P a →
  ∃ C', pools_inv k' C' ∧ prio_world k' P C' ∧ ∀ b, queued P b → skbs k' !! b = skbs k !! b.
Proof.
  intros Hw (lr & Hlr & Hi & Hsw & Ho & Hb) Hna. exists (<[rp := lr ++ [a]]> C).
  assert (Hnin : ∀ b, queued P b → b ∉ lr ++ [a]).
  { intros b Hwb [Hin| ->%list_elem_of_singleton]%elem_of_app; [|done]. by eapply (queued_use _ _ _ _ Hw Hwb). }
  split_and!; [done| |by auto]. eapply prio_world_frame; [exact Hw|by rewrite Hsw|..].
  - intros q Hq. assert (q ≠ rp) by congruence. rewrite lookup_insert_ne by done. split; [by apply Ho|done].
  - intros b Hwb. split; [by auto|]. apply in_use_insert; [by eapply queued_use|by auto].
Qed.

Lemma s64_u64 z : - 2 ^ 63 ≤ z < 2 ^ 63 → s64 (u64 z) = z.
Proof. unfold s64, u64. intros Hz. rewrite Zplus_mod_idemp_l. rewrite Z.mod_small; lia. Qed.
Lemma s64_mod z : s64 z mod 2 ^ 64 = z mod 2 ^ 64.
Proof. unfold s64. rewrite Zminus_mod_idemp_l. f_equal. lia. Qed.
(** The two roundings of the clock offset cancel out. *)
Lemma offset_exact xmit delay o ts :
  - 2 ^ 63 ≤ o < 2 ^ 63 → ts = u64 (xmit + delay - o) → s64 (u64 (s64 (u64 (xmit + delay)) - ts)) = o.
Proof.
  intros Ho ->. rewrite <-(s64_u64 o) at 2 by done. f_equal. unfold u64 at 1 4. rewrite <-Zminus_mod_idemp_l, s64_mod.
  unfold u64. rewrite Z.mod_mod, Zminus_mod_idemp_l, Zminus_mod_idemp_r by done. f_equal. lia.
Qed.

(** The station in cycle [cycle], with a clock [o] behind that of the master at [src]. *)
Definition synchronised s (cycle start o : Z) (src : list Z) : tdma :=
  s <| current_cycle := cycle |> <| current_cycle_start := start |> <| clock_offset := o |>
    <| master_hw_addr := memcpy (master_hw_addr s) src ETH_ALEN |>
    <| tflags := Z.setbit (tflags s) TDMA_FLAG_RECEIVED_SYNC |> <| sync_pulses := S (sync_pulses s) |>.

(** The frame [x] in buffer [a] is a synchronisation frame for cycle [cycle] that left the
    master at [xmit] (of its clock), [sched] being the scheduled time; the clock of the
    station is [o] behind that of the master, and the frame took the calibrated delay. *)
Record sync_frame_at s C (a : nat) x (rp : nat) (cycle sched : Z) (src : list Z) (o : Z) : Prop := {
  sf_loose : loose (tkern s) C a x rp;
  sf_bytes : ∃ xmit pad, 0 ≤ xmit < 2 ^ 64 ∧ time_stamp x = u64 (xmit + master_packet_delay_ns s - o) ∧
    payload x = frm_head TDMA_FRM_SYNC ++ be32 cycle ++ be64 xmit ++ be64 sched ++ pad;
  sf_cycle : is_u32 cycle;
  sf_sched : 0 ≤ sched < 2 ^ 64;
  sf_offset : - 2 ^ 63 ≤ o < 2 ^ 63;
  sf_source : buf_read x (mac_raw x + 6) 6 = Some src;
}.

Lemma sync_rx_run s C a x rp cycle sched src o (Q : Z → tdma → Prop) :
  pools_inv (tkern s) C → sync_frame_at s C a x rp cycle sched src o →
  (∀ k, released (tkern s) C a rp k → Q 0 (set_tkern k (synchronised s cycle (u64 (sched - o)) o src))) →
  wp (tdma_packet_rx MASTER sizeof_reply_cal d hard_header a) Q s.
Proof.
  intros Hinv [Hlo (xmit & pad & Hxm & Hts & Hp) Hcy Hsc Ho Hsrc] HQ. pose proof Hlo as [Hx Hwf He Hpl Hps Hu Hc].
  pose proof (length_payload _ Hwf) as Hl. rewrite Hp, !length_app in Hl. cbn [length frm_head be16 be32 be64 app] in Hl.
  set (v := be16 TDMA_FRM_VERSION). set (i := be16 TDMA_FRM_SYNC). change (frm_head TDMA_FRM_SYNC) with (v ++ i) in Hp.
  assert (R1 : buf_read x (data x) 2 ≫= rd16 = Some (ntohs TDMA_FRM_VERSION)).
  { rewrite (payload_field x [] v (i ++ be32 cycle ++ be64 xmit ++ be64 sched ++ pad)); [by apply rd16_be16|done|by rewrite <-app_assoc in Hp|cbn; lia|done]. }
  assert (R2 : buf_read x (data x + 2) 2 ≫= rd16 = Some (ntohs TDMA_FRM_SYNC)).
  { rewrite (payload_field x v i (be32 cycle ++ be64 xmit ++ be64 sched ++ pad)); [by apply rd16_be16|done|by rewrite <-app_assoc in Hp|done|done]. }
  assert (R3 : buf_read x (data x + 4) 4 ≫= rd_be32 = Some cycle).
  { rewrite (payload_field x (v ++ i) (be32 cycle) (be64 xmit ++ be64 sched ++ pad)); [by apply rd_be32_be32|done..]. }
  assert (R4 : buf_read x (data x + 8) 8 ≫= rd_be64 = Some xmit).
  { rewrite (payload_field x (v ++ i ++ be32 cycle) (be64 xmit) (be64 sched ++ pad)); [by apply rd_be64_be64|done|by rewrite !app_assoc in *|done..]. }
  assert (R5 : buf_read x (data x + 16) 8 ≫= rd_be64 = Some sched).
  { rewrite (payload_field x (v ++ i ++ be32 cycle ++ be64 xmit) (be64 sched) pad); [by apply rd_be64_be64|done|by rewrite !app_assoc in *|done..]. }
  clearbody v i. unfold tdma_packet_rx. wp_run. apply wp_in_tkern. eapply wp_skb_load; [done|]. rewrite set_tkern_id by done. wp_run.
  rewrite Z.eqb_refl. cbn [negb]. wp_run. rewrite Z.eqb_refl. unfold rx_sync.
  destruct (loose_pulled s C a x rp SYNC_LEN Hinv Hlo) as (y & Ey & Hlo1 & Hinv1); [unfold SYNC_LEN; lia|].
  wp_run. apply wp_in_tkern. eapply wp_skb_upd; [done|]. rewrite Ey. fold (upd_skb a y (tkern s)). wp_run.
  apply wp_get. wp_run. unfold set_flag, event_pulse. wp_run.
  eapply (rx_release (tkern s)); [done..|]. intros k Hk. wp_run. specialize (HQ k Hk). unfold synchronised in HQ.
  change (master_packet_delay_ns (set_tkern _ s)) with (master_packet_delay_ns s).
  rewrite (offset_exact xmit (master_packet_delay_ns s) o) by done.
  exact HQ.
Qed.

(** Reception of a synchronisation frame: the station learns exactly how far
    its clock is behind, the cycle, and the start of the cycle on its own clock, and the
    address of the master; its worker is woken; the packet goes back to its pool. *)
Theorem tdma_sync_received s C a x rp cycle sched src o :
  pools_inv (tkern s) C → sync_frame_at s C a x rp cycle sched src o →
  wp (tdma_packet_rx MASTER sizeof_reply_cal d hard_header a)
     (λ r s', r = 0 ∧ released (tkern s) C a rp (tkern s') ∧ current_cycle s' = cycle ∧ clock_offset s' = o ∧
        u64 (current_cycle_start s' + o) = sched ∧ take ETH_ALEN (master_hw_addr s') = src ∧
        Z.testbit (tflags s') TDMA_FLAG_RECEIVED_SYNC = true ∧ sync_pulses s' = S (sync_pulses s) ∧
        jobs s' = jobs s ∧ slot_table s' = slot_table s ∧ master_packet_delay_ns s' = master_packet_delay_ns s) s.
Proof.
  intros Hinv Hsf. eapply sync_rx_run; [done..|]. intros k Hk. split_and!; try done.
  - cbn. pose proof (sf_sched _ _ _ _ _ _ _ _ _ Hsf). unfold u64. rewrite Zplus_mod_idemp_l, Z.sub_add. by apply Z.mod_small.
  - change (take ETH_ALEN (memcpy (master_hw_addr s) src ETH_ALEN) = src). pose proof (buf_read_size _ _ _ _ (sf_source _ _ _ _ _ _ _ _ _ Hsf)) as El.
    change (Z.to_nat 6) with ETH_ALEN in El. unfold memcpy. rewrite (take_ge src) by lia. by rewrite take_app_length'.
  - change (Z.testbit (Z.setbit (tflags s) TDMA_FLAG_RECEIVED_SYNC) TDMA_FLAG_RECEIVED_SYNC = true). by rewrite Z.setbit_eq.
Qed.
End rx.

(** ** Calibration *)

Section calibration.
Context `{Config} (MASTER : bool) (sizeof_reply_cal : Z) (d : nat).
Context (hard_header : nat → option (nat → Z → list Z → list Z → Z → M kstate Z)).
Implicit Types (s : tdma) (k : kstate) (C : gmap nat (list nat)) (x y : rtskb).

(** The delay of the way there and back, less the time the master held the frame, halved. *)
Lemma delay_exact delta o t1 t2 t3 t4 :
  0 ≤ delta < 2 ^ 62 → t2 = u64 (t1 + delta + o) → t4 = u64 (t3 + delta - o) →
  Z.shiftr (u64 (u64 (u64 (t4 - t1) - u64 (t3 - t2)) + 1)) 1 = delta.
Proof.
  intros Hd -> ->. rewrite Z.shiftr_div_pow2 by done. change (2 ^ 1) with 2.
  assert (E : u64 (u64 (u64 (u64 (t3 + delta - o) - t1) - u64 (t3 - u64 (t1 + delta + o))) + 1) = 2 * delta + 1).
  { unfold u64. rewrite Zplus_mod_idemp_l. 
    rewrite <-(Z.mod_small (2 * delta + 1) (2 ^ 64)) by lia.
    assert (∀ a b, a mod 2 ^ 64 = b mod 2 ^ 64 ↔ ∃ z, a = b + z * 2 ^ 64) as Hm.
    { intros a b. split; intros Hab; [exists (a / 2 ^ 64 - b / 2 ^ 64); pose proof (Z.div_mod a (2^64)); pose proof (Z.div_mod b (2^64)); lia|].
      destruct Hab as [z ->]. by rewrite Z.mod_add. }
    apply Hm.
    pose proof (Z.div_mod (t3 + delta - o) (2 ^ 64) ltac:(done)). pose proof (Z.div_mod (t1 + delta + o) (2 ^ 64) ltac:(done)).
    set (A := (t3 + delta - o) mod 2 ^ 64) in *. set (B := (t1 + delta + o) mod 2 ^ 64) in *.
    pose proof (Z.div_mod (A - t1) (2 ^ 64) ltac:(done)). pose proof (Z.div_mod (t3 - B) (2 ^ 64) ltac:(done)).
    set (E := (A - t1) mod 2 ^ 64) in *. set (F := (t3 - B) mod 2 ^ 64) in *.
    exists ((t3 - B) / 2^64 - (A - t1) / 2 ^ 64 - (t3 + delta - o) / 2 ^ 64 - (t1 + delta + o) / 2 ^ 64). lia. }
  rewrite E. divlia.
Qed.

(** The request [r] after the answer of its last but [n] round. *)
Definition answered (r : tdma_request_cal) (n delta : Z) : tdma_request_cal :=
  r <| req_cal_rounds := n |> <| result_buffer := <[Z.to_nat n := delta]> (result_buffer r) |>.
(** What the answer with the delay [delta] means for the calibration [call] with [n]
    rounds left: the job goes back into the ring, or the call is complete. *)
Definition calibration_step s f js (call n delta : Z) (r : tdma_request_cal) s' : Prop :=
  (∃ z, jobs s' !! call = Some z ∧ job_rest z = REQUEST_CAL_JOB (answered r n delta)) ∧
  if 0 <? n then job_ring s' f (call :: js) ∧ calibration_call s' = Some call ∧ call_results s' = call_results s
  else job_ring s' f js ∧ calibration_call s' = None ∧ call_results s' = <[call := 0]> (call_results s).

(** C21: An answer to a calibration request that left the station at [t1] (its clock), reached
    the master at [t2] and left it at [t3] (the master's clock, [o] ahead): with
    the same delay [delta] on both ways, exactly [delta] is recorded, and the calibration
    goes on with the next round or is complete. *)
Theorem tdma_reply_received s C a x rp f js call jx r t1 t2 t3 pad delta o :
  pools_inv (tkern s) C → loose (tkern s) C a x rp →
  payload x = frm_head TDMA_FRM_RPL_CAL ++ be64 t1 ++ be64 t2 ++ be64 t3 ++ pad →
  0 ≤ t1 < 2 ^ 64 → 0 ≤ t3 < 2 ^ 64 → 0 ≤ delta < 2 ^ 62 → t2 = u64 (t1 + delta + o) → time_stamp x = u64 (t3 + delta - o) →
  job_ring s f js → call ∉ f :: js → calibration_call s = Some call → jobs s !! call = Some jx → job_id jx = XMIT_REQ_CAL →
  job_rest jx = REQUEST_CAL_JOB r → 1 ≤ req_cal_rounds r ≤ Z.of_nat (length (result_buffer r)) → is_u32 (req_cal_rounds r) →
  wp (tdma_packet_rx MASTER sizeof_reply_cal d hard_header a)
     (λ res s', res = 0 ∧ released (tkern s) C a rp (tkern s') ∧ calibration_step s f js call (req_cal_rounds r - 1) delta r s') s.
Proof.
  intros Hinv Hlo Hp Ht1 Ht3 Hd Et2 Hts Hring Hcn Hcall Hjx Hid Hr Hn Hu. pose proof Hlo as [Hx Hwf He Hpl Hps Huse Hc].
  assert (Ht2 : 0 ≤ t2 < 2 ^ 64) by (rewrite Et2; apply Z.mod_pos_bound; done).
  pose proof (length_payload _ Hwf) as Hl. rewrite Hp, !length_app in Hl. cbn [length frm_head be16 be32 be64 app] in Hl.
  set (v := be16 TDMA_FRM_VERSION). set (i := be16 TDMA_FRM_RPL_CAL). change (frm_head TDMA_FRM_RPL_CAL) with (v ++ i) in Hp.
  assert (R1 : buf_read x (data x) 2 ≫= rd16 = Some (ntohs TDMA_FRM_VERSION)).
  { rewrite (payload_field x [] v (i ++ be64 t1 ++ be64 t2 ++ be64 t3 ++ pad)); [by apply rd16_be16|done|by rewrite <-app_assoc in Hp|cbn; lia|done]. }
  assert (R2 : buf_read x (data x + 2) 2 ≫= rd16 = Some (ntohs TDMA_FRM_RPL_CAL)).
  { rewrite (payload_field x v i (be64 t1 ++ be64 t2 ++ be64 t3 ++ pad)); [by apply rd16_be16|done|by rewrite <-app_assoc in Hp|done|done]. }
  assert (R3 : buf_read x (data x + 4) 8 ≫= rd_be64 = Some t1).
  { rewrite (payload_field x (v ++ i) (be64 t1) (be64 t2 ++ be64 t3 ++ pad)); [by apply rd_be64_be64|done..]. }
  assert (R4 : buf_read x (data x + 12) 8 ≫= rd_be64 = Some t2).
  { rewrite (payload_field x (v ++ i ++ be64 t1) (be64 t2) (be64 t3 ++ pad)); [by apply rd_be64_be64|done|by rewrite !app_assoc in *|done..]. }
  assert (R5 : buf_read x (data x + 20) 8 ≫= rd_be64 = Some t3).
  { rewrite (payload_field x (v ++ i ++ be64 t1 ++ be64 t2) (be64 t3) pad); [by apply rd_be64_be64|done|by rewrite !app_assoc in *|done..]. }
  assert (Hns : ntohs TDMA_FRM_RPL_CAL =? ntohs TDMA_FRM_SYNC = false ∧ ntohs TDMA_FRM_RPL_CAL =? ntohs TDMA_FRM_REQ_CAL = false).
  { unfold ntohs. by destruct little_endian. }
  destruct Hns as [Hns1 Hns2]. clearbody v i.
  unfold tdma_packet_rx. wp_run. apply wp_in_tkern. eapply wp_skb_load; [done|]. rewrite set_tkern_id by done. wp_run.
  rewrite Z.eqb_refl. cbn [negb]. wp_run. rewrite Hns1, Hns2, Z.eqb_refl, andb_false_r. unfold rx_rpl_cal.
  destruct (loose_pulled s C a x rp RPL_CAL_LEN Hinv Hlo) as (y & Ey & Hlo1 & Hinv1); [unfold RPL_CAL_LEN; lia|].
  wp_run. apply wp_in_tkern. eapply wp_skb_upd; [done|]. rewrite Ey. fold (upd_skb a y (tkern s)). wp_run.
  rewrite (delay_exact delta o t1 t2 t3) by done.
  change (calibration_call (set_tkern _ s)) with (calibration_call s). rewrite Hcall. wp_run.
  assert (En : u32 (req_cal_rounds r - 1) = req_cal_rounds r - 1) by (unfold u32, is_u32 in *; rewrite Z.mod_small; lia).
  unfold request_load, request_of. wp_run. eapply wp_job_load; [done|]. rewrite Hr. wp_run. rewrite En. set (n := req_cal_rounds r - 1) in *.
  replace (n <? Z.of_nat (length (result_buffer r))) with true by lia. wp_run. eapply wp_job_upd; [done|].
  fold (answered r n delta). set (x1 := jx <| job_rest := _ |>). unfold calibration_step.
  assert (Hok1 : job_ok x1) by done.
  assert (Hoth : ∀ j, j ≠ call → <[call := x1]> (jobs s) !! j = jobs s !! j) by (intros j Hj; by rewrite lookup_insert_ne).
  destruct (0 <? n) eqn:Epos.
  - unfold revise. wp_run. eapply wp_deref; [by apply Hring|].
    change f with (before f []) at 1.
    eapply (add_sorted_run s _ f [] js call x1); [done|done|apply lookup_insert_eq|done|done|done|done|done|].
    intros h Hring' HR. wp_run. eapply (rx_release (tkern s)); [done..|]. intros k Hk. wp_run. split_and!; [done..| |by eapply job_ring_same|done|done].
    destruct (relinks_lookup _ _ call x1 HR) as (z & Hz & Ez); [apply lookup_insert_eq|]. exists z. split; [done|]. by rewrite Ez.
  - unfold rtpc_complete_call. wp_run. eapply (rx_release (tkern s)); [done..|]. intros k Hk. wp_run. split_and!; [done..| | |done|done].
    + exists x1. split; [apply lookup_insert_eq|done].
    + eapply job_ring_same; [done| |done]. intros c Hcc. apply Hoth. by intros ->.
Qed.

(** Equal results have themselves as average. *)
Lemma sum_results_const delta n :
  0 ≤ delta → Z.of_nat n * delta < 2 ^ 64 → sum_results (replicate n delta) = Z.of_nat n * delta.
Proof.
  intros Hd Hb. unfold sum_results.
  assert (G : ∀ m a, 0 ≤ a → a + Z.of_nat m * delta < 2 ^ 64 → foldl (λ a v, u64 (a + v)) a (replicate m delta) = a + Z.of_nat m * delta).
  { induction m as [|m IH]; intros b Hb0 Hb1; cbn [replicate foldl]; [lia|]. unfold u64 at 2. rewrite Z.mod_small by nia. rewrite IH; nia. }
  rewrite G; lia.
Qed.
End calibration.
