(* ===== verification/TdmaWorker.v ===== *)
(** * A cycle of the TDMA worker

    The slots of a station as a schedule: in every cycle, each slot that is due wakes the
    worker at its offset and sends the packet that waits longest at the highest priority
    of its queue.  The rounds of the worker over the ring of jobs follow it; at a master
    they start with the synchronisation frame of the cycle. *)
From S2P Require Import Prelude State RtskbQueue Rtskb RtskbData Rtdev IpFragment Socket IpOutput IpInput Rtmac Tdma TdmaIoctl TdmaRing TdmaSlots TdmaFrames.
From Stdlib Require Import Sorted.

(** ** The schedule *)

Definition due (cycle : Z) (sl : tdma_slot) : bool := (period sl =? 1) || (cycle mod period sl =? phasing sl).
(** What a slot sends, and the queues after it. *)
Definition slot_sends (sl : tdma_slot) (P : prio_map) : list nat * prio_map :=
  match P !! queue sl ≫= pop with
  | Some (a, L) => ([a], <[queue sl := L]> P)
  | None => ([], P)
  end.
(** The times at which the worker wakes up, the packets it sends and the queues it
    leaves. *)
Fixpoint schedule (cycle start : Z) (sls : list tdma_slot) (P : prio_map) : list Z * list nat * prio_map :=
  match sls with
  | [] => ([], [], P)
  | sl :: sls =>
      if due cycle sl then
        let '(out, P) := slot_sends sl P in
        let '(w, out', P) := schedule cycle start sls P in
        (u64 (start + offset sl) :: w, out ++ out', P)
      else schedule cycle start sls P
  end.

Lemma schedule_times cycle start sls P :
  (schedule cycle start sls P).1.1 = (λ sl, u64 (start + offset sl)) <$> filter (λ sl, due cycle sl) sls.
Proof.
  revert P. induction sls as [|sl sls IH]; intros P; [done|]. cbn [schedule]. rewrite filter_cons.
  destruct (due cycle sl) eqn:E.
  - rewrite decide_True by done. destruct (slot_sends sl P) as [out P1]. specialize (IH P1).
    destruct (schedule cycle start sls P1) as [[w out'] P2]. cbn in *. by rewrite IH.
  - rewrite decide_False by (cbn; tauto). apply IH.
Qed.
(** Unless the clock overflows within the cycle, the worker never sleeps backwards. *)
Lemma schedule_sorted cycle start sls P :
  StronglySorted Z.le (offset <$> sls) → Forall (λ sl, 0 ≤ start + offset sl < 2 ^ 64) sls →
  StronglySorted Z.le (schedule cycle start sls P).1.1.
Proof.
  rewrite schedule_times. intros Hs Hb. induction sls as [|sl sls IH]; [constructor|]. cbn in Hs.
  apply StronglySorted_inv in Hs as [Hs Ha]. inversion Hb as [|? ? Hb1 Hb2]; subst. rewrite filter_cons.
  case_decide; [|by apply IH]. cbn. constructor; [by apply IH|]. rewrite Forall_fmap. apply Forall_forall.
  intros sl' Hin. apply list_elem_of_filter in Hin as [_ Hin]. rewrite Forall_forall in Hb2. rewrite Forall_fmap, Forall_forall in Ha.
  specialize (Hb2 _ Hin). specialize (Ha _ Hin). cbn in *. unfold u64. rewrite !Z.mod_small; lia.
Qed.

Lemma pop_sub L a L' : pop L = Some (a, L') → ∀ l b, l ∈ L' → b ∈ l → ∃ l', l' ∈ L ∧ b ∈ l'.
Proof.
  revert L'. induction L as [|k L IH]; intros L' HL l b Hl Hb; [done|]. cbn in HL. destruct k as [|c k].
  - destruct (pop L) as [[c L1]|] eqn:E; [|done]. cbn in HL. simplify_eq. apply elem_of_cons in Hl as [->|Hl]; [set_solver|].
    destruct (IH _ eq_refl l b Hl Hb) as (l' & Hl' & Hb'). exists l'. set_solver.
  - simplify_eq. apply elem_of_cons in Hl as [->|Hl]; [exists (a :: k)|exists l]; set_solver.
Qed.
Lemma slot_sends_sub sl P out P' :
  slot_sends sl P = (out, P') →
  (∀ b, queued P' b → queued P b) ∧ Forall (queued P) out ∧ (∀ q, is_Some (P !! q) → is_Some (P' !! q)).
Proof.
  unfold slot_sends. destruct (P !! queue sl) as [L|] eqn:HL; cbn; [|intros [= <- <-]; split_and!; [done|constructor|done]].
  destruct (pop L) as [[a L']|] eqn:Ep; intros [= <- <-]; [|split_and!; [done|constructor|done]]. split_and!.
  - intros b (q & M & l & HM & Hl & Hb). apply lookup_insert_Some in HM as [[<- <-]|[_ HM]]; [|by exists q, M, l].
    destruct (pop_sub L a L' Ep l b Hl Hb) as (l' & Hl' & Hb'). by exists (queue sl), L, l'.
  - constructor; [|constructor]. destruct (pop_elem _ _ _ Ep) as (l & Hl & Ha). by exists (queue sl), L, l.
  - intros q Hq. destruct (decide (queue sl = q)) as [->|]; simplify_map_eq; eauto.
Qed.

Lemma schedule_cons cycle start sl sls P :
  schedule cycle start (sl :: sls) P =
  (let '(w1, o1, P1) := schedule cycle start [sl] P in let '(w2, o2, P2) := schedule cycle start sls P1 in (w1 ++ w2, o1 ++ o2, P2)).
Proof.
  cbn [schedule]. destruct (due cycle sl).
  - destruct (slot_sends sl P) as [o P1]. cbn. destruct (schedule cycle start sls P1) as [[w2 o2] P2]. by rewrite app_nil_r.
  - by destruct (schedule cycle start sls P) as [[w2 o2] P2].
Qed.
Lemma schedule_sub cycle start sls P w out P' :
  schedule cycle start sls P = (w, out, P') →
  (∀ b, queued P' b → queued P b) ∧ Forall (queued P) out ∧ (∀ q, is_Some (P !! q) → is_Some (P' !! q)).
Proof.
  revert P w out. induction sls as [|sl sls IH]; intros P w out; cbn [schedule].
  { intros [= <- <- <-]. split_and!; [done|constructor|done]. }
  destruct (due cycle sl); [|apply IH]. destruct (slot_sends sl P) as [o P1] eqn:E1.
  destruct (schedule cycle start sls P1) as [[w2 o2] P2] eqn:E2. intros [= <- <- <-].
  destruct (slot_sends_sub _ _ _ _ E1) as (A1 & A2 & A3), (IH _ _ _ E2) as (B1 & B2 & B3). split_and!; [by eauto| |by eauto].
  apply Forall_app. split; [done|]. eapply Forall_impl; [exact B2|]. done.
Qed.

(** ** Rounds *)

Section worker.
Context `{Config} (MASTER : bool) (global_pool d : nat) (D : rtnet_device).
Context (hard_header : nat → option (nat → Z → list Z → list Z → Z → M kstate Z)).
Context (drv_xmit : nat → nat → M kstate Z) (wait_sync : M tdma ()).
Implicit Types (s : tdma) (P : prio_map) (C : gmap nat (list nat)).

(** No other task runs while the worker sleeps. *)
Notation rounds := (worker_rounds MASTER global_pool d hard_header drv_xmit (mret ()) wait_sync).
Notation round := (worker_round MASTER global_pool d hard_header drv_xmit (mret ()) wait_sync).

(** The packets that wait are to leave through the device [d]. *)
Definition bound_for s P : Prop := ∀ a x, queued P a → skbs (tkern s) !! a = Some x → rtdev x = Some d.
(** Job [j] is the slot [sl], with a queue of [P] and a period. *)
Definition slot_at s P (j : Z) (sl : tdma_slot) : Prop :=
  ∃ x, jobs s !! j = Some x ∧ job_rest x = SLOT_JOB sl ∧ 0 ≤ job_id x ∧ 0 ≤ ref_count x < 2 ^ 32 ∧
    0 < period sl ∧ is_Some (P !! queue sl).

(** What the rounds of a cycle change: wake-ups, packets sent, queues. *)
Record sent s s' P C (w : list Z) (out : list nat) : Prop := {
  st_pools : pools_inv (tkern s') C;
  st_world : prio_world (tkern s') P C;
  st_devs : devs (tkern s') = devs (tkern s);
  st_packets : same_packets (tkern s) (tkern s');
  st_log : xmit_log (tkern s') = xmit_log (tkern s) ++ frames_of d (tkern s) out;
  st_wakeups : wakeups s' = wakeups s ++ w;
  st_jobs : jobs s' = jobs s;
  st_clock : current_cycle s' = current_cycle s ∧ current_cycle_start s' = current_cycle_start s;
  st_flags : tflags s' = tflags s;
}.

Lemma frames_of_same k k' l :
  same_packets k k' → Forall (λ a, is_Some (skbs k !! a)) l → frames_of d k' l = frames_of d k l.
Proof.
  intros Hs Hl. apply list_fmap_ext. intros i a Ha. f_equal. rewrite Forall_forall in Hl.
  destruct (Hl a) as [x Hx]; [by eapply list_elem_of_lookup_2|]. destruct (Hs a x Hx) as (y & Hy & E). rewrite Hx, Hy. cbn. by rewrite E.
Qed.
Lemma queued_exists k P C a : prio_world k P C → queued P a → is_Some (skbs k !! a).
Proof.
  intros Hw (q & L & l & HL & Hl & Ha). destruct (pq_object _ _ _ (pw_queue _ _ _ Hw _ _ HL)) as (Q & _ & _ & Hq).
  apply list_elem_of_lookup in Hl as [i Hl]. destruct (Hq i l Hl) as (_ & Q0 & _ & [Hs _]). by eapply lseg_lookup.
Qed.

Lemma slot_job_run s P C j sl :
  takes_all drv_xmit d → devs (tkern s) !! d = Some D → pools_inv (tkern s) C → prio_world (tkern s) P C →
  bound_for s P → slot_at s P j sl →
  wp (do_slot_job drv_xmit (mret ()) j)
     (λ _ s', let '(w, out, P') := schedule (current_cycle s) (current_cycle_start s) [sl] P in sent s s' P' C w out ∧
        current_job s' = current_job s ∧ first_job s' = first_job s) s.
Proof.
  intros Ht HD Hinv Hw Hb (x & Hx & Hr & _ & _ & Hper & [L HL]). unfold do_slot_job, not_due. wp_run.
  eapply wp_slot_load; [done..|]. cbn [schedule]. unfold due.
  assert (Hnone : ∀ s' w, s' = s <| wakeups := wakeups s ++ w |> → sent s s' P C w []).
  { intros s' w ->. split; try done; [apply same_packets_refl|by rewrite app_nil_r]. }
  assert (Hgo : ∀ s1, s1 = s <| wakeups := wakeups s ++ [u64 (current_cycle_start s + offset sl)] |> →
    wp (r ← in_tkern (__rtskb_prio_dequeue (queue sl)); match r with None => mret () | Some rtskb => in_tkern (rtmac_xmit drv_xmit rtskb);; mret () end)
     (λ _ s', let '(w, out, P') := (let '(out, P1) := slot_sends sl P in ([u64 (current_cycle_start s + offset sl)], out ++ [], P1)) in sent s s' P' C w out ∧
        current_job s' = current_job s ∧ first_job s' = first_job s) s1).
  { intros s1 E1. wp_run. apply wp_in_tkern. assert (Ek : tkern s1 = tkern s) by (by rewrite E1). rewrite Ek.
    eapply world_dequeue; [done..|]. unfold slot_sends. rewrite HL. cbn. destruct (pop L) as [[a L']|] eqn:Ep.
    - intros k' Hi' Hw' Hsp Ek' Hnw. destruct (pop_elem _ _ _ Ep) as (l & Hl & Ha).
      assert (Hwa : queued P a) by (by exists (queue sl), L, l). destruct (queued_exists _ _ _ _ Hw Hwa) as [z Hz].
      destruct (Hsp a z Hz) as (y & Hy & Ey). wp_run. apply wp_in_tkern. rewrite tkern_set. eapply (mac_xmit_run drv_xmit d D k' a y); try done.
      { rewrite Ey. by apply (Hb a z). } { by rewrite Ek'. }
      wp_run. rewrite set_tkern_twice. rewrite E1. split_and!; [|done..]. split; try done; cbn.
      + by apply pools_inv_log.
      + destruct Hw' as [Hq ? ? ? ?]. split; try done. intros q M HM. eapply is_prio_queue_frame; [by apply Hq|done..|]. eauto.
      + by rewrite Ek'.
      + rewrite Ek' at 1. cbn. f_equal. rewrite Hz. cbn. by rewrite Ey.
    - wp_run. rewrite set_tkern_id by done. rewrite E1. split_and!; [by apply Hnone|done..]. }
  destruct (Z.eqb_spec (period sl) 1); cbn [orb].
  - unfold rtdm_task_sleep_abs. wp_run. apply wp_get. wp_run. eapply wp_slot_load; [done..|]. by apply Hgo.
  - replace (period sl =? 0) with false by lia. wp_run.
    destruct (current_cycle s mod period sl =? phasing sl); cbn [negb].
    + unfold rtdm_task_sleep_abs. wp_run. apply wp_get. wp_run. eapply wp_slot_load; [done..|]. by apply Hgo.
    + wp_run. split_and!; [apply Hnone|done..]. rewrite app_nil_r. by destruct s.
Qed.

Lemma slot_round_run s P C j sl nx :
  takes_all drv_xmit d → devs (tkern s) !! d = Some D → pools_inv (tkern s) C → prio_world (tkern s) P C →
  bound_for s P → slot_at s P j sl → next_of (jobs s) j = Some nx →
  wp (round j)
     (λ r s', r = nx ∧ current_job s' = nx ∧ first_job s' = first_job s ∧
        let '(w, out, P') := schedule (current_cycle s) (current_cycle_start s) [sl] P in sent s s' P' C w out) s.
Proof.
  intros Ht HD Hinv Hw Hb (x & Hx & Hr & Hid & Hrc & Hper & HL) Hn. unfold worker_round. wp_run. eapply wp_job_upd; [done|].
  set (x1 := x <| ref_count := _ |>). set (s1 := s <| jobs := _ |>). wp_run.
  assert (Hx1 : jobs s1 !! j = Some x1) by apply lookup_insert_eq. eapply wp_job_load; [done|].
  change (job_id x1) with (job_id x). unfold WAIT_ON_SYNC, XMIT_REQ_CAL, XMIT_SYNC, BACKUP_SYNC, XMIT_RPL_CAL.
  rewrite !(proj2 (Z.eqb_neq (job_id x) _)) by lia. rewrite !andb_false_r. wp_run.
  eapply wp_mono; [|eapply (slot_job_run s1 P C j sl)]; try done.
  2: { exists x1. split_and!; try done. all: unfold x1, u32; cbn; apply Z.mod_pos_bound; lia. }
  intros [] s2 Hs2. change (current_cycle s1) with (current_cycle s) in Hs2. change (current_cycle_start s1) with (current_cycle_start s) in Hs2.
  destruct (schedule _ _ [sl] P) as [[w out] P'].
  destruct Hs2 as ([Hi2 Hw2 Hd2 Hp2 Hl2 Hwk2 Hj2 Hc2 Hf2] & Ecj & Efj). wp_run. eapply wp_job_upd; [by rewrite Hj2|].
  wp_run. eapply wp_job_load; [apply lookup_insert_eq|]. wp_run. unfold next_of in Hn. rewrite Hx in Hn. injection Hn as Hn.
  split_and!; [done..|]. split; try done. cbn. rewrite Hj2. cbn. rewrite insert_insert_eq, insert_id; [done|]. rewrite Hx. f_equal.
  destruct x as [en ep id rc rest]. cbn in *. f_equal. unfold u32. rewrite Zminus_mod_idemp_l. rewrite Z.add_simpl_r. by rewrite Z.mod_small.
Qed.
Lemma sent_trans s s1 s2 P1 P2 C w1 w2 o1 o2 :
  sent s s1 P1 C w1 o1 → sent s1 s2 P2 C w2 o2 → Forall (λ a, is_Some (skbs (tkern s) !! a)) o2 → sent s s2 P2 C (w1 ++ w2) (o1 ++ o2).
Proof.
  intros [Hi1 Hw1 Hd1 Hp1 Hl1 Hwk1 Hj1 [Hc1 Hc1'] Hf1] [Hi2 Hw2 Hd2 Hp2 Hl2 Hwk2 Hj2 [Hc2 Hc2'] Hf2] Ho. split; try done; try congruence.
  - intros b y Hy. destruct (Hp1 b y Hy) as (y1 & Hy1 & E1). destruct (Hp2 b y1 Hy1) as (y2 & Hy2 & E2). exists y2. split; [done|].
    rewrite E2, E1. done.
  - rewrite Hl2, Hl1, <-app_assoc. f_equal. unfold frames_of at 3. rewrite fmap_app. f_equal. by apply frames_of_same.
  - by rewrite Hwk2, Hwk1, app_assoc.
  - split; congruence.
Qed.
(** The rounds over the slots [l2], the last jobs of the ring. *)
Lemma slots_rounds_run f l2 sls : ∀ s P C l1,
  takes_all drv_xmit d → devs (tkern s) !! d = Some D → pools_inv (tkern s) C → prio_world (tkern s) P C → bound_for s P →
  ring (jobs s) f (l1 ++ l2) → Forall2 (slot_at s P) l2 sls → Z.testbit (tflags s) TDMA_FLAG_SHUTDOWN = false →
  current_job s = after f l2 →
  wp (rounds (length l2) (after f l2))
     (λ r s', r = f ∧ current_job s' = f ∧ first_job s' = first_job s ∧
        let '(w, out, P') := schedule (current_cycle s) (current_cycle_start s) sls P in sent s s' P' C w out) s.
Proof.
  revert sls. induction l2 as [|j l2 IH]; intros sls s P C l1 Ht HD Hinv Hw Hb Hring Hs Hsd Hcj.
  { apply Forall2_nil_inv_l in Hs as ->. cbn [length worker_rounds schedule]. wp_run. split_and!; [done..|].
    split; try done; [apply same_packets_refl|by rewrite app_nil_r|by rewrite app_nil_r]. }
  apply Forall2_cons_inv_l in Hs as (sl & sls' & Hj & Hs & ->). cbn [length worker_rounds after head default]. unfold test_flag. wp_run.
  rewrite Hsd. wp_run. destruct (ring_neighbours _ _ _ _ _ Hring) as [_ Hn].
  eapply wp_mono; [|by eapply slot_round_run]. intros r s1 (-> & Ecj & Efj & Hs1). rewrite schedule_cons.
  destruct (schedule _ _ [sl] P) as [[w1 o1] P1] eqn:E1. pose proof Hs1 as [Hi1 Hw1 Hd1 Hp1 Hl1 Hwk1 Hj1 [Hc1 Hc1'] Hf1].
  destruct (schedule_sub _ _ _ _ _ _ _ E1) as (A1 & A2 & A3).
  eapply wp_mono; [|eapply (IH sls' s1 P1 C (l1 ++ [j]))]; try done; try congruence.
  - intros r s2 (-> & Ecj2 & Efj2 & Hs2). rewrite Hc1, Hc1' in Hs2. destruct (schedule _ _ sls' P1) as [[w2 o2] P2] eqn:E2.
    split_and!; [done|done|congruence|]. eapply sent_trans; [done..|]. eapply Forall_impl; [eapply (schedule_sub _ _ _ _ _ _ _ E2)|].
    intros a Ha. eapply queued_exists; [exact Hw|]. by apply A1.
  - intros a y Ha Hy. destruct (queued_exists _ _ _ a Hw (A1 a Ha)) as [y0 Hy0]. destruct (Hp1 a y0 Hy0) as (y1 & Hy1 & Ey).
    assert (y = y1) as -> by congruence. rewrite Ey. apply (Hb a y0); [by apply A1|done].
  - rewrite Hj1, <-app_assoc. done.
  - eapply Forall2_impl; [exact Hs|]. intros j' sl' (x & Hx & Hr & Hid & Hrc & Hper & HL). exists x. rewrite Hj1. split_and!; try done; try lia. by apply A3.
Qed.

(** *** The cycle of a master *)

Lemma frame_sent_world s P C q l a fr k :
  prio_world (tkern s) P C → C !! q = Some (a :: l) → frame_sent d s C q l a fr k → prio_world k P (<[q := l]> C).
Proof.
  intros Hw Hl [Ew Eq Eo Hi Hua _]. eapply prio_world_frame; [exact Hw|by rewrite Ew|..].
  - intros q' Hq'. assert (q' ≠ q) by congruence. by rewrite lookup_insert_ne, Eq.
  - intros b Hb. pose proof (queued_use _ _ _ _ Hw Hb _ _ Hl) as Hbl. split; [apply Eo; set_solver|].
    apply in_use_insert; [by eapply queued_use|set_solver].
Qed.

(** The frame that starts a cycle, and what is left of the pools. *)
Definition sync_sent s C (l : list nat) (lh : list Z) (cycle start : Z) : list (nat * nat * list Z) * gmap nat (list nat) :=
  match l with
  | [] => ([], C)
  | a :: l => ([(d, a, lh ++ rtmac_header RTMAC_TYPE_TDMA 0 ++ sync_frame cycle (clock_offset s) (u64 (clock_offset s + start)))],
               <[global_pool := l]> C)
  end.

(** The next cycle has begun. *)
Record cycle_begun s s' P C (l : list nat) (lh : list Z) (cycle start : Z) : Prop := {
  cb_flags : tflags s' = tflags s;
  cb_cycle : current_cycle s' = cycle;
  cb_start : current_cycle_start s' = start;
  cb_wakeups : wakeups s' = wakeups s ++ [start];
  cb_devs : devs (tkern s') = devs (tkern s);
  cb_log : xmit_log (tkern s') = xmit_log (tkern s) ++ (sync_sent s C l lh cycle start).1;
  cb_pools : pools_inv (tkern s') (sync_sent s C l lh cycle start).2;
  cb_world : prio_world (tkern s') P (sync_sent s C l lh cycle start).2;
  cb_packets : ∀ b, in_use C b → skbs (tkern s') !! b = skbs (tkern s) !! b;
}.

Lemma sync_round_run s P C l lh f fx nx :
  MASTER = true → takes_all drv_xmit d → devs (tkern s) !! d = Some D → pools_inv (tkern s) C → prio_world (tkern s) P C →
  C !! global_pool = Some l → 0 ≤ hard_header_len D → hard_header_len D + 43 ≤ SKB_DATA_ALIGN RTSKB_SIZE →
  frame_room D (tkern s) l SYNC_LEN → mac_link hard_header d D (broadcast D) lh →
  jobs s !! f = Some fx → job_id fx = XMIT_SYNC → 0 ≤ ref_count fx < 2 ^ 32 → entry_next fx = nx →
  wp (round f)
     (λ r s', r = nx ∧ current_job s' = nx ∧ jobs s' = jobs s ∧
        cycle_begun s s' P C l lh (u32 (current_cycle s + 1)) (u64 (current_cycle_start s + cycle_period s))) s.
Proof.
  intros HM Ht HD Hinv Hw Hl Hh Hsz Hroom Hlh Hf Hid Hrc Hnx. unfold worker_round. wp_run. eapply wp_job_upd; [done|].
  set (x1 := fx <| ref_count := _ |>). set (s1 := s <| jobs := _ |>). wp_run.
  assert (Hx1 : jobs s1 !! f = Some x1) by apply lookup_insert_eq. eapply wp_job_load; [done|].
  change (job_id x1) with (job_id fx). rewrite Hid, HM. cbn [Z.eqb XMIT_SYNC XMIT_REQ_CAL WAIT_ON_SYNC Pos.eqb andb].
  unfold do_xmit_sync_job, rtdm_task_sleep_abs, next_cycle. wp_run. apply wp_get. wp_run.
  set (s2 := upd current_cycle_start _ _).
  assert (Hback : x1 <| ref_count := u32 (ref_count x1 - 1) |> = fx).
  { destruct fx as [en ep id rc rest]. unfold x1. cbn in *. f_equal. unfold u32. rewrite Zminus_mod_idemp_l, Z.add_simpl_r. by rewrite Z.mod_small. }
  set (cycle := u32 _). set (start := u64 _).
  assert (Hend : ∀ s3, jobs s3 = jobs s1 → cycle_begun s s3 P C l lh cycle start →
    wp (job_upd f (λ x, x <| ref_count := u32 (ref_count x - 1) |>);; j ← job_load f;
        modify (λ s, s <| current_job := entry_next j |>);; mret (entry_next j))
     (λ r s', r = nx ∧ current_job s' = nx ∧ jobs s' = jobs s ∧ cycle_begun s s' P C l lh cycle start) s3).
  { intros s3 Ej [? ? ? ? ? ? ? ? ?]. wp_run. eapply wp_job_upd; [by rewrite Ej|]. wp_run. eapply wp_job_load; [apply lookup_insert_eq|]. wp_run.
    rewrite Hback. split_and!; [done|done| |by split]. cbn. rewrite Ej. cbn. by rewrite insert_insert_eq, insert_id. }
  eapply (sync_frame_run d D hard_header drv_xmit global_pool s2 C l lh); try done. unfold sync_sent in *. destruct l as [|a l].
  - apply wp_ret, Hend; [done|]. split; try done. by rewrite app_nil_r.
  - intros k Hs. apply wp_ret, Hend; [done|]. pose proof Hs as [Ew Eq Eo Hi Hua _].
    split; try done; cbn; [by rewrite Ew|by rewrite Ew|by eapply (frame_sent_world s2 P C global_pool l a)|].
    intros b Hb. apply Eo. intros ->. eapply Hb; [exact Hl|set_solver].
Qed.

Lemma offsets_slots s P js sls : Forall2 (slot_at s P) js sls → offsets (jobs s) js = offset <$> sls.
Proof.
  induction 1 as [|j sl js sls (x & Hx & Hr & _) _ IH]; [done|]. unfold offsets in *. cbn. rewrite Hx. cbn.
  replace (time_of x) with (Some (offset sl)) by (unfold time_of; by rewrite Hr). f_equal. exact IH.
Qed.

(** C13: A cycle of a master whose jobs are the synchronisation frame and slots [sls] in the
    order of their offsets, and no calibration reply, while no other task runs, also not
    while the worker sleeps: the worker wakes up when the cycle starts, broadcasts the
    synchronisation frame of the new cycle (if there is a buffer for it), and then
    follows the schedule of the slots; it ends where it started, with the jobs as they
    were.  Unless the clock overflows, it wakes up in the order of the times. *)
Theorem tdma_master_cycle s P C l lh f js sls fx :
  MASTER = true → takes_all drv_xmit d → devs (tkern s) !! d = Some D → pools_inv (tkern s) C → prio_world (tkern s) P C →
  C !! global_pool = Some l → 0 ≤ hard_header_len D → hard_header_len D + 43 ≤ SKB_DATA_ALIGN RTSKB_SIZE →
  frame_room D (tkern s) l SYNC_LEN → mac_link hard_header d D (broadcast D) lh → bound_for s P →
  job_ring s f js → jobs s !! f = Some fx → job_id fx = XMIT_SYNC → 0 ≤ ref_count fx < 2 ^ 32 →
  Forall2 (slot_at s P) js sls → Z.testbit (tflags s) TDMA_FLAG_SHUTDOWN = false →
  let cycle := u32 (current_cycle s + 1) in
  let start := u64 (current_cycle_start s + cycle_period s) in
  let '(w, out, P') := schedule cycle start sls P in
  wp (rounds (S (length js)) f)
     (λ r s', r = f ∧ current_job s' = f ∧ jobs s' = jobs s ∧ current_cycle s' = cycle ∧ current_cycle_start s' = start ∧
        wakeups s' = wakeups s ++ start :: w ∧
        xmit_log (tkern s') = xmit_log (tkern s) ++ (sync_sent s C l lh cycle start).1 ++ frames_of d (tkern s) out ∧
        pools_inv (tkern s') (sync_sent s C l lh cycle start).2 ∧ prio_world (tkern s') P' (sync_sent s C l lh cycle start).2) s ∧
  (Forall (λ sl, 0 ≤ offset sl ∧ start + offset sl < 2 ^ 64) sls → StronglySorted Z.le (start :: w)).
Proof.
  intros HM Ht HD Hinv Hw Hl Hh Hsz Hroom Hlh Hb Hring Hf Hid Hrc Hs Hsd cycle start.
  destruct (schedule cycle start sls P) as [[w out] P'] eqn:Es. split.
  - cbn [worker_rounds]. unfold test_flag. wp_run. rewrite Hsd. wp_run. pose proof (jr_ring _ _ _ Hring) as Hr.
    destruct (ring_linked _ _ [] js Hr) as [Hn _]. unfold next_of in Hn. change (before f []) with f in Hn. rewrite Hf in Hn. injection Hn as Hn.
    eapply wp_mono; [|by eapply (sync_round_run s P C l lh f fx (after f js))].
    intros r s1 (-> & Ecj & Ej & [Efl Ecy Est Ewk Edv Elog Hi1 Hw1 Hpk1]). fold cycle start in Ecy, Est, Ewk, Elog, Hi1, Hw1.
    assert (Hin : ∀ a, queued P a → in_use C a) by (intros a; by eapply queued_use).
    eapply wp_mono; [|eapply (slots_rounds_run f js sls s1 P _ [])]; try done; try congruence.
    + intros r s2 (-> & Ecj2 & _ & Hs2). rewrite Ecy, Est, Es in Hs2. destruct Hs2 as [Hi2 Hw2 Hd2 Hp2 Hl2 Hwk2 Hj2 [Hc2 Hc2'] Hf2].
      split_and!; try done; try congruence; [by rewrite Hwk2, Ewk, <-app_assoc|].
      rewrite Hl2, Elog, <-app_assoc. do 2 f_equal. apply list_fmap_ext. intros i a Ha. f_equal.
      rewrite Hpk1; [done|]. apply Hin. destruct (schedule_sub _ _ _ _ _ _ _ Es) as (_ & Hout & _). rewrite Forall_forall in Hout.
      apply Hout. by eapply list_elem_of_lookup_2.
    + intros a y Ha Hy. rewrite Hpk1 in Hy by (by apply Hin). by apply (Hb a).
    + by rewrite Ej.
    + eapply Forall2_impl; [exact Hs|]. intros j sl (x & Hx & Hrest). exists x. by rewrite Ej.
  - intros Hoff. pose proof (schedule_sorted cycle start sls P) as Hsrt. rewrite Es in Hsrt. constructor.
    + apply Hsrt; [rewrite <-(offsets_slots s P js) by done; apply Hring|]. eapply Forall_impl; [exact Hoff|]. cbn.
      intros sl Hsl. pose proof (Z.mod_pos_bound (current_cycle_start s + cycle_period s) (2 ^ 64) ltac:(done)). unfold start, u64 in *. lia.
    + pose proof (schedule_times cycle start sls P) as Etm. rewrite Es in Etm. cbn in Etm. rewrite Etm, Forall_fmap. apply Forall_forall.
      intros sl [_ Hsl]%list_elem_of_filter. rewrite Forall_forall in Hoff. specialize (Hoff sl Hsl). cbn.
      pose proof (Z.mod_pos_bound (current_cycle_start s + cycle_period s) (2 ^ 64) ltac:(done)).
      unfold start, u64 in *. rewrite (Z.mod_small (_ + offset sl)) by lia. lia.
Qed.
End worker.

(** ** The cycle of a slave *)

Section slave.
Context `{Config} (MASTER : bool) (sizeof_reply_cal : Z) (global_pool d : nat) (D : rtnet_device).
Context (hard_header : nat → option (nat → Z → list Z → list Z → Z → M kstate Z)).
Context (drv_xmit : nat → nat → M kstate Z).
Implicit Types (s : tdma) (P : prio_map) (C : gmap nat (list nat)) (x : rtskb).

(** The wait for a synchronisation frame ends when the one in buffer [a] is received. *)
Notation rounds a :=
  (worker_rounds MASTER global_pool d hard_header drv_xmit (mret ()) (tdma_packet_rx MASTER sizeof_reply_cal d hard_header a;; mret ())).
Notation round a :=
  (worker_round MASTER global_pool d hard_header drv_xmit (mret ()) (tdma_packet_rx MASTER sizeof_reply_cal d hard_header a;; mret ())).

Lemma wait_round_run s C a x rp cycle sched src o f fx nx :
  pools_inv (tkern s) C → sync_frame_at s C a x rp cycle sched src o →
  jobs s !! f = Some fx → job_id fx = WAIT_ON_SYNC → 0 ≤ ref_count fx < 2 ^ 32 → entry_next fx = nx →
  wp (round a f)
     (λ r s', r = nx ∧ ∃ k, released (tkern s) C a rp k ∧
        s' = (set_tkern k (synchronised s cycle (u64 (sched - o)) o src)) <| current_job := nx |>) s.
Proof.
  intros Hinv Hsf Hf Hid Hrc Hnx. unfold worker_round. wp_run. eapply wp_job_upd; [done|].
  set (x1 := fx <| ref_count := _ |>). set (s1 := s <| jobs := _ |>). wp_run.
  assert (Hx1 : jobs s1 !! f = Some x1) by apply lookup_insert_eq. eapply wp_job_load; [done|].
  change (job_id x1) with (job_id fx). rewrite Hid. cbn [Z.eqb WAIT_ON_SYNC Pos.eqb]. wp_run.
  assert (Hsf1 : sync_frame_at s1 C a x rp cycle sched src o) by (by destruct Hsf).
  eapply (sync_rx_run MASTER sizeof_reply_cal d hard_header s1); [done..|]. intros k Hk. wp_run.
  eapply wp_job_upd; [done|]. wp_run. eapply wp_job_load; [apply lookup_insert_eq|]. wp_run. split; [done|].
  exists k. split; [done|].
  assert (Hback : <[f := x1 <| ref_count := u32 (ref_count x1 - 1) |>]> (jobs s1) = jobs s).
  { unfold s1. cbn. rewrite insert_insert_eq, insert_id; [done|]. rewrite Hf. f_equal. destruct fx as [en ep id rc rest]. cbn in *. f_equal.
    unfold u32. rewrite Zminus_mod_idemp_l, Z.add_simpl_r. by rewrite Z.mod_small. }
  change (jobs (set_tkern k (synchronised s1 cycle (u64 (sched - o)) o src))) with (jobs s1). rewrite Hback.
  replace (entry_next _) with nx by done. by destruct s.
Qed.

(** C14: A cycle of a slave with slots [sls], its clock [o] behind that of the
    master: the worker waits for the synchronisation frame and then follows the schedule
    of the cycle the frame tells; on the clock of the master every slot is served at
    its offset from the start of the cycle the master scheduled. *)
Theorem tdma_slave_cycle s P C a x rp cycle sched src o f js sls fx :
  takes_all drv_xmit d → devs (tkern s) !! d = Some D → pools_inv (tkern s) C → prio_world (tkern s) P C →
  bound_for d s P → ¬ queued P a → sync_frame_at s C a x rp cycle sched src o →
  job_ring s f js → jobs s !! f = Some fx → job_id fx = WAIT_ON_SYNC → 0 ≤ ref_count fx < 2 ^ 32 →
  Forall2 (slot_at s P) js sls → Z.testbit (tflags s) TDMA_FLAG_SHUTDOWN = false →
  let '(w, out, P') := schedule cycle (u64 (sched - o)) sls P in
  wp (rounds a (S (length js)) f)
     (λ r s', r = f ∧ jobs s' = jobs s ∧ current_cycle s' = cycle ∧ wakeups s' = wakeups s ++ w ∧
        xmit_log (tkern s') = xmit_log (tkern s) ++ frames_of d (tkern s) out ∧
        ∃ C', pools_inv (tkern s') C' ∧ prio_world (tkern s') P' C') s ∧
  (λ t, u64 (t + o)) <$> w = (λ sl, u64 (sched + offset sl)) <$> filter (λ sl, due cycle sl) sls.
Proof.
  intros Ht HD Hinv Hw Hb Hna Hsf Hring Hf Hid Hrc Hs Hsd. destruct (schedule cycle _ sls P) as [[w out] P'] eqn:Es. split.
  - cbn [worker_rounds]. unfold test_flag. wp_run. rewrite Hsd. wp_run. pose proof (jr_ring _ _ _ Hring) as Hr.
    destruct (ring_linked _ _ [] js Hr) as [Hn _]. unfold next_of in Hn. change (before f []) with f in Hn. rewrite Hf in Hn. injection Hn as Hn.
    eapply wp_mono; [|by eapply (wait_round_run s C a x rp cycle sched src o f fx (after f js))].
    intros r s1 (-> & k & Hk & ->). destruct (released_world _ _ _ _ _ _ Hw Hk Hna) as (C' & Hi' & Hw' & Hsame).
    assert (Ew : same_world (tkern s) k) by (by destruct Hk as (? & _ & _ & ? & _)).
    set (s1 := upd current_job _ _).
    assert (H1 : devs (tkern s1) !! d = Some D) by (change (devs k !! d = Some D); by rewrite Ew).
    assert (H2 : bound_for d s1 P).
    { intros b y Hwb Hy. change (skbs k !! b = Some y) in Hy. rewrite Hsame in Hy by done. by apply (Hb b). }
    assert (H3 : Z.testbit (tflags s1) TDMA_FLAG_SHUTDOWN = false).
    { change (Z.testbit (Z.setbit (tflags s) TDMA_FLAG_RECEIVED_SYNC) TDMA_FLAG_SHUTDOWN = false). by rewrite Z.setbit_neq. }
    pose proof (slots_rounds_run MASTER global_pool d D hard_header drv_xmit
      (tdma_packet_rx MASTER sizeof_reply_cal d hard_header a;; mret ()) f js sls s1 P C' [] Ht H1 Hi' Hw' H2 Hr Hs H3 eq_refl) as Hrun.
    eapply wp_mono; [|exact Hrun].
    intros r s2 (-> & _ & _ & Hs2). change (current_cycle s1) with cycle in Hs2. change (current_cycle_start s1) with (u64 (sched - o)) in Hs2.
      rewrite Es in Hs2. destruct Hs2 as [Hi2 Hw2 Hd2 Hp2 Hl2 Hwk2 Hj2 [Hc2 Hc2'] Hf2].
      split_and!; try done; [|by exists C']. rewrite Hl2. change (tkern s1) with k. replace (xmit_log k) with (xmit_log (tkern s)) by (by rewrite Ew).
      f_equal. apply list_fmap_ext. intros i b Hbi. f_equal. rewrite Hsame; [done|].
      destruct (schedule_sub _ _ _ _ _ _ _ Es) as (_ & Hout & _). rewrite Forall_forall in Hout. apply Hout. by eapply list_elem_of_lookup_2.
  - pose proof (schedule_times cycle (u64 (sched - o)) sls P) as Etm. rewrite Es in Etm. cbn in Etm. rewrite Etm, <-list_fmap_compose.
    apply list_fmap_ext. intros i sl _. cbn. unfold u64. rewrite Zplus_mod_idemp_l, <-(Z.add_assoc _ (offset sl)), Zplus_mod_idemp_l.
    f_equal. lia.
Qed.
End slave.
