(* ===== verification/TdmaConfig.v ===== *)
(** * Configuring TDMA slots

    Adding and removing slots keeps the jobs of the station a ring in the order of their
    offsets, the slot table and the queues of the slots. *)
From S2P Require Import Prelude State RtskbQueue Rtskb RtskbData Rtdev IpFragment Socket IpOutput IpInput Rtmac Tdma TdmaIoctl TdmaRing TdmaSlots TdmaFrames.

(** ** A new queue *)

Section init.
Context `{Config}.
Implicit Types (k : kstate) (P : prio_map) (C : gmap nat (list nat)).

Lemma clear_queues_run (base : nat) ns : ∀ k,
  (∀ i, i ∈ ns → is_Some (queues k !! (base + i)%nat)) →
  wp (foldr (λ i m, queue_upd (base + i)%nat (λ _, mk_queue None None 0);; m) (mret ()) ns)
     (λ _ k', k' = k <| queues := queues k' |> ∧
        ∀ q, queues k' !! q = if decide (q ∈ (λ i, (base + i)%nat) <$> ns) then Some (mk_queue None None 0) else queues k !! q) k.
Proof.
  induction ns as [|i ns IH]; intros k Hi; cbn [foldr].
  - apply wp_ret. split; [by destruct k|]. intros q. rewrite decide_False; [done|]. cbn. apply not_elem_of_nil.
  - destruct (Hi i) as [Q HQ]; [set_solver|]. unfold queue_upd, queue_load. wp_run.
    eapply wp_mono; [|apply IH].
    + intros [] k' [Ek Hq]. split; [rewrite Ek; done|]. intros q. rewrite Hq. cbn.
      destruct (decide (q = (base + i)%nat)) as [->|Hne].
      * rewrite lookup_insert_eq, (decide_True (P := _ ∈ _ :: _)) by set_solver. by case_decide.
      * rewrite lookup_insert_ne by done. apply decide_ext. set_solver.
    + intros j Hj. cbn. destruct (decide (i = j)) as [->|]; [rewrite lookup_insert_eq; eauto|]. rewrite lookup_insert_ne by lia. apply Hi. set_solver.
Qed.

(** The prioritized queue [local], with its 32 queues, is used for nothing. *)
Record spare_queue k P C (local : nat) : Prop := {
  sp_new : P !! local = None;
  sp_object : ∃ Q, prioqs k !! local = Some Q;
  sp_queues : ∀ Q i, prioqs k !! local = Some Q → (i < 32)%nat → is_Some (queues k !! (sub_base Q + i)%nat) ∧ C !! (sub_base Q + i)%nat = None;
  sp_apart : ∀ Q q Q' i j, prioqs k !! local = Some Q → is_Some (P !! q) → prioqs k !! q = Some Q' → (i < 32)%nat → (j < 32)%nat →
    (sub_base Q + i)%nat ≠ (sub_base Q' + j)%nat;
}.

Lemma empty_queue_ok h : is_queue h (mk_queue None None 0) [].
Proof. by split. Qed.
Lemma world_init k P C local (R : () → kstate → Prop) :
  pools_inv k C → prio_world k P C → spare_queue k P C local →
  (∀ k', k' = k <| queues := queues k' |> <| prioqs := prioqs k' |> → pools_inv k' C → prio_world k' (<[local := replicate 32 []]> P) C → R () k') →
  wp (rtskb_prio_queue_init local) R k.
Proof.
  intros Hinv [Hq Hpk Hsub Hpl Hu] [Hnew (Q & HQ) Hsq Hap] HR. unfold rtskb_prio_queue_init, prioq_upd, prioq_load. wp_run.
  specialize (Hap Q). specialize (Hsq Q).
  set (k1 := upd prioqs _ k). eapply wp_mono; [|apply (clear_queues_run (sub_base Q) (seq 0 32) k1)].
  2: { intros i [_ Hi]%elem_of_seq. by apply Hsq. }
  intros [] k' [Ek Hqs]. change (queues k1) with (queues k) in Hqs.
  assert (Ep : prioqs k' = <[local := Q <| usage := 0 |>]> (prioqs k)) by (by rewrite Ek).
  assert (Esk : skbs k' = skbs k) by (by rewrite Ek).
  assert (Hmine : ∀ i, (i < 32)%nat → queues k' !! (sub_base Q + i)%nat = Some (mk_queue None None 0)).
  { intros i Hi. rewrite Hqs, decide_True; [done|]. apply list_elem_of_fmap. exists i. split; [done|apply elem_of_seq; lia]. }
  assert (Hother : ∀ q, (∀ i, (i < 32)%nat → q ≠ (sub_base Q + i)%nat) → queues k' !! q = queues k !! q).
  { intros q Hne. rewrite Hqs, decide_False; [done|]. intros (i & E & [_ Hi]%elem_of_seq)%list_elem_of_fmap. by eapply Hne. }
  assert (Hbase : ∀ q R, prioqs k' !! q = Some R → ∃ R0, prioqs k !! q = Some R0 ∧ sub_base R0 = sub_base R ∧ (q ≠ local → R0 = R)).
  { intros q R0. rewrite Ep, lookup_insert_Some. intros [[<- <-]|[Hne HR0]]; [exists Q|exists R0]; done. }
  apply HR; [rewrite Ek; done|..].
  - eapply pools_inv_frame; [exact Hinv|..].
    + intros q l Hl. destruct (pi_queue _ _ Hinv _ _ Hl) as (Q0 & HQ0 & _). exists Q0, Q0. rewrite Hother; [done|].
      intros i Hi ->. destruct (Hsq i HQ Hi) as [_ Hn]. congruence.
    + intros q l b Hl Hb. by rewrite Esk.
  - split.
    + intros q L [[<- <-]|[Hne HL]]%lookup_insert_Some.
      * split; [done| |].
        -- exists (Q <| usage := 0 |>). rewrite Ep, lookup_insert_eq. split; [done|]. split; [cbn; lia|]. intros i l Hl. change (usage (Q <| usage := 0 |>)) with 0. change (sub_base (Q <| usage := 0 |>)) with (sub_base Q).
           apply lookup_replicate in Hl as [-> Hi]. split; [by rewrite Z.bits_0|]. exists (mk_queue None None 0). split; [by apply Hmine|]. apply empty_queue_ok.
        -- intros i j l m a Hl _ Ha. apply lookup_replicate in Hl as [-> _]. by apply elem_of_nil in Ha.
      * eapply is_prio_queue_frame; [by apply Hq|by rewrite Ep, lookup_insert_ne|..|intros; rewrite Esk; eauto].
        intros Q0 i HQ0 Hi. apply Hother. intros j Hj E. by eapply (Hap q Q0 j i).
    + intros q1 q2 L1 L2 l1 l2 a [[<- <-]|[Hne1 H1]]%lookup_insert_Some [[<- <-]|[Hne2 H2]]%lookup_insert_Some Hl1 Hl2 Ha1 Ha2; [done|..].
      * apply elem_of_replicate_inv in Hl1 as ->. by apply elem_of_nil in Ha1.
      * apply elem_of_replicate_inv in Hl2 as ->. by apply elem_of_nil in Ha2.
      * by eapply (Hpk q1 q2).
    + intros q1 q2 Q1 Q2 i j H1 H2 HQ1 HQ2 Hi Hj E. destruct (Hbase _ _ HQ1) as (R1 & HR1 & B1 & _), (Hbase _ _ HQ2) as (R2 & HR2 & B2 & _).
      rewrite <-B1, <-B2 in E. destruct (decide (q1 = local)) as [->|N1], (decide (q2 = local)) as [->|N2]; [done|..].
      * assert (R1 = Q) as -> by congruence. rewrite lookup_insert_ne in H2 by done. by destruct (Hap q2 R2 i j HQ H2 HR2 Hi Hj).
      * assert (R2 = Q) as -> by congruence. rewrite lookup_insert_ne in H1 by done. symmetry in E. by destruct (Hap q1 R1 j i HQ H1 HR1 Hj Hi).
      * rewrite !lookup_insert_ne in * by done. by eapply (Hsub q1 q2 R1 R2 i j).
    + intros q Q0 i HP HQ0 Hi. destruct (Hbase _ _ HQ0) as (R0 & HR0 & B0 & _). rewrite <-B0. destruct (decide (q = local)) as [->|N].
      * assert (R0 = Q) as -> by congruence. by apply Hsq.
      * rewrite lookup_insert_ne in HP by done. by eapply (Hpl q).
    + intros q L l a [[<- <-]|[Hne HL]]%lookup_insert_Some Hl Ha; [|by eapply Hu].
      apply elem_of_replicate_inv in Hl as ->. by apply elem_of_nil in Ha.
Qed.
End init.

(** ** A new slot *)

Section set_slot.
Context `{Config} (MASTER : bool) (d : nat) (D : rtnet_device) (msleep : M tdma ()) (patience : nat).
Context (kmalloc_results : Z → option (list Z)) (wait_call : Z → M tdma Z) (copied : bool).
Implicit Types (s : tdma) (P : prio_map) (C : gmap nat (list nat)) (cfg : slot_config).

Lemma ring_size s f js : job_ring s f js → (length js < size (jobs s))%nat.
Proof.
  intros Hr. pose proof (jr_ring _ _ _ Hr) as Hring. destruct Hring as [Hp Hnd].
  pose proof (NoDup_length_size (jobs s) (f :: js) Hnd) as Hs. cbn in Hs. apply Hs. intros a Ha. by eapply ring_exists.
Qed.
(** Without another task in between, the place is found at the first attempt. *)
Lemma place_new_run s f js slot x sl :
  job_ring s f js → no_stray_replies MASTER s js → jobs s !! slot = Some x → job_rest x = SLOT_JOB sl → (0 < patience)%nat →
  wp (place_slot MASTER msleep (mret ()) patience None slot)
     (λ r s', s' = s ∧ ∃ m1 m2, js = m1 ++ m2 ∧ r = before f m1 ∧ fits (jobs s) m1 m2 (offset sl)) s.
Proof.
  intros Hr Hst Hx Hb Hp. destruct patience as [|n]; [lia|]. cbn [place_slot]. wp_run. eapply wp_slot_load; [done..|].
  wp_run. eapply wp_job_load; [done|]. wp_run. eapply wp_deref; [by apply Hr|]. wp_run.
  change f with (before f []) at 1. eapply wp_mono; [|eapply (find_slot_run MASTER _ s f (offset sl) (job_id x) [] js)]; try done.
  - intros r s' (-> & m1 & m2 & E & -> & Hf). wp_run. rewrite Z.eqb_refl. cbn [negb]. wp_run. split; [done|]. by exists m1, m2.
  - by eapply ring_size.
Qed.

(** The slot a configuration describes, with the queue [local]. *)
Definition slot_for cfg (local : nat) : tdma_slot :=
  mk_slot (cfg_offset cfg) (cfg_period cfg) (cfg_phasing cfg) (cfg_size cfg) (u32 (cfg_size cfg + hard_header_len D)) local local.
(** The table with the slot; without a slot of its own, the traffic that is not real-time
    goes to the default slot. *)
Definition table_with (t : list (option Z)) (id : nat) (slot : Z) : list (option Z) :=
  let t := <[id := Some slot]> t in
  if bool_decide (id = DEFAULT_SLOT) && bool_decide (t !! DEFAULT_NRT_SLOT = Some None) then <[DEFAULT_NRT_SLOT := Some slot]> t else t.
(** The number [id] is free: the slot 1 also is while it only stands in for slot 0. *)
Definition slot_free s (id : nat) : Prop :=
  slot_table s !! id = Some None ∨ id = DEFAULT_NRT_SLOT ∧ slot_table s !! DEFAULT_NRT_SLOT = slot_table s !! DEFAULT_SLOT.

(** The limits of the VNIC for slots of [size] bytes. *)
Definition vnic_limit (size : Z) (p : vnic_priv) : vnic_priv :=
  let vmax := u32 (size - RTMAC_HLEN) in
  p <| vnic_max_mtu := vmax |>
    <| vnic_mtu := if ((vmax <? vnic_mtu p) || (vnic_max_mtu p =? vmax)) && negb ((s32 vmax <? 68) || (1500 - RTMAC_HLEN <? u32 (s32 vmax)))
                   then s32 vmax else vnic_mtu p |>.
Lemma set_max_mtu_run v p size (Q : () → vstate → Prop) :
  mac_privs v !! d = Some p → Q () (v <| mac_privs := <[d := vnic_limit size p]> (mac_privs v) |>) → wp (rtmac_vnic_set_max_mtu d size) Q v.
Proof.
  intros Hp HQ. unfold vnic_limit in HQ. unfold rtmac_vnic_set_max_mtu, priv_load. wp_run. eapply wp_priv_upd; [done|].
  destruct ((_ <? vnic_mtu p) || _); unfold when; cbn [andb] in HQ; [|wp_run; by destruct p].
  unfold rtmac_vnic_change_mtu. wp_run. destruct (_ || _); cbn [negb] in HQ; wp_run; [by destruct p|].
  eapply wp_priv_upd; [cbn; apply lookup_insert_eq|]. wp_run. revert HQ. unfold upd. cbn. by rewrite insert_insert_eq.
Qed.
Lemma table_set_run s i (v : option Z) (Q : () → tdma → Prop) :
  (i < length (slot_table s))%nat → Q () (s <| slot_table := <[i := v]> (slot_table s) |>) → wp (table_set i v) Q s.
Proof. intros Hi HQ. unfold table_set. destruct (lookup_lt_is_Some_2 (slot_table s) i Hi) as [e He]. by wp_run. Qed.


Lemma exchange_new_run s0 s f js slot x sl p cfg size :
  job_ring s0 f js → no_stray_replies MASTER s0 js → slot ∉ f :: js → jobs s = <[slot := x]> (jobs s0) → first_job s = first_job s0 →
  job_rest x = SLOT_JOB sl → 0 ≤ job_id x → (0 < patience)%nat → mac_privs (tv s) !! d = Some p →
  (2 ≤ length (slot_table s))%nat → slot_free s (Z.to_nat (cfg_id cfg)) → (Z.to_nat (cfg_id cfg) < length (slot_table s))%nat →
  wp (exchange_slot MASTER d msleep patience (mret ()) cfg size slot)
     (λ r s', r = 0 ∧ ∃ m1 m2 h, js = m1 ++ m2 ∧ job_ring s' f (m1 ++ slot :: m2) ∧ relinks (jobs s) h ∧
        s' = s <| tv := (tv s) <| mac_privs := <[d := vnic_limit size p]> (mac_privs (tv s)) |> |> <| jobs := h |>
               <| slot_table := table_with (slot_table s) (Z.to_nat (cfg_id cfg)) slot |>) s.
Proof.
  intros Hr Hst Hnew Ej Ef Hb Hid Hp Hpriv Hlen Hfree Hlt. unfold exchange_slot. set (id := Z.to_nat (cfg_id cfg)) in *. wp_run.
  destruct (lookup_lt_is_Some_2 (slot_table s) id Hlt) as [old Hold]. eapply wp_deref; [done|]. wp_run.
  destruct (lookup_lt_is_Some_2 (slot_table s) DEFAULT_SLOT) as [dflt Hdflt]; [unfold DEFAULT_SLOT; lia|]. eapply wp_deref; [done|].
  assert (Eo : (if bool_decide (id = DEFAULT_NRT_SLOT) && bool_decide (old = dflt) then None else old) = None).
  { destruct Hfree as [E|[E1 E2]]; [|subst id; rewrite E1 in *; rewrite !bool_decide_eq_true_2 by congruence; done].
    assert (old = None) as -> by congruence. by destruct (_ && _). }
  rewrite Eo. wp_run. assert (Hoth : ∀ j, j ≠ slot → jobs s !! j = jobs s0 !! j) by (intros j Hj; by rewrite Ej, lookup_insert_ne).
  assert (Hr' : job_ring s f js). { eapply job_ring_same; [exact Hr| |done]. intros c Hc. apply Hoth. by intros ->. }
  eapply wp_mono; [|eapply (place_new_run s f js slot x sl); [done| |by rewrite Ej, lookup_insert_eq|done|done]].
  2: { destruct Hst as [->|Hst]; [by left|]. right. intros j y Hj. rewrite Hoth by (intros ->; set_solver). by apply Hst. }
  intros r s1 (-> & m1 & m2 & -> & -> & Hfit). wp_run.
  eapply (add_sorted_run s s f m1 m2 slot x); [done|done|by rewrite Ej, lookup_insert_eq|by unfold job_ok; rewrite Hb|by rewrite Hb|done|done| |].
  { intros v. unfold time_of. rewrite Hb. by intros [= <-]. }
  intros h Hring HR. wp_run. eapply table_set_run; [done|]. wp_run.
  assert (Hlt' : (length (<[id := Some slot]> (slot_table s)) = length (slot_table s))%nat) by apply length_insert.
  set (t := <[id := Some slot]> (slot_table s)) in *.
  set (s2 := upd slot_table _ _).
  assert (Hend : ∀ s3, s3 = s <| jobs := h |> <| slot_table := table_with (slot_table s) id slot |> →
    wp (in_tv (rtmac_vnic_set_max_mtu d size)) (λ _, wp (mret ();; mret 0)
     (λ r s', r = 0 ∧ ∃ m3 m4 h', m1 ++ m2 = m3 ++ m4 ∧ job_ring s' f (m3 ++ slot :: m4) ∧ relinks (jobs s) h' ∧
        s' = s <| tv := (tv s) <| mac_privs := <[d := vnic_limit size p]> (mac_privs (tv s)) |> |> <| jobs := h' |>
               <| slot_table := table_with (slot_table s) id slot |>)) s3).
  { intros s3 ->. unfold in_tv. apply (wp_zoom tv). eapply set_max_mtu_run; [done|]. wp_run. split; [done|].
    exists m1, m2, h. split_and!; try done. eapply job_ring_same; [exact Hring|done|done]. }
  assert (Et : table_with (slot_table s) id slot =
    if bool_decide (id = DEFAULT_SLOT) && bool_decide (t !! DEFAULT_NRT_SLOT = Some None) then <[DEFAULT_NRT_SLOT := Some slot]> t else t) by done.
  destruct (bool_decide (id = DEFAULT_SLOT)) eqn:Eid; unfold when; cbn [andb] in Et; [|wp_run; apply Hend; by rewrite ?Et].
  destruct (lookup_lt_is_Some_2 t DEFAULT_NRT_SLOT) as [e He].
  { unfold DEFAULT_NRT_SLOT. lia. }
  wp_run. rewrite He in Et. destruct (bool_decide (e = None)) eqn:Ee.
  - apply bool_decide_eq_true in Ee as ->. rewrite bool_decide_eq_true_2 in Et by done.
    eapply table_set_run; [eapply lookup_lt_Some; exact He|]. wp_run. apply Hend; by rewrite ?Et.
  - apply bool_decide_eq_false in Ee. rewrite bool_decide_eq_false_2 in Et by congruence. wp_run. apply Hend; by rewrite ?Et.
Qed.

(** The number, the size and the memory are there. *)
Record can_add s cfg (slot : Z) (local : nat) (mem : list (Z * nat)) : Prop := {
  ca_id : 0 ≤ cfg_id cfg ≤ max_slot_id s;
  ca_max : max_slot_id s < 2 ^ 32;
  ca_size : 0 < cfg_size cfg ≤ mtu D;
  ca_joint : cfg_joint_slot cfg < 0;
  ca_mem : slot_mem s = (slot, local) :: mem;
  ca_table : (2 ≤ length (slot_table s))%nat;
  ca_entry : (Z.to_nat (cfg_id cfg) < length (slot_table s))%nat;
  ca_free : slot_free s (Z.to_nat (cfg_id cfg));
  ca_calibrated : Z.testbit (tflags s) TDMA_FLAG_CALIBRATED = true;
  ca_vnic : is_Some (mac_privs (tv s) !! d);
}.

(** C20: Configuration of a slot with a free number, a size and a queue of its own (no
    joint slot) at a calibrated station, when no other task runs meanwhile: the slot
    takes its place in the ring of jobs in the order of the offsets, gets an entry of the
    slot table and an empty queue that it shares with no other, and all other jobs stay
    what they are.  The VNIC of the device gets the limits for the size of the slot.
    Beyond that nothing changes: no other VNIC, device, buffer or transmission, and no
    other field of the discipline. *)
Theorem tdma_set_slot_adds s P C f js cfg slot local mem :
  devs (tkern s) !! d = Some D → can_add s cfg slot local mem → (0 < patience)%nat →
  job_ring s f js → no_stray_replies MASTER s js → slot ∉ f :: js →
  pools_inv (tkern s) C → prio_world (tkern s) P C → spare_queue (tkern s) P C local →
  wp (tdma_ioctl_set_slot MASTER d msleep patience kmalloc_results wait_call copied (mret ()) true cfg)
     (λ r s', r = 0 ∧
        (∃ m1 m2, js = m1 ++ m2 ∧ job_ring s' f (m1 ++ slot :: m2)) ∧
        (∃ x, jobs s' !! slot = Some x ∧ job_id x = cfg_id cfg ∧ job_rest x = SLOT_JOB (slot_for cfg local)) ∧
        (∀ j x, j ≠ slot → jobs s !! j = Some x → ∃ y, jobs s' !! j = Some y ∧ job_id y = job_id x ∧ job_rest y = job_rest x) ∧
        pools_inv (tkern s') C ∧ prio_world (tkern s') (<[local := replicate 32 []]> P) C ∧
        ∃ p k' h, mac_privs (tv s) !! d = Some p ∧ k' = (tkern s) <| queues := queues k' |> <| prioqs := prioqs k' |> ∧
          s' = s <| tv := (tv s) <| vkern := k' |> <| mac_privs := <[d := vnic_limit (cfg_size cfg) p]> (mac_privs (tv s)) |> |>
                 <| jobs := h |> <| slot_table := table_with (slot_table s) (Z.to_nat (cfg_id cfg)) slot |> <| slot_mem := mem |>) s.
Proof.
  intros HD [Hid Hmx Hsz Hjt Hmem Hlen Hent Hfree Hcal [p Hpriv]] Hpat Hr Hst Hnew Hinv Hw Hsp.
  unfold tdma_ioctl_set_slot. cbn [negb]. wp_run. apply wp_in_tkern. eapply wp_dev_load; [done|]. rewrite set_tkern_id by done.
  wp_run. unfold check_slot. wp_run. unfold u32. rewrite Z.mod_small by lia. replace (max_slot_id s <? cfg_id cfg) with false by lia.
  replace (cfg_size cfg =? 0) with false by lia. replace (mtu D <? cfg_size cfg) with false by lia. cbn [negb andb].
  replace (0 <=? cfg_joint_slot cfg) with false by lia. wp_run. rewrite Hmem. unfold test_flag. wp_run. cbn [tflags upd]. rewrite Hcal.
  wp_run. cbn [Z.ltb Z.compare]. unfold init_slot. wp_run. apply wp_in_tkern. eapply world_init; [done..|]. intros k' Ek Hinv' Hw'.
  replace (0 <=? cfg_joint_slot cfg) with false by lia. wp_run.
  eapply wp_mono; [|eapply (exchange_new_run s _ f js slot _ (slot_for cfg local) p cfg); [exact Hr|exact Hst|exact Hnew|reflexivity|done|done|cbn; lia|done..]].
  intros r s' (-> & m1 & m2 & h & -> & Hring & HR & ->). split_and!; try done; [by exists m1, m2|..|by eexists _, k', h].
  - destruct (relinks_lookup _ _ slot _ HR (lookup_insert_eq _ _ _)) as (y & Hy & Ey). exists y. split; [done|]. by rewrite Ey.
  - intros j x Hj Hx. destruct (relinks_lookup _ _ j x HR) as (y & Hy & Ey); [cbn; by rewrite lookup_insert_ne|]. exists y. split; [done|]. by rewrite Ey.
Qed.
End set_slot.
