(* ===== verification/Witnesses.v ===== *)
(** * Concrete instances of the properties

    Small states in which the hypotheses of the theorems hold, and the theorems
    applied to them.  All are built with the default configuration. *)
From S2P Require Import Prelude State RtskbQueue Rtskb RtskbData RtskbFifo Rtdev Route RouteHost RouteOps.
From S2P Require Import Inet IpFragment Timerwheel RtcfgFrame RtcfgConn RtcfgServer RtcfgClient RtcfgOps.
From S2P Require Import RtcfgClientOps RtcfgStage2.
#[local] Existing Instance default_config.

(** Case analysis on a lookup in an explicit map or list. *)
Ltac map_cases H :=
  try (match type of H with ?m !! _ = _ => unfold m in H end);
  repeat (apply lookup_insert_Some in H as [[<- <-]|[? H]]);
  try (by apply lookup_empty_Some in H).
Ltac list_cases H :=
  repeat (apply lookup_cons_Some in H as [[-> H]|[? H]]; [injection H as <-|]); try done.

(** ** Buffers and pools *)

(** A buffer at address [p] with 64 bytes of memory, [n] of them used. *)
Definition ex_skb (p : nat) (nxt : option nat) (pl : nat) (n : Z) : rtskb :=
  (zero_rtskb (replicate 64 7)) <| next := nxt |> <| chain_end := Some p |> <| pool := Some pl |>
    <| buf_start := 1000 |> <| data := 1016 |> <| tail := 1016 + n |> <| len := n |> <| end_ := 1064 |>
    <| mac_raw := 1002 |> <| buf_dma_addr := 1 |>.
Definition ex_k : kstate :=
  mk_kstate
    (<[1%nat := ex_skb 1 (Some 2%nat) 0 0]> (<[2%nat := ex_skb 2 None 0 0]>
       (<[3%nat := ex_skb 3 None 0 8]> (<[4%nat := ex_skb 4 None 1 0]> ∅))))
    (<[0%nat := mk_queue (Some 1%nat) (Some 2%nat) 0]> (<[1%nat := mk_queue (Some 4%nat) (Some 4%nat) 0]> ∅))
    ∅ ∅ [(10%nat, [])] [2%nat; 1%nat] (replicate 8 None) None 2 2 4 4 [] [].
(** The pools: two buffers in pool 0, one in pool 1; buffer 3 is in use. *)
Definition ex_pools : gmap nat (list nat) := <[0%nat := [1; 2]%nat]> (<[1%nat := [4]%nat]> ∅).

Lemma ex_pools_inv : pools_inv ex_k ex_pools.
Proof.
  split.
  - intros q l H. map_cases H; eexists; (split; [reflexivity|]); (split; [|done]); by repeat eexists.
  - intros q1 q2 l1 l2 a H1 H2 Ha1 Ha2. map_cases H1; map_cases H2; try done; set_solver.
  - intros q l a x H Ha Hx. map_cases H; repeat (apply elem_of_cons in Ha as [->|Ha]); try set_solver;
      vm_compute in Hx; by simplify_eq.
Qed.
Lemma ex_in_use : in_use ex_pools 3.
Proof. intros q l H. map_cases H; set_solver. Qed.

Lemma ex_size : 100 ≤ SKB_DATA_ALIGN RTSKB_SIZE.
Proof. by apply Z.leb_le. Qed.

Lemma alloc_rtskb_witness : ∃ s', alloc_rtskb 100 0 ex_k = Some (Some 1%nat, s') ∧ in_use (<[0%nat := [2]%nat]> ex_pools) 1.
Proof.
  destruct (wp_elim _ _ _ (alloc_rtskb_correct ex_k ex_pools 0 [1; 2]%nat 100 ex_pools_inv eq_refl
    ex_size)) as (r & s' & E & -> & _ & Hu & _).
  exists s'. split; [exact E|exact Hu].
Defined.
Lemma rtskb_acquire_witness : ∃ s', rtskb_acquire 3 1 ex_k = Some (0, s') ∧ pool_size s' 1 = pool_size ex_k 1.
Proof.
  destruct (wp_elim _ _ _ (rtskb_acquire_correct ex_k ex_pools 3 (ex_skb 3 None 0 8) 0 1 [4]%nat ex_pools_inv
    eq_refl ltac:(vm_compute; eauto) eq_refl eq_refl ex_in_use)) as (r & s' & E & -> & _ & _ & Hp).
  exists s'. split; [exact E|apply Hp].
Defined.
Lemma kfree_rtskb_witness : ∃ s', kfree_rtskb (Some 3%nat) ex_k = Some ((), s') ∧
  pools_inv s' (<[0%nat := [1; 2; 3]%nat]> ex_pools).
Proof.
  destruct (wp_elim _ _ _ (kfree_rtskb_correct ex_k ex_pools 3 [3]%nat 0 [1; 2]%nat ex_pools_inv eq_refl
    ltac:(eexists _, None; split_and!; [done|reflexivity|done|by repeat eexists|apply NoDup_singleton])
    ltac:(intros a ->%list_elem_of_singleton; split; [apply ex_in_use|];
          intros x Hx; vm_compute in Hx; by simplify_eq))) as ([] & s' & E & Hi & _).
  exists s'. split; [exact E|exact Hi].
Defined.
Lemma rtskb_pool_extend_witness : ∃ s', rtskb_pool_extend 0 3 ex_k = Some (1, s') ∧ 10%nat ∈ rtskb_list s'.
Proof.
  destruct (wp_elim _ _ _ (rtskb_pool_extend_correct (λ _, 1) ex_k ex_pools 0 [1; 2]%nat 3 ex_pools_inv eq_refl
    ltac:(split; [apply NoDup_singleton|by intros p ->%list_elem_of_singleton])
    ltac:(split; [done|]; intros d Hd; apply list_elem_of_lookup in Hd as [i Hi];
          apply lookup_replicate in Hi as [? _]; discriminate)
    ltac:(lia))) as (r & s' & E & -> & _ & _ & Hl & _).
  exists s'. split; [exact E|apply Hl; vm_compute; set_solver].
Defined.
(** A device that maps buffers registered before the mapping of buffer 1. *)
Definition ex_dev (ifi : Z) (lip : Z) : rtnet_device :=
  mk_device 512 [114; 116; 48 + ifi; 0] ifi 0 3 1 1 (replicate 32 255) (replicate 32 7) 6 lip (bswap32 167772415)
    0 1500 0 0 14 HARD_START_XMIT None false.
Definition ex_k_unmapped : kstate :=
  ex_k <| skbs := <[1%nat := (ex_skb 1 (Some 2%nat) 0 0) <| buf_dma_addr := 0 |>]> (skbs ex_k) |>
       <| rtskb_list := [1; 2]%nat |> <| devs := <[7%nat := (ex_dev 1 0) <| map_rtskb := Some (λ _, 5) |>]> ∅ |>.
Lemma ex_unmapped_inv : pools_inv ex_k_unmapped ex_pools.
Proof.
  split.
  - intros q l H. map_cases H; eexists; (split; [reflexivity|]); (split; [|done]); by repeat eexists.
  - exact (pi_disj _ _ ex_pools_inv).
  - intros q l a x H Ha Hx. map_cases H; repeat (apply elem_of_cons in Ha as [->|Ha]); try set_solver;
      vm_compute in Hx; by simplify_eq.
Qed.
Lemma shrink_leaves_freed_buffer_listed_witness :
  ∃ s', rtskb_pool_shrink 0 1 ex_k_unmapped = Some (1, s') ∧ skbs s' !! 1%nat = None ∧ rtskb_list s' = [1; 2]%nat.
Proof.
  destruct (wp_elim _ _ _ (shrink_leaves_freed_buffer_listed ex_k_unmapped ex_pools 0 1 [2]%nat _ [2]%nat 7 _
    (λ _, 5) ex_unmapped_inv eq_refl eq_refl eq_refl eq_refl eq_refl eq_refl ltac:(discriminate)))
    as (n & s' & E & -> & Hn & Hl & _).
  exists s'. split_and!; [exact E|exact Hn|exact Hl].
Defined.

(** ** Priority queues *)

(** Buffer 1 waits at priority 5, the other lists are empty; buffer 3 is free. *)
Definition ex_prio_lists : list (list nat) := <[5%nat := [1%nat]]> (replicate 32 []).
Definition ex_prio_queues : gmap nat rtskb_queue :=
  list_to_map ((λ i, (100 + i, if decide (i = 5) then mk_queue (Some 1) (Some 1) 0 else mk_queue None None 0))%nat
    <$> seq 0 32).
Definition ex_kp : kstate :=
  ex_k <| skbs := <[1%nat := ex_skb 1 None 0 0]> (skbs ex_k) |> <| queues := ex_prio_queues |>
       <| prioqs := <[9%nat := mk_prio_queue 32 100]> ∅ |>.
Lemma ex_prio_cases i l : ex_prio_lists !! i = Some l → (i = 5%nat ∧ l = [1%nat]) ∨ (i ≠ 5%nat ∧ (i < 32)%nat ∧ l = []).
Proof.
  unfold ex_prio_lists. intros [(<- & <- & _)|(Hne & [-> Hi]%lookup_replicate)]%list_lookup_insert_Some; auto.
Qed.
Lemma ex_prio_queue : is_prio_queue ex_kp 9 ex_prio_lists.
Proof.
  split; [done|..].
  - eexists. split; [reflexivity|]. split; [done|]. intros i l [(-> & ->)|(Hne & Hi & ->)]%ex_prio_cases.
    + split; [done|]. eexists. split; [reflexivity|]. split; [by repeat eexists|done].
    + split.
      * do 32 (destruct i as [|i]; [done|]). lia.
      * exists (mk_queue None None 0). split; [|done].
        do 32 (destruct i as [|i]; [done|]). lia.
  - intros i j l k a [(-> & ->)|(_ & _ & ->)]%ex_prio_cases [(-> & ->)|(_ & _ & ->)]%ex_prio_cases; set_solver.
Qed.
Lemma prio_dequeue_witness : ∃ s', __rtskb_prio_dequeue 9 ex_kp = Some (Some 1%nat, s').
Proof.
  destruct (wp_elim _ _ _ (prio_dequeue_correct ex_kp 9 ex_prio_lists ex_prio_queue))
    as (r & s' & E & [(-> & _)|(i & a & l & Hi & -> & _)]).
  - exfalso. vm_compute in E. discriminate.
  - exists s'. rewrite E. apply ex_prio_cases in Hi as [(-> & [= -> ->])|(_ & _ & [=])]. done.
Defined.
Lemma prio_queue_tail_witness :
  ∃ s', __rtskb_prio_queue_tail 9 3 ex_kp = Some ((), s') ∧
        is_prio_queue s' 9 (<[0%nat := [3%nat]]> ex_prio_lists).
Proof.
  destruct (wp_elim _ _ _ (prio_queue_tail_correct ex_kp 9 ex_prio_lists 3 (ex_skb 3 None 0 8) [3%nat] 0 []
    ex_prio_queue
    ltac:(eexists _, None; split_and!; [done|reflexivity|done|by repeat eexists|apply NoDup_singleton])
    eq_refl
    ltac:(intros a j k ->%list_elem_of_singleton [(-> & ->)|(_ & _ & ->)]%ex_prio_cases; set_solver)
    eq_refl eq_refl)) as ([] & s' & E & Hq).
  exists s'. split; [exact E|exact Hq].
Defined.

(** ** Buffer contents *)

Lemma ex_wf p nxt pl n : 0 ≤ n ≤ 48 → wf_rtskb (ex_skb p nxt pl n).
Proof. intros Hn. split; cbn; lia. Qed.
Lemma rtskb_data_ops_witness :
  payload (snd (rtskb_pull 3 (ex_skb 3 None 0 8))) = replicate 5 7 ∧
  rtskb_put 4 (ex_skb 3 None 0 8) = (1024, ex_skb 3 None 0 12).
Proof.
  destruct (rtskb_data_ops (ex_skb 3 None 0 8) 3 (ex_wf 3 None 0 8 ltac:(lia)) ltac:(lia)) as (Hpull & _).
  specialize (Hpull ltac:(cbn; lia)). destruct (rtskb_pull 3 (ex_skb 3 None 0 8)) as [r y] eqn:E.
  split; [exact (proj2 (proj2 Hpull))|reflexivity].
Defined.
Lemma rtskb_clone_witness : ∃ s', rtskb_clone 3 1 ex_k = Some (Some 4%nat, s').
Proof.
  destruct (wp_elim _ _ _ (rtskb_clone_correct ex_k ex_pools 1 [4%nat] 3 (ex_skb 3 None 0 8) ex_pools_inv eq_refl
    eq_refl ex_in_use (ex_wf 3 None 0 8 ltac:(lia)) ltac:(cbn; lia)
    ltac:(by split; apply Z.leb_le) ltac:(by apply Z.ltb_lt)
    ltac:(intros a y H; unfold ex_k in H; cbn [skbs] in H; map_cases H; done))) as (r & s' & E & -> & _).
  exists s'. exact E.
Defined.

(** ** FIFO *)

Definition ex_fifo : rtskb_fifo := mk_fifo 3 3 0 [None; None; None; Some 11%nat].
Lemma ex_fifo_rep : fifo_rep 2 ex_fifo [11%nat].
Proof. split; try done. intros [|i] p [=]; by subst. Qed.
Lemma rtskb_fifo_witness :
  (∃ f', __rtskb_fifo_insert 12 ex_fifo = Some (0, f') ∧ fifo_rep 2 f' [11%nat; 12%nat]) ∧
  ∃ f', __rtskb_fifo_remove ex_fifo = Some (Some 11%nat, f').
Proof.
  destruct (rtskb_fifo_correct 2 ex_fifo [11%nat] 12 ex_fifo_rep) as [H1 H2]. split.
  - destruct (wp_elim _ _ _ H1) as (r & f' & E & -> & Hr). exists f'. split; [exact E|exact Hr].
  - destruct (wp_elim _ _ _ H2) as (r & f' & E & -> & _). exists f'. exact E.
Defined.
Definition ex_conf : Concurrent.conf :=
  Concurrent.mk_conf (mk_fifo 0 3 0 (replicate 4 None)) Concurrent.WIdle Concurrent.RIdle [] [].
Lemma rtskb_fifo_concurrent_witness :
  ∃ c', rtc Concurrent.step ex_conf c' ∧ Concurrent.sent c' = [8%nat] ∧ Concurrent.no_fault c'.
Proof.
  eassert (Hs : rtc Concurrent.step ex_conf _).
  { eapply rtc_l; [apply (Concurrent.w_read_pos _ _ _ _ 8)|].
    eapply rtc_l; [by apply Concurrent.w_room|].
    eapply rtc_l; [by apply Concurrent.w_store|].
    eapply rtc_l; [by apply Concurrent.w_publish|]. apply rtc_refl. }
  eexists. split; [exact Hs|]. split; [reflexivity|].
  exact (proj1 (rtskb_fifo_concurrent_fifo 2 ex_conf _ ltac:(lia)
    ltac:(eexists; split; [reflexivity|reflexivity]) Hs)).
Defined.

(** ** Devices *)

(** Device 7 is registered as number 1, device 8 is the loopback device. *)
Definition ex_lo : rtnet_device := (ex_dev 2 (bswap32 2130706433)) <| flags := IFF_LOOPBACK |>.
Definition ex_kd : kstate :=
  ex_k <| devs := <[7%nat := ex_dev 1 (bswap32 167772161)]> (<[8%nat := ex_lo]> (<[9%nat := ex_dev 0 0]> ∅)) |>
       <| rtnet_devices := Some 7%nat :: Some 8%nat :: replicate 6 None |> <| loopback_device := Some 8%nat |>.
Lemma ex_table i d : rtnet_devices ex_kd !! i = Some (Some d) → (i, d) = (0, 7)%nat ∨ (i, d) = (1, 8)%nat.
Proof. intros H. do 8 (destruct i as [|i]; [vm_compute in H; simplify_eq; auto|]). done. Qed.
Lemma ex_devtab : devtab ex_kd.
Proof.
  split; [done|..].
  - intros i d [[= -> ->]|[= -> ->]]%ex_table; eexists; split; reflexivity.
  - intros i j d e D E [[= -> ->]|[= -> ->]]%ex_table [[= -> ->]|[= -> ->]]%ex_table HD HE Hn;
      vm_compute in HD, HE; simplify_eq; done.
  - intros d. split.
    + intros [= <-]. exists 1%nat, ex_lo. done.
    + intros (i & D & [[= -> ->]|[= -> ->]]%ex_table & HD & Hf); [|done]. vm_compute in HD. by simplify_eq.
Qed.
Lemma ex_not_registered : ¬ registered ex_kd 9.
Proof. intros [i [[=]|[=]]%ex_table]. Qed.
Lemma ex_listed a : a ∈ rtskb_list ex_kd → is_Some (skbs ex_kd !! a).
Proof. intros H. repeat (apply elem_of_cons in H as [->|H]); try set_solver; vm_compute; eauto. Qed.

Lemma rt_register_rtnetdev_witness :
  ∃ s', rt_register_rtnetdev [] 9 ex_kd = Some (0, s') ∧ devtab s'.
Proof.
  destruct (rt_register_rtnetdev_correct [] 9 (ex_dev 0 0) ex_kd ex_devtab ex_not_registered eq_refl
    ltac:(done) ex_listed ltac:(by intros h Hh%elem_of_nil)) as (ret & s' & E & Ht & Hr).
  exists s'. split; [|exact Ht]. destruct Hr as [(-> & _)|(Hneg & _)]; [exact E|].
  exfalso. vm_compute in E. injection E as <- _. lia.
Defined.
Lemma rtdev_get_witness : ∃ s', rtdev_get_by_index 2 ex_kd = Some (Some 8%nat, s').
Proof.
  destruct (rtdev_get_correct ex_kd [] 2 ex_devtab) as (_ & [d|] & s' & E & _ & H).
  - exists s'. rewrite E. destruct H as (D & _ & HD & Hf & _). vm_compute in E. injection E as <- _. done.
  - exfalso. vm_compute in E. discriminate.
Defined.
(** Another task drops the last reference while the unregistration waits. *)
Definition ex_kref : kstate := ex_kd <| devs := <[7%nat := (ex_dev 1 (bswap32 167772161)) <| refcount := 1 |>]> (devs ex_kd) |>.
Definition ex_drop (s : kstate) : kstate :=
  s <| devs := alter (λ D, D <| refcount := 0 |>) 7%nat (devs s) |>.
Lemma ex_kref_devtab : devtab ex_kref.
Proof.
  eapply devtab_frame; [exact ex_devtab|done..|]. intros d. unfold ex_kref. cbn.
  destruct (decide (d = 7%nat)) as [->|Hd]; [reflexivity|]. by rewrite lookup_insert_ne.
Qed.
Lemma ex_drop_step : env_step ex_drop.
Proof.
  intros s. unfold same_table. split_and!; [done..| |done]. intros d. unfold ex_drop. cbn. destruct (decide (d = 7%nat)) as [->|Hd].
  - rewrite lookup_alter_eq. by destruct (devs s !! 7%nat).
  - by rewrite lookup_alter_ne.
Qed.
Lemma ex_drop_refs s : Exists (λ c, c ≤ 0) (refs_after [ex_drop] 7 s).
Proof.
  right. left. unfold ex_drop. cbn. rewrite lookup_alter_eq. destruct (devs s !! 7%nat); cbn; lia.
Qed.
(** A stop function that stops the queue, as those of the drivers do. *)
Definition ex_stop (d : nat) : option (M kstate Z) :=
  Some (dev_upd d (λ D, D <| link_state := Z.setbit (link_state D) 0 |>);; mret 0).
Lemma ex_stop_spares : stop_spares ex_stop 7.
Proof.
  intros f [= <-] s [D HD]. apply wp_bind. eapply wp_dev_upd; [exact HD|]. apply wp_ret. by eapply spares_upd.
Qed.
Lemma rt_unregister_rtnetdev_witness :
  ∃ s', rt_unregister_rtnetdev ex_stop [] [ex_drop] 7 ex_kref = Some (0, s') ∧
        rtnet_devices s' !! 0%nat = Some None.
Proof.
  destruct (rt_unregister_rtnetdev_correct [] ex_stop [ex_drop] 7 _ 0 ex_kref ex_kref_devtab eq_refl eq_refl ex_listed
    ltac:(constructor; [apply ex_drop_step|constructor]) ex_stop_spares ltac:(by intros h Hh%elem_of_nil)
    ltac:(intros s1 _; apply ex_drop_refs)) as (s' & E & _ & Et & _).
  exists s'. split; [exact E|]. rewrite Et. reflexivity.
Defined.

(** ** Routes *)

(** 10.0.0.2 is reached through device 7, its own address 10.0.0.1 through the
    loopback device; route object 1 is free. *)
Definition ex_peer : Z := bswap32 167772162.
Definition ex_own : Z := bswap32 167772161.
Definition ex_mac : list Z := [2; 0; 0; 0; 0; 1].
Definition ex_buckets : list (list nat) := <[2%nat := [0%nat]]> (<[1%nat := [2%nat]]> (replicate 64 [])).
Definition ex_r : rstate :=
  mk_rstate ex_kd
    (<[0%nat := mk_host None (mk_dest ex_peer ex_mac (Some 7%nat))]>
       (<[1%nat := mk_host None (mk_dest 0 [] None)]>
          (<[2%nat := mk_host None (mk_dest ex_own (replicate 32 7) (Some 8%nat))]> ∅)))
    (Some 1%nat) 2 (<[2%nat := Some 0%nat]> (<[1%nat := Some 2%nat]> (replicate 64 None)))
    ∅ None 0 (replicate 65 None) 8.
Definition ex_routes : route_map :=
  <[(ex_peer, ex_own) := (7%nat, ex_mac)]> (<[(ex_own, local_ip ex_lo) := (8%nat, replicate 6 7)]> ∅).

Lemma ex_bucket_cases i l : ex_buckets !! i = Some l →
  (i, l) = (2, [0])%nat ∨ (i, l) = (1, [2])%nat ∨ (i ≠ 2 ∧ i ≠ 1 ∧ i < 64 ∧ l = [])%nat.
Proof.
  unfold ex_buckets. intros [(<- & <- & _)|(H2 & [(<- & <- & _)|(H1 & [-> Hi]%lookup_replicate)]
    %list_lookup_insert_Some)]%list_lookup_insert_Some; auto 6.
Qed.
Lemma ex_in_bucket i a : in_bucket ex_buckets i a ↔ (i, a) = (2, 0)%nat ∨ (i, a) = (1, 2)%nat.
Proof.
  split.
  - intros (l & [[= -> ->]|[[= -> ->]|(_ & _ & _ & ->)]]%ex_bucket_cases & Ha); set_solver.
  - intros [[= -> ->]|[= -> ->]]; eexists; (split; [reflexivity|]); set_solver.
Qed.
Lemma ex_host_state : host_state ex_r ex_buckets [1%nat] ex_routes.
Proof.
  split; [split|].
  - done.
  - intros i l [[= -> ->]|[[= -> ->]|(H2 & H1 & Hi & ->)]]%ex_bucket_cases;
      [by repeat eexists|by repeat eexists|].
    exists None. split; [|done]. unfold ex_r. cbn [host_hash_tbl]. rewrite !list_lookup_insert_ne by done.
    by apply lookup_replicate_2.
  - by repeat eexists.
  - intros i j a [[= -> ->]|[= -> ->]]%ex_in_bucket [H|H]%ex_in_bucket; congruence.
  - intros i a [[= -> ->]|[= -> ->]]%ex_in_bucket; set_solver.
  - intros i a x [[= -> ->]|[= -> ->]]%ex_in_bucket Hx; vm_compute in Hx; injection Hx as <-;
      (split; [reflexivity|by eexists]).
  - intros i j a b x y k v w [[= -> ->]|[= -> ->]]%ex_in_bucket [[= -> ->]|[= -> ->]]%ex_in_bucket Hx Hy Ex Ey;
      try done; exfalso; vm_compute in Hx, Hy; injection Hx as <-; injection Hy as <-;
      vm_compute in Ex, Ey; simplify_eq.
  - intros k v. split.
    + intros H. map_cases H; [exists 2%nat, 0%nat|exists 1%nat, 2%nat]; eexists;
        (split; [apply ex_in_bucket; auto|]); (split; reflexivity).
    + intros (i & a & x & [[= -> ->]|[= -> ->]]%ex_in_bucket & Hx & Ex); vm_compute in Hx; injection Hx as <-;
        vm_compute in Ex; injection Ex as <- <-; reflexivity.
Qed.
Lemma ex_u32 : is_u32 ex_peer ∧ is_u32 ex_own ∧ is_u32 (bswap32 167772163).
Proof. split_and!; apply bswap32_range. Qed.

Lemma rt_ip_route_add_host_witness :
  ∃ r' B' F', rt_ip_route_add_host (bswap32 167772163) [2; 0; 0; 0; 0; 3] 7 ex_r = Some (0, r') ∧
    host_state r' B' F' (<[(bswap32 167772163, ex_own) := (7%nat, [2; 0; 0; 0; 0; 3])]> ex_routes).
Proof.
  destruct (rt_ip_route_add_host_correct ex_r ex_buckets [1%nat] ex_routes (bswap32 167772163)
    [2; 0; 0; 0; 0; 3] 7 _ ex_host_state (proj2 (proj2 ex_u32)) eq_refl ltac:(done))
    as (ret & r' & E & _ & H).
  destruct H as [(-> & B' & F' & Hs)|(_ & HF & _)]; [|discriminate].
  exists r', B', F'. split; [exact E|exact Hs].
Defined.
Lemma rt_ip_route_del_host_witness :
  ∃ r', rt_ip_route_del_host ex_peer (Some 7%nat) ex_r = Some (0, r').
Proof.
  destruct (rt_ip_route_del_host_correct ex_r ex_buckets [1%nat] ex_routes ex_peer (Some 7%nat)
    (Some ex_own) ex_host_state (proj1 ex_u32) eq_refl) as (ret & r' & E & _ & [(-> & _)|(_ & Hn & _)]).
  - exists r'. exact E.
  - exfalso. specialize (Hn (ex_peer, ex_own) ltac:(vm_compute; auto)). discriminate.
Defined.
Lemma rt_ip_route_del_all_witness :
  ∃ r' B' F' T', rt_ip_route_del_all 7 ex_r = Some ((), r') ∧ host_state r' B' F' T' ∧
                 T' !! (ex_peer, ex_own) = None.
Proof.
  destruct (rt_ip_route_del_all_correct ex_r ex_buckets [1%nat] ex_routes 7 _ ex_host_state eq_refl
    (proj1 (proj2 ex_u32))) as (r' & B' & F' & T' & E & _ & Hs & -> & _).
  eexists r', B', F', _. split; [exact E|]. split; [exact Hs|reflexivity].
Defined.
Lemma rt_ip_route_output_witness :
  ∃ dst r', rt_ip_route_output ex_peer 0 ex_r = Some ((0, Some dst), r').
Proof.
  destruct (rt_ip_route_output_correct (H := default_config) ex_r ex_buckets [1%nat] ex_routes ex_peer 0 eq_refl ex_host_state
    (proj1 ex_u32)) as (ret & dst & r' & E & _ & [(-> & x & d & D & -> & _)|(-> & _)]).
  - exists x, r'. exact E.
  - exfalso. vm_compute in E. discriminate.
Defined.
Lemma route_add_output_witness :
  ∃ r1 dst r2, rt_ip_route_add_host (bswap32 167772163) [2; 0; 0; 0; 0; 3] 7 ex_r = Some (0, r1) ∧
    rt_ip_route_output (bswap32 167772163) ex_own r1 = Some ((0, Some dst), r2) ∧ dest_rtdev dst = Some 7%nat.
Proof.
  destruct (rt_ip_route_add_host (bswap32 167772163) [2; 0; 0; 0; 0; 3] 7 ex_r) as [[ret r1]|] eqn:E;
    [|by vm_compute in E].
  assert (ret = 0) as -> by (vm_compute in E; congruence).
  destruct (route_add_output_roundtrip (H := default_config) ex_r ex_buckets [1%nat] ex_routes (bswap32 167772163)
    [2; 0; 0; 0; 0; 3] 7 _ r1 eq_refl ex_host_state (proj2 (proj2 ex_u32)) eq_refl ltac:(done)
    ltac:(done) E) as (dst & r2 & E2 & _ & Hd & _).
  exists r1, dst, r2. split_and!; [done|exact E2|exact Hd].
Defined.
Lemma rt_ip_routing_init_witness : ∃ r, rt_ip_routing_init (rstate0 ex_kd) = Some (0, r) ∧ kern r = ex_kd.
Proof.
  destruct (rt_ip_routing_init_correct (H := default_config) ex_kd ltac:(by apply Nat.leb_le)) as (r & E & Hk & _).
  exists r. split; [exact E|exact Hk].
Defined.

(** ** Interfaces and protocols *)

Lemma ifdown_keeps_loopback_route_witness :
  ∃ r' B' F' T', rt_ip_ifdown 7 ex_r = Some ((), r') ∧ host_state r' B' F' T' ∧
    T' !! (ex_own, local_ip ex_lo) = Some (8%nat, replicate 6 7).
Proof.
  destruct (ifdown_keeps_loopback_route ex_r ex_buckets [1%nat] ex_routes 7 _ 8 ex_lo (replicate 6 7)
    ex_host_state eq_refl eq_refl (proj1 (proj2 ex_u32)) ltac:(done) ltac:(done) eq_refl)
    as (r' & B' & F' & T' & E & Hs & _ & HT).
  exists r', B', F', T'. split_and!; [exact E|exact Hs|exact HT].
Defined.
Lemma rt_inet_aton_witness : rt_inet_aton (dotted 192 168 0 10) = Some (Some [192; 168; 0; 10]).
Proof. apply (rt_inet_aton_dotted 192 168 0 10); lia. Defined.
Lemma protocol_table_witness :
  rt_inet_socket SOCK_DGRAM 17 (rt_inet_add_protocol (mk_protocol 1 17) (replicate 32 None)) = inl (mk_protocol 1 17).
Proof.
  exact (proj1 (proj1 (protocol_table_correct (replicate 32 None) (mk_protocol 1 17) SOCK_DGRAM 6 eq_refl
    ltac:(cbn; lia) ltac:(lia)) eq_refl)).
Defined.

(** ** Reassembly *)

(** A fragment of 8 bytes behind its IP header, with the given [frag_off]. *)
Definition ex_frag (p pl : nat) (hi lo : Z) : rtskb :=
  (zero_rtskb (replicate 16 0 ++ [69; 0; 0; 28; 0; 9; hi; lo; 64; 17; 0; 0; 10; 0; 0; 2; 10; 0; 0; 1]
                 ++ replicate 28 7))
    <| chain_end := Some p |> <| pool := Some pl |> <| buf_start := 1000 |> <| nh_raw := 1016 |>
    <| data := 1036 |> <| tail := 1044 |> <| len := 8 |> <| end_ := 1064 |>.
Definition ex_first_hdr : iphdr := default (mk_iphdr 0 0 0 0 0 0) (iph (ex_frag 5 1 32 0)).
Definition ex_last_hdr : iphdr := default (mk_iphdr 0 0 0 0 0 0) (iph (ex_frag 3 0 0 1)).
(** Collector 0 holds the first fragment (buffer 5) for socket 20, whose pool is 1;
    buffer 3 is the last fragment of the message. *)
Definition ex_coll : ip_collector :=
  mk_collector true (iph_saddr ex_first_hdr) (iph_daddr ex_first_hdr) (iph_id ex_first_hdr) 17
    (Some 5%nat) (Some 5%nat) (Some 20%nat) 8.
Definition ex_free_coll : ip_collector := mk_collector false 0 0 0 0 None None None 0.
Definition ex_sock : rtsocket := mk_socket 17 1 1 6 0 0 (Some 0) None 0 0 0 0 0 0 0 7 0 false.
Definition ex_f : fstate :=
  mk_fstate
    (ex_k <| skbs := <[3%nat := ex_frag 3 0 0 1]> (<[5%nat := ex_frag 5 1 32 0]> (skbs ex_k)) |>)
    (<[20%nat := ex_sock]> ∅) (ex_coll :: replicate 9 ex_free_coll).
Definition ex_held : list (list nat) := [5%nat] :: replicate 9 [].

Lemma ex_f_pools : pools_inv (fkern ex_f) ex_pools.
Proof.
  split.
  - intros q l H. map_cases H; eexists; (split; [reflexivity|]); (split; [|done]); by repeat eexists.
  - exact (pi_disj _ _ ex_pools_inv).
  - intros q l a x H Ha Hx. map_cases H; repeat (apply elem_of_cons in Ha as [->|Ha]); try set_solver;
      vm_compute in Hx; by simplify_eq.
Qed.
Lemma ex_f_colls i c : collector ex_f !! i = Some c → (i = 0%nat ∧ c = ex_coll) ∨ (i ≠ 0%nat ∧ c = ex_free_coll).
Proof. destruct i as [|i]; [intros [=]; auto|]. intros [-> _]%lookup_replicate. auto. Qed.
Lemma ex_f_held i l : ex_held !! i = Some l → (i = 0%nat ∧ l = [5%nat]) ∨ (i ≠ 0%nat ∧ l = []).
Proof. destruct i as [|i]; [intros [=]; auto|]. intros [-> _]%lookup_replicate. auto. Qed.
Lemma ex_coll_ok : coll_ok (fkern ex_f) (socks ex_f) ex_pools ex_coll [5%nat].
Proof.
  split.
  - exists 5%nat. split; [done|]. eexists _, None. split_and!; [done|reflexivity|done|by repeat eexists|].
    apply NoDup_singleton.
  - done.
  - exists 20%nat, ex_sock. split; [done|]. split; [done|]. split; [by eexists|].
    intros a ->%list_elem_of_singleton. split; [intros q l H; map_cases H; set_solver|].
    intros x Hx. vm_compute in Hx. by simplify_eq.
  - eexists _, _. split_and!; reflexivity.
  - intros a ->%list_elem_of_singleton. eexists _, _. split_and!; reflexivity.
Qed.
Lemma ex_frag_inv : frag_inv ex_f ex_pools ex_held.
Proof.
  split; [exact ex_f_pools|done|done|..].
  - intros i c l [(-> & ->)|(Hi & ->)]%ex_f_colls [(? & ->)|(? & ->)]%ex_f_held; try done. exact ex_coll_ok.
  - intros i j l k a [(-> & ->)|(Hi & ->)]%ex_f_held [(-> & ->)|(Hj & ->)]%ex_f_held; set_solver.
Qed.
Lemma ex_fragment : fragment ex_f ex_pools ex_held 3 (ex_frag 3 0 0 1) 0.
Proof.
  split; try done.
  - exact ex_in_use.
  - intros i l [(-> & ->)|(Hi & ->)]%ex_f_held; set_solver.
Qed.
(** A protocol without sockets. *)
Definition ex_no_socket (p : nat) : M fstate (option nat) := mret None.
#[local] Instance ex_dest_socket : DestSocket ex_no_socket (λ _ _, True).
Proof.
  intros p f x Hx _. exists x. split; [by destruct x|]. destruct f as [[] ? ?]. unfold with_skb, upd. cbn in *.
  by rewrite insert_id.
Qed.
Lemma rt_ip_defrag_witness :
  ∃ f', rt_ip_defrag None ex_no_socket 3 ex_f = Some (Some 5%nat, f').
Proof.
  destruct (rt_ip_defrag_correct (H := default_config) None ex_no_socket (λ _ _, True) ex_f ex_pools ex_held 3
    (ex_frag 3 0 0 1) 0 ex_last_hdr eq_refl ex_frag_inv ex_fragment eq_refl ltac:(cbn; lia) ltac:(done)
    ltac:(intros a S HS; cbn in HS; map_cases HS; vm_compute; eauto)) as (ret & f' & C' & L' & E & _ & H).
  exists f'. rewrite E. cbn in H. inversion H as [? ? Hno|? ? ? ? ? ? ? Hg|? ? ? ? ? ? ? ? ? Hm|]; subst.
  - exfalso. specialize (Hno 0%nat ex_coll eq_refl). vm_compute in Hno. discriminate.
  - exfalso. vm_compute in E. discriminate.
  - exfalso. vm_compute in Hm. discriminate.
  - vm_compute in E. injection E as <- _. reflexivity.
Defined.
Lemma rt_ip_frag_invalidate_socket_witness :
  ∃ f' C' L', rt_ip_frag_invalidate_socket 20 ex_f = Some ((), f') ∧ frag_inv f' C' L' ∧ ¬ in_use C' 5.
Proof.
  destruct (rt_ip_frag_invalidate_socket_correct 20 ex_f ex_pools ex_held ex_frag_inv)
    as (f' & C' & L' & E & Hi & Hc).
  exists f', C', L'. split_and!; [exact E|exact Hi|].
  exact (proj2 (proj2 (Hc 0%nat ex_coll [5%nat] eq_refl eq_refl)) 5%nat ltac:(set_solver)).
Defined.

(** ** Timer wheel *)

(** Four slots of 1024 ns; timer 1 is in slot 2, timer 2 is idle. *)
Definition ex_wheel : wheel :=
  mk_wheel 4095 4 1024 10 [[]; []; [1%nat]; []] 1
    (<[1%nat := mk_timer 2 0]> (<[2%nat := mk_timer TIMERWHEEL_TIMER_UNUSED 0]> ∅)).
Lemma ex_wheel_ok : wheel_ok ex_wheel.
Proof.
  split.
  - split; cbn; done || lia.
  - intros i l H. cbn in H. do 4 (destruct i as [|i]; [injection H as <-; repeat constructor; set_solver|]). done.
  - intros i l t H Ht. cbn in H. destruct i as [|[|[|[|i]]]]; try done; injection H as <-; set_solver.
  - intros t T _ H. cbn in H. map_cases H; [right|by left]. exists 2%nat, [1%nat]. split_and!; [done..|set_solver].
Qed.
Lemma timerwheel_add_remove_witness :
  (∃ w', timerwheel_add_timer 2 3000 ex_wheel = Some (0, w') ∧ wheel_ok w') ∧
  ∃ ret w', timerwheel_remove_timer 2 ex_wheel = Some (ret, w') ∧ wheel_ok w'.
Proof.
  destruct (timerwheel_add_remove_correct ex_wheel 2 _ 3000 ex_wheel_ok eq_refl)
    as [(ret & w' & E & H) (ret2 & w2 & E2 & H2 & _)].
  destruct H as (-> & Hok & _). split; [exists w'; split; [exact E|exact Hok]|].
  exists ret2, w2. split; [exact E2|exact H2].
Defined.
(** The handlers start their timer again two intervals later, as that of TCP does; while
    the pivot task sleeps for the first time another task starts timer 1 again. *)
Definition ex_handler (u : nat) : M wheel () := timerwheel_add_timer u 2048;; mret ().
Definition ex_others : list (M wheel ()) := [timerwheel_add_timer 1 1500;; mret (); mret ()].
Lemma ex_bystanders : Forall (bystander 2 (geometry ex_wheel) (dom (timers ex_wheel))) ex_others.
Proof.
  constructor; [|constructor; [|constructor]].
  - intros w [Hok _ HD]. assert (is_Some (timers w !! 1%nat)) as [U HU] by (apply elem_of_dom, HD; vm_compute; done).
    apply wp_bind. eapply wp_mono; [|by eapply (add_undisturbed w 1 U 1500 2)]. intros ret w' Hud. by apply wp_ret.
  - intros w [Hok _ _]. apply wp_ret. by split.
Qed.
Lemma timer_fires_witness :
  ∃ w1 w2 early due, timerwheel_add_timer 2 3000 ex_wheel = Some (0, w1) ∧
    pivot_rounds ex_handler ex_others w1 = Some (early ++ [due], w2) ∧ 2%nat ∈ due.
Proof.
  destruct (timer_fires_on_time ex_handler ex_wheel 2 _ 3000 ex_others (rearm_behaved 2 (geometry ex_wheel) _ 2048 ltac:(vm_compute; by split)) ex_bystanders ex_wheel_ok eq_refl
    ltac:(by split) eq_refl) as (w1 & w2 & early & due & E1 & E2 & _ & Hd & _).
  exists w1, w2, early, due. split_and!; [exact E1|exact E2|exact Hd].
Defined.

(** ** RTcfg server *)

Definition ex_conn (st : RTCFG_CONN_STATE) (mac : list Z) : rtcfg_connection :=
  mk_conn 1 st mac RTCFG_ADDR_MAC 0 [] 0 None 0 0 4 0 0.
Definition ex_macs : list Z := ex_mac ++ replicate 26 0.
(** Two clients: 30 is in stage 1, 31 is considered dead; the calls 41 and 42 wait. *)
Definition ex_cfgdev : rtcfg_device :=
  mk_cfgdev RTCFG_MAIN_SERVER_RUNNING 2 1 0 true [41%nat; 42%nat] FLAG_TIMER_STARTED 4 0 [30%nat; 31%nat] 0 0
    0 (replicate 32 0) 0 0 0 0 0 0 None None.
Definition ex_clients : list rtcfg_connection :=
  [ex_conn RTCFG_CONN_STAGE_1 (replicate 32 9); ex_conn RTCFG_CONN_DEAD ex_macs].
Definition ex_s : cfgstate :=
  mk_cfgstate ex_r (<[1%nat := ex_cfgdev]> (replicate 8 zero_cfgdev))
    (<[30%nat := ex_conn RTCFG_CONN_STAGE_1 (replicate 32 9)]> (<[31%nat := ex_conn RTCFG_CONN_DEAD ex_macs]> ∅))
    ∅ [] ∅
    (<[40%nat := mk_cmd 1 RTCFG_CMD_DEL (Args_del RTCFG_ADDR_MAC 0 (replicate 32 9) None None)]>
       (<[41%nat := mk_cmd 1 RTCFG_CMD_WAIT Args_none]> (<[42%nat := mk_cmd 1 RTCFG_CMD_READY Args_none]> ∅))) [].
Lemma ex_server : server ex_s 1 ex_cfgdev ex_clients.
Proof.
  split; [done| |by repeat constructor]. repeat constructor; set_solver.
Qed.
Lemma ex_files : Forall (file_ok ex_s) ex_clients.
Proof. repeat constructor; by intros f. Qed.

Lemma rtcfg_complete_cmd_witness :
  ∃ s', rtcfg_complete_cmd 1 RTCFG_CMD_WAIT 0 ex_s = Some ((), s') ∧
        completed s' = [(41%nat, 0); (42%nat, - EINVAL)].
Proof.
  eexists. split.
  - apply (rtcfg_complete_cmd_correct ex_s 1 ex_cfgdev RTCFG_CMD_WAIT 0 eq_refl).
    intros a Ha. repeat (apply elem_of_cons in Ha as [->|Ha]); try set_solver; by eexists.
  - reflexivity.
Defined.
Lemma rtcfg_server_del_witness :
  ∃ s', rtcfg_server_del 40 ex_s = Some (0, s') ∧
        ∃ d', device s' !! 1%nat = Some d' ∧ dev_locked d' = false.
Proof.
  destruct (rtcfg_server_del_correct ex_s 1 ex_cfgdev ex_clients 40 _ _ _ _ _ _ ex_server ex_files eq_refl)
    as (ret & s' & E & [(-> & _)|(-> & l1 & c & l2 & Cs1 & C & Cs2 & f1 & _ & _ & _ & _ & _ & Hr & _)]).
  - exfalso. vm_compute in E. discriminate.
  - exists s'. split; [exact E|]. destruct Hr as (d' & Hs & _ & Hl & _). exists d'. split; [apply Hs|exact Hl].
Defined.
Lemma dead_client_counted_twice_witness :
  ∃ f s' d', unlink_conn 1 31 ex_s = Some (f, s') ∧ device s' !! 1%nat = Some d' ∧
             stations_found d' = 0 ∧ clients_configured d' = 2 ^ 32 - 1.
Proof.
  destruct (dead_client_counted_twice ex_s 1 ex_cfgdev [ex_conn RTCFG_CONN_STAGE_1 (replicate 32 9)]
    (ex_conn RTCFG_CONN_DEAD ex_macs) [] [30%nat] 31 [] ex_server eq_refl eq_refl eq_refl eq_refl
    ltac:(by intros f) ltac:(by split)) as (f & s' & d' & E & Hd & _ & Hf & Hc).
  exists f, s', d'. split_and!; [exact E|exact Hd|exact Hf|exact Hc].
Defined.
Definition ex_k3 : kstate := ex_k <| skbs := <[3%nat := ex_skb 3 None 0 0]> (skbs ex_k) |>.
Lemma rtcfg_frames_witness :
  ∃ s' y, put_bytes 3 (announce_bytes RTCFG_ID_ANNOUNCE_NEW RTCFG_ADDR_IP ex_peer 3 4)
            ex_k3 = Some ((), s') ∧
          skbs s' !! 3%nat = Some y ∧ buf_read y (data y + 2) 4 ≫= rd32 = Some ex_peer.
Proof.
  destruct (rtcfg_frames_roundtrip (H := default_config) 3 (ex_skb 3 None 0 0)
    ex_k3 RTCFG_ID_ANNOUNCE_NEW RTCFG_ADDR_IP ex_peer 3 4 100
    eq_refl (ex_wf 3 None 0 0 ltac:(lia)) eq_refl ltac:(by apply Z.leb_le) eq_refl ltac:(by split)
    (proj1 ex_u32) ltac:(lia) ltac:(lia) ltac:(by split)) as [(s' & y & E & Hy & _ & Hip & _) _].
  exists s', y. split_and!; [exact E|exact Hy|exact (Hip eq_refl)].
Defined.

(** ** RTcfg client *)

(** Buffer 3 holds a frame with [bytes] from station 02:00:00:00:00:05, received on
    device 7. *)
Definition ex_src : list Z := [2; 0; 0; 0; 0; 5].
Definition ex_frame (bytes : list Z) : rtskb :=
  (zero_rtskb ([0; 0] ++ replicate 6 255 ++ ex_src ++ [144; 34] ++ bytes ++ replicate (48 - length bytes) 0))
    <| chain_end := Some 3%nat |> <| pool := Some 0%nat |> <| buf_start := 1000 |> <| data := 1016 |>
    <| tail := 1016 + Z.of_nat (length bytes) |> <| len := Z.of_nat (length bytes) |> <| end_ := 1064 |>
    <| mac_raw := 1002 |> <| rtdev := Some 7%nat |>.
Definition ex_kc (bytes : list Z) : kstate := ex_kd <| skbs := <[3%nat := ex_frame bytes]> (skbs ex_kd) |>.
(** The client knows one station, which is ready; there is room for two more; call
    45 waits for stage 2 data. *)
Definition ex_station (k : Z) : rtcfg_station := mk_station [2; 0; 0; 0; 0; k] 2.
Definition ex_client : rtcfg_device :=
  mk_cfgdev RTCFG_MAIN_CLIENT_ALL_KNOWN 1 1 1 true [45%nat] 1 4 0 [] 0 0 0 (replicate 32 0) 0 100 0 0 0 3
    (Some 50%nat) None.
Definition ex_c (bytes : list Z) : cfgstate :=
  mk_cfgstate (ex_r <| kern := ex_kc bytes |>) (<[1%nat := ex_client]> (replicate 8 zero_cfgdev)) ∅ ∅ []
    (<[50%nat := [ex_station 9; ex_station 0; ex_station 0]]> ∅)
    (<[45%nat := mk_cmd 1 RTCFG_CMD_ANNOUNCE (Args_announce 1 4 4096 None)]> ∅) [].

Lemma ex_c_table bytes : station_table (ex_c bytes) 1 ex_client [ex_station 9].
Proof.
  split; try done. exists 50%nat, [ex_station 9; ex_station 0; ex_station 0]. split_and!; try done.
  by repeat constructor.
Qed.
Lemma ex_c_host bytes : host_state (rt (ex_c bytes)) ex_buckets [1%nat] ex_routes.
Proof. apply host_state_kern; [exact ex_host_state|done]. Qed.
Lemma ex_c_owned bytes : owned (ex_c bytes) ex_pools 0 3 (ex_frame bytes).
Proof.
  split; try done.
  - split.
    + intros q l H. map_cases H; eexists; (split; [reflexivity|]); (split; [|done]); by repeat eexists.
    + exact (pi_disj _ _ ex_pools_inv).
    + intros q l a x H Ha Hx. map_cases H; repeat (apply elem_of_cons in Ha as [->|Ha]); try set_solver;
        vm_compute in Hx; by simplify_eq.
  - exact ex_in_use.
Qed.
Lemma ex_frame_wf bytes : (length bytes ≤ 48)%nat → wf_rtskb (ex_frame bytes).
Proof. intros Hl. split; cbn; rewrite ?length_app, ?length_replicate; lia. Qed.

Definition ex_announce : list Z := announce_bytes RTCFG_ID_ANNOUNCE_NEW RTCFG_ADDR_IP ex_peer 2 4.
Lemma rtcfg_client_recv_announce_witness :
  ∃ s', rtcfg_client_recv_announce 1 3 (ex_c ex_announce) = Some (0, s') ∧
    ∃ d', station_table s' 1 d' [ex_station 9; ex_station 5].
Proof.
  destruct (rtcfg_client_recv_announce_correct (ex_c ex_announce) 1 ex_client [ex_station 9] 3
    (ex_frame ex_announce) RTCFG_ID_ANNOUNCE_NEW RTCFG_ADDR_IP ex_peer 2 4 ex_src 7 (ex_dev 1 (bswap32 167772161)) ex_buckets
    [1%nat] ex_routes
    (ex_c_table _) ltac:(by split; [|apply ex_frame_wf; by apply Nat.leb_le|exists []|]) eq_refl ltac:(by right) (proj1 ex_u32)
    ltac:(lia) eq_refl eq_refl ltac:(by apply Nat.leb_le) (ex_c_host _)) as (ret & s' & E & _ & Ha).
  exists s'. vm_compute in Ha. destruct Ha as (-> & d' & Ht & _). split; [exact E|]. exists d'. exact Ht.
Defined.

Definition ex_dead : rtcfg_connection := (ex_conn RTCFG_CONN_DEAD ([2; 0; 0; 0; 0; 9] ++ replicate 26 0)).
Lemma rtcfg_client_recv_dead_station_witness :
  ∃ s' d', rtcfg_client_recv_dead_station 1 3 (ex_c (dead_station_bytes ex_dead)) = Some ((), s') ∧
    station_table s' 1 d' [] ∧ dev_state d' = RTCFG_MAIN_CLIENT_ANNOUNCED.
Proof.
  destruct (rtcfg_client_recv_dead_station_correct (ex_c (dead_station_bytes ex_dead)) 1 ex_client [ex_station 9]
    ex_pools 0 3 (ex_frame (dead_station_bytes ex_dead)) ex_dead [] 7 (ex_dev 1 (bswap32 167772161)) ex_buckets [1%nat]
    ex_routes
    (ex_c_table _) (ex_c_owned _) ltac:(apply ex_frame_wf; by apply Nat.leb_le) ltac:(vm_compute; reflexivity) eq_refl eq_refl
    ltac:(by split) ltac:(by left) eq_refl eq_refl (ex_c_host _)) as (s' & E & d' & B' & F' & T' & Ht & _ & Hs & _).
  exists s', d'. split; [exact E|]. split; [exact Ht|]. rewrite Hs. reflexivity.
Defined.

(** A client with an IP address and one byte of stage 1 data. *)
Definition ex_ip_client : rtcfg_connection :=
  (ex_conn RTCFG_CONN_SEARCHING (replicate 32 255)) <| conn_addr_type := RTCFG_ADDR_IP |> <| conn_ip := ex_own |>
    <| stage1_data := [1] |> <| stage1_size := 1 |>.
Lemma stage_1_short_frame_dropped_witness :
  ∃ s', rtcfg_client_recv_stage_1 1 3 (ex_c (stage_1_bytes ex_ip_client ex_peer 4)) = Some ((), s') ∧
        completed s' = [].
Proof.
  destruct (stage_1_short_frame_dropped (ex_c (stage_1_bytes ex_ip_client ex_peer 4)) ex_pools 0 3
    (ex_frame (stage_1_bytes ex_ip_client ex_peer 4)) ex_ip_client ex_peer 4 1 ex_client (ex_c_owned _)
    ltac:(apply ex_frame_wf; by apply Nat.leb_le) ltac:(vm_compute; reflexivity) eq_refl eq_refl eq_refl ltac:(by apply Z.ltb_lt)
    eq_refl) as (s' & E & _ & Hc & _).
  exists s'. split; [exact E|exact Hc].
Defined.

Lemma rtcfg_client_queue_frag_witness :
  ∃ s' d', rtcfg_client_queue_frag 1 3 5 (ex_c [1; 2; 3; 4; 5; 6]) = Some ((), s') ∧ device s' !! 1%nat = Some d' ∧
    clt_chain_len d' = 5.
Proof.
  destruct (rtcfg_client_queue_frag_correct 1 (ex_c [1; 2; 3; 4; 5; 6]) ex_client [] [] 3
    (ex_frame [1; 2; 3; 4; 5; 6]) 5 eq_refl ltac:(by split) eq_refl ltac:(set_solver) eq_refl eq_refl
    ltac:(apply ex_frame_wf; by apply Nat.leb_le) ltac:(by split) ltac:(done) ltac:(by apply Z.ltb_lt) ltac:(by apply Z.ltb_lt)
    ltac:(intros a ->%list_elem_of_singleton; by repeat eexists)) as (s' & d' & E & Hd & _ & H).
  exists s', d'. split; [exact E|]. split; [exact Hd|]. vm_compute in H. exact (proj1 (proj2 H)).
Defined.

(** a client that is READY and gets a stage 1 frame with IP addresses and little
    data (here one byte, as [rtcfg_send_stage_1] builds it) frees the frame twice: the
    length check of [rtcfg_client_update_server] frees it and leaves only the
    [switch].  In the end the buffer is its own successor in its pool, so that the
    pool has become an endless list. *)
Theorem update_server_frees_twice :
  ∃ s' x Q, rtcfg_client_update_server 0 (λ _, None) (λ _ _, mret 0) 1 3
              (ex_c (stage_1_bytes ex_ip_client ex_peer 4)) = Some ((), s') ∧
    queues (kern_of s') !! 0%nat = Some Q ∧ qlast Q = Some 3%nat ∧
    skbs (kern_of s') !! 3%nat = Some x ∧ next x = Some 3%nat.
Proof. eexists _, _, _. split; [vm_compute; reflexivity|]. split_and!; reflexivity. Qed.
