(* ===== verification/NetWitnesses.v ===== *)
(** * Concrete instances of the properties of the network layers

    States in which the hypotheses of the theorems about framing, sockets, IP output and
    UDP hold, and the theorems applied to them; built with the default configuration. *)
From S2P Require Import Prelude State RtskbQueue Rtskb RtskbData RtskbFifo Rtdev Eth Iovec StackMgr Route RouteHost RouteOps Inet.
From S2P Require Import IpFragment Socket IpOutput IpInput Arp Udp UdpOps UdpSend UdpInput UdpErrors Icmp Witnesses.
#[local] Existing Instance default_config.

(** ** Framing and vectors *)

Definition ex_mac2 : list Z := [2; 0; 0; 0; 0; 2].
Definition ex_ether (mac : list Z) : rtnet_device :=
  zero_device <| addr_len := 6%nat |> <| hard_header_len := 14 |> <| dev_addr := mac |> <| start_xmit := HARD_START_XMIT |>
    <| refcount := 5 |> <| mtu := 36 |>.
Definition ex_net : kstate := ex_k <| devs := <[0%nat := ex_ether ex_mac]> ∅ |>.
(** The frame as it arrives at the other station. *)
Definition ex_frame : list Z := ex_mac2 ++ ex_mac ++ [8; 0] ++ replicate 8 7.
Definition ex_rx : rtskb := (ex_skb 3 None 0 22) <| buf := replicate 16 0 ++ ex_frame ++ replicate 26 0 |>.
Definition ex_net2 : kstate :=
  ex_net <| devs := <[0%nat := ex_ether ex_mac2]> ∅ |> <| skbs := <[3%nat := ex_rx]> (skbs ex_k) |>.

Lemma eth_roundtrip_witness :
  ∃ y z', rt_eth_header 3 0 ETH_P_IP (Some ex_mac2) None 8 ex_net = Some (14, upd_skb 3 y ex_net) ∧
    rt_eth_type_trans 3 0 ex_net2 = Some (ntohs ETH_P_IP, upd_skb 3 z' ex_net2) ∧ payload z' = replicate 8 7.
Proof.
  destruct (eth_roundtrip ex_net 3 0 (ex_ether ex_mac) (ex_skb 3 None 0 8) ETH_P_IP ex_mac2 None 8 ex_net2 3 0
    (ex_ether ex_mac2) ex_rx []) as (y & E & Hy & H2); try done; try (cbn; unfold ETH_ALEN; lia).
  destruct H2 as (z' & E2 & _ & Hp & _).
  { destruct Hy as (_ & _ & _ & ->). reflexivity. }
  exists y, z'. split_and!; [exact E|exact E2|exact Hp].
Defined.

(** Two buffers of three bytes. *)
Definition ex_iov : list iovec := [mk_iovec 100 3; mk_iovec 200 3].
Definition ex_mem : umem := store_all (zip (iov_addrs ex_iov) (replicate 6 0)) ∅.
Lemma ex_iov_mem m : (∀ a, a ∈ iov_addrs ex_iov → is_Some (m !! a)) → iov_ok ex_iov m.
Proof. intros Hm. split; [|done]. repeat constructor; cbn; lia. Qed.
Lemma iovec_copy_witness :
  ∃ iov' m', rt_memcpy_tokerneliovec ex_iov [1; 2; 3; 4] 4 ex_mem = Some (iov', m') ∧
    rt_memcpy_fromkerneliovec ex_iov 4 m' = Some ([1; 2; 3; 4], iov') ∧ iov_addrs iov' = [201; 202].
Proof.
  destruct (iovec_copy_equiv ex_iov [1; 2; 3; 4] 4 ex_mem) as (iov' & m' & b & E & _ & Ha & E2 & _ & Hb).
  - apply ex_iov_mem. intros a Ha. vm_compute in Ha. unfold ex_mem. repeat (apply elem_of_cons in Ha as [->|Ha]; [vm_compute; eauto|]).
    by apply not_elem_of_nil in Ha.
  - lia.
  - cbn. lia.
  - vm_compute. done.
  - exists iov', m'. split_and!; [exact E| |exact Ha]. rewrite E2, Hb; [done|]. apply (bool_decide_unpack (NoDup (iov_addrs ex_iov))). by vm_compute.
Defined.

(** ** The stack manager *)

(** Two packet types for IP: the first handler refuses the packet, the second takes it
    (and frees it). *)
Definition ex_types : gmap nat rtpacket_type :=
  <[7%nat := mk_ptype (LINK_HASH 0) (ntohs ETH_P_IP) 0]> (<[8%nat := mk_ptype (LINK_HASH 0) (ntohs ETH_P_IP) 0]> ∅).
Definition ex_mstate : mstate () :=
  mk_mstate (ex_net <| skbs := <[3%nat := (ex_skb 3 None 0 8) <| rtdev := Some 0%nat |> <| protocol := ntohs ETH_P_IP |>]> (skbs ex_k) |>)
    ex_types (<[0%nat := [7; 8]%nat]> (replicate 64 [])) [] (mk_fifo 0 31 0 (replicate 32 None)) ().
Definition ex_handler (pt skb : nat) : M (mstate ()) Z :=
  if (pt =? 8)%nat then in_mkern (kfree_rtskb (Some skb));; mret 0 else mret (- EINVAL).

Lemma ex_handler_spec pt : handler_spec ex_handler (λ _ : (), True) 3 0 0 (ntohs ETH_P_IP) (λ p, (p =? 8)%nat) pt.
Proof.
  intros s Hm. unfold ex_handler. destruct (pt =? 8)%nat; [|by apply wp_ret].
  destruct Hm as (C & l & x & Hinv & HC & Hx & Hce & Hpr & Hd & Hrel & HJ).
  apply wp_bind, wp_in_mkern. eapply wp_mono; [|eapply (kfree_rtskb_run _ _ _ [3%nat]); try done].
  - cbn beta. intros [] k (Hinv' & _ & Hw & _). apply wp_ret. split_and!; [done| |done|]; unfold refs; cbn.
    + by rewrite Hw.
    + split; [eauto|done].
  - exists x, (next x). split_and!; [done|done|done| |apply NoDup_singleton]. split; [done|]. by exists x.
Qed.
Lemma ex_mine : mine (λ _ : (), True) 3 0 0 (ntohs ETH_P_IP) ex_mstate.
Proof.
  exists ex_pools, [1; 2]%nat. eexists. split_and!; try reflexivity.
  - eapply pools_inv_frame; [exact ex_pools_inv|..]; [|].
    + intros q l Hl. destruct (pi_queue _ _ ex_pools_inv _ _ Hl) as (Q & HQ & _). by exists Q, Q.
    + intros q l a Hl Ha. cbn. apply lookup_insert_ne. intros <-. by eapply ex_in_use.
  - intros a ->%list_elem_of_singleton. split; [exact ex_in_use|]. intros x. cbn. rewrite lookup_insert_eq. by intros [= <-].
Qed.
Lemma ex_pack_table : pack_table ex_mstate.
Proof.
  assert (Hb : ∀ k l, rt_packets ex_mstate !! k = Some l → k = 0%nat ∧ l = [7; 8]%nat ∨ l = []).
  { intros k l. change (rt_packets ex_mstate) with ([7; 8]%nat :: replicate 63 []). rewrite lookup_cons_Some.
    intros [[-> [= <-]]|[_ Hk]]; [by left|]. right. by apply lookup_replicate in Hk as [-> _]. }
  split; [done|..].
  - intros k l [[-> ->]| ->]%Hb; [|constructor]. repeat (apply NoDup_cons_2; [set_solver|]). constructor.
  - intros k l pt [[-> ->]| ->]%Hb Hpt; [|by apply not_elem_of_nil in Hpt].
    repeat (apply elem_of_cons in Hpt as [->|Hpt]; [by eexists|]). by apply not_elem_of_nil in Hpt.
  - split; [constructor|]. intros pt Hpt. by apply not_elem_of_nil in Hpt.
Qed.
(** Two references are dropped: one for the packet, one for the refusing handler. *)
Lemma rt_stack_deliver_witness :
  ∃ s', rt_stack_deliver ex_handler None 3 ex_mstate = Some ((), s') ∧ refs 0 s' = Some 3.
Proof.
  destruct (wp_elim _ _ _ (rt_stack_deliver_correct ex_handler (λ _ : (), True) 3 0 0 (ntohs ETH_P_IP) (λ p, (p =? 8)%nat)
    ex_mstate 5 [7; 8]%nat ex_pack_table ex_mine eq_refl eq_refl
    ltac:(intros pt Hpt; by apply not_elem_of_nil in Hpt) ltac:(intros pt _ _; apply ex_handler_spec)))
    as ([] & s' & E & _ & Hr & _).
  exists s'. split; [exact E|]. rewrite Hr. reflexivity.
Defined.

(** ** Sockets *)

(** Socket 0 has pool 0 with the buffers 1, 2 (free) and 3 (in use), socket 1 has none yet. *)
Definition ex_ks : kstate :=
  ex_k <| rtskb_list := [4; 3; 2; 1]%nat |> <| queues := <[2%nat := no_queue]> (<[3%nat := no_queue]> (queues ex_k)) |>.
Definition ex_fs : fstate :=
  mk_fstate ex_ks (<[0%nat := (raw_socket 0 3) <| so_pool_size := 3 |>]> (<[1%nat := raw_socket 2 3]> ∅)) [].

Lemma ex_pool_sys : pool_sys (λ _, 1) ex_ks ex_pools.
Proof.
  split.
  - eapply pools_inv_frame; [exact ex_pools_inv| |done]. intros q l H. map_cases H; by eexists _, _.
  - split; [by apply NoDup_singleton|]. intros p ->%list_elem_of_singleton. reflexivity.
  - split; [done|]. intros d Hd. vm_compute in Hd. repeat (apply elem_of_cons in Hd as [Hd|Hd]; [done|]).
    by apply not_elem_of_nil in Hd.
  - intros a x H _. change (skbs ex_ks) with (skbs ex_k) in H. unfold ex_k in H. cbn [skbs] in H. map_cases H; set_solver.
  - done.
Qed.
Lemma ex_few S : skb_pool S = 0%nat ∨ skb_pool S = 2%nat → few_buffers ex_fs S.
Proof. unfold few_buffers. intros [->| ->]; by vm_compute. Qed.

Lemma rt_socket_common_ioctl_witness :
  ∃ s', rt_socket_common_ioctl 0 false false (RTNET_RTIOC_EXTPOOL 5) ex_fs = Some (1, s') ∧
    so_pool_size <$> socks s' !! 0%nat = Some 4.
Proof.
  destruct (wp_elim _ _ _ (rt_socket_common_ioctl_correct (λ _, 1) ex_fs ex_pools 0 ((raw_socket 0 3) <| so_pool_size := 3 |>) [1; 2]%nat
    (RTNET_RTIOC_EXTPOOL 5) false false ex_pool_sys eq_refl eq_refl eq_refl ltac:(by apply ex_few; left) ltac:(done)))
    as (r & s' & E & S' & C' & Es & _ & _ & _ & Er & ES & _).
  exists s'. split; [by rewrite E, Er|]. rewrite Es, lookup_insert_eq, ES. reflexivity.
Defined.
(** Buffer 3 is in use: the pool cannot be given up yet. *)
Lemma rt_socket_cleanup_witness : ∃ s', rt_socket_cleanup 0 ex_fs = Some (- EAGAIN, s') ∧ pool_sys (λ _, 1) (fkern s') (<[0%nat := []]> ex_pools).
Proof.
  destruct (wp_elim _ _ _ (rt_socket_cleanup_correct (λ _, 1) ex_fs ex_pools 0 ((raw_socket 0 3) <| so_pool_size := 3 |>) [1; 2]%nat
    ex_pool_sys eq_refl eq_refl eq_refl ltac:(done) ltac:(done))) as (r & s' & E & Hs & _ & _ & Er & _).
  exists s'. split; [by rewrite E, Er|exact Hs].
Defined.
Lemma rt_socket_init_witness :
  ∃ s', rt_socket_init 1 1 IPPROTO_UDP ex_fs = Some (0, s') ∧ pool_sys (λ _, 1) (fkern s') (<[2%nat := [10]%nat]> ex_pools).
Proof.
  destruct (wp_elim _ _ _ (rt_socket_init_correct (λ _, 1) ex_fs ex_pools 1 (raw_socket 2 3) no_queue no_queue 1 IPPROTO_UDP
    ex_pool_sys eq_refl eq_refl eq_refl ltac:(done) eq_refl eq_refl eq_refl ltac:(by apply ex_few; right) ltac:(done) ltac:(done)))
    as (r & s' & E & S' & _ & _ & _ & Er & _ & _ & _ & _ & _ & _ & Hs & _).
  exists s'. split; [by rewrite E, Er|exact Hs].
Defined.
Definition ex_krun : kstate := ex_kd <| devs := <[7%nat := (ex_dev 1 (bswap32 167772161)) <| flags := IFF_RUNNING |>]> (devs ex_kd) |>.
Lemma ex_krun_devtab : devtab ex_krun.
Proof.
  eapply devtab_frame; [exact ex_devtab|done..|]. intros d. unfold ex_krun. cbn.
  destruct (decide (d = 7%nat)) as [->|Hd]; [reflexivity|]. by rewrite lookup_insert_ne.
Qed.
(** One entry fits. *)
Lemma rt_socket_if_conf_witness : ∃ r, rt_socket_if_conf 40 50 ex_krun = Some (r, ex_krun) ∧ r.1 = 40 ∧ length r.2 = 1%nat.
Proof.
  destruct (wp_elim _ _ _ (rt_socket_if_conf_correct 40 ex_krun 50 ex_krun_devtab ltac:(lia) ltac:(lia)))
    as (r & s' & E & -> & Hl & _ & Hr).
  exists r. split; [exact E|]. rewrite Hr, Hl. split; reflexivity.
Defined.

(** ** Sending *)

(** 20 bytes in two buffers, to be sent from port 7 to port 9 of 10.0.0.2 through device 7
    with an MTU of 36: two fragments of 16 and 12 bytes. *)
Definition ex_iov20 : list iovec := [mk_iovec 100 10; mk_iovec 200 10].
Definition ex_bytes : list Z := seqZ 1 20.
Definition ex_mem20 : umem := store_all (zip (iov_addrs ex_iov20) ex_bytes) ∅.
Definition ex_sk : rtsocket := (raw_socket 0 3) <| inet_sport := 7 |> <| so_protocol := IPPROTO_UDP |> <| inet_state := TCP_CLOSE |>.
Definition ex_us : ustate :=
  mk_ustate (mk_fstate ex_kd (<[0%nat := ex_sk]> ∅) []) (up fresh_udp) ex_r 5 ex_mem20.
Definition ex_rt : dest_route := mk_dest ex_peer ex_mac (Some 7%nat).
Definition ex_out : rtnet_device := ex_dev 1 ex_own.
Definition ex_hard_header (d : nat) : option (nat → Z → list Z → list Z → Z → M kstate Z) :=
  Some (λ skb type daddr saddr n, rt_eth_header skb d type (Some daddr) (Some saddr) n).
Definition ex_sum (l : list Z) (w : Z) : Z := u16 (foldr Z.add w l).
Definition ex_drv (skb d : nat) : M kstate Z := mret 0.
Definition ex_lh : list Z := ex_mac ++ replicate 6 7 ++ [8; 0].

Lemma ex_iov20_ok : iov_ok ex_iov20 ex_mem20.
Proof.
  split; [repeat constructor; cbn; lia|]. intros a Ha. vm_compute in Ha.
  repeat (apply elem_of_cons in Ha as [->|Ha]; [vm_compute; eauto|]). by apply not_elem_of_nil in Ha.
Qed.
Lemma ex_kd_pools k : queues k = queues ex_k → skbs k = skbs ex_k → pools_inv k ex_pools.
Proof.
  intros EQ ES. eapply pools_inv_frame; [exact ex_pools_inv|..]; [|by rewrite ES].
  intros q l Hl. destruct (pi_queue _ _ ex_pools_inv _ _ Hl) as (Q & HQ & _). exists Q, Q. by rewrite EQ.
Qed.
Lemma ex_header_spec D : D = ex_out ∨ D = ex_out <| refcount := 1 |> → header_spec ex_hard_header ex_rt 7 D ex_lh.
Proof. intros [->| ->]; apply (eth_header_spec ex_hard_header ex_rt 7); try done; cbn; unfold ETH_ALEN; lia. Qed.
Lemma ex_driver_spec D : start_xmit D = HARD_START_XMIT → driver_spec ex_drv 7 D.
Proof. intros E. split; [by rewrite E|done]. Qed.
Lemma ex_roomy k : skbs k = skbs ex_k → roomy ex_out k [1; 2]%nat 36.
Proof.
  intros ES b x Hb. rewrite ES. repeat (apply elem_of_cons in Hb as [->|Hb]; [intros H; vm_compute in H; injection H as <-; vm_compute; split; congruence|]).
  by apply not_elem_of_nil in Hb.
Qed.
Lemma ex_align : 36 + hh_len ex_out + 15 ≤ SKB_DATA_ALIGN RTSKB_SIZE < 2 ^ 32.
Proof. vm_compute. split; congruence. Qed.

Lemma rt_udp_sendmsg_witness :
  ∃ s', rt_udp_sendmsg ex_sum (λ _ _ _ _ c, c) (λ l, ex_sum l 0) ex_hard_header (λ _ _, mret 36) ex_drv 0 ex_iov20
          (Some (AF_INET, ex_peer, 9)) 0 ex_us = Some (20, s') ∧ length (xmit_log (fkern (uf s'))) = 2%nat.
Proof.
  destruct (wp_elim _ _ _ (rt_udp_sendmsg_correct ex_sum (λ _ _ _ _ c, c) (λ l, ex_sum l 0) ex_hard_header (λ _ _, mret 36) ex_drv
    ex_us 0 ex_sk ex_iov20 ex_bytes (Some (AF_INET, ex_peer, 9)) 0 ex_peer 9 ex_rt 7 ex_out ex_lh ex_pools [1; 2]%nat 36
    eq_refl eq_refl ltac:(by split; [left|]) ltac:(done) ltac:(by left) ex_iov20_ok eq_refl ltac:(done) ltac:(by vm_compute) eq_refl eq_refl
    ltac:(apply ex_header_spec; by right) ltac:(by apply ex_driver_spec) ltac:(done) ltac:(lia) ltac:(done) ex_align
    ltac:(by apply ex_kd_pools) eq_refl ltac:(by apply ex_roomy))) as (r & s' & E & Er & _ & _ & Hl & _).
  exists s'. split; [by rewrite E, Er|]. by rewrite Hl.
Defined.

Definition ex_ufh : udpfakehdr := mk_ufh 7 9 (ntohs 28) 0 ex_peer ex_own ex_iov20 0 ex_mem20.
Definition ex_msg : list Z := datagram ex_sum (λ _ _ _ _ c, c) ex_ufh ex_bytes.
Lemma rt_ip_build_xmit_witness :
  ∃ s', rt_ip_build_xmit (λ l, ex_sum l 0) ex_hard_header (λ _ _, mret 36) ex_drv (rt_udp_getfrag ex_sum (λ _ _ _ _ c, c)) ex_sk 28 ex_rt
          (mk_ostate ex_kd 5 ex_ufh) = Some (0, s') ∧
    length (xmit_log (okern s')) = 2%nat ∧ pools_inv (okern s') (<[0%nat := []]> ex_pools).
Proof.
  destruct (wp_elim _ _ _ (rt_ip_build_xmit_correct (λ l, ex_sum l 0) ex_hard_header (λ _ _, mret 36) ex_drv
    (rt_udp_getfrag ex_sum (λ _ _ _ _ c, c)) ex_msg (udp_at ex_ufh) ex_sk ex_rt 7 ex_out ex_lh 16 5 (mk_ostate ex_kd 5 ex_ufh) ex_pools
    [1; 2]%nat 36 ltac:(by apply udp_getfrag_spec; [exact ex_iov20_ok| |])
    ltac:(apply ex_header_spec; by left) ltac:(by apply ex_driver_spec) eq_refl eq_refl ltac:(done) ltac:(lia) ltac:(done) ex_align
    eq_refl eq_refl ltac:(done) ltac:(by apply ex_kd_pools) eq_refl ltac:(by apply ex_roomy) eq_refl))
    as (r & s' & E & Er & _ & Hl & Hp).
  exists s'. split; [rewrite Er in E; exact E|]. split; [by rewrite Hl|exact Hp].
Defined.
Lemma fragments_roundtrip_witness :
  ∃ s', rt_ip_build_xmit (λ l, ex_sum l 0) ex_hard_header (λ _ _, mret 36) ex_drv (rt_udp_getfrag ex_sum (λ _ _ _ _ c, c)) ex_sk 28 ex_rt
          (mk_ostate ex_kd 5 ex_ufh) = Some (0, s') ∧ reassemble [] (ip_packets ex_lh (xmit_log (okern s'))) = Some ex_msg.
Proof.
  destruct (wp_elim _ _ _ (fragments_roundtrip (λ l, ex_sum l 0) ex_hard_header (λ _ _, mret 36) ex_drv
    (rt_udp_getfrag ex_sum (λ _ _ _ _ c, c)) ex_msg (udp_at ex_ufh) ex_sk ex_rt 7 ex_out ex_lh 16 5 (mk_ostate ex_kd 5 ex_ufh) ex_pools
    1 [2]%nat 36 ltac:(by apply udp_getfrag_spec; [exact ex_iov20_ok| |])
    ltac:(apply ex_header_spec; by left) ltac:(by apply ex_driver_spec) eq_refl eq_refl ltac:(done) ltac:(lia) ltac:(done) ex_align
    eq_refl eq_refl ltac:(done) ltac:(by apply ex_kd_pools) eq_refl ltac:(by apply ex_roomy) eq_refl))
    as (r & s' & E & sent & Hl & -> & Hr).
  exists s'. split; [exact E|]. rewrite Hl. exact Hr.
Defined.

(** ** Ports *)

(** Socket 0 is registered with the first automatic port. *)
Definition ex_ports : pstate :=
  (up fresh_udp) <| port_registry := <[0%nat := mk_udp_socket 4 INADDR_ANY (Some 0%nat) (Some 4%nat)]> (replicate 64 (mk_udp_socket 0 0 None None)) |>
    <| port_hash := <[4%nat := [0%nat]]> (replicate 128 []) |>.
Definition ex_bound_sk : rtsocket := (raw_socket 0 3) <| inet_sport := 4 |> <| inet_state := TCP_CLOSE |>.
Definition ex_ub : ustate := mk_ustate (mk_fstate ex_kd (<[0%nat := ex_bound_sk]> ∅) []) ex_ports ex_r 5 ex_mem20.

Lemma ex_registry i e : port_registry ex_ports !! i = Some e → i = 0%nat ∧ us_link e = Some 4%nat ∧ us_sport e = 4 ∧ us_sock e = Some 0%nat ∨ us_link e = None.
Proof.
  change (port_registry ex_ports) with (mk_udp_socket 4 INADDR_ANY (Some 0%nat) (Some 4%nat) :: replicate 63 (mk_udp_socket 0 0 None None)).
  rewrite lookup_cons_Some. intros [[-> [= <-]]|[_ [-> _]%lookup_replicate]]; auto.
Qed.
Lemma ex_reg_ok : reg_ok ex_ports.
Proof.
  assert (Hb : ∀ i x, bound ex_ports i = Some x → i = 0%nat).
  { unfold bound. intros i x. destruct (port_registry ex_ports !! i) as [e|] eqn:E; [|done]. cbn.
    apply ex_registry in E as [(-> & _)|E]; [done|]. by rewrite E. }
  split; [done|done|..].
  - intros b l Hl. change (port_hash ex_ports) with (replicate 4 [] ++ [0%nat] :: replicate 123 []) in Hl.
    apply lookup_app_Some in Hl as [[-> _]%lookup_replicate|[Hge Hl]]; [split; [constructor|set_solver]|].
    rewrite length_replicate in *. apply lookup_cons_Some in Hl as [[Hb4 [= <-]]|[_ [-> _]%lookup_replicate]]; [|split; [constructor|set_solver]].
    assert (b = 4%nat) as -> by lia. split; [by apply NoDup_singleton|]. intros i ->%list_elem_of_singleton. by eexists.
  - intros i e b He Hlk. apply ex_registry in He as [(-> & E & _)|E]; [|congruence].
    assert (b = 4%nat) as -> by congruence. exists [0%nat]. split; [done|set_solver].
  - intros i j x y ->%Hb ->%Hb _. done.
Qed.
Lemma rt_udp_bind_witness :
  ∃ s', rt_udp_bind 0 ex_own (ntohs 5000) SIZEOF_SOCKADDR_IN ex_ub = Some (0, s') ∧ bound (up s') 0 = Some (ex_own, ntohs 5000).
Proof.
  destruct (wp_elim _ _ _ (rt_udp_bind_correct ex_ub 0 ex_bound_sk (INADDR_ANY, 4) ex_own (ntohs 5000) SIZEOF_SOCKADDR_IN ex_reg_ok
    eq_refl eq_refl ltac:(done))) as (r & s' & E & _ & _ & _ & _ & H).
  destruct H as [(-> & Hb & _)|(-> & _)]; [|exfalso; vm_compute in E; discriminate].
  exists s'. split; [exact E|exact Hb].
Defined.

(** ** Receiving *)

(** A datagram of 10 bytes from port 9 of 10.0.0.2 to port 1024, in the buffers 3 and 5. *)
Definition ex_dgram : rtskb :=
  (ex_skb 3 (Some 5%nat) 0 14) <| chain_end := Some 5%nat |> <| nh_raw := 1016 |> <| h_raw := 1036 |> <| data := 1036 |> <| tail := 1050 |>
    <| rtdev := Some 7%nat |>
    <| buf := replicate 16 0 ++ ip_header 0 34 1 0 IPPROTO_UDP 0 ex_peer ex_own ++ wr16 9 ++ wr16 4 ++ be16 18 ++ wr16 0 ++
              [1; 2; 3; 4; 5; 6] ++ replicate 14 0 |>.
Definition ex_rest : rtskb := (ex_skb 5 None 0 4) <| buf := replicate 16 0 ++ [7; 8; 9; 10] ++ replicate 44 0 |>.
Definition ex_kr : kstate :=
  ex_kd <| skbs := <[3%nat := ex_dgram]> (<[5%nat := ex_rest]> (skbs ex_k)) |>
        <| queues := <[3%nat := mk_queue (Some 3%nat) (Some 5%nat) 0]> (queues ex_k) |>.
Definition ex_sk1 : rtsocket := ex_bound_sk <| pending_sem := Some 1 |>.
Definition ex_ur : ustate := ex_ub <| uf := mk_fstate ex_kr (<[0%nat := ex_sk1]> ∅) [] |>.

Lemma ex_kr_pools : pools_inv ex_kr ex_pools.
Proof.
  eapply pools_inv_frame; [exact ex_pools_inv|..].
  - intros q l H. map_cases H; by eexists _, _.
  - intros q l a H Ha. map_cases H; repeat (apply elem_of_cons in Ha as [->|Ha]; [reflexivity|]); by apply not_elem_of_nil in Ha.
Qed.
Lemma ex_wf_dgram : wf_rtskb ex_dgram ∧ wf_rtskb ex_rest.
Proof. split; split; vm_compute; congruence. Qed.
Lemma ex_in_chain a : a ∈ [3; 5]%nat → (a = 3%nat ∧ skbs ex_kr !! a = Some ex_dgram) ∨ (a = 5%nat ∧ skbs ex_kr !! a = Some ex_rest).
Proof. intros H. repeat (apply elem_of_cons in H as [->|H]; [by auto|]). by apply not_elem_of_nil in H. Qed.

Lemma rt_udp_recvmsg_witness :
  ∃ s', rt_udp_recvmsg 0 ex_iov20 true 0 0 ex_ur = Some ((10, Some (AF_INET, 9, ex_peer), 0), s') ∧
    load_all (take 10 (iov_addrs ex_iov20)) (um s') = Some (seqZ 1 10) ∧ pools_inv (fkern (uf s')) (<[0%nat := [1; 2; 3; 5]%nat]> ex_pools).
Proof.
  destruct (wp_elim _ _ _ (rt_udp_recvmsg_correct ex_ur 0 ex_sk1 1 (mk_queue (Some 3%nat) (Some 5%nat) 0) 3 ex_dgram [3; 5]%nat [] ex_iov20
    true 0 0 (ntohs 18) 9 (mk_iphdr 5 (ntohs 1) 0 IPPROTO_UDP ex_peer ex_own) ex_pools 0 [1; 2]%nat
    eq_refl eq_refl ltac:(lia) eq_refl eq_refl
    ltac:(split; [by repeat eexists|done])
    ltac:(exists ex_dgram, None; split_and!; [done|done|done|by repeat eexists|]; repeat (apply NoDup_cons_2; [set_solver|]); constructor)
    eq_refl ltac:(done)
    ltac:(intros a x [[-> E]|[-> E]]%ex_in_chain Hx; (pose proof (eq_trans (eq_sym E) Hx) as Hy; injection Hy as <-; split; [apply ex_wf_dgram|done]))
    eq_refl eq_refl eq_refl ltac:(vm_compute; split; congruence) ex_iov20_ok ltac:(done) ex_kr_pools eq_refl eq_refl
    ltac:(intros a [[-> E]|[-> E]]%ex_in_chain; (split; [intros q l H; map_cases H; set_solver|]); intros x Hx; pose proof (eq_trans (eq_sym E) Hx) as Hy; by injection Hy as <-)
    ltac:(intros b Hb; by apply not_elem_of_nil in Hb))) as (r & s' & E & Er & Em & Hp & _).
  exists s'. split; [rewrite Er in E; exact E|]. split; [rewrite Em; by vm_compute|exact Hp].
Defined.

Lemma rt_udp_dest_socket_witness :
  ∃ f', rt_udp_dest_socket (λ _ _ _ _ c, c) ex_ports 3 (uf ex_ur) = Some (Some 0%nat, f').
Proof.
  destruct (wp_elim _ _ _ (rt_udp_dest_socket_correct (λ _ _ _ _ c, c) ex_ports (uf ex_ur) 3 ex_dgram ex_own 4 eq_refl ex_reg_ok eq_refl
    ltac:(intros i y; unfold bound; destruct (port_registry ex_ports !! i) as [e|] eqn:He; [|done]; cbn;
          destruct (ex_registry _ _ He) as [(-> & _ & _ & Es)|Es]; [|by rewrite Es]; intros _; exists e, 0%nat; (split_and!; [done..|]); by eexists)
    ltac:(by repeat eexists) ltac:(done))) as (r & f' & E & x' & _ & _ & Hr).
  exists f'. destruct r as [so|].
  - rewrite E. vm_compute in E. injection E as <- _. reflexivity.
  - exfalso. vm_compute in E. discriminate.
Defined.
Lemma rt_udp_sendmsg_notconn_witness :
  ∃ s', rt_udp_sendmsg ex_sum (λ _ _ _ _ c, c) (λ l, ex_sum l 0) ex_hard_header (λ _ _, mret 36) ex_drv 0 ex_iov20 None 0 ex_us
          = Some (- ENOTCONN, s') ∧ rt_udp_close 0 s' = None.
Proof.
  destruct (rt_udp_sendmsg_notconn ex_sum (λ _ _ _ _ c, c) (λ l, ex_sum l 0) ex_hard_header (λ _ _, mret 36) ex_drv ex_us 0 ex_sk ex_iov20 0
    eq_refl eq_refl ltac:(done) ltac:(done) ltac:(by left)) as (s' & E & _ & Hc & _).
  exists s'. split; [exact E|apply Hc].
Defined.

