(* ===== verification/InputWitnesses.v ===== *)
(** * Concrete instances of the properties of packet input

    Packets that are forwarded, delivered to a UDP socket, answered by ARP and answered by
    ICMP, in the states of [NetWitnesses]; the theorems about them applied. *)
From S2P Require Import Prelude State RtskbQueue Rtskb RtskbData RtskbFifo Rtdev Eth Iovec StackMgr Route RouteHost RouteOps Inet.
From S2P Require Import IpFragment Socket IpOutput IpInput Arp Udp UdpOps UdpSend UdpInput UdpErrors Icmp Witnesses NetWitnesses.
#[local] Existing Instance default_config.

(** ** Forwarding *)

(** A packet from device 9 for 10.0.0.2, which is reached through device 7. *)
Definition ex_fwd : rtskb := (ex_skb 3 None 0 8) <| rtdev := Some 9%nat |>.
Definition ex_kf : kstate := ex_kd <| skbs := <[3%nat := ex_fwd]> (skbs ex_k) |>.
Definition ex_rf : rstate := ex_r <| kern := ex_kf |>.
Lemma ex_use_pools k x : (∀ q, queues k !! q = queues ex_k !! q) → skbs k = <[3%nat := x]> (skbs ex_k) → pools_inv k ex_pools.
Proof.
  intros EQ ES. eapply pools_inv_frame; [exact ex_pools_inv|..].
  - intros q l Hl. destruct (pi_queue _ _ ex_pools_inv _ _ Hl) as (Q & HQ & _). exists Q, Q. by rewrite EQ.
  - intros q l a Hl Ha. rewrite ES. apply lookup_insert_ne. intros <-. by eapply ex_in_use.
Qed.
Lemma ex_loose k x : skbs k !! 3%nat = Some x → wf_rtskb x → chain_end x = Some 3%nat → pool x = Some 0%nat → loose k ex_pools 3 x 0.
Proof. intros Hx Hw He Hp. split; try done; exact ex_in_use. Qed.
Lemma ex_wf_fwd : wf_rtskb ex_fwd.
Proof. split; vm_compute; congruence. Qed.
Lemma ex_header_mac dst : take 6 (dest_addr dst) = ex_mac →
  header_spec ex_hard_header dst 7 (ex_out <| refcount := 1 |>) ex_lh.
Proof.
  intros E. assert (Hl : (6 ≤ length (dest_addr dst))%nat).
  { assert (length (take 6 (dest_addr dst)) = 6%nat) as Ht by (by rewrite E). rewrite length_take in Ht. lia. }
  pose proof (eth_header_spec ex_hard_header dst 7 (ex_out <| refcount := 1 |>) eq_refl eq_refl eq_refl eq_refl Hl ltac:(cbn; unfold ETH_ALEN; lia)) as Hs.
  change ETH_ALEN with 6%nat in Hs. rewrite E in Hs. exact Hs.
Qed.
Lemma ex_route_for r o dst saddr : devs (kern r) = devs ex_kd → route_for r ex_routes ex_peer saddr ex_peer o dst →
  o = 7%nat ∧ take 6 (dest_addr dst) = ex_mac.
Proof.
  intros ED (_ & _ & key & D & mac & Hk & HT & HD & _ & Hm).
  assert (key.1 = ex_peer) as Hk1 by (unfold saddr_lip in Hk; destruct (saddr =? INADDR_ANY); cbn in Hk; [done|by rewrite Hk]).
  unfold ex_routes in HT. apply lookup_insert_Some in HT as [[<- [= <- <-]]|[_ HT]].
  - rewrite ED in HD. vm_compute in HD. injection HD as <-. done.
  - apply lookup_insert_Some in HT as [[<- _]|[_ HT]]; [by vm_compute in Hk1|by apply lookup_empty_Some in HT].
Qed.
Lemma ex_rf_state : host_state ex_rf ex_buckets [1%nat] ex_routes.
Proof. exact (host_state_devs ex_r _ _ _ ex_kf ex_host_state eq_refl). Qed.
Lemma ex_rf_pools : pools_inv (kern ex_rf) ex_pools.
Proof. apply (ex_use_pools _ ex_fwd); reflexivity. Qed.
Lemma ex_rf_loose : loose (kern ex_rf) ex_pools 3 ex_fwd 0.
Proof. apply ex_loose; [reflexivity|exact ex_wf_fwd|reflexivity|reflexivity]. Qed.
Lemma ex_rf_out o O dst : route_for ex_rf ex_routes ex_peer INADDR_ANY ex_peer o dst → devs (kern ex_rf) !! o = Some O →
  let O1 := O <| refcount := refcount O + 1 |> in
  header_spec ex_hard_header dst o O1 ex_lh ∧ driver_spec ex_drv o O1 ∧ hard_header_len O ≤ headroom ex_fwd.
Proof.
  intros Hr HO. destruct (ex_route_for ex_rf o dst _ eq_refl Hr) as [-> Hm]. vm_compute in HO. injection HO as <-.
  split_and!; [by apply ex_header_mac|by apply ex_driver_spec|done].
Qed.
Lemma rt_ip_route_forward_witness :
  ∃ r', rt_ip_route_forward 1 ex_hard_header ex_drv 3 ex_peer ex_rf = Some (1, r') ∧
    forward_outcome 1 ex_rf ex_routes ex_pools 3 ex_fwd 0 ex_peer (λ _ _, ex_lh) r'.
Proof.
  destruct (wp_elim _ _ _ (rt_ip_route_forward_correct (H := default_config) 1 ex_hard_header ex_drv ex_rf ex_buckets [1%nat] ex_routes ex_pools 3
    ex_fwd 0 [4%nat] 9 (ex_dev 0 0) ex_peer (λ _ _, ex_lh) eq_refl ex_rf_state (proj1 ex_u32)
    ex_rf_pools eq_refl ex_rf_loose eq_refl eq_refl ex_rf_out)) as (ret & r' & E & Hr).
  exists r'. assert (is_local (ex_dev 0 0) ex_peer = false) as El by (by vm_compute). rewrite El in Hr.
  destruct Hr as (-> & _ & Ho). split; [exact E|exact Ho].
Defined.

(** ** A UDP datagram *)

(** 10 bytes from port 9 of 10.0.0.2 to port 1024 in an IP packet of 38 bytes; socket 0 is
    bound to the port and has no datagram yet. *)
Definition ex_udp_bytes : list Z :=
  ip_header 0 38 1 0 IPPROTO_UDP 0 ex_peer ex_own ++ wr16 9 ++ wr16 4 ++ be16 18 ++ wr16 0 ++ seqZ 1 10.
Definition ex_packet (bytes : list Z) : rtskb :=
  let n := Z.of_nat (length bytes) in
  (ex_skb 3 None 0 n) <| nh_raw := 1016 |> <| h_raw := 1016 |> <| rtdev := Some 7%nat |>
    <| buf := replicate 16 0 ++ bytes ++ replicate (48 - length bytes) 0 |>.
Definition ex_kin (x : rtskb) : kstate :=
  ex_kd <| skbs := <[3%nat := x]> (skbs ex_k) |> <| queues := <[3%nat := mk_queue None None 0]> (queues ex_k) |>.
Definition ex_udp_in : rtskb := ex_packet ex_udp_bytes.
Definition ex_ui : ustate := ex_ub <| uf := mk_fstate (ex_kin ex_udp_in) (<[0%nat := ex_bound_sk]> ∅) [] |>.
Definition ex_prots : prot_table := <[rt_inet_hashkey IPPROTO_UDP := Some (mk_protocol 0 IPPROTO_UDP)]> (replicate 32 None).

Lemma ex_kin_pools x : pools_inv (ex_kin x) ex_pools.
Proof.
  eapply pools_inv_frame; [exact ex_pools_inv|..].
  - intros q l H. map_cases H; by eexists _, _.
  - intros q l a Hl Ha. cbn. apply lookup_insert_ne. intros <-. by eapply ex_in_use.
Qed.
Lemma ex_udp_loose : loose (ex_kin ex_udp_in) ex_pools 3 ex_udp_in 0.
Proof. apply ex_loose; [reflexivity|split; vm_compute; congruence|reflexivity|reflexivity]. Qed.
Lemma ex_udp_sockets : sockets_exist ex_ports (uf ex_ui).
Proof.
  intros i y. unfold bound. destruct (port_registry ex_ports !! i) as [e|] eqn:He; [|done]. cbn.
  destruct (ex_registry _ _ He) as [(-> & _ & _ & Es)|Es]; [|by rewrite Es]. intros _. exists e, 0%nat. split_and!; [done..|]. by eexists.
Qed.
Lemma ex_udp_receives so S : socks (uf ex_ui) !! so = Some S → ∃ li, receives (ex_kin ex_udp_in) ex_pools S li ∧ 3%nat ∉ li.
Proof.
  change (socks (uf ex_ui)) with (<[0%nat := ex_bound_sk]> (∅ : gmap nat rtsocket)). intros HS.
  apply lookup_insert_Some in HS as [[<- <-]|[_ HS]]; [|by apply lookup_empty_Some in HS].
  exists []. split; [|set_solver]. split_and!; [by eexists|done|done| |].
  - eexists. split; [reflexivity|]. split; [by constructor|done].
  - intros b Hb. by apply not_elem_of_nil in Hb.
Qed.

Lemma rt_ip_rcv_udp_witness :
  ∃ s', ip_rcv (λ _ _ _ _ c, c) (λ _, 0) ex_prots (λ _ _, mret 0) (λ _ _ _, mret ()) ex_ports 3 ex_ui = Some (0, s') ∧
    udp_outcome ex_ports ex_pools 3 0 ex_own 4 (drop 20 ex_udp_bytes) (uf ex_ui) (uf s').
Proof.
  destruct (wp_elim _ _ _ (rt_ip_rcv_udp_correct (H := default_config) (λ _ _ _ _ c, c) (λ _, 0) ex_prots (λ _ _, mret 0) (λ _ _ _, mret ()) ex_ui 3 ex_udp_in 0
    ex_pools 69 38 (take 20 ex_udp_bytes) (mk_iphdr 5 (ntohs 1) 0 IPPROTO_UDP ex_peer ex_own) (mk_protocol 0 IPPROTO_UDP) ex_own 4
    eq_refl (ex_kin_pools _) ex_udp_loose ltac:(split; [reflexivity|reflexivity|by eexists|reflexivity])
    eq_refl eq_refl eq_refl eq_refl ex_reg_ok eq_refl ex_udp_sockets ltac:(by repeat eexists) ltac:(done)
    (λ so S _ HS, ex_udp_receives so S HS))) as (ret & s' & E & -> & _ & _ & Ho).
  exists s'. split; [exact E|exact Ho].
Defined.

(** ** An ARP request *)

(** 10.0.0.3 asks device 7 for its address. *)
Definition ex_asker : Z := bswap32 167772163.
Definition ex_mac3 : list Z := [2; 0; 0; 0; 0; 3].
Definition ex_arp : rtskb := ex_packet (arp_packet ARPHRD_ETHER ETH_P_IP 6 4 ARPOP_REQUEST ex_mac3 ex_asker (replicate 6 0) ex_own).
Definition ex_ra : rstate := ex_r <| kern := ex_kin ex_arp |>.
Definition ex_arp_lh : list Z := ex_mac3 ++ replicate 6 7 ++ be16 ETH_P_ARP.

Lemma ex_ra_state : host_state ex_ra ex_buckets [1%nat] ex_routes.
Proof. exact (host_state_devs ex_r _ _ _ (ex_kin ex_arp) ex_host_state eq_refl). Qed.
Lemma ex_arp_loose : loose (kern ex_ra) ex_pools 3 ex_arp 0.
Proof. apply ex_loose; [reflexivity|split; vm_compute; congruence|reflexivity|reflexivity]. Qed.
Lemma ex_in_room x n : hh_len ex_out + n ≤ 64 → roomy ex_out (ex_kin x) [1; 2]%nat n ∧ roomy ex_out (ex_kin x) [4]%nat n.
Proof.
  intros Hn. split; intros b y Hb;
    repeat (apply elem_of_cons in Hb as [->|Hb]; [intros H; vm_compute in H; injection H as <-; cbn; lia|]); by apply not_elem_of_nil in Hb.
Qed.
Lemma ex_arp_link : link_spec ex_hard_header 7 ex_out ex_mac3 (dev_addr ex_out) ex_arp_lh.
Proof. apply (eth_link_spec ex_hard_header 7 ex_out); try done; cbn; unfold ETH_ALEN; lia. Qed.

Lemma rt_arp_rcv_witness :
  ∃ r', rt_arp_rcv 1 ex_hard_header ex_drv None 3 ex_ra = Some (0, r') ∧
    xmit_log (kern r') = [(7%nat, 4%nat, ex_arp_lh ++ arp_answer ex_out ex_mac3 ex_asker)].
Proof.
  destruct (wp_elim _ _ _ (rt_arp_rcv_correct (H := default_config) 1 ex_hard_header ex_drv ex_ra ex_buckets [1%nat] ex_routes ex_pools [4]%nat 3
    ex_arp 0 7 ex_out ARPOP_REQUEST ex_mac3 ex_asker (replicate 6 0) ex_own [] ex_arp_lh
    eq_refl ex_ra_state (ex_kin_pools _) eq_refl ex_arp_loose eq_refl eq_refl eq_refl ltac:(done) ltac:(done)
    eq_refl eq_refl ltac:(cbn; lia) ltac:(cbn; lia) ltac:(done) ltac:(vm_compute; split; congruence)
    (proj2 (ex_in_room ex_arp 28 ltac:(done))) ltac:(by left) eq_refl eq_refl (proj2 (proj2 ex_u32)) (proj1 (proj2 ex_u32))
    ltac:(by vm_compute) ex_arp_link ltac:(by apply ex_driver_spec))) as (ret & r' & E & -> & _ & _ & Hl & _).
  exists r'. split; [exact E|exact Hl].
Defined.

(** ** An echo request *)

(** 10.0.0.2 pings device 7 with 10 bytes of data. *)
Definition ex_ping : list Z := ICMP_ECHO :: 0 :: [1; 2; 0; 5; 0; 1] ++ seqZ 1 10.
Definition ex_echo : rtskb :=
  (ex_packet (ip_header 0 38 1 0 IPPROTO_ICMP 0 ex_peer ex_own ++ ex_ping)) <| data := 1036 |> <| h_raw := 1036 |> <| len := 18 |>.
Definition ex_uic : ustate := ex_ub <| uf := mk_fstate (ex_kin ex_echo) (<[0%nat := ex_bound_sk]> ∅) [] |>.
Definition ex_is : istate := mk_istate ex_uic [] ∅ [].
Lemma ex_echo_state : host_state ((uroute ex_uic) <| kern := ex_kin ex_echo |>) ex_buckets [1%nat] ex_routes.
Proof. exact (host_state_devs ex_r _ _ _ (ex_kin ex_echo) ex_host_state eq_refl). Qed.
Lemma ex_echo_loose : loose (ex_kin ex_echo) ex_pools 3 ex_echo 0.
Proof. apply ex_loose; [reflexivity|split; vm_compute; congruence|reflexivity|reflexivity]. Qed.
Lemma ex_echo_header dst :
  route_for ((uroute ex_uic) <| kern := ex_kin ex_echo |>) ex_routes ex_peer ex_own ex_peer 7 dst →
  header_spec ex_hard_header dst 7 (ex_out <| refcount := refcount ex_out + 1 |>) ex_lh.
Proof. intros Hr. destruct (ex_route_for ((uroute ex_uic) <| kern := ex_kin ex_echo |>) 7 dst ex_own ltac:(by vm_compute) Hr) as [_ Hm]. by apply ex_header_mac. Qed.

Lemma rt_icmp_rcv_echo_witness :
  ∃ s', rt_icmp_rcv ex_sum Z.opp (λ _, 0) (λ l, ex_sum l 0) ex_hard_header (λ _ _, mret 38) ex_drv 0 0 (replicate 16 0) 3 ex_is = Some ((), s') ∧
    length (xmit_log (fkern (uf (iu s')))) = 1%nat.
Proof.
  destruct (wp_elim _ _ _ (rt_icmp_rcv_echo_correct (H := default_config) ex_sum Z.opp (λ _, 0) (λ l, ex_sum l 0) ex_hard_header (λ _ _, mret 38)
    ex_drv 0 0 (replicate 16 0) ex_is ex_bound_sk 3 ex_echo 0 ex_pools [1; 2]%nat ([1; 2; 0; 5; 0; 1] ++ seqZ 1 10) 0
    (mk_iphdr 5 (ntohs 1) 0 IPPROTO_ICMP ex_peer ex_own) 7 ex_out 7 ex_out ex_buckets [1%nat] ex_routes ex_lh 38
    eq_refl ex_echo_state (proj1 ex_u32) ltac:(done) ltac:(by exists ex_mac) eq_refl eq_refl (ex_kin_pools _) ex_echo_loose eq_refl
    ltac:(by vm_compute) ltac:(cbn; lia) eq_refl eq_refl eq_refl eq_refl eq_refl eq_refl ex_echo_header ltac:(by apply ex_driver_spec)
    ltac:(done) ltac:(cbn; lia) ltac:(done) ltac:(vm_compute; split; congruence)
    (proj1 (ex_in_room ex_echo 38 ltac:(done))))) as ([] & s' & E & _ & _ & _ & _ & (dst & _ & Hl) & _).
  exists s'. split; [exact E|]. by rewrite Hl.
Defined.

(** A ping with less data than a time stamp: the data sent is what the stack held in the
    place of the time stamp ([222] here), not the pattern. *)
Definition ex_is0 : istate := ex_is <| iu := ex_uic <| uf := (uf ex_uic) <| collector := replicate COLLECTOR_COUNT ex_free_coll |> |> |>.
Example short_ping_sends_stack :
  ∃ s' p, rt_icmp_send_echo ex_sum (λ _, 0) (λ l, ex_sum l 0) ex_hard_header (λ _ _, mret 38) ex_drv 0 0 (replicate 16 222) ex_peer 7 1 4 ex_is0
            = Some (0, s') ∧
    xmit_log (fkern (uf (iu s'))) = [(7%nat, 1%nat, p)] ∧ drop 42 p = replicate 4 222 ∧ pattern_buf 4 = [0; 1; 2; 3].
Proof.
  destruct (rt_icmp_send_echo _ _ _ _ _ _ _ _ _ ex_peer 7 1 4 ex_is0) as [[r s']|] eqn:E; [|by vm_compute in E].
  vm_compute in E. injection E as <- <-. eexists _, _. split_and!; reflexivity.
Qed.
