(* ===== verification/RtpcWitnesses.v ===== *)
(** * Concrete instances of the properties of procedure calls

    A call that is dispatched, served by a procedure that leaves it pending, and completed;
    the theorems applied to the states on its way. *)
From S2P Require Import Prelude Rtpc.

(** Procedures that leave their calls pending; memory for two calls. *)
Definition ex_proc (p : nat) (v : Z) : Z * Z := (- CALL_PENDING, v).
Definition ex_g0 : config := mk_config (mk_rtpc ∅ [1; 2]%nat [] [] ([] : list Z)) ∅ [] [].
Definition ex_next (g : config) (a : action) : config := default g (exec ex_proc g a).
Definition ex_dispatched : config := ex_next ex_g0 (Dispatch 0 7 false).
Definition ex_served : config := ex_next ex_dispatched Serve.
Definition ex_completed : config := ex_next ex_served (Complete 1 5).
Definition ex_signalled : config := ex_next ex_completed Signal.

Lemma ex_initial : initial ex_g0.
Proof. split_and!; try reflexivity. apply (bool_decide_unpack (NoDup [1; 2]%nat)). by vm_compute. Qed.
Lemma ex_exec g a g' : enabled g a → exec ex_proc g a = Some g' → rtpc_step ex_proc g g'.
Proof. intros Hen E. by exists a. Qed.
Lemma ex_served_reachable : reachable ex_proc ex_served.
Proof.
  exists ex_g0. split; [exact ex_initial|]. eapply rtc_l; [apply (ex_exec ex_g0 (Dispatch 0 7 false) ex_dispatched); [done|by vm_compute]|].
  eapply rtc_l; [|apply rtc_refl]. apply (ex_exec _ Serve); [done|by vm_compute].
Qed.
Lemma ex_serving : (1%nat ∈ serving ex_served) ∧ (1%nat ∈ waiting ex_served).
Proof. split; refine (bool_decide_unpack _ _); by vm_compute. Qed.

Lemma rtpc_calls_safe_witness : ∃ g', exec ex_proc ex_served (Complete 1 5) = Some g' ∧ is_Some (calls (sys ex_served) !! 1%nat).
Proof.
  destruct (rtpc_calls_safe ex_proc ex_served (Complete 1 5) ex_served_reachable (proj1 ex_serving)) as ((g' & E) & Hdom & _).
  exists g'. split; [exact E|]. apply Hdom. left. apply ex_serving.
Defined.
Lemma rtpc_result_delivered_witness : ∃ g3, exec ex_proc ex_signalled (Wakeup 1 0) = Some g3 ∧ returned g3 = [(1%nat, 5)].
Proof.
  destruct (rtpc_result_delivered ex_proc ex_served ex_completed ex_signalled 1 5 0 ex_served_reachable (proj2 ex_serving) (proj1 ex_serving)
    ltac:(by vm_compute)) as (g3 & E & Er & _).
  - eapply rtc_l; [|apply rtc_refl]. exists Signal. split_and!; [done|done|by vm_compute].
  - done.
  - split; [refine (bool_decide_unpack _ _); by vm_compute|]. intros _. eexists. split; [by vm_compute|done].
  - exists g3. split; [exact E|]. by rewrite Er.
Defined.
Lemma rtpc_handlers_drain_witness :
  ∃ l s', rtpc_dispatch_handler ex_proc (sys ex_dispatched) = Some (l, s') ∧ pending_calls s' = [].
Proof.
  assert (Hr : reachable ex_proc ex_dispatched).
  { exists ex_g0. split; [exact ex_initial|]. eapply rtc_l; [|apply rtc_refl]. apply (ex_exec ex_g0 (Dispatch 0 7 false)); [done|by vm_compute]. }
  destruct (rtpc_handlers_drain ex_proc ex_dispatched Hr) as [Hd _]. destruct (wp_elim _ _ _ Hd) as (l & s' & E & Hp & _).
  exists l, s'. split; [exact E|exact Hp].
Defined.
