(* ===== verification/MacWitnesses.v ===== *)
(** * Concrete instances of the properties of RTmac and TDMA

    A station with one TDMA slot in which a packet waits, as master and as slave; a
    tunnelled frame.  The theorems about them applied. *)
From S2P Require Import Prelude State RtskbQueue Rtskb RtskbData RtskbFifo Rtdev Eth Iovec StackMgr Route RouteHost RouteOps Inet.
From S2P Require Import IpFragment Socket IpOutput IpInput Arp Udp UdpOps UdpSend UdpInput UdpErrors Icmp Witnesses NetWitnesses InputWitnesses.
From S2P Require Import Rtmac Tdma TdmaIoctl TdmaRing TdmaSlots TdmaFrames TdmaWorker TdmaConfig.
#[local] Existing Instance default_config.

(** ** A station with one slot *)

(** Buffer 5 waits in the prioritized queue 9 at priority 5; queue 8 is spare; buffer 3
    holds the packet [x]. *)
Definition ex_waiter : rtskb := (ex_skb 5 None 0 8) <| rtdev := Some 7%nat |>.
Definition ex_tq : gmap nat rtskb_queue :=
  <[0%nat := mk_queue (Some 1%nat) (Some 2%nat) 0]> (<[1%nat := mk_queue (Some 4%nat) (Some 4%nat) 0]>
    (list_to_map ((λ i, (100 + i, if decide (i = 5) then mk_queue (Some 5) (Some 5) 0 else mk_queue None None 0))%nat <$> seq 0 32) ∪
     list_to_map ((λ i, (200 + i, mk_queue None None 0))%nat <$> seq 0 32))).
Definition ex_kt (x : rtskb) : kstate :=
  ex_k <| skbs := <[3%nat := x]> (<[5%nat := ex_waiter]> (skbs ex_k)) |> <| queues := ex_tq |>
       <| prioqs := <[9%nat := mk_prio_queue 32 100]> (<[8%nat := mk_prio_queue 0 200]> ∅) |> <| devs := <[7%nat := ex_out]> ∅ |>.
Definition ex_lists : list (list nat) := <[5%nat := [5%nat]]> (replicate 32 []).
Definition ex_P : prio_map := <[9%nat := ex_lists]> ∅.
Definition ex_job_slot : tdma_slot := mk_slot 100 1 0 36 50 9 9.
Definition ex_t (x : rtskb) (sync : Z) (table : list (option Z)) : tdma :=
  mk_tdma (mk_vstate (ex_kt x) (<[7%nat := mk_vnic 30 1 30 0 0 0 0 0 0]> ∅) 1 [] 0)
    (<[1000 := mk_job 2000 2000 sync 0 SYNC_JOB]> (<[2000 := mk_job 1000 1000 0 0 (SLOT_JOB ex_job_slot)]> ∅))
    2 0 7 5000 25 0 1000 (Some 1000) 1000 0 2 table None (replicate 6 0) 0 1000 0 ∅ [(3000, 8%nat)] [] [] 0.
Definition ex_slots : list (option Z) := [Some 2000; Some 2000; None].

Lemma ex_lists_cases i l : ex_lists !! i = Some l → (i = 5%nat ∧ l = [5%nat]) ∨ (i ≠ 5%nat ∧ (i < 32)%nat ∧ l = []).
Proof. unfold ex_lists. intros [(<- & <- & _)|(Hne & [-> Hi]%lookup_replicate)]%list_lookup_insert_Some; auto. Qed.
Lemma ex_lists_elem l a : l ∈ ex_lists → a ∈ l → a = 5%nat.
Proof. intros [i Hl]%list_elem_of_lookup Ha. apply ex_lists_cases in Hl as [(_ & ->)|(_ & _ & ->)]; set_solver. Qed.
Lemma ex_sub_queue x i : (i < 32)%nat →
  queues (ex_kt x) !! (100 + i)%nat = Some (if decide (i = 5)%nat then mk_queue (Some 5%nat) (Some 5%nat) 0 else mk_queue None None 0).
Proof. intros Hi. do 32 (destruct i as [|i]; [done|]). lia. Qed.
Lemma ex_tq_prio x : is_prio_queue (ex_kt x) 9 ex_lists.
Proof.
  split; [done|..].
  - eexists. split; [reflexivity|]. split; [done|]. intros i l [(-> & ->)|(Hne & Hi & ->)]%ex_lists_cases.
    + split; [done|]. eexists. split; [reflexivity|]. split; [by repeat eexists|done].
    + split; [do 32 (destruct i as [|i]; [done|]); lia|]. exists (mk_queue None None 0). split; [|done].
      rewrite ex_sub_queue by done. by rewrite decide_False.
  - intros i j l k a [(-> & ->)|(_ & _ & ->)]%ex_lists_cases [(-> & ->)|(_ & _ & ->)]%ex_lists_cases; set_solver.
Qed.
Lemma ex_kt_pools x : pools_inv (ex_kt x) ex_pools.
Proof.
  eapply pools_inv_frame; [exact ex_pools_inv|..].
  - intros q l Hl. map_cases Hl; by eexists _, _.
  - intros q l a Hl Ha. cbn. map_cases Hl; repeat (apply elem_of_cons in Ha as [->|Ha]; [done|]); by apply not_elem_of_nil in Ha.
Qed.
Lemma ex_P_waiting a : queued ex_P a → a = 5%nat.
Proof. intros (q & L & l & HL & Hl & Ha). map_cases HL. by eapply ex_lists_elem. Qed.
Lemma ex_5_in_use : in_use ex_pools 5.
Proof. intros q l H. map_cases H; set_solver. Qed.
Lemma ex_kt_world x : prio_world (ex_kt x) ex_P ex_pools.
Proof.
  split.
  - intros q L HL. map_cases HL. apply ex_tq_prio.
  - intros q1 q2 L1 L2 l1 l2 a H1 H2 _ _ _ _. map_cases H1; map_cases H2; done.
  - intros q1 q2 Q1 Q2 i j [L1 H1] [L2 H2] _ _ _ _ _. map_cases H1; map_cases H2; done.
  - intros q Q i [L HL] HQ Hi. map_cases HL. vm_compute in HQ. injection HQ as <-. change (sub_base _) with 100%nat.
    unfold ex_pools. by rewrite !lookup_insert_ne by lia.
  - intros q L l a HL Hl Ha. map_cases HL. rewrite (ex_lists_elem l a) by done. exact ex_5_in_use.
Qed.
Lemma ex_job_ring x sync table : sync = XMIT_SYNC ∨ sync = WAIT_ON_SYNC → job_ring (ex_t x sync table) 1000 [2000].
Proof.
  intros Hs. split.
  - done.
  - split; [by repeat split|]. refine (bool_decide_unpack _ _). by vm_compute.
  - by eexists.
  - intros j y Hj Hy. repeat (apply elem_of_cons in Hj as [->|Hj]); [..|by apply not_elem_of_nil in Hj]; vm_compute in Hy; injection Hy as <-.
    + destruct Hs as [-> | ->]; [by right; left|by left].
    + done.
  - intros j y Hj Hy. apply list_elem_of_singleton in Hj as ->. vm_compute in Hy. by injection Hy as <-.
  - by repeat constructor.
Qed.
Lemma ex_slot_at x sync table : Forall2 (slot_at (ex_t x sync table) ex_P) [2000] [ex_job_slot].
Proof. constructor; [|constructor]. eexists. split; [reflexivity|]. split_and!; done. Qed.
Lemma ex_bound_for x sync table : bound_for 7 (ex_t x sync table) ex_P.
Proof. intros a y ->%ex_P_waiting Hy. vm_compute in Hy. by injection Hy as <-. Qed.
Lemma ex_takes_all : takes_all ex_drv 7.
Proof. done. Qed.

(** *** Transmission *)

Lemma ex_table_ok x sync : table_ok (ex_t x sync ex_slots) ex_P.
Proof.
  intros i j Hij. change (slot_table _) with ex_slots in Hij. unfold ex_slots in Hij.
  do 3 (destruct i as [|i]; [cbn in Hij; first [discriminate Hij|injection Hij as <-; eexists _, _; split; [reflexivity|split; [reflexivity|by eexists]]]|]). done.
Qed.
Lemma tdma_rt_packet_tx_witness :
  ∃ s', tdma_rt_packet_tx 0 3 (ex_t ((ex_skb 3 None 0 8) <| priority := 5 |>) WAIT_ON_SYNC ex_slots) = Some (0, s') ∧ prio_world (tkern s') (<[9%nat := <[5%nat := [5; 3]%nat]> ex_lists]> ex_P) ex_pools.
Proof.
  set (x := (ex_skb 3 None 0 8) <| priority := 5 |>).
  destruct (wp_elim _ _ _ (tdma_rt_packet_tx_correct (ex_t x WAIT_ON_SYNC ex_slots) ex_P ex_pools 0 3 x (Some 2000) (ex_kt_pools x) (ex_kt_world x)
    (ex_table_ok x _) eq_refl eq_refl eq_refl ex_in_use ltac:(by intros ?%ex_P_waiting) ltac:(by left))) as (r & s' & E & _ & _ & _ & _ & Hr).
  destruct Hr as (jx & sl & Hj & Hsl & Hr). vm_compute in Hj. injection Hj as <-. injection Hsl as <-. destruct Hr as (-> & L & i & l & HL & Hl & Hi & Hw).
  exists s'. split; [exact E|]. change (queue_prio x) with 5 in Hi. assert (i = 5%nat) as -> by lia. assert (L = ex_lists) as -> by (by injection HL). injection Hl as <-. exact Hw.
Defined.

(** *** A cycle of a master *)

Definition ex_bcast : list Z := replicate 6 255 ++ replicate 6 7 ++ be16 ETH_RTMAC.
Lemma ex_sync_link : mac_link ex_hard_header 7 ex_out (broadcast ex_out) ex_bcast.
Proof. apply (eth_mac_link ex_hard_header 7 ex_out); try done; cbn; unfold ETH_ALEN; lia. Qed.
Lemma ex_frame_room x : frame_room ex_out (ex_kt x) [1; 2]%nat SYNC_LEN.
Proof.
  intros b y Hb. repeat (apply elem_of_cons in Hb as [->|Hb]; [intros H; vm_compute in H; injection H as <-; vm_compute; split; congruence|]).
  by apply not_elem_of_nil in Hb.
Qed.
Lemma tdma_master_cycle_witness :
  ∃ s', worker_rounds true 0 7 ex_hard_header ex_drv (mret ()) (mret ()) 2 1000 (ex_t (ex_skb 3 None 0 8) XMIT_SYNC ex_slots) = Some (1000, s') ∧
    wakeups s' = [6000; 6100] ∧ current_cycle s' = 8 ∧
    xmit_log (tkern s') = [(7%nat, 1%nat, ex_bcast ++ rtmac_header RTMAC_TYPE_TDMA 0 ++ sync_frame 8 0 6000); (7%nat, 5%nat, replicate 8 7)].
Proof.
  set (s := ex_t (ex_skb 3 None 0 8) XMIT_SYNC ex_slots).
  destruct (tdma_master_cycle (H := default_config) true 0 7 ex_out ex_hard_header ex_drv (mret ()) s ex_P ex_pools [1; 2]%nat ex_bcast 1000 [2000] [ex_job_slot] _
    eq_refl ex_takes_all eq_refl (ex_kt_pools _) (ex_kt_world _) eq_refl ltac:(by vm_compute) ltac:(vm_compute; congruence) (ex_frame_room _) ex_sync_link
    (ex_bound_for _ _ _) (ex_job_ring _ _ _ ltac:(by left)) eq_refl eq_refl ltac:(done) (ex_slot_at _ _ _) eq_refl) as [Hwp _].
  destruct (wp_elim _ _ _ Hwp) as (r & s' & E & -> & _ & _ & Ec & _ & Ew & El & _).
  exists s'. split_and!; [exact E|exact Ew|exact Ec|]. rewrite El. by vm_compute.
Defined.

(** *** A cycle of a slave *)

(** The frame of cycle 9, scheduled at 19990 and sent at 20000; the station's clock is 1000
    behind. *)
Definition ex_sync_in : rtskb :=
  (ex_packet (frm_head TDMA_FRM_SYNC ++ be32 9 ++ be64 20000 ++ be64 19990)) <| time_stamp := 19025 |>.
Lemma ex_sync_frame_at sync table : sync_frame_at (ex_t ex_sync_in sync table) ex_pools 3 ex_sync_in 0 9 19990 (replicate 6 0) 1000.
Proof.
  split; try done.
  - apply ex_loose; [reflexivity|split; vm_compute; congruence|reflexivity|reflexivity].
  - exists 20000, []. split_and!; done.
Qed.
Lemma tdma_sync_received_witness :
  ∃ s', tdma_packet_rx false 40 7 ex_hard_header 3 (ex_t ex_sync_in WAIT_ON_SYNC ex_slots) = Some (0, s') ∧ clock_offset s' = 1000 ∧ current_cycle s' = 9.
Proof.
  destruct (wp_elim _ _ _ (tdma_sync_received false 40 7 ex_hard_header (ex_t ex_sync_in WAIT_ON_SYNC ex_slots) ex_pools 3 ex_sync_in 0 9 19990
    (replicate 6 0) 1000 (ex_kt_pools _) (ex_sync_frame_at _ _))) as (r & s' & E & -> & _ & Hc & Ho & _).
  exists s'. split_and!; [exact E|exact Ho|exact Hc].
Defined.
Lemma tdma_slave_cycle_witness :
  ∃ s', worker_rounds false 0 7 ex_hard_header ex_drv (mret ()) (tdma_packet_rx false 40 7 ex_hard_header 3;; mret ()) 2 1000
          (ex_t ex_sync_in WAIT_ON_SYNC ex_slots) = Some (1000, s') ∧
    wakeups s' = [19090] ∧ xmit_log (tkern s') = [(7%nat, 5%nat, replicate 8 7)].
Proof.
  set (s := ex_t ex_sync_in WAIT_ON_SYNC ex_slots).
  destruct (tdma_slave_cycle (H := default_config) false 40 0 7 ex_out ex_hard_header ex_drv s ex_P ex_pools 3 ex_sync_in 0 9 19990 (replicate 6 0) 1000
    1000 [2000] [ex_job_slot] _ ex_takes_all eq_refl (ex_kt_pools _) (ex_kt_world _) (ex_bound_for _ _ _) ltac:(by intros ?%ex_P_waiting)
    (ex_sync_frame_at _ _) (ex_job_ring _ _ _ ltac:(by right)) eq_refl eq_refl ltac:(done) (ex_slot_at _ _ _) eq_refl) as [Hwp _].
  destruct (wp_elim _ _ _ Hwp) as (r & s' & E & -> & _ & _ & Ew & El & _).
  exists s'. split_and!; [exact E|exact Ew|]. rewrite El. by vm_compute.
Defined.

(** *** Calibration *)

(** The last of two rounds: the request left at 100, the master, 1000 ahead, received it at
    1125 and answered at 2000; the answer came back at 1025.  The delay is 25. *)
Definition ex_reply_in : rtskb :=
  (ex_packet (frm_head TDMA_FRM_RPL_CAL ++ be64 100 ++ be64 1125 ++ be64 2000)) <| time_stamp := 1025 |>.
Definition ex_request : tdma_request_cal := mk_request_cal 100 1 0 1 false [0; 25].
Definition ex_tc : tdma :=
  (ex_t ex_reply_in WAIT_ON_SYNC ex_slots) <| calibration_call := Some 4000 |>
    <| jobs := <[4000 := mk_job 0 0 XMIT_REQ_CAL 0 (REQUEST_CAL_JOB ex_request)]> (jobs (ex_t ex_reply_in WAIT_ON_SYNC ex_slots)) |>.
Lemma tdma_reply_received_witness :
  ∃ s', tdma_packet_rx false 40 7 ex_hard_header 3 ex_tc = Some (0, s') ∧ calibration_step ex_tc 1000 [2000] 4000 0 25 ex_request s'.
Proof.
  assert (Hring : job_ring ex_tc 1000 [2000]).
  { eapply (job_ring_same (ex_t ex_reply_in WAIT_ON_SYNC ex_slots)); [apply ex_job_ring; by right| |done].
    intros c Hc. repeat (apply elem_of_cons in Hc as [->|Hc]; [done|]). by apply not_elem_of_nil in Hc. }
  destruct (wp_elim _ _ _ (tdma_reply_received false 40 7 ex_hard_header ex_tc ex_pools 3 ex_reply_in 0 1000 [2000] 4000 _ ex_request 100 1125 2000 [] 25 1000
    (ex_kt_pools _) ltac:(apply ex_loose; [reflexivity|split; vm_compute; congruence|reflexivity|reflexivity]) ltac:(by vm_compute)
    ltac:(done) ltac:(done) ltac:(done) eq_refl eq_refl Hring ltac:(set_solver) eq_refl eq_refl eq_refl eq_refl ltac:(done) ltac:(done)))
    as (r & s' & E & -> & _ & Hs).
  exists s'. split; [exact E|exact Hs].
Defined.

(** *** A second slot *)

Definition ex_cfg : slot_config := mk_slot_config 2 1 50 0 36 (-1) false.
Lemma ex_spare x : spare_queue (ex_kt x) ex_P ex_pools 8.
Proof.
  split.
  - done.
  - by eexists.
  - intros Q i HQ Hi. vm_compute in HQ. injection HQ as <-. change (sub_base _) with 200%nat. split.
    + do 32 (destruct i as [|i]; [by eexists|]). lia.
    + unfold ex_pools. by rewrite !lookup_insert_ne by lia.
  - intros Q q Q' i j HQ [L HL] HQ' Hi Hj. map_cases HL. vm_compute in HQ, HQ'. injection HQ as <-. injection HQ' as <-. cbn. lia.
Qed.
Lemma ex_can_add x : can_add 7 ex_out (ex_t x XMIT_SYNC ex_slots) ex_cfg 3000 8 [].
Proof. split; try done; try (cbn; lia); by left. Qed.
Lemma tdma_set_slot_witness :
  ∃ s', tdma_ioctl_set_slot true 7 (mret ()) 1 (λ _, None) (λ _, mret 0) true (mret ()) true ex_cfg (ex_t (ex_skb 3 None 0 8) XMIT_SYNC ex_slots)
          = Some (0, s') ∧
    job_ring s' 1000 [3000; 2000] ∧ slot_table s' = [Some 2000; Some 2000; Some 3000].
Proof.
  set (s := ex_t (ex_skb 3 None 0 8) XMIT_SYNC ex_slots).
  destruct (wp_elim _ _ _ (tdma_set_slot_adds true 7 ex_out (mret ()) 1 (λ _, None) (λ _, mret 0) true s ex_P ex_pools 1000 [2000] ex_cfg 3000 8 []
    eq_refl (ex_can_add _) ltac:(lia) (ex_job_ring _ _ _ ltac:(by left)) ltac:(by left) ltac:(set_solver)
    (ex_kt_pools _) (ex_kt_world _) (ex_spare _))) as (r & s' & E & -> & (m1 & m2 & Hm & Hr) & (y & Hy & _ & Hsl) & Hoth & _ & _ & (p & k' & h & _ & _ & Es)).
  exists s'. split_and!; [exact E| |rewrite Es; reflexivity]. clear Es. pose proof (jr_order _ _ _ Hr) as Ho.
  destruct m1 as [|j m1]; [cbn in Hm; by subst m2|]. destruct m1; [|done]. injection Hm as <- <-. exfalso.
  destruct (Hoth 2000 _ ltac:(done) eq_refl) as (z & Hz & _ & Hz2). unfold offsets in Ho. cbn in Ho. rewrite Hy, Hz in Ho. cbn in Ho.
  unfold time_of in Ho. rewrite Hsl, Hz2 in Ho. cbn in Ho. apply Sorted.StronglySorted_inv in Ho as [_ Ho]. inversion Ho. lia.
Defined.

(** ** RTmac *)

(** A station with NoMAC: buffer 5 waits for its task in queue 10, queue 11 is that of the
    virtual NIC, and buffer 3 holds the packet [x]. *)
Definition ex_nk (x : rtskb) : kstate :=
  (ex_kt x) <| queues := <[0%nat := mk_queue (Some 1%nat) (Some 2%nat) 0]> (<[1%nat := mk_queue (Some 4%nat) (Some 4%nat) 0]>
                 (<[10%nat := mk_queue (Some 5%nat) (Some 5%nat) 0]> (<[11%nat := mk_queue None None 0]> ∅))) |>.
Definition ex_nv (x : rtskb) : vstate := (tv (ex_t x XMIT_SYNC ex_slots)) <| vkern := ex_nk x |>.
Lemma ex_nk_pools x : pools_inv (ex_nk x) ex_pools.
Proof.
  eapply pools_inv_frame; [exact (ex_kt_pools x)|..].
  - intros q l Hl. map_cases Hl; by eexists _, _.
  - done.
Qed.
(** What Linux sends, and the frame as the other station receives it, with two bytes of
    padding. *)
Definition ex_linux_frame : list Z := ex_mac2 ++ ex_mac ++ be16 2048 ++ replicate 10 9.
Definition ex_tunnel_hdr : list Z := ex_mac2 ++ replicate 6 7 ++ be16 ETH_RTMAC.
Definition ex_tunnelled : rtskb :=
  let bytes := rtmac_header 2048 RTMAC_FLAG_TUNNEL ++ replicate 10 9 ++ [0; 0] in
  (ex_packet bytes) <| buf := [0; 0] ++ ex_tunnel_hdr ++ bytes ++ replicate 32 0 |>.
Definition ex_nomac_send : M vstate Z :=
  r ← rtmac_vnic_xmit ex_hard_header (Some (nomac_nrt_packet_tx ex_drv 10 0 false)) 7 ETH_HLEN ex_linux_frame;
  in_vkern (nrt_xmit_task ex_drv 10);; mret r.
Definition ex_nomac_recv : M vstate () :=
  rtmac_proto_rx vkern (λ k s, s <| vkern := k |>) (λ _ _, Some (mk_disc 1 (λ _, mret 0))) (rtmac_vnic_rx 11) 3;;
  rtmac_vnic_signal_handler 11.
Lemma ex_tunnelled_loose : loose (vkern (ex_nv ex_tunnelled)) ex_pools 3 ex_tunnelled 0.
Proof. apply ex_loose; [reflexivity|split; vm_compute; congruence|reflexivity|reflexivity]. Qed.
Lemma ex_vnic_queue x : waits (vkern (ex_nv x)) ex_pools 11 [].
Proof. split_and!; [done|eexists; split; [reflexivity|by split]|intros b Hb; by apply not_elem_of_nil in Hb]. Qed.
Lemma ex_tunnelled_behind : behind ex_tunnel_hdr ex_tunnelled.
Proof. vm_compute. reflexivity. Qed.
Lemma vnic_tunnel_witness :
  ∃ v' w', ex_nomac_send (ex_nv (ex_skb 3 None 0 8)) = Some (NETDEV_TX_OK, v') ∧
    xmit_log (vkern v') = [(7%nat, 5%nat, payload ex_waiter); (7%nat, 4%nat, ex_tunnel_hdr ++ take 14 (payload ex_tunnelled))] ∧
    ex_nomac_recv (ex_nv ex_tunnelled) = Some ((), w') ∧
    netif w' = [(7%nat, ex_mac2 ++ replicate 6 7 ++ be16 2048 ++ replicate 10 9 ++ [0; 0])].
Proof.
  destruct (wp_elim _ _ _ (vnic_tunnel_roundtrip (H := default_config) ex_hard_header ex_drv 10 0 11 7 ex_out (ex_nv (ex_skb 3 None 0 8)) ex_pools 4 [] [5%nat] _
    ex_mac2 ex_mac 2048 (replicate 10 9) eq_refl eq_refl (ex_nk_pools _) eq_refl eq_refl eq_refl ltac:(lia) eq_refl eq_refl eq_refl eq_refl
    ltac:(cbn; unfold ETH_ALEN; lia) ltac:(vm_compute; split; congruence)
    ltac:(intros b x ->%list_elem_of_singleton Hx; vm_compute in Hx; injection Hx as <-; vm_compute; split; congruence)
    ex_takes_all
    ltac:(split_and!; [done|eexists; split; [reflexivity|split; [by repeat eexists|done]]|intros b ->%list_elem_of_singleton; exact ex_5_in_use])
    ltac:(intros b x ->%list_elem_of_singleton Hx; vm_compute in Hx; by injection Hx as <-)))
    as (r & v' & E & -> & _ & _ & wire & El & Hrecv).
  change (ex_nomac_send (ex_nv (ex_skb 3 None 0 8)) = Some (NETDEV_TX_OK, v')) in E.
  assert (Ec : (λ '(_, v), xmit_log (vkern v)) <$> ex_nomac_send (ex_nv (ex_skb 3 None 0 8)) =
    Some [(7%nat, 5%nat, payload ex_waiter); (7%nat, 4%nat, ex_tunnel_hdr ++ take 14 (payload ex_tunnelled))]) by (vm_compute; reflexivity).
  rewrite E in Ec. apply (inj Some) in Ec. rewrite El in Ec. injection Ec as Ew.
  assert (Hwire : wire ++ [0; 0] = ex_tunnel_hdr ++ payload ex_tunnelled) by (rewrite Ew; vm_compute; reflexivity).
  destruct (wp_elim _ _ _ (Hrecv (ex_nv ex_tunnelled) 7%nat ex_out ex_pools 4%nat [] (mk_vnic 30 1 30 0 0 0 0 0 0) 0%nat 3%nat ex_tunnelled (mk_disc 1 (λ _, mret 0)) ex_tunnel_hdr
    [0; 0] 0%nat eq_refl eq_refl (ex_nk_pools _) eq_refl
    ex_tunnelled_loose eq_refl (ex_vnic_queue _) eq_refl eq_refl eq_refl ex_tunnelled_behind Hwire)) as ([] & w' & Er & En & _).
  exists v', w'. split; [exact E|]. split; [rewrite El, Ew; vm_compute; reflexivity|]. split; [exact Er|exact En].
Defined.

(** A packet of another discipline is kept by nobody. *)
Definition ex_alien : rtskb := (ex_packet (be16 9 ++ [RTMAC_VERSION; 0] ++ replicate 10 1)) <| rtdev := Some 7%nat |>.
Lemma rtmac_proto_rx_witness :
  ∃ s', rtmac_proto_rx (λ k : kstate, k) (λ k _, k) (λ _ _, Some (mk_disc 1 (λ _, mret 0))) (λ _ _, mret 0) 3 (ex_kt ex_alien) = Some (0, s') ∧
    xmit_log s' = [] ∧ queues s' = ex_tq.
Proof.
  destruct (rtmac_proto_rx_correct (H := default_config) (λ k : kstate, k) (λ k _, k) (λ _ _, Some (mk_disc 1 (λ _, mret 0))) (λ _ _, mret 0)
    (λ _ _, eq_refl) (λ _, eq_refl) (λ _ _ _, eq_refl) (ex_kt ex_alien) ex_pools 3 ex_alien 0 7 9 RTMAC_VERSION 0 (replicate 10 1)
    (ex_kt_pools _) ltac:(apply ex_loose; [reflexivity|split; vm_compute; congruence|reflexivity|reflexivity]) eq_refl ltac:(lia) ltac:(done) ltac:(lia)
    ltac:(by vm_compute)) as (y & _ & _ & _ & _ & E). cbn in E.
  eexists. split; [exact E|done].
Defined.
