(* ===== verification/PacketWitnesses.v ===== *)
(** * Concrete instances of the properties of packet sockets

    Two packet sockets on the states of [NetWitnesses]; the theorems applied to them. *)
From S2P Require Import Prelude State RtskbQueue Rtskb RtskbData RtskbFifo Rtdev Eth Iovec StackMgr Route RouteHost RouteOps Inet.
From S2P Require Import IpFragment Socket IpOutput IpInput Arp Udp UdpOps UdpSend UdpInput UdpErrors Icmp Packet PacketOps PacketIo PacketSend PacketClose.
From S2P Require Import Witnesses NetWitnesses InputWitnesses.
#[local] Existing Instance default_config.

(** ** Addresses *)

(** "02:0A:00:00:00:fF" *)
Definition ex_mac_text : list Z := [48; 50; 58; 48; 65; 58; 48; 48; 58; 48; 48; 58; 48; 48; 58; 102; 70].
Lemma rt_eth_aton_witness : rt_eth_aton (ex_mac_text ++ [0]) = Some (0, [2; 10; 0; 0; 0; 255]).
Proof.
  destruct (rt_eth_aton_correct (ex_mac_text ++ [0]) ltac:(set_solver)) as (ret & res & E & Hr). rewrite E.
  vm_compute in E. injection E as <- <-. destruct Hr as [(_ & _ & _)|[Hr _]]; [done|]. by vm_compute in Hr.
Defined.

(** ** Sockets *)

(** Socket 7 is bound to interface 9, socket 8 to none; both get IP packets.  Device 7 is
    up, with an MTU of 36. *)
Definition ex_pdev : rtnet_device := (ex_dev 1 ex_own) <| mtu := 36 |> <| refcount := 5 |>.
Definition ex_kpk (x : rtskb) (Q : rtskb_queue) : kstate :=
  ex_kd <| devs := <[7%nat := ex_pdev]> (devs ex_kd) |> <| skbs := <[3%nat := x]> (skbs ex_k) |>
        <| queues := <[3%nat := Q]> (queues ex_k) |> <| rtskb_list := [4; 3; 2; 1]%nat |>.
Definition ex_pk (x : rtskb) (Q : rtskb_queue) (S : rtsocket) : pkstate :=
  mk_mstate (ex_kpk x Q) ex_types (rt_packets ex_mstate) [] (rx ex_mstate)
    (mk_pworld (<[7%nat := raw_socket 1 2]> (<[8%nat := S]> ∅)) [] (<[7%nat := 9]> (<[8%nat := 0]> ∅)) ex_mem20).
Definition ex_ptype : rtpacket_type := mk_ptype (LINK_HASH 0) (ntohs ETH_P_IP) 0.
(** A received packet of 8 bytes with its link header. *)
Definition ex_pin : rtskb := (ex_skb 3 None 0 8) <| rtdev := Some 7%nat |> <| protocol := ntohs ETH_P_IP |>.

Lemma ex_pk_table x Q S : pack_table (ex_pk x Q S).
Proof. destruct ex_pack_table. by split. Qed.
Lemma ex_psock x Q S : psock (ex_pk x Q S) 8 S ex_ptype 0.
Proof.
  split; try reflexivity. change (pt_type ex_ptype =? 0) with false. cbn iota. split; [done|].
  exists [7; 8]%nat. split; [reflexivity|set_solver].
Qed.
Lemma ex_kpk_pools x Q : pools_inv (ex_kpk x Q) ex_pools.
Proof.
  eapply pools_inv_frame; [exact ex_pools_inv|..].
  - intros q l H. unfold ex_kpk. cbn. map_cases H; by eexists _, _.
  - intros q l a Hl Ha. cbn. apply lookup_insert_ne. intros <-. by eapply ex_in_use.
Qed.
Lemma ex_pin_loose Q : loose (ex_kpk ex_pin Q) ex_pools 3 ex_pin 0.
Proof. apply ex_loose; [reflexivity|split; vm_compute; congruence|reflexivity|reflexivity]. Qed.
Lemma ex_empty_inbox x S : is_Some (ex_pools !! skb_pool S) → incoming S = 3%nat → inbox (ex_kpk x no_queue) ex_pools S [].
Proof.
  intros Hp Hi. split; rewrite ?Hi; [done|done| |by intros a Ha; apply not_elem_of_nil in Ha].
  exists no_queue. split; [reflexivity|]. split; [by constructor|done].
Qed.

(** Binding socket 8 to ARP packets on interface 1 moves it to another bucket. *)
Definition ex_sll : sockaddr_ll := mk_sll AF_PACKET (ntohs 2054) 1 0 0 6 (ex_mac ++ [0; 0]).
Definition ex_ps : rtsocket := (raw_socket 1 3) <| pending_sem := Some 0 |>.
Lemma rt_packet_bind_witness :
  ∃ s', rt_packet_bind 8 ex_sll 20 (ex_pk ex_pin no_queue ex_ps) = Some (0, s') ∧
    rt_packets s' !! 0%nat = Some [7]%nat ∧ rt_packets s' !! 6%nat = Some [8]%nat.
Proof.
  destruct (wp_elim _ _ _ (rt_packet_bind_correct (ex_pk ex_pin no_queue ex_ps) 8 ex_ps ex_ptype 0 ex_sll 20
    (ex_pk_table _ _ _) (ex_psock _ _ _))) as (ret & s' & E & Hr). cbn in Hr.
  destruct Hr as (-> & _ & _ & _ & _ & _ & _ & Hb & _). exists s'. split; [exact E|]. rewrite Hb. split; reflexivity.
Defined.

(** A packet for both sockets: 7 refuses it, 8 gets it. *)
Lemma packet_delivery_witness :
  ∃ s', rt_stack_deliver (rt_packet_rcv (λ _ _ _, mret ())) None 3 (ex_pk ex_pin no_queue ex_ps) = Some ((), s') ∧
    refcount <$> devs (mkern s') !! 7%nat = Some 4 ∧ pending_sem <$> pw_socks (upper s') !! 8%nat = Some (Some 1).
Proof.
  destruct (wp_elim _ _ _ (packet_delivery_correct (H := default_config) (λ _ _ _, mret ()) (ex_pk ex_pin no_queue ex_ps) ex_pools [7]%nat 8 [] ex_ps
    ex_ptype 0 [] 3 ex_pin 0 7 ex_pdev (ex_pk_table _ _ _) (ex_kpk_pools _ _) eq_refl (ex_pin_loose _) eq_refl eq_refl eq_refl
    ltac:(intros pt ->%list_elem_of_singleton; exists ex_ptype, 9; split_and!; [reflexivity|reflexivity|done])
    (ex_psock _ _ _) eq_refl ltac:(done) ltac:(by left) ltac:(apply ex_empty_inbox; [by eexists|done]) eq_refl ltac:(set_solver)))
    as ([] & s' & E & _ & Hr).
  rewrite bool_decide_eq_false_2 in Hr by done. destruct Hr as (C' & z & _ & _ & Hu & Hd & _).
  exists s'. split; [exact E|]. rewrite Hu, Hd. split; reflexivity.
Defined.

(** ** Receiving *)

(** Packet 3 waits at socket 8; it is of the socket's pool, 0. *)
Definition ex_q3 : rtskb_queue := mk_queue (Some 3%nat) (Some 3%nat) 0.
Definition ex_pr : rtsocket := (raw_socket 0 3) <| pending_sem := Some 1 |> <| so_pool_size := 3 |>.
Lemma ex_full_inbox : inbox (ex_kpk ex_pin ex_q3) ex_pools ex_pr [3]%nat.
Proof.
  split; [by eexists|done|..].
  - exists ex_q3. split; [reflexivity|]. split; [|reflexivity]. split; [reflexivity|]. eexists. split; [reflexivity|]. by constructor.
  - intros a ->%list_elem_of_singleton. exists ex_pin, 7%nat. split_and!; [apply ex_pin_loose|reflexivity|by eexists].
Qed.
(** A raw socket gets the 14 bytes of the header and the 8 bytes of the packet, of which
    20 fit. *)
Lemma rt_packet_recvmsg_witness :
  ∃ s', rt_packet_recvmsg SOCK_RAW 8 ex_iov20 None 0 0 (ex_pk ex_pin ex_q3 ex_pr) = Some ((22, None, MSG_TRUNC), s') ∧
    pw_mem (upper s') = store_all (zip (iov_addrs ex_iov20) (replicate 20 7)) ex_mem20.
Proof.
  destruct (wp_elim _ _ _ (rt_packet_recvmsg_correct SOCK_RAW (ex_pk ex_pin ex_q3 ex_pr) ex_pools 8 ex_pr 1 3 [] [1; 2]%nat ex_pin 7
    ex_pdev ex_iov20 None 0 0 (ex_kpk_pools _ _) eq_refl eq_refl ltac:(lia) ex_full_inbox eq_refl eq_refl eq_refl eq_refl
    ltac:(split; vm_compute; [split|]; congruence) ltac:(by vm_compute) ex_iov20_ok ltac:(by vm_compute))) as (r & s' & E & -> & Hm & _).
  exists s'. split; [exact E|]. rewrite Hm. reflexivity.
Defined.

(** ** Sending *)

(** 20 bytes as an IP packet to a station. *)
Definition ex_sdst : sockaddr_ll := mk_sll AF_PACKET (ntohs ETH_P_IP) 1 0 0 6 (ex_mac ++ [0; 0]).
Lemma ex_pdev_ether : ether ex_pdev.
Proof. split; try reflexivity; cbn; unfold ETH_ALEN; lia. Qed.
Lemma ex_pk_devs d D : registered (ex_kpk ex_pin no_queue) d → devs (ex_kpk ex_pin no_queue) !! d = Some D → ifindex D = 1 →
  d = 7%nat ∧ D = ex_pdev.
Proof.
  intros [i Hi] HD Hx. destruct (ex_table i d Hi) as [[= -> ->]|[= -> ->]]; vm_compute in HD; injection HD as <-; [done|].
  by vm_compute in Hx.
Qed.
Lemma ex_kpk_devtab x Q : devtab (ex_kpk x Q).
Proof.
  eapply devtab_frame; [exact ex_devtab|done..|]. intros d. unfold ex_kpk. cbn.
  destruct (decide (d = 7%nat)) as [->|Hd]; [reflexivity|]. by rewrite lookup_insert_ne.
Qed.
Lemma rt_packet_sendmsg_witness :
  ∃ s', rt_packet_sendmsg eth_hook ex_drv SOCK_DGRAM 8 ex_iov20 (Some (ex_sdst, 20)) 0 (ex_pk ex_pin no_queue ex_pr) = Some (20, s') ∧
    xmit_log (mkern s') = [(7%nat, 1%nat, ex_mac ++ replicate 6 7 ++ [8; 0] ++ ex_bytes)].
Proof.
  destruct (wp_elim _ _ _ (rt_packet_sendmsg_correct (H := default_config) ex_drv SOCK_DGRAM (ex_pk ex_pin no_queue ex_pr) ex_pools 8 ex_pr ex_ptype 0
    [1; 2]%nat ex_iov20 ex_bytes (Some (ex_sdst, 20)) 0 1 (ntohs ETH_P_IP) (Some (ex_mac ++ [0; 0]))
    (ex_kpk_devtab _ _) (ex_kpk_pools _ _) (ex_psock _ _ _) eq_refl ltac:(by right) ltac:(by left)
    ltac:(split_and!; try done; by left) ltac:(cbn; unfold ETH_ALEN; lia) ltac:(done) ex_iov20_ok eq_refl
    ltac:(vm_compute; split; congruence)
    ltac:(intros d D Hr HD Hx; destruct (ex_pk_devs d D Hr HD Hx) as [-> ->]; split_and!;
      [exact ex_pdev_ether|by apply ex_driver_spec|];
      intros b y Hb; repeat (apply elem_of_cons in Hb as [->|Hb];
        [intros H; vm_compute in H; injection H as <-; vm_compute; split; congruence|]);
      by apply not_elem_of_nil in Hb))) as (ret & s' & E & Hr).
  exists s'. destruct Hr as [(_ & _ & Hno)|(d & D & Hreg & HD & Hx & -> & Hdone)].
  { exfalso. by eapply (Hno 7%nat ex_pdev); [exists 0%nat|..]. }
  destruct (ex_pk_devs d D Hreg HD Hx) as [-> ->]. destruct Hdone as (_ & _ & _ & Hlog). split; [exact E|exact Hlog].
Defined.

(** ** Closing *)

Lemma ex_pk_sys : pool_sys (λ _, 1) (ex_kpk ex_pin ex_q3) ex_pools.
Proof.
  split; [apply ex_kpk_pools|..].
  - split; [by apply NoDup_singleton|]. intros p ->%list_elem_of_singleton. reflexivity.
  - split; [done|]. intros d [i Hi]%list_elem_of_lookup. destruct (ex_table i d Hi) as [[= -> ->]|[= -> ->]];
      (eexists; split; [reflexivity|by left]).
  - intros a x H _. change (a ∈ [4; 3; 2; 1]%nat). change (skbs (ex_kpk ex_pin ex_q3)) with (<[3%nat := ex_pin]> (skbs ex_k)) in H.
    apply lookup_insert_Some in H as [[<- _]|[_ H]]; [set_solver|]. unfold ex_k in H. cbn [skbs] in H. map_cases H; set_solver.
  - by vm_compute.
Qed.
(** The packet that waits goes back to the pool, and the pool to the allocator. *)
Lemma rt_packet_close_witness :
  ∃ s', rt_packet_close 8 (ex_pk ex_pin ex_q3 ex_pr) = Some (0, s') ∧ rt_packets s' !! 0%nat = Some [7]%nat ∧
    refcount <$> devs (mkern s') !! 7%nat = Some 4.
Proof.
  destruct (wp_elim _ _ _ (rt_packet_close_correct (λ _, 1) (ex_pk ex_pin ex_q3 ex_pr) ex_pools 8 ex_pr ex_ptype 0 [3]%nat [1; 2]%nat
    (ex_pk_table _ _ _) (ex_psock _ _ _) ex_pk_sys ex_full_inbox eq_refl eq_refl ltac:(done) ltac:(done)))
    as (ret & s' & E & Hd & _ & Hr). cbn in Hr. destruct Hr as (-> & Hb & _). exists s'. split; [exact E|].
  rewrite Hb, Hd. split; reflexivity.
Defined.
