(* ===== verification/TcpWitnesses.v ===== *)
(** * Concrete instances of the properties of TCP

    An established connection with one segment that waits for its acknowledgement. *)
From S2P Require Import Prelude State RtskbQueue Rtskb RtskbData Rtdev Eth Iovec StackMgr Route RouteHost RouteOps IpFragment.
From S2P Require Import Socket IpOutput IpInput Arp Udp UdpOps UdpErrors Icmp Packet PacketOps PacketSend Timerwheel.
From S2P Require Import Tcp TcpSeq TcpPorts TcpSend TcpOut TcpConn TcpRcv TcpFeed TcpStates TcpReceive TcpRetransmit TcpRead TcpWrite.
From S2P Require Import Witnesses NetWitnesses.
#[local] Existing Instance default_config.

(** ** The link *)

(** Three Ethernet devices. *)
Definition ex_tdevs : gmap nat rtnet_device :=
  <[7%nat := ex_dev 1 ex_own]> (<[8%nat := ex_dev 2 (bswap32 2130706433)]> (<[9%nat := ex_dev 0 0]> ∅)).
Definition ex_link (d : nat) (dst : list Z) : list Z := take 6 dst ++ replicate 6 7 ++ [8; 0].
Definition ex_mtu (d : nat) (prio : Z) : M kstate Z := D ← dev_load d; mret (mtu D).
Lemma ex_linkdev d i lip : linkdev ex_hard_header ex_mtu ex_drv ex_link d (ex_dev i lip).
Proof.
  split.
  - eexists. split; [reflexivity|]. intros k a x dst D Hx HD ED Hwf Hh Hal.
    assert (Ha : addr_len D = ETH_ALEN ∧ Z.land (flags D) (Z.lor IFF_LOOPBACK IFF_NOARP) = 0 ∧ hard_header_len D = 14) by (split_and!; by rewrite ED). destruct Ha as (Ha & Hfl & Hhl).
    cbn in Hal, Hh. eapply wp_mono; [|eapply wp_both; [eapply (rt_eth_header_run k a d D x ETH_P_IP dst (Some (dev_addr (ex_dev i lip))))|
      eapply (eth_header_shape k a d D x ETH_P_IP (Some dst) (Some (dev_addr (ex_dev i lip))))]]; try done.
    + intros r k' [(-> & y & -> & Hw & Hm & Ey & Hp) (_ & y' & Ek & _ & _ & Hb)]. split; [done|]. exists y. split; [done|].
      assert (y' = y) as -> by (pose proof (upd_skb_lookup a y k) as E; rewrite Ek, upd_skb_lookup in E; by injection E).
      assert (Hlk : length (ex_link d dst) = 14%nat) by (unfold ex_link; rewrite !length_app, length_take, length_replicate; cbn [length]; lia).
      split_and!; [done|done|done| |].
      * rewrite Hp. unfold ex_link. by rewrite <-!app_assoc.
      * rewrite Hlk. exact Ey.
    + cbn. unfold ETH_ALEN. lia.
    + split; rewrite ED; cbn; unfold ETH_ALEN; done || lia.
    + cbn. unfold ETH_ALEN. lia.
  - split; [done|]. intros k a _. done.
  - intros prio k D HD. unfold ex_mtu, dev_load, mbind, M_bind, gets, deref. cbn. by rewrite HD.
  - vm_compute. split_and!; congruence.
Qed.

(** ** The connection *)

(** The socket at 1 and the static socket at 2.  Segment 5 waits for an acknowledgement
    (queue 3); nothing is to be read (queue 4). *)
Definition ex_tcp : tcp_socket :=
  mk_tcp_socket 10 ex_own 20 ex_peer TCP_ESTABLISHED false true true false false false (Some true) (Some false) ex_rt
    1000 5000 4096 4096 false 0 false (Some 10%nat) 0 998 3 3 0 0 0 false.
Definition ex_rst : tcp_socket :=
  mk_tcp_socket 0 0 0 0 0 false false false false false false None None (mk_dest 0 [] None)
    0 0 0 0 false 0 false None 0 0 0 5 0 0 0 false.
Definition ex_tso : rtsocket := (raw_socket 0 4) <| so_protocol := IPPROTO_TCP |> <| pending_sem := Some 0 |> <| inet_state := TCP_CLOSE |>.
Definition ex_rso : rtsocket := (raw_socket 1 6) <| so_protocol := IPPROTO_TCP |>.
(** What the peer sends: four bytes, with an acknowledgement of the segment. *)
Definition ex_peer_tcp : tcp_socket := ex_tcp <| ts_sport := 20 |> <| ts_dport := 10 |> <| sync_seq := 5000 |> <| sync_ack_seq := 1000 |>.
Definition ex_tin : rtskb :=
  (ex_skb 3 None 0 0) <| nh_raw := 1010 |> <| h_raw := 1030 |> <| data := 1030 |> <| tail := 1054 |> <| len := 24 |> <| rtdev := Some 7%nat |>
    <| sk := Some 1%nat |>
    <| buf := replicate 10 0 ++ ip_header 0 44 0 0 6 0 ex_peer ex_own ++ tcp_header ex_peer_tcp TCP_FLAG_ACK 0 false ++ [1; 2; 3; 4] ++ replicate 10 0 |>.
(** The segment that was sent: link, IP and TCP header, and one byte. *)
Definition ex_tout : rtskb :=
  (ex_skb 5 None 0 0) <| mac_raw := 1002 |> <| data := 1002 |> <| tail := 1057 |> <| len := 55 |> <| rtdev := Some 7%nat |>.
Definition ex_tk : kstate :=
  ex_k <| devs := ex_tdevs |> <| skbs := <[3%nat := ex_tin]> (<[5%nat := ex_tout]> (skbs ex_k)) |>
       <| queues := <[3%nat := mk_queue (Some 5%nat) (Some 5%nat) 0]> (<[4%nat := no_queue]> (<[5%nat := no_queue]> (queues ex_k))) |>.
(** The wheel of [rt_tcp_init]: timer 1 is in slot 2, timer 2 is idle. *)
Definition ex_twheel : wheel :=
  mk_wheel 100000000 12 8388608 23 (<[2%nat := [1%nat]]> (replicate 12 [])) 1
    (<[1%nat := mk_timer 2 0]> (<[2%nat := mk_timer TIMERWHEEL_TIMER_UNUSED 0]> ∅)).
Lemma ex_twheel_ok : tcp_wheel ex_twheel.
Proof.
  split; [split|done|done].
  - split; cbn; done || lia.
  - intros i l H. cbn in H. do 12 (destruct i as [|i]; [injection H as <-; repeat constructor; set_solver|]). done.
  - intros i l t H Ht. cbn in H. do 12 (destruct i as [|i]; [injection H as <-; set_solver|]). done.
  - intros t T _ H. cbn in H. map_cases H; [right|by left]. exists 2%nat, [1%nat]. split_and!; [done..|set_solver].
Qed.
Definition ex_ts : tstate :=
  mk_tstate (mk_fstate ex_tk (<[1%nat := ex_tso]> (<[2%nat := ex_rso]> ∅)) []) ex_r
    (mk_tports 1024 64512 32 [] [] (<[10%nat := [1%nat]]> (replicate 64 []))) (<[1%nat := ex_tcp]> (<[2%nat := ex_rst]> ∅)) ex_twheel ex_mem20 0.

Lemma ex_unused a : a ≠ 1%nat → a ≠ 2%nat → a ≠ 4%nat → in_use ex_pools a.
Proof. intros H1 H2 H4 q l H. map_cases H; rewrite ?elem_of_cons, elem_of_nil; naive_solver. Qed.
Lemma ex_tk_pools : pools_inv ex_tk ex_pools.
Proof.
  eapply pools_inv_frame; [exact ex_pools_inv|..].
  - intros q l H. unfold ex_tk. cbn. map_cases H; by eexists _, _.
  - intros q l a Hl Ha. change (skbs ex_tk) with (<[3%nat := ex_tin]> (<[5%nat := ex_tout]> (skbs ex_k))).
    rewrite lookup_insert_ne, lookup_insert_ne; [done|..]; intros <-; by (eapply ex_unused; [| | |exact Hl|exact Ha]).
Qed.
Lemma ex_lens b n : lens ex_tk !! b = Some n → Z.of_nat n = 64.
Proof. unfold lens. rewrite lookup_fmap. destruct (skbs ex_tk !! b) as [z|] eqn:Hz; [|done]. intros [= <-].
  unfold ex_tk, ex_k, upd in Hz. cbn [skbs] in Hz. map_cases Hz; reflexivity. Qed.
Lemma ex_network : network ex_hard_header ex_mtu ex_drv ex_link ex_ts ex_buckets [1%nat] ex_routes 64.
Proof.
  split; [done| | |done|].
  - destruct ex_host_state as [H1 H2]. split; [exact H1|exact H2].
  - intros d D HD. change (ex_tdevs !! d = Some D) in HD. map_cases HD; (split; [apply ex_linkdev|by apply Z.leb_le]).
  - intros key d mac D HT HD. unfold ex_routes in HT.
    apply lookup_insert_Some in HT as [[_ [= <- <-]]|[_ [[_ [= <- <-]]|[_ HT]]%lookup_insert_Some]]; [..|by apply lookup_empty_Some in HT];
      vm_compute in HD; by injection HD as <-.
Qed.
Lemma ex_sender : sender ex_ts 1 ex_tcp ex_tso ex_pools [1; 2]%nat [5%nat] 64.
Proof.
  split; try done; [exact ex_tk_pools| | |exact ex_twheel_ok].
  - intros b z _ Hz. by eapply ex_lens, lens_some.
  - split; [by eexists|done| |].
    + eexists. split; [reflexivity|]. split; [|done]. by repeat eexists.
    + intros a ->%list_elem_of_singleton. exists ex_tout, 7%nat. split_and!; [|done|by eexists].
      split; try done; by apply ex_unused.
Qed.
Lemma ex_world : world ex_hard_header ex_mtu ex_drv ex_link ex_buckets [1%nat] ex_routes 64 2 ex_rso 3 ex_tin
  true ex_ts 1 ex_tcp ex_tso ex_pools [1; 2]%nat [5%nat] [] ex_rst [4%nat].
Proof.
  split; [split| |done|done|done|].
  - split; [exact ex_sender|exact ex_network|apply ex_u32|]. intros d [= <-]. eexists. split; [reflexivity|]. cbn. lia.
  - split; [by eexists|done| |set_solver]. eexists. split; [reflexivity|]. by split.
  - set_solver.
  - done.
  - intros b n _. apply ex_lens.
  - done.
  - split; [split; try done|exact ex_network|done|done].
    + exact ex_tk_pools.
    + intros b z _ Hz. by eapply ex_lens, lens_some.
    + split; [by eexists|done| |set_solver]. eexists. split; [reflexivity|]. by split.
    + exact ex_twheel_ok.
  - intros _. split; [|by exists 7%nat|done|set_solver].
    split; try done; by apply ex_unused.
Qed.

(** ** Sending *)

Definition ex_magic (saddr daddr n proto base : Z) : Z := base.
Definition ex_fast (l : list Z) : Z := ex_sum l 0.
Lemma ex_egress : egress ex_hard_header ex_mtu ex_drv ex_link ex_ts ex_rt 7 (ex_dev 1 ex_own) 64 4.
Proof. split; try done; apply ex_linkdev. Qed.
(** Four bytes to the peer. *)
Lemma rt_tcp_segment_witness :
  ∃ s', rt_tcp_segment ex_sum ex_magic ex_fast ex_hard_header ex_mtu ex_drv ex_rt 1 TCP_FLAG_ACK 4 100 false ex_ts = Some (4, s') ∧
    length (xmit_log (tkern s')) = 1%nat.
Proof.
  destruct (wp_elim _ _ _ (rt_tcp_segment_correct ex_sum ex_magic ex_fast ex_hard_header ex_mtu ex_drv ex_link ex_ts 1 ex_tcp ex_tso
    ex_pools [1; 2]%nat [5%nat] 64 7 _ ex_rt TCP_FLAG_ACK 100 [1; 2; 3; 4] ex_sender ex_egress eq_refl))
    as (r & s' & E & -> & k' & w' & xc & -> & _ & _ & _ & _ & _ & Hlog).
  eexists. split; [exact E|]. change (tkern (st ex_ts 1 k' w' _ ex_tso)) with k'. by rewrite Hlog.
Defined.

Definition ex_hdr : iphdr := default (mk_iphdr 0 0 0 0 0 0) (iph ex_tin).
Definition ex_th : tcphdr := default (mk_th 0 0 0 0 0 0 0) (th ex_tin).
Lemma ex_tin_wf : wf_rtskb ex_tin.
Proof. split; vm_compute; congruence. Qed.
Lemma tcp_header_witness : ∃ t, th ex_tin = Some t ∧ th_ack t = true ∧ ntohl (th_seq t) = 5000.
Proof.
  destruct (tcp_header_roundtrip ex_tin ex_peer_tcp 16 0 [] [1; 2; 3; 4] ltac:(split; vm_compute; split; congruence) ltac:(lia) ex_tin_wf
    ltac:(reflexivity) ltac:(reflexivity)) as (t & Ht & _ & _ & Hs & _ & _ & _ & _ & _ & _ & Ha).
  exists t. split_and!; [exact Ht|exact Ha|exact Hs].
Defined.
Lemma seq_window_witness : rt_tcp_after 5 4294967290 && rt_tcp_before 5 (u32 (4294967290 + 20)) = true.
Proof. destruct (seq_window_exact 5 4294967290 20 ltac:(lia)) as (_ & _ & E). rewrite E. reflexivity. Defined.

(** ** Receiving *)

Lemma ex_segment : segment ex_tin 1 ex_hdr ex_th.
Proof. split; [reflexivity|reflexivity|reflexivity|]. split; vm_compute; split; congruence. Qed.
Lemma rt_tcp_rcv_witness :
  ∃ s' v T', rt_tcp_rcv ex_sum ex_magic ex_fast ex_hard_header ex_mtu ex_drv 2 None 3 ex_ts = Some ((), s') ∧ tsocks s' !! 1%nat = Some T' ∧
    valid_ok T' ∧ reacts ex_hdr ex_th (data_length ex_tin ex_th) ex_tcp ex_tso v T' (default ex_tso (socks (tf s') !! 1%nat)).
Proof.
  destruct (wp_elim _ _ _ (rt_tcp_rcv_correct ex_sum ex_magic ex_fast ex_hard_header ex_mtu ex_drv ex_link ex_buckets [1%nat] ex_routes 64
    2 ex_rso 3 ex_tin ex_ts 1 ex_tcp ex_tso ex_pools [1; 2]%nat [5%nat] [] ex_rst [4%nat] ex_hdr ex_th ex_world ex_segment
    ltac:(split; [reflexivity|intros _; eexists; reflexivity])))
    as ([] & s' & E & v & T' & S' & C' & l' & lr' & li' & R' & lR' & Hw & Hv & Hr & _).
  exists s', v, T'. split; [exact E|]. destruct (world_tsock _ _ _ _ _ _ _ _ _ _ _ _ _ _ _ _ _ _ _ _ _ _ _ Hw) as [HT HS].
  split_and!; [exact HT|exact Hv|]. rewrite HS. exact Hr.
Defined.
Lemma ex_fresh : fresh_data ex_tcp ex_hdr ex_th (data_length ex_tin ex_th).
Proof. split; vm_compute; done. Qed.
Lemma rt_tcp_rcv_data_witness :
  ∃ s' log, rt_tcp_rcv ex_sum ex_magic ex_fast ex_hard_header ex_mtu ex_drv 2 None 3 ex_ts = Some ((), s') ∧
    xmit_log (tkern s') = xmit_log ex_tk ++ log ∧ ∃ y, skbs (tkern s') !! 3%nat = Some y ∧ payload y = payload ex_tin.
Proof.
  destruct (wp_elim _ _ _ (rt_tcp_rcv_data ex_sum ex_magic ex_fast ex_hard_header ex_mtu ex_drv ex_link ex_buckets [1%nat] ex_routes 64
    2 ex_rso 3 ex_tin ex_ts 1 ex_tcp ex_tso ex_pools [1; 2]%nat [5%nat] [] ex_rst [4%nat] ex_hdr ex_th ex_world ex_segment ex_fresh))
    as ([] & s' & E & s1 & T' & C1 & C' & l1 & l' & lr1 & lr' & log & y & Hw & _ & Hy & Hp & Hlog & _).
  exists s', log. split_and!; [exact E|exact Hlog|]. exists y. split; [exact Hy|exact Hp].
Defined.
Lemma rt_tcp_retransmit_ack_witness :
  ∃ s', rt_tcp_retransmit_ack 1 1000 ex_ts = Some ((), s') ∧ tsocks s' !! 1%nat = Some (ex_tcp <| timer_state := max_retransmits |>) ∧
    timers (twheel s') !! 1%nat = Some (mk_timer TIMERWHEEL_TIMER_UNUSED 0).
Proof.
  destruct (wp_elim _ _ _ (rt_tcp_retransmit_ack_correct ex_hard_header ex_mtu ex_drv ex_link ex_buckets [1%nat] ex_routes 64
    2 ex_rso 3 ex_tin true ex_ts 1 ex_tcp ex_tso ex_pools [1; 2]%nat [5%nat] [] ex_rst [4%nat] 1000 _ ex_world eq_refl))
    as ([] & s' & E & T' & C' & l' & lr' & Hw & _ & (_ & _ & ->) & Ht & _).
  exists s'. split; [exact E|]. split; [|rewrite Ht; reflexivity].
  apply (world_tsock _ _ _ _ _ _ _ _ _ _ _ _ _ _ _ _ _ _ _ _ _ _ _ Hw).
Defined.
Lemma rt_tcp_retransmit_handler_witness :
  ∃ s', rt_tcp_retransmit_handler ex_drv 1 ex_ts = Some ((), s') ∧ xmit_log (tkern s') = xmit_log ex_tk ++ [(7%nat, 1%nat, payload ex_tout)].
Proof.
  pose proof (rt_tcp_retransmit_handler_correct ex_hard_header ex_mtu ex_drv ex_link ex_buckets [1%nat] ex_routes 64
    2 ex_rso 3 ex_tin true ex_ts 1 ex_tcp ex_tso ex_pools [1; 2]%nat 5 [] [] ex_rst [4%nat] ex_tout 7 ex_world
    ltac:(vm_compute; congruence) eq_refl ltac:(split; vm_compute; split; congruence) eq_refl) as Hh.
  assert (Eb : attempting ex_tcp && bool_decide ([1; 2]%nat = []) && negb CONFIG_RTNET_CHECKED = false) by reflexivity.
  rewrite Eb in Hh. destruct (wp_elim _ _ _ Hh) as ([] & s' & E & T' & S' & C' & l' & Hw & Hrest).
  replace (tcp_state ex_tcp =? TCP_CLOSE) with false in Hrest by reflexivity. replace (timer_state ex_tcp =? 0) with false in Hrest by reflexivity.
  destruct Hrest as (_ & _ & _ & _ & Hlog). exists s'. split; [exact E|exact Hlog].
Defined.

(** ** Reading *)

(** The segment of the peer was queued (queue 4). *)
Definition ex_rk : kstate := ex_tk <| queues := <[4%nat := mk_queue (Some 3%nat) (Some 3%nat) 0]> (queues ex_tk) |>.
Definition ex_rso1 : rtsocket := ex_tso <| pending_sem := Some 1 |>.
Definition ex_rs : tstate := st ex_ts 1 ex_rk ex_twheel ex_tcp ex_rso1.
Lemma ex_rk_pools : pools_inv ex_rk ex_pools.
Proof. eapply pools_inv_frame; [exact ex_tk_pools| |done]. intros q l H. unfold ex_rk. cbn. map_cases H; by eexists _, _. Qed.
Lemma ex_rk_inbox : inbox ex_rk ex_pools ex_tso [3%nat].
Proof.
  split; [by eexists|done| |].
  - eexists. split; [reflexivity|]. split; [|done]. by repeat eexists.
  - intros a ->%list_elem_of_singleton. exists ex_tin, 7%nat. split_and!; [|done|by eexists]. split; try done; by apply ex_unused.
Qed.
Lemma ex_read_world : world ex_hard_header ex_mtu ex_drv ex_link ex_buckets [1%nat] ex_routes 64 2 ex_rso 3 ex_tin
  false ex_rs 1 ex_tcp ex_rso1 ex_pools [1; 2]%nat [5%nat] [3%nat] ex_rst [4%nat].
Proof.
  eapply (reader_step _ _ _ _ _ _ _ _ _ _ 3 ex_tin true ex_ts 1 ex_tcp ex_tso ex_pools [1; 2]%nat [5%nat] [] ex_rst [4%nat] [3%nat] [4%nat] ex_rk);
    [exact ex_world| |done|set_solver..|exact ex_rk_inbox|set_solver|intros b ->%list_elem_of_singleton; by right|done].
  split; try done; [exact ex_rk_pools|]. intros q _ Hq. cbn. rewrite lookup_insert_ne; [done|set_solver].
Qed.
Lemma ex_tin_readable : readable ex_tin [1; 2; 3; 4].
Proof. split; [exact ex_tin_wf|exists ex_th, (tcp_header ex_peer_tcp TCP_FLAG_ACK 0 false); vm_compute; split_and!; congruence]. Qed.
(** Three of the four bytes are read. *)
Lemma rt_tcp_read_witness :
  ∃ s' y, rt_tcp_read ex_sum ex_magic ex_fast ex_hard_header ex_mtu ex_drv [] 1 true 104 3 ex_rs = Some (3, s') ∧
    load_bytes 104 3 (tmem s') = Some [1; 2; 3] ∧ skbs (tkern s') !! 3%nat = Some y ∧ readable y [4].
Proof.
  pose proof (rt_tcp_read_correct ex_hard_header ex_mtu ex_drv ex_link ex_buckets [1%nat] ex_routes 64
    2 ex_rso ex_sum ex_magic ex_fast 3 ex_tin ex_rs 1 ex_tcp ex_rso1 ex_pools [1; 2]%nat [5%nat] 3 ex_tin [] ex_rst [4%nat] 1 [1; 2; 3; 4] [] 104 3 ex_read_world
    eq_refl eq_refl eq_refl eq_refl ltac:(lia) eq_refl ex_tin_readable ltac:(cbn; lia)) as Hr0.
  destruct (wp_elim _ _ _ Hr0) as (r & s' & E & _ & Hm0).
  destruct (store_bytes 104 (take (Z.to_nat 3) [1; 2; 3; 4]) (tmem ex_rs)) as [m|] eqn:Est; [|exfalso; vm_compute in Est; discriminate].
  destruct Hm0 as (-> & Hm & C' & l' & log & _ & _ & _ & y & Hy & Hr).
  exists s', y. split; [exact E|]. split; [rewrite Hm; clear -Est; vm_compute in Est; injection Est as <-; vm_compute; reflexivity|]. split; [exact Hy|exact Hr].
Defined.

(** Two segments of four bytes wait, and eight bytes are read: the second segment is
    copied over the first, and the rest of the buffer is not written. *)
Definition ex_tin2 : rtskb := ex_tin <| buf := take 50 (buf ex_tin) ++ [5; 6; 7; 8] ++ replicate 10 0 |> <| chain_end := Some 9%nat |>.
Definition ex_rs2 : tstate :=
  st ex_ts 1 (ex_rk <| skbs := <[9%nat := ex_tin2]> (<[3%nat := ex_tin <| next := Some 9%nat |>]> (skbs ex_rk)) |>
                    <| queues := <[4%nat := mk_queue (Some 3%nat) (Some 9%nat) 0]> (queues ex_rk) |>)
     ex_twheel ex_tcp (ex_tso <| pending_sem := Some 2 |>).
Example read_overwrites :
  (λ '(ret, s'), (ret, load_bytes 104 8 (tmem s'))) <$> rt_tcp_read ex_sum ex_magic ex_fast ex_hard_header ex_mtu ex_drv [] 1 true 104 8 ex_rs2 =
  Some (8, (λ old, [5; 6; 7; 8] ++ old) <$> load_bytes 108 4 (tmem ex_rs2)).
Proof. vm_compute. reflexivity. Qed.

(** ** Writing *)

(** Four bytes are written; the window stays open, so that the next writer may go on. *)
Definition ex_writer : tcp_socket := ex_tcp <| send_evt := Some true |>.
Definition ex_wts : tstate := ex_ts <| tsocks := <[1%nat := ex_writer]> (<[2%nat := ex_rst]> ∅) |>.
Lemma ex_wsender : sender ex_wts 1 ex_writer ex_tso ex_pools [1; 2]%nat [5%nat] 64.
Proof. destruct ex_sender as [_ Hlk [] Hinv Hl Hb Hib Hw Ht]. by split; try done; split. Qed.
Lemma rt_tcp_write_witness :
  ∃ s' T', rt_tcp_write ex_sum ex_magic ex_fast ex_hard_header ex_mtu ex_drv 1 [] 1 true 100 4 ex_wts = Some (4, s') ∧
    length (xmit_log (tkern s')) = 1%nat ∧ tsocks s' !! 1%nat = Some T' ∧ send_evt T' = Some true.
Proof.
  destruct (wp_elim _ _ _ (rt_tcp_write_correct ex_sum ex_magic ex_fast ex_hard_header ex_mtu ex_drv ex_link ex_wts 1 ex_writer ex_tso
    ex_pools [1; 2]%nat [5%nat] 64 7 (ex_dev 1 ex_own) 0 [] 100 [1; 2; 3; 4] ex_wsender ltac:(split; try done; apply ex_linkdev) eq_refl ltac:(discriminate)
    eq_refl eq_refl ltac:(vm_compute; congruence) eq_refl ltac:(vm_compute; congruence)))
    as (r & s' & E & e & s1 & (-> & k' & w' & xc & -> & _ & _ & _ & _ & _ & Hlog) & -> & ->).
  eexists _, _. split; [exact E|]. rewrite event_set_st. split; [change (tkern (st (event_set false 1 ex_wts) 1 k' w' _ _)) with k'; by rewrite Hlog|].
  split; [apply lookup_insert_eq|reflexivity].
Defined.

(** ** The registry *)

(** Socket 1 has its automatic port 10 at any address, socket 2 is not registered. *)
Definition ex_closed : tcp_socket := ex_tcp <| ts_saddr := INADDR_ANY |> <| tcp_state := TCP_CLOSE |> <| is_bound := false |> <| is_valid := false |>.
Definition ex_bsocks : gmap nat tcp_socket := <[1%nat := ex_closed]> (<[2%nat := ex_rst]> ∅).
Definition ex_bs : tstate := ex_ts <| tsocks := ex_bsocks |>.
Lemma ex_tcp_bindings u b : bindings (tsocks ex_bs) !! u = Some b → u = 1%nat ∧ b = (INADDR_ANY, 10).
Proof.
  intros (T & i & HT & Hi & ->)%bindings_lookup. change (ex_bsocks !! u = Some T) in HT.
  map_cases HT; [done|]. done.
Qed.
Lemma ex_tcp_reg : reg_ok (tsocks ex_bs) (port_hash (tports_of ex_bs)).
Proof.
  split; [reflexivity| | |].
  - intros i l Hl. change ((<[10%nat := [1%nat]]> (replicate 64 []) : list (list nat)) !! i = Some l) in Hl.
    apply list_lookup_insert_Some in Hl as [(<- & <- & _)|(Hi & [-> _]%lookup_replicate)].
    + split; [apply NoDup_singleton|]. intros u. rewrite list_elem_of_singleton. split; [intros ->; by eexists|]. intros (T & HT & Hk).
      change (ex_bsocks !! u = Some T) in HT. map_cases HT; [done|]. done.
    + split; [constructor|]. intros u. split; [by intros ?%not_elem_of_nil|]. intros (T & HT & Hk).
      change (ex_bsocks !! u = Some T) in HT. map_cases HT; [by injection Hk as <-|done].
  - intros u T i HT Hk. change (ex_bsocks !! u = Some T) in HT. map_cases HT; [by injection Hk as <-|done].
  - intros u1 u2 b1 b2 [-> _]%ex_tcp_bindings [-> _]%ex_tcp_bindings _. done.
Qed.
Lemma rt_tcp_bind_witness :
  ∃ s' T', rt_tcp_bind 1 ex_own 20 16 ex_bs = Some (0, s') ∧ tsocks s' !! 1%nat = Some T' ∧ is_bound T' = true.
Proof.
  destruct (wp_elim _ _ _ (rt_tcp_bind_correct ex_bs 1 ex_closed ex_tso 10 ex_own 20 16 ex_tcp_reg eq_refl eq_refl eq_refl eq_refl))
    as (r & s' & E & T' & h' & -> & _ & _ & [(-> & _ & _ & Hb)|(_ & (u & b & Hu & [-> _]%ex_tcp_bindings & _) & _)]); [|done].
  eexists _, T'. split_and!; [exact E|reflexivity|exact Hb].
Defined.
